(* ===== verification/_CoqProject ===== *)
-Q . S2P
Prelude.v
Constants.v
Models.v
Queries.v
Permissions.v
RateLimit.v
Ban.v
Sealed.v
Sequencer.v
Message.v
Ingest.v
Wire.v
Verification.v
History.v
Epoch.v
Invites.v
InviteCodes.v
Session.v
Deferred.v
Live.v
Recovery.v
Media.v
Maintenance.v
Bootstrap.v
Roles.v
FedAuth.v
FedPush.v
Mirror.v
Metadata.v
Server.v
Requests.v
Channels.v
Operator.v
Discovery.v
Handshake.v
Upkeep.v
Inbound.v
Text.v
Files.v
Config.v
Seeds.v
Daemon.v
ClientDb.v
Client.v
ClientApp.v
ClientSteps.v
ClientTrust.v
ClientSync.v
ClientSend.v
