(* ===== verification/Prelude.v ===== *)
(** * A verification library for the Hokora messaging node

    Hokora is a federated chat node over the Reticulum network.  Clients send
    LXMF messages to a channel's destination; the node checks, numbers and
    stores them in a database and serves them over a request/response "sync"
    protocol; nodes push messages to each other over links with rotating keys.
    The library models the parts of [src/src/hokora] that decide what is
    stored, who may store or read it, in which order it is numbered, how it is
    framed and under which key it is sealed, and of the terminal client
    ([src/src/hokora_tui]) the parts that decide what it asks for, trusts,
    keeps and shows; and proves them correct.

    ** How the code is modelled

    A Python method that changes state is a computation [M S A] (this file): a
    function from a state to a result and the state it leaves, where the
    result is a value or an exception with its class.  As in Python the
    effects before an exception stay; [atomic] is a database transaction,
    which undoes its own.  A component's computations are run on a larger
    state with [lift].  [await] and locks are not modelled as interleaving:
    the modelled methods run one after the other, which is what the locks
    enforce for the ones that take them; the lock tables themselves are
    modelled where the code evicts from them.  [time.time()] and
    [os.urandom] are arguments ([now], [nonce], [fresh], ...).

    A [str] is its UTF-8 bytes; [bytes] are lists of integers; a dictionary is
    an association list in insertion order where the order matters ([dict]),
    a [gmap] where it does not; the untyped values of JSON columns and msgpack
    payloads are the type [val].  A float is a rational number: every finite
    double is one, and rounding is not modelled.  Log lines are left out, and
    messages of exceptions are shortened to their fixed part.

    Code that is not in the repository is an interface, with its documented
    behaviour as laws where a theorem needs it and a toy instance in the
    witnesses: SHA-256 and the decimal rendering of floats ([Hashing]), the
    dirty test of an ORM JSON column ([OrmJson]), AES-GCM and XChaCha20 ([Aead]), encryption
    to the node's identity ([Envelope]), msgpack ([Msgpack]), Ed25519
    ([Ed25519], [Signing]), X25519 and HKDF ([KeyExchange]), RNS identity
    hashes ([RnsIdentity]), encryption to a recalled peer ([PeerKeys]), the
    size of a link packet ([LinkMdu]), identity files ([IdentityFile]), JSON
    ([Json]), RNS configuration files ([ConfigObj]), validation of
    configuration fields ([Pydantic]), the FTS index, RNS links, paths and
    recall (arguments; [Net] in the client).

    ** The files

    - [Prelude.v]: floats, exceptions, the monad with its rules ([mrel], the
      database [hok]) and tactics ([minv], [mrel_auto], [flra]), strings,
      bytes and big-endian integers, hexadecimal, values, dictionaries,
      [ORDER BY] and [LIMIT].
    - [Constants.v]: [constants.py].
    - [Models.v]: [db/models.py], a record per table and [DB].
    - [Queries.v]: [db/queries.py], a module per repository class.
    - [Permissions.v]: [security/permissions.py].  The loop over roles and
      overrides implements a per-bit specification, in any order of the rows.
    - [RateLimit.v]: [security/ratelimit.py].  What a bucket grants over a
      period, spacing under slowmode, bounded tables.
    - [Ban.v]: [security/ban.py].  A ban closes the gate; the owner is never
      banned.
    - [Sealed.v]: [security/sealed.py], [sealed_invariant.py].  Sealing fails
      closed; five rotations of grace for old messages.
    - [Sequencer.v]: [core/sequencer.py].  Consecutive numbers under any
      interleaving of channels; held locks are not evicted.
    - [Message.v]: [core/message.py] and the transaction of
      [core/lxmf_ingestor.py]: the ingestion pipeline.
    - [Ingest.v]: its theorems.  The database invariant [db_ok] after any run,
      authorisation of accepted messages, isolation of channels (but for the
      counters of threads), idempotence, and two places where the code does less than its comments say.
    - [Wire.v]: [protocol/wire.py].  Framing is exact; requests round-trip.
    - [Verification.v]: [security/verification.py].  Replayed nonces.
    - [History.v]: [protocol/sync_utils.py], [protocol/handlers/history.py].
      Paging returns every row once and ends; who may read; limits; search
      patterns match literally.
    - [Epoch.v]: [federation/epoch_wire.py], [epoch_crypto.py],
      [epoch_manager.py].  Frames round-trip; a handshake leaves both sides
      able to talk; nonces are distinct within an epoch; what a lost
      acknowledgement and a crash do.
    - [Invites.v]: [security/invites.py].  Uses are bounded; what a redemption
      grants.
    - [InviteCodes.v]: [security/invite_codes.py].  Round trip; the checksum
      detects a corrupted byte.
    - [Session.v]: [protocol/session.py], [protocol/handlers/session.py], and
      the default session of [core/daemon.py].  One active session per
      identity; what opening and resuming do; who is served a sealed key; who
      creates invites.
    - [Deferred.v]: deferral (History.v) followed by a resume (Session.v)
      delivers the newest items in order.
    - [Live.v]: [protocol/live.py], [protocol/zombie_link_buffer.py] and the
      subscription handlers.  Subscribers, batches and replay buffers stay
      bounded; who may subscribe; what sealed rows look like on the wire.
    - [Recovery.v]: the defer hook of [core/daemon.py].  Pushes into a dead
      link reach the client that resumes.
    - [Media.v]: [media/storage.py], [media/transfer.py], the media handler
      and the whole of [core/lxmf_ingestor.py].  Quotas, when an upload is
      accepted, and what is left of a refused message.
    - [Maintenance.v]: [db/maintenance.py] and the transaction that runs it.
      The loops end and remove what they select; the database invariant is
      kept; what a thread root, a channel's retention and a media path do.
    - [Bootstrap.v]: [core/sealed_bootstrap.py].  Keys that decrypt survive
      restarts, and what becomes of the others; what the purge of plaintext
      leaves.
    - [Roles.v]: [security/roles.py], distribution of sealed keys
      ([security/sealed.py]), [role assign] and [role revoke] ([cli/role.py]),
      the drain of queued grants ([federation/peering.py]) and the rotation of
      stale keys ([core/maintenance_scheduler.py]).
    - [FedAuth.v]: [federation/auth.py] and the handshake handler.  What binds
      a relayed sender, and how a peer becomes trusted.
    - [FedPush.v]: [federation/pusher.py], [federation/mirror_ingestor.py] and
      the push handler.  What is stored of a batch, that it is idempotent and
      that what is sent arrives; where cursor and acknowledgement disagree.
    - [Mirror.v]: [federation/mirror.py], [core/mirror_manager.py] and the
      mirrors of [core/daemon.py].  The life cycle of a link as a step
      relation; paging a remote's history ends with all that its pages show,
      unless a whole page is thread replies, when it may never end.
    - [Metadata.v]: [protocol/handlers/metadata.py].  Which channels are
      listed, and that following the pages of a member list gives all of it.
    - [Server.v]: [protocol/sync.py], [protocol/handlers/transport.py],
      [protocol/link_manager.py] and [HokoraDaemon._handle_sync_request]: one
      state for all handlers, dispatch, transaction, and packets.
    - [Requests.v]: its theorems, over all actions at once.  Which tables a
      request can change; the database stays well formed under any requests;
      replays are refused; a packet is answered at most once, and exactly once
      when its handler is in time and RNS takes the answer.
    - [Channels.v]: [core/channel.py], [core/identity.py], [core/announce.py]
      and the part of [HokoraDaemon.start] that loads the channels.  Identities
      are for good; what a start serves.
    - [Operator.v]: the commands of [cli/channel.py], [cli/ban.py],
      [cli/invite.py], [cli/mirror.py] and [cli/role.py] that change state.
      A sealed channel can be written to at once; what an override changes;
      and what some commands undo or leave behind.
    - [Discovery.v]: [federation/peering.py], [federation/key_rotation.py],
      [federation/channel_rotation_auth.py] and [rotate-rns-key].  What an
      announce can change, when a rotation is followed by another node, which
      depends on what RNS recalls under an identity hash, and that the rotated
      identity is the one that is served.
    - [Handshake.v]: [federation/handshake_orchestrator.py],
      [federation/epoch_orchestrator.py], the initiating side of
      [federation/auth.py] and the rotation turn of
      [core/maintenance_scheduler.py].  A handshake between two honest nodes
      completes, under a rate limit and with forward secrecy on or off; which
      key a peer must show before it is recorded; a rotation after the first is
      refused.
    - [Upkeep.v]: [MaintenanceScheduler.run_maintenance], over the state of all
      of these.  A run keeps the node well formed and adds no message; one
      thread that has passed its time stops everything a run does.
    - [Inbound.v]: [security/lxmf_inbound.py] and [protocol/lxmf_bridge.py].
      What reaches the ingestor was signed by the sender it names; a message
      from an unknown sender is recovered or dropped in a bounded number of
      polls; path requests are paced.
    - [Text.v]: the parts of Python's text handling that the next three files
      use: [int] and [str] of an integer, [strip], [split], universal newlines.
    - [Files.v]: [security/fs.py] and [core/pid_file.py], on a file system whose
      operations may fail.  What a client directory looks like after it is
      secured; the mode of an atomic write (an example, as for a PID file that is
      written and read back).
    - [Config.v]: [config.py], [security/db_key.py], [db/engine.py] and
      [db migrate-key] ([cli/db.py]).  What a configuration that loads
      satisfies, under which key the database is opened, and that moving the
      key to a file never loses it.
    - [Seeds.v]: [security/rns_config.py], [cli/seed.py] and
      [config validate-rns].  The seed interfaces of an RNS configuration: a
      change is listed, a refused one leaves the file as it was, addresses
      round-trip.
    - [Daemon.v]: [core/service_registry.py], [core/heartbeat.py], the
      maintenance loop and [stop] of [core/daemon.py].  All services are torn
      down in order; the heartbeat stops when the loop does, and not when
      maintenance fails.
    - [ClientDb.v]: [hokora_tui/client_db], a module per store.  A cached
      message can be loaded and stored again without changing.
    - [Client.v]: [hokora_tui/sync], [sync_engine.py] and
      [security/sealed_render.py]: links, requests, answers, pins, sessions.
    - [ClientApp.v]: [commands/sync_callbacks.py], [event_dispatcher.py], the
      link callbacks and the reconnection scheduler; updates of the main loop
      are a queue.
    - [ClientSteps.v]: a class of relations that every packet and every update
      of the client keeps.
    - [ClientTrust.v]: pinned keys are for good; what is marked verified; what
      a sealed message is rendered as.
    - [ClientSync.v]: the client against the node's history handler, a client
      that was disconnected, one that comes back; and where connections and
      messages get lost.
    - [ClientSend.v]: [sync/rich_message_client.py], [sync/media_client.py],
      [sync/dm_router.py], [widgets/compose_box.py] and the direct messages of
      [views/conversations_view.py].  What is typed reaches the channel it was
      typed in; a direct message arrives in the conversation with its sender;
      downloads stay in their directory.

    ** Bounds and fuel

    The definitions that model code are structurally recursive or folds, except
    the batch loops of Maintenance.v: [prune_terminates] shows that one round
    per 500 rows and one more is enough.  [History.pages],
    [Metadata.member_pages] and [Mirror.mirror_sync], clients that follow pages, have fuel, and their
    theorems show that one more than the number of rows is enough.  [ClientSync.rounds] counts the
    client's requests, and as many as there are rows to show are enough.  [ClientApp._on_packet] is given the
    depth to which batches may nest, as far as the interpreter's stack goes;
    its theorems hold for every depth.
    The bounds in statements are the code's own (limits of Constants.v, five
    previous keys, a 16-bit frame length, 64-bit counters).

    ** What is not modelled

    Of the node: the rotation timer itself (its turns are), image thumbnails,
    the wiring of the daemon's start-up, the FTS index, the metrics and the
    observability listener, log filters, and the commands that manage
    processes, migrations and backups ([init], [daemon], [seed apply], [db]
    apart from [migrate-key]): I/O around the modelled operations.  Of the
    client: its widgets and status lines and the migration of its schema.  Of a
    request handler that takes longer than the link manager's thirty seconds
    the effects count as if it had finished; that other work may run in between
    is not modelled, nor is the interpolation of ConfigObj. *)

From stdpp Require Export base gmap strings list sorting.
From Stdlib Require QArith_base Qminmax Lqa.

Open Scope Z_scope.
Open Scope list_scope.

(** ** Floats

    A Python [float] is an exact rational: every finite double is one, and
    the rounding of arithmetic on doubles is not modelled. *)

Abbreviation float := QArith_base.Q.

Declare Scope float_scope.
Delimit Scope float_scope with F.
Bind Scope float_scope with QArith_base.Q.

Definition fz (z : Z) : float := QArith_base.inject_Z z.
Definition fle (a b : float) : bool := QArith_base.Qle_bool a b.
Definition flt (a b : float) : bool := negb (QArith_base.Qle_bool b a).
Definition fmin (a b : float) : float := if fle a b then a else b.
Definition fmax (a b : float) : float := if fle a b then b else a.
Definition fabs (a : float) : float := if fle (fz 0) a then a else QArith_base.Qopp a.

Infix "+" := QArith_base.Qplus : float_scope.
Infix "-" := QArith_base.Qminus : float_scope.
Infix "*" := QArith_base.Qmult : float_scope.
Infix "<?" := flt : float_scope.
Infix "<=?" := fle : float_scope.
Infix "<" := QArith_base.Qlt : float_scope.
Infix "<=" := QArith_base.Qle : float_scope.
Infix "==" := QArith_base.Qeq (at level 70, no associativity) : float_scope.

Lemma fle_true a b : fle a b = true ↔ (a <= b)%F.
Proof. apply QArith_base.Qle_bool_iff. Qed.

Lemma flt_true a b : flt a b = true ↔ (a < b)%F.
Proof.
  unfold flt. rewrite negb_true_iff, <- not_true_iff_false, QArith_base.Qle_bool_iff.
  split; [apply QArith_base.Qnot_le_lt | apply QArith_base.Qlt_not_le].
Qed.

Lemma fle_false a b : fle a b = false ↔ (b < a)%F.
Proof. rewrite <- flt_true. unfold flt, fle. by destruct (QArith_base.Qle_bool a b). Qed.

Lemma flt_false a b : flt a b = false ↔ (b <= a)%F.
Proof. rewrite <- fle_true. unfold flt, fle. by destruct (QArith_base.Qle_bool b a). Qed.

Lemma fz_le a b : (fz a <= fz b)%F ↔ a ≤ b.
Proof. unfold fz. by rewrite <- QArith_base.Zle_Qle. Qed.

Lemma fz_lt a b : (fz a < fz b)%F ↔ a < b.
Proof. unfold fz. by rewrite <- QArith_base.Zlt_Qlt. Qed.

(** Turns the boolean comparisons of the context and of the goal into
    (in)equalities on rationals, then decides them. *)
Ltac fsimp :=
  repeat match goal with
  | H : flt _ _ = true |- _ => apply flt_true in H
  | H : flt _ _ = false |- _ => apply flt_false in H
  | H : fle _ _ = true |- _ => apply fle_true in H
  | H : fle _ _ = false |- _ => apply fle_false in H
  | |- flt _ _ = true => apply flt_true
  | |- flt _ _ = false => apply flt_false
  | |- fle _ _ = true => apply fle_true
  | |- fle _ _ = false => apply fle_false
  end.
Ltac flra := fsimp; unfold fmin, fmax in *;
  repeat match goal with
  | |- context [if fle ?a ?b then _ else _] => destruct (fle a b) eqn:?
  | H : context [if fle ?a ?b then _ else _] |- _ => destruct (fle a b) eqn:?
  end; fsimp; Lqa.lra.

(** ** Exceptions and results

    The classes of [hokora.exceptions] that the modelled code raises, and the
    ones of the standard library and of the database layer it lets through. *)

Inductive exn_class :=
  | ConfigError | IdentityError | ChannelError | MessageError
  | VerificationError | PermissionDenied | RateLimitExceeded | SyncError
  | InviteError | MediaError | FederationError | SealedChannelError
  | SealedKeyDistributionDeferred | EpochError | BanError
  | ValueError | KeyError | TypeError | AttributeError | RuntimeError | OverflowError
  | IntegrityError | NoResultFound | MultipleResultsFound | CryptoError
  | FileNotFoundError | BadParameter | OSError | AssertionError
  | SeedConfigError | SeedNotFound | DuplicateSeed | InvalidSeed | UsageError | ClickException.

#[export] Instance exn_class_eq_dec : EqDecision exn_class.
Proof. solve_decision. Defined.

Record exn := Exn { exn_cls : exn_class; exn_msg : string }.

#[export] Instance exn_eq_dec : EqDecision exn.
Proof. solve_decision. Defined.

Inductive res (A : Type) :=
  | Ok (a : A)
  | Raise (e : exn).
Arguments Ok {A} _.
Arguments Raise {A} _.

Definition is_ok {A} (r : res A) : bool := match r with Ok _ => true | Raise _ => false end.

(** ** Stateful computations that may raise

    A computation over a state [S] gives a result and the state it leaves.
    As in Python, the effects made before an exception stay; a database
    transaction undoes its own ([atomic] below). *)

Definition M (S A : Type) : Type := S → res A * S.

Section monad.
Context {S : Type}.

Definition ret {A} (a : A) : M S A := λ s, (Ok a, s).
Definition raise {A} (c : exn_class) (msg : string) : M S A := λ s, (Raise (Exn c msg), s).
Definition throw {A} (e : exn) : M S A := λ s, (Raise e, s).
Definition bind {A B} (m : M S A) (k : A → M S B) : M S B := λ s,
  match m s with
  | (Ok a, s') => k a s'
  | (Raise e, s') => (Raise e, s')
  end.
Definition get : M S S := λ s, (Ok s, s).
Definition gets {A} (f : S → A) : M S A := λ s, (Ok (f s), s).
Definition modify (f : S → S) : M S unit := λ s, (Ok tt, f s).
Definition of_res {A} (r : res A) : M S A := λ s, (r, s).
Definition mmap {A B} (f : A → B) (m : M S A) : M S B := bind m (λ a, ret (f a)).
Definition when (b : bool) (m : M S unit) : M S unit := if b then m else ret tt.

(** [try: m except: h]. *)
Definition catch {A} (m : M S A) (h : exn → M S A) : M S A := λ s,
  match m s with
  | (Ok a, s') => (Ok a, s')
  | (Raise e, s') => h e s'
  end.

(** A [for] loop over a list with an accumulator. *)
Fixpoint mfold {A B} (f : B → A → M S B) (b : B) (l : list A) : M S B :=
  match l with
  | [] => ret b
  | a :: l => bind (f b a) (λ b', mfold f b' l)
  end.

(** [async with session.begin()]: when the block raises, [undo s0 s1]
    gives the state with the part the transaction owns restored. *)
Definition atomic {A} (undo : S → S → S) (m : M S A) : M S A := λ s,
  match m s with
  | (Ok a, s') => (Ok a, s')
  | (Raise e, s') => (Raise e, undo s s')
  end.

(** A computation on a component [C] of the state. *)
Definition lift {C A} (getc : S → C) (setc : C → S → S) (m : M C A) : M S A := λ s,
  let (r, c) := m (getc s) in (r, setc c s).
End monad.

Declare Scope hok_scope.
Delimit Scope hok_scope with hok.
Notation "'let!' x ':=' m 'in' k" := (bind m (λ x, k))
  (at level 10, x pattern, m at level 200, k at level 200,
   format "'let!'  x  ':='  m  'in' '//' k") : hok_scope.
Notation "m ;; k" := (bind m (λ _, k))
  (at level 100, k at level 200, right associativity,
   format "m  ;; '//' k") : hok_scope.
Open Scope hok_scope.

(** *** Reasoning about computations

    [mrel R m]: the state after [m], whether it returns or raises, is related
    to the state before it.  With [R s s' := I s → I s'] it says that [m]
    preserves the invariant [I]; with an order, that [m] only grows it. *)

Definition mrel {S A} (R : S → S → Prop) (m : M S A) : Prop := ∀ s, R s (m s).2.

Definition keeps {S} (I : S → Prop) : S → S → Prop := λ s s', I s → I s'.

#[export] Instance keeps_preorder {S} (I : S → Prop) : PreOrder (keeps I).
Proof. split; [by intros s H | intros s1 s2 s3 H1 H2 H; auto]. Qed.

Section mrel.
Context {S : Type} (R : S → S → Prop) `{!PreOrder R}.

Lemma mrel_ret {A} (a : A) : mrel R (ret a).
Proof. by intros s. Qed.
Lemma mrel_raise {A} c m : mrel R (raise (A:=A) c m).
Proof. by intros s. Qed.
Lemma mrel_throw {A} e : mrel R (throw (A:=A) e).
Proof. by intros s. Qed.
Lemma mrel_gets {A} (f : S → A) : mrel R (gets f).
Proof. by intros s. Qed.
Lemma mrel_get : mrel R get.
Proof. by intros s. Qed.
Lemma mrel_of_res {A} (r : res A) : mrel R (of_res r).
Proof. by intros s. Qed.
Lemma mrel_modify (f : S → S) : (∀ s, R s (f s)) → mrel R (modify f).
Proof. by intros H s. Qed.
Lemma mrel_bind {A B} (m : M S A) (k : A → M S B) :
  mrel R m → (∀ a, mrel R (k a)) → mrel R (bind m k).
Proof.
  intros Hm Hk s. unfold bind. specialize (Hm s).
  destruct (m s) as [[a|e] s']; simpl in *; [|done]. etrans; [done|apply Hk].
Qed.
Lemma mrel_mmap {A B} (f : A → B) (m : M S A) : mrel R m → mrel R (mmap f m).
Proof. intros Hm. apply mrel_bind; [done|]. intros a. apply mrel_ret. Qed.
Lemma mrel_when b m : mrel R m → mrel R (when b m).
Proof. destruct b; [done|]. intros _. apply mrel_ret. Qed.
Lemma mrel_if {A} (b : bool) (m1 m2 : M S A) :
  mrel R m1 → mrel R m2 → mrel R (if b then m1 else m2).
Proof. by destruct b. Qed.
Lemma mrel_mfold {A B} (f : B → A → M S B) l :
  (∀ b a, mrel R (f b a)) → ∀ b, mrel R (mfold f b l).
Proof.
  intros Hf. induction l as [|a l IH]; intros b; simpl; [apply mrel_ret|].
  apply mrel_bind; auto.
Qed.
Lemma mrel_catch {A} (m : M S A) h :
  mrel R m → (∀ e, mrel R (h e)) → mrel R (catch m h).
Proof.
  intros Hm Hh s. unfold catch. specialize (Hm s).
  destruct (m s) as [[a|e] s']; simpl in *; [done|]. etrans; [done|apply Hh].
Qed.
Lemma mrel_lift {C A} (Rc : C → C → Prop) (getc : S → C) setc (m : M C A) :
  mrel Rc m → (∀ s c, Rc (getc s) c → R s (setc c s)) → mrel R (lift getc setc m).
Proof.
  intros Hm HR s. unfold lift. specialize (Hm (getc s)).
  destruct (m (getc s)) as [r c]; simpl in *; auto.
Qed.
End mrel.

Lemma mrel_ok {S A} (R : S → S → Prop) (m : M S A) s r s' : mrel R m → m s = (r, s') → R s s'.
Proof. intros H E. specialize (H s). by rewrite E in H. Qed.

(** [try: m except: pass], perhaps: it returns, by steps of [m]. *)
Lemma swallow_run {S} (R : S → S → Prop) `{!PreOrder R} b (m : M S unit) s : mrel R m →
  ∃ s', when b (catch m (λ _, ret tt)) s = (Ok tt, s') ∧ R s s'.
Proof.
  intros Hm. unfold when, catch. destruct b; [|by exists s]. specialize (Hm s).
  destruct (m s) as [[[]|e] s']; by exists s'.
Qed.

Lemma bind_ok {S A B} (m : M S A) (k : A → M S B) s b s' :
  bind m k s = (Ok b, s') ↔ ∃ a s1, m s = (Ok a, s1) ∧ k a s1 = (Ok b, s').
Proof.
  unfold bind. split.
  - destruct (m s) as [[a|e] s1]; [eauto|done].
  - intros (a & s1 & -> & H). done.
Qed.

Lemma bind_run_ok {S A B} (m : M S A) (k : A → M S B) s a s1 :
  m s = (Ok a, s1) → bind m k s = k a s1.
Proof. unfold bind. by intros ->. Qed.

Lemma bind_run_raise {S A B} (m : M S A) (k : A → M S B) s e s1 :
  m s = (Raise e, s1) → bind m k s = (Raise e, s1).
Proof. unfold bind. by intros ->. Qed.

Lemma lift_ok {S C A} (getc : S → C) setc (m : M C A) s a s' :
  lift getc setc m s = (Ok a, s') ↔ ∃ c, m (getc s) = (Ok a, c) ∧ s' = setc c s.
Proof.
  unfold lift. destruct (m (getc s)) as [r c]. split.
  - intros [= -> <-]. eauto.
  - intros (c' & [= -> ->] & ->). done.
Qed.

(** A loop whose steps, on the elements of the list, are related when they succeed. *)
Lemma mfold_ok_rel {S A B} (R : S → S → Prop) `{!PreOrder R} (f : B → A → M S B) (l : list A) :
  (∀ b a s b' s', a ∈ l → f b a s = (Ok b', s') → R s s') →
  ∀ b s b' s', mfold f b l s = (Ok b', s') → R s s'.
Proof.
  induction l as [|a l IH]; intros Hf b s b' s'; simpl; [by intros [= _ <-]|].
  intros (b1 & s1 & H1 & H2)%bind_ok. trans s1; [eapply Hf; [left|done]|].
  eapply IH; [|done]. intros c x t c' t' Hx. apply Hf. by right.
Qed.

(** Inverts a successful run in the context, one bind at a time, and closes
    the branches that cannot succeed. *)
Ltac munfold H :=
  unfold ret, raise, throw, gets, get, modify, of_res, when in H; simpl in H.
Ltac minv_step :=
  match goal with
  | H : bind _ _ _ = (Ok _, _) |- _ =>
      let a := fresh "a" in let s := fresh "s" in let H1 := fresh "H" in let H2 := fresh "H" in
      apply bind_ok in H as (a & s & H1 & H2)
  | H : mmap _ _ _ = (Ok _, _) |- _ => unfold mmap in H
  | H : ret _ _ = (_, _) |- _ => unfold ret in H; simplify_eq
  | H : raise _ _ _ = (Ok _, _) |- _ => discriminate H
  | H : throw _ _ = (Ok _, _) |- _ => discriminate H
  | H : gets _ _ = (_, _) |- _ => unfold gets in H; simplify_eq
  | H : get _ = (_, _) |- _ => unfold get in H; simplify_eq
  | H : modify _ _ = (_, _) |- _ => unfold modify in H; simplify_eq
  | H : of_res ?r _ = (Ok _, _) |- _ => unfold of_res in H; simplify_eq
  | H : lift _ _ _ _ = (Ok _, _) |- _ =>
      let c := fresh "c" in let H1 := fresh "H" in
      apply lift_ok in H as (c & H1 & ->)
  | H : when ?b _ _ = (Ok _, _) |- _ => unfold when in H
  | H : (if ?b then _ else _) _ = (Ok _, _) |- _ => destruct b eqn:?
  | H : (match ?o with Some _ => _ | None => _ end) _ = (Ok _, _) |- _ => destruct o eqn:?
  end.
Ltac minv := repeat minv_step.

Create HintDb hok.
#[export] Hint Resolve mrel_ret mrel_raise mrel_throw mrel_gets mrel_get mrel_of_res
  mrel_modify mrel_bind mrel_mmap mrel_when mrel_if mrel_mfold mrel_catch : hok.

(** Decomposes [mrel R m] along the structure of [m]. *)
Ltac mrel_step :=
  match goal with
  | |- mrel _ (bind _ _) => apply mrel_bind; [try typeclasses eauto| |intros ?]
  | |- mrel _ (mmap _ _) => apply mrel_mmap; [try typeclasses eauto|]
  | |- mrel _ (ret _) => apply mrel_ret; try typeclasses eauto
  | |- mrel _ (raise _ _) => apply mrel_raise; try typeclasses eauto
  | |- mrel _ (throw _) => apply mrel_throw; try typeclasses eauto
  | |- mrel _ (gets _) => apply mrel_gets; try typeclasses eauto
  | |- mrel _ get => apply mrel_get; try typeclasses eauto
  | |- mrel _ (of_res _) => apply mrel_of_res; try typeclasses eauto
  | |- mrel _ (when _ _) => apply mrel_when; [try typeclasses eauto|]
  | |- mrel _ (if ?b then _ else _) => destruct b eqn:?
  | |- mrel _ (match ?x with _ => _ end) => destruct x eqn:?
  end.
Ltac mrel_auto := repeat mrel_step; eauto with hok.

(** ** Python strings

    A [str] is its UTF-8 encoding; [len] and slicing count code points, the
    bytes that are not continuation bytes. *)

Definition is_cont (c : Ascii.ascii) : bool :=
  match c with Ascii.Ascii _ _ _ _ _ _ b6 b7 => b7 && negb b6 end.

Fixpoint py_len (s : string) : Z :=
  match s with
  | EmptyString => 0
  | String c s => (if is_cont c then 0 else 1) + py_len s
  end.

(** [s[:n]] *)
Fixpoint py_take (n : Z) (s : string) : string :=
  match s with
  | EmptyString => EmptyString
  | String c s' =>
      if is_cont c then String c (py_take n s')
      else if n <=? 0 then EmptyString
      else String c (py_take (n - 1) s')
  end.

(** [len(s.encode("utf-8"))] *)
Definition utf8_len (s : string) : Z := Z.of_nat (String.length s).

Lemma py_len_nonneg s : 0 ≤ py_len s.
Proof. induction s as [|c s IH]; simpl; [lia|]. destruct (is_cont c); lia. Qed.

Lemma py_take_len n s : 0 ≤ n → py_len (py_take n s) ≤ n.
Proof.
  revert n. induction s as [|c s IH]; intros n Hn; simpl; [lia|].
  destruct (is_cont c) eqn:Hc; simpl.
  - rewrite Hc. specialize (IH n Hn). lia.
  - destruct (Z.leb_spec n 0); simpl; [lia|]. rewrite Hc. specialize (IH (n - 1)). lia.
Qed.

Lemma py_take_id n s : py_len s ≤ n → py_take n s = s.
Proof.
  revert n. induction s as [|c s IH]; intros n Hn; simpl in *; [done|].
  pose proof (py_len_nonneg s).
  destruct (is_cont c); [f_equal; apply IH; lia|].
  destruct (Z.leb_spec n 0); [lia|]. f_equal. apply IH. lia.
Qed.

(** Truth values: a [str] or a container is true when it is not empty, an
    optional value when it is present and true. *)
Definition str_true (s : string) : bool := negb (bool_decide (s = EmptyString)).
Definition ostr_true (o : option string) : bool :=
  match o with Some s => str_true s | None => false end.
Definition list_true {A} (l : list A) : bool := match l with [] => false | _ => true end.
Definition olist_true {A} (o : option (list A)) : bool :=
  match o with Some l => list_true l | None => false end.
(** [x or ""] *)
Definition or_empty (o : option string) : string := default EmptyString o.
(** [s or None] *)
Definition or_none (s : string) : option string := if str_true s then Some s else None.

Lemma str_true_iff s : str_true s = true ↔ s ≠ EmptyString.
Proof. unfold str_true. rewrite negb_true_iff. apply bool_decide_eq_false. Qed.

(** Lists: [len], [l[:n]] and [l[-n:]]. *)
Definition zlen {A} (l : list A) : Z := Z.of_nat (length l).
Definition ztake {A} (n : Z) (l : list A) : list A := take (Z.to_nat n) l.
Definition zlast {A} (n : Z) (l : list A) : list A := drop (length l - Z.to_nat n) l.

Lemma zlen_nonneg {A} (l : list A) : 0 ≤ zlen l.
Proof. unfold zlen. lia. Qed.
Lemma zlen_app {A} (l k : list A) : zlen (l ++ k) = zlen l + zlen k.
Proof. unfold zlen. rewrite length_app. lia. Qed.
Lemma zlen_cons {A} (a : A) l : zlen (a :: l) = 1 + zlen l.
Proof. unfold zlen. simpl. lia. Qed.
Lemma zlen_nil {A} : zlen (@nil A) = 0.
Proof. done. Qed.
Lemma zlen_ztake {A} n (l : list A) : 0 ≤ n → zlen (ztake n l) ≤ n.
Proof. intros. unfold zlen, ztake. rewrite length_take. lia. Qed.
Lemma zlen_zlast {A} n (l : list A) : 0 ≤ n → zlen (zlast n l) = Z.min n (zlen l).
Proof. intros. unfold zlen, zlast. rewrite length_drop. lia. Qed.

(** ** Bytes and big-endian integers ([struct.pack] with [">B"], [">H"], [">I"], [">Q"]) *)

Abbreviation bytes := (list Z).
Definition byte_ok (b : Z) : Prop := 0 ≤ b < 256.
Abbreviation bytes_ok := (Forall byte_ok).

Fixpoint be_pack (n : nat) (z : Z) : bytes :=
  match n with
  | O => []
  | S n => (z / 256 ^ Z.of_nat n) mod 256 :: be_pack n z
  end.

Fixpoint be_unpack (bs : bytes) : Z :=
  match bs with
  | [] => 0
  | b :: bs => b * 256 ^ Z.of_nat (length bs) + be_unpack bs
  end.

Lemma length_be_pack n z : length (be_pack n z) = n.
Proof. induction n; simpl; auto. Qed.

Lemma zlen_be_pack n z : zlen (be_pack n z) = Z.of_nat n.
Proof. unfold zlen. by rewrite length_be_pack. Qed.

Lemma be_pack_ok n z : bytes_ok (be_pack n z).
Proof. induction n; simpl; constructor; auto. apply Z.mod_pos_bound. lia. Qed.

Lemma be_unpack_pack n z : be_unpack (be_pack n z) = z mod 256 ^ Z.of_nat n.
Proof.
  induction n as [|n IH]; [by rewrite Z.mod_1_r|].
  cbn [be_pack be_unpack]. rewrite length_be_pack, IH, Nat2Z.inj_succ, Z.pow_succ_r by lia.
  rewrite (Z.mul_comm 256), Z.rem_mul_r by lia. lia.
Qed.

Lemma be_unpack_pack_id n z : 0 ≤ z < 256 ^ Z.of_nat n → be_unpack (be_pack n z) = z.
Proof. intros. rewrite be_unpack_pack. by apply Z.mod_small. Qed.

Lemma be_unpack_bound bs : bytes_ok bs → 0 ≤ be_unpack bs < 256 ^ zlen bs.
Proof.
  unfold zlen. induction 1 as [|b bs [Hb1 Hb2] Hbs IH]; cbn [be_unpack length]; [lia|].
  rewrite Nat2Z.inj_succ, Z.pow_succ_r by lia. nia.
Qed.

Lemma be_pack_inj n a b :
  0 ≤ a < 256 ^ Z.of_nat n → 0 ≤ b < 256 ^ Z.of_nat n → be_pack n a = be_pack n b → a = b.
Proof.
  intros Ha Hb H. rewrite <- (be_unpack_pack_id n a Ha), H. by apply be_unpack_pack_id.
Qed.

Definition str_bytes (s : string) : bytes :=
  map (λ c, Z.of_N (Ascii.N_of_ascii c)) (String.list_ascii_of_string s).

Definition bytes_str (b : bytes) : string :=
  String.string_of_list_ascii (map (λ z, Ascii.ascii_of_N (Z.to_N z)) b).

Lemma str_bytes_str b : bytes_ok b → str_bytes (bytes_str b) = b.
Proof.
  unfold str_bytes, bytes_str. rewrite String.list_ascii_of_string_of_list_ascii, map_map. intros Hb.
  induction Hb as [|z b [H0 H1] Hb IH]; simpl; [done|]. rewrite Ascii.N_ascii_embedding by lia. by rewrite Z2N.id, IH by lia.
Qed.

Lemma bytes_str_bytes s : bytes_str (str_bytes s) = s.
Proof.
  unfold bytes_str, str_bytes. rewrite map_map.
  rewrite <- (String.string_of_list_ascii_of_string s) at 2. f_equal.
  induction (String.list_ascii_of_string s) as [|c l IH]; simpl; [done|].
  by rewrite IH, N2Z.id, Ascii.ascii_N_embedding.
Qed.

(** [b.decode("utf-8")]: well-formed UTF-8 (no overlong form, no surrogate,
    at most U+10FFFF) or an error. *)
Definition is_cb (b : Z) : bool := (0x80 <=? b) && (b <=? 0xBF).
Fixpoint utf8_valid (bs : bytes) : bool :=
  match bs with
  | [] => true
  | b :: r =>
      if b <=? 0x7F then utf8_valid r
      else if (0xC2 <=? b) && (b <=? 0xDF) then
        match r with c :: r => is_cb c && utf8_valid r | _ => false end
      else if (0xE0 <=? b) && (b <=? 0xEF) then
        match r with
        | c :: d :: r => is_cb c && is_cb d && (negb (b =? 0xE0) || (0xA0 <=? c))
                         && (negb (b =? 0xED) || (c <=? 0x9F)) && utf8_valid r
        | _ => false
        end
      else if (0xF0 <=? b) && (b <=? 0xF4) then
        match r with
        | c :: d :: e :: r => is_cb c && is_cb d && is_cb e && (negb (b =? 0xF0) || (0x90 <=? c))
                              && (negb (b =? 0xF4) || (c <=? 0x8F)) && utf8_valid r
        | _ => false
        end
      else false
  end.
Definition utf8_decode (b : bytes) : option string :=
  if utf8_valid b then Some (bytes_str b) else None.

(** ** Untyped values: what JSON columns and msgpack payloads hold *)

#[warnings="-register-all"]
Inductive val :=
  | VNone
  | VBool (b : bool)
  | VInt (z : Z)
  | VFloat (f : float)
  | VStr (s : string)
  | VBytes (b : bytes)
  | VList (l : list val)
  | VDict (d : list (string * val)).

Definition val_of_ostr (o : option string) : val :=
  match o with Some s => VStr s | None => VNone end.

(** ** Python dictionaries whose order matters

    An association list in insertion order: assignment to a present key
    keeps its place, a new key goes last. *)

Section dict.
Context {K V : Type} `{EqDecision K}.

Fixpoint dict_get (k : K) (d : list (K * V)) : option V :=
  match d with
  | [] => None
  | (k', v) :: d => if decide (k = k') then Some v else dict_get k d
  end.

Definition dict_has (k : K) (d : list (K * V)) : bool :=
  match dict_get k d with Some _ => true | None => false end.

Fixpoint dict_set (k : K) (v : V) (d : list (K * V)) : list (K * V) :=
  match d with
  | [] => [(k, v)]
  | (k', v') :: d => if decide (k = k') then (k', v) :: d else (k', v') :: dict_set k v d
  end.

Definition dict_del (k : K) (d : list (K * V)) : list (K * V) :=
  filter (λ p, p.1 ≠ k) d.

Definition dict_keys (d : list (K * V)) : list K := d.*1.

Lemma dict_get_set k k' v d :
  dict_get k' (dict_set k v d) = if decide (k' = k) then Some v else dict_get k' d.
Proof.
  induction d as [|[k0 v0] d IH]; simpl; [done|].
  destruct (decide (k = k0)) as [->|]; simpl.
  - by destruct (decide (k' = k0)).
  - destruct (decide (k' = k0)) as [->|]; [by rewrite decide_False|done].
Qed.

Lemma dict_get_set_eq k v d : dict_get k (dict_set k v d) = Some v.
Proof. rewrite dict_get_set. by rewrite decide_True. Qed.

Lemma dict_get_set_ne k k' v d : k' ≠ k → dict_get k' (dict_set k v d) = dict_get k' d.
Proof. intros. rewrite dict_get_set. by rewrite decide_False. Qed.

Lemma elem_of_dict_set k v d k' v' : (k', v') ∈ dict_set k v d → (k', v') = (k, v) ∨ (k', v') ∈ d.
Proof.
  induction d as [|[k0 v0] d IH]; simpl.
  - intros H%list_elem_of_singleton. by left.
  - destruct (decide (k = k0)) as [->|_].
    + intros [H|H]%elem_of_cons; [by left|right; by right].
    + intros [H|H]%elem_of_cons; [right; rewrite H; by left|]. destruct (IH H) as [|]; [by left|right; by right].
Qed.

Lemma dict_get_elem k v d : dict_get k d = Some v → (k, v) ∈ d.
Proof.
  induction d as [|[k0 v0] d IH]; simpl; [done|]. destruct (decide (k = k0)) as [->|_]; [intros [= ->]; by left|right; auto].
Qed.

Lemma dict_get_del k k' d :
  dict_get k' (dict_del k d) = if decide (k' = k) then None else dict_get k' d.
Proof.
  unfold dict_del. induction d as [|[k0 v0] d IH]; [simpl; by destruct (decide _)|].
  destruct (decide (k0 = k)) as [->|Hne].
  - rewrite filter_cons_False by naive_solver. rewrite IH. simpl.
    destruct (decide (k' = k)); done.
  - rewrite filter_cons_True by done. simpl.
    destruct (decide (k' = k0)) as [->|]; [by rewrite decide_False|done].
Qed.

Lemma elem_of_dict_keys k d : k ∈ dict_keys d ↔ is_Some (dict_get k d).
Proof.
  unfold dict_keys. induction d as [|[k0 v0] d IH]; csimpl.
  - rewrite elem_of_nil. split; [done|]. intros [? ?]; done.
  - rewrite elem_of_cons, IH. destruct (decide (k = k0)); [by split; eauto|].
    split; [by intros [?|?]|by right].
Qed.

Lemma dict_keys_set_in k v d : k ∈ dict_keys d → dict_keys (dict_set k v d) = dict_keys d.
Proof.
  unfold dict_keys. induction d as [|[k0 v0] d IH]; csimpl; [by rewrite elem_of_nil|].
  rewrite elem_of_cons. intros [->|H]; [by rewrite decide_True|].
  destruct (decide (k = k0)) as [->|]; csimpl; [done|]. by rewrite IH.
Qed.

Lemma dict_keys_set_notin k v d :
  k ∉ dict_keys d → dict_keys (dict_set k v d) = dict_keys d ++ [k].
Proof.
  unfold dict_keys. induction d as [|[k0 v0] d IH]; csimpl; [done|].
  rewrite not_elem_of_cons. intros [Hne H]. rewrite decide_False by done.
  csimpl. by rewrite IH.
Qed.

Lemma dict_set_nodup k v d : NoDup (dict_keys d) → NoDup (dict_keys (dict_set k v d)).
Proof.
  intros Hd. destruct (decide (k ∈ dict_keys d)).
  - by rewrite dict_keys_set_in.
  - rewrite dict_keys_set_notin by done. apply NoDup_app. split; [done|]. split.
    + intros x Hx. rewrite list_elem_of_singleton. naive_solver.
    + apply NoDup_singleton.
Qed.

Lemma zlen_dict_set k v d :
  zlen (dict_set k v d) = if dict_has k d then zlen d else zlen d + 1.
Proof.
  unfold dict_has. induction d as [|[k0 v0] d IH]; simpl; [done|].
  destruct (decide (k = k0)); simpl; [done|].
  rewrite !zlen_cons, IH. destruct (dict_get k d); lia.
Qed.
End dict.
Abbreviation dict K V := (list (K * V)).

(** The truth value of a value, and [payload.get(k, default)] where the code
    goes on to use an integer or a string: a value of another type is refused
    where it is used.  Numbers of a payload are integers; a float in their
    place is not modelled and refused as well. *)

Definition val_true (v : val) : bool :=
  match v with
  | VNone => false
  | VBool b => b
  | VInt z => negb (z =? 0)
  | VFloat f => negb (fle f (fz 0) && fle (fz 0) f)
  | VStr s => str_true s
  | VBytes b => list_true b
  | VList l => list_true l
  | VDict d => list_true d
  end.

Definition get_int (k : string) (dflt : Z) (d : dict string val) : res Z :=
  match dict_get k d with
  | None => Ok dflt
  | Some (VInt z) => Ok z
  | Some (VBool b) => Ok (if b then 1 else 0)
  | Some _ => Raise (Exn TypeError k)
  end.

Definition mget (k : string) (m : dict string val) : val := default VNone (dict_get k m).

Definition get_str (k : string) (dflt : option string) (d : dict string val) : option string :=
  match dict_get k d with
  | None => dflt
  | Some (VStr s) => Some s
  | Some _ => None
  end.

Definition get_bool (k : string) (d : dict string val) : bool :=
  match dict_get k d with Some v => val_true v | None => false end.

(** ** Text as characters *)

Abbreviation chars := (list Ascii.ascii).
Definition chars_of (s : string) : chars := String.list_ascii_of_string s.
Definition string_of (l : chars) : string := String.string_of_list_ascii l.

Lemma chars_string l : chars_of (string_of l) = l.
Proof. apply String.list_ascii_of_string_of_list_ascii. Qed.
Lemma string_chars s : string_of (chars_of s) = s.
Proof. apply String.string_of_list_ascii_of_string. Qed.

(** ** Hexadecimal text ([bytes.hex], [bytes.fromhex]) *)

Definition hex_digit (n : Z) : Ascii.ascii :=
  Ascii.ascii_of_N (Z.to_N (if n <? 10 then 48 + n else 87 + n)).
Definition hex_value (c : Ascii.ascii) : option Z :=
  let n := Z.of_N (Ascii.N_of_ascii c) in
  if (48 <=? n) && (n <=? 57) then Some (n - 48)
  else if (97 <=? n) && (n <=? 102) then Some (n - 87)
  else if (65 <=? n) && (n <=? 70) then Some (n - 55)
  else None.
Definition is_space (c : Ascii.ascii) : bool :=
  let n := Z.of_N (Ascii.N_of_ascii c) in ((9 <=? n) && (n <=? 13)) || (n =? 32).

Definition hex (b : bytes) : chars := flat_map (λ x, [hex_digit (x / 16); hex_digit (x mod 16)]) b.

(** [bytes.fromhex]: pairs of digits, white space between them skipped. *)
Fixpoint fromhex (l : chars) : option bytes :=
  match l with
  | [] => Some []
  | a :: r =>
      if is_space a then fromhex r
      else match r with
           | b :: r' =>
               match hex_value a, hex_value b, fromhex r' with
               | Some x, Some y, Some bs => Some (16 * x + y :: bs)
               | _, _, _ => None
               end
           | [] => None
           end
  end.

Lemma hex_table :
  forallb (λ n, (match hex_value (hex_digit n) with Some v => v =? n | None => false end)
                && negb (is_space (hex_digit n))) (map Z.of_nat (seq 0 16)) = true.
Proof. vm_compute. reflexivity. Qed.

Lemma hex_digit_ok n : 0 ≤ n < 16 → hex_value (hex_digit n) = Some n ∧ is_space (hex_digit n) = false.
Proof.
  intros Hn. pose proof hex_table as H. rewrite forallb_forall in H.
  specialize (H n). rewrite andb_true_iff in H. destruct H as [H1 H2].
  - apply list_elem_of_In, list_elem_of_fmap. exists (Z.to_nat n). split; [lia|]. apply elem_of_seq. lia.
  - destruct (hex_value (hex_digit n)) as [v|]; [|done]. apply Z.eqb_eq in H1 as ->.
    split; [done|]. by apply negb_true_iff.
Qed.

Lemma fromhex_hex b : bytes_ok b → fromhex (hex b) = Some b.
Proof.
  induction 1 as [|x b [Hx1 Hx2] Hb IH]; [done|]. unfold hex in *. cbn [flat_map app fromhex].
  destruct (hex_digit_ok (x / 16)) as [E1 E2];
    [split; [apply Z.div_pos; lia|apply Z.div_lt_upper_bound; lia]|].
  destruct (hex_digit_ok (x mod 16)) as [E3 _]; [apply Z.mod_pos_bound; lia|].
  rewrite E2, E1, E3, IH. do 2 f_equal. symmetry. apply Z_div_mod_eq_full.
Qed.

(** ** [ORDER BY] and [LIMIT]

    Rows ordered by a comparison, and the first [n] of them.  A negative
    [LIMIT] is no limit in SQLite. *)

Definition sort_by {A} (leb : A → A → bool) (l : list A) : list A :=
  @merge_sort A (λ a b, leb a b = true) (λ a b, decide (leb a b = true)) l.

Definition sql_limit {A} (n : Z) (l : list A) : list A :=
  if n <? 0 then l else ztake n l.

(** Filters and tests do not depend on the order of rows. *)
Lemma existsb_perm {A} (f : A → bool) l1 l2 : l1 ≡ₚ l2 → existsb f l1 = existsb f l2.
Proof.
  induction 1; simpl; [done|congruence| |congruence].
  by rewrite !orb_assoc, (orb_comm (f y)).
Qed.

Lemma filter_sublist {A} (f : A → bool) l : List.filter f l `sublist_of` l.
Proof. induction l as [|a l IH]; simpl; [constructor|]. destruct (f a); by constructor. Qed.

Lemma sorted_sublist {A} (R : A → A → Prop) l1 l2 : l1 `sublist_of` l2 → StronglySorted R l2 → StronglySorted R l1.
Proof.
  induction 1 as [|x l1 l2 Hs IH|x l1 l2 Hs IH]; intros H; [constructor| |]; apply StronglySorted_inv in H as [H Hx]; [|auto].
  constructor; [auto|]. rewrite Forall_forall in *. intros y Hy. apply Hx. by eapply elem_of_sublist.
Qed.

Lemma filter_none {A} (f : A → bool) l : (∀ a, a ∈ l → f a = false) → List.filter f l = [].
Proof.
  induction l as [|a l IH]; intros H; simpl; [done|]. rewrite (H a) by left. apply IH. intros b Hb. apply H. by right.
Qed.

Lemma filter_same {A} (f : A → bool) l : (∀ a, a ∈ l → f a = true) → List.filter f l = l.
Proof.
  induction l as [|a l IH]; intros H; simpl; [done|]. rewrite (H a) by left. f_equal. apply IH. intros b Hb. apply H. by right.
Qed.

Lemma filter_map_same {A} (P : A → bool) (f : A → A) l :
  (∀ a, P (f a) = P a) → (∀ a, P a = true → f a = a) → List.filter P (map f l) = List.filter P l.
Proof.
  intros H1 H2. induction l as [|a l IH]; simpl; [done|]. rewrite H1, IH. destruct (P a) eqn:E; [|done]. by rewrite H2.
Qed.

Lemma filter_perm {A} (f : A → bool) l1 l2 : l1 ≡ₚ l2 → List.filter f l1 ≡ₚ List.filter f l2.
Proof.
  induction 1; simpl; [done| | |by etrans].
  - destruct (f x); [by constructor|done].
  - destruct (f x), (f y); try done. constructor.
Qed.

Section sort_by.
Context {A : Type} (leb : A → A → bool).
Hypothesis leb_total : ∀ a b, leb a b = true ∨ leb b a = true.
Hypothesis leb_trans : ∀ a b c, leb a b = true → leb b c = true → leb a c = true.

Lemma sort_by_perm (l : list A) : sort_by leb l ≡ₚ l.
Proof using. apply merge_sort_Permutation. Qed.

Lemma elem_of_sort_by a (l : list A) : a ∈ sort_by leb l ↔ a ∈ l.
Proof using. by rewrite sort_by_perm. Qed.

Lemma sort_by_length (l : list A) : length (sort_by leb l) = length l.
Proof using. by rewrite sort_by_perm. Qed.

Lemma sort_by_sorted (l : list A) :
  StronglySorted (λ a b, leb a b = true) (sort_by leb l).
Proof using leb_total leb_trans.
  apply StronglySorted_merge_sort; [intros a b c; apply leb_trans|intros a b; apply leb_total].
Qed.
End sort_by.

Lemma sql_limit_sublist {A} n (l : list A) : sql_limit n l `sublist_of` l.
Proof. unfold sql_limit. destruct (n <? 0); [done|]. apply sublist_take. Qed.

Lemma elem_of_sql_limit {A} n (l : list A) a : a ∈ sql_limit n l → a ∈ l.
Proof. intros H. eapply elem_of_sublist; [done|apply sql_limit_sublist]. Qed.

Lemma zlen_sql_limit {A} n (l : list A) : 0 ≤ n → zlen (sql_limit n l) ≤ n.
Proof. intros. unfold sql_limit. destruct (Z.ltb_spec n 0); [lia|]. by apply zlen_ztake. Qed.
