(* ===== verification/Constants.v ===== *)
(** * Protocol constants ([hokora/constants.py])

    The constants of the protocol under the names of the source: message
    types, sync actions, permission bits, limits, CDSP profiles, epoch
    frames.  Durations are in seconds. *)

From S2P Require Import Prelude.

(** ** Message types *)
Definition MSG_TEXT : Z := 0x01.
Definition MSG_MEDIA : Z := 0x02.
Definition MSG_SYSTEM : Z := 0x03.
Definition MSG_REACTION : Z := 0x04.
Definition MSG_THREAD_REPLY : Z := 0x05.
Definition MSG_DELETE : Z := 0x06.
Definition MSG_PIN : Z := 0x07.
Definition MSG_EDIT : Z := 0x08.

Definition VALID_MESSAGE_TYPES : list Z :=
  [MSG_TEXT; MSG_MEDIA; MSG_SYSTEM; MSG_REACTION; MSG_THREAD_REPLY; MSG_DELETE;
   MSG_PIN; MSG_EDIT].

(** ** Sync actions *)
Definition SYNC_HISTORY : Z := 0x01.
Definition SYNC_SUBSCRIBE_LIVE : Z := 0x02.
Definition SYNC_UNSUBSCRIBE : Z := 0x03.
Definition SYNC_NODE_META : Z := 0x04.
Definition SYNC_THREAD : Z := 0x05.
Definition SYNC_GET_PINS : Z := 0x06.
Definition SYNC_SEARCH : Z := 0x07.
Definition SYNC_GET_MEMBER_LIST : Z := 0x08.
Definition SYNC_FETCH_MEDIA : Z := 0x09.
Definition SYNC_REDEEM_INVITE : Z := 0x0A.
Definition SYNC_FEDERATION_HANDSHAKE : Z := 0x0B.
Definition SYNC_PUSH_MESSAGES : Z := 0x0C.
Definition SYNC_REQUEST_SEALED_KEY : Z := 0x0D.
Definition SYNC_CDSP_SESSION_INIT : Z := 0x0E.
Definition SYNC_CDSP_PROFILE_UPDATE : Z := 0x10.
Definition SYNC_CREATE_INVITE : Z := 0x12.
Definition SYNC_LIST_INVITES : Z := 0x13.
Definition SYNC_LIST_SEEDS : Z := 0x23.
Definition SYNC_LIVE_EVENT : Z := 0x30.

(** ** Permission flags *)
Definition PERM_SEND_MESSAGES : Z := 0x0001.
Definition PERM_SEND_MEDIA : Z := 0x0002.
Definition PERM_CREATE_THREADS : Z := 0x0004.
Definition PERM_USE_MENTIONS : Z := 0x0008.
Definition PERM_MENTION_EVERYONE : Z := 0x0010.
Definition PERM_ADD_REACTIONS : Z := 0x0020.
Definition PERM_READ_HISTORY : Z := 0x0040.
Definition PERM_DELETE_OWN : Z := 0x0080.
Definition PERM_DELETE_OTHERS : Z := 0x0100.
Definition PERM_PIN_MESSAGES : Z := 0x0200.
Definition PERM_MANAGE_CHANNELS : Z := 0x0400.
Definition PERM_MANAGE_ROLES : Z := 0x0800.
Definition PERM_MANAGE_MEMBERS : Z := 0x1000.
Definition PERM_BAN_IDENTITIES : Z := 0x2000.
Definition PERM_VIEW_AUDIT_LOG : Z := 0x4000.
Definition PERM_EDIT_OWN : Z := 0x8000.
Definition PERM_ALL : Z := 0xFFFF.

Definition PERM_EVERYONE_DEFAULT : Z :=
  Z.lor PERM_SEND_MESSAGES (Z.lor PERM_SEND_MEDIA (Z.lor PERM_CREATE_THREADS
    (Z.lor PERM_USE_MENTIONS (Z.lor PERM_ADD_REACTIONS (Z.lor PERM_READ_HISTORY
      (Z.lor PERM_DELETE_OWN PERM_EDIT_OWN)))))).

Definition PERM_NODE_OWNER : Z := PERM_ALL.

(** ** Access modes *)
Definition ACCESS_PUBLIC : string := "public".
Definition ACCESS_WRITE_RESTRICTED : string := "write_restricted".
Definition ACCESS_PRIVATE : string := "private".

(** ** Protocol limits *)
Definition NONCE_SIZE : Z := 16.
Definition MAX_SYNC_LIMIT : Z := 100.
Definition DEFAULT_SYNC_LIMIT : Z := 50.
Definition CLOCK_DRIFT_TOLERANCE : Z := 300.
Definition MAX_EDIT_CHAIN_LENGTH : Z := 50.
Definition MAX_REACTIONS_PER_MESSAGE : Z := 20.
Definition MAX_MESSAGE_BODY_SIZE : Z := 32000.
Definition MAX_DISPLAY_NAME_LENGTH : Z := 64.
Definition SEQ_GAP_WARNING : Z := 5.

Definition INVITE_DEFAULT_EXPIRY_HOURS : Z := 72.
Definition INVITE_DEFAULT_MAX_USES : Z := 1.
Definition INVITE_TOKEN_SIZE : Z := 16.
Definition INVITE_RATE_LIMIT_WINDOW : Z := 600.
Definition INVITE_RATE_LIMIT_MAX : Z := 5.
Definition INVITE_FAILURE_BLOCK_THRESHOLD : Z := 3.
Definition INVITE_FAILURE_BLOCK_DURATION : Z := 3600.

Definition MAX_SUBSCRIBERS_PER_CHANNEL : Z := 100.
Definition MAX_TOTAL_SUBSCRIBERS : Z := 500.
Definition MAX_LOCK_ENTRIES : Z := 10000.
Definition MAX_RATE_LIMIT_BUCKETS : Z := 10000.
Definition MAX_PENDING_CHALLENGES : Z := 10000.
Definition MAX_INVITE_RATE_ENTRIES : Z := 10000.

Definition DEFAULT_RATE_LIMIT_TOKENS : Z := 10.
Definition DEFAULT_RATE_LIMIT_REFILL : Z := 1.

Definition WIRE_VERSION : Z := 1.

(** ** Built-in roles *)
Definition ROLE_NODE_OWNER : string := "node_owner".
Definition ROLE_CHANNEL_OWNER : string := "channel_owner".
Definition ROLE_EVERYONE : string := "everyone".
Definition ROLE_MEMBER : string := "member".

(** ** CDSP *)
Definition CDSP_VERSION : Z := 1.
Definition CDSP_PROFILE_FULL : Z := 0x01.
Definition CDSP_PROFILE_PRIORITIZED : Z := 0x02.
Definition CDSP_PROFILE_MINIMAL : Z := 0x03.
Definition CDSP_PROFILE_BATCHED : Z := 0x04.

Definition CDSP_STATE_INIT : string := "init".
Definition CDSP_STATE_ACTIVE : string := "active".
Definition CDSP_STATE_SUSPENDED : string := "suspended".
Definition CDSP_STATE_CLOSED : string := "closed".

Definition CDSP_SESSION_TIMEOUT : Z := 3600.
Definition CDSP_DEFERRED_QUEUE_LIMIT : Z := 1000.
Definition CDSP_RESUME_TOKEN_SIZE : Z := 16.

Record ProfileLimits := {
  max_sync_limit : Z;
  default_sync_limit : Z;
  search_limit : Z;
  media_fetch : bool;
  live_push : bool;
  live_batch_window : Z;
  include_metadata : bool;
  history_direction : option string;
}.

Definition FULL_LIMITS : ProfileLimits := {|
  max_sync_limit := 100; default_sync_limit := 50; search_limit := 100;
  media_fetch := true; live_push := true; live_batch_window := 0;
  include_metadata := true; history_direction := None |}.

Definition CDSP_PROFILE_LIMITS : dict Z ProfileLimits :=
  [(CDSP_PROFILE_FULL, FULL_LIMITS);
   (CDSP_PROFILE_PRIORITIZED, {|
      max_sync_limit := 20; default_sync_limit := 10; search_limit := 10;
      media_fetch := false; live_push := true; live_batch_window := 0;
      include_metadata := false; history_direction := Some "backward" |});
   (CDSP_PROFILE_MINIMAL, {|
      max_sync_limit := 5; default_sync_limit := 3; search_limit := 0;
      media_fetch := false; live_push := false; live_batch_window := 0;
      include_metadata := false; history_direction := None |});
   (CDSP_PROFILE_BATCHED, {|
      max_sync_limit := 50; default_sync_limit := 25; search_limit := 20;
      media_fetch := true; live_push := true; live_batch_window := 30;
      include_metadata := true; history_direction := None |})].

(** ** Forward-secrecy epochs *)
Definition EPOCH_ROTATE : Z := 0x20.
Definition EPOCH_ROTATE_ACK : Z := 0x21.
Definition EPOCH_DATA : Z := 0x22.
Definition EPOCH_DEFAULT_DURATION : Z := 3600.
Definition EPOCH_MAX_RETRIES : Z := 3.
Definition EPOCH_INITIAL_BACKOFF : Z := 30.
Definition EPOCH_NONCE_OVERFLOW : Z := 2 ^ 63.
Definition EPOCH_ROTATE_TIMEOUT : Z := 30.

Definition MAX_PENDING_DISTRIBUTION_RETRIES : Z := 5.

(** ** Channels *)
Definition MAX_CHANNEL_NAME_LENGTH : Z := 64.
Definition MAX_CHANNEL_DESCRIPTION_LENGTH : Z := 512.
