(* ===== verification/Models.v ===== *)
(** * The database schema ([hokora/db/models.py])

    One record per ORM class, with the columns the code reads or writes, and
    [DB], the tables of a node's database.  A table with a string primary key
    is a finite map from the key to the row; a table with an auto-increment
    [Integer] key is the list of its rows in insertion order.  A nullable
    column is an [option]; a JSON column is the value it holds. *)

From S2P Require Import Prelude.

Record Channel := {
  ch_id : string;
  ch_name : string;
  ch_description : string;
  ch_category_id : option string;
  ch_position : Z;
  ch_access_mode : string;
  ch_slowmode : Z;
  ch_max_retention : Z;
  ch_latest_seq : Z;
  ch_identity_hash : option string;
  ch_destination_hash : option string;
  ch_created_at : float;
  ch_sealed : bool;
  ch_rotation_old_hash : option string;
  ch_rotation_grace_end : option float;
}.

Record Category := {
  cat_id : string;
  cat_name : string;
  cat_position : Z;
  cat_collapsed_default : bool;
}.

(** One entry of [Message.reactions]: [{"count": n, "identities": [...]}]. *)
Record Reaction := { rx_count : Z; rx_identities : list string }.

#[export] Instance Reaction_eq_dec : EqDecision Reaction.
Proof. solve_decision. Defined.

Record Message := {
  m_msg_hash : string;
  m_channel_id : string;
  m_sender_hash : option string;
  m_seq : option Z;
  m_timestamp : float;
  m_type : Z;
  m_body : option string;
  m_media_path : option string;
  m_media_meta : option string;
  m_reply_to : option string;
  m_thread_seq : option Z;
  m_ttl : option Z;
  m_received_at : float;
  m_deleted : bool;
  m_deleted_by : option string;
  m_pinned : bool;
  m_pinned_at : option float;
  m_edit_chain : list string;
  m_reactions : dict string Reaction;
  m_lxmf_signature : option bytes;
  m_lxmf_signed_part : option bytes;
  m_display_name : option string;
  m_mentions : list string;
  m_origin_node : option string;
  m_encrypted_body : option bytes;
  m_encryption_nonce : option bytes;
  m_encryption_epoch : option Z;
}.

Record Identity := {
  id_hash : string;
  id_display_name : option string;
  id_public_key : option bytes;
  id_first_seen : float;
  id_last_seen : float;
  id_blocked : bool;
  id_blocked_at : option float;
  id_blocked_by : option string;
}.

Record Role := {
  role_id : string;
  role_name : string;
  role_permissions : Z;
  role_position : Z;
  role_colour : string;
  role_mentionable : bool;
  role_is_builtin : bool;
}.

Record RoleAssignment := {
  ra_id : Z;
  ra_role_id : string;
  ra_identity_hash : string;
  ra_channel_id : option string;
  ra_assigned_at : float;
  ra_assigned_by : option string;
}.

Record ChannelOverride := {
  co_id : Z;
  co_channel_id : string;
  co_role_id : string;
  co_allow : Z;
  co_deny : Z;
}.

Record Invite := {
  inv_token_hash : string;
  inv_channel_id : option string;
  inv_created_by : string;
  inv_max_uses : Z;
  inv_uses : Z;
  inv_used_by : list string;
  inv_used_at : list float;
  inv_expires_at : option float;
  inv_created_at : float;
  inv_revoked : bool;
}.

Record Thread := {
  th_root_msg_hash : string;
  th_channel_id : string;
  th_reply_count : Z;
  th_latest_thread_seq : Z;
  th_last_activity : float;
  th_participant_hashes : list string;
}.

(** [Peer.sync_cursor] is the JSON object [{channel: seq, "_push": {channel: seq}}]. *)
Record Peer := {
  peer_identity_hash : string;
  peer_node_name : option string;
  peer_last_seen : option float;
  peer_channels_mirrored : list string;
  peer_sync_cursor : gmap string Z;
  peer_push_cursor : gmap string Z;
  peer_federation_trusted : bool;
  peer_last_handshake : option float;
  peer_public_key : option bytes;
}.

Record AuditLog := {
  al_id : Z;
  al_actor : string;
  al_action_type : string;
  al_target : option string;
  al_channel_id : option string;
  al_timestamp : float;
  al_details : list (string * val);
}.

Record SealedKey := {
  sk_id : Z;
  sk_channel_id : string;
  sk_epoch : Z;
  sk_encrypted_key_blob : bytes;
  sk_identity_hash : string;
  sk_created_at : float;
}.

Record Session := {
  ses_session_id : string;
  ses_identity_hash : string;
  ses_sync_profile : Z;
  ses_cdsp_version : Z;
  ses_state : string;
  ses_resume_token : option bytes;
  ses_deferred_count : Z;
  ses_created_at : float;
  ses_last_activity : float;
  ses_expires_at : option float;
}.

Record FederationEpochState := {
  fes_peer_identity_hash : string;
  fes_current_epoch_id : Z;
  fes_epoch_duration : Z;
  fes_is_initiator : bool;
  fes_epoch_start_time : option float;
  fes_current_key_send : option bytes;
  fes_current_key_recv : option bytes;
  fes_nonce_prefix : option bytes;
  fes_message_counter : Z;
  fes_last_chain_hash : option bytes;
  fes_updated_at : float;
}.

Record DeferredSyncItem := {
  di_id : Z;
  di_session_id : string;
  di_channel_id : option string;
  di_sync_action : Z;
  di_payload : val;
  di_priority : Z;
  di_created_at : float;
  di_expires_at : option float;
}.

Record PendingSealedDistribution := {
  psd_id : Z;
  psd_channel_id : string;
  psd_identity_hash : string;
  psd_role_id : string;
  psd_queued_at : float;
  psd_last_attempt_at : option float;
  psd_retry_count : Z;
  psd_last_error : option string;
}.

(** ** The tables *)

Record DB := {
  channels : gmap string Channel;
  categories : gmap string Category;
  messages : gmap string Message;
  identities : gmap string Identity;
  roles : gmap string Role;
  role_assignments : list RoleAssignment;
  channel_overrides : list ChannelOverride;
  invites : gmap string Invite;
  threads : gmap string Thread;
  peers : gmap string Peer;
  audit_log : list AuditLog;
  sealed_keys : list SealedKey;
  sessions : gmap string Session;
  federation_epoch_state : gmap string FederationEpochState;
  deferred_sync_items : list DeferredSyncItem;
  pending_sealed_distributions : list PendingSealedDistribution;
}.

Definition empty_db : DB := {|
  channels := ∅; categories := ∅; messages := ∅; identities := ∅; roles := ∅;
  role_assignments := []; channel_overrides := []; invites := ∅; threads := ∅;
  peers := ∅; audit_log := []; sealed_keys := []; sessions := ∅;
  federation_epoch_state := ∅; deferred_sync_items := [];
  pending_sealed_distributions := [] |}.

(** [RowId] gives the auto-increment key of a table's rows; SQLite hands out
    one more than the largest in use. *)
Class RowId (A : Type) := row_id : A → Z.
#[export] Instance rowid_ra : RowId RoleAssignment := ra_id.
#[export] Instance rowid_co : RowId ChannelOverride := co_id.
#[export] Instance rowid_al : RowId AuditLog := al_id.
#[export] Instance rowid_sk : RowId SealedKey := sk_id.
#[export] Instance rowid_di : RowId DeferredSyncItem := di_id.
#[export] Instance rowid_psd : RowId PendingSealedDistribution := psd_id.

Definition next_rowid {A} `{RowId A} (l : list A) : Z :=
  1 + foldr (λ a n, Z.max (row_id a) n) 0 l.

Lemma next_rowid_fresh {A} `{RowId A} (l : list A) a : a ∈ l → row_id a < next_rowid l.
Proof.
  unfold next_rowid. induction 1 as [a l|a b l Hl IH]; simpl; lia.
Qed.

(** ** Table updates *)

Definition set_channels (f : gmap string Channel → gmap string Channel)
    (db : DB) : DB := {|
  channels := f (channels db); categories := categories db; messages := messages db;
  identities := identities db; roles := roles db; role_assignments := role_assignments db;
  channel_overrides := channel_overrides db; invites := invites db; threads := threads db;
  peers := peers db; audit_log := audit_log db; sealed_keys := sealed_keys db;
  sessions := sessions db; federation_epoch_state := federation_epoch_state db;
  deferred_sync_items := deferred_sync_items db;
  pending_sealed_distributions := pending_sealed_distributions db |}.
Definition set_categories (f : gmap string Category → gmap string Category)
    (db : DB) : DB := {|
  channels := channels db; categories := f (categories db); messages := messages db;
  identities := identities db; roles := roles db; role_assignments := role_assignments db;
  channel_overrides := channel_overrides db; invites := invites db; threads := threads db;
  peers := peers db; audit_log := audit_log db; sealed_keys := sealed_keys db;
  sessions := sessions db; federation_epoch_state := federation_epoch_state db;
  deferred_sync_items := deferred_sync_items db;
  pending_sealed_distributions := pending_sealed_distributions db |}.
Definition set_messages (f : gmap string Message → gmap string Message)
    (db : DB) : DB := {|
  channels := channels db; categories := categories db; messages := f (messages db);
  identities := identities db; roles := roles db; role_assignments := role_assignments db;
  channel_overrides := channel_overrides db; invites := invites db; threads := threads db;
  peers := peers db; audit_log := audit_log db; sealed_keys := sealed_keys db;
  sessions := sessions db; federation_epoch_state := federation_epoch_state db;
  deferred_sync_items := deferred_sync_items db;
  pending_sealed_distributions := pending_sealed_distributions db |}.
Definition set_identities (f : gmap string Identity → gmap string Identity)
    (db : DB) : DB := {|
  channels := channels db; categories := categories db; messages := messages db;
  identities := f (identities db); roles := roles db; role_assignments := role_assignments db;
  channel_overrides := channel_overrides db; invites := invites db; threads := threads db;
  peers := peers db; audit_log := audit_log db; sealed_keys := sealed_keys db;
  sessions := sessions db; federation_epoch_state := federation_epoch_state db;
  deferred_sync_items := deferred_sync_items db;
  pending_sealed_distributions := pending_sealed_distributions db |}.
Definition set_roles (f : gmap string Role → gmap string Role)
    (db : DB) : DB := {|
  channels := channels db; categories := categories db; messages := messages db;
  identities := identities db; roles := f (roles db); role_assignments := role_assignments db;
  channel_overrides := channel_overrides db; invites := invites db; threads := threads db;
  peers := peers db; audit_log := audit_log db; sealed_keys := sealed_keys db;
  sessions := sessions db; federation_epoch_state := federation_epoch_state db;
  deferred_sync_items := deferred_sync_items db;
  pending_sealed_distributions := pending_sealed_distributions db |}.
Definition set_role_assignments (f : list RoleAssignment → list RoleAssignment)
    (db : DB) : DB := {|
  channels := channels db; categories := categories db; messages := messages db;
  identities := identities db; roles := roles db; role_assignments := f (role_assignments db);
  channel_overrides := channel_overrides db; invites := invites db; threads := threads db;
  peers := peers db; audit_log := audit_log db; sealed_keys := sealed_keys db;
  sessions := sessions db; federation_epoch_state := federation_epoch_state db;
  deferred_sync_items := deferred_sync_items db;
  pending_sealed_distributions := pending_sealed_distributions db |}.
Definition set_channel_overrides (f : list ChannelOverride → list ChannelOverride)
    (db : DB) : DB := {|
  channels := channels db; categories := categories db; messages := messages db;
  identities := identities db; roles := roles db; role_assignments := role_assignments db;
  channel_overrides := f (channel_overrides db); invites := invites db; threads := threads db;
  peers := peers db; audit_log := audit_log db; sealed_keys := sealed_keys db;
  sessions := sessions db; federation_epoch_state := federation_epoch_state db;
  deferred_sync_items := deferred_sync_items db;
  pending_sealed_distributions := pending_sealed_distributions db |}.
Definition set_invites (f : gmap string Invite → gmap string Invite)
    (db : DB) : DB := {|
  channels := channels db; categories := categories db; messages := messages db;
  identities := identities db; roles := roles db; role_assignments := role_assignments db;
  channel_overrides := channel_overrides db; invites := f (invites db); threads := threads db;
  peers := peers db; audit_log := audit_log db; sealed_keys := sealed_keys db;
  sessions := sessions db; federation_epoch_state := federation_epoch_state db;
  deferred_sync_items := deferred_sync_items db;
  pending_sealed_distributions := pending_sealed_distributions db |}.
Definition set_threads (f : gmap string Thread → gmap string Thread)
    (db : DB) : DB := {|
  channels := channels db; categories := categories db; messages := messages db;
  identities := identities db; roles := roles db; role_assignments := role_assignments db;
  channel_overrides := channel_overrides db; invites := invites db; threads := f (threads db);
  peers := peers db; audit_log := audit_log db; sealed_keys := sealed_keys db;
  sessions := sessions db; federation_epoch_state := federation_epoch_state db;
  deferred_sync_items := deferred_sync_items db;
  pending_sealed_distributions := pending_sealed_distributions db |}.
Definition set_peers (f : gmap string Peer → gmap string Peer)
    (db : DB) : DB := {|
  channels := channels db; categories := categories db; messages := messages db;
  identities := identities db; roles := roles db; role_assignments := role_assignments db;
  channel_overrides := channel_overrides db; invites := invites db; threads := threads db;
  peers := f (peers db); audit_log := audit_log db; sealed_keys := sealed_keys db;
  sessions := sessions db; federation_epoch_state := federation_epoch_state db;
  deferred_sync_items := deferred_sync_items db;
  pending_sealed_distributions := pending_sealed_distributions db |}.
Definition set_audit_log (f : list AuditLog → list AuditLog)
    (db : DB) : DB := {|
  channels := channels db; categories := categories db; messages := messages db;
  identities := identities db; roles := roles db; role_assignments := role_assignments db;
  channel_overrides := channel_overrides db; invites := invites db; threads := threads db;
  peers := peers db; audit_log := f (audit_log db); sealed_keys := sealed_keys db;
  sessions := sessions db; federation_epoch_state := federation_epoch_state db;
  deferred_sync_items := deferred_sync_items db;
  pending_sealed_distributions := pending_sealed_distributions db |}.
Definition set_sealed_keys (f : list SealedKey → list SealedKey)
    (db : DB) : DB := {|
  channels := channels db; categories := categories db; messages := messages db;
  identities := identities db; roles := roles db; role_assignments := role_assignments db;
  channel_overrides := channel_overrides db; invites := invites db; threads := threads db;
  peers := peers db; audit_log := audit_log db; sealed_keys := f (sealed_keys db);
  sessions := sessions db; federation_epoch_state := federation_epoch_state db;
  deferred_sync_items := deferred_sync_items db;
  pending_sealed_distributions := pending_sealed_distributions db |}.
Definition set_sessions (f : gmap string Session → gmap string Session)
    (db : DB) : DB := {|
  channels := channels db; categories := categories db; messages := messages db;
  identities := identities db; roles := roles db; role_assignments := role_assignments db;
  channel_overrides := channel_overrides db; invites := invites db; threads := threads db;
  peers := peers db; audit_log := audit_log db; sealed_keys := sealed_keys db;
  sessions := f (sessions db); federation_epoch_state := federation_epoch_state db;
  deferred_sync_items := deferred_sync_items db;
  pending_sealed_distributions := pending_sealed_distributions db |}.
Definition set_federation_epoch_state (f : gmap string FederationEpochState → gmap string FederationEpochState)
    (db : DB) : DB := {|
  channels := channels db; categories := categories db; messages := messages db;
  identities := identities db; roles := roles db; role_assignments := role_assignments db;
  channel_overrides := channel_overrides db; invites := invites db; threads := threads db;
  peers := peers db; audit_log := audit_log db; sealed_keys := sealed_keys db;
  sessions := sessions db; federation_epoch_state := f (federation_epoch_state db);
  deferred_sync_items := deferred_sync_items db;
  pending_sealed_distributions := pending_sealed_distributions db |}.
Definition set_deferred_sync_items (f : list DeferredSyncItem → list DeferredSyncItem)
    (db : DB) : DB := {|
  channels := channels db; categories := categories db; messages := messages db;
  identities := identities db; roles := roles db; role_assignments := role_assignments db;
  channel_overrides := channel_overrides db; invites := invites db; threads := threads db;
  peers := peers db; audit_log := audit_log db; sealed_keys := sealed_keys db;
  sessions := sessions db; federation_epoch_state := federation_epoch_state db;
  deferred_sync_items := f (deferred_sync_items db);
  pending_sealed_distributions := pending_sealed_distributions db |}.
Definition set_pending_sealed_distributions (f : list PendingSealedDistribution → list PendingSealedDistribution)
    (db : DB) : DB := {|
  channels := channels db; categories := categories db; messages := messages db;
  identities := identities db; roles := roles db; role_assignments := role_assignments db;
  channel_overrides := channel_overrides db; invites := invites db; threads := threads db;
  peers := peers db; audit_log := audit_log db; sealed_keys := sealed_keys db;
  sessions := sessions db; federation_epoch_state := federation_epoch_state db;
  deferred_sync_items := deferred_sync_items db;
  pending_sealed_distributions := f (pending_sealed_distributions db) |}.
