(* ===== verification/Queries.v ===== *)
(** * Repositories ([hokora/db/queries.py])

    Each repository class is a module; each method is a read of the database
    ([DB → ...]) or a computation [M DB] that changes it.  [now] is the value
    [time.time()] gives to the operation.  The constraints the schema declares
    (primary keys, the unique indexes, the foreign keys, which the engine
    enforces with [PRAGMA foreign_keys=ON]) raise [IntegrityError]. *)

From S2P Require Import Prelude Constants Models.

Definition rows {A} (t : gmap string A) : list A := (map_to_list t).*2.

Lemma elem_of_rows {A} (t : gmap string A) a : a ∈ rows t ↔ ∃ k, t !! k = Some a.
Proof.
  unfold rows. rewrite list_elem_of_fmap. split.
  - intros ([k a'] & -> & H%elem_of_map_to_list). eauto.
  - intros [k H]. exists (k, a). by rewrite elem_of_map_to_list.
Qed.

(** Rows that carry their key are listed under distinct keys. *)
Lemma rows_keys {A} (key : A → string) (t : gmap string A) :
  (∀ k a, t !! k = Some a → key a = k) → key <$> rows t = (map_to_list t).*1.
Proof.
  intros Hk. unfold rows. rewrite <- list_fmap_compose. apply list_fmap_ext. intros i [k a] Hi.
  apply list_elem_of_lookup_2, elem_of_map_to_list in Hi. by apply Hk.
Qed.

(** A key that must not be taken yet. *)
Definition check_unique {A} (t : DB → gmap string A) (k : string) : M DB unit :=
  let! db := get in
  if bool_decide (is_Some (t db !! k)) then raise IntegrityError "UNIQUE constraint failed"
  else ret tt.

(** A foreign key that must refer to a row. *)
Definition check_fk {A} (t : DB → gmap string A) (k : string) : M DB unit :=
  let! db := get in
  if bool_decide (is_Some (t db !! k)) then ret tt
  else raise IntegrityError "FOREIGN KEY constraint failed".

(** [scalar_one_or_none] *)
Definition scalar_one_or_none {A} (l : list A) : M DB (option A) :=
  match l with
  | [] => ret None
  | [a] => ret (Some a)
  | _ => raise MultipleResultsFound "Multiple rows were found when one or none was required"
  end.

(** [result.scalar_one()] of an [UPDATE ... RETURNING] *)
Definition scalar_one {A} (o : option A) : M DB A :=
  match o with
  | Some a => ret a
  | None => raise NoResultFound "No row was found when one was required"
  end.

Definition seq_of (m : Message) : Z := default 0 (m_seq m).

Module MessageRepo.

Definition insert (m : Message) : M DB unit :=
  check_unique messages (m_msg_hash m) ;;
  check_fk channels (m_channel_id m) ;;
  modify (set_messages (<[m_msg_hash m := m]>)).

Definition get_by_hash (h : string) (db : DB) : option Message := messages db !! h.

(** [Message.seq > since] and the like: a comparison with NULL is not true. *)
Definition seq_gt (since : Z) (m : Message) : bool :=
  match m_seq m with Some s => since <? s | None => false end.
Definition seq_lt (before : Z) (m : Message) : bool :=
  match m_seq m with Some s => s <? before | None => false end.
Definition before_ok (before_seq : option Z) (m : Message) : bool :=
  match before_seq with Some b => seq_lt b m | None => true end.

Definition in_channel (channel_id : string) (m : Message) : bool :=
  bool_decide (m_channel_id m = channel_id).

Definition get_history (channel_id : string) (since_seq limit : Z) (direction : string)
    (before_seq : option Z) (db : DB) : list Message :=
  let all := List.filter (in_channel channel_id) (rows (messages db)) in
  let page :=
    if bool_decide (direction = "forward")
    then sql_limit limit (sort_by (λ a b, seq_of a <=? seq_of b)
           (List.filter (λ m, seq_gt since_seq m && before_ok before_seq m) all))
    else sql_limit limit (sort_by (λ a b, seq_of b <=? seq_of a)
           (List.filter (λ m, match before_seq with
                              | Some b => seq_lt b m
                              | None => seq_lt since_seq m
                              end) all)) in
  if bool_decide (direction = "backward") then reverse page else page.

Definition get_latest_seq (channel_id : string) (db : DB) : Z :=
  match omap m_seq (List.filter (in_channel channel_id) (rows (messages db))) with
  | [] => 0
  | s :: ss => foldr Z.max s ss
  end.

Definition pinned_at_leb (a b : Message) : bool :=
  fle (default (fz 0) (m_pinned_at b)) (default (fz 0) (m_pinned_at a)).

Definition get_pinned (channel_id : string) (db : DB) : list Message :=
  sort_by pinned_at_leb
    (List.filter (λ m, in_channel channel_id m && m_pinned m) (rows (messages db))).

(** [value.replace("\\", "\\\\").replace("%", "\\%").replace("_", "\\_")]:
    after the first replacement the later ones meet no character they add. *)
Fixpoint replace_char (c : Ascii.ascii) (by_ : string) (s : string) : string :=
  match s with
  | EmptyString => EmptyString
  | String a s =>
      if decide (a = c) then String.append by_ (replace_char c by_ s)
      else String a (replace_char c by_ s)
  end.
Definition backslash : Ascii.ascii := Ascii.ascii_of_nat 92.
Definition percent : Ascii.ascii := Ascii.ascii_of_nat 37.
Definition underscore : Ascii.ascii := Ascii.ascii_of_nat 95.

Definition _escape_like (value : string) : string :=
  replace_char underscore (String backslash (String underscore EmptyString))
    (replace_char percent (String backslash (String percent EmptyString))
      (replace_char backslash (String backslash (String backslash EmptyString)) value)).

(** SQL's [s LIKE p ESCAPE '\']: [%] any run of characters, [_] one, the
    escape character makes the next one literal. *)
Fixpoint skip_cont (s : list Ascii.ascii) : list Ascii.ascii :=
  match s with
  | c :: s' => if is_cont c then skip_cont s' else s
  | [] => []
  end.
Fixpoint like (p s : list Ascii.ascii) {struct p} : bool :=
  match p with
  | [] => match s with [] => true | _ => false end
  | c :: p =>
      if decide (c = percent) then
        (fix any (s : list Ascii.ascii) : bool :=
           like p s || match s with [] => false | _ :: s => any s end) s
      else if decide (c = underscore) then
        match s with [] => false | _ :: s => like p (skip_cont s) end
      else if decide (c = backslash) then
        match p with
        | [] => false
        | e :: p => match s with [] => false | x :: s => bool_decide (e = x) && like p s end
        end
      else match s with [] => false | x :: s => bool_decide (c = x) && like p s end
  end.

(** SQLite's [lower]: ASCII letters only. *)
Definition lower_char (c : Ascii.ascii) : Ascii.ascii :=
  let n := Ascii.N_of_ascii c in
  if (65 <=? n)%N && (n <=? 90)%N then Ascii.ascii_of_N (n + 32) else c.
Definition lower (s : string) : list Ascii.ascii := map lower_char (String.list_ascii_of_string s).

(** [body.ilike(pattern, escape="\")]; NULL matches nothing. *)
Definition ilike (pattern : string) (body : option string) : bool :=
  match body with Some b => like (lower pattern) (lower b) | None => false end.

Definition search (channel_id query : string) (limit : Z) (db : DB) : list Message :=
  let pattern := String percent (String.append (_escape_like query) (String percent EmptyString)) in
  sql_limit limit (sort_by (λ a b, seq_of b <=? seq_of a)
    (List.filter (λ m, in_channel channel_id m && ilike pattern (m_body m) && negb (m_deleted m))
       (rows (messages db)))).

Definition soft_delete_row (deleted_by : string) (m : Message) : Message := {|
  m_msg_hash := m_msg_hash m; m_channel_id := m_channel_id m; m_sender_hash := m_sender_hash m;
  m_seq := m_seq m; m_timestamp := m_timestamp m; m_type := m_type m;
  m_body := None; m_media_path := None; m_media_meta := m_media_meta m;
  m_reply_to := m_reply_to m; m_thread_seq := m_thread_seq m; m_ttl := m_ttl m;
  m_received_at := m_received_at m; m_deleted := true; m_deleted_by := Some deleted_by;
  m_pinned := m_pinned m; m_pinned_at := m_pinned_at m; m_edit_chain := m_edit_chain m;
  m_reactions := m_reactions m; m_lxmf_signature := m_lxmf_signature m;
  m_lxmf_signed_part := m_lxmf_signed_part m; m_display_name := m_display_name m;
  m_mentions := m_mentions m; m_origin_node := m_origin_node m;
  m_encrypted_body := m_encrypted_body m; m_encryption_nonce := m_encryption_nonce m;
  m_encryption_epoch := m_encryption_epoch m |}.

Definition soft_delete (h deleted_by : string) : M DB (option Message) :=
  modify (set_messages (alter (soft_delete_row deleted_by) h)) ;;
  gets (get_by_hash h).

Definition set_pinned_row (now : float) (pinned : bool) (m : Message) : Message := {|
  m_msg_hash := m_msg_hash m; m_channel_id := m_channel_id m; m_sender_hash := m_sender_hash m;
  m_seq := m_seq m; m_timestamp := m_timestamp m; m_type := m_type m;
  m_body := m_body m; m_media_path := m_media_path m; m_media_meta := m_media_meta m;
  m_reply_to := m_reply_to m; m_thread_seq := m_thread_seq m; m_ttl := m_ttl m;
  m_received_at := m_received_at m; m_deleted := m_deleted m; m_deleted_by := m_deleted_by m;
  m_pinned := pinned; m_pinned_at := if pinned then Some now else None;
  m_edit_chain := m_edit_chain m;
  m_reactions := m_reactions m; m_lxmf_signature := m_lxmf_signature m;
  m_lxmf_signed_part := m_lxmf_signed_part m; m_display_name := m_display_name m;
  m_mentions := m_mentions m; m_origin_node := m_origin_node m;
  m_encrypted_body := m_encrypted_body m; m_encryption_nonce := m_encryption_nonce m;
  m_encryption_epoch := m_encryption_epoch m |}.

Definition set_pinned (now : float) (h : string) (pinned : bool) : M DB (option Message) :=
  modify (set_messages (alter (set_pinned_row now pinned) h)) ;;
  gets (get_by_hash h).

(** [ORDER BY thread_seq ASC NULLS FIRST, seq ASC]; SQLite sorts NULL first. *)
Definition oz_leb (a b : option Z) : bool :=
  match a, b with
  | None, _ => true
  | Some _, None => false
  | Some x, Some y => x <=? y
  end.
Definition thread_leb (a b : Message) : bool :=
  if bool_decide (m_thread_seq a = m_thread_seq b) then oz_leb (m_seq a) (m_seq b)
  else oz_leb (m_thread_seq a) (m_thread_seq b).

Definition get_thread_messages (root_hash : string) (limit : Z) (db : DB) : list Message :=
  sql_limit limit (sort_by thread_leb
    (List.filter (λ m, bool_decide (m_msg_hash m = root_hash)
                       || bool_decide (m_reply_to m = Some root_hash))
       (rows (messages db)))).
End MessageRepo.

Module ChannelRepo.

Definition create (c : Channel) : M DB Channel :=
  check_unique channels (ch_id c) ;;
  match ch_category_id c with Some k => check_fk categories k | None => ret tt end ;;
  modify (set_channels (<[ch_id c := c]>)) ;;
  ret c.

Definition get_by_id (channel_id : string) (db : DB) : option Channel := channels db !! channel_id.

(** [query.offset(offset)] / [query.limit(limit)] *)
Definition paginate {A} (limit offset : option Z) (l : list A) : list A :=
  let l := match offset with Some o => drop (Z.to_nat o) l | None => l end in
  match limit with Some n => sql_limit n l | None => l end.

Definition list_all (limit offset : option Z) (db : DB) : list Channel :=
  paginate limit offset
    (sort_by (λ a b, ch_position a <=? ch_position b) (rows (channels db))).

Definition bump_seq (c : Channel) : Channel := {|
  ch_id := ch_id c; ch_name := ch_name c; ch_description := ch_description c;
  ch_category_id := ch_category_id c;
  ch_position := ch_position c; ch_access_mode := ch_access_mode c; ch_slowmode := ch_slowmode c;
  ch_max_retention := ch_max_retention c; ch_latest_seq := ch_latest_seq c + 1;
  ch_identity_hash := ch_identity_hash c; ch_destination_hash := ch_destination_hash c;
  ch_created_at := ch_created_at c;
  ch_sealed := ch_sealed c; ch_rotation_old_hash := ch_rotation_old_hash c;
  ch_rotation_grace_end := ch_rotation_grace_end c |}.

(** [UPDATE channels SET latest_seq = latest_seq + 1 ... RETURNING latest_seq] *)
Definition increment_seq (channel_id : string) : M DB Z :=
  modify (set_channels (alter bump_seq channel_id)) ;;
  let! db := get in
  scalar_one (ch_latest_seq <$> channels db !! channel_id).

Definition _ALLOWED_UPDATE_FIELDS : list string :=
  ["name"; "description"; "topic"; "position"; "access_mode"; "slowmode"; "category_id";
   "sealed"; "max_messages"].

(** The keyword arguments of [update_channel]: those that name a column, the
    two allowed names that do not ([setattr] then sets a plain attribute,
    which no column stores), and any other name. *)
Inductive channel_kw :=
  | KwName (v : string) | KwDescription (v : string) | KwPosition (v : Z)
  | KwAccessMode (v : string) | KwSlowmode (v : Z) | KwCategoryId (v : option string)
  | KwSealed (v : bool) | KwTopic (v : val) | KwMaxMessages (v : val)
  | KwOther (k : string) (v : val).

Definition kw_name (k : channel_kw) : string :=
  match k with
  | KwName _ => "name" | KwDescription _ => "description" | KwPosition _ => "position"
  | KwAccessMode _ => "access_mode" | KwSlowmode _ => "slowmode" | KwCategoryId _ => "category_id"
  | KwSealed _ => "sealed" | KwTopic _ => "topic" | KwMaxMessages _ => "max_messages"
  | KwOther k _ => k
  end.

(** [setattr(ch, k, v)] *)
Definition set_kw (k : channel_kw) (c : Channel) : Channel := {|
  ch_id := ch_id c;
  ch_name := match k with KwName v => v | _ => ch_name c end;
  ch_description := match k with KwDescription v => v | _ => ch_description c end;
  ch_category_id := match k with KwCategoryId v => v | _ => ch_category_id c end;
  ch_position := match k with KwPosition v => v | _ => ch_position c end;
  ch_access_mode := match k with KwAccessMode v => v | _ => ch_access_mode c end;
  ch_slowmode := match k with KwSlowmode v => v | _ => ch_slowmode c end;
  ch_max_retention := ch_max_retention c; ch_latest_seq := ch_latest_seq c;
  ch_identity_hash := ch_identity_hash c; ch_destination_hash := ch_destination_hash c;
  ch_created_at := ch_created_at c;
  ch_sealed := match k with KwSealed v => v | _ => ch_sealed c end;
  ch_rotation_old_hash := ch_rotation_old_hash c;
  ch_rotation_grace_end := ch_rotation_grace_end c |}.

Definition update_channel (channel_id : string) (kwargs : list channel_kw) : M DB (option Channel) :=
  let! ch := gets (get_by_id channel_id) in
  match ch with
  | None => ret None
  | Some _ =>
      mfold (λ _ k, if bool_decide (kw_name k ∈ _ALLOWED_UPDATE_FIELDS)
                    then modify (set_channels (alter (set_kw k) channel_id))
                    else raise ValueError "Field is not allowed in update_channel") tt kwargs ;;
      let! ch := gets (get_by_id channel_id) in
      match ch ≫= ch_category_id with Some k => check_fk categories k | None => ret tt end ;;
      ret ch
  end.

(** Deleting a channel deletes its messages (ORM cascade); a row of another
    table that still refers to it, or a thread on one of its messages, makes
    the deletion fail. *)
Definition channel_referenced (channel_id : string) (db : DB) : bool :=
  existsb (λ r, bool_decide (ra_channel_id r = Some channel_id)) (role_assignments db)
  || existsb (λ o, bool_decide (co_channel_id o = channel_id)) (channel_overrides db)
  || existsb (λ i, bool_decide (inv_channel_id i = Some channel_id)) (rows (invites db))
  || existsb (λ t, bool_decide (th_channel_id t = channel_id)) (rows (threads db))
  || existsb (λ k, bool_decide (sk_channel_id k = channel_id)) (sealed_keys db).

Definition delete_channel (channel_id : string) : M DB bool :=
  let! db := get in
  match get_by_id channel_id db with
  | None => ret false
  | Some _ =>
      if channel_referenced channel_id db
      then raise IntegrityError "FOREIGN KEY constraint failed"
      else
        modify (set_messages (base.filter (λ kv, m_channel_id kv.2 ≠ channel_id))) ;;
        modify (set_channels (delete channel_id)) ;;
        modify (set_pending_sealed_distributions
                  (List.filter (λ p, negb (bool_decide (psd_channel_id p = channel_id))))) ;;
        ret true
  end.
End ChannelRepo.

Module IdentityRepo.

Definition new_identity (now : float) (h : string) : Identity := {|
  id_hash := h; id_display_name := None; id_public_key := None; id_first_seen := now;
  id_last_seen := now; id_blocked := false; id_blocked_at := None; id_blocked_by := None |}.

Definition touch (now : float) (i : Identity) : Identity := {|
  id_hash := id_hash i; id_display_name := id_display_name i; id_public_key := id_public_key i;
  id_first_seen := id_first_seen i; id_last_seen := now; id_blocked := id_blocked i;
  id_blocked_at := id_blocked_at i; id_blocked_by := id_blocked_by i |}.

(** [kwargs] is the assignment of the keyword arguments to the row. *)
Definition upsert (now : float) (h : string) (kwargs : Identity → Identity) : M DB unit :=
  modify (set_identities (partial_alter (λ o, Some
    match o with
    | Some i => touch now (kwargs i)
    | None => kwargs (new_identity now h)
    end) h)).

Definition get_by_hash (h : string) (db : DB) : option Identity := identities db !! h.

Definition get_batch (hashes : list string) (db : DB) : list Identity :=
  List.filter (λ i, bool_decide (id_hash i ∈ hashes)) (rows (identities db)).

Definition is_blocked (h : string) (db : DB) : bool :=
  match get_by_hash h db with Some i => id_blocked i | None => false end.
End IdentityRepo.

Module RoleRepo.

Definition get_by_id (rid : string) (db : DB) : option Role := roles db !! rid.

Definition get_by_name (name : string) (db : DB) : option Role :=
  find (λ r, bool_decide (role_name r = name)) (rows (roles db)).

Definition create (r : Role) : M DB Role :=
  check_unique roles (role_id r) ;;
  let! db := get in
  match get_by_name (role_name r) db with
  | Some _ => raise IntegrityError "UNIQUE constraint failed: roles.name"
  | None => modify (set_roles (<[role_id r := r]>)) ;; ret r
  end.

Definition list_all (limit offset : option Z) (db : DB) : list Role :=
  ChannelRepo.paginate limit offset
    (sort_by (λ a b, role_position b <=? role_position a) (rows (roles db))).

Definition same_grant (rid ident : string) (cid : option string) (a : RoleAssignment) : bool :=
  bool_decide (ra_role_id a = rid) && bool_decide (ra_identity_hash a = ident)
  && bool_decide (ra_channel_id a = cid).

(** The unique index on (role, identity, channel) constrains only the rows
    with a channel (NULLs are distinct); the global grants are checked here. *)
Definition assign_role (now : float) (rid ident : string) (cid assigned_by : option string)
    : M DB RoleAssignment :=
  let! db := get in
  let! existing :=
    match cid with
    | None => scalar_one_or_none (List.filter (same_grant rid ident None) (role_assignments db))
    | Some _ => ret None
    end in
  match existing with
  | Some a => ret a
  | None =>
      (match cid with
       | Some c =>
           (if existsb (same_grant rid ident cid) (role_assignments db)
            then raise IntegrityError "UNIQUE constraint failed: uq_role_identity_channel"
            else ret tt) ;;
           check_fk channels c
       | None => ret tt
       end) ;;
      check_fk roles rid ;;
      check_fk identities ident ;;
      let a := {| ra_id := next_rowid (role_assignments db); ra_role_id := rid;
                  ra_identity_hash := ident; ra_channel_id := cid; ra_assigned_at := now;
                  ra_assigned_by := assigned_by |} in
      modify (set_role_assignments (λ l, l ++ [a])) ;;
      ret a
  end.

(** The [WHERE] clause on the assignment; [channel_id=None] and [""] are
    both false and select the node-scoped rows. *)
Definition in_scope (channel_id : option string) (strict_channel_scope : bool)
    (a : RoleAssignment) : bool :=
  if ostr_true channel_id then
    bool_decide (ra_channel_id a = channel_id)
    || negb strict_channel_scope && bool_decide (ra_channel_id a = None)
  else bool_decide (ra_channel_id a = None).

(** [SELECT role JOIN assignment]: one row per assignment of the identity;
    the ORM drops no duplicates from [scalars()] of a single-entity select
    with a join on another table, so a role may come twice. *)
Definition get_identity_roles (ident : string) (channel_id : option string)
    (strict_channel_scope : bool) (db : DB) : list Role :=
  omap (λ a, roles db !! ra_role_id a)
    (List.filter (λ a, bool_decide (ra_identity_hash a = ident)
                       && in_scope channel_id strict_channel_scope a) (role_assignments db)).

Definition get_channel_overrides (channel_id rid : string) (db : DB) : option ChannelOverride :=
  find (λ o, bool_decide (co_channel_id o = channel_id) && bool_decide (co_role_id o = rid))
    (channel_overrides db).

Definition get_all_channel_overrides (channel_id : string) (role_ids : list string) (db : DB)
    : gmap string ChannelOverride :=
  list_to_map (reverse (map (λ o, (co_role_id o, o))
    (List.filter (λ o, bool_decide (co_channel_id o = channel_id)
                       && bool_decide (co_role_id o ∈ role_ids)) (channel_overrides db)))).

Definition get_channel_member_hashes (channel_id : string) (db : DB) : list string :=
  remove_dups (map ra_identity_hash
    (List.filter (λ a, bool_decide (ra_channel_id a = Some channel_id)) (role_assignments db))).
End RoleRepo.

Module AuditLogRepo.

Definition log (now : float) (actor action_type : string) (target channel_id : option string)
    (details : list (string * val)) : M DB unit :=
  modify (set_audit_log (λ l, l ++ [{|
    al_id := next_rowid l; al_actor := actor; al_action_type := action_type;
    al_target := target; al_channel_id := channel_id; al_timestamp := now;
    al_details := details |}])).

Definition get_recent (limit : Z) (channel_id : option string) (offset : option Z) (db : DB)
    : list AuditLog :=
  let l := if ostr_true channel_id
           then List.filter (λ e, bool_decide (al_channel_id e = channel_id)) (audit_log db)
           else audit_log db in
  ChannelRepo.paginate (Some limit) offset (sort_by (λ a b, fle (al_timestamp b) (al_timestamp a)) l).
End AuditLogRepo.

Module CategoryRepo.

Definition create (c : Category) : M DB Category :=
  check_unique categories (cat_id c) ;;
  modify (set_categories (<[cat_id c := c]>)) ;;
  ret c.

Definition get_by_id (cid : string) (db : DB) : option Category := categories db !! cid.

Definition list_all (db : DB) : list Category :=
  sort_by (λ a b, cat_position a <=? cat_position b) (rows (categories db)).
End CategoryRepo.

Module SessionRepo.

Definition set_profile (now : float) (p : Z) (s : Session) : Session := {|
  ses_session_id := ses_session_id s; ses_identity_hash := ses_identity_hash s;
  ses_sync_profile := p; ses_cdsp_version := ses_cdsp_version s; ses_state := ses_state s;
  ses_resume_token := ses_resume_token s; ses_deferred_count := ses_deferred_count s;
  ses_created_at := ses_created_at s; ses_last_activity := now;
  ses_expires_at := ses_expires_at s |}.

Definition set_state (now : float) (st : string) (s : Session) : Session := {|
  ses_session_id := ses_session_id s; ses_identity_hash := ses_identity_hash s;
  ses_sync_profile := ses_sync_profile s; ses_cdsp_version := ses_cdsp_version s;
  ses_state := st; ses_resume_token := ses_resume_token s;
  ses_deferred_count := ses_deferred_count s; ses_created_at := ses_created_at s;
  ses_last_activity := now; ses_expires_at := ses_expires_at s |}.

Definition set_deferred_count (n : Z) (s : Session) : Session := {|
  ses_session_id := ses_session_id s; ses_identity_hash := ses_identity_hash s;
  ses_sync_profile := ses_sync_profile s; ses_cdsp_version := ses_cdsp_version s;
  ses_state := ses_state s; ses_resume_token := ses_resume_token s;
  ses_deferred_count := n; ses_created_at := ses_created_at s;
  ses_last_activity := ses_last_activity s; ses_expires_at := ses_expires_at s |}.

Definition create_session (now : float) (session_id identity_hash : string)
    (sync_profile cdsp_version : Z) (resume_token : option bytes) (expires_at : option float)
    : M DB unit :=
  check_unique sessions session_id ;;
  modify (set_sessions (<[session_id := {|
    ses_session_id := session_id; ses_identity_hash := identity_hash;
    ses_sync_profile := sync_profile; ses_cdsp_version := cdsp_version;
    ses_state := CDSP_STATE_ACTIVE; ses_resume_token := resume_token;
    ses_deferred_count := 0; ses_created_at := now; ses_last_activity := now;
    ses_expires_at := expires_at |}]>)).

Definition get_session (session_id : string) (db : DB) : option Session :=
  sessions db !! session_id.

Definition is_active_of (identity_hash : string) (s : Session) : bool :=
  bool_decide (ses_identity_hash s = identity_hash)
  && bool_decide (ses_state s = CDSP_STATE_ACTIVE).

Definition get_active_session (identity_hash : string) (db : DB) : option Session :=
  head (sort_by (λ a b, fle (ses_last_activity b) (ses_last_activity a))
    (List.filter (is_active_of identity_hash) (rows (sessions db)))).

Definition update_profile (now : float) (session_id : string) (p : Z) : M DB (option Session) :=
  modify (set_sessions (alter (set_profile now p) session_id)) ;;
  gets (get_session session_id).

Definition update_state (now : float) (session_id st : string) : M DB (option Session) :=
  modify (set_sessions (alter (set_state now st) session_id)) ;;
  gets (get_session session_id).

Definition touch (now : float) (session_id : string) : M DB unit :=
  modify (set_sessions (alter (λ s, set_state now (ses_state s) s) session_id)).

Definition expired (now max_age : float) (s : Session) : bool :=
  flt (ses_last_activity s) (now - max_age)%F
  || match ses_expires_at s with Some e => flt e now | None => false end.

(** The deferred items of a deleted session go with it
    ([ForeignKey(..., ondelete="CASCADE")]). *)
Definition cleanup_expired (now max_age : float) : M DB Z :=
  let! db := get in
  let gone := base.filter (λ kv, expired now max_age kv.2 = true) (sessions db) in
  modify (set_sessions (base.filter (λ kv, expired now max_age kv.2 ≠ true))) ;;
  modify (set_deferred_sync_items
    (List.filter (λ d, negb (bool_decide (is_Some (gone !! di_session_id d)))))) ;;
  ret (Z.of_nat (size gone)).
End SessionRepo.

Module DeferredSyncItemRepo.

Definition of_session (session_id : string) (d : DeferredSyncItem) : bool :=
  bool_decide (di_session_id d = session_id).

Definition enqueue (now : float) (session_id : string) (channel_id : option string)
    (sync_action : Z) (payload : val) (priority : Z) (ttl : option float) : M DB unit :=
  check_fk sessions session_id ;;
  modify (set_deferred_sync_items (λ l, l ++ [{|
    di_id := next_rowid l; di_session_id := session_id; di_channel_id := channel_id;
    di_sync_action := sync_action; di_payload := payload; di_priority := priority;
    di_created_at := now; di_expires_at := ttl |}])).

(** [ORDER BY priority DESC, created_at ASC] *)
Definition flush_leb (a b : DeferredSyncItem) : bool :=
  if di_priority a =? di_priority b then fle (di_created_at a) (di_created_at b)
  else di_priority b <? di_priority a.

Definition flush_for_session (session_id : string) (new_profile : Z)
    : M DB (list DeferredSyncItem) :=
  let! db := get in
  let items := sort_by flush_leb (List.filter (of_session session_id) (deferred_sync_items db)) in
  modify (set_deferred_sync_items (List.filter (λ d, negb (of_session session_id d)))) ;;
  ret items.

Definition count_for_session (session_id : string) (db : DB) : Z :=
  zlen (List.filter (of_session session_id) (deferred_sync_items db)).

Definition newest_first (a b : DeferredSyncItem) : bool := fle (di_created_at b) (di_created_at a).

Definition evict_oldest (session_id : string) (keep_limit : Z) : M DB Z :=
  let! db := get in
  let mine := List.filter (of_session session_id) (deferred_sync_items db) in
  let keep_ids := map di_id (sql_limit keep_limit (sort_by newest_first mine)) in
  if negb (list_true keep_ids) then ret 0
  else
    let doomed d := of_session session_id d && negb (bool_decide (di_id d ∈ keep_ids)) in
    modify (set_deferred_sync_items (List.filter (λ d, negb (doomed d)))) ;;
    ret (zlen (List.filter doomed (deferred_sync_items db))).

Definition cleanup_expired (now : float) : M DB Z :=
  let! db := get in
  let dead d := match di_expires_at d with Some e => flt e now | None => false end in
  modify (set_deferred_sync_items (List.filter (λ d, negb (dead d)))) ;;
  ret (zlen (List.filter dead (deferred_sync_items db))).
End DeferredSyncItemRepo.

Module EpochStateRepo.

Definition get (peer_hash : string) (db : DB) : option FederationEpochState :=
  federation_epoch_state db !! peer_hash.

Definition new_state (peer_hash : string) (now : float) : FederationEpochState := {|
  fes_peer_identity_hash := peer_hash; fes_current_epoch_id := 0; fes_epoch_duration := 3600;
  fes_is_initiator := false; fes_epoch_start_time := None; fes_current_key_send := None;
  fes_current_key_recv := None; fes_nonce_prefix := None; fes_message_counter := 0;
  fes_last_chain_hash := None; fes_updated_at := now |}.

Definition set_updated_at (now : float) (s : FederationEpochState) : FederationEpochState := {|
  fes_peer_identity_hash := fes_peer_identity_hash s;
  fes_current_epoch_id := fes_current_epoch_id s; fes_epoch_duration := fes_epoch_duration s;
  fes_is_initiator := fes_is_initiator s; fes_epoch_start_time := fes_epoch_start_time s;
  fes_current_key_send := fes_current_key_send s; fes_current_key_recv := fes_current_key_recv s;
  fes_nonce_prefix := fes_nonce_prefix s; fes_message_counter := fes_message_counter s;
  fes_last_chain_hash := fes_last_chain_hash s; fes_updated_at := now |}.

Definition upsert (now : float) (peer_hash : string)
    (kwargs : FederationEpochState → FederationEpochState) : M DB unit :=
  modify (set_federation_epoch_state (partial_alter (λ o,
    Some (set_updated_at now (kwargs (default (new_state peer_hash now) o)))) peer_hash)).

Definition delete (peer_hash : string) : M DB unit :=
  modify (set_federation_epoch_state (base.delete peer_hash)).
End EpochStateRepo.

Module PendingSealedDistributionRepo.

Definition is_triple (channel_id identity_hash rid : string) (p : PendingSealedDistribution) : bool :=
  bool_decide (psd_channel_id p = channel_id) && bool_decide (psd_identity_hash p = identity_hash)
  && bool_decide (psd_role_id p = rid).

Definition enqueue (now : float) (channel_id identity_hash rid : string)
    : M DB PendingSealedDistribution :=
  let! db := get in
  let! existing := scalar_one_or_none
    (List.filter (is_triple channel_id identity_hash rid) (pending_sealed_distributions db)) in
  match existing with
  | Some p => ret p
  | None =>
      check_fk channels channel_id ;;
      check_fk roles rid ;;
      let p := {| psd_id := next_rowid (pending_sealed_distributions db);
                  psd_channel_id := channel_id; psd_identity_hash := identity_hash;
                  psd_role_id := rid; psd_queued_at := now; psd_last_attempt_at := None;
                  psd_retry_count := 0; psd_last_error := None |} in
      modify (set_pending_sealed_distributions (λ l, l ++ [p])) ;;
      ret p
  end.

Definition list_for_identity (identity_hash : string) (db : DB) : list PendingSealedDistribution :=
  List.filter (λ p, bool_decide (psd_identity_hash p = identity_hash))
    (pending_sealed_distributions db).

Definition list_all (channel_id : option string) (db : DB) : list PendingSealedDistribution :=
  sort_by (λ a b, fle (psd_queued_at a) (psd_queued_at b))
    (List.filter (λ p, match channel_id with
                       | Some c => bool_decide (psd_channel_id p = c)
                       | None => true
                       end) (pending_sealed_distributions db)).

Definition evict (entry_id : Z) : M DB unit :=
  modify (set_pending_sealed_distributions (List.filter (λ p, negb (psd_id p =? entry_id)))).

Definition bump_retry (now : float) (error : string) (p : PendingSealedDistribution)
    : PendingSealedDistribution := {|
  psd_id := psd_id p; psd_channel_id := psd_channel_id p;
  psd_identity_hash := psd_identity_hash p; psd_role_id := psd_role_id p;
  psd_queued_at := psd_queued_at p; psd_last_attempt_at := Some now;
  psd_retry_count := psd_retry_count p + 1; psd_last_error := Some error |}.

Definition increment_retry (now : float) (entry_id : Z) (error : string) : M DB unit :=
  modify (set_pending_sealed_distributions
    (map (λ p, if psd_id p =? entry_id then bump_retry now error p else p))).
End PendingSealedDistributionRepo.
