(* ===== verification/Permissions.v ===== *)
(** * Permission resolution ([hokora/security/permissions.py])

    [PermissionResolver.get_effective_permissions] computes the permission
    bits of an identity on a channel.  Its specification is per bit, on sets:
    which bits are granted by which roles and overrides; the theorems show
    that the loop over roles implements it, in any order of the rows. *)

From S2P Require Import Prelude Constants Models Queries.

Module PermissionResolver.

(** [perms |= role.permissions] over the roles. *)
Definition or_all (f : Role → Z) (rs : list Role) (z : Z) : Z :=
  foldl (λ acc r, Z.lor acc (f r)) z rs.

(** [override.allow] (resp. [deny]) of a role that has an override. *)
Definition override_bits (f : ChannelOverride → Z) (ov : gmap string ChannelOverride) (r : Role) : Z :=
  match ov !! role_id r with Some o => f o | None => 0 end.

Definition get_effective_permissions (node_owner_hash identity_hash : string) (channel : Channel)
    (db : DB) : Z :=
  if bool_decide (identity_hash = node_owner_hash) then PERM_ALL
  else
    let roles := RoleRepo.get_identity_roles identity_hash (Some (ch_id channel)) false db in
    if bool_decide (ROLE_CHANNEL_OWNER ∈ map role_name roles) then PERM_ALL
    else
      let perms := match RoleRepo.get_by_name ROLE_EVERYONE db with
                   | Some everyone => role_permissions everyone
                   | None => 0
                   end in
      let perms := or_all role_permissions roles perms in
      let overrides :=
        RoleRepo.get_all_channel_overrides (ch_id channel) (map role_id roles) db in
      let all_allow := or_all (override_bits co_allow overrides) roles 0 in
      let all_deny := or_all (override_bits co_deny overrides) roles 0 in
      let perms := Z.land (Z.lor perms all_allow) (Z.lnot all_deny) in
      if bool_decide (ch_access_mode channel = ACCESS_WRITE_RESTRICTED) && negb (list_true roles)
      then Z.land perms (Z.lnot (Z.lor PERM_SEND_MESSAGES PERM_SEND_MEDIA))
      else perms.

(** [bool(perms & required_permission)] *)
Definition has_perm (perms required : Z) : bool := negb (Z.land perms required =? 0).

Definition resolve (node_owner_hash identity_hash : string) (channel : Channel)
    (required_permission : Z) (db : DB) : bool :=
  has_perm (get_effective_permissions node_owner_hash identity_hash channel db)
    required_permission.
End PermissionResolver.

Import PermissionResolver.

Lemma or_all_testbit f rs z i :
  Z.testbit (or_all f rs z) i = Z.testbit z i || existsb (λ r, Z.testbit (f r) i) rs.
Proof.
  unfold or_all. revert z. induction rs as [|r rs IH]; intros z; simpl; [by rewrite orb_false_r|].
  by rewrite IH, Z.lor_spec, orb_assoc.
Qed.

(** A single flag is in a bit field exactly when its bit is set. *)
Lemma has_perm_bit perms i : 0 ≤ i → has_perm perms (2 ^ i) = Z.testbit perms i.
Proof.
  intros Hi. unfold has_perm. apply eq_true_iff_eq. rewrite negb_true_iff, Z.eqb_neq. split.
  - intros H. destruct (Z.testbit perms i) eqn:E; [done|]. exfalso. apply H.
    apply Z.bits_inj'. intros n Hn. rewrite Z.land_spec, Z.bits_0, Z.pow2_bits_eqb by lia.
    destruct (Z.eqb_spec i n) as [->|]; [by rewrite E|apply andb_false_r].
  - intros E H. apply (f_equal (λ z, Z.testbit z i)) in H.
    rewrite Z.land_spec, E, Z.pow2_bits_true, Z.bits_0 in H by lia. done.
Qed.

(** ** The specification *)

(** The grants the documented levels give on bit [i]. *)
Record grants := {
  g_baseline : bool;     (* level 5: @everyone *)
  g_role : bool;         (* level 4: some role of the identity *)
  g_allow : bool;        (* level 3: some channel override allows *)
  g_deny : bool;         (* level 3: some channel override denies *)
}.

Definition grants_of (roles : list Role) (overrides : gmap string ChannelOverride)
    (everyone : option Role) (i : Z) : grants := {|
  g_baseline := match everyone with Some e => Z.testbit (role_permissions e) i | None => false end;
  g_role := existsb (λ r, Z.testbit (role_permissions r) i) roles;
  g_allow := existsb (λ r, match overrides !! role_id r with
                           | Some o => Z.testbit (co_allow o) i | None => false end) roles;
  g_deny := existsb (λ r, match overrides !! role_id r with
                          | Some o => Z.testbit (co_deny o) i | None => false end) roles |}.

Definition spec_bit (write_restricted : bool) (roles : list Role) (g : grants) (i : Z) : bool :=
  (g_baseline g || g_role g || g_allow g) && negb (g_deny g)
  && negb (write_restricted && negb (list_true roles) && ((i =? 0) || (i =? 1))).

Lemma override_bits_testbit f ov r i :
  Z.testbit (override_bits f ov r) i =
  match ov !! role_id r with Some o => Z.testbit (f o) i | None => false end.
Proof. unfold override_bits. destruct (ov !! role_id r); [done|apply Z.bits_0]. Qed.

Lemma existsb_ext {A} (f g : A → bool) l : (∀ a, f a = g a) → existsb f l = existsb g l.
Proof. intros H. induction l; simpl; congruence. Qed.

Lemma write_bits i : 0 ≤ i →
  Z.testbit (Z.lnot (Z.lor PERM_SEND_MESSAGES PERM_SEND_MEDIA)) i = negb ((i =? 0) || (i =? 1)).
Proof.
  intros Hi. rewrite Z.lnot_spec by lia. f_equal.
  change PERM_SEND_MESSAGES with (2 ^ 0). change PERM_SEND_MEDIA with (2 ^ 1).
  rewrite Z.lor_spec, !Z.pow2_bits_eqb by lia. by rewrite (Z.eqb_sym 0), (Z.eqb_sym 1).
Qed.

(** The bits the resolver computes. *)
Lemma effective_bits (owner ident : string) (ch : Channel) (db : DB) (i : Z) :
  0 ≤ i →
  let roles := RoleRepo.get_identity_roles ident (Some (ch_id ch)) false db in
  let ov := RoleRepo.get_all_channel_overrides (ch_id ch) (map role_id roles) db in
  let perms := get_effective_permissions owner ident ch db in
  if bool_decide (ident = owner) || bool_decide (ROLE_CHANNEL_OWNER ∈ map role_name roles)
  then perms = PERM_ALL
  else Z.testbit perms i =
       spec_bit (bool_decide (ch_access_mode ch = ACCESS_WRITE_RESTRICTED)) roles
         (grants_of roles ov (RoleRepo.get_by_name ROLE_EVERYONE db) i) i.
Proof.
  intros Hi roles ov perms. unfold perms, get_effective_permissions. fold roles. fold ov.
  destruct (bool_decide (ident = owner)); [done|].
  destruct (bool_decide (ROLE_CHANNEL_OWNER ∈ map role_name roles)); [done|]. simpl.
  assert (H : ∀ base, Z.testbit (Z.land (Z.lor (or_all role_permissions roles base)
              (or_all (override_bits co_allow ov) roles 0))
              (Z.lnot (or_all (override_bits co_deny ov) roles 0))) i =
            (Z.testbit base i || g_role (grants_of roles ov None i)
             || g_allow (grants_of roles ov None i)) && negb (g_deny (grants_of roles ov None i))).
  { intros base. rewrite Z.land_spec, Z.lor_spec, Z.lnot_spec, !or_all_testbit, !Z.bits_0 by lia.
    simpl. by rewrite !(existsb_ext _ _ _ (λ r, override_bits_testbit _ ov r i)). }
  unfold spec_bit.
  destruct (RoleRepo.get_by_name ROLE_EVERYONE db) as [e|]; simpl in *;
    (destruct (bool_decide (ch_access_mode ch = ACCESS_WRITE_RESTRICTED) && _);
     [rewrite Z.land_spec, H, write_bits by lia|rewrite H];
     simpl; rewrite ?Z.bits_0, ?andb_true_r; done).
Qed.


(** ** Order independence *)

(** Two databases that differ only in the order in which the role and
    override tables list their rows. *)
Record same_rows (db db' : DB) : Prop := {
  sr_roles : roles db = roles db';
  sr_assign : role_assignments db ≡ₚ role_assignments db';
  sr_over : channel_overrides db ≡ₚ channel_overrides db';
}.

#[export] Instance same_rows_equivalence : Equivalence same_rows.
Proof.
  split.
  - intros db. by split.
  - intros a b [H1 H2 H3]. by split.
  - intros a b c [H1 H2 H3] [H4 H5 H6]. split; by etrans.
Qed.

(** The unique index [ix_override_channel_role]. *)
Definition overrides_unique (db : DB) : Prop :=
  NoDup (map (λ o, (co_channel_id o, co_role_id o)) (channel_overrides db)).

#[export] Instance get_identity_roles_proper ident cid strict :
  Proper (same_rows ==> (≡ₚ)) (RoleRepo.get_identity_roles ident cid strict).
Proof.
  intros db db' [Hr Ha _]. unfold RoleRepo.get_identity_roles. rewrite Hr.
  by rewrite (filter_perm _ _ _ Ha).
Qed.

Lemma filter_map_nodup {A B} (k : A → B) (f : A → bool) l :
  NoDup (map k l) → NoDup (map k (List.filter f l)).
Proof.
  induction l as [|a l IH]; simpl; [done|]. rewrite NoDup_cons. intros [Ha Hl].
  destruct (f a); simpl; [|by apply IH]. apply NoDup_cons. split; [|by apply IH].
  intros (x & Hx & Hin)%list_elem_of_fmap. apply Ha. apply list_elem_of_fmap. exists x. split; [done|].
  apply list_elem_of_In, filter_In in Hin as [Hin _]. by apply list_elem_of_In.
Qed.

Lemma overrides_keys_nodup db cid (ids : list string) :
  overrides_unique db →
  NoDup (map co_role_id (List.filter (λ o, bool_decide (co_channel_id o = cid)
                           && bool_decide (co_role_id o ∈ ids)) (channel_overrides db))).
Proof.
  unfold overrides_unique. induction (channel_overrides db) as [|o l IH]; simpl; [constructor|].
  rewrite NoDup_cons. intros [Ho Hl]. specialize (IH Hl).
  destruct (bool_decide (co_channel_id o = cid) && _) eqn:E; [|done].
  simpl. apply NoDup_cons. split; [|done].
  intros (x & Hx & Hin)%list_elem_of_fmap.
  apply list_elem_of_In, filter_In in Hin as [Hin Hc].
  apply andb_true_iff in Hc as [Hc%bool_decide_eq_true _], E as [E%bool_decide_eq_true _].
  apply Ho, list_elem_of_fmap. exists x. split; [congruence|by apply list_elem_of_In].
Qed.

Lemma get_all_channel_overrides_perm cid (ids ids' : list string) db db' :
  same_rows db db' → ids ≡ₚ ids' → overrides_unique db →
  RoleRepo.get_all_channel_overrides cid ids db = RoleRepo.get_all_channel_overrides cid ids' db'.
Proof.
  intros [_ _ Ho] Hids Hu. unfold RoleRepo.get_all_channel_overrides.
  set (g (ids : list string) (o : ChannelOverride) := bool_decide (co_channel_id o = cid) && bool_decide (co_role_id o ∈ ids)).
  assert (Hg : List.filter (g ids) (channel_overrides db) ≡ₚ List.filter (g ids') (channel_overrides db')).
  { rewrite (filter_perm (g ids) _ _ Ho). rewrite (filter_ext (g ids) (g ids')); [done|]. intros o. unfold g. f_equal.
    apply bool_decide_ext. by rewrite Hids. }
  apply list_to_map_proper.
  - rewrite fmap_reverse, <- list_fmap_compose, reverse_Permutation.
    apply (overrides_keys_nodup db cid ids Hu).
  - rewrite !reverse_Permutation. apply (fmap_Permutation (λ o, (co_role_id o, o))), Hg.
Qed.

Lemma or_all_perm f rs rs' z : rs ≡ₚ rs' → or_all f rs z = or_all f rs' z.
Proof.
  intros H. apply Z.bits_inj'. intros i _. rewrite !or_all_testbit. by rewrite (existsb_perm _ _ _ H).
Qed.

Lemma list_true_perm {A} (l l' : list A) : l ≡ₚ l' → list_true l = list_true l'.
Proof. intros H. apply Permutation_length in H. by destruct l, l'. Qed.

(** the effective permissions do not depend on the order in which the
    database returns assignments and overrides (allow and deny are gathered
    before they are applied). *)
Theorem effective_permissions_order (owner ident : string) (ch : Channel) (db db' : DB) :
  same_rows db db' → overrides_unique db →
  get_effective_permissions owner ident ch db = get_effective_permissions owner ident ch db'.
Proof.
  intros Hs Hu. unfold get_effective_permissions.
  assert (Hr := get_identity_roles_proper ident (Some (ch_id ch)) false db db' Hs).
  set (rs := RoleRepo.get_identity_roles ident (Some (ch_id ch)) false db) in *.
  set (rs' := RoleRepo.get_identity_roles ident (Some (ch_id ch)) false db') in *.
  rewrite (get_all_channel_overrides_perm (ch_id ch) (map role_id rs) (map role_id rs') db db')
    by (done || by apply fmap_Permutation).
  replace (RoleRepo.get_by_name ROLE_EVERYONE db') with (RoleRepo.get_by_name ROLE_EVERYONE db)
    by (unfold RoleRepo.get_by_name; by rewrite (sr_roles _ _ Hs)).
  rewrite !(or_all_perm _ rs rs'), (list_true_perm rs rs') by done.
  rewrite (bool_decide_ext (ROLE_CHANNEL_OWNER ∈ map role_name rs)
             (ROLE_CHANNEL_OWNER ∈ map role_name rs'))
    by (by rewrite (fmap_Permutation role_name rs rs' Hr)).
  done.
Qed.

(** ** Instances *)

Definition demo_role (id name : string) (p : Z) : Role := {|
  role_id := id; role_name := name; role_permissions := p; role_position := 0;
  role_colour := ""; role_mentionable := false; role_is_builtin := false |}.
Definition demo_assignment (i : Z) (r ident : string) (c : option string) : RoleAssignment := {|
  ra_id := i; ra_role_id := r; ra_identity_hash := ident; ra_channel_id := c;
  ra_assigned_at := fz 0; ra_assigned_by := None |}.
Definition demo_chan (mode : string) : Channel := {|
  ch_id := "c"; ch_name := "c"; ch_description := ""; ch_category_id := None; ch_position := 0;
  ch_access_mode := mode; ch_slowmode := 0; ch_max_retention := 10000; ch_latest_seq := 0;
  ch_identity_hash := None; ch_destination_hash := None; ch_created_at := fz 0;
  ch_sealed := false; ch_rotation_old_hash := None; ch_rotation_grace_end := None |}.

(** Two roles, one of them denied the right to send on the channel. *)
Definition demo_roles_db (l : list RoleAssignment) : DB :=
  set_role_assignments (λ _, l)
    (set_channel_overrides (λ _, [{| co_id := 1; co_channel_id := "c"; co_role_id := "r1";
                                     co_allow := PERM_PIN_MESSAGES;
                                     co_deny := PERM_SEND_MESSAGES |}])
      (set_roles (λ _, {[ "r0" := demo_role "r0" ROLE_EVERYONE PERM_SEND_MESSAGES;
                          "r1" := demo_role "r1" "muted" PERM_READ_HISTORY;
                          "r2" := demo_role "r2" "member" PERM_SEND_MEDIA ]}) empty_db)).

Definition demo_assignments : list RoleAssignment :=
  [demo_assignment 1 "r1" "bob" (Some "c"); demo_assignment 2 "r2" "bob" None].


Lemma effective_permissions_order_witness :
  get_effective_permissions "owner" "bob" (demo_chan ACCESS_PUBLIC) (demo_roles_db demo_assignments)
  = get_effective_permissions "owner" "bob" (demo_chan ACCESS_PUBLIC)
      (demo_roles_db (reverse demo_assignments)).
Proof.
  apply effective_permissions_order.
  - split; simpl; [done| |done]. by rewrite reverse_Permutation.
  - apply NoDup_singleton.
Defined.
