(* ===== verification/RateLimit.v ===== *)
(** * Rate limiting and slowmode ([hokora/security/ratelimit.py])

    A token bucket per identity and a per-identity, per-channel slowmode
    table.  Each method reads the clock ([now]) once. *)

From S2P Require Import Prelude Constants.

Record TokenBucket := {
  tokens : float;
  max_tokens : float;
  refill_rate : float;
  last_refill : float;
}.

Definition consume (now : float) (count : Z) (b : TokenBucket) : bool * TokenBucket :=
  let elapsed := (now - last_refill b)%F in
  let t := fmin (max_tokens b) (tokens b + elapsed * refill_rate b)%F in
  let with_tokens t' := {| tokens := t'; max_tokens := max_tokens b;
                           refill_rate := refill_rate b; last_refill := now |} in
  if fle (fz count) t then (true, with_tokens (t - fz count)%F) else (false, with_tokens t).

Module RateLimiter.

Record t := {
  rl_max_tokens : Z;
  rl_refill_rate : float;
  _buckets : gmap string TokenBucket;
  _slowmode_last : gmap string float;
}.

Definition init (max_tokens : Z) (refill_rate : float) : t :=
  {| rl_max_tokens := max_tokens; rl_refill_rate := refill_rate;
     _buckets := ∅; _slowmode_last := ∅ |}.

Definition set_buckets (f : gmap string TokenBucket → gmap string TokenBucket) (s : t) : t :=
  {| rl_max_tokens := rl_max_tokens s; rl_refill_rate := rl_refill_rate s;
     _buckets := f (_buckets s); _slowmode_last := _slowmode_last s |}.

Definition set_slowmode (f : gmap string float → gmap string float) (s : t) : t :=
  {| rl_max_tokens := rl_max_tokens s; rl_refill_rate := rl_refill_rate s;
     _buckets := _buckets s; _slowmode_last := f (_slowmode_last s) |}.

(** An entry untouched for more than [max_age] seconds. *)
Definition stale (now max_age last : float) : bool := flt max_age (now - last)%F.

Definition _cleanup_stale_locked (now max_age : float) (s : t) : t :=
  set_slowmode (base.filter (λ kv, stale now max_age kv.2 = false))
    (set_buckets (base.filter (λ kv, stale now max_age (last_refill kv.2) = false)) s).

Definition new_bucket (now : float) (s : t) : TokenBucket :=
  {| tokens := fz (rl_max_tokens s); max_tokens := fz (rl_max_tokens s);
     refill_rate := rl_refill_rate s; last_refill := now |}.

Definition table_full {A} (m : gmap string A) : bool :=
  MAX_RATE_LIMIT_BUCKETS <=? Z.of_nat (size m).

(** The insertion of a missing bucket, with the cap on the table. *)
Definition ensure_bucket (now : float) (identity_hash : string) : M t unit :=
  let! s := get in
  match _buckets s !! identity_hash with
  | Some _ => ret tt
  | None =>
      when (table_full (_buckets s)) (
        modify (_cleanup_stale_locked now (fz 600)) ;;
        let! s := get in
        when (table_full (_buckets s)) (raise RateLimitExceeded "Too many tracked identities")) ;;
      let! s := get in
      modify (set_buckets (<[identity_hash := new_bucket now s]>))
  end.

Definition check_rate_limit (now : float) (identity_hash : string) : M t bool :=
  ensure_bucket now identity_hash ;;
  let! s := get in
  match _buckets s !! identity_hash with
  | None => raise KeyError identity_hash
  | Some bucket =>
      let (ok, bucket') := consume now 1 bucket in
      modify (set_buckets (<[identity_hash := bucket']>)) ;;
      if ok then ret true else raise RateLimitExceeded "Rate limit exceeded"
  end.

Definition slow_key (identity_hash channel_id : string) : string :=
  String.append identity_hash (String.append ":" channel_id).

Definition check_slowmode (now : float) (identity_hash channel_id : string)
    (slowmode_seconds : Z) : M t bool :=
  if slowmode_seconds <=? 0 then ret true
  else
    let key := slow_key identity_hash channel_id in
    let! s := get in
    when (table_full (_slowmode_last s)) (
      modify (_cleanup_stale_locked now (fz 600)) ;;
      let! s := get in
      when (table_full (_slowmode_last s))
        (raise RateLimitExceeded "Too many tracked slowmode entries")) ;;
    let! s := get in
    let last := default (fz 0) (_slowmode_last s !! key) in
    if flt (now - last)%F (fz slowmode_seconds)
    then raise RateLimitExceeded "Slowmode active"
    else
      modify (set_slowmode (<[key := now]>)) ;;
      ret true.

Definition cleanup_stale (now max_age : float) : M t unit :=
  modify (_cleanup_stale_locked now max_age).
End RateLimiter.

(** ** The token bucket *)

Definition bucket_ok (b : TokenBucket) : Prop :=
  (fz 0 <= tokens b)%F ∧ (tokens b <= max_tokens b)%F ∧ (fz 0 <= refill_rate b)%F.

(** A bucket asked for one token at each time of a list: the answers and the
    bucket it ends with. *)
Fixpoint consume_all (ts : list float) (b : TokenBucket) : list bool * TokenBucket :=
  match ts with
  | [] => ([], b)
  | t :: ts =>
      let (ok, b1) := consume t 1 b in
      let (oks, b2) := consume_all ts b1 in
      (ok :: oks, b2)
  end.

Definition granted (l : list bool) : Z := zlen (List.filter id l).

(** Times that never go back. *)
Fixpoint ascending (t0 : float) (ts : list float) : Prop :=
  match ts with
  | [] => True
  | t :: ts => (t0 <= t)%F ∧ ascending t ts
  end.

Lemma consume_fields now n b : let b' := (consume now n b).2 in
  max_tokens b' = max_tokens b ∧ refill_rate b' = refill_rate b ∧ last_refill b' = now.
Proof. unfold consume. by destruct (fle _ _). Qed.

(** One request: what the bucket holds afterwards and what it granted stay
    under what it held plus the refill. *)
Lemma consume_spec now b :
  bucket_ok b → (last_refill b <= now)%F →
  let (ok, b') := consume now 1 b in
  bucket_ok b' ∧
  (tokens b' + fz (if ok then 1 else 0)
     <= tokens b + refill_rate b * (now - last_refill b))%F.
Proof.
  intros (H0 & Hm & Hr) Ht. unfold consume, bucket_ok.
  set (e := (now - last_refill b)%F).
  assert (He : (fz 0 <= e)%F) by (unfold e, fz, QArith_base.inject_Z in *; Lqa.lra).
  assert (Hp : (fz 0 <= e * refill_rate b)%F) by (unfold fz, QArith_base.inject_Z in *; Lqa.nra).
  assert (H1 : (fz 0 < fz 1)%F) by by apply fz_lt.
  change (if true then 1 else 0) with 1. change (if false then 1 else 0) with 0.
  destruct (fle (fz 1) _) eqn:E; simpl; unfold fz, QArith_base.inject_Z in *;
    (split; [repeat split|]); flra.
Qed.

(** a bucket lets through at most its current tokens plus what it refills:
    over any sequence of requests at times that never go back, the number of
    granted requests is at most [tokens + refill_rate * (last - first)], so
    never more than the burst [max_tokens] plus the rate times the elapsed
    time. *)
Theorem token_bucket_bound (ts : list float) (b : TokenBucket) :
  bucket_ok b → ascending (last_refill b) ts →
  let (oks, b') := consume_all ts b in
  (fz (granted oks) <= tokens b + refill_rate b * (last_refill b' - last_refill b))%F
  ∧ (fz (granted oks) <= max_tokens b + refill_rate b * (last_refill b' - last_refill b))%F.
Proof.
  intros Hb Ha.
  assert (let (oks, b') := consume_all ts b in
    (tokens b' + fz (granted oks)
      <= tokens b + refill_rate b * (last_refill b' - last_refill b))%F ∧ bucket_ok b') as H.
  { revert b Hb Ha. induction ts as [|t ts IH]; intros b Hb Ha; simpl in *.
    - split; [change (fz (granted [])) with (QArith_base.Qmake 0 1); Lqa.lra|done].
    - destruct Ha as [Ht Ha]. pose proof (consume_spec t b Hb Ht) as Hc.
      pose proof (consume_fields t 1 b) as Hf.
      destruct (consume t 1 b) as [ok b1]; simpl in *. destruct Hc as [Hb1 Hc].
      destruct Hf as (Hm & Hr & Hl). rewrite <- Hl in Ha. specialize (IH b1 Hb1 Ha).
      destruct (consume_all ts b1) as [oks b2]. destruct IH as [IH Hb2]. split; [|done].
      rewrite Hr, Hl in IH. unfold granted in *. simpl.
      destruct ok; simpl; rewrite ?zlen_cons;
        unfold fz in *; rewrite ?QArith_base.inject_Z_plus;
        change (QArith_base.inject_Z 1) with (QArith_base.Qmake 1 1) in *;
        change (QArith_base.inject_Z 0) with (QArith_base.Qmake 0 1) in *; Lqa.lra. }
  destruct (consume_all ts b) as [oks b']. destruct H as [H (H0 & _)].
  destruct Hb as (_ & Hm & _). change (fz 0) with (QArith_base.Qmake 0 1) in *. split; Lqa.lra.
Qed.

(** C3 at the default bucket (burst 10, one token per second): twelve requests
    in the same second, and what the bound says of them. *)
Lemma token_bucket_bound_witness :
  let b := {| tokens := fz 10; max_tokens := fz 10; refill_rate := fz 1; last_refill := fz 0 |} in
  let ts := repeat (fz 1) 12 in
  granted (consume_all ts b).1 = 10 ∧ (fz (granted (consume_all ts b).1) <= fz 11)%F.
Proof.
  split; [vm_compute; reflexivity|].
  pose proof (token_bucket_bound (repeat (fz 1) 12)
    {| tokens := fz 10; max_tokens := fz 10; refill_rate := fz 1; last_refill := fz 0 |}) as H.
  assert (H' := H ltac:(repeat split; vm_compute; congruence)
                  ltac:(repeat split; vm_compute; congruence)).
  vm_compute in H'. vm_compute. tauto.
Defined.

(** The limiter has [n] tokens for an identity. *)
Definition tokens_left (now : float) (h : string) (n : Z) (s : RateLimiter.t) : Prop :=
  match RateLimiter._buckets s !! h with
  | Some b => bucket_ok b ∧ (last_refill b <= now)%F ∧ (fz n <= tokens b)%F
  | None => RateLimiter.table_full (RateLimiter._buckets s) = false ∧ n ≤ RateLimiter.rl_max_tokens s
            ∧ (fz 0 <= RateLimiter.rl_refill_rate s)%F
  end.

Lemma consume_left now now' n b : 1 ≤ n → bucket_ok b → (last_refill b <= now)%F → (now <= now')%F → (fz n <= tokens b)%F →
  ∃ b', consume now 1 b = (true, b') ∧ bucket_ok b' ∧ (last_refill b' <= now')%F ∧ (fz (n - 1) <= tokens b')%F.
Proof.
  intros Hn Hb Ht Hle Hk. pose proof (consume_spec now b Hb Ht) as Hspec. pose proof (consume_fields now 1 b) as (_ & _ & Hl).
  unfold consume in *. set (e := (now - last_refill b)%F) in *.
  assert (He : (fz 0 <= e)%F) by (unfold e, fz, QArith_base.inject_Z in *; Lqa.lra).
  destruct Hb as (H0 & Hm & Hr).
  assert (Hp : (fz 0 <= e * refill_rate b)%F) by (unfold fz, QArith_base.inject_Z in *; Lqa.nra).
  assert (Hn1 : (fz 1 <= fz n)%F) by by apply fz_le.
  assert (Htok : (fz n <= fmin (max_tokens b) (tokens b + e * refill_rate b))%F).
  { clear -Hk Hm Hp. change (fz 0) with (QArith_base.Qmake 0 1) in *. generalize dependent (fz n). intros q Hq. flra. }
  assert (fle (fz 1) (fmin (max_tokens b) (tokens b + e * refill_rate b)%F) = true) as E.
  { apply fle_true. eapply QArith_base.Qle_trans; [exact Hn1|exact Htok]. }
  rewrite E in *. eexists. split; [done|]. split; [apply Hspec|]. simpl in *. split; [done|].
  replace (fz (n - 1)) with (QArith_base.inject_Z (n - 1)) by done. unfold Z.sub, fz in *. rewrite QArith_base.inject_Z_plus.
  change (QArith_base.inject_Z (- (1))) with (QArith_base.Qmake (-1) 1). change (QArith_base.inject_Z 1) with (QArith_base.Qmake 1 1).
  clear -Htok. generalize dependent (fmin (max_tokens b) (tokens b + e * refill_rate b)%F). generalize (QArith_base.inject_Z n). intros. Lqa.lra.
Qed.

(** With a token left the limiter lets a request pass. *)
Lemma rate_limit_passes now now' h n s : 1 ≤ n → (now <= now')%F → tokens_left now h n s →
  ∃ s', RateLimiter.check_rate_limit now h s = (Ok true, s') ∧ tokens_left now' h (n - 1) s'.
Proof.
  intros Hn Hle H.
  assert (∃ s1 b, RateLimiter.ensure_bucket now h s = (Ok tt, s1) ∧ RateLimiter._buckets s1 !! h = Some b
    ∧ bucket_ok b ∧ (last_refill b <= now)%F ∧ (fz n <= tokens b)%F) as (s1 & b & E & Eb & Hb & Hl & Hk).
  { unfold RateLimiter.ensure_bucket, bind, get, tokens_left in *. cbn beta iota.
    destruct (RateLimiter._buckets s !! h) as [b|] eqn:Eb; [by exists s, b|]. destruct H as (Hf & Hm & Hr). rewrite Hf.
    simpl. eexists _, _. split; [reflexivity|]. simpl. rewrite lookup_insert_eq. split; [done|]. unfold bucket_ok. simpl.
    assert ((fz 0 <= fz (RateLimiter.rl_max_tokens s))%F) by (apply fz_le; lia).
    assert ((fz n <= fz (RateLimiter.rl_max_tokens s))%F) by (by apply fz_le).
    split_and!; try done; apply QArith_base.Qle_refl. }
  unfold RateLimiter.check_rate_limit. rewrite (bind_run_ok _ _ _ _ _ E), (bind_run_ok get _ s1 s1 s1) by done. rewrite Eb.
  destruct (consume_left now now' n b) as (b' & -> & Hb'); [done..|]. eexists. split; [reflexivity|].
  unfold tokens_left. simpl. by rewrite lookup_insert_eq.
Qed.

(** ** Slowmode *)

(** The operations other callers may interleave between two messages. *)
Inductive rl_op :=
  | OpRate (now : float) (identity_hash : string)
  | OpSlow (now : float) (identity_hash channel_id : string) (slowmode_seconds : Z)
  | OpCleanup (now max_age : float).

Definition op_time (o : rl_op) : float :=
  match o with OpRate t _ | OpSlow t _ _ _ | OpCleanup t _ => t end.

(** The maintenance loop cleans with the default age (3600 s), the checks
    themselves with 600 s. *)
Definition op_age_ok (o : rl_op) : Prop :=
  match o with OpCleanup _ age => (fz 600 <= age)%F | _ => True end.

Definition run_op (o : rl_op) (s : RateLimiter.t) : RateLimiter.t :=
  match o with
  | OpRate t i => (RateLimiter.check_rate_limit t i s).2
  | OpSlow t i c n => (RateLimiter.check_slowmode t i c n s).2
  | OpCleanup t age => (RateLimiter.cleanup_stale t age s).2
  end.

Definition run_ops (os : list rl_op) (s : RateLimiter.t) : RateLimiter.t :=
  foldl (λ s o, run_op o s) s os.

Import RateLimiter.

(** The table remembers a use of [key] not older than [t1], unless more than
    600 seconds have passed. *)
Definition remembered (key : string) (t1 now : float) (s : t) : Prop :=
  (∃ u, _slowmode_last s !! key = Some u ∧ (t1 <= u)%F) ∨ (t1 + fz 600 < now)%F.

Lemma cleanup_remembered key t1 now age s :
  (fz 600 <= age)%F → remembered key t1 now s →
  remembered key t1 now (_cleanup_stale_locked now age s).
Proof.
  intros Hage [(u & Hu & Hle)|Hlate]; [|by right].
  destruct (stale now age u) eqn:E.
  - right. unfold stale in E. flra.
  - left. exists u. split; [|done]. simpl. by apply map_lookup_filter_Some.
Qed.

Lemma remembered_later key t1 now now' s :
  (now <= now')%F → remembered key t1 now s → remembered key t1 now' s.
Proof. intros Hle [H|H]; [by left|right]. flra. Qed.

Lemma ensure_bucket_slow now i key t1 s :
  remembered key t1 now s → remembered key t1 now (ensure_bucket now i s).2.
Proof.
  intros H. unfold ensure_bucket, bind, get, when, modify, ret, raise. simpl.
  destruct (_buckets s !! i); simpl; [done|].
  destruct (table_full (_buckets s)); simpl; [|done].
  apply (cleanup_remembered key t1 now (fz 600)) in H; [|by apply fz_le].
  by destruct (table_full _).
Qed.

Lemma check_rate_limit_slow now i key t1 s :
  remembered key t1 now s → remembered key t1 now (check_rate_limit now i s).2.
Proof.
  intros H. unfold check_rate_limit, bind. pose proof (ensure_bucket_slow now i key t1 s H) as H'.
  destruct (ensure_bucket now i s) as [[[]|e] s1]; simpl in *; [|done].
  destruct (_buckets s1 !! i) as [b|]; simpl; [|done].
  destruct (consume now 1 b) as [[] b']; simpl; done.
Qed.

Lemma check_slowmode_slow now i c n key t1 s :
  (t1 <= now)%F → remembered key t1 now s → remembered key t1 now (check_slowmode now i c n s).2.
Proof.
  intros Ht H. unfold check_slowmode, bind, get, when, modify, ret, raise.
  destruct (n <=? 0); simpl; [done|].
  assert (Hins : ∀ s, remembered key t1 now s →
            remembered key t1 now (set_slowmode (<[slow_key i c := now]>) s)).
  { intros s0 [(u & Hu & Hle)|Hl]; [left|by right]. simpl.
    destruct (decide (slow_key i c = key)) as [<-|Hne].
    - exists now. by rewrite lookup_insert_eq.
    - exists u. by rewrite lookup_insert_ne. }
  destruct (table_full (_slowmode_last s)); simpl.
  - apply (cleanup_remembered key t1 now (fz 600)) in H; [|by apply fz_le].
    destruct (table_full _); simpl; [done|]. destruct (flt _ _); simpl; auto.
  - destruct (flt _ _); simpl; auto.
Qed.

Lemma run_op_remembered o key t1 now s :
  (t1 <= now)%F → (now <= op_time o)%F → op_age_ok o →
  remembered key t1 now s → remembered key t1 (op_time o) (run_op o s).
Proof.
  intros Ht Hn Ha H. apply (remembered_later _ _ _ (op_time o)) in H; [|done].
  assert ((t1 <= op_time o)%F) by flra.
  destruct o; simpl in *; auto using check_rate_limit_slow, check_slowmode_slow, cleanup_remembered.
Qed.

Lemma run_ops_remembered os key t1 now t2 s :
  (t1 <= now)%F → ascending now (map op_time os ++ [t2]) → Forall op_age_ok os →
  remembered key t1 now s → remembered key t1 t2 (run_ops os s).
Proof.
  revert now s. induction os as [|o os IH]; intros now s Ht Hasc Hage H; simpl in *.
  - eapply remembered_later; [|done]. tauto.
  - destruct Hasc as [H1 H2]. inversion Hage; subst.
    apply (IH (op_time o)); try done; [flra|]. by apply (run_op_remembered o key t1 now).
Qed.

(** after a message accepted at [t1], whatever checks and clean-ups the
    node runs in between, a second message of the same identity on the same
    channel is refused before [t1 + slowmode] (slowmode up to the 600 seconds
    the full-table clean-up keeps an entry for). *)
Theorem slowmode_spacing (s s1 : RateLimiter.t) (t1 t2 : float) (ident ch : string) (secs : Z)
    (os : list rl_op) :
  0 < secs ≤ 600 →
  check_slowmode t1 ident ch secs s = (Ok true, s1) →
  ascending t1 (map op_time os ++ [t2]) → Forall op_age_ok os →
  (t2 < t1 + fz secs)%F →
  (check_slowmode t2 ident ch secs (run_ops os s1)).1 ≠ Ok true.
Proof.
  intros Hsecs Hok Hasc Hage Ht2.
  assert (Hrem : remembered (slow_key ident ch) t1 t1 s1).
  { left. exists t1. split; [|flra]. unfold check_slowmode in Hok.
    destruct (secs <=? 0) eqn:E; [apply Z.leb_le in E; lia|].
    minv; simplify_eq; apply lookup_insert_eq. }
  pose proof (run_ops_remembered os (slow_key ident ch) t1 t1 t2 s1
                ltac:(flra) Hasc Hage Hrem) as H.
  assert (Hle : (fz secs <= fz 600)%F) by (apply fz_le; lia).
  assert (Hno : ∀ s2, remembered (slow_key ident ch) t1 t2 s2 →
     flt (t2 - default (fz 0) (_slowmode_last s2 !! slow_key ident ch))%F (fz secs) = true).
  { intros s2 [(u & -> & Hu)|Hlate]; simpl; flra. }
  intros Hcontra. unfold check_slowmode, bind, get, when, modify, ret, raise in Hcontra.
  destruct (secs <=? 0) eqn:E; [apply Z.leb_le in E; lia|]. simpl in Hcontra.
  destruct (table_full _); simpl in Hcontra.
  - apply (cleanup_remembered _ t1 t2 (fz 600)) in H; [|by apply fz_le].
    destruct (table_full _); simpl in Hcontra; [done|].
    apply Hno in H. simpl in H. by rewrite H in Hcontra.
  - by rewrite (Hno _ H) in Hcontra.
Qed.

Lemma slowmode_spacing_witness :
  let s1 := (check_slowmode (fz 1000) "alice" "general" 30 (init 10 (fz 1))).2 in
  (check_slowmode (fz 1010) "alice" "general" 30
     (run_ops [OpRate (fz 1001) "bob"; OpSlow (fz 1005) "bob" "general" 30;
               OpCleanup (fz 1006) (fz 3600)] s1)).1 ≠ Ok true.
Proof.
  apply (slowmode_spacing (init 10 (fz 1)) _ (fz 1000) (fz 1010) "alice" "general" 30
           [OpRate (fz 1001) "bob"; OpSlow (fz 1005) "bob" "general" 30;
            OpCleanup (fz 1006) (fz 3600)]).
  - lia.
  - vm_compute. reflexivity.
  - repeat split; vm_compute; congruence.
  - repeat constructor; vm_compute; congruence.
  - vm_compute. reflexivity.
Defined.

(** ** Capacity *)

Definition rl_bounded (s : t) : Prop :=
  Z.of_nat (size (_buckets s)) ≤ MAX_RATE_LIMIT_BUCKETS
  ∧ Z.of_nat (size (_slowmode_last s)) ≤ MAX_RATE_LIMIT_BUCKETS.

Lemma size_filter_le {A} (P : string * A → Prop) `{!∀ x, Decision (P x)} (m : gmap string A) :
  (size (base.filter P m) ≤ size m)%nat.
Proof. apply map_subseteq_size, map_filter_subseteq. Qed.

Lemma size_insert_le {A} k (a : A) (m : gmap string A) : (size (<[k := a]> m) ≤ S (size m))%nat.
Proof.
  destruct (m !! k) eqn:E; [|by rewrite map_size_insert_None].
  rewrite map_size_insert_Some by eauto. lia.
Qed.

Lemma size_insert_present {A} k (a b : A) (m : gmap string A) :
  m !! k = Some b → size (<[k := a]> m) = size m.
Proof. intros. apply map_size_insert_Some. eauto. Qed.

Lemma cleanup_bounded now age s : rl_bounded s → rl_bounded (_cleanup_stale_locked now age s).
Proof.
  unfold rl_bounded, _cleanup_stale_locked, set_buckets, set_slowmode. simpl. intros [H1 H2].
  split; (etrans; [apply inj_le, size_filter_le|done]).
Qed.

Lemma insert_bounded {A} k (a : A) m : table_full m = false →
  Z.of_nat (size (<[k := a]> m)) ≤ MAX_RATE_LIMIT_BUCKETS.
Proof.
  unfold table_full. rewrite Z.leb_gt. intros H. pose proof (size_insert_le k a m). lia.
Qed.

Lemma ensure_bucket_bounded now i : mrel (keeps rl_bounded) (ensure_bucket now i).
Proof.
  intros s H. unfold ensure_bucket, bind, get, when, modify, ret, raise. cbn beta iota.
  destruct (_buckets s !! i); [done|].
  destruct (table_full (_buckets s)) eqn:E1.
  - apply (cleanup_bounded now (fz 600)) in H.
    set (s1 := _cleanup_stale_locked now (fz 600) s) in *.
    destruct (table_full (_buckets s1)) eqn:E2; [done|].
    split; [by apply insert_bounded|apply H].
  - split; [by apply insert_bounded|apply H].
Qed.

(** the limiter's memory is bounded: every operation, whether it allows
    or refuses, leaves at most [MAX_RATE_LIMIT_BUCKETS] buckets and as many
    slowmode entries. *)
Theorem rate_limiter_bounded (o : rl_op) (s : RateLimiter.t) :
  rl_bounded s → rl_bounded (run_op o s).
Proof.
  destruct o as [now i|now i c n|now age]; simpl; [| |apply cleanup_bounded].
  - intros H. unfold check_rate_limit, bind.
    pose proof (ensure_bucket_bounded now i s H) as H'.
    destruct (ensure_bucket now i s) as [[[]|e] s1]; simpl in *; [|done].
    destruct (_buckets s1 !! i) as [b|] eqn:E; simpl; [|done].
    destruct (consume now 1 b) as [ok b']. destruct H' as [H1 H2].
    destruct ok; simpl; (split; simpl; [by rewrite (size_insert_present i b' b)|done]).
  - intros H. unfold check_slowmode, bind, get, when, modify, ret, raise. cbn beta iota.
    destruct (n <=? 0); [done|].
    destruct (table_full (_slowmode_last s)) eqn:E1.
    + apply (cleanup_bounded now (fz 600)) in H.
      set (s1 := _cleanup_stale_locked now (fz 600) s) in *.
      destruct (table_full (_slowmode_last s1)) eqn:E2; [done|].
      destruct (flt _ _); [done|]. split; [apply H|by apply insert_bounded].
    + destruct (flt _ _); [done|]. split; [apply H|by apply insert_bounded].
Qed.

Lemma rate_limiter_bounded_witness :
  rl_bounded (run_op (OpRate (fz 5) "alice") (init 10 (fz 1))).
Proof. apply rate_limiter_bounded. split; vm_compute; congruence. Defined.
