(* ===== verification/Ban.v ===== *)
(** * Bans ([hokora/security/ban.py])

    The read-side gate [check_not_blocked], the rejection counters, and
    [BanManager], which owns the mutation of [Identity.blocked]. *)

From S2P Require Import Prelude Constants Models Queries.

(** The process-wide counter [_BAN_REJECTIONS]. *)
Abbreviation ban_counts := (gmap string Z).

Definition record_ban_rejection (surface : string) (c : ban_counts) : ban_counts :=
  <[surface := default 0 (c !! surface) + 1]> c.

Definition check_not_blocked (identity_hash : string) : M DB unit :=
  if negb (str_true identity_hash) then ret tt
  else
    let! db := get in
    if IdentityRepo.is_blocked identity_hash db
    then raise PermissionDenied "Identity is blocked" else ret tt.

Definition is_blocked (identity_hash : string) (db : DB) : bool :=
  if negb (str_true identity_hash) then false else IdentityRepo.is_blocked identity_hash db.

Record BanResult := {
  br_target : string;
  br_already_blocked : bool;
  br_sealed_channels : list (string * string);
  br_pending_dropped : Z;
}.

Record UnbanResult := { ur_target : string; ur_was_blocked : bool }.

Module BanManager.

Definition set_blocked (now : float) (actor : string) (i : Identity) : Identity := {|
  id_hash := id_hash i; id_display_name := id_display_name i; id_public_key := id_public_key i;
  id_first_seen := id_first_seen i; id_last_seen := id_last_seen i; id_blocked := true;
  id_blocked_at := Some now; id_blocked_by := Some actor |}.

Definition clear_blocked (i : Identity) : Identity := {|
  id_hash := id_hash i; id_display_name := id_display_name i; id_public_key := id_public_key i;
  id_first_seen := id_first_seen i; id_last_seen := id_last_seen i; id_blocked := false;
  id_blocked_at := None; id_blocked_by := None |}.

(** [SELECT DISTINCT id, name FROM channels JOIN role_assignments ...] *)
Definition sealed_channels_of (target : string) (db : DB) : list (string * string) :=
  map (λ c, (ch_id c, ch_name c))
    (List.filter (λ c, ch_sealed c && existsb (λ a, bool_decide (ra_identity_hash a = target)
                                          && bool_decide (ra_channel_id a = Some (ch_id c)))
                                        (role_assignments db)) (rows (channels db))).

Definition is_target (target : string) (p : PendingSealedDistribution) : bool :=
  bool_decide (psd_identity_hash p = target).

Definition ban (node_owner_hash : option string) (now : float) (target actor : string)
    (reason : option string) : M DB BanResult :=
  if negb (str_true target) then raise BanError "Target identity hash is required"
  else if ostr_true node_owner_hash && bool_decide (Some target = node_owner_hash)
  then raise BanError "Refusing to ban the node-owner identity"
  else
    let! already_blocked := gets (IdentityRepo.is_blocked target) in
    IdentityRepo.upsert now target (set_blocked now actor) ;;
    let! sealed_channels := gets (sealed_channels_of target) in
    let! pending_dropped :=
      gets (λ db, zlen (List.filter (is_target target) (pending_sealed_distributions db))) in
    modify (set_pending_sealed_distributions (List.filter (λ p, negb (is_target target p)))) ;;
    AuditLogRepo.log now actor "identity_ban" (Some target) None
      [("reason", val_of_ostr reason);
       ("sealed_channels_at_ban", VList (map (λ c, VStr c.1) sealed_channels));
       ("pending_dropped", VInt pending_dropped)] ;;
    ret {| br_target := target; br_already_blocked := already_blocked;
           br_sealed_channels := sealed_channels; br_pending_dropped := pending_dropped |}.

Definition unban (now : float) (target actor : string) (reason : option string)
    : M DB UnbanResult :=
  if negb (str_true target) then raise BanError "Target identity hash is required"
  else
    let! ident := gets (IdentityRepo.get_by_hash target) in
    match ident with
    | None => ret {| ur_target := target; ur_was_blocked := false |}
    | Some i =>
        modify (set_identities (<[target := clear_blocked i]>)) ;;
        AuditLogRepo.log now actor "identity_unban" (Some target) None
          [("reason", val_of_ostr reason); ("was_blocked", VBool (id_blocked i))] ;;
        ret {| ur_target := target; ur_was_blocked := id_blocked i |}
    end.

Definition blocked_at_leb (a b : Identity) : bool :=
  fle (default (fz 0) (id_blocked_at b)) (default (fz 0) (id_blocked_at a)).

Definition list_banned (db : DB) : list Identity :=
  sort_by blocked_at_leb (List.filter id_blocked (rows (identities db))).
End BanManager.

Import BanManager.

(** a ban that succeeds takes effect at every gate at once: the gate
    raises for the target, no queued sealed-key distribution for it is left,
    and nobody else's status changes. *)
Theorem ban_takes_effect (owner : option string) (now : float) (target actor : string)
    (reason : option string) (db db' : DB) (r : BanResult) :
  ban owner now target actor reason db = (Ok r, db') →
  (check_not_blocked target db').1 = Raise (Exn PermissionDenied "Identity is blocked")
  ∧ PendingSealedDistributionRepo.list_for_identity target db' = []
  ∧ (∀ other, other ≠ target → is_blocked other db' = is_blocked other db)
  ∧ br_already_blocked r = is_blocked target db.
Proof.
  intros H. unfold ban in H. destruct (str_true target) eqn:Ht; simpl in H; [|done].
  destruct (ostr_true owner && _); [done|].
  injection H as <- <-. simpl. split_and!.
  - unfold check_not_blocked. rewrite Ht. simpl.
    unfold bind, get, IdentityRepo.is_blocked, IdentityRepo.get_by_hash. simpl.
    rewrite lookup_partial_alter_eq. by destruct (identities db !! target).
  - unfold PendingSealedDistributionRepo.list_for_identity. simpl.
    induction (pending_sealed_distributions db) as [|p l IH]; simpl; [done|].
    unfold is_target in *. destruct (bool_decide (psd_identity_hash p = target)) eqn:E; simpl; [done|].
    by rewrite E.
  - intros other Hne. unfold is_blocked, IdentityRepo.is_blocked, IdentityRepo.get_by_hash.
    simpl. by rewrite lookup_partial_alter_ne.
  - unfold is_blocked. by rewrite Ht.
Qed.

Lemma ban_takes_effect_witness :
  let db' := (ban (Some "owner") (fz 7) "mallory" "owner" None empty_db).2 in
  (check_not_blocked "mallory" db').1 = Raise (Exn PermissionDenied "Identity is blocked").
Proof.
  apply (ban_takes_effect (Some "owner") (fz 7) "mallory" "owner" None empty_db _
    {| br_target := "mallory"; br_already_blocked := false; br_sealed_channels := [];
       br_pending_dropped := 0 |}).
  vm_compute. reflexivity.
Defined.

(** ** The node owner *)

Inductive ban_op :=
  | OpBan (now : float) (target actor : string) (reason : option string)
  | OpUnban (now : float) (target actor : string) (reason : option string).

Definition run_ban_op (owner : string) (o : ban_op) (db : DB) : DB :=
  match o with
  | OpBan now t a r => (ban (Some owner) now t a r db).2
  | OpUnban now t a r => (unban now t a r db).2
  end.

Lemma unban_unblocks now t a r other :
  mrel (keeps (λ db, IdentityRepo.is_blocked other db = false)) (unban now t a r).
Proof.
  intros db H. unfold unban. destruct (str_true t); [|done].
  unfold bind, gets, modify, ret, AuditLogRepo.log. simpl.
  destruct (IdentityRepo.get_by_hash t db) as [i|] eqn:E; simpl; [|done].
  unfold IdentityRepo.is_blocked, IdentityRepo.get_by_hash in *. simpl.
  destruct (decide (t = other)) as [->|Hne].
  - by rewrite lookup_insert_eq.
  - by rewrite lookup_insert_ne.
Qed.

Lemma ban_spares_owner owner now t a r :
  str_true owner = true →
  mrel (keeps (λ db, IdentityRepo.is_blocked owner db = false)) (ban (Some owner) now t a r).
Proof.
  intros Ho db H. unfold ban. destruct (str_true t) eqn:Ht; simpl; [|done].
  rewrite Ho. destruct (bool_decide (Some t = Some owner)) eqn:E; [done|].
  apply bool_decide_eq_false in E. simpl.
  unfold IdentityRepo.is_blocked, IdentityRepo.get_by_hash in *. simpl.
  rewrite lookup_partial_alter_ne; [done|congruence].
Qed.

(** no sequence of ban and unban operations blocks the node owner, who
    the permission resolver would still give every right. *)
Theorem owner_never_banned (owner : string) (os : list ban_op) (db : DB) :
  str_true owner = true → is_blocked owner db = false →
  is_blocked owner (foldl (λ db o, run_ban_op owner o db) db os) = false.
Proof.
  intros Ho. unfold is_blocked. rewrite Ho. simpl. revert db.
  induction os as [|[now t a r|now t a r] os IH]; intros db H; simpl; [done| |]; apply IH.
  - by apply ban_spares_owner.
  - by apply unban_unblocks.
Qed.

Lemma owner_never_banned_witness :
  is_blocked "owner" (foldl (λ db o, run_ban_op "owner" o db) empty_db
    [OpBan (fz 1) "owner" "eve" None; OpBan (fz 2) "bob" "owner" None]) = false.
Proof. apply owner_never_banned; reflexivity. Defined.
