(* ===== verification/Sealed.v ===== *)
(** * Sealed channels ([hokora/security/sealed.py], [sealed_invariant.py])

    [SealedChannelManager] keeps the AES-256-GCM group key of every sealed
    channel with a window of earlier keys; [seal_for_origin] and
    [validate_mirror_payload] are the two entry points every message write
    goes through.

    AES-GCM and the RNS identity's public-key encryption are third-party code:
    they are the interfaces [Aead] and [Envelope], used through the round-trip
    law they document.  Random bytes (keys, nonces) are arguments. *)

From S2P Require Import Prelude Constants Models Queries.

Class Aead := {
  aead_encrypt : bytes → bytes → bytes → bytes → bytes;         (* key nonce plaintext aad *)
  aead_decrypt : bytes → bytes → bytes → bytes → option bytes;  (* key nonce ciphertext aad *)
}.

Class AeadLaws (A : Aead) : Prop := {
  aead_roundtrip : ∀ k n p aad, aead_decrypt k n (aead_encrypt k n p aad) aad = Some p;
}.

Class Envelope := {
  env_encrypt : bytes → bytes;
  env_decrypt : bytes → option bytes;
}.

Class EnvelopeLaws (E : Envelope) : Prop := {
  env_roundtrip : ∀ p, env_decrypt (env_encrypt p) = Some p;
}.

Record key_info := { ki_key : bytes; ki_epoch : Z }.

Definition _MAX_PREVIOUS_KEYS : Z := 5.

Module SealedChannelManager.

Record t := {
  _keys : gmap string key_info;
  _previous_keys : gmap string (list key_info);
}.

Definition init : t := {| _keys := ∅; _previous_keys := ∅ |}.

Definition generate_key (fresh : bytes) (channel_id : string) (s : t) : (bytes * Z) * t :=
  let epoch := match _keys s !! channel_id with Some i => ki_epoch i | None => 0 end + 1 in
  ((fresh, epoch),
   {| _keys := <[channel_id := {| ki_key := fresh; ki_epoch := epoch |}]> (_keys s);
      _previous_keys := _previous_keys s |}).

Definition get_key (channel_id : string) (s : t) : option bytes := ki_key <$> _keys s !! channel_id.

Definition get_epoch (channel_id : string) (s : t) : Z :=
  match _keys s !! channel_id with Some i => ki_epoch i | None => 0 end.

(** [history.append(dict(old_info))], capped at [_MAX_PREVIOUS_KEYS]. *)
Definition push_history (i : key_info) (h : list key_info) : list key_info :=
  let h := h ++ [i] in
  if _MAX_PREVIOUS_KEYS <? zlen h then zlast _MAX_PREVIOUS_KEYS h else h.

Definition rotate_key (fresh : bytes) (channel_id : string) (s : t) : (bytes * Z) * t :=
  let s := match _keys s !! channel_id with
           | None => s
           | Some i =>
               {| _keys := _keys s;
                  _previous_keys :=
                    <[channel_id := push_history i (default [] (_previous_keys s !! channel_id))]>
                      (_previous_keys s) |}
           end in
  generate_key fresh channel_id s.

Section crypto.
Context `{A : Aead}.

Definition encrypt (nonce : bytes) (channel_id : string) (plaintext : bytes) (s : t)
    : res (bytes * bytes * Z) :=
  match _keys s !! channel_id with
  | None => Raise (Exn SealedChannelError "No key for channel")
  | Some i =>
      Ok (nonce, aead_encrypt (ki_key i) nonce plaintext (str_bytes channel_id), ki_epoch i)
  end.

(** The key [decrypt] picks for an epoch. *)
Definition key_for (channel_id : string) (epoch : option Z) (s : t) : res bytes :=
  match _keys s !! channel_id with
  | None => Raise (Exn SealedChannelError "No key for channel")
  | Some i =>
      if match epoch with None => true | Some e => e =? ki_epoch i end then Ok (ki_key i)
      else
        match find (λ p, match epoch with Some e => ki_epoch p =? e | None => false end)
                (default [] (_previous_keys s !! channel_id)) with
        | Some p => Ok (ki_key p)
        | None => Raise (Exn SealedChannelError "Key epoch unavailable for channel")
        end
  end.

Definition decrypt (channel_id : string) (nonce ciphertext : bytes) (epoch : option Z) (s : t)
    : res bytes :=
  match key_for channel_id epoch s with
  | Raise e => Raise e
  | Ok key =>
      match aead_decrypt key nonce ciphertext (str_bytes channel_id) with
      | Some p => Ok p
      | None => Raise (Exn CryptoError "InvalidTag")
      end
  end.
End crypto.

Section persistence.
Context `{E : Envelope}.

Definition persist_key (now : float) (node_hash channel_id : string) (s : t) : M DB unit :=
  match _keys s !! channel_id with
  | None => raise SealedChannelError "No key for channel"
  | Some i =>
      check_fk channels channel_id ;;
      modify (set_sealed_keys (λ l, l ++ [{|
        sk_id := next_rowid l; sk_channel_id := channel_id; sk_epoch := ki_epoch i;
        sk_encrypted_key_blob := env_encrypt (ki_key i); sk_identity_hash := node_hash;
        sk_created_at := now |}]))
  end.

(** The rows [load_keys] reads for one channel, newest epoch first. *)
Definition key_rows (node_hash channel_id : string) (db : DB) : list SealedKey :=
  sql_limit (_MAX_PREVIOUS_KEYS + 1)
    (sort_by (λ a b, sk_epoch b <=? sk_epoch a)
      (List.filter (λ k, bool_decide (sk_channel_id k = channel_id)
                         && bool_decide (sk_identity_hash k = node_hash)) (sealed_keys db))).

Definition open_row (r : SealedKey) : option key_info :=
  (λ k, {| ki_key := k; ki_epoch := sk_epoch r |}) <$> env_decrypt (sk_encrypted_key_blob r).

Definition load_channel (node_hash : string) (db : DB) (s : t) (channel_id : string) : t :=
  match key_rows node_hash channel_id db with
  | [] => s
  | newest :: older =>
      match open_row newest with
      | None => s
      | Some i =>
          let history := omap open_row (reverse older) in
          {| _keys := <[channel_id := i]> (_keys s);
             _previous_keys := if list_true history
                               then <[channel_id := history]> (_previous_keys s)
                               else _previous_keys s |}
      end
  end.

Definition load_keys (node_hash : string) (db : DB) (s : t) : t :=
  foldl (load_channel node_hash db) s (map ch_id (List.filter ch_sealed (rows (channels db)))).
End persistence.
End SealedChannelManager.

Import SealedChannelManager.

(** ** The sealed-channel invariant *)

Definition _channel_is_sealed (channel : option Channel) : bool :=
  match channel with Some c => ch_sealed c | None => false end.

(** The columns of a row that hold a message's content. *)
Record content := {
  c_body : option string;
  c_encrypted_body : option bytes;
  c_nonce : option bytes;
  c_epoch : option Z;
}.

Definition seal_for_origin `{Aead} (nonce : bytes) (channel : Channel) (plaintext : option string)
    (sealed_manager : option SealedChannelManager.t) : res content :=
  if negb (_channel_is_sealed (Some channel))
  then Ok {| c_body := plaintext; c_encrypted_body := None; c_nonce := None; c_epoch := None |}
  else if negb (ostr_true plaintext)
  then Ok {| c_body := None; c_encrypted_body := None; c_nonce := None; c_epoch := None |}
  else
    match sealed_manager with
    | None => Raise (Exn PermissionDenied "Sealed channel: sealed manager not initialised")
    | Some mgr =>
        if negb (olist_true (get_key (ch_id channel) mgr))
        then Raise (Exn PermissionDenied
                      "Sealed channel: no encryption key available for this channel")
        else
          match encrypt nonce (ch_id channel) (str_bytes (or_empty plaintext)) mgr with
          | Raise _ => Raise (Exn PermissionDenied "Sealed channel: encryption failed")
          | Ok (nonce, ciphertext, epoch) =>
              Ok {| c_body := None; c_encrypted_body := Some ciphertext;
                    c_nonce := Some nonce; c_epoch := Some epoch |}
          end
    end.

Definition validate_mirror_payload (channel : option Channel) (wire_body : option string)
    (wire_encrypted_body wire_encryption_nonce : option bytes) (wire_encryption_epoch : option Z)
    : res content :=
  if _channel_is_sealed channel then
    if ostr_true wire_body || negb (olist_true wire_encrypted_body)
    then Raise (Exn SealedChannelError "sealed channel requires ciphertext")
    else Ok {| c_body := None; c_encrypted_body := wire_encrypted_body;
               c_nonce := wire_encryption_nonce; c_epoch := wire_encryption_epoch |}
  else Ok {| c_body := wire_body; c_encrypted_body := None; c_nonce := None; c_epoch := None |}.

(** What a row's content must satisfy: no plaintext on a sealed channel, no
    ciphertext on another. *)
Definition content_ok (sealed : bool) (c : content) : Prop :=
  if sealed then c_body c = None else c_encrypted_body c = None.

Lemma seal_for_origin_ok `{Aead} nonce ch p mgr c :
  seal_for_origin nonce ch p mgr = Ok c → content_ok (ch_sealed ch) c.
Proof.
  unfold seal_for_origin, content_ok. simpl. destruct (ch_sealed ch); simpl.
  - destruct (ostr_true p); simpl; [|by intros [= <-]].
    destruct mgr as [mgr|]; [|done]. destruct (olist_true _); simpl; [|done].
    unfold encrypt. destruct (_keys mgr !! ch_id ch); simpl; [|done]. by intros [= <-].
  - by intros [= <-].
Qed.

Lemma validate_mirror_payload_ok ch b e n ep c :
  validate_mirror_payload ch b e n ep = Ok c → content_ok (_channel_is_sealed ch) c.
Proof.
  unfold validate_mirror_payload, content_ok. destruct (_channel_is_sealed ch).
  - destruct (_ || _); [done|]. by intros [= <-].
  - by intros [= <-].
Qed.
#[export] Hint Resolve seal_for_origin_ok validate_mirror_payload_ok : hok.

(** C5: on a sealed channel a non-empty body is never stored as plaintext:
    either the write is refused with [PermissionDenied] (the channel has no
    usable key), or the row has no body and carries a ciphertext that the
    node's manager decrypts to exactly the bytes of the body. *)
Theorem seal_for_origin_fail_closed {A : Aead} {HA : AeadLaws A} (nonce : bytes) (ch : Channel) (p : string)
    (mgr : option SealedChannelManager.t) :
  ch_sealed ch = true → str_true p = true →
  match seal_for_origin nonce ch (Some p) mgr with
  | Raise e => exn_cls e = PermissionDenied
               ∧ (∀ m, mgr = Some m → olist_true (get_key (ch_id ch) m) = false)
  | Ok c => c_body c = None ∧ ∃ m ct ep, mgr = Some m
            ∧ c_encrypted_body c = Some ct ∧ c_nonce c = Some nonce ∧ c_epoch c = Some ep
            ∧ decrypt (ch_id ch) nonce ct (Some ep) m = Ok (str_bytes p)
  end.
Proof.
  intros Hs Hp. unfold seal_for_origin. simpl. rewrite Hs, Hp. simpl.
  destruct mgr as [m|]; [|by split].
  destruct (olist_true (get_key (ch_id ch) m)) eqn:Ek; simpl; [|split; [done|congruence]].
  unfold encrypt, get_key in *. destruct (_keys m !! ch_id ch) as [i|] eqn:Ei; [|done].
  split; [done|]. exists m; do 2 eexists. split_and!; [done..|]. simpl.
  unfold decrypt, key_for. rewrite Ei, Z.eqb_refl. by rewrite aead_roundtrip.
Qed.

(** ** The window of retained keys *)

Definition history (ch : string) (s : SealedChannelManager.t) : list key_info :=
  default [] (_previous_keys s !! ch).

Definition rotate_all (ch : string) (fs : list bytes) (s : SealedChannelManager.t)
    : SealedChannelManager.t :=
  foldl (λ s f, (rotate_key f ch s).2) s fs.

(** Epochs of retained keys are older than the current one, and there are at
    most [_MAX_PREVIOUS_KEYS] of them. *)
Definition mgr_ok (ch : string) (s : SealedChannelManager.t) : Prop :=
  zlen (history ch s) ≤ _MAX_PREVIOUS_KEYS
  ∧ match _keys s !! ch with
    | Some i => Forall (λ p, ki_epoch p < ki_epoch i) (history ch s)
    | None => history ch s = []
    end.

Lemma zlast_all {A} n (l : list A) : zlen l ≤ n → zlast n l = l.
Proof.
  unfold zlast, zlen. intros H. replace (length l - Z.to_nat n)%nat with 0%nat by lia. done.
Qed.

Lemma push_history_zlast i h : push_history i h = zlast _MAX_PREVIOUS_KEYS (h ++ [i]).
Proof.
  unfold push_history. destruct (Z.ltb_spec _MAX_PREVIOUS_KEYS (zlen (h ++ [i]))); [done|].
  by rewrite zlast_all.
Qed.

Lemma zlast_app_long {A} n (a b : list A) : n ≤ zlen b → zlast n (a ++ b) = zlast n b.
Proof.
  intros Hn. unfold zlast, zlen in *. rewrite length_app, drop_app.
  rewrite (drop_ge a) by lia. simpl. f_equal. lia.
Qed.

Lemma zlast_app_short {A} n (a b : list A) :
  zlen b ≤ n → ∃ a', zlast n (a ++ b) = a' ++ b ∧ ∀ x, x ∈ a' → x ∈ a.
Proof.
  intros Hn. unfold zlast, zlen in *. rewrite length_app, drop_app.
  replace (length a + length b - Z.to_nat n - length a)%nat with 0%nat by lia.
  eexists. split; [done|]. intros x Hx. eapply elem_of_sublist; [done|apply sublist_drop].
Qed.

Lemma elem_of_zlast {A} n (l : list A) x : x ∈ zlast n l → x ∈ l.
Proof. intros H. eapply elem_of_sublist; [done|apply sublist_drop]. Qed.

Lemma rotate_key_state f ch s i :
  _keys s !! ch = Some i →
  let s' := (rotate_key f ch s).2 in
  _keys s' !! ch = Some {| ki_key := f; ki_epoch := ki_epoch i + 1 |}
  ∧ history ch s' = zlast _MAX_PREVIOUS_KEYS (history ch s ++ [i]).
Proof.
  intros Hi. unfold rotate_key. rewrite Hi. unfold generate_key. simpl. rewrite Hi.
  split; [apply lookup_insert_eq|]. unfold history at 1. simpl.
  rewrite lookup_insert_eq. simpl. by rewrite push_history_zlast.
Qed.

(** The key [i0] has [j] younger keys after it in the window. *)
Definition in_window (ch : string) (i0 : key_info) (j : Z) (s : SealedChannelManager.t) : Prop :=
  ∃ a b i, history ch s = a ++ i0 :: b ∧ zlen b = j
    ∧ Forall (λ p, ki_epoch p < ki_epoch i0) a
    ∧ _keys s !! ch = Some i ∧ ki_epoch i = ki_epoch i0 + 1 + j
    ∧ Forall (λ p, ki_epoch i0 < ki_epoch p) b.

(** Every key left is younger than [i0]. *)
Definition dropped (ch : string) (i0 : key_info) (s : SealedChannelManager.t) : Prop :=
  ∃ i, _keys s !! ch = Some i ∧ ki_epoch i0 < ki_epoch i
    ∧ Forall (λ p, ki_epoch i0 < ki_epoch p) (history ch s).

Lemma rotate_dropped ch i0 f s : dropped ch i0 s → dropped ch i0 (rotate_key f ch s).2.
Proof.
  intros (i & Hi & Hlt & Hall). destruct (rotate_key_state f ch s i Hi) as [Hk Hh].
  eexists. split_and!; [done|simpl; lia|]. rewrite Hh, Forall_forall. intros p Hp%elem_of_zlast.
  apply elem_of_app in Hp as [Hp|Hp]; [|by apply list_elem_of_singleton in Hp as ->].
  rewrite Forall_forall in Hall. auto.
Qed.

Lemma rotate_window ch i0 j f s :
  0 ≤ j → in_window ch i0 j s →
  if j <? 4 then in_window ch i0 (j + 1) (rotate_key f ch s).2
  else dropped ch i0 (rotate_key f ch s).2.
Proof.
  intros Hj (a & b & i & Hh & Hb & Ha & Hi & He & Hy).
  destruct (rotate_key_state f ch s i Hi) as [Hk Hh'].
  rewrite Hh, <- app_assoc in Hh'. cbn [app] in Hh'.
  assert (Hy' : Forall (λ p, ki_epoch i0 < ki_epoch p) (b ++ [i])).
  { apply Forall_app. split; [done|]. constructor; [lia|done]. }
  assert (Hb' : zlen (b ++ [i]) = j + 1) by (rewrite zlen_app, Hb; done).
  destruct (Z.ltb_spec j 4) as [Hlt|Hge].
  - destruct (zlast_app_short _MAX_PREVIOUS_KEYS a (i0 :: b ++ [i])) as (a' & E & Hsub).
    { rewrite zlen_cons, Hb'. unfold _MAX_PREVIOUS_KEYS. lia. }
    rewrite E in Hh'. exists a', (b ++ [i]). eexists. split_and!; try done; [|simpl; lia].
    rewrite Forall_forall in Ha |- *. auto.
  - change (a ++ i0 :: b ++ [i]) with (a ++ [i0] ++ (b ++ [i])) in Hh'.
    rewrite app_assoc, zlast_app_long in Hh' by (unfold _MAX_PREVIOUS_KEYS; lia).
    eexists. split_and!; [done|simpl; lia|]. rewrite Hh', Forall_forall.
    intros p Hp%elem_of_zlast. rewrite Forall_forall in Hy'. auto.
Qed.

Lemma rotate_all_dropped ch i0 fs s : dropped ch i0 s → dropped ch i0 (rotate_all ch fs s).
Proof. revert s. induction fs as [|f fs IH]; intros s H; [done|]. by apply IH, rotate_dropped. Qed.

Lemma rotate_all_window ch i0 j fs s :
  0 ≤ j ≤ 4 → in_window ch i0 j s →
  if j + zlen fs <=? 4 then in_window ch i0 (j + zlen fs) (rotate_all ch fs s)
  else dropped ch i0 (rotate_all ch fs s).
Proof.
  revert j s. induction fs as [|f fs IH]; intros j s Hj H.
  - rewrite zlen_nil, Z.add_0_r. by destruct (Z.leb_spec j 4); [|lia].
  - rewrite zlen_cons. pose proof (zlen_nonneg fs). simpl.
    apply (rotate_window _ _ _ f) in H; [|lia]. destruct (Z.ltb_spec j 4).
    + replace (j + (1 + zlen fs)) with (j + 1 + zlen fs) by lia. apply IH; [lia|done].
    + destruct (Z.leb_spec (j + (1 + zlen fs)) 4); [lia|]. by apply rotate_all_dropped.
Qed.

Lemma first_rotation ch i0 f s :
  mgr_ok ch s → _keys s !! ch = Some i0 → in_window ch i0 0 (rotate_key f ch s).2.
Proof.
  intros [Hlen Hok] Hi. rewrite Hi in Hok. destruct (rotate_key_state f ch s i0 Hi) as [Hk Hh].
  destruct (zlast_app_short _MAX_PREVIOUS_KEYS (history ch s) [i0]) as (a & E & Hsub); [done|].
  exists a, []. eexists. split_and!; try done; [by rewrite Hh, E| |simpl; lia].
  rewrite Forall_forall in Hok |- *. auto.
Qed.

Lemma key_for_window ch i0 j s :
  0 ≤ j → in_window ch i0 j s → key_for ch (Some (ki_epoch i0)) s = Ok (ki_key i0).
Proof.
  intros Hj (a & b & i & Hh & _ & Ha & Hi & He & _). unfold key_for. rewrite Hi.
  destruct (Z.eqb_spec (ki_epoch i0) (ki_epoch i)); [lia|].
  change (default [] (_previous_keys s !! ch)) with (history ch s). rewrite Hh.
  clear Hh. induction Ha as [|p a Hp Ha IH]; simpl; [by rewrite Z.eqb_refl|].
  destruct (Z.eqb_spec (ki_epoch p) (ki_epoch i0)); [lia|]. apply IH.
Qed.

Lemma key_for_dropped ch i0 s :
  dropped ch i0 s →
  key_for ch (Some (ki_epoch i0)) s
  = Raise (Exn SealedChannelError "Key epoch unavailable for channel").
Proof.
  intros (i & Hi & He & Hall). unfold key_for. rewrite Hi.
  destruct (Z.eqb_spec (ki_epoch i0) (ki_epoch i)); [lia|].
  change (default [] (_previous_keys s !! ch)) with (history ch s).
  induction Hall as [|p h Hp Hall IH]; simpl; [done|].
  destruct (Z.eqb_spec (ki_epoch p) (ki_epoch i0)); [lia|]. apply IH.
Qed.

(** C14: a message sealed now can be read back after up to five key rotations
    and not after six: the manager retains exactly [_MAX_PREVIOUS_KEYS] earlier
    keys, finds the one of the message's epoch among them, and refuses with
    [SealedChannelError] beyond the window. *)
Theorem rotation_window {A : Aead} {HA : AeadLaws A} (ch : string) (s : SealedChannelManager.t)
    (nonce p ct : bytes) (ep : Z) (fs : list bytes) :
  mgr_ok ch s → encrypt nonce ch p s = Ok (nonce, ct, ep) →
  decrypt ch nonce ct (Some ep) (rotate_all ch fs s)
  = if zlen fs <=? _MAX_PREVIOUS_KEYS then Ok p
    else Raise (Exn SealedChannelError "Key epoch unavailable for channel").
Proof.
  intros Hok Henc. unfold encrypt in Henc. destruct (_keys s !! ch) as [i0|] eqn:Hi; [|done].
  injection Henc as <- <-. unfold decrypt. destruct fs as [|f fs].
  - simpl. unfold key_for. rewrite Hi, Z.eqb_refl. by rewrite aead_roundtrip.
  - pose proof (first_rotation ch i0 f s Hok Hi) as Hw.
    apply (rotate_all_window ch i0 0 fs) in Hw; [|lia].
    change (rotate_all ch (f :: fs) s) with (rotate_all ch fs (rotate_key f ch s).2).
    rewrite zlen_cons. unfold _MAX_PREVIOUS_KEYS. pose proof (zlen_nonneg fs).
    destruct (Z.leb_spec (0 + zlen fs) 4), (Z.leb_spec (1 + zlen fs) 5); try lia.
    + erewrite key_for_window by (done || lia). by rewrite aead_roundtrip.
    + by rewrite key_for_dropped.
Qed.

(** An instance of the interfaces, for the witnesses: a cipher that tags the
    plaintext with the key, the nonce and the additional data. *)
Definition toy_aead : Aead := {|
  aead_encrypt k n p aad := zlen k :: zlen n :: zlen aad :: k ++ n ++ aad ++ p;
  aead_decrypt k n c aad :=
    let hdr := zlen k :: zlen n :: zlen aad :: k ++ n ++ aad in
    if bool_decide (take (length hdr) c = hdr) then Some (drop (length hdr) c) else None |}.

Lemma toy_aead_laws : AeadLaws toy_aead.
Proof.
  split. intros k n p aad. cbn -[zlen].
  replace (k ++ n ++ aad ++ p) with ((k ++ n ++ aad) ++ p) by by rewrite <- !app_assoc.
  rewrite take_app_length, drop_app_length. by rewrite bool_decide_eq_true_2.
Qed.

Lemma seal_for_origin_fail_closed_witness :
  let ch := {| ch_id := "c"; ch_name := "secret"; ch_description := ""; ch_category_id := None;
               ch_position := 0; ch_access_mode := ACCESS_PRIVATE; ch_slowmode := 0;
               ch_max_retention := 10; ch_latest_seq := 0; ch_identity_hash := None;
               ch_destination_hash := None; ch_created_at := fz 0; ch_sealed := true;
               ch_rotation_old_hash := None; ch_rotation_grace_end := None |} in
  let mgr := (generate_key [7] "c" init).2 in
  match @seal_for_origin toy_aead [1; 2] ch (Some "hi") (Some mgr) with
  | Raise e => exn_cls e = PermissionDenied
               ∧ (∀ m, Some mgr = Some m → olist_true (get_key (ch_id ch) m) = false)
  | Ok c => c_body c = None ∧ ∃ m ct ep, Some mgr = Some m
            ∧ c_encrypted_body c = Some ct ∧ c_nonce c = Some [1; 2] ∧ c_epoch c = Some ep
            ∧ @decrypt toy_aead (ch_id ch) [1; 2] ct (Some ep) m = Ok (str_bytes "hi")
  end.
Proof. apply (@seal_for_origin_fail_closed toy_aead toy_aead_laws); reflexivity. Defined.

Lemma rotation_window_witness :
  let s := (generate_key [7] "c" init).2 in
  ∃ ct, @decrypt toy_aead "c" [1; 2] ct (Some 1)
          (rotate_all "c" [[1]; [2]; [3]; [4]; [5]] s) = Ok [104; 105]
        ∧ is_ok (@decrypt toy_aead "c" [1; 2] ct (Some 1)
            (rotate_all "c" [[1]; [2]; [3]; [4]; [5]; [6]] s)) = false.
Proof.
  assert (Hok : mgr_ok "c" (generate_key [7] "c" init).2)
    by (split; [vm_compute; congruence|vm_compute; constructor]).
  eexists. split.
  - rewrite (@rotation_window toy_aead toy_aead_laws "c" _ [1; 2] [104; 105] _ 1
      [[1]; [2]; [3]; [4]; [5]] Hok eq_refl). reflexivity.
  - rewrite (@rotation_window toy_aead toy_aead_laws "c" _ [1; 2] [104; 105] _ 1
      [[1]; [2]; [3]; [4]; [5]; [6]] Hok eq_refl). reflexivity.
Defined.
