(* ===== verification/Sequencer.v ===== *)
(** * Sequence numbers ([hokora/core/sequencer.py])

    [SequenceManager] gives each channel its next sequence number (an atomic
    [UPDATE ... RETURNING] under a per-channel lock) and each thread its own.
    The lock tables are dictionaries in insertion order; a lock is [true]
    while some task holds it. *)

From S2P Require Import Prelude Constants Models Queries.

Abbreviation locks := (dict string bool).

Module SequenceManager.

Record t := {
  _locks : locks;
  _cache : gmap string Z;
  _thread_locks : locks;
  _thread_cache : gmap string Z;
}.

Definition init : t := {| _locks := []; _cache := ∅; _thread_locks := []; _thread_cache := ∅ |}.

(** [for old_key in list(lock_dict)[:100]: if not lock.locked(): del ...] *)
Definition evict_unlocked (d : locks) : locks :=
  foldl (λ d' k, match dict_get k d with
                 | Some false => dict_del k d'
                 | _ => d'
                 end) d (take 100 (dict_keys d)).

(** The table after [_get_lock]; the lock of [key] is then in it. *)
Definition _get_lock (key : string) (d : locks) : locks :=
  if dict_has key d then d
  else
    let d := if MAX_LOCK_ENTRIES <=? zlen d then evict_unlocked d else d in
    dict_set key false d.

Definition set_locks (f : locks → locks) (s : t) : t :=
  {| _locks := f (_locks s); _cache := _cache s; _thread_locks := _thread_locks s;
     _thread_cache := _thread_cache s |}.
Definition set_cache (f : gmap string Z → gmap string Z) (s : t) : t :=
  {| _locks := _locks s; _cache := f (_cache s); _thread_locks := _thread_locks s;
     _thread_cache := _thread_cache s |}.
Definition set_thread_locks (f : locks → locks) (s : t) : t :=
  {| _locks := _locks s; _cache := _cache s; _thread_locks := f (_thread_locks s);
     _thread_cache := _thread_cache s |}.
Definition set_thread_cache (f : gmap string Z → gmap string Z) (s : t) : t :=
  {| _locks := _locks s; _cache := _cache s; _thread_locks := _thread_locks s;
     _thread_cache := f (_thread_cache s) |}.

(** Operations run on the database and the manager. *)
Abbreviation St := (DB * t)%type.
Definition on_db {A} (m : M DB A) : M St A := lift fst (λ db s, (db, s.2)) m.
Definition on_mgr {A} (m : M t A) : M St A := lift snd (λ mgr s, (s.1, mgr)) m.

Definition load_from_db (channel_id : string) : M St Z :=
  let! ch := on_db (gets (ChannelRepo.get_by_id channel_id)) in
  match ch with
  | Some c => on_mgr (modify (set_cache (<[channel_id := ch_latest_seq c]>))) ;; ret (ch_latest_seq c)
  | None => ret 0
  end.

Definition next_seq (channel_id : string) : M St Z :=
  on_mgr (modify (set_locks (_get_lock channel_id))) ;;
  let! seq := on_db (ChannelRepo.increment_seq channel_id) in
  on_mgr (modify (set_cache (<[channel_id := seq]>))) ;;
  ret seq.

Definition bump_thread (th : Thread) : Thread := {|
  th_root_msg_hash := th_root_msg_hash th; th_channel_id := th_channel_id th;
  th_reply_count := th_reply_count th; th_latest_thread_seq := th_latest_thread_seq th + 1;
  th_last_activity := th_last_activity th; th_participant_hashes := th_participant_hashes th |}.

Definition next_thread_seq (now : float) (root_hash channel_id : string) : M St Z :=
  on_mgr (modify (set_thread_locks (_get_lock root_hash))) ;;
  let! th := on_db (gets (λ db, threads db !! root_hash)) in
  match th with
  | Some th =>
      let seq := th_latest_thread_seq th + 1 in
      on_mgr (modify (set_thread_cache (<[root_hash := seq]>))) ;;
      on_db (modify (set_threads (<[root_hash := bump_thread th]>))) ;;
      ret seq
  | None =>
      on_mgr (modify (set_thread_cache (<[root_hash := 1]>))) ;;
      on_db (check_fk messages root_hash ;; check_fk channels channel_id ;;
             modify (set_threads (<[root_hash := {|
               th_root_msg_hash := root_hash; th_channel_id := channel_id; th_reply_count := 0;
               th_latest_thread_seq := 1; th_last_activity := now;
               th_participant_hashes := [] |}]>))) ;;
      ret 1
  end.

Definition get_cached_seq (channel_id : string) (s : t) : Z := default 0 (_cache s !! channel_id).
End SequenceManager.

Import SequenceManager.

(** ** Lock tables *)

Lemma evict_keeps_locked (d0 d : locks) ks k :
  dict_get k d0 = Some true → dict_get k d = Some true →
  dict_get k (foldl (λ d' k, match dict_get k d0 with
                             | Some false => dict_del k d' | _ => d' end) d ks) = Some true.
Proof.
  intros H0. revert d. induction ks as [|k' ks IH]; intros d Hd; simpl; [done|].
  apply IH. destruct (dict_get k' d0) as [[]|] eqn:E; try done.
  rewrite dict_get_del, decide_False; [done|congruence].
Qed.

(** eviction never drops a lock that is held: after [_get_lock] for any
    key, every lock some task holds is still the one registered for its key,
    so no second task can be given a different lock object; and the requested
    key has a lock. *)
Theorem get_lock_keeps_held (key : string) (d : locks) :
  (∀ k, dict_get k d = Some true → dict_get k (_get_lock key d) = Some true)
  ∧ is_Some (dict_get key (_get_lock key d)).
Proof.
  unfold _get_lock, dict_has. split.
  - intros k Hk. destruct (dict_get key d) eqn:E; [done|].
    rewrite dict_get_set_ne by congruence.
    destruct (MAX_LOCK_ENTRIES <=? zlen d); [|done]. by apply evict_keeps_locked.
  - destruct (dict_get key d) eqn:E; [by rewrite E|]. by rewrite dict_get_set_eq.
Qed.

(** ** Numbering *)

Lemma alter_insert_eq {A} (f : A → A) (m : gmap string A) k a :
  m !! k = Some a → alter f k m = <[k := f a]> m.
Proof.
  intros H. apply map_eq. intros k'. destruct (decide (k' = k)) as [->|].
  - by rewrite lookup_alter_eq, lookup_insert_eq, H.
  - by rewrite lookup_alter_ne, lookup_insert_ne.
Qed.

Lemma alter_missing {A} (f : A → A) (m : gmap string A) k : m !! k = None → alter f k m = m.
Proof.
  intros H. apply map_eq. intros k'. destruct (decide (k' = k)) as [->|].
  - by rewrite lookup_alter_eq, H.
  - by rewrite lookup_alter_ne.
Qed.

Lemma increment_seq_run ch db c :
  channels db !! ch = Some c →
  ChannelRepo.increment_seq ch db
  = (Ok (ch_latest_seq c + 1), set_channels (<[ch := ChannelRepo.bump_seq c]>) db).
Proof.
  intros H. unfold ChannelRepo.increment_seq, bind, modify, get, set_channels. simpl.
  rewrite lookup_alter_eq, H. simpl. by rewrite (alter_insert_eq _ _ _ _ H).
Qed.

Lemma next_seq_run ch db mgr c :
  channels db !! ch = Some c →
  ∃ mgr', next_seq ch (db, mgr)
  = (Ok (ch_latest_seq c + 1), (set_channels (<[ch := ChannelRepo.bump_seq c]>) db, mgr'))
    ∧ get_cached_seq ch mgr' = ch_latest_seq c + 1.
Proof.
  intros H. eexists. split.
  - unfold next_seq, bind, on_db, on_mgr, lift. simpl. rewrite (increment_seq_run _ _ _ H). done.
  - unfold get_cached_seq. simpl. by rewrite lookup_insert_eq.
Qed.

(** A run of [next_seq] requests, one channel each; a request that raises
    gives no number. *)
Fixpoint assign_seqs (chs : list string) (s : DB * SequenceManager.t)
    : list (string * Z) * (DB * SequenceManager.t) :=
  match chs with
  | [] => ([], s)
  | ch :: chs =>
      let (r, s1) := next_seq ch s in
      let (l, s2) := assign_seqs chs s1 in
      (match r with Ok n => (ch, n) :: l | Raise _ => l end, s2)
  end.

Definition seqs_of (ch : string) (l : list (string * Z)) : list Z :=
  map snd (List.filter (λ p, bool_decide (p.1 = ch)) l).

Lemma next_seq_missing ch db mgr :
  channels db !! ch = None → ∃ e mgr', next_seq ch (db, mgr) = (Raise e, (db, mgr')).
Proof.
  intros H. do 2 eexists. unfold next_seq, bind, on_db, on_mgr, lift. simpl.
  unfold ChannelRepo.increment_seq, bind, modify, get, set_channels. simpl.
  rewrite lookup_alter_eq, H. simpl. rewrite (alter_missing _ _ _ H). by destruct db.
Qed.

(** whatever the interleaving of requests for different channels, the
    numbers handed out for one channel are consecutive, starting right after
    its stored [latest_seq]: no gap, no repetition. *)
Theorem seqs_consecutive (chs : list string) (ch : string) (db : DB) (mgr : SequenceManager.t)
    (c : Channel) :
  channels db !! ch = Some c →
  let (l, s') := assign_seqs chs (db, mgr) in
  seqs_of ch l = map (λ i, ch_latest_seq c + Z.of_nat i) (seq 1 (length (seqs_of ch l)))
  ∧ (ch_latest_seq <$> channels s'.1 !! ch)
    = Some (ch_latest_seq c + zlen (seqs_of ch l)).
Proof.
  revert db mgr c. induction chs as [|ch' chs IH]; intros db mgr c Hc; simpl.
  - rewrite Hc. simpl. split; [done|]. unfold zlen. simpl. by rewrite Z.add_0_r.
  - destruct (channels db !! ch') as [c'|] eqn:E'.
    + destruct (next_seq_run ch' db mgr c' E') as (mgr' & -> & _).
      destruct (decide (ch' = ch)) as [->|Hne].
      * rewrite Hc in E'. injection E' as <-.
        specialize (IH (set_channels (<[ch := ChannelRepo.bump_seq c]>) db) mgr'
                      (ChannelRepo.bump_seq c) (lookup_insert_eq _ _ _)).
        destruct (assign_seqs chs _) as [l s']. destruct IH as [IH1 IH2].
        unfold seqs_of in *. simpl. rewrite bool_decide_eq_true_2 by done. simpl. split.
        -- f_equal. rewrite IH1 at 1. rewrite <- (fmap_S_seq 1), <- list_fmap_compose.
           apply list_fmap_ext. intros i x _. simpl. lia.
        -- rewrite IH2. simpl. f_equal. rewrite zlen_cons. lia.
      * specialize (IH (set_channels (<[ch' := ChannelRepo.bump_seq c']>) db) mgr' c).
        simpl in IH. rewrite lookup_insert_ne in IH by done. specialize (IH Hc).
        destruct (assign_seqs chs _) as [l s']. unfold seqs_of in *. simpl.
        by rewrite bool_decide_eq_false_2.
    + destruct (next_seq_missing ch' db mgr E') as (e & mgr' & ->).
      specialize (IH db mgr' c Hc). by destruct (assign_seqs chs (db, mgr')).
Qed.

Definition demo_channel (id : string) (access : string) (sealed : bool) : Channel := {|
  ch_id := id; ch_name := id; ch_description := ""; ch_category_id := None; ch_position := 0;
  ch_access_mode := access; ch_slowmode := 0; ch_max_retention := 10000; ch_latest_seq := 0;
  ch_identity_hash := None; ch_destination_hash := None; ch_created_at := fz 0;
  ch_sealed := sealed; ch_rotation_old_hash := None; ch_rotation_grace_end := None |}.

Definition demo_db (cs : list Channel) : DB :=
  set_channels (λ _, list_to_map (map (λ c, (ch_id c, c)) cs)) empty_db.

Lemma seqs_consecutive_witness :
  let db := demo_db [demo_channel "a" ACCESS_PUBLIC false; demo_channel "b" ACCESS_PUBLIC false] in
  let (l, s') := assign_seqs ["a"; "b"; "x"; "a"; "a"; "b"] (db, init) in
  seqs_of "a" l = [1; 2; 3].
Proof.
  pose proof (seqs_consecutive ["a"; "b"; "x"; "a"; "a"; "b"] "a"
    (demo_db [demo_channel "a" ACCESS_PUBLIC false; demo_channel "b" ACCESS_PUBLIC false]) init
    (demo_channel "a" ACCESS_PUBLIC false) ltac:(vm_compute; reflexivity)) as H.
  vm_compute in H. vm_compute. tauto.
Defined.
