(* ===== verification/Message.v ===== *)
(** * The ingestion pipeline ([hokora/core/message.py], [core/lxmf_ingestor.py])

    [MessageProcessor.ingest] with its permission gate and its handlers for
    edits, deletions, pins and reactions, on the node's state: the database,
    the sequencer, the rate limiter and the processor's thread locks.

    What is not the node's own code is an interface: the SHA-256 digest and
    the decimal rendering of a float ([Hashing]), and the rule by which the
    ORM decides at flush time that an assigned JSON column changed
    ([OrmJson]; it compares the assigned object with the one it replaced). *)

From stdpp Require Import pretty.
From S2P Require Import Prelude Constants Models Queries Permissions RateLimit Ban Sealed Sequencer.

Class Hashing := {
  sha256_hex : bytes → string;
  float_repr : float → string;
}.

(** [json_dirty committed assigned]: does a flush write the column? *)
Class OrmJson := {
  json_dirty : dict string Reaction → dict string Reaction → bool;
}.

(** The ORM compares by value: no write for an equal value (in-place
    mutations are not seen), a write for a different one. *)
Class OrmJsonLaws (O : OrmJson) : Prop := {
  json_equal_clean : ∀ a, json_dirty a a = false;
  json_differ_dirty : ∀ a b, a ≠ b → json_dirty a b = true;
}.

Record MessageEnvelope := {
  e_channel_id : string;
  e_sender_hash : string;
  e_timestamp : float;
  e_type : Z;
  e_body : option string;
  e_media_path : option string;
  e_media_meta : option string;
  e_reply_to : option string;
  e_ttl : option Z;
  e_lxmf_signature : option bytes;
  e_lxmf_signed_part : option bytes;
  e_sender_public_key : option bytes;
  e_display_name : option string;
  e_mentions : list string;
  e_reactions : dict string Reaction;
}.

Definition set_display_name (n : option string) (e : MessageEnvelope) : MessageEnvelope := {|
  e_channel_id := e_channel_id e; e_sender_hash := e_sender_hash e;
  e_timestamp := e_timestamp e; e_type := e_type e; e_body := e_body e;
  e_media_path := e_media_path e; e_media_meta := e_media_meta e; e_reply_to := e_reply_to e;
  e_ttl := e_ttl e; e_lxmf_signature := e_lxmf_signature e;
  e_lxmf_signed_part := e_lxmf_signed_part e; e_sender_public_key := e_sender_public_key e;
  e_display_name := n; e_mentions := e_mentions e; e_reactions := e_reactions e |}.

Definition set_mentions (l : list string) (e : MessageEnvelope) : MessageEnvelope := {|
  e_channel_id := e_channel_id e; e_sender_hash := e_sender_hash e;
  e_timestamp := e_timestamp e; e_type := e_type e; e_body := e_body e;
  e_media_path := e_media_path e; e_media_meta := e_media_meta e; e_reply_to := e_reply_to e;
  e_ttl := e_ttl e; e_lxmf_signature := e_lxmf_signature e;
  e_lxmf_signed_part := e_lxmf_signed_part e; e_sender_public_key := e_sender_public_key e;
  e_display_name := e_display_name e; e_mentions := l; e_reactions := e_reactions e |}.

Definition colon (a b : string) : string := String.append a (String.append ":" b).

(** A message row with the column defaults of [Message(...)]. *)
Definition blank_message (h ch : string) (now : float) (ty : Z) : Message := {|
  m_msg_hash := h; m_channel_id := ch; m_sender_hash := None; m_seq := None; m_timestamp := now;
  m_type := ty; m_body := None; m_media_path := None; m_media_meta := None; m_reply_to := None;
  m_thread_seq := None; m_ttl := None; m_received_at := now; m_deleted := false;
  m_deleted_by := None; m_pinned := false; m_pinned_at := None; m_edit_chain := [];
  m_reactions := []; m_lxmf_signature := None; m_lxmf_signed_part := None;
  m_display_name := None; m_mentions := []; m_origin_node := None; m_encrypted_body := None;
  m_encryption_nonce := None; m_encryption_epoch := None |}.

(** The content columns of a row. *)
Definition row_content (m : Message) : content := {|
  c_body := m_body m; c_encrypted_body := m_encrypted_body m;
  c_nonce := m_encryption_nonce m; c_epoch := m_encryption_epoch m |}.

(** ** The node's state *)

Record Node := {
  n_db : DB;
  n_seq : SequenceManager.t;
  n_rl : RateLimiter.t;
  n_thread_locks : locks;
}.

Definition set_db (db : DB) (s : Node) : Node :=
  {| n_db := db; n_seq := n_seq s; n_rl := n_rl s; n_thread_locks := n_thread_locks s |}.
Definition set_rl (rl : RateLimiter.t) (s : Node) : Node :=
  {| n_db := n_db s; n_seq := n_seq s; n_rl := rl; n_thread_locks := n_thread_locks s |}.
Definition set_seq (p : DB * SequenceManager.t) (s : Node) : Node :=
  {| n_db := p.1; n_seq := p.2; n_rl := n_rl s; n_thread_locks := n_thread_locks s |}.
Definition set_node_thread_locks (f : locks → locks) (s : Node) : Node :=
  {| n_db := n_db s; n_seq := n_seq s; n_rl := n_rl s; n_thread_locks := f (n_thread_locks s) |}.

Definition db_op {A} (m : M DB A) : M Node A := lift n_db set_db m.
Definition rl_op_ {A} (m : M RateLimiter.t A) : M Node A := lift n_rl set_rl m.
Definition seq_op {A} (m : M (DB * SequenceManager.t) A) : M Node A :=
  lift (λ s, (n_db s, n_seq s)) set_seq m.
Definition ask {A} (f : DB → A) : M Node A := gets (λ s, f (n_db s)).

(** The collaborators the processor was built with. *)
Record MessageProcessor := {
  mp_permission_resolver : option string;    (* its [node_owner_hash] *)
  mp_rate_limiter : bool;
  mp_node_identity_hash : option string;
  mp_sealed_manager : option SealedChannelManager.t;
}.

Section processor.
Context `{HH : Hashing} `{HO : OrmJson} `{HA : Aead}.

Definition compute_hash (e : MessageEnvelope) : string :=
  sha256_hex (str_bytes
    (colon (e_channel_id e) (colon (e_sender_hash e) (colon (float_repr (e_timestamp e))
      (colon (pretty (e_type e)) (colon (or_empty (e_body e)) (or_empty (e_reply_to e)))))))).

Context (self : MessageProcessor).

Definition _seal_body_for_insert (nonce : bytes) (channel : Channel) (plaintext : option string)
    : M Node content :=
  of_res (seal_for_origin nonce channel plaintext (mp_sealed_manager self)).

Definition require (perms flag : Z) (msg : string) : M Node unit :=
  if PermissionResolver.has_perm perms flag then ret tt else raise PermissionDenied msg.

(** Step 3: private or sealed channels need a role on the channel itself. *)
Definition check_membership (sender : string) (channel : Channel) : M Node unit :=
  when (bool_decide (ch_access_mode channel = ACCESS_PRIVATE) || ch_sealed channel)
    (when (negb (bool_decide (Some sender = mp_node_identity_hash self)))
      (let! roles := ask (RoleRepo.get_identity_roles sender (Some (ch_id channel)) true) in
       when (negb (list_true roles))
         (raise PermissionDenied "Not a member of this channel"))).

(** Step 4: the permission each type of message needs. *)
Definition check_type (perms : Z) (e : MessageEnvelope) : M Node unit :=
  let ty := e_type e in
  let sender := e_sender_hash e in
  if (ty =? MSG_TEXT) || (ty =? MSG_MEDIA) then
    require perms PERM_SEND_MESSAGES "Missing SEND_MESSAGES permission" ;;
    when (ty =? MSG_MEDIA) (require perms PERM_SEND_MEDIA "Missing SEND_MEDIA permission")
  else if ty =? MSG_THREAD_REPLY then
    require perms PERM_CREATE_THREADS "Missing CREATE_THREADS permission"
  else if ty =? MSG_REACTION then
    require perms PERM_ADD_REACTIONS "Missing ADD_REACTIONS permission"
  else if ty =? MSG_PIN then
    require perms PERM_PIN_MESSAGES "Missing PIN_MESSAGES permission"
  else if ty =? MSG_DELETE then
    when (ostr_true (e_reply_to e))
      (let! target := ask (MessageRepo.get_by_hash (or_empty (e_reply_to e))) in
       match target with
       | Some t =>
           if bool_decide (m_sender_hash t = Some sender)
           then require perms PERM_DELETE_OWN "Missing DELETE_OWN permission"
           else require perms PERM_DELETE_OTHERS "Missing DELETE_OTHERS permission"
       | None => ret tt
       end)
  else if ty =? MSG_EDIT then
    require perms PERM_EDIT_OWN "Missing EDIT_OWN permission" ;;
    when (ostr_true (e_reply_to e))
      (let! target := ask (MessageRepo.get_by_hash (or_empty (e_reply_to e))) in
       match target with
       | Some t =>
           when (negb (bool_decide (m_sender_hash t = Some sender)))
             (raise PermissionDenied "Only the author can edit a message")
       | None => ret tt
       end)
  else ret tt.

(** Step 5: the mentions left to an envelope. *)
Definition strip_mentions (perms : Z) (e : MessageEnvelope) : MessageEnvelope :=
  if negb (list_true (e_mentions e)) then e
  else if negb (PermissionResolver.has_perm perms PERM_USE_MENTIONS) then set_mentions [] e
  else if bool_decide ("@everyone" ∈ e_mentions e) then
    if negb (PermissionResolver.has_perm perms PERM_MENTION_EVERYONE)
    then set_mentions (List.filter (λ m, negb (bool_decide (m = "@everyone"))) (e_mentions e)) e
    else e
  else e.

Definition _check_permissions (now : float) (e : MessageEnvelope) (channel : Channel)
    : M Node MessageEnvelope :=
  match mp_permission_resolver self with
  | None => ret e
  | Some node_owner_hash =>
      let sender := e_sender_hash e in
      db_op (check_not_blocked sender) ;;
      when (mp_rate_limiter self)
        (rl_op_ (RateLimiter.check_rate_limit now sender) ;;
         rl_op_ (RateLimiter.check_slowmode now sender (ch_id channel) (ch_slowmode channel)) ;;
         ret tt) ;;
      check_membership sender channel ;;
      let! perms :=
        ask (PermissionResolver.get_effective_permissions node_owner_hash sender channel) in
      check_type perms e ;;
      ret (strip_mentions perms e)
  end.

Definition _require_target_in_channel (target_hash channel_id : string) : M Node Message :=
  let! original := ask (MessageRepo.get_by_hash target_hash) in
  match original with
  | None => raise MessageError "Target message not found"
  | Some m =>
      if bool_decide (m_channel_id m = channel_id) then ret m
      else raise MessageError "Target message does not belong to this channel"
  end.

(** [Message(...)] of an edit. *)
Definition edit_row (now : float) (h : string) (e : MessageEnvelope) (c : content) : Message := {|
  m_msg_hash := h; m_channel_id := e_channel_id e; m_sender_hash := Some (e_sender_hash e);
  m_seq := None; m_timestamp := e_timestamp e; m_type := e_type e; m_body := c_body c;
  m_media_path := None; m_media_meta := None; m_reply_to := e_reply_to e; m_thread_seq := None;
  m_ttl := None; m_received_at := now; m_deleted := false; m_deleted_by := None;
  m_pinned := false; m_pinned_at := None; m_edit_chain := []; m_reactions := [];
  m_lxmf_signature := None; m_lxmf_signed_part := None; m_display_name := None;
  m_mentions := []; m_origin_node := mp_node_identity_hash self;
  m_encrypted_body := c_encrypted_body c; m_encryption_nonce := c_nonce c;
  m_encryption_epoch := c_epoch c |}.

(** The columns of the original an edit replaces. *)
Definition apply_edit (h : string) (c : content) (m : Message) : Message := {|
  m_msg_hash := m_msg_hash m; m_channel_id := m_channel_id m; m_sender_hash := m_sender_hash m;
  m_seq := m_seq m; m_timestamp := m_timestamp m; m_type := m_type m;
  m_body := c_body c; m_media_path := m_media_path m; m_media_meta := m_media_meta m;
  m_reply_to := m_reply_to m; m_thread_seq := m_thread_seq m; m_ttl := m_ttl m;
  m_received_at := m_received_at m; m_deleted := m_deleted m; m_deleted_by := m_deleted_by m;
  m_pinned := m_pinned m; m_pinned_at := m_pinned_at m;
  m_edit_chain := m_edit_chain m ++ [h];
  m_reactions := m_reactions m; m_lxmf_signature := m_lxmf_signature m;
  m_lxmf_signed_part := m_lxmf_signed_part m; m_display_name := m_display_name m;
  m_mentions := m_mentions m; m_origin_node := m_origin_node m;
  m_encrypted_body := c_encrypted_body c; m_encryption_nonce := c_nonce c;
  m_encryption_epoch := c_epoch c |}.

Definition process_edit (now : float) (nonce : bytes) (e : MessageEnvelope) : M Node Message :=
  if negb (ostr_true (e_reply_to e))
  then raise MessageError "Edit requires reply_to (target message hash)"
  else
    let target_hash := or_empty (e_reply_to e) in
    let! original := _require_target_in_channel target_hash (e_channel_id e) in
    if negb (bool_decide (m_sender_hash original = Some (e_sender_hash e)))
    then raise PermissionDenied "Only the author can edit a message"
    else
      let! channel := ask (ChannelRepo.get_by_id (e_channel_id e)) in
      match channel with
      | None => raise MessageError "Channel not found"
      | Some channel =>
          let msg_hash := compute_hash e in
          let! c := _seal_body_for_insert nonce channel (e_body e) in
          let edit_msg := edit_row now msg_hash e c in
          db_op (MessageRepo.insert edit_msg) ;;
          if MAX_EDIT_CHAIN_LENGTH <=? zlen (m_edit_chain original)
          then raise MessageError "Edit chain limit reached"
          else
            db_op (modify (set_messages (alter (apply_edit msg_hash c) target_hash))) ;;
            ret edit_msg
      end.

Definition process_delete (now : float) (e : MessageEnvelope) : M Node (option Message) :=
  if negb (ostr_true (e_reply_to e))
  then raise MessageError "Delete requires reply_to (target message hash)"
  else
    let target_hash := or_empty (e_reply_to e) in
    _require_target_in_channel target_hash (e_channel_id e) ;;
    let! result := db_op (MessageRepo.soft_delete target_hash (e_sender_hash e)) in
    db_op (AuditLogRepo.log now (e_sender_hash e) "message_delete" (Some target_hash)
             (Some (e_channel_id e)) []) ;;
    ret result.

Definition pin_system_row (now : float) (h : string) (seq : Z) (e : MessageEnvelope) (c : content)
    : Message := {|
  m_msg_hash := h; m_channel_id := e_channel_id e; m_sender_hash := Some (e_sender_hash e);
  m_seq := Some seq; m_timestamp := now; m_type := MSG_SYSTEM; m_body := c_body c;
  m_media_path := None; m_media_meta := None; m_reply_to := None; m_thread_seq := None;
  m_ttl := None; m_received_at := now; m_deleted := false; m_deleted_by := None;
  m_pinned := false; m_pinned_at := None; m_edit_chain := []; m_reactions := [];
  m_lxmf_signature := None; m_lxmf_signed_part := None; m_display_name := None;
  m_mentions := []; m_origin_node := mp_node_identity_hash self;
  m_encrypted_body := c_encrypted_body c; m_encryption_nonce := c_nonce c;
  m_encryption_epoch := c_epoch c |}.

Definition process_pin (now : float) (nonce : bytes) (e : MessageEnvelope) (channel : Channel)
    : M Node Message :=
  if negb (ostr_true (e_reply_to e))
  then raise MessageError "Pin requires reply_to (target message hash)"
  else
    let target_hash := or_empty (e_reply_to e) in
    let! original := _require_target_in_channel target_hash (e_channel_id e) in
    let new_pinned := negb (m_pinned original) in
    db_op (MessageRepo.set_pinned now target_hash new_pinned) ;;
    let action := if new_pinned then "pinned" else "unpinned" in
    let sys_hash := sha256_hex (str_bytes (colon (e_channel_id e)
      (colon "pin_system" (colon (e_sender_hash e) (float_repr now))))) in
    let! sys_seq := seq_op (SequenceManager.next_seq (e_channel_id e)) in
    let sys_body_plain := String.append (py_take 8 (e_sender_hash e))
      (String.append " " (String.append action " a message")) in
    let! c := _seal_body_for_insert nonce channel (Some sys_body_plain) in
    let sys_msg := pin_system_row now sys_hash sys_seq e c in
    db_op (MessageRepo.insert sys_msg) ;;
    ret sys_msg.

Definition set_reactions (r : dict string Reaction) (m : Message) : Message := {|
  m_msg_hash := m_msg_hash m; m_channel_id := m_channel_id m; m_sender_hash := m_sender_hash m;
  m_seq := m_seq m; m_timestamp := m_timestamp m; m_type := m_type m;
  m_body := m_body m; m_media_path := m_media_path m; m_media_meta := m_media_meta m;
  m_reply_to := m_reply_to m; m_thread_seq := m_thread_seq m; m_ttl := m_ttl m;
  m_received_at := m_received_at m; m_deleted := m_deleted m; m_deleted_by := m_deleted_by m;
  m_pinned := m_pinned m; m_pinned_at := m_pinned_at m; m_edit_chain := m_edit_chain m;
  m_reactions := r; m_lxmf_signature := m_lxmf_signature m;
  m_lxmf_signed_part := m_lxmf_signed_part m; m_display_name := m_display_name m;
  m_mentions := m_mentions m; m_origin_node := m_origin_node m;
  m_encrypted_body := m_encrypted_body m; m_encryption_nonce := m_encryption_nonce m;
  m_encryption_epoch := m_encryption_epoch m |}.

(** The entry of an emoji after one more identity reacted. *)
Definition add_reaction (sender : string) (entry : Reaction) : Reaction :=
  let ids := rx_identities entry ++ [sender] in
  {| rx_count := rx_count entry + 1;
     rx_identities := if MAX_REACTIONS_PER_MESSAGE <? zlen ids
                      then ztake MAX_REACTIONS_PER_MESSAGE ids else ids |}.

(** [reactions = dict(original.reactions)] copies the outer dictionary only:
    the entry of an emoji that was there is one object, shared by the copy and
    by the value the ORM loaded ([committed]), and the code mutates it in
    place.  The flush then compares that mutated value with the assigned one. *)
Definition process_reaction (e : MessageEnvelope) : M Node Message :=
  if negb (ostr_true (e_reply_to e))
  then raise MessageError "Reaction requires reply_to (target message hash)"
  else
    let target_hash := or_empty (e_reply_to e) in
    let! original := _require_target_in_channel target_hash (e_channel_id e) in
    if negb (ostr_true (e_body e)) then raise MessageError "Reaction requires emoji in body"
    else
      let emoji := or_empty (e_body e) in
      if 32 <? py_len emoji then raise MessageError "Reaction emoji too long (max 32 characters)"
      else
        let loaded := m_reactions original in
        let entry := default {| rx_count := 0; rx_identities := [] |} (dict_get emoji loaded) in
        if bool_decide (e_sender_hash e ∈ rx_identities entry) then ret original
        else
          let entry' := add_reaction (e_sender_hash e) entry in
          let reactions := dict_set emoji entry' loaded in
          let committed := if dict_has emoji loaded then dict_set emoji entry' loaded
                           else loaded in
          when (json_dirty committed reactions)
            (db_op (modify (set_messages (alter (set_reactions reactions) target_hash)))) ;;
          ret (set_reactions reactions original).

Definition touch_thread (now : float) (sender : string) (th : Thread) : Thread := {|
  th_root_msg_hash := th_root_msg_hash th; th_channel_id := th_channel_id th;
  th_reply_count := th_reply_count th + 1; th_latest_thread_seq := th_latest_thread_seq th;
  th_last_activity := now;
  th_participant_hashes := if bool_decide (sender ∈ th_participant_hashes th)
                           then th_participant_hashes th
                           else th_participant_hashes th ++ [sender] |}.

Definition _update_thread_metadata (now : float) (e : MessageEnvelope) : M Node unit :=
  let root := or_empty (e_reply_to e) in
  modify (set_node_thread_locks (SequenceManager._get_lock root)) ;;
  let! th := ask (λ db, threads db !! root) in
  match th with
  | Some th => db_op (modify (set_threads (<[root := touch_thread now (e_sender_hash e) th]>)))
  | None =>
      db_op (check_fk messages root ;; check_fk channels (e_channel_id e) ;;
             modify (set_threads (<[root := {|
               th_root_msg_hash := root; th_channel_id := e_channel_id e; th_reply_count := 1;
               th_latest_thread_seq := 0; th_last_activity := now;
               th_participant_hashes := [e_sender_hash e] |}]>)))
  end.

Definition ingest_row (now : float) (h : string) (seq thread_seq : option Z) (e : MessageEnvelope)
    (c : content) : Message := {|
  m_msg_hash := h; m_channel_id := e_channel_id e; m_sender_hash := Some (e_sender_hash e);
  m_seq := seq; m_timestamp := e_timestamp e; m_type := e_type e; m_body := c_body c;
  m_media_path := e_media_path e; m_media_meta := e_media_meta e; m_reply_to := e_reply_to e;
  m_thread_seq := thread_seq; m_ttl := e_ttl e; m_received_at := now; m_deleted := false;
  m_deleted_by := None; m_pinned := false; m_pinned_at := None; m_edit_chain := [];
  m_reactions := e_reactions e; m_lxmf_signature := e_lxmf_signature e;
  m_lxmf_signed_part := e_lxmf_signed_part e; m_display_name := e_display_name e;
  m_mentions := e_mentions e; m_origin_node := mp_node_identity_hash self;
  m_encrypted_body := c_encrypted_body c; m_encryption_nonce := c_nonce c;
  m_encryption_epoch := c_epoch c |}.

Definition set_public_key (pk : bytes) (i : Identity) : Identity := {|
  id_hash := id_hash i; id_display_name := id_display_name i; id_public_key := Some pk;
  id_first_seen := id_first_seen i; id_last_seen := id_last_seen i; id_blocked := id_blocked i;
  id_blocked_at := id_blocked_at i; id_blocked_by := id_blocked_by i |}.

(** The numbers of a new row: a thread reply to a root counts in its thread,
    everything else in the channel. *)
Definition assign_numbers (now : float) (e : MessageEnvelope) : M Node (option Z * option Z) :=
  if (e_type e =? MSG_THREAD_REPLY) && ostr_true (e_reply_to e) then
    let! ts := seq_op (SequenceManager.next_thread_seq now (or_empty (e_reply_to e))
                         (e_channel_id e)) in
    _update_thread_metadata now e ;;
    ret (None, Some ts)
  else
    let! s := seq_op (SequenceManager.next_seq (e_channel_id e)) in
    ret (Some s, None).

(** Storing an envelope of an ordinary type. *)
Definition store_message (now : float) (nonce : bytes) (e : MessageEnvelope) (channel : Channel)
    : M Node Message :=
  let msg_hash := compute_hash e in
  let! existing := ask (MessageRepo.get_by_hash msg_hash) in
  match existing with
  | Some m => ret m
  | None =>
      let! (seq, thread_seq) := assign_numbers now e in
      let! c := _seal_body_for_insert nonce channel (e_body e) in
      let message := ingest_row now msg_hash seq thread_seq e c in
      db_op (MessageRepo.insert message) ;;
      match e_sender_public_key e with
      | Some pk => when (list_true pk)
                     (db_op (IdentityRepo.upsert now (e_sender_hash e) (set_public_key pk)))
      | None => ret tt
      end ;;
      ret message
  end.

(** The specialised handlers, and the ordinary types. *)
Definition route (now : float) (nonce : bytes) (e : MessageEnvelope) (channel : Channel)
    : M Node (option Message) :=
  if e_type e =? MSG_EDIT then mmap Some (process_edit now nonce e)
  else if e_type e =? MSG_DELETE then process_delete now e
  else if e_type e =? MSG_PIN then mmap Some (process_pin now nonce e channel)
  else if e_type e =? MSG_REACTION then mmap Some (process_reaction e)
  else mmap Some (store_message now nonce e channel).

(** The display name cut to the schema's limit. *)
Definition cut_name (e : MessageEnvelope) : MessageEnvelope :=
  if ostr_true (e_display_name e)
     && (MAX_DISPLAY_NAME_LENGTH <? py_len (or_empty (e_display_name e)))
  then set_display_name (py_take MAX_DISPLAY_NAME_LENGTH <$> e_display_name e) e
  else e.

Definition ingest (now : float) (nonce : bytes) (e : MessageEnvelope) : M Node (option Message) :=
  let! channel := ask (ChannelRepo.get_by_id (e_channel_id e)) in
  match channel with
  | None => raise MessageError "Channel not found"
  | Some channel =>
      if ostr_true (e_body e) && (MAX_MESSAGE_BODY_SIZE <? utf8_len (or_empty (e_body e)))
      then raise MessageError "Message body exceeds maximum size"
      else
        let! e := _check_permissions now (cut_name e) channel in
        route now nonce e channel
  end.

(** [LxmfMessageIngestor.ingest]'s [async with session.begin()]: a failed
    ingestion leaves no trace in the database (the in-memory counters, caches
    and lock tables keep theirs). *)
Definition ingest_tx (now : float) (nonce : bytes) (e : MessageEnvelope)
    : M Node (option Message) :=
  atomic (λ s0 s1, set_db (n_db s0) s1) (ingest now nonce e).
End processor.
