(* ===== verification/Ingest.v ===== *)
(** * Correctness of the ingestion pipeline

    The theorems about [MessageProcessor.ingest] of Message.v: the invariant
    of the stored rows it keeps (keys, foreign keys, sealed content, main and
    thread numbering), what a successful ingestion says about its sender,
    isolation of channels, deduplication, and the behaviour of reactions. *)

From S2P Require Import Prelude Constants Models Queries Permissions RateLimit Ban Sealed Sequencer Message.

(** ** The invariant of the stored rows *)

Definition row_ok (db : DB) (h : string) (m : Message) : Prop :=
  m_msg_hash m = h
  ∧ ∃ c, channels db !! m_channel_id m = Some c
    ∧ content_ok (ch_sealed c) (row_content m)
    ∧ (∀ n, m_seq m = Some n → n ≤ ch_latest_seq c).

Definition thread_ok (db : DB) (h : string) (t : Thread) : Prop :=
  th_root_msg_hash t = h
  ∧ is_Some (messages db !! h) ∧ is_Some (channels db !! th_channel_id t)
  ∧ th_reply_count t = th_latest_thread_seq t
  ∧ NoDup (th_participant_hashes t)
  ∧ (∀ h' m n, messages db !! h' = Some m → m_reply_to m = Some h → m_thread_seq m = Some n →
       n ≤ th_latest_thread_seq t).

(** Two rows with the same number in one channel (in one thread) are one. *)
Definition seq_unique (db : DB) : Prop :=
  ∀ h1 h2 m1 m2 n, messages db !! h1 = Some m1 → messages db !! h2 = Some m2 →
    m_channel_id m1 = m_channel_id m2 → m_seq m1 = Some n → m_seq m2 = Some n → h1 = h2.

Definition thread_seq_unique (db : DB) : Prop :=
  ∀ h1 h2 m1 m2 n r, messages db !! h1 = Some m1 → messages db !! h2 = Some m2 →
    m_reply_to m1 = Some r → m_reply_to m2 = Some r →
    m_thread_seq m1 = Some n → m_thread_seq m2 = Some n → h1 = h2.

(** A numbered reply has a thread to be numbered in. *)
Definition replies_threaded (db : DB) : Prop :=
  ∀ h m r n, messages db !! h = Some m → m_reply_to m = Some r → m_thread_seq m = Some n →
    is_Some (threads db !! r).

Record db_ok (db : DB) : Prop := {
  ok_rows : ∀ h m, messages db !! h = Some m → row_ok db h m;
  ok_channels : ∀ id c, channels db !! id = Some c → ch_id c = id;
  ok_threads : ∀ h t, threads db !! h = Some t → thread_ok db h t;
  ok_seq : seq_unique db;
  ok_thread_seq : thread_seq_unique db;
  ok_replies : replies_threaded db;
}.

(** The part of the database the invariant is about. *)
Definition same_core (db db' : DB) : Prop :=
  channels db' = channels db ∧ messages db' = messages db ∧ threads db' = threads db.

Lemma db_ok_same db db' : same_core db db' → db_ok db → db_ok db'.
Proof.
  intros (Hc & Hm & Ht) [H1 H2 H3 H4 H5 H6].
  split; unfold row_ok, thread_ok, seq_unique, thread_seq_unique, replies_threaded in *;
    rewrite ?Hc, ?Hm, ?Ht; assumption.
Qed.

Lemma db_ok_empty : db_ok empty_db.
Proof.
  split; repeat intro; simpl in *;
    match goal with H : _ !! _ = Some _ |- _ => by rewrite lookup_empty in H end.
Qed.

(** *** Changing a row in place *)

(** What an update of a row must keep. *)
Definition keeps_row (db : DB) (f : Message → Message) (m : Message) : Prop :=
  m_msg_hash (f m) = m_msg_hash m ∧ m_channel_id (f m) = m_channel_id m
  ∧ m_seq (f m) = m_seq m ∧ m_thread_seq (f m) = m_thread_seq m
  ∧ m_reply_to (f m) = m_reply_to m
  ∧ ∀ c, channels db !! m_channel_id m = Some c →
      content_ok (ch_sealed c) (row_content m) → content_ok (ch_sealed c) (row_content (f m)).

Lemma lookup_alter_keeps (ms : gmap string Message) f h h' m' :
  alter f h ms !! h' = Some m' →
  ∃ m, ms !! h' = Some m ∧ (m' = m ∨ h' = h ∧ m' = f m).
Proof.
  destruct (decide (h = h')) as [->|Hne].
  - rewrite lookup_alter_eq. intros (m & ? & ?)%fmap_Some. eauto.
  - rewrite lookup_alter_ne by done. eauto.
Qed.

Lemma db_ok_alter db f h :
  db_ok db → (∀ m, messages db !! h = Some m → keeps_row db f m) →
  db_ok (set_messages (alter f h) db).
Proof.
  intros [H1 H2 H3 H4 H5 H6] Hf.
  assert (Hl : ∀ h' m', alter f h (messages db) !! h' = Some m' →
    ∃ m, messages db !! h' = Some m ∧ m_msg_hash m' = m_msg_hash m
      ∧ m_channel_id m' = m_channel_id m ∧ m_seq m' = m_seq m
      ∧ m_thread_seq m' = m_thread_seq m ∧ m_reply_to m' = m_reply_to m
      ∧ ∀ c, channels db !! m_channel_id m = Some c →
          content_ok (ch_sealed c) (row_content m) → content_ok (ch_sealed c) (row_content m')).
  { intros h' m' (m & Hm & [->|[-> ->]])%lookup_alter_keeps; exists m.
    - by split_and!.
    - destruct (Hf m Hm) as (? & ? & ? & ? & ? & ?). by split_and!. }
  split; simpl.
  - intros h' m' (m & Hm & E1 & E2 & E3 & E4 & E5 & E6)%Hl.
    destruct (H1 _ _ Hm) as (? & c & Hc & Hok & Hs). unfold row_ok. simpl.
    rewrite E1, E2, E3. split; [done|]. exists c. split_and!; auto.
  - done.
  - intros r t Ht. destruct (H3 r t Ht) as (E0 & Hr & Hch & Hcnt & Hnd & Hmax).
    split_and!; try done; simpl.
    + by apply lookup_alter_is_Some.
    + intros h' m' n (m & Hm & _ & _ & _ & E4 & E5 & _)%Hl. rewrite E4, E5. by apply (Hmax h').
  - intros h1 h2 m1 m2 n (a & Ha & _ & A2 & A3 & _)%Hl (b & Hb & _ & B2 & B3 & _)%Hl.
    rewrite A2, A3, B2, B3. by apply H4.
  - intros h1 h2 m1 m2 n r (a & Ha & _ & _ & _ & A4 & A5 & _)%Hl
      (b & Hb & _ & _ & _ & B4 & B5 & _)%Hl. rewrite A4, A5, B4, B5. by apply H5.
  - intros h' m' r n (m & Hm & _ & _ & _ & E4 & E5 & _)%Hl. rewrite E4, E5. by apply (H6 h').
Qed.

(** *** Inserting a row *)

Lemma insert_run db m db' :
  MessageRepo.insert m db = (Ok tt, db') →
  messages db !! m_msg_hash m = None
  ∧ is_Some (channels db !! m_channel_id m)
  ∧ db' = set_messages (<[m_msg_hash m := m]>) db.
Proof.
  unfold MessageRepo.insert, check_unique, check_fk, bind, get, modify, ret, raise. simpl.
  destruct (bool_decide (is_Some (messages db !! m_msg_hash m))) eqn:E1; [done|].
  destruct (bool_decide (is_Some (channels db !! m_channel_id m))) eqn:E2; [|done].
  intros [= <-]. apply bool_decide_eq_false in E1. apply bool_decide_eq_true in E2.
  split_and!; [|done|done]. by apply eq_None_not_Some.
Qed.

(** The number of a new row is not used yet: by a main number greater than
    the numbers of its channel, by a thread number greater than the numbers
    of its thread. *)
Definition fresh_row (db : DB) (m : Message) : Prop :=
  (∀ n h m', m_seq m = Some n → messages db !! h = Some m' →
     m_channel_id m' = m_channel_id m → m_seq m' ≠ Some n)
  ∧ (∀ n r, m_thread_seq m = Some n → m_reply_to m = Some r →
       (∃ t, threads db !! r = Some t ∧ n ≤ th_latest_thread_seq t)
       ∧ ∀ h m', messages db !! h = Some m' → m_reply_to m' = Some r →
           m_thread_seq m' ≠ Some n).

Lemma db_ok_insert db m c :
  db_ok db → messages db !! m_msg_hash m = None →
  channels db !! m_channel_id m = Some c →
  content_ok (ch_sealed c) (row_content m) →
  (∀ n, m_seq m = Some n → n ≤ ch_latest_seq c) →
  fresh_row db m →
  db_ok (set_messages (<[m_msg_hash m := m]>) db).
Proof.
  intros [H1 H2 H3 H4 H5 H6] Hnew Hc Hok Hle [Hf1 Hf2].
  split; simpl; [| done | | | |]; unfold seq_unique, thread_seq_unique, replies_threaded; simpl.
  - intros h m' [[<- <-]|[Hne Hm]]%lookup_insert_Some.
    + split; [done|]. by exists c.
    + apply (H1 _ _ Hm).
  - intros r t Ht. destruct (H3 r t Ht) as (E0 & Hr & Hch & Hcnt & Hnd & Hmax).
    split_and!; try done; simpl.
    + apply lookup_insert_is_Some. destruct (decide (m_msg_hash m = r)); auto.
    + intros h m' n [[<- <-]|[Hne Hm]]%lookup_insert_Some Hrep Hts; [|by eapply Hmax].
      destruct (Hf2 _ _ Hts Hrep) as [(t' & Ht' & Hn) _]. by simplify_map_eq.
  - intros h1 h2 m1 m2 n [[<- <-]|[N1 L1]]%lookup_insert_Some
      [[<- <-]|[N2 L2]]%lookup_insert_Some Hch S1 S2; [done| | |by eapply H4].
    + by destruct (Hf1 n h2 m2).
    + by destruct (Hf1 n h1 m1).
  - intros h1 h2 m1 m2 n r [[<- <-]|[N1 L1]]%lookup_insert_Some
      [[<- <-]|[N2 L2]]%lookup_insert_Some R1 R2 S1 S2; [done| | |by eapply H5].
    + by destruct (proj2 (Hf2 n r S1 R1) h2 m2 L2).
    + by destruct (proj2 (Hf2 n r S2 R2) h1 m1 L1).
  - intros h m' r n [[<- <-]|[Hne Hm]]%lookup_insert_Some Hrep Hts; [|by eapply H6].
    destruct (Hf2 _ _ Hts Hrep) as [(t & Ht & _) _]. eauto.
Qed.

(** *** Numbering *)

Lemma db_ok_bump db ch c :
  db_ok db → channels db !! ch = Some c →
  db_ok (set_channels (<[ch := ChannelRepo.bump_seq c]>) db)
  ∧ ∀ h m, messages db !! h = Some m → m_channel_id m = ch →
      m_seq m ≠ Some (ch_latest_seq c + 1).
Proof.
  intros [H1 H2 H3 H4 H5 H6] Hc. split; [split; try done; simpl|].
  - intros h m Hm. destruct (H1 h m Hm) as (E & c' & Hc' & Hok & Hle). split; [done|]. simpl.
    destruct (decide (m_channel_id m = ch)) as [<-|Hne].
    + rewrite lookup_insert_eq. eexists. split; [done|].
      simplify_map_eq. split; [done|].
      intros n Hn. simpl. specialize (Hle n Hn). lia.
    + rewrite lookup_insert_ne by done. by exists c'.
  - intros id c' [[<- <-]|[Hne Hl]]%lookup_insert_Some; simpl; auto.
  - intros r t Ht. destruct (H3 r t Ht) as (E0 & Hr & Hch & Hrest).
    split_and!; try done; [|apply Hrest..]. apply lookup_insert_is_Some.
    simpl. destruct (decide (ch = th_channel_id t)); auto.
  - intros h m Hm Hch Hs. destruct (H1 h m Hm) as (E & c' & Hc' & Hok & Hle).
    subst ch. assert (c' = c) as -> by congruence. specialize (Hle _ Hs). lia.
Qed.

(** The thread after a reply got its number and the metadata was updated:
    one step of [next_thread_seq] followed by [_update_thread_metadata]. *)
Definition reply_thread (now : float) (sender root ch : string) (o : option Thread) : Thread :=
  match o with
  | Some t => touch_thread now sender (SequenceManager.bump_thread t)
  | None => touch_thread now sender {|
              th_root_msg_hash := root; th_channel_id := ch; th_reply_count := 0;
              th_latest_thread_seq := 1; th_last_activity := now; th_participant_hashes := [] |}
  end.

Lemma touch_participants now s t :
  NoDup (th_participant_hashes t) → NoDup (th_participant_hashes (touch_thread now s t)).
Proof.
  intros H. simpl. case_bool_decide; [done|]. apply NoDup_app. split_and!; [done| |apply NoDup_singleton].
  intros x Hx ->%list_elem_of_singleton. done.
Qed.

Lemma db_ok_reply_thread db now sender root ch :
  db_ok db → is_Some (messages db !! root) → is_Some (channels db !! ch) →
  let t := reply_thread now sender root ch (threads db !! root) in
  db_ok (set_threads (<[root := t]>) db)
  ∧ ∀ h m, messages db !! h = Some m → m_reply_to m = Some root →
      m_thread_seq m ≠ Some (th_latest_thread_seq t).
Proof.
  intros [H1 H2 H3 H4 H5 H6] Hroot Hch t. split; [split; try done; simpl|].
  - intros r t' [[<- <-]|[Hne Ht]]%lookup_insert_Some; [|apply (H3 _ _ Ht)].
    unfold t, reply_thread. destruct (threads db !! root) as [t0|] eqn:E0.
    + destruct (H3 _ _ E0) as (E1 & _ & Hc & Hcnt & Hnd & Hmax). split_and!; try done.
      * simpl. lia.
      * by apply touch_participants.
      * intros h m n Hm Hr Hn. simpl. specialize (Hmax h m n Hm Hr Hn). lia.
    + split_and!; try done; [apply touch_participants; constructor|].
      intros h m n Hm Hr Hn. destruct (H6 h m root n Hm Hr Hn) as [t0 Ht0]. congruence.
  - intros h m r n Hm Hr Hn. apply lookup_insert_is_Some.
    destruct (decide (root = r)); [by left|right; eauto].
  - intros h m Hm Hr Hn. unfold t, reply_thread in Hn.
    destruct (H6 h m root _ Hm Hr Hn) as [t0 Ht0]. rewrite Ht0 in Hn.
    destruct (H3 _ _ Ht0) as (_ & _ & _ & _ & _ & Hmax). specialize (Hmax h m _ Hm Hr Hn).
    simpl in Hmax. lia.
Qed.

(** ** The permission gate *)

Definition same_db (s s' : Node) : Prop := n_db s' = n_db s.
#[export] Instance same_db_preorder : PreOrder same_db.
Proof. split; [by intros s|]. intros a b c H1 H2. unfold same_db in *. congruence. Qed.

(** A database computation that only reads. *)
Definition read_only {A} (m : M DB A) : Prop := mrel eq m.

Lemma same_db_rl {A} (m : M RateLimiter.t A) : mrel same_db (rl_op_ m).
Proof. intros s. unfold rl_op_, lift. by destruct (m (n_rl s)). Qed.
Lemma same_db_op {A} (m : M DB A) : read_only m → mrel same_db (db_op m).
Proof.
  intros H s. unfold db_op, lift. specialize (H (n_db s)).
  destruct (m (n_db s)) as [r db]. simpl in *. by subst.
Qed.
Lemma same_db_modify f : (∀ s, n_db (f s) = n_db s) → mrel same_db (modify f).
Proof. intros H s. apply H. Qed.
Lemma check_not_blocked_reads h : read_only (check_not_blocked h).
Proof.
  intros db. unfold check_not_blocked, bind, get. destruct (str_true h); [|done]. simpl.
  by destruct (IdentityRepo.is_blocked h db).
Qed.
#[export] Hint Resolve same_db_rl same_db_op check_not_blocked_reads : hok.

Section gate.
Context `{HH : Hashing} `{HO : OrmJson} `{HA : Aead}.
Context (self : MessageProcessor).

Lemma require_same perms flag msg : mrel same_db (require perms flag msg).
Proof. unfold require. mrel_auto. Qed.
Hint Resolve require_same : hok.

Lemma check_membership_same sender ch : mrel same_db (check_membership self sender ch).
Proof. unfold check_membership, ask. mrel_auto. Qed.

Lemma check_type_same perms e : mrel same_db (check_type perms e).
Proof. unfold check_type, ask. cbv zeta. mrel_auto. Qed.
Hint Resolve check_membership_same check_type_same : hok.

Lemma check_permissions_same now e ch : mrel same_db (_check_permissions self now e ch).
Proof. unfold _check_permissions, ask. cbv zeta. mrel_auto. Qed.

(** The permissions a message of each type needs; for a deletion, from whether
    the target is the sender's own. *)
Definition required_permissions (db : DB) (e : MessageEnvelope) : list Z :=
  let ty := e_type e in
  if ty =? MSG_TEXT then [PERM_SEND_MESSAGES]
  else if ty =? MSG_MEDIA then [PERM_SEND_MESSAGES; PERM_SEND_MEDIA]
  else if ty =? MSG_THREAD_REPLY then [PERM_CREATE_THREADS]
  else if ty =? MSG_REACTION then [PERM_ADD_REACTIONS]
  else if ty =? MSG_PIN then [PERM_PIN_MESSAGES]
  else if ty =? MSG_DELETE then
    match e_reply_to e ≫= λ h, messages db !! h with
    | Some t => [if bool_decide (m_sender_hash t = Some (e_sender_hash e))
                 then PERM_DELETE_OWN else PERM_DELETE_OTHERS]
    | None => []
    end
  else if ty =? MSG_EDIT then [PERM_EDIT_OWN]
  else [].

(** What the gate established about the sender, on the database it read. *)
Record authorized (owner : string) (db : DB) (e : MessageEnvelope) (ch : Channel) : Prop := {
  au_not_blocked : is_blocked (e_sender_hash e) db = false;
  au_member :
    ch_access_mode ch = ACCESS_PRIVATE ∨ ch_sealed ch = true →
    Some (e_sender_hash e) ≠ mp_node_identity_hash self →
    RoleRepo.get_identity_roles (e_sender_hash e) (Some (ch_id ch)) true db ≠ [];
  au_perms : ostr_true (e_reply_to e) = true ∨ e_type e ≠ MSG_DELETE →
    Forall (λ p, PermissionResolver.resolve owner (e_sender_hash e) ch p db = true)
      (required_permissions db e);
}.

Lemma require_ok perms flag msg s u s' :
  require perms flag msg s = (Ok u, s') → PermissionResolver.has_perm perms flag = true.
Proof. unfold require. by destruct (PermissionResolver.has_perm perms flag). Qed.

Lemma check_type_ok perms e s u s' :
  check_type perms e s = (Ok u, s') →
  ostr_true (e_reply_to e) = true ∨ e_type e ≠ MSG_DELETE →
  Forall (λ p, PermissionResolver.has_perm perms p = true) (required_permissions (n_db s) e).
Proof.
  unfold check_type, required_permissions. cbv zeta. intros H Hr.
  destruct (e_type e =? MSG_TEXT) eqn:E1; simpl in H.
  { rewrite Z.eqb_eq in E1. rewrite E1 in H.
    minv; (constructor; [by eapply require_ok|done]). }
  destruct (e_type e =? MSG_MEDIA) eqn:E2; simpl in H.
  { minv; simplify_eq; repeat constructor; by eapply require_ok. }
  destruct (e_type e =? MSG_THREAD_REPLY) eqn:E3; [constructor; [by eapply require_ok|done]|].
  destruct (e_type e =? MSG_REACTION) eqn:E4; [constructor; [by eapply require_ok|done]|].
  destruct (e_type e =? MSG_PIN) eqn:E5; [constructor; [by eapply require_ok|done]|].
  destruct (e_type e =? MSG_DELETE) eqn:E6.
  - apply Z.eqb_eq in E6. destruct Hr as [Hr|?]; [|done]. rewrite Hr in H.
    destruct (e_reply_to e) as [h|]; [|done]. simpl in *.
    unfold ask, MessageRepo.get_by_hash, bind, gets in H. simpl in H.
    destruct (messages (n_db s) !! h); [|done].
    destruct (bool_decide _); (constructor; [by eapply require_ok|done]).
  - destruct (e_type e =? MSG_EDIT) eqn:E7; [|constructor].
    minv; (constructor; [by eapply require_ok|done]).
Qed.

Lemma check_not_blocked_ok h db u db' :
  check_not_blocked h db = (Ok u, db') → is_blocked h db = false.
Proof.
  unfold check_not_blocked, is_blocked, bind, get. destruct (str_true h); simpl; [|done].
  by destruct (IdentityRepo.is_blocked h db).
Qed.

Lemma check_membership_ok sender ch s u s' :
  check_membership self sender ch s = (Ok u, s') →
  ch_access_mode ch = ACCESS_PRIVATE ∨ ch_sealed ch = true →
  Some sender ≠ mp_node_identity_hash self →
  RoleRepo.get_identity_roles sender (Some (ch_id ch)) true (n_db s) ≠ [].
Proof.
  intros H Hp Hne Hnil. unfold check_membership in H.
  replace (bool_decide (ch_access_mode ch = ACCESS_PRIVATE) || ch_sealed ch) with true in H
    by (destruct Hp as [->| ->]; [done|by rewrite orb_true_r]).
  rewrite (bool_decide_eq_false_2 _ Hne) in H. unfold ask, bind, gets in H. simpl in H.
  by rewrite Hnil in H.
Qed.

Lemma gate_ok now e ch s e' s' :
  _check_permissions self now e ch s = (Ok e', s') →
  n_db s' = n_db s
  ∧ match mp_permission_resolver self with
    | None => e' = e
    | Some owner =>
        authorized owner (n_db s) e ch
        ∧ e' = strip_mentions (PermissionResolver.get_effective_permissions owner
                                 (e_sender_hash e) ch (n_db s)) e
    end.
Proof.
  intros H. split; [by eapply (mrel_ok same_db), H; apply check_permissions_same|].
  unfold _check_permissions in H. destruct (mp_permission_resolver self) as [owner|]; [|by minv].
  cbv zeta in H. apply bind_ok in H as (u1 & s1 & H1 & H).
  assert (E1 : n_db s1 = n_db s)
    by (eapply (mrel_ok same_db), H1; eauto with hok).
  apply lift_ok in H1 as (db1 & H1 & _). apply check_not_blocked_ok in H1.
  apply bind_ok in H as (u2 & s2 & H2 & H).
  assert (E2 : n_db s2 = n_db s).
  { rewrite <- E1. eapply (mrel_ok same_db), H2. mrel_auto. }
  apply bind_ok in H as (u3 & s3 & H3 & H).
  assert (E3 : n_db s3 = n_db s).
  { rewrite <- E2. eapply (mrel_ok same_db), H3. apply check_membership_same. }
  pose proof (check_membership_ok _ _ _ _ _ H3) as Hmem. rewrite E2 in Hmem.
  unfold ask in H. unfold bind at 1 in H. unfold gets in H. rewrite E3 in H.
  apply bind_ok in H as (u4 & s4 & H4 & H). injection H as <- _.
  pose proof (check_type_ok _ _ _ _ _ H4) as Hty. rewrite E3 in Hty.
  split; [|done]. by split.
Qed.
End gate.

(** Two envelopes that differ at most in the display name and the mentions. *)
Record same_payload (e e' : MessageEnvelope) : Prop := {
  sp_channel : e_channel_id e' = e_channel_id e;
  sp_sender : e_sender_hash e' = e_sender_hash e;
  sp_time : e_timestamp e' = e_timestamp e;
  sp_type : e_type e' = e_type e;
  sp_body : e_body e' = e_body e;
  sp_reply : e_reply_to e' = e_reply_to e;
}.

Lemma same_payload_refl e : same_payload e e.
Proof. by split. Qed.
Lemma same_payload_strip p e : same_payload e (strip_mentions p e).
Proof.
  unfold strip_mentions. repeat match goal with |- context [if ?b then _ else _] => destruct b end;
    by split.
Qed.

Lemma same_payload_cut e : same_payload e (cut_name e).
Proof. unfold cut_name. destruct (_ && _); by split. Qed.

Lemma same_payload_trans a b c : same_payload a b → same_payload b c → same_payload a c.
Proof. intros [] []. split; congruence. Qed.

(** ** Storing a new row *)

Lemma check_fk_ok {A} (t : DB → gmap string A) k db u db' :
  check_fk t k db = (Ok u, db') → is_Some (t db !! k) ∧ db' = db.
Proof.
  unfold check_fk, bind, get, ret, raise. case_bool_decide; [|done]. by intros [= _ <-].
Qed.

(** The two steps that number a thread reply, as one update of the thread. *)
Lemma number_reply_db now e root s ts s' :
  e_reply_to e = Some root →
  (let! ts := seq_op (SequenceManager.next_thread_seq now root (e_channel_id e)) in
   _update_thread_metadata now e ;; ret ts) s = (Ok ts, s') →
  let t := reply_thread now (e_sender_hash e) root (e_channel_id e) (threads (n_db s) !! root) in
  (threads (n_db s) !! root = None → is_Some (messages (n_db s) !! root)) ∧ ts = th_latest_thread_seq t
  ∧ n_db s' = set_threads (<[root := t]>) (n_db s).
Proof.
  intros Hr H. apply bind_ok in H as (ts' & s1 & H1 & H).
  apply lift_ok in H1 as ([db1 mgr1] & H1 & ->).
  unfold SequenceManager.next_thread_seq in H1.
  unfold bind, SequenceManager.on_mgr, SequenceManager.on_db, lift, gets, modify in H1. simpl in H1.
  unfold _update_thread_metadata, ask, db_op, bind, gets, modify, lift in H. rewrite Hr in H. simpl in H.
  destruct (threads (n_db s) !! root) as [t0|] eqn:Et; simpl in H1.
  - injection H1 as <- <- <-. simpl in H. rewrite lookup_insert_eq in H. injection H as <- <-. split_and!; [done..|].
    unfold set_node_thread_locks, set_db, set_seq, set_threads. simpl. by rewrite insert_insert_eq.
  - destruct (check_fk messages root (n_db s)) as [[u1|] d1] eqn:F1; [|done].
    apply check_fk_ok in F1 as [Hroot ->].
    destruct (check_fk channels (e_channel_id e) (n_db s)) as [[u2|] d2] eqn:F2; [|done].
    apply check_fk_ok in F2 as [_ ->].
    simpl in H1. injection H1 as <- <- <-. simpl in H. rewrite lookup_insert_eq in H.
    injection H as <- <-. split_and!; [done..|].
    unfold set_node_thread_locks, set_db, set_seq, set_threads. simpl. by rewrite insert_insert_eq.
Qed.

(** The threads after an ingestion: as they were, or with the one that a
    thread reply names. *)
Definition threads_step (now : float) (e : MessageEnvelope) (db db' : DB) : Prop :=
  threads db' = threads db ∨
  (e_type e = MSG_THREAD_REPLY ∧ ∃ root, e_reply_to e = Some root
   ∧ threads db' = <[root := reply_thread now (e_sender_hash e) root (e_channel_id e) (threads db !! root)]> (threads db)).

(** The numbers of a row are either the next of a thread or of its channel. *)
Lemma assign_numbers_cases now e s sq ts s' :
  assign_numbers now e s = (Ok (sq, ts), s') →
  (∃ root, e_type e = MSG_THREAD_REPLY ∧ e_reply_to e = Some root ∧ sq = None
     ∧ let t := reply_thread now (e_sender_hash e) root (e_channel_id e) (threads (n_db s) !! root) in
       (threads (n_db s) !! root = None → is_Some (messages (n_db s) !! root)) ∧ ts = Some (th_latest_thread_seq t)
       ∧ n_db s' = set_threads (<[root := t]>) (n_db s))
  ∨ ∃ n, sq = Some n ∧ ts = None ∧ seq_op (SequenceManager.next_seq (e_channel_id e)) s = (Ok n, s').
Proof.
  unfold assign_numbers. destruct ((e_type e =? MSG_THREAD_REPLY) && ostr_true (e_reply_to e)) eqn:E.
  - apply andb_true_iff in E as [Ety%Z.eqb_eq E]. destruct (e_reply_to e) as [root|] eqn:Er; [|done]. simpl.
    intros (n & s1 & H1 & H)%bind_ok. apply bind_ok in H as (u & s2 & H2 & H). injection H as <- <- <-. left. exists root.
    destruct (number_reply_db now e root s n s2 Er) as (A & B & C); [|subst; by split_and!].
    by rewrite (bind_run_ok _ _ _ _ _ H1), (bind_run_ok _ _ _ _ _ H2).
  - intros (n & s1 & H1 & H)%bind_ok. injection H as <- <- <-. right. by exists n.
Qed.

(** What [assign_numbers] leaves: the invariant, the same rows, a channel that
    differs only in its counter, and numbers nothing uses yet. *)
Record numbered (db db' : DB) (ch : string) (c : Channel) (reply : option string)
    (sq ts : option Z) : Prop := {
  nu_ok : db_ok db';
  nu_messages : messages db' = messages db;
  nu_channel : ∃ c', channels db' !! ch = Some c' ∧ ch_sealed c' = ch_sealed c
                 ∧ ∀ n, sq = Some n → n ≤ ch_latest_seq c';
  nu_fresh : ∀ m, m_channel_id m = ch → m_reply_to m = reply → m_seq m = sq →
               m_thread_seq m = ts → fresh_row db' m;
}.

Lemma next_seq_numbered ch c s n s' reply :
  db_ok (n_db s) → channels (n_db s) !! ch = Some c →
  seq_op (SequenceManager.next_seq ch) s = (Ok n, s') →
  numbered (n_db s) (n_db s') ch c reply (Some n) None.
Proof.
  intros Hok Hc H. apply lift_ok in H as ([db' mgr'] & H & ->). simpl in *.
  destruct (next_seq_run ch (n_db s) (n_seq s) c Hc) as (mgr1 & E & _). rewrite E in H.
  injection H as <- <- <-. destruct (db_ok_bump _ _ _ Hok Hc) as [Hok' Hfresh].
  split; [done|done| |].
  - exists (ChannelRepo.bump_seq c). simpl. rewrite lookup_insert_eq. split_and!; [done..|].
    intros n [= <-]. lia.
  - intros m Hm _ Hs Ht. split; simpl; rewrite ?Hs, ?Ht; [|done].
    intros n h m' [= <-] Hl Hch. rewrite Hm in Hch. by eapply Hfresh.
Qed.

Lemma assign_numbers_numbered now e c s sq ts s' :
  db_ok (n_db s) → channels (n_db s) !! e_channel_id e = Some c →
  assign_numbers now e s = (Ok (sq, ts), s') →
  numbered (n_db s) (n_db s') (e_channel_id e) c (e_reply_to e) sq ts.
Proof.
  intros Hok Hc H. apply assign_numbers_cases in H as [(root & _ & Er & -> & Hmade & -> & ->)|(n & -> & -> & H1)].
  - assert (is_Some (messages (n_db s) !! root)) as Hroot.
    { destruct (threads (n_db s) !! root) as [t|] eqn:Et; [|by apply Hmade]. by destruct (ok_threads _ Hok _ _ Et) as (_ & ? & _). }
    destruct (db_ok_reply_thread (n_db s) now (e_sender_hash e) root (e_channel_id e)) as [Hok' Hf]; eauto.
    split; [done|done|exists c; by split_and!|].
    intros m Hm Hr Hs Ht. split; [congruence|]. intros n r Hn Hr'. rewrite Er in Hr. rewrite Hr in Hr'.
    rewrite Ht in Hn. simplify_eq. split.
    + eexists. simpl. rewrite lookup_insert_eq. split; [done|]. lia.
    + intros h m' Hl Hr2. by eapply Hf.
  - by eapply next_seq_numbered.
Qed.

(** ** What an ingestion may change *)

(** A thread that is still what it was, its counters and participants aside. *)
Definition same_thread (t t' : Thread) : Prop :=
  th_root_msg_hash t' = th_root_msg_hash t ∧ th_channel_id t' = th_channel_id t.

(** Outside the channel the envelope is for, no message row and no channel
    changes, no thread is made, and a thread changes in its counters at most
    (see [thread_reply_crosses_channels]); no channel disappears; and no role,
    assignment, override or ban changes at all. *)
Record frame (ch : string) (db db' : DB) : Prop := {
  fr_kept : ∀ h m, messages db !! h = Some m → m_channel_id m ≠ ch → messages db' !! h = Some m;
  fr_made : ∀ h m, messages db' !! h = Some m → m_channel_id m ≠ ch → messages db !! h = Some m;
  fr_never_lost : ∀ h, is_Some (messages db !! h) → is_Some (messages db' !! h);
  fr_channels : ∀ id, id ≠ ch → channels db' !! id = channels db !! id;
  fr_roles : roles db' = roles db;
  fr_assign : role_assignments db' = role_assignments db;
  fr_over : channel_overrides db' = channel_overrides db;
  fr_blocked : ∀ id, is_blocked id db' = is_blocked id db;
  fr_keys : sealed_keys db' = sealed_keys db;
  fr_present : ∀ id, is_Some (channels db !! id) → is_Some (channels db' !! id);
  fr_threads : ∀ h t, threads db !! h = Some t → th_channel_id t ≠ ch →
    ∃ t', threads db' !! h = Some t' ∧ same_thread t t';
  fr_threads_made : ∀ h t', threads db' !! h = Some t' → th_channel_id t' ≠ ch →
    ∃ t, threads db !! h = Some t ∧ same_thread t t';
}.

#[export] Instance frame_preorder ch : PreOrder (frame ch).
Proof.
  split; [intros db; split; eauto; by eexists|].
  intros a b c [A1 A2 A3 A4 A5 A6 A7 A8 A9 A10 A11 A12] [B1 B2 B3 B4 B5 B6 B7 B8 B9 B10 B11 B12].
  split; intros; eauto; try first [by rewrite B4, A4|by rewrite B8, A8|congruence].
  - destruct (A11 h t) as (t1 & H1 & [E1 E1']); [done..|].
    destruct (B11 h t1) as (t2 & H2 & [E2 E2']); [done|congruence|]. exists t2. split; [done|]. split; congruence.
  - destruct (B12 h t') as (t1 & H1 & [E1 E1']); [done..|].
    destruct (A12 h t1) as (t2 & H2 & [E2 E2']); [done|congruence|]. exists t2. split; [done|]. split; congruence.
Qed.

Lemma threads_frame ch db db' : threads db' = threads db →
  (∀ h t, threads db !! h = Some t → th_channel_id t ≠ ch → ∃ t', threads db' !! h = Some t' ∧ same_thread t t')
  ∧ (∀ h t', threads db' !! h = Some t' → th_channel_id t' ≠ ch → ∃ t, threads db !! h = Some t ∧ same_thread t t').
Proof. intros ->. split; intros h t Ht _; by exists t. Qed.

Lemma frame_same_messages ch db db' :
  messages db' = messages db → (∀ id, id ≠ ch → channels db' !! id = channels db !! id) →
  roles db' = roles db → role_assignments db' = role_assignments db →
  channel_overrides db' = channel_overrides db → identities db' = identities db →
  sealed_keys db' = sealed_keys db → (∀ id, is_Some (channels db !! id) → is_Some (channels db' !! id)) →
  threads db' = threads db → frame ch db db'.
Proof.
  intros E ? ? ? ? Ei ? ? Et. split; try done; try (by rewrite E); try (by apply threads_frame).
  intros id. unfold is_blocked, IdentityRepo.is_blocked, IdentityRepo.get_by_hash.
  by rewrite Ei.
Qed.

Lemma frame_alter ch db f h m :
  messages db !! h = Some m → m_channel_id m = ch → m_channel_id (f m) = ch →
  frame ch db (set_messages (alter f h) db).
Proof.
  intros Hm Hch Hf. split; try done; try (by apply threads_frame); simpl; rewrite (alter_insert_eq _ _ _ _ Hm).
  - intros h' m' Hm' Hne. rewrite lookup_insert_ne; [done|]. intros <-. congruence.
  - intros h' m' [[<- <-]|[? ?]]%lookup_insert_Some; [congruence|done].
  - intros h' Hh. apply lookup_insert_is_Some. destruct (decide (h = h')); auto.
Qed.

Lemma frame_insert db m :
  messages db !! m_msg_hash m = None →
  frame (m_channel_id m) db (set_messages (<[m_msg_hash m := m]>) db).
Proof.
  intros Hnew. split; try done; try (by apply threads_frame); simpl.
  - intros h m' Hm' Hne. rewrite lookup_insert_ne; [done|]. intros <-. congruence.
  - intros h m' [[<- <-]|[? ?]]%lookup_insert_Some; [congruence|done].
  - intros h Hh. apply lookup_insert_is_Some. destruct (decide (m_msg_hash m = h)); auto.
Qed.

(** A step that keeps the invariant and stays in its channel. *)
Definition effect (ch : string) (db db' : DB) : Prop :=
  (db_ok db → db_ok db') ∧ frame ch db db'.

#[export] Instance effect_preorder ch : PreOrder (effect ch).
Proof. split; [by intros db|]. intros a b c [] []. split; [auto|by etrans]. Qed.

Lemma effect_alter ch db f h m :
  messages db !! h = Some m → m_channel_id m = ch → keeps_row db f m →
  effect ch db (set_messages (alter f h) db).
Proof.
  intros Hm Hch Hk. split.
  - intros Hok. apply db_ok_alter; [done|]. intros m' Hm'. by simplify_map_eq.
  - eapply frame_alter; [done..|]. destruct Hk as (_ & -> & _). done.
Qed.

(** An unnumbered row (an edit's copy). *)
Lemma effect_insert_plain db m c :
  messages db !! m_msg_hash m = None → channels db !! m_channel_id m = Some c →
  content_ok (ch_sealed c) (row_content m) → m_seq m = None → m_thread_seq m = None →
  effect (m_channel_id m) db (set_messages (<[m_msg_hash m := m]>) db).
Proof.
  intros Hnew Hc Hcont Hs Ht. split; [|by apply frame_insert].
  intros Hok. eapply db_ok_insert; eauto; [congruence|]. split; congruence.
Qed.

Lemma effect_numbered_insert db db' m c :
  numbered db db' (m_channel_id m) c (m_reply_to m) (m_seq m) (m_thread_seq m) →
  messages db' !! m_msg_hash m = None →
  content_ok (ch_sealed c) (row_content m) →
  db_ok (set_messages (<[m_msg_hash m := m]>) db').
Proof.
  intros [Hok Hm (c' & Hc' & Es & Hle) Hf] Hnew Hcont.
  eapply db_ok_insert; eauto. by rewrite Es.
Qed.

(** ** The handlers *)

(** Computations that leave the threads alone. *)
Definition same_threads (s s' : Node) : Prop := threads (n_db s') = threads (n_db s).
#[local] Instance same_threads_preorder : PreOrder same_threads.
Proof. split; [by intros s|]. intros a b c H1 H2. unfold same_threads in *. congruence. Qed.

Section handlers.
Context `{HH : Hashing} `{HO : OrmJson} `{HA : Aead}.
Context (self : MessageProcessor).

Lemma require_target_ok h ch s m s' :
  _require_target_in_channel h ch s = (Ok m, s') →
  s' = s ∧ messages (n_db s) !! h = Some m ∧ m_channel_id m = ch.
Proof.
  unfold _require_target_in_channel, ask, bind, gets, MessageRepo.get_by_hash.
  destruct (messages (n_db s) !! h) as [m0|] eqn:E; [|done].
  destruct (bool_decide (m_channel_id m0 = ch)) eqn:Ec; [|done].
  apply bool_decide_eq_true in Ec. by intros [= <- <-].
Qed.

Lemma seal_ok nonce ch p s c s' :
  _seal_body_for_insert self nonce ch p s = (Ok c, s') → s' = s ∧ content_ok (ch_sealed ch) c.
Proof.
  unfold _seal_body_for_insert, of_res. intros [= H ->]. split; [done|]. by eapply seal_for_origin_ok.
Qed.

Lemma db_insert_ok m s u s' :
  db_op (MessageRepo.insert m) s = (Ok u, s') →
  messages (n_db s) !! m_msg_hash m = None
  ∧ n_db s' = set_messages (<[m_msg_hash m := m]>) (n_db s).
Proof.
  intros (db & H & ->)%lift_ok. destruct u. apply insert_run in H as (H1 & _ & ->). done.
Qed.

Lemma process_edit_effect now nonce e s m s' :
  process_edit self now nonce e s = (Ok m, s') → effect (e_channel_id e) (n_db s) (n_db s').
Proof.
  unfold process_edit. destruct (ostr_true (e_reply_to e)); [|done]. simpl. cbv zeta.
  intros (orig & s1 & (-> & Ho & Hoc)%require_target_ok & H)%bind_ok.
  destruct (bool_decide (m_sender_hash orig = _)); simpl in H; [|done].
  unfold ask in H. unfold bind at 1, gets, ChannelRepo.get_by_id in H.
  destruct (channels (n_db s) !! e_channel_id e) as [ch|] eqn:Ech; [|done].
  apply bind_ok in H as (c & s1 & (-> & Hc)%seal_ok & H).
  apply bind_ok in H as (u & s1 & (Hnew & E1)%db_insert_ok & H).
  destruct (MAX_EDIT_CHAIN_LENGTH <=? _); [done|].
  apply bind_ok in H as (u' & s2 & (db2 & H2 & ->)%lift_ok & H). injection H as <- <-.
  injection H2 as <- <-. rewrite E1. simpl in *.
  etrans; [eapply (effect_insert_plain _ (edit_row self now (compute_hash e) e c)); eauto|].
  eapply effect_alter; [simpl; rewrite lookup_insert_ne; [done|congruence]|done|].
  split_and!; try done. simpl. intros c' Hc' _. rewrite Hoc in Hc'. by simplify_map_eq.
Qed.

Lemma process_delete_effect now e s m s' :
  process_delete now e s = (Ok m, s') → effect (e_channel_id e) (n_db s) (n_db s').
Proof.
  unfold process_delete. destruct (ostr_true (e_reply_to e)); [|done]. simpl. cbv zeta.
  intros (orig & s1 & (-> & Ho & Hoc)%require_target_ok & H)%bind_ok.
  apply bind_ok in H as (r & s1 & (db1 & H1 & ->)%lift_ok & H). injection H1 as <- <-.
  apply bind_ok in H as (u & s2 & (db2 & H2 & ->)%lift_ok & H). injection H2 as <- <-.
  injection H as <- <-. simpl.
  etrans; [eapply (effect_alter _ _ (MessageRepo.soft_delete_row (e_sender_hash e))); eauto|].
  - split_and!; try done. intros c _. unfold content_ok. by destruct (ch_sealed c).
  - split; [apply db_ok_same; by split_and!|]. by apply frame_same_messages.
Qed.

Lemma next_seq_frame ch s n s' :
  seq_op (SequenceManager.next_seq ch) s = (Ok n, s') → frame ch (n_db s) (n_db s').
Proof.
  intros ([db' mgr'] & H & ->)%lift_ok. simpl in *.
  destruct (channels (n_db s) !! ch) as [c|] eqn:Hc.
  - destruct (next_seq_run ch (n_db s) (n_seq s) c Hc) as (mgr1 & E & _). rewrite E in H.
    injection H as <- <- <-. apply frame_same_messages; try done.
    + intros id Hne. simpl. by rewrite lookup_insert_ne.
    + intros id Hid. simpl. apply lookup_insert_is_Some. destruct (decide (ch = id)); auto.
  - destruct (next_seq_missing ch (n_db s) (n_seq s) Hc) as (err & mgr1 & E). congruence.
Qed.

Lemma db_op_threads {A} (m : M DB A) :
  mrel (λ db db', threads db' = threads db) m → mrel same_threads (db_op m).
Proof. intros Hm. by eapply mrel_lift; [exact Hm|]. Qed.

Lemma insert_threads m : mrel same_threads (db_op (MessageRepo.insert m)).
Proof.
  apply db_op_threads. intros db. unfold MessageRepo.insert, check_unique, check_fk, bind, get, ret, raise, modify.
  by repeat case_bool_decide.
Qed.

Lemma modify_threads f : (∀ db, threads (f db) = threads db) → mrel same_threads (db_op (modify f)).
Proof. intros Hf. apply db_op_threads. intros db. apply Hf. Qed.

Lemma next_seq_threads ch : mrel same_threads (seq_op (SequenceManager.next_seq ch)).
Proof.
  intros s. unfold seq_op, lift, same_threads. destruct (channels (n_db s) !! ch) as [c|] eqn:Hc.
  - by destruct (next_seq_run ch (n_db s) (n_seq s) c Hc) as (mgr1 & -> & _).
  - by destruct (next_seq_missing ch (n_db s) (n_seq s) Hc) as (err & mgr1 & ->).
Qed.

Lemma require_target_threads h ch : mrel same_threads (_require_target_in_channel h ch).
Proof. unfold _require_target_in_channel, ask. mrel_auto. Qed.

Lemma seal_threads nonce ch p : mrel same_threads (_seal_body_for_insert self nonce ch p).
Proof. unfold _seal_body_for_insert. mrel_auto. Qed.

Hint Resolve insert_threads next_seq_threads require_target_threads seal_threads : hok.

(** The specialised handlers do. *)
Lemma handlers_threads now nonce e ch :
  mrel same_threads (process_edit self now nonce e) ∧ mrel same_threads (process_delete now e)
  ∧ mrel same_threads (process_pin self now nonce e ch) ∧ mrel same_threads (process_reaction e).
Proof.
  split_and!.
  - unfold process_edit, ask. mrel_auto. by apply modify_threads.
  - unfold process_delete. mrel_auto; by apply db_op_threads.
  - unfold process_pin. mrel_auto. by apply db_op_threads.
  - unfold process_reaction. mrel_auto. by apply modify_threads.
Qed.

Lemma process_pin_effect now nonce e ch s m s' :
  channels (n_db s) !! e_channel_id e = Some ch →
  process_pin self now nonce e ch s = (Ok m, s') → effect (e_channel_id e) (n_db s) (n_db s').
Proof.
  intros Hch. unfold process_pin. destruct (ostr_true (e_reply_to e)); [|done]. simpl. cbv zeta.
  intros (orig & s1 & (-> & Ho & Hoc)%require_target_ok & H)%bind_ok.
  apply bind_ok in H as (r & s1 & (db1 & H1 & ->)%lift_ok & H). injection H1 as <- <-.
  apply bind_ok in H as (n & s2 & H2 & H).
  apply bind_ok in H as (c & s3 & (-> & Hc)%seal_ok & H).
  apply bind_ok in H as (u & s3 & (Hnew & E1)%db_insert_ok & H). injection H as <- <-. rewrite E1.
  etrans; [eapply (effect_alter _ _ (MessageRepo.set_pinned_row now (negb (m_pinned orig)))); eauto;
           by split_and!|].
  split.
  - intros Hok. eapply (effect_numbered_insert _ _ (pin_system_row _ _ _ _ _ _) ch); [|done|done].
    eapply next_seq_numbered in H2; eauto.
  - etrans; [by eapply (next_seq_frame _ _ _ _ H2)|]. eapply (frame_insert _ (pin_system_row _ _ _ _ _ _)). done.
Qed.

Lemma process_reaction_effect e s m s' :
  process_reaction e s = (Ok m, s') → effect (e_channel_id e) (n_db s) (n_db s').
Proof.
  unfold process_reaction. destruct (ostr_true (e_reply_to e)); [|done]. simpl. cbv zeta.
  intros (orig & s1 & (-> & Ho & Hoc)%require_target_ok & H)%bind_ok.
  destruct (ostr_true (e_body e)); simpl in H; [|done]. destruct (32 <? _); [done|].
  destruct (bool_decide (e_sender_hash e ∈ _)); [by injection H as <- <-|].
  apply bind_ok in H as (u & s1 & H1 & H). injection H as <- <-. unfold when in H1.
  destruct (json_dirty _ _); [|by injection H1 as <- <-].
  apply lift_ok in H1 as (db1 & H1 & ->). injection H1 as <- <-. simpl.
  eapply effect_alter; eauto. by split_and!.
Qed.

(** A reply's thread, in the frame of its channel. *)
Lemma frame_reply_thread now sender root ch db :
  frame ch db (set_threads (<[root := reply_thread now sender root ch (threads db !! root)]>) db).
Proof.
  split; try done; simpl; intros h t.
  - destruct (decide (root = h)) as [<-|]; intros Ht _; [|rewrite lookup_insert_ne by done; by exists t].
    rewrite lookup_insert_eq, Ht. eexists. by split.
  - intros [[<- <-]|[_ Ht]]%lookup_insert_Some Hne; [|by exists t].
    destruct (threads db !! root) as [t|]; [|done]. by exists t.
Qed.

Lemma assign_numbers_effect now e s p s' :
  assign_numbers now e s = (Ok p, s') →
  frame (e_channel_id e) (n_db s) (n_db s') ∧ threads_step now e (n_db s) (n_db s').
Proof.
  destruct p as [sq ts].
  intros [(root & Ety & Er & _ & _ & _ & ->)|(n & _ & _ & H1)]%assign_numbers_cases.
  - split; [apply frame_reply_thread|]. right. split; [done|]. by exists root.
  - split; [by eapply next_seq_frame|]. left. exact (mrel_ok _ _ _ _ _ (next_seq_threads _) H1).
Qed.

Lemma upsert_key_effect ch now h pk s u s' :
  db_op (IdentityRepo.upsert now h (set_public_key pk)) s = (Ok u, s') →
  effect ch (n_db s) (n_db s') ∧ messages (n_db s') = messages (n_db s).
Proof.
  intros (db & H & ->)%lift_ok. injection H as <- <-. split; [|done].
  split; [apply db_ok_same; by split_and!|]. split; try done; try (by apply threads_frame). intros id. simpl.
  unfold is_blocked, IdentityRepo.is_blocked, IdentityRepo.get_by_hash. simpl.
  destruct (decide (h = id)) as [->|]; [|by rewrite lookup_partial_alter_ne].
  rewrite lookup_partial_alter_eq. by destruct (identities (n_db s) !! id).
Qed.

Lemma store_message_ok now nonce e ch s m s' :
  channels (n_db s) !! e_channel_id e = Some ch →
  store_message self now nonce e ch s = (Ok m, s') →
  effect (e_channel_id e) (n_db s) (n_db s')
  ∧ messages (n_db s') !! compute_hash e = Some m
  ∧ (is_Some (messages (n_db s) !! compute_hash e) ∧ s' = s
     ∨ ∃ sq ts c, m = ingest_row self now (compute_hash e) sq ts e c).
Proof.
  intros Hch. unfold store_message. cbv zeta. unfold ask. unfold bind at 1. unfold gets at 1.
  unfold MessageRepo.get_by_hash.
  destruct (messages (n_db s) !! compute_hash e) as [old|] eqn:Eold.
  { intros [= <- <-]. split; [done|]. split; [done|]. left. eauto. }
  intros ([sq ts] & s1 & H1 & H)%bind_ok.
  apply bind_ok in H as (c & s2 & (-> & Hc)%seal_ok & H).
  apply bind_ok in H as (u & s2 & (Hnew & E1)%db_insert_ok & H). simpl in Hnew, E1.
  apply bind_ok in H as (u' & s3 & H2 & H). injection H as <- <-.
  assert (Hup : effect (e_channel_id e) (n_db s2) (n_db s3) ∧ messages (n_db s3) = messages (n_db s2)).
  { destruct (e_sender_public_key e) as [pk|]; [|by injection H2 as <- <-].
    unfold when in H2. destruct (list_true pk); [|by injection H2 as <- <-].
    by eapply upsert_key_effect. }
  destruct Hup as [Hup Em]. split; [|split].
  - etrans; [|done]. rewrite E1. split.
    + intros Hok. eapply (effect_numbered_insert _ _ (ingest_row _ _ _ _ _ _ _) ch); [|done|done].
      by eapply assign_numbers_numbered.
    + etrans; [by eapply assign_numbers_effect|]. by eapply (frame_insert _ (ingest_row _ _ _ _ _ _ _)).
  - rewrite Em, E1. simpl. by rewrite lookup_insert_eq.
  - right. eauto.
Qed.
Lemma store_message_threads now nonce e ch s m s' :
  store_message self now nonce e ch s = (Ok m, s') → threads_step now e (n_db s) (n_db s').
Proof.
  unfold store_message. cbv zeta. unfold ask. unfold bind at 1. unfold gets at 1.
  destruct (MessageRepo.get_by_hash _ _); [intros [= <- <-]; by left|].
  intros (p & s1 & [_ Ht]%assign_numbers_effect & H)%bind_ok.
  assert (same_threads s1 s') as Hs.
  { eapply mrel_ok; [|exact H]. destruct p. mrel_auto. by apply modify_threads. }
  unfold threads_step. by rewrite Hs.
Qed.
End handlers.

(** ** The pipeline *)

Section pipeline.
Context `{HH : Hashing} `{HO : OrmJson} `{HA : Aead}.
Context (self : MessageProcessor).

Lemma ingest_inv now nonce e s r s' :
  ingest self now nonce e s = (Ok r, s') →
  ∃ ch e1 s1, channels (n_db s) !! e_channel_id e = Some ch
    ∧ _check_permissions self now (cut_name e) ch s = (Ok e1, s1)
    ∧ n_db s1 = n_db s ∧ same_payload e e1
    ∧ route self now nonce e1 ch s1 = (Ok r, s').
Proof.
  unfold ingest, ask. unfold bind at 1, gets at 1, ChannelRepo.get_by_id.
  destruct (channels (n_db s) !! e_channel_id e) as [ch|] eqn:Ech; [|done].
  destruct (_ && _); [done|]. intros (e1 & s1 & H1 & H)%bind_ok.
  exists ch, e1, s1. split_and!; try done; [by apply gate_ok in H1 as [? _]|].
  eapply same_payload_trans; [apply same_payload_cut|].
  apply gate_ok in H1 as [_ H1]. destruct (mp_permission_resolver self); [|by subst].
  destruct H1 as [_ ->]. apply same_payload_strip.
Qed.

Lemma route_effect now nonce e ch s r s' :
  channels (n_db s) !! e_channel_id e = Some ch →
  route self now nonce e ch s = (Ok r, s') → effect (e_channel_id e) (n_db s) (n_db s').
Proof.
  intros Hch. unfold route. destruct (e_type e =? MSG_EDIT).
  { intros (m & s1 & H & E)%bind_ok. injection E as <- <-. by eapply process_edit_effect. }
  destruct (e_type e =? MSG_DELETE); [by apply process_delete_effect|].
  destruct (e_type e =? MSG_PIN).
  { intros (m & s1 & H & E)%bind_ok. injection E as <- <-. by eapply process_pin_effect. }
  destruct (e_type e =? MSG_REACTION).
  { intros (m & s1 & H & E)%bind_ok. injection E as <- <-. by eapply process_reaction_effect. }
  intros (m & s1 & H & E)%bind_ok. injection E as <- <-. by eapply store_message_ok.
Qed.

Lemma route_threads now nonce e ch s r s' :
  route self now nonce e ch s = (Ok r, s') → threads_step now e (n_db s) (n_db s').
Proof.
  destruct (handlers_threads self now nonce e ch) as (H1 & H2 & H3 & H4). unfold route.
  assert (∀ {A B} (f : A → B) m, mrel same_threads m → mrel same_threads (mmap f m)) as Hmap.
  { intros A B f m. apply (mrel_mmap same_threads). }
  destruct (e_type e =? MSG_EDIT); [intros H; left; exact (mrel_ok _ _ _ _ _ (Hmap _ _ Some _ H1) H)|].
  destruct (e_type e =? MSG_DELETE); [intros H; left; exact (mrel_ok _ _ _ _ _ H2 H)|].
  destruct (e_type e =? MSG_PIN); [intros H; left; exact (mrel_ok _ _ _ _ _ (Hmap _ _ Some _ H3) H)|].
  destruct (e_type e =? MSG_REACTION); [intros H; left; exact (mrel_ok _ _ _ _ _ (Hmap _ _ Some _ H4) H)|].
  intros (m & s1 & H & E)%bind_ok. injection E as <- <-. by eapply store_message_threads.
Qed.

Lemma ingest_tx_threads now nonce e s :
  threads_step now e (n_db s) (n_db (ingest_tx self now nonce e s).2).
Proof.
  unfold ingest_tx, atomic. destruct (ingest self now nonce e s) as [[r|err] s'] eqn:H; [|by left].
  simpl. apply ingest_inv in H as (ch & e1 & s1 & Hch & _ & E & [P1 P2 P3 P4 P5 P6] & H).
  apply route_threads in H. unfold threads_step in *. rewrite E in H. by rewrite P1, P2, P4, P6 in H.
Qed.

Lemma ingest_tx_effect now nonce e s :
  effect (e_channel_id e) (n_db s) (n_db (ingest_tx self now nonce e s).2).
Proof.
  unfold ingest_tx, atomic. destruct (ingest self now nonce e s) as [[r|err] s'] eqn:H; [|done].
  simpl. apply ingest_inv in H as (ch & e1 & s1 & Hch & _ & E & Hp & H).
  rewrite <- (sp_channel _ _ Hp), <- E in *. by eapply route_effect.
Qed.
End pipeline.

(** A run of ingestions, each in its transaction. *)
Definition ingest_all `{Hashing} `{OrmJson} `{Aead} (self : MessageProcessor)
    (l : list (float * bytes * MessageEnvelope)) (s : Node) : Node :=
  foldl (λ s x, (ingest_tx self x.1.1 x.1.2 x.2 s).2) s l.

(** C1: the invariant of the stored rows holds after any run of ingestions,
    failed ones included: rows are stored under their hash, in a channel that
    exists; a sealed channel has no plaintext row and no other channel a
    ciphertext; main numbers are unique in their channel and at most its
    counter; thread numbers are unique in their thread; every thread counts
    its replies right and lists each participant once. *)
Theorem ingest_all_ok {HH : Hashing} {HO : OrmJson} {HA : Aead} (self : MessageProcessor)
    (l : list (float * bytes * MessageEnvelope)) (s : Node) :
  db_ok (n_db s) → db_ok (n_db (ingest_all self l s)).
Proof.
  unfold ingest_all. revert s. induction l as [|[[now nonce] e] l IH]; intros s Hok; simpl; [done|].
  apply IH. by apply (ingest_tx_effect self now nonce e s).
Qed.

(** C3: a message for one channel never changes a message row or the counter
    of another channel, loses no stored row and no channel, and touches no
    role, assignment, override, ban or sealed key: whatever the envelope holds,
    and whether it is accepted or refused. Of the threads recorded under
    another channel it makes none, and changes none but one: a thread reply
    that names the root of such a thread as its target counts there. *)
Theorem ingest_isolated {HH : Hashing} {HO : OrmJson} {HA : Aead} (self : MessageProcessor)
    (now : float) (nonce : bytes) (e : MessageEnvelope) (s : Node) :
  let db := n_db s in
  let db' := n_db (ingest_tx self now nonce e s).2 in
  frame (e_channel_id e) db db'
  ∧ ∀ h t, threads db !! h = Some t → th_channel_id t ≠ e_channel_id e →
      threads db' !! h = Some t
      ∨ e_type e = MSG_THREAD_REPLY ∧ e_reply_to e = Some h
        ∧ threads db' !! h = Some (reply_thread now (e_sender_hash e) h (e_channel_id e) (Some t)).
Proof.
  intros db db'. split; [apply ingest_tx_effect|]. intros h t Ht _.
  destruct (ingest_tx_threads self now nonce e s) as [E|(Ety & root & Er & E)]; fold db db' in E; rewrite E; [by left|].
  destruct (decide (root = h)) as [<-|]; [|left; by rewrite lookup_insert_ne].
  right. by rewrite lookup_insert_eq, Ht.
Qed.

Definition ordinary (ty : Z) : bool :=
  negb ((ty =? MSG_EDIT) || (ty =? MSG_DELETE) || (ty =? MSG_PIN) || (ty =? MSG_REACTION)).

Section replay.
Context `{HH : Hashing} `{HO : OrmJson} `{HA : Aead}.
Context (self : MessageProcessor).

Lemma compute_hash_payload e e' : same_payload e e' → compute_hash e' = compute_hash e.
Proof. intros []. unfold compute_hash. congruence. Qed.

Lemma route_ordinary now nonce e ch :
  ordinary (e_type e) = true →
  route self now nonce e ch = mmap Some (store_message self now nonce e ch).
Proof.
  unfold ordinary, route. rewrite negb_true_iff, !orb_false_iff. by intros [[[-> ->] ->] ->].
Qed.

Lemma ingest_channel now nonce e s r s' : ingest self now nonce e s = (Ok r, s') →
  is_Some (channels (n_db s') !! e_channel_id e)
  ∧ ostr_true (e_body e) && (MAX_MESSAGE_BODY_SIZE <? utf8_len (or_empty (e_body e))) = false.
Proof.
  intros E. split.
  - pose proof (ingest_tx_effect self now nonce e s) as [_ Hf]. unfold ingest_tx, atomic in Hf. rewrite E in Hf.
    apply ingest_inv in E as (ch & _ & _ & Hch & _). apply (fr_present _ _ _ Hf). by exists ch.
  - unfold ingest, ask, bind at 1, gets in E. destruct (ChannelRepo.get_by_id _ _); [|done]. by destruct (_ && _).
Qed.

Lemma ingest_ordinary now nonce e s r s' :
  ordinary (e_type e) = true → ingest self now nonce e s = (Ok r, s') →
  ∃ ch e1 s1 m, channels (n_db s) !! e_channel_id e = Some ch
    ∧ _check_permissions self now (cut_name e) ch s = (Ok e1, s1)
    ∧ n_db s1 = n_db s ∧ same_payload e e1 ∧ r = Some m
    ∧ store_message self now nonce e1 ch s1 = (Ok m, s').
Proof.
  intros Ho (ch & e1 & s1 & Hch & Hg & E & Hp & H)%ingest_inv.
  rewrite route_ordinary in H by (rewrite (sp_type _ _ Hp); done).
  apply bind_ok in H as (m & s2 & H & Er). injection Er as <- <-. exists ch, e1, s1, m. by split_and!.
Qed.

Lemma ingest_stored now nonce e s r s' :
  ordinary (e_type e) = true → ingest self now nonce e s = (Ok r, s') →
  messages (n_db s') !! compute_hash e = r ∧ is_Some r
  ∧ (is_Some (messages (n_db s) !! compute_hash e) → n_db s' = n_db s).
Proof.
  intros Ho (ch & e1 & s1 & m & Hch & Hg & E & Hp & -> & H)%ingest_ordinary; [|done].
  rewrite <- E in *. pose proof (compute_hash_payload _ _ Hp) as Hh. 
  rewrite <- (sp_channel _ _ Hp) in Hch.
  destruct (store_message_ok self now nonce e1 ch s1 m s' Hch H) as (_ & Hm & Hc).
  rewrite Hh in *. split_and!; [done|eauto|]. intros [old Hold].
  destruct Hc as [[_ ->]|_]; [done|].
  unfold store_message in H. cbv zeta in H. unfold ask in H. unfold bind at 1, gets at 1 in H.
  unfold MessageRepo.get_by_hash in H. rewrite Hh, Hold in H. by injection H as _ <-.
Qed.

(** A message that is stored comes back from an ingestion that the gate lets
    through, and the ingestion does nothing else. *)
Lemma ingest_again now nonce e ch m s :
  ordinary (e_type e) = true → channels (n_db s) !! e_channel_id e = Some ch →
  ostr_true (e_body e) && (MAX_MESSAGE_BODY_SIZE <? utf8_len (or_empty (e_body e))) = false →
  messages (n_db s) !! compute_hash e = Some m →
  ingest self now nonce e s =
    match _check_permissions self now (cut_name e) ch s with
    | (Ok _, s') => (Ok (Some m), s')
    | (Raise err, s') => (Raise err, s')
    end.
Proof.
  intros Ho Hch Hsz Hm. unfold ingest, ask. unfold bind at 1, gets at 1, ChannelRepo.get_by_id. rewrite Hch, Hsz.
  unfold bind at 1. destruct (_check_permissions self now (cut_name e) ch s) as [[e1|err] s1] eqn:Eg; [|done].
  apply gate_ok in Eg as [E Hg].
  assert (same_payload e e1) as Hp.
  { eapply same_payload_trans; [apply same_payload_cut|].
    destruct (mp_permission_resolver self); [destruct Hg as [_ ->]; apply same_payload_strip|by subst]. }
  rewrite route_ordinary by (by rewrite (sp_type _ _ Hp)). unfold mmap, store_message, ask, gets, MessageRepo.get_by_hash, bind. cbv beta zeta.
  by rewrite E, (compute_hash_payload _ _ Hp), Hm.
Qed.

Lemma ingest_all_present l s id :
  is_Some (channels (n_db s) !! id) → is_Some (channels (n_db (ingest_all self l s)) !! id).
Proof.
  unfold ingest_all. revert s. induction l as [|[[now nonce] e] l IH]; intros s Hs; simpl; [done|].
  apply IH. by apply (ingest_tx_effect self now nonce e s).
Qed.

Lemma ingest_all_never_lost l s h :
  is_Some (messages (n_db s) !! h) → is_Some (messages (n_db (ingest_all self l s)) !! h).
Proof.
  unfold ingest_all. revert s. induction l as [|[[now nonce] e] l IH]; intros s Hs; simpl; [done|].
  apply IH. by apply (ingest_tx_effect self now nonce e s).
Qed.
End replay.

(** C40: ingestion is idempotent.  Once an ordinary message was accepted, and
    whatever was ingested since, delivering it again (at any time, with any
    randomness) leaves the database exactly as it is.  It returns the stored
    row, unless the checks of bans, rates, membership and permissions refuse
    the sender by now: then it is refused with their exception, and no other. *)
Theorem ingest_replay {HH : Hashing} {HO : OrmJson} {HA : Aead} (self : MessageProcessor)
    (e : MessageEnvelope) (now1 now2 : float) (nonce1 nonce2 : bytes)
    (l : list (float * bytes * MessageEnvelope)) (s s1 : Node) (r : option Message) :
  ordinary (e_type e) = true →
  ingest_tx self now1 nonce1 e s = (Ok r, s1) →
  let s2 := ingest_all self l s1 in
  let (r3, s3) := ingest_tx self now2 nonce2 e s2 in
  n_db s3 = n_db s2
  ∧ ∃ ch m, channels (n_db s2) !! e_channel_id e = Some ch ∧ messages (n_db s2) !! compute_hash e = Some m
  ∧ r3 = match (_check_permissions self now2 (cut_name e) ch s2).1 with
         | Ok _ => Ok (Some m)
         | Raise err => Raise err
         end.
Proof.
  intros Ho H1 s2. unfold ingest_tx, atomic in H1.
  destruct (ingest self now1 nonce1 e s) as [[r1|?] s1'] eqn:E1; [|done]. injection H1 as -> ->.
  destruct (ingest_stored self _ _ _ _ _ _ Ho E1) as (Hm & [m0 ->] & _).
  destruct (ingest_channel _ _ _ _ _ _ _ E1) as [Hch Hsz].
  destruct (ingest_all_never_lost self l s1 (compute_hash e)) as [m Hm2]; [by rewrite Hm|].
  destruct (ingest_all_present self l s1 (e_channel_id e) Hch) as [ch Hch2]. fold s2 in Hm2, Hch2.
  unfold ingest_tx, atomic. rewrite (ingest_again self now2 nonce2 e ch m s2) by done.
  destruct (_check_permissions self now2 (cut_name e) ch s2) as [[e1|err] s3] eqn:Eg;
    (split; [|exists ch, m; rewrite Eg; split; [done|]; split; [done|reflexivity]]); [|done].
  by apply gate_ok in Eg as [E _].
Qed.

(** ** Authorization *)

(** What the row stored for an envelope may mention. *)
Definition mentions_allowed (owner : string) (db : DB) (ch : Channel) (sender : string)
    (ms : list string) : Prop :=
  (ms ≠ [] → PermissionResolver.resolve owner sender ch PERM_USE_MENTIONS db = true)
  ∧ ("@everyone" ∈ ms → PermissionResolver.resolve owner sender ch PERM_MENTION_EVERYONE db = true).

Lemma strip_mentions_allowed owner db ch e :
  mentions_allowed owner db ch (e_sender_hash e)
    (e_mentions (strip_mentions (PermissionResolver.get_effective_permissions owner
       (e_sender_hash e) ch db) e)).
Proof.
  unfold strip_mentions, mentions_allowed, PermissionResolver.resolve.
  set (p := PermissionResolver.get_effective_permissions _ _ _ _).
  destruct (list_true (e_mentions e)) eqn:E0; simpl.
  2:{ destruct (e_mentions e); [|done]. set_solver. }
  destruct (PermissionResolver.has_perm p PERM_USE_MENTIONS) eqn:E1; simpl; [|set_solver].
  case_bool_decide as E2; [|naive_solver].
  destruct (PermissionResolver.has_perm p PERM_MENTION_EVERYONE) eqn:E3; simpl; [naive_solver|].
  split; [done|]. rewrite list_elem_of_In, filter_In. intros [_ Hf].
  by rewrite bool_decide_eq_true_2 in Hf.
Qed.

(** C2: an accepted message is an authorized one.  When a node with a
    permission resolver accepts an envelope, its sender is not banned; on a
    private or sealed channel the sender holds a role on that channel itself
    (or is the node); the sender's effective permissions hold every bit the
    type of message needs, for a deletion according to whose message is
    deleted; an edit targets the sender's own message; and a stored row
    mentions no more than the sender may mention. *)
Theorem ingest_authorized {HH : Hashing} {HO : OrmJson} {HA : Aead} (self : MessageProcessor)
    (owner : string) (now : float) (nonce : bytes) (e : MessageEnvelope) (s s' : Node)
    (r : option Message) :
  mp_permission_resolver self = Some owner →
  ingest_tx self now nonce e s = (Ok r, s') →
  ∃ ch, channels (n_db s) !! e_channel_id e = Some ch
  ∧ is_blocked (e_sender_hash e) (n_db s) = false
  ∧ (ch_access_mode ch = ACCESS_PRIVATE ∨ ch_sealed ch = true →
     Some (e_sender_hash e) ≠ mp_node_identity_hash self →
     RoleRepo.get_identity_roles (e_sender_hash e) (Some (ch_id ch)) true (n_db s) ≠ [])
  ∧ Forall (λ p, PermissionResolver.resolve owner (e_sender_hash e) ch p (n_db s) = true)
      (required_permissions (n_db s) e)
  ∧ (e_type e = MSG_EDIT → ∃ h t, e_reply_to e = Some h ∧ messages (n_db s) !! h = Some t
       ∧ m_sender_hash t = Some (e_sender_hash e) ∧ m_channel_id t = e_channel_id e)
  ∧ (ordinary (e_type e) = true → messages (n_db s) !! compute_hash e = None →
     ∃ m, r = Some m ∧ mentions_allowed owner (n_db s) ch (e_sender_hash e) (m_mentions m)).
Proof.
  intros Hown H. unfold ingest_tx, atomic in H.
  destruct (ingest self now nonce e s) as [[r1|?] s1'] eqn:E1; [|done]. injection H as -> ->.
  pose proof E1 as E2. apply ingest_inv in E1 as (ch & e1 & s1 & Hch & Hg & E & Hp & H).
  exists ch. split; [done|]. apply gate_ok in Hg as [_ Hg]. rewrite Hown in Hg.
  destruct Hg as [[A1 A2 A3] He1].
  pose proof (same_payload_cut e) as [P1 P2 P3 P4 P5 P6].
  assert (Ereq : required_permissions (n_db s) (cut_name e) = required_permissions (n_db s) e)
    by (unfold required_permissions; by rewrite P2, P4, P6).
  rewrite P2, P4, P6 in *. rewrite Ereq in A3. split_and!; [done|done| | |].
  - apply A3. destruct (decide (e_type e = MSG_DELETE)) as [Ed|]; [left|by right].
    unfold route in H. rewrite (sp_type _ _ Hp), Ed in H. simpl in H.
    unfold process_delete in H. rewrite (sp_reply _ _ Hp) in H. by destruct (ostr_true _).
  - intros Ed. unfold route in H. rewrite (sp_type _ _ Hp), Ed in H. simpl in H.
    apply bind_ok in H as (m & s2 & H & _). unfold process_edit in H.
    rewrite (sp_reply _ _ Hp), (sp_sender _ _ Hp), (sp_channel _ _ Hp) in H.
    destruct (e_reply_to e) as [h|]; [|done]. destruct (ostr_true (Some h)); [|done]. simpl in H.
    apply bind_ok in H as (t & s3 & (_ & Ht & Hc)%require_target_ok & H). rewrite E in Ht.
    destruct (bool_decide (m_sender_hash t = _)) eqn:Eb; [|done]. apply bool_decide_eq_true in Eb.
    exists h, t. by split_and!.
  - intros Ho Hnew.
    destruct (ingest_ordinary self now nonce e s r s' Ho E2) as (ch' & e' & s0 & m & Hch' & Hg' & E' & Hp' & -> & H').
    simplify_eq. exists m. split; [done|].
    apply gate_ok in Hg' as [_ Hg']. rewrite Hown in Hg'. destruct Hg' as [_ ->].
    rewrite <- E' in Hnew. rewrite <- (compute_hash_payload _ _ Hp') in Hnew.
    assert (Hc2 : channels (n_db s0) !! e_channel_id (strip_mentions (PermissionResolver.get_effective_permissions owner (e_sender_hash (cut_name e)) ch (n_db s)) (cut_name e)) = Some ch)
      by (by rewrite (sp_channel _ _ Hp'), E').
    destruct (store_message_ok self now nonce _ ch s0 m s' Hc2 H') as (_ & _ & [[[? ?] _]|(sq & ts & c & ->)]);
      [congruence|].
    simpl. rewrite <- P2. apply strip_mentions_allowed.
Qed.

(** ** Reactions *)

(** a reaction with an emoji the target does not have yet is stored; one
    with an emoji it already has is not.  The outer dictionary is copied but
    the entry is shared with the value the ORM compares against, so the flush
    sees no change: the caller gets a row with the new count, the table keeps
    the old one. *)
Theorem reaction_persistence {HO : OrmJson} {HL : OrmJsonLaws HO} (e : MessageEnvelope)
    (h emoji : string) (orig : Message) (s : Node) :
  e_reply_to e = Some h → str_true h = true →
  e_body e = Some emoji → str_true emoji = true → py_len emoji ≤ 32 →
  messages (n_db s) !! h = Some orig → m_channel_id orig = e_channel_id e →
  e_sender_hash e ∉ rx_identities (default {| rx_count := 0; rx_identities := [] |}
                                     (dict_get emoji (m_reactions orig))) →
  ∃ m s', process_reaction e s = (Ok m, s')
  ∧ match dict_get emoji (m_reactions orig) with
    | None =>
        dict_get emoji (m_reactions m)
        = Some {| rx_count := 1; rx_identities := [e_sender_hash e] |}
        ∧ messages (n_db s') !! h = Some m
    | Some entry =>
        rx_count <$> dict_get emoji (m_reactions m) = Some (rx_count entry + 1)
        ∧ n_db s' = n_db s
    end.
Proof.
  intros Hr Hh Hb Hemo Hlen Ho Hc Hnin. unfold process_reaction. rewrite Hr, Hb. simpl. rewrite Hh, Hemo. simpl.
  unfold _require_target_in_channel, ask, bind, gets, MessageRepo.get_by_hash. rewrite Ho.
  rewrite (bool_decide_eq_true_2 _ Hc). simpl.
  destruct (Z.ltb_spec 32 (py_len emoji)); [lia|]. rewrite (bool_decide_eq_false_2 _ Hnin). simpl.
  unfold dict_has. destruct (dict_get emoji (m_reactions orig)) as [entry|] eqn:E; simpl.
  - rewrite json_equal_clean. do 2 eexists. split; [done|]. simpl. by rewrite dict_get_set_eq.
  - rewrite json_differ_dirty.
    + do 2 eexists. split; [done|]. simpl. rewrite dict_get_set_eq. split; [done|].
      by rewrite lookup_alter_eq, Ho.
    + intros Heq. apply (f_equal (dict_get emoji)) in Heq. rewrite dict_get_set_eq in Heq. congruence.
Qed.

(** ** Instances, and a node to run *)

Definition toy_hashing : Hashing := {|
  sha256_hex := bytes_str;
  float_repr q := pretty.pretty (QArith_base.Qnum q) |}.
Definition toy_orm : OrmJson := {| json_dirty a b := negb (bool_decide (a = b)) |}.

Lemma toy_orm_laws : OrmJsonLaws toy_orm.
Proof.
  split; intros; simpl; [by rewrite bool_decide_eq_true_2|by rewrite bool_decide_eq_false_2].
Qed.

Definition demo_env (ty : Z) (ch sender : string) (t : Z) (body reply : option string)
    : MessageEnvelope := {|
  e_channel_id := ch; e_sender_hash := sender; e_timestamp := fz t; e_type := ty; e_body := body;
  e_media_path := None; e_media_meta := None; e_reply_to := reply; e_ttl := None;
  e_lxmf_signature := None; e_lxmf_signed_part := None; e_sender_public_key := None;
  e_display_name := None; e_mentions := ["@everyone"; "bob"]; e_reactions := [] |}.

Definition demo_everyone : Role := {|
  role_id := "r0"; role_name := ROLE_EVERYONE;
  role_permissions := Z.lor PERM_SEND_MESSAGES (Z.lor PERM_CREATE_THREADS
                        (Z.lor PERM_ADD_REACTIONS PERM_USE_MENTIONS));
  role_position := 0; role_colour := ""; role_mentionable := false; role_is_builtin := true |}.

Definition demo_node (cs : list Channel) : Node := {|
  n_db := set_roles (<["r0" := demo_everyone]>) (demo_db cs);
  n_seq := SequenceManager.init; n_rl := RateLimiter.init 10 (fz 1); n_thread_locks := [] |}.

Definition demo_self : MessageProcessor := {|
  mp_permission_resolver := Some "owner"; mp_rate_limiter := true;
  mp_node_identity_hash := Some "node"; mp_sealed_manager := None |}.

Abbreviation demo_tx := (@ingest_tx toy_hashing toy_orm toy_aead demo_self).
Abbreviation demo_hash := (@compute_hash toy_hashing).

Definition demo_public : Node := demo_node [demo_channel "a" ACCESS_PUBLIC false].
Definition demo_hello : MessageEnvelope := demo_env MSG_TEXT "a" "alice" 5 (Some "hello") None.

Lemma demo_node_ok cs : db_ok (n_db (demo_node cs)).
Proof.
  split; repeat intro; simpl in *;
    try match goal with H : _ !! _ = Some _ |- _ => by rewrite lookup_empty in H end.
  match goal with H : _ !! _ = Some _ |- _ => apply elem_of_list_to_map_2 in H end.
  match goal with H : _ ∈ _ |- _ => apply list_elem_of_fmap in H as (? & ? & ?) end.
  by simplify_eq.
Qed.

(** A text, an unthreaded reply that fails (no such root), a reply and a pin
    by someone without the right to pin. *)
Definition demo_run : list (float * bytes * MessageEnvelope) :=
  [(fz 9, [], demo_hello);
   (fz 10, [], demo_env MSG_THREAD_REPLY "a" "bob" 6 (Some "re") (Some "nothing"));
   (fz 11, [], demo_env MSG_THREAD_REPLY "a" "bob" 7 (Some "re") (Some (demo_hash demo_hello)));
   (fz 12, [], demo_env MSG_PIN "a" "bob" 8 None (Some (demo_hash demo_hello)))].

Abbreviation demo_all := (@ingest_all toy_hashing toy_orm toy_aead demo_self).

Lemma ingest_all_ok_witness :
  db_ok (n_db (demo_all demo_run demo_public))
  ∧ size (messages (n_db (demo_all demo_run demo_public))) = 2%nat.
Proof. split; [apply ingest_all_ok, demo_node_ok|vm_compute; reflexivity]. Defined.

Definition demo_s1 : Node := (demo_tx (fz 9) [] demo_hello demo_public).2.

Lemma demo_first :
  demo_tx (fz 9) [] demo_hello demo_public
  = (Ok (messages (n_db demo_s1) !! demo_hash demo_hello), demo_s1).
Proof. vm_compute. reflexivity. Qed.

(** Two thread replies to a message of channel "p", the second from "a". *)
Definition cross_root : MessageEnvelope := demo_env MSG_TEXT "p" "node" 5 (Some "secret") None.
Definition cross_start : Node :=
  demo_all [(fz 9, [], cross_root); (fz 10, [], demo_env MSG_THREAD_REPLY "p" "node" 6 (Some "one") (Some (demo_hash cross_root)))]
    (demo_node [demo_channel "a" ACCESS_PUBLIC false; demo_channel "p" ACCESS_PRIVATE false]).
Definition cross_reply : MessageEnvelope := demo_env MSG_THREAD_REPLY "a" "eve" 7 (Some "two") (Some (demo_hash cross_root)).

Definition cross_thread : Thread :=
  default (reply_thread (fz 0) "" "" "" None) (threads (n_db cross_start) !! demo_hash cross_root).

Lemma ingest_isolated_witness :
  threads (n_db cross_start) !! demo_hash cross_root = Some cross_thread
  ∧ th_channel_id cross_thread = "p" ∧ th_reply_count cross_thread = 1
  ∧ threads (n_db (demo_tx (fz 20) [] cross_reply cross_start).2) !! demo_hash cross_root
    = Some (reply_thread (fz 20) "eve" (demo_hash cross_root) "a" (Some cross_thread)).
Proof.
  destruct (@ingest_isolated toy_hashing toy_orm toy_aead demo_self (fz 20) [] cross_reply cross_start) as [_ H].
  assert (threads (n_db cross_start) !! demo_hash cross_root = Some cross_thread) as Et by (vm_compute; reflexivity).
  split; [exact Et|]. split; [vm_compute; reflexivity|]. split; [vm_compute; reflexivity|].
  destruct (H _ _ Et) as [E|(_ & _ & E)]; [vm_compute; congruence| |exact E].
  exfalso. revert E. vm_compute. congruence.
Defined.

Lemma ingest_replay_witness :
  let s2 := demo_all demo_run demo_s1 in
  n_db (demo_tx (fz 99) [1] demo_hello s2).2 = n_db s2
  ∧ is_ok (demo_tx (fz 99) [1] demo_hello s2).1 = true.
Proof.
  pose proof (@ingest_replay toy_hashing toy_orm toy_aead demo_self demo_hello (fz 9) (fz 99) [] [1]
    demo_run demo_public demo_s1 _ eq_refl demo_first) as H.
  split; [|vm_compute; reflexivity]. cbv zeta in H.
  destruct (demo_tx (fz 99) [1] demo_hello (demo_all demo_run demo_s1)) as [r3 s3].
  exact (proj1 H).
Defined.

Lemma ingest_authorized_witness :
  ∃ ch, channels (n_db demo_public) !! "a" = Some ch
  ∧ PermissionResolver.resolve "owner" "alice" ch PERM_SEND_MESSAGES (n_db demo_public) = true
  ∧ PermissionResolver.resolve "owner" "alice" ch PERM_MENTION_EVERYONE (n_db demo_public) = false.
Proof.
  destruct (@ingest_authorized toy_hashing toy_orm toy_aead demo_self "owner" (fz 9) [] demo_hello
    demo_public _ _ eq_refl demo_first) as (ch & Hch & _ & _ & Hp & _).
  exists ch. split; [done|]. split; [by inversion Hp|].
  injection Hch as <-. vm_compute. reflexivity.
Defined.

Definition demo_reaction (sender : string) : MessageEnvelope :=
  demo_env MSG_REACTION "a" sender 8 (Some "+1") (Some (demo_hash demo_hello)).

Lemma reaction_persistence_witness :
  let s2 := (demo_tx (fz 10) [] (demo_reaction "bob") demo_s1).2 in
  ∃ m s3, @process_reaction toy_orm (demo_reaction "carol") s2 = (Ok m, s3)
  ∧ rx_count <$> dict_get "+1" (m_reactions m) = Some 2
  ∧ n_db s3 = n_db s2.
Proof.
  intros s2.
  destruct (@reaction_persistence toy_orm toy_orm_laws (demo_reaction "carol") (demo_hash demo_hello) "+1"
    (default (blank_message "" "" (fz 0) 0) (messages (n_db s2) !! demo_hash demo_hello)) s2)
    as (m & s3 & H & Hm); try (vm_compute; reflexivity).
  - vm_compute. congruence.
  - apply (proj1 (bool_decide_eq_false _)). vm_compute. reflexivity.
  - exists m, s3. split; [done|]. exact Hm.
Defined.

(** a thread reply is not tied to the channel of its root.  There is a
    node on which someone who is no member of a private channel, writing to a
    public one, is accepted with a reply to a root of the private channel: the
    reply is listed in the private thread and the thread counts it. *)
Theorem thread_reply_crosses_channels :
  ∃ (s s' : Node) (e : MessageEnvelope) (m root : Message) (t : Thread),
    @ingest_tx toy_hashing toy_orm toy_aead demo_self (fz 20) [] e s = (Ok (Some m), s')
    ∧ messages (n_db s) !! m_msg_hash root = Some root
    ∧ m_channel_id root ≠ m_channel_id m
    ∧ (∃ c, channels (n_db s) !! m_channel_id root = Some c ∧ ch_access_mode c = ACCESS_PRIVATE)
    ∧ RoleRepo.get_identity_roles (e_sender_hash e) (Some (m_channel_id root)) true (n_db s) = []
    ∧ m ∈ MessageRepo.get_thread_messages (m_msg_hash root) 50 (n_db s')
    ∧ threads (n_db s') !! m_msg_hash root = Some t ∧ th_reply_count t = 1.
Proof.
  set (s0 := demo_node [demo_channel "a" ACCESS_PUBLIC false; demo_channel "p" ACCESS_PRIVATE false]).
  set (e0 := demo_env MSG_TEXT "p" "node" 5 (Some "secret") None).
  set (s := (demo_tx (fz 9) [] e0 s0).2).
  set (e := demo_env MSG_THREAD_REPLY "a" "eve" 6 (Some "spam") (Some (demo_hash e0))).
  set (s' := (demo_tx (fz 20) [] e s).2).
  exists s, s', e. do 3 eexists. split; [vm_compute; reflexivity|].
  split; [instantiate (1 := default (blank_message "" "" (fz 0) 0) (messages (n_db s) !! demo_hash e0));
          vm_compute; reflexivity|].
  split; [vm_compute; congruence|]. split; [eexists; split; vm_compute; reflexivity|].
  split; [vm_compute; reflexivity|]. split; [vm_compute; repeat constructor|].
  split; vm_compute; reflexivity.
Qed.
