(* ===== verification/Wire.v ===== *)
(** * The wire format ([hokora/protocol/wire.py])

    Sync frames: a msgpack document behind a two-byte big-endian length.
    msgpack is third-party code: the interface [Msgpack] packs a value (or
    refuses it: integers beyond 64 bits and the like) and unpacks bytes; its
    documented law is that unpacking what was packed gives the value back. *)

From stdpp Require Import countable.
From S2P Require Import Prelude Constants Models.

Class Msgpack := {
  packb : val → option bytes;
  unpackb : bytes → option val;
}.

Class MsgpackLaws (P : Msgpack) : Prop := {
  unpack_pack : ∀ v b, packb v = Some b → unpackb b = Some v;
}.

Definition MAX_FRAME_SIZE : Z := 65535.

Definition sync_error {A} (msg : string) : res A := Raise (Exn SyncError msg).

Definition _add_length_header (data : bytes) : res bytes :=
  if MAX_FRAME_SIZE <? zlen data then sync_error "Frame too large"
  else Ok (be_pack 2 (zlen data) ++ data).

Definition _strip_length_header (data : bytes) : res bytes :=
  if zlen data <? 2 then sync_error "Frame too short for length header"
  else
    let expected_len := be_unpack (take 2 data) in
    let payload := drop 2 data in
    if negb (zlen payload =? expected_len) then sync_error "Frame length mismatch"
    else Ok payload.

(** A packed value behind its header. *)
Definition frame `{Msgpack} (v : val) : res bytes :=
  match packb v with
  | Some raw => _add_length_header raw
  | None => Raise (Exn ValueError "cannot serialize")
  end.

Definition encode_sync_request `{Msgpack} (action : Z) (nonce : bytes)
    (payload : option (dict string val)) : res bytes :=
  if negb (zlen nonce =? NONCE_SIZE) then sync_error "Nonce must be NONCE_SIZE bytes"
  else
    let request := [("v", VInt WIRE_VERSION); ("action", VInt action); ("nonce", VBytes nonce)] in
    frame (VDict (if olist_true payload
                  then request ++ [("payload", VDict (default [] payload))] else request)).

(** The dictionary a frame holds. *)
Definition unframe_dict `{Msgpack} (raw : bytes) (what : string) : res (dict string val) :=
  match unpackb raw with
  | None => sync_error (String.append "Failed to decode " what)
  | Some (VDict d) => Ok d
  | Some _ => sync_error (String.append what " must be a dict")
  end.

Definition decode_sync_request `{Msgpack} (data : bytes) : res (dict string val) :=
  match _strip_length_header data with
  | Raise e => Raise e
  | Ok raw =>
      match unframe_dict raw "sync request" with
      | Raise e => Raise e
      | Ok request =>
          if negb (dict_has "action" request) then sync_error "Sync request missing 'action' field"
          else
            match dict_get "nonce" request with
            | None => sync_error "Sync request missing 'nonce' field"
            | Some (VBytes nonce) =>
                if negb (zlen nonce =? NONCE_SIZE) then sync_error "Invalid nonce" else Ok request
            | Some _ => sync_error "Invalid nonce"
            end
      end
  end.

Definition encode_sync_response `{Msgpack} (nonce : bytes) (payload : dict string val)
    (node_time : option float) : res bytes :=
  let response := [("v", VInt WIRE_VERSION); ("nonce", VBytes nonce); ("data", VDict payload)] in
  frame (VDict (match node_time with
                | Some t => response ++ [("node_time", VFloat t)]
                | None => response
                end)).

Definition decode_sync_response `{Msgpack} (data : bytes) : res (dict string val) :=
  match _strip_length_header data with
  | Raise e => Raise e
  | Ok raw =>
      match unframe_dict raw "sync response" with
      | Raise e => Raise e
      | Ok response =>
          if negb (dict_has "nonce" response)
          then sync_error "Sync response missing 'nonce' field" else Ok response
      end
  end.

(** ** Values of columns *)

Definition val_of {A} (f : A → val) (o : option A) : val :=
  match o with Some a => f a | None => VNone end.
Definition val_strs (l : list string) : val := VList (map VStr l).
Definition val_reactions (d : dict string Reaction) : val :=
  VDict (map (λ p, (p.1, VDict [("count", VInt (rx_count p.2));
                                ("identities", val_strs (rx_identities p.2))])) d).

Definition encode_message_for_sync (m : Message) : dict string val :=
  [("msg_hash", VStr (m_msg_hash m)); ("channel_id", VStr (m_channel_id m));
   ("sender_hash", val_of_ostr (m_sender_hash m)); ("seq", val_of VInt (m_seq m));
   ("thread_seq", val_of VInt (m_thread_seq m)); ("timestamp", VFloat (m_timestamp m));
   ("type", VInt (m_type m)); ("body", VStr (or_empty (m_body m)));
   ("media_path", val_of_ostr (m_media_path m)); ("media_meta", val_of_ostr (m_media_meta m));
   ("reply_to", val_of_ostr (m_reply_to m)); ("deleted", VBool (m_deleted m));
   ("pinned", VBool (m_pinned m)); ("pinned_at", val_of VFloat (m_pinned_at m));
   ("edit_chain", val_strs (m_edit_chain m)); ("edited", VBool (list_true (m_edit_chain m)));
   ("reactions", val_reactions (m_reactions m));
   ("lxmf_signature", val_of VBytes (m_lxmf_signature m));
   ("lxmf_signed_part", val_of VBytes (m_lxmf_signed_part m));
   ("sender_public_key", VNone); ("sender_rns_public_key", VNone);
   ("display_name", val_of_ostr (m_display_name m)); ("mentions", val_strs (m_mentions m))].

(** ** CDSP frames *)

Definition encode_cdsp_session_init `{Msgpack} (client_version sync_profile : Z)
    (resume_token : option bytes) : res bytes :=
  let payload := [("cdsp_version", VInt client_version); ("sync_profile", VInt sync_profile)] in
  frame (VDict (if olist_true resume_token
                then payload ++ [("resume_token", VBytes (default [] resume_token))] else payload)).

(** The decoders of CDSP frames take the document without its header. *)
Definition decode_cdsp_session_init `{Msgpack} (data : bytes) : res (dict string val) :=
  match unframe_dict data "CDSP Session Init" with
  | Raise e => Raise e
  | Ok payload =>
      if negb (dict_has "sync_profile" payload)
      then sync_error "CDSP Session Init missing sync_profile" else Ok payload
  end.

Definition encode_cdsp_session_ack `{Msgpack} (session_id : string)
    (accepted_profile server_version deferred_count : Z) : res bytes :=
  frame (VDict [("session_id", VStr session_id); ("accepted_profile", VInt accepted_profile);
                ("cdsp_version", VInt server_version); ("deferred_count", VInt deferred_count)]).

Definition decode_cdsp_session_ack `{Msgpack} (data : bytes) : res (dict string val) :=
  unframe_dict data "CDSP Session Ack".

Definition encode_cdsp_profile_update `{Msgpack} (sync_profile : Z) : res bytes :=
  frame (VDict [("sync_profile", VInt sync_profile)]).

Definition encode_cdsp_session_reject `{Msgpack} (error_code server_version : Z) : res bytes :=
  frame (VDict [("error_code", VInt error_code); ("cdsp_version", VInt server_version)]).

(** Live events travel without a length header. *)
Definition encode_push_event `{Msgpack} (event_type : string) (data : dict string val)
    : res bytes :=
  match packb (VDict [("v", VInt WIRE_VERSION); ("event", VStr event_type); ("data", VDict data)]) with
  | Some b => Ok b
  | None => Raise (Exn ValueError "cannot serialize")
  end.

(** ** Framing *)

Lemma be_pack_unpack bs : bytes_ok bs → be_pack (length bs) (be_unpack bs) = bs.
Proof.
  induction 1 as [|b bs Hb Hbs IH]; [done|]. cbn [length be_pack be_unpack].
  pose proof (be_unpack_bound bs Hbs) as Hbd. unfold zlen in Hbd.
  assert (Hp : 0 < 256 ^ Z.of_nat (length bs)) by lia.
  f_equal.
  - rewrite Z.div_add_l by lia. rewrite Z.div_small by lia. unfold byte_ok in Hb.
    rewrite Z.add_0_r. by apply Z.mod_small.
  - transitivity (be_pack (length bs) (be_unpack bs)); [|done]. clear IH.
    assert (Hgen : ∀ n k z, (n ≤ k)%nat → be_pack n (b * 256 ^ Z.of_nat k + z) = be_pack n z).
    { induction n as [|n IHn]; intros k z Hk; simpl; [done|]. rewrite IHn by lia. f_equal.
      replace (b * 256 ^ Z.of_nat k + z)
        with (z + (b * 256 ^ (Z.of_nat k - Z.of_nat n)) * 256 ^ Z.of_nat n)
        by (rewrite <- Z.mul_assoc, <- Z.pow_add_r by lia;
            replace (Z.of_nat k - Z.of_nat n + Z.of_nat n) with (Z.of_nat k) by lia; lia).
      rewrite Z.div_add by lia.
      replace (b * 256 ^ (Z.of_nat k - Z.of_nat n))
        with (b * 256 ^ (Z.of_nat k - Z.of_nat n - 1) * 256)
        by (replace (Z.of_nat k - Z.of_nat n) with (Z.succ (Z.of_nat k - Z.of_nat n - 1)) at 2 by lia;
            rewrite Z.pow_succ_r by lia; lia).
      by rewrite Z.mod_add by lia. }
    by apply Hgen.
Qed.

Lemma strip_add data d : _add_length_header data = Ok d → _strip_length_header d = Ok data.
Proof.
  unfold _add_length_header, _strip_length_header, MAX_FRAME_SIZE.
  destruct (Z.ltb_spec 65535 (zlen data)); [done|]. intros E.
  assert (d = be_pack 2 (zlen data) ++ data) as -> by congruence. clear E.
  pose proof (zlen_nonneg data).
  rewrite zlen_app, zlen_be_pack. destruct (Z.ltb_spec (Z.of_nat 2 + zlen data) 2); [lia|].
  rewrite (take_app_length' _ _ 2), (drop_app_length' _ _ 2) by (by rewrite length_be_pack).
  rewrite be_unpack_pack_id by (change (256 ^ Z.of_nat 2) with 65536; lia).
  by rewrite Z.eqb_refl.
Qed.

(** the length header is a bijection between payloads of at most 65535
    bytes and accepted frames: a byte string is accepted, with payload [p],
    exactly when it is what framing [p] produces.  Truncated frames, trailing
    bytes and wrong lengths are all refused. *)
Theorem length_header_exact (d p : bytes) :
  bytes_ok d → _strip_length_header d = Ok p ↔ _add_length_header p = Ok d.
Proof.
  intros Hd. split; [|apply strip_add]. unfold _strip_length_header, _add_length_header.
  destruct (Z.ltb_spec (zlen d) 2); [done|].
  destruct (Z.eqb_spec (zlen (drop 2 d)) (be_unpack (take 2 d))) as [E|]; [|done].
  intros [= <-]. assert (Ht : length (take 2 d) = 2%nat) by (rewrite length_take; unfold zlen in *; lia).
  pose proof (be_unpack_bound (take 2 d) (Forall_take _ _ _ Hd)) as Hb.
  unfold zlen at 1 in Hb. rewrite Ht in Hb. change (256 ^ Z.of_nat 2) with 65536 in Hb.
  unfold MAX_FRAME_SIZE. destruct (Z.ltb_spec 65535 (zlen (drop 2 d))); [lia|].
  f_equal. rewrite E, <- Ht at 1. rewrite be_pack_unpack by by apply Forall_take.
  apply take_drop.
Qed.

Lemma length_header_exact_witness :
  _add_length_header [7; 8; 9] = Ok [0; 3; 7; 8; 9]
  ∧ _strip_length_header [0; 3; 7; 8; 9] = Ok [7; 8; 9].
Proof.
  split; [reflexivity|]. apply length_header_exact; [|reflexivity].
  repeat constructor; unfold byte_ok; lia.
Defined.

(** a request that could be encoded decodes to the same action, nonce and
    payload, whatever the payload holds. *)
Theorem sync_request_roundtrip {P : Msgpack} {HP : MsgpackLaws P} (action : Z) (nonce d : bytes)
    (payload : option (dict string val)) :
  encode_sync_request action nonce payload = Ok d →
  ∃ r, decode_sync_request d = Ok r
  ∧ dict_get "action" r = Some (VInt action) ∧ dict_get "nonce" r = Some (VBytes nonce)
  ∧ dict_get "payload" r = (if olist_true payload then VDict <$> payload else None).
Proof.
  unfold encode_sync_request, frame, decode_sync_request, unframe_dict.
  destruct (zlen nonce =? NONCE_SIZE) eqn:En; [|done]. simpl.
  destruct (packb _) as [raw|] eqn:Ep; [|done]. intros Ha. rewrite (strip_add _ _ Ha).
  rewrite (unpack_pack _ _ Ep).
  destruct payload as [[|kv p]|]; simpl; rewrite En; simpl; eauto.
Qed.

(** A response that could be encoded decodes to its nonce and document. *)
Lemma sync_response_decodes {P : Msgpack} {HP : MsgpackLaws P} nonce d t b :
  encode_sync_response nonce d t = Ok b →
  ∃ r, decode_sync_response b = Ok r
  ∧ dict_get "nonce" r = Some (VBytes nonce) ∧ dict_get "data" r = Some (VDict d).
Proof.
  unfold encode_sync_response, frame, decode_sync_response, unframe_dict.
  destruct (packb _) as [raw|] eqn:Ep; [|done]. intros Ha. rewrite (strip_add _ _ Ha), (unpack_pack _ _ Ep).
  destruct t; simpl; eauto.
Qed.

(** A packer of one kind of value, for the witness. *)
Definition toy_msgpack : Msgpack := {|
  packb v := match v with
             | VDict [(k1, VInt v); (k2, VInt a); (k3, VBytes n)] =>
                 if bool_decide ((k1, v, k2, k3) = ("v", 1, "action", "nonce"))
                 then Some (a :: n) else None
             | _ => None
             end;
  unpackb b := match b with
               | a :: n => Some (VDict [("v", VInt 1); ("action", VInt a); ("nonce", VBytes n)])
               | [] => None
               end |}.

Lemma toy_msgpack_laws : MsgpackLaws toy_msgpack.
Proof.
  split. intros v b. simpl.
  repeat match goal with |- match ?x with _ => _ end = Some _ → _ => destruct x eqn:?; try done end.
  match goal with H : bool_decide _ = true |- _ => apply bool_decide_eq_true in H end.
  simplify_eq. by intros [= <-].
Qed.

Lemma sync_request_roundtrip_witness :
  let nonce := replicate 16 7 in
  ∃ r, @decode_sync_request toy_msgpack ([0; 17; 1] ++ nonce) = Ok r
       ∧ dict_get "action" r = Some (VInt 1).
Proof.
  intros nonce.
  destruct (@sync_request_roundtrip toy_msgpack toy_msgpack_laws SYNC_HISTORY nonce ([0; 17; 1] ++ nonce)
    None) as (r & H & Ha & _); [reflexivity|]. by exists r.
Defined.

(** ** A packer of every value

    An instance of the interface that packs all values, for the witnesses of
    theorems that go through more than one kind of document: a value is coded
    as a tree, the tree as a number, the number as its bytes. *)

Class MsgpackBytes (P : Msgpack) : Prop := {
  pack_bytes : ∀ v b, packb v = Some b → bytes_ok b;
}.

Abbreviation leaf := (bool + Z + (Z * positive) + string + list Z)%type.

Fixpoint val_tree (v : val) : gen_tree leaf :=
  match v with
  | VNone => GenNode 0 []
  | VBool b => GenLeaf (inl (inl (inl (inl b))))
  | VInt z => GenLeaf (inl (inl (inl (inr z))))
  | VFloat q => GenLeaf (inl (inl (inr (QArith_base.Qnum q, QArith_base.Qden q))))
  | VStr s => GenLeaf (inl (inr s))
  | VBytes b => GenLeaf (inr b)
  | VList l => GenNode 1 (map val_tree l)
  | VDict d => GenNode 2 (map (λ p, GenNode 3 [GenLeaf (inl (inr p.1)); val_tree p.2]) d)
  end.

Fixpoint tree_val (t : gen_tree leaf) : val :=
  match t with
  | GenLeaf (inl (inl (inl (inl b)))) => VBool b
  | GenLeaf (inl (inl (inl (inr z)))) => VInt z
  | GenLeaf (inl (inl (inr (n, d)))) => VFloat (QArith_base.Qmake n d)
  | GenLeaf (inl (inr s)) => VStr s
  | GenLeaf (inr b) => VBytes b
  | GenNode 1 l => VList (map tree_val l)
  | GenNode 2 l => VDict (map (λ t, match t with
                                    | GenNode _ [GenLeaf (inl (inr s)); t'] => (s, tree_val t')
                                    | _ => (EmptyString, VNone)
                                    end) l)
  | _ => VNone
  end.

Lemma tree_val_tree : ∀ v, tree_val (val_tree v) = v.
Proof.
  fix IH 1. intros [|b|z|q|s|b|l|d]; simpl; try done.
  - by destruct q.
  - f_equal. induction l as [|v l IHl]; simpl; [done|]. f_equal; [apply IH|apply IHl].
  - f_equal. induction d as [|[k v] d IHd]; simpl; [done|]. f_equal; [|apply IHd]. f_equal. apply IH.
Qed.

Definition pos_bytes (p : positive) : bytes := be_pack (S (Pos.size_nat p)) (Zpos p).

Lemma pos_bytes_be p : be_unpack (pos_bytes p) = Zpos p.
Proof.
  apply be_unpack_pack_id. split; [done|].
  assert (H : Zpos p < 2 ^ Z.of_nat (S (Pos.size_nat p))).
  { rewrite Nat2Z.inj_succ, Z.pow_succ_r by lia.
    induction p as [p IH|p IH|]; simpl Pos.size_nat; rewrite ?Nat2Z.inj_succ, ?Z.pow_succ_r in * by lia; lia. }
  eapply Z.lt_le_trans; [done|]. apply Z.pow_le_mono_l. lia.
Qed.

Definition full_msgpack : Msgpack := {|
  packb v := Some (pos_bytes (encode (val_tree v)));
  unpackb b := match be_unpack b with
               | Zpos p => tree_val <$> decode p
               | _ => None
               end |}.

Lemma full_msgpack_laws : MsgpackLaws full_msgpack.
Proof.
  split. intros v b [= <-]. unfold unpackb, full_msgpack. rewrite pos_bytes_be, decode_encode. simpl.
  by rewrite tree_val_tree.
Qed.

Lemma full_msgpack_bytes : MsgpackBytes full_msgpack.
Proof. split. intros v b [= <-]. apply be_pack_ok. Qed.

(** A packer of the values of a table, for closed runs: a value is coded as
    its place in the table. *)
Definition table_msgpack (l : list val) : Msgpack := {|
  packb v := (λ p, [Z.of_nat p.1]) <$> list_find (λ w, val_tree w = val_tree v) l;
  unpackb b := match b with [z] => l !! Z.to_nat z | _ => None end |}.

Lemma table_msgpack_laws l : MsgpackLaws (table_msgpack l).
Proof.
  split. intros v b. unfold packb, unpackb, table_msgpack. destruct (list_find _ l) as [[i w]|] eqn:E; [|done].
  intros [= <-]. apply list_find_Some in E as (Hl & Hw & _). rewrite Nat2Z.id.
  apply (f_equal tree_val) in Hw. rewrite !tree_val_tree in Hw. by subst.
Qed.
