(* ===== verification/Verification.v ===== *)
(** * Verification of protocol messages ([hokora/security/verification.py])

    The replay cache for sync nonces and the checks on nonces, clocks,
    sequence numbers and signatures.  Ed25519 is third-party code, behind
    [Ed25519]: whether a signature of a message verifies under a key. *)

From S2P Require Import Prelude Constants.

Class Ed25519 := ed25519_verify : bytes → bytes → bytes → bool.   (* key message signature *)

Definition DEFAULT_NONCE_CACHE_SIZE : Z := 10000.
Definition DEFAULT_NONCE_TTL : Z := 600.

Module NonceTracker.

(** [_seen] is an [OrderedDict]: the nonces in the order they were recorded. *)
Record t := {
  max_size : Z;
  ttl : Z;
  _seen : dict bytes float;
}.

Definition init (max_size ttl : Z) : t := {| max_size := max_size; ttl := ttl; _seen := [] |}.

Definition set_seen (d : dict bytes float) (s : t) : t :=
  {| max_size := max_size s; ttl := ttl s; _seen := d |}.

(** [while len(self._seen) > self.max_size: self._seen.popitem(last=False)] *)
Fixpoint trim (max_size : Z) (d : dict bytes float) : dict bytes float :=
  match d with
  | [] => []
  | x :: d' => if max_size <? zlen d then trim max_size d' else d
  end.

Definition check_and_record (now : float) (nonce : bytes) (timestamp : option float) (s : t)
    : bool * t :=
  if dict_has nonce (_seen s) then (false, s)
  else if match timestamp with
          | Some ts => (0 <? ttl s) && flt (fz (ttl s)) (now - ts)%F
          | None => false
          end then (false, s)
  else (true, set_seen (trim (max_size s) (dict_set nonce now (_seen s))) s).

(** The oldest entries while they are older than the cutoff. *)
Fixpoint drop_older (cutoff : float) (d : dict bytes float) : dict bytes float :=
  match d with
  | [] => []
  | (n, ts) :: d' => if flt ts cutoff then drop_older cutoff d' else d
  end.

Definition evict_expired (now : float) (s : t) : t :=
  if ttl s <=? 0 then s
  else set_seen (drop_older (now - fz (ttl s))%F (_seen s)) s.

Definition clear (s : t) : t := set_seen [] s.
End NonceTracker.

Import NonceTracker.

Module VerificationService.

Definition check_nonce_replay (now : float) (nonce : val) : M NonceTracker.t bool := λ s,
  match nonce with
  | VBytes n =>
      let (fresh, s') := check_and_record now n None s in
      if fresh then (Ok true, s') else (Raise (Exn VerificationError "Nonce replay detected"), s')
  | _ => (Raise (Exn VerificationError "Nonce must be bytes"), s)
  end.

Definition verify_ed25519_signature `{Ed25519} (public_key_bytes : option bytes)
    (message signature : bytes) : bool :=
  match public_key_bytes with
  | Some pk => if zlen pk =? 32 then ed25519_verify pk message signature else false
  | None => false
  end.

Definition verify_sync_nonce (sent_nonce received_nonce : bytes) : res bool :=
  if negb (zlen sent_nonce =? NONCE_SIZE)
  then Raise (Exn VerificationError "Invalid sent nonce size")
  else if negb (zlen received_nonce =? NONCE_SIZE)
  then Raise (Exn VerificationError "Invalid received nonce size")
  else if negb (bool_decide (sent_nonce = received_nonce))
  then Raise (Exn VerificationError "Nonce mismatch: possible replay attack")
  else Ok true.

Definition verify_node_time (local_time node_time : float) (tolerance : Z) : res bool :=
  if flt (fz tolerance) (fabs (local_time - node_time)%F)
  then Raise (Exn VerificationError "Clock drift too large") else Ok true.

Definition check_sequence_integrity (expected_seq received_seq : Z) : bool * option string :=
  if received_seq <=? expected_seq then (true, None)
  else
    let gap := received_seq - expected_seq in
    if gap =? 1 then (true, None)
    else if gap <=? SEQ_GAP_WARNING then (true, None)
    else (true, Some "Large sequence gap detected").

(** [None]: the message has no [signature_validated] attribute. *)
Definition verify_lxmf_signature (signature_validated : option bool) : res bool :=
  match signature_validated with
  | Some true => Ok true
  | Some false => Raise (Exn VerificationError "LXMF signature not validated")
  | None => Raise (Exn VerificationError "LXMF message has no signature validation status")
  end.
End VerificationService.

(** ** The replay window *)

Inductive nonce_op :=
  | OpCheck (now : float) (nonce : bytes) (timestamp : option float)
  | OpEvict (now : float).

Definition run_nonce_op (o : nonce_op) (s : NonceTracker.t) : NonceTracker.t :=
  match o with
  | OpCheck now n ts => (check_and_record now n ts s).2
  | OpEvict now => evict_expired now s
  end.
Definition run_nonce_ops (os : list nonce_op) (s : NonceTracker.t) : NonceTracker.t :=
  foldl (λ s o, run_nonce_op o s) s os.

Definition is_check (o : nonce_op) : bool := match o with OpCheck _ _ _ => true | _ => false end.

(** An operation that may evict by age happens no later than [t]. *)
Definition no_later (t : float) (o : nonce_op) : Prop :=
  match o with OpCheck _ _ _ => True | OpEvict now => (now <= t)%F end.

(** The nonce [n], recorded at [t0], with [j] entries recorded after it. *)
Definition held (n : bytes) (t0 : float) (j : Z) (s : NonceTracker.t) : Prop :=
  ∃ a b, _seen s = a ++ (n, t0) :: b ∧ zlen b ≤ j.

Lemma dict_set_new {V} (k : bytes) (v : V) d : dict_has k d = false → dict_set k v d = d ++ [(k, v)].
Proof.
  unfold dict_has. induction d as [|[k' v'] d IH]; simpl; [done|].
  destruct (decide (k = k')); [done|]. intros H. by rewrite IH.
Qed.

Lemma dict_has_app {V} (k : bytes) (v : V) a b : dict_has k (a ++ (k, v) :: b) = true.
Proof.
  unfold dict_has. induction a as [|[k' v'] a IH]; simpl; [by rewrite decide_True|].
  by destruct (decide (k = k')).
Qed.

Lemma trim_keeps max a x b : 1 + zlen b ≤ max → ∃ a', trim max (a ++ x :: b) = a' ++ x :: b.
Proof.
  intros H. induction a as [|y a IH]; cbn [app trim].
  - destruct (Z.ltb_spec max (zlen (x :: b))); [|by exists []]. rewrite zlen_cons in *. lia.
  - destruct (max <? zlen (y :: a ++ x :: b)); [done|]. by exists (y :: a).
Qed.

Lemma drop_older_keeps cutoff a n t0 b :
  flt t0 cutoff = false → ∃ a', drop_older cutoff (a ++ (n, t0) :: b) = a' ++ (n, t0) :: b.
Proof.
  intros H. induction a as [|[m ts] a IH]; simpl; [rewrite H; by exists []|].
  destruct (flt ts cutoff); [done|]. by exists ((m, ts) :: a).
Qed.

Lemma trim_bound max d : 0 ≤ max → zlen (trim max d) ≤ max.
Proof.
  intros H. induction d as [|x d IH]; cbn [trim]; [done|].
  destruct (Z.ltb_spec max (zlen (x :: d))); [done|lia].
Qed.

Lemma drop_older_le cutoff d : zlen (drop_older cutoff d) ≤ zlen d.
Proof.
  induction d as [|[n ts] d IH]; simpl; [done|].
  destruct (flt ts cutoff); [rewrite zlen_cons; lia|done].
Qed.

Lemma run_nonce_op_params o s :
  max_size (run_nonce_op o s) = max_size s ∧ ttl (run_nonce_op o s) = ttl s.
Proof.
  destruct o as [now n ts|now]; simpl.
  - unfold check_and_record. destruct (dict_has _ _); [done|].
    by destruct (match ts with Some _ => _ | None => _ end).
  - unfold evict_expired. by destruct (ttl s <=? 0).
Qed.

Lemma run_nonce_op_bound o s :
  0 ≤ max_size s → zlen (_seen s) ≤ max_size s → zlen (_seen (run_nonce_op o s)) ≤ max_size s.
Proof.
  intros H0 H. destruct o as [now n ts|now]; simpl.
  - unfold check_and_record. destruct (dict_has _ _); [done|].
    destruct (match ts with Some _ => _ | None => _ end); [done|]. by apply trim_bound.
  - unfold evict_expired. destruct (ttl s <=? 0); [done|]. simpl.
    pose proof (drop_older_le (now - fz (ttl s))%F (_seen s)). lia.
Qed.

Lemma run_nonce_op_held n t0 j o s :
  held n t0 j s → 1 + j + (if is_check o then 1 else 0) ≤ max_size s →
  no_later (t0 + fz (ttl s))%F o →
  held n t0 (j + (if is_check o then 1 else 0)) (run_nonce_op o s).
Proof.
  intros (a & b & Hs & Hb) Hj Ht. destruct o as [now m ts|now]; simpl in *.
  - unfold check_and_record.
    destruct (dict_has m (_seen s)) eqn:Em; [exists a, b; split; [done|lia]|].
    destruct (match ts with Some _ => _ | None => _ end); [exists a, b; split; [done|simpl; lia]|].
    simpl. rewrite (dict_set_new _ _ _ Em), Hs, <- app_assoc. cbn [app].
    destruct (trim_keeps (max_size s) a (n, t0) (b ++ [(m, now)])) as [a' E].
    { rewrite zlen_app. change (zlen [(m, now)]) with 1. lia. }
    exists a', (b ++ [(m, now)]). split; [done|]. rewrite zlen_app. change (zlen [(m, now)]) with 1. lia.
  - unfold evict_expired. destruct (ttl s <=? 0); [exists a, b; split; [done|lia]|]. simpl.
    rewrite Hs. destruct (drop_older_keeps (now - fz (ttl s))%F a n t0 b) as [a' E]; [flra|].
    exists a', b. split; [done|lia].
Qed.

Lemma run_nonce_ops_held n t0 j os s :
  held n t0 j s → 0 ≤ j → 1 + j + zlen (List.filter is_check os) ≤ max_size s →
  Forall (no_later (t0 + fz (ttl s))%F) os →
  held n t0 (j + zlen (List.filter is_check os)) (run_nonce_ops os s).
Proof.
  revert j s. induction os as [|o os IH]; intros j s Hh Hj Hm Ht; simpl.
  - by rewrite zlen_nil, Z.add_0_r.
  - inversion Ht as [|? ? Ho Hos]; subst. destruct (run_nonce_op_params o s) as [Em Et].
    pose proof (zlen_nonneg (List.filter is_check os)).
    assert (Hstep := run_nonce_op_held n t0 j o s Hh).
    simpl in Hm. destruct (is_check o); rewrite ?zlen_cons in *.
    + replace (j + (1 + zlen (List.filter is_check os))) with (j + 1 + zlen (List.filter is_check os)) by lia.
      apply IH; [apply Hstep; [lia|done]|lia|rewrite Em; lia|by rewrite Et].
    + rewrite !Z.add_0_r in Hstep. apply IH; [apply Hstep; [lia|done]|lia|rewrite Em; lia|by rewrite Et].
Qed.

Lemma run_nonce_ops_bound os s :
  0 ≤ max_size s → zlen (_seen s) ≤ max_size s → zlen (_seen (run_nonce_ops os s)) ≤ max_size s.
Proof.
  revert s. induction os as [|o os IH]; intros s H0 Hb; simpl; [done|].
  destruct (run_nonce_op_params o s) as [E _]. rewrite <- E.
  apply IH; rewrite E; [done|]. by apply run_nonce_op_bound.
Qed.

(** A nonce just accepted is in the cache. *)
Lemma check_held (s : NonceTracker.t) (n : bytes) (t0 : float) (ts : option float) :
  (check_and_record t0 n ts s).1 = true → 0 < max_size s → held n t0 0 (check_and_record t0 n ts s).2.
Proof.
  unfold check_and_record. intros Hacc Hlen. destruct (dict_has n (_seen s)) eqn:En; [done|].
  destruct (match ts with Some _ => _ | None => _ end); [done|]. simpl.
  rewrite (dict_set_new _ _ _ En).
  destruct (trim_keeps (max_size s) (_seen s) (n, t0) []) as [a E]; [rewrite zlen_nil; lia|].
  by exists a, [].
Qed.

(** replay protection.  A nonce accepted at [t0] is refused again after
    any sequence of operations with fewer than [max_size] other attempts and
    age-based evictions no later than [t0 + ttl]; and the cache never holds
    more than [max_size] nonces. *)
Theorem nonce_replay_rejected (s : NonceTracker.t) (n : bytes) (t0 now : float)
    (ts ts' : option float) (os : list nonce_op) :
  (check_and_record t0 n ts s).1 = true →
  zlen (List.filter is_check os) < max_size s → zlen (_seen s) ≤ max_size s →
  Forall (no_later (t0 + fz (ttl s))%F) os →
  let s' := run_nonce_ops os (check_and_record t0 n ts s).2 in
  (check_and_record now n ts' s').1 = false ∧ zlen (_seen s') ≤ max_size s.
Proof.
  intros Hacc Hlen Hsz Ht s'. pose proof (zlen_nonneg (List.filter is_check os)).
  assert (H0 : max_size (check_and_record t0 n ts s).2 = max_size s
               ∧ ttl (check_and_record t0 n ts s).2 = ttl s)
    by apply (run_nonce_op_params (OpCheck t0 n ts) s).
  destruct H0 as [Em Et]. split.
  - assert (Hh : held n t0 0 (check_and_record t0 n ts s).2) by (apply check_held; [done|lia]).
    destruct (run_nonce_ops_held n t0 0 os _ Hh) as (a & b & E & _);
      [lia|rewrite Em; lia|by rewrite Et|].
    unfold check_and_record at 1. fold s' in E. by rewrite E, dict_has_app.
  - unfold s'. assert (Hb : zlen (_seen (check_and_record t0 n ts s).2) ≤ max_size s)
      by (apply (run_nonce_op_bound (OpCheck t0 n ts)); lia).
    rewrite <- Em in Hb |- *. apply run_nonce_ops_bound; [lia|done].
Qed.

Lemma nonce_replay_rejected_witness :
  let s := (check_and_record (fz 5) [1; 2] None (init 3 600)).2 in
  (check_and_record (fz 700) [1; 2] None
     (run_nonce_ops [OpCheck (fz 6) [3] None; OpEvict (fz 605); OpCheck (fz 7) [4] None] s)).1 = false.
Proof.
  apply (nonce_replay_rejected (init 3 600) [1; 2] (fz 5) (fz 700) None None).
  - reflexivity.
  - reflexivity.
  - vm_compute. congruence.
  - repeat constructor. vm_compute. congruence.
Defined.
