(* ===== verification/History.v ===== *)
(** * Reading messages ([hokora/protocol/sync_utils.py], [handlers/history.py])

    What the sync handlers share (the read gate, the CDSP profile of a
    requester, deferral, the encoding of rows for the wire) and the history
    and search handlers.  The handlers run on the database and the process-wide
    count of ban rejections; [SyncContext] holds the collaborators they read. *)

From S2P Require Import Prelude Constants Models Queries Permissions RateLimit Ban Sealed Sequencer Message Wire.

Record SyncContext := {
  cx_channels : gmap string Channel;                  (* channel_manager._channels *)
  cx_sequencer : SequenceManager.t;
  cx_permission_resolver : option string;             (* its node_owner_hash *)
  cx_sealed_manager : option SealedChannelManager.t;
  cx_cdsp_manager : bool;
  cx_deferred_queue_limit : option Z;                 (* config.cdsp_deferred_queue_limit *)
  (** [fts_manager.search], the FTS5 index *)
  cx_fts_manager : option (string → string → Z → list (dict string val));
}.

Record Sync := { sy_db : DB; sy_bans : ban_counts }.
Definition sy_set_db (db : DB) (s : Sync) : Sync := {| sy_db := db; sy_bans := sy_bans s |}.
Definition sy_op {A} (m : M DB A) : M Sync A := lift sy_db sy_set_db m.
Definition sy_ask {A} (f : DB → A) : M Sync A := gets (λ s, f (sy_db s)).
Definition sy_count (surface : string) : M Sync unit :=
  modify (λ s, {| sy_db := sy_db s; sy_bans := record_ban_rejection surface (sy_bans s) |}).

(** ** Encoding *)

Definition populate_sender_pubkey (sender_public_key : option bytes) (d : dict string val)
    : dict string val :=
  if olist_true sender_public_key
  then dict_set "sender_public_key" (val_of VBytes sender_public_key) d else d.

Definition encode_message_for_wire `{Aead} (m : Message)
    (sealed_manager : option SealedChannelManager.t) (subscriber_supports_sealed_at_rest : bool)
    : dict string val :=
  let d := encode_message_for_sync m in
  match sealed_manager with
  | None => d
  | Some mgr =>
      if negb (olist_true (m_encrypted_body m) && olist_true (m_encryption_nonce m)) then d
      else if subscriber_supports_sealed_at_rest then
        dict_set "encryption_epoch" (val_of VInt (m_encryption_epoch m))
          (dict_set "encryption_nonce" (val_of VBytes (m_encryption_nonce m))
            (dict_set "encrypted_body" (val_of VBytes (m_encrypted_body m))
              (dict_set "body" (VStr "") d)))
      else
        match SealedChannelManager.decrypt (m_channel_id m) (default [] (m_encryption_nonce m))
                (default [] (m_encrypted_body m)) (m_encryption_epoch m) mgr with
        | Ok plaintext =>
            match utf8_decode plaintext with
            | Some s => dict_set "body" (VStr s) d
            | None => dict_set "body" (VStr "[encrypted - key unavailable]") d
            end
        | Raise _ => dict_set "body" (VStr "[encrypted - key unavailable]") d
        end
  end.

Definition encode_messages_with_keys `{Aead} (ms : list Message)
    (sealed_manager : option SealedChannelManager.t) (subscriber_supports_sealed_at_rest : bool)
    (db : DB) : list (dict string val) :=
  let sender_hashes := List.filter str_true (omap m_sender_hash ms) in
  let identities : gmap string Identity :=
    list_to_map (map (λ i, (id_hash i, i)) (IdentityRepo.get_batch sender_hashes db)) in
  map (λ m,
    let d := encode_message_for_wire m sealed_manager subscriber_supports_sealed_at_rest in
    let rc := match threads db !! m_msg_hash m with Some t => th_reply_count t | None => 0 end in
    let d := if 0 <? rc
             then dict_set "reply_count" (VInt rc) (dict_set "has_thread" (VBool true) d) else d in
    populate_sender_pubkey (m_sender_hash m ≫= λ h, identities !! h ≫= id_public_key) d) ms.

(** ** The read gate, profiles and deferral *)

Definition check_channel_read (ctx : SyncContext) (ch_id_ : string) (requester_hash : option string)
    : M Sync Channel :=
  match cx_channels ctx !! ch_id_ with
  | None => raise SyncError "Channel not found"
  | Some channel =>
      when (ostr_true requester_hash)
        (catch (sy_op (check_not_blocked (or_empty requester_hash)))
           (λ e, if bool_decide (exn_cls e = PermissionDenied)
                 then sy_count "sync_read" ;; throw e else throw e)) ;;
      if negb (bool_decide (ch_access_mode channel = ACCESS_PRIVATE)) then ret channel
      else if bool_decide (is_Some (cx_permission_resolver ctx)) && ostr_true requester_hash
              && bool_decide (requester_hash = cx_permission_resolver ctx) then ret channel
      else if negb (ostr_true requester_hash)
      then raise PermissionDenied "Authentication required for private channel"
      else
        let! roles := sy_ask (RoleRepo.get_identity_roles (or_empty requester_hash) (Some ch_id_) true) in
        if negb (list_true roles) then raise PermissionDenied "Not a member of this private channel"
        else ret channel
  end.

(** [get_active_session(requester_hash)]; no row has the identity [None]. *)
Definition active_session_of (requester_hash : option string) (db : DB) : option Session :=
  requester_hash ≫= λ r, SessionRepo.get_active_session r db.

Definition get_session_profile (ctx : SyncContext) (requester_hash : option string) (db : DB)
    : ProfileLimits :=
  if negb (cx_cdsp_manager ctx) then FULL_LIMITS
  else
    match active_session_of requester_hash db with
    | None => FULL_LIMITS
    | Some sess => default FULL_LIMITS (dict_get (ses_sync_profile sess) CDSP_PROFILE_LIMITS)
    end.

Definition defer_sync_item (ctx : SyncContext) (now : float) (requester_hash : option string)
    (channel_id : option string) (action : Z) (payload : val) : M DB unit :=
  let! sess := gets (active_session_of requester_hash) in
  match sess with
  | None => ret tt
  | Some sess =>
      let sid := ses_session_id sess in
      let! count := gets (DeferredSyncItemRepo.count_for_session sid) in
      let limit := default 1000 (cx_deferred_queue_limit ctx) in
      when (limit <=? count) (DeferredSyncItemRepo.evict_oldest sid (limit - 1) ;; ret tt) ;;
      DeferredSyncItemRepo.enqueue now sid channel_id action payload 0 (ses_expires_at sess) ;;
      let! n := gets (DeferredSyncItemRepo.count_for_session sid) in
      modify (set_sessions (alter (SessionRepo.set_deferred_count n) sid))
  end.

(** ** History *)

Record HistoryResponse := {
  hr_channel_id : string;
  hr_messages : list (dict string val);
  hr_latest_seq : Z;
  hr_has_more : bool;
  hr_sync_profile : Z;
}.

(** The rows a history request selects, before the thread replies are left out. *)
Definition history_rows (profile : ProfileLimits) (payload : dict string val) (ch : string) (db : DB)
    : res (Z * list Message) :=
  match get_int "since_seq" 0 payload, get_int "limit" (default_sync_limit profile) payload with
  | Ok since_seq, Ok l =>
      let limit := Z.min l (max_sync_limit profile) in
      let direction := or_empty (get_str "direction" (Some "forward") payload) in
      let direction := if bool_decide (history_direction profile = Some "backward")
                          && negb (dict_has "direction" payload)
                       then "backward" else direction in
      Ok (limit, MessageRepo.get_history ch since_seq limit direction None db)
  | Raise e, _ => Raise e
  | _, Raise e => Raise e
  end.

Definition handle_history `{Aead} (ctx : SyncContext) (payload : dict string val)
    (channel_id requester_hash : option string) : M Sync HistoryResponse :=
  let ch := get_str "channel_id" channel_id payload in
  if negb (ostr_true ch) then raise SyncError "No channel_id provided for sync_history"
  else
    let ch := or_empty ch in
    check_channel_read ctx ch requester_hash ;;
    let! db := gets sy_db in
    let profile := get_session_profile ctx requester_hash db in
    let! (limit, raw_messages) := of_res (history_rows profile payload ch db) in
    let has_more := zlen raw_messages =? limit in
    let messages := List.filter (λ m, negb (m_type m =? MSG_THREAD_REPLY)) raw_messages in
    ret {| hr_channel_id := ch;
           hr_messages := encode_messages_with_keys messages (cx_sealed_manager ctx)
                            (get_bool "supports_sealed_at_rest" payload) db;
           hr_latest_seq := SequenceManager.get_cached_seq ch (cx_sequencer ctx);
           hr_has_more := has_more;
           hr_sync_profile := max_sync_limit profile |}.

(** ** Search *)

Definition _get_search_context (channel_id : string) (msg_hash : option string) (db : DB)
    : dict string val :=
  let none := [("context_before", VList []); ("context_after", VList [])] in
  match (if ostr_true msg_hash then MessageRepo.get_by_hash (or_empty msg_hash) db else None) with
  | None => none
  | Some msg =>
      match m_seq msg with
      | None => none
      | Some sq =>
          let enc l := VList (map (λ m, VDict (encode_message_for_sync m)) l) in
          [("context_before", enc (MessageRepo.get_history channel_id 0 2 "backward" (Some sq) db));
           ("context_after", enc (MessageRepo.get_history channel_id sq 2 "forward" None db))]
      end
  end.

(** [d.update(context)] *)
Definition dict_update (d u : dict string val) : dict string val :=
  foldl (λ d kv, dict_set kv.1 kv.2 d) d u.

Record SearchResponse := {
  sr_results : list (dict string val);
  sr_deferred : bool;
  sr_query_truncated : bool;
}.

Definition max_query_len : Z := 500.

Definition handle_search (ctx : SyncContext) (now : float) (payload : dict string val)
    (channel_id requester_hash : option string) : M Sync SearchResponse :=
  let ch := get_str "channel_id" channel_id payload in
  let query := or_empty (get_str "query" (Some "") payload) in
  let! db := gets sy_db in
  let profile := get_session_profile ctx requester_hash db in
  if search_limit profile =? 0 then
    when (ostr_true requester_hash)
      (sy_op (defer_sync_item ctx now requester_hash ch SYNC_SEARCH (VDict payload))) ;;
    ret {| sr_results := []; sr_deferred := true; sr_query_truncated := false |}
  else
    let! l := of_res (get_int "limit" 20 payload) in
    let limit := Z.min l (search_limit profile) in
    if negb (ostr_true ch) || negb (str_true query)
    then raise SyncError "channel_id and query required for search"
    else
      let ch := or_empty ch in
      let query_truncated := max_query_len <? py_len query in
      let query := if query_truncated then py_take max_query_len query else query in
      let! channel := check_channel_read ctx ch requester_hash in
      if ch_sealed channel then raise SyncError "Search not available for sealed channels"
      else
        let! db := gets sy_db in
        let results :=
          match cx_fts_manager ctx with
          | Some fts =>
              map (λ r, dict_update r (_get_search_context ch (get_str "msg_hash" None r) db))
                (fts ch query limit)
          | None =>
              map (λ m, dict_update (encode_message_for_sync m)
                          (_get_search_context ch (Some (m_msg_hash m)) db))
                (MessageRepo.search ch query limit db)
          end in
        ret {| sr_results := results; sr_deferred := false; sr_query_truncated := query_truncated |}.

(** ** Paging *)

(** The numbered rows of a channel after a number, oldest first. *)
Definition after (ch : string) (since : Z) (db : DB) : list Message :=
  MessageRepo.get_history ch since (-1) "forward" None db.

(** A client that asks for pages of [limit] rows, each after the last row of
    the previous one, until a page comes back short. *)
Fixpoint pages (fuel : nat) (ch : string) (since limit : Z) (db : DB) : list (list Message) :=
  match fuel with
  | O => []
  | S fuel =>
      let page := MessageRepo.get_history ch since limit "forward" None db in
      match last page with
      | None => [page]
      | Some m => if zlen page =? limit then page :: pages fuel ch (seq_of m) limit db else [page]
      end
  end.

Definition seq_lt_rel (a b : Message) : Prop := seq_of a < seq_of b.

#[export] Instance seq_lt_antisymm : AntiSymm (=) seq_lt_rel.
Proof. intros a b H1 H2. unfold seq_lt_rel in *. lia. Qed.

(** The numbers of a channel are given once. *)
Definition seqs_distinct (ch : string) (db : DB) : Prop :=
  ∀ h1 h2 m1 m2 n, messages db !! h1 = Some m1 → messages db !! h2 = Some m2 →
    m_channel_id m1 = ch → m_channel_id m2 = ch → m_seq m1 = Some n → m_seq m2 = Some n → h1 = h2.

Definition selected (ch : string) (since : Z) (m : Message) : bool :=
  MessageRepo.in_channel ch m && MessageRepo.seq_gt since m.

Lemma filter_filter_andb {A} (f g : A → bool) l :
  List.filter f (List.filter g l) = List.filter (λ x, g x && f x) l.
Proof.
  induction l as [|a l IH]; simpl; [done|]. destruct (g a); simpl; [|done].
  destruct (f a); by rewrite IH.
Qed.

Lemma after_eq ch since db :
  after ch since db = sort_by (λ a b, seq_of a <=? seq_of b)
                        (List.filter (selected ch since) (rows (messages db))).
Proof.
  unfold after, MessageRepo.get_history, sql_limit. simpl. rewrite filter_filter_andb. f_equal.
  apply filter_ext. intros m. unfold selected. by rewrite andb_true_r.
Qed.

Lemma page_eq ch since limit db :
  MessageRepo.get_history ch since limit "forward" None db = sql_limit limit (after ch since db).
Proof.
  rewrite after_eq. unfold MessageRepo.get_history. simpl. f_equal. f_equal.
  rewrite filter_filter_andb. apply filter_ext. intros m. unfold selected. by rewrite andb_true_r.
Qed.

Lemma elem_of_filter_bool {A} (f : A → bool) l x : x ∈ List.filter f l ↔ x ∈ l ∧ f x = true.
Proof. rewrite !list_elem_of_In. apply filter_In. Qed.

Lemma elem_of_after ch since db m :
  m ∈ after ch since db ↔
  ∃ h n, messages db !! h = Some m ∧ m_channel_id m = ch ∧ m_seq m = Some n ∧ since < n.
Proof.
  rewrite after_eq, elem_of_sort_by, elem_of_filter_bool, elem_of_rows.
  unfold selected, MessageRepo.in_channel, MessageRepo.seq_gt.
  rewrite andb_true_iff, bool_decide_eq_true. split.
  - intros [[h Hh] [Hc Hs]]. destruct (m_seq m) as [n|] eqn:E; [|done].
    exists h, n. split_and!; try done. lia.
  - intros (h & n & Hh & Hc & Hs & Hlt). rewrite Hs. split; [eauto|]. split; [done|]. lia.
Qed.

(** The selected rows in strictly ascending order of their numbers. *)
Lemma after_sorted ch since db :
  seqs_distinct ch db → StronglySorted seq_lt_rel (after ch since db).
Proof.
  intros Hd.
  assert (Hs : StronglySorted (λ a b, (seq_of a <=? seq_of b) = true) (after ch since db)).
  { rewrite after_eq. apply sort_by_sorted; intros; lia. }
  assert (Hnd : NoDup (after ch since db)).
  { rewrite after_eq. rewrite sort_by_perm. unfold rows.
    assert (H : ∀ l : list (string * Message), NoDup l → (∀ p, p ∈ l → messages db !! p.1 = Some p.2) →
      NoDup (List.filter (selected ch since) (l.*2))).
    { induction l as [|[h m] l IH]; intros Hl Hm; csimpl; [constructor|].
      apply NoDup_cons in Hl as [Hnin Hl]. destruct (selected ch since m) eqn:Es; [|apply IH; set_solver].
      apply NoDup_cons. split; [|apply IH; set_solver].
      intros [Hin Hsel]%elem_of_filter_bool. apply list_elem_of_fmap in Hin as ([h' m'] & -> & Hin).
      apply Hnin. unfold selected, MessageRepo.in_channel, MessageRepo.seq_gt in Es. simpl in *.
      apply andb_true_iff in Es as [Ec%bool_decide_eq_true Eq]. destruct (m_seq m') as [n|] eqn:En; [|done].
      assert (h = h') as ->; [|done].
      apply (Hd h h' m' m' n); auto; [apply (Hm (h, m'))|apply (Hm (h', m'))]; set_solver. }
    apply H; [apply NoDup_map_to_list|]. intros [h m] Hp. by apply elem_of_map_to_list in Hp. }
  assert (Hin := λ m, proj1 (elem_of_after ch since db m)).
  revert Hs Hnd Hin. generalize (after ch since db). intros l Hs. induction Hs as [|m l Hs IH Hall]; intros Hnd Hin.
  { constructor. }
  apply NoDup_cons in Hnd as [Hnin Hnd]. constructor; [apply IH; set_solver|].
  rewrite Forall_forall in Hall |- *. intros m' Hm'. specialize (Hall m' Hm').
  unfold seq_lt_rel. apply Z.leb_le in Hall.
  destruct (Hin m) as (h & n & Hh & Hc & Hn & _); [left|].
  destruct (Hin m') as (h' & n' & Hh' & Hc' & Hn' & _); [by right|].
  unfold seq_of in *. rewrite Hn, Hn' in *. simpl in *.
  destruct (decide (n = n')) as [<-|]; [|lia].
  assert (h = h') as <- by (by eapply Hd). simplify_eq. done.
Qed.

Lemma sorted_nodup l : StronglySorted seq_lt_rel l → NoDup l.
Proof.
  induction 1 as [|a l Hl IH Hall]; [constructor|]. apply NoDup_cons. split; [|done].
  intros Hin. rewrite Forall_forall in Hall. specialize (Hall a Hin). unfold seq_lt_rel in Hall. lia.
Qed.

(** The rows after the number of a listed row are the rows listed after it. *)
Lemma after_suffix ch since db l1 m l2 :
  seqs_distinct ch db → after ch since db = l1 ++ m :: l2 → after ch (seq_of m) db = l2.
Proof.
  intros Hd E. pose proof (after_sorted ch since db Hd) as Hs. rewrite E in Hs.
  assert (Hlt : ∀ a, a ∈ l1 → seq_of a < seq_of m)
    by (intros a Ha; eapply (StronglySorted_app_1_elem_of seq_lt_rel); [done..|left]).
  pose proof (StronglySorted_app_1_r _ _ _ Hs) as Hs2.
  apply StronglySorted_inv in Hs2 as [Hs2 Hgt]. rewrite Forall_forall in Hgt.
  apply (StronglySorted_unique seq_lt_rel); [by apply after_sorted|done|].
  apply NoDup_Permutation; [by apply sorted_nodup, after_sorted|by apply sorted_nodup|].
  intros x. rewrite elem_of_after. split.
  - intros (h & n & Hh & Hc & Hn & Hlt'). assert (Hsq : seq_of x = n) by (unfold seq_of; by rewrite Hn).
    assert (Hm : m ∈ after ch since db) by (rewrite E; set_solver).
    apply elem_of_after in Hm as (_ & k & _ & _ & Hk & Hsk).
    assert (Hkm : seq_of m = k) by (unfold seq_of; by rewrite Hk).
    assert (Hx : x ∈ after ch since db)
      by (apply elem_of_after; exists h, n; split_and!; try done; lia).
    rewrite E in Hx. apply elem_of_app in Hx as [Hx|Hx]; [specialize (Hlt x Hx); lia|].
    apply elem_of_cons in Hx as [->|Hx]; [lia|done].
  - intros Hx. assert (Hin : x ∈ after ch since db) by (rewrite E; set_solver).
    apply elem_of_after in Hin as (h & n & Hh & Hc & Hn & _). exists h, n. split_and!; try done.
    specialize (Hgt x Hx). unfold seq_lt_rel in Hgt. unfold seq_of at 2 in Hgt. by rewrite Hn in Hgt.
Qed.

(** Thread replies are left out of a page after it was cut, so a page may be
    short, or empty, without being the last. *)
Definition is_shown (m : Message) : bool := negb (m_type m =? MSG_THREAD_REPLY).
Definition shown_after (ch : string) (since : Z) (db : DB) : list Message := List.filter is_shown (after ch since db).

(** No full page after a number consists of thread replies alone. *)
Definition replies_sparse (limit since : Z) (ch : string) (db : DB) : Prop :=
  ∀ k, since ≤ k → zlen (ztake limit (after ch k db)) = limit → List.filter is_shown (ztake limit (after ch k db)) ≠ [].

Lemma replies_sparse_later limit since since' ch db :
  since ≤ since' → replies_sparse limit since ch db → replies_sparse limit since' ch db.
Proof. intros Hle H k Hk. apply H. lia. Qed.

Lemma last_filter {A} (f : A → bool) l x : last (List.filter f l) = Some x →
  ∃ l1 l2, l = l1 ++ x :: l2 ∧ List.filter f l2 = [].
Proof.
  induction l as [|y l IH]; simpl; [done|]. destruct (List.filter f l) as [|z r] eqn:E.
  - destruct (f y); [|done]. intros [= <-]. by exists [], l.
  - intros H. destruct IH as (l1 & l2 & -> & ?); [|by exists (y :: l1), l2].
    destruct (f y); [|done]. by rewrite last_cons_cons in H.
Qed.

(** What a reader whose cursor is the last shown number of each page has
    left: the rest, and less of it. *)
Lemma shown_page limit ch since db : 1 ≤ limit → seqs_distinct ch db → replies_sparse limit since ch db →
  let page := List.filter is_shown (ztake limit (after ch since db)) in
  let since' := match last page with Some x => seq_of x | None => since end in
  shown_after ch since db = page ++ shown_after ch since' db ∧ since ≤ since'
  ∧ (page = [] → shown_after ch since db = [])
  ∧ (zlen (ztake limit (after ch since db)) = limit → (length (after ch since' db) < length (after ch since db))%nat).
Proof.
  intros Hp Hd Hsp page since'. specialize (Hsp since ltac:(lia)). fold page in Hsp.
  assert (ztake limit (after ch since db) ++ drop (Z.to_nat limit) (after ch since db) = after ch since db) as Hsplit by apply take_drop.
  assert (zlen (ztake limit (after ch since db)) ≠ limit → ztake limit (after ch since db) = after ch since db) as Hshort.
  { unfold zlen, ztake. rewrite length_take. intros H. apply take_ge. lia. }
  unfold since'. destruct (last page) as [x|] eqn:El.
  - pose proof El as El'. apply last_filter in El' as (l1 & l2 & E & Hl2).
    assert (after ch since db = l1 ++ x :: (l2 ++ drop (Z.to_nat limit) (after ch since db))) as EL.
    { rewrite <- Hsplit at 1. rewrite E, <- app_assoc. done. }
    rewrite (after_suffix ch since db l1 x _ Hd EL).
    assert (x ∈ after ch since db) as Hx by (rewrite EL; apply elem_of_app; right; left).
    assert (page ≠ []) as Hne by (by intros Ep; rewrite Ep in El).
    split_and!; [| |done|].
    + unfold shown_after, page. rewrite (after_suffix ch since db l1 x _ Hd EL), E.
      set (R := drop _ _) in *. clearbody R. rewrite EL, !List.filter_app. simpl. rewrite !List.filter_app, Hl2.
      destruct (is_shown x); simpl; by rewrite <- ?app_assoc, ?app_nil_r.
    + apply elem_of_after in Hx as (h & n & _ & _ & Hn & Hlt). unfold seq_of. rewrite Hn. simpl. lia.
    + intros _. set (R := drop _ _) in *. clearbody R. rewrite EL, !length_app. simpl. rewrite length_app. lia.
  - apply last_None in El. assert (shown_after ch since db = []) as Hnil.
    { destruct (Z.eq_dec (zlen (ztake limit (after ch since db))) limit) as [Hf|Hf]; [by destruct (Hsp Hf)|].
      unfold shown_after. rewrite <- (Hshort Hf). exact El. }
    rewrite El, Hnil. split_and!; [done|lia|done|]. intros Hf. by destruct (Hsp Hf).
Qed.

(** The rows a page shows are in ascending order, and after its start. *)
Lemma shown_sorted limit ch since db : seqs_distinct ch db →
  let page := List.filter is_shown (ztake limit (after ch since db)) in
  StronglySorted seq_lt_rel page ∧ ∀ m, m ∈ page → m_seq m = Some (seq_of m) ∧ since < seq_of m.
Proof.
  intros Hd page. split.
  - eapply sorted_sublist; [|by apply after_sorted]. etrans; [apply filter_sublist|apply sublist_take].
  - intros m Hm. assert (m ∈ after ch since db) as (h & n & _ & _ & Hn & Hlt)%elem_of_after.
    { eapply elem_of_sublist; [exact Hm|]. etrans; [apply filter_sublist|apply sublist_take]. }
    unfold seq_of. by rewrite Hn.
Qed.

(** Every profile asks for something. *)
Lemma profile_positive ctx req db : 1 ≤ max_sync_limit (get_session_profile ctx req db).
Proof.
  unfold get_session_profile. destruct (negb _); [done|]. destruct (active_session_of req db) as [se|]; [|done].
  unfold CDSP_PROFILE_LIMITS. cbn [dict_get]. by repeat case_decide.
Qed.

(** Fewer rows than a page holds never fill one. *)
Lemma few_rows_sparse limit since ch db : Z.of_nat (size (messages db)) < limit → replies_sparse limit since ch db.
Proof.
  intros Hs k _ Hf. exfalso. assert (length (after ch k db) ≤ size (messages db))%nat.
  { rewrite after_eq, (Permutation_length (sort_by_perm _ _)). etrans; [apply sublist_length, filter_sublist|].
    unfold rows. by rewrite length_fmap, length_map_to_list. }
  unfold zlen, ztake in Hf. rewrite length_take in Hf. lia.
Qed.

Lemma pages_concat fuel ch since limit db :
  seqs_distinct ch db → 1 ≤ limit → (length (after ch since db) < fuel)%nat →
  concat (pages fuel ch since limit db) = after ch since db.
Proof.
  intros Hd Hl. revert since. induction fuel as [|fuel IH]; intros since Hf; [lia|]. cbn [pages].
  rewrite page_eq. unfold sql_limit. destruct (Z.ltb_spec limit 0); [lia|]. unfold ztake.
  set (L := after ch since db) in *.
  assert (Hsplit := take_drop (Z.to_nat limit) L). set (pg := take (Z.to_nat limit) L) in *.
  destruct (last pg) as [m|] eqn:El.
  - apply last_Some in El as [l1 El]. destruct (Z.eqb_spec (zlen pg) limit) as [Efull|Eshort].
    + assert (Hsuf : after ch (seq_of m) db = drop (Z.to_nat limit) L).
      { apply (after_suffix ch since db l1 m); [done|]. fold L. rewrite <- Hsplit at 1.
        by rewrite El, <- app_assoc. }
      simpl. rewrite IH; rewrite Hsuf; [done|]. rewrite length_drop. unfold zlen in Efull.
      assert (length pg ≤ length L)%nat by (unfold pg; rewrite length_take; lia). lia.
    + simpl. rewrite app_nil_r. unfold pg. apply take_ge.
      unfold zlen, pg in Eshort. rewrite length_take in Eshort. lia.
  - simpl. apply last_None in El. rewrite El, app_nil_r in *. simpl in Hsplit.
    destruct L as [|x L']; [done|]. unfold pg in El. destruct (Z.to_nat limit) eqn:En; [lia|done].
Qed.

(** C32: paging is complete and never repeats.  A client that follows forward
    pages of any positive size, each from the last number it received, gets
    after finitely many pages exactly the numbered rows of the channel after
    its starting point, each once, in strictly ascending order. *)
Theorem history_paging (fuel : nat) (ch : string) (since limit : Z) (db : DB) :
  seqs_distinct ch db → 1 ≤ limit → (length (after ch since db) < fuel)%nat →
  let got := concat (pages fuel ch since limit db) in
  StronglySorted seq_lt_rel got
  ∧ (∀ m, m ∈ got ↔ ∃ h n, messages db !! h = Some m ∧ m_channel_id m = ch
                       ∧ m_seq m = Some n ∧ since < n).
Proof.
  intros Hd Hl Hf. cbv zeta. rewrite pages_concat by done.
  split; [by apply after_sorted|]. intros m. apply elem_of_after.
Qed.

Definition typed_row (t : Z) (h : string) (n : Z) : Message := {|
  m_msg_hash := h; m_channel_id := "c"; m_sender_hash := None; m_seq := Some n;
  m_timestamp := fz n; m_type := t; m_body := Some h; m_media_path := None;
  m_media_meta := None; m_reply_to := None; m_thread_seq := None; m_ttl := None;
  m_received_at := fz n; m_deleted := false; m_deleted_by := None; m_pinned := false;
  m_pinned_at := None; m_edit_chain := []; m_reactions := []; m_lxmf_signature := None;
  m_lxmf_signed_part := None; m_display_name := None; m_mentions := []; m_origin_node := None;
  m_encrypted_body := None; m_encryption_nonce := None; m_encryption_epoch := None |}.
Definition numbered_row : string → Z → Message := typed_row MSG_TEXT.

Definition three_rows : DB :=
  set_messages (λ _, {[ "x" := numbered_row "x" 1; "y" := numbered_row "y" 2;
                        "z" := numbered_row "z" 3 ]}) empty_db.

Lemma three_rows_lookup h m :
  messages three_rows !! h = Some m → ∃ n, m = numbered_row h n
    ∧ ((h, n) = ("x", 1) ∨ (h, n) = ("y", 2) ∨ (h, n) = ("z", 3)).
Proof.
  simpl. rewrite !lookup_insert_Some, lookup_singleton_Some.
  intros [[<- <-]|[_ [[<- <-]|[_ [<- <-]]]]]; eexists; eauto.
Qed.

Lemma three_rows_distinct : seqs_distinct "c" three_rows.
Proof.
  intros h1 h2 m1 m2 n (n1 & -> & H1)%three_rows_lookup (n2 & -> & H2)%three_rows_lookup _ _.
  simpl. intros. destruct H1 as [?|[?|?]], H2 as [?|[?|?]]; simplify_eq; done.
Qed.

(** The second row is a thread reply. *)
Definition reply_between : DB := set_messages (<["y" := typed_row MSG_THREAD_REPLY "y" 2]>) three_rows.

Lemma reply_between_distinct : seqs_distinct "c" reply_between.
Proof.
  assert (∀ h m, messages reply_between !! h = Some m → ∃ n, m_seq m = Some n
    ∧ ((h, n) = ("x", 1) ∨ (h, n) = ("y", 2) ∨ (h, n) = ("z", 3))) as Hl.
  { intros h m Hm. change (messages reply_between) with (<["y" := typed_row MSG_THREAD_REPLY "y" 2]> (messages three_rows)) in Hm.
    apply lookup_insert_Some in Hm as [[<- <-]|[_ (n & -> & H)%three_rows_lookup]]; eexists; eauto. }
  intros h1 h2 m1 m2 n (n1 & E1 & H1)%Hl (n2 & E2 & H2)%Hl _ _. rewrite E1, E2. intros [= ->] [= ->].
  destruct H1 as [?|[?|?]], H2 as [?|[?|?]]; simplify_eq; done.
Qed.

Lemma history_paging_witness :
  StronglySorted seq_lt_rel (concat (pages 5 "c" 0 2 three_rows))
  ∧ numbered_row "z" 3 ∈ concat (pages 5 "c" 0 2 three_rows).
Proof.
  destruct (history_paging 5 "c" 0 2 three_rows three_rows_distinct ltac:(lia)
              ltac:(vm_compute; lia)) as [Hs Hin].
  split; [exact Hs|]. apply Hin. exists "z", 3. split_and!; [reflexivity|reflexivity|reflexivity|lia].
Defined.

(** ** The read gate *)

Lemma check_channel_read_ok ctx ch req s c s' :
  check_channel_read ctx ch req s = (Ok c, s') →
  sy_db s' = sy_db s ∧ cx_channels ctx !! ch = Some c
  ∧ (∀ r, req = Some r → is_blocked r (sy_db s) = false)
  ∧ (ch_access_mode c = ACCESS_PRIVATE → ∃ r, req = Some r
     ∧ (cx_permission_resolver ctx = Some r
        ∨ RoleRepo.get_identity_roles r (Some ch) true (sy_db s) ≠ [])).
Proof.
  unfold check_channel_read. destruct (cx_channels ctx !! ch) as [channel|]; [|done].
  intros (u & s1 & H1 & H)%bind_ok.
  assert (Hb : s1 = s ∧ ∀ r, req = Some r → is_blocked r (sy_db s) = false).
  { unfold when, catch, sy_op, lift, check_not_blocked, bind, get in H1.
    destruct req as [r|]; simpl in H1; [|by injection H1 as _ <-].
    destruct (str_true r) eqn:Er; simpl in H1.
    - destruct (IdentityRepo.is_blocked r (sy_db s)) eqn:Eb; simpl in H1; [done|].
      injection H1 as _ <-. split; [by destruct s|]. intros r' [= <-].
      unfold is_blocked. by rewrite Er.
    - injection H1 as _ <-. split; [done|]. intros r' [= <-]. unfold is_blocked. by rewrite Er. }
  destruct Hb as [-> Hb].
  destruct (bool_decide (ch_access_mode channel = ACCESS_PRIVATE)) eqn:Ep; simpl in H.
  2:{ injection H as <- <-. apply bool_decide_eq_false in Ep. by split_and!. }
  destruct (bool_decide (is_Some (cx_permission_resolver ctx)) && _ && _) eqn:Eo; simpl in H.
  { injection H as <- <-. apply andb_true_iff in Eo as [[_ E2]%andb_true_iff E3%bool_decide_eq_true].
    split_and!; try done. intros _. destruct req as [r|]; [|done]. eauto. }
  destruct (ostr_true req) eqn:Er; simpl in H; [|done].
  apply bind_ok in H as (roles & s2 & H2 & H). injection H2 as <- <-.
  destruct (list_true _) eqn:El; simpl in H; [|done]. injection H as <- <-.
  split_and!; try done. intros _. destruct req as [r|]; [|done]. exists r. split; [done|]. right.
  intros E. simpl in El. by rewrite E in El.
Qed.

Lemma handle_history_ok `{Aead} ctx payload cid req s r s' :
  handle_history ctx payload cid req s = (Ok r, s') →
  ∃ c limit raw, check_channel_read ctx (hr_channel_id r) req s = (Ok c, s')
  ∧ get_str "channel_id" cid payload = Some (hr_channel_id r)
  ∧ history_rows (get_session_profile ctx req (sy_db s')) payload (hr_channel_id r) (sy_db s')
    = Ok (limit, raw)
  ∧ hr_messages r = encode_messages_with_keys
      (List.filter (λ m, negb (m_type m =? MSG_THREAD_REPLY)) raw) (cx_sealed_manager ctx)
      (get_bool "supports_sealed_at_rest" payload) (sy_db s')
  ∧ hr_has_more r = (zlen raw =? limit).
Proof.
  unfold handle_history. cbv zeta. destruct (get_str "channel_id" cid payload) as [ch|]; [|done].
  destruct (ostr_true (Some ch)); simpl; [|done].
  intros (c & s1 & Hc & Hk)%bind_ok. apply bind_ok in Hk as (db & s2 & Hdb & Hk). injection Hdb as <- <-.
  apply bind_ok in Hk as ([limit raw] & s2 & Hr & Hk). injection Hr as Hr <-. injection Hk as <- <-.
  exists c, limit, raw. simpl. by split_and!.
Qed.

(** history is only served to whom may read: an answered request names a
    known channel, its requester is not banned, and when the channel is
    private the requester is the node owner or holds a role on that channel
    itself. *)
Theorem history_access {A : Aead} (ctx : SyncContext) (payload : dict string val)
    (cid req : option string) (s s' : Sync) (r : HistoryResponse) :
  handle_history ctx payload cid req s = (Ok r, s') →
  ∃ c, cx_channels ctx !! hr_channel_id r = Some c
  ∧ (∀ i, req = Some i → is_blocked i (sy_db s) = false)
  ∧ (ch_access_mode c = ACCESS_PRIVATE → ∃ i, req = Some i
     ∧ (cx_permission_resolver ctx = Some i
        ∨ RoleRepo.get_identity_roles i (Some (hr_channel_id r)) true (sy_db s) ≠ [])).
Proof.
  intros (c & limit & raw & Hc & _)%handle_history_ok. exists c.
  apply check_channel_read_ok in Hc as (_ & H1 & H2 & H3). by split_and!.
Qed.

(** ** Limits *)

Lemma zlen_filter_le {B} (f : B → bool) l : zlen (List.filter f l) ≤ zlen l.
Proof.
  induction l as [|a l IH]; simpl; [done|]. destruct (f a); rewrite ?zlen_cons; lia.
Qed.

Lemma get_history_limit ch since limit dir before db :
  0 ≤ limit → zlen (MessageRepo.get_history ch since limit dir before db) ≤ limit.
Proof.
  intros Hl. unfold MessageRepo.get_history.
  assert (Hrev : ∀ (b : bool) (l : list Message), zlen (if b then reverse l else l) = zlen l)
    by (intros [] l; [unfold zlen; by rewrite length_reverse|done]).
  rewrite Hrev. destruct (bool_decide (dir = "forward")); by apply zlen_sql_limit.
Qed.

(** Encoding keeps the number and the hash of a row. *)
Lemma encoded_fields `{Aead} ms mgr b db :
  ∃ f, encode_messages_with_keys ms mgr b db = map f ms
  ∧ ∀ x, dict_get "seq" (f x) = Some (val_of VInt (m_seq x)) ∧ dict_get "msg_hash" (f x) = Some (VStr (m_msg_hash x)).
Proof.
  unfold encode_messages_with_keys. eexists. split; [reflexivity|]. intros x.
  assert (∀ d : dict string val, dict_get "seq" d = Some (val_of VInt (m_seq x)) ∧ dict_get "msg_hash" d = Some (VStr (m_msg_hash x)) →
    ∀ k v, k ≠ "seq" → k ≠ "msg_hash" →
    dict_get "seq" (dict_set k v d) = Some (val_of VInt (m_seq x)) ∧ dict_get "msg_hash" (dict_set k v d) = Some (VStr (m_msg_hash x))) as Hset.
  { intros d [H1 H2] k v N1 N2. by rewrite !dict_get_set_ne by congruence. }
  assert (dict_get "seq" (encode_message_for_wire x mgr b) = Some (val_of VInt (m_seq x))
    ∧ dict_get "msg_hash" (encode_message_for_wire x mgr b) = Some (VStr (m_msg_hash x))) as Hw.
  { assert (dict_get "seq" (encode_message_for_sync x) = Some (val_of VInt (m_seq x))
      ∧ dict_get "msg_hash" (encode_message_for_sync x) = Some (VStr (m_msg_hash x))) as H0 by done.
    unfold encode_message_for_wire. destruct mgr as [mg|]; [|exact H0].
    destruct (_ && _); simpl negb; cbn iota; [|exact H0]. destruct b; [by repeat apply Hset|].
    destruct (SealedChannelManager.decrypt _ _ _ _ mg); [destruct (utf8_decode _)|]; by apply Hset. }
  unfold populate_sender_pubkey.
  destruct (olist_true _); [apply Hset; [|done|done]|]; (destruct (0 <? _); [by repeat apply Hset|done]).
Qed.

Lemma zlen_encode `{Aead} ms mgr b db : zlen (encode_messages_with_keys ms mgr b db) = zlen ms.
Proof. unfold encode_messages_with_keys, zlen. by rewrite length_map. Qed.

(** the profile caps an answer only when the requested limit is not
    negative: then at most [max_sync_limit] rows come back; with a negative
    limit, which [min] keeps and SQL reads as no limit, a forward request gets
    every row of the channel that is not a thread reply. *)
Theorem history_limit {A : Aead} (ctx : SyncContext) (payload : dict string val)
    (cid req : option string) (s s' : Sync) (r : HistoryResponse) (l : Z) :
  handle_history ctx payload cid req s = (Ok r, s') →
  get_int "limit" (default_sync_limit (get_session_profile ctx req (sy_db s))) payload = Ok l →
  0 ≤ max_sync_limit (get_session_profile ctx req (sy_db s)) →
  (0 ≤ l → zlen (hr_messages r) ≤ max_sync_limit (get_session_profile ctx req (sy_db s)))
  ∧ (l < 0 → dict_get "direction" payload = Some (VStr "forward") →
     ∃ since, get_int "since_seq" 0 payload = Ok since
     ∧ zlen (hr_messages r) =
         zlen (List.filter (λ m, negb (m_type m =? MSG_THREAD_REPLY))
                 (after (hr_channel_id r) since (sy_db s)))).
Proof.
  intros (c & limit & raw & Hc & _ & Hr & Hm & _)%handle_history_ok Hl Hmax.
  apply check_channel_read_ok in Hc as (E & _). rewrite E in *. unfold history_rows in Hr.
  rewrite Hl in Hr. destruct (get_int "since_seq" 0 payload) as [since|]; [|done].
  injection Hr as <- <-. rewrite Hm, zlen_encode. split.
  - intros Hpos. etrans; [apply zlen_filter_le|]. etrans; [apply get_history_limit; lia|]. lia.
  - intros Hneg Hdir. exists since. split; [done|]. unfold get_str, dict_has. rewrite Hdir. simpl.
    rewrite andb_false_r. rewrite page_eq. unfold sql_limit.
    destruct (Z.ltb_spec (l `min` max_sync_limit (get_session_profile ctx req (sy_db s))) 0); [done|lia].
Qed.

Lemma sql_limit_nil {B} n : sql_limit n (@nil B) = [].
Proof. unfold sql_limit, ztake. destruct (n <? 0); [done|]. apply take_nil. Qed.

(** a client on a profile whose default direction is backward
    (PRIORITIZED) that gives neither a direction nor a starting number gets
    nothing: the backward query without [before_seq] asks for numbers below
    [since_seq], which defaults to 0. *)
Theorem backward_default_empty {A : Aead} (ctx : SyncContext) (payload : dict string val)
    (cid req : option string) (s s' : Sync) (r : HistoryResponse) :
  handle_history ctx payload cid req s = (Ok r, s') →
  history_direction (get_session_profile ctx req (sy_db s)) = Some "backward" →
  dict_get "direction" payload = None → dict_get "since_seq" payload = None →
  (∀ h m n, messages (sy_db s) !! h = Some m → m_seq m = Some n → 0 ≤ n) →
  hr_messages r = [].
Proof.
  intros (c & limit & raw & Hc & _ & Hr & Hm & _)%handle_history_ok Hb Hd Hsq Hpos.
  apply check_channel_read_ok in Hc as (E & _). rewrite E in *. unfold history_rows in Hr.
  unfold get_int at 1, dict_has in Hr. rewrite Hsq, Hd, Hb in Hr.
  destruct (get_int "limit" _ payload) as [l|]; [|done]. simpl in Hr. injection Hr as _ <-.
  assert (Hnil : zlen (hr_messages r) ≤ 0).
  { rewrite Hm, zlen_encode. etrans; [apply zlen_filter_le|]. unfold MessageRepo.get_history. simpl.
    unfold zlen. rewrite length_reverse. fold (zlen (A:=Message)).
    match goal with |- context [List.filter ?f ?L] => assert (Hf : List.filter f L = []) end.
    { apply elem_of_nil_inv. intros m [Hin Hlt]%elem_of_filter_bool.
      apply elem_of_filter_bool in Hin as [[h Hh]%elem_of_rows _].
      unfold MessageRepo.seq_lt in Hlt. destruct (m_seq m) as [n|] eqn:En; [|done].
      specialize (Hpos h m n Hh En). lia. }
    rewrite Hf. match goal with |- context [sort_by ?f []] => change (sort_by f []) with (@nil Message) end. by rewrite sql_limit_nil. }
  clear Hm. destruct (hr_messages r) as [|d ds]; [done|].
  rewrite zlen_cons in Hnil. pose proof (zlen_nonneg ds). lia.
Qed.

(** ** Sealed channels and readers *)

Lemma wire_body_plain {A : Aead} {HA : AeadLaws A} mgr c m p nonce :
  ch_sealed c = true → m_channel_id m = ch_id c → str_true p = true →
  utf8_valid (str_bytes p) = true → nonce ≠ [] →
  seal_for_origin nonce c (Some p) (Some mgr) = Ok (row_content m) →
  m_encrypted_body m ≠ Some [] →
  dict_get "body" (encode_message_for_wire m (Some mgr) false) = Some (VStr p).
Proof.
  intros Hs Hch Hp Hu Hn Hseal Hct.
  unfold seal_for_origin in Hseal. simpl in Hseal. rewrite Hs, Hp in Hseal. simpl in Hseal.
  destruct (olist_true _); simpl in Hseal; [|done].
  unfold SealedChannelManager.encrypt in Hseal.
  destruct (SealedChannelManager._keys mgr !! ch_id c) as [i|] eqn:Ei; [|done].
  injection Hseal as Hb He Hnn Hep. unfold encode_message_for_wire. rewrite <- He, <- Hnn, <- Hep in *.
  simpl. destruct (aead_encrypt _ _ _ _) as [|x ct] eqn:Ect; [done|]. destruct nonce as [|y nonce]; [done|].
  simpl. rewrite <- Ect, Hch. unfold SealedChannelManager.decrypt, SealedChannelManager.key_for.
  rewrite Ei, Z.eqb_refl, aead_roundtrip. unfold utf8_decode. by rewrite Hu, bytes_str_bytes.
Qed.

Lemma populate_body pk d : dict_get "body" (populate_sender_pubkey pk d) = dict_get "body" d.
Proof. unfold populate_sender_pubkey. destruct (olist_true pk); [by rewrite dict_get_set_ne|done]. Qed.

(** membership of a sealed channel does not gate reading it.  When a
    sealed channel is not also private, a history request with no identity at
    all is answered with the decrypted text of its rows. *)
Theorem sealed_history_open {A : Aead} {HA : AeadLaws A} (ctx : SyncContext) (c : Channel)
    (mgr : SealedChannelManager.t) (m : Message) (p : string) (nonce : bytes) (s : Sync) :
  cx_channels ctx !! ch_id c = Some c → ch_id c ≠ "" → ch_sealed c = true →
  ch_access_mode c ≠ ACCESS_PRIVATE → cx_sealed_manager ctx = Some mgr →
  m ∈ MessageRepo.get_history (ch_id c) 0 50 "forward" None (sy_db s) →
  m_channel_id m = ch_id c → m_type m ≠ MSG_THREAD_REPLY →
  seal_for_origin nonce c (Some p) (Some mgr) = Ok (row_content m) →
  str_true p = true → utf8_valid (str_bytes p) = true → nonce ≠ [] → m_encrypted_body m ≠ Some [] →
  ∃ r s' d, handle_history ctx [] (Some (ch_id c)) None s = (Ok r, s')
  ∧ d ∈ hr_messages r ∧ dict_get "body" d = Some (VStr p).
Proof.
  intros Hc Hne Hs Hpub Hmgr Hin Hch Hty Hseal Hp Hu Hn Hct.
  unfold handle_history. cbv zeta. simpl.
  apply str_true_iff in Hne. rewrite Hne. simpl.
  unfold check_channel_read. rewrite Hc. unfold bind at 1 2, when. simpl.
  rewrite bool_decide_eq_false_2 by done. simpl.
  assert (Hprof : get_session_profile ctx None (sy_db s) = FULL_LIMITS)
    by (unfold get_session_profile; by destruct (cx_cdsp_manager ctx)).
  unfold bind, gets. rewrite Hprof. unfold history_rows, of_res. simpl.
  do 3 eexists. split; [done|]. simpl. unfold encode_messages_with_keys. split.
  - apply list_elem_of_fmap. exists m. split; [done|]. apply elem_of_filter_bool. split; [done|].
    apply negb_true_iff, Z.eqb_neq. done.
  - cbv zeta. rewrite populate_body, Hmgr. destruct (0 <? _).
    + rewrite !dict_get_set_ne by done. by eapply wire_body_plain.
    + by eapply wire_body_plain.
Qed.

(** ** Search terms are literal *)

Import MessageRepo.

Definition special (c : Ascii.ascii) : bool :=
  bool_decide (c = backslash) || bool_decide (c = percent) || bool_decide (c = underscore).
Definition escape_char (c : Ascii.ascii) : list Ascii.ascii :=
  if special c then [backslash; c] else [c].

Lemma list_ascii_append a b :
  String.list_ascii_of_string (String.append a b)
  = String.list_ascii_of_string a ++ String.list_ascii_of_string b.
Proof. induction a as [|c a IH]; simpl; [done|]. by rewrite IH. Qed.

Lemma replace_char_list c r s :
  String.list_ascii_of_string (replace_char c r s)
  = flat_map (λ a, if decide (a = c) then String.list_ascii_of_string r else [a])
      (String.list_ascii_of_string s).
Proof.
  induction s as [|a s IH]; simpl; [done|]. destruct (decide (a = c)); simpl; rewrite <- IH; [|done].
  apply list_ascii_append.
Qed.

Lemma escape_like_list q :
  String.list_ascii_of_string (_escape_like q) = flat_map escape_char (String.list_ascii_of_string q).
Proof.
  unfold _escape_like. rewrite !replace_char_list.
  induction (String.list_ascii_of_string q) as [|a l IH]; [done|].
  cbn [flat_map]. rewrite !flat_map_app, IH. f_equal. clear. unfold escape_char, special.
  destruct (decide (a = backslash)) as [->|H1]; [done|].
  destruct (decide (a = percent)) as [->|H2]; [done|].
  destruct (decide (a = underscore)) as [->|H3]; [done|].
  rewrite !bool_decide_eq_false_2 by done. simpl.
  rewrite decide_False by done. simpl. by rewrite decide_False.
Qed.

Lemma lower_char_special c : special (lower_char c) = special c.
Proof. destruct c as [[] [] [] [] [] [] [] []]; reflexivity. Qed.

Lemma lower_escape (l : list Ascii.ascii) :
  map lower_char (flat_map escape_char l) = flat_map escape_char (map lower_char l).
Proof.
  induction l as [|a l IH]; simpl; [done|]. rewrite map_app, IH. f_equal.
  unfold escape_char. rewrite lower_char_special. destruct (special a); done.
Qed.

Lemma like_percent p s :
  like (percent :: p) s = like p s || match s with [] => false | _ :: s => like (percent :: p) s end.
Proof. destruct s; reflexivity. Qed.

Lemma like_percent_end s : like [percent] s = true.
Proof. induction s as [|c s IH]; [done|]. rewrite like_percent, IH. apply orb_true_r. Qed.

Lemma like_literal_step c p s :
  like (escape_char c ++ p) s
  = match s with [] => false | x :: s => bool_decide (c = x) && like p s end.
Proof.
  unfold escape_char. destruct (special c) eqn:E; [by destruct s|].
  unfold special in E. apply orb_false_iff in E as [[E1 E2]%orb_false_iff E3].
  apply bool_decide_eq_false in E1, E2, E3. cbn [app like].
  rewrite decide_False, decide_False, decide_False by done. by destruct s.
Qed.

Lemma like_prefix q s : like (flat_map escape_char q ++ [percent]) s = true ↔ ∃ r, s = q ++ r.
Proof.
  revert s. induction q as [|c q IH]; intros s; cbn [flat_map app].
  - rewrite like_percent_end. split; [by exists s|done].
  - rewrite <- app_assoc, like_literal_step. destruct s as [|x s].
    + split; [done|]. by intros [r ?].
    + rewrite andb_true_iff, bool_decide_eq_true, IH. split.
      * intros [-> [r ->]]. by exists r.
      * intros [r [= <- ->]]. eauto.
Qed.

Lemma like_substring q s :
  like (percent :: flat_map escape_char q ++ [percent]) s = true ↔ ∃ l r, s = l ++ q ++ r.
Proof.
  induction s as [|x s IH]; rewrite like_percent, orb_true_iff, like_prefix.
  - split; [|intros (l & r & E)].
    + intros [[r E]|?]; [by exists [], r|done].
    + left. destruct l; [by exists r|done].
  - rewrite IH. split.
    + intros [[r E]|(l & r & ->)]; [by exists [], r|by exists (x :: l), r].
    + intros ([|y l] & r & E); [left; by exists r|]. right. injection E as -> ->. by exists l, r.
Qed.

(** a search term is matched literally: the pattern the code builds from
    it matches a body exactly when the body contains the term, up to the case
    of ASCII letters; [%], [_] and backslashes in the term have no special
    meaning. *)
Theorem search_literal (q b : string) :
  ilike (String percent (String.append (_escape_like q) (String percent EmptyString))) (Some b) = true
  ↔ ∃ l r, lower b = l ++ lower q ++ r.
Proof.
  unfold ilike, lower.
  replace (String.list_ascii_of_string (String percent (String.append (_escape_like q) (String percent EmptyString))))
    with (percent :: flat_map escape_char (String.list_ascii_of_string q) ++ [percent]).
  - cbn [map]. rewrite map_app, lower_escape. apply like_substring.
  - simpl. f_equal. by rewrite list_ascii_append, escape_like_list.
Qed.

(** ** Instances *)

Definition demo_ctx (profile_on : bool) (mgr : option SealedChannelManager.t) (c : Channel)
    : SyncContext := {|
  cx_channels := {[ ch_id c := c ]}; cx_sequencer := SequenceManager.init;
  cx_permission_resolver := Some "owner"; cx_sealed_manager := mgr;
  cx_cdsp_manager := profile_on; cx_deferred_queue_limit := None; cx_fts_manager := None |}.

Definition demo_sync : Sync := {| sy_db := three_rows; sy_bans := ∅ |}.

(** What a request is answered with, when it is. *)
Definition answer (x : res HistoryResponse * Sync) : HistoryResponse :=
  match x.1 with
  | Ok r => r
  | Raise _ => {| hr_channel_id := ""; hr_messages := []; hr_latest_seq := 0; hr_has_more := false;
                  hr_sync_profile := 0 |}
  end.

Lemma history_access_witness :
  let x := @handle_history toy_aead (demo_ctx false None (demo_channel "c" ACCESS_PUBLIC false)) []
             (Some "c") (Some "bob") demo_sync in
  ∃ c, cx_channels (demo_ctx false None (demo_channel "c" ACCESS_PUBLIC false))
         !! hr_channel_id (answer x) = Some c.
Proof.
  cbv zeta.
  destruct (@history_access toy_aead (demo_ctx false None (demo_channel "c" ACCESS_PUBLIC false)) []
    (Some "c") (Some "bob") demo_sync demo_sync
    (answer (@handle_history toy_aead (demo_ctx false None (demo_channel "c" ACCESS_PUBLIC false)) []
             (Some "c") (Some "bob") demo_sync))) as (c & Hc & _); [vm_compute; reflexivity|].
  by exists c.
Defined.

(** A limit of -1 gets the three rows although the page size would be one. *)
Lemma history_limit_witness :
  let payload := [("limit", VInt (-1)); ("direction", VStr "forward")] in
  zlen (hr_messages (answer (@handle_history toy_aead
    (demo_ctx false None (demo_channel "c" ACCESS_PUBLIC false)) payload (Some "c") None demo_sync)))
  = zlen (List.filter (λ m, negb (m_type m =? MSG_THREAD_REPLY)) (after "c" 0 three_rows)).
Proof.
  cbv zeta.
  destruct (@history_limit toy_aead (demo_ctx false None (demo_channel "c" ACCESS_PUBLIC false))
    [("limit", VInt (-1)); ("direction", VStr "forward")] (Some "c") None demo_sync demo_sync
    (answer (@handle_history toy_aead (demo_ctx false None (demo_channel "c" ACCESS_PUBLIC false))
       [("limit", VInt (-1)); ("direction", VStr "forward")] (Some "c") None demo_sync)) (-1))
    as [_ H]; [vm_compute; reflexivity|reflexivity|vm_compute; congruence|].
  destruct H as (since & Hs & Hz); [lia|reflexivity|]. injection Hs as <-. exact Hz.
Defined.

Definition slow_session : Session := {|
  ses_session_id := "s"; ses_identity_hash := "bob"; ses_sync_profile := CDSP_PROFILE_PRIORITIZED;
  ses_cdsp_version := 1; ses_state := CDSP_STATE_ACTIVE; ses_resume_token := None;
  ses_deferred_count := 0; ses_created_at := fz 0; ses_last_activity := fz 0;
  ses_expires_at := None |}.
Definition slow_sync : Sync :=
  {| sy_db := set_sessions (<["s" := slow_session]>) three_rows; sy_bans := ∅ |}.

Lemma backward_default_empty_witness :
  hr_messages (answer (@handle_history toy_aead
    (demo_ctx true None (demo_channel "c" ACCESS_PUBLIC false)) [] (Some "c") (Some "bob") slow_sync))
  = [] ∧ zlen (after "c" 0 (sy_db slow_sync)) = 3.
Proof.
  split; [|vm_compute; reflexivity].
  apply (@backward_default_empty toy_aead (demo_ctx true None (demo_channel "c" ACCESS_PUBLIC false)) []
    (Some "c") (Some "bob") slow_sync slow_sync); try (vm_compute; reflexivity).
  intros h m n (k & -> & Hk)%three_rows_lookup [= <-].
  destruct Hk as [Hk|[Hk|Hk]]; injection Hk as _ ->; lia.
Defined.

Definition sealed_mgr : SealedChannelManager.t :=
  (SealedChannelManager.generate_key [7] "c" SealedChannelManager.init).2.
Definition sealed_chan : Channel := demo_channel "c" ACCESS_PUBLIC true.
Definition sealed_row : Message := {|
  m_msg_hash := "x"; m_channel_id := "c"; m_sender_hash := None; m_seq := Some 1;
  m_timestamp := fz 1; m_type := MSG_TEXT; m_body := None; m_media_path := None;
  m_media_meta := None; m_reply_to := None; m_thread_seq := None; m_ttl := None;
  m_received_at := fz 1; m_deleted := false; m_deleted_by := None; m_pinned := false;
  m_pinned_at := None; m_edit_chain := []; m_reactions := []; m_lxmf_signature := None;
  m_lxmf_signed_part := None; m_display_name := None; m_mentions := []; m_origin_node := None;
  m_encrypted_body := Some (@aead_encrypt toy_aead [7] [9] (str_bytes "secret") (str_bytes "c"));
  m_encryption_nonce := Some [9]; m_encryption_epoch := Some 1 |}.
Definition sealed_sync : Sync :=
  {| sy_db := set_messages (λ _, {[ "x" := sealed_row ]}) empty_db; sy_bans := ∅ |}.

Lemma sealed_history_open_witness :
  ∃ r s' d, @handle_history toy_aead (demo_ctx false (Some sealed_mgr) sealed_chan) [] (Some "c") None
              sealed_sync = (Ok r, s')
  ∧ d ∈ hr_messages r ∧ dict_get "body" d = Some (VStr "secret").
Proof.
  apply (@sealed_history_open toy_aead toy_aead_laws (demo_ctx false (Some sealed_mgr) sealed_chan)
    sealed_chan sealed_mgr sealed_row "secret" [9] sealed_sync); try reflexivity; try (vm_compute; congruence).
  vm_compute. repeat constructor.
Defined.
