(* ===== verification/Epoch.v ===== *)
(** * Forward-secrecy epochs ([hokora/federation/epoch_wire.py], [epoch_crypto.py],
    [epoch_manager.py])

    The binary frames, the key schedule and [EpochManager], the state machine
    of one federation link: a signed ephemeral key exchange gives both sides a
    pair of directional keys; a frame of data carries its epoch and a nonce
    made of a random prefix and a counter.

    The primitives are third-party code behind interfaces: X25519 and HKDF
    ([KeyExchange]), the RNS identity's signatures ([Signing]) and
    XChaCha20-Poly1305 ([Aead] of Sealed.v).  Random values are arguments. *)

From S2P Require Import Prelude Constants Models Queries Sealed.

Class KeyExchange := {
  x_public : bytes → bytes;                      (* public key of a private key *)
  x_exchange : bytes → bytes → option bytes;     (* private, remote public *)
  hkdf : bytes → bytes → bytes;                  (* secret, info; salt EPOCH_SALT *)
  hmac_chain : bytes → bytes;                    (* HMAC-SHA256(key, "epoch_chain") *)
}.

(** Diffie-Hellman: both sides compute one secret; keys and digests have
    32 bytes. *)
Class KeyExchangeLaws (K : KeyExchange) : Prop := {
  x_agree : ∀ a b, ∃ s, x_exchange a (x_public b) = Some s ∧ x_exchange b (x_public a) = Some s;
  x_public_len : ∀ a, zlen (x_public a) = 32;
  hkdf_len : ∀ s i, zlen (hkdf s i) = 32;
  hmac_chain_len : ∀ k, zlen (hmac_chain k) = 32;
}.

Class Signing := {
  id_public : bytes → bytes;                     (* public half of an identity *)
  id_sign : bytes → bytes → bytes;
  id_validate : bytes → bytes → bytes → bool;    (* public, signature, data *)
}.

Class SigningLaws (S : Signing) : Prop := {
  sign_validates : ∀ i d, id_validate (id_public i) (id_sign i d) d = true;
  sign_len : ∀ i d, zlen (id_sign i d) = 64;
}.

Definition epoch_error {A} (msg : string) : res A := Raise (Exn EpochError msg).

Notation "'let?' x ':=' r 'in' k" := (match r with Ok x => k | Raise e => Raise e end)
  (at level 10, x pattern, r at level 200, k at level 200) : hok_scope.

(** [struct.pack] of an unsigned integer of [n] bytes; out of range raises. *)
Definition pack_u (n : nat) (z : Z) : res bytes :=
  if (0 <=? z) && (z <? 256 ^ Z.of_nat n) then Ok (be_pack n z)
  else Raise (Exn ValueError "struct.error").

(** ** Frames *)

Definition EPOCH_ROTATE_LEN : Z := 1 + 8 + 4 + 32 + 32 + 64.
Definition EPOCH_ROTATE_ACK_LEN : Z := 1 + 8 + 32 + 32 + 64.
Definition EPOCH_DATA_HEADER_LEN : Z := 1 + 8 + 24.

(** [data[a : a + n]] *)
Definition slice (a n : nat) (data : bytes) : bytes := take n (drop a data).

Definition encode_epoch_rotate (epoch_id epoch_duration : Z)
    (eph_pubkey prev_epoch_hash signature : bytes) : res bytes :=
  let? e := pack_u 8 epoch_id in
  let? d := pack_u 4 epoch_duration in
  Ok ([EPOCH_ROTATE] ++ e ++ d ++ eph_pubkey ++ prev_epoch_hash ++ signature).

Record Rotate := {
  ro_epoch_id : Z; ro_epoch_duration : Z; ro_eph_pubkey : bytes; ro_prev_epoch_hash : bytes;
  ro_signature : bytes }.

Definition decode_epoch_rotate (data : bytes) : res Rotate :=
  if zlen data <? EPOCH_ROTATE_LEN then epoch_error "EpochRotate frame too short"
  else if negb (be_unpack (slice 0 1 data) =? EPOCH_ROTATE) then epoch_error "Expected EpochRotate"
  else Ok {| ro_epoch_id := be_unpack (slice 1 8 data);
             ro_epoch_duration := be_unpack (slice 9 4 data);
             ro_eph_pubkey := slice 13 32 data; ro_prev_epoch_hash := slice 45 32 data;
             ro_signature := slice 77 64 data |}.

Definition encode_epoch_rotate_ack (epoch_id : Z) (eph_pubkey prev_epoch_hash signature : bytes)
    : res bytes :=
  let? e := pack_u 8 epoch_id in
  Ok ([EPOCH_ROTATE_ACK] ++ e ++ eph_pubkey ++ prev_epoch_hash ++ signature).

Record RotateAck := {
  ra_epoch_id : Z; ra_eph_pubkey : bytes; ra_prev_epoch_hash : bytes; ra_signature : bytes }.

Definition decode_epoch_rotate_ack (data : bytes) : res RotateAck :=
  if zlen data <? EPOCH_ROTATE_ACK_LEN then epoch_error "EpochRotateAck frame too short"
  else if negb (be_unpack (slice 0 1 data) =? EPOCH_ROTATE_ACK)
  then epoch_error "Expected EpochRotateAck"
  else Ok {| ra_epoch_id := be_unpack (slice 1 8 data); ra_eph_pubkey := slice 9 32 data;
             ra_prev_epoch_hash := slice 41 32 data; ra_signature := slice 73 64 data |}.

Definition encode_epoch_data (epoch_id : Z) (nonce encrypted_payload : bytes) : res bytes :=
  let? e := pack_u 8 epoch_id in
  Ok ([EPOCH_DATA] ++ e ++ nonce ++ encrypted_payload).

Record EpochData := { ed_epoch_id : Z; ed_nonce : bytes; ed_ciphertext : bytes }.

Definition decode_epoch_data (data : bytes) : res EpochData :=
  if zlen data <? EPOCH_DATA_HEADER_LEN then epoch_error "EpochData frame too short"
  else if negb (be_unpack (slice 0 1 data) =? EPOCH_DATA) then epoch_error "Expected EpochData"
  else Ok {| ed_epoch_id := be_unpack (slice 1 8 data); ed_nonce := slice 9 24 data;
             ed_ciphertext := drop 33 data |}.

Definition is_epoch_frame (data : bytes) : bool :=
  match data with
  | [] => false
  | b :: _ => (b =? EPOCH_ROTATE) || (b =? EPOCH_ROTATE_ACK) || (b =? EPOCH_DATA)
  end.

(** ** Keys *)

Definition i2r_info (e : bytes) : bytes := str_bytes "epoch" ++ e ++ str_bytes "i2r".
Definition r2i_info (e : bytes) : bytes := str_bytes "epoch" ++ e ++ str_bytes "r2i".

Definition derive_epoch_keys `{KeyExchange} (local_private remote_public_bytes : bytes) (epoch_id : Z)
    : res (bytes * bytes) :=
  match x_exchange local_private remote_public_bytes with
  | None => Raise (Exn CryptoError "invalid public key")
  | Some shared_secret =>
      let? e := pack_u 8 epoch_id in
      Ok (hkdf shared_secret (i2r_info e), hkdf shared_secret (r2i_info e))
  end.

Definition compute_chain_hash `{KeyExchange} (epoch_key : bytes) : bytes := hmac_chain epoch_key.

Definition build_nonce (prefix : bytes) (counter : Z) : res bytes :=
  let? c := pack_u 8 counter in Ok (prefix ++ c).

Definition wrap_aad : bytes := str_bytes "epoch-key-wrap".
Definition derive_kek `{KeyExchange} (node_identity_key : bytes) : bytes :=
  hkdf node_identity_key (str_bytes "epoch-kek-v1").
Definition wrap_key `{Aead} (nonce kek plaintext_key : bytes) : bytes :=
  nonce ++ aead_encrypt kek nonce plaintext_key wrap_aad.
Definition unwrap_key `{Aead} (kek wrapped : bytes) : option bytes :=
  aead_decrypt kek (take 24 wrapped) (drop 24 wrapped) wrap_aad.

(** ** The manager *)

Record EpochManager := {
  peer_identity_hash_ : string;
  is_initiator : bool;
  epoch_duration : Z;
  _local_identity : option bytes;      (* the node's identity *)
  _peer_identity : option bytes;       (* the peer's public identity *)
  _current_epoch_id : Z;
  _send_key : option bytes;
  _recv_key : option bytes;
  _prev_recv_key : option bytes;
  _prev_epoch_id : Z;
  _nonce_prefix : bytes;
  _message_counter : Z;
  _last_chain_hash : bytes;
  _epoch_start_time : float;
  _pending_private_key : option bytes;
  _torn_down : bool;
}.

Definition new_manager (peer : string) (initiator : bool) (local peer_id : option bytes) (dur : Z)
    : EpochManager := {|
  peer_identity_hash_ := peer; is_initiator := initiator; epoch_duration := dur;
  _local_identity := local; _peer_identity := peer_id; _current_epoch_id := 0; _send_key := None;
  _recv_key := None; _prev_recv_key := None; _prev_epoch_id := 0; _nonce_prefix := [];
  _message_counter := 0; _last_chain_hash := replicate 32 0; _epoch_start_time := fz 0;
  _pending_private_key := None; _torn_down := false |}.

Definition set_pending (k : option bytes) (s : EpochManager) : EpochManager := {|
  peer_identity_hash_ := peer_identity_hash_ s; is_initiator := is_initiator s;
  epoch_duration := epoch_duration s; _local_identity := _local_identity s;
  _peer_identity := _peer_identity s; _current_epoch_id := _current_epoch_id s;
  _send_key := _send_key s; _recv_key := _recv_key s; _prev_recv_key := _prev_recv_key s;
  _prev_epoch_id := _prev_epoch_id s; _nonce_prefix := _nonce_prefix s;
  _message_counter := _message_counter s; _last_chain_hash := _last_chain_hash s;
  _epoch_start_time := _epoch_start_time s; _pending_private_key := k;
  _torn_down := _torn_down s |}.

Definition set_counter (n : Z) (s : EpochManager) : EpochManager := {|
  peer_identity_hash_ := peer_identity_hash_ s; is_initiator := is_initiator s;
  epoch_duration := epoch_duration s; _local_identity := _local_identity s;
  _peer_identity := _peer_identity s; _current_epoch_id := _current_epoch_id s;
  _send_key := _send_key s; _recv_key := _recv_key s; _prev_recv_key := _prev_recv_key s;
  _prev_epoch_id := _prev_epoch_id s; _nonce_prefix := _nonce_prefix s;
  _message_counter := n; _last_chain_hash := _last_chain_hash s;
  _epoch_start_time := _epoch_start_time s; _pending_private_key := _pending_private_key s;
  _torn_down := _torn_down s |}.

Definition set_prev_recv (k : option bytes) (s : EpochManager) : EpochManager := {|
  peer_identity_hash_ := peer_identity_hash_ s; is_initiator := is_initiator s;
  epoch_duration := epoch_duration s; _local_identity := _local_identity s;
  _peer_identity := _peer_identity s; _current_epoch_id := _current_epoch_id s;
  _send_key := _send_key s; _recv_key := _recv_key s; _prev_recv_key := k;
  _prev_epoch_id := _prev_epoch_id s; _nonce_prefix := _nonce_prefix s;
  _message_counter := _message_counter s; _last_chain_hash := _last_chain_hash s;
  _epoch_start_time := _epoch_start_time s; _pending_private_key := _pending_private_key s;
  _torn_down := _torn_down s |}.

Definition is_active (s : EpochManager) : bool :=
  bool_decide (is_Some (_send_key s)) && bool_decide (is_Some (_recv_key s)).

(** The content a rotation request (resp. its acknowledgement) signs. *)
Definition rotate_sign_data (epoch_id duration : Z) (pub chain : bytes) : res bytes :=
  let? e := pack_u 8 epoch_id in let? d := pack_u 4 duration in Ok (e ++ d ++ pub ++ chain).
Definition ack_sign_data (epoch_id : Z) (pub chain : bytes) : res bytes :=
  let? e := pack_u 8 epoch_id in Ok (e ++ pub ++ chain).

(** [self._local_identity.sign(...)] *)
Definition sign_local `{Signing} (s : EpochManager) (data : bytes) : res bytes :=
  match _local_identity s with
  | Some i => Ok (id_sign i data)
  | None => Raise (Exn TypeError "no local identity")
  end.

Section manager.
Context `{KX : KeyExchange} `{SG : Signing} `{AE : Aead}.

Definition create_epoch_rotate (private_key : bytes) : M EpochManager bytes :=
  let! s := get in
  let new_epoch_id := _current_epoch_id s + 1 in
  let public_bytes := x_public private_key in
  modify (set_pending (Some private_key)) ;;
  let! sign_data := of_res (rotate_sign_data new_epoch_id (epoch_duration s) public_bytes
                              (_last_chain_hash s)) in
  let! signature := of_res (sign_local s sign_data) in
  of_res (encode_epoch_rotate new_epoch_id (epoch_duration s) public_bytes (_last_chain_hash s)
            signature).

Definition _activate_epoch (now : float) (prefix : bytes) (epoch_id : Z)
    (send_key recv_key i2r_key_bytes : bytes) (s : EpochManager) : EpochManager := {|
  peer_identity_hash_ := peer_identity_hash_ s; is_initiator := is_initiator s;
  epoch_duration := epoch_duration s; _local_identity := _local_identity s;
  _peer_identity := _peer_identity s; _current_epoch_id := epoch_id;
  _send_key := Some send_key; _recv_key := Some recv_key; _prev_recv_key := _recv_key s;
  _prev_epoch_id := _current_epoch_id s; _nonce_prefix := prefix; _message_counter := 0;
  _last_chain_hash := compute_chain_hash (if list_true i2r_key_bytes then i2r_key_bytes else send_key);
  _epoch_start_time := now; _pending_private_key := _pending_private_key s;
  _torn_down := _torn_down s |}.

Definition handle_epoch_rotate (now : float) (private_key prefix data : bytes)
    : M EpochManager bytes :=
  let! parsed := of_res (decode_epoch_rotate data) in
  let! s := get in
  match _peer_identity s with
  | None => raise EpochError "Cannot verify EpochRotate: no peer identity available"
  | Some peer =>
      let! sign_data := of_res (rotate_sign_data (ro_epoch_id parsed) (ro_epoch_duration parsed)
                                  (ro_eph_pubkey parsed) (ro_prev_epoch_hash parsed)) in
      if negb (id_validate peer (ro_signature parsed) sign_data)
      then raise EpochError "EpochRotate signature verification failed"
      else if ro_epoch_id parsed <=? _current_epoch_id s
      then raise EpochError "Epoch ID regression"
      else if negb (bool_decide (ro_prev_epoch_hash parsed = _last_chain_hash s))
      then raise EpochError "Chain hash mismatch in EpochRotate"
      else
        let public_bytes := x_public private_key in
        let! (i2r_key, r2i_key) :=
          of_res (derive_epoch_keys private_key (ro_eph_pubkey parsed) (ro_epoch_id parsed)) in
        modify (_activate_epoch now prefix (ro_epoch_id parsed) r2i_key i2r_key i2r_key) ;;
        let! s := get in
        let! sign_data := of_res (ack_sign_data (ro_epoch_id parsed) public_bytes
                                    (_last_chain_hash s)) in
        let! signature := of_res (sign_local s sign_data) in
        of_res (encode_epoch_rotate_ack (ro_epoch_id parsed) public_bytes (_last_chain_hash s)
                  signature)
  end.

Definition handle_epoch_rotate_ack (now : float) (prefix data : bytes) : M EpochManager unit :=
  let! parsed := of_res (decode_epoch_rotate_ack data) in
  let! s := get in
  match _peer_identity s with
  | None => raise EpochError "Cannot verify EpochRotateAck: no peer identity available"
  | Some peer =>
      let! sign_data := of_res (ack_sign_data (ra_epoch_id parsed) (ra_eph_pubkey parsed)
                                  (ra_prev_epoch_hash parsed)) in
      if negb (id_validate peer (ra_signature parsed) sign_data)
      then raise EpochError "EpochRotateAck signature verification failed"
      else
        match _pending_private_key s with
        | None => raise EpochError "No pending key exchange for EpochRotateAck"
        | Some pending =>
            let! (i2r_key, r2i_key) :=
              of_res (derive_epoch_keys pending (ra_eph_pubkey parsed) (ra_epoch_id parsed)) in
            modify (_activate_epoch now prefix (ra_epoch_id parsed) i2r_key r2i_key i2r_key) ;;
            modify (set_pending None)
        end
  end.

Definition encrypt (plaintext : bytes) : M EpochManager bytes :=
  let! s := get in
  if negb (is_active s) then raise EpochError "Cannot encrypt: no active epoch"
  else if EPOCH_NONCE_OVERFLOW <=? _message_counter s
  then raise EpochError "Nonce counter overflow"
  else
    let! nonce := of_res (build_nonce (_nonce_prefix s) (_message_counter s)) in
    modify (set_counter (_message_counter s + 1)) ;;
    let! aad := of_res (pack_u 8 (_current_epoch_id s)) in
    of_res (encode_epoch_data (_current_epoch_id s) nonce
              (aead_encrypt (default [] (_send_key s)) nonce plaintext aad)).

Definition open_with (key nonce ciphertext aad : bytes) : M EpochManager bytes :=
  match aead_decrypt key nonce ciphertext aad with
  | Some p => ret p
  | None => raise CryptoError "Decryption failed"
  end.

Definition decrypt (data : bytes) : M EpochManager bytes :=
  let! parsed := of_res (decode_epoch_data data) in
  let! aad := of_res (pack_u 8 (ed_epoch_id parsed)) in
  let! s := get in
  if (ed_epoch_id parsed =? _current_epoch_id s) && olist_true (_recv_key s) then
    let! result := open_with (default [] (_recv_key s)) (ed_nonce parsed) (ed_ciphertext parsed) aad in
    modify (set_prev_recv None) ;;
    ret result
  else if (ed_epoch_id parsed =? _prev_epoch_id s) && olist_true (_prev_recv_key s) then
    open_with (default [] (_prev_recv_key s)) (ed_nonce parsed) (ed_ciphertext parsed) aad
  else raise EpochError "No key for epoch".

(** ** Persistence *)

(** [get_public_key()] of the node's identity feeds the key-encryption key. *)
Definition _get_kek (s : EpochManager) : option bytes :=
  (λ i, derive_kek (id_public i)) <$> _local_identity s.

Definition wrap_opt (nonce : bytes) (kek : option bytes) (key : option bytes) : option bytes :=
  match key with
  | Some k => if list_true k
              then Some match kek with Some kk => wrap_key nonce kk k | None => k end else None
  | None => None
  end.

Definition save_fields (n1 n2 : bytes) (s : EpochManager) (row : FederationEpochState)
    : FederationEpochState := {|
  fes_peer_identity_hash := fes_peer_identity_hash row;
  fes_current_epoch_id := _current_epoch_id s; fes_epoch_duration := epoch_duration s;
  fes_is_initiator := is_initiator s; fes_epoch_start_time := Some (_epoch_start_time s);
  fes_current_key_send := wrap_opt n1 (_get_kek s) (_send_key s);
  fes_current_key_recv := wrap_opt n2 (_get_kek s) (_recv_key s);
  fes_nonce_prefix := if list_true (_nonce_prefix s) then Some (_nonce_prefix s) else None;
  fes_message_counter := _message_counter s; fes_last_chain_hash := Some (_last_chain_hash s);
  fes_updated_at := fes_updated_at row |}.

Definition persist_state (now : float) (n1 n2 : bytes) (s : EpochManager) : M DB unit :=
  EpochStateRepo.upsert now (peer_identity_hash_ s) (save_fields n1 n2 s).

Definition unwrap_opt (kek : option bytes) (stored current : option bytes) : option bytes :=
  match stored with
  | Some w => if list_true w
              then match kek with Some kk => unwrap_key kk w | None => Some w end
              else current
  | None => current
  end.

Definition load_state (db : DB) (s : EpochManager) : EpochManager :=
  match EpochStateRepo.get (peer_identity_hash_ s) db with
  | None => s
  | Some row => {|
      peer_identity_hash_ := peer_identity_hash_ s; is_initiator := fes_is_initiator row;
      epoch_duration := fes_epoch_duration row; _local_identity := _local_identity s;
      _peer_identity := _peer_identity s; _current_epoch_id := fes_current_epoch_id row;
      _send_key := unwrap_opt (_get_kek s) (fes_current_key_send row) (_send_key s);
      _recv_key := unwrap_opt (_get_kek s) (fes_current_key_recv row) (_recv_key s);
      _prev_recv_key := _prev_recv_key s; _prev_epoch_id := _prev_epoch_id s;
      _nonce_prefix := default [] (fes_nonce_prefix row);
      _message_counter := fes_message_counter row;
      _last_chain_hash := if olist_true (fes_last_chain_hash row)
                          then default [] (fes_last_chain_hash row) else replicate 32 0;
      _epoch_start_time := default (fz 0) (fes_epoch_start_time row);
      _pending_private_key := _pending_private_key s; _torn_down := _torn_down s |}
  end.

Definition teardown (s : EpochManager) : EpochManager := {|
  peer_identity_hash_ := peer_identity_hash_ s; is_initiator := is_initiator s;
  epoch_duration := epoch_duration s; _local_identity := _local_identity s;
  _peer_identity := _peer_identity s; _current_epoch_id := _current_epoch_id s;
  _send_key := None; _recv_key := None; _prev_recv_key := None;
  _prev_epoch_id := _prev_epoch_id s; _nonce_prefix := _nonce_prefix s;
  _message_counter := _message_counter s; _last_chain_hash := _last_chain_hash s;
  _epoch_start_time := _epoch_start_time s; _pending_private_key := None;
  _torn_down := true |}.
End manager.

(** ** Frames round-trip *)

Lemma slice_at pre mid post a n data :
  data = pre ++ mid ++ post → length pre = a → length mid = n → slice a n data = mid.
Proof. intros -> <- <-. unfold slice. rewrite drop_app_length. apply take_app_length. Qed.

Lemma drop_at pre post a (data : bytes) : data = pre ++ post → length pre = a → drop a data = post.
Proof. intros -> <-. apply drop_app_length. Qed.

Lemma zlen_length {A} (l : list A) n : zlen l = Z.of_nat n → length l = n.
Proof. unfold zlen. lia. Qed.

Lemma pack_u_ok n z b : pack_u n z = Ok b → b = be_pack n z ∧ 0 ≤ z < 256 ^ Z.of_nat n.
Proof.
  unfold pack_u. destruct ((0 <=? z) && (z <? 256 ^ Z.of_nat n)) eqn:E; [|done].
  intros H. assert (b = be_pack n z) as -> by congruence. split; [done|].
  apply andb_true_iff in E as [E1 E2]. lia.
Qed.

Lemma pack_u_range n z : 0 ≤ z < 256 ^ Z.of_nat n → pack_u n z = Ok (be_pack n z).
Proof.
  intros H. unfold pack_u. destruct (Z.leb_spec 0 z), (Z.ltb_spec z (256 ^ Z.of_nat n)); try lia. done.
Qed.

Ltac slices :=
  repeat match goal with
  | |- context [length (be_pack _ _)] => rewrite length_be_pack
  | |- context [length (_ ++ _)] => rewrite length_app
  end; simpl length.

Lemma decode_rotate_encode id dur pk ph sg d :
  encode_epoch_rotate id dur pk ph sg = Ok d → zlen pk = 32 → zlen ph = 32 → zlen sg = 64 →
  decode_epoch_rotate d = Ok {| ro_epoch_id := id; ro_epoch_duration := dur; ro_eph_pubkey := pk;
                                ro_prev_epoch_hash := ph; ro_signature := sg |}.
Proof.
  unfold encode_epoch_rotate. destruct (pack_u 8 id) as [e|] eqn:E1; [|done].
  destruct (pack_u 4 dur) as [du|] eqn:E2; [|done]. intros Hd Hpk Hph Hsg.
  assert (d = [EPOCH_ROTATE] ++ e ++ du ++ pk ++ ph ++ sg) as -> by congruence. clear Hd.
  apply pack_u_ok in E1 as [-> H1], E2 as [-> H2].
  apply (zlen_length _ 32) in Hpk, Hph. apply (zlen_length _ 64) in Hsg.
  unfold decode_epoch_rotate, EPOCH_ROTATE_LEN.
  match goal with |- context [zlen ?D <? _] => set (D0 := D) end.
  assert (Hlen : zlen D0 = 141) by (unfold D0, zlen; slices; rewrite Hpk, Hph, Hsg; reflexivity).
  rewrite Hlen. destruct (Z.ltb_spec 141 (1 + 8 + 4 + 32 + 32 + 64)); [lia|].
  rewrite (slice_at [] [EPOCH_ROTATE] (be_pack 8 id ++ be_pack 4 dur ++ pk ++ ph ++ sg) 0 1 D0) by done.
  rewrite (slice_at [EPOCH_ROTATE] (be_pack 8 id) (be_pack 4 dur ++ pk ++ ph ++ sg) 1 8 D0) by done.
  rewrite (slice_at ([EPOCH_ROTATE] ++ be_pack 8 id) (be_pack 4 dur) (pk ++ ph ++ sg) 9 4 D0) by done.
  rewrite (slice_at ([EPOCH_ROTATE] ++ be_pack 8 id ++ be_pack 4 dur) pk (ph ++ sg) 13 32 D0)
    by (done || (unfold D0; by rewrite <- ?app_assoc)).
  rewrite (slice_at ([EPOCH_ROTATE] ++ be_pack 8 id ++ be_pack 4 dur ++ pk) ph sg 45 32 D0)
    by (first [done | unfold D0; by rewrite <- ?app_assoc | slices; by rewrite Hpk]).
  rewrite (slice_at ([EPOCH_ROTATE] ++ be_pack 8 id ++ be_pack 4 dur ++ pk ++ ph) sg [] 77 64 D0)
    by (first [done | unfold D0; by rewrite <- ?app_assoc, app_nil_r | slices; by rewrite Hpk, Hph]).
  rewrite !be_unpack_pack_id by done. done.
Qed.

Lemma decode_ack_encode id pk ph sg d :
  encode_epoch_rotate_ack id pk ph sg = Ok d → zlen pk = 32 → zlen ph = 32 → zlen sg = 64 →
  decode_epoch_rotate_ack d = Ok {| ra_epoch_id := id; ra_eph_pubkey := pk;
                                    ra_prev_epoch_hash := ph; ra_signature := sg |}.
Proof.
  unfold encode_epoch_rotate_ack. destruct (pack_u 8 id) as [e|] eqn:E1; [|done].
  intros Hd Hpk Hph Hsg.
  assert (d = [EPOCH_ROTATE_ACK] ++ e ++ pk ++ ph ++ sg) as -> by congruence. clear Hd.
  apply pack_u_ok in E1 as [-> H1].
  apply (zlen_length _ 32) in Hpk, Hph. apply (zlen_length _ 64) in Hsg.
  unfold decode_epoch_rotate_ack, EPOCH_ROTATE_ACK_LEN.
  match goal with |- context [zlen ?D <? _] => set (D0 := D) end.
  assert (Hlen : zlen D0 = 137) by (unfold D0, zlen; slices; rewrite Hpk, Hph, Hsg; reflexivity).
  rewrite Hlen. destruct (Z.ltb_spec 137 (1 + 8 + 32 + 32 + 64)); [lia|].
  rewrite (slice_at [] [EPOCH_ROTATE_ACK] (be_pack 8 id ++ pk ++ ph ++ sg) 0 1 D0) by done.
  rewrite (slice_at [EPOCH_ROTATE_ACK] (be_pack 8 id) (pk ++ ph ++ sg) 1 8 D0) by done.
  rewrite (slice_at ([EPOCH_ROTATE_ACK] ++ be_pack 8 id) pk (ph ++ sg) 9 32 D0) by done.
  rewrite (slice_at ([EPOCH_ROTATE_ACK] ++ be_pack 8 id ++ pk) ph sg 41 32 D0)
    by (first [done | unfold D0; by rewrite <- ?app_assoc | slices; by rewrite Hpk]).
  rewrite (slice_at ([EPOCH_ROTATE_ACK] ++ be_pack 8 id ++ pk ++ ph) sg [] 73 64 D0)
    by (first [done | unfold D0; by rewrite <- ?app_assoc, app_nil_r | slices; by rewrite Hpk, Hph]).
  rewrite !be_unpack_pack_id by done. done.
Qed.

Lemma decode_data_encode id n c d :
  encode_epoch_data id n c = Ok d → zlen n = 24 →
  decode_epoch_data d = Ok {| ed_epoch_id := id; ed_nonce := n; ed_ciphertext := c |}.
Proof.
  unfold encode_epoch_data. destruct (pack_u 8 id) as [e|] eqn:E1; [|done]. intros Hd Hn.
  assert (d = [EPOCH_DATA] ++ e ++ n ++ c) as -> by congruence. clear Hd.
  apply pack_u_ok in E1 as [-> H1]. apply (zlen_length _ 24) in Hn.
  unfold decode_epoch_data, EPOCH_DATA_HEADER_LEN.
  match goal with |- context [zlen ?D <? _] => set (D0 := D) end.
  assert (Hlen : zlen D0 = 33 + zlen c) by (unfold D0, zlen; slices; rewrite Hn; lia).
  rewrite Hlen. pose proof (zlen_nonneg c). destruct (Z.ltb_spec (33 + zlen c) (1 + 8 + 24)); [lia|].
  rewrite (slice_at [] [EPOCH_DATA] (be_pack 8 id ++ n ++ c) 0 1 D0) by done.
  rewrite (slice_at [EPOCH_DATA] (be_pack 8 id) (n ++ c) 1 8 D0) by done.
  rewrite (slice_at ([EPOCH_DATA] ++ be_pack 8 id) n c 9 24 D0) by done.
  rewrite (drop_at ([EPOCH_DATA] ++ be_pack 8 id ++ n) c 33 D0)
    by (first [unfold D0; by rewrite <- ?app_assoc | slices; by rewrite Hn]).
  rewrite !be_unpack_pack_id by done. done.
Qed.

(** every epoch frame decodes to the fields it was encoded from, for all
    field values of the sizes the protocol uses and all integers the format
    can carry. *)
Theorem epoch_frames_roundtrip (id dur : Z) (pk ph sg nonce ct d1 d2 d3 : bytes) :
  zlen pk = 32 → zlen ph = 32 → zlen sg = 64 → zlen nonce = 24 →
  encode_epoch_rotate id dur pk ph sg = Ok d1 →
  encode_epoch_rotate_ack id pk ph sg = Ok d2 →
  encode_epoch_data id nonce ct = Ok d3 →
  decode_epoch_rotate d1 = Ok {| ro_epoch_id := id; ro_epoch_duration := dur; ro_eph_pubkey := pk;
                                 ro_prev_epoch_hash := ph; ro_signature := sg |}
  ∧ decode_epoch_rotate_ack d2 = Ok {| ra_epoch_id := id; ra_eph_pubkey := pk;
                                       ra_prev_epoch_hash := ph; ra_signature := sg |}
  ∧ decode_epoch_data d3 = Ok {| ed_epoch_id := id; ed_nonce := nonce; ed_ciphertext := ct |}.
Proof.
  intros. split_and!.
  - by apply decode_rotate_encode.
  - by apply decode_ack_encode.
  - by apply decode_data_encode.
Qed.

Lemma epoch_frames_roundtrip_witness :
  let d1 := [EPOCH_ROTATE] ++ be_pack 8 7 ++ be_pack 4 3600 ++ replicate 32 1 ++ replicate 32 2
            ++ replicate 64 3 in
  decode_epoch_rotate d1 = Ok {| ro_epoch_id := 7; ro_epoch_duration := 3600;
    ro_eph_pubkey := replicate 32 1; ro_prev_epoch_hash := replicate 32 2;
    ro_signature := replicate 64 3 |}.
Proof.
  cbv zeta.
  apply (epoch_frames_roundtrip 7 3600 (replicate 32 1) (replicate 32 2) (replicate 64 3)
    (replicate 24 4) [5] _ ([EPOCH_ROTATE_ACK] ++ be_pack 8 7 ++ replicate 32 1 ++ replicate 32 2
      ++ replicate 64 3) ([EPOCH_DATA] ++ be_pack 8 7 ++ replicate 24 4 ++ [5])); reflexivity.
Defined.

(** ** The handshake *)

Section handshake.
Context {KX : KeyExchange} {SG : Signing} {AE : Aead}.
Context {HK : KeyExchangeLaws KX} {HS : SigningLaws SG} {HA : AeadLaws AE}.

(** Two managers of one link that can rotate: each knows the other's public
    identity, they agree on the chain hash, and the responder is not ahead. *)
Record in_sync (i r : EpochManager) : Prop := {
  sy_identities : ∃ a b, _local_identity i = Some a ∧ _peer_identity r = Some (id_public a)
                    ∧ _local_identity r = Some b ∧ _peer_identity i = Some (id_public b);
  sy_chain : _last_chain_hash r = _last_chain_hash i;
  sy_chain_len : zlen (_last_chain_hash i) = 32;
  sy_epoch : _current_epoch_id r ≤ _current_epoch_id i;
  sy_range : 0 ≤ _current_epoch_id i + 1 < 2 ^ 64;
  sy_duration : 0 ≤ epoch_duration i < 2 ^ 32;
}.

(** Keys agreed: what one sends with, the other receives with. *)
Record paired (i r : EpochManager) : Prop := {
  pa_i2r : ∃ k, _send_key i = Some k ∧ _recv_key r = Some k ∧ zlen k = 32;
  pa_r2i : ∃ k, _recv_key i = Some k ∧ _send_key r = Some k ∧ zlen k = 32;
  pa_epoch : _current_epoch_id r = _current_epoch_id i;
  pa_chain : _last_chain_hash r = _last_chain_hash i;
}.

Definition with_pending (a : bytes) (i : EpochManager) : EpochManager := set_pending (Some a) i.

Definition rotate_frame (a : bytes) (ident : bytes) (i : EpochManager) : bytes :=
  let e := be_pack 8 (_current_epoch_id i + 1) in
  let du := be_pack 4 (epoch_duration i) in
  [EPOCH_ROTATE] ++ e ++ du ++ x_public a ++ _last_chain_hash i
  ++ id_sign ident (e ++ du ++ x_public a ++ _last_chain_hash i).

Lemma create_rotate_run a ident i :
  _local_identity i = Some ident → 0 ≤ _current_epoch_id i + 1 < 2 ^ 64 →
  0 ≤ epoch_duration i < 2 ^ 32 →
  create_epoch_rotate a i = (Ok (rotate_frame a ident i), with_pending a i)
  ∧ encode_epoch_rotate (_current_epoch_id i + 1) (epoch_duration i) (x_public a) (_last_chain_hash i)
      (id_sign ident (be_pack 8 (_current_epoch_id i + 1) ++ be_pack 4 (epoch_duration i)
                      ++ x_public a ++ _last_chain_hash i)) = Ok (rotate_frame a ident i).
Proof using Type.
  intros Hi He Hd. unfold create_epoch_rotate, bind, get, modify, of_res, rotate_sign_data,
    encode_epoch_rotate, sign_local.
  rewrite (pack_u_range 8) by done. rewrite (pack_u_range 4) by done. by rewrite Hi.
Qed.

Lemma decode_rotate_frame a ident i :
  zlen (_last_chain_hash i) = 32 → _local_identity i = Some ident →
  0 ≤ _current_epoch_id i + 1 < 2 ^ 64 → 0 ≤ epoch_duration i < 2 ^ 32 →
  decode_epoch_rotate (rotate_frame a ident i) = Ok {|
    ro_epoch_id := _current_epoch_id i + 1; ro_epoch_duration := epoch_duration i;
    ro_eph_pubkey := x_public a; ro_prev_epoch_hash := _last_chain_hash i;
    ro_signature := id_sign ident (be_pack 8 (_current_epoch_id i + 1) ++ be_pack 4 (epoch_duration i)
                                   ++ x_public a ++ _last_chain_hash i) |}.
Proof using HK HS.
  intros Hc Hi He Hd. destruct (create_rotate_run a ident i Hi He Hd) as [_ E].
  apply (decode_rotate_encode _ _ _ _ _ _ E); [apply x_public_len|done|apply sign_len].
Qed.

(** The responder's side of a good request. *)
Lemma handle_rotate_run now a b prefix ida idb i r sec :
  in_sync i r → _local_identity i = Some ida → _peer_identity r = Some (id_public ida) →
  _local_identity r = Some idb → x_exchange b (x_public a) = Some sec →
  let e := be_pack 8 (_current_epoch_id i + 1) in
  let i2r := hkdf sec (i2r_info e) in
  let r2i := hkdf sec (r2i_info e) in
  let r1 := _activate_epoch now prefix (_current_epoch_id i + 1) r2i i2r i2r r in
  let sg := id_sign idb (e ++ x_public b ++ _last_chain_hash r1) in
  ∃ ack, handle_epoch_rotate now b prefix (rotate_frame a ida i) r = (Ok ack, r1)
  ∧ encode_epoch_rotate_ack (_current_epoch_id i + 1) (x_public b) (_last_chain_hash r1) sg = Ok ack.
Proof using HK HS.
  intros [_ Hch Hlen Hep Hrg Hdu] Hla Hpr Hlb Hsec e i2r r2i r1 sg.
  eexists. unfold handle_epoch_rotate. unfold bind at 1, of_res at 1.
  rewrite (decode_rotate_frame a ida i Hlen Hla Hrg Hdu).
  cbn [ro_epoch_id ro_epoch_duration ro_eph_pubkey ro_prev_epoch_hash ro_signature].
  unfold bind at 1, get at 1. rewrite Hpr. unfold bind at 1, of_res at 1. unfold rotate_sign_data.
  rewrite (pack_u_range 8), (pack_u_range 4) by done.
  rewrite sign_validates. cbn [negb].
  destruct (Z.leb_spec (_current_epoch_id i + 1) (_current_epoch_id r)); [lia|].
  rewrite bool_decide_eq_true_2 by done. cbn [negb].
  unfold derive_epoch_keys. rewrite Hsec, (pack_u_range 8) by done.
  unfold bind, of_res, modify, get, ack_sign_data, sign_local.
  rewrite (pack_u_range 8) by done. cbn [_activate_epoch _local_identity]. rewrite Hlb.
  unfold encode_epoch_rotate_ack. rewrite (pack_u_range 8) by done. done.
Qed.

Lemma zlen32_true (k : bytes) : zlen k = 32 → list_true k = true.
Proof using Type. by destruct k. Qed.

Lemma handshake_run a b (pi pr : bytes) now now' i r :
  in_sync i r →
  ∃ f i1 ack r1 i2, create_epoch_rotate a i = (Ok f, i1)
  ∧ handle_epoch_rotate now b pr f r = (Ok ack, r1)
  ∧ handle_epoch_rotate_ack now' pi ack i1 = (Ok tt, i2)
  ∧ paired i2 r1 ∧ _current_epoch_id i2 = _current_epoch_id i + 1
  ∧ _message_counter i2 = 0 ∧ _message_counter r1 = 0
  ∧ _nonce_prefix i2 = pi ∧ _nonce_prefix r1 = pr.
Proof using HK HS.
  intros Hs. destruct Hs as [(ida & idb & Hla & Hpr & Hlb & Hpi) Hch Hlen Hep Hrg Hdu] eqn:Es.
  destruct (x_agree b a) as (sec & Hb & Ha).
  destruct (create_rotate_run a ida i Hla Hrg Hdu) as [Hc _].
  destruct (handle_rotate_run now a b pr ida idb i r sec Hs Hla Hpr Hlb Hb) as (ack & Hr & Hack).
  set (e := be_pack 8 (_current_epoch_id i + 1)) in *.
  set (i2r := hkdf sec (i2r_info e)) in *. set (r2i := hkdf sec (r2i_info e)) in *.
  set (r1 := _activate_epoch now pr (_current_epoch_id i + 1) r2i i2r i2r r) in *.
  assert (H2 : zlen i2r = 32) by apply hkdf_len. assert (H3 : zlen r2i = 32) by apply hkdf_len.
  exists (rotate_frame a ida i), (with_pending a i), ack, r1,
    (set_pending None (_activate_epoch now' pi (_current_epoch_id i + 1) i2r r2i i2r (with_pending a i))).
  split_and!; try done.
  - unfold handle_epoch_rotate_ack. unfold bind at 1, of_res at 1.
    rewrite (decode_ack_encode _ _ _ _ _ Hack); [|apply x_public_len|apply hmac_chain_len|apply sign_len].
    cbn [ra_epoch_id ra_eph_pubkey ra_prev_epoch_hash ra_signature].
    unfold bind at 1, get at 1. cbn [with_pending set_pending _peer_identity]. rewrite Hpi.
    unfold bind at 1, of_res at 1, ack_sign_data. rewrite (pack_u_range 8) by done.
    fold e. rewrite sign_validates. cbn [negb with_pending set_pending _pending_private_key].
    unfold derive_epoch_keys. rewrite Ha, (pack_u_range 8) by done. done.
  - split; simpl; eauto. by rewrite !zlen32_true.
Qed.

(** Data between paired managers. *)
Lemma talk_run s t k plain :
  _send_key s = Some k → is_active s = true → _recv_key t = Some k → zlen k = 32 →
  _current_epoch_id t = _current_epoch_id s → 0 ≤ _current_epoch_id s < 2 ^ 64 →
  0 ≤ _message_counter s < EPOCH_NONCE_OVERFLOW → zlen (_nonce_prefix s) = 16 →
  ∃ d, encrypt plain s = (Ok d, set_counter (_message_counter s + 1) s)
  ∧ (decrypt d t).1 = Ok plain
  ∧ decode_epoch_data d = Ok {|
      ed_epoch_id := _current_epoch_id s;
      ed_nonce := _nonce_prefix s ++ be_pack 8 (_message_counter s);
      ed_ciphertext := aead_encrypt k (_nonce_prefix s ++ be_pack 8 (_message_counter s)) plain
                         (be_pack 8 (_current_epoch_id s)) |}.
Proof using HA.
  intros Hk Hact Hr Hkl He Hrg Hcnt Hpre. unfold encrypt, bind, get, of_res, modify. rewrite Hact. simpl.
  destruct (Z.leb_spec EPOCH_NONCE_OVERFLOW (_message_counter s)); [lia|].
  unfold build_nonce. unfold EPOCH_NONCE_OVERFLOW in *.
  rewrite (pack_u_range 8) by lia. rewrite (pack_u_range 8 (_current_epoch_id s)) by done.
  unfold encode_epoch_data. rewrite (pack_u_range 8 (_current_epoch_id s)) by done. rewrite Hk. simpl default.
  eexists. split; [done|].
  assert (Hn : zlen (_nonce_prefix s ++ be_pack 8 (_message_counter s)) = 24)
    by (rewrite zlen_app, zlen_be_pack, Hpre; done).
  assert (Hdec := λ c d H, decode_data_encode (_current_epoch_id s) _ c d H Hn).
  unfold encode_epoch_data in Hdec. rewrite (pack_u_range 8 (_current_epoch_id s)) in Hdec by done.
  split; [|by rewrite (Hdec _ _ eq_refl)].
  unfold decrypt, bind, of_res, get. rewrite (Hdec _ _ eq_refl). cbn [ed_epoch_id ed_nonce ed_ciphertext].
  rewrite (pack_u_range 8) by done. rewrite He, Z.eqb_refl, Hr.
  change (olist_true (Some k)) with (list_true k). rewrite zlen32_true by done. cbn [andb default]. unfold open_with. rewrite aead_roundtrip. done.
Qed.
End handshake.

(** forward-secrecy handshake.  From managers in sync, a rotation request,
    its acknowledgement and their processing all succeed, whatever the
    ephemeral keys; both sides then hold the same epoch, the same chain hash
    and matching directional keys, so data either side encrypts decrypts on
    the other. *)
Theorem handshake_then_talk {KX : KeyExchange} {SG : Signing} {AE : Aead}
    {HK : KeyExchangeLaws KX} {HS : SigningLaws SG} {HA : AeadLaws AE}
    (i r : EpochManager) (a b pi pr : bytes) (now now' : float) (plain : bytes) :
  in_sync i r → zlen pi = 16 → zlen pr = 16 →
  ∃ f i1 ack r1 i2, create_epoch_rotate a i = (Ok f, i1)
  ∧ handle_epoch_rotate now b pr f r = (Ok ack, r1)
  ∧ handle_epoch_rotate_ack now' pi ack i1 = (Ok tt, i2)
  ∧ _current_epoch_id i2 = _current_epoch_id i + 1 ∧ _current_epoch_id r1 = _current_epoch_id i2
  ∧ _last_chain_hash r1 = _last_chain_hash i2
  ∧ (∃ d i3, encrypt plain i2 = (Ok d, i3) ∧ (decrypt d r1).1 = Ok plain)
  ∧ (∃ d r3, encrypt plain r1 = (Ok d, r3) ∧ (decrypt d i2).1 = Ok plain).
Proof.
  intros Hs Hpi Hpr. pose proof (sy_range _ _ Hs) as Hrg.
  destruct (handshake_run a b pi pr now now' i r Hs)
    as (f & i1 & ack & r1 & i2 & H1 & H2 & H3 & [(k1 & S1 & R1 & L1) (k2 & R2 & S2 & L2) He Hc]
        & Hid & C1 & C2 & P1 & P2).
  exists f, i1, ack, r1, i2. split_and!; try done.
  - destruct (talk_run i2 r1 k1 plain S1) as (d & E & D & _); eauto.
    all: first [by rewrite C1|by rewrite P1|by rewrite Hid|unfold is_active; by rewrite S1, R2].
  - destruct (talk_run r1 i2 k2 plain S2) as (d & E & D & _); eauto.
    all: first [by rewrite C2|by rewrite P2|by rewrite He, Hid|unfold is_active; by rewrite S2, R1].
Qed.

(** a lost acknowledgement stops rotation for good.  When the responder
    accepted a request and its acknowledgement never arrives, the initiator
    retries with the same epoch number, and the responder refuses every retry
    as an epoch regression, leaving its state as it is. *)
Theorem lost_ack_blocks_rotation {KX : KeyExchange} {SG : Signing} {AE : Aead}
    {HK : KeyExchangeLaws KX} {HS : SigningLaws SG}
    (i r i1 r1 : EpochManager) (a b pr f ack : bytes) (now : float) :
  in_sync i r →
  create_epoch_rotate a i = (Ok f, i1) → handle_epoch_rotate now b pr f r = (Ok ack, r1) →
  ∀ a' b' pr' now', ∃ f' i2, create_epoch_rotate a' i1 = (Ok f', i2)
  ∧ handle_epoch_rotate now' b' pr' f' r1 = (Raise (Exn EpochError "Epoch ID regression"), r1).
Proof.
  intros Hs Hc Hr a' b' pr' now'.
  destruct Hs as [(ida & idb & Hla & Hpr & Hlb & Hpi) Hch Hlen Hep Hrg Hdu] eqn:Es.
  destruct (create_rotate_run a ida i Hla Hrg Hdu) as [Hc0 _]. rewrite Hc0 in Hc. injection Hc as <- <-.
  destruct (x_agree b a) as (sec & Hb & Ha).
  destruct (handle_rotate_run now a b pr ida idb i r sec Hs Hla Hpr Hlb Hb) as (ack0 & Hr0 & _).
  rewrite Hr0 in Hr. injection Hr as _ <-.
  destruct (create_rotate_run a' ida (with_pending a i) Hla Hrg Hdu) as [Hc1 _].
  do 2 eexists. split; [exact Hc1|].
  unfold handle_epoch_rotate. unfold bind at 1, of_res at 1.
  rewrite (decode_rotate_frame a' ida (with_pending a i) Hlen Hla Hrg Hdu).
  cbn [ro_epoch_id ro_epoch_duration ro_eph_pubkey ro_prev_epoch_hash ro_signature].
  cbn [with_pending set_pending _current_epoch_id epoch_duration _last_chain_hash].
  unfold bind at 1, get at 1. cbn [_activate_epoch _peer_identity]. rewrite Hpr.
  unfold bind at 1, of_res at 1. unfold rotate_sign_data.
  rewrite (pack_u_range 8), (pack_u_range 4) by done. rewrite sign_validates.
  cbn [negb _activate_epoch _current_epoch_id].
  destruct (Z.leb_spec (_current_epoch_id i + 1) (_current_epoch_id i + 1)); [done|lia].
Qed.

(** ** Nonces *)

Fixpoint encrypt_all `{Aead} (ps : list bytes) : M EpochManager (list bytes) :=
  match ps with
  | [] => ret []
  | p :: ps => let! d := encrypt p in let! ds := encrypt_all ps in ret (d :: ds)
  end.

Definition nonce_of (d : bytes) : bytes :=
  match decode_epoch_data d with Ok e => ed_nonce e | Raise _ => [] end.

Lemma app_inv_suffix (p x y : bytes) : p ++ x = p ++ y → x = y.
Proof. apply app_inv_head. Qed.

Lemma encrypt_run `{AE : Aead} s plain :
  is_active s = true → 0 ≤ _current_epoch_id s < 2 ^ 64 →
  0 ≤ _message_counter s < EPOCH_NONCE_OVERFLOW → zlen (_nonce_prefix s) = 16 →
  ∃ d, encrypt plain s = (Ok d, set_counter (_message_counter s + 1) s)
  ∧ nonce_of d = _nonce_prefix s ++ be_pack 8 (_message_counter s)
  ∧ decode_epoch_data d = Ok {|
      ed_epoch_id := _current_epoch_id s;
      ed_nonce := _nonce_prefix s ++ be_pack 8 (_message_counter s);
      ed_ciphertext := aead_encrypt (default [] (_send_key s))
                         (_nonce_prefix s ++ be_pack 8 (_message_counter s)) plain
                         (be_pack 8 (_current_epoch_id s)) |}.
Proof.
  intros Hact Hrg Hcnt Hpre. unfold encrypt, bind, get, of_res, modify. rewrite Hact. cbn [negb].
  destruct (Z.leb_spec EPOCH_NONCE_OVERFLOW (_message_counter s)); [lia|].
  unfold build_nonce. unfold EPOCH_NONCE_OVERFLOW in *.
  rewrite (pack_u_range 8) by lia. rewrite (pack_u_range 8 (_current_epoch_id s)) by done.
  unfold encode_epoch_data. rewrite (pack_u_range 8 (_current_epoch_id s)) by done.
  eexists. split; [done|].
  assert (Hn : zlen (_nonce_prefix s ++ be_pack 8 (_message_counter s)) = 24)
    by (rewrite zlen_app, zlen_be_pack, Hpre; done).
  assert (Hdec := λ c d H, decode_data_encode (_current_epoch_id s) _ c d H Hn).
  unfold encode_epoch_data in Hdec. rewrite (pack_u_range 8 (_current_epoch_id s)) in Hdec by done.
  unfold nonce_of. by rewrite (Hdec _ _ eq_refl).
Qed.

Lemma encrypt_all_run `{AE : Aead} ps s :
  is_active s = true → 0 ≤ _current_epoch_id s < 2 ^ 64 → 0 ≤ _message_counter s →
  _message_counter s + zlen ps ≤ EPOCH_NONCE_OVERFLOW → zlen (_nonce_prefix s) = 16 →
  ∃ ds, encrypt_all ps s = (Ok ds, set_counter (_message_counter s + zlen ps) s)
  ∧ map nonce_of ds = map (λ n, _nonce_prefix s ++ be_pack 8 n)
                        (seqZ (_message_counter s) (zlen ps)).
Proof.
  revert s. induction ps as [|p ps IH]; intros s Hact Hrg H0 Hle Hpre.
  - exists []. split; [|done]. simpl. rewrite zlen_nil, Z.add_0_r. by destruct s.
  - rewrite zlen_cons in *. pose proof (zlen_nonneg ps).
    destruct (encrypt_run s p Hact Hrg ltac:(lia) Hpre) as (d & E & Hn & _).
    destruct (IH (set_counter (_message_counter s + 1) s)) as (ds & E' & Hns); try done; [simpl; lia..|].
    exists (d :: ds). cbn [encrypt_all]. rewrite (bind_run_ok _ _ _ _ _ E), (bind_run_ok _ _ _ _ _ E').
    split.
    + replace (_message_counter s + (1 + zlen ps)) with (_message_counter s + 1 + zlen ps) by lia. done.
    + rewrite seqZ_cons by lia. cbn [map]. rewrite Hn, Hns. cbn [set_counter _nonce_prefix _message_counter].
      f_equal. f_equal. f_equal; lia.
Qed.

(** C38: within an epoch no nonce is used twice: any run of messages that the
    63-bit counter can number is encrypted, each frame under a nonce of its
    own. *)
Theorem epoch_nonces_distinct {AE : Aead} (ps : list bytes) (s : EpochManager) :
  is_active s = true → 0 ≤ _current_epoch_id s < 2 ^ 64 → 0 ≤ _message_counter s →
  _message_counter s + zlen ps ≤ EPOCH_NONCE_OVERFLOW → zlen (_nonce_prefix s) = 16 →
  ∃ ds s', encrypt_all ps s = (Ok ds, s') ∧ length ds = length ps ∧ NoDup (map nonce_of ds)
  ∧ _send_key s' = _send_key s ∧ _current_epoch_id s' = _current_epoch_id s.
Proof.
  intros Hact Hrg H0 Hle Hpre. destruct (encrypt_all_run ps s Hact Hrg H0 Hle Hpre) as (ds & E & Hn).
  exists ds. eexists. split; [exact E|]. split_and!; try done.
  - apply (f_equal length) in Hn. rewrite !length_map, length_seqZ in Hn. unfold zlen in Hn. lia.
  - rewrite Hn. apply NoDup_fmap_2_strong; [|apply NoDup_seqZ].
    intros x y Hx%elem_of_seqZ Hy%elem_of_seqZ Heq%app_inv_suffix. unfold EPOCH_NONCE_OVERFLOW in *.
    apply (be_pack_inj 8); [..|done]; change (256 ^ Z.of_nat 8) with (2 ^ 64); lia.
Qed.

(** ** Restarts *)

Lemma wrap_unwrap `{HA : AeadLaws} n kek k :
  zlen n = 24 → unwrap_key kek (wrap_key n kek k) = Some k.
Proof.
  intros Hn. unfold unwrap_key, wrap_key. apply (zlen_length _ 24) in Hn.
  rewrite (take_app_length' _ _ 24), (drop_app_length' _ _ 24) by done. apply aead_roundtrip.
Qed.

Lemma wrap_nonempty `{Aead} n kek k : zlen n = 24 → list_true (wrap_key n kek k) = true.
Proof. intros Hn. unfold wrap_key. by destruct n. Qed.

Lemma unwrap_wrap_opt `{HA : AeadLaws} n kek k cur :
  zlen n = 24 → list_true k = true → unwrap_opt (Some kek) (wrap_opt n (Some kek) (Some k)) cur = Some k.
Proof.
  intros Hn Hk. unfold wrap_opt. rewrite Hk. unfold unwrap_opt.
  rewrite wrap_nonempty by done. by apply wrap_unwrap.
Qed.

(** a restart repeats nonces.  The state stored by the last
    [persist_state] holds the keys, the nonce prefix and the counter of that
    moment; after a crash [load_state] restores them, and the first message is
    encrypted under the same key and the same nonce as the first message sent
    after the last save. *)
Theorem restart_reuses_nonce {KX : KeyExchange} {SG : Signing} {AE : Aead} {HA : AeadLaws AE}
    (s fresh : EpochManager) (ident ks kr n1 n2 : bytes) (now : float) (db : DB) (p1 p2 : bytes) :
  _local_identity s = Some ident → _local_identity fresh = Some ident →
  peer_identity_hash_ fresh = peer_identity_hash_ s →
  _send_key s = Some ks → list_true ks = true → _recv_key s = Some kr → list_true kr = true →
  zlen n1 = 24 → zlen n2 = 24 → zlen (_nonce_prefix s) = 16 →
  0 ≤ _current_epoch_id s < 2 ^ 64 → 0 ≤ _message_counter s < EPOCH_NONCE_OVERFLOW →
  let db' := (persist_state now n1 n2 s db).2 in
  ∃ d1 s1 d2 s2 nonce aad,
    encrypt p1 s = (Ok d1, s1) ∧ encrypt p2 (load_state db' fresh) = (Ok d2, s2)
  ∧ decode_epoch_data d1 = Ok {| ed_epoch_id := _current_epoch_id s; ed_nonce := nonce;
                                 ed_ciphertext := aead_encrypt ks nonce p1 aad |}
  ∧ decode_epoch_data d2 = Ok {| ed_epoch_id := _current_epoch_id s; ed_nonce := nonce;
                                 ed_ciphertext := aead_encrypt ks nonce p2 aad |}.
Proof.
  intros Hl Hlf Hpeer Hs Hks Hr Hkr Hn1 Hn2 Hpre Hrg Hcnt db'.
  assert (Hpt : list_true (_nonce_prefix s) = true) by (by destruct (_nonce_prefix s)).
  assert (Hact : is_active s = true) by (unfold is_active; by rewrite Hs, Hr).
  set (t := load_state db' fresh).
  assert (Ht : _send_key t = Some ks ∧ _recv_key t = Some kr ∧ _current_epoch_id t = _current_epoch_id s
               ∧ _message_counter t = _message_counter s ∧ _nonce_prefix t = _nonce_prefix s).
  { unfold t, load_state, EpochStateRepo.get, db', persist_state, EpochStateRepo.upsert, modify. simpl.
    rewrite Hpeer, lookup_partial_alter_eq. simpl. unfold _get_kek. rewrite Hl, Hlf, Hs, Hr. simpl.
    rewrite Hpt. split_and!; try done; by apply unwrap_wrap_opt. }
  destruct Ht as (T1 & T2 & T3 & T4 & T5).
  destruct (encrypt_run s p1 Hact Hrg Hcnt Hpre) as (d1 & E1 & _ & D1).
  destruct (encrypt_run t p2) as (d2 & E2 & _ & D2);
    [unfold is_active; by rewrite T1, T2|by rewrite T3|by rewrite T4|by rewrite T5|].
  rewrite T1, T3, T4, T5 in D2. rewrite Hs in D1.
  do 6 eexists. by split_and!.
Qed.

(** ** Instances *)

Definition pad (n : nat) (b : bytes) : bytes := take n (b ++ replicate n 0).

Lemma zlen_pad n b : zlen (pad n b) = Z.of_nat n.
Proof. unfold zlen, pad. rewrite length_take, length_app, length_replicate. lia. Qed.

Definition toy_kx : KeyExchange := {|
  x_public := pad 32;
  x_exchange a p := Some (zip_with Z.add (pad 32 a) p);
  hkdf s i := pad 32 (i ++ s);
  hmac_chain := pad 32 |}.

Lemma toy_kx_laws : KeyExchangeLaws toy_kx.
Proof.
  split; intros; simpl; try apply zlen_pad. eexists. split; [done|]. f_equal. symmetry.
  generalize (pad 32 a) (pad 32 b). induction l as [|x l IH]; intros [|y l']; simpl; [done..|].
  by rewrite IH, Z.add_comm.
Qed.

Definition toy_sign : Signing := {|
  id_public i := i;
  id_sign i d := pad 64 (i ++ d);
  id_validate p sg d := bool_decide (sg = pad 64 (p ++ d)) |}.

Lemma toy_sign_laws : SigningLaws toy_sign.
Proof. split; intros; simpl; [by apply bool_decide_eq_true|apply zlen_pad]. Qed.

Definition demo_i : EpochManager := new_manager "r" true (Some [1]) (Some [2]) 3600.
Definition demo_r : EpochManager := new_manager "i" false (Some [2]) (Some [1]) 3600.

Lemma demo_in_sync : @in_sync toy_sign demo_i demo_r.
Proof. split; simpl; try lia; try done. by exists [1], [2]. Qed.

Lemma handshake_then_talk_witness :
  ∃ f i1 ack r1 i2, @create_epoch_rotate toy_kx toy_sign [5] demo_i = (Ok f, i1)
  ∧ @handle_epoch_rotate toy_kx toy_sign (fz 1) [6] (replicate 16 9) f demo_r = (Ok ack, r1)
  ∧ @handle_epoch_rotate_ack toy_kx toy_sign (fz 2) (replicate 16 8) ack i1 = (Ok tt, i2)
  ∧ ∃ d i3, @encrypt toy_aead [104; 105] i2 = (Ok d, i3)
    ∧ (@decrypt toy_aead d r1).1 = Ok [104; 105].
Proof.
  destruct (@handshake_then_talk toy_kx toy_sign toy_aead toy_kx_laws toy_sign_laws toy_aead_laws
    demo_i demo_r [5] [6] (replicate 16 8) (replicate 16 9) (fz 1) (fz 2) [104; 105] demo_in_sync
    eq_refl eq_refl) as (f & i1 & ack & r1 & i2 & H1 & H2 & H3 & _ & _ & _ & H4 & _).
  exists f, i1, ack, r1, i2. by split_and!.
Defined.

Definition demo_f : bytes := default [] (match (@create_epoch_rotate toy_kx toy_sign [5] demo_i).1 with
                                         | Ok f => Some f | Raise _ => None end).
Definition demo_i1 : EpochManager := (@create_epoch_rotate toy_kx toy_sign [5] demo_i).2.
Definition demo_r1 : EpochManager :=
  (@handle_epoch_rotate toy_kx toy_sign (fz 1) [6] (replicate 16 9) demo_f demo_r).2.
Definition demo_ack : bytes :=
  match (@handle_epoch_rotate toy_kx toy_sign (fz 1) [6] (replicate 16 9) demo_f demo_r).1 with
  | Ok a => a | Raise _ => [] end.

Lemma lost_ack_blocks_rotation_witness :
  ∃ f' i2, @create_epoch_rotate toy_kx toy_sign [7] demo_i1 = (Ok f', i2)
  ∧ @handle_epoch_rotate toy_kx toy_sign (fz 60) [8] (replicate 16 3) f' demo_r1
    = (Raise (Exn EpochError "Epoch ID regression"), demo_r1).
Proof.
  apply (@lost_ack_blocks_rotation toy_kx toy_sign toy_aead toy_kx_laws toy_sign_laws demo_i demo_r demo_i1 demo_r1
    [5] [6] (replicate 16 9) demo_f demo_ack (fz 1) demo_in_sync); vm_compute; reflexivity.
Defined.

(** A manager in an epoch. *)
Definition demo_active : EpochManager :=
  _activate_epoch (KX := toy_kx) (fz 1) (replicate 16 9) 1 (replicate 32 4) (replicate 32 5)
    (replicate 32 4) demo_i.

Lemma epoch_nonces_distinct_witness :
  ∃ ds s', @encrypt_all toy_aead [[1]; [2]; [2]] demo_active = (Ok ds, s') ∧ length ds = 3%nat
  ∧ NoDup (map nonce_of ds).
Proof.
  destruct (@epoch_nonces_distinct toy_aead [[1]; [2]; [2]] demo_active)
    as (ds & s' & H1 & H2 & H3 & _); try reflexivity; try (simpl; lia); [vm_compute; congruence|].
  by exists ds, s'.
Defined.

Lemma restart_reuses_nonce_witness :
  let db' := (@persist_state toy_kx toy_sign toy_aead (fz 3) (replicate 24 1) (replicate 24 2)
                demo_active empty_db).2 in
  ∃ d1 s1 d2 s2, @encrypt toy_aead [1] demo_active = (Ok d1, s1)
  ∧ @encrypt toy_aead [2] (@load_state toy_kx toy_sign toy_aead db' demo_i) = (Ok d2, s2)
  ∧ nonce_of d1 = nonce_of d2.
Proof.
  cbv zeta.
  destruct (@restart_reuses_nonce toy_kx toy_sign toy_aead toy_aead_laws demo_active demo_i [1]
    (replicate 32 4) (replicate 32 5) (replicate 24 1) (replicate 24 2) (fz 3) empty_db [1] [2])
    as (d1 & s1 & d2 & s2 & n & aad & H1 & H2 & H3 & H4); try reflexivity; try (simpl; lia).
  { split; vm_compute; congruence. }
  exists d1, s1, d2, s2. split; [done|]. split; [done|]. unfold nonce_of. by rewrite H3, H4.
Defined.
