(* ===== verification/Invites.v ===== *)
(** * Invites ([hokora/security/invites.py])

    Creation, redemption, revocation and the in-memory limits on redemption.
    The manager's tables are part of the state with the database; SHA-256 and
    the random token are the interface of Message.v and an argument. *)

From S2P Require Import Prelude Constants Models Queries Permissions RateLimit Ban Sealed Sequencer Message.

Module InviteManager.

Record t := {
  iv_db : DB;
  iv_bans : ban_counts;
  _redemption_attempts : gmap string (list float);
  _failure_attempts : gmap string (list float);
  _blocked_until : gmap string float;
}.

Definition init (db : DB) : t :=
  {| iv_db := db; iv_bans := ∅; _redemption_attempts := ∅; _failure_attempts := ∅;
     _blocked_until := ∅ |}.

Definition set_iv_db (db : DB) (s : t) : t :=
  {| iv_db := db; iv_bans := iv_bans s; _redemption_attempts := _redemption_attempts s;
     _failure_attempts := _failure_attempts s; _blocked_until := _blocked_until s |}.
Definition set_iv_bans (f : ban_counts → ban_counts) (s : t) : t :=
  {| iv_db := iv_db s; iv_bans := f (iv_bans s); _redemption_attempts := _redemption_attempts s;
     _failure_attempts := _failure_attempts s; _blocked_until := _blocked_until s |}.
Definition set_attempts (f : gmap string (list float) → gmap string (list float)) (s : t) : t :=
  {| iv_db := iv_db s; iv_bans := iv_bans s; _redemption_attempts := f (_redemption_attempts s);
     _failure_attempts := _failure_attempts s; _blocked_until := _blocked_until s |}.
Definition set_failures (f : gmap string (list float) → gmap string (list float)) (s : t) : t :=
  {| iv_db := iv_db s; iv_bans := iv_bans s; _redemption_attempts := _redemption_attempts s;
     _failure_attempts := f (_failure_attempts s); _blocked_until := _blocked_until s |}.
Definition set_blocked_until (f : gmap string float → gmap string float) (s : t) : t :=
  {| iv_db := iv_db s; iv_bans := iv_bans s; _redemption_attempts := _redemption_attempts s;
     _failure_attempts := _failure_attempts s; _blocked_until := f (_blocked_until s) |}.

Definition on_iv_db {A} (m : M DB A) : M t A := lift iv_db set_iv_db m.

(** The composite token handed out. *)
Definition composite (raw_token : string) (destination_hash destination_pubkey : option string)
    : string :=
  if ostr_true destination_hash then
    let c := colon raw_token (or_empty destination_hash) in
    if ostr_true destination_pubkey then colon c (or_empty destination_pubkey) else c
  else raw_token.

Definition create_invite `{Hashing} (now : float) (raw_token created_by : string)
    (channel_id : option string) (max_uses expiry_hours : Z)
    (destination_hash destination_pubkey : option string) : M DB (string * string) :=
  let token_hash := sha256_hex (str_bytes raw_token) in
  check_unique invites token_hash ;;
  match channel_id with Some c => check_fk channels c | None => ret tt end ;;
  modify (set_invites (<[token_hash := {|
    inv_token_hash := token_hash; inv_channel_id := channel_id; inv_created_by := created_by;
    inv_max_uses := max_uses; inv_uses := 0; inv_used_by := []; inv_used_at := [];
    inv_expires_at := Some (now + fz (expiry_hours * 3600))%F; inv_created_at := now;
    inv_revoked := false |}]>)) ;;
  ret (composite raw_token destination_hash destination_pubkey, token_hash).

(** Entries with no attempt, or none in the last [max_age] seconds. *)
Definition fmax_list (l : list float) : float := foldr fmax (default (fz 0) (head l)) l.
Definition stale_attempts (now max_age : float) (l : list float) : bool :=
  negb (list_true l) || flt max_age (now - fmax_list l)%F.

Definition _cleanup_stale_sync (now max_age : float) (s : t) : t :=
  set_blocked_until (base.filter (λ kv, flt kv.2 now ≠ true))
    (set_failures (base.filter (λ kv, stale_attempts now max_age kv.2 ≠ true))
      (set_attempts (base.filter (λ kv, stale_attempts now max_age kv.2 ≠ true)) s)).

Definition recent (now : float) (l : list float) : list float :=
  List.filter (λ t, flt (now - t)%F (fz INVITE_RATE_LIMIT_WINDOW)) l.

Definition _check_redeem_block (now : float) (identity_hash : string) : M t unit :=
  let! s := get in
  if flt now (default (fz 0) (_blocked_until s !! identity_hash))
  then raise RateLimitExceeded "Blocked due to too many failed attempts" else ret tt.

(** The list appended to is the one stored: when the clean-up dropped the
    entry, the append changes nothing that is kept. *)
Definition _check_rate_limit (now : float) (identity_hash : string) : M t unit :=
  let! s := get in
  let attempts := recent now (default [] (_redemption_attempts s !! identity_hash)) in
  modify (set_attempts (<[identity_hash := attempts]>)) ;;
  if INVITE_RATE_LIMIT_MAX <=? zlen attempts
  then raise RateLimitExceeded "Too many redemption attempts"
  else
    let full s := MAX_INVITE_RATE_ENTRIES <=? Z.of_nat (size (_redemption_attempts s)) in
    let! s := get in
    when (full s)
      (modify (_cleanup_stale_sync now (fz 600)) ;;
       let! s := get in
       when (full s) (raise RateLimitExceeded "Too many tracked invite identities")) ;;
    modify (set_attempts (alter (λ l, l ++ [now]) identity_hash)).

Definition _record_failure (now : float) (identity_hash : string) : M t unit :=
  let! s := get in
  let failures := recent now (default [] (_failure_attempts s !! identity_hash)) ++ [now] in
  when (MAX_INVITE_RATE_ENTRIES <=? Z.of_nat (size (_failure_attempts s)))
    (modify (_cleanup_stale_sync now (fz 600))) ;;
  modify (set_failures (<[identity_hash := failures]>)) ;;
  when (INVITE_FAILURE_BLOCK_THRESHOLD <=? zlen failures)
    (modify (set_blocked_until (<[identity_hash := (now + fz INVITE_FAILURE_BLOCK_DURATION)%F]>))).

(** [s.split(":")[0]] *)
Fixpoint before_colon (s : string) : string :=
  match s with
  | EmptyString => EmptyString
  | String c s => if decide (c = Ascii.ascii_of_nat 58) then EmptyString else String c (before_colon s)
  end.

(** One more use of an invite. *)
Definition use_invite (now : float) (identity_hash : string) (i : Invite) : Invite := {|
  inv_token_hash := inv_token_hash i; inv_channel_id := inv_channel_id i;
  inv_created_by := inv_created_by i; inv_max_uses := inv_max_uses i; inv_uses := inv_uses i + 1;
  inv_used_by := inv_used_by i ++ [identity_hash]; inv_used_at := inv_used_at i ++ [now];
  inv_expires_at := inv_expires_at i; inv_created_at := inv_created_at i;
  inv_revoked := inv_revoked i |}.

(** [float] truth: not zero. *)
Definition time_true (o : option float) : bool :=
  match o with Some t => negb (fle t (fz 0) && fle (fz 0) t) | None => false end.

Definition fail_with {A} (now : float) (identity_hash msg : string) : M t A :=
  _record_failure now identity_hash ;; raise InviteError msg.

(** The member role, unless the identity has it already. *)
Definition grant_member (now : float) (identity_hash : string) (invite : Invite) : M DB unit :=
  let! member_role := gets (RoleRepo.get_by_name ROLE_MEMBER) in
  match member_role with
  | None => ret tt
  | Some r =>
      let! existing := gets (RoleRepo.get_identity_roles identity_hash (inv_channel_id invite) false) in
      if existsb (λ x, bool_decide (role_id x = role_id r)) existing then ret tt
      else
        RoleRepo.assign_role now (role_id r) identity_hash (inv_channel_id invite)
          (Some (inv_created_by invite)) ;;
        ret tt
  end.

(** The gates in front of the token: ban, block after failures, rate. *)
Definition redeem_gates (now : float) (identity_hash : string) : M t unit :=
  catch (on_iv_db (check_not_blocked identity_hash))
    (λ e, if bool_decide (exn_cls e = PermissionDenied)
          then modify (set_iv_bans (record_ban_rejection "invite_redeem")) ;; throw e
          else throw e) ;;
  _check_redeem_block now identity_hash ;;
  _check_rate_limit now identity_hash.

Definition redeem_invite `{Hashing} (now : float) (raw_token identity_hash : string) : M t Invite :=
  redeem_gates now identity_hash ;;
  let token_hash := sha256_hex (str_bytes (before_colon raw_token)) in
  let! invite := gets (λ s, invites (iv_db s) !! token_hash) in
  match invite with
  | None => fail_with now identity_hash "Invalid invite token"
  | Some invite =>
      if inv_revoked invite then fail_with now identity_hash "Invite has been revoked"
      else if time_true (inv_expires_at invite)
              && match inv_expires_at invite with Some e => flt e now | None => false end
      then fail_with now identity_hash "Invite has expired"
      else if (0 <? inv_max_uses invite) && (inv_max_uses invite <=? inv_uses invite)
      then fail_with now identity_hash "Invite has reached max uses"
      else
        let invite := use_invite now identity_hash invite in
        on_iv_db (modify (set_invites (<[token_hash := invite]>)) ;;
                  IdentityRepo.upsert now identity_hash (λ i, i) ;;
                  grant_member now identity_hash invite) ;;
        ret invite
  end.

(** A redemption in its transaction. *)
Definition redeem_tx `{Hashing} (now : float) (raw_token identity_hash : string) : M t Invite :=
  atomic (λ s0 s1, set_iv_db (iv_db s0) s1) (redeem_invite now raw_token identity_hash).

Definition revoke (i : Invite) : Invite := {|
  inv_token_hash := inv_token_hash i; inv_channel_id := inv_channel_id i;
  inv_created_by := inv_created_by i; inv_max_uses := inv_max_uses i; inv_uses := inv_uses i;
  inv_used_by := inv_used_by i; inv_used_at := inv_used_at i; inv_expires_at := inv_expires_at i;
  inv_created_at := inv_created_at i; inv_revoked := true |}.

Definition revoke_invite (token_hash : string) : M DB bool :=
  let! db := get in
  match invites db !! token_hash with
  | Some i => modify (set_invites (<[token_hash := revoke i]>)) ;; ret true
  | None => ret false
  end.

Definition list_invites (channel_id : option string) (db : DB) : list Invite :=
  sort_by (λ a b, fle (inv_created_at b) (inv_created_at a))
    (List.filter (λ i, negb (ostr_true channel_id) || bool_decide (inv_channel_id i = channel_id))
       (rows (invites db))).

Definition cleanup_stale (now max_age : float) : M t unit := modify (_cleanup_stale_sync now max_age).
End InviteManager.

Import InviteManager.

(** ** What a redemption does *)

Definition same_iv_db (s s' : InviteManager.t) : Prop := iv_db s' = iv_db s.
#[export] Instance same_iv_db_preorder : PreOrder same_iv_db.
Proof. split; [by intros s|]. intros a b c H1 H2. unfold same_iv_db in *. congruence. Qed.

Definition same_invites (db db' : DB) : Prop := invites db' = invites db.
#[export] Instance same_invites_preorder : PreOrder same_invites.
Proof. split; [by intros s|]. intros a b c H1 H2. unfold same_invites in *. congruence. Qed.

Lemma block_same now i : mrel same_iv_db (_check_redeem_block now i).
Proof. unfold _check_redeem_block. mrel_auto. Qed.
Lemma rate_same now i : mrel same_iv_db (_check_rate_limit now i).
Proof. unfold _check_rate_limit. cbv zeta. mrel_auto; by apply mrel_modify. Qed.
Lemma failure_same now i : mrel same_iv_db (_record_failure now i).
Proof. unfold _record_failure. cbv zeta. mrel_auto; by apply mrel_modify. Qed.
#[export] Hint Resolve block_same rate_same failure_same : hok.

Lemma assign_role_invites now r i c b : mrel same_invites (RoleRepo.assign_role now r i c b).
Proof.
  unfold RoleRepo.assign_role, check_fk, scalar_one_or_none. mrel_auto; by apply mrel_modify.
Qed.
#[export] Hint Resolve assign_role_invites : hok.

Lemma grant_member_invites now i inv : mrel same_invites (grant_member now i inv).
Proof. unfold grant_member. mrel_auto. Qed.

Section redeem.
Context `{HH : Hashing}.

Definition token_hash_of (tok : string) : string := sha256_hex (str_bytes (before_colon tok)).

(** The state in which the token is looked up: the gates passed. *)
Lemma ban_gate_same ident s u s1 :
  (catch (on_iv_db (check_not_blocked ident))
     (λ e, if bool_decide (exn_cls e = PermissionDenied)
           then modify (set_iv_bans (record_ban_rejection "invite_redeem")) ;; throw e
           else throw e)) s = (Ok u, s1) →
  iv_db s1 = iv_db s.
Proof using Type.
  unfold catch, on_iv_db, lift, check_not_blocked, bind, get.
  destruct (str_true ident); simpl; [|by intros [= _ <-]].
  destruct (IdentityRepo.is_blocked ident (iv_db s)); simpl; [|by intros [= _ <-]].
  unfold bind, modify, throw. simpl. done.
Qed.

Lemma gates_same now ident s u s1 : redeem_gates now ident s = (Ok u, s1) → iv_db s1 = iv_db s.
Proof using Type.
  unfold redeem_gates. intros (u1 & s2 & H1%ban_gate_same & H)%bind_ok.
  apply bind_ok in H as (u2 & s3 & H2 & H3). apply (mrel_ok _ _ _ _ _ (block_same _ _)) in H2.
  apply (mrel_ok _ _ _ _ _ (rate_same _ _)) in H3. unfold same_iv_db in *. congruence.
Qed.

Lemma redeem_ok now tok ident s inv s' :
  redeem_invite now tok ident s = (Ok inv, s') →
  ∃ i, invites (iv_db s) !! token_hash_of tok = Some i
  ∧ inv_revoked i = false ∧ (0 < inv_max_uses i → inv_uses i < inv_max_uses i)
  ∧ inv = use_invite now ident i
  ∧ ∃ db, (IdentityRepo.upsert now ident (λ i, i) ;; grant_member now ident inv)
            (set_invites (<[token_hash_of tok := inv]>) (iv_db s)) = (Ok tt, db)
          ∧ iv_db s' = db.
Proof using Type.
  unfold redeem_invite. intros (u1 & s3 & H1%gates_same & H)%bind_ok.
  rewrite <- H1. fold (token_hash_of tok) in H.
  unfold bind at 1, gets in H.
  destruct (invites (iv_db s3) !! token_hash_of tok) as [i|]; [|by apply bind_ok in H as (? & ? & _ & ?)].
  destruct (inv_revoked i) eqn:Erev; [by apply bind_ok in H as (? & ? & _ & ?)|].
  destruct (time_true _ && _); [by apply bind_ok in H as (? & ? & _ & ?)|].
  destruct ((0 <? inv_max_uses i) && (inv_max_uses i <=? inv_uses i)) eqn:Em;
    [by apply bind_ok in H as (? & ? & _ & ?)|].
  apply bind_ok in H as (u4 & s4 & (db & H4 & ->)%lift_ok & H). injection H as <- <-. destruct u4.
  exists i. split_and!; try done.
  - intros Hpos. apply andb_false_iff in Em as [E|E]; lia.
  - exists db. split; [|done]. by rewrite <- H4.
Qed.

Lemma redeem_invites now tok ident s r s' :
  redeem_tx now tok ident s = (r, s') →
  match r with
  | Raise _ => iv_db s' = iv_db s
  | Ok inv => ∃ i, invites (iv_db s) !! token_hash_of tok = Some i
      ∧ inv_revoked i = false ∧ (0 < inv_max_uses i → inv_uses i < inv_max_uses i)
      ∧ inv = use_invite now ident i
      ∧ invites (iv_db s') = <[token_hash_of tok := inv]> (invites (iv_db s))
  end.
Proof using Type.
  unfold redeem_tx, atomic. destruct (redeem_invite now tok ident s) as [[inv|e] s1] eqn:E.
  - intros [= <- <-]. apply redeem_ok in E as (i & Hi & Hr & Hm & -> & db & Hdb & Es).
    exists i. split_and!; try done. rewrite Es.
    apply bind_ok in Hdb as (u & db1 & H1 & H2). injection H1 as _ <-.
    apply (mrel_ok _ _ _ _ _ (grant_member_invites _ _ _)) in H2. unfold same_invites in H2. by rewrite H2.
  - by intros [= <- <-].
Qed.
End redeem.

(** ** Uses are bounded *)

Inductive invite_op :=
  | OpRedeem (now : float) (token identity : string)
  | OpRevoke (token_hash : string)
  | OpCleanup (now max_age : float).

(** An operation; [true] when it is a successful redemption of [h]. *)
Definition run_invite_op `{Hashing} (h : string) (o : invite_op) (s : InviteManager.t)
    : bool * InviteManager.t :=
  match o with
  | OpRedeem now tok ident =>
      let (r, s') := redeem_tx now tok ident s in
      (is_ok r && bool_decide (token_hash_of tok = h), s')
  | OpRevoke h' => (false, (on_iv_db (revoke_invite h') s).2)
  | OpCleanup now age => (false, (cleanup_stale now age s).2)
  end.

Fixpoint redemptions `{Hashing} (h : string) (os : list invite_op) (s : InviteManager.t)
    : Z * InviteManager.t :=
  match os with
  | [] => (0, s)
  | o :: os =>
      let (b, s1) := run_invite_op h o s in
      let (n, s2) := redemptions h os s1 in
      ((if b then 1 else 0) + n, s2)
  end.

(** How the invite [h] may have changed. *)
Lemma run_invite_op_step `{Hashing} h o s i :
  invites (iv_db s) !! h = Some i →
  ∃ i', invites (iv_db (run_invite_op h o s).2) !! h = Some i'
  ∧ inv_max_uses i' = inv_max_uses i
  ∧ (inv_revoked i = true → inv_revoked i' = true ∧ (run_invite_op h o s).1 = false)
  ∧ (if (run_invite_op h o s).1
     then inv_uses i' = inv_uses i + 1 ∧ (0 < inv_max_uses i → inv_uses i < inv_max_uses i)
     else inv_uses i' = inv_uses i).
Proof.
  intros Hi. destruct o as [now tok ident|h'|now age]; simpl.
  - destruct (redeem_tx now tok ident s) as [r s'] eqn:E. apply redeem_invites in E.
    destruct r as [inv|e]; simpl; [|rewrite E; by exists i].
    destruct E as (j & Hj & Hrev & Hmax & -> & Hins). rewrite Hins.
    destruct (decide (token_hash_of tok = h)) as [<-|Hne].
    + rewrite lookup_insert_eq, bool_decide_eq_true_2 by done. rewrite Hi in Hj. injection Hj as <-.
      eexists. split; [done|]. split; [done|]. split; [by rewrite Hrev|]. done.
    + rewrite lookup_insert_ne, bool_decide_eq_false_2 by done. by exists i.
  - unfold on_iv_db, lift, revoke_invite, bind, get. simpl.
    destruct (invites (iv_db s) !! h') as [j|] eqn:Ej; simpl; [|by exists i].
    destruct (decide (h' = h)) as [->|Hne].
    + rewrite lookup_insert_eq. simplify_map_eq. eexists. split; [done|]. by destruct i.
    + rewrite lookup_insert_ne by done. by exists i.
  - by exists i.
Qed.

(** an invite never admits more than its maximum.  Whatever the sequence
    of redemptions, revocations and clean-ups, the successful redemptions of
    one token are at most the uses it had left, and none succeeds once it is
    revoked. *)
Theorem invite_uses_bounded {HH : Hashing} (h : string) (os : list invite_op)
    (s : InviteManager.t) (i : Invite) :
  invites (iv_db s) !! h = Some i → 0 < inv_max_uses i → inv_uses i ≤ inv_max_uses i →
  (redemptions h os s).1 ≤ inv_max_uses i - inv_uses i
  ∧ (inv_revoked i = true → (redemptions h os s).1 = 0).
Proof.
  revert s i. induction os as [|o os IH]; intros s i Hi Hpos Hle; cbn [redemptions].
  - simpl. lia.
  - destruct (run_invite_op_step h o s i Hi) as (i' & Hi' & Em & Erev & Euse).
    destruct (run_invite_op h o s) as [b s1]. simpl in *.
    destruct (IH s1 i' Hi') as [IH1 IH2]; [lia|destruct b; lia|].
    destruct (redemptions h os s1) as [n s2]. simpl in *. split; [destruct b; lia|].
    intros Hr. destruct (Erev Hr) as [Hr' ->]. rewrite (IH2 Hr'). lia.
Qed.

(** ** What a redemption grants *)

Lemma upsert_roles now ident db :
  let db' := (IdentityRepo.upsert now ident (λ i, i) db).2 in
  roles db' = roles db ∧ role_assignments db' = role_assignments db.
Proof. done. Qed.

Lemma assign_role_channel now rid ident c by_ db a db' :
  RoleRepo.assign_role now rid ident (Some c) by_ db = (Ok a, db') →
  roles db' = roles db ∧ ∃ x, role_assignments db' = role_assignments db ++ [x]
  ∧ ra_role_id x = rid ∧ ra_identity_hash x = ident ∧ ra_channel_id x = Some c.
Proof.
  unfold RoleRepo.assign_role, check_fk, bind, get, ret, modify. simpl.
  destruct (existsb _ _); [done|]. case_bool_decide; [|done]. case_bool_decide; [|done].
  case_bool_decide; [|done]. intros [= <- <-]. split; [done|]. eexists. by split_and!.
Qed.

(** what a channel invite grants.  To an identity that holds the member
    role nowhere it grants it on the channel, so that private and sealed
    channels admit it; but an identity that holds the member role for the
    whole node gets no assignment at all, and so stays out of a private or
    sealed channel although its redemption succeeded and used the invite up. *)
Theorem redeem_grants {HH : Hashing} (now : float) (tok ident c : string) (s s' : InviteManager.t)
    (inv : Invite) (r : Role) :
  redeem_tx now tok ident s = (Ok inv, s') →
  inv_channel_id inv = Some c → str_true c = true →
  RoleRepo.get_by_name ROLE_MEMBER (iv_db s) = Some r → roles (iv_db s) !! role_id r = Some r →
  let has := existsb (λ x, bool_decide (role_id x = role_id r))
               (RoleRepo.get_identity_roles ident (Some c) false (iv_db s)) in
  if has then RoleRepo.get_identity_roles ident (Some c) true (iv_db s')
              = RoleRepo.get_identity_roles ident (Some c) true (iv_db s)
  else r ∈ RoleRepo.get_identity_roles ident (Some c) true (iv_db s').
Proof.
  intros H Hc Hct Hr Hk has. unfold redeem_tx, atomic in H.
  destruct (redeem_invite now tok ident s) as [[inv'|?] s1] eqn:E; [|done]. injection H as -> ->.
  apply redeem_ok in E as (i & _ & _ & _ & _ & db & Hdb & Es). rewrite Es.
  apply bind_ok in Hdb as (u & db1 & H1 & Hg). unfold IdentityRepo.upsert, modify in H1. injection H1 as _ <-.
  unfold grant_member in Hg. rewrite Hc in Hg. unfold bind at 1, gets at 1 in Hg.
  change (RoleRepo.get_by_name ROLE_MEMBER _) with (RoleRepo.get_by_name ROLE_MEMBER (iv_db s)) in Hg.
  rewrite Hr in Hg. unfold bind at 1, gets at 1 in Hg.
  match type of Hg with context [existsb ?f (RoleRepo.get_identity_roles ?a ?b ?d ?x)] =>
    change (existsb f (RoleRepo.get_identity_roles a b d x)) with has in Hg end.
  destruct has.
  - injection Hg as <-. done.
  - apply bind_ok in Hg as (a & db2 & Ha & Hg). injection Hg as <-.
    apply assign_role_channel in Ha as (Hro & x & Hx & X1 & X2 & X3). simpl in Hro, Hx.
    unfold RoleRepo.get_identity_roles. rewrite Hro, Hx, List.filter_app, omap_app. apply elem_of_app. right.
    simpl. rewrite X2, bool_decide_eq_true_2 by done. unfold RoleRepo.in_scope. simpl. rewrite Hct, X3.
    rewrite bool_decide_eq_true_2 by done. simpl. rewrite X1, Hk. simpl. by left.
Qed.

(** ** Instances *)

Definition toy_hash : Hashing := {|
  sha256_hex := bytes_str; float_repr q := pretty.pretty (QArith_base.Qnum q) |}.

Definition invite_db : DB :=
  set_invites (λ _, {[ "tok" := {|
      inv_token_hash := "tok"; inv_channel_id := Some "p"; inv_created_by := "owner";
      inv_max_uses := 1; inv_uses := 0; inv_used_by := []; inv_used_at := [];
      inv_expires_at := Some (fz 100); inv_created_at := fz 0; inv_revoked := false |} ]})
    (set_roles (λ _, {[ "m" := demo_role "m" ROLE_MEMBER PERM_EVERYONE_DEFAULT ]})
      (set_role_assignments (λ _, [demo_assignment 1 "m" "bob" None])
        (demo_db [demo_channel "p" ACCESS_PRIVATE false]))).

Lemma invite_uses_bounded_witness :
  (@redemptions toy_hash "tok"
     [OpRedeem (fz 5) "tok:dest" "alice"; OpRedeem (fz 6) "tok" "carol"; OpRevoke "tok";
      OpRedeem (fz 7) "tok" "dave"] (init invite_db)).1 ≤ 1.
Proof.
  destruct (@invite_uses_bounded toy_hash "tok"
    [OpRedeem (fz 5) "tok:dest" "alice"; OpRedeem (fz 6) "tok" "carol"; OpRevoke "tok";
     OpRedeem (fz 7) "tok" "dave"] (init invite_db) _ eq_refl) as [H _]; simpl; [lia..|exact H].
Defined.

Definition bob_redeems := @redeem_tx toy_hash (fz 5) "tok" "bob" (init invite_db).

Lemma redeem_grants_witness :
  is_ok bob_redeems.1 = true
  ∧ RoleRepo.get_identity_roles "bob" (Some "p") true (iv_db bob_redeems.2)
    = RoleRepo.get_identity_roles "bob" (Some "p") true invite_db.
Proof.
  split; [vm_compute; reflexivity|].
  exact (@redeem_grants toy_hash (fz 5) "tok" "bob" "p" (init invite_db) bob_redeems.2
    (use_invite (fz 5) "bob" {|
      inv_token_hash := "tok"; inv_channel_id := Some "p"; inv_created_by := "owner";
      inv_max_uses := 1; inv_uses := 0; inv_used_by := []; inv_used_at := [];
      inv_expires_at := Some (fz 100); inv_created_at := fz 0; inv_revoked := false |})
    (demo_role "m" ROLE_MEMBER PERM_EVERYONE_DEFAULT)
    ltac:(vm_compute; reflexivity) eq_refl eq_refl ltac:(vm_compute; reflexivity)
    ltac:(vm_compute; reflexivity)).
Defined.
