(* ===== verification/InviteCodes.v ===== *)
(** * Short invite codes ([hokora/security/invite_codes.py])

    A token and a destination hash with a CRC-8, in Base32 and in groups of
    five characters.  The text functions of the standard library the code uses
    ([bytes.fromhex], [hex], [base64.b32encode], [b32decode], [upper],
    [strip]) are modelled on lists of ASCII characters. *)

From S2P Require Import Prelude Constants.

Definition INVITE_CODE_PREFIX : string := "HOK-".
Definition dash : Ascii.ascii := Ascii.ascii_of_nat 45.

(** ** CRC-8 *)

Definition crc_bit (crc : Z) : Z :=
  Z.land (if negb (Z.land crc 0x80 =? 0) then Z.lxor (Z.shiftl crc 1) 0x31 else Z.shiftl crc 1) 0xFF.

Definition crc_byte (crc byte : Z) : Z := Nat.iter 8 crc_bit (Z.lxor crc byte).

Definition _crc8 (data : bytes) : Z := foldl crc_byte 0 data.

(** ** Base32 *)

Definition byte_bits (b : Z) : list bool :=
  map (Z.testbit b) [7; 6; 5; 4; 3; 2; 1; 0].
Definition bits_val (l : list bool) : Z := foldl (λ acc b, 2 * acc + Z.b2z b) 0 l.

Definition b32_char (v : Z) : Ascii.ascii :=
  Ascii.ascii_of_N (Z.to_N (if v <? 26 then 65 + v else 24 + v)).
Definition b32_value (c : Ascii.ascii) : option Z :=
  let n := Z.of_N (Ascii.N_of_ascii c) in
  if (65 <=? n) && (n <=? 90) then Some (n - 65)
  else if (50 <=? n) && (n <=? 55) then Some (n - 24)
  else None.

(** The characters of a bit string, five bits each, the last ones filled with
    zeros: [b32encode(...)] without its [=] padding. *)
Fixpoint b32_chars (l : list bool) : chars :=
  match l with
  | a :: b :: c :: d :: e :: r => b32_char (bits_val [a; b; c; d; e]) :: b32_chars r
  | [] => []
  | [a] => [b32_char (bits_val [a; false; false; false; false])]
  | [a; b] => [b32_char (bits_val [a; b; false; false; false])]
  | [a; b; c] => [b32_char (bits_val [a; b; c; false; false])]
  | [a; b; c; d] => [b32_char (bits_val [a; b; c; d; false])]
  end.

Definition b32encode_stripped (b : bytes) : chars := b32_chars (flat_map byte_bits b).

Definition val_bits5 (v : Z) : list bool := map (Z.testbit v) [4; 3; 2; 1; 0].

Fixpoint b32_bits (l : chars) : option (list bool) :=
  match l with
  | [] => Some []
  | c :: l =>
      match b32_value c, b32_bits l with
      | Some v, Some bs => Some (val_bits5 v ++ bs)
      | _, _ => None
      end
  end.

(** The whole bytes of a bit string; what is left over is dropped. *)
Fixpoint whole_bytes (l : list bool) : bytes :=
  match l with
  | a :: b :: c :: d :: e :: f :: g :: h :: r => bits_val [a; b; c; d; e; f; g; h] :: whole_bytes r
  | _ => []
  end.

Definition equals_sign : Ascii.ascii := Ascii.ascii_of_nat 61.
Fixpoint lstrip (f : Ascii.ascii → bool) (l : chars) : chars :=
  match l with c :: r => if f c then lstrip f r else l | [] => [] end.
Definition rstrip (f : Ascii.ascii → bool) (l : chars) : chars := reverse (lstrip f (reverse l)).
Definition is_pad (c : Ascii.ascii) : bool := bool_decide (c = equals_sign).

(** [base64.b32decode(padded)]: the padding has 0, 1, 3, 4 or 6 characters. *)
Definition b32decode (padded : chars) : option bytes :=
  let core := rstrip is_pad padded in
  let padchars := zlen padded - zlen core in
  if negb (zlen padded mod 8 =? 0) || negb (bool_decide (padchars ∈ [0; 1; 3; 4; 6])) then None
  else whole_bytes <$> b32_bits core.

(** ** Codes *)

Fixpoint chunks5 (l : chars) : list chars :=
  match l with
  | a :: b :: c :: d :: e :: r => [a; b; c; d; e] :: chunks5 r
  | [] => []
  | short => [short]
  end.
Fixpoint join_dash (ls : list chars) : chars :=
  match ls with
  | [] => []
  | [l] => l
  | l :: ls => l ++ dash :: join_dash ls
  end.

Definition encode_invite (token dest_hash : string) : res string :=
  match fromhex (chars_of token), fromhex (chars_of dest_hash) with
  | Some t, Some d =>
      let raw := t ++ d in
      let encoded := b32encode_stripped (raw ++ [_crc8 raw]) in
      Ok (string_of (chars_of INVITE_CODE_PREFIX ++ join_dash (chunks5 encoded)))
  | _, _ => Raise (Exn ValueError "non-hexadecimal number found in fromhex() arg")
  end.

(** [upper()] on ASCII letters; [strip()] of ASCII white space, which for a
    [str] includes the four separators 28 to 31. *)
Definition upper_char (c : Ascii.ascii) : Ascii.ascii :=
  let n := Ascii.N_of_ascii c in
  if (97 <=? n)%N && (n <=? 122)%N then Ascii.ascii_of_N (n - 32) else c.
Definition is_str_space (c : Ascii.ascii) : bool :=
  let n := Z.of_N (Ascii.N_of_ascii c) in is_space c || ((28 <=? n) && (n <=? 31)).
Definition strip (l : chars) : chars := rstrip is_str_space (lstrip is_str_space l).

Definition value_error {A} (msg : string) : res A := Raise (Exn ValueError msg).

Definition decode_invite (code : string) : res (string * string) :=
  let upper := strip (map upper_char (chars_of code)) in
  let prefix := chars_of INVITE_CODE_PREFIX in
  if negb (bool_decide (take (length prefix) upper = prefix))
  then value_error "Invite code must start with prefix"
  else
    let clean := List.filter (λ c, negb (bool_decide (c = dash))) (drop (length prefix) upper) in
    let padding := (8 - zlen clean mod 8) mod 8 in
    match b32decode (clean ++ replicate (Z.to_nat padding) equals_sign) with
    | None => value_error "Invalid invite code encoding"
    | Some raw_with_checksum =>
        if zlen raw_with_checksum <? 2 then value_error "Invite code too short"
        else
          let raw := take (length raw_with_checksum - 1) raw_with_checksum in
          let expected_checksum := default 0 (last raw_with_checksum) in
          if negb (_crc8 raw =? expected_checksum) then value_error "Invite code checksum mismatch"
          else if zlen raw <? 32 then value_error "Invite code data too short"
          else Ok (string_of (hex (take 16 raw)), string_of (hex (take 16 (drop 16 raw))))
    end.

(** ** The checksum catches every corrupted byte *)

Definition all_bytes : list Z := map Z.of_nat (seq 0 256).

Lemma elem_of_all_bytes b : byte_ok b → b ∈ all_bytes.
Proof.
  intros [H1 H2]. unfold all_bytes. apply list_elem_of_fmap. exists (Z.to_nat b). split; [lia|].
  apply elem_of_seq. lia.
Qed.

Lemma crc_bits_table :
  forallb (λ x, let y := Nat.iter 8 crc_bit x in (0 <=? y) && (y <? 256)) all_bytes
  && forallb (λ x, forallb (λ y, (x =? y) || negb (Nat.iter 8 crc_bit x =? Nat.iter 8 crc_bit y)) all_bytes)
       all_bytes = true.
Proof. vm_compute. reflexivity. Qed.

Lemma lxor_byte a b : byte_ok a → byte_ok b → byte_ok (Z.lxor a b).
Proof.
  unfold byte_ok. intros Ha Hb. split; [apply Z.lxor_nonneg; lia|].
  destruct (decide (Z.lxor a b = 0)) as [->|Hne]; [lia|].
  apply (Z.log2_lt_pow2 _ 8); [pose proof (proj2 (Z.lxor_nonneg a b) ltac:(lia)); lia|].
  eapply Z.le_lt_trans; [apply Z.log2_lxor; lia|].
  apply Z.max_lub_lt; [destruct (decide (a = 0)) as [->|]|destruct (decide (b = 0)) as [->|]];
    try (simpl; lia); apply Z.log2_lt_pow2; lia.
Qed.

Lemma crc_iter_byte x : byte_ok x → byte_ok (Nat.iter 8 crc_bit x).
Proof.
  intros Hx%elem_of_all_bytes. pose proof crc_bits_table as [H _]%andb_true_iff.
  rewrite forallb_forall in H. apply list_elem_of_In in Hx. specialize (H x Hx). cbv zeta in H.
  unfold byte_ok. lia.
Qed.

Lemma crc_iter_inj x y :
  byte_ok x → byte_ok y → Nat.iter 8 crc_bit x = Nat.iter 8 crc_bit y → x = y.
Proof.
  intros Hx%elem_of_all_bytes Hy%elem_of_all_bytes E. pose proof crc_bits_table as [_ H]%andb_true_iff.
  rewrite forallb_forall in H. apply list_elem_of_In in Hx, Hy. specialize (H x Hx).
  rewrite forallb_forall in H. specialize (H y Hy). rewrite E, Z.eqb_refl in H. simpl in H.
  rewrite orb_false_r in H. lia.
Qed.

Lemma crc_byte_ok c b : byte_ok c → byte_ok b → byte_ok (crc_byte c b).
Proof. intros. by apply crc_iter_byte, lxor_byte. Qed.

Lemma crc_byte_inj_l c c' b :
  byte_ok c → byte_ok c' → byte_ok b → crc_byte c b = crc_byte c' b → c = c'.
Proof.
  intros Hc Hc' Hb E. apply crc_iter_inj in E; [|by apply lxor_byte..].
  apply (f_equal (Z.lxor b)) in E. rewrite !(Z.lxor_comm _ b), <- !Z.lxor_assoc, Z.lxor_nilpotent in E.
  by rewrite !Z.lxor_0_l in E.
Qed.

Lemma crc_byte_inj_r c b b' :
  byte_ok c → byte_ok b → byte_ok b' → crc_byte c b = crc_byte c b' → b = b'.
Proof.
  intros Hc Hb Hb' E. apply crc_iter_inj in E; [|by apply lxor_byte..].
  apply (f_equal (Z.lxor c)) in E. rewrite <- !Z.lxor_assoc, Z.lxor_nilpotent in E.
  by rewrite !Z.lxor_0_l in E.
Qed.

Lemma crc_foldl_ok c l : byte_ok c → bytes_ok l → byte_ok (foldl crc_byte c l).
Proof.
  intros Hc Hl. revert c Hc. induction Hl as [|b l Hb Hl IH]; intros c Hc; simpl; [done|].
  apply IH. by apply crc_byte_ok.
Qed.

Lemma crc_foldl_inj c c' l :
  byte_ok c → byte_ok c' → bytes_ok l → foldl crc_byte c l = foldl crc_byte c' l → c = c'.
Proof.
  intros Hc Hc' Hl. revert c c' Hc Hc'. induction Hl as [|b l Hb Hl IH]; intros c c' Hc Hc' E; [done|].
  simpl in E. apply IH in E; [|by apply crc_byte_ok..]. by apply (crc_byte_inj_l c c' b).
Qed.

(** the checksum of an invite code detects every corruption confined to
    one byte: whatever the data, replacing one byte by a different one changes
    the CRC. *)
Theorem crc8_detects_byte (pre post : bytes) (b b' : Z) :
  bytes_ok pre → bytes_ok post → byte_ok b → byte_ok b' → b ≠ b' →
  _crc8 (pre ++ b :: post) ≠ _crc8 (pre ++ b' :: post).
Proof.
  intros Hpre Hpost Hb Hb' Hne E. unfold _crc8 in E. rewrite !foldl_app in E. cbn [foldl] in E.
  assert (Hc : byte_ok (foldl crc_byte 0 pre)) by (apply crc_foldl_ok; [split; lia|done]).
  apply crc_foldl_inj in E; [|by apply crc_byte_ok..|done]. apply Hne. by apply (crc_byte_inj_r (foldl crc_byte 0 pre)).
Qed.

Lemma crc8_detects_byte_witness : _crc8 [1; 2; 3] ≠ _crc8 [1; 7; 3].
Proof.
  apply (crc8_detects_byte [1] [3] 2 7); try (repeat constructor; unfold byte_ok; lia); lia.
Defined.

(** ** Round trip *)

(** Induction in steps of [k]. *)
Lemma length_induction {A} (P : list A → Prop) :
  (∀ l, (∀ l', (length l' < length l)%nat → P l') → P l) → ∀ l, P l.
Proof.
  intros H l. remember (length l) as n eqn:E. revert l E. induction n as [n IH] using lt_wf_ind.
  intros l ->. apply H. intros l' Hl. by apply (IH (length l')).
Qed.

Definition alphabet_ok (c : Ascii.ascii) : bool :=
  negb (bool_decide (c = dash)) && negb (is_pad c) && negb (is_str_space c)
  && bool_decide (upper_char c = c).

Lemma b32_five a b c d e :
  b32_value (b32_char (bits_val [a; b; c; d; e])) = Some (bits_val [a; b; c; d; e])
  ∧ val_bits5 (bits_val [a; b; c; d; e]) = [a; b; c; d; e]
  ∧ alphabet_ok (b32_char (bits_val [a; b; c; d; e])) = true.
Proof. by destruct a, b, c, d, e. Qed.

Lemma b32_bits_chars l :
  ∃ k, (k < 5)%nat ∧ b32_bits (b32_chars l) = Some (l ++ replicate k false)
  ∧ Forall (λ c, alphabet_ok c = true) (b32_chars l)
  ∧ (5 * length (b32_chars l) = length l + k)%nat.
Proof.
  induction l as [l IH] using length_induction.
  destruct l as [|a [|b [|c [|d [|e r]]]]].
  - exists 0%nat. split_and!; [lia|done|constructor|done].
  - destruct (b32_five a false false false false) as (H1 & H2 & H3). exists 4%nat. cbn [b32_chars b32_bits].
    rewrite H1, H2. split_and!; [lia|done|by repeat constructor|simpl; lia].
  - destruct (b32_five a b false false false) as (H1 & H2 & H3). exists 3%nat. cbn [b32_chars b32_bits].
    rewrite H1, H2. split_and!; [lia|done|by repeat constructor|simpl; lia].
  - destruct (b32_five a b c false false) as (H1 & H2 & H3). exists 2%nat. cbn [b32_chars b32_bits].
    rewrite H1, H2. split_and!; [lia|done|by repeat constructor|simpl; lia].
  - destruct (b32_five a b c d false) as (H1 & H2 & H3). exists 1%nat. cbn [b32_chars b32_bits].
    rewrite H1, H2. split_and!; [lia|done|by repeat constructor|simpl; lia].
  - destruct (IH r) as (k & Hk & IH1 & IH2 & IH3); [simpl; lia|].
    destruct (b32_five a b c d e) as (H1 & H2 & H3). exists k. cbn [b32_chars b32_bits].
    rewrite H1, H2, IH1. split_and!; [done|done|by constructor|]. cbn [length]. lia.
Qed.

Lemma byte_bits_val : forallb (λ b, bits_val (byte_bits b) =? b) all_bytes = true.
Proof. vm_compute. reflexivity. Qed.

Lemma whole_bytes_bits bs rest :
  bytes_ok bs → (length rest < 8)%nat → whole_bytes (flat_map byte_bits bs ++ rest) = bs.
Proof.
  intros Hbs Hr. induction Hbs as [|b bs Hb Hbs IH].
  - simpl. by do 8 (destruct rest as [|? rest]; [done|]); simpl in Hr; lia.
  - cbn [flat_map]. rewrite <- app_assoc. unfold byte_bits at 1. cbn [map app whole_bytes]. rewrite IH. f_equal.
    pose proof byte_bits_val as H. rewrite forallb_forall in H.
    apply Z.eqb_eq, (H b), list_elem_of_In, elem_of_all_bytes, Hb.
Qed.

Lemma length_bits bs : length (flat_map byte_bits bs) = (8 * length bs)%nat.
Proof. induction bs as [|b bs IH]; [done|]. cbn [flat_map]. rewrite length_app, IH. simpl. lia. Qed.

Lemma filter_dash_chunks l :
  Forall (λ c, alphabet_ok c = true) l →
  List.filter (λ c, negb (bool_decide (c = dash))) (join_dash (chunks5 l)) = l.
Proof.
  assert (Hid : ∀ l, Forall (λ c, alphabet_ok c = true) l →
    List.filter (λ c, negb (bool_decide (c = dash))) l = l).
  { induction 1 as [|c l' Hc Hl IH]; [done|]. simpl. unfold alphabet_ok in Hc.
    apply andb_true_iff in Hc as [[[Hc _]%andb_true_iff _]%andb_true_iff _]. rewrite Hc. by rewrite IH. }
  induction l as [l IH] using length_induction. intros Hl.
  destruct l as [|a [|b [|c [|d [|e r]]]]]; try (by apply Hid).
  cbn [chunks5]. inversion Hl as [|? ? Ha Hl1]; subst. inversion Hl1 as [|? ? Hb Hl2]; subst.
  inversion Hl2 as [|? ? Hc Hl3]; subst. inversion Hl3 as [|? ? Hd Hl4]; subst.
  inversion Hl4 as [|? ? He Hr]; subst.
  assert (Hfive : Forall (λ c, alphabet_ok c = true) [a; b; c; d; e]) by (by repeat constructor).
  assert (Hrest := IH r ltac:(simpl; lia) Hr).
  destruct (chunks5 r) as [|x xs] eqn:Ex.
  - simpl in Hrest. subst r. by apply Hid.
  - change (join_dash ([a; b; c; d; e] :: x :: xs)) with ([a; b; c; d; e] ++ dash :: join_dash (x :: xs)).
    rewrite List.filter_app, (Hid _ Hfive). cbn [List.filter]. rewrite bool_decide_eq_true_2 by done.
    cbn [negb]. by rewrite Hrest.
Qed.

Lemma join_dash_forall (P : Ascii.ascii → Prop) l :
  P dash → Forall P l → Forall P (join_dash (chunks5 l)).
Proof.
  intros Hd. induction l as [l IH] using length_induction. intros Hl.
  destruct l as [|a [|b [|c [|d [|e r]]]]]; try done.
  cbn [chunks5]. change (a :: b :: c :: d :: e :: r) with ([a; b; c; d; e] ++ r) in Hl.
  apply Forall_app in Hl as [H5 Hr]. specialize (IH r ltac:(simpl; lia) Hr).
  destruct (chunks5 r) as [|x xs]; [done|].
  change (join_dash ([a; b; c; d; e] :: x :: xs)) with ([a; b; c; d; e] ++ dash :: join_dash (x :: xs)).
  apply Forall_app. split; [done|]. by constructor.
Qed.

Lemma lstrip_id f l : Forall (λ c, f c = false) l → lstrip f l = l.
Proof. intros H. destruct H as [|c l Hc _]; [done|]. simpl. by rewrite Hc. Qed.

Lemma rstrip_id f l : Forall (λ c, f c = false) l → rstrip f l = l.
Proof.
  intros H. unfold rstrip. rewrite lstrip_id; [apply reverse_involutive|]. by apply Forall_reverse.
Qed.

Lemma rstrip_pad l k :
  Forall (λ c, is_pad c = false) l → rstrip is_pad (l ++ replicate k equals_sign) = l.
Proof.
  intros H. unfold rstrip. rewrite reverse_app.
  assert (E : ∀ k r, lstrip is_pad (replicate k equals_sign ++ r) = lstrip is_pad r)
    by (clear; intros k r; induction k; done).
  rewrite reverse_replicate, E, lstrip_id; [apply reverse_involutive|]. by apply Forall_reverse.
Qed.

Lemma map_id_forall {A} (f : A → A) l : Forall (λ c, f c = c) l → map f l = l.
Proof. induction 1 as [|c l Hc _ IH]; [done|]. simpl. by rewrite Hc, IH. Qed.

Lemma alphabet_spec c :
  alphabet_ok c = true → is_pad c = false ∧ is_str_space c = false ∧ upper_char c = c.
Proof.
  unfold alphabet_ok. rewrite !andb_true_iff, !negb_true_iff, bool_decide_eq_true. naive_solver.
Qed.

(** [upper().strip()] leaves the prefix followed by groups of the alphabet. *)
Lemma code_clean l :
  Forall (λ c, alphabet_ok c = true) l →
  let text := chars_of INVITE_CODE_PREFIX ++ join_dash (chunks5 l) in
  strip (map upper_char text) = text.
Proof.
  intros Hl text.
  assert (Ht : Forall (λ c, upper_char c = c ∧ is_str_space c = false) text).
  { apply Forall_app. split; [by repeat constructor|]. apply join_dash_forall; [done|].
    eapply Forall_impl; [exact Hl|]. intros c Hc%alphabet_spec. naive_solver. }
  rewrite map_id_forall by (eapply Forall_impl; [exact Ht|]; naive_solver).
  assert (Hs : Forall (λ c, is_str_space c = false) text)
    by (eapply Forall_impl; [exact Ht|]; naive_solver).
  unfold strip. by rewrite (lstrip_id _ _ Hs), (rstrip_id _ _ Hs).
Qed.

(** Base32 with its padding put back gives the bytes again. *)
Lemma b32_roundtrip bs :
  bytes_ok bs → length bs = 33%nat →
  let l := b32encode_stripped bs in
  Forall (λ c, alphabet_ok c = true) l ∧ length l = 53%nat ∧
  b32decode (l ++ replicate 3 equals_sign) = Some bs.
Proof.
  intros Hbs Hlen l. unfold l, b32encode_stripped.
  destruct (b32_bits_chars (flat_map byte_bits bs)) as (k & Hk & Hbits & Hok & Hn).
  rewrite length_bits, Hlen in Hn.
  assert (H53 : length (b32_chars (flat_map byte_bits bs)) = 53%nat) by lia.
  split_and!; [done|done|]. unfold b32decode.
  rewrite rstrip_pad by (eapply Forall_impl; [exact Hok|]; intros c Hc%alphabet_spec; naive_solver).
  unfold zlen. rewrite length_app, H53, length_replicate.
  replace (Z.of_nat (53 + 3) - Z.of_nat 53) with 3 by lia.
  rewrite bool_decide_eq_true_2 by set_solver. change (Z.of_nat (53 + 3) mod 8 =? 0) with true.
  cbn [negb orb]. rewrite Hbits. cbn [fmap option_fmap option_map]. f_equal.
  apply whole_bytes_bits; [done|]. rewrite length_replicate. lia.
Qed.

(** every 16-byte token and 16-byte destination hash, written in
    hexadecimal, encodes to a code, and decoding that code gives back the same
    two hexadecimal strings. *)
Theorem invite_code_roundtrip (t d : bytes) :
  bytes_ok t → bytes_ok d → length t = 16%nat → length d = 16%nat →
  ∃ code, encode_invite (string_of (hex t)) (string_of (hex d)) = Ok code
  ∧ decode_invite code = Ok (string_of (hex t), string_of (hex d)).
Proof.
  intros Ht Hd Lt Ld. unfold encode_invite. rewrite !chars_string, !fromhex_hex by done.
  set (bs := (t ++ d) ++ [_crc8 (t ++ d)]).
  assert (Hraw : bytes_ok (t ++ d)) by (by apply Forall_app).
  assert (Hbs : bytes_ok bs).
  { apply Forall_app. split; [done|]. constructor; [|constructor].
    apply crc_foldl_ok; [split; lia|done]. }
  assert (Lbs : length bs = 33%nat) by (unfold bs; rewrite !length_app; simpl; lia).
  destruct (b32_roundtrip bs Hbs Lbs) as (Hok & H53 & Hdec).
  eexists. split; [reflexivity|]. unfold decode_invite. rewrite chars_string, (code_clean _ Hok).
  rewrite take_app_length, bool_decide_eq_true_2 by done. cbn [negb].
  rewrite drop_app_length, (filter_dash_chunks _ Hok). unfold zlen at 1. rewrite H53.
  change (Z.to_nat ((8 - Z.of_nat 53 mod 8) mod 8)) with 3%nat. rewrite Hdec.
  unfold zlen. rewrite Lbs. change (Z.of_nat 33 <? 2) with false. cbn iota.
  assert (E : take (33 - 1) bs = t ++ d)
    by (unfold bs; apply take_app_length'; rewrite length_app; lia).
  rewrite E. unfold bs at 1. rewrite last_snoc. cbn [default]. rewrite Z.eqb_refl. cbn [negb].
  rewrite length_app, Lt, Ld. change (Z.of_nat (16 + 16) <? 32) with false. cbn iota.
  rewrite take_app_length' by done. rewrite drop_app_length' by done.
  by rewrite take_ge by lia.
Qed.

Definition sample_token : bytes := map Z.of_nat (seq 0 16).
Definition sample_dest : bytes := map Z.of_nat (seq 240 16).

Lemma invite_code_roundtrip_witness :
  ∃ code, encode_invite (string_of (hex sample_token)) (string_of (hex sample_dest)) = Ok code
  ∧ decode_invite code = Ok (string_of (hex sample_token), string_of (hex sample_dest)).
Proof.
  apply (invite_code_roundtrip sample_token sample_dest); [..|reflexivity|reflexivity];
    repeat constructor; vm_compute; done.
Defined.
