(* ===== verification/Session.v ===== *)
(** * CDSP sessions, invites and sealed keys over sync
    ([hokora/protocol/session.py], [handlers/session.py])

    [CDSPSessionManager] keeps the client-declared sync profile of every
    identity in the [sessions] table, with a queue of deferred items per
    session; the handlers of the session group (CDSP, invites, sealed keys)
    gate it.  The random session id and resume token are arguments. *)

From S2P Require Import Prelude Constants Models Queries Permissions RateLimit Ban Sealed Sequencer Message Wire History Invites.

(** A deferred item as it goes on the wire. *)
Record WireItem := {
  wi_channel_id : option string;
  wi_sync_action : Z;
  wi_payload : val;
}.

Definition plain_item (d : DeferredSyncItem) : WireItem :=
  {| wi_channel_id := di_channel_id d; wi_sync_action := di_sync_action d;
     wi_payload := di_payload d |}.

Definition unwrap_payload `{Msgpack} (v : val) : val :=
  match v with
  | VDict d =>
      match dict_get "wire_hex" d with
      | Some (VStr h) =>
          match fromhex (chars_of h) with
          | Some b => match unpackb b with Some (VDict d') => VDict d' | _ => v end
          | None => v
          end
      | _ => v
      end
  | _ => v
  end.

Definition _unwrap_deferred_item `{Msgpack} (d : DeferredSyncItem) : WireItem :=
  {| wi_channel_id := di_channel_id d; wi_sync_action := di_sync_action d;
     wi_payload := unwrap_payload (di_payload d) |}.

Definition _VALID_PROFILES : list Z := dict_keys CDSP_PROFILE_LIMITS.

(** [v in _VALID_PROFILES]: numbers compare by value, and a value that cannot
    be hashed raises. *)
Definition valid_profile (v : val) : res (option Z) :=
  let known p := if bool_decide (p ∈ _VALID_PROFILES) then Some p else None in
  match v with
  | VInt z => Ok (known z)
  | VBool b => Ok (known (Z.b2z b))
  | VFloat f => Ok (List.find (λ p, fle (fz p) f && fle f (fz p)) _VALID_PROFILES)
  | VList _ | VDict _ => Raise (Exn TypeError "unhashable type")
  | _ => Ok None
  end.

Module CDSPSessionManager.

Record t := {
  cdsp_enabled : bool;                   (* config *)
  cdsp_session_timeout : Z;
  cdsp_init_timeout : Z;
  _init_timers : gmap string float;      (* when each pending timer fires *)
  _lxmf_destinations : gmap string val;
}.

Definition set_timers (f : gmap string float → gmap string float) (s : t) : t :=
  {| cdsp_enabled := cdsp_enabled s; cdsp_session_timeout := cdsp_session_timeout s;
     cdsp_init_timeout := cdsp_init_timeout s; _init_timers := f (_init_timers s);
     _lxmf_destinations := _lxmf_destinations s |}.
Definition set_lxmf (f : gmap string val → gmap string val) (s : t) : t :=
  {| cdsp_enabled := cdsp_enabled s; cdsp_session_timeout := cdsp_session_timeout s;
     cdsp_init_timeout := cdsp_init_timeout s; _init_timers := _init_timers s;
     _lxmf_destinations := f (_lxmf_destinations s) |}.

Definition on_db {A} (m : M DB A) : M (DB * t) A := lift fst (λ db s, (db, s.2)) m.
Definition on_self (f : t → t) : M (DB * t) unit := modify (λ s, (s.1, f s.2)).

Inductive reply :=
  | Rejected (error_code : Z) (cdsp_version : option Z)
  | Opened (session_id : string) (accepted_profile : Z) (resume_token : bytes)
  | Resumed (session_id : string) (accepted_profile : Z) (flushed_items : list WireItem)
  | Updated (session_id : string) (accepted_profile deferred_count : Z)
      (flushed_items : list WireItem).

(** The session a resume token reopens. *)
Definition resume_target (resume_token : option val) (existing : option Session) : option Session :=
  match resume_token, existing with
  | Some v, Some s =>
      if val_true v && match v, ses_resume_token s with
                       | VBytes b, Some b' => bool_decide (b' = b)
                       | _, _ => false
                       end
      then Some s else None
  | _, _ => None
  end.

Definition resume `{Msgpack} (now : float) (existing : Session) (sync_profile : Z) : M DB reply :=
  let sid := ses_session_id existing in
  modify (set_sessions (alter (SessionRepo.set_profile now sync_profile) sid)) ;;
  let! flushed := DeferredSyncItemRepo.flush_for_session sid sync_profile in
  modify (set_sessions (alter (SessionRepo.set_deferred_count 0) sid)) ;;
  ret (Resumed sid sync_profile (map _unwrap_deferred_item flushed)).

Definition open_session (now : float) (session_id : string) (new_resume_token : bytes)
    (timeout : Z) (identity_hash : string) (sync_profile client_version : Z) : M DB reply :=
  let! existing := gets (SessionRepo.get_active_session identity_hash) in
  match existing with
  | Some ex => SessionRepo.update_state now (ses_session_id ex) CDSP_STATE_CLOSED ;; ret tt
  | None => ret tt
  end ;;
  SessionRepo.create_session now session_id identity_hash sync_profile client_version
    (Some new_resume_token) (Some (now + fz timeout)%F) ;;
  ret (Opened session_id sync_profile new_resume_token).

Definition handle_session_init `{Msgpack} (now : float) (session_id : string)
    (new_resume_token : bytes) (identity_hash : string) (payload : dict string val)
    : M (DB * t) reply :=
  when (get_bool "lxmf_destination" payload && str_true identity_hash)
    (on_self (set_lxmf (<[identity_hash := default VNone (dict_get "lxmf_destination" payload)]>))) ;;
  let! client_version := of_res (get_int "cdsp_version" 1 payload) in
  if CDSP_VERSION <? client_version then ret (Rejected 1 (Some CDSP_VERSION))
  else
    let! p := of_res (valid_profile
                        (default (VInt CDSP_PROFILE_FULL) (dict_get "sync_profile" payload))) in
    match p with
    | None => ret (Rejected 2 (Some CDSP_VERSION))
    | Some sync_profile =>
        on_self (set_timers (delete identity_hash)) ;;
        let! existing := on_db (gets (SessionRepo.get_active_session identity_hash)) in
        let! timeout := gets (λ s, cdsp_session_timeout s.2) in
        match resume_target (dict_get "resume_token" payload) existing with
        | Some ex => on_db (resume now ex sync_profile)
        | None => on_db (open_session now session_id new_resume_token timeout identity_hash
                           sync_profile client_version)
        end
    end.

Definition get_lxmf_destination (identity_hash : string) (s : t) : option val :=
  _lxmf_destinations s !! identity_hash.

(** [CDSP_PROFILE_LIMITS.get(p, {}).get("max_sync_limit", 0)] *)
Definition profile_max (p : Z) : Z :=
  match dict_get p CDSP_PROFILE_LIMITS with Some l => max_sync_limit l | None => 0 end.

Definition handle_profile_update (now : float) (session_id : string) (new_profile : val)
    : M DB reply :=
  let! p := of_res (valid_profile new_profile) in
  match p with
  | None => ret (Rejected 2 None)
  | Some new_profile =>
      let! sess := gets (SessionRepo.get_session session_id) in
      match sess with
      | None => ret (Rejected 3 None)
      | Some sess =>
          if negb (bool_decide (ses_state sess = CDSP_STATE_ACTIVE)) then ret (Rejected 3 None)
          else
            let old_profile := ses_sync_profile sess in
            SessionRepo.update_profile now session_id new_profile ;;
            if profile_max old_profile <? profile_max new_profile then
              let! flushed := DeferredSyncItemRepo.flush_for_session session_id new_profile in
              modify (set_sessions (alter (SessionRepo.set_deferred_count 0) session_id)) ;;
              ret (Updated session_id new_profile 0 (map plain_item flushed))
            else ret (Updated session_id new_profile (ses_deferred_count sess) [])
      end
  end.

(** A new timer for an identity cancels the one it had. *)
Definition start_init_timer (now : float) (identity_hash : string) (s : t) : t :=
  if cdsp_enabled s
  then set_timers (<[identity_hash := (now + fz (cdsp_init_timeout s))%F]>) s else s.

(** [_timeout]: the timer is dropped and the callback opens a default session
    ([HokoraDaemon._create_default_session_async]), in a transaction of its
    own; an exception is logged. *)
Definition _create_default_session_async `{Msgpack} (now : float) (session_id : string)
    (new_resume_token : bytes) (identity_hash : string) : M (DB * t) unit :=
  catch (atomic (λ s0 s1, (s0.1, s1.2))
           (handle_session_init now session_id new_resume_token identity_hash
              [("cdsp_version", VInt 1); ("sync_profile", VInt CDSP_PROFILE_FULL)]) ;; ret tt)
    (λ _, ret tt).

Definition init_timeout `{Msgpack} (now : float) (session_id : string) (new_resume_token : bytes)
    (identity_hash : string) : M (DB * t) unit :=
  let! due := gets (λ s, match _init_timers s.2 !! identity_hash with
                         | Some d => fle d now
                         | None => false
                         end) in
  when due
    (on_self (set_timers (delete identity_hash)) ;;
     _create_default_session_async now session_id new_resume_token identity_hash).

Definition get_profile_limits (sync_profile : Z) : ProfileLimits :=
  default FULL_LIMITS (dict_get sync_profile CDSP_PROFILE_LIMITS).

Definition cleanup_expired_sessions (now : float) (timeout : Z) : M DB Z :=
  let! count := SessionRepo.cleanup_expired now (fz timeout) in
  DeferredSyncItemRepo.cleanup_expired now ;;
  ret count.
End CDSPSessionManager.

(** ** The handlers *)

(** The remote end of a link: [get_remote_identity()] gives the identity, if
    the peer has identified, or raises; RNS encrypts to it. *)
Record RemoteIdentity := {
  ri_hexhash : string;
  ri_encrypt : bytes → res bytes;
}.
Definition Link : Type := res (option RemoteIdentity).
Definition remote_of (link : option Link) : option RemoteIdentity :=
  match link with Some (Ok o) => o | _ => None end.

Record SessionContext := {
  sc_cdsp_manager : bool;
  sc_channel_manager : option (gmap string Channel);
  sc_invite_manager : bool;
  sc_node_identity : string;
  sc_permission_resolver : option string;      (* its node_owner_hash *)
  sc_rate_limiter : bool;
  sc_sealed_manager : option SealedChannelManager.t;
}.

Record SessionNode := {
  sn_iv : InviteManager.t;                     (* the database and the invite manager's tables *)
  sn_rl : RateLimiter.t;
  sn_cdsp : CDSPSessionManager.t;
}.
Definition sn_db (s : SessionNode) : DB := InviteManager.iv_db (sn_iv s).
Definition sn_set_iv (iv : InviteManager.t) (s : SessionNode) : SessionNode :=
  {| sn_iv := iv; sn_rl := sn_rl s; sn_cdsp := sn_cdsp s |}.
Definition sn_set_rl (rl : RateLimiter.t) (s : SessionNode) : SessionNode :=
  {| sn_iv := sn_iv s; sn_rl := rl; sn_cdsp := sn_cdsp s |}.
Definition sn_set_cdsp (x : DB * CDSPSessionManager.t) (s : SessionNode) : SessionNode :=
  {| sn_iv := InviteManager.set_iv_db x.1 (sn_iv s); sn_rl := sn_rl s; sn_cdsp := x.2 |}.
Definition iv_op {A} (m : M InviteManager.t A) : M SessionNode A := lift sn_iv sn_set_iv m.
Definition sdb_op {A} (m : M DB A) : M SessionNode A := iv_op (InviteManager.on_iv_db m).
Definition rl_op {A} (m : M RateLimiter.t A) : M SessionNode A := lift sn_rl sn_set_rl m.
Definition cdsp_op {A} (m : M (DB * CDSPSessionManager.t) A) : M SessionNode A :=
  lift (λ s, (sn_db s, sn_cdsp s)) sn_set_cdsp m.

(** [try: m except classes as e: raise SyncError(...)] *)
Definition as_sync_error {S A} (classes : list exn_class) (m : M S A) : M S A :=
  catch m (λ e, if bool_decide (exn_cls e ∈ classes) then raise SyncError (exn_msg e) else throw e).

(** The channel manager's [get_channel]. *)
Definition managed_channel (ctx : SessionContext) (c : string) : option Channel :=
  sc_channel_manager ctx ≫= λ m, m !! c.

(** Sealing the channel key to the redeemer over the link; failures are logged. *)
Definition distribute_sealed_key (ctx : SessionContext) (now : float) (link : option Link)
    (requester channel_id : string) : M SessionNode (option Z) :=
  match sc_sealed_manager ctx, sc_channel_manager ctx with
  | Some _, None => raise AttributeError "get_channel"
  | _, _ => ret tt
  end ;;
  match sc_sealed_manager ctx, managed_channel ctx channel_id, remote_of link with
  | Some mgr, Some channel, Some peer =>
      match SealedChannelManager._keys mgr !! channel_id with
      | Some key =>
          if negb (ch_sealed channel) then ret None
          else
            match ri_encrypt peer (ki_key key) with
            | Raise _ => ret None
            | Ok blob =>
                sdb_op (check_fk channels channel_id ;;
                        modify (set_sealed_keys (λ l, l ++ [{|
                          sk_id := next_rowid l; sk_channel_id := channel_id;
                          sk_epoch := ki_epoch key;
                          sk_encrypted_key_blob := blob; sk_identity_hash := requester;
                          sk_created_at := now |}]))) ;;
                ret (Some (ki_epoch key))
            end
      | None => ret None
      end
  | _, _, _ => ret None
  end.

Record RedeemResponse := {
  rr_channel_id : option string;
  rr_identity_hash : string;
  rr_sealed_key_epoch : option Z;
}.

Definition handle_redeem_invite `{Hashing} (ctx : SessionContext) (now : float)
    (payload : dict string val) (requester_hash : option string) (link : option Link)
    : M SessionNode RedeemResponse :=
  let requester_hash := if ostr_true requester_hash then requester_hash
                        else match remote_of link with
                             | Some i => Some (ri_hexhash i)
                             | None => requester_hash
                             end in
  if negb (ostr_true requester_hash)
  then raise SyncError "Authentication required to redeem an invite"
  else
    let requester := or_empty requester_hash in
    match dict_get "token" payload with
    | Some (VStr raw_token) =>
        if negb (str_true raw_token) then raise SyncError "No token provided for redeem_invite"
        else if negb (sc_invite_manager ctx) then raise AttributeError "redeem_invite"
        else
          let! invite := as_sync_error [InviteError; RateLimitExceeded]
                           (iv_op (InviteManager.redeem_invite now raw_token requester)) in
          let! epoch := match inv_channel_id invite with
                        | Some c => if str_true c then distribute_sealed_key ctx now link requester c
                                    else ret None
                        | None => ret None
                        end in
          ret {| rr_channel_id := inv_channel_id invite; rr_identity_hash := requester;
                 rr_sealed_key_epoch := epoch |}
    | Some v => if val_true v
                then as_sync_error [InviteError; RateLimitExceeded]
                       (iv_op (InviteManager.redeem_gates now requester)) ;;
                     raise TypeError "token"
                else raise SyncError "No token provided for redeem_invite"
    | None => raise SyncError "No token provided for redeem_invite"
    end.

Record SealedKeyResponse := {
  kr_channel_id : string;
  kr_epoch : option Z;
  kr_encrypted_key_blob : option bytes;
}.

Definition handle_request_sealed_key (ctx : SessionContext) (now : float)
    (payload : dict string val) (channel_id requester_hash : option string)
    : M SessionNode SealedKeyResponse :=
  let ch := get_str "channel_id" channel_id payload in
  if negb (ostr_true ch) then raise SyncError "No channel_id for request_sealed_key"
  else if negb (ostr_true requester_hash)
  then raise SyncError "Authentication required for sealed key request"
  else
    let ch := or_empty ch in
    let requester := or_empty requester_hash in
    if match managed_channel ctx ch with Some c => negb (ch_sealed c) | None => false end
    then ret {| kr_channel_id := ch; kr_epoch := None; kr_encrypted_key_blob := None |}
    else
      when (sc_rate_limiter ctx)
        (as_sync_error [RateLimitExceeded] (rl_op (RateLimiter.check_rate_limit now requester)) ;;
         ret tt) ;;
      let! db := gets sn_db in
      if negb (list_true (RoleRepo.get_identity_roles requester (Some ch) true db))
      then raise PermissionDenied "Not a member of this channel"
      else
        match head (sort_by (λ a b, sk_epoch b <=? sk_epoch a)
                      (List.filter (λ k, bool_decide (sk_channel_id k = ch)
                                         && bool_decide (sk_identity_hash k = requester))
                         (sealed_keys db))) with
        | None => raise SyncError "No sealed key available for this member"
        | Some k => ret {| kr_channel_id := ch; kr_epoch := Some (sk_epoch k);
                           kr_encrypted_key_blob := Some (sk_encrypted_key_blob k) |}
        end.

Definition handle_cdsp_session_init `{Msgpack} (ctx : SessionContext) (now : float)
    (session_id : string) (new_resume_token : bytes) (payload : dict string val)
    (requester_hash : option string) : M SessionNode CDSPSessionManager.reply :=
  if negb (sc_cdsp_manager ctx) then raise SyncError "CDSP not enabled on this node"
  else if negb (ostr_true requester_hash)
  then raise SyncError "Authentication required for CDSP session"
  else cdsp_op (CDSPSessionManager.handle_session_init now session_id new_resume_token
                  (or_empty requester_hash) payload).

(** A session id that is not text names no session. *)
Definition handle_cdsp_profile_update (ctx : SessionContext) (now : float)
    (payload : dict string val) : M SessionNode CDSPSessionManager.reply :=
  if negb (sc_cdsp_manager ctx) then raise SyncError "CDSP not enabled on this node"
  else
    match dict_get "session_id" payload, dict_get "sync_profile" payload with
    | Some sid, Some p =>
        if negb (val_true sid) || match p with VNone => true | _ => false end
        then raise SyncError "session_id and sync_profile required for profile update"
        else
          match sid with
          | VStr sid => sdb_op (CDSPSessionManager.handle_profile_update now sid p)
          | _ => let! p := of_res (valid_profile p) in
                 ret (CDSPSessionManager.Rejected (match p with Some _ => 3 | None => 2 end) None)
          end
    | _, _ => raise SyncError "session_id and sync_profile required for profile update"
    end.

Record InviteResponse := {
  ir_token : string;
  ir_token_hash : string;
  ir_max_uses : Z;
  ir_expiry_hours : Z;
  ir_channel_id : option string;
}.

Definition has_colon (s : string) : bool :=
  negb (bool_decide (InviteManager.before_colon s = s)).

(** The permission to create an invite. *)
Definition check_create_invite (ctx : SessionContext) (requester : string) (ch : option string)
    : M SessionNode unit :=
  match sc_permission_resolver ctx with
  | None => ret tt
  | Some owner =>
      if bool_decide (requester = sc_node_identity ctx) then ret tt
      else if negb (ostr_true ch) then raise PermissionDenied "Node-level invites require node_owner"
      else
        match managed_channel ctx (or_empty ch) with
        | None => raise SyncError "Channel not found"
        | Some c =>
            let! db := gets sn_db in
            if PermissionResolver.resolve owner requester c PERM_MANAGE_MEMBERS db then ret tt
            else raise PermissionDenied "Requires MANAGE_MEMBERS permission"
        end
  end.

(** The branch for an invite to no channel calls [get_all_channels()], which
    the channel manager does not have. *)
Definition handle_create_invite `{Hashing} (ctx : SessionContext) (now : float) (raw_token : string)
    (payload : dict string val) (channel_id requester_hash : option string)
    : M SessionNode InviteResponse :=
  if negb (ostr_true requester_hash)
  then raise PermissionDenied "Authentication required to create invites"
  else if negb (sc_invite_manager ctx) then raise SyncError "Invite system not available"
  else
    let requester := or_empty requester_hash in
    let ch := get_str "channel_id" channel_id payload in
    check_create_invite ctx requester ch ;;
    let! max_uses := of_res (get_int "max_uses" 1 payload) in
    let! expiry_hours := of_res (get_int "expiry_hours" 72 payload) in
    let! destination_hash :=
      (if ostr_true ch && bool_decide (is_Some (sc_channel_manager ctx)) then
         match managed_channel ctx (or_empty ch) with
         | Some c => ret (if ostr_true (ch_destination_hash c) then ch_destination_hash c else None)
         | None => ret None
         end
       else if bool_decide (is_Some (sc_channel_manager ctx)) then raise AttributeError "get_all_channels"
       else ret None) in
    let! (token, token_hash) :=
      sdb_op (InviteManager.create_invite now raw_token requester ch max_uses expiry_hours
                destination_hash None) in
    ret {| ir_token := if ostr_true ch && has_colon token then colon token (or_empty ch) else token;
           ir_token_hash := token_hash; ir_max_uses := max_uses; ir_expiry_hours := expiry_hours;
           ir_channel_id := ch |}.

(** Token-hash prefix, channel, maximum, uses, expiry, revoked. *)
Definition handle_list_invites (ctx : SessionContext) (payload : dict string val)
    (channel_id requester_hash : option string)
    : M SessionNode (list (string * option string * Z * Z * option float * bool)) :=
  if negb (ostr_true requester_hash)
  then raise PermissionDenied "Authentication required to list invites"
  else if negb (sc_invite_manager ctx) then raise SyncError "Invite system not available"
  else if negb (bool_decide (or_empty requester_hash = sc_node_identity ctx))
  then raise PermissionDenied "Invite listing requires node_owner"
  else
    let! db := gets sn_db in
    ret (map (λ i, (py_take 12 (inv_token_hash i), inv_channel_id i, inv_max_uses i, inv_uses i,
                    inv_expires_at i, inv_revoked i))
           (InviteManager.list_invites (get_str "channel_id" channel_id payload) db)).

Import CDSPSessionManager.

(** ** One active session per identity *)

Record sessions_ok (db : DB) : Prop := {
  so_key : ∀ id s, sessions db !! id = Some s → ses_session_id s = id;
  so_one : ∀ id1 id2 s1 s2, sessions db !! id1 = Some s1 → sessions db !! id2 = Some s2 →
    ses_identity_hash s1 = ses_identity_hash s2 →
    ses_state s1 = CDSP_STATE_ACTIVE → ses_state s2 = CDSP_STATE_ACTIVE → id1 = id2;
}.

Lemma is_active_of_spec i s :
  SessionRepo.is_active_of i s = true ↔
  ses_identity_hash s = i ∧ ses_state s = CDSP_STATE_ACTIVE.
Proof. unfold SessionRepo.is_active_of. by rewrite andb_true_iff, !bool_decide_eq_true. Qed.

Lemma active_session_in i db s :
  SessionRepo.get_active_session i db = Some s →
  (∃ id, sessions db !! id = Some s) ∧ SessionRepo.is_active_of i s = true.
Proof.
  unfold SessionRepo.get_active_session. intros H%head_Some_elem_of.
  by rewrite elem_of_sort_by, elem_of_filter_bool, elem_of_rows in H.
Qed.

Lemma active_session_none i db :
  SessionRepo.get_active_session i db = None ↔
  ∀ id s, sessions db !! id = Some s → SessionRepo.is_active_of i s = false.
Proof.
  unfold SessionRepo.get_active_session. rewrite head_None. split.
  - intros H id s Hs. destruct (SessionRepo.is_active_of i s) eqn:E; [|done].
    assert (Hin : s ∈ sort_by (λ a b, fle (ses_last_activity b) (ses_last_activity a))
                        (List.filter (SessionRepo.is_active_of i) (rows (sessions db)))).
    { rewrite elem_of_sort_by, elem_of_filter_bool, elem_of_rows. eauto. }
    rewrite H in Hin. by apply not_elem_of_nil in Hin.
  - intros H. apply elem_of_nil_inv. intros s. rewrite elem_of_sort_by, elem_of_filter_bool, elem_of_rows.
    intros [[id Hs] E]. rewrite (H id s Hs) in E. done.
Qed.

Lemma active_session_unique i db s :
  sessions_ok db →
  SessionRepo.get_active_session i db = Some s ↔
  sessions db !! ses_session_id s = Some s ∧ SessionRepo.is_active_of i s = true.
Proof.
  intros [Hkey Hone]. split.
  - intros [[id Hs] E]%active_session_in. by rewrite (Hkey _ _ Hs).
  - intros [Hs E]. destruct (SessionRepo.get_active_session i db) as [s'|] eqn:Es.
    + apply active_session_in in Es as [[id Hs'] E']. apply is_active_of_spec in E as [E1 E2], E' as [E3 E4].
      rewrite (Hone id (ses_session_id s) s' s) in Hs' by congruence. congruence.
    + rewrite active_session_none in Es. by rewrite (Es _ _ Hs) in E.
Qed.

(** An update of one session that keeps its id and identity and does not
    activate it. *)
Definition tame (f : Session → Session) : Prop :=
  ∀ s, ses_session_id (f s) = ses_session_id s ∧ ses_identity_hash (f s) = ses_identity_hash s
  ∧ (ses_state (f s) = CDSP_STATE_ACTIVE → ses_state s = CDSP_STATE_ACTIVE).

Lemma tame_profile now p : tame (SessionRepo.set_profile now p).
Proof. done. Qed.
Lemma tame_count n : tame (SessionRepo.set_deferred_count n).
Proof. done. Qed.
Lemma tame_close now : tame (SessionRepo.set_state now CDSP_STATE_CLOSED).
Proof. done. Qed.

Lemma alter_inv {A} (f : A → A) id (m : gmap string A) k a :
  alter f id m !! k = Some a → ∃ b, m !! k = Some b ∧ (a = b ∨ a = f b).
Proof.
  destruct (decide (id = k)) as [->|Hne].
  - rewrite lookup_alter_eq. intros (b & Hb & ->)%fmap_Some. eauto.
  - rewrite lookup_alter_ne by done. eauto.
Qed.

Lemma sessions_ok_alter f id db :
  tame f → sessions_ok db → sessions_ok (set_sessions (alter f id) db).
Proof.
  intros Hf [Hkey Hone]. split; simpl.
  - intros k s (b & Hb & Es)%alter_inv. destruct (Hf b) as (Fk & _ & _). apply Hkey in Hb.
    destruct Es as [->| ->]; congruence.
  - intros k1 k2 s1 s2 (b1 & Hb1 & Es1)%alter_inv (b2 & Hb2 & Es2)%alter_inv.
    destruct (Hf b1) as (_ & I1 & A1), (Hf b2) as (_ & I2 & A2). intros Hi Ha1 Ha2.
    apply (Hone k1 k2 b1 b2 Hb1 Hb2); destruct Es1; destruct Es2; subst; auto; congruence.
Qed.

Lemma sessions_ok_same db db' : sessions db' = sessions db → sessions_ok db → sessions_ok db'.
Proof. intros E [Hkey Hone]. split; by rewrite E. Qed.

Lemma sessions_ok_insert db sid s :
  sessions_ok db → ses_session_id s = sid →
  (∀ id x, sessions db !! id = Some x → SessionRepo.is_active_of (ses_identity_hash s) x = false) →
  sessions_ok (set_sessions (<[sid := s]>) db).
Proof.
  intros [Hkey Hone] Hsid Hnone.
  assert (Hna : ∀ id x, sessions db !! id = Some x → ses_identity_hash x = ses_identity_hash s →
                        ses_state x = CDSP_STATE_ACTIVE → False).
  { intros id x Hx Hi Ha. specialize (Hnone id x Hx).
    by rewrite (proj2 (is_active_of_spec (ses_identity_hash s) x)) in Hnone. }
  split; simpl.
  - intros k x [[<- <-]|[_ Hx]]%lookup_insert_Some; [done|by apply Hkey].
  - intros k1 k2 x1 x2 [[<- <-]|[? Hx1]]%lookup_insert_Some [[<- <-]|[? Hx2]]%lookup_insert_Some Hi Ha1 Ha2;
      [done| | |by apply (Hone k1 k2 x1 x2)]; exfalso; eauto.
Qed.

Definition new_session (now : float) (sid : string) (tok : bytes) (timeout : Z) (ident : string)
    (p v : Z) : Session := {|
  ses_session_id := sid; ses_identity_hash := ident; ses_sync_profile := p;
  ses_cdsp_version := v; ses_state := CDSP_STATE_ACTIVE; ses_resume_token := Some tok;
  ses_deferred_count := 0; ses_created_at := now; ses_last_activity := now;
  ses_expires_at := Some (now + fz timeout)%F |}.

Lemma open_session_run now sid tok timeout ident p v db :
  sessions_ok db →
  let db1 := match SessionRepo.get_active_session ident db with
             | Some ex => set_sessions (alter (SessionRepo.set_state now CDSP_STATE_CLOSED)
                                          (ses_session_id ex)) db
             | None => db
             end in
  sessions_ok db1 ∧ SessionRepo.get_active_session ident db1 = None ∧
  open_session now sid tok timeout ident p v db
  = match sessions db1 !! sid with
    | Some _ => (Raise (Exn IntegrityError "UNIQUE constraint failed"), db1)
    | None => (Ok (Opened sid p tok),
               set_sessions (<[sid := new_session now sid tok timeout ident p v]>) db1)
    end.
Proof.
  intros Hok db1.
  assert (Hrun : open_session now sid tok timeout ident p v db
    = (SessionRepo.create_session now sid ident p v (Some tok) (Some (now + fz timeout)%F) ;;
       ret (Opened sid p tok)) db1).
  { unfold open_session, db1. unfold bind at 1, gets at 1.
    by destruct (SessionRepo.get_active_session ident db). }
  split_and!.
  - unfold db1. destruct (SessionRepo.get_active_session ident db); [|done].
    apply sessions_ok_alter; [apply tame_close|done].
  - unfold db1. destruct (SessionRepo.get_active_session ident db) as [ex|] eqn:E; [|done].
    apply active_session_none. simpl. intros id x Hx.
    destruct (SessionRepo.is_active_of ident x) eqn:Ea; [|done]. exfalso.
    apply is_active_of_spec in Ea as [Ei Ea]. apply (active_session_unique _ _ _ Hok) in E as [Hex E].
    apply is_active_of_spec in E as [Ei' Ea']. destruct Hok as [Hkey Hone].
    destruct (decide (ses_session_id ex = id)) as [Hid|Hne].
    + rewrite <- Hid, lookup_alter_eq, Hex in Hx. injection Hx as <-. done.
    + rewrite lookup_alter_ne in Hx by done. apply Hne. apply (Hone _ _ ex x Hex Hx); congruence.
  - rewrite Hrun. unfold SessionRepo.create_session, check_unique, bind, get, raise, ret, modify.
    destruct (sessions db1 !! sid); done.
Qed.

Lemma valid_profile_in v p : valid_profile v = Ok (Some p) → p ∈ _VALID_PROFILES.
Proof.
  unfold valid_profile. destruct v; try done; intros H; apply (f_equal (λ r, match r with
    Ok o => o | Raise _ => None end)) in H; cbv beta iota in H.
  - by case_bool_decide; simplify_eq.
  - by case_bool_decide; simplify_eq.
  - apply find_some in H as [H _]. by apply list_elem_of_In.
Qed.

Section init.
Context `{HP : Msgpack}.

(** An init request either leaves the database alone, or resumes the
    requester's session or opens a new one, with a known profile. *)
Lemma init_cases now sid tok ident payload db m r db' m' :
  handle_session_init now sid tok ident payload (db, m) = (r, (db', m')) →
  (db' = db ∧ match r with Ok (Rejected _ _) | Raise _ => True | _ => False end)
  ∨ ∃ p v, p ∈ _VALID_PROFILES ∧
      (r, db') = match resume_target (dict_get "resume_token" payload)
                         (SessionRepo.get_active_session ident db) with
                 | Some ex => resume now ex p db
                 | None => open_session now sid tok (cdsp_session_timeout m) ident p v db
                 end.
Proof using Type.
  unfold handle_session_init. unfold bind at 1.
  set (m1 := if get_bool "lxmf_destination" payload && str_true ident
             then set_lxmf (<[ident := default VNone (dict_get "lxmf_destination" payload)]>) m else m).
  assert (E1 : (when (get_bool "lxmf_destination" payload && str_true ident)
    (on_self (set_lxmf (<[ident := default VNone (dict_get "lxmf_destination" payload)]>)))) (db, m)
    = (Ok tt, (db, m1))) by (unfold m1; by destruct (_ && _)).
  rewrite E1. assert (Et : cdsp_session_timeout m1 = cdsp_session_timeout m)
    by (unfold m1; by destruct (_ && _)). clearbody m1.
  unfold bind at 1, of_res at 1. destruct (get_int "cdsp_version" 1 payload) as [v|e];
    [|intros [= <- <- <-]; by left].
  destruct (CDSP_VERSION <? v); [intros [= <- <- <-]; by left|].
  unfold bind at 1, of_res at 1. destruct (valid_profile _) as [[p|]|e] eqn:Ep;
    [|intros [= <- <- <-]; by left..].
  apply valid_profile_in in Ep. unfold bind, on_self, modify, on_db, lift, gets. intros H.
  cbv beta iota delta [fst snd] in H.
  change (cdsp_session_timeout (set_timers (delete ident) m1)) with (cdsp_session_timeout m1) in H.
  rewrite Et in H. right. exists p, v. split; [done|].
  destruct (resume_target _ _) as [ex|].
  - destruct (resume now ex p db) as [r1 db1]. by injection H as <- <- _.
  - destruct (open_session _ _ _ _ _ _ _ db) as [r1 db1]. by injection H as <- <- _.
Qed.

Lemma resume_run now ex p db :
  resume now ex p db
  = (Ok (Resumed (ses_session_id ex) p
          (map _unwrap_deferred_item (sort_by DeferredSyncItemRepo.flush_leb
             (List.filter (DeferredSyncItemRepo.of_session (ses_session_id ex))
                (deferred_sync_items db))))),
     set_sessions (alter (SessionRepo.set_deferred_count 0) (ses_session_id ex))
       (set_deferred_sync_items
          (List.filter (λ d, negb (DeferredSyncItemRepo.of_session (ses_session_id ex) d)))
          (set_sessions (alter (SessionRepo.set_profile now p) (ses_session_id ex)) db))).
Proof using Type. done. Qed.

Lemma resume_target_is tok o ex : resume_target tok o = Some ex → o = Some ex.
Proof using Type. unfold resume_target. destruct tok, o; try done. by destruct (_ && _). Qed.

Lemma resume_ok now ex p db : sessions_ok db → sessions_ok (resume now ex p db).2.
Proof using Type.
  intros Hok. rewrite resume_run. simpl. apply sessions_ok_alter; [apply tame_count|].
  apply (sessions_ok_same (set_sessions (alter (SessionRepo.set_profile now p) (ses_session_id ex)) db));
    [done|]. apply sessions_ok_alter; [apply tame_profile|done].
Qed.

Lemma init_keeps now sid tok ident payload db m :
  sessions_ok db → sessions_ok (handle_session_init now sid tok ident payload (db, m)).2.1.
Proof using Type.
  intros Hok. destruct (handle_session_init now sid tok ident payload (db, m)) as [r [db' m']] eqn:E.
  simpl. apply init_cases in E as [[-> _]|(p & v & _ & E)]; [done|].
  destruct (resume_target _ _) as [ex|].
  - change db' with (r, db').2. rewrite E. by apply resume_ok.
  - destruct (open_session_run now sid tok (cdsp_session_timeout m) ident p v db Hok) as (Hok1 & Hnone & Hrun).
    rewrite Hrun in E. destruct (_ !! sid); injection E as -> ->; [exact Hok1|].
    apply sessions_ok_insert; [exact Hok1|done|]. by apply active_session_none.
Qed.
End init.

(** ** A run of the session operations *)

Inductive cdsp_step :=
  | SInit (now : float) (sid : string) (tok : bytes) (ident : string) (payload : dict string val)
  | STimer (now : float) (ident : string)
  | STimeout (now : float) (sid : string) (tok : bytes) (ident : string)
  | SUpdate (now : float) (sid : string) (profile : val)
  | SDefer (ctx : SyncContext) (now : float) (ident channel : option string) (action : Z) (payload : val)
  | SCleanup (now : float).

(** Each operation runs in a transaction. *)
Definition cdsp_tx {A} (m : M (DB * t) A) (s : DB * t) : DB * t :=
  (atomic (λ s0 s1, (s0.1, s1.2)) m s).2.

Definition run_cdsp_step `{Msgpack} (s : DB * t) (o : cdsp_step) : DB * t :=
  match o with
  | SInit now sid tok ident payload =>
      cdsp_tx (handle_session_init now sid tok ident payload) s
  | STimer now ident => (s.1, start_init_timer now ident s.2)
  | STimeout now sid tok ident => cdsp_tx (init_timeout now sid tok ident) s
  | SUpdate now sid p => cdsp_tx (on_db (handle_profile_update now sid p)) s
  | SDefer ctx now ident ch action payload =>
      cdsp_tx (on_db (defer_sync_item ctx now ident ch action payload)) s
  | SCleanup now => cdsp_tx (on_db (cleanup_expired_sessions now (cdsp_session_timeout s.2))) s
  end.

Lemma cdsp_tx_keeps {A} (m : M (DB * t) A) s :
  (sessions_ok s.1 → sessions_ok (m s).2.1) → sessions_ok s.1 → sessions_ok (cdsp_tx m s).1.
Proof.
  intros Hm Hok. specialize (Hm Hok). unfold cdsp_tx, atomic. by destruct (m s) as [[a|e] [db' m']].
Qed.

Lemma cdsp_db_keeps {A} (m : M DB A) s :
  mrel (keeps sessions_ok) m → sessions_ok s.1 → sessions_ok (cdsp_tx (on_db m) s).1.
Proof.
  intros Hm. apply cdsp_tx_keeps. intros Hok. specialize (Hm s.1 Hok). unfold on_db, lift.
  by destruct (m s.1).
Qed.

Lemma keeps_alter f id : tame f → mrel (keeps sessions_ok) (modify (set_sessions (alter f id))).
Proof. intros Hf. apply mrel_modify. intros db Hok. by apply sessions_ok_alter. Qed.

Lemma keeps_items f : mrel (keeps sessions_ok) (modify (set_deferred_sync_items f)).
Proof. apply mrel_modify. intros db Hok. by apply (sessions_ok_same db). Qed.

Lemma keeps_flush sid p : mrel (keeps sessions_ok) (DeferredSyncItemRepo.flush_for_session sid p).
Proof. unfold DeferredSyncItemRepo.flush_for_session. mrel_auto. apply keeps_items. Qed.

#[local] Hint Resolve keeps_alter keeps_items keeps_flush tame_profile tame_count : hok.

Lemma keeps_update now sid p : mrel (keeps sessions_ok) (handle_profile_update now sid p).
Proof. unfold handle_profile_update, SessionRepo.update_profile. mrel_auto. Qed.

Lemma keeps_defer ctx now ident ch action payload :
  mrel (keeps sessions_ok) (defer_sync_item ctx now ident ch action payload).
Proof.
  unfold defer_sync_item, DeferredSyncItemRepo.evict_oldest, DeferredSyncItemRepo.enqueue, check_fk.
  mrel_auto.
Qed.

Lemma keeps_cleanup now timeout : mrel (keeps sessions_ok) (cleanup_expired_sessions now timeout).
Proof.
  unfold cleanup_expired_sessions, SessionRepo.cleanup_expired, DeferredSyncItemRepo.cleanup_expired.
  mrel_auto. apply mrel_modify. intros db [Hkey Hone]. split; simpl.
  - intros k s [Hs _]%map_lookup_filter_Some. by apply Hkey.
  - intros k1 k2 s1 s2 [H1 _]%map_lookup_filter_Some [H2 _]%map_lookup_filter_Some. by apply Hone.
Qed.

Lemma timeout_keeps `{HP : Msgpack} now sid tok ident s :
  sessions_ok s.1 → sessions_ok (init_timeout now sid tok ident s).2.1.
Proof.
  destruct s as [db m]. simpl. intros Hok. unfold init_timeout, bind at 1, gets.
  destruct (match _ with Some d => fle d now | None => false end); [|done].
  unfold when, bind at 1, on_self, modify, _create_default_session_async, catch, bind, atomic.
  cbv beta iota delta [fst snd].
  assert (Hk := init_keeps now sid tok ident
    [("cdsp_version", VInt 1); ("sync_profile", VInt CDSP_PROFILE_FULL)] db
    (set_timers (delete ident) m) Hok).
  by destruct (handle_session_init now sid tok ident _ (db, _)) as [[r|e] [db' m']].
Qed.

(** no identity ever has two active sessions, whatever the sequence of
    session requests, init timers, profile updates, deferrals and clean-ups,
    with failed operations rolled back. *)
Theorem one_active_session {HP : Msgpack} (os : list cdsp_step) (s : DB * t) :
  sessions_ok s.1 → sessions_ok (foldl run_cdsp_step s os).1.
Proof.
  revert s. induction os as [|o os IH]; intros s Hok; cbn [foldl]; [done|]. apply IH.
  destruct o as [now sid tok ident payload|now ident|now sid tok ident|now sid p|
                 ctx now ident ch a payload|now]; cbn [run_cdsp_step].
  - apply cdsp_tx_keeps; [|done]. destruct s. apply init_keeps.
  - done.
  - apply cdsp_tx_keeps; [|done]. apply timeout_keeps.
  - apply cdsp_db_keeps; [|done]. apply keeps_update.
  - apply cdsp_db_keeps; [|done]. apply keeps_defer.
  - apply cdsp_db_keeps; [|done]. apply keeps_cleanup.
Qed.

(** Closing or updating sessions of one identity leaves the others' active
    sessions. *)
Lemma active_other ident other db db' :
  sessions_ok db → sessions_ok db' → other ≠ ident →
  (∀ id s, ses_identity_hash s ≠ ident → sessions db' !! id = Some s ↔ sessions db !! id = Some s) →
  SessionRepo.get_active_session other db' = SessionRepo.get_active_session other db.
Proof.
  intros Hok Hok' Hne Hsame. apply option_eq. intros s.
  rewrite !active_session_unique by done. split; intros [H1 H2]; (split; [|done]);
    apply is_active_of_spec in H2 as [H2 _]; apply Hsame; congruence.
Qed.

Lemma alter_other f id ident (m : gmap string Session) k s b :
  (∀ x, ses_identity_hash (f x) = ses_identity_hash x) → m !! id = Some b →
  ses_identity_hash b = ident → ses_identity_hash s ≠ ident →
  alter f id m !! k = Some s ↔ m !! k = Some s.
Proof.
  intros Hf Hb Hi Hs. destruct (decide (id = k)) as [<-|Hne].
  - rewrite lookup_alter_eq, Hb. simpl. split; intros [= <-]; [by rewrite Hf in Hs|done].
  - by rewrite lookup_alter_ne.
Qed.

(** a request to open or resume a session either leaves the database
    alone, or makes the session it answers with the active session of the
    requester, under the profile it answers with, which is a known one;
    everybody else keeps their active session. *)
Theorem session_init_active {HP : Msgpack} (now : float) (sid : string) (tok : bytes)
    (ident : string) (payload : dict string val) (db db' : DB) (m m' : t) (r : reply) :
  sessions_ok db →
  handle_session_init now sid tok ident payload (db, m) = (Ok r, (db', m')) →
  match r with
  | Rejected _ _ => db' = db
  | Opened id p _ | Resumed id p _ =>
      p ∈ _VALID_PROFILES
      ∧ (∃ s, SessionRepo.get_active_session ident db' = Some s ∧ ses_session_id s = id
              ∧ ses_sync_profile s = p)
      ∧ ∀ other, other ≠ ident →
          SessionRepo.get_active_session other db' = SessionRepo.get_active_session other db
  | Updated _ _ _ _ => False
  end.
Proof.
  intros Hok H. assert (Hok' : sessions_ok db').
  { pose proof (init_keeps now sid tok ident payload db m Hok) as Hk. by rewrite H in Hk. }
  apply init_cases in H as [[-> Hr]|(p & v & Hp & E)]; [by destruct r|].
  destruct (resume_target _ _) as [ex|] eqn:Er.
  - apply resume_target_is, (active_session_unique _ _ _ Hok) in Er as [Hex Ha].
    apply is_active_of_spec in Ha as [Hi Ha]. rewrite resume_run in E.
    injection E as Er Edb. subst r. split; [done|]. split.
    + exists (SessionRepo.set_deferred_count 0 (SessionRepo.set_profile now p ex)). split_and!; [|done..].
      apply (active_session_unique _ _ _ Hok'). rewrite Edb. simpl. rewrite lookup_alter_eq, lookup_alter_eq, Hex.
      split; [done|]. apply is_active_of_spec. done.
    + intros other Hne. apply (active_other ident); try done. intros id s Hs. rewrite Edb. simpl.
      rewrite (alter_other _ _ ident _ _ _ (SessionRepo.set_profile now p ex)); try done;
        [|by rewrite lookup_alter_eq, Hex]. by apply (alter_other _ _ ident _ _ _ ex).
  - destruct (open_session_run now sid tok (cdsp_session_timeout m) ident p v db Hok) as (Hok1 & Hnone & Hrun).
    rewrite Hrun in E. destruct (_ !! sid) eqn:Esid; [done|]. injection E as -> ->. split; [done|]. split.
    + exists (new_session now sid tok (cdsp_session_timeout m) ident p v).
      split_and!; [apply (active_session_unique _ _ _ Hok')|done..]. simpl. rewrite lookup_insert_eq. split; [done|]. by apply is_active_of_spec.
    + intros other Hne. apply (active_other ident); try done. intros id s Hs. simpl.
      destruct (SessionRepo.get_active_session ident db) as [ex|] eqn:Eex.
      * apply (active_session_unique _ _ _ Hok) in Eex as [Hex [Hi _]%is_active_of_spec].
        simpl in *. destruct (decide (sid = id)) as [<-|Hid].
        -- rewrite lookup_insert_eq, <- (alter_other (SessionRepo.set_state now CDSP_STATE_CLOSED) _
             ident _ _ _ _ (λ _, eq_refl) Hex Hi Hs), Esid.
           split; [intros [= <-]; done|done].
        -- rewrite lookup_insert_ne by done. by apply (alter_other _ _ ident _ _ _ ex).
      * destruct (decide (sid = id)) as [<-|Hid].
        -- rewrite lookup_insert_eq, Esid. split; [intros [= <-]; done|done].
        -- by rewrite lookup_insert_ne.
Qed.

(** ** Keys and invites *)

Lemma head_sorted_max {A} (leb : A → A → bool) l x :
  (∀ a b, leb a b = true ∨ leb b a = true) →
  (∀ a b c, leb a b = true → leb b c = true → leb a c = true) →
  head (sort_by leb l) = Some x → x ∈ l ∧ ∀ y, y ∈ l → leb x y = true.
Proof.
  intros Ht Htr H. pose proof (sort_by_sorted leb Ht Htr l) as Hs.
  destruct (sort_by leb l) as [|x' r] eqn:E; [done|]. injection H as ->.
  assert (Hin : ∀ y, y ∈ l ↔ y ∈ x :: r) by (intros y; by rewrite <- E, elem_of_sort_by).
  split; [apply Hin; by left|]. intros y [->|Hy]%Hin%elem_of_cons.
  - by destruct (Ht x x).
  - apply StronglySorted_inv in Hs as [_ Hx]. rewrite Forall_forall in Hx. by apply Hx.
Qed.

(** who gets the key of a sealed channel, and which one.  A request that
    is answered with a key comes from an identity with a role on the channel
    itself; the key is one sealed to that identity for that channel, of the
    newest epoch among those; and the database is not changed. *)
Theorem sealed_key_request (ctx : SessionContext) (now : float) (payload : dict string val)
    (channel_id requester_hash : option string) (s s' : SessionNode) (r : SealedKeyResponse)
    (blob : bytes) :
  handle_request_sealed_key ctx now payload channel_id requester_hash s = (Ok r, s') →
  kr_encrypted_key_blob r = Some blob →
  let ch := kr_channel_id r in
  let who := or_empty requester_hash in
  sn_db s' = sn_db s
  ∧ RoleRepo.get_identity_roles who (Some ch) true (sn_db s) ≠ []
  ∧ ∃ k, k ∈ sealed_keys (sn_db s) ∧ sk_encrypted_key_blob k = blob ∧ kr_epoch r = Some (sk_epoch k)
         ∧ sk_channel_id k = ch ∧ sk_identity_hash k = who
         ∧ ∀ k', k' ∈ sealed_keys (sn_db s) → sk_channel_id k' = ch → sk_identity_hash k' = who →
                 sk_epoch k' ≤ sk_epoch k.
Proof.
  unfold handle_request_sealed_key. intros H Hb.
  destruct (negb (ostr_true (get_str "channel_id" channel_id payload))); [done|].
  set (ch := or_empty (get_str "channel_id" channel_id payload)) in *.
  destruct (negb (ostr_true requester_hash)); [done|]. set (who := or_empty requester_hash) in *.
  cbv zeta in H. destruct (match managed_channel ctx ch with Some c => _ | None => _ end);
    [injection H as <- <-; done|].
  apply bind_ok in H as (u & s1 & Hrl & H).
  assert (Edb : sn_db s1 = sn_db s).
  { unfold when in Hrl. destruct (sc_rate_limiter ctx); [|by injection Hrl as _ <-].
    apply bind_ok in Hrl as (b & s2 & Hrl & [= _ <-]). unfold as_sync_error, catch in Hrl.
    destruct (rl_op _ s) as [[b'|e] s3] eqn:E.
    - injection Hrl as _ <-. apply lift_ok in E as (c & _ & ->). done.
    - destruct (bool_decide _); done. }
  unfold bind, gets in H. rewrite Edb in H.
  destruct (list_true _) eqn:Er; simpl in H; [|done].
  match type of H with context [head (sort_by ?leb ?l)] =>
    destruct (head (sort_by leb l)) as [k|] eqn:Ek; [|done] end.
  injection H as <- <-. simpl in *. injection Hb as <-.
  apply head_sorted_max in Ek as [Hk Hmax]; [|intros; lia..].
  apply elem_of_filter_bool in Hk as [Hk Hcond]. rewrite andb_true_iff, !bool_decide_eq_true in Hcond.
  split; [done|]. split; [by intros E; rewrite E in Er|]. exists k. split_and!; try naive_solver.
  intros k' Hk' E1 E2. apply Z.leb_le, Hmax, elem_of_filter_bool. split; [done|].
  by rewrite andb_true_iff, !bool_decide_eq_true.
Qed.

Lemma check_create_ok ctx who ch s u s' :
  check_create_invite ctx who ch s = (Ok u, s') →
  s' = s ∧ ∀ owner, sc_permission_resolver ctx = Some owner →
    who = sc_node_identity ctx
    ∨ ∃ c, managed_channel ctx (or_empty ch) = Some c
           ∧ PermissionResolver.resolve owner who c PERM_MANAGE_MEMBERS (sn_db s) = true.
Proof.
  unfold check_create_invite. destruct (sc_permission_resolver ctx) as [o|]; [|by intros [= _ <-]].
  case_bool_decide as Hw; [intros [= _ <-]; by eauto|].
  destruct (negb (ostr_true ch)); [done|].
  destruct (managed_channel ctx (or_empty ch)) as [c|] eqn:Ec; [|done].
  unfold bind, gets. destruct (PermissionResolver.resolve o who c PERM_MANAGE_MEMBERS (sn_db s)) eqn:Ep;
    [|done]. intros [= _ <-]. split; [done|]. intros owner [= <-]. by eauto.
Qed.

Lemma create_invite_run `{HH : Hashing} now raw who ch mx hrs dest db r db' :
  InviteManager.create_invite now raw who ch mx hrs dest None db = (Ok r, db') →
  ∃ i, r.2 = sha256_hex (str_bytes raw)
  ∧ invites db' = <[r.2 := i]> (invites db) ∧ invites db !! r.2 = None
  ∧ inv_channel_id i = ch ∧ inv_created_by i = who ∧ inv_max_uses i = mx ∧ inv_uses i = 0
  ∧ inv_revoked i = false ∧ inv_expires_at i = Some (now + fz (hrs * 3600))%F.
Proof.
  unfold InviteManager.create_invite. intros H. apply bind_ok in H as (u & db1 & Hu & H).
  unfold check_unique, bind, get in Hu. case_bool_decide as Hn; [done|]. injection Hu as _ <-.
  apply bind_ok in H as (u2 & db2 & Hfk & H).
  assert (db2 = db) as ->.
  { destruct ch; [|by injection Hfk]. unfold check_fk, bind, get in Hfk.
    case_bool_decide; [by injection Hfk|done]. }
  injection H as <- <-. eexists. split; [done|]. split; [done|]. split; [|done].
  by apply eq_None_not_Some.
Qed.

(** what an answered invite request did.  It stored one new invite, unused
    and with the requested limits, for a channel (a node that has a channel
    manager never answers a request for an invite to no channel: the branch
    raises); the requester is the node owner or may manage members of that
    channel. *)
Theorem create_invite_authorized {HH : Hashing} (ctx : SessionContext) (now : float) (raw : string)
    (payload : dict string val) (channel_id requester_hash : option string)
    (s s' : SessionNode) (r : InviteResponse) (owner : string) (chans : gmap string Channel) :
  handle_create_invite ctx now raw payload channel_id requester_hash s = (Ok r, s') →
  sc_permission_resolver ctx = Some owner → sc_channel_manager ctx = Some chans →
  let who := or_empty requester_hash in
  ∃ c, ir_channel_id r = Some c ∧ str_true c = true
  ∧ (who = sc_node_identity ctx
     ∨ ∃ ch, chans !! c = Some ch
             ∧ PermissionResolver.resolve owner who ch PERM_MANAGE_MEMBERS (sn_db s) = true)
  ∧ ∃ i, invites (sn_db s') = <[ir_token_hash r := i]> (invites (sn_db s))
         ∧ invites (sn_db s) !! ir_token_hash r = None
         ∧ inv_channel_id i = Some c ∧ inv_created_by i = who ∧ inv_max_uses i = ir_max_uses r
         ∧ inv_uses i = 0 ∧ inv_revoked i = false.
Proof.
  unfold handle_create_invite. intros H Ho Hc.
  destruct (negb (ostr_true requester_hash)); [done|]. destruct (negb (sc_invite_manager ctx)); [done|].
  cbv zeta in H. set (ch := get_str "channel_id" channel_id payload) in *.
  apply bind_ok in H as (u & s1 & Hchk & H). apply check_create_ok in Hchk as [-> Hauth].
  apply bind_ok in H as (mx & s1 & Hmx & H). injection Hmx as Hmx <-.
  apply bind_ok in H as (hrs & s1 & Hhrs & H). injection Hhrs as Hhrs <-.
  apply bind_ok in H as (dest & s1 & Hdest & H). rewrite Hc in Hdest.
  rewrite bool_decide_eq_true_2, andb_true_r in Hdest by eauto.
  destruct ch as [c|] eqn:Ech; [|done]. simpl in Hdest. destruct (str_true c) eqn:Ect; [|done].
  assert (s1 = s) as -> by (by destruct (managed_channel ctx c); injection Hdest).
  apply bind_ok in H as ([token th] & s2 & Hrun & H). injection H as <- <-. simpl.
  apply lift_ok in Hrun as (iv & Hrun & ->). apply lift_ok in Hrun as (db & Hrun & ->).
  apply create_invite_run in Hrun as (i & _ & Hinv & Hnew & I1 & I2 & I3 & I4 & I5 & _).
  exists c. split; [done|]. split; [done|]. split; [|by exists i].
  destruct (Hauth owner Ho) as [Hw|(x & Hx & Hp)]; [by left|]. right. exists x. split; [|done].
  unfold managed_channel in Hx. by rewrite Hc in Hx.
Qed.

(** ** Instances *)

Lemma sessions_ok_empty : sessions_ok empty_db.
Proof.
  split; simpl; intros *; [intros H|intros H _]; by rewrite lookup_empty in H.
Qed.

Definition demo_cdsp : CDSPSessionManager.t := {|
  cdsp_enabled := true; cdsp_session_timeout := 3600; cdsp_init_timeout := 5;
  _init_timers := ∅; _lxmf_destinations := ∅ |}.

Definition minimal_payload : dict string val := [("sync_profile", VInt CDSP_PROFILE_MINIMAL)].

(** A client that never identifies its profile, then declares one twice. *)
Definition demo_steps : list cdsp_step :=
  [STimer (fz 0) "bob"; STimeout (fz 6) "s1" [1] "bob"; SInit (fz 7) "s2" [2] "bob" minimal_payload;
   SInit (fz 8) "s2" [3] "bob" []; SUpdate (fz 9) "s2" (VInt CDSP_PROFILE_FULL); SCleanup (fz 10)].

Lemma one_active_session_witness :
  let s := foldl (@run_cdsp_step toy_msgpack) (empty_db, demo_cdsp) demo_steps in
  sessions_ok s.1 ∧ size (sessions s.1) = 2%nat
  ∧ ses_session_id <$> SessionRepo.get_active_session "bob" s.1 = Some "s2".
Proof.
  split; [apply (@one_active_session toy_msgpack), sessions_ok_empty|].
  split; vm_compute; reflexivity.
Defined.

Definition bob_init :=
  @handle_session_init toy_msgpack (fz 7) "s2" [2] "bob" minimal_payload (empty_db, demo_cdsp).

Lemma session_init_active_witness :
  bob_init.1 = Ok (Opened "s2" CDSP_PROFILE_MINIMAL [2])
  ∧ ∃ s, SessionRepo.get_active_session "bob" bob_init.2.1 = Some s ∧ ses_session_id s = "s2"
         ∧ ses_sync_profile s = CDSP_PROFILE_MINIMAL.
Proof.
  split; [vm_compute; reflexivity|].
  exact (proj1 (proj2 (@session_init_active toy_msgpack (fz 7) "s2" [2] "bob" minimal_payload
    empty_db bob_init.2.1 demo_cdsp bob_init.2.2 (Opened "s2" CDSP_PROFILE_MINIMAL [2])
    sessions_ok_empty ltac:(vm_compute; reflexivity)))).
Defined.

Definition session_ctx : SessionContext := {|
  sc_cdsp_manager := true; sc_channel_manager := Some {[ "p" := demo_channel "p" ACCESS_PRIVATE true ]};
  sc_invite_manager := true; sc_node_identity := "owner"; sc_permission_resolver := Some "owner";
  sc_rate_limiter := true; sc_sealed_manager := None |}.

Definition session_db : DB :=
  set_sealed_keys (λ _, map (λ n, {| sk_id := n; sk_channel_id := "p"; sk_epoch := n;
      sk_encrypted_key_blob := [n]; sk_identity_hash := "bob"; sk_created_at := fz n |}) [1; 2])
    (set_roles (λ _, {[ "m" := demo_role "m" ROLE_MEMBER PERM_EVERYONE_DEFAULT ]})
      (set_role_assignments (λ _, [demo_assignment 1 "m" "bob" (Some "p")])
        (demo_db [demo_channel "p" ACCESS_PRIVATE true]))).

Definition session_node : SessionNode := {|
  sn_iv := InviteManager.init session_db; sn_rl := RateLimiter.init 10 (fz 1); sn_cdsp := demo_cdsp |}.

Definition bob_key := handle_request_sealed_key session_ctx (fz 3) [] (Some "p") (Some "bob") session_node.

Lemma sealed_key_request_witness :
  let r := {| kr_channel_id := "p"; kr_epoch := Some 2; kr_encrypted_key_blob := Some [2] |} in
  bob_key.1 = Ok r ∧ sn_db bob_key.2 = sn_db session_node.
Proof.
  split; [vm_compute; reflexivity|].
  exact (proj1 (sealed_key_request session_ctx (fz 3) [] (Some "p") (Some "bob") session_node bob_key.2
    {| kr_channel_id := "p"; kr_epoch := Some 2; kr_encrypted_key_blob := Some [2] |} [2]
    ltac:(vm_compute; reflexivity) eq_refl)).
Defined.

Definition owner_invite :=
  @handle_create_invite toy_hash session_ctx (fz 3) "fresh" [] (Some "p") (Some "owner") session_node.

Lemma create_invite_authorized_witness :
  is_ok owner_invite.1 = true
  ∧ (@handle_create_invite toy_hash session_ctx (fz 3) "fresh" [] None (Some "owner") session_node).1
    = Raise (Exn AttributeError "get_all_channels")
  ∧ ∃ c, Some "p" = Some c ∧ str_true c = true.
Proof.
  split; [vm_compute; reflexivity|]. split; [vm_compute; reflexivity|].
  destruct (@create_invite_authorized toy_hash session_ctx (fz 3) "fresh" [] (Some "p") (Some "owner")
    session_node owner_invite.2
    {| ir_token := "fresh"; ir_token_hash := "fresh"; ir_max_uses := 1; ir_expiry_hours := 72;
       ir_channel_id := Some "p" |} "owner" {[ "p" := demo_channel "p" ACCESS_PRIVATE true ]}
    ltac:(vm_compute; reflexivity) eq_refl eq_refl) as (c & H1 & H2 & _).
  exists c. split; [exact H1|exact H2].
Defined.
