(* ===== verification/Deferred.v ===== *)
(** * Delivery of deferred items

    What [defer_sync_item] queues for a session is what a resumed session
    receives: the theorem runs the deferrals of History.v and the session
    request of Session.v one after the other. *)

From S2P Require Import Prelude Constants Models Queries Permissions RateLimit Ban Sealed Sequencer Message Wire History Invites Session.

Import CDSPSessionManager DeferredSyncItemRepo.

(** Something deferred at a time, and an item of the queue read back. *)
Record event := {
  ev_now : float;
  ev_channel : option string;
  ev_action : Z;
  ev_payload : val;
}.
Definition item_event (d : DeferredSyncItem) : event :=
  {| ev_now := di_created_at d; ev_channel := di_channel_id d; ev_action := di_sync_action d;
     ev_payload := di_payload d |}.
Definition wire_event `{Msgpack} (e : event) : WireItem :=
  {| wi_channel_id := ev_channel e; wi_sync_action := ev_action e;
     wi_payload := unwrap_payload (ev_payload e) |}.

Definition defer_event (ctx : SyncContext) (ident : string) (db : DB) (e : event) : DB :=
  (defer_sync_item ctx (ev_now e) (Some ident) (ev_channel e) (ev_action e) (ev_payload e) db).2.

Definition queue (sid : string) (db : DB) : list DeferredSyncItem :=
  List.filter (of_session sid) (deferred_sync_items db).
Definition queue_limit (ctx : SyncContext) : Z := default 1000 (cx_deferred_queue_limit ctx).

Definition before (a b : event) : Prop := (ev_now a < ev_now b)%F.

#[export] Instance before_trans : Transitive before.
Proof. intros a b c. unfold before. intros. Lqa.lra. Qed.

(** ** Sorting a queue that is in order already *)

Section sorted.
Context (q : list DeferredSyncItem) (Hq : StronglySorted before (map item_event q)).

Lemma same_time a b :
  a ∈ q → b ∈ q → fle (di_created_at a) (di_created_at b) = true →
  fle (di_created_at b) (di_created_at a) = true → a = b.
Proof using Hq.
  induction q as [|x l IH]; intros Ha Hb H1 H2; [by apply not_elem_of_nil in Ha|].
  simpl in Hq. apply StronglySorted_inv in Hq as [Hl Hx].
  assert (Hlt : ∀ y, y ∈ l → (di_created_at x < di_created_at y)%F).
  { intros y Hy. rewrite Forall_forall in Hx. apply (Hx (item_event y)). by apply list_elem_of_fmap_2. }
  rewrite elem_of_cons in Ha, Hb. destruct Ha as [->|Ha], Hb as [->|Hb]; [done| | |by apply IH].
  - specialize (Hlt b Hb). fsimp. Lqa.lra.
  - specialize (Hlt a Ha). fsimp. Lqa.lra.
Qed.

Lemma sort_newest : sort_by newest_first q = reverse q.
Proof using Hq.
  apply (StronglySorted_unique_strong (λ a b, newest_first a b = true)).
  - intros a b Ha Hb H1 H2. rewrite elem_of_sort_by in Ha. rewrite elem_of_reverse in Hb.
    by apply same_time.
  - apply sort_by_sorted; unfold newest_first.
    + intros a b. destruct (fle (di_created_at b) (di_created_at a)) eqn:E; [by left|right]. flra.
    + intros a b c. intros. flra.
  - clear -Hq. induction q as [|x l IH]; [constructor|]. simpl in Hq. apply StronglySorted_inv in Hq as [Hl Hx].
    rewrite reverse_cons. apply StronglySorted_app_2; [|by apply IH|by repeat constructor].
    intros a b Ha ->%list_elem_of_singleton. rewrite elem_of_reverse in Ha. unfold newest_first. rewrite Forall_forall in Hx.
    assert (before (item_event x) (item_event a)) by (apply Hx; by apply list_elem_of_fmap_2).
    unfold before in *. simpl in *. flra.
  - by rewrite sort_by_perm, reverse_Permutation.
Qed.

Lemma sort_flush : Forall (λ d, di_priority d = 0) q → sort_by flush_leb q = q.
Proof using Hq.
  intros Hp. rewrite Forall_forall in Hp.
  assert (Hleb : ∀ a b, a ∈ q → b ∈ q → flush_leb a b = fle (di_created_at a) (di_created_at b)).
  { intros a b Ha Hb. unfold flush_leb. by rewrite (Hp a Ha), (Hp b Hb). }
  apply (StronglySorted_unique_strong (λ a b, flush_leb a b = true)).
  - intros a b Ha Hb. rewrite elem_of_sort_by in Ha. rewrite !Hleb by done. by apply same_time.
  - apply sort_by_sorted; unfold flush_leb.
    + intros a b. destruct (di_priority a =? di_priority b) eqn:E.
      * rewrite Z.eqb_sym, E. destruct (fle (di_created_at a) (di_created_at b)) eqn:E2; [by left|right]. flra.
      * rewrite Z.eqb_sym, E. lia.
    + intros a b c.
      destruct (Z.eqb_spec (di_priority a) (di_priority b)), (Z.eqb_spec (di_priority b) (di_priority c)),
        (Z.eqb_spec (di_priority a) (di_priority c)); intros; try lia. flra.
  - clear Hp. assert (Hsub : ∀ a b, a ∈ q → b ∈ q → before (item_event a) (item_event b) →
                             flush_leb a b = true).
    { intros a b Ha Hb Hab. rewrite Hleb by done. unfold before in Hab. simpl in Hab. flra. }
    clear Hleb. induction q as [|x l IH]; [constructor|]. simpl in Hq.
    apply StronglySorted_inv in Hq as [Hl Hx]. constructor.
    + apply IH; [done|]. intros a b Ha Hb. apply Hsub; by right.
    + rewrite Forall_forall. rewrite Forall_forall in Hx. intros a Ha. apply Hsub; [by left|by right|].
      apply Hx. by apply list_elem_of_fmap_2.
  - apply sort_by_perm.
Qed.
End sorted.

(** ** The queue of one session *)

Lemma filter_keep {A} (f : A → Z) (a b b' : list A) :
  NoDup (map f (a ++ b)) → b' ≡ₚ b →
  List.filter (λ d, bool_decide (f d ∈ map f b')) (a ++ b) = b.
Proof.
  intros Hnd Hb. rewrite List.filter_app. rewrite fmap_app, NoDup_app in Hnd. destruct Hnd as (_ & Hd & _).
  rewrite (List.filter_ext_in _ (λ _, false) a), (List.filter_ext_in _ (λ _, true) b).
  - by rewrite List.filter_false, List.filter_true.
  - intros x Hx%list_elem_of_In. apply bool_decide_eq_true_2. rewrite Hb. by apply list_elem_of_fmap_2.
  - intros x Hx%list_elem_of_In. apply bool_decide_eq_false_2. rewrite Hb. apply Hd. by apply list_elem_of_fmap_2.
Qed.

Lemma ztake_reverse {A} k (l : list A) : ztake k (reverse l) = reverse (zlast k l).
Proof.
  unfold ztake, zlast. set (n := (length l - Z.to_nat k)%nat).
  rewrite <- (take_drop n l) at 1. rewrite reverse_app.
  destruct (decide (Z.to_nat k ≤ length l)%nat).
  - apply take_app_length'. rewrite length_reverse, length_drop. lia.
  - assert (n = 0%nat) as -> by lia. rewrite take_0. simpl. rewrite app_nil_r, drop_0.
    apply take_ge. rewrite length_reverse. lia.
Qed.

Lemma map_id_filter (f : DeferredSyncItem → bool) (l : list DeferredSyncItem) :
  NoDup (map di_id l) → NoDup (map di_id (List.filter f l)).
Proof.
  induction l as [|x l IH]; simpl; [done|]. intros [Hx Hl]%NoDup_cons. destruct (f x); [|by apply IH].
  simpl. apply NoDup_cons. split; [|by apply IH]. contradict Hx.
  apply list_elem_of_fmap in Hx as (y & -> & Hy). apply elem_of_filter_bool in Hy as [Hy _].
  by apply list_elem_of_fmap_2.
Qed.

Lemma evict_run sid k db :
  1 ≤ k → StronglySorted before (map item_event (queue sid db)) →
  NoDup (map di_id (deferred_sync_items db)) →
  ∃ n f, evict_oldest sid k db = (Ok n, set_deferred_sync_items (List.filter f) db)
  ∧ queue sid (set_deferred_sync_items (List.filter f) db) = zlast k (queue sid db).
Proof.
  intros Hk Hs Hnd. unfold evict_oldest, bind, get. fold (queue sid db).
  rewrite (sort_newest _ Hs). unfold sql_limit. destruct (Z.ltb_spec k 0); [lia|]. rewrite ztake_reverse.
  destruct (list_true (map di_id (reverse (zlast k (queue sid db))))) eqn:E; cbn [negb].
  - eexists _, _. split; [reflexivity|]. unfold queue. simpl. rewrite filter_filter_andb.
    set (keep := map di_id _).
    rewrite (List.filter_ext _ (λ d, of_session sid d && bool_decide (di_id d ∈ keep)))
      by (intros d; by destruct (of_session sid d), (bool_decide _)).
    rewrite <- filter_filter_andb. fold (queue sid db). unfold keep. clear keep E.
    set (q := queue sid db). set (n := (length q - Z.to_nat k)%nat).
    pose proof (filter_keep di_id (take n q) (drop n q) (reverse (zlast k q))) as Hf.
    rewrite take_drop in Hf. apply Hf; [by apply map_id_filter|apply reverse_Permutation].
  - exists 0, (λ _, true).
    assert (Hq : queue sid db = []).
    { destruct (zlast k (queue sid db)) as [|x l] eqn:Ez; [|by rewrite reverse_cons, List.map_app in E; destruct (map di_id (reverse l))].
      apply (f_equal length) in Ez. unfold zlast in Ez. rewrite length_drop in Ez.
      destruct (queue sid db); [done|]. simpl in Ez. lia. }
    split; [|by unfold queue in *; simpl; rewrite List.filter_true, Hq].
    unfold ret. f_equal. destruct db. unfold set_deferred_sync_items. simpl. by rewrite List.filter_true.
Qed.

(** What a run of deferrals has left: the session is there with its token, and
    its queue holds [evs]. *)
Record deferred (sid ident : string) (tok : option bytes) (evs : list event) (db : DB) : Prop := {
  df_ok : sessions_ok db;
  df_active : ∃ s, SessionRepo.get_active_session ident db = Some s ∧ ses_session_id s = sid
                   ∧ ses_resume_token s = tok;
  df_ids : NoDup (map di_id (deferred_sync_items db));
  df_queue : map item_event (queue sid db) = evs;
  df_priority : Forall (λ d, di_priority d = 0) (queue sid db);
}.

(** Removing items keeps all but the queue. *)
Lemma deferred_filter sid ident tok evs db f q :
  deferred sid ident tok evs db → queue sid (set_deferred_sync_items (List.filter f) db) = q →
  Forall (λ d, di_priority d = 0) q →
  deferred sid ident tok (map item_event q) (set_deferred_sync_items (List.filter f) db).
Proof.
  intros [Hok Ha Hid Hq Hp] Eq Hpq. split; [by apply (sessions_ok_same db)|done| |by rewrite Eq|by rewrite Eq].
  simpl. by apply map_id_filter.
Qed.

(** One more item at the end of the queue. *)
Lemma deferred_enqueue sid ident tok evs db e ttl :
  deferred sid ident tok evs db →
  ∃ db', enqueue (ev_now e) sid (ev_channel e) (ev_action e) (ev_payload e) 0 ttl db = (Ok tt, db')
  ∧ deferred sid ident tok (evs ++ [e]) db'.
Proof.
  intros [Hok (s & Hs & Hsid & Ht) Hid Hq Hp]. unfold enqueue, check_fk, bind, get.
  pose proof Hs as Hs'. apply (active_session_unique _ _ _ Hok) in Hs' as [Hin _]. rewrite Hsid in Hin.
  rewrite bool_decide_eq_true_2 by eauto. unfold ret, modify. eexists. split; [reflexivity|].
  set (db' := set_deferred_sync_items _ db).
  assert (∃ d, deferred_sync_items db' = deferred_sync_items db ++ [d]
               ∧ di_id d = next_rowid (deferred_sync_items db) ∧ di_session_id d = sid
               ∧ item_event d = e ∧ di_priority d = 0) as (d & Ed & Di & Ds & De & Dp).
  { eexists. split; [reflexivity|]. by destruct e. }
  assert (Eq : queue sid db' = queue sid db ++ [d]).
  { unfold queue. rewrite Ed, List.filter_app. simpl. unfold of_session at 2.
    by rewrite bool_decide_eq_true_2. }
  split.
  - by apply (sessions_ok_same db).
  - by exists s.
  - rewrite Ed, List.map_app. apply NoDup_app. split; [done|]. split; [|apply NoDup_singleton].
    intros i (x & -> & Hx)%list_elem_of_fmap. simpl. rewrite list_elem_of_singleton, Di.
    pose proof (next_rowid_fresh (deferred_sync_items db) x Hx) as Hf. intros Heq.
    apply (Z.lt_irrefl (di_id x)). rewrite Heq at 2. exact Hf.
  - rewrite Eq, List.map_app, Hq. simpl. by rewrite De.
  - rewrite Eq. apply Forall_app. split; [done|]. by constructor.
Qed.

Lemma zlast_fits {A} n (l : list A) : zlen l ≤ n → zlast n l = l.
Proof. unfold zlen, zlast. intros. replace (length l - Z.to_nat n)%nat with 0%nat by lia. done. Qed.

Lemma zlast_snoc {A} n (l : list A) x :
  2 ≤ n → n ≤ zlen l → zlast n (l ++ [x]) = zlast (n - 1) (zlast n l) ++ [x].
Proof.
  unfold zlen, zlast. intros H1 H2. rewrite length_app, length_drop, drop_drop. simpl.
  rewrite drop_app_le by lia. do 2 f_equal. lia.
Qed.

Lemma zlast_map {A B} (f : A → B) n l : map f (zlast n l) = zlast n (map f l).
Proof. unfold zlast. by rewrite length_map, List.skipn_map. Qed.

Lemma sorted_zlast n evs : StronglySorted before evs → StronglySorted before (zlast n evs).
Proof.
  intros H. unfold zlast. rewrite <- (take_drop (length evs - Z.to_nat n) evs) in H.
  by apply StronglySorted_app_1_r in H.
Qed.

(** A full queue gives up its oldest item before the next one is added. *)
Lemma make_room limit sid ident tok past (e : event) db :
  2 ≤ limit → StronglySorted before (past ++ [e]) →
  deferred sid ident tok (zlast limit past) db →
  ∃ evs db1, (when (limit <=? zlen (queue sid db)) (evict_oldest sid (limit - 1) ;; ret tt)) db
             = (Ok tt, db1)
    ∧ deferred sid ident tok evs db1 ∧ evs ++ [e] = zlast limit (past ++ [e]).
Proof.
  intros Hl Hs Hd. pose proof Hd as [Hok _ Hid Hq Hp].
  assert (Hlen : zlen (queue sid db) = Z.min limit (zlen past)).
  { rewrite <- zlen_zlast by lia. rewrite <- Hq. unfold zlen. by rewrite length_map. }
  apply StronglySorted_app_1_l in Hs.
  destruct (Z.leb_spec limit (zlen (queue sid db))) as [Hfull|Hroom]; simpl.
  - destruct (evict_run sid (limit - 1) db) as (n & f & Hrun & Hqf); [lia| |done|].
    { rewrite Hq. by apply sorted_zlast. }
    eexists _, _. rewrite (bind_run_ok _ _ _ _ _ Hrun). split; [reflexivity|]. split.
    + apply (deferred_filter _ _ _ _ _ _ _ Hd Hqf). unfold zlast. by apply Forall_drop.
    + rewrite zlast_map, Hq. symmetry. apply zlast_snoc; lia.
  - exists (zlast limit past), db. split; [done|]. split; [done|].
    rewrite !zlast_fits; [done| |]; rewrite ?zlen_app; unfold zlen in *; simpl; lia.
Qed.

(** Deferring one more event keeps the newest ones, up to the limit. *)
Lemma defer_step ctx sid ident tok past e db :
  2 ≤ queue_limit ctx → StronglySorted before (past ++ [e]) →
  deferred sid ident tok (zlast (queue_limit ctx) past) db →
  deferred sid ident tok (zlast (queue_limit ctx) (past ++ [e])) (defer_event ctx ident db e).
Proof.
  intros Hl Hs Hd. pose proof Hd as [Hok (s & Hsn & Hsid & Ht) Hid Hq Hp].
  unfold defer_event, defer_sync_item. fold (queue_limit ctx).
  rewrite (bind_run_ok _ _ _ (Some s) db) by (unfold gets; simpl; by rewrite Hsn). rewrite Hsid.
  rewrite (bind_run_ok _ _ _ (zlen (queue sid db)) db) by done. cbv zeta.
  destruct (make_room _ _ _ _ _ e _ Hl Hs Hd) as (evs & db1 & Hrun & Hd1 & Eevs).
  rewrite (bind_run_ok _ _ _ _ _ Hrun).
  destruct (deferred_enqueue sid ident tok evs db1 e (ses_expires_at s) Hd1) as (db2 & Henq & Hd2).
  rewrite (bind_run_ok _ _ _ _ _ Henq). rewrite <- Eevs. simpl.
  destruct Hd2 as [Hok2 (s2 & Hs2 & Hsid2 & Ht2) Hid2 Hq2 Hp2].
  assert (Hok3 : ∀ n, sessions_ok (set_sessions (alter (SessionRepo.set_deferred_count n) sid) db2))
    by (intros n; apply sessions_ok_alter; [apply tame_count|done]).
  split; [apply Hok3| |done..].
  exists (SessionRepo.set_deferred_count (count_for_session sid db2) s2). split; [|done].
  apply (active_session_unique _ _ _ Hok2) in Hs2 as [Hin Hact].
  apply active_session_unique; [apply Hok3|]. simpl. rewrite Hsid2 in *. by rewrite lookup_alter_eq, Hin.
Qed.

Lemma defer_run ctx sid ident tok past evs db :
  2 ≤ queue_limit ctx → StronglySorted before (past ++ evs) →
  deferred sid ident tok (zlast (queue_limit ctx) past) db →
  deferred sid ident tok (zlast (queue_limit ctx) (past ++ evs)) (foldl (defer_event ctx ident) db evs).
Proof.
  intros Hl. revert past db. induction evs as [|e evs IH]; intros past db Hs Hd; simpl.
  - by rewrite app_nil_r.
  - replace (past ++ e :: evs) with ((past ++ [e]) ++ evs) in * by (by rewrite <- app_assoc).
    apply IH; [done|]. apply defer_step; [done| |done]. by apply StronglySorted_app_1_l in Hs.
Qed.

(** Presenting the token of the active session resumes it. *)
Lemma resume_request {HP : Msgpack} now sid' tok' ident token p s db m :
  SessionRepo.get_active_session ident db = Some s → ses_resume_token s = Some token →
  list_true token = true → p ∈ _VALID_PROFILES →
  ∃ m', handle_session_init now sid' tok' ident
          [("sync_profile", VInt p); ("resume_token", VBytes token)] (db, m)
        = ((resume now s p db).1, ((resume now s p db).2, m')).
Proof.
  intros Hs Ht Hne Hp. exists (set_timers (delete ident) m).
  unfold handle_session_init. rewrite (bind_run_ok _ _ _ tt (db, m)) by done.
  rewrite (bind_run_ok _ _ _ 1 (db, m)) by done. change (CDSP_VERSION <? 1) with false. cbv iota.
  rewrite (bind_run_ok _ _ _ (Some p) (db, m)).
  2: { unfold of_res. simpl. unfold valid_profile. by rewrite bool_decide_eq_true_2. }
  rewrite (bind_run_ok _ _ _ tt (db, set_timers (delete ident) m)) by done.
  rewrite (bind_run_ok _ _ _ (Some s) (db, set_timers (delete ident) m))
    by (unfold on_db, lift, gets; simpl; by rewrite Hs).
  rewrite (bind_run_ok _ _ _ (cdsp_session_timeout m) (db, set_timers (delete ident) m)) by done.
  replace (resume_target _ (Some s)) with (Some s).
  - unfold on_db, lift. cbv beta iota delta [fst snd]. by destruct (resume now s p db).
  - simpl. by rewrite Hne, Ht, bool_decide_eq_true_2.
Qed.

(** A resumed session is sent its whole queue in order, and the queue is empty. *)
Lemma resume_delivers {HP : Msgpack} now sid sid' tok' ident token p evs db m :
  list_true token = true → p ∈ _VALID_PROFILES → StronglySorted before evs →
  deferred sid ident (Some token) evs db →
  ∃ db2 m', handle_session_init now sid' tok' ident
      [("sync_profile", VInt p); ("resume_token", VBytes token)] (db, m)
    = (Ok (Resumed sid p (map wire_event evs)), (db2, m'))
    ∧ queue sid db2 = [].
Proof.
  intros Hne Hp Hsort [_ (s & Hs1 & Hsid & Ht1) _ Hq1 Hp1].
  destruct (resume_request now sid' tok' ident token p s _ m Hs1 Ht1 Hne Hp) as (m' & ->).
  rewrite resume_run, Hsid. eexists _, m'. split; [f_equal|].
  - cbn [fst]. fold (queue sid db). rewrite sort_flush; [|by rewrite Hq1|done].
    rewrite <- Hq1, List.map_map. reflexivity.
  - unfold queue. simpl. rewrite filter_filter_andb.
    rewrite (List.filter_ext _ (λ _, false)); [apply List.filter_false|].
    intros d. by destruct (of_session _ d).
Qed.

(** C15: an offline client misses nothing the queue can hold.  The queue of an
    active session holds some events, none of them with a priority, and no
    more than the limit, which is at least two.  Whatever is then deferred for
    the identity, at strictly increasing times and after those, the request
    that resumes the session receives the newest of all these events up to the
    limit, in the order in which they were deferred, and leaves the queue
    empty. *)
Theorem deferred_delivery {HP : Msgpack} (ctx : SyncContext) (ident : string) (sess : Session)
    (evs : list event) (db : DB) (token : bytes) (p : Z) (now : float) (sid' : string)
    (tok' : bytes) (m : t) :
  let sid := ses_session_id sess in
  let queued := map item_event (queue sid db) in
  sessions_ok db → NoDup (map di_id (deferred_sync_items db)) →
  SessionRepo.get_active_session ident db = Some sess →
  Forall (λ d, di_priority d = 0) (queue sid db) → zlen queued ≤ queue_limit ctx →
  ses_resume_token sess = Some token → list_true token = true → p ∈ _VALID_PROFILES →
  2 ≤ queue_limit ctx → StronglySorted before (queued ++ evs) →
  ∃ db2 m',
    handle_session_init now sid' tok' ident
      [("sync_profile", VInt p); ("resume_token", VBytes token)]
      (foldl (defer_event ctx ident) db evs, m)
    = (Ok (Resumed sid p (map wire_event (zlast (queue_limit ctx) (queued ++ evs)))), (db2, m'))
    ∧ queue sid db2 = [].
Proof.
  intros sid queued Hok Hid Hs Hq Hfits Ht Hne Hp Hl Hsort.
  assert (Hd0 : deferred sid ident (Some token) (zlast (queue_limit ctx) queued) db).
  { rewrite zlast_fits by done. split; [done|by exists sess|done|done|done]. }
  pose proof (defer_run ctx _ _ _ queued evs db Hl Hsort Hd0) as Hd.
  apply resume_delivers; [done..|by apply sorted_zlast|done].
Qed.

(** ** An instance: a limit of two, one event queued and two more *)

Definition two_ctx : SyncContext := {|
  cx_channels := ∅; cx_sequencer := SequenceManager.init; cx_permission_resolver := None;
  cx_sealed_manager := None; cx_cdsp_manager := true; cx_deferred_queue_limit := Some 2;
  cx_fts_manager := None |}.
Definition bob_session : Session := new_session (fz 0) "s1" [7] 3600 "bob" CDSP_PROFILE_MINIMAL 1.
Definition bob_db : DB := set_sessions (λ _, {[ "s1" := bob_session ]}) empty_db.
Definition ev (n : Z) : event :=
  {| ev_now := fz n; ev_channel := Some "c"; ev_action := SYNC_SEARCH;
     ev_payload := VDict [("n", VInt n)] |}.

Lemma bob_db_ok : sessions_ok bob_db.
Proof.
  split; simpl.
  - by intros id s [<- <-]%lookup_singleton_Some.
  - by intros id1 id2 s1 s2 [<- <-]%lookup_singleton_Some [<- <-]%lookup_singleton_Some.
Qed.

Lemma three_sorted : StronglySorted before [ev 1; ev 2; ev 3].
Proof. repeat constructor; unfold before; simpl; Lqa.lra. Qed.

(** One event is in the queue already. *)
Definition busy_db : DB := defer_event two_ctx "bob" bob_db (ev 1).

Lemma busy_db_ok : sessions_ok busy_db.
Proof.
  assert (sessions busy_db = {[ "s1" := SessionRepo.set_deferred_count 1 bob_session ]}) as E by (vm_compute; reflexivity).
  split; rewrite E; simpl.
  - by intros id s [<- <-]%lookup_singleton_Some.
  - by intros id1 id2 s1 s2 [<- <-]%lookup_singleton_Some [<- <-]%lookup_singleton_Some.
Qed.

Lemma deferred_delivery_witness :
  ∃ db2 m',
    @handle_session_init toy_msgpack (fz 9) "s2" [8] "bob"
      [("sync_profile", VInt CDSP_PROFILE_FULL); ("resume_token", VBytes [7])]
      (foldl (defer_event two_ctx "bob") busy_db [ev 2; ev 3], demo_cdsp)
    = (Ok (Resumed "s1" CDSP_PROFILE_FULL
            (map (@wire_event toy_msgpack) (zlast 2 [ev 1; ev 2; ev 3]))), (db2, m'))
    ∧ queue "s1" db2 = [].
Proof.
  apply (@deferred_delivery toy_msgpack two_ctx "bob" (SessionRepo.set_deferred_count 1 bob_session) [ev 2; ev 3] busy_db [7]
    CDSP_PROFILE_FULL (fz 9) "s2" [8] demo_cdsp busy_db_ok).
  - repeat constructor. by intros ?%elem_of_nil.
  - vm_compute. reflexivity.
  - repeat constructor.
  - vm_compute. congruence.
  - reflexivity.
  - reflexivity.
  - left.
  - unfold queue_limit. simpl. lia.
  - exact three_sorted.
Defined.
