(* ===== verification/Live.v ===== *)
(** * Live subscriptions ([hokora/protocol/live.py], [zombie_link_buffer.py],
      [handlers/live.py])

    [LiveSubscriptionManager] pushes channel events to the links subscribed to
    them, keeps what it pushed for a while in case a link turns out to have
    been dead, and accumulates events for the BATCHED profile.

    A link is named by the decimal rendering of [id(link)].  What RNS does
    with it is an argument ([Net]): whether the link is active, and whether a
    send raises.  What the manager does to the outside (packets, calls of the
    defer hook, LXMF batches) is recorded in order in [lm_trace]. *)

From S2P Require Import Prelude Constants Models Queries Permissions RateLimit Ban Sealed Sequencer Message Wire History.

Abbreviation link_id := string.

Inductive link_state := LinkActive | LinkFailing | LinkClosed.
Definition Net : Type := link_id → link_state.

(** [RNS.Link.MDU] *)
Class LinkMdu := link_mdu : Z.

Module ZombieLinkPushBuffer.

Definition DEFAULT_RETENTION_S : Z := 300.
Definition DEFAULT_PER_LINK_CAP : Z := 500.

Record push := {
  pu_time : float;
  pu_channel_id : string;
  pu_event_type : string;
  pu_data : dict string val;
}.

Record t := {
  _retention_s : float;
  _per_link_cap : Z;
  _pushes : gmap link_id (list push);
}.

Definition init : t := {|
  _retention_s := fz DEFAULT_RETENTION_S; _per_link_cap := DEFAULT_PER_LINK_CAP; _pushes := ∅ |}.

Definition set_pushes (f : gmap link_id (list push) → gmap link_id (list push)) (s : t) : t := {|
  _retention_s := _retention_s s; _per_link_cap := _per_link_cap s; _pushes := f (_pushes s) |}.

(** [deque(maxlen=cap).append] *)
Definition deque_append {A} (cap : Z) (x : A) (l : list A) : list A := zlast cap (l ++ [x]).

(** [while buf and buf[0][0] < cutoff: buf.popleft()] *)
Fixpoint drop_before (cutoff : float) (l : list push) : list push :=
  match l with
  | [] => []
  | p :: l' => if flt (pu_time p) cutoff then drop_before cutoff l' else l
  end.

Definition record (now : float) (link : link_id) (channel_id event_type : string)
    (data_dict : dict string val) (s : t) : t :=
  let buf := default [] (_pushes s !! link) in
  let p := {| pu_time := now; pu_channel_id := channel_id; pu_event_type := event_type;
              pu_data := data_dict |} in
  set_pushes (<[link := drop_before (now - _retention_s s)%F
                          (deque_append (_per_link_cap s) p buf)]>) s.

Definition drain (link : link_id) (s : t) : list push * t :=
  (default [] (_pushes s !! link), set_pushes (delete link) s).

Definition clear (link : link_id) (s : t) : t := set_pushes (delete link) s.

Definition active_link_count (s : t) : Z := Z.of_nat (size (_pushes s)).

Definition len (s : t) : Z := foldr Z.add 0 (map (λ p, zlen p.2) (map_to_list (_pushes s))).
End ZombieLinkPushBuffer.

Import ZombieLinkPushBuffer.

(** What leaves the manager. *)
Inductive out :=
  | Packet (link : link_id) (data : bytes)
  | Resource (link : link_id) (data : bytes)
  | Defer (identity_hash channel_id event_type : string) (data_dict : dict string val)
  | LxmfBatch (dest_hex : string) (events : list bytes).

Definition _PRIORITIZED_SKIP_EVENTS : list string := ["typing"; "presence"; "status_update"].

Module LiveSubscriptionManager.

Record t := {
  _sealed_manager : option SealedChannelManager.t;
  _subscriptions : dict string (dict link_id Z);
  _link_supports_sealed_at_rest : gmap link_id bool;
  _batch_buffer : dict string (list (bytes * float));
  _link_identities : gmap link_id string;
  _defer_hook : bool;
  _push_buffer : ZombieLinkPushBuffer.t;
  lm_trace : list out;
}.

Definition init (sealed_manager : option SealedChannelManager.t) : t := {|
  _sealed_manager := sealed_manager; _subscriptions := []; _link_supports_sealed_at_rest := ∅;
  _batch_buffer := []; _link_identities := ∅; _defer_hook := false;
  _push_buffer := ZombieLinkPushBuffer.init; lm_trace := [] |}.

Definition set_subs (f : dict string (dict link_id Z) → dict string (dict link_id Z)) (s : t) : t := {|
  _sealed_manager := _sealed_manager s; _subscriptions := f (_subscriptions s);
  _link_supports_sealed_at_rest := _link_supports_sealed_at_rest s;
  _batch_buffer := _batch_buffer s; _link_identities := _link_identities s;
  _defer_hook := _defer_hook s; _push_buffer := _push_buffer s; lm_trace := lm_trace s |}.
Definition set_links (fs : gmap link_id bool → gmap link_id bool)
    (fi : gmap link_id string → gmap link_id string) (s : t) : t := {|
  _sealed_manager := _sealed_manager s; _subscriptions := _subscriptions s;
  _link_supports_sealed_at_rest := fs (_link_supports_sealed_at_rest s);
  _batch_buffer := _batch_buffer s; _link_identities := fi (_link_identities s);
  _defer_hook := _defer_hook s; _push_buffer := _push_buffer s; lm_trace := lm_trace s |}.
Definition set_batch (f : dict string (list (bytes * float)) → dict string (list (bytes * float)))
    (s : t) : t := {|
  _sealed_manager := _sealed_manager s; _subscriptions := _subscriptions s;
  _link_supports_sealed_at_rest := _link_supports_sealed_at_rest s;
  _batch_buffer := f (_batch_buffer s); _link_identities := _link_identities s;
  _defer_hook := _defer_hook s; _push_buffer := _push_buffer s; lm_trace := lm_trace s |}.
Definition set_buffer (f : ZombieLinkPushBuffer.t → ZombieLinkPushBuffer.t) (s : t) : t := {|
  _sealed_manager := _sealed_manager s; _subscriptions := _subscriptions s;
  _link_supports_sealed_at_rest := _link_supports_sealed_at_rest s;
  _batch_buffer := _batch_buffer s; _link_identities := _link_identities s;
  _defer_hook := _defer_hook s; _push_buffer := f (_push_buffer s); lm_trace := lm_trace s |}.
Definition emit (o : list out) (s : t) : t := {|
  _sealed_manager := _sealed_manager s; _subscriptions := _subscriptions s;
  _link_supports_sealed_at_rest := _link_supports_sealed_at_rest s;
  _batch_buffer := _batch_buffer s; _link_identities := _link_identities s;
  _defer_hook := _defer_hook s; _push_buffer := _push_buffer s; lm_trace := lm_trace s ++ o |}.
Definition set_defer_hook (hook : bool) (s : t) : t := {|
  _sealed_manager := _sealed_manager s; _subscriptions := _subscriptions s;
  _link_supports_sealed_at_rest := _link_supports_sealed_at_rest s;
  _batch_buffer := _batch_buffer s; _link_identities := _link_identities s;
  _defer_hook := hook; _push_buffer := _push_buffer s; lm_trace := lm_trace s |}.

(** [{link: sync_profile}] of a channel. *)
Definition get_subscribers (channel_id : string) (s : t) : dict link_id Z :=
  default [] (dict_get channel_id (_subscriptions s)).

Definition total_subscribers (s : t) : Z := foldr Z.add 0 (map (λ p, zlen p.2) (_subscriptions s)).

Definition subscribe (channel_id : string) (link : link_id) (sync_profile : Z)
    (identity_hash : option string) (supports_sealed_at_rest : bool) (s : t) : bool * t :=
  if sync_profile =? CDSP_PROFILE_MINIMAL then (false, s)
  else
    let s := if dict_has channel_id (_subscriptions s) then s
             else set_subs (dict_set channel_id []) s in
    let subs := get_subscribers channel_id s in
    if dict_has link subs
    then (true, set_subs (dict_set channel_id (dict_set link sync_profile subs)) s)
    else if MAX_SUBSCRIBERS_PER_CHANNEL <=? zlen subs then (false, s)
    else if MAX_TOTAL_SUBSCRIBERS <=? total_subscribers s then (false, s)
    else
      (true,
       set_links (if supports_sealed_at_rest then <[link := true]> else id)
         (if ostr_true identity_hash then <[link := or_empty identity_hash]> else id)
         (set_subs (dict_set channel_id (dict_set link sync_profile subs)) s)).

(** One channel's subscribers without a link; a channel left with none goes. *)
Definition drop_link (link : link_id) (channel_id : string) (d : dict string (dict link_id Z))
    : dict string (dict link_id Z) :=
  match dict_get channel_id d with
  | None => d
  | Some subs =>
      let subs := dict_del link subs in
      if list_true subs then dict_set channel_id subs d else dict_del channel_id d
  end.

Definition unsubscribe (channel_id : string) (link : link_id) (s : t) : t :=
  set_subs (drop_link link channel_id) s.

Definition unsubscribe_all (link : link_id) (s : t) : t :=
  set_subs (λ d, foldl (λ d c, drop_link link c d) d (dict_keys d)) s.

(** The identity of a link, if the hook is there to take its events. *)
Definition _defer_for_dead_link (link : link_id) (channel_id event_type : string)
    (data_dict : dict string val) (s : t) : t :=
  if negb (_defer_hook s) then s
  else
    match _link_identities s !! link with
    | Some h => if str_true h then emit [Defer h channel_id event_type data_dict] s else s
    | None => s
    end.

Definition batch_key (channel_id : string) (link : link_id) : string := colon channel_id link.

Definition batch_cap : Z := 1000.

(** [buf.append((data, time.time()))], the newest 1000 kept. *)
Definition batch_append (key : string) (data : bytes) (now : float)
    (d : dict string (list (bytes * float))) : dict string (list (bytes * float)) :=
  let buf := default [] (dict_get key d) ++ [(data, now)] in
  dict_set key (if batch_cap <? zlen buf then zlast batch_cap buf else buf) d.

Section push.
Context `{HM : LinkMdu} (net : Net) (now : float).

(** A packet when the data fits one, a resource transfer when it does not. *)
Definition transmit (link : link_id) (data : bytes) : out :=
  if zlen data <=? link_mdu then Packet link data else Resource link data.

(** One subscriber: whether its link is dead, and the state. *)
Definition push_one (channel_id : string) (data : bytes) (event_type : string)
    (data_dict : dict string val) (link : link_id) (profile : Z) (s : t) : bool * t :=
  match net link with
  | LinkClosed => (true, _defer_for_dead_link link channel_id event_type data_dict s)
  | st =>
      if (profile =? CDSP_PROFILE_PRIORITIZED) && bool_decide (event_type ∈ _PRIORITIZED_SKIP_EVENTS)
      then (false, s)
      else if profile =? CDSP_PROFILE_BATCHED
      then (false, set_batch (batch_append (batch_key channel_id link) data now) s)
      else
        match st with
        | LinkFailing => (true, _defer_for_dead_link link channel_id event_type data_dict s)
        | _ => (false, set_buffer (record now link channel_id event_type data_dict)
                         (emit [transmit link data] s))
        end
  end.

Fixpoint push_each (channel_id : string) (data : bytes) (event_type : string)
    (data_dict : dict string val) (subscribers : dict link_id Z) (s : t) : list link_id * t :=
  match subscribers with
  | [] => ([], s)
  | (link, profile) :: rest =>
      let (dead, s1) := push_one channel_id data event_type data_dict link profile s in
      let (deads, s2) := push_each channel_id data event_type data_dict rest s1 in
      (if dead then link :: deads else deads, s2)
  end.

Definition _push_to_subscribers (channel_id : string) (subscribers : dict link_id Z) (data : bytes)
    (event_type : string) (data_dict : dict string val) (s : t) : t :=
  let (dead_links, s) := push_each channel_id data event_type data_dict subscribers s in
  foldl (λ s l, unsubscribe_all l s) s dead_links.

Definition push_event `{Msgpack} (channel_id event_type : string) (data : dict string val)
    : M t unit :=
  let! subscribers := gets (get_subscribers channel_id) in
  when (list_true subscribers)
    (let! event_data := of_res (encode_push_event event_type data) in
     modify (_push_to_subscribers channel_id subscribers event_data event_type data)).

(** The encoding of a message for one group of subscribers, and its push. *)
Definition push_group `{Msgpack} `{Aead} (channel_id : string) (message : Message)
    (sender_public_key : option bytes) (sealed_at_rest : bool) (group : dict link_id Z) : M t unit :=
  let! mgr := gets _sealed_manager in
  let d := populate_sender_pubkey sender_public_key
             (encode_message_for_wire message mgr sealed_at_rest) in
  let! event_data := of_res (encode_push_event "message" d) in
  modify (_push_to_subscribers channel_id group event_data "message" d).

Definition supports (s : t) (p : link_id * Z) : bool :=
  default false (_link_supports_sealed_at_rest s !! p.1).

Definition push_message `{Msgpack} `{Aead} (channel_id : string) (message : Message)
    (sender_public_key : option bytes) : M t unit :=
  let! s := get in
  let subscribers := get_subscribers channel_id s in
  if negb (list_true subscribers) then ret tt
  else if negb (bool_decide (is_Some (_sealed_manager s)) && olist_true (m_encrypted_body message)
                && olist_true (m_encryption_nonce message))
  then push_group channel_id message sender_public_key false subscribers
  else
    let capable := List.filter (supports s) subscribers in
    let legacy := List.filter (λ p, negb (supports s p)) subscribers in
    when (list_true legacy) (push_group channel_id message sender_public_key false legacy) ;;
    when (list_true capable) (push_group channel_id message sender_public_key true capable).

Definition handle_link_death (link : link_id) (s : t) : t :=
  let (buffered, buf) := drain link (_push_buffer s) in
  let s := set_buffer (λ _, buf) s in
  let s := match _link_identities s !! link with
           | Some h =>
               if list_true buffered && str_true h && _defer_hook s
               then emit (map (λ p, Defer h (pu_channel_id p) (pu_event_type p) (pu_data p)) buffered) s
               else s
           | None => s
           end in
  set_links (delete link) (delete link) (unsubscribe_all link s).

(** *** Flushing batches *)

(** [batch_key.split(":", 1)] *)
Fixpoint split_colon (l : chars) : option (chars * chars) :=
  match l with
  | [] => None
  | c :: l => if decide (c = Ascii.ascii_of_nat 58) then Some ([], l)
              else (λ p, (c :: p.1, p.2)) <$> split_colon l
  end.

Definition batch_doc (events : list (bytes * float)) : val :=
  VDict [("v", VInt WIRE_VERSION); ("event", VStr "batch");
         ("data", VDict [("events", VList (map (λ e, VBytes e.1) events));
                         ("count", VInt (zlen events))])].

(** What the LXMF fallback needs of the session manager and of the LXMF
    library: the destination of an identity, and whether a message to it can
    be built and handed to the router. *)
Definition Lxmf : Type := option (string → option string) * (string → bool).

Definition _send_batch_via_lxmf `{Msgpack} (reachable : string → bool) (dest_hex : string)
    (events : list (bytes * float)) (s : t) : t :=
  match packb (VDict [("type", VStr "batch"); ("events", VList (map (λ e, VBytes e.1) events));
                      ("count", VInt (zlen events))]) with
  | Some _ => if reachable dest_hex then emit [LxmfBatch dest_hex (map fst events)] s else s
  | None => s
  end.

(** Delivery over the first subscriber whose key is the batch's. *)
Definition flush_via_link `{Msgpack} (key channel_id : string) (events : list (bytes * float))
    (s : t) : bool * t :=
  match find (λ p, bool_decide (batch_key channel_id p.1 = key) && (p.2 =? CDSP_PROFILE_BATCHED))
          (get_subscribers channel_id s) with
  | Some (link, _) =>
      match net link, packb (batch_doc events) with
      | LinkActive, Some data => (true, emit [transmit link data] s)
      | _, _ => (false, s)
      end
  | None => (false, s)
  end.

Definition flush_one `{Msgpack} (lx : Lxmf) (s : t) (kv : string * list (bytes * float)) : t :=
  let (key, events) := kv in
  if negb (list_true events) then s
  else
    match split_colon (chars_of key) with
    | None => s
    | Some (c, l) =>
        let (sent, s) := flush_via_link key (string_of c) events s in
        if sent then s
        else
          match lx.1, _link_identities s !! string_of l with
          | Some get_lxmf_destination, Some h =>
              if str_true h then
                match get_lxmf_destination h with
                | Some d => if str_true d then _send_batch_via_lxmf lx.2 d events s else s
                | None => s
                end
              else s
          | _, _ => s
          end
    end.

Definition flush_batches `{Msgpack} (lx : Lxmf) (s : t) : t :=
  let buffers := _batch_buffer s in
  foldl (flush_one lx) (set_batch (λ _, []) s) buffers.

Definition _push_to_links (links : list link_id) (data : bytes) (s : t) : t :=
  let alive l := match net l with LinkActive => true | _ => false end in
  let s := emit (map (λ l, transmit l data) (List.filter alive links)) s in
  foldl (λ s l, unsubscribe_all l s) s (List.filter (λ l, negb (alive l)) links).
End push.
End LiveSubscriptionManager.

Import LiveSubscriptionManager.

(** ** The handlers *)

(** The database with the ban counters, and the live manager. *)
Record LiveNode := { ln_sync : Sync; ln_live : LiveSubscriptionManager.t }.
Definition ln_sync_op {A} (m : M Sync A) : M LiveNode A :=
  lift ln_sync (λ y s, {| ln_sync := y; ln_live := ln_live s |}) m.
Definition ln_live_op {A} (m : M LiveSubscriptionManager.t A) : M LiveNode A :=
  lift ln_live (λ l s, {| ln_sync := ln_sync s; ln_live := l |}) m.

Definition handle_subscribe_live (ctx : SyncContext) (live_manager : bool)
    (payload : dict string val) (channel_id requester_hash : option string) (link : option link_id)
    : M LiveNode string :=
  let ch := get_str "channel_id" channel_id payload in
  if negb (ostr_true ch) then raise SyncError "No channel_id for subscribe_live"
  else
    let ch := or_empty ch in
    ln_sync_op (check_channel_read ctx ch requester_hash) ;;
    let! db := gets (λ s, sy_db (ln_sync s)) in
    let profile := get_session_profile ctx requester_hash db in
    if negb (live_push profile)
    then raise SyncError "Live subscriptions not available under current sync profile"
    else if negb live_manager then raise SyncError "Live subscriptions not available"
    else
      match link with
      | None => raise SyncError "No link provided for subscribe_live"
      | Some link =>
          let sess := if ostr_true requester_hash then active_session_of requester_hash db else None in
          let sync_profile := match sess with Some s => ses_sync_profile s | None => CDSP_PROFILE_FULL end in
          let! ok := ln_live_op (λ l, let (b, l') := subscribe ch link sync_profile requester_hash
                                                       (get_bool "supports_sealed_at_rest" payload) l in
                                      (Ok b, l')) in
          if ok then ret ch else raise SyncError "Subscription limit reached"
      end.

Definition handle_unsubscribe (live_manager : bool) (payload : dict string val)
    (channel_id : option string) (link : option link_id) : M LiveNode (option string) :=
  let ch := get_str "channel_id" channel_id payload in
  if negb live_manager then raise SyncError "Live subscriptions not available"
  else
    match link with
    | None => raise SyncError "No link provided for unsubscribe"
    | Some link =>
        ln_live_op (modify (if ostr_true ch then unsubscribe (or_empty ch) link
                            else unsubscribe_all link)) ;;
        ret ch
    end.

(** ** Bounds *)

Section totals.
Context {K A : Type} `{EqDecision K}.
Implicit Types d : dict K (list A).

(** The number of entries below all keys. *)
Definition total_len d : Z := foldr Z.add 0 (map (λ p, zlen p.2) d).

Lemma total_len_nonneg d : 0 ≤ total_len d.
Proof. unfold total_len. induction d as [|[k l] d IH]; simpl; [done|]. pose proof (zlen_nonneg l). lia. Qed.

Lemma total_len_set k l d :
  total_len (dict_set k l d) = total_len d - zlen (default [] (dict_get k d)) + zlen l.
Proof.
  unfold total_len. induction d as [|[k' l'] d IH]; simpl; [unfold zlen; simpl; lia|].
  destruct (decide (k = k')); simpl; [lia|]. rewrite IH. lia.
Qed.

Lemma total_len_del k d : total_len (dict_del k d) ≤ total_len d.
Proof.
  unfold total_len, dict_del. induction d as [|[k' l'] d IH]; [done|]. rewrite filter_cons.
  pose proof (zlen_nonneg l'). destruct (decide _); simpl in *; lia.
Qed.
End totals.

Section caps.
Context {K A : Type} `{EqDecision K} (cap : Z).
Implicit Types d : dict K (list A).

Definition capped d : Prop := Forall (λ p, zlen p.2 ≤ cap) d.

Lemma capped_get k l d : capped d → dict_get k d = Some l → zlen l ≤ cap.
Proof using.
  unfold capped. induction 1 as [|[k' l'] d Hl Hd IH]; simpl; [done|].
  destruct (decide (k = k')); [by intros [= <-]|done].
Qed.

Lemma capped_set k l d : capped d → zlen l ≤ cap → capped (dict_set k l d).
Proof using.
  intros Hd Hl. induction Hd as [|[k' l'] d Hl' Hd IH]; simpl; [by constructor|].
  destruct (decide (k = k')); by constructor.
Qed.

Lemma capped_del k d : capped d → capped (dict_del k d).
Proof using.
  unfold capped, dict_del. rewrite !Forall_forall. intros Hd p [_ Hp]%list_elem_of_filter. auto.
Qed.
End caps.

Lemma dict_del_zlen {K V} `{EqDecision K} (k : K) (d : dict K V) : zlen (dict_del k d) ≤ zlen d.
Proof. unfold dict_del, zlen. pose proof (length_filter (λ p : K * V, p.1 ≠ k) d). lia. Qed.

(** Subscribers within the limits, buffers within their caps. *)
Record live_ok (s : LiveSubscriptionManager.t) : Prop := {
  lo_channel : capped MAX_SUBSCRIBERS_PER_CHANNEL (_subscriptions s);
  lo_total : total_len (_subscriptions s) ≤ MAX_TOTAL_SUBSCRIBERS;
  lo_batch : capped batch_cap (_batch_buffer s);
  lo_cap : _per_link_cap (_push_buffer s) = DEFAULT_PER_LINK_CAP;
  lo_pushes : ∀ l b, _pushes (_push_buffer s) !! l = Some b → zlen b ≤ DEFAULT_PER_LINK_CAP;
}.

Definition subs_ok (d : dict string (dict link_id Z)) : Prop :=
  capped MAX_SUBSCRIBERS_PER_CHANNEL d ∧ total_len d ≤ MAX_TOTAL_SUBSCRIBERS.

Lemma drop_link_ok l c d : subs_ok d → subs_ok (drop_link l c d).
Proof.
  intros [Hc Ht]. unfold drop_link. destruct (dict_get c d) as [subs|] eqn:E; [|done].
  pose proof (dict_del_zlen l subs). pose proof (capped_get _ _ _ _ Hc E).
  destruct (list_true _); split.
  - apply capped_set; [done|lia].
  - rewrite total_len_set, E. simpl. lia.
  - by apply capped_del.
  - pose proof (total_len_del c d). lia.
Qed.

Lemma live_ok_subs f s :
  (∀ d, subs_ok d → subs_ok (f d)) → live_ok s → live_ok (set_subs f s).
Proof. intros Hf [H1 H2 H3 H4 H5]. destruct (Hf _ (conj H1 H2)). by split. Qed.

Lemma unsubscribe_all_ok l s : live_ok s → live_ok (unsubscribe_all l s).
Proof.
  apply live_ok_subs. intros d. generalize (dict_keys d). intros ks.
  revert d. induction ks as [|k ks IH]; intros d Hd; simpl; [done|]. by apply IH, drop_link_ok.
Qed.

Lemma unsubscribe_each_ok ls s : live_ok s → live_ok (foldl (λ s l, unsubscribe_all l s) s ls).
Proof. revert s. induction ls as [|l ls IH]; intros s Hs; simpl; [done|]. by apply IH, unsubscribe_all_ok. Qed.

Lemma emit_ok o s : live_ok s → live_ok (emit o s).
Proof. intros [H1 H2 H3 H4 H5]. by split. Qed.

Lemma set_links_ok f g s : live_ok s → live_ok (set_links f g s).
Proof. intros [H1 H2 H3 H4 H5]. by split. Qed.

Lemma subscribe_ok c l p i sup s : live_ok s → live_ok (subscribe c l p i sup s).2.
Proof.
  intros Hs. unfold subscribe. destruct (p =? _); [done|].
  set (s1 := if dict_has c (_subscriptions s) then s else set_subs (dict_set c []) s).
  assert (Hs1 : live_ok s1).
  { unfold s1. destruct (dict_has c (_subscriptions s)) eqn:E; [done|].
    apply live_ok_subs; [|done]. intros d [H1 H2]. split; [by apply capped_set|].
    rewrite total_len_set, zlen_nil. pose proof (zlen_nonneg (default [] (dict_get c d))). lia. }
  clearbody s1. clear Hs. set (subs := get_subscribers c s1).
  assert (Hcap : zlen subs ≤ MAX_SUBSCRIBERS_PER_CHANNEL).
  { unfold subs, get_subscribers. destruct (dict_get c (_subscriptions s1)) eqn:E; [|done].
    eapply capped_get; [apply (lo_channel _ Hs1)|done]. }
  assert (Hset : ∀ v, zlen v ≤ MAX_SUBSCRIBERS_PER_CHANNEL →
    total_len (_subscriptions s1) - zlen subs + zlen v ≤ MAX_TOTAL_SUBSCRIBERS →
    live_ok (set_subs (dict_set c v) s1)).
  { intros v Hv Htot. destruct Hs1 as [H1 H2 H3 H4 H5]. split; simpl; [by apply capped_set| |done..].
    rewrite total_len_set. exact Htot. }
  pose proof (lo_total _ Hs1).
  destruct (dict_has l subs) eqn:El; simpl.
  - pose proof (zlen_dict_set l p subs) as E. rewrite El in E. apply Hset; lia.
  - pose proof (zlen_dict_set l p subs) as E. rewrite El in E.
    destruct (Z.leb_spec MAX_SUBSCRIBERS_PER_CHANNEL (zlen subs)); simpl; [done|].
    change (total_subscribers s1) with (total_len (_subscriptions s1)).
    destruct (Z.leb_spec MAX_TOTAL_SUBSCRIBERS (total_len (_subscriptions s1))); simpl; [done|].
    apply set_links_ok, Hset; lia.
Qed.

Lemma drop_before_zlen c l : zlen (drop_before c l) ≤ zlen l.
Proof. induction l as [|p l IH]; simpl; [done|]. destruct (flt _ _); [rewrite zlen_cons; lia|done]. Qed.

Lemma record_ok now l c ty d s : live_ok s → live_ok (set_buffer (record now l c ty d) s).
Proof.
  intros [H1 H2 H3 H4 H5]. split; try done. simpl.
  intros l' b [[<- <-]|[Hne Hb]]%lookup_insert_Some; [|by eapply H5].
  etrans; [apply drop_before_zlen|]. unfold deque_append. rewrite H4, zlen_zlast by done. lia.
Qed.

Lemma batch_append_ok k b now d : capped batch_cap d → capped batch_cap (batch_append k b now d).
Proof.
  intros Hd. apply capped_set; [done|].
  destruct (Z.ltb_spec batch_cap (zlen (default [] (dict_get k d) ++ [(b, now)]))); [|done].
  rewrite zlen_zlast by done. lia.
Qed.

Lemma defer_dead_ok l c ty d s : live_ok s → live_ok (_defer_for_dead_link l c ty d s).
Proof.
  intros Hs. unfold _defer_for_dead_link. destruct (_defer_hook s); [|done]. simpl.
  destruct (_link_identities s !! l) as [h|]; [|done]. destruct (str_true h); [by apply emit_ok|done].
Qed.
#[export] Hint Resolve emit_ok set_links_ok record_ok defer_dead_ok subscribe_ok unsubscribe_all_ok
  unsubscribe_each_ok : hok.

Section push_ok.
Context `{HM : LinkMdu} (net : Net) (now : float).

Lemma push_one_ok c b ty d l p s : live_ok s → live_ok (push_one net now c b ty d l p s).2.
Proof.
  intros Hs. unfold push_one. destruct (net l); [| |by apply defer_dead_ok];
    (destruct (_ && _); [done|]); (destruct (p =? _); [|simpl; eauto with hok]);
    destruct Hs as [H1 H2 H3 H4 H5]; split; try done; by apply batch_append_ok.
Qed.

Lemma push_each_ok c b ty d subs s : live_ok s → live_ok (push_each net now c b ty d subs s).2.
Proof.
  revert s. induction subs as [|[l p] subs IH]; intros s Hs; simpl; [done|].
  pose proof (push_one_ok c b ty d l p s Hs) as H1. destruct (push_one _ _ _ _ _ _ _ _ _) as [dead s1].
  specialize (IH s1 H1). by destruct (push_each _ _ _ _ _ _ _ _) as [deads s2].
Qed.

Lemma push_to_subscribers_ok c subs b ty d s :
  live_ok s → live_ok (_push_to_subscribers net now c subs b ty d s).
Proof.
  intros Hs. unfold _push_to_subscribers. pose proof (push_each_ok c b ty d subs s Hs) as H.
  destruct (push_each _ _ _ _ _ _ _ _) as [deads s']. eauto with hok.
Qed.

Lemma push_event_ok `{Msgpack} c ty d : mrel (keeps live_ok) (push_event net now c ty d).
Proof.
  unfold push_event. mrel_auto. apply mrel_modify. intros s Hs. by apply push_to_subscribers_ok.
Qed.

Lemma push_message_ok `{Msgpack} `{Aead} c m k : mrel (keeps live_ok) (push_message net now c m k).
Proof.
  assert (Hg : ∀ b g, mrel (keeps live_ok) (push_group net now c m k b g)).
  { intros b g. unfold push_group. mrel_auto. apply mrel_modify. intros s Hs. by apply push_to_subscribers_ok. }
  unfold push_message. mrel_auto.
Qed.

Lemma handle_link_death_ok l s : live_ok s → live_ok (handle_link_death l s).
Proof.
  intros Hs. unfold handle_link_death. simpl.
  apply set_links_ok, unsubscribe_all_ok.
  assert (Hd : live_ok (set_buffer (λ _, set_pushes (delete l) (_push_buffer s)) s)).
  { destruct Hs as [H1 H2 H3 H4 H5]. split; try done. simpl.
    intros l' b [_ Hb]%lookup_delete_Some. by eapply H5. }
  destruct (_link_identities s !! l); [|done]. destruct (_ && _ && _); [by apply emit_ok|done].
Qed.

Lemma flush_one_ok `{Msgpack} lx s kv : live_ok s → live_ok (flush_one net lx s kv).
Proof.
  destruct kv as [k es]. intros Hs. unfold flush_one.
  destruct (list_true es); [|done]. simpl. destruct (split_colon _) as [[c l]|]; [|done].
  assert (Hv : live_ok (flush_via_link net k (string_of c) es s).2).
  { unfold flush_via_link. destruct (find _ _) as [[l' p]|]; [|done].
    destruct (net l'); try done. destruct (packb (batch_doc es)); [by apply emit_ok|done]. }
  destruct (flush_via_link _ _ _ _ _) as [[] s1]; [done|].
  destruct lx.1 as [g|]; [|done]. destruct (_link_identities s1 !! _) as [h|]; [|done].
  destruct (str_true h); [|done]. destruct (g h) as [dst|]; [|done]. destruct (str_true dst); [|done].
  unfold _send_batch_via_lxmf.
  match goal with |- context [packb ?v] => destruct (packb v) end; [|done].
  destruct (lx.2 dst); [by apply emit_ok|done].
Qed.

Lemma flush_batches_ok `{Msgpack} lx s : live_ok s → live_ok (flush_batches net lx s).
Proof.
  intros Hs. unfold flush_batches.
  assert (H0 : live_ok (set_batch (λ _, []) s)) by (destruct Hs; split; try done; by constructor).
  revert H0. generalize (set_batch (λ _, []) s). induction (_batch_buffer s) as [|kv bs IH]; [done|].
  intros s' H0. simpl. by apply IH, flush_one_ok.
Qed.

Lemma push_to_links_ok ls b s : live_ok s → live_ok (_push_to_links net ls b s).
Proof. intros Hs. unfold _push_to_links. eauto with hok. Qed.
End push_ok.

(** *** Any run of the manager *)

Inductive live_op :=
  | OpSubscribe (c : string) (l : link_id) (profile : Z) (ident : option string) (sealed : bool)
  | OpUnsubscribe (c : string) (l : link_id)
  | OpUnsubscribeAll (l : link_id)
  | OpPushMessage (net : Net) (now : float) (c : string) (m : Message) (key : option bytes)
  | OpPushEvent (net : Net) (now : float) (c ty : string) (d : dict string val)
  | OpPushLinks (net : Net) (ls : list link_id) (data : bytes)
  | OpDeath (l : link_id)
  | OpFlush (net : Net) (lx : Lxmf)
  | OpHook (hook : bool).

Section live_runs.
Context `{HM : LinkMdu} `{HP : Msgpack} `{HA : Aead}.

Definition run_live_op (s : LiveSubscriptionManager.t) (o : live_op) : LiveSubscriptionManager.t :=
  match o with
  | OpSubscribe c l p i b => (subscribe c l p i b s).2
  | OpUnsubscribe c l => unsubscribe c l s
  | OpUnsubscribeAll l => unsubscribe_all l s
  | OpPushMessage net now c m k => (push_message net now c m k s).2
  | OpPushEvent net now c ty d => (push_event net now c ty d s).2
  | OpPushLinks net ls b => _push_to_links net ls b s
  | OpDeath l => handle_link_death l s
  | OpFlush net lx => flush_batches net lx s
  | OpHook b => set_defer_hook b s
  end.

Lemma run_live_op_ok s o : live_ok s → live_ok (run_live_op s o).
Proof.
  intros Hs. destruct o; simpl; eauto using push_to_links_ok, handle_link_death_ok, flush_batches_ok with hok.
  - apply live_ok_subs; [intros d; apply drop_link_ok|done].
  - by apply push_message_ok.
  - by apply push_event_ok.
  - destruct Hs. by split.
Qed.

Lemma live_init_ok mgr : live_ok (init mgr).
Proof. split; try done; try constructor. Qed.

Lemma run_live_ops_ok mgr ops : live_ok (foldl run_live_op (init mgr) ops).
Proof.
  pose proof (live_init_ok mgr) as H. revert H. generalize (init mgr).
  induction ops as [|o ops IH]; intros s Hs; simpl; [done|]. by apply IH, run_live_op_ok.
Qed.
End live_runs.

(** C34: whatever is subscribed, pushed, flushed and closed, a channel never
    has more than [MAX_SUBSCRIBERS_PER_CHANNEL] subscribers, the node never
    more than [MAX_TOTAL_SUBSCRIBERS] subscriptions, no batch holds more than
    1000 events, and the replay buffer of a link never more than its cap. *)
Theorem live_bounded {HM : LinkMdu} {HP : Msgpack} {HA : Aead} (mgr : option SealedChannelManager.t)
    (ops : list live_op) :
  let s := foldl run_live_op (init mgr) ops in
  (∀ c, zlen (get_subscribers c s) ≤ MAX_SUBSCRIBERS_PER_CHANNEL)
  ∧ total_subscribers s ≤ MAX_TOTAL_SUBSCRIBERS
  ∧ (∀ k b, dict_get k (_batch_buffer s) = Some b → zlen b ≤ 1000)
  ∧ (∀ l b, _pushes (_push_buffer s) !! l = Some b → zlen b ≤ DEFAULT_PER_LINK_CAP).
Proof.
  intros s. destruct (run_live_ops_ok mgr ops) as [H1 H2 H3 H4 H5]. split_and!; [|done| |done].
  - intros c. unfold get_subscribers. destruct (dict_get c _) eqn:E; [|done]. by eapply capped_get.
  - intros k b. by apply capped_get.
Qed.

(** ** Links that close *)

Definition lacks (l : link_id) (c : string) (d : dict string (dict link_id Z)) : Prop :=
  ∀ subs, dict_get c d = Some subs → dict_get l subs = None.

Lemma drop_link_lacks l c c' d : (c = c' ∨ lacks l c d) → lacks l c (drop_link l c' d).
Proof.
  intros Hd. unfold lacks, drop_link. destruct (dict_get c' d) as [subs'|] eqn:E; simpl.
  - destruct (list_true _) eqn:El; intros subs.
    + rewrite dict_get_set. destruct (decide (c = c')) as [->|Hne].
      * intros [= <-]. rewrite dict_get_del. by rewrite decide_True.
      * destruct Hd as [?|Hd]; [done|apply Hd].
    + rewrite dict_get_del. destruct (decide (c = c')); [done|]. destruct Hd as [?|Hd]; [done|apply Hd].
  - destruct Hd as [->|Hd]; [by rewrite E|done].
Qed.

Lemma unsubscribe_all_lacks l c s : lacks l c (_subscriptions (unsubscribe_all l s)).
Proof.
  simpl.
  assert (H : ∀ ks d, (c ∈ ks ∨ lacks l c d) → lacks l c (foldl (λ d c, drop_link l c d) d ks)).
  { induction ks as [|k ks IH]; intros d Hd; simpl.
    - destruct Hd as [Hd|Hd]; [by apply not_elem_of_nil in Hd|done].
    - apply IH. destruct Hd as [[->|Hd]%elem_of_cons|Hd]; [|by left|];
        right; apply drop_link_lacks; auto. }
  apply H. destruct (decide (c ∈ dict_keys (_subscriptions s))) as [Hin|Hin]; [by left|right].
  intros subs E. destruct Hin. apply elem_of_dict_keys. by rewrite E.
Qed.

Lemma string_app_inj a b c : String.append a b = String.append a c → b = c.
Proof. induction a as [|x a IH]; simpl; [done|]. intros [= H]. by apply IH. Qed.

Definition no_colon (c : string) : Prop := Forall (λ x, x ≠ Ascii.ascii_of_nat 58) (chars_of c).

Lemma split_colon_key c l :
  no_colon c → split_colon (chars_of (batch_key c l)) = Some (chars_of c, chars_of l).
Proof.
  unfold no_colon, batch_key, colon. induction c as [|x c IH]; simpl; intros H; [done|].
  inversion H; subst. rewrite decide_False by done. unfold chars_of in *. by rewrite IH.
Qed.

(** events accumulated for a BATCHED subscriber are lost when its link
    closes before the flush: closing unsubscribes the link and forgets its
    identity, so the flush finds neither the link nor an LXMF destination, and
    drops the batch without sending or deferring anything, although an LXMF
    destination may be registered and a defer hook installed. *)
Theorem link_death_loses_batch {HM : LinkMdu} {HP : Msgpack} (net : Net) (lx : Lxmf) (c : string)
    (l : link_id) (events : list (bytes * float)) (s : LiveSubscriptionManager.t) :
  no_colon c → _batch_buffer s = [(batch_key c l, events)] →
  _pushes (_push_buffer s) !! l = None →
  let s' := flush_batches net lx (handle_link_death l s) in
  lm_trace s' = lm_trace s ∧ _batch_buffer s' = [].
Proof.
  intros Hc Hb Hp s'. unfold s', flush_batches.
  set (s1 := handle_link_death l s).
  assert (E : s1 = set_links (delete l) (delete l)
                (unsubscribe_all l (set_buffer (λ _, set_pushes (delete l) (_push_buffer s)) s))).
  { unfold s1, handle_link_death, drain. rewrite Hp. simpl. by destruct (_link_identities s !! l). }
  clearbody s1. replace (_batch_buffer s1) with [(batch_key c l, events)] by (by rewrite E).
  cbn [foldl]. unfold flush_one. destruct (list_true events); simpl; [|by rewrite E].
  rewrite split_colon_key, !string_chars by done.
  unfold flush_via_link. destruct (find _ _) as [[l' p]|] eqn:Ef.
  - exfalso. apply find_some in Ef as [Hin [Hk _]%andb_true_iff].
    apply bool_decide_eq_true in Hk. unfold batch_key, colon in Hk. simpl in Hk.
    apply string_app_inj in Hk.
    assert (l' = l) as -> by (injection Hk as Hk; exact Hk).
    unfold get_subscribers in Hin. simpl in Hin.
    destruct (dict_get c (_subscriptions s1)) as [subs|] eqn:Es; [|done].
    assert (Hl : dict_get l subs = None).
    { rewrite E in Es. simpl in Es. by eapply (unsubscribe_all_lacks l c s). }
    simpl in Hin. apply list_elem_of_In, (list_elem_of_fmap_2 fst) in Hin. simpl in Hin.
    apply (elem_of_dict_keys l subs) in Hin. rewrite Hl in Hin. by destruct Hin.
  - simpl. rewrite E. simpl. rewrite lookup_delete_eq. by destruct lx.1.
Qed.

(** ** Sealed messages *)

Section sealed_push.
Context `{HM : LinkMdu} (net : Net) (now : float).

(** [s'] extends the trace of [s] with outputs that satisfy [P]. *)
Definition extends (P : out → Prop) (s s' : LiveSubscriptionManager.t) : Prop :=
  ∃ os, lm_trace s' = lm_trace s ++ os ∧ Forall P os.

#[export] Instance extends_preorder P : PreOrder (extends P).
Proof.
  split.
  - intros s. exists []. by rewrite app_nil_r.
  - intros s1 s2 s3 (o1 & E1 & F1) (o2 & E2 & F2). exists (o1 ++ o2).
    rewrite E2, E1, app_assoc. split; [done|]. by apply Forall_app.
Qed.

(** The data a link is sent. *)
Definition sent_to (l : link_id) (o : out) : option bytes :=
  match o with
  | Packet l' d | Resource l' d => if bool_decide (l' = l) then Some d else None
  | _ => None
  end.

(** Only links of a group are sent something, and it is this data. *)
Definition only_group (group : dict link_id Z) (data : bytes) (o : out) : Prop :=
  ∀ l d, sent_to l o = Some d → l ∈ dict_keys group ∧ d = data.

Lemma defer_dead_extends P l c ty d s :
  (∀ h, P (Defer h c ty d)) → extends P s (_defer_for_dead_link l c ty d s).
Proof using.
  intros HP. unfold _defer_for_dead_link. destruct (_defer_hook s); [|done]. simpl.
  destruct (_link_identities s !! l) as [h|]; [|done]. destruct (str_true h); [|done].
  exists [Defer h c ty d]. by split; [|constructor].
Qed.

Lemma push_one_extends group c b ty d l p s :
  l ∈ dict_keys group → extends (only_group group b) s (push_one net now c b ty d l p s).2.
Proof.
  intros Hl.
  assert (Hd : extends (only_group group b) s (_defer_for_dead_link l c ty d s))
    by (apply defer_dead_extends; by intros h l' d').
  unfold push_one. destruct (net l); [| |done];
    (destruct (_ && _); [done|]); (destruct (p =? _); [by exists []; rewrite app_nil_r|]); [|done].
  exists [transmit l b]. split; [done|]. constructor; [|done]. intros l' d'. unfold transmit.
  destruct (_ <=? _); simpl; case_bool_decide; naive_solver.
Qed.

Lemma push_group_extends group c b ty d s :
  extends (only_group group b) s (_push_to_subscribers net now c group b ty d s).
Proof.
  assert (Hu : ∀ ls s, lm_trace (foldl (λ s l, unsubscribe_all l s) s ls) = lm_trace s).
  { induction ls as [|l ls IH]; intros s0; simpl; [done|]. by rewrite IH. }
  assert (H : ∀ sub s, (∀ l, l ∈ dict_keys sub → l ∈ dict_keys group) →
            extends (only_group group b) s (push_each net now c b ty d sub s).2).
  { induction sub as [|[l p] sub IH]; intros s0 Hsub; simpl; [done|].
    pose proof (push_one_extends group c b ty d l p s0) as H1.
    destruct (push_one _ _ _ _ _ _ _ _ _) as [dead s1]. simpl in H1.
    specialize (IH s1). destruct (push_each _ _ _ _ _ _ _ _) as [deads s2]. simpl in *.
    etrans; [apply H1, Hsub; left|apply IH]. intros l' Hl'. apply Hsub. by right. }
  unfold _push_to_subscribers. specialize (H group s). destruct (push_each _ _ _ _ _ _ _ _) as [ds s'].
  destruct H as (os & E & F); [done|]. exists os. by rewrite Hu.
Qed.

Lemma push_keeps_manager c group b ty d s :
  _sealed_manager (_push_to_subscribers net now c group b ty d s) = _sealed_manager s.
Proof.
  assert (Hu : ∀ ls s, _sealed_manager (foldl (λ s l, unsubscribe_all l s) s ls) = _sealed_manager s).
  { induction ls as [|l ls IH]; intros s0; simpl; [done|]. by rewrite IH. }
  assert (Hd : ∀ l s, _sealed_manager (_defer_for_dead_link l c ty d s) = _sealed_manager s).
  { intros l s0. unfold _defer_for_dead_link. destruct (_defer_hook s0); [|done]. simpl.
    destruct (_link_identities s0 !! l) as [h|]; [|done]. by destruct (str_true h). }
  assert (H : ∀ s, _sealed_manager (push_each net now c b ty d group s).2 = _sealed_manager s).
  { induction group as [|[l p] sub IH]; intros s0; simpl; [done|].
    assert (H1 : _sealed_manager (push_one net now c b ty d l p s0).2 = _sealed_manager s0).
    { unfold push_one. destruct (net l); [| |apply Hd]; (destruct (_ && _); [done|]);
        (destruct (p =? _); [done|]); [done|apply Hd]. }
    destruct (push_one _ _ _ _ _ _ _ _ _) as [dead s1]. specialize (IH s1).
    destruct (push_each _ _ _ _ _ _ _ _) as [deads s2]. simpl in *. congruence. }
  unfold _push_to_subscribers. specialize (H s). destruct (push_each _ _ _ _ _ _ _ _) as [ds s'].
  simpl in H. by rewrite Hu.
Qed.

Lemma push_group_run `{Msgpack} `{Aead} c m k b group s s' :
  push_group net now c m k b group s = (Ok tt, s') →
  ∃ data, encode_push_event "message"
            (populate_sender_pubkey k (encode_message_for_wire m (_sealed_manager s) b)) = Ok data
    ∧ extends (only_group group data) s s' ∧ _sealed_manager s' = _sealed_manager s.
Proof.
  unfold push_group. intros (mgr & s1 & [= <- <-] & H1)%bind_ok.
  apply bind_ok in H1 as (data & s1 & [= Hd <-] & [= <-]). exists data.
  split_and!; [done|apply push_group_extends|apply push_keeps_manager].
Qed.

Lemma dict_get_populate k key d :
  key ≠ "sender_public_key" → dict_get key (populate_sender_pubkey k d) = dict_get key d.
Proof. intros. unfold populate_sender_pubkey. destruct (olist_true k); [|done]. by apply dict_get_set_ne. Qed.
End sealed_push.

(** a subscriber that announced it keeps sealed bodies sealed is never
    sent the decrypted one: whatever a push of a sealed row sends to its link
    is the encoding of a document whose body is empty and that carries the
    row's ciphertext. *)
Theorem sealed_push_at_rest {HM : LinkMdu} {HP : Msgpack} {HA : Aead} (net : Net) (now : float)
    (c : string) (m : Message) (k : option bytes) (mgr : SealedChannelManager.t)
    (s s' : LiveSubscriptionManager.t) :
  _sealed_manager s = Some mgr → olist_true (m_encrypted_body m) = true →
  olist_true (m_encryption_nonce m) = true →
  push_message net now c m k s = (Ok tt, s') →
  extends (λ o, ∀ l data, sent_to l o = Some data →
             _link_supports_sealed_at_rest s !! l = Some true →
             ∃ d, encode_push_event "message" d = Ok data ∧ dict_get "body" d = Some (VStr "")
                  ∧ dict_get "encrypted_body" d = Some (val_of VBytes (m_encrypted_body m))) s s'.
Proof.
  intros Hmgr He Hn H. set (P := λ o, ∀ l data, _).
  unfold push_message in H. apply bind_ok in H as (s0 & s1 & [= <- <-] & H).
  destruct (list_true (get_subscribers c s)); simpl in H; [|injection H as <-; reflexivity].
  rewrite Hmgr, He, Hn in H. cbn [negb andb bool_decide] in H. rewrite bool_decide_eq_true_2 in H by done.
  cbn [negb andb] in H. apply bind_ok in H as ([] & s1 & H1 & H2).
  assert (Hsup : ∀ l f g, l ∈ dict_keys (List.filter (λ p, f (supports s p)) g) →
            _link_supports_sealed_at_rest s !! l = Some true → f true = true).
  { intros l f g ([l' p] & -> & Hp)%list_elem_of_fmap Hl. apply elem_of_filter_bool in Hp as [_ Hp].
    unfold supports in Hp. simpl in *. by rewrite Hl in Hp. }
  trans s1.
  - unfold when in H1. destruct (list_true _); [|munfold H1; by simplify_eq].
    apply push_group_run in H1 as (data & _ & (os & Eo & Ho) & _). exists os. split; [done|].
    eapply Forall_impl; [done|]. intros o Hg l d Hd Hl. destruct (Hg l d Hd) as [Hin _].
    by apply (Hsup l negb) in Hin.
  - assert (Hm1 : _sealed_manager s1 = Some mgr).
    { unfold when in H1. destruct (list_true _); [|munfold H1; by simplify_eq].
      apply push_group_run in H1 as (_ & _ & _ & ->). done. }
    unfold when in H2. destruct (list_true (List.filter (supports s) _)); [|munfold H2; by simplify_eq].
    apply push_group_run in H2 as (data & Hdata & (os & Eo & Ho) & _). exists os. split; [done|].
    eapply Forall_impl; [done|]. intros o Hg l d Hd Hl. destruct (Hg l d Hd) as [_ ->].
    eexists. split; [exact Hdata|]. rewrite !dict_get_populate by done.
    unfold encode_message_for_wire. rewrite Hm1, He, Hn. cbn [andb negb].
    split; rewrite ?dict_get_set_ne by done; [|by rewrite dict_get_set_eq].
    by rewrite dict_get_set_eq.
Qed.

(** ** Who may subscribe *)

(** a subscription is only granted to whom may read: an answered request
    names a known channel, its requester is not banned, when the channel is
    private it is the node owner or holds a role on the channel itself, and
    its link is then among the subscribers of the channel. *)
Theorem subscribe_access (ctx : SyncContext) (lm : bool) (payload : dict string val)
    (cid req : option string) (link : option link_id) (s s' : LiveNode) (ch : string) :
  handle_subscribe_live ctx lm payload cid req link s = (Ok ch, s') →
  ∃ c l, cx_channels ctx !! ch = Some c ∧ link = Some l
  ∧ (∀ i, req = Some i → is_blocked i (sy_db (ln_sync s)) = false)
  ∧ (ch_access_mode c = ACCESS_PRIVATE → ∃ i, req = Some i
     ∧ (cx_permission_resolver ctx = Some i
        ∨ RoleRepo.get_identity_roles i (Some ch) true (sy_db (ln_sync s)) ≠ []))
  ∧ dict_has l (get_subscribers ch (ln_live s')) = true.
Proof.
  unfold handle_subscribe_live. cbv zeta. destruct (get_str "channel_id" cid payload) as [ch'|]; [|done].
  destruct (ostr_true (Some ch')); simpl; [|done].
  intros (c & s1 & Hc & H)%bind_ok. apply lift_ok in Hc as (y & Hc & ->).
  apply bind_ok in H as (db & s2 & [= <- <-] & H). simpl in H.
  destruct (live_push _); simpl in H; [|done]. destruct lm; simpl in H; [|done].
  destruct link as [l|]; [|done]. apply bind_ok in H as (ok & s2 & Hl & H).
  destruct ok; [|done]. injection H as <- <-.
  unfold ln_live_op in Hl. apply lift_ok in Hl as (lm' & Hl & ->).
  apply check_channel_read_ok in Hc as (_ & H1 & H2 & H3). exists c, l.
  split_and!; try done. simpl. simpl in Hl. clear -Hl.
  match type of Hl with (let (_, _) := ?x in _) = _ => destruct x as [b l'] eqn:El end.
  injection Hl as -> ->. rename El into Hl.
  unfold subscribe in Hl. destruct (_ =? _); [done|].
  set (s1 := if dict_has ch' _ then _ else _) in Hl. clearbody s1.
  assert (Hset : ∀ v f g, dict_has l (get_subscribers ch'
            (set_links f g (set_subs (dict_set ch' (dict_set l v (get_subscribers ch' s1))) s1))) = true).
  { intros v f g. unfold get_subscribers at 1. simpl. rewrite dict_get_set_eq. simpl.
    unfold dict_has. by rewrite dict_get_set_eq. }
  destruct (dict_has l (get_subscribers ch' s1)); [injection Hl as <-; apply (Hset _ id id)|].
  destruct (_ <=? _); [done|]. destruct (_ <=? _); [done|]. injection Hl as <-. apply Hset.
Qed.

(** ** Instances *)

Definition demo_ln : LiveNode :=
  {| ln_sync := {| sy_db := empty_db; sy_bans := ∅ |}; ln_live := init None |}.

Lemma subscribe_access_witness :
  ∃ c l, cx_channels (demo_ctx false None (demo_channel "a" ACCESS_PRIVATE false)) !! "a" = Some c
  ∧ Some "7" = Some l
  ∧ (∀ i, Some "owner" = Some i → is_blocked i empty_db = false)
  ∧ (ch_access_mode c = ACCESS_PRIVATE → ∃ i, Some "owner" = Some i
     ∧ (Some "owner" = Some i ∨ RoleRepo.get_identity_roles i (Some "a") true empty_db ≠ []))
  ∧ dict_has l [("7", CDSP_PROFILE_FULL)] = true.
Proof.
  exact (subscribe_access (demo_ctx false None (demo_channel "a" ACCESS_PRIVATE false)) true [] (Some "a")
    (Some "owner") (Some "7") demo_ln _ "a" eq_refl).
Defined.

Definition demo_batched : LiveSubscriptionManager.t :=
  @foldl _ _ (@run_live_op 500 full_msgpack toy_aead) (set_defer_hook true (init None))
    [OpSubscribe "c" "7" CDSP_PROFILE_BATCHED (Some "bob") false;
     OpPushEvent (λ _, LinkActive) (fz 1) "c" "join" [("n", VInt 1)]].

(** The link closes with one event in its batch; an LXMF destination is known. *)
Lemma link_death_loses_batch_witness :
  let events := default [] (dict_get (batch_key "c" "7") (_batch_buffer demo_batched)) in
  zlen events = 1
  ∧ lm_trace (@flush_batches 500 (λ _, LinkActive) full_msgpack (Some (λ _, Some "dd"), λ _, true)
               (handle_link_death "7" demo_batched)) = [].
Proof.
  intros events. split; [vm_compute; reflexivity|].
  apply (@link_death_loses_batch 500 full_msgpack (λ _, LinkActive) (Some (λ _, Some "dd"), λ _, true)
           "c" "7" events demo_batched).
  - repeat constructor. discriminate.
  - vm_compute. reflexivity.
  - vm_compute. reflexivity.
Defined.

Definition demo_mgr : SealedChannelManager.t :=
  (SealedChannelManager.generate_key [7] "c" SealedChannelManager.init).2.

Definition demo_sealed_row : Message := {|
  m_msg_hash := "h"; m_channel_id := "c"; m_sender_hash := None; m_seq := Some 1;
  m_timestamp := fz 0; m_type := MSG_TEXT; m_body := None; m_media_path := None;
  m_media_meta := None; m_reply_to := None; m_thread_seq := None; m_ttl := None;
  m_received_at := fz 0; m_deleted := false; m_deleted_by := None; m_pinned := false;
  m_pinned_at := None; m_edit_chain := []; m_reactions := []; m_lxmf_signature := None;
  m_lxmf_signed_part := None; m_display_name := None; m_mentions := []; m_origin_node := None;
  m_encrypted_body := Some (@aead_encrypt toy_aead [7] [1; 2] (str_bytes "hi") (str_bytes "c"));
  m_encryption_nonce := Some [1; 2]; m_encryption_epoch := Some 1 |}.

(** A packer that keeps the lengths of the keys. *)
Definition shape_msgpack : Msgpack := {|
  packb v := match v with VDict d => Some (map (λ p, utf8_len p.1) d) | _ => None end;
  unpackb _ := None |}.

Lemma sealed_push_at_rest_witness :
  let s := (subscribe "c" "8" CDSP_PROFILE_FULL None false
             (subscribe "c" "7" CDSP_PROFILE_FULL None true (init (Some demo_mgr))).2).2 in
  extends (λ o, ∀ l data, sent_to l o = Some data →
             _link_supports_sealed_at_rest s !! l = Some true →
             ∃ d, @encode_push_event shape_msgpack "message" d = Ok data
                  ∧ dict_get "body" d = Some (VStr "")
                  ∧ dict_get "encrypted_body" d = Some (val_of VBytes (m_encrypted_body demo_sealed_row)))
    s (@push_message 500 (λ _, LinkActive) (fz 1) shape_msgpack toy_aead "c" demo_sealed_row None s).2.
Proof.
  intros s.
  apply (@sealed_push_at_rest 500 shape_msgpack toy_aead (λ _, LinkActive) (fz 1) "c" demo_sealed_row
           None demo_mgr s).
  - reflexivity.
  - reflexivity.
  - reflexivity.
  - vm_compute. reflexivity.
Defined.
