(* ===== verification/Recovery.v ===== *)
(** * Recovery of pushes to a dead link ([core/daemon.py], the defer hook)

    The daemon's hook puts an event that a link could not take on the deferred
    queue of the subscriber's session.  With Live.v and Deferred.v: what was
    pushed into a link that turns out to be dead reaches the client when it
    resumes its session. *)

From S2P Require Import Prelude Constants Models Queries Permissions RateLimit Ban Sealed Sequencer Message Wire History Invites Session Deferred Live.

Import CDSPSessionManager DeferredSyncItemRepo.

Definition live_envelope (event_type : string) (data : dict string val) : val :=
  VDict [("event", VStr event_type); ("data", VDict data)].

(** [_do_defer], in a transaction of its own; an exception is logged. *)
Definition _do_defer (cdsp_deferred_queue_limit : option Z) (now : float)
    (identity_hash channel_id : string) (stored_payload : val) : M DB unit :=
  let! sess := gets (SessionRepo.get_active_session identity_hash) in
  match sess with
  | None => ret tt
  | Some sess =>
      let limit := default 1000 cdsp_deferred_queue_limit in
      let! count := gets (count_for_session (ses_session_id sess)) in
      when (limit <=? count) (evict_oldest (ses_session_id sess) (limit - 1) ;; ret tt) ;;
      enqueue now (ses_session_id sess) (Some channel_id) SYNC_LIVE_EVENT stored_payload 0
        (ses_expires_at sess)
  end.

Definition live_defer_hook `{Msgpack} (limit : option Z) (now : float)
    (identity_hash channel_id event_type : string) (data_dict : dict string val) : M DB unit :=
  match packb (live_envelope event_type data_dict) with
  | None => ret tt
  | Some b =>
      catch (atomic (λ db0 _, db0)
               (_do_defer limit now identity_hash channel_id
                  (VDict [("wire_hex", VStr (string_of (hex b)))])))
        (λ _, ret tt)
  end.

(** What leaves the manager, with the time at which the loop runs it: only the
    calls of the hook touch the database. *)
Definition run_out `{Msgpack} (limit : option Z) (db : DB) (p : float * out) : DB :=
  match p.2 with
  | Defer h c ty d => (live_defer_hook limit p.1 h c ty d db).2
  | _ => db
  end.

(** ** Theorems *)

Import ZombieLinkPushBuffer LiveSubscriptionManager.

Section recovery.
Context `{HP : Msgpack} `{!MsgpackLaws HP} `{!MsgpackBytes HP}.

Definition packs (ty : string) (d : dict string val) : Prop := is_Some (packb (live_envelope ty d)).

(** What the client receives for a push. *)
Definition push_item (p : push) : WireItem :=
  {| wi_channel_id := Some (pu_channel_id p); wi_sync_action := SYNC_LIVE_EVENT;
     wi_payload := live_envelope (pu_event_type p) (pu_data p) |}.

Definition push_event_at (p : float * push) : event :=
  {| ev_now := p.1; ev_channel := Some (pu_channel_id p.2); ev_action := SYNC_LIVE_EVENT;
     ev_payload := VDict [("wire_hex", VStr (string_of (hex
       (default [] (packb (live_envelope (pu_event_type p.2) (pu_data p.2)))))))] |}.

Lemma wire_push t p : packs (pu_event_type p) (pu_data p) → wire_event (push_event_at (t, p)) = push_item p.
Proof.
  intros [b Hb]. unfold wire_event, push_item, push_event_at. simpl. rewrite Hb. simpl.
  rewrite chars_string, fromhex_hex by (by eapply pack_bytes). by erewrite unpack_pack by done.
Qed.

Lemma hook_step limit sid ident tok past t p db :
  2 ≤ default 1000 limit → packs (pu_event_type p) (pu_data p) →
  StronglySorted before (past ++ [push_event_at (t, p)]) →
  deferred sid ident tok (zlast (default 1000 limit) past) db →
  deferred sid ident tok (zlast (default 1000 limit) (past ++ [push_event_at (t, p)]))
    (live_defer_hook limit t ident (pu_channel_id p) (pu_event_type p) (pu_data p) db).2.
Proof using.
  intros Hl [b Hb] Hs Hd. pose proof Hd as [Hok (s & Hsn & Hsid & Ht) Hid Hq Hp].
  unfold live_defer_hook. rewrite Hb. unfold catch, atomic, _do_defer.
  rewrite (bind_run_ok _ _ _ (Some s) db) by (unfold gets; by rewrite Hsn). cbv zeta. rewrite Hsid.
  rewrite (bind_run_ok _ _ _ (zlen (queue sid db)) db) by done.
  destruct (make_room _ _ _ _ _ _ _ Hl Hs Hd) as (evs & db1 & Hrun & Hd1 & Eevs).
  rewrite (bind_run_ok _ _ _ _ _ Hrun).
  destruct (deferred_enqueue sid ident tok evs db1 (push_event_at (t, p)) (ses_expires_at s) Hd1) as (db2 & Henq & Hd2).
  unfold push_event_at in Henq. simpl in Henq. rewrite Hb in Henq. simpl in Henq.
  rewrite Henq. simpl. by rewrite <- Eevs.
Qed.

Lemma hook_run limit sid ident tok past l db :
  2 ≤ default 1000 limit → Forall (λ p, packs (pu_event_type p.2) (pu_data p.2)) l →
  StronglySorted before (past ++ map push_event_at l) →
  deferred sid ident tok (zlast (default 1000 limit) past) db →
  deferred sid ident tok (zlast (default 1000 limit) (past ++ map push_event_at l))
    (foldl (run_out limit) db
       (map (λ p, (p.1, Defer ident (pu_channel_id p.2) (pu_event_type p.2) (pu_data p.2))) l)).
Proof using.
  intros Hl Hp. revert past db. induction Hp as [|[t p] l Hp _ IH]; intros past db Hs Hd; simpl.
  - by rewrite app_nil_r.
  - simpl in Hs. replace (past ++ push_event_at (t, p) :: map push_event_at l)
      with ((past ++ [push_event_at (t, p)]) ++ map push_event_at l) in * by (by rewrite <- app_assoc).
    apply IH; [done|]. apply hook_step; try done. by apply StronglySorted_app_1_l in Hs.
Qed.
End recovery.

(** nothing pushed into a dead link is lost to a client that comes back.
    When a link closes, the pushes its replay buffer holds are handed to the
    defer hook in the order in which they were made; the hook puts them on the
    queue of the subscriber's active session, and the request that resumes the
    session receives the newest of them up to the queue limit, in order, with
    the event and the data that were pushed. *)
Theorem zombie_pushes_recovered {HP : Msgpack} {HL : MsgpackLaws HP} {HB : MsgpackBytes HP}
    (s : LiveSubscriptionManager.t) (l : link_id) (ident : string) (ps : list push)
    (ts : list float) (limit : option Z) (sess : Session) (token : bytes) (p : Z) (db : DB)
    (now : float) (sid' : string) (tok' : bytes) (m : CDSPSessionManager.t) :
  _link_identities s !! l = Some ident → str_true ident = true → _defer_hook s = true →
  _pushes (_push_buffer s) !! l = Some ps →
  Forall (λ p, packs (pu_event_type p) (pu_data p)) ps →
  length ts = length ps → StronglySorted QArith_base.Qlt ts → 2 ≤ default 1000 limit →
  sessions_ok db → NoDup (map di_id (deferred_sync_items db)) →
  SessionRepo.get_active_session ident db = Some sess → queue (ses_session_id sess) db = [] →
  ses_resume_token sess = Some token → list_true token = true → p ∈ _VALID_PROFILES →
  ∃ outs db2 m',
    lm_trace (handle_link_death l s) = lm_trace s ++ outs
    ∧ handle_session_init now sid' tok' ident
        [("sync_profile", VInt p); ("resume_token", VBytes token)]
        (foldl (run_out limit) db (zip ts outs), m)
      = (Ok (Resumed (ses_session_id sess) p (map push_item (zlast (default 1000 limit) ps))), (db2, m'))
    ∧ queue (ses_session_id sess) db2 = [].
Proof.
  intros Hi Hn Hh Hps Hpk Hlen Hts Hl Hok Hid Hs Hq Ht Hne Hp.
  exists (map (λ p, Defer ident (pu_channel_id p) (pu_event_type p) (pu_data p)) ps).
  assert (Hz : zip ts (map (λ p, Defer ident (pu_channel_id p) (pu_event_type p) (pu_data p)) ps)
    = map (λ p, (p.1, Defer ident (pu_channel_id p.2) (pu_event_type p.2) (pu_data p.2))) (zip ts ps)).
  { clear -Hlen. revert ts Hlen. induction ps as [|q ps IH]; intros [|t ts]; simpl; try done.
    intros [= Hlen]. by rewrite IH. }
  assert (Hsort : StronglySorted before (map push_event_at (zip ts ps))).
  { clear -Hlen Hts. revert ps Hlen. induction Hts as [|t ts Hts IH Hall]; intros [|q ps]; simpl; try done.
    - constructor.
    - intros [= Hlen]. constructor; [by apply IH|]. apply Forall_forall.
      intros e ([t' q'] & -> & Hin)%list_elem_of_fmap.
      apply elem_of_zip_l in Hin. exact (proj1 (Forall_forall _ _) Hall _ Hin). }
  assert (Hd : deferred (ses_session_id sess) ident (Some token)
    (zlast (default 1000 limit) (map push_event_at (zip ts ps)))
    (foldl (run_out limit) db (map (λ p, (p.1, Defer ident (pu_channel_id p.2) (pu_event_type p.2)
                                             (pu_data p.2))) (zip ts ps)))).
  { apply (hook_run limit _ _ _ []); [done| |done|].
    - apply Forall_forall. intros [t q] Hin. apply elem_of_zip_r in Hin.
      exact (proj1 (Forall_forall _ _) Hpk _ Hin).
    - split; [done|by exists sess|done|by rewrite Hq|by rewrite Hq]. }
  destruct (resume_delivers now _ sid' tok' ident token p _ _ m Hne Hp (sorted_zlast _ _ Hsort) Hd)
    as (db2 & m' & Hrun & Hempty).
  exists db2, m'. split_and!; [|rewrite Hz, Hrun|done].
  - unfold handle_link_death, drain. simpl. rewrite Hi, Hps, Hn, Hh.
    destruct ps as [|q ps]; simpl; [by rewrite app_nil_r|done].
  - do 3 f_equal. rewrite <- zlast_map, List.map_map.
    rewrite (List.map_ext_in _ (λ x, push_item x.2)).
    + rewrite <- List.map_map, zlast_map. do 2 f_equal.
      clear -Hlen. revert ts Hlen. induction ps as [|q ps IH]; intros [|t ts]; simpl; try done.
      intros [= Hlen]. by rewrite IH.
    + intros [t q] Hin%list_elem_of_In%elem_of_zlast. apply wire_push.
      apply elem_of_zip_r in Hin. exact (proj1 (Forall_forall _ _) Hpk _ Hin).
Qed.

(** An instance: three events pushed to a link that is dead, a queue of two. *)
Definition demo_live : LiveSubscriptionManager.t :=
  let net _ := LinkActive in
  @foldl _ _ (@run_live_op 500 full_msgpack toy_aead) (set_defer_hook true (LiveSubscriptionManager.init None))
    [OpSubscribe "c" "7" CDSP_PROFILE_FULL (Some "bob") false;
     OpPushEvent net (fz 1) "c" "join" [("n", VInt 1)];
     OpPushEvent net (fz 2) "c" "leave" [("n", VInt 2)];
     OpPushEvent net (fz 3) "c" "join" [("n", VInt 3)]].

Definition demo_pushes : list push :=
  [{| pu_time := fz 1; pu_channel_id := "c"; pu_event_type := "join"; pu_data := [("n", VInt 1)] |};
   {| pu_time := fz 2; pu_channel_id := "c"; pu_event_type := "leave"; pu_data := [("n", VInt 2)] |};
   {| pu_time := fz 3; pu_channel_id := "c"; pu_event_type := "join"; pu_data := [("n", VInt 3)] |}].

Lemma zombie_pushes_recovered_witness :
  ∃ outs db2 m',
    lm_trace (handle_link_death "7" demo_live) = lm_trace demo_live ++ outs
    ∧ @handle_session_init full_msgpack (fz 9) "s2" [8] "bob"
        [("sync_profile", VInt CDSP_PROFILE_FULL); ("resume_token", VBytes [7])]
        (foldl (@run_out full_msgpack (Some 2)) bob_db (zip [fz 4; fz 5; fz 6] outs), demo_cdsp)
      = (Ok (Resumed "s1" CDSP_PROFILE_FULL (map push_item (zlast 2 demo_pushes))), (db2, m'))
    ∧ queue "s1" db2 = [].
Proof.
  apply (@zombie_pushes_recovered full_msgpack full_msgpack_laws full_msgpack_bytes demo_live "7"
    "bob" demo_pushes [fz 4; fz 5; fz 6] (Some 2) bob_session [7] CDSP_PROFILE_FULL bob_db).
  - vm_compute. reflexivity.
  - reflexivity.
  - vm_compute. reflexivity.
  - vm_compute. reflexivity.
  - repeat constructor; by eexists.
  - reflexivity.
  - repeat constructor.
  - simpl. lia.
  - exact bob_db_ok.
  - constructor.
  - vm_compute. reflexivity.
  - reflexivity.
  - reflexivity.
  - reflexivity.
  - left.
Defined.
