(* ===== verification/Media.v ===== *)
(** * Media ([hokora/media/storage.py], [media/transfer.py],
      [handlers/live.py], [core/lxmf_ingestor.py])

    The media directory with its quotas, the fetch handler, and
    [LxmfMessageIngestor.ingest], which stores the media a message carries
    before the message itself is processed, then pushes the result to live
    subscribers.

    The file system is a map from absolute paths (their components) to files;
    directories exist implicitly, and symbolic links are not modelled. *)

From S2P Require Import Prelude Constants Models Queries Permissions RateLimit Ban Sealed Sequencer Message Ingest Wire History Live.

(** ** Paths *)

Abbreviation path := (list string).

Definition slash : Ascii.ascii := Ascii.ascii_of_nat 47.
Definition dot : Ascii.ascii := Ascii.ascii_of_nat 46.

(** The components of a path text, empty ones included. *)
Fixpoint split_on (sep : Ascii.ascii) (l : chars) : list chars :=
  match l with
  | [] => [[]]
  | c :: l =>
      if decide (c = sep) then [] :: split_on sep l
      else match split_on sep l with
           | w :: ws => (c :: w) :: ws
           | [] => [[c]]
           end
  end.

Definition is_absolute (p : string) : bool :=
  match p with String c _ => bool_decide (c = slash) | EmptyString => false end.
Definition parts (p : string) : path := map string_of (split_on slash (chars_of p)).

(** [.resolve()]: "." and empty components go, ".." removes the one before. *)
Definition push_part (acc : path) (c : string) : path :=
  if bool_decide (c = "") || bool_decide (c = ".") then acc
  else if bool_decide (c = "..") then removelast acc
  else acc ++ [c].

(** [(base / p).resolve()]: an absolute [p] replaces the base. *)
Definition resolve (base : path) (p : string) : path :=
  foldl push_part (if is_absolute p then [] else base) (parts p).

Definition is_relative_to (p base : path) : bool := bool_decide (take (length base) p = base).

(** [Path(p).name]: the last component that is not empty or ".". *)
Definition path_name (p : string) : string :=
  default "" (last (List.filter (λ c, negb (bool_decide (c = "") || bool_decide (c = "."))) (parts p))).

(** [name.rfind(".")] splits a name when the dot is neither its first nor its
    last character. *)
Fixpoint rsplit_dot (l : chars) : option (chars * chars) :=
  match l with
  | [] => None
  | c :: l' =>
      match rsplit_dot l' with
      | Some (a, b) => Some (c :: a, b)
      | None => if decide (c = dot) then Some ([], l') else None
      end
  end.
Definition stem_suffix (p : string) : string * string :=
  let name := path_name p in
  match rsplit_dot (chars_of name) with
  | Some (a, b) => if list_true a && list_true b
                   then (string_of a, string_of (dot :: b)) else (name, "")
  | None => (name, "")
  end.

(** ** Files *)

Record File := { f_data : bytes; f_mtime : float }.
Abbreviation files := (gmap path File).

Definition MAX_UPLOAD_BYTES : Z := 5 * 1024 * 1024.
Definition MAX_UPLOAD_BYTES_LIMIT : Z := 50 * 1024 * 1024.
Definition MAX_STORAGE_BYTES : Z := 1024 * 1024 * 1024.
Definition MAX_GLOBAL_STORAGE_BYTES : Z := 10 * 1024 * 1024 * 1024.

Module MediaStorage.

Record t := {
  media_dir : path;
  max_upload_bytes : Z;
  max_storage_bytes : Z;
  max_global_storage_bytes : Z;
}.

Definition init (dir : path) (upload storage global : Z) : t := {|
  media_dir := dir; max_upload_bytes := Z.min upload MAX_UPLOAD_BYTES_LIMIT;
  max_storage_bytes := storage; max_global_storage_bytes := global |}.

Section storage.
Context (self : t).

Definition _validate_path (relative_path : string) : res path :=
  let p := resolve (media_dir self) relative_path in
  if is_relative_to p (media_dir self) then Ok p else Raise (Exn MediaError "Path traversal blocked").

Definition get (relative_path : string) (fs : files) : res (option bytes) :=
  match _validate_path relative_path with
  | Raise e => Raise e
  | Ok p => Ok (f_data <$> fs !! p)
  end.

(** The secure overwrite precedes the removal of the same file. *)
Definition delete (relative_path : string) : M files unit :=
  let! p := of_res (_validate_path relative_path) in
  modify (base.delete p).

(** The total size of the files a predicate selects. *)
Definition usage (P : path → bool) (fs : files) : Z :=
  map_fold (λ p f n, if P p then zlen (f_data f) + n else n) 0 fs.

(** The files directly in a directory, and those one level below it. *)
Definition in_dir (d p : path) : bool := bool_decide (removelast p = d) && list_true p.
Definition below_dir (d p : path) : bool := in_dir d (removelast p) && list_true p.

Definition channel_dir (channel_id : string) : path := resolve (media_dir self) channel_id.

Definition _get_channel_usage (channel_id : string) (fs : files) : Z :=
  usage (in_dir (channel_dir channel_id)) fs.

Definition _get_global_usage (fs : files) : Z := usage (below_dir (media_dir self)) fs.

(** [for f in files: if freed >= needed: break; ...]: each file goes through
    [delete], under the channel's name and its own. *)
Fixpoint prune_loop (channel_id : string) (needed freed : Z) (l : list (path * File)) : M files unit :=
  match l with
  | [] => ret tt
  | (p, f) :: l =>
      if needed <=? freed then ret tt
      else
        delete (String.append channel_id (String slash (default "" (last p)))) ;;
        prune_loop channel_id needed (freed + zlen (f_data f)) l
  end.

Definition _prune_oldest (channel_id : string) (needed_bytes : Z) : M files unit :=
  let! fs := Prelude.get in
  prune_loop channel_id needed_bytes 0
    (sort_by (λ a b, fle (f_mtime a.2) (f_mtime b.2))
       (List.filter (λ pf, in_dir (channel_dir channel_id) pf.1) (map_to_list fs))).

Definition store (now : float) (channel_id msg_hash : string) (data : bytes) (extension : string)
    : M files string :=
  if max_upload_bytes self <? zlen data then raise MediaError "File size exceeds max upload size"
  else
    let! fs := Prelude.get in
    if max_global_storage_bytes self <? _get_global_usage fs + zlen data
    then raise MediaError "Global storage quota exceeded"
    else
      when (max_storage_bytes self <? _get_channel_usage channel_id fs + zlen data)
        (_prune_oldest channel_id (zlen data) ;;
         let! fs := Prelude.get in
         when (max_storage_bytes self <? _get_channel_usage channel_id fs + zlen data)
           (raise MediaError "Channel storage quota exceeded")) ;;
      let relative_path := String.append channel_id (String slash
        (String.append msg_hash (String dot extension))) in
      let! p := of_res (_validate_path relative_path) in
      modify (<[p := {| f_data := data; f_mtime := now |}]>) ;;
      ret relative_path.
End storage.
End MediaStorage.

Import MediaStorage.

(** ** Serving *)

(** [MediaTransfer.serve_media]: whether there is something to send. *)
Definition serve_media (self : MediaStorage.t) (relative_path : string) (fs : files) : res (option bytes) :=
  match MediaStorage.get self relative_path fs with
  | Raise e => Raise e
  | Ok data => Ok (if olist_true data then data else None)
  end.

Inductive media_reply := MediaDeferred | MediaServing (path : string) (data : bytes).

Definition handle_fetch_media (ctx : SyncContext) (now : float) (media : option MediaStorage.t) (fs : files)
    (payload : dict string val) (channel_id requester_hash : option string) (link : bool)
    : M Sync media_reply :=
  let! db := gets sy_db in
  let profile := get_session_profile ctx requester_hash db in
  let media_channel_id := get_str "channel_id" channel_id payload in
  if negb (media_fetch profile) then
    when (ostr_true requester_hash)
      (sy_op (defer_sync_item ctx now requester_hash media_channel_id SYNC_FETCH_MEDIA (VDict payload))) ;;
    ret MediaDeferred
  else
    when (ostr_true media_channel_id)
      (check_channel_read ctx (or_empty media_channel_id) requester_hash ;; ret tt) ;;
    match get_str "path" None payload with
    | Some relative_path =>
        if negb (str_true relative_path) then raise SyncError "No path provided for fetch_media"
        else
          match media with
          | None => raise SyncError "Media transfer not available"
          | Some self =>
              if negb link then raise SyncError "No link provided for fetch_media"
              else
                let! served := of_res (serve_media self relative_path fs) in
                match served with
                | Some data => ret (MediaServing relative_path data)
                | None => raise SyncError "Media not found"
                end
          end
    | None => raise SyncError "No path provided for fetch_media"
    end.

(** ** The LXMF ingestor *)

Record IngestState := {
  is_node : Node;
  is_live : LiveSubscriptionManager.t;
  is_files : files;
  is_triggered : list string;            (* calls of the federation trigger *)
}.
Definition is_set_node (n : Node) (s : IngestState) : IngestState :=
  {| is_node := n; is_live := is_live s; is_files := is_files s; is_triggered := is_triggered s |}.
Definition is_node_op {A} (m : M Node A) : M IngestState A := lift is_node is_set_node m.
Definition is_live_op {A} (m : M LiveSubscriptionManager.t A) : M IngestState A :=
  lift is_live (λ l s, {| is_node := is_node s; is_live := l; is_files := is_files s;
                          is_triggered := is_triggered s |}) m.
Definition is_files_op {A} (m : M files A) : M IngestState A :=
  lift is_files (λ f s, {| is_node := is_node s; is_live := is_live s; is_files := f;
                           is_triggered := is_triggered s |}) m.

Definition set_media_path (p : string) (e : MessageEnvelope) : MessageEnvelope := {|
  e_channel_id := e_channel_id e; e_sender_hash := e_sender_hash e;
  e_timestamp := e_timestamp e; e_type := e_type e; e_body := e_body e;
  e_media_path := Some p; e_media_meta := e_media_meta e; e_reply_to := e_reply_to e;
  e_ttl := e_ttl e; e_lxmf_signature := e_lxmf_signature e;
  e_lxmf_signed_part := e_lxmf_signed_part e; e_sender_public_key := e_sender_public_key e;
  e_display_name := e_display_name e; e_mentions := e_mentions e; e_reactions := e_reactions e |}.

Section ingestor.
Context `{HH : Hashing} `{HO : OrmJson} `{HA : Aead} `{HM : LinkMdu} `{HP : Msgpack}.
Context (self : MessageProcessor) (live_manager : bool) (media : option MediaStorage.t) (net : Net).

(** [suffix.lstrip(".") or "bin"] *)
Definition media_ext (p : string) : string :=
  match stem_suffix p with
  | (_, String _ ext) => if str_true ext then ext else "bin"
  | _ => "bin"
  end.

(** The media of a message goes to the channel's directory, under the name the
    sender chose; a failure is logged and the message goes on. *)
Definition store_media (now : float) (media_bytes : option bytes) (e : MessageEnvelope)
    : M IngestState MessageEnvelope :=
  match e_media_path e, media_bytes, media with
  | Some p, Some data, Some st =>
      if str_true p && list_true data then
        catch (let! stored := is_files_op (store st now (e_channel_id e) (stem_suffix p).1 data (media_ext p)) in
               ret (set_media_path stored e))
          (λ _, ret e)
      else ret e
  | _, _, _ => ret e
  end.

Definition is_update (ty : Z) : bool :=
  (ty =? MSG_EDIT) || (ty =? MSG_DELETE) || (ty =? MSG_REACTION) || (ty =? MSG_PIN).

(** The push to live subscribers; a deletion of a row that is gone gives no
    message to push. *)
Definition push_ingested (now : float) (e : MessageEnvelope) (message : option Message)
    : M IngestState unit :=
  if is_update (e_type e) then
    when (ostr_true (e_reply_to e))
      (let! original := gets (λ s, MessageRepo.get_by_hash (or_empty (e_reply_to e)) (n_db (is_node s))) in
       match original with
       | Some m => is_live_op (LiveSubscriptionManager.push_event net now (e_channel_id e) "message_updated"
                                 (encode_message_for_wire m (mp_sealed_manager self) false))
       | None => ret tt
       end)
  else
    match message with
    | Some m => is_live_op (LiveSubscriptionManager.push_message net now (e_channel_id e) m (e_sender_public_key e))
    | None => raise AttributeError "message"
    end.

Definition lxmf_ingest (now : float) (nonce : bytes) (media_bytes : option bytes) (e : MessageEnvelope)
    : M IngestState unit :=
  let! e := store_media now media_bytes e in
  atomic (λ s0 s1, is_set_node (set_db (n_db (is_node s0)) (is_node s1)) s1)
    (let! message := is_node_op (ingest self now nonce e) in
     when live_manager (push_ingested now e message) ;;
     modify (λ s, {| is_node := is_node s; is_live := is_live s; is_files := is_files s;
                     is_triggered := is_triggered s ++ [e_channel_id e] |})).
End ingestor.

(** ** Quotas *)

Section usage.
Context (P : path → bool).

Definition size_of (p : path) (o : option File) : Z :=
  if P p then match o with Some f => zlen (f_data f) | None => 0 end else 0.

Lemma size_of_nonneg p o : 0 ≤ size_of p o.
Proof using. unfold size_of. destruct (P p), o; try lia. apply zlen_nonneg. Qed.

Lemma usage_insert_new p f fs : fs !! p = None → usage P (<[p := f]> fs) = size_of p (Some f) + usage P fs.
Proof using.
  intros Hp. unfold usage, size_of. rewrite map_fold_insert_L.
  - by destruct (P p).
  - intros j1 j2 z1 z2 y _ _ _. destruct (P j1), (P j2); lia.
  - done.
Qed.

Lemma usage_delete p fs : usage P (base.delete p fs) = usage P fs - size_of p (fs !! p).
Proof using.
  destruct (fs !! p) as [f|] eqn:E.
  - rewrite <- (insert_delete_id fs p f E) at 2.
    rewrite usage_insert_new by apply lookup_delete_eq. lia.
  - rewrite delete_id by done. unfold size_of. destruct (P p); lia.
Qed.

Lemma usage_insert p f fs : usage P (<[p := f]> fs) = usage P fs - size_of p (fs !! p) + size_of p (Some f).
Proof using.
  rewrite <- insert_delete_eq, usage_insert_new by apply lookup_delete_eq. rewrite usage_delete. lia.
Qed.

Lemma usage_nonneg fs : 0 ≤ usage P fs.
Proof using.
  induction fs as [|p f fs Hp IH] using map_ind; [done|].
  rewrite usage_insert_new by done. pose proof (size_of_nonneg p (Some f)). lia.
Qed.

(** What pruning leaves, once every deletion is known to succeed. *)
Fixpoint pruned (needed freed : Z) (l : list (path * File)) (fs : files) : files :=
  match l with
  | [] => fs
  | (p, f) :: l =>
      if needed <=? freed then fs else pruned needed (freed + zlen (f_data f)) l (base.delete p fs)
  end.

Lemma usage_prune needed freed l fs : usage P (pruned needed freed l fs) ≤ usage P fs.
Proof using.
  revert freed fs. induction l as [|[p f] l IH]; intros freed fs; simpl; [done|].
  destruct (needed <=? freed); [done|]. etrans; [apply IH|]. rewrite usage_delete.
  pose proof (size_of_nonneg p (fs !! p)). lia.
Qed.
End usage.

(** Pruning frees what was asked, or everything. *)
Lemma prune_frees P needed freed l fs :
  NoDup (l.*1) → (∀ p f, (p, f) ∈ l → fs !! p = Some f ∧ P p = true) →
  let fs' := pruned needed freed l fs in
  usage P fs' ≤ usage P fs - (needed - freed)
  ∨ usage P fs' = usage P fs - foldr Z.add 0 (map (λ pf, zlen (f_data pf.2)) l).
Proof.
  revert freed fs. induction l as [|[p f] l IH]; intros freed fs Hnd Hl; simpl.
  - right. lia.
  - destruct (Z.leb_spec needed freed) as [Hd|Hd]; [left; lia|].
    csimpl in Hnd. apply NoDup_cons in Hnd as [Hnin Hnd]. destruct (Hl p f) as [Hp HP]; [left|].
    assert (Hsz : usage P (base.delete p fs) = usage P fs - zlen (f_data f)).
    { rewrite usage_delete, Hp. unfold size_of. by rewrite HP. }
    destruct (IH (freed + zlen (f_data f)) (base.delete p fs) Hnd) as [H|H].
    + intros q g Hq. destruct (Hl q g) as [E1 E2]; [by right|]. split; [|done].
      rewrite lookup_delete_ne; [done|]. intros ->. apply Hnin. by apply (list_elem_of_fmap_2 fst) in Hq.
    + left. lia.
    + right. lia.
Qed.

Lemma usage_total P fs :
  usage P fs = foldr Z.add 0 (map (λ pf, zlen (f_data pf.2)) (List.filter (λ pf, P pf.1) (map_to_list fs))).
Proof.
  induction fs as [|p f fs Hp IH] using map_ind; [by rewrite map_to_list_empty|].
  assert (Hperm : ∀ l l', l ≡ₚ l' → foldr Z.add 0 (map (λ pf : path * File, zlen (f_data pf.2)) (List.filter (λ pf, P pf.1) l))
                 = foldr Z.add 0 (map (λ pf, zlen (f_data pf.2)) (List.filter (λ pf, P pf.1) l'))).
  { induction 1 as [|x l l' _ IH'|x y l|l1 l2 l3 _ IH1 _ IH2]; simpl; [done| | |congruence].
    - destruct (P x.1); simpl; lia.
    - destruct (P x.1), (P y.1); simpl; lia. }
  rewrite usage_insert_new, (Hperm _ _ (map_to_list_insert fs p f Hp)) by done. simpl. unfold size_of.
  destruct (P p); simpl; lia.
Qed.

Lemma sum_perm (l l' : list (path * File)) :
  l ≡ₚ l' → foldr Z.add 0 (map (λ pf, zlen (f_data pf.2)) l) = foldr Z.add 0 (map (λ pf, zlen (f_data pf.2)) l').
Proof. induction 1 as [|x l l' _ IH|x y l|l1 l2 l3 _ IH1 _ IH2]; cbn [map foldr]; [done|lia|lia|congruence]. Qed.

(** A name that is one component: not empty, no slash, not "." or "..". *)
Definition plain (c : string) : bool :=
  forallb (λ x, negb (bool_decide (x = slash))) (chars_of c)
  && negb (bool_decide (c ∈ [""; "."; ".."])).

Lemma split_plain l m :
  forallb (λ x, negb (bool_decide (x = slash))) l = true →
  split_on slash (l ++ slash :: m) = l :: split_on slash m ∧ split_on slash l = [l].
Proof.
  induction l as [|c l IH]; cbn [app split_on forallb].
  - intros _. by rewrite decide_True.
  - intros [Hc%negb_true_iff%bool_decide_eq_false Hl]%andb_true_iff. rewrite !decide_False by done.
    destruct (IH Hl) as [E1 E2]. by rewrite E1, E2.
Qed.

Lemma resolve_plain base c : plain c = true → resolve base c = base ++ [c].
Proof using.
  unfold plain, resolve, parts. intros [Hs Hc]%andb_true_iff.
  destruct (split_plain _ [] Hs) as [_ ->]. cbn [map foldl].
  rewrite string_chars.
  apply negb_true_iff, bool_decide_eq_false in Hc. rewrite !not_elem_of_cons in Hc. destruct Hc as (H1 & H2 & H3 & _).
  assert (is_absolute c = false) as ->.
  { destruct c as [|x c]; [done|]. simpl in Hs |- *. by apply andb_true_iff in Hs as [->%negb_true_iff _]. }
  unfold push_part. by rewrite !bool_decide_eq_false_2.
Qed.

Lemma resolve_file base c f : plain c = true → plain f = true →
  resolve base (String.append c (String slash f)) = base ++ [c; f].
Proof using.
  intros Hc Hf. pose proof (resolve_plain base c Hc) as E1. pose proof (resolve_plain (base ++ [c]) f Hf) as E2.
  unfold plain in *. apply andb_true_iff in Hc as [Hcs Hcn]. apply andb_true_iff in Hf as [Hfs Hfn].
  unfold resolve, parts in *.
  assert (chars_of (String.append c (String slash f)) = chars_of c ++ slash :: chars_of f) as ->.
  { unfold chars_of. clear. induction c as [|x c IH]; simpl; [done|]. by rewrite IH. }
  destruct (split_plain _ (chars_of f) Hcs) as [-> E3]. rewrite E3 in E1. cbn [map foldl] in *.
  assert (Habs : ∀ g, forallb (λ x, negb (bool_decide (x = slash))) (chars_of g) = true → is_absolute g = false).
  { intros [|x g]; [done|]. simpl. by intros [->%negb_true_iff _]%andb_true_iff. }
  rewrite (Habs c Hcs) in E1. rewrite (Habs f Hfs) in E2.
  assert (is_absolute (String.append c (String slash f)) = false) as ->.
  { destruct c as [|x c]; [done|]. simpl in Hcs |- *. by apply andb_true_iff in Hcs as [->%negb_true_iff _]. }
  rewrite E1, E2, <- app_assoc. done.
Qed.

Section quota.
Context (self : MediaStorage.t) (ch : string).
Hypothesis Hch : plain ch = true.

(** Every component of every file name is plain, as on a real file system. *)
Definition tidy (fs : files) : Prop := ∀ p f, fs !! p = Some f → forallb plain p = true.

Lemma validate_plain n : plain n = true →
  _validate_path self (String.append ch (String slash n)) = Ok (media_dir self ++ [ch; n]).
Proof using Hch.
  intros Hn. unfold _validate_path. rewrite resolve_file by done.
  unfold is_relative_to. by rewrite take_app_length, bool_decide_eq_true_2.
Qed.

Lemma in_dir_spec d p : in_dir d p = true ↔ ∃ n, p = d ++ [n].
Proof using.
  unfold in_dir. rewrite andb_true_iff, bool_decide_eq_true. split.
  - intros [<- Hp]. destruct p as [|x p] using rev_ind; [done|]. rewrite removelast_last. by eexists.
  - intros [n ->]. rewrite removelast_last. split; [done|]. by destruct d.
Qed.

Lemma channel_dir_plain : channel_dir self ch = media_dir self ++ [ch].
Proof using Hch. by apply resolve_plain. Qed.

Lemma prune_loop_run needed freed l fs :
  (∀ p f, (p, f) ∈ l → ∃ n, plain n = true ∧ p = media_dir self ++ [ch; n]) →
  prune_loop self ch needed freed l fs = (Ok tt, pruned needed freed l fs).
Proof using Hch.
  revert freed fs. induction l as [|[p f] l IH]; intros freed fs Hl; simpl; [done|].
  destruct (needed <=? freed); [done|]. destruct (Hl p f) as (n & Hn & ->); [left|].
  unfold bind at 1, MediaStorage.delete, bind at 1, of_res.
  assert (last (media_dir self ++ [ch; n]) = Some n) as ->.
  { change [ch; n] with ([ch] ++ [n]). by rewrite app_assoc, last_snoc. }
  cbn [default]. rewrite validate_plain by done. cbn. apply IH. intros q g Hq. apply (Hl q g). by right.
Qed.

(** The files of the channel, oldest first. *)
Definition channel_files (fs : files) : list (path * File) :=
  sort_by (λ a b, fle (f_mtime a.2) (f_mtime b.2))
    (List.filter (λ pf, in_dir (channel_dir self ch) pf.1) (map_to_list fs)).

Lemma channel_files_in fs p f :
  (p, f) ∈ channel_files fs ↔ fs !! p = Some f ∧ in_dir (channel_dir self ch) p = true.
Proof using.
  unfold channel_files. rewrite sort_by_perm, elem_of_filter_bool, elem_of_map_to_list. done.
Qed.

Lemma channel_files_nodup fs : NoDup ((channel_files fs).*1).
Proof using.
  unfold channel_files. rewrite sort_by_perm.
  generalize (NoDup_fst_map_to_list fs). generalize (map_to_list fs). intros k.
  induction k as [|[p f] k IH]; csimpl; [constructor|]. intros [Hn Hk]%NoDup_cons.
  destruct (in_dir _ p); csimpl; [|by apply IH]. apply NoDup_cons. split; [|by apply IH].
  contradict Hn. apply list_elem_of_fmap in Hn as (x & -> & [Hx _]%elem_of_filter_bool).
  by apply list_elem_of_fmap_2.
Qed.

Lemma prune_run needed fs : tidy fs →
  _prune_oldest self ch needed fs = (Ok tt, pruned needed 0 (channel_files fs) fs).
Proof using Hch.
  intros Ht. unfold _prune_oldest, bind at 1, Prelude.get. cbn. apply prune_loop_run.
  intros p f [Hp Hd]%channel_files_in. apply in_dir_spec in Hd as [n ->].
  rewrite channel_dir_plain in *. exists n. rewrite <- app_assoc. split; [|done].
  apply Ht in Hp. rewrite forallb_app in Hp. simpl in Hp. rewrite !andb_true_iff in Hp. tauto.
Qed.

Lemma prune_channel needed fs :
  _get_channel_usage self ch (pruned needed 0 (channel_files fs) fs)
    ≤ Z.max 0 (_get_channel_usage self ch fs - needed).
Proof using.
  unfold _get_channel_usage. set (P := in_dir (channel_dir self ch)).
  destruct (prune_frees P needed 0 (channel_files fs) fs) as [H|H].
  - apply channel_files_nodup.
  - intros p f. by rewrite channel_files_in.
  - pose proof (usage_nonneg P fs). lia.
  - assert (Hl : channel_files fs ≡ₚ List.filter (λ pf, P pf.1) (map_to_list fs)) by apply sort_by_perm.
    rewrite H, (sum_perm _ _ Hl), <- usage_total. lia.
Qed.

Lemma pruned_others needed freed l fs p :
  (∀ q f, (q, f) ∈ l → q ≠ p) → pruned needed freed l fs !! p = fs !! p.
Proof using.
  revert freed fs. induction l as [|[q f] l IH]; intros freed fs Hl; simpl; [done|].
  destruct (needed <=? freed); [done|]. rewrite IH by (intros r g Hr; apply (Hl r g); by right).
  apply lookup_delete_ne. apply (Hl q f). left.
Qed.

Section upload.
Context (now : float) (h ext : string) (data : bytes).
Hypothesis Hn : plain (String.append h (String dot ext)) = true.

Definition stored_path : path := media_dir self ++ [ch; String.append h (String dot ext)].
Definition stored_name : string := String.append ch (String slash (String.append h (String dot ext))).

(** The files left once room was made for the upload. *)
Definition room (fs : files) : files :=
  if max_storage_bytes self <? _get_channel_usage self ch fs + zlen data
  then pruned (zlen data) 0 (channel_files fs) fs else fs.

Lemma store_run fs : tidy fs → zlen data ≤ max_upload_bytes self →
  _get_global_usage self fs + zlen data ≤ max_global_storage_bytes self →
  store self now ch h data ext fs =
    if max_storage_bytes self <? _get_channel_usage self ch (room fs) + zlen data
    then (Raise (Exn MediaError "Channel storage quota exceeded"), room fs)
    else (Ok stored_name, <[stored_path := {| f_data := data; f_mtime := now |}]> (room fs)).
Proof using Hch Hn.
  intros Ht Hu Hg. unfold store. rewrite (proj2 (Z.ltb_ge _ _)) by lia.
  unfold bind at 1, Prelude.get at 1. cbn beta iota. rewrite (proj2 (Z.ltb_ge (max_global_storage_bytes _) _)) by lia.
  unfold room. destruct (max_storage_bytes self <? _get_channel_usage self ch fs + zlen data) eqn:E.
  - unfold when at 1, bind at 1, bind at 1. rewrite prune_run by done.
    unfold bind at 1, Prelude.get. cbn beta iota.
    clear E. unfold when. destruct (max_storage_bytes self <? _); [reflexivity|]. unfold ret, bind, of_res.
    by rewrite validate_plain.
  - rewrite E. unfold when, ret, bind, of_res. by rewrite validate_plain.
Qed.

Lemma room_usage P fs : usage P (room fs) ≤ usage P fs.
Proof using. unfold room. destruct (_ <? _); [apply usage_prune|done]. Qed.

Lemma usage_upload P fs :
  usage P (<[stored_path := {| f_data := data; f_mtime := now |}]> fs) ≤ usage P fs + zlen data.
Proof using.
  rewrite usage_insert. pose proof (size_of_nonneg P stored_path (fs !! stored_path)).
  pose proof (zlen_nonneg data). unfold size_of at 2. destruct (P stored_path); simpl; lia.
Qed.

Lemma room_others fs p : in_dir (channel_dir self ch) p = false → room fs !! p = fs !! p.
Proof using.
  intros Hp. unfold room. destruct (_ <? _); [|done]. apply pruned_others.
  intros q f [_ Hq]%channel_files_in ->. congruence.
Qed.

Lemma store_checks fs r fs' : store self now ch h data ext fs = (Ok r, fs') →
  zlen data ≤ max_upload_bytes self ∧ _get_global_usage self fs + zlen data ≤ max_global_storage_bytes self.
Proof using.
  unfold store. destruct (Z.ltb_spec (max_upload_bytes self) (zlen data)); [done|].
  unfold bind at 1, Prelude.get at 1. cbn beta iota.
  destruct (Z.ltb_spec (max_global_storage_bytes self) (_get_global_usage self fs + zlen data)); [done|].
  intros _. lia.
Qed.

(** C27: After a successful upload with a plain channel and file name, the
    channel stays within its quota and the node within the global one; the file
    is read back under the path that was returned; and nothing outside the
    channel's directory was touched, however much was pruned to make room. *)
Theorem media_quota fs r fs' :
  tidy fs → store self now ch h data ext fs = (Ok r, fs') →
  _get_channel_usage self ch fs' ≤ max_storage_bytes self
  ∧ _get_global_usage self fs' ≤ max_global_storage_bytes self
  ∧ MediaStorage.get self r fs' = Ok (Some data)
  ∧ (∀ p, in_dir (channel_dir self ch) p = false → fs' !! p = fs !! p).
Proof using Hch Hn.
  intros Ht Hs. destruct (store_checks _ _ _ Hs) as [Hu Hg]. rewrite store_run in Hs by done.
  destruct (Z.ltb_spec (max_storage_bytes self) (_get_channel_usage self ch (room fs) + zlen data)); [done|].
  injection Hs as <- <-. split_and!.
  - etrans; [apply usage_upload|]. done.
  - etrans; [apply usage_upload|]. pose proof (room_usage (below_dir (media_dir self)) fs).
    unfold _get_global_usage in *. lia.
  - unfold MediaStorage.get, stored_name. rewrite validate_plain by done.
    fold stored_path. by rewrite lookup_insert_eq.
  - intros p Hp. rewrite lookup_insert_ne; [by apply room_others|]. intros <-.
    apply not_true_iff_false in Hp. apply Hp, in_dir_spec. exists (String.append h (String dot ext)).
    unfold stored_path. by rewrite channel_dir_plain, <- app_assoc.
Qed.

(** In a channel that is within its quota, an upload is accepted exactly
    when it fits the upload limit, the channel's quota on its own, and what the
    global quota has left: pruning the oldest files always makes the room. *)
Theorem media_store_total fs :
  tidy fs → _get_channel_usage self ch fs ≤ max_storage_bytes self →
  (∃ r fs', store self now ch h data ext fs = (Ok r, fs')) ↔
  zlen data ≤ max_upload_bytes self ∧ zlen data ≤ max_storage_bytes self
  ∧ _get_global_usage self fs + zlen data ≤ max_global_storage_bytes self.
Proof using Hch Hn.
  intros Ht Hc. split.
  - intros (r & fs' & Hs). destruct (store_checks _ _ _ Hs) as [Hu Hg]. rewrite store_run in Hs by done.
    destruct (Z.ltb_spec (max_storage_bytes self) (_get_channel_usage self ch (room fs) + zlen data)); [done|].
    pose proof (usage_nonneg (in_dir (channel_dir self ch)) (room fs)). unfold _get_channel_usage in *. lia.
  - intros (Hu & Hl & Hg). rewrite store_run by done.
    assert (_get_channel_usage self ch (room fs) + zlen data ≤ max_storage_bytes self).
    { unfold room. destruct (Z.ltb_spec (max_storage_bytes self) (_get_channel_usage self ch fs + zlen data)); [|lia].
      pose proof (prune_channel (zlen data) fs). lia. }
    rewrite (proj2 (Z.ltb_ge _ _)) by lia. eauto.
Qed.
End upload.
End quota.

(** ** Fetching *)

Lemma serve_media_spec self p fs data :
  serve_media self p fs = Ok (Some data) ↔
  data ≠ [] ∧ ∃ q f, _validate_path self p = Ok q ∧ fs !! q = Some f ∧ f_data f = data.
Proof.
  unfold serve_media, MediaStorage.get. destruct (_validate_path self p) as [q|x].
  2: { split; [done|]. by intros (_ & ? & ? & ? & _). }
  split.
  - destruct (fs !! q) as [f|] eqn:E; simpl; [|done]. destruct (f_data f) eqn:Ef; simpl; [done|].
    intros [= <-]. split; [done|]. by exists q, f.
  - intros (Hd & q' & f & [= <-] & -> & <-). simpl. by destruct (f_data f).
Qed.

(** The fetch once the guards on the session and the channel have passed. *)
Lemma fetch_served ctx now self fs payload cid req s p data :
  media_fetch (get_session_profile ctx req (sy_db s)) = true →
  get_str "channel_id" cid payload = None → get_str "path" None payload = Some p → p ≠ "" →
  serve_media self p fs = Ok (Some data) →
  handle_fetch_media ctx now (Some self) fs payload cid req true s = (Ok (MediaServing p data), s).
Proof.
  intros Hp Hc Hpath Hne Hs. unfold handle_fetch_media, bind at 1, gets. cbn beta iota.
  rewrite Hp, Hc, Hpath. simpl. unfold bind, ret.
  destruct p; [done|]. simpl. unfold of_res. by rewrite Hs.
Qed.

(** A media fetch that names no channel is checked against no channel: any
    requester, a banned one or one without an identity included, is served
    every non-empty file under the media directory, those of private channels
    among them. Nothing outside that directory is ever served. *)
Theorem fetch_media_ungated ctx now self fs payload req s p :
  media_fetch (get_session_profile ctx req (sy_db s)) = true →
  get_str "channel_id" None payload = None → get_str "path" None payload = Some p →
  (∀ f, p ≠ "" → is_relative_to (resolve (media_dir self) p) (media_dir self) = true →
     fs !! resolve (media_dir self) p = Some f → f_data f ≠ [] →
     handle_fetch_media ctx now (Some self) fs payload None req true s = (Ok (MediaServing p (f_data f)), s))
  ∧ (∀ q data s', handle_fetch_media ctx now (Some self) fs payload None req true s = (Ok (MediaServing q data), s') →
     is_relative_to (resolve (media_dir self) q) (media_dir self) = true).
Proof.
  intros Hp Hc Hpath. split.
  - intros f Hne Hr Hf Hd. apply fetch_served; [done..|]. apply serve_media_spec. split; [done|].
    exists (resolve (media_dir self) p), f. unfold _validate_path. by rewrite Hr.
  - intros q data s' H. unfold handle_fetch_media, bind at 1, gets in H. cbn beta iota in H.
    rewrite Hp, Hc, Hpath in H. simpl in H. unfold bind, ret in H.
    destruct (str_true p); simpl in H; [|done]. unfold of_res in H.
    destruct (serve_media self p fs) as [[d|]|] eqn:E; [|done|done]. injection H as <- <- <-.
    apply serve_media_spec in E as (_ & r & f & E & _). unfold _validate_path in E. by destruct (is_relative_to _ _).
Qed.

(** ** Ingestion with media *)

Section ingest_media.
Context `{HH : Hashing} `{HO : OrmJson} `{HA : Aead} `{HM : LinkMdu} `{HP : Msgpack}.
Context (self : MessageProcessor) (live : bool) (st : MediaStorage.t) (net : Net).

Lemma store_media_run now data e p s r fs' :
  e_media_path e = Some p → p ≠ "" → data ≠ [] →
  store st now (e_channel_id e) (stem_suffix p).1 data (media_ext p) (is_files s) = (Ok r, fs') →
  store_media (Some st) now (Some data) e s
  = (Ok (set_media_path r e), {| is_node := is_node s; is_live := is_live s; is_files := fs';
                                 is_triggered := is_triggered s |}).
Proof using.
  intros Hp Hne Hd Hs. unfold store_media. rewrite Hp. destruct p as [|c p]; [done|].
  destruct data as [|b data]; [done|]. change (str_true (String c p) && list_true (b :: data)) with true; cbn iota.
  unfold catch, bind, is_files_op, lift. by rewrite Hs.
Qed.

(** The file a message carries is written before the message is examined,
    under a name taken from the sender's own path: when the pipeline refuses
    the message (no such channel, a banned sender, a missing permission), the
    error reaches the caller, the database is as it was, nobody is notified,
    and yet the upload stays in the channel's directory, in place of whatever
    had that name. *)
Theorem refused_media_kept now nonce data e p s r fs' x n' :
  e_media_path e = Some p → p ≠ "" → data ≠ [] →
  store st now (e_channel_id e) (stem_suffix p).1 data (media_ext p) (is_files s) = (Ok r, fs') →
  ingest self now nonce (set_media_path r e) (is_node s) = (Raise x, n') →
  ∃ s', lxmf_ingest self live (Some st) net now nonce (Some data) e s = (Raise x, s')
  ∧ n_db (is_node s') = n_db (is_node s) ∧ is_live s' = is_live s
  ∧ is_triggered s' = is_triggered s ∧ is_files s' = fs'.
Proof using.
  intros Hp Hne Hd Hs Hi. unfold lxmf_ingest, bind at 1.
  rewrite (store_media_run now data e p s r fs') by done.
  unfold atomic, bind at 1, is_node_op, lift. cbn [is_node]. rewrite Hi. eexists. split; [done|]. done.
Qed.
End ingest_media.

(** ** Witnesses *)

Lemma run_result {A B} (x : A * B) a : x.1 = a → x = (a, x.2).
Proof. by intros <-; destruct x. Qed.

Definition demo_store : MediaStorage.t := MediaStorage.init ["m"] 10 16 40.
Definition demo_file (n : nat) (t : Z) : File := {| f_data := replicate n 1; f_mtime := fz t |}.
Definition demo_files : files :=
  {[ ["m"; "a"; "x.b"] := demo_file 6 1; ["m"; "a"; "y.b"] := demo_file 6 2;
     ["m"; "b"; "z.b"] := demo_file 6 1 ]}.

Lemma demo_tidy : tidy demo_files.
Proof.
  assert (map_Forall (λ p (_ : File), forallb plain p = true) demo_files) as H by (apply (bool_decide_unpack _); vm_compute; exact I).
  intros p f Hp. exact (H p f Hp).
Qed.

Lemma media_quota_witness :
  let fs' := (store demo_store (fz 9) "a" "n" (replicate 8 1) "p" demo_files).2 in
  _get_channel_usage demo_store "a" fs' ≤ 16 ∧ _get_global_usage demo_store fs' ≤ 40
  ∧ MediaStorage.get demo_store "a/n.p" fs' = Ok (Some (replicate 8 1))
  ∧ (∀ p, in_dir (channel_dir demo_store "a") p = false → fs' !! p = demo_files !! p).
Proof.
  intros fs'. apply (media_quota demo_store "a" eq_refl (fz 9) "n" "p" (replicate 8 1) eq_refl demo_files).
  - exact demo_tidy.
  - apply run_result. vm_compute. reflexivity.
Defined.

Lemma media_store_total_witness :
  ∃ r fs', store demo_store (fz 9) "a" "n" (replicate 8 1) "p" demo_files = (Ok r, fs').
Proof.
  apply (media_store_total demo_store "a" eq_refl (fz 9) "n" "p" (replicate 8 1) eq_refl demo_files).
  - exact demo_tidy.
  - vm_compute. discriminate.
  - vm_compute. repeat split; discriminate.
Defined.

Lemma fetch_media_ungated_witness :
  handle_fetch_media (demo_ctx false None (demo_channel "a" ACCESS_PRIVATE false)) (fz 1) (Some demo_store)
    demo_files [("path", VStr "a/x.b")] None None true demo_sync
  = (Ok (MediaServing "a/x.b" (replicate 6 1)), demo_sync).
Proof.
  apply (fetch_media_ungated (demo_ctx false None (demo_channel "a" ACCESS_PRIVATE false)) (fz 1) demo_store
    demo_files [("path", VStr "a/x.b")] None demo_sync "a/x.b" eq_refl eq_refl eq_refl)
    with (f := demo_file 6 1); [done|reflexivity|reflexivity|done].
Defined.

Definition demo_ingest : IngestState := {|
  is_node := demo_public; is_live := LiveSubscriptionManager.init None; is_files := demo_files;
  is_triggered := [] |}.
Definition demo_upload : MessageEnvelope :=
  set_media_path "x.b" (demo_env MSG_TEXT "b" "alice" 5 (Some "hello") None).

(** An upload to a channel that does not exist there replaces the file of that name. *)
Lemma refused_media_kept_witness :
  ∃ s', @lxmf_ingest toy_hashing toy_orm toy_aead 500 shape_msgpack demo_self true (Some demo_store)
          (λ _, LinkActive) (fz 9) [] (Some [7; 7]) demo_upload demo_ingest
        = (Raise (Exn MessageError "Channel not found"), s')
  ∧ n_db (is_node s') = n_db (is_node demo_ingest) ∧ is_live s' = is_live demo_ingest
  ∧ is_triggered s' = [] ∧ is_files s' = (store demo_store (fz 9) "b" "x" [7; 7] "b" demo_files).2.
Proof.
  eapply (@refused_media_kept toy_hashing toy_orm toy_aead 500 shape_msgpack demo_self true demo_store
    (λ _, LinkActive) (fz 9) [] [7; 7] demo_upload "x.b" demo_ingest "b/x.b").
  - reflexivity.
  - discriminate.
  - discriminate.
  - apply run_result. vm_compute. reflexivity.
  - apply run_result. vm_compute. reflexivity.
Defined.
