(* ===== verification/Maintenance.v ===== *)
(** * Database maintenance ([hokora/db/maintenance.py],
      [core/maintenance_scheduler.py])

    The pruning of messages (by age, by time to live, by channel retention) and
    of invites, the scrubbing of sender identities, and the transaction that
    runs them.  A message that is the root of a thread is referred to by
    [threads.root_msg_hash]; the engine enforces foreign keys, so deleting it
    raises [IntegrityError].  The ORM deletes the rows of a batch together, at
    the flush that follows it, after the media files of the whole batch.

    The batch loops run on fuel; [prune_batches_spec] shows how much is enough. *)

From S2P Require Import Prelude Constants Models Queries Permissions RateLimit Ban Sealed Sequencer Message Ingest Wire History Live Media.

Record Store := { st_db : DB; st_files : files }.
Definition st_set_db (db : DB) (s : Store) : Store := {| st_db := db; st_files := st_files s |}.
Definition st_op {A} (m : M DB A) : M Store A := lift st_db st_set_db m.

Section manager.
(** [self.media_dir], resolved, and the process's working directory. *)
Context (media_dir cwd : path) (now : float).

Definition _secure_delete_file (filepath : string) : M Store unit :=
  let p := resolve cwd filepath in
  if negb (is_relative_to p media_dir) then ret tt
  else modify (λ s, {| st_db := st_db s; st_files := base.delete p (st_files s) |}).

(** Whether a row of [threads] refers to the message. *)
Definition thread_root (db : DB) (m : Message) : bool :=
  existsb (λ t, bool_decide (th_root_msg_hash t = m_msg_hash m)) (rows (threads db)).

Definition drop_rows (batch : list Message) (t : gmap string Message) : gmap string Message :=
  foldr (λ m, base.delete (m_msg_hash m)) t batch.

Definition flush_deletes (batch : list Message) : M DB unit :=
  let! db := get in
  if existsb (thread_root db) batch then raise IntegrityError "FOREIGN KEY constraint failed"
  else modify (set_messages (drop_rows batch)).

Definition delete_media (m : Message) : M Store unit :=
  match m_media_path m with
  | Some p => when (str_true p) (_secure_delete_file p)
  | None => ret tt
  end.

(** The media of a batch, then its rows. *)
Definition delete_batch (batch : list Message) : M Store unit :=
  mfold (λ _, delete_media) tt batch ;;
  st_op (flush_deletes batch).

Definition batch_size : Z := 500.

Definition select_batch (P : Message → bool) (db : DB) : list Message :=
  sql_limit batch_size (List.filter P (rows (messages db))).

(** [while True: batch = ...; if not batch: break; ...]; [None] is out of fuel. *)
Fixpoint prune_batches (P : Message → bool) (fuel : nat) (count : Z) : M Store (option Z) :=
  match fuel with
  | O => ret None
  | S fuel =>
      let! batch := gets (λ s, select_batch P (st_db s)) in
      if negb (list_true batch) then ret (Some count)
      else
        delete_batch batch ;;
        prune_batches P fuel (count + zlen batch)
  end.

Definition past_ttl (m : Message) : bool :=
  match m_ttl m with
  | Some ttl => flt (m_timestamp m + fz ttl)%F now
  | None => false
  end.

Definition prune_expired_messages (fuel : nat) : M Store (option Z) := prune_batches past_ttl fuel 0.

Definition cutoff (days : Z) : float := (now - fz (days * 86400))%F.
Definition older (days : Z) (m : Message) : bool := flt (m_timestamp m) (cutoff days).
Definition older_media (days : Z) (m : Message) : bool :=
  older days m && bool_decide (is_Some (m_media_path m)).

(** [delete(Message).where(...)]: the rows go in one statement. *)
Definition bulk_delete (P : Message → bool) : M DB Z :=
  let! db := get in
  let gone := List.filter P (rows (messages db)) in
  if existsb (thread_root db) gone then raise IntegrityError "FOREIGN KEY constraint failed"
  else modify (set_messages (base.filter (λ kv, P kv.2 = false))) ;; ret (zlen gone).

Definition prune_old_messages (fuel : nat) (retention_days : Z) : M Store (option Z) :=
  if retention_days <=? 0 then ret (Some 0)
  else
    let! count := prune_batches (older_media retention_days) fuel 0 in
    match count with
    | None => ret None
    | Some count =>
        let! n := st_op (bulk_delete (older retention_days)) in
        ret (Some (count + n))
    end.

(** The rows a channel is to lose: the first in [ORDER BY seq ASC], where
    SQLite puts NULL first. *)
Definition seq_leb (a b : Message) : bool := MessageRepo.oz_leb (m_seq a) (m_seq b).

Definition retention_excess (ch : Channel) (db : DB) : list Message :=
  let l := List.filter (MessageRepo.in_channel (ch_id ch)) (rows (messages db)) in
  if (ch_max_retention ch <=? 0) || (zlen l <=? ch_max_retention ch) then []
  else sql_limit (zlen l - ch_max_retention ch) (sort_by seq_leb l).

Definition prune_retention : M Store Z :=
  let! chs := gets (λ s, rows (channels (st_db s))) in
  mfold (λ total ch,
    let! gone := gets (λ s, retention_excess ch (st_db s)) in
    delete_batch gone ;;
    ret (total + zlen gone)) 0 chs.

Definition invite_spent (i : Invite) : bool :=
  match inv_expires_at i with Some t => flt t now | None => false end
  || ((0 <? inv_max_uses i) && (inv_max_uses i <=? inv_uses i)).

Definition prune_expired_invites : M DB Z :=
  let! db := get in
  modify (set_invites (base.filter (λ kv, invite_spent kv.2 = false))) ;;
  ret (zlen (List.filter invite_spent (rows (invites db)))).

Definition scrub_row (m : Message) : Message := {|
  m_msg_hash := m_msg_hash m; m_channel_id := m_channel_id m; m_sender_hash := None;
  m_seq := m_seq m; m_timestamp := m_timestamp m; m_type := m_type m; m_body := m_body m;
  m_media_path := m_media_path m; m_media_meta := m_media_meta m; m_reply_to := m_reply_to m;
  m_thread_seq := m_thread_seq m; m_ttl := m_ttl m; m_received_at := m_received_at m;
  m_deleted := m_deleted m; m_deleted_by := m_deleted_by m; m_pinned := m_pinned m;
  m_pinned_at := m_pinned_at m; m_edit_chain := m_edit_chain m; m_reactions := m_reactions m;
  m_lxmf_signature := m_lxmf_signature m; m_lxmf_signed_part := m_lxmf_signed_part m;
  m_display_name := m_display_name m; m_mentions := m_mentions m;
  m_origin_node := m_origin_node m; m_encrypted_body := m_encrypted_body m;
  m_encryption_nonce := m_encryption_nonce m; m_encryption_epoch := m_encryption_epoch m |}.

Definition scrubbed (days : Z) (m : Message) : bool :=
  older days m && bool_decide (is_Some (m_sender_hash m)).

Definition scrub_metadata (days : Z) : M DB Z :=
  if days <=? 0 then ret 0
  else
    let! db := get in
    modify (set_messages (fmap (λ m, if scrubbed days m then scrub_row m else m))) ;;
    ret (zlen (List.filter (scrubbed days) (rows (messages db)))).

(** The transaction at the head of [run_maintenance]; its first component is
    whether the loops had fuel. *)
Definition prune_tx (fuel : nat) (retention_days metadata_scrub_days : Z) : M Store bool :=
  atomic (λ s0 s1, st_set_db (st_db s0) s1)
    (let! old := (if 0 <? retention_days then prune_old_messages fuel retention_days else ret (Some 0)) in
     let! expired := prune_expired_messages fuel in
     prune_retention ;;
     st_op prune_expired_invites ;;
     (if 0 <? metadata_scrub_days then st_op (scrub_metadata metadata_scrub_days) ;; ret tt else ret tt) ;;
     ret (bool_decide (is_Some old) && bool_decide (is_Some expired))).
End manager.

(** ** Batches *)

Definition keyed (db : DB) : Prop := ∀ h m, messages db !! h = Some m → m_msg_hash m = h.

(** How many messages a predicate selects. *)
Definition matching (P : Message → bool) (db : DB) : nat := length (List.filter P (rows (messages db))).

Lemma rows_keyed db : keyed db → m_msg_hash <$> rows (messages db) = (map_to_list (messages db)).*1.
Proof. apply rows_keys. Qed.

Section select.
Context (db : DB) (Hk : keyed db).

Lemma selected_nodup l : l `sublist_of` rows (messages db) → NoDup (m_msg_hash <$> l).
Proof using Hk.
  intros Hl. apply sublist_NoDup with (l2 := m_msg_hash <$> rows (messages db)).
  - rewrite rows_keyed by done. apply NoDup_fst_map_to_list.
  - by apply fmap_sublist.
Qed.

Lemma selected_row m : m ∈ rows (messages db) ↔ messages db !! m_msg_hash m = Some m.
Proof using Hk.
  rewrite elem_of_rows. split; [|by eauto]. intros [h Hh]. by rewrite (Hk h m Hh).
Qed.
End select.

Lemma drop_rows_lookup batch t h :
  drop_rows batch t !! h = if bool_decide (h ∈ m_msg_hash <$> batch) then None else t !! h.
Proof.
  induction batch as [|m batch IH]; [done|]. cbn [drop_rows foldr fmap list_fmap].
  destruct (decide (h = m_msg_hash m)) as [->|Hne].
  - by rewrite lookup_delete_eq, bool_decide_eq_true_2 by left.
  - rewrite lookup_delete_ne by done. fold (drop_rows batch t). rewrite IH.
    erewrite bool_decide_ext; [done|]. rewrite elem_of_cons. tauto.
Qed.

Lemma rows_delete {A} (t : gmap string A) h a : t !! h = Some a → rows t ≡ₚ a :: rows (base.delete h t).
Proof. intros Hh. unfold rows. by rewrite <- (map_to_list_delete t h a Hh). Qed.

(** A batch of distinct rows is what its deletion takes from the table. *)
Lemma rows_drop batch t :
  NoDup (m_msg_hash <$> batch) → (∀ m, m ∈ batch → t !! m_msg_hash m = Some m) →
  rows t ≡ₚ batch ++ rows (drop_rows batch t).
Proof.
  induction batch as [|m batch IH]; [done|]. csimpl. intros [Hm Hnd]%NoDup_cons Hb.
  rewrite IH by (try done; intros m' Hm'; apply Hb; by right).
  rewrite (rows_delete (drop_rows batch t) (m_msg_hash m) m); [by rewrite Permutation_middle|].
  rewrite drop_rows_lookup, bool_decide_eq_false_2 by done. apply Hb. left.
Qed.

Lemma filter_all {A} (f : A → bool) l : (∀ x, x ∈ l → f x = true) → List.filter f l = l.
Proof.
  induction l as [|a l IH]; [done|]. intros H. simpl. rewrite (H a) by left. f_equal.
  apply IH. intros x Hx. apply H. by right.
Qed.

(** ** What a batch of the loop does *)

Section batch.
Context (P : Message → bool) (db : DB) (Hk : keyed db).

Lemma select_sublist : select_batch P db `sublist_of` rows (messages db).
Proof using.
  unfold select_batch, sql_limit. simpl. etrans; [|apply filter_sublist].
  unfold ztake. apply sublist_take.
Qed.

Lemma select_in m : m ∈ select_batch P db → messages db !! m_msg_hash m = Some m ∧ P m = true.
Proof using Hk.
  unfold select_batch, sql_limit. simpl. intros Hm.
  assert (m ∈ List.filter P (rows (messages db))) as [H HP]%elem_of_filter_bool.
  { unfold ztake in Hm. eapply (elem_of_take) in Hm as (i & Hi & _). by eapply list_elem_of_lookup_2. }
  split; [|done]. by apply selected_row.
Qed.

Definition after_batch : DB := set_messages (drop_rows (select_batch P db)) db.

Lemma after_batch_keyed : keyed after_batch.
Proof using Hk.
  intros h m Hm. unfold after_batch in Hm. simpl in Hm. rewrite drop_rows_lookup in Hm.
  case_bool_decide; [done|]. by apply Hk.
Qed.

Lemma after_batch_rows : rows (messages db) ≡ₚ select_batch P db ++ rows (messages after_batch).
Proof using Hk.
  apply rows_drop; [apply (selected_nodup db Hk), select_sublist|]. by intros m [? _]%select_in.
Qed.

Lemma matching_batch : matching P db = (length (select_batch P db) + matching P after_batch)%nat.
Proof using Hk.
  unfold matching. rewrite (filter_perm P _ _ after_batch_rows), List.filter_app, length_app.
  f_equal. rewrite filter_all; [done|]. by intros m [_ ?]%select_in.
Qed.

Lemma select_length : length (select_batch P db) = Nat.min 500 (matching P db).
Proof using. unfold select_batch, sql_limit, matching, batch_size, ztake. simpl. by rewrite length_take. Qed.

Lemma after_batch_rest :
  base.filter (λ kv : string * Message, P kv.2 = false) (messages after_batch)
  = base.filter (λ kv : string * Message, P kv.2 = false) (messages db).
Proof using Hk.
  apply map_eq. intros h. apply option_eq. intros m. rewrite !map_lookup_filter_Some. simpl.
  unfold after_batch. simpl. rewrite drop_rows_lookup. case_bool_decide as Hh; [|done].
  split; [by intros [? _]|]. intros [Hm HP]. exfalso.
  apply list_elem_of_fmap in Hh as (m' & -> & Hm'). apply select_in in Hm' as [E HP']. congruence.
Qed.
End batch.

(** ** Termination and effect of the loops *)

(** Only a message that is the root of a thread cannot be deleted. *)
Definition blocked (P : Message → bool) (db : DB) : bool :=
  existsb (thread_root db) (List.filter P (rows (messages db))).

Section loops.
Context (dir cwd : path) (now : float).

(** Deleting files never raises, and leaves the database alone. *)
Lemma media_run batch s : ∃ s',
  mfold (λ _, delete_media dir cwd) tt batch s = (Ok tt, s') ∧ st_db s' = st_db s.
Proof using.
  revert s. induction batch as [|m batch IH]; intros s; [by exists s|]. cbn [mfold].
  unfold bind. assert (∃ s1, delete_media dir cwd m s = (Ok tt, s1) ∧ st_db s1 = st_db s) as (s1 & -> & E).
  { unfold delete_media, when, _secure_delete_file. destruct (m_media_path m) as [p|]; [|by exists s].
    destruct (str_true p); [|by exists s]. destruct (is_relative_to _ _); simpl; [|by exists s].
    by eexists. }
  destruct (IH s1) as (s2 & -> & E2). exists s2. by rewrite E2.
Qed.

Lemma delete_batch_run batch s : ∃ s',
  delete_batch dir cwd batch s =
    (if existsb (thread_root (st_db s)) batch then Raise (Exn IntegrityError "FOREIGN KEY constraint failed")
     else Ok tt, s')
  ∧ st_db s' = if existsb (thread_root (st_db s)) batch then st_db s
               else set_messages (drop_rows batch) (st_db s).
Proof using.
  unfold delete_batch, bind at 1. destruct (media_run batch s) as (s1 & -> & E).
  unfold st_op, lift, flush_deletes, bind, get. rewrite E.
  destruct (existsb _ batch); eexists; split; done || simpl; by rewrite ?E.
Qed.

(** A blocked message is in the batch, or still there after it. *)
Lemma blocked_batch P db : keyed db →
  blocked P db = existsb (thread_root db) (select_batch P db) || blocked P (after_batch P db).
Proof using.
  intros Hk. unfold blocked. rewrite (existsb_perm _ _ _ (filter_perm P _ _ (after_batch_rows P db Hk))).
  rewrite List.filter_app, existsb_app. f_equal.
  rewrite filter_all; [done|]. by intros m [_ ?]%(select_in P db Hk).
Qed.

(** The loop needs one round per 500 selected messages and one to find none;
    it deletes exactly the selected ones, unless one of them is blocked. *)
Lemma prune_batches_spec P fuel count s :
  keyed (st_db s) → ((matching P (st_db s) + 499) / 500 < fuel)%nat →
  ∃ s', prune_batches dir cwd P fuel count s =
    (if blocked P (st_db s) then Raise (Exn IntegrityError "FOREIGN KEY constraint failed")
     else Ok (Some (count + Z.of_nat (matching P (st_db s)))), s')
  ∧ (blocked P (st_db s) = false →
     st_db s' = set_messages (base.filter (λ kv, P kv.2 = false)) (st_db s)).
Proof using.
  revert count s. induction fuel as [|fuel IH]; intros count s Hk Hf; [lia|].
  cbn [prune_batches]. unfold bind at 1, gets. cbn beta iota.
  pose proof (matching_batch P (st_db s) Hk) as Hm. pose proof (select_length P (st_db s)) as Hl.
  pose proof (blocked_batch P (st_db s) Hk) as Hb. pose proof (after_batch_rest P (st_db s) Hk) as Hr.
  destruct (list_true (select_batch P (st_db s))) eqn:Hne; cbn [negb].
  - unfold bind at 1. destruct (delete_batch_run (select_batch P (st_db s)) s) as (s1 & -> & E1).
    rewrite Hb. destruct (existsb _ (select_batch P (st_db s))); [eexists; by split|].
    simpl. fold (after_batch P (st_db s)) in E1.
    assert (0 < length (select_batch P (st_db s)))%nat by (destruct (select_batch P (st_db s)); [done|simpl; lia]).
    destruct (IH (count + zlen (select_batch P (st_db s))) s1) as (s2 & E2 & E3).
    { rewrite E1. by apply after_batch_keyed. }
    { rewrite E1. apply Nat.Div0.div_lt_upper_bound. pose proof (Nat.div_mod_eq (matching P (st_db s) + 499) 500).
      pose proof (Nat.mod_upper_bound (matching P (st_db s) + 499) 500). lia. }
    exists s2. rewrite E2, E1. split.
    + destruct (blocked P (after_batch P (st_db s))); [done|]. unfold zlen. rewrite Hm. do 3 f_equal. lia.
    + intros Hn. rewrite E1 in E3. rewrite (E3 Hn). unfold after_batch, set_messages at 2 3. simpl.
      unfold set_messages. f_equal. exact Hr.
  - exists s. assert (length (select_batch P (st_db s)) = 0%nat) by (by destruct (select_batch P (st_db s))).
    assert (H0 : List.filter P (rows (messages (st_db s))) = []) by (apply nil_length_inv; unfold matching in *; lia).
    unfold blocked, matching. rewrite H0. simpl. rewrite Z.add_0_r. split; [done|]. intros _.
    assert (base.filter (λ kv, P kv.2 = false) (messages (st_db s)) = messages (st_db s)) as E.
    { apply map_filter_id. intros h m Hh. simpl. apply not_true_iff_false. intros HP.
      assert (m ∈ List.filter P (rows (messages (st_db s)))) as Hin.
      { apply elem_of_filter_bool. split; [|done]. apply elem_of_rows. by exists h. }
      rewrite H0 in Hin. by apply elem_of_nil in Hin. }
    destruct (st_db s) eqn:Es. unfold set_messages. simpl in *. by rewrite E.
Qed.

Lemma keyed_filter P db : keyed db → keyed (set_messages (base.filter (λ kv, P kv.2 = false)) db).
Proof using. intros Hk h m [Hm _]%map_lookup_filter_Some. by apply Hk. Qed.

Lemma db_ok_keyed db : db_ok db → keyed db.
Proof using. intros Hok h m Hm. by destruct (ok_rows db Hok h m Hm). Qed.

(** Selecting fewer, then the rest, is selecting all at once. *)
Lemma rows_filter_split P (t : gmap string Message) :
  rows t ≡ₚ List.filter P (rows t) ++ rows (base.filter (λ kv, P kv.2 = false) t).
Proof using.
  induction t as [|h m t Hh IH] using map_ind; [done|].
  assert (Hi : ∀ u, u !! h = None → rows (<[h := m]> u) ≡ₚ m :: rows u).
  { intros u Hu. unfold rows. by rewrite map_to_list_insert. }
  rewrite (filter_perm P _ _ (Hi t Hh)), (Hi t Hh). simpl. destruct (P m) eqn:EP; simpl.
  - rewrite map_filter_insert_False by (simpl; congruence). rewrite delete_id by done. by rewrite <- IH.
  - rewrite map_filter_insert_True by done. rewrite Hi.
    + by rewrite IH at 1; rewrite Permutation_middle.
    + by rewrite map_lookup_filter_None; left.
Qed.

Section old.
Context (days : Z).
Let P := older now days.
Let P1 := older_media now days.

Lemma older_sub m : P1 m = true → P m = true.
Proof using. unfold P1, older_media. by intros [? _]%andb_true_iff. Qed.

Lemma filter_sub_split (t : gmap string Message) :
  List.filter P (rows t) ≡ₚ List.filter P1 (rows t) ++ List.filter P (rows (base.filter (λ kv, P1 kv.2 = false) t)).
Proof using.
  rewrite (filter_perm P _ _ (rows_filter_split P1 t)), List.filter_app.
  rewrite (filter_all P (List.filter P1 _)); [done|]. intros m [_ Hm]%elem_of_filter_bool. by apply older_sub.
Qed.

Lemma filter_sub_all (t : gmap string Message) :
  base.filter (λ kv : string * Message, P kv.2 = false) (base.filter (λ kv : string * Message, P1 kv.2 = false) t)
  = base.filter (λ kv : string * Message, P kv.2 = false) t.
Proof using.
  apply map_eq. intros h. apply option_eq. intros m. rewrite !map_lookup_filter_Some. simpl.
  split; [tauto|]. intros [Hm HP]. repeat split; [done| |done].
  apply not_true_iff_false. intros ?%older_sub. congruence.
Qed.

(** Deletion by age: the media batches and the bulk delete are one deletion. *)
Lemma prune_old_spec fuel s :
  0 < days → keyed (st_db s) → ((matching P1 (st_db s) + 499) / 500 < fuel)%nat →
  ∃ s', prune_old_messages dir cwd now fuel days s =
    (if blocked P (st_db s) then Raise (Exn IntegrityError "FOREIGN KEY constraint failed")
     else Ok (Some (Z.of_nat (matching P (st_db s)))), s')
  ∧ (blocked P (st_db s) = false → st_db s' = set_messages (base.filter (λ kv, P kv.2 = false)) (st_db s)).
Proof using.
  intros Hd Hk Hf. unfold prune_old_messages. rewrite (proj2 (Z.leb_gt days 0)) by lia.
  unfold bind at 1. destruct (prune_batches_spec P1 fuel 0 s Hk Hf) as (s1 & E & E1). fold P1. rewrite E.
  pose proof (filter_sub_split (messages (st_db s))) as Hs.
  assert (Hb : blocked P (st_db s) = blocked P1 (st_db s)
    || existsb (thread_root (st_db s)) (List.filter P (rows (base.filter (λ kv, P1 kv.2 = false) (messages (st_db s)))))).
  { unfold blocked. by rewrite (existsb_perm _ _ _ Hs), existsb_app. }
  destruct (blocked P1 (st_db s)); simpl in Hb; [rewrite Hb; by eexists|]. specialize (E1 eq_refl).
  unfold st_op, lift, bulk_delete, bind, get. rewrite E1. fold P.
  change (thread_root (set_messages (base.filter (λ kv, P1 kv.2 = false)) (st_db s))) with (thread_root (st_db s)).
  cbn [messages set_messages]. rewrite <- Hb. destruct (blocked P (st_db s)); [by eexists|].
  simpl. eexists. split.
  - unfold zlen, matching. rewrite (Permutation_length Hs), length_app. unfold ret. do 3 f_equal. lia.
  - intros _. simpl. unfold set_messages. f_equal. simpl. apply filter_sub_all.
Qed.
End old.

(** ** The invariant *)

(** Dropping rows keeps the invariant as long as the roots of threads stay. *)
Lemma db_ok_shrink db t :
  db_ok db → t ⊆ messages db → (∀ h, is_Some (threads db !! h) → is_Some (t !! h)) →
  db_ok (set_messages (λ _, t) db).
Proof using.
  intros [H1 H2 H3 H4 H5 H6] Hsub Hth.
  assert (Hl : ∀ h m, t !! h = Some m → messages db !! h = Some m) by (intros h m Hm; by eapply lookup_weaken).
  split; simpl; [| done| |red; simpl; eauto|red; simpl; eauto|red; simpl; eauto].
  - intros h m Hm. destruct (H1 h m (Hl _ _ Hm)) as (? & c & ?). split; [done|]. by exists c.
  - intros h th Hh. destruct (H3 h th Hh) as (? & _ & ? & ? & ? & Hn). repeat split; eauto.
Qed.

Lemma unblocked_roots P db : db_ok db → blocked P db = false →
  ∀ h, is_Some (threads db !! h) → is_Some (base.filter (λ kv : string * Message, P kv.2 = false) (messages db) !! h).
Proof using.
  intros Hok Hb h [th Hth]. destruct (ok_threads db Hok h th Hth) as (Hr & [m Hm] & _).
  exists m. apply map_lookup_filter_Some. split; [done|]. simpl. apply not_true_iff_false. intros HP.
  apply not_true_iff_false in Hb. apply Hb. unfold blocked. apply existsb_exists. exists m. split.
  - apply list_elem_of_In, elem_of_filter_bool. split; [|done]. apply elem_of_rows. by exists h.
  - unfold thread_root. apply existsb_exists. exists th. split; [apply list_elem_of_In, elem_of_rows; by exists h|].
    apply bool_decide_eq_true. by rewrite (db_ok_keyed db Hok h m Hm).
Qed.

Lemma db_ok_filter P db : db_ok db → blocked P db = false →
  db_ok (set_messages (base.filter (λ kv, P kv.2 = false)) db).
Proof using.
  intros Hok Hb. apply (db_ok_shrink db); [done|apply map_filter_subseteq|]. by apply unblocked_roots.
Qed.

(** The same, for a batch of rows. *)
Lemma db_ok_drop batch db : db_ok db → existsb (thread_root db) batch = false →
  db_ok (set_messages (drop_rows batch) db).
Proof using.
  intros Hok Hb. apply (db_ok_shrink db (drop_rows batch (messages db))); [done| |].
  - apply map_subseteq_spec. intros h m. rewrite drop_rows_lookup. by case_bool_decide.
  - intros h [th Hth]. destruct (ok_threads db Hok h th Hth) as (Hr & [m Hm] & _).
    exists m. rewrite drop_rows_lookup. case_bool_decide as Hin; [|done]. exfalso.
    apply list_elem_of_fmap in Hin as (m' & -> & Hm'). apply not_true_iff_false in Hb. apply Hb.
    apply existsb_exists. exists m'. split; [by apply list_elem_of_In|]. apply existsb_exists. exists th.
    split; [apply list_elem_of_In, elem_of_rows; by eexists|]. by apply bool_decide_eq_true.
Qed.

(** ** Retention *)

Definition channel_rows (ch : string) (db : DB) : gmap string Message :=
  base.filter (λ kv, MessageRepo.in_channel ch kv.2 = true) (messages db).

Lemma filter_size (P : Message → bool) (t : gmap string Message) :
  length (List.filter P (rows t)) = size (base.filter (λ kv : string * Message, P kv.2 = true) t).
Proof using.
  induction t as [|h m t Hh IH] using map_ind; [done|].
  assert (Hi : rows (<[h := m]> t) ≡ₚ m :: rows t) by (unfold rows; by rewrite map_to_list_insert).
  rewrite (Permutation_length (filter_perm P _ _ Hi)). simpl. destruct (P m) eqn:EP; simpl.
  - rewrite map_filter_insert_True, map_size_insert_None; [by rewrite IH| |done].
    by rewrite map_lookup_filter_None; left.
  - rewrite map_filter_insert_False by (simpl; congruence). by rewrite delete_id.
Qed.

Lemma seq_leb_total a b : seq_leb a b = true ∨ seq_leb b a = true.
Proof using.
  unfold seq_leb, MessageRepo.oz_leb. destruct (m_seq a), (m_seq b); try tauto.
  rewrite !Z.leb_le. lia.
Qed.

Lemma seq_leb_trans a b c : seq_leb a b = true → seq_leb b c = true → seq_leb a c = true.
Proof using.
  unfold seq_leb, MessageRepo.oz_leb. destruct (m_seq a), (m_seq b), (m_seq c); rewrite ?Z.leb_le; try done. lia.
Qed.

(** What one channel keeps: the rows last in the order, at most as many as its
    retention allows. *)
Record retained (c : Channel) (db db' : DB) : Prop := {
  ret_count : size (channel_rows (ch_id c) db') =
    if 0 <? ch_max_retention c
    then Nat.min (Z.to_nat (ch_max_retention c)) (size (channel_rows (ch_id c) db))
    else size (channel_rows (ch_id c) db);
  ret_order : ∀ h a k b, channel_rows (ch_id c) db !! h = Some a → channel_rows (ch_id c) db' !! h = None →
    channel_rows (ch_id c) db' !! k = Some b → seq_leb a b = true;
}.

Section one_channel.
Context (c : Channel) (db : DB) (Hk : keyed db).
Let l := List.filter (MessageRepo.in_channel (ch_id c)) (rows (messages db)).
Let gone := retention_excess c db.

Lemma excess_in m : m ∈ gone → messages db !! m_msg_hash m = Some m ∧ m_channel_id m = ch_id c.
Proof using Hk.
  unfold gone, retention_excess. destruct (_ || _); [by intros ?%elem_of_nil|]. unfold sql_limit, ztake.
  intros Hm. assert (m ∈ l) as Hl.
  { destruct (_ <? _); [by rewrite sort_by_perm in Hm|].
    eapply elem_of_take in Hm as (i & Hi & _). apply list_elem_of_lookup_2 in Hi. by rewrite sort_by_perm in Hi. }
  apply elem_of_filter_bool in Hl as [Hl Hc]. split; [by apply selected_row|].
  by unfold MessageRepo.in_channel in Hc; apply bool_decide_eq_true in Hc.
Qed.

Lemma excess_prefix : ∃ n, gone = take n (sort_by seq_leb l).
Proof using.
  unfold gone, retention_excess. fold l. destruct (_ || _); [by exists 0%nat|].
  unfold sql_limit, ztake. destruct (_ <? _); [|by eexists].
  exists (length (sort_by seq_leb l)). by rewrite take_ge.
Qed.

Lemma excess_nodup : NoDup (m_msg_hash <$> gone).
Proof using Hk.
  destruct excess_prefix as [n ->]. apply sublist_NoDup with (l2 := m_msg_hash <$> sort_by seq_leb l).
  - rewrite sort_by_perm. apply (selected_nodup db Hk). apply filter_sublist.
  - apply fmap_sublist, sublist_take.
Qed.

Lemma excess_length : length gone =
  (length l - if (0 <? ch_max_retention c)%Z then Nat.min (Z.to_nat (ch_max_retention c)) (length l) else length l)%nat.
Proof using.
  unfold gone, retention_excess. fold l. unfold zlen.
  destruct (Z.leb_spec (ch_max_retention c) 0), (Z.ltb_spec 0 (ch_max_retention c)); try lia; simpl; [lia|].
  destruct (Z.leb_spec (Z.of_nat (length l)) (ch_max_retention c)); simpl; [lia|].
  unfold sql_limit, ztake. rewrite (proj2 (Z.ltb_ge _ _)) by lia. rewrite length_take, sort_by_length. lia.
Qed.

Let db' := set_messages (drop_rows gone) db.

Lemma retained_one : retained c db db'.
Proof using Hk.
  split.
  - unfold channel_rows. rewrite <- !filter_size. fold l.
    assert (Hp : rows (messages db) ≡ₚ gone ++ rows (messages db')).
    { apply rows_drop; [apply excess_nodup|]. by intros m [? _]%excess_in. }
    pose proof (Permutation_length (filter_perm (MessageRepo.in_channel (ch_id c)) _ _ Hp)) as Hlen.
    rewrite List.filter_app, length_app, (filter_all _ gone) in Hlen.
    + fold l in Hlen. pose proof excess_length. destruct (0 <? _); lia.
    + intros m [_ Hm]%excess_in. by apply bool_decide_eq_true.
  - intros h a k b. unfold channel_rows. rewrite map_lookup_filter_Some. intros [Ha HPa] Hnone.
    intros [Hb HPb]%map_lookup_filter_Some. simpl in *.
    assert (h ∈ m_msg_hash <$> gone) as Hha.
    { destruct (decide (h ∈ m_msg_hash <$> gone)) as [|Hn]; [done|exfalso].
      assert (drop_rows gone (messages db) !! h = Some a) as E by (by rewrite drop_rows_lookup, bool_decide_eq_false_2).
      apply map_lookup_filter_None in Hnone as [Hnone|Hnone]; [simpl in Hnone; congruence|]. by apply (Hnone a). }
    rewrite drop_rows_lookup in Hb. case_bool_decide as Hka; [done|].
    assert (a ∈ gone) as Hag.
    { apply list_elem_of_fmap in Hha as (m & -> & Hm). apply excess_in in Hm as Hm'. destruct Hm' as [E _]. by simplify_eq. }
    assert (Hbl : b ∈ sort_by seq_leb l).
    { rewrite sort_by_perm. apply elem_of_filter_bool. split; [|done]. apply elem_of_rows. by exists k. }
    destruct excess_prefix as [n Hn]. rewrite Hn in Hag.
    pose proof (sort_by_sorted seq_leb seq_leb_total seq_leb_trans l) as Hsort.
    rewrite <- (take_drop n (sort_by seq_leb l)) in Hsort, Hbl. apply elem_of_app in Hbl as [Hbl|Hbl].
    + exfalso. apply Hka. apply list_elem_of_fmap. exists b. split; [by rewrite (Hk k b Hb)|]. by rewrite Hn.
    + by eapply StronglySorted_app_1_elem_of in Hsort.
Qed.

Lemma channel_rows_other ch : ch ≠ ch_id c → channel_rows ch db' = channel_rows ch db.
Proof using Hk.
  intros Hne. unfold channel_rows. apply map_eq. intros h. apply option_eq. intros m.
  rewrite !map_lookup_filter_Some. unfold db'. simpl. rewrite drop_rows_lookup.
  case_bool_decide as Hin; [|done]. split; [by intros [? _]|]. intros [Hm HP%bool_decide_eq_true]. exfalso.
  apply list_elem_of_fmap in Hin as (m' & -> & [E Hc]%excess_in). congruence.
Qed.
End one_channel.

(** One channel's turn of [prune_retention]. *)
Definition retention_turn (total : Z) (c : Channel) : M Store Z :=
  let! gone := gets (λ s, retention_excess c (st_db s)) in
  delete_batch dir cwd gone ;;
  ret (total + zlen gone).

Lemma retention_turn_run total c s n s' :
  retention_turn total c s = (Ok n, s') →
  existsb (thread_root (st_db s)) (retention_excess c (st_db s)) = false
  ∧ st_db s' = set_messages (drop_rows (retention_excess c (st_db s))) (st_db s).
Proof using.
  unfold retention_turn, bind at 1, gets. cbn beta iota. unfold bind.
  destruct (delete_batch_run (retention_excess c (st_db s)) s) as (s1 & -> & E1).
  destruct (existsb _ _); [done|]. by intros [= _ <-].
Qed.

Lemma drop_keyed batch db : keyed db → keyed (set_messages (drop_rows batch) db).
Proof using.
  intros Hk h m Hm. simpl in Hm. rewrite drop_rows_lookup in Hm. case_bool_decide; [done|]. by apply Hk.
Qed.

Lemma drop_subseteq batch t : drop_rows batch t ⊆ t.
Proof using. apply map_subseteq_spec. intros h m. rewrite drop_rows_lookup. by case_bool_decide. Qed.

Lemma retention_fold chs total s n s' :
  NoDup (ch_id <$> chs) → keyed (st_db s) → mfold retention_turn total chs s = (Ok n, s') →
  (∀ c, c ∈ chs → retained c (st_db s) (st_db s'))
  ∧ (∀ ch, ch ∉ ch_id <$> chs → channel_rows ch (st_db s') = channel_rows ch (st_db s))
  ∧ messages (st_db s') ⊆ messages (st_db s).
Proof using.
  revert total s. induction chs as [|c chs IH]; csimpl; intros total s Hnd Hk.
  { intros [= _ <-]. split_and!; [by intros c ?%elem_of_nil|done|done]. }
  apply NoDup_cons in Hnd as [Hc Hnd]. intros (n1 & s1 & H1 & H2)%bind_ok.
  apply retention_turn_run in H1 as [_ E1].
  assert (keyed (st_db s1)) as Hk1 by (rewrite E1; by apply drop_keyed).
  destruct (IH n1 s1 Hnd Hk1 H2) as (Ha & Hb & Hsub). split_and!.
  - intros c' [->|Hc']%elem_of_cons.
    + destruct (retained_one c (st_db s) Hk) as [R1 R2]. rewrite <- E1 in R1, R2.
      specialize (Hb (ch_id c) Hc). split; rewrite Hb; assumption.
    + assert (ch_id c' ≠ ch_id c) as Hne by (intros E; apply Hc; rewrite <- E; by apply list_elem_of_fmap_2).
      destruct (Ha c' Hc') as [R1 R2].
      rewrite E1 in R1, R2. rewrite (channel_rows_other c (st_db s) Hk (ch_id c') Hne) in R1, R2. by split.
  - intros ch [Hne Hn]%not_elem_of_cons. rewrite (Hb ch Hn), E1. by apply channel_rows_other.
  - etrans; [exact Hsub|]. rewrite E1. apply drop_subseteq.
Qed.

Lemma channels_nodup db : db_ok db → NoDup (ch_id <$> rows (channels db)).
Proof using.
  intros Hok. assert (ch_id <$> rows (channels db) = (map_to_list (channels db)).*1) as ->.
  { unfold rows. rewrite <- list_fmap_compose. apply list_fmap_ext. intros i [h c] Hi. simpl.
    apply (ok_channels db Hok). by apply elem_of_map_to_list, list_elem_of_lookup_2 with i. }
  apply NoDup_fst_map_to_list.
Qed.

(** When the retention pass succeeds, a channel with a limit is left with
    exactly the smaller of its limit and what it had, a channel without one
    keeps its count; no row is added or changed; and within a channel whatever
    was removed comes before whatever stayed in the order of sequence numbers,
    rows without a number (thread replies) first: no numbered message is
    removed while a reply of its channel remains. *)
Theorem retention_bound s n s' :
  db_ok (st_db s) → prune_retention dir cwd s = (Ok n, s') →
  messages (st_db s') ⊆ messages (st_db s)
  ∧ ∀ id c, channels (st_db s) !! id = Some c →
    size (channel_rows id (st_db s')) =
      (if 0 <? ch_max_retention c
       then Nat.min (Z.to_nat (ch_max_retention c)) (size (channel_rows id (st_db s)))
       else size (channel_rows id (st_db s)))
    ∧ ∀ h a k b, channel_rows id (st_db s) !! h = Some a → channel_rows id (st_db s') !! h = None →
        channel_rows id (st_db s') !! k = Some b →
        MessageRepo.oz_leb (m_seq a) (m_seq b) = true.
Proof using.
  intros Hok H. destruct (retention_fold (rows (channels (st_db s))) 0 s n s') as (Ha & _ & Hsub).
  - by apply channels_nodup.
  - by apply db_ok_keyed.
  - exact H.
  - split; [done|]. intros id c Hc. destruct (Ha c) as [R1 R2]; [apply elem_of_rows; by exists id|].
    rewrite (ok_channels _ Hok id c Hc) in R1, R2. split; [exact R1|exact R2].
Qed.

(** ** The whole pass *)

Abbreviation keeps_ok := (keeps (λ s, db_ok (st_db s))).

Lemma delete_batch_keeps batch : mrel keeps_ok (delete_batch dir cwd batch).
Proof using.
  intros s Hok. destruct (delete_batch_run batch s) as (s1 & -> & E). simpl. rewrite E.
  destruct (existsb _ _) eqn:Eb; [done|by apply db_ok_drop].
Qed.

Lemma prune_batches_keeps P fuel : ∀ count, mrel keeps_ok (prune_batches dir cwd P fuel count).
Proof using.
  induction fuel as [|fuel IH]; intros count; cbn [prune_batches]; mrel_auto. apply delete_batch_keeps.
Qed.

Lemma st_op_keeps {A} (m : M DB A) : mrel (keeps db_ok) m → mrel keeps_ok (st_op m).
Proof using. intros Hm. eapply mrel_lift; [exact Hm|]. intros s db H Hs. by apply H. Qed.

Lemma bulk_delete_keeps P : mrel (keeps db_ok) (bulk_delete P).
Proof using.
  intros db Hok. unfold bulk_delete, bind, get. cbn beta iota.
  destruct (existsb _ _) eqn:Eb; [done|]. by apply db_ok_filter.
Qed.

Lemma scrub_keeps days : mrel (keeps db_ok) (scrub_metadata now days).
Proof using.
  intros db Hok. unfold scrub_metadata, bind, get. destruct (days <=? 0); [done|]. cbn beta iota.
  destruct Hok as [H1 H2 H3 H4 H5 H6].
  set (f := λ m, if scrubbed now days m then scrub_row m else m).
  assert (Hf : ∀ m, m_msg_hash (f m) = m_msg_hash m ∧ m_channel_id (f m) = m_channel_id m ∧ m_seq (f m) = m_seq m
    ∧ row_content (f m) = row_content m ∧ m_reply_to (f m) = m_reply_to m ∧ m_thread_seq (f m) = m_thread_seq m).
  { intros m. unfold f. by destruct (scrubbed _ _ m). }
  assert (Hl : ∀ h m, (f <$> messages db) !! h = Some m → ∃ m0, messages db !! h = Some m0 ∧ m = f m0).
  { intros h m. rewrite lookup_fmap. intros (m0 & E & ->)%fmap_Some. eauto. }
  split; simpl.
  - intros h m (m0 & E & ->)%Hl. destruct (Hf m0) as (F1 & F2 & F3 & F4 & _).
    destruct (H1 h m0 E) as (? & c & ?). unfold row_ok. rewrite F1, F2, F3, F4. eauto.
  - done.
  - intros h t Ht. destruct (H3 h t Ht) as (? & [m0 Hm0] & ? & ? & ? & Hn). repeat split; [done| |done..|].
    + exists (f m0). simpl. by rewrite lookup_fmap, Hm0.
    + intros h' m n (m1 & E & ->)%Hl. destruct (Hf m1) as (_ & _ & _ & _ & -> & ->). eauto.
  - intros h1 h2 m1 m2 n (a & E1 & ->)%Hl (b & E2 & ->)%Hl.
    destruct (Hf a) as (_ & -> & -> & _), (Hf b) as (_ & -> & -> & _). eauto.
  - intros h1 h2 m1 m2 n r (a & E1 & ->)%Hl (b & E2 & ->)%Hl.
    destruct (Hf a) as (_ & _ & _ & _ & -> & ->), (Hf b) as (_ & _ & _ & _ & -> & ->). eauto.
  - intros h m r n (a & E & ->)%Hl. destruct (Hf a) as (_ & _ & _ & _ & -> & ->). eauto.
Qed.

Lemma invites_keeps : mrel (keeps db_ok) (prune_expired_invites now).
Proof using. intros db. intros Hok. unfold prune_expired_invites, bind, get, modify, ret. simpl. by apply (db_ok_same db). Qed.

Lemma prune_old_keeps fuel days : mrel keeps_ok (prune_old_messages dir cwd now fuel days).
Proof using.
  unfold prune_old_messages. mrel_auto; [apply prune_batches_keeps|apply st_op_keeps, bulk_delete_keeps].
Qed.

Lemma prune_retention_keeps : mrel keeps_ok (prune_retention dir cwd).
Proof using.
  unfold prune_retention. mrel_step; [mrel_auto|]. apply mrel_mfold; [typeclasses eauto|].
  intros t c. mrel_auto. apply delete_batch_keeps.
Qed.

(** What the pruning steps keep, their transaction keeps. *)
Lemma prune_tx_mrel (R : Store → Store → Prop) `{!PreOrder R} fuel days scrub :
  (∀ s s', R s (st_set_db (st_db s) s')) →
  (0 < days → mrel R (prune_old_messages dir cwd now fuel days)) → mrel R (prune_expired_messages dir cwd now fuel) →
  mrel R (prune_retention dir cwd) → mrel R (st_op (prune_expired_invites now)) →
  mrel R (st_op (scrub_metadata now scrub)) → mrel R (prune_tx dir cwd now fuel days scrub).
Proof using.
  intros Hundo H1 H2 H3 H4 H5 s. unfold prune_tx, atomic.
  match goal with |- context [match ?m s with _ => _ end] => set (body := m) end.
  assert (mrel R body) as Hb.
  { unfold body. mrel_step; [destruct (Z.ltb_spec 0 days); [by apply H1|by apply mrel_ret]|].
    mrel_step; [done|]. mrel_step; [done|]. mrel_step; [done|]. by mrel_auto. }
  specialize (Hb s). destruct (body s) as [[b|e] s1]; [done|apply Hundo].
Qed.

Lemma prune_tx_keeps fuel days scrub : mrel keeps_ok (prune_tx dir cwd now fuel days scrub).
Proof using.
  apply prune_tx_mrel; [typeclasses eauto|intros s1 s2 Hs; exact Hs|intros _; apply prune_old_keeps
    |apply prune_batches_keeps|apply prune_retention_keeps|apply st_op_keeps, invites_keeps|apply st_op_keeps, scrub_keeps].
Qed.

(** The maintenance transaction keeps the invariant of the database:
    every row still belongs to its channel, every thread still has its root,
    sequence and thread numbers stay distinct and below their counters; a pass
    that fails leaves the database exactly as it was. *)
Theorem maintenance_invariant fuel days scrub s :
  db_ok (st_db s) →
  db_ok (st_db (prune_tx dir cwd now fuel days scrub s).2)
  ∧ (∀ e s', prune_tx dir cwd now fuel days scrub s = (Raise e, s') → st_db s' = st_db s).
Proof using.
  intros Hok. split.
  - by apply prune_tx_keeps.
  - intros e s'. unfold prune_tx, atomic. match goal with |- context [match ?m s with _ => _ end] => set (body := m) end.
    destruct (body s) as [[b|e1] s1]; [done|]. by intros [= _ <-].
Qed.

Lemma matching_size P db : (matching P db ≤ size (messages db))%nat.
Proof using.
  unfold matching. rewrite filter_size. apply map_subseteq_size, map_filter_subseteq.
Qed.

Lemma fuel_enough P db fuel :
  ((size (messages db) + 499) / 500 < fuel)%nat → ((matching P db + 499) / 500 < fuel)%nat.
Proof using.
  intros H. eapply Nat.le_lt_trans; [|exact H]. apply Nat.Div0.div_le_mono. pose proof (matching_size P db). lia.
Qed.

(** C16: The pruning loops end, and do what they say. With fuel for one round
    per 500 stored messages and one more, the loop over messages past their
    time to live and the deletion by age each return the number of the
    messages they select and remove exactly those, media or not, unless one of
    them is the root of a thread: then they raise [IntegrityError]. *)
Theorem prune_terminates fuel days s :
  keyed (st_db s) → ((size (messages (st_db s)) + 499) / 500 < fuel)%nat → 0 < days →
  (∃ s', prune_expired_messages dir cwd now fuel s =
      (if blocked (past_ttl now) (st_db s) then Raise (Exn IntegrityError "FOREIGN KEY constraint failed")
       else Ok (Some (Z.of_nat (matching (past_ttl now) (st_db s)))), s')
    ∧ (blocked (past_ttl now) (st_db s) = false →
       st_db s' = set_messages (base.filter (λ kv, past_ttl now kv.2 = false)) (st_db s)))
  ∧ (∃ s', prune_old_messages dir cwd now fuel days s =
      (if blocked (older now days) (st_db s) then Raise (Exn IntegrityError "FOREIGN KEY constraint failed")
       else Ok (Some (Z.of_nat (matching (older now days) (st_db s)))), s')
    ∧ (blocked (older now days) (st_db s) = false →
       st_db s' = set_messages (base.filter (λ kv, older now days kv.2 = false)) (st_db s))).
Proof using.
  intros Hk Hf Hd. split.
  - apply (prune_batches_spec (past_ttl now) fuel 0 s Hk). by apply fuel_enough.
  - apply prune_old_spec; [done|done|]. by apply fuel_enough.
Qed.
End loops.

(** A message stays old, and past its time to live, as time goes on. *)
Lemma past_ttl_later now now' m : fle now now' = true → past_ttl now m = true → past_ttl now' m = true.
Proof. unfold past_ttl. destruct (m_ttl m); [|done]. intros ??. flra. Qed.

Lemma older_later now now' days m : fle now now' = true → older now days m = true → older now' days m = true.
Proof. unfold older, cutoff. intros ??. flra. Qed.

Lemma blocked_by P db h m : messages db !! h = Some m → db_ok db → is_Some (threads db !! h) →
  P m = true → blocked P db = true.
Proof.
  intros Hm Hok [t Ht] HP. apply existsb_exists. exists m. split.
  - apply list_elem_of_In, elem_of_filter_bool. split; [|done]. apply elem_of_rows. by exists h.
  - apply existsb_exists. exists t. split; [apply list_elem_of_In, elem_of_rows; by exists h|].
    apply bool_decide_eq_true. destruct (ok_threads db Hok h t Ht) as [-> _]. by rewrite (db_ok_keyed db Hok h m Hm).
Qed.

(** One message that started a thread and has since passed its time to
    live, or the retention period, stops all pruning: from then on every run of
    the maintenance transaction raises [IntegrityError] and leaves the database
    as it was, at that time and at every later one. *)
Theorem thread_root_stops_pruning dir cwd now now' fuel days scrub s h m :
  db_ok (st_db s) → messages (st_db s) !! h = Some m → is_Some (threads (st_db s) !! h) →
  past_ttl now m = true ∨ (0 < days ∧ older now days m = true) → fle now now' = true →
  ((size (messages (st_db s)) + 499) / 500 < fuel)%nat →
  ∃ s', prune_tx dir cwd now' fuel days scrub s =
    (Raise (Exn IntegrityError "FOREIGN KEY constraint failed"), s') ∧ st_db s' = st_db s.
Proof.
  intros Hok Hm Ht Hold Hnow Hf. unfold prune_tx, atomic.
  pose proof (db_ok_keyed _ Hok) as Hk.
  assert (Hblk : ∀ P, P m = true → blocked P (st_db s) = true) by (intros P; by apply (blocked_by P _ h)).
  assert (∃ s1 r, (if 0 <? days then prune_old_messages dir cwd now' fuel days else ret (Some 0)) s = (r, s1)
    ∧ (r = Raise (Exn IntegrityError "FOREIGN KEY constraint failed")
       ∨ ∃ n, r = Ok n ∧ past_ttl now' m = true ∧ db_ok (st_db s1) ∧ messages (st_db s1) !! h = Some m
         ∧ threads (st_db s1) = threads (st_db s) ∧ messages (st_db s1) ⊆ messages (st_db s))) as (s1 & r & E & Hr).
  { destruct (Z.ltb_spec 0 days) as [Hd|Hd].
    - destruct (prune_old_spec dir cwd now' days fuel s Hd Hk) as (s1 & E & E1); [by apply fuel_enough|].
      exists s1. eexists. split; [exact E|]. destruct (blocked (older now' days) (st_db s)) eqn:Eb; [by left|right].
      assert (older now' days m = false) as Hno.
      { apply not_true_iff_false. intros ?%(Hblk (older now' days)). congruence. }
      eexists. split; [done|]. rewrite E1 by done. simpl. split_and!.
      + destruct Hold as [?|[_ ?]]; [by eapply past_ttl_later|].
        exfalso. apply not_true_iff_false in Hno. apply Hno. by eapply older_later.
      + by apply db_ok_filter.
      + by apply map_lookup_filter_Some.
      + done.
      + apply map_filter_subseteq.
    - exists s. eexists. split; [reflexivity|]. right. eexists. split; [done|]. split_and!; try done.
      destruct Hold as [?|[? _]]; [by eapply past_ttl_later|lia]. }
  unfold bind at 1. rewrite E. destruct Hr as [->|(n & -> & HP & Hok1 & Hm1 & Ht1 & Hsub)]; [by eexists|].
  unfold bind at 1, prune_expired_messages.
  destruct (prune_batches_spec dir cwd (past_ttl now') fuel 0 s1 (db_ok_keyed _ Hok1)) as (s2 & -> & _).
  { eapply Nat.le_lt_trans; [|exact Hf]. apply Nat.Div0.div_le_mono.
    pose proof (matching_size (past_ttl now') (st_db s1)). apply map_subseteq_size in Hsub. lia. }
  rewrite (blocked_by _ _ h m Hm1 Hok1) by (rewrite ?Ht1; done). by eexists.
Qed.

(** ** The files *)

Section kept.
Context (dir cwd : path) (now : float).

Definition outside (m : Message) : Prop :=
  ∀ p, m_media_path m = Some p → is_relative_to (resolve cwd p) dir = false.

(** No file is removed as long as no stored path, read from the working
    directory, leads into the media directory. *)
Definition files_kept (s s' : Store) : Prop :=
  (∀ m, m ∈ rows (messages (st_db s)) → outside m) →
  (∀ m, m ∈ rows (messages (st_db s')) → outside m) ∧ st_files s' = st_files s.

#[local] Instance files_kept_preorder : PreOrder files_kept.
Proof using.
  split; [by intros s|]. intros s1 s2 s3 H1 H2 H. destruct (H1 H) as [H' E1]. destruct (H2 H') as [? E2].
  by rewrite <- E1.
Qed.

Lemma rows_subseteq (t t' : gmap string Message) m : t' ⊆ t → m ∈ rows t' → m ∈ rows t.
Proof using. rewrite !elem_of_rows. intros Hs [h Hh]. exists h. by eapply lookup_weaken. Qed.

Lemma delete_media_outside m s : outside m → delete_media dir cwd m s = (Ok tt, s).
Proof using.
  intros Ho. unfold delete_media. destruct (m_media_path m) as [p|] eqn:E; [|done].
  destruct (str_true p); [|done]. simpl. unfold _secure_delete_file. by rewrite (Ho p E).
Qed.

Lemma delete_batch_files batch s :
  (∀ m, m ∈ batch → m ∈ rows (messages (st_db s))) → files_kept s (delete_batch dir cwd batch s).2.
Proof using.
  intros Hb Ho.
  assert (mfold (λ _, delete_media dir cwd) tt batch s = (Ok tt, s)) as E.
  { induction batch as [|m batch IH]; [done|]. simpl. unfold bind.
    rewrite delete_media_outside by (apply Ho, Hb; left). apply IH. intros m' Hm'. apply Hb. by right. }
  split.
  - destruct (delete_batch_run dir cwd batch s) as (s1 & -> & E1). simpl. intros m Hm. apply Ho.
    rewrite E1 in Hm. destruct (existsb _ _); [done|]. eapply rows_subseteq; [apply drop_subseteq|exact Hm].
  - unfold delete_batch, bind. rewrite E. unfold st_op, lift. by destruct (flush_deletes batch (st_db s)).
Qed.

Lemma prune_batches_files P fuel : ∀ count, mrel files_kept (prune_batches dir cwd P fuel count).
Proof using.
  induction fuel as [|fuel IH]; intros count s; [by split|]. cbn [prune_batches]. unfold bind at 1, gets. cbn beta iota.
  destruct (list_true _); cbn [negb]; [|by split]. unfold bind.
  pose proof (delete_batch_files (select_batch P (st_db s)) s) as H.
  destruct (delete_batch dir cwd (select_batch P (st_db s)) s) as [[u|e] s1]; simpl in H.
  - etrans; [apply H|apply IH]. intros m Hm. eapply sublist_subseteq; [apply select_sublist|exact Hm].
  - apply H. intros m Hm. eapply sublist_subseteq; [apply select_sublist|exact Hm].
Qed.

Lemma st_op_files {A} (m : M DB A) :
  mrel (λ db db', (∀ x, x ∈ rows (messages db) → outside x) → ∀ x, x ∈ rows (messages db') → outside x) m →
  mrel files_kept (st_op m).
Proof using. intros Hm. eapply mrel_lift; [exact Hm|]. intros s db H Ho. split; [by apply H|done]. Qed.

Lemma retention_files : mrel files_kept (prune_retention dir cwd).
Proof using.
  unfold prune_retention. mrel_step; [mrel_auto|]. apply mrel_mfold; [typeclasses eauto|]. intros t c s.
  unfold bind at 1, gets. cbn beta iota. unfold bind.
  pose proof (delete_batch_files (retention_excess c (st_db s)) s) as H.
  assert (∀ m, m ∈ retention_excess c (st_db s) → m ∈ rows (messages (st_db s))) as Hin.
  { intros m. destruct (excess_prefix c (st_db s)) as [n ->]. intros (i & Hi & _)%elem_of_take.
    apply list_elem_of_lookup_2 in Hi. rewrite sort_by_perm in Hi. by apply elem_of_filter_bool in Hi as [? _]. }
  specialize (H Hin). by destruct (delete_batch _ _ _ s) as [[u|e] s1].
Qed.

Lemma bulk_delete_files P : mrel files_kept (st_op (bulk_delete P)).
Proof using.
  apply st_op_files. intros db Ho x. unfold bulk_delete, bind, get. cbn beta iota.
  destruct (existsb _ _); [by apply Ho|]. intros Hx. apply Ho. revert Hx. simpl. apply rows_subseteq, map_filter_subseteq.
Qed.

Lemma scrub_files days : mrel files_kept (st_op (scrub_metadata now days)).
Proof using.
  apply st_op_files. intros db Ho x. unfold scrub_metadata, bind, get. destruct (days <=? 0); [by apply Ho|].
  cbn beta iota. intros [h Hh]%elem_of_rows. simpl in Hh. rewrite lookup_fmap in Hh.
  apply fmap_Some in Hh as (m & Hm & ->). assert (outside m) as H by (apply Ho, elem_of_rows; by exists h).
  by destruct (scrubbed _ _ m).
Qed.

(** Rows keep the path their upload was given, relative to the media
    directory; the pruning resolves it from the process's working directory
    instead. Unless that happens to lead back into the media directory, a whole
    maintenance pass deletes no file: the media of pruned messages stays. *)
Theorem pruned_media_kept fuel days scrub s :
  (∀ h m p, messages (st_db s) !! h = Some m → m_media_path m = Some p →
     is_relative_to (resolve cwd p) dir = false) →
  st_files (prune_tx dir cwd now fuel days scrub s).2 = st_files s.
Proof using.
  intros Ho. unfold prune_tx, atomic. match goal with |- context [match ?m s with _ => _ end] => set (body := m) end.
  assert (mrel files_kept body) as Hb.
  { unfold body. mrel_step.
    - unfold prune_old_messages. mrel_auto; [apply prune_batches_files|apply bulk_delete_files].
    - mrel_step; [apply prune_batches_files|]. mrel_step; [apply retention_files|].
      mrel_step; [apply st_op_files; intros db Hx x; simpl; apply Hx|]. mrel_auto. apply scrub_files. }
  destruct (Hb s) as [_ E]; [intros m [h Hh]%elem_of_rows p; by apply (Ho h)|].
  by destruct (body s) as [[b|e] s1].
Qed.
End kept.

(** ** Witnesses *)

Definition old_row (h : string) (seq : option Z) (t : Z) (ttl : option Z) (media : option string) : Message := {|
  m_msg_hash := h; m_channel_id := "a"; m_sender_hash := Some "al"; m_seq := seq; m_timestamp := fz t;
  m_type := MSG_TEXT; m_body := Some "x"; m_media_path := media; m_media_meta := None; m_reply_to := None;
  m_thread_seq := None; m_ttl := ttl; m_received_at := fz t; m_deleted := false; m_deleted_by := None;
  m_pinned := false; m_pinned_at := None; m_edit_chain := []; m_reactions := [];
  m_lxmf_signature := None; m_lxmf_signed_part := None; m_display_name := None; m_mentions := [];
  m_origin_node := None; m_encrypted_body := None; m_encryption_nonce := None; m_encryption_epoch := None |}.

Definition small_channel : Channel := {|
  ch_id := "a"; ch_name := "a"; ch_description := ""; ch_category_id := None; ch_position := 0;
  ch_access_mode := ACCESS_PUBLIC; ch_slowmode := 0; ch_max_retention := 1; ch_latest_seq := 2;
  ch_identity_hash := None; ch_destination_hash := None; ch_created_at := fz 0;
  ch_sealed := false; ch_rotation_old_hash := None; ch_rotation_grace_end := None |}.

Definition small_thread : Thread := {|
  th_root_msg_hash := "m"; th_channel_id := "a"; th_reply_count := 0; th_latest_thread_seq := 0;
  th_last_activity := fz 0; th_participant_hashes := [] |}.

(** Two old messages, the first with a time to live and perhaps a thread. *)
Definition small_db (threaded : bool) : DB :=
  set_threads (λ _, if threaded then {[ "m" := small_thread ]} else ∅)
    (set_messages (λ _, {[ "m" := old_row "m" (Some 1) 5 (Some 10) (Some "a/x.b");
                           "n" := old_row "n" (Some 2) 6 None None ]}) (demo_db [small_channel])).

Lemma small_rows b h m : messages (small_db b) !! h = Some m →
  m_msg_hash m = h ∧ m_channel_id m = "a" ∧ m_thread_seq m = None
  ∧ m_seq m = Some (if bool_decide (h = "m") then 1 else 2) ∧ (h = "m" ∨ h = "n")
  ∧ row_content m = row_content (old_row "m" None 0 None None) ∧ (∀ p, m_media_path m = Some p → p = "a/x.b").
Proof.
  simpl. intros [[<- <-]|[Hne [<- <-]%lookup_singleton_Some]]%lookup_insert_Some;
    (split_and!; [done..|by (left + right)|done|simpl; intros p Hp; by simplify_eq]).
Qed.

Lemma small_ok b : db_ok (small_db b).
Proof.
  split.
  - intros h m (E & Hc & _ & Hs & Hh & Hr & _)%small_rows. split; [done|]. exists small_channel.
    rewrite Hc, Hs, Hr. split_and!; [done|by vm_compute|]. intros n [= <-]. case_bool_decide; simpl; lia.
  - intros id c. simpl. intros [[<- <-]|[_ Hl]]%lookup_insert_Some; [done|by rewrite lookup_empty in Hl].
  - intros h t. simpl. destruct b; [|by rewrite lookup_empty]. intros [<- <-]%lookup_singleton_Some.
    split_and!; [done|by eexists|by eexists|done|constructor|].
    intros h' m n (_ & _ & -> & _)%small_rows. done.
  - intros h1 h2 m1 m2 n (_ & _ & _ & -> & H1 & _)%small_rows (_ & _ & _ & -> & H2 & _)%small_rows _ [= <-].
    destruct H1 as [-> | ->], H2 as [-> | ->]; done.
  - intros h1 h2 m1 m2 n r (_ & _ & -> & _)%small_rows. done.
  - intros h m r n (_ & _ & -> & _)%small_rows. done.
Qed.

Definition small_store (b : bool) : Store := {| st_db := small_db b; st_files := demo_files |}.

Lemma retention_bound_witness :
  let s' := (prune_retention ["m"] ["srv"] (small_store false)).2 in
  messages (st_db s') ⊆ messages (small_db false)
  ∧ ∀ id c, channels (small_db false) !! id = Some c →
    size (channel_rows id (st_db s')) =
      (if 0 <? ch_max_retention c
       then Nat.min (Z.to_nat (ch_max_retention c)) (size (channel_rows id (small_db false)))
       else size (channel_rows id (small_db false)))
    ∧ ∀ h a k b, channel_rows id (small_db false) !! h = Some a → channel_rows id (st_db s') !! h = None →
        channel_rows id (st_db s') !! k = Some b → MessageRepo.oz_leb (m_seq a) (m_seq b) = true.
Proof.
  intros s'. apply (retention_bound ["m"] ["srv"] (small_store false) 1 s' (small_ok false)).
  apply run_result. vm_compute. reflexivity.
Defined.

Lemma maintenance_invariant_witness :
  db_ok (st_db (prune_tx ["m"] ["srv"] (fz 100) 5 0 0 (small_store false)).2).
Proof. apply (maintenance_invariant ["m"] ["srv"] (fz 100) 5 0 0 (small_store false)). exact (small_ok false). Defined.

Lemma prune_terminates_witness :
  ∃ s', prune_expired_messages ["m"] ["srv"] (fz 100) 2 (small_store false) = (Ok (Some 1), s')
  ∧ (false = false → st_db s' = set_messages (base.filter (λ kv, past_ttl (fz 100) kv.2 = false)) (small_db false)).
Proof.
  apply (prune_terminates ["m"] ["srv"] (fz 100) 2 1 (small_store false) (db_ok_keyed _ (small_ok false))).
  - vm_compute. lia.
  - lia.
Defined.

Lemma thread_root_stops_pruning_witness :
  ∃ s', prune_tx ["m"] ["srv"] (fz 200) 2 0 0 (small_store true)
    = (Raise (Exn IntegrityError "FOREIGN KEY constraint failed"), s') ∧ st_db s' = small_db true.
Proof.
  apply (thread_root_stops_pruning ["m"] ["srv"] (fz 100) (fz 200) 2 0 0 (small_store true) "m"
           (old_row "m" (Some 1) 5 (Some 10) (Some "a/x.b")) (small_ok true)).
  - reflexivity.
  - by eexists.
  - left. reflexivity.
  - reflexivity.
  - vm_compute. lia.
Defined.

(** The path the upload was stored under, from a working directory beside the
    media directory. *)
Lemma pruned_media_kept_witness :
  st_files (prune_tx ["m"] ["srv"] (fz 100) 2 0 0 (small_store false)).2 = demo_files.
Proof.
  apply (pruned_media_kept ["m"] ["srv"] (fz 100) 2 0 0 (small_store false)).
  intros h m p (_ & _ & _ & _ & _ & _ & Hm)%small_rows ->%Hm. reflexivity.
Defined.
