(* ===== verification/Bootstrap.v ===== *)
(** * Sealed keys at startup ([hokora/core/sealed_bootstrap.py])

    [SealedKeyBootstrap] loads the persisted group keys, generates the missing
    ones and purges plaintext from sealed channels. The node's own encryption
    of keys at rest is the interface [Envelope] of [Sealed]. *)

From S2P Require Import Prelude Constants Models Queries Permissions RateLimit Ban Sealed Sequencer Message Ingest Wire History Live Media Maintenance.

Import SealedChannelManager.

Record Boot := {
  bo_db : DB;
  bo_mgr : SealedChannelManager.t;
  bo_bootstrapped : list string;
}.
Definition bo_set_db (db : DB) (s : Boot) : Boot :=
  {| bo_db := db; bo_mgr := bo_mgr s; bo_bootstrapped := bo_bootstrapped s |}.
Definition bo_op {A} (m : M DB A) : M Boot A := lift bo_db bo_set_db m.

Definition sealed_channels (db : DB) : list Channel := List.filter ch_sealed (rows (channels db)).

Section bootstrap.
Context `{E : Envelope} (node_hash : string).

(** The newest row of the node for a channel. *)
Definition newest_row (channel_id : string) (db : DB) : option SealedKey :=
  head (sql_limit 1 (sort_by (λ a b, sk_epoch b <=? sk_epoch a)
    (List.filter (λ k, bool_decide (sk_channel_id k = channel_id)
                       && bool_decide (sk_identity_hash k = node_hash)) (sealed_keys db)))).

Definition load_one (db : DB) (acc : Z * SealedChannelManager.t) (ch : Channel)
    : Z * SealedChannelManager.t :=
  match newest_row (ch_id ch) db ≫= open_row with
  | Some i => (acc.1 + 1, {| _keys := <[ch_id ch := i]> (_keys acc.2); _previous_keys := _previous_keys acc.2 |})
  | None => acc
  end.

Definition load_existing_keys : M Boot Z :=
  let! s := get in
  let (loaded, mgr) := foldl (load_one (bo_db s)) (0, bo_mgr s) (sealed_channels (bo_db s)) in
  modify (λ s, {| bo_db := bo_db s; bo_mgr := mgr; bo_bootstrapped := bo_bootstrapped s |}) ;;
  ret loaded.

(** One missing key, drawn as [fresh channel_id]. *)
Definition bootstrap_one (now : float) (fresh : string → bytes) (ch : Channel) : M Boot unit :=
  let! mgr := gets bo_mgr in
  match get_key (ch_id ch) mgr with
  | Some _ => ret tt
  | None =>
      modify (λ s, {| bo_db := bo_db s; bo_mgr := (generate_key (fresh (ch_id ch)) (ch_id ch) (bo_mgr s)).2;
                      bo_bootstrapped := bo_bootstrapped s |}) ;;
      let! mgr := gets bo_mgr in
      bo_op (persist_key now node_hash (ch_id ch) mgr) ;;
      modify (λ s, {| bo_db := bo_db s; bo_mgr := bo_mgr s;
                      bo_bootstrapped := bo_bootstrapped s ++ [ch_id ch] |})
  end.

Definition bootstrap_missing_keys (now : float) (fresh : string → bytes) (node_identity : bool)
    : M Boot (list string) :=
  modify (λ s, {| bo_db := bo_db s; bo_mgr := bo_mgr s; bo_bootstrapped := [] |}) ;;
  catch
    (atomic (λ s0 s1, bo_set_db (bo_db s0) s1)
      (let! chs := gets (λ s, sealed_channels (bo_db s)) in
       if negb node_identity then ret tt
       else mfold (λ _, bootstrap_one now fresh) tt chs))
    (λ _, ret tt) ;;
  gets bo_bootstrapped.
End bootstrap.

(** ** Purging plaintext *)

Definition in_sealed (db : DB) (m : Message) : bool :=
  existsb (λ c, bool_decide (ch_id c = m_channel_id m)) (sealed_channels db).

Definition no_ciphertext (db : DB) (m : Message) : bool :=
  in_sealed db m && negb (bool_decide (is_Some (m_encrypted_body m))).
Definition leaked (db : DB) (m : Message) : bool :=
  in_sealed db m && bool_decide (is_Some (m_encrypted_body m)) && bool_decide (is_Some (m_body m)).

Definition nullify_row (m : Message) : Message := {|
  m_msg_hash := m_msg_hash m; m_channel_id := m_channel_id m; m_sender_hash := m_sender_hash m;
  m_seq := m_seq m; m_timestamp := m_timestamp m; m_type := m_type m; m_body := None;
  m_media_path := None; m_media_meta := m_media_meta m; m_reply_to := m_reply_to m;
  m_thread_seq := m_thread_seq m; m_ttl := m_ttl m; m_received_at := m_received_at m;
  m_deleted := m_deleted m; m_deleted_by := m_deleted_by m; m_pinned := m_pinned m;
  m_pinned_at := m_pinned_at m; m_edit_chain := m_edit_chain m; m_reactions := m_reactions m;
  m_lxmf_signature := m_lxmf_signature m; m_lxmf_signed_part := m_lxmf_signed_part m;
  m_display_name := m_display_name m; m_mentions := m_mentions m;
  m_origin_node := m_origin_node m; m_encrypted_body := m_encrypted_body m;
  m_encryption_nonce := m_encryption_nonce m; m_encryption_epoch := m_encryption_epoch m |}.

Definition purge_body : M DB Z :=
  let! db := get in
  if negb (list_true (sealed_channels db)) then ret 0
  else
    let! deleted := bulk_delete (no_ciphertext db) in
    let! db := get in
    let leaked_rows := List.filter (leaked db) (rows (messages db)) in
    when (list_true leaked_rows)
      (modify (set_messages (fmap (λ m, if leaked db m then nullify_row m else m)))) ;;
    ret (deleted + zlen leaked_rows).

Definition purge_plaintext_from_sealed_channels : M DB Z :=
  catch (atomic (λ s0 _, s0) purge_body) (λ _, ret 0).

Definition run_all `{E : Envelope} (node_hash : string) (now : float) (fresh : string → bytes)
    (node_identity : bool) : M Boot unit :=
  load_existing_keys node_hash ;;
  bootstrap_missing_keys node_hash now fresh node_identity ;;
  bo_op purge_plaintext_from_sealed_channels ;;
  ret tt.

(** ** What the purge leaves *)

Definition purge_row (db : DB) (m : Message) : option Message :=
  if in_sealed db m then
    if bool_decide (is_Some (m_encrypted_body m))
    then Some (if bool_decide (is_Some (m_body m)) then nullify_row m else m)
    else None
  else Some m.

Lemma in_sealed_keep db f m : in_sealed (set_messages f db) m = in_sealed db m.
Proof. done. Qed.

Lemma purge_messages db :
  (λ m, if leaked db m then nullify_row m else m)
    <$> base.filter (λ kv : string * Message, no_ciphertext db kv.2 = false) (messages db)
  = omap (purge_row db) (messages db).
Proof.
  apply map_eq. intros h. rewrite lookup_fmap, lookup_omap.
  destruct (messages db !! h) as [m|] eqn:E; simpl.
  - destruct (no_ciphertext db m) eqn:Ep.
    + assert (base.filter (λ kv : string * Message, no_ciphertext db kv.2 = false) (messages db) !! h = None) as ->.
      { apply map_lookup_filter_None. right. intros x Hx. simplify_eq. simpl. congruence. }
      unfold no_ciphertext, purge_row in *. apply andb_true_iff in Ep as [-> Ep%negb_true_iff]. by rewrite Ep.
    + assert (base.filter (λ kv : string * Message, no_ciphertext db kv.2 = false) (messages db) !! h = Some m) as ->.
      { by apply map_lookup_filter_Some. }
      unfold no_ciphertext, leaked, purge_row in *. simpl. destruct (in_sealed db m); simpl in *; [|done].
      apply negb_false_iff in Ep. by rewrite Ep.
  - assert (base.filter (λ kv : string * Message, no_ciphertext db kv.2 = false) (messages db) !! h = None) as ->; [|done].
    apply map_lookup_filter_None. by left.
Qed.

(** Nothing leaked, nothing to nullify. *)
Lemma no_leaked_id db (t : gmap string Message) : List.filter (leaked db) (rows t) = [] →
  (λ m, if leaked db m then nullify_row m else m) <$> t = t.
Proof.
  intros H. apply map_eq. intros h. rewrite lookup_fmap. destruct (t !! h) as [m|] eqn:E; [|done]. simpl.
  destruct (leaked db m) eqn:El; [|done]. exfalso.
  assert (m ∈ List.filter (leaked db) (rows t)) as Hin.
  { apply elem_of_filter_bool. split; [|done]. apply elem_of_rows. by exists h. }
  rewrite H in Hin. by apply elem_of_nil in Hin.
Qed.

Lemma unsealed_id db : sealed_channels db = [] → omap (purge_row db) (messages db) = messages db.
Proof.
  intros H. apply map_eq. intros h. rewrite lookup_omap. destruct (messages db !! h) as [m|]; [|done].
  simpl. unfold purge_row, in_sealed. by rewrite H.
Qed.

Lemma set_messages_id db : set_messages (λ _, messages db) db = db.
Proof. by destruct db. Qed.

Lemma bulk_delete_run P db :
  bulk_delete P db =
    if blocked P db then (Raise (Exn IntegrityError "FOREIGN KEY constraint failed"), db)
    else (Ok (Z.of_nat (matching P db)), set_messages (base.filter (λ kv, P kv.2 = false)) db).
Proof.
  unfold bulk_delete, bind, get, blocked. by destruct (existsb (thread_root db) (List.filter P (rows (messages db)))).
Qed.

Lemma purge_body_run db : sealed_channels db ≠ [] → blocked (no_ciphertext db) db = false →
  ∃ n, purge_body db = (Ok n, set_messages (omap (purge_row db)) db).
Proof.
  intros Hs Hb. unfold purge_body. rewrite (bind_run_ok get _ db db db) by done.
  destruct (sealed_channels db); [done|]. cbn [list_true negb].
  set (db1 := set_messages (base.filter (λ kv, no_ciphertext db kv.2 = false)) db).
  rewrite (bind_run_ok _ _ db (Z.of_nat (matching (no_ciphertext db) db)) db1) by (by rewrite bulk_delete_run, Hb).
  rewrite (bind_run_ok get _ db1 db1 db1) by done. change (leaked db1) with (leaked db).
  eexists. erewrite (bind_run_ok _ _ db1 tt); [reflexivity|].
  assert (∀ t, t = omap (purge_row db) (messages db) → set_messages (λ _, t) db = set_messages (omap (purge_row db)) db)
    as Hset by (intros t ->; done).
  destruct (List.filter (leaked db) (rows (messages db1))) eqn:E; cbn [list_true when].
  - unfold ret. apply f_equal2; [done|]. apply Hset. rewrite <- purge_messages. symmetry. exact (no_leaked_id db _ E).
  - unfold modify. apply f_equal2; [done|]. apply Hset, purge_messages.
Qed.

Lemma purge_run db :
  if blocked (no_ciphertext db) db then purge_plaintext_from_sealed_channels db = (Ok 0, db)
  else ∃ n, purge_plaintext_from_sealed_channels db = (Ok n, set_messages (omap (purge_row db)) db).
Proof.
  unfold purge_plaintext_from_sealed_channels, catch, atomic.
  destruct (sealed_channels db) eqn:Es.
  - assert (purge_body db = (Ok 0, db)) as ->.
    { unfold purge_body. rewrite (bind_run_ok get _ db db db) by done. by rewrite Es. }
    assert (blocked (no_ciphertext db) db = false) as ->.
    { apply not_true_iff_false. intros (m & [_ Hm]%list_elem_of_In%elem_of_filter_bool & _)%existsb_exists.
      unfold no_ciphertext, in_sealed in Hm. by rewrite Es in Hm. }
    exists 0. unfold set_messages. rewrite unsealed_id by done. by destruct db.
  - destruct (blocked (no_ciphertext db) db) eqn:Eb.
    + assert (purge_body db = (Raise (Exn IntegrityError "FOREIGN KEY constraint failed"), db)) as ->; [|done].
      unfold purge_body. rewrite (bind_run_ok get _ db db db) by done. rewrite Es. cbn [list_true negb].
      apply bind_run_raise. by rewrite bulk_delete_run, Eb.
    + destruct (purge_body_run db) as [n ->]; [by rewrite Es|done|]. by exists n.
Qed.

(** After the start-up purge every row left in a sealed channel has a
    ciphertext and no plaintext; rows of other channels are as they were, rows
    with both lose the plaintext and the media path, rows with no ciphertext at
    all are deleted (a message whose text was empty never got one). If one of
    these is the root of a thread, the purge gives up: it reports 0 and leaves
    the plaintext where it was. *)
Theorem purge_exact db :
  if blocked (no_ciphertext db) db then purge_plaintext_from_sealed_channels db = (Ok 0, db)
  else ∃ n db', purge_plaintext_from_sealed_channels db = (Ok n, db')
    ∧ messages db' = omap (purge_row db) (messages db)
    ∧ (∀ h m, messages db' !! h = Some m → in_sealed db' m = true →
         m_body m = None ∧ is_Some (m_encrypted_body m)).
Proof.
  pose proof (purge_run db) as H. destruct (blocked _ db); [done|]. destruct H as [n H].
  exists n, (set_messages (omap (purge_row db)) db). split_and!; [done|done|].
  intros h m. simpl. rewrite in_sealed_keep, lookup_omap. intros (m0 & E & Hm)%bind_Some Hs. unfold purge_row in Hm.
  destruct (in_sealed db m0) eqn:Es0; [|simplify_eq; congruence].
  case_bool_decide as Henc; [|done]. case_bool_decide as Hb; simplify_eq; [done|]. by rewrite <- eq_None_not_Some in Hb.
Qed.

(** ** The keys of a node across restarts *)

Section keys.
Context `{E : Envelope} (node_hash : string).

Definition node_rows (channel_id : string) (db : DB) : list SealedKey :=
  List.filter (λ k, bool_decide (sk_channel_id k = channel_id)
                    && bool_decide (sk_identity_hash k = node_hash)) (sealed_keys db).

Lemma newest_row_eq id db db' : node_rows id db = node_rows id db' →
  newest_row node_hash id db = newest_row node_hash id db'.
Proof using. unfold newest_row. fold (node_rows id db) (node_rows id db'). by intros ->. Qed.

Lemma newest_row_none id db : newest_row node_hash id db = None ↔ node_rows id db = [].
Proof using.
  unfold newest_row. fold (node_rows id db). split; [|by intros ->].
  pose proof (sort_by_length (λ a b, sk_epoch b <=? sk_epoch a) (node_rows id db)) as H.
  destruct (sort_by _ (node_rows id db)); [|done]. intros _. by destruct (node_rows id db).
Qed.

Lemma newest_row_single id db r : node_rows id db = [r] → newest_row node_hash id db = Some r.
Proof using. unfold newest_row. fold (node_rows id db). by intros ->. Qed.

Lemma newest_row_in id db r : newest_row node_hash id db = Some r → r ∈ node_rows id db.
Proof using.
  unfold newest_row. fold (node_rows id db). intros H.
  rewrite <- (sort_by_perm (λ a b, sk_epoch b <=? sk_epoch a) (node_rows id db)).
  unfold sql_limit, ztake in H. simpl in H. destruct (sort_by _ _); [done|]. simpl in H. simplify_eq. left.
Qed.

(** None of the node's rows has a higher epoch. *)
Lemma newest_row_max id db r x : newest_row node_hash id db = Some r → x ∈ node_rows id db → sk_epoch x ≤ sk_epoch r.
Proof using.
  unfold newest_row. fold (node_rows id db). rewrite <- (elem_of_sort_by (λ a b, sk_epoch b <=? sk_epoch a)).
  assert (StronglySorted (λ a b, (sk_epoch b <=? sk_epoch a) = true) (sort_by (λ a b, sk_epoch b <=? sk_epoch a) (node_rows id db))) as Hs
    by (apply sort_by_sorted; intros; lia).
  destruct (sort_by _ _) as [|y l]; [done|]. intros [= ->] Hx. apply StronglySorted_inv in Hs as [_ Hs].
  rewrite Forall_forall in Hs. apply elem_of_cons in Hx as [->|Hx]; [lia|]. specialize (Hs x Hx). lia.
Qed.

Lemma load_fold db chs acc id :
  _keys (foldl (load_one node_hash db) acc chs).2 !! id
  = match newest_row node_hash id db ≫= open_row with
    | Some i => if bool_decide (id ∈ ch_id <$> chs) then Some i else _keys acc.2 !! id
    | None => _keys acc.2 !! id
    end
  ∧ _previous_keys (foldl (load_one node_hash db) acc chs).2 = _previous_keys acc.2.
Proof using.
  revert acc. induction chs as [|c chs IH]; intros acc; csimpl; [by destruct (_ ≫= open_row)|].
  destruct (IH (load_one node_hash db acc c)) as [-> ->]. unfold load_one.
  destruct (newest_row node_hash (ch_id c) db ≫= open_row) as [i|] eqn:Ec; simpl.
  - split; [|done]. destruct (decide (id = ch_id c)) as [->|Hne].
    + rewrite Ec, lookup_insert_eq, (bool_decide_eq_true_2 (ch_id c ∈ ch_id c :: _)) by left. by destruct (bool_decide _).
    + rewrite lookup_insert_ne by done. destruct (_ ≫= open_row); [|done].
      erewrite (bool_decide_ext (id ∈ ch_id c :: _)); [done|]. rewrite elem_of_cons. tauto.
  - split; [|done]. destruct (decide (id = ch_id c)) as [->|Hne]; [by rewrite Ec|].
    destruct (_ ≫= open_row); [|done].
    erewrite (bool_decide_ext (id ∈ ch_id c :: _)); [done|]. rewrite elem_of_cons. tauto.
Qed.

(** The manager after [load_existing_keys]. *)
Definition loaded (db : DB) (mgr : SealedChannelManager.t) : SealedChannelManager.t :=
  (foldl (load_one node_hash db) (0, mgr) (sealed_channels db)).2.

Lemma load_existing_run s :
  ∃ n, load_existing_keys node_hash s
  = (Ok n, {| bo_db := bo_db s; bo_mgr := loaded (bo_db s) (bo_mgr s); bo_bootstrapped := bo_bootstrapped s |}).
Proof using.
  unfold load_existing_keys, bind, get, loaded. destruct (foldl _ _ _) as [n mgr]. by exists n.
Qed.

Lemma persist_run now id mgr i db : _keys mgr !! id = Some i → is_Some (channels db !! id) →
  persist_key now node_hash id mgr db = (Ok tt, set_sealed_keys (λ l, l ++ [{|
    sk_id := next_rowid l; sk_channel_id := id; sk_epoch := ki_epoch i;
    sk_encrypted_key_blob := env_encrypt (ki_key i); sk_identity_hash := node_hash;
    sk_created_at := now |}]) db).
Proof using.
  intros Hi Hc. unfold persist_key, check_fk, bind, get, modify. rewrite Hi. by rewrite bool_decide_eq_true_2.
Qed.

Section missing.
Context (now : float) (fresh : string → bytes).

(** A key generated at startup has the first epoch. *)
Definition first_key (id : string) : key_info := {| ki_key := fresh id; ki_epoch := 1 |}.
Definition first_row (id : string) (r : SealedKey) : Prop :=
  sk_channel_id r = id ∧ sk_identity_hash r = node_hash ∧ sk_epoch r = 1
  ∧ sk_encrypted_key_blob r = env_encrypt (fresh id).

(** What generating the missing keys does to the key and the rows of a channel. *)
Definition provisioned (s s' : Boot) (id : string) (missing : bool) : Prop :=
  _keys (bo_mgr s') !! id = (if missing then Some (first_key id) else _keys (bo_mgr s) !! id)
  ∧ ∃ rs, node_rows id (bo_db s') = node_rows id (bo_db s) ++ rs
    ∧ if missing then ∃ r, rs = [r] ∧ first_row id r else rs = [].

Lemma bootstrap_one_run c s : channels (bo_db s) !! ch_id c = Some c →
  ∃ s', bootstrap_one node_hash now fresh c s = (Ok tt, s')
  ∧ channels (bo_db s') = channels (bo_db s) ∧ _previous_keys (bo_mgr s') = _previous_keys (bo_mgr s)
  ∧ ∀ id, provisioned s s' id (bool_decide (id = ch_id c ∧ _keys (bo_mgr s) !! id = None)).
Proof using.
  intros Hc. unfold bootstrap_one. rewrite (bind_run_ok (gets bo_mgr) _ s (bo_mgr s) s) by done.
  unfold get_key. destruct (_keys (bo_mgr s) !! ch_id c) as [i|] eqn:Ek; simpl.
  { exists s. split_and!; [done..|]. intros id. rewrite bool_decide_eq_false_2 by (intros [-> ?]; congruence).
    split; [done|]. exists []. by rewrite app_nil_r. }
  set (mgr := (generate_key (fresh (ch_id c)) (ch_id c) (bo_mgr s)).2).
  assert (_keys mgr = <[ch_id c := first_key (ch_id c)]> (_keys (bo_mgr s))) as Hmgr.
  { unfold mgr, generate_key. simpl. by rewrite Ek. }
  eexists. split.
  { unfold bind, modify, gets, bo_op, lift. cbn [bo_mgr bo_db]. fold mgr.
    rewrite (persist_run now (ch_id c) mgr (first_key (ch_id c)));
      [reflexivity|by rewrite Hmgr, lookup_insert_eq|by eexists]. }
  split_and!; [done|done|]. intros id. unfold provisioned. simpl. rewrite Ek. clear mgr Hmgr.
  unfold node_rows. simpl. rewrite List.filter_app. simpl.
  destruct (decide (id = ch_id c)) as [->|Hne].
  - rewrite lookup_insert_eq, !(bool_decide_eq_true_2 (_ = _)), bool_decide_eq_true_2 by done. simpl.
    split; [done|]. eexists. split; [done|]. eexists. split; [done|]. done.
  - rewrite lookup_insert_ne, (bool_decide_eq_false_2 (ch_id c = id)), bool_decide_eq_false_2 by naive_solver.
    split; [done|]. eexists. split; [reflexivity|done].
Qed.

Lemma bootstrap_fold chs s :
  NoDup (ch_id <$> chs) → (∀ c, c ∈ chs → channels (bo_db s) !! ch_id c = Some c) →
  ∃ s', mfold (λ _, bootstrap_one node_hash now fresh) tt chs s = (Ok tt, s')
  ∧ channels (bo_db s') = channels (bo_db s) ∧ _previous_keys (bo_mgr s') = _previous_keys (bo_mgr s)
  ∧ ∀ id, provisioned s s' id (bool_decide (id ∈ ch_id <$> chs ∧ _keys (bo_mgr s) !! id = None)).
Proof using.
  revert s. induction chs as [|c chs IH]; csimpl; intros s Hnd Hc.
  { exists s. split_and!; [done..|]. intros id. 
    split; [done|]. exists []. by rewrite app_nil_r. }
  apply NoDup_cons in Hnd as [Hn Hnd].
  destruct (bootstrap_one_run c s) as (s1 & E1 & Hch & Hms & H1); [apply Hc; left|].
  destruct (IH s1 Hnd) as (s2 & E2 & Hch2 & Hms2 & H2); [intros c' Hc'; rewrite Hch; apply Hc; by right|].
  exists s2. split_and!; [by rewrite (bind_run_ok _ _ _ _ _ E1)|congruence|congruence|].
  intros id. destruct (H1 id) as (K1 & rs1 & R1 & F1), (H2 id) as (K2 & rs2 & R2 & F2).
  destruct (decide (id = ch_id c)) as [->|Hne].
  - rewrite (bool_decide_eq_false_2 (_ ∈ _ ∧ _)) in K2, F2 by tauto. subst rs2. rewrite app_nil_r in R2.
    assert (bool_decide (ch_id c ∈ ch_id c :: (ch_id <$> chs) ∧ _keys (bo_mgr s) !! ch_id c = None)
      = bool_decide (ch_id c = ch_id c ∧ _keys (bo_mgr s) !! ch_id c = None)) as ->.
    { apply bool_decide_ext. rewrite elem_of_cons. tauto. }
    split; [by rewrite K2, K1|exists rs1; split; [by rewrite R2|exact F1]].
  - rewrite (bool_decide_eq_false_2 (id = ch_id c ∧ _)) in K1, F1 by tauto. subst rs1. rewrite app_nil_r in R1.
    assert (bool_decide (id ∈ ch_id c :: (ch_id <$> chs) ∧ _keys (bo_mgr s) !! id = None)
      = bool_decide (id ∈ ch_id <$> chs ∧ _keys (bo_mgr s1) !! id = None)) as ->.
    { apply bool_decide_ext. rewrite K1, elem_of_cons. tauto. }
    split; [by rewrite <- K1|exists rs2; split; [by rewrite R2, R1|exact F2]].
Qed.
End missing.

Lemma sealed_in id c db : (∀ id c, channels db !! id = Some c → ch_id c = id) →
  channels db !! id = Some c → ch_sealed c = true → id ∈ ch_id <$> sealed_channels db.
Proof using.
  intros Hk Hc Hs. rewrite <- (Hk id c Hc). apply list_elem_of_fmap_2. apply elem_of_filter_bool.
  split; [|done]. apply elem_of_rows. by exists id.
Qed.

Lemma sealed_channels_nodup db : (∀ id c, channels db !! id = Some c → ch_id c = id) →
  NoDup (ch_id <$> sealed_channels db).
Proof using.
  intros Hk. apply sublist_NoDup with (l2 := ch_id <$> rows (channels db)).
  - assert (ch_id <$> rows (channels db) = (map_to_list (channels db)).*1) as ->; [|apply NoDup_fst_map_to_list].
    unfold rows. rewrite <- list_fmap_compose. apply list_fmap_ext. intros i [h c] Hi. simpl.
    apply Hk. by apply elem_of_map_to_list, list_elem_of_lookup_2 with i.
  - apply fmap_sublist, filter_sublist.
Qed.

(** A run of the three phases always ends, with the keys of every sealed
    channel in memory, and the same channels. *)
Lemma run_all_run now fresh s : (∀ id c, channels (bo_db s) !! id = Some c → ch_id c = id) →
  let s0 := {| bo_db := bo_db s; bo_mgr := loaded (bo_db s) (bo_mgr s); bo_bootstrapped := [] |} in
  ∃ s', run_all node_hash now fresh true s = (Ok tt, s')
  ∧ channels (bo_db s') = channels (bo_db s)
  ∧ _previous_keys (bo_mgr s') = _previous_keys (bo_mgr s)
  ∧ ∀ id, provisioned fresh s0 s' id
      (bool_decide (id ∈ ch_id <$> sealed_channels (bo_db s) ∧ _keys (bo_mgr s0) !! id = None)).
Proof using.
  intros Hk s0. unfold run_all. destruct (load_existing_run s) as [n En]. rewrite (bind_run_ok _ _ _ _ _ En).
  destruct (bootstrap_fold now fresh (sealed_channels (bo_db s)) s0) as (s1 & E1 & Hch & Hpr & H1).
  { by apply sealed_channels_nodup. }
  { intros c [[id Hc]%elem_of_rows _]%elem_of_filter_bool. by rewrite (Hk id c Hc). }
  set (sl := {| bo_db := bo_db s; bo_mgr := loaded (bo_db s) (bo_mgr s); bo_bootstrapped := bo_bootstrapped s |}).
  assert (bootstrap_missing_keys node_hash now fresh true sl = (Ok (bo_bootstrapped s1), s1)) as E2.
  { unfold bootstrap_missing_keys. rewrite (bind_run_ok (modify _) _ sl tt s0) by done.
    rewrite (bind_run_ok _ _ s0 tt s1); [done|]. unfold catch, atomic.
    rewrite (bind_run_ok (gets _) _ s0 (sealed_channels (bo_db s)) s0) by done. cbn [negb]. by rewrite E1. }
  rewrite (bind_run_ok _ _ _ _ _ E2). unfold bo_op, lift, bind at 1.
  pose proof (purge_run (bo_db s1)) as Hp.
  assert (∃ n f, purge_plaintext_from_sealed_channels (bo_db s1) = (Ok n, set_messages f (bo_db s1))) as (m & f & ->).
  { destruct (blocked _ _); [|by destruct Hp as [m ->]; eexists; eexists].
    exists 0, (λ _, messages (bo_db s1)). by rewrite set_messages_id, Hp. }
  eexists. split_and!; [reflexivity|exact Hch| |].
  - simpl. rewrite Hpr. unfold s0, loaded. simpl. apply (load_fold (bo_db s) _ (0, bo_mgr s) "").
  - intros id. exact (H1 id).
Qed.

(** What a start loads for a sealed channel from an empty manager. *)
Lemma loaded_sealed id db : id ∈ ch_id <$> sealed_channels db →
  _keys (loaded db init) !! id = newest_row node_hash id db ≫= open_row.
Proof using.
  intros Hin. destruct (load_fold db (sealed_channels db) (0, init) id) as [H _]. fold (loaded db init) in H.
  rewrite H, bool_decide_eq_true_2 by done. simpl. rewrite lookup_empty. by destruct (_ ≫= open_row).
Qed.

(** C28: The group keys of a node survive restarts.  A start of a node with its
    identity, from an empty manager, ends with a key for every sealed channel.
    When the newest row of the channel decrypts, or there is none, another
    start on the database this one leaves loads exactly the same key: the
    stored one, or the one generated now.  When the newest row does not
    decrypt, a new key of the first epoch is generated; if no row of its epoch
    decrypts and it was above the first, the next start loads none: the new
    key is lost. *)
Theorem restart_keeps_keys {HE : EnvelopeLaws E} now fresh s :
  bo_mgr s = init → (∀ id c, channels (bo_db s) !! id = Some c → ch_id c = id) →
  ∃ s', run_all node_hash now fresh true s = (Ok tt, s')
  ∧ ∀ id c, channels (bo_db s) !! id = Some c → ch_sealed c = true →
    match newest_row node_hash id (bo_db s) with
    | None => _keys (bo_mgr s') !! id = Some (first_key fresh id)
              ∧ _keys (loaded (bo_db s') init) !! id = Some (first_key fresh id)
    | Some r =>
        match open_row r with
        | Some i => _keys (bo_mgr s') !! id = Some i ∧ _keys (loaded (bo_db s') init) !! id = Some i
        | None => _keys (bo_mgr s') !! id = Some (first_key fresh id)
                  ∧ (1 < sk_epoch r →
                     (∀ x, x ∈ node_rows id (bo_db s) → sk_epoch x = sk_epoch r → open_row x = None) →
                     _keys (loaded (bo_db s') init) !! id = None)
        end
    end.
Proof using.
  intros Hm Hk. destruct (run_all_run now fresh s Hk) as (s' & Er & Hch & _ & Hp). exists s'. split; [done|].
  intros id c Hc Hs. destruct (Hp id) as (Hkey & rs & Hrows & Hrs).
  destruct s as [db mgr bl]. simpl in *. subst mgr.
  pose proof (sealed_in id c db Hk Hc Hs) as Hin.
  assert (Hin' : id ∈ ch_id <$> sealed_channels (bo_db s')) by (unfold sealed_channels; by rewrite Hch).
  pose proof (loaded_sealed id db Hin) as Hload. rewrite (loaded_sealed id (bo_db s') Hin'). clear Hin'.
  destruct (newest_row node_hash id db) as [r|] eqn:Er0; [destruct (open_row r) as [i|] eqn:Eo|];
    simpl in Hload; rewrite ?Eo in Hload; rewrite Hload in Hkey, Hrs.
  - rewrite bool_decide_eq_false_2 in Hkey, Hrs by (by intros [_ ?]). subst rs. rewrite app_nil_r in Hrows.
    split; [exact Hkey|]. by rewrite (newest_row_eq id _ db Hrows), Er0.
  - rewrite bool_decide_eq_true_2 in Hkey, Hrs by done. destruct Hrs as (y & -> & _ & _ & Hep & _).
    split; [exact Hkey|]. intros Hlt Hnone. destruct (newest_row node_hash id (bo_db s')) as [x|] eqn:Ex; [|done]. simpl.
    pose proof (newest_row_in _ _ _ Er0) as Hr. pose proof (newest_row_in _ _ _ Ex) as Hx. rewrite Hrows in Hx.
    assert (sk_epoch r ≤ sk_epoch x) by (apply (newest_row_max id _ _ _ Ex); rewrite Hrows; set_solver).
    apply elem_of_app in Hx as [Hx| ->%list_elem_of_singleton]; [|lia].
    apply Hnone; [done|]. pose proof (newest_row_max id _ _ _ Er0 Hx). lia.
  - rewrite bool_decide_eq_true_2 in Hkey, Hrs by done. destruct Hrs as (y & -> & _ & _ & Hep & Hblob).
    apply newest_row_none in Er0. rewrite Er0 in Hrows. split; [exact Hkey|].
    rewrite (newest_row_single _ _ _ Hrows). simpl. unfold open_row. by rewrite Hblob, env_roundtrip, Hep.
Qed.

(** A start loads only the newest key of each channel: on a manager that
    comes up fresh, a message stored under any other epoch is refused with
    [SealedChannelError], however many earlier keys the database still holds. *)
Theorem restart_forgets_epochs `{A : Aead} now fresh s id nonce ct e :
  bo_mgr s = init → (∀ id c, channels (bo_db s) !! id = Some c → ch_id c = id) →
  ∃ s', run_all node_hash now fresh true s = (Ok tt, s')
  ∧ (get_epoch id (bo_mgr s') ≠ e → ∃ msg, decrypt id nonce ct (Some e) (bo_mgr s') = Raise (Exn SealedChannelError msg)).
Proof using.
  intros Hm Hk. destruct (run_all_run now fresh s Hk) as (s' & Er & _ & Hp & _). exists s'. split; [done|].
  unfold get_epoch, decrypt, key_for. destruct (_keys (bo_mgr s') !! id) as [i|]; [|by eexists].
  intros He. rewrite (proj2 (Z.eqb_neq e (ki_epoch i))) by congruence.
  rewrite Hp, Hm. simpl. by eexists.
Qed.
End keys.

(** ** Witnesses *)

Definition boot_row (ch : string) (e : Z) (b : bytes) : SealedKey := {|
  sk_id := e; sk_channel_id := ch; sk_epoch := e; sk_encrypted_key_blob := b;
  sk_identity_hash := "n"; sk_created_at := fz 0 |}.
Definition toy_env : Envelope := {| env_encrypt p := 9 :: p; env_decrypt c := match c with 9 :: p => Some p | _ => None end |}.
Lemma toy_env_laws : EnvelopeLaws toy_env.
Proof. by split. Qed.

(** A channel with two persisted epochs, one with none, and one whose newest
    row does not decrypt. *)
Definition boot_db : DB :=
  set_sealed_keys (λ _, [boot_row "c" 1 [9; 1]; boot_row "c" 2 [9; 2]; boot_row "e" 2 [0]])
    (demo_db [demo_channel "c" ACCESS_PRIVATE true; demo_channel "d" ACCESS_PRIVATE true; demo_channel "e" ACCESS_PRIVATE true]).
Definition boot0 : Boot := {| bo_db := boot_db; bo_mgr := init; bo_bootstrapped := [] |}.

Lemma boot_keyed id c : channels (bo_db boot0) !! id = Some c → ch_id c = id.
Proof.
  simpl. intros [[<- <-]|[_ [[<- <-]|[_ [[<- <-]|[_ H]]%lookup_insert_Some]]%lookup_insert_Some]]%lookup_insert_Some;
    [done..|by rewrite lookup_empty in H].
Qed.

Lemma restart_keeps_keys_witness :
  ∃ s', @run_all toy_env "n" (fz 1) (λ _, [5]) true boot0 = (Ok tt, s')
  ∧ _keys (@loaded toy_env "n" (bo_db s') init) !! "c" = Some {| ki_key := [2]; ki_epoch := 2 |}
  ∧ _keys (@loaded toy_env "n" (bo_db s') init) !! "d" = Some {| ki_key := [5]; ki_epoch := 1 |}
  ∧ _keys (bo_mgr s') !! "e" = Some {| ki_key := [5]; ki_epoch := 1 |}
  ∧ _keys (@loaded toy_env "n" (bo_db s') init) !! "e" = None.
Proof.
  destruct (@restart_keeps_keys toy_env "n" toy_env_laws (fz 1) (λ _, [5]) boot0 eq_refl boot_keyed) as (s' & Hr & H).
  exists s'. split; [exact Hr|].
  pose proof (H "c" _ eq_refl eq_refl) as Hc. pose proof (H "d" _ eq_refl eq_refl) as Hd. pose proof (H "e" _ eq_refl eq_refl) as He.
  assert (newest_row "n" "c" (bo_db boot0) = Some (boot_row "c" 2 [9; 2])) as E by (vm_compute; reflexivity). rewrite E in Hc.
  assert (newest_row "n" "d" (bo_db boot0) = None) as E2 by (vm_compute; reflexivity). rewrite E2 in Hd.
  assert (newest_row "n" "e" (bo_db boot0) = Some (boot_row "e" 2 [0])) as E3 by (vm_compute; reflexivity). rewrite E3 in He.
  split; [exact (proj2 Hc)|]. split; [exact (proj2 Hd)|]. split; [exact (proj1 He)|].
  apply (proj2 He); [reflexivity|]. intros x Hx _.
  assert (node_rows "n" "e" (bo_db boot0) = [boot_row "e" 2 [0]]) as E4 by (vm_compute; reflexivity). rewrite E4 in Hx.
  apply list_elem_of_singleton in Hx as ->. reflexivity.
Defined.

Lemma restart_forgets_epochs_witness :
  ∃ s', @run_all toy_env "n" (fz 1) (λ _, [5]) true boot0 = (Ok tt, s')
  ∧ (get_epoch "c" (bo_mgr s') ≠ 1 → ∃ msg, @decrypt toy_aead "c" [] [] (Some 1) (bo_mgr s')
       = Raise (Exn SealedChannelError msg)).
Proof.
  exact (@restart_forgets_epochs toy_env "n" toy_aead (fz 1) (λ _, [5]) boot0 "c" [] [] 1 eq_refl boot_keyed).
Defined.
