(* ===== verification/Roles.v ===== *)
(** * Roles and the distribution of sealed keys ([hokora/security/roles.py],
      [security/sealed.py], [cli/role.py], [federation/peering.py],
      [core/maintenance_scheduler.py])

    [RoleManager] with its hierarchy checks; the operator's [role assign] and
    [role revoke] commands; the hand-over of a sealed channel's group key to a
    member, at once or when the member is next heard of; and the rotation of
    old keys by the maintenance pass.

    A peer's identity is what RNS recalls for a hash: a destination hash, or an
    identity hash when asked with [from_identity_hash=True]. *)

From S2P Require Import Prelude Constants Models Queries Permissions RateLimit Ban Sealed Sequencer Message Ingest Wire History Live Media Maintenance Bootstrap.

Import SealedChannelManager.

(** RNS: identities named by their hash, recalled from the path cache. *)
Class PeerKeys := {
  peer_recall : bool → bytes → option string;    (* from_identity_hash, hash *)
  peer_encrypt : string → bytes → bytes;
  peer_decrypt : string → bytes → option bytes;
}.

Class PeerKeysLaws (P : PeerKeys) : Prop := {
  peer_roundtrip : ∀ i p, peer_decrypt i (peer_encrypt i p) = Some p;
  peer_recall_hash : ∀ h i, peer_recall true h = Some i → i = string_of (hex h);
}.

Definition SEALED_KEY_ROTATION_DAYS : Z := 30.

(** ** Handing over the key *)

Section distribution.
Context `{E : Envelope} `{PK : PeerKeys} `{HP : Msgpack} (node_hash : string).

(** A path request and the polling that follows are RNS's: what counts is
    whether the identity is recalled within the wait. *)
Definition load_peer_rns_identity (identity_hash : string) : res string :=
  match fromhex (chars_of identity_hash) with
  | None => Raise (Exn SealedKeyDistributionDeferred "Invalid identity_hash")
  | Some target =>
      match peer_recall true target with
      | Some ident => Ok ident
      | None => Raise (Exn SealedKeyDistributionDeferred "Peer not in RNS path cache after path request")
      end
  end.

Definition distribute_sealed_key_to_identity (now : float) (channel_id identity_hash : string) : M DB unit :=
  let! owner_key := gets (newest_row node_hash channel_id) in
  match owner_key with
  | None => raise RuntimeError "No node-owner SealedKey"
  | Some owner_key =>
      match env_decrypt (sk_encrypted_key_blob owner_key) with
      | None => raise CryptoError "decrypt"
      | Some group_key =>
          let! peer_identity := of_res (load_peer_rns_identity identity_hash) in
          check_fk channels channel_id ;;
          modify (set_sealed_keys (λ l, l ++ [{|
            sk_id := next_rowid l; sk_channel_id := channel_id; sk_epoch := sk_epoch owner_key;
            sk_encrypted_key_blob := peer_encrypt peer_identity group_key;
            sk_identity_hash := identity_hash; sk_created_at := now |}]))
      end
  end.

(** [distribute_key]: what each member is sent, and whether it was. The member's
    hash is looked up as a destination hash. *)
Definition distribute_one (channel_id : string) (i : key_info) (member_hash : string) : option (string * bytes) :=
  match fromhex (chars_of member_hash) ≫= peer_recall false with
  | None => None
  | Some ident =>
      match packb (VDict [("type", VStr "sealed_key"); ("channel_id", VStr channel_id);
                          ("epoch", VInt (ki_epoch i)); ("encrypted_key", VBytes (peer_encrypt ident (ki_key i)))]) with
      | Some payload => Some (ident, payload)
      | None => None
      end
  end.

Definition distribute_key (channel_id : string) (member_hashes : list string) (mgr : SealedChannelManager.t)
    : res (list (string * bytes) * list (string * bool)) :=
  match _keys mgr !! channel_id with
  | None => Raise (Exn SealedChannelError "No key for channel")
  | Some i =>
      Ok (omap (distribute_one channel_id i) member_hashes,
          map (λ h, (h, bool_decide (is_Some (distribute_one channel_id i h)))) member_hashes)
  end.
End distribution.

(** ** Roles *)

Record KeyState := {
  ks_db : DB;
  ks_mgr : SealedChannelManager.t;
  ks_sent : list (string * bytes);       (* LXMF messages handed to the router *)
}.
Definition ks_set_db (db : DB) (s : KeyState) : KeyState :=
  {| ks_db := db; ks_mgr := ks_mgr s; ks_sent := ks_sent s |}.
Definition ks_op {A} (m : M DB A) : M KeyState A := lift ks_db ks_set_db m.

Section rotation.
Context `{E : Envelope} `{PK : PeerKeys} `{HP : Msgpack} (node_hash : string).

Definition rotate_and_distribute (fresh : bytes) (channel_id : string) (member_hashes : list string)
    : M KeyState unit :=
  modify (λ s, {| ks_db := ks_db s; ks_mgr := (rotate_key fresh channel_id (ks_mgr s)).2; ks_sent := ks_sent s |}) ;;
  let! mgr := gets ks_mgr in
  let! (sent, _) := of_res (distribute_key channel_id member_hashes mgr) in
  modify (λ s, {| ks_db := ks_db s; ks_mgr := ks_mgr s; ks_sent := ks_sent s ++ sent |}).

(** [MaintenanceScheduler._check_sealed_key_rotation]: the newest key row of
    each sealed channel, whoever it is for. [router] tells whether the bridge
    has an LXMF router for a channel. *)
Definition latest_key (channel_id : string) (db : DB) : option SealedKey :=
  head (sql_limit 1 (sort_by (λ a b, fle (sk_created_at b) (sk_created_at a))
    (List.filter (λ k, bool_decide (sk_channel_id k = channel_id)) (sealed_keys db)))).

Definition stale_key (now : float) (channel_id : string) (db : DB) : bool :=
  match latest_key channel_id db with
  | None => false
  | Some k => flt (sk_created_at k) (now - fz (SEALED_KEY_ROTATION_DAYS * 86400))%F
  end.

Definition rotate_stale (now : float) (fresh : string → bytes) (router : string → bool) (ch : Channel)
    : M KeyState unit :=
  let! db := gets ks_db in
  if negb (stale_key now (ch_id ch) db) then ret tt
  else
    let member_hashes := RoleRepo.get_channel_member_hashes (ch_id ch) db in
    if negb (list_true member_hashes) then ret tt
    else if negb (router (ch_id ch)) then ret tt
    else
      rotate_and_distribute (fresh (ch_id ch)) (ch_id ch) member_hashes ;;
      let! mgr := gets ks_mgr in
      ks_op (persist_key now node_hash (ch_id ch) mgr).

(** One transaction: a failure undoes the rows, not the keys in memory. *)
Definition _check_sealed_key_rotation (now : float) (fresh : string → bytes) (router : string → bool)
    : M KeyState unit :=
  atomic (λ s0 s, ks_set_db (ks_db s0) s)
    (let! chs := gets (λ s, sealed_channels (ks_db s)) in
     mfold (λ _, rotate_stale now fresh router) tt chs).
End rotation.

Module RoleManager.

(** [BUILTIN_ROLES]: name, permissions, position, colour. *)
Definition BUILTIN_ROLES : list (string * (Z * Z * string)) :=
  [(ROLE_NODE_OWNER, (PERM_ALL, 1000, "#FF0000"));
   (ROLE_CHANNEL_OWNER, (PERM_ALL, 999, "#FFA500"));
   (ROLE_EVERYONE, (PERM_EVERYONE_DEFAULT, 0, "#FFFFFF"));
   (ROLE_MEMBER, (PERM_EVERYONE_DEFAULT, 1, "#FFFFFF"))].

Definition refresh (perms pos : Z) (r : Role) : Role := {|
  role_id := role_id r; role_name := role_name r; role_permissions := perms; role_position := pos;
  role_colour := role_colour r; role_mentionable := role_mentionable r; role_is_builtin := role_is_builtin r |}.

Definition ensure_one (uuid : string → string) (b : string * (Z * Z * string)) : M DB unit :=
  let '(name, (perms, pos, colour)) := b in
  let! existing := gets (RoleRepo.get_by_name name) in
  match existing with
  | None =>
      RoleRepo.create {| role_id := uuid name; role_name := name; role_permissions := perms;
                         role_position := pos; role_colour := colour; role_mentionable := false;
                         role_is_builtin := true |} ;;
      ret tt
  | Some r =>
      if role_is_builtin r && negb (role_permissions r =? perms)
      then modify (set_roles (alter (refresh perms pos) (role_id r)))
      else ret tt
  end.

Definition ensure_builtin_roles (uuid : string → string) : M DB unit :=
  mfold (λ _, ensure_one uuid) tt BUILTIN_ROLES.

Definition create_role (uuid name : string) (permissions position : Z) (actor_position : option Z) : M DB Role :=
  if dict_has name BUILTIN_ROLES then raise PermissionDenied "Cannot create role with built-in name"
  else if match actor_position with Some p => p <=? position | None => false end
  then raise PermissionDenied "Cannot create role at or above your own position"
  else RoleRepo.create {| role_id := uuid; role_name := name; role_permissions := permissions;
                          role_position := position; role_colour := "#FFFFFF"; role_mentionable := false;
                          role_is_builtin := false |}.

Definition assign_role (now : float) (rid ident : string) (cid assigned_by : option string)
    (actor_position : option Z) : M DB RoleAssignment :=
  let! role := gets (RoleRepo.get_by_id rid) in
  match role with
  | None => raise PermissionDenied "Role not found"
  | Some r =>
      if match actor_position with Some p => p <=? role_position r | None => false end
      then raise PermissionDenied "Cannot assign role at or above your own position"
      else RoleRepo.assign_role now rid ident cid assigned_by
  end.

(** The [WHERE] clause of a removal: an empty or missing channel is the node. *)
Definition grant_of (rid ident : string) (cid : option string) (a : RoleAssignment) : bool :=
  RoleRepo.same_grant rid ident (if ostr_true cid then cid else None) a.

(** [remaining]: those with a role in the channel, other than the one removed. *)
Definition remaining_members (channel_id ident : string) (db : DB) : list string :=
  map ra_identity_hash (List.filter (λ a, bool_decide (ra_channel_id a = Some channel_id)
    && negb (bool_decide (ra_identity_hash a = ident))) (role_assignments db)).

Definition remove_role `{PK : PeerKeys} `{HP : Msgpack} (fresh : bytes) (rid ident : string) (cid : option string)
    (sealed_manager router_and_identity : bool) : M KeyState bool :=
  let! db := gets ks_db in
  let! assignment := ks_op (scalar_one_or_none (List.filter (grant_of rid ident cid) (role_assignments db))) in
  match assignment with
  | None => ret false
  | Some a =>
      ks_op (modify (set_role_assignments (List.filter (λ b, negb (ra_id b =? ra_id a))))) ;;
      let! db := gets ks_db in
      when (ostr_true cid && sealed_manager && match channels db !! or_empty cid with
                                               | Some ch => ch_sealed ch | None => false end)
        (if router_and_identity
         then rotate_and_distribute fresh (or_empty cid) (remaining_members (or_empty cid) ident db)
         else modify (λ s, {| ks_db := ks_db s; ks_mgr := (rotate_key fresh (or_empty cid) (ks_mgr s)).2;
                              ks_sent := ks_sent s |})) ;;
      ret true
  end.
End RoleManager.

(** ** The operator's commands *)

Section cli.
Context `{E : Envelope} `{PK : PeerKeys} (node_hash : string).

(** What [role assign] reports. *)
Inductive assign_report := RoleNotFound | Assigned | KeyDistributed | KeyQueued | KeyFailed (e : exn).

Definition assign_sealed (now : float) (rid identity_hash channel_id : string) : M DB assign_report :=
  let! db := get in
  let! existing := scalar_one_or_none
    (List.filter (λ k, bool_decide (sk_channel_id k = channel_id) && bool_decide (sk_identity_hash k = identity_hash))
       (sealed_keys db)) in
  match existing with
  | Some _ => ret Assigned
  | None =>
      catch (distribute_sealed_key_to_identity node_hash now channel_id identity_hash ;; ret KeyDistributed)
        (λ e, if bool_decide (exn_cls e = SealedKeyDistributionDeferred)
              then PendingSealedDistributionRepo.enqueue now channel_id identity_hash rid ;; ret KeyQueued
              else ret (KeyFailed e))
  end.

Definition _assign_role (now : float) (role_name identity_hash : string) (channel_id : option string)
    : M DB assign_report :=
  atomic (λ s0 _, s0)
    (let! role := gets (RoleRepo.get_by_name role_name) in
     match role with
     | None => ret RoleNotFound
     | Some r =>
         IdentityRepo.upsert now identity_hash id ;;
         RoleManager.assign_role now (role_id r) identity_hash channel_id None None ;;
         let! db := get in
         match channel_id with
         | Some c =>
             if str_true c && match channels db !! c with Some ch => ch_sealed ch | None => false end
             then assign_sealed now (role_id r) identity_hash c
             else ret Assigned
         | None => ret Assigned
         end
     end).

Definition _revoke_role (role_name identity_hash : string) (channel_id : option string) : M DB (option Z) :=
  atomic (λ s0 _, s0)
    (let! role := gets (RoleRepo.get_by_name role_name) in
     match role with
     | None => ret None
     | Some r =>
         let! db := get in
         let assignments := List.filter (RoleManager.grant_of (role_id r) identity_hash channel_id) (role_assignments db) in
         modify (set_role_assignments (List.filter (λ a, negb (RoleManager.grant_of (role_id r) identity_hash channel_id a)))) ;;
         modify (set_pending_sealed_distributions (List.filter (λ p,
           negb (bool_decide (psd_role_id p = role_id r) && bool_decide (psd_identity_hash p = identity_hash)
                 && (negb (ostr_true channel_id) || bool_decide (Some (psd_channel_id p) = channel_id)))))) ;;
         ret (Some (zlen assignments))
     end).

(** ** Draining the queue when a peer announces *)

Context (repr : exn → string).

Definition drain_tx (now : float) (identity_hash : string) (entry : PendingSealedDistribution) : M DB unit :=
  let! db := get in
  let! ra := scalar_one_or_none (List.filter
    (RoleRepo.same_grant (psd_role_id entry) identity_hash (Some (psd_channel_id entry))) (role_assignments db)) in
  match ra with
  | None => PendingSealedDistributionRepo.evict (psd_id entry)
  | Some _ =>
      distribute_sealed_key_to_identity node_hash now (psd_channel_id entry) identity_hash ;;
      PendingSealedDistributionRepo.evict (psd_id entry)
  end.

Definition drain_entry (now : float) (identity_hash : string) (entry : PendingSealedDistribution) : M DB unit :=
  if MAX_PENDING_DISTRIBUTION_RETRIES <=? psd_retry_count entry then ret tt
  else
    catch (atomic (λ s0 _, s0) (drain_tx now identity_hash entry))
      (λ e, PendingSealedDistributionRepo.increment_retry now (psd_id entry)
              (if bool_decide (exn_cls e = SealedKeyDistributionDeferred) then exn_msg e else repr e)).

Definition _drain_pending_sealed_distributions (now : float) (identity_hash : string) : M DB unit :=
  let! entries := gets (PendingSealedDistributionRepo.list_for_identity identity_hash) in
  mfold (λ _, drain_entry now identity_hash) tt entries.
End cli.

(** ** The rotation of stale keys *)

Section stale.
Context `{E : Envelope} `{PK : PeerKeys} `{HP : Msgpack} (node_hash : string) (router : string → bool).

(** Two managers with the same keys for a channel. *)
Definition same_at (ch : string) (s s' : SealedChannelManager.t) : Prop :=
  _keys s' !! ch = _keys s !! ch ∧ _previous_keys s' !! ch = _previous_keys s !! ch.

#[local] Instance same_at_equiv ch : Equivalence (same_at ch).
Proof using.
  split; [by split|by intros s s' [H1 H2]; split|].
  intros s1 s2 s3 [H1 H2] [H3 H4]. split; congruence.
Qed.

Lemma rotate_same_at ch f s s' : same_at ch s s' → same_at ch (rotate_key f ch s).2 (rotate_key f ch s').2.
Proof using.
  intros [H1 H2]. unfold rotate_key, same_at. rewrite H1. destruct (_keys s !! ch) as [i|] eqn:Ek; simpl.
  - rewrite !lookup_insert_eq. simpl. by rewrite H1, H2, Ek.
  - rewrite !lookup_insert_eq, H2, Ek. by rewrite H1.
Qed.

Lemma rotate_other ch ch' f s : ch ≠ ch' → same_at ch s (rotate_key f ch' s).2.
Proof using.
  intros Hne. unfold rotate_key, same_at. destruct (_keys s !! ch'); simpl; by rewrite !lookup_insert_ne.
Qed.

Lemma decrypt_same_at `{A : Aead} ch s s' nonce ct e :
  same_at ch s s' → decrypt ch nonce ct e s' = decrypt ch nonce ct e s.
Proof using. intros [H1 H2]. unfold decrypt, key_for. by rewrite H1, H2. Qed.

(** The key rows of a channel, and whether the pass rotates its key. *)
Definition rows_of (id : string) (db : DB) : list SealedKey :=
  List.filter (λ k, bool_decide (sk_channel_id k = id)) (sealed_keys db).

Definition due (now : float) (db : DB) (id : string) : bool :=
  stale_key now id db && list_true (RoleRepo.get_channel_member_hashes id db) && router id.

Lemma stale_key_rows now id db db' : rows_of id db' = rows_of id db → stale_key now id db' = stale_key now id db.
Proof using. unfold stale_key, latest_key. fold (rows_of id db) (rows_of id db'). by intros ->. Qed.

(** A row recorded at a time keeps the channel from being due for 30 days. *)
Lemma recorded_not_stale now later id db r : r ∈ rows_of id db → sk_created_at r = now →
  flt (now + fz (SEALED_KEY_ROTATION_DAYS * 86400))%F later = false → stale_key later id db = false.
Proof using.
  intros Hr Hc Hl. unfold stale_key, latest_key. fold (rows_of id db).
  set (leb := λ a b : SealedKey, fle (sk_created_at b) (sk_created_at a)).
  pose proof (proj2 (elem_of_sort_by leb r (rows_of id db)) Hr) as Hs.
  assert (StronglySorted (λ a b, leb a b = true) (sort_by leb (rows_of id db))) as Hsort.
  { apply sort_by_sorted; unfold leb; [intros a b; destruct (fle (sk_created_at b) (sk_created_at a)) eqn:?; [by left|right; flra]|intros a b c ??; flra]. }
  unfold sql_limit, ztake. destruct (sort_by leb (rows_of id db)) as [|h l]; [done|]. simpl.
  assert (fle (sk_created_at r) (sk_created_at h) = true) as Hh.
  { apply elem_of_cons in Hs as [->|Hs]; [flra|]. inversion Hsort as [|?? _ Hall]; subst.
    rewrite Forall_forall in Hall. by apply Hall. }
  rewrite Hc in Hh. flra.
Qed.

Lemma rotate_distribute_run f ch ms s : ∃ s' i,
  rotate_and_distribute f ch ms s = (Ok tt, s')
  ∧ ks_db s' = ks_db s ∧ ks_mgr s' = (rotate_key f ch (ks_mgr s)).2
  ∧ _keys (ks_mgr s') !! ch = Some i ∧ ki_key i = f.
Proof using.
  unfold rotate_and_distribute, bind, modify, gets, of_res, distribute_key. cbn beta iota. cbn [ks_mgr ks_db ks_sent].
  assert (∃ i, _keys (rotate_key f ch (ks_mgr s)).2 !! ch = Some i ∧ ki_key i = f) as (i & Hi & Hf).
  { unfold rotate_key. destruct (_keys (ks_mgr s) !! ch); simpl; rewrite lookup_insert_eq; by eexists. }
  rewrite Hi. eexists _, i. split_and!; [reflexivity|done..].
Qed.

(** What a pass does to one channel: its key is rotated and recorded, or
    neither its key nor its rows change. *)
Definition recorded (now : float) (k : bytes) (id : string) (mgr : SealedChannelManager.t) (r : SealedKey) : Prop :=
  sk_channel_id r = id ∧ sk_identity_hash r = node_hash ∧ sk_created_at r = now
  ∧ sk_epoch r = get_epoch id mgr ∧ sk_encrypted_key_blob r = env_encrypt k.

Definition turned (now : float) (k : bytes) (id : string) (rotates : bool) (s s' : KeyState) : Prop :=
  if rotates
  then same_at id (rotate_key k id (ks_mgr s)).2 (ks_mgr s')
       ∧ ∃ r, rows_of id (ks_db s') = rows_of id (ks_db s) ++ [r] ∧ recorded now k id (ks_mgr s') r
  else same_at id (ks_mgr s) (ks_mgr s') ∧ rows_of id (ks_db s') = rows_of id (ks_db s).

(** The tables the pass only reads. *)
Definition reads_kept (s s' : KeyState) : Prop :=
  channels (ks_db s') = channels (ks_db s) ∧ role_assignments (ks_db s') = role_assignments (ks_db s).

Lemma due_rows now id s s' : reads_kept s s' → rows_of id (ks_db s') = rows_of id (ks_db s) →
  due now (ks_db s') id = due now (ks_db s) id.
Proof using.
  intros [_ Hr] H. unfold due, RoleRepo.get_channel_member_hashes. by rewrite Hr, (stale_key_rows _ _ _ _ H).
Qed.

Lemma rotate_stale_run now fresh c s : is_Some (channels (ks_db s) !! ch_id c) → ∃ s',
  rotate_stale node_hash now fresh router c s = (Ok tt, s') ∧ reads_kept s s'
  ∧ ∀ id, turned now (fresh id) id (bool_decide (id = ch_id c) && due now (ks_db s) id) s s'.
Proof using.
  intros Hc. unfold rotate_stale, bind at 1, gets. cbn beta iota.
  assert (due now (ks_db s) (ch_id c) = false → reads_kept s s
    ∧ ∀ id, turned now (fresh id) id (bool_decide (id = ch_id c) && due now (ks_db s) id) s s) as Hno.
  { intros Hd. split; [done|]. intros id. unfold turned. destruct (bool_decide (id = ch_id c)) eqn:Eb; [|done].
    apply bool_decide_eq_true in Eb as ->. by rewrite Hd. }
  unfold due in Hno at 1. destruct (stale_key now (ch_id c) (ks_db s)) eqn:Est; simpl; [|by exists s; split; auto].
  destruct (list_true _) eqn:Em; simpl; [|by exists s; split; auto].
  destruct (router (ch_id c)) eqn:Er; simpl; [|by exists s; split; auto]. clear Hno.
  destruct (rotate_distribute_run (fresh (ch_id c)) (ch_id c)
    (RoleRepo.get_channel_member_hashes (ch_id c) (ks_db s)) s) as (s1 & i & E1 & Hdb & Hm & Hi & Hk).
  rewrite (bind_run_ok _ _ _ _ _ E1). rewrite (bind_run_ok (gets ks_mgr) _ s1 (ks_mgr s1) s1) by done.
  unfold ks_op, lift. rewrite (persist_run _ _ _ _ i) by (by rewrite ?Hdb). eexists. split; [done|].
  split; [by rewrite Hdb|]. intros id. unfold turned. destruct (decide (id = ch_id c)) as [->|Hne].
  - rewrite bool_decide_eq_true_2 by done. unfold due. rewrite Est, Em, Er. simpl. split; [by rewrite Hm|].
    eexists. unfold rows_of. simpl. rewrite List.filter_app, Hdb. simpl. rewrite bool_decide_eq_true_2 by done.
    split; [done|]. unfold recorded, get_epoch. simpl. by rewrite Hi, Hk.
  - rewrite bool_decide_eq_false_2 by done. simpl. rewrite Hm. split; [by apply rotate_other|].
    unfold rows_of. simpl. rewrite List.filter_app, Hdb. simpl. rewrite bool_decide_eq_false_2 by done.
    by rewrite app_nil_r.
Qed.

Lemma turned_after now k id b s s1 s2 : turned now k id false s s1 → turned now k id b s1 s2 → turned now k id b s s2.
Proof using.
  intros [H1 H2]. unfold turned. destruct b.
  - intros [H3 (r & H4 & H5)]. split; [etrans; [by apply rotate_same_at|done]|]. exists r. by rewrite <- H2.
  - intros [H3 H4]. split; [by etrans|by rewrite H4].
Qed.

Lemma turned_before now k id b s s1 s2 : turned now k id b s s1 → turned now k id false s1 s2 → turned now k id b s s2.
Proof using.
  intros H [H3 H4]. unfold turned in *. destruct b.
  - destruct H as [H1 (r & H2 & H5)]. split; [by etrans|]. exists r. rewrite H4. split; [done|].
    unfold recorded, get_epoch in *. by destruct H3 as [-> _].
  - destruct H as [H1 H2]. split; [by etrans|by rewrite H4].
Qed.

Lemma pass_fold now fresh chs s : NoDup (ch_id <$> chs) → Forall (λ c, is_Some (channels (ks_db s) !! ch_id c)) chs → ∃ s',
  mfold (λ _, rotate_stale node_hash now fresh router) tt chs s = (Ok tt, s') ∧ reads_kept s s'
  ∧ ∀ id, turned now (fresh id) id (bool_decide (id ∈ ch_id <$> chs) && due now (ks_db s) id) s s'.
Proof using.
  revert s. induction chs as [|c chs IH]; csimpl; intros s Hnd Hin; [by exists s|].
  apply NoDup_cons in Hnd as [Hn Hnd]. apply Forall_cons in Hin as [Hc Hin].
  destruct (rotate_stale_run now fresh c s Hc) as (s1 & E1 & Hr1 & H1).
  destruct (IH s1 Hnd) as (s2 & E2 & Hr2 & H2); [destruct Hr1 as [-> _]; done|]. exists s2.
  split_and!; [by rewrite (bind_run_ok _ _ _ _ _ E1)|destruct Hr1, Hr2; split; congruence|].
  intros id. specialize (H1 id). specialize (H2 id). destruct (decide (id = ch_id c)) as [->|Hne].
  - rewrite (bool_decide_eq_false_2 (_ ∈ ch_id <$> chs)) in H2 by done. rewrite bool_decide_eq_true_2 in H1 by done.
    rewrite bool_decide_eq_true_2 by left. by eapply turned_before.
  - rewrite bool_decide_eq_false_2 in H1 by done.
    assert (bool_decide (id ∈ ch_id c :: (ch_id <$> chs)) = bool_decide (id ∈ ch_id <$> chs)) as ->.
    { apply bool_decide_ext. rewrite elem_of_cons. tauto. }
    rewrite (due_rows now id s s1 Hr1) in H2 by apply H1. by eapply turned_after.
Qed.

(** A pass over the sealed channels of a well-keyed database. *)
Definition chans_keyed (s : KeyState) : Prop := ∀ id c, channels (ks_db s) !! id = Some c → ch_id c = id.

Lemma pass_run now fresh s : chans_keyed s → ∃ s',
  _check_sealed_key_rotation node_hash now fresh router s = (Ok tt, s') ∧ reads_kept s s'
  ∧ ∀ id c, channels (ks_db s) !! id = Some c → ch_sealed c = true →
    turned now (fresh id) id (due now (ks_db s) id) s s'.
Proof using.
  intros Hk. destruct (pass_fold now fresh (sealed_channels (ks_db s)) s) as (s' & Es & Hr & H).
  - by apply sealed_channels_nodup.
  - apply Forall_forall. intros c Hc. apply elem_of_filter_bool in Hc as [Hc _]. apply elem_of_rows in Hc as [id Hc].
    rewrite (Hk id c Hc). by eexists.
  - exists s'. split_and!; [|done|].
    + unfold _check_sealed_key_rotation, atomic. by rewrite (bind_run_ok (gets _) _ s (sealed_channels (ks_db s)) s), Es.
    + intros id c Hc Hs. specialize (H id). rewrite bool_decide_eq_true_2 in H; [done|by eapply sealed_in].
Qed.

(** Several passes, each at its time with the keys it draws. *)
Definition passes (ps : list (float * (string → bytes))) : M KeyState unit :=
  mfold (λ _ p, _check_sealed_key_rotation node_hash p.1 p.2 router) tt ps.

Lemma quiet_passes ps s id c now k : chans_keyed s → channels (ks_db s) !! id = Some c → ch_sealed c = true →
  (∀ q, q ∈ ps → stale_key q.1 id (ks_db s) = false) →
  ∃ s', passes ps s = (Ok tt, s') ∧ reads_kept s s' ∧ turned now k id false s s'.
Proof using.
  revert s. induction ps as [|q ps IH]; intros s Hk Hc Hs Hq; [by exists s|].
  destruct (pass_run q.1 q.2 s Hk) as (s1 & E1 & Hr1 & H1). specialize (H1 id c Hc Hs).
  unfold due in H1. rewrite (Hq q) in H1 by left. simpl in H1. destruct H1 as [Hm Hrow].
  destruct (IH s1) as (s2 & E2 & Hr2 & H2).
  - unfold chans_keyed. by destruct Hr1 as [-> _].
  - by destruct Hr1 as [-> _].
  - done.
  - intros q' Hq'. rewrite (stale_key_rows _ _ _ _ Hrow). apply Hq. by right.
  - exists s2. split_and!.
    + unfold passes. simpl. by rewrite (bind_run_ok _ _ _ _ _ E1).
    + destruct Hr1, Hr2; split; congruence.
    + by eapply turned_after; [split; [exact Hm|exact Hrow]|].
Qed.

Lemma elem_of_node_rows id db r : r ∈ node_rows node_hash id db ↔ r ∈ rows_of id db ∧ sk_identity_hash r = node_hash.
Proof using.
  unfold node_rows, rows_of. rewrite !elem_of_filter_bool, andb_true_iff, !bool_decide_eq_true.
  clear router. tauto.
Qed.

(** The row with the highest epoch is the one a restart opens. *)
Lemma newest_row_top id db r : r ∈ node_rows node_hash id db →
  (∀ r', r' ∈ node_rows node_hash id db → r' = r ∨ sk_epoch r' < sk_epoch r) →
  newest_row node_hash id db = Some r.
Proof using.
  intros Hr Hmax. destruct (newest_row node_hash id db) as [h|] eqn:Eh.
  - destruct (Hmax h) as [->|Hlt]; [by apply newest_row_in|done|]. exfalso.
    unfold newest_row in Eh. fold (node_rows node_hash id db) in Eh.
    set (leb := λ a b : SealedKey, sk_epoch b <=? sk_epoch a) in Eh.
    pose proof (proj2 (elem_of_sort_by leb r _) Hr) as Hs.
    assert (StronglySorted (λ a b, leb a b = true) (sort_by leb (node_rows node_hash id db))) as Hsort.
    { apply sort_by_sorted; unfold leb; [intros a b|intros a b e]; lia. }
    unfold sql_limit, ztake in Eh. destruct (sort_by leb _) as [|h' l]; [done|]. simpl in Eh. injection Eh as ->.
    apply elem_of_cons in Hs as [->|Hs]; [lia|]. inversion Hsort as [|?? _ Hall]; subst.
    rewrite Forall_forall in Hall. specialize (Hall r Hs). unfold leb in Hall. lia.
  - apply newest_row_none in Eh. rewrite Eh in Hr. by apply elem_of_nil in Hr.
Qed.

(** A sealed channel with members whose newest key row is more than 30 days old has
    its key rotated by the maintenance pass, once: whatever further passes
    follow within 30 days, the channel has one more key row, for the next
    epoch, sealed to the node and opening to the new key, and the manager
    holds that key. A message sealed before the pass still opens, and, when the
    rows the node had were of earlier epochs, a restart loads the new key. *)
Theorem stale_key_rotated_once `{A : Aead} `{HA : !AeadLaws A} `{HE : !EnvelopeLaws E} now fresh ps s id c nonce p ct ep :
  chans_keyed s → channels (ks_db s) !! id = Some c → ch_sealed c = true → due now (ks_db s) id = true →
  (∀ q, q ∈ ps → flt (now + fz (SEALED_KEY_ROTATION_DAYS * 86400))%F q.1 = false) →
  mgr_ok id (ks_mgr s) → encrypt nonce id p (ks_mgr s) = Ok (nonce, ct, ep) →
  ∃ s' r, passes ((now, fresh) :: ps) s = (Ok tt, s')
  ∧ rows_of id (ks_db s') = rows_of id (ks_db s) ++ [r]
  ∧ sk_identity_hash r = node_hash ∧ sk_epoch r = ep + 1 ∧ env_decrypt (sk_encrypted_key_blob r) = Some (fresh id)
  ∧ get_key id (ks_mgr s') = Some (fresh id) ∧ get_epoch id (ks_mgr s') = ep + 1
  ∧ decrypt id nonce ct (Some ep) (ks_mgr s') = Ok p
  ∧ ((∀ r', r' ∈ node_rows node_hash id (ks_db s) → sk_epoch r' ≤ ep) →
     _keys (loaded node_hash (ks_db s') init) !! id = Some {| ki_key := fresh id; ki_epoch := ep + 1 |}).
Proof using.
  intros Hk Hc Hs Hdue Hps Hok Henc. unfold encrypt in Henc. destruct (_keys (ks_mgr s) !! id) as [i|] eqn:Hi; [|done].
  injection Henc as <- <-. destruct (pass_run now fresh s Hk) as (s1 & E1 & Hr1 & H1). specialize (H1 id c Hc Hs).
  rewrite Hdue in H1. destruct (quiet_passes ps s1 id c now (fresh id)) as (s2 & E2 & Hr2 & H2).
  - unfold chans_keyed. by destruct Hr1 as [-> _].
  - by destruct Hr1 as [-> _].
  - done.
  - intros q Hq. destruct H1 as [_ (r & Hr & _ & _ & Hnow & _)]. eapply recorded_not_stale; [|exact Hnow|by apply Hps].
    rewrite Hr. apply elem_of_app. right. left.
  - destruct (turned_before _ _ _ _ _ _ _ H1 H2) as [Hm (r & Hrow & Hid & Hn & _ & He & Hb)].
    destruct (rotate_key_state (fresh id) id (ks_mgr s) i Hi) as [Hki _].
    assert (_keys (ks_mgr s2) !! id = Some {| ki_key := fresh id; ki_epoch := ki_epoch i + 1 |}) as Hk2
      by (destruct Hm as [-> _]; done).
    unfold get_epoch in He. rewrite Hk2 in He. simpl in He.
    exists s2, r. split_and!; [|done|done|done|by rewrite Hb, env_roundtrip| | | |].
    + unfold passes. simpl. by rewrite (bind_run_ok _ _ _ _ _ E1).
    + unfold get_key. by rewrite Hk2.
    + unfold get_epoch. by rewrite Hk2.
    + rewrite (decrypt_same_at _ _ _ _ _ _ Hm). unfold decrypt.
      erewrite key_for_window; [by rewrite aead_roundtrip| |by apply first_rotation]. lia.
    + intros Hold. unfold loaded. rewrite (proj1 (load_fold _ _ _ _ _)), (newest_row_top id (ks_db s2) r).
      * simpl. unfold open_row. rewrite Hb, env_roundtrip, He. simpl.
        rewrite bool_decide_eq_true_2; [done|]. destruct Hr1 as [Hc1 _], Hr2 as [Hc2 _].
        apply (sealed_in id c); rewrite ?Hc2, ?Hc1; done.
      * apply elem_of_node_rows. rewrite Hrow, elem_of_app. split; [right; left|done].
      * intros r' Hr'. apply elem_of_node_rows in Hr' as [Hr' Hn']. rewrite Hrow, elem_of_app in Hr'.
        destruct Hr' as [Hr'|Hr']; [right|left; by apply list_elem_of_singleton in Hr'].
        assert (sk_epoch r' ≤ ki_epoch i); [|lia]. apply Hold. by apply elem_of_node_rows.
Qed.
End stale.

(** ** Draining delivers *)

Section drain.
Context `{E : Envelope} `{PK : PeerKeys} (node_hash : string) (repr : exn → string) (now : float) (ident : string).
Hypothesis Hother : ident ≠ node_hash.

Definition has_entry (n : Z) (db : DB) : Prop := ∃ p, p ∈ pending_sealed_distributions db ∧ psd_id p = n.

(** What the processing of one entry leaves alone for the others. *)
Record drained (db db' : DB) : Prop := {
  dr_channels : channels db' = channels db;
  dr_grants : role_assignments db' = role_assignments db;
  dr_owner : ∀ id, node_rows node_hash id db' = node_rows node_hash id db;
  dr_keys : ∀ r, r ∈ sealed_keys db → r ∈ sealed_keys db';
  dr_entries : ∀ n, has_entry n db' → has_entry n db;
}.

#[local] Instance drained_preorder : PreOrder drained.
Proof using.
  split; [by intros db; split|]. intros a b c [A1 A2 A3 A4 A5] [B1 B2 B3 B4 B5].
  split; [congruence|congruence|intros id; by rewrite B3|auto|auto].
Qed.

Lemma evict_drained n : mrel drained (PendingSealedDistributionRepo.evict n).
Proof using.
  intros db. split; try done. intros m (p & [Hp _]%elem_of_filter_bool & Hm). by exists p.
Qed.

Lemma retry_drained n e : mrel drained (PendingSealedDistributionRepo.increment_retry now n e).
Proof using.
  intros db. split; try done. intros m (p & Hp & Hm). simpl in Hp.
  apply list_elem_of_fmap in Hp as (q & -> & Hq). exists q. split; [done|]. by destruct (psd_id q =? n).
Qed.

Lemma distribute_drained id : mrel drained (distribute_sealed_key_to_identity node_hash now id ident).
Proof using Hother.
  unfold distribute_sealed_key_to_identity, check_fk. mrel_auto. apply mrel_modify. intros db. split; try done.
  - intros id'. unfold node_rows. simpl. rewrite List.filter_app. simpl.
    rewrite (bool_decide_eq_false_2 (ident = node_hash)) by done. rewrite andb_false_r. by rewrite app_nil_r.
  - intros r Hr. simpl. apply elem_of_app. by left.
Qed.

Lemma drain_tx_drained e : mrel drained (drain_tx node_hash now ident e).
Proof using Hother.
  unfold drain_tx, scalar_one_or_none. mrel_auto; try apply evict_drained. apply distribute_drained.
Qed.

Lemma drain_entry_run e db : ∃ db', drain_entry node_hash repr now ident e db = (Ok tt, db') ∧ drained db db'.
Proof using Hother.
  unfold drain_entry. destruct (_ <=? _); [by exists db|]. unfold catch, atomic.
  pose proof (drain_tx_drained e db) as H.
  destruct (drain_tx node_hash now ident e db) as [[[]|x] db1]; [by exists db1|].
  eexists. split; [reflexivity|]. apply retry_drained.
Qed.

Lemma drain_fold l db : ∃ db', mfold (λ _, drain_entry node_hash repr now ident) tt l db = (Ok tt, db') ∧ drained db db'.
Proof using Hother.
  revert db. induction l as [|e l IH]; intros db; [by exists db|]. simpl.
  destruct (drain_entry_run e db) as (db1 & E1 & H1). destruct (IH db1) as (db2 & E2 & H2).
  exists db2. rewrite (bind_run_ok _ _ _ _ _ E1). split; [done|by etrans].
Qed.

(** The peer holds a key of the channel: a row for it that it can open. *)
Definition holds_key (peer channel_id : string) (epoch : Z) (k : bytes) (db : DB) : Prop :=
  ∃ r, r ∈ sealed_keys db ∧ sk_channel_id r = channel_id ∧ sk_identity_hash r = ident
    ∧ sk_epoch r = epoch ∧ peer_decrypt peer (sk_encrypted_key_blob r) = Some k.

Lemma drain_entry_delivers `{!PeerKeysLaws PK} e a owner k target db :
  psd_retry_count e < MAX_PENDING_DISTRIBUTION_RETRIES →
  List.filter (RoleRepo.same_grant (psd_role_id e) ident (Some (psd_channel_id e))) (role_assignments db) = [a] →
  newest_row node_hash (psd_channel_id e) db = Some owner →
  env_decrypt (sk_encrypted_key_blob owner) = Some k → is_Some (channels db !! psd_channel_id e) →
  fromhex (chars_of ident) = Some target → peer_recall true target = Some (string_of (hex target)) →
  ∃ db', drain_entry node_hash repr now ident e db = (Ok tt, db')
  ∧ holds_key (string_of (hex target)) (psd_channel_id e) (sk_epoch owner) k db' ∧ ¬ has_entry (psd_id e) db'.
Proof using.
  intros Hr Ha Ho Hk Hc Ht Hp. unfold drain_entry. rewrite (proj2 (Z.leb_gt _ _)) by done.
  unfold catch, atomic, drain_tx. rewrite (bind_run_ok get _ db db db) by done. rewrite Ha.
  rewrite (bind_run_ok _ _ db (Some a) db) by done.
  set (row := {| sk_id := next_rowid (sealed_keys db); sk_channel_id := psd_channel_id e; sk_epoch := sk_epoch owner;
    sk_encrypted_key_blob := peer_encrypt (string_of (hex target)) k; sk_identity_hash := ident; sk_created_at := now |}).
  rewrite (bind_run_ok _ _ db tt (set_sealed_keys (λ l, l ++ [row]) db)).
  - eexists. split; [reflexivity|]. split.
    + exists row. split_and!; try done; [simpl; apply elem_of_app; right; by left|]. simpl. apply peer_roundtrip.
    + intros (p & [_ Hp']%elem_of_filter_bool & Hid). by rewrite Hid, Z.eqb_refl in Hp'.
  - unfold distribute_sealed_key_to_identity. rewrite (bind_run_ok (gets _) _ db (Some owner) db) by (unfold gets; by rewrite Ho).
    rewrite Hk. unfold load_peer_rns_identity. rewrite Ht, Hp.
    rewrite (bind_run_ok (of_res _) _ db (string_of (hex target)) db) by done.
    rewrite (bind_run_ok _ _ db tt db); [done|]. unfold check_fk, bind, get. by rewrite bool_decide_eq_true_2.
Qed.

(** The queue of deferred sealed-key grants is delivered as soon as the
    peer is heard of. When the announced identity can be recalled, every queued
    entry below the retry limit whose role is still assigned and whose channel
    has an openable key gives the peer a row with the channel's current epoch
    that the peer decrypts to the group key, and leaves the queue; the other
    entries of the same drain do not get in its way. *)
Theorem pending_key_delivered `{!PeerKeysLaws PK} e a owner k target db :
  e ∈ PendingSealedDistributionRepo.list_for_identity ident db →
  psd_retry_count e < MAX_PENDING_DISTRIBUTION_RETRIES →
  List.filter (RoleRepo.same_grant (psd_role_id e) ident (Some (psd_channel_id e))) (role_assignments db) = [a] →
  newest_row node_hash (psd_channel_id e) db = Some owner →
  env_decrypt (sk_encrypted_key_blob owner) = Some k → is_Some (channels db !! psd_channel_id e) →
  fromhex (chars_of ident) = Some target → peer_recall true target = Some (string_of (hex target)) →
  ∃ db', _drain_pending_sealed_distributions node_hash repr now ident db = (Ok tt, db')
  ∧ holds_key (string_of (hex target)) (psd_channel_id e) (sk_epoch owner) k db' ∧ ¬ has_entry (psd_id e) db'.
Proof using Hother.
  intros He Hr Ha Ho Hk Hc Ht Hp. unfold _drain_pending_sealed_distributions.
  rewrite (bind_run_ok (gets _) _ db _ db) by done. apply list_elem_of_split in He as (l1 & l2 & ->).
  destruct (drain_fold l1 db) as (db1 & E1 & [D1 D2 D3 _ _]).
  destruct (drain_entry_delivers e a owner k target db1) as (db2 & E2 & (r & Hin & Hrow) & Hno); try done.
  { by rewrite D2. } { by rewrite (newest_row_eq node_hash _ _ db) by apply D3. } { by rewrite D1. }
  destruct (drain_fold l2 db2) as (db3 & E3 & [_ _ _ D4 D5]). exists db3. split_and!.
  - assert (∀ l l' s s', mfold (λ _, drain_entry node_hash repr now ident) tt l s = (Ok tt, s') →
      mfold (λ _, drain_entry node_hash repr now ident) tt (l ++ l') s
      = mfold (λ _, drain_entry node_hash repr now ident) tt l' s') as Happ.
    { clear. induction l as [|x l IH]; intros l' s s'; simpl; [by intros [= <-]|].
      intros (u & s1 & H1 & H2)%bind_ok. rewrite (bind_run_ok _ _ _ _ _ H1). destruct u. by apply IH. }
    rewrite (Happ l1 (e :: l2) db db1 E1). simpl. by rewrite (bind_run_ok _ _ _ _ _ E2).
  - exists r. split; [by apply D4|done].
  - intros H. by apply Hno, D5.
Qed.
End drain.

(** ** Revocation *)

(** Neither way of taking a role away touches the stored keys. The
    operator's [role revoke] leaves the channel's key and the revoked member's
    own key row as they are; [RoleManager.remove_role] rotates the key in memory
    only. Either way the next start of the node loads the key the removed
    member holds. *)
Theorem revocation_keeps_key `{E : Envelope} `{PK : PeerKeys} `{HP : Msgpack} node_hash :
  (∀ name ident cid db r db', _revoke_role name ident cid db = (r, db') →
     sealed_keys db' = sealed_keys db ∧ loaded node_hash db' init = loaded node_hash db init)
  ∧ (∀ fresh rid ident cid mgr net s r s', RoleManager.remove_role fresh rid ident cid mgr net s = (r, s') →
     sealed_keys (ks_db s') = sealed_keys (ks_db s)
     ∧ loaded node_hash (ks_db s') init = loaded node_hash (ks_db s) init).
Proof.
  assert (Hload : ∀ db db', sealed_keys db' = sealed_keys db ∧ channels db' = channels db →
    sealed_keys db' = sealed_keys db ∧ loaded node_hash db' init = loaded node_hash db init).
  { intros db db' [E1 E2]. split; [done|]. unfold loaded, sealed_channels. rewrite E2. unfold load_one, newest_row. by rewrite E1. }
  set (R := λ db db' : DB, sealed_keys db' = sealed_keys db ∧ channels db' = channels db).
  assert (PreOrder R) as HR.
  { split; [by intros db|]. intros a b c [A1 A2] [B1 B2]. split; congruence. }
  split.
  - intros name ident cid db r db' H. apply Hload. unfold _revoke_role, atomic in H.
    match type of H with match ?m db with _ => _ end = _ => assert (mrel R m) as Hm end.
    { mrel_auto; by apply mrel_modify. }
    specialize (Hm db). match type of H with match ?x with _ => _ end = _ => destruct x as [[a|e] d] end; by injection H as <- <-.
  - intros fresh rid ident cid mgr net s r s' H. apply Hload.
    assert (mrel (λ s s', R (ks_db s) (ks_db s')) (RoleManager.remove_role fresh rid ident cid mgr net)) as Hm.
    { assert (PreOrder (λ s s', R (ks_db s) (ks_db s'))) as HR'.
      { split; [by intros x|]. intros a b c A1 B1. by etrans. }
      unfold RoleManager.remove_role, scalar_one_or_none, rotate_and_distribute. mrel_auto;
        try (apply mrel_lift with (Rc := R); [mrel_auto|by intros x d]); apply mrel_modify; done. }
    specialize (Hm s). by rewrite H in Hm.
Qed.

(** ** The hierarchy *)

(** An actor below a position cannot reach it: whoever creates or assigns
    a role through the manager does so strictly below the position it acts
    from, and no operation gives a role the name of a built-in one. *)
Theorem role_hierarchy now p :
  (∀ uuid name perms pos db r db', RoleManager.create_role uuid name perms pos (Some p) db = (Ok r, db') →
     pos < p ∧ role_position r = pos ∧ role_is_builtin r = false
     ∧ name ∉ [ROLE_NODE_OWNER; ROLE_CHANNEL_OWNER; ROLE_EVERYONE; ROLE_MEMBER]
     ∧ roles db' = <[role_id r := r]> (roles db))
  ∧ (∀ rid ident cid by_ db a db', RoleManager.assign_role now rid ident cid by_ (Some p) db = (Ok a, db') →
     ∃ r, roles db !! rid = Some r ∧ role_position r < p).
Proof.
  split.
  - intros uuid name perms pos db r db' H. unfold RoleManager.create_role in H.
    destruct (dict_has name RoleManager.BUILTIN_ROLES) eqn:Eb; [done|].
    destruct (Z.leb_spec p pos); [done|]. unfold RoleRepo.create, check_unique in H. minv. simpl in *.
    unfold dict_has in Eb. split_and!; [lia|done|done| |done].
    intros Hin. apply not_true_iff_false in Eb. apply Eb.
    repeat (apply elem_of_cons in Hin as [->|Hin]; [done|]). by apply elem_of_nil in Hin.
  - intros rid ident cid by_ db a db' H. unfold RoleManager.assign_role in H. minv.
    eexists. split; [done|]. lia.
Qed.

(** ** Witnesses *)

(** Every identity can be recalled by its own hash, and encrypts by a prefix. *)
Definition toy_peers : PeerKeys := {|
  peer_recall b h := if b then Some (string_of (hex h)) else None;
  peer_encrypt i p := 7 :: p;
  peer_decrypt i c := match c with 7 :: p => Some p | _ => None end |}.
Lemma toy_peers_laws : PeerKeysLaws toy_peers.
Proof. split; [done|]. by intros h i [= <-]. Qed.

Definition demo_grant : RoleAssignment := {|
  ra_id := 1; ra_role_id := "r"; ra_identity_hash := "0a"; ra_channel_id := Some "c"; ra_assigned_at := fz 0;
  ra_assigned_by := None |}.
Definition demo_entry : PendingSealedDistribution := {|
  psd_id := 4; psd_channel_id := "c"; psd_identity_hash := "0a"; psd_role_id := "r"; psd_queued_at := fz 1;
  psd_last_attempt_at := None; psd_retry_count := 2; psd_last_error := None |}.
Definition key_db : DB :=
  set_role_assignments (λ _, [demo_grant]) (set_pending_sealed_distributions (λ _, [demo_entry]) boot_db).

Lemma pending_key_delivered_witness :
  ∃ db', @_drain_pending_sealed_distributions toy_env toy_peers "n" exn_msg (fz 9) "0a" key_db = (Ok tt, db')
  ∧ @holds_key toy_peers "0a" "0a" "c" 2 [2] db' ∧ ¬ has_entry 4 db'.
Proof.
  apply (@pending_key_delivered toy_env toy_peers "n" exn_msg (fz 9) "0a" ltac:(discriminate) toy_peers_laws
    demo_entry demo_grant (boot_row "c" 2 [9; 2]) [2] [10] key_db).
  - left.
  - reflexivity.
  - reflexivity.
  - vm_compute. reflexivity.
  - reflexivity.
  - by eexists.
  - reflexivity.
  - reflexivity.
Defined.

(** Two keys recorded at time 0, a pass forty days later and six after sixty. *)
Definition stale_state : KeyState := {|
  ks_db := key_db; ks_mgr := (rotate_key [2] "c" (generate_key [1] "c" init).2).2; ks_sent := [] |}.

Lemma stale_key_rotated_once_witness :
  ∃ s' r, @passes toy_env toy_peers full_msgpack "n" (λ _, true)
    ((fz (40 * 86400), λ _, [3]) :: replicate 6 (fz (60 * 86400), λ _, [4])) stale_state = (Ok tt, s')
  ∧ rows_of "c" (ks_db s') = rows_of "c" key_db ++ [r] ∧ sk_epoch r = 3
  ∧ _keys (@loaded toy_env "n" (ks_db s') init) !! "c" = Some {| ki_key := [3]; ki_epoch := 3 |}.
Proof.
  destruct (@stale_key_rotated_once toy_env toy_peers full_msgpack "n" (λ _, true) toy_aead toy_aead_laws toy_env_laws
    (fz (40 * 86400)) (λ _, [3]) (replicate 6 (fz (60 * 86400), λ _, [4])) stale_state "c"
    (demo_channel "c" ACCESS_PRIVATE true) [5] [42]
    (@aead_encrypt toy_aead [2] [5] [42] (str_bytes "c")) 2)
    as (s' & r & H1 & H2 & _ & H3 & _ & _ & _ & _ & H4).
  - exact boot_keyed.
  - reflexivity.
  - reflexivity.
  - vm_compute. reflexivity.
  - intros q Hq%elem_of_replicate. destruct Hq as [-> _]. reflexivity.
  - split; [vm_compute; congruence|vm_compute; repeat constructor].
  - reflexivity.
  - exists s', r. split; [exact H1|]. split; [exact H2|]. split; [exact H3|]. apply H4.
    intros r' Hr'. vm_compute in Hr'. apply list_elem_of_In in Hr'. simpl in Hr'.
    destruct Hr' as [<-|[<-|[]]]; vm_compute; congruence.
Defined.

Lemma role_hierarchy_witness :
  ∃ r db', RoleManager.create_role "u" "mods" 3 5 (Some 10) empty_db = (Ok r, db') ∧ 5 < 10 ∧ role_position r = 5.
Proof.
  eexists _, _. split; [vm_compute; reflexivity|].
  destruct (proj1 (role_hierarchy (fz 0) 10) "u" "mods" 3 5 empty_db _ _ eq_refl) as (H1 & H2 & _). split; assumption.
Defined.

Lemma revocation_keeps_key_witness :
  loaded (E := toy_env) "n" (_revoke_role "mods" "0a" (Some "c") key_db).2 init = loaded (E := toy_env) "n" key_db init.
Proof.
  destruct (proj1 (@revocation_keeps_key toy_env toy_peers full_msgpack "n") "mods" "0a" (Some "c") key_db _ _
    (surjective_pairing _)) as [_ H]. exact H.
Defined.
