(* ===== verification/FedAuth.v ===== *)
(** * Federation authentication ([hokora/federation/auth.py],
      [protocol/handlers/federation.py], the handshake)

    The binding of a relayed message to its sender's key, the trust-on-first-use
    store, and the challenge-response handshake by which a peer becomes
    trusted.  Ed25519 verification is the interface of Verification.v; what
    RNS computes of an identity is [RnsIdentity] (its hash, its Ed25519 half),
    and an identity signs as in Epoch.v.  The node's cache of identities
    ([RNS.Identity.recall]) and random challenges are arguments. *)

From S2P Require Import Prelude Constants Models Queries Permissions RateLimit Ban Sealed Sequencer Message Ingest Wire Verification History Epoch Invites Session Live.

Class RnsIdentity := {
  truncated_hash : bytes → bytes;
  sig_pub_bytes : bytes → bytes;         (* the Ed25519 public key of an identity *)
}.

(** An RNS identity signs with Ed25519 under its 32-byte signing key. *)
Class RnsIdentityLaws (R : RnsIdentity) (S : Signing) (E : Ed25519) : Prop := {
  sig_pub_len : ∀ i, zlen (sig_pub_bytes i) = 32;
  sign_verifies : ∀ i d, ed25519_verify (sig_pub_bytes i) d (id_sign i d) = true;
  sign_nonempty : ∀ i d, list_true (id_sign i d) = true;
}.

Definition CHALLENGE_SIZE : Z := 32.
Definition ED25519_PUBLIC_KEY_SIZE : Z := 32.
Definition RNS_PUBLIC_KEY_SIZE : Z := 64.
Definition IDENTITY_HASH_HEX_LENGTH : Z := 32.

(** The process-wide tally [_BINDING_REJECTIONS]. *)
Abbreviation bind_counts := (gmap string Z).

Definition _record_binding_rejection (label : string) (c : bind_counts) : bind_counts :=
  <[label := default 0 (c !! label) + 1]> c.

Definition get_binding_rejection_counts (c : bind_counts) : bind_counts := c.

(** [RNS.hexrep(..., delimit=False)] *)
Definition hexrep (b : bytes) : string := string_of (hex b).

Definition derive_identity_hash_hex `{RnsIdentity} (rns_public_key : val) : res string :=
  match rns_public_key with
  | VBytes k =>
      if negb (zlen k =? RNS_PUBLIC_KEY_SIZE)
      then Raise (Exn FederationError "rns_public_key must be 64 bytes")
      else Ok (hexrep (truncated_hash k))
  | _ => Raise (Exn FederationError "rns_public_key must be bytes")
  end.

(** A rejection: the label it is counted under, and the reason. *)
Definition reject (label reason : string) : M bind_counts (bool * option string) :=
  modify (_record_binding_rejection label) ;; ret (false, Some reason).

(** The signature check; a value that is not bytes makes the library raise,
    which the caller takes for a failed check. *)
Definition check_signature `{Ed25519} (key : bytes) (signed_part signature : val) : bool :=
  match signed_part, signature with
  | VBytes m, VBytes s => VerificationService.verify_ed25519_signature (Some key) m s
  | _, _ => false
  end.

Definition verify_sender_binding `{RnsIdentity} `{Ed25519}
    (sender_hash sender_rns_public_key lxmf_signed_part lxmf_signature : val) (require_signed : bool)
    : M bind_counts (bool * option string) :=
  match sender_hash with
  | VStr h =>
      if negb (str_true h) then reject "malformed" "missing sender_hash"
      else if negb (py_len h =? IDENTITY_HASH_HEX_LENGTH)
      then reject "malformed" "malformed sender_hash length"
      else if negb (val_true sender_rns_public_key) then
        if require_signed then reject "missing_pubkey" "missing sender_rns_public_key"
        else ret (true, None)
      else
        match derive_identity_hash_hex sender_rns_public_key with
        | Raise _ => reject "malformed" "malformed sender_rns_public_key"
        | Ok expected_hash =>
            if negb (bool_decide (expected_hash = h))
            then reject "binding_mismatch" "sender_hash binding violation"
            else if val_true lxmf_signed_part && val_true lxmf_signature then
              let key := match sender_rns_public_key with VBytes k => k | _ => [] end in
              if negb (check_signature (drop 32 key) lxmf_signed_part lxmf_signature)
              then reject "bad_signature" "Ed25519 signature verification failed"
              else ret (true, None)
            else if require_signed then reject "missing_signature" "missing signature"
            else ret (true, None)
        end
  | _ => reject "malformed" "missing sender_hash"
  end.

(** [identity.sig_pub_bytes], checked for its length. *)
Definition signing_public_key `{RnsIdentity} (identity : bytes) : res bytes :=
  let pk := sig_pub_bytes identity in
  if zlen pk =? ED25519_PUBLIC_KEY_SIZE then Ok pk
  else Raise (Exn FederationError "Invalid Ed25519 sig_pub_bytes on identity").

Module PeerKeyStore.

Record t := { _known_keys : gmap string bytes; _reject_key_change : bool }.

Definition init (reject_key_change : bool) : t :=
  {| _known_keys := ∅; _reject_key_change := reject_key_change |}.

Definition set_key (h : string) (k : bytes) (s : t) : t :=
  {| _known_keys := <[h := k]> (_known_keys s); _reject_key_change := _reject_key_change s |}.

Definition check_and_store (identity_hash : string) (public_key_bytes : bytes) : M t bool :=
  let! s := get in
  match _known_keys s !! identity_hash with
  | None => modify (set_key identity_hash public_key_bytes) ;; ret true
  | Some existing =>
      if negb (bool_decide (existing = public_key_bytes)) then
        if _reject_key_change s then raise FederationError "Peer public key changed"
        else ret false
      else ret true
  end.

Definition update_key (identity_hash : string) (public_key_bytes : bytes) (s : t) : t :=
  set_key identity_hash public_key_bytes s.

Definition get_key (identity_hash : string) (s : t) : option bytes := _known_keys s !! identity_hash.
End PeerKeyStore.

Module FederationAuth.

Definition create_response `{Signing} (challenge private_key : bytes) : res bytes :=
  if negb (zlen challenge =? CHALLENGE_SIZE)
  then Raise (Exn FederationError "Invalid challenge size")
  else Ok (id_sign private_key challenge).

Definition verify_response `{Ed25519} (challenge response public_key_bytes : bytes) : bool :=
  if negb (zlen public_key_bytes =? ED25519_PUBLIC_KEY_SIZE) then false
  else ed25519_verify public_key_bytes challenge response.

Definition build_handshake_init (challenge : bytes) (now : float) (node_name identity_hash : string)
    : dict string val :=
  [("action", VStr "federation_handshake"); ("step", VInt 1); ("node_name", VStr node_name);
   ("identity_hash", VStr identity_hash); ("challenge", VBytes challenge); ("timestamp", VFloat now)].

Definition build_handshake_response (now : float) (node_name identity_hash : string)
    (challenge_response counter_challenge : bytes) : dict string val :=
  [("action", VStr "federation_handshake"); ("step", VInt 2); ("node_name", VStr node_name);
   ("identity_hash", VStr identity_hash); ("challenge_response", VBytes challenge_response);
   ("counter_challenge", VBytes counter_challenge); ("timestamp", VFloat now)].

Definition build_handshake_ack (now : float) (counter_response : bytes) : dict string val :=
  [("action", VStr "federation_handshake"); ("step", VInt 3);
   ("counter_response", VBytes counter_response); ("timestamp", VFloat now)].
End FederationAuth.

(** ** The handshake handler *)

Record FedConfig := {
  federation_auto_trust : bool;
  fs_enabled : bool;
  fs_epoch_duration : Z;
  require_signed_federation : bool;
}.

Record FederationContext := {
  fc_config : option FedConfig;
  fc_live_manager : bool;
  fc_node_identity : string;
  fc_node_name : string;
  fc_node_rns_identity : option bytes;
  fc_rate_limiter : bool;
}.

(** The node, the challenges of the dispatcher, the tallies and the live
    manager. *)
Record FedNode := {
  fn_node : Node;
  fn_pending : dict string (bytes * float);       (* _pending_counter_challenges *)
  fn_bans : ban_counts;
  fn_bindings : bind_counts;
  fn_live : LiveSubscriptionManager.t;
}.
Definition fn_db (s : FedNode) : DB := n_db (fn_node s).
Definition fn_set_node (n : Node) (s : FedNode) : FedNode :=
  {| fn_node := n; fn_pending := fn_pending s; fn_bans := fn_bans s; fn_bindings := fn_bindings s;
     fn_live := fn_live s |}.
Definition fn_set_pending (f : dict string (bytes * float) → dict string (bytes * float)) (s : FedNode)
    : FedNode :=
  {| fn_node := fn_node s; fn_pending := f (fn_pending s); fn_bans := fn_bans s;
     fn_bindings := fn_bindings s; fn_live := fn_live s |}.
Definition fn_set_bans (b : ban_counts) (s : FedNode) : FedNode :=
  {| fn_node := fn_node s; fn_pending := fn_pending s; fn_bans := b; fn_bindings := fn_bindings s;
     fn_live := fn_live s |}.
Definition fn_set_bindings (b : bind_counts) (s : FedNode) : FedNode :=
  {| fn_node := fn_node s; fn_pending := fn_pending s; fn_bans := fn_bans s; fn_bindings := b;
     fn_live := fn_live s |}.
Definition fn_set_live (l : LiveSubscriptionManager.t) (s : FedNode) : FedNode :=
  {| fn_node := fn_node s; fn_pending := fn_pending s; fn_bans := fn_bans s;
     fn_bindings := fn_bindings s; fn_live := l |}.
Definition fn_op {A} (m : M Node A) : M FedNode A := lift fn_node fn_set_node m.
Definition fn_ask {A} (f : DB → A) : M FedNode A := gets (λ s, f (fn_db s)).
Definition fn_bind_op {A} (m : M bind_counts A) : M FedNode A := lift fn_bindings fn_set_bindings m.
Definition fn_live_op {A} (m : M LiveSubscriptionManager.t A) : M FedNode A :=
  lift fn_live fn_set_live m.

(** [step == n]: numbers compare by value. *)
Definition val_is (n : Z) (v : val) : bool :=
  match v with
  | VInt z => z =? n
  | VBool b => Z.b2z b =? n
  | VFloat f => fle f (fz n) && fle (fz n) f
  | _ => false
  end.

Definition get_bytes (k : string) (d : dict string val) : option bytes :=
  match dict_get k d with Some (VBytes b) => Some b | _ => None end.

(** The row of a peer in step 1, new or known. *)
Definition greet_peer (now : float) (h : string) (name : option string) (o : option Peer) : Peer :=
  match o with
  | None => {|
      peer_identity_hash := h; peer_node_name := name; peer_last_seen := None;
      peer_channels_mirrored := []; peer_sync_cursor := ∅; peer_push_cursor := ∅;
      peer_federation_trusted := false; peer_last_handshake := Some now; peer_public_key := None |}
  | Some p => {|
      peer_identity_hash := peer_identity_hash p; peer_node_name := name;
      peer_last_seen := peer_last_seen p; peer_channels_mirrored := peer_channels_mirrored p;
      peer_sync_cursor := peer_sync_cursor p; peer_push_cursor := peer_push_cursor p;
      peer_federation_trusted := peer_federation_trusted p; peer_last_handshake := Some now;
      peer_public_key := peer_public_key p |}
  end.

(** The row of a peer that passed step 3. *)
Definition trust_peer (now : float) (key : bytes) (p : Peer) : Peer := {|
  peer_identity_hash := peer_identity_hash p; peer_node_name := peer_node_name p;
  peer_last_seen := peer_last_seen p; peer_channels_mirrored := peer_channels_mirrored p;
  peer_sync_cursor := peer_sync_cursor p; peer_push_cursor := peer_push_cursor p;
  peer_federation_trusted := true; peer_last_handshake := Some now; peer_public_key := Some key |}.

Inductive fed_reply :=
  | Step2 (counter_challenge : bytes) (challenge_response peer_public_key : option bytes)
  | Step4 (fs_capable : bool)
  | Step6 (ack_frame : bytes) (manager : EpochManager).

(** Storing our challenge, with the cap on the table. *)
Definition store_challenge (now : float) (h : string) (challenge : bytes) : M FedNode unit :=
  let! full := gets (λ s, MAX_PENDING_CHALLENGES <=? zlen (fn_pending s)) in
  when full
    (modify (fn_set_pending (List.filter (λ kv, negb (flt (fz 300) (now - kv.2.2)%F)))) ;;
     let! full := gets (λ s, MAX_PENDING_CHALLENGES <=? zlen (fn_pending s)) in
     when full (raise SyncError "Too many pending federation handshakes")) ;;
  modify (fn_set_pending (dict_set h (challenge, now))).

Section handshake.
Context `{RnsIdentity} `{Ed25519} `{KeyExchange} `{Signing}.
Context (ctx : FederationContext) (recall : bytes → option bytes).

(** Randomness: our challenge, and the ephemeral key and nonce prefix of an
    epoch. *)
Record Fresh := { fr_challenge : bytes; fr_private_key : bytes; fr_prefix : bytes }.

Definition handshake_step1 (now : float) (fresh : Fresh) (h : string) (name : option string)
    (payload : dict string val) (peer : option Peer) : M FedNode fed_reply :=
  match get_bytes "challenge" payload with
  | None => raise SyncError "Invalid challenge in handshake"
  | Some challenge =>
      if negb (zlen challenge =? 32) then raise SyncError "Invalid challenge in handshake"
      else
        let challenge_response := (λ i, id_sign i challenge) <$> fc_node_rns_identity ctx in
        store_challenge now h (fr_challenge fresh) ;;
        fn_op (db_op (modify (set_peers (<[h := greet_peer now h name peer]>)))) ;;
        let! pk := match fc_node_rns_identity ctx with
                   | Some i => mmap Some (of_res (signing_public_key i))
                   | None => ret None
                   end in
        ret (Step2 (fr_challenge fresh)
               (if olist_true challenge_response then challenge_response else None) pk)
  end.

Definition handshake_step3 (now : float) (h : string) (payload : dict string val)
    (peer : option Peer) : M FedNode fed_reply :=
  let! stored := gets (λ s, fst <$> dict_get h (fn_pending s)) in
  modify (fn_set_pending (dict_del h)) ;;
  let counter_response := get_bytes "counter_response" payload in
  let peer_public_key := get_bytes "peer_public_key" payload in
  if negb (olist_true stored && olist_true counter_response && olist_true peer_public_key)
  then raise SyncError "Federation handshake step 3 incomplete"
  else
    let key := default [] peer_public_key in
    if negb (zlen key =? ED25519_PUBLIC_KEY_SIZE)
    then raise SyncError "Federation handshake step 3: invalid peer_public_key length"
    else if negb (FederationAuth.verify_response (default [] stored) (default [] counter_response) key)
    then raise SyncError "Federation handshake failed: invalid counter_response signature"
    else
      match peer with
      | Some p => fn_op (db_op (modify (set_peers (<[h := trust_peer now key p]>))))
      | None => ret tt
      end ;;
      ret (Step4 (match fc_config ctx with Some c => fs_enabled c | None => false end)).

Definition handshake_step5 (now : float) (fresh : Fresh) (h : string) (payload : dict string val)
    : M FedNode fed_reply :=
  match get_bytes "epoch_rotate_frame" payload with
  | None => raise SyncError "Missing epoch_rotate_frame in step 5"
  | Some frame =>
      if negb (list_true frame) then raise SyncError "Missing epoch_rotate_frame in step 5"
      else
        match fc_node_rns_identity ctx with
        | None => raise SyncError "No node identity for epoch handshake"
        | Some node_identity =>
            match fromhex (chars_of h) with
            | None => raise ValueError "fromhex"
            | Some raw =>
                let em := new_manager h false (Some node_identity) (recall raw)
                            (match fc_config ctx with Some c => fs_epoch_duration c | None => 3600 end) in
                let (r, em) := handle_epoch_rotate now (fr_private_key fresh) (fr_prefix fresh) frame em in
                let! ack := of_res r in
                ret (Step6 ack em)
            end
        end
  end.

Definition handle_federation_handshake (now : float) (fresh : Fresh) (payload : dict string val)
    : M FedNode fed_reply :=
  let step := default (VInt 1) (dict_get "step" payload) in
  let h := get_str "identity_hash" None payload in
  let name := get_str "node_name" (Some "unknown") payload in
  if negb (ostr_true h) then raise SyncError "Missing identity_hash in handshake"
  else
    let h := or_empty h in
    when (fc_rate_limiter ctx)
      (as_sync_error [RateLimitExceeded] (fn_op (rl_op_ (RateLimiter.check_rate_limit now h))) ;; ret tt) ;;
    let auto_trust := match fc_config ctx with Some c => federation_auto_trust c | None => false end in
    let! peer := fn_ask (λ db, peers db !! h) in
    if negb (bool_decide (is_Some peer)) && negb auto_trust
    then raise SyncError "Peer not trusted. Use 'hokora mirror trust' to allow."
    else if val_is 1 step then handshake_step1 now fresh h name payload peer
    else if val_is 3 step then handshake_step3 now h payload peer
    else if val_is 5 step then handshake_step5 now fresh h payload
    else raise SyncError "Invalid handshake step".
End handshake.

(** ** Theorems *)

(** What binds a message to its sender: a hash of the right length that, when
    a key is given, is the hash of that 64-byte key; a signature that verifies
    under the key's Ed25519 half when there is one.  Key and signature may
    only be missing when they are not required. *)
Definition bound `{RnsIdentity} `{Ed25519} (sender_hash pk signed_part sig : val) (require_signed : bool)
    : Prop :=
  ∃ h, sender_hash = VStr h ∧ py_len h = IDENTITY_HASH_HEX_LENGTH
  ∧ ((val_true pk = false ∧ require_signed = false)
     ∨ ∃ k, pk = VBytes k ∧ zlen k = RNS_PUBLIC_KEY_SIZE ∧ h = hexrep (truncated_hash k)
       ∧ if val_true signed_part && val_true sig
         then ∃ m s, signed_part = VBytes m ∧ sig = VBytes s ∧ ed25519_verify (drop 32 k) m s = true
         else require_signed = false).

Lemma check_signature_true `{Ed25519} k part sig :
  zlen k = 64 → check_signature (drop 32 k) part sig = true ↔
  ∃ m s, part = VBytes m ∧ sig = VBytes s ∧ ed25519_verify (drop 32 k) m s = true.
Proof.
  intros Hk. unfold check_signature, VerificationService.verify_ed25519_signature.
  assert ((zlen (drop 32 k) =? 32) = true) as ->
    by (apply Z.eqb_eq; unfold zlen in *; rewrite length_drop; lia).
  split; [destruct part, sig; try discriminate; eauto|]. intros (m & s & -> & -> & Hv). done.
Qed.

(** A check that accepts leaves the tally alone; one that rejects gives a
    reason and counts one rejection. *)
Lemma binding_run `{RnsIdentity} `{Ed25519} h pk part sig req (c : bind_counts) :
  (verify_sender_binding h pk part sig req c = (Ok (true, None), c) ∧ bound h pk part sig req)
  ∨ ∃ label reason, verify_sender_binding h pk part sig req c
      = (Ok (false, Some reason), _record_binding_rejection label c)
      ∧ ¬ bound h pk part sig req.
Proof.
  unfold verify_sender_binding, bound.
  destruct h as [|?|?|?|h|?|?|?];
    try (right; do 2 eexists; split; [reflexivity|]; intros (? & ? & _); discriminate).
  destruct (str_true h) eqn:Es; simpl.
  2:{ right. do 2 eexists. split; [reflexivity|]. intros (h' & [= <-] & Hl & _).
      unfold str_true in Es. apply negb_false_iff, bool_decide_eq_true in Es as ->. done. }
  destruct (Z.eqb_spec (py_len h) IDENTITY_HASH_HEX_LENGTH) as [Hl|Hl]; simpl.
  2:{ right. do 2 eexists. split; [reflexivity|]. intros (h' & [= <-] & Hl' & _). done. }
  destruct (val_true pk) eqn:Ep; simpl.
  2:{ destruct req; [right; do 2 eexists; split; [reflexivity|]|left; split; [done|exists h; eauto]].
      intros (h' & [= <-] & _ & [[_ ?]|(k & -> & Hk & _)]); [done|]. simpl in Ep. by destruct k. }
  destruct pk as [|?|?|?|?|k|?|?]; simpl;
    try (right; do 2 eexists; split; [reflexivity|];
         intros (? & _ & _ & [[? _]|(? & ? & _)]); [congruence|discriminate]).
  destruct (Z.eqb_spec (zlen k) RNS_PUBLIC_KEY_SIZE) as [Hk|Hk]; simpl.
  2:{ right. do 2 eexists. split; [reflexivity|].
      intros (? & _ & _ & [[? _]|(? & [= <-] & ? & _)]); congruence. }
  case_bool_decide as Hh; simpl.
  2:{ right. do 2 eexists. split; [reflexivity|].
      intros (? & [= <-] & _ & [[? _]|(? & [= <-] & _ & ? & _)]); congruence. }
  destruct (val_true part && val_true sig) eqn:Esig.
  - destruct (check_signature (drop 32 k) part sig) eqn:Ec; simpl.
    + apply check_signature_true in Ec; [|done]. left. split; [done|]. exists h. eauto 10.
    + right. do 2 eexists. split; [reflexivity|].
      intros (h' & [= <-] & _ & [[? _]|(k' & [= <-] & _ & _ & Hs)]); [congruence|].
      apply check_signature_true in Hs; [congruence|done].
  - destruct req.
    + right. do 2 eexists. split; [reflexivity|].
      intros (h' & [= <-] & _ & [[? _]|(k' & [= <-] & _ & _ & Hs)]); congruence.
    + left. split; [done|]. exists h. eauto 10.
Qed.

(** the check on relayed messages accepts exactly the bound ones: it
    always returns, accepts a message if and only if the claimed sender hash
    is the one of the supplied key and the signature verifies (key and
    signature being dispensable only when signing is not required), and counts
    exactly one rejection otherwise. *)
Theorem sender_binding_exact {R : RnsIdentity} {E : Ed25519} (h pk part sig : val) (req : bool)
    (c : bind_counts) :
  ∃ ok reason c', verify_sender_binding h pk part sig req c = (Ok (ok, reason), c')
  ∧ (ok = true ↔ bound h pk part sig req)
  ∧ (if ok then c' = c else ∃ l, c' = _record_binding_rejection l c).
Proof.
  destruct (binding_run h pk part sig req c) as [[-> Hb]|(l & r & -> & Hb)].
  - by exists true, None, c.
  - exists false, (Some r). eexists. split; [done|]. split; [by split|eauto].
Qed.

(** *** Trust on first use *)

(** With [reject_key_change], a stored key stays until [update_key]: any run
    of checks for the peer accepts exactly the first key and never changes it. *)
Lemma peer_key_pinned (s : PeerKeyStore.t) (h : string) (k k' : bytes) (h' : string) :
  PeerKeyStore._reject_key_change s = true → PeerKeyStore.get_key h s = Some k →
  let (r, s') := PeerKeyStore.check_and_store h' k' s in
  PeerKeyStore.get_key h s' = Some k ∧ (h' = h → is_ok r = bool_decide (k = k')).
Proof.
  unfold PeerKeyStore.check_and_store, PeerKeyStore.get_key, bind, get, modify, ret, raise.
  intros Hr Hk. destruct (PeerKeyStore._known_keys s !! h') as [e|] eqn:E; simpl.
  - case_bool_decide; simpl; [|rewrite Hr; simpl]; split; try done; intros ->; simplify_eq;
      case_bool_decide; congruence.
  - rewrite lookup_insert_ne by congruence. split; [done|]. intros ->. congruence.
Qed.

(** *** The handshake *)

(** The database and the pending challenges stay. *)
Definition fed_same (s s' : FedNode) : Prop := fn_db s' = fn_db s ∧ fn_pending s' = fn_pending s.

#[export] Instance fed_same_preorder : PreOrder fed_same.
Proof. split; [by intros s|]. intros a b c [H1 H2] [H3 H4]. split; congruence. Qed.

Lemma rate_gate_same now h :
  mrel fed_same (as_sync_error [RateLimitExceeded] (fn_op (rl_op_ (RateLimiter.check_rate_limit now h)))).
Proof.
  unfold as_sync_error. apply mrel_catch; [typeclasses eauto| |].
  - apply (mrel_lift _ same_db); [by apply same_db_rl|]. intros s n Hn. by split.
  - intros e. mrel_auto.
Qed.

Section handshake_ok.
Context `{RnsIdentity} `{Ed25519} `{KeyExchange} `{Signing}.
Context (ctx : FederationContext) (recall : bytes → option bytes).

(** Trust is only added by a verified answer to our own challenge. *)
Definition trust_earned (h : string) (payload : dict string val) (s s' : FedNode) : Prop :=
  ∀ g p', peers (fn_db s') !! g = Some p' → peer_federation_trusted p' = true →
    (∃ p, peers (fn_db s) !! g = Some p ∧ peer_federation_trusted p = true)
    ∨ (g = h ∧ ∃ c ts key sig, dict_get h (fn_pending s) = Some (c, ts)
       ∧ get_bytes "peer_public_key" payload = Some key ∧ zlen key = 32
       ∧ get_bytes "counter_response" payload = Some sig
       ∧ ed25519_verify key c sig = true ∧ peer_public_key p' = Some key
       ∧ dict_get h (fn_pending s') = None).

Lemma trust_earned_same h payload s s' : peers (fn_db s') = peers (fn_db s) → trust_earned h payload s s'.
Proof. intros E g p' Hg Ht. rewrite E in Hg. eauto. Qed.

Lemma store_challenge_db now h c s : fn_db (store_challenge now h c s).2 = fn_db s.
Proof.
  assert (Hm : mrel (λ s s', fn_db s' = fn_db s) (store_challenge now h c)).
  { assert (PreOrder (λ s s' : FedNode, fn_db s' = fn_db s))
      by (split; [by intros ?|intros ???; congruence]).
    unfold store_challenge. mrel_auto; by apply mrel_modify. }
  apply Hm.
Qed.

Lemma step1_trust now fresh h name payload peer s :
  peers (fn_db s) !! h = peer →
  trust_earned h payload s (handshake_step1 ctx now fresh h name payload peer s).2.
Proof.
  intros Hp. unfold handshake_step1. destruct (get_bytes _ _) as [c|]; [|by apply trust_earned_same].
  destruct (zlen c =? 32); simpl; [|by apply trust_earned_same].
  pose proof (store_challenge_db now h (fr_challenge fresh) s) as Hdb.
  unfold bind. destruct (store_challenge _ _ _ s) as [[[]|e] s1]; simpl in *;
    [|by apply trust_earned_same; rewrite Hdb].
  assert (Hg : ∀ s', fn_db s' = set_peers (<[h:=greet_peer now h name peer]>) (fn_db s1) →
            trust_earned h payload s s').
  { intros s' E g p' Hg Ht. rewrite E, Hdb in Hg. simpl in Hg.
    apply lookup_insert_Some in Hg as [[<- <-]|[_ Hg]]; [|eauto].
    destruct peer as [p|]; [|done]. simpl in Ht. eauto. }
  destruct (fc_node_rns_identity ctx) as [i|]; [|by apply Hg].
  unfold mmap, bind, of_res, ret. destruct (signing_public_key i); by apply Hg.
Qed.

Lemma step3_trust now h payload peer s :
  peers (fn_db s) !! h = peer →
  trust_earned h payload s (handshake_step3 ctx now h payload peer s).2.
Proof.
  intros Hp. unfold handshake_step3, bind, gets, modify. simpl.
  destruct (dict_get h (fn_pending s)) as [[c ts]|] eqn:Ec; simpl; [|by apply trust_earned_same].
  destruct (get_bytes "counter_response" payload) as [sig|] eqn:Es; simpl;
    [|rewrite ?andb_false_r; by apply trust_earned_same].
  destruct (get_bytes "peer_public_key" payload) as [key|] eqn:Ek; simpl;
    [|rewrite ?andb_false_r; by apply trust_earned_same].
  destruct (_ && _ && _); simpl; [|by apply trust_earned_same].
  destruct (Z.eqb_spec (zlen key) ED25519_PUBLIC_KEY_SIZE) as [El|]; simpl; [|by apply trust_earned_same].
  unfold FederationAuth.verify_response. rewrite El. simpl.
  destruct (ed25519_verify key c sig) eqn:Ev; simpl; [|by apply trust_earned_same].
  destruct peer as [p|]; simpl; [|by apply trust_earned_same].
  intros g p' Hg Ht. simpl in Hg. apply lookup_insert_Some in Hg as [[<- <-]|[_ Hg]]; [|eauto].
  right. split; [done|]. exists c, ts, key, sig. split_and!; try done.
  simpl. rewrite dict_get_del. by rewrite decide_True.
Qed.

Lemma step5_same now fresh h payload s : (handshake_step5 ctx recall now fresh h payload s).2 = s.
Proof.
  unfold handshake_step5. destruct (get_bytes _ _) as [f|]; [|done]. destruct (list_true f); [|done].
  simpl. destruct (fc_node_rns_identity ctx); [|done]. destruct (fromhex _); [|done].
  destruct (handle_epoch_rotate _ _ _ _ _) as [[] ?]; done.
Qed.

Lemma handshake_trust_earned now fresh payload s :
  trust_earned (or_empty (get_str "identity_hash" None payload)) payload s
    (handle_federation_handshake ctx recall now fresh payload s).2.
Proof.
  unfold handle_federation_handshake. set (h := or_empty (get_str "identity_hash" None payload)).
  destruct (ostr_true _); simpl; [|by apply trust_earned_same].
  set (gate := when _ _).
  assert (Hg : mrel fed_same gate).
  { apply mrel_when; [typeclasses eauto|]. apply mrel_bind; [typeclasses eauto|apply rate_gate_same|].
    intros _. apply mrel_ret. typeclasses eauto. }
  specialize (Hg s). unfold bind at 1. destruct (gate s) as [[[]|e] s1]; simpl in *;
    destruct Hg as [Hdb Hpend]; [|apply trust_earned_same; by rewrite Hdb].
  assert (Ht : ∀ s', trust_earned h payload s1 s' → trust_earned h payload s s').
  { intros s' Hs' g p' Hgp Htr. specialize (Hs' g p' Hgp Htr). by rewrite Hdb, Hpend in Hs'. }
  apply Ht. unfold bind at 1, fn_ask, gets. cbv beta iota.
  destruct (_ && _); [by apply trust_earned_same|].
  destruct (val_is 1 _); [by apply step1_trust|]. destruct (val_is 3 _); [by apply step3_trust|].
  destruct (val_is 5 _); [|by apply trust_earned_same]. rewrite step5_same. by apply trust_earned_same.
Qed.
End handshake_ok.

(** C17: a peer only becomes trusted by answering this node's own challenge:
    whatever a handshake request holds and however it ends, a peer that is
    trusted afterwards was trusted before or is the one the request names,
    which presented a 32-byte key and a signature under it of the challenge
    stored for that name; the key is recorded and the challenge is used up. *)
Theorem handshake_trust {R : RnsIdentity} {E : Ed25519} {K : KeyExchange} {S : Signing}
    (ctx : FederationContext) (recall : bytes → option bytes) (now : float) (fresh : Fresh)
    (payload : dict string val) (s s' : FedNode) (r : res fed_reply) (g : string) (p' : Peer) :
  handle_federation_handshake ctx recall now fresh payload s = (r, s') →
  peers (fn_db s') !! g = Some p' → peer_federation_trusted p' = true →
  (∃ p, peers (fn_db s) !! g = Some p ∧ peer_federation_trusted p = true)
  ∨ (get_str "identity_hash" None payload = Some g ∧ ∃ c ts key sig,
       dict_get g (fn_pending s) = Some (c, ts)
       ∧ get_bytes "peer_public_key" payload = Some key ∧ zlen key = 32
       ∧ get_bytes "counter_response" payload = Some sig
       ∧ ed25519_verify key c sig = true ∧ peer_public_key p' = Some key
       ∧ dict_get g (fn_pending s') = None).
Proof.
  intros Hrun Hg Ht. destruct (get_str "identity_hash" None payload) as [h|] eqn:Eh.
  - pose proof (handshake_trust_earned ctx recall now fresh payload s g p') as H. rewrite Hrun, Eh in H.
    destruct (H Hg Ht) as [?|[-> ?]]; [by left|by right].
  - unfold handle_federation_handshake in Hrun. rewrite Eh in Hrun. injection Hrun as <- <-. eauto.
Qed.

(** *** The runs of the honest steps *)

Section honest.
Context {R : RnsIdentity} {E : Ed25519} {K : KeyExchange} {S : Signing} {HL : RnsIdentityLaws R S E}.
Context (ctx : FederationContext) (recall : bytes → option bytes).

(** The limiter of the node, when it has one, has [n] tokens for the identity. *)
Definition limiter_lets (now : float) (h : string) (n : Z) (s : FedNode) : Prop :=
  fc_rate_limiter ctx = true → tokens_left now h n (n_rl (fn_node s)).

Lemma limit_run now now' h n s : 1 ≤ n → (now <= now')%F → limiter_lets now h n s →
  ∃ s0, when (fc_rate_limiter ctx) (as_sync_error [RateLimitExceeded] (fn_op (rl_op_ (RateLimiter.check_rate_limit now h))) ;; ret tt) s
        = (Ok tt, s0)
  ∧ fn_db s0 = fn_db s ∧ fn_pending s0 = fn_pending s ∧ limiter_lets now' h (n - 1) s0.
Proof using.
  unfold limiter_lets. intros Hn Hle H. destruct (fc_rate_limiter ctx); [|by exists s].
  destruct (rate_limit_passes now now' h n (n_rl (fn_node s)) Hn Hle (H eq_refl)) as (rl & Erl & Hrl).
  eexists. unfold when, as_sync_error, catch, fn_op, rl_op_, lift, bind. rewrite Erl. cbn beta iota. split; [reflexivity|]. by split_and!.
Qed.

(** What step 1 leaves: the challenge is pending, the peer was greeted. *)
Definition greeted (now : float) (fresh : Fresh) (h : string) (payload : dict string val) (p : Peer) (s : FedNode) : FedNode :=
  fn_set_node (set_db (set_peers (<[h := greet_peer now h (get_str "node_name" (Some "unknown") payload) (Some p)]>) (fn_db s))
    (fn_node s)) (fn_set_pending (dict_set h (fr_challenge fresh, now)) s).

Lemma step1_run now now' n fresh payload h challenge p s :
  dict_get "step" payload = Some (VInt 1) → get_str "identity_hash" None payload = Some h →
  get_bytes "challenge" payload = Some challenge → str_true h = true → peers (fn_db s) !! h = Some p →
  zlen (fn_pending s) < MAX_PENDING_CHALLENGES → zlen challenge = 32 →
  1 ≤ n → (now <= now')%F → limiter_lets now h n s →
  ∃ s0, handle_federation_handshake ctx recall now fresh payload s
        = (Ok (Step2 (fr_challenge fresh) ((λ i, id_sign i challenge) <$> fc_node_rns_identity ctx)
           (sig_pub_bytes <$> fc_node_rns_identity ctx)), greeted now fresh h payload p s0)
  ∧ fn_db s0 = fn_db s ∧ fn_pending s0 = fn_pending s ∧ limiter_lets now' h (n - 1) (greeted now fresh h payload p s0).
Proof using HL.
  intros Hst Hi Hch Hh Hp Hpend Hc Hn Hle Hlim.
  destruct (limit_run now now' h n s Hn Hle Hlim) as (s0 & E0 & Hdb & Hpe & Hlim0). exists s0.
  split; [|by split_and!]. rewrite <- Hdb in Hp. rewrite <- Hpe in Hpend.
  unfold handle_federation_handshake. rewrite Hst, Hi. cbn [default ostr_true or_empty id].
  rewrite Hh. cbn [negb]. rewrite (bind_run_ok _ _ _ _ _ E0). unfold fn_ask, gets. unfold bind at 1. rewrite Hp, bool_decide_eq_true_2 by eauto.
  cbn [negb andb]. change (val_is 1 (VInt 1)) with true. cbv iota. unfold handshake_step1. rewrite Hch, Hc.
  unfold store_challenge, bind, gets. simpl.
  destruct (Z.leb_spec MAX_PENDING_CHALLENGES (zlen (fn_pending s0))); [lia|]. simpl.
  destruct (fc_node_rns_identity ctx) as [j|]; [|done].
  unfold mmap, bind, of_res, signing_public_key. rewrite sig_pub_len. simpl. by rewrite sign_nonempty.
Qed.

Lemma step3_run now n fresh payload h c ts i p s :
  dict_get "step" payload = Some (VInt 3) → get_str "identity_hash" None payload = Some h →
  get_bytes "counter_response" payload = Some (id_sign i c) → get_bytes "peer_public_key" payload = Some (sig_pub_bytes i) →
  str_true h = true → peers (fn_db s) !! h = Some p → dict_get h (fn_pending s) = Some (c, ts) → list_true c = true →
  1 ≤ n → limiter_lets now h n s →
  ∃ s', handle_federation_handshake ctx recall now fresh payload s
        = (Ok (Step4 (match fc_config ctx with Some c => fs_enabled c | None => false end)), s')
  ∧ peers (fn_db s') !! h = Some (trust_peer now (sig_pub_bytes i) p).
Proof using HL.
  intros Hst Hi Hcr Hk Hh Hp Hpend Hc Hn Hlim.
  destruct (limit_run now now h n s Hn (QArith_base.Qle_refl now) Hlim) as (s0 & E0 & Hdb & Hpe & _).
  rewrite <- Hdb in Hp. rewrite <- Hpe in Hpend. eexists. split.
  - unfold handle_federation_handshake. rewrite Hst, Hi. cbn [default ostr_true or_empty id].
    rewrite Hh. cbn [negb]. rewrite (bind_run_ok _ _ _ _ _ E0). unfold fn_ask, gets. unfold bind at 1. rewrite Hp, bool_decide_eq_true_2 by eauto.
    cbn [negb andb]. change (val_is 1 (VInt 3)) with false. change (val_is 3 (VInt 3)) with true. cbv iota.
    unfold handshake_step3, bind, gets, modify. rewrite Hpend, Hcr, Hk.
    assert (Hl : list_true (sig_pub_bytes i) = true) by (pose proof (sig_pub_len i); by destruct (sig_pub_bytes i)).
    simpl. rewrite Hc, sign_nonempty, Hl. simpl. unfold FederationAuth.verify_response. rewrite sig_pub_len. simpl.
    rewrite sign_verifies. simpl. reflexivity.
  - simpl. by rewrite lookup_insert_eq.
Qed.
End honest.

Definition hs_step1 (h : string) (challenge : bytes) : dict string val :=
  [("step", VInt 1); ("identity_hash", VStr h); ("challenge", VBytes challenge)].
Definition hs_step3 (h : string) (response key : bytes) : dict string val :=
  [("step", VInt 3); ("identity_hash", VStr h); ("counter_response", VBytes response);
   ("peer_public_key", VBytes key)].

(** a handshake with a known peer completes for whoever signs the
    challenge, with any identity: two requests that name the peer, the second
    answering the challenge under the identity [i], leave the peer trusted
    with the key of [i].  So an honest peer always gets through; but nothing
    ties the name to the key, and a key recorded earlier is replaced. *)
Theorem handshake_any_key {R : RnsIdentity} {E : Ed25519} {K : KeyExchange} {S : Signing}
    {HL : RnsIdentityLaws R S E} (ctx : FederationContext) (recall : bytes → option bytes)
    (now now' : float) (fresh fresh' : Fresh) (h : string) (challenge : bytes) (p : Peer) (i : bytes)
    (s : FedNode) :
  limiter_lets ctx now h 2 s → (now <= now')%F → peers (fn_db s) !! h = Some p → str_true h = true →
  zlen (fn_pending s) < MAX_PENDING_CHALLENGES → zlen challenge = 32 →
  list_true (fr_challenge fresh) = true →
  ∃ cr pk s1 fs s2 p2,
    handle_federation_handshake ctx recall now fresh (hs_step1 h challenge) s
    = (Ok (Step2 (fr_challenge fresh) cr pk), s1)
    ∧ handle_federation_handshake ctx recall now' fresh'
        (hs_step3 h (id_sign i (fr_challenge fresh)) (sig_pub_bytes i)) s1 = (Ok (Step4 fs), s2)
    ∧ peers (fn_db s2) !! h = Some p2 ∧ peer_federation_trusted p2 = true
    ∧ peer_public_key p2 = Some (sig_pub_bytes i).
Proof.
  intros Hlim Hle Hp Hh Hpend Hc Hf. set (payload := hs_step1 h challenge).
  destruct (step1_run ctx recall now now' 2 fresh payload h challenge p s) as (s0 & H1 & Hdb & Hpe & Hlim'); try done.
  destruct (step3_run ctx recall now' 1 fresh' (hs_step3 h (id_sign i (fr_challenge fresh)) (sig_pub_bytes i)) h (fr_challenge fresh)
    now i (greet_peer now h (Some "unknown") (Some p)) (greeted now fresh h payload p s0)) as (s2 & H3 & Hp2); try done.
  { unfold fn_db. simpl. by rewrite lookup_insert_eq. }
  { simpl. by rewrite dict_get_set_eq. }
  do 6 eexists. split; [exact H1|]. split; [exact H3|]. by split_and!.
Qed.

(** ** Instances *)

(** A signature is the key with the message. *)
Definition toy_ed : Ed25519 := λ k m s, bool_decide (s = k ++ m).
Definition toy_rns : RnsIdentity := {|
  truncated_hash k := take 16 k;
  sig_pub_bytes i := take 32 (i ++ replicate 32 0) |}.
Definition toy_signing : Signing := {|
  id_public i := i;
  id_sign i d := take 32 (i ++ replicate 32 0) ++ d;
  id_validate p s d := bool_decide (s = take 32 (p ++ replicate 32 0) ++ d) |}.

Lemma toy_rns_laws : RnsIdentityLaws toy_rns toy_signing toy_ed.
Proof.
  assert (Hl : ∀ i : bytes, length (take 32 (i ++ replicate 32 0)) = 32%nat)
    by (intros i; rewrite length_take, length_app, length_replicate; lia).
  split.
  - intros i. unfold zlen. simpl. by rewrite Hl.
  - intros i d. unfold ed25519_verify, toy_ed. simpl. by apply bool_decide_eq_true_2.
  - intros i d. simpl. specialize (Hl i). by destruct (take 32 _).
Qed.

Definition toy_kx : KeyExchange := {|
  x_public k := k; x_exchange a b := Some (a ++ b); hkdf s _ := s; hmac_chain k := k |}.

Definition demo_fed_ctx : FederationContext := {|
  fc_config := None; fc_live_manager := false; fc_node_identity := "me"; fc_node_name := "me";
  fc_node_rns_identity := Some [1]; fc_rate_limiter := false |}.
Definition demo_peer (trusted : bool) (key : option bytes) : Peer := {|
  peer_identity_hash := "peer"; peer_node_name := None; peer_last_seen := None;
  peer_channels_mirrored := []; peer_sync_cursor := ∅; peer_push_cursor := ∅;
  peer_federation_trusted := trusted; peer_last_handshake := None; peer_public_key := key |}.
Definition demo_fed (p : Peer) (n : Node) : FedNode := {|
  fn_node := set_db (set_peers (λ _, {[ "peer" := p ]}) (n_db n)) n;
  fn_pending := []; fn_bans := ∅; fn_bindings := ∅; fn_live := LiveSubscriptionManager.init None |}.
Definition demo_fresh : Fresh :=
  {| fr_challenge := replicate 32 9; fr_private_key := []; fr_prefix := [] |}.
Definition demo_fed0 : FedNode := demo_fed (demo_peer false (Some [5])) (demo_node []).

(** The peer has a recorded key; another identity completes the handshake. *)
Lemma handshake_any_key_witness :
  ∃ cr pk s1 fs s2 p2,
    @handle_federation_handshake toy_rns toy_ed toy_kx toy_signing demo_fed_ctx (λ _, None) (fz 0)
      demo_fresh (hs_step1 "peer" (replicate 32 3)) demo_fed0
    = (Ok (Step2 (fr_challenge demo_fresh) cr pk), s1)
    ∧ @handle_federation_handshake toy_rns toy_ed toy_kx toy_signing demo_fed_ctx (λ _, None) (fz 1)
        demo_fresh (hs_step3 "peer" (@id_sign toy_signing [7] (replicate 32 9)) (@sig_pub_bytes toy_rns [7])) s1
      = (Ok (Step4 fs), s2)
    ∧ peers (fn_db s2) !! "peer" = Some p2 ∧ peer_federation_trusted p2 = true
    ∧ peer_public_key p2 = Some (@sig_pub_bytes toy_rns [7]).
Proof.
  apply (@handshake_any_key toy_rns toy_ed toy_kx toy_signing toy_rns_laws demo_fed_ctx (λ _, None)
    (fz 0) (fz 1) demo_fresh demo_fresh "peer" (replicate 32 3) (demo_peer false (Some [5])) [7] demo_fed0);
    [discriminate|vm_compute; congruence|vm_compute; reflexivity..].
Defined.

Definition demo_fed1 : FedNode :=
  (@handle_federation_handshake toy_rns toy_ed toy_kx toy_signing demo_fed_ctx (λ _, None) (fz 0)
     demo_fresh (hs_step1 "peer" (replicate 32 3)) demo_fed0).2.
Definition demo_step3 : dict string val :=
  hs_step3 "peer" (@id_sign toy_signing [7] (replicate 32 9)) (@sig_pub_bytes toy_rns [7]).
Definition demo_fed2 : FedNode :=
  (@handle_federation_handshake toy_rns toy_ed toy_kx toy_signing demo_fed_ctx (λ _, None) (fz 1)
     demo_fresh demo_step3 demo_fed1).2.
Definition demo_trusted : Peer :=
  trust_peer (fz 1) (@sig_pub_bytes toy_rns [7]) (greet_peer (fz 0) "peer" (Some "unknown") (Some (demo_peer false (Some [5])))).

Lemma handshake_trust_witness :
  (∃ p, peers (fn_db demo_fed1) !! "peer" = Some p ∧ peer_federation_trusted p = true)
  ∨ (get_str "identity_hash" None demo_step3 = Some "peer" ∧ ∃ c ts key sig,
       dict_get "peer" (fn_pending demo_fed1) = Some (c, ts)
       ∧ get_bytes "peer_public_key" demo_step3 = Some key ∧ zlen key = 32
       ∧ get_bytes "counter_response" demo_step3 = Some sig
       ∧ @ed25519_verify toy_ed key c sig = true ∧ peer_public_key demo_trusted = Some key
       ∧ dict_get "peer" (fn_pending demo_fed2) = None).
Proof.
  apply (@handshake_trust toy_rns toy_ed toy_kx toy_signing demo_fed_ctx (λ _, None) (fz 1) demo_fresh
    demo_step3 demo_fed1 demo_fed2 (Ok (Step4 false))); vm_compute; reflexivity.
Defined.
