(* ===== verification/FedPush.v ===== *)
(** * Federation push ([hokora/federation/pusher.py], [mirror_ingestor.py],
      [protocol/handlers/federation.py], [handle_push_messages])

    The sender's side (a cursor per peer and channel, batches, backoff), the
    handler that receives a batch from a trusted peer, and the ingestion of a
    message that a mirror link delivers.  [RNS.Identity.recall] with an
    identity hash, the clock and the network are arguments. *)

From S2P Require Import Prelude Constants Models Queries Permissions RateLimit Ban Sealed Sequencer Message Ingest Wire Verification History Epoch Invites Session Live FedAuth.

(** ** Values of a relayed message *)

Definition get_val (k : string) (d : dict string val) : val := default VNone (dict_get k d).

(** [d.get(k, 0)] where the code goes on to use a number. *)
Definition get_num (k : string) (d : dict string val) : res float :=
  match dict_get k d with
  | None => Ok (fz 0)
  | Some (VFloat f) => Ok f
  | Some (VInt z) => Ok (fz z)
  | Some _ => Raise (Exn TypeError k)
  end.

(** The body: a string, or nothing. *)
Definition get_body (d : dict string val) : res (option string) :=
  match dict_get "body" d with
  | None => Ok (Some EmptyString)
  | Some (VStr s) => Ok (Some s)
  | Some VNone => Ok None
  | Some _ => Raise (Exn TypeError "body")
  end.

Definition get_epoch_no (d : dict string val) : option Z :=
  match dict_get "encryption_epoch" d with Some (VInt z) => Some z | _ => None end.

(** [(d.get("display_name") or "")[:64] or None] *)
Definition get_name (d : dict string val) : option string :=
  or_none (py_take 64 (or_empty (get_str "display_name" None d))).

(** [MessageModel(...)] of a relayed message. *)
Definition relayed_row (now : float) (h ch : string) (seq : Z) (sender : option string)
    (timestamp : float) (ty : Z) (c : content) (name origin : option string) : Message := {|
  m_msg_hash := h; m_channel_id := ch; m_sender_hash := sender; m_seq := Some seq;
  m_timestamp := timestamp; m_type := ty; m_body := c_body c; m_media_path := None;
  m_media_meta := None; m_reply_to := None; m_thread_seq := None; m_ttl := None;
  m_received_at := now; m_deleted := false; m_deleted_by := None; m_pinned := false;
  m_pinned_at := None; m_edit_chain := []; m_reactions := []; m_lxmf_signature := None;
  m_lxmf_signed_part := None; m_display_name := name; m_mentions := []; m_origin_node := origin;
  m_encrypted_body := c_encrypted_body c; m_encryption_nonce := c_nonce c;
  m_encryption_epoch := c_epoch c |}.

(** [verify_sender_binding] on the fields of a relayed message. *)
Definition binding_of `{RnsIdentity} `{Ed25519} (d : dict string val) (require_signed : bool)
    : M FedNode (bool * option string) :=
  fn_bind_op (verify_sender_binding (get_val "sender_hash" d) (get_val "sender_rns_public_key" d)
                (get_val "lxmf_signed_part" d) (get_val "lxmf_signature" d) require_signed).

(** Numbering, storing and pushing a row to live subscribers. *)
Definition store_relayed `{LinkMdu} `{Msgpack} `{Aead} (live : bool) (net : Net) (now : float)
    (ch : string) (row : Z → res Message) (key : option bytes) : M FedNode Z :=
  let! seq := fn_op (seq_op (SequenceManager.next_seq ch)) in
  let! message := of_res (row seq) in
  fn_op (db_op (MessageRepo.insert message)) ;;
  when live (fn_live_op (LiveSubscriptionManager.push_message net now ch message key)) ;;
  ret seq.

(** ** Receiving a batch *)

Record PushAck := {
  pa_channel_id : string;
  pa_received : list val;
  pa_rejected : list string;
}.

Section push.
Context `{HM : LinkMdu} `{HP : Msgpack} `{HA : Aead} `{HR : RnsIdentity} `{HE : Ed25519}.
Context (ctx : FederationContext) (net : Net) (now : float).

(** The content columns on a sealed and on an open channel; [None] when a
    sealed channel is sent anything but ciphertext. *)
Definition push_content (sealed : bool) (body : option string) (d : dict string val) : option content :=
  if sealed then
    if ostr_true body || negb (olist_true (get_bytes "encrypted_body" d)) then None
    else Some {| c_body := None; c_encrypted_body := get_bytes "encrypted_body" d;
                 c_nonce := get_bytes "encryption_nonce" d; c_epoch := get_epoch_no d |}
  else Some {| c_body := body; c_encrypted_body := None; c_nonce := None; c_epoch := None |}.

Definition push_type (d : dict string val) : option Z :=
  match default (VInt 1) (dict_get "type" d) with
  | VInt z => if bool_decide (z ∈ VALID_MESSAGE_TYPES) then Some z else None
  | _ => None
  end.

Definition handle_pushed (ch node_identity : string) (sealed require_signed : bool)
    (acc : list val * list string) (msg : val) : M FedNode (list val * list string) :=
  match msg with
  | VDict d =>
      let msg_hash := or_empty (get_str "msg_hash" (Some "") d) in
      let rejected := (acc.1, acc.2 ++ [msg_hash]) in
      let! existing := fn_ask (MessageRepo.get_by_hash msg_hash) in
      if bool_decide (is_Some existing)
      then ret (acc.1 ++ [default (VInt 0) (dict_get "seq" d)], acc.2)
      else
        let sender_hash := get_str "sender_hash" None d in
        let! blocked := fn_ask (is_blocked (or_empty sender_hash)) in
        if ostr_true sender_hash && blocked then
          modify (λ s, fn_set_bans (record_ban_rejection "federation_push" (fn_bans s)) s) ;;
          ret rejected
        else
          let! (ok, reason) := binding_of d require_signed in
          if negb ok then ret rejected
          else
            match push_type d with
            | None => ret rejected
            | Some ty =>
                let! body := of_res (get_body d) in
                if MAX_MESSAGE_BODY_SIZE <? utf8_len (or_empty body) then ret rejected
                else
                  match push_content sealed body d with
                  | None => ret rejected
                  | Some c =>
                      let! seq := store_relayed (fc_live_manager ctx) net now ch
                        (λ seq, match get_num "timestamp" d with
                                | Ok ts => Ok (relayed_row now msg_hash ch seq sender_hash ts ty c
                                                 (get_name d) (Some node_identity))
                                | Raise e => Raise e
                                end) (get_bytes "sender_public_key" d) in
                      ret (acc.1 ++ [VInt seq], acc.2)
                  end
            end
  | _ => raise AttributeError "get"
  end.

Definition push_require_signed : bool :=
  match fc_config ctx with Some c => require_signed_federation c | None => false end.

Definition pushed_messages (payload : dict string val) : res (list val) :=
  match dict_get "messages" payload with
  | None => Ok []
  | Some (VList l) => Ok l
  | Some _ => Raise (Exn TypeError "messages")
  end.

Definition handle_push_messages (payload : dict string val) (channel_id : option string)
    : M FedNode PushAck :=
  let ch := get_str "channel_id" channel_id payload in
  if negb (ostr_true ch) then raise SyncError "No channel_id in push_messages"
  else
    let ch := or_empty ch in
    match get_str "node_identity" None payload with
    | Some node_identity =>
        if negb (str_true node_identity) then raise SyncError "Push rejected: missing node_identity"
        else
          let! peer := fn_ask (λ db, peers db !! node_identity) in
          if negb (match peer with Some p => peer_federation_trusted p | None => false end)
          then raise SyncError "Push rejected: peer not trusted"
          else
            let! sealed := fn_ask (λ db, _channel_is_sealed (ChannelRepo.get_by_id ch db)) in
            let! ms := of_res (pushed_messages payload) in
            let! acc := mfold (handle_pushed ch node_identity sealed push_require_signed) ([], []) ms in
            ret {| pa_channel_id := ch; pa_received := acc.1; pa_rejected := acc.2 |}
    | None => raise SyncError "Push rejected: missing node_identity"
    end.
End push.

(** ** A message from a mirror *)

Definition _MIRROR_MAX_AGE_SECONDS : Z := 30 * 86400.

Section mirror_ingestor.
Context `{HM : LinkMdu} `{HP : Msgpack} `{HA : Aead} `{HR : RnsIdentity} `{HE : Ed25519}.
Context (live_manager require_signed : bool) (net : Net).

(** The transaction of an accepted message. *)
Definition mirror_store (now : float) (channel_id : string) (d : dict string val) (peer_hash sender : string)
    (body : option string) (timestamp : float) : M FedNode unit :=
  let h := or_empty (get_str "msg_hash" (Some "") d) in
  let! existing := fn_ask (MessageRepo.get_by_hash h) in
  if bool_decide (is_Some existing) then ret tt
  else
    let! channel := fn_ask (ChannelRepo.get_by_id channel_id) in
    match validate_mirror_payload channel body (get_bytes "encrypted_body" d)
            (get_bytes "encryption_nonce" d) (get_epoch_no d) with
    | Raise _ => ret tt
    | Ok c =>
        store_relayed live_manager net now channel_id
          (λ seq, match get_int "type" 1 d with
                  | Ok ty => Ok (relayed_row now h channel_id seq (Some sender) timestamp ty c (get_name d)
                                   (if str_true peer_hash then Some peer_hash
                                    else get_str "origin_node" None d))
                  | Raise e => Raise e
                  end) (get_bytes "sender_public_key" d) ;;
        ret tt
    end.

Definition mirror_ingest_body (now : float) (channel_id : string) (d : dict string val) (peer_hash : string)
    : M FedNode unit :=
  let! body := of_res (get_body d) in
  if MAX_MESSAGE_BODY_SIZE <? utf8_len (or_empty body) then ret tt
  else
    match get_str "sender_hash" None d with
    | None => ret tt
    | Some sender =>
        if py_len sender <? 16 then ret tt
        else
          let! timestamp := of_res (get_num "timestamp" d) in
          if flt (now + fz CLOCK_DRIFT_TOLERANCE)%F timestamp
             || flt timestamp (now - fz _MIRROR_MAX_AGE_SECONDS)%F then ret tt
          else
            let! (ok, reason) := binding_of d require_signed in
            if negb ok then ret tt
            else atomic (λ s0 s1, fn_set_node (set_db (fn_db s0) (fn_node s1)) s1)
                   (mirror_store now channel_id d peer_hash sender body timestamp)
    end.

Definition mirror_ingest (now : float) (channel_id : string) (d : dict string val) (peer_hash : string)
    : M FedNode unit :=
  catch (mirror_ingest_body now channel_id d peer_hash) (λ _, ret tt).
End mirror_ingestor.

(** ** Sending *)

Definition PUSH_BATCH_SIZE : Z := 15.

Module FederationPusher.

Record t := {
  peer_identity_hash : string;
  channel_id : string;
  node_identity_hash : string;
  _link : bool;
  _session_factory : bool;
  _push_cursor : Z;
  _epoch_manager : option EpochManager;
  _consecutive_failures : Z;
  _last_attempt : float;
  _backoff_base : float;
  _max_backoff : float;
  fp_sent : list bytes;                            (* requests handed to RNS.Packet *)
  fp_saved : list Z;                               (* calls of the cursor callback *)
}.

Definition init (peer ch node : string) (max_backoff : float) : t := {|
  peer_identity_hash := peer; channel_id := ch; node_identity_hash := node; _link := false;
  _session_factory := true; _push_cursor := 0; _epoch_manager := None; _consecutive_failures := 0;
  _last_attempt := fz 0; _backoff_base := fz 30; _max_backoff := max_backoff; fp_sent := [];
  fp_saved := [] |}.

Definition set_link (link : bool) (s : t) : t := {|
  peer_identity_hash := peer_identity_hash s; channel_id := channel_id s;
  node_identity_hash := node_identity_hash s; _link := link; _session_factory := _session_factory s;
  _push_cursor := _push_cursor s; _epoch_manager := _epoch_manager s;
  _consecutive_failures := _consecutive_failures s; _last_attempt := _last_attempt s;
  _backoff_base := _backoff_base s; _max_backoff := _max_backoff s; fp_sent := fp_sent s;
  fp_saved := fp_saved s |}.
(** [push_cursor] and the callback that saves it. *)
Definition advance (n : Z) (s : t) : t := {|
  peer_identity_hash := peer_identity_hash s; channel_id := channel_id s;
  node_identity_hash := node_identity_hash s; _link := _link s; _session_factory := _session_factory s;
  _push_cursor := n; _epoch_manager := _epoch_manager s;
  _consecutive_failures := _consecutive_failures s; _last_attempt := _last_attempt s;
  _backoff_base := _backoff_base s; _max_backoff := _max_backoff s; fp_sent := fp_sent s;
  fp_saved := fp_saved s ++ [n] |}.
Definition succeed (sent : list bytes) (em : option EpochManager) (s : t) : t := {|
  peer_identity_hash := peer_identity_hash s; channel_id := channel_id s;
  node_identity_hash := node_identity_hash s; _link := _link s; _session_factory := _session_factory s;
  _push_cursor := _push_cursor s; _epoch_manager := em; _consecutive_failures := 0;
  _last_attempt := _last_attempt s; _backoff_base := _backoff_base s; _max_backoff := _max_backoff s;
  fp_sent := fp_sent s ++ sent; fp_saved := fp_saved s |}.
Definition fail_at (now : float) (em : option EpochManager) (s : t) : t := {|
  peer_identity_hash := peer_identity_hash s; channel_id := channel_id s;
  node_identity_hash := node_identity_hash s; _link := _link s; _session_factory := _session_factory s;
  _push_cursor := _push_cursor s; _epoch_manager := em;
  _consecutive_failures := _consecutive_failures s + 1; _last_attempt := now;
  _backoff_base := _backoff_base s; _max_backoff := _max_backoff s; fp_sent := fp_sent s;
  fp_saved := fp_saved s |}.

(** [min(base * 2 ** (failures - 1), max)], before the jitter: the product
    converts the power to a float, which fails from 2 ** 1024 on. *)
Definition backoff (s : t) : res float :=
  if 1024 <=? _consecutive_failures s - 1 then Raise (Exn OverflowError "int too large to convert to float")
  else Ok (fmin (_backoff_base s * fz (2 ^ (_consecutive_failures s - 1)))%F (_max_backoff s)).

(** [jitter] is [random.random()]. *)
Definition _should_retry (now jitter : float) (s : t) : res bool :=
  if _consecutive_failures s =? 0 then Ok true
  else
    match backoff s with
    | Raise e => Raise e
    | Ok b =>
        let delay := (b * (QArith_base.Qmake 3 4 + jitter * QArith_base.Qmake 1 2))%F in
        Ok (fle delay (now - _last_attempt s)%F)
    end.

(** The batch, and what is left of it: not the peer's own messages, not those
    of banned senders. *)
Definition batch (s : t) (db : DB) : list Message :=
  MessageRepo.get_history (channel_id s) (_push_cursor s) PUSH_BATCH_SIZE "forward" None db.
Definition pushable (s : t) (db : DB) (m : Message) : bool :=
  negb (bool_decide (m_origin_node m = Some (peer_identity_hash s)))
  && negb (match m_sender_hash m with Some h => is_blocked h db | None => false end).
Definition max_seq (s : t) (ms : list Message) : Z := foldl (λ n m, Z.max n (seq_of m)) (_push_cursor s) ms.

Section send.
Context `{HP : Msgpack} `{HA : Aead} (recall : bytes → option bytes).

(** The document of a message, with the sender's RNS key when it is known. *)
Definition attach_key (node : string) (d : dict string val) : dict string val :=
  let d := dict_set "origin_node" (VStr node) d in
  match dict_get "sender_hash" d with
  | Some (VStr sh) =>
      match (if str_true sh then fromhex (chars_of sh) ≫= recall else None) with
      | Some rns_pk =>
          if zlen rns_pk =? 64
          then dict_set "sender_public_key" (VBytes (drop 32 rns_pk))
                 (dict_set "sender_rns_public_key" (VBytes rns_pk) d)
          else d
      | None => d
      end
  | _ => d
  end.

Definition encode_push (s : t) (m : Message) : dict string val :=
  attach_key (node_identity_hash s) (encode_message_for_sync m).

Definition push_payload (s : t) (ms : list Message) : dict string val :=
  [("channel_id", VStr (channel_id s)); ("messages", VList (map (λ m, VDict (encode_push s m)) ms));
   ("node_identity", VStr (node_identity_hash s))].

(** The request, encrypted when the peers have an epoch. *)
Definition push_request (nonce : bytes) (s : t) (ms : list Message) : res bytes * option EpochManager :=
  match encode_sync_request SYNC_PUSH_MESSAGES nonce (Some (push_payload s ms)) with
  | Raise e => (Raise e, _epoch_manager s)
  | Ok request =>
      match _epoch_manager s with
      | Some em => if is_active em then let (r, em') := encrypt request em in (r, Some em')
                   else (Ok request, Some em)
      | None => (Ok request, None)
      end
  end.

(** [send_ok]: whether [RNS.Packet(...).send()] returns. *)
Definition push_pending (now : float) (nonce : bytes) (send_ok : bool) (db : DB) (s : t) : bool * t :=
  if negb (_link s) || negb (_session_factory s) then (false, fail_at now (_epoch_manager s) s)
  else
    let ms := batch s db in
    let to_push := List.filter (pushable s db) ms in
    let top := max_seq s ms in
    if negb (list_true to_push) then
      let s := if list_true ms && (_push_cursor s <? top) then advance top s else s in
      (true, succeed [] (_epoch_manager s) s)
    else
      match push_request nonce s to_push with
      | (Ok request, em) => if send_ok then (true, succeed [request] em s) else (false, fail_at now em s)
      | (Raise _, em) => (false, fail_at now em s)
      end.

(** The acknowledged numbers; [max] of something that is not a number raises. *)
Fixpoint ack_numbers (l : list val) : res (list Z) :=
  match l with
  | [] => Ok []
  | VInt z :: l => match ack_numbers l with Ok zs => Ok (z :: zs) | Raise e => Raise e end
  | _ :: _ => Raise (Exn TypeError "max")
  end.

Definition handle_push_ack (received : list val) : M t unit :=
  let! zs := of_res (ack_numbers received) in
  match zs with
  | [] => ret tt
  | z :: zs =>
      let top := foldr Z.max z zs in
      let! s := get in
      when (_push_cursor s <? top) (modify (advance top))
  end.
End send.
End FederationPusher.

(** ** What a batch may change *)

(** A step that keeps the invariant of the rows, touches no stored row, adds
    only rows with [P], and changes nothing else the checks read. *)
Record adds (P : Message → Prop) (ch : string) (s s' : FedNode) : Prop := {
  ad_ok : db_ok (fn_db s) → db_ok (fn_db s');
  ad_frame : Ingest.frame ch (fn_db s) (fn_db s');
  ad_kept : ∀ h m, messages (fn_db s) !! h = Some m → messages (fn_db s') !! h = Some m;
  ad_new : ∀ h m, messages (fn_db s') !! h = Some m → messages (fn_db s) !! h = None → P m;
  ad_peers : peers (fn_db s') = peers (fn_db s);
  ad_sealed : ∀ id, _channel_is_sealed (channels (fn_db s') !! id)
                    = _channel_is_sealed (channels (fn_db s) !! id);
}.

#[export] Instance adds_preorder P ch : PreOrder (adds P ch).
Proof.
  split; [intros s; split; try done; congruence|].
  intros a b c [A1 A2 A3 A4 A5 A6] [B1 B2 B3 B4 B5 B6]. split; [auto|by etrans|auto| |congruence|congruence].
  intros h m Hc Ha. destruct (messages (fn_db b) !! h) as [m'|] eqn:Hb; [|by eapply B4].
  specialize (B3 _ _ Hb). simplify_eq. by eapply A4.
Qed.

Lemma adds_same P ch s s' : fn_db s' = fn_db s → adds P ch s s'.
Proof. intros E. split; rewrite E; try done; congruence. Qed.

Lemma relayed_content sealed now h ch n sender ts ty c name origin :
  content_ok sealed c → content_ok sealed (row_content (relayed_row now h ch n sender ts ty c name origin)).
Proof. by destruct c. Qed.

(** The row [store_relayed] stores. *)
Lemma store_relayed_ok `{LinkMdu} `{Msgpack} `{Aead} live net now ch row key s n s' :
  store_relayed live net now ch row key s = (Ok n, s') →
  (∀ m, row n = Ok m → m_channel_id m = ch ∧ m_seq m = Some n ∧ m_thread_seq m = None
        ∧ content_ok (_channel_is_sealed (channels (fn_db s) !! ch)) (row_content m)) →
  ∃ m, row n = Ok m ∧ messages (fn_db s) !! m_msg_hash m = None
  ∧ messages (fn_db s') = <[m_msg_hash m := m]> (messages (fn_db s))
  ∧ adds (λ m', m' = m) ch s s'.
Proof.
  unfold store_relayed. intros (n0 & s1 & Hn & Hk)%bind_ok Hrow.
  apply lift_ok in Hn as (nd1 & Hn & ->). apply bind_ok in Hk as (m & s2 & [= Hm <-] & Hk).
  apply bind_ok in Hk as (u & s2 & Hi & Hk). apply lift_ok in Hi as (nd2 & Hi & ->).
  apply db_insert_ok in Hi as [Hnew Hdb]. simpl in Hnew, Hdb.
  assert (Hs' : n = n0 ∧ fn_db s' = n_db nd2).
  { apply bind_ok in Hk as (u' & s3 & Hl & [= <- <-]). split; [done|]. destruct live; simpl in Hl.
    - apply lift_ok in Hl as (l & _ & ->). done.
    - injection Hl as _ <-. done. }
  destruct Hs' as [-> Edb]. destruct (Hrow m Hm) as (Hch & Hs & Ht & Hc). exists m.
  pose proof (next_seq_frame _ _ _ _ Hn) as Hf.
  destruct (channels (fn_db s) !! ch) as [c|] eqn:Ec.
  2:{ apply lift_ok in Hn as ([d2 g2] & Hn & _).
      destruct (next_seq_missing ch (fn_db s) (n_seq (fn_node s)) Ec) as (err & mgr1 & E). unfold fn_db in E. congruence. }
  assert (Hdb1 : n_db nd1 = set_channels (<[ch := ChannelRepo.bump_seq c]>) (fn_db s)).
  { apply lift_ok in Hn as ([d2 g2] & Hn & ->). simpl.
    destruct (next_seq_run ch (fn_db s) (n_seq (fn_node s)) c Ec) as (mgr' & E & _).
    unfold fn_db in E. rewrite E in Hn. by injection Hn as _ <- <-. }
  assert (Hmm : messages (n_db nd1) = messages (fn_db s)) by (by rewrite Hdb1).
  rewrite Edb, Hdb, <- Hmm. split_and!; [done|done|done|]. split; rewrite Edb, Hdb; simpl.
  - intros Hok. eapply (effect_numbered_insert (fn_db s)); [|done|].
    + rewrite Hch, Hs, Ht. by eapply next_seq_numbered.
    + done.
  - etrans; [exact Hf|]. rewrite <- Hch. by apply frame_insert.
  - intros h m' Hl. rewrite Hmm, lookup_insert_ne; [done|]. intros <-. rewrite Hmm in Hnew. congruence.
  - intros h m' Hl Hn'. apply lookup_insert_Some in Hl as [[_ <-]|[_ Hl]]; [done|]. rewrite Hmm in Hl. congruence.
  - by rewrite Hdb1.
  - intros id. rewrite Hdb1. simpl. destruct (decide (id = ch)) as [->|Hne].
    + rewrite lookup_insert_eq, Ec. done.
    + by rewrite lookup_insert_ne.
Qed.

Section received.
Context `{HM : LinkMdu} `{HP : Msgpack} `{HA : Aead} `{HR : RnsIdentity} `{HE : Ed25519}.
Context (ctx : FederationContext) (net : Net) (now : float).

Definition doc_hash (d : dict string val) : string := or_empty (get_str "msg_hash" (Some "") d).

Definition doc_bound (d : dict string val) (req : bool) : bool :=
  match (verify_sender_binding (get_val "sender_hash" d) (get_val "sender_rns_public_key" d)
           (get_val "lxmf_signed_part" d) (get_val "lxmf_signature" d) req ∅).1 with
  | Ok (ok, _) => ok
  | Raise _ => false
  end.

Definition doc_banned (d : dict string val) (db : DB) : bool :=
  ostr_true (get_str "sender_hash" None d) && is_blocked (or_empty (get_str "sender_hash" None d)) db.

(** A message the checks turn down, whatever is stored. *)
Definition refused (sealed req : bool) (d : dict string val) (db : DB) : bool :=
  doc_banned d db || negb (doc_bound d req)
  || match push_type d with
     | None => true
     | Some _ =>
         match get_body d with
         | Ok body => (MAX_MESSAGE_BODY_SIZE <? utf8_len (or_empty body))
                      || negb (bool_decide (is_Some (push_content sealed body d)))
         | Raise _ => false
         end
     end.

(** A row made of an accepted document. *)
Definition accepted (ch node : string) (sealed req : bool) (ms : list val) (db : DB) (m : Message) : Prop :=
  ∃ d, VDict d ∈ ms ∧ refused sealed req d db = false
  ∧ m_msg_hash m = doc_hash d ∧ m_channel_id m = ch ∧ m_origin_node m = Some node
  ∧ m_sender_hash m = get_str "sender_hash" None d ∧ m_type m ∈ VALID_MESSAGE_TYPES
  ∧ content_ok sealed (row_content m).

Lemma binding_of_run d req s :
  ∃ r s', binding_of d req s = (Ok (doc_bound d req, r), s') ∧ fn_node s' = fn_node s
  ∧ (doc_bound d req = true → s' = s).
Proof using.
  unfold binding_of, doc_bound, fn_bind_op, lift.
  set (v := verify_sender_binding _ _ _ _ _).
  destruct (binding_run (get_val "sender_hash" d) (get_val "sender_rns_public_key" d)
    (get_val "lxmf_signed_part" d) (get_val "lxmf_signature" d) req (fn_bindings s)) as [[E Hb]|(l & r & E & Hb)];
  fold v in E; rewrite E;
  destruct (binding_run (get_val "sender_hash" d) (get_val "sender_rns_public_key" d)
    (get_val "lxmf_signed_part" d) (get_val "lxmf_signature" d) req ∅) as [[E' Hb']|(l' & r' & E' & Hb')];
  fold v in E'; rewrite E'; try done; simpl.
  - eexists _, _. split_and!; [done|done|]. by destruct s.
  - eexists _, _. by split_and!.
Qed.

Lemma push_content_ok sealed body d c : push_content sealed body d = Some c → content_ok sealed c.
Proof using.
  unfold push_content, content_ok. destruct sealed; [|by intros [= <-]].
  destruct (_ || _); [done|]. by intros [= <-].
Qed.

Lemma push_type_valid d ty : push_type d = Some ty → ty ∈ VALID_MESSAGE_TYPES.
Proof using.
  unfold push_type. destruct (default _ _); try done. case_bool_decide; [|done]. by intros [= <-].
Qed.

(** The three ways a document is handled. *)
Lemma handle_pushed_stored ch node sealed req acc d s :
  is_Some (messages (fn_db s) !! doc_hash d) →
  ∃ acc', handle_pushed ctx net now ch node sealed req acc (VDict d) s = (Ok acc', s).
Proof using.
  intros Hs. unfold handle_pushed, bind, fn_ask, gets, MessageRepo.get_by_hash. fold (doc_hash d).
  rewrite bool_decide_eq_true_2 by done. by eexists.
Qed.

Lemma handle_pushed_refused ch node sealed req acc d s :
  messages (fn_db s) !! doc_hash d = None → refused sealed req d (fn_db s) = true →
  ∃ s', handle_pushed ctx net now ch node sealed req acc (VDict d) s
        = (Ok (acc.1, acc.2 ++ [doc_hash d]), s') ∧ fn_node s' = fn_node s.
Proof using.
  intros Hs Hr. unfold handle_pushed, bind, fn_ask, gets, MessageRepo.get_by_hash. fold (doc_hash d).
  rewrite Hs, bool_decide_eq_false_2 by (by intros [? ?]). cbv beta iota.
  unfold refused, doc_banned in Hr. destruct (_ && is_blocked _ _) eqn:Eb; [by eexists|]. simpl in Hr.
  destruct (binding_of_run d req s) as (r & s1 & E1 & En & Es). rewrite E1.
  destruct (doc_bound d req); simpl in *; [|by eexists]. rewrite (Es eq_refl).
  destruct (push_type d) as [ty|]; [|by eexists]. destruct (get_body d) as [body|e]; [|done]. simpl.
  destruct (_ <? _); [by eexists|]. simpl in Hr. destruct (push_content sealed body d); [done|by eexists].
Qed.

Lemma handle_pushed_accepted ch node sealed req acc d s acc' s' :
  messages (fn_db s) !! doc_hash d = None → refused sealed req d (fn_db s) = false →
  _channel_is_sealed (channels (fn_db s) !! ch) = sealed →
  handle_pushed ctx net now ch node sealed req acc (VDict d) s = (Ok acc', s') →
  ∃ n m, acc' = (acc.1 ++ [VInt n], acc.2) ∧ m_seq m = Some n ∧ m_msg_hash m = doc_hash d
  ∧ messages (fn_db s') = <[doc_hash d := m]> (messages (fn_db s))
  ∧ adds (accepted ch node sealed req [VDict d] (fn_db s)) ch s s'.
Proof using.
  intros Hs Hr Hsl. unfold handle_pushed.
  rewrite (bind_run_ok _ _ s None s) by (unfold fn_ask, gets, MessageRepo.get_by_hash; by fold (doc_hash d); rewrite Hs).
  rewrite bool_decide_eq_false_2 by (by intros [? ?]). cbv zeta.
  rewrite (bind_run_ok _ _ s _ s) by reflexivity. fold (doc_hash d).
  pose proof Hr as Hr0. unfold refused, doc_banned in Hr.
  destruct (_ && is_blocked _ _) eqn:Eb; [done|]. simpl in Hr.
  destruct (binding_of_run d req s) as (r & s1 & E1 & En & Es). rewrite (bind_run_ok _ _ _ _ _ E1).
  destruct (doc_bound d req); simpl in Hr; [|done]. rewrite (Es eq_refl). cbn [negb].
  destruct (push_type d) as [ty|] eqn:Et; [|done]. destruct (get_body d) as [body|e]; [|done].
  rewrite (bind_run_ok _ _ s body s) by reflexivity.
  destruct (_ <? _); [done|]. destruct (push_content sealed body d) as [c|] eqn:Ec; [|done].
  intros (n & s2 & Hst & [= <- <-])%bind_ok. destruct (get_num "timestamp" d) as [ts|e] eqn:Ets.
  2:{ unfold store_relayed in Hst. apply bind_ok in Hst as (? & ? & _ & Hst). by apply bind_ok in Hst as (? & ? & ? & _). }
  apply store_relayed_ok in Hst as (m & [= <-] & Hnew & Hms & Had).
  - eexists n, _. split; [done|]. split; [|split; [|split; [exact Hms|]]]; [done..|].
    destruct Had as [A1 A2 A3 A4 A5 A6]. split; try done.
    intros h m Hl Hn. rewrite (A4 h m Hl Hn). exists d. split_and!; try done; [left|by eapply push_type_valid|].
    by eapply relayed_content, push_content_ok.
  - intros m [= <-]. split_and!; [done..|]. rewrite Hsl. by eapply relayed_content, push_content_ok.
Qed.

Lemma refused_blocked sealed req d db db' :
  (∀ id, is_blocked id db' = is_blocked id db) → refused sealed req d db' = refused sealed req d db.
Proof using. intros E. unfold refused, doc_banned. by rewrite E. Qed.

Lemma accepted_mono ch node sealed req ms ms' db db' m :
  (∀ x, x ∈ ms → x ∈ ms') → (∀ id, is_blocked id db' = is_blocked id db) →
  accepted ch node sealed req ms db' m → accepted ch node sealed req ms' db m.
Proof using.
  intros Hsub Hb (d & Hd & Hr & H). exists d. rewrite (refused_blocked _ _ _ db) in Hr by done. eauto 10.
Qed.

(** A document is settled when it is stored or will be refused. *)
Definition settled (sealed req : bool) (v : val) (db : DB) : Prop :=
  ∃ d, v = VDict d ∧ (is_Some (messages db !! doc_hash d) ∨ refused sealed req d db = true).

(** One document: what it adds, and that it is settled afterwards. *)
Lemma handle_pushed_step ch node sealed req acc v s acc' s' :
  _channel_is_sealed (channels (fn_db s) !! ch) = sealed →
  handle_pushed ctx net now ch node sealed req acc v s = (Ok acc', s') →
  adds (accepted ch node sealed req [v] (fn_db s)) ch s s' ∧ settled sealed req v (fn_db s').
Proof using.
  intros Hsl H. destruct v as [|?|?|?|?|?|?|d]; try done.
  destruct (messages (fn_db s) !! doc_hash d) as [m|] eqn:Em.
  - destruct (handle_pushed_stored ch node sealed req acc d s) as (a & E); [by eauto|].
    rewrite E in H. injection H as <- <-. split; [done|]. exists d. eauto.
  - destruct (refused sealed req d (fn_db s)) eqn:Er.
    + destruct (handle_pushed_refused ch node sealed req acc d s Em Er) as (s1 & E & En).
      rewrite E in H. injection H as <- <-. assert (fn_db s1 = fn_db s) as Edb by (unfold fn_db; by rewrite En).
      split; [by apply adds_same|]. exists d. rewrite Edb. auto.
    + destruct (handle_pushed_accepted ch node sealed req acc d s acc' s' Em Er Hsl H)
        as (n & m & -> & _ & Hh & Hms & Had). split; [done|]. exists d. split; [done|]. left.
      rewrite Hms, lookup_insert_eq. eauto.
Qed.

Lemma settled_adds P ch sealed req v s s' :
  adds P ch s s' → settled sealed req v (fn_db s) → settled sealed req v (fn_db s').
Proof using.
  intros [_ Hf Hk _ _ _] (d & -> & [[m Hm]|Hr]); exists d; (split; [done|]).
  - left. rewrite (Hk _ _ Hm). eauto.
  - right. rewrite (refused_blocked _ _ _ (fn_db s)); [done|]. apply Hf.
Qed.

(** A batch: what it adds, and that all of it is settled afterwards. *)
Lemma pushed_batch ch node sealed req ms acc s acc' s' :
  _channel_is_sealed (channels (fn_db s) !! ch) = sealed →
  mfold (handle_pushed ctx net now ch node sealed req) acc ms s = (Ok acc', s') →
  adds (accepted ch node sealed req ms (fn_db s)) ch s s'
  ∧ Forall (λ v, settled sealed req v (fn_db s')) ms.
Proof using.
  revert acc s. induction ms as [|v ms IH]; intros acc s Hsl; simpl; [by intros [= _ <-]|].
  intros (acc1 & s1 & H1 & H2)%bind_ok.
  destruct (handle_pushed_step _ _ _ _ _ _ _ _ _ Hsl H1) as [Ha Hset].
  destruct (IH acc1 s1) as [Hb Hall]; [rewrite (ad_sealed _ _ _ _ Ha); done|done|]. split.
  - trans s1.
    + destruct Ha as [A1 A2 A3 A4 A5 A6]. split; try done. intros h m Hl Hn.
      eapply accepted_mono; [| |by eapply A4]; [|done]. intros x ->%list_elem_of_singleton. left.
    + pose proof (fr_blocked _ _ _ (ad_frame _ _ _ _ Ha)) as Hblk.
      destruct Hb as [B1 B2 B3 B4 B5 B6]. split; try done. intros h m Hl Hn.
      eapply accepted_mono; [| |by eapply B4]; [by right|done].
  - constructor; [by eapply settled_adds|done].
Qed.

(** Settled documents change nothing when they come again. *)
Lemma settled_batch ch node sealed req ms acc s :
  Forall (λ v, settled sealed req v (fn_db s)) ms →
  ∃ acc' s', mfold (handle_pushed ctx net now ch node sealed req) acc ms s = (Ok acc', s')
  ∧ fn_node s' = fn_node s.
Proof using.
  revert acc s. induction ms as [|v ms IH]; intros acc s Hall; [by do 2 eexists|].
  apply Forall_cons in Hall as [(d & -> & Hd) Hall].
  assert (H1 : ∃ acc1 s1, handle_pushed ctx net now ch node sealed req acc (VDict d) s = (Ok acc1, s1)
                          ∧ fn_node s1 = fn_node s).
  { destruct (messages (fn_db s) !! doc_hash d) as [m|] eqn:Em.
    - destruct (handle_pushed_stored ch node sealed req acc d s) as (a & E); [by eauto|]. eauto.
    - destruct Hd as [[? ?]|Hd]; [congruence|].
      destruct (handle_pushed_refused ch node sealed req acc d s Em Hd) as (s1 & E & En). eauto. }
  destruct H1 as (acc1 & s1 & E1 & En1). simpl. rewrite (bind_run_ok _ _ _ _ _ E1).
  destruct (IH acc1 s1) as (acc2 & s2 & E2 & En2).
  - unfold fn_db in *. by rewrite En1.
  - exists acc2, s2. split; [done|congruence].
Qed.

Lemma handle_push_messages_ok payload cid s a s' :
  handle_push_messages ctx net now payload cid s = (Ok a, s') →
  ∃ node p ms acc, get_str "node_identity" None payload = Some node ∧ str_true node = true
  ∧ peers (fn_db s) !! node = Some p ∧ peer_federation_trusted p = true
  ∧ get_str "channel_id" cid payload = Some (pa_channel_id a) ∧ str_true (pa_channel_id a) = true
  ∧ pushed_messages payload = Ok ms
  ∧ mfold (handle_pushed ctx net now (pa_channel_id a) node
             (_channel_is_sealed (channels (fn_db s) !! pa_channel_id a)) (push_require_signed ctx))
      ([], []) ms s = (Ok acc, s')
  ∧ a = {| pa_channel_id := pa_channel_id a; pa_received := acc.1; pa_rejected := acc.2 |}.
Proof using.
  unfold handle_push_messages. cbv zeta. destruct (get_str "channel_id" cid payload) as [ch|]; [|done].
  destruct (ostr_true (Some ch)) eqn:Ech; simpl; [|done].
  destruct (get_str "node_identity" None payload) as [node|]; [|done].
  destruct (str_true node) eqn:En; simpl; [|done]. unfold bind at 1, fn_ask, gets. cbv beta iota.
  destruct (peers (fn_db s) !! node) as [p|] eqn:Ep; simpl; [|done].
  destruct (peer_federation_trusted p) eqn:Et; simpl; [|done].
  intros (sl & s1 & [= <- <-] & H)%bind_ok. apply bind_ok in H as (ms & s1 & [= Hm <-] & H).
  apply bind_ok in H as (acc & s1 & Hf & [= <- <-]). exists node, p, ms, acc. by split_and!.
Qed.
End received.

(** C6: a batch from a peer is stored safely.  It is only answered when the
    pusher is a trusted peer; every stored row stays as it was, other channels
    are untouched and the invariant of the database is kept; and every new row
    comes from a document of the batch whose sender is not banned and is bound
    to its key, with a valid type, ciphertext exactly on a sealed channel, and
    the pusher as its origin. *)
Theorem push_stored_safely {HM : LinkMdu} {HP : Msgpack} {HA : Aead} {HR : RnsIdentity} {HE : Ed25519}
    (ctx : FederationContext) (net : Net) (now : float) (payload : dict string val)
    (cid : option string) (s s' : FedNode) (a : PushAck) :
  handle_push_messages ctx net now payload cid s = (Ok a, s') →
  ∃ node p ms, get_str "node_identity" None payload = Some node
  ∧ peers (fn_db s) !! node = Some p ∧ peer_federation_trusted p = true
  ∧ pushed_messages payload = Ok ms
  ∧ adds (accepted (pa_channel_id a) node (_channel_is_sealed (channels (fn_db s) !! pa_channel_id a))
            (push_require_signed ctx) ms (fn_db s)) (pa_channel_id a) s s'.
Proof.
  intros (node & p & ms & acc & Hn & _ & Hp & Ht & _ & _ & Hms & Hf & _)%handle_push_messages_ok.
  apply pushed_batch in Hf as [Ha _]; [|done]. exists node, p, ms. by split_and!.
Qed.

(** receiving a batch again changes nothing: the second run of the same
    request succeeds and leaves the database, the numbering and the rate
    limiter exactly as the first run left them. *)
Theorem push_idempotent {HM : LinkMdu} {HP : Msgpack} {HA : Aead} {HR : RnsIdentity} {HE : Ed25519}
    (ctx : FederationContext) (net net' : Net) (now now' : float) (payload : dict string val)
    (cid : option string) (s s' : FedNode) (a : PushAck) :
  handle_push_messages ctx net now payload cid s = (Ok a, s') →
  ∃ a' s2, handle_push_messages ctx net' now' payload cid s' = (Ok a', s2)
  ∧ fn_node s2 = fn_node s'.
Proof.
  intros (node & p & ms & acc & Hn & Hs & Hp & Ht & Hc & Hcs & Hms & Hf & _)%handle_push_messages_ok.
  apply pushed_batch in Hf as [Ha Hset]; [|done].
  unfold handle_push_messages. rewrite Hc, Hn. simpl. rewrite Hcs, Hs. simpl.
  unfold bind at 1, fn_ask at 1, gets at 1. rewrite (ad_peers _ _ _ _ Ha), Hp. simpl. rewrite Ht. simpl.
  rewrite (bind_run_ok _ _ s' (_channel_is_sealed (channels (fn_db s) !! pa_channel_id a)) s')
    by (unfold fn_ask, gets, ChannelRepo.get_by_id; by rewrite (ad_sealed _ _ _ _ Ha)).
  rewrite Hms.
  rewrite (bind_run_ok _ _ s' ms s') by reflexivity.
  destruct (settled_batch ctx net' now' (pa_channel_id a) node _ _ ms ([], []) s' Hset) as (acc2 & s2 & E & En).
  rewrite (bind_run_ok _ _ _ _ _ E). eauto.
Qed.

(** ** From the sender's rows to the receiver's *)

Import FederationPusher.

Section delivery.
Context `{HM : LinkMdu} `{HP : Msgpack} `{HA : Aead} `{HR : RnsIdentity} `{HE : Ed25519}.
Context (ctx : FederationContext) (net : Net) (now : float) (recall : bytes → option bytes).

Lemma attach_key_get k node d :
  k ∉ ["origin_node"; "sender_public_key"; "sender_rns_public_key"] →
  dict_get k (attach_key recall node d) = dict_get k d.
Proof using.
  rewrite !not_elem_of_cons. intros (H1 & H2 & H3 & _).
  assert (E : dict_get k (dict_set "origin_node" (VStr node) d) = dict_get k d) by by apply dict_get_set_ne.
  unfold attach_key. destruct (dict_get "sender_hash" _) as [[]|]; try done.
  destruct (if str_true _ then _ else _) as [pk|]; [|done]. destruct (zlen pk =? 64); [|done].
  by rewrite !dict_get_set_ne.
Qed.

Definition unattached (k : string) : bool :=
  bool_decide (k ∉ ["origin_node"; "sender_public_key"; "sender_rns_public_key"]).

Lemma encode_push_get k pu m :
  unattached k = true → dict_get k (encode_push recall pu m) = dict_get k (encode_message_for_sync m).
Proof using. intros H%bool_decide_eq_true. by apply attach_key_get. Qed.

(** What the checks read of a pushed row. *)
Lemma push_doc pu m :
  let d := encode_push recall pu m in
  doc_hash d = m_msg_hash m ∧ get_body d = Ok (Some (or_empty (m_body m)))
  ∧ get_num "timestamp" d = Ok (m_timestamp m) ∧ get_str "sender_hash" None d = m_sender_hash m
  ∧ get_bytes "encrypted_body" d = None ∧ dict_get "type" d = Some (VInt (m_type m)).
Proof using.
  unfold doc_hash, get_body, get_num, get_str, get_bytes. rewrite !encode_push_get by reflexivity. simpl.
  split_and!; try done. by destruct (m_sender_hash m).
Qed.

(** A row as the receiver stores it. *)
Record delivered (node ch : string) (m m' : Message) : Prop := {
  de_hash : m_msg_hash m' = m_msg_hash m;
  de_channel : m_channel_id m' = ch;
  de_sender : m_sender_hash m' = m_sender_hash m;
  de_time : m_timestamp m' = m_timestamp m;
  de_type : m_type m' = m_type m;
  de_body : m_body m' = Some (or_empty (m_body m));
  de_origin : m_origin_node m' = Some node;
}.

Lemma insert_runs m db c :
  messages db !! m_msg_hash m = None → channels db !! m_channel_id m = Some c →
  MessageRepo.insert m db = (Ok tt, set_messages (<[m_msg_hash m := m]>) db).
Proof using.
  intros Hm Hc. unfold MessageRepo.insert, check_unique, check_fk, bind, get.
  rewrite bool_decide_eq_false_2 by (rewrite Hm; by intros [? ?]).
  unfold ret. by rewrite bool_decide_eq_true_2 by eauto.
Qed.

(** Pushing a row without ciphertext to the live subscribers. *)
Lemma push_open_runs ch m key lm : m_encrypted_body m = None →
  is_Some (packb (VDict [("v", VInt WIRE_VERSION); ("event", VStr "message");
                         ("data", VDict (populate_sender_pubkey key (encode_message_for_wire m None false)))])) →
  ∃ lm', LiveSubscriptionManager.push_message net now ch m key lm = (Ok tt, lm').
Proof using.
  intros Hm [b Hb]. unfold LiveSubscriptionManager.push_message. rewrite (bind_run_ok get _ lm lm lm) by done. cbv zeta.
  destruct (list_true (LiveSubscriptionManager.get_subscribers ch lm)); cbn [negb]; [|by eexists].
  rewrite Hm. cbn [olist_true]. rewrite andb_false_r. cbn [andb negb].
  unfold LiveSubscriptionManager.push_group, bind, gets, of_res, modify.
  assert (∀ mgr, encode_message_for_wire m mgr false = encode_message_for_wire m None false) as ->
    by (intros mgr; unfold encode_message_for_wire; rewrite Hm; by destruct mgr).
  unfold encode_push_event. rewrite Hb. by eexists.
Qed.

Lemma store_relayed_runs live ch row key s c m :
  channels (fn_db s) !! ch = Some c → row (ch_latest_seq c + 1) = Ok m → m_channel_id m = ch →
  messages (fn_db s) !! m_msg_hash m = None → m_encrypted_body m = None →
  (live = true → is_Some (packb (VDict [("v", VInt WIRE_VERSION); ("event", VStr "message");
                         ("data", VDict (populate_sender_pubkey key (encode_message_for_wire m None false)))]))) →
  ∃ s', store_relayed live net now ch row key s = (Ok (ch_latest_seq c + 1), s')
  ∧ fn_db s' = set_messages (<[m_msg_hash m := m]>) (set_channels (<[ch := ChannelRepo.bump_seq c]>) (fn_db s)).
Proof using.
  intros Hc Hr Hm Hnew Henc Hpack. unfold store_relayed, fn_op, seq_op, lift. unfold bind at 1.
  destruct (next_seq_run ch (fn_db s) (n_seq (fn_node s)) c Hc) as (mgr' & E & _).
  unfold fn_db in E. rewrite E. simpl. rewrite Hr. unfold bind, of_res, db_op, lift. simpl.
  erewrite insert_runs; [|done|simpl; rewrite Hm; apply lookup_insert_eq]. cbn beta iota.
  destruct live; cbn [when]; [|by eexists]. unfold fn_live_op, lift.
  match goal with |- context [LiveSubscriptionManager.push_message net now ch m key ?lm] =>
    destruct (push_open_runs ch m key lm Henc (Hpack eq_refl)) as [lm' ->] end.
  by eexists.
Qed.

(** The row that a pushed row is stored as, and the document that is pushed
    live. *)
Definition pushed_row (pu : FederationPusher.t) (m : Message) (n : Z) : Message :=
  relayed_row now (m_msg_hash m) (channel_id pu) n (m_sender_hash m) (m_timestamp m) (m_type m)
    {| c_body := Some (or_empty (m_body m)); c_encrypted_body := None; c_nonce := None; c_epoch := None |}
    (get_name (encode_push recall pu m)) (Some (node_identity_hash pu)).
Definition live_event (pu : FederationPusher.t) (m : Message) (n : Z) : val :=
  VDict [("v", VInt WIRE_VERSION); ("event", VStr "message");
         ("data", VDict (populate_sender_pubkey (get_bytes "sender_public_key" (encode_push recall pu m))
                           (encode_message_for_wire (pushed_row pu m n) None false)))].

(** msgpack packs the events of a batch under the numbers they can get. *)
Definition live_packs (pu : FederationPusher.t) (ms : list Message) (c : Channel) : Prop :=
  fc_live_manager ctx = true → ∀ m n, m ∈ ms → ch_latest_seq c < n ≤ ch_latest_seq c + zlen ms →
    is_Some (packb (live_event pu m n)).

(** One pushed row on an open channel. *)
Lemma push_one_delivered req pu acc s c m :
  let ch := channel_id pu in let node := node_identity_hash pu in
  (fc_live_manager ctx = true → is_Some (packb (live_event pu m (ch_latest_seq c + 1)))) →
  channels (fn_db s) !! ch = Some c → ch_sealed c = false →
  messages (fn_db s) !! m_msg_hash m = None →
  refused false req (encode_push recall pu m) (fn_db s) = false →
  ∃ acc' s' m', handle_pushed ctx net now ch node false req acc (VDict (encode_push recall pu m)) s = (Ok acc', s')
  ∧ delivered node ch m m'
  ∧ fn_db s' = set_messages (<[m_msg_hash m := m']>) (set_channels (<[ch := ChannelRepo.bump_seq c]>) (fn_db s)).
Proof using.
  intros ch node Hl Hc Hs Hnew Hr. destruct (push_doc pu m) as (Eh & Eb & Et & Esnd & Ee & Ety).
  set (d := encode_push recall pu m) in *.
  unfold handle_pushed. fold (doc_hash d). rewrite Eh.
  rewrite (bind_run_ok _ _ s None s) by (unfold fn_ask, gets, MessageRepo.get_by_hash; by rewrite Hnew).
  rewrite bool_decide_eq_false_2 by (by intros [? ?]). rewrite (bind_run_ok _ _ s _ s) by reflexivity.
  unfold refused, doc_banned in Hr. destruct (_ && is_blocked _ _) eqn:Ebn; [done|]. simpl in Hr.
  destruct (binding_of_run d req s) as (r & s1 & E1 & En & Es). rewrite (bind_run_ok _ _ _ _ _ E1).
  destruct (doc_bound d req); simpl in Hr; [|done]. rewrite (Es eq_refl). cbn [negb].
  destruct (push_type d) as [ty|] eqn:Ept; [|done]. rewrite Eb in Hr |- *.
  rewrite (bind_run_ok _ _ s _ s) by reflexivity.
  destruct (_ <? _); [done|]. unfold push_content. cbv beta iota zeta. rewrite Et, Esnd.
  assert (ty = m_type m) as ->.
  { unfold push_type in Ept. rewrite Ety in Ept. simpl in Ept. case_bool_decide; [congruence|done]. }
  match goal with |- context [store_relayed _ net now ch ?row ?key] =>
    destruct (store_relayed_runs (fc_live_manager ctx) ch row key s c (pushed_row pu m (ch_latest_seq c + 1)))
      as (s' & E & Edb); [done..|] end.
  rewrite (bind_run_ok _ _ _ _ _ E). eexists _, s', _. split; [reflexivity|]. split; [|exact Edb]. by split.
Qed.

(** A row has arrived: a row of its hash was there and stays, or a new one
    holds what was sent. *)
Definition arrived (pu : FederationPusher.t) (db db' : DB) (m : Message) : Prop :=
  match messages db !! m_msg_hash m with
  | Some old => messages db' !! m_msg_hash m = Some old
  | None => ∃ m', messages db' !! m_msg_hash m = Some m'
            ∧ delivered (node_identity_hash pu) (channel_id pu) m m'
  end.

Context (pu : FederationPusher.t).
Abbreviation receive := (handle_pushed ctx net now (channel_id pu) (node_identity_hash pu) false
                           (push_require_signed ctx)).
Abbreviation refused_push m db := (refused false (push_require_signed ctx) (encode_push recall pu m) db).

Lemma push_step_arrives acc s c m :
  (fc_live_manager ctx = true → is_Some (packb (live_event pu m (ch_latest_seq c + 1)))) →
  channels (fn_db s) !! channel_id pu = Some c → ch_sealed c = false →
  refused_push m (fn_db s) = false →
  ∃ acc1 s1 c1, receive acc (VDict (encode_push recall pu m)) s = (Ok acc1, s1)
  ∧ channels (fn_db s1) !! channel_id pu = Some c1 ∧ ch_sealed c1 = false
  ∧ ch_latest_seq c ≤ ch_latest_seq c1 ≤ ch_latest_seq c + 1
  ∧ (∀ id, is_blocked id (fn_db s1) = is_blocked id (fn_db s))
  ∧ (∀ h, h ≠ m_msg_hash m → messages (fn_db s1) !! h = messages (fn_db s) !! h)
  ∧ arrived pu (fn_db s) (fn_db s1) m.
Proof using.
  intros Hl Hc Hs Hm. destruct (push_doc pu m) as (Eh & _). unfold arrived.
  destruct (messages (fn_db s) !! m_msg_hash m) as [old|] eqn:Eo.
  - destruct (handle_pushed_stored ctx net now (channel_id pu) (node_identity_hash pu) false
      (push_require_signed ctx) acc (encode_push recall pu m) s) as (acc1 & E1); [rewrite Eh; eauto|].
    exists acc1, s, c. split_and!; try done; lia.
  - destruct (push_one_delivered (push_require_signed ctx) pu acc s c m Hl Hc Hs Eo Hm) as (acc1 & s1 & m' & E1 & Hd & Edb).
    exists acc1, s1, (ChannelRepo.bump_seq c). rewrite Edb. simpl. rewrite !lookup_insert_eq.
    split_and!; try done; [simpl; lia..| |by eauto]. intros h Hh. by rewrite lookup_insert_ne.
Qed.

Lemma push_batch_arrives ms acc s c :
  live_packs pu ms c → channels (fn_db s) !! channel_id pu = Some c → ch_sealed c = false →
  NoDup (map m_msg_hash ms) → Forall (λ m, refused_push m (fn_db s) = false) ms →
  ∃ acc' s', mfold receive acc (map (λ m, VDict (encode_push recall pu m)) ms) s = (Ok acc', s')
  ∧ ∀ m, m ∈ ms → arrived pu (fn_db s) (fn_db s') m.
Proof using.
  revert s c acc. induction ms as [|m ms IH]; intros s c acc Hl Hc Hs Hnd Hall.
  { exists acc, s. split; [done|]. intros m Hm. by apply not_elem_of_nil in Hm. }
  apply NoDup_cons in Hnd as [Hnin Hnd]. apply Forall_cons in Hall as [Hm Hall].
  assert (0 ≤ zlen ms) by (unfold zlen; lia).
  destruct (push_step_arrives acc s c m) as (acc1 & s1 & c1 & E1 & Hc1 & Hs1 & Hn1 & Hb1 & Hk1 & Hm1); try done.
  { intros Hlive. apply (Hl Hlive); [left|]. rewrite zlen_cons. lia. }
  destruct (IH s1 c1 acc1) as (acc2 & s2 & E2 & Hrest); try done.
  { intros Hlive m0 n Hm0 Hn. apply (Hl Hlive); [by right|]. rewrite zlen_cons. lia. }
  { eapply Forall_impl; [done|]. intros m0. by rewrite (refused_blocked _ _ _ (fn_db s)). }
  exists acc2, s2. split; [cbn [map mfold]; by rewrite (bind_run_ok _ _ _ _ _ E1)|].
  assert (Hkeep : ∀ h x, messages (fn_db s1) !! h = Some x → messages (fn_db s2) !! h = Some x).
  { apply pushed_batch in E2 as [Ha _]; [apply Ha|]. simpl. by rewrite Hc1. }
  unfold arrived in *. intros m0 [->|Hm0]%elem_of_cons.
  - destruct (messages (fn_db s) !! m_msg_hash m); [by apply Hkeep|].
    destruct Hm1 as (m' & E & Hd). exists m'. split; [by apply Hkeep|done].
  - specialize (Hrest m0 Hm0). rewrite Hk1 in Hrest; [done|]. intros E. apply Hnin. rewrite <- E.
    by apply list_elem_of_fmap_2.
Qed.
End delivery.


(** ** Sealed channels cannot be pushed *)

(** no message of a sealed channel reaches a peer that seals it: the
    documents of the pusher carry no ciphertext, so the receiver stores
    nothing of the batch, acknowledges no number unless the rows were there
    already, and the acknowledgement leaves the sender's cursor where it was:
    the same rows are selected again next time. *)
Theorem sealed_push_stalls {HM : LinkMdu} {HP : Msgpack} {HA : Aead} {HR : RnsIdentity} {HE : Ed25519}
    (ctx : FederationContext) (net : Net) (now : float) (recall : bytes → option bytes)
    (pu : FederationPusher.t) (ms : list Message) (p : Peer) (c : Channel) (s : FedNode) :
  peers (fn_db s) !! node_identity_hash pu = Some p → peer_federation_trusted p = true →
  str_true (node_identity_hash pu) = true → str_true (channel_id pu) = true →
  channels (fn_db s) !! channel_id pu = Some c → ch_sealed c = true →
  Forall (λ m, messages (fn_db s) !! m_msg_hash m = None) ms →
  ∃ a s', handle_push_messages ctx net now (push_payload recall pu ms) None s = (Ok a, s')
  ∧ fn_node s' = fn_node s ∧ pa_rejected a = map m_msg_hash ms
  ∧ handle_push_ack (pa_received a) pu = (Ok tt, pu).
Proof.
  intros Hp Ht Hn Hcs Hc Hs Hall.
  assert (Href : ∀ m db, refused true (push_require_signed ctx) (encode_push recall pu m) db = true).
  { intros m db. destruct (push_doc recall pu m) as (_ & Eb & _ & _ & Ee & _). unfold refused.
    rewrite Eb. unfold push_content. rewrite Ee, orb_true_r. simpl.
    destruct (push_type _); by rewrite !orb_true_r. }
  assert (Hrun : ∀ acc s, Forall (λ m, messages (fn_db s) !! m_msg_hash m = None) ms →
    ∃ s', mfold (handle_pushed ctx net now (channel_id pu) (node_identity_hash pu) true
      (push_require_signed ctx)) acc (map (λ m, VDict (encode_push recall pu m)) ms) s
      = (Ok (acc.1, acc.2 ++ map m_msg_hash ms), s') ∧ fn_node s' = fn_node s).
  { clear Hall Hp Hc. induction ms as [|m ms IH]; intros [a1 a2] s0 Hall.
    { exists s0. simpl. by rewrite app_nil_r. }
    apply Forall_cons in Hall as [Hm Hall]. destruct (push_doc recall pu m) as (Eh & _).
    destruct (handle_pushed_refused ctx net now (channel_id pu) (node_identity_hash pu) true
      (push_require_signed ctx) (a1, a2) (encode_push recall pu m) s0) as (s1 & E1 & En1);
      [by rewrite Eh|apply Href|].
    destruct (IH (a1, a2 ++ [m_msg_hash m]) s1) as (s2 & E2 & En2); [by unfold fn_db in *; rewrite En1|].
    cbn [fst snd] in E1. rewrite Eh in E1.
    exists s2. cbn [map mfold]. rewrite (bind_run_ok _ _ _ _ _ E1), E2. simpl.
    rewrite <- app_assoc. split; [done|congruence]. }
  destruct (Hrun ([], []) s Hall) as (s' & E & En). simpl in E. eexists _, s'.
  split; [|split; [exact En|split]].
  - unfold handle_push_messages. simpl. rewrite Hcs, Hn. simpl.
    unfold bind at 1, fn_ask at 1, gets at 1. rewrite Hp. simpl. rewrite Ht. simpl.
    rewrite (bind_run_ok _ _ s true s) by (unfold fn_ask, gets, ChannelRepo.get_by_id; by rewrite Hc; simpl; rewrite Hs).
    rewrite (bind_run_ok _ _ s _ s) by reflexivity. rewrite (bind_run_ok _ _ _ _ _ E). reflexivity.
  - reflexivity.
  - reflexivity.
Qed.

(** ** The sender's cursor *)

Lemma ack_numbers_ints zs : ack_numbers (map VInt zs) = Ok zs.
Proof. induction zs as [|z zs IH]; simpl; [done|]. by rewrite IH. Qed.

(** the cursor takes the receiver's numbers for its own: after an
    acknowledgement that holds the number [n] of a row as the receiver numbered
    it, no row with a number up to [n] is selected again, whether it was
    pushed or not.  A receiver whose channel is ahead makes the sender skip
    rows. *)
Theorem ack_skips_rows {HP : Msgpack} (pu pu' : FederationPusher.t) (zs : list Z) (n : Z) (db : DB)
    (m : Message) (k : Z) :
  handle_push_ack (map VInt zs) pu = (Ok tt, pu') → n ∈ zs →
  m_seq m = Some k → k ≤ n → m ∉ batch pu' db.
Proof.
  unfold handle_push_ack. rewrite ack_numbers_ints. intros H Hin Hk Hle Hm.
  assert (Hc : n ≤ _push_cursor pu').
  { destruct zs as [|z zs]; [by apply not_elem_of_nil in Hin|].
    apply bind_ok in H as (zs0 & p1 & [= <- <-] & H). apply bind_ok in H as (p0 & p1 & [= <- <-] & H).
    assert (Hmax : n ≤ foldr Z.max z zs).
    { clear H. revert n Hin Hle. induction zs as [|y zs IH]; intros n Hin Hle; simpl.
      - apply list_elem_of_singleton in Hin. lia.
      - apply elem_of_cons in Hin as [->|[->|Hin]%elem_of_cons]; [|lia|].
        + assert (z ≤ foldr Z.max z zs) by (clear; induction zs; simpl; lia). lia.
        + assert (n ≤ foldr Z.max z zs); [|lia]. apply IH; [by right|done]. }
    unfold when in H. destruct (Z.ltb_spec (_push_cursor pu) (foldr Z.max z zs)).
    - injection H as <-. simpl. lia.
    - injection H as <-. lia. }
  unfold batch in Hm. rewrite page_eq in Hm. apply elem_of_sql_limit in Hm.
  apply elem_of_after in Hm as (h & n' & _ & _ & Hs & Hlt). simplify_eq. lia.
Qed.

(** What is pushed is selected: a selected row that is not left out is in the
    request, and the cursor only moves over rows that are left out. *)
Lemma max_seq_bound pu ms : _push_cursor pu ≤ max_seq pu ms ∧ ∀ m, m ∈ ms → seq_of m ≤ max_seq pu ms.
Proof.
  unfold max_seq. generalize (_push_cursor pu). induction ms as [|m ms IH]; intros c; simpl.
  - split; [lia|]. intros m Hm. by apply not_elem_of_nil in Hm.
  - destruct (IH (Z.max c (seq_of m))) as [H1 H2]. split; [lia|].
    intros m' [->|Hm']%elem_of_cons; [lia|by apply H2].
Qed.

Lemma max_seq_elem pu ms n : n ≤ max_seq pu ms → n ≤ _push_cursor pu ∨ ∃ m, m ∈ ms ∧ n ≤ seq_of m.
Proof.
  unfold max_seq. generalize (_push_cursor pu). induction ms as [|m ms IH]; intros c Hn; simpl in *; [by left|].
  destruct (IH _ Hn) as [Hc|(m' & Hm' & Hle)].
  - destruct (decide (n ≤ c)); [by left|]. right. exists m. split; [left|]. lia.
  - right. exists m'. split; [by right|done].
Qed.

(** the sender skips nothing by itself: whenever [push_pending] moves the
    cursor, every row of the channel it moves over came from the peer itself
    or from a banned sender. *)
Theorem push_pending_skips_nothing {HP : Msgpack} {HA : Aead} (recall : bytes → option bytes)
    (now : float) (nonce : bytes) (send_ok b : bool) (db : DB) (pu pu' : FederationPusher.t)
    (h : string) (m : Message) (k : Z) :
  push_pending recall now nonce send_ok db pu = (b, pu') → seqs_distinct (channel_id pu) db →
  messages db !! h = Some m → m_channel_id m = channel_id pu → m_seq m = Some k →
  _push_cursor pu < k ≤ _push_cursor pu' → pushable pu db m = false.
Proof.
  intros Hrun Hd Hm Hch Hk [Hlo Hhi]. unfold push_pending in Hrun.
  destruct (negb (_link pu) || negb (_session_factory pu)); [injection Hrun as <- <-; simpl in Hhi; lia|].
  destruct (list_true (List.filter (pushable pu db) (batch pu db))) eqn:Ef; simpl in Hrun.
  { exfalso. destruct (push_request _ _ _ _) as [[raw|e] em]; [destruct send_ok|]; injection Hrun as <- <-;
      simpl in Hhi; lia. }
  injection Hrun as <- <-. set (ms := batch pu db) in *.
  destruct (list_true ms && _) eqn:Ea; simpl in Hhi; [|lia].
  destruct (max_seq_elem pu ms k Hhi) as [?|(m2 & Hm2 & Hle)]; [lia|].
  assert (Hin : m ∈ ms).
  { assert (Hafter : m ∈ after (channel_id pu) (_push_cursor pu) db)
      by (apply elem_of_after; exists h, k; by split_and!).
    pose proof (after_sorted (channel_id pu) (_push_cursor pu) db Hd) as Hs.
    unfold ms, batch in *. rewrite page_eq in *. unfold sql_limit, ztake in *. simpl in *.
    set (l := after _ _ _) in *. rewrite <- (take_drop (Z.to_nat PUSH_BATCH_SIZE) l) in Hafter, Hs.
    apply elem_of_app in Hafter as [?|Hdrop]; [done|].
    assert (seq_lt_rel m2 m) as Hlt by (by eapply StronglySorted_app_1_elem_of).
    unfold seq_lt_rel, seq_of in *. rewrite Hk in Hlt. simpl in *. lia. }
  destruct (pushable pu db m) eqn:Ep; [|done].
  assert (Hx : m ∈ List.filter (pushable pu db) ms) by (by apply elem_of_filter_bool).
  destruct (List.filter (pushable pu db) ms); [by apply not_elem_of_nil in Hx|done].
Qed.

(** the retry delay: after a failure a push is not tried again before
    three quarters of the current backoff, it is tried after five quarters of
    it, whatever the jitter, and the backoff never exceeds the configured
    maximum; this holds for the first 1024 failures in a row, and from the next
    one on the computation raises [OverflowError]. *)
Theorem push_backoff_bounds (pu : FederationPusher.t) (now jitter : float) :
  (fz 0 <= jitter)%F → (jitter <= fz 1)%F → _consecutive_failures pu ≠ 0 →
  match backoff pu with
  | Ok b => _consecutive_failures pu ≤ 1024 ∧ (b <= _max_backoff pu)%F
      ∧ ((fz 0 <= b)%F →
         (_should_retry now jitter pu = Ok true → (b * QArith_base.Qmake 3 4 <= now - _last_attempt pu)%F)
         ∧ ((b * QArith_base.Qmake 5 4 <= now - _last_attempt pu)%F → _should_retry now jitter pu = Ok true))
  | Raise e => 1024 < _consecutive_failures pu ∧ exn_cls e = OverflowError
      ∧ _should_retry now jitter pu = Raise e
  end.
Proof.
  intros Hj0 Hj1 Hf. unfold _should_retry. destruct (Z.eqb_spec (_consecutive_failures pu) 0); [done|].
  destruct (backoff pu) as [b|e] eqn:Eb; unfold backoff in Eb;
    destruct (Z.leb_spec 1024 (_consecutive_failures pu - 1)); try done.
  - split; [lia|]. injection Eb as Eb. split; [rewrite <- Eb; flra|]. clear Eb. intros Hb.
    change (fz 0) with (QArith_base.Qmake 0 1) in *. change (fz 1) with (QArith_base.Qmake 1 1) in *.
    split; [intros [= Hr]|intros Hr; f_equal]; fsimp; Lqa.nra.
  - injection Eb as <-. split; [lia|done].
Qed.

(** ** Messages from mirrors *)

(** A step that keeps the invariant and every row, and adds rows with [P]. *)
Record grows (P : Message → Prop) (s s' : FedNode) : Prop := {
  gr_ok : db_ok (fn_db s) → db_ok (fn_db s');
  gr_kept : ∀ h m, messages (fn_db s) !! h = Some m → messages (fn_db s') !! h = Some m;
  gr_new : ∀ h m, messages (fn_db s') !! h = Some m → messages (fn_db s) !! h = None → P m;
}.

#[export] Instance grows_preorder P : PreOrder (grows P).
Proof.
  split; [intros s; split; try done; congruence|].
  intros a b c [A1 A3 A4] [B1 B3 B4]. split; [auto|auto|].
  intros h m Hc Ha. destruct (messages (fn_db b) !! h) as [m'|] eqn:Hb; [|by eapply B4].
  specialize (B3 _ _ Hb). simplify_eq. by eapply A4.
Qed.

Lemma grows_same P s s' : fn_db s' = fn_db s → grows P s s'.
Proof. intros E. split; rewrite E; try done; congruence. Qed.

Lemma adds_grows P Q ch s s' : adds P ch s s' → (∀ m, P m → Q m) → grows Q s s'.
Proof. intros [A1 _ A3 A4 _ _] HQ. split; eauto. Qed.

(** A delivery by a mirror: when, for which channel, what, from which peer. *)
Record Delivery := { dv_now : float; dv_channel : string; dv_doc : dict string val; dv_peer : string }.

Section mirror_ok.
Context `{HM : LinkMdu} `{HP : Msgpack} `{HA : Aead} `{HR : RnsIdentity} `{HE : Ed25519}.
Context (live_manager require_signed : bool) (net : Net).

(** A row made of a delivery the checks let through. *)
Definition mirrored (v : Delivery) (m : Message) : Prop :=
  m_msg_hash m = doc_hash (dv_doc v) ∧ m_channel_id m = dv_channel v
  ∧ m_sender_hash m = get_str "sender_hash" None (dv_doc v)
  ∧ doc_bound (dv_doc v) require_signed = true
  ∧ (m_timestamp m <= dv_now v + fz CLOCK_DRIFT_TOLERANCE)%F
  ∧ (dv_now v - fz _MIRROR_MAX_AGE_SECONDS <= m_timestamp m)%F
  ∧ (str_true (dv_peer v) = true → m_origin_node m = Some (dv_peer v)).

Definition run_delivery (s : FedNode) (v : Delivery) : FedNode :=
  (mirror_ingest live_manager require_signed net (dv_now v) (dv_channel v) (dv_doc v) (dv_peer v) s).2.

Lemma mirror_store_ok v sender body ts s u s' :
  get_str "sender_hash" None (dv_doc v) = Some sender → doc_bound (dv_doc v) require_signed = true →
  (ts <= dv_now v + fz CLOCK_DRIFT_TOLERANCE)%F → (dv_now v - fz _MIRROR_MAX_AGE_SECONDS <= ts)%F →
  mirror_store live_manager net (dv_now v) (dv_channel v) (dv_doc v) (dv_peer v) sender body ts s = (Ok u, s') →
  grows (mirrored v) s s'.
Proof using.
  intros Hsend Hb H1 H2. unfold mirror_store. fold (doc_hash (dv_doc v)).
  intros (ex & s1 & [= <- <-] & H)%bind_ok.
  case_bool_decide; [injection H as _ <-; by apply grows_same|].
  apply bind_ok in H as (c & s1 & [= <- <-] & H).
  destruct (validate_mirror_payload _ _ _ _ _) as [c|e] eqn:Ev; [|injection H as _ <-; by apply grows_same].
  apply validate_mirror_payload_ok in Ev. apply bind_ok in H as (n & s1 & Hst & [= _ <-]).
  destruct (get_int "type" 1 (dv_doc v)) as [ty|e] eqn:Ety.
  2:{ unfold store_relayed in Hst. apply bind_ok in Hst as (? & ? & _ & Hst). by apply bind_ok in Hst as (? & ? & ? & _). }
  apply store_relayed_ok in Hst as (m & [= <-] & _ & _ & Ha).
  - eapply adds_grows; [exact Ha|]. intros m ->. unfold mirrored. simpl. split_and!; try done. by intros ->.
  - intros m [= <-]. split_and!; [done..|]. by eapply relayed_content.
Qed.

Lemma mirror_step v s :
  (mirror_ingest live_manager require_signed net (dv_now v) (dv_channel v) (dv_doc v) (dv_peer v) s).1 = Ok tt
  ∧ grows (mirrored v) s (run_delivery s v).
Proof using.
  unfold run_delivery, mirror_ingest, catch.
  destruct (mirror_ingest_body _ _ _ _ _ _ _ s) as [r s'] eqn:E.
  assert (Hg : grows (mirrored v) s s').
  { unfold mirror_ingest_body in E. destruct (get_body (dv_doc v)) as [body|e];
      [|injection E as _ <-; by apply grows_same].
    unfold bind at 1, of_res at 1 in E. cbv beta iota in E.
    destruct (_ <? _); [injection E as _ <-; by apply grows_same|].
    destruct (get_str "sender_hash" None (dv_doc v)) as [sender|] eqn:Es; [|injection E as _ <-; by apply grows_same].
    destruct (_ <? 16); [injection E as _ <-; by apply grows_same|].
    destruct (get_num "timestamp" (dv_doc v)) as [ts|e]; [|injection E as _ <-; by apply grows_same].
    unfold bind at 1, of_res at 1 in E. cbv beta iota in E.
    destruct (flt _ ts || flt ts _) eqn:Et; [injection E as _ <-; by apply grows_same|].
    apply orb_false_iff in Et as [Et1 Et2]. fsimp.
    destruct (binding_of_run (dv_doc v) require_signed s) as (rs & s1 & E1 & En & Hs1).
    rewrite (bind_run_ok _ _ _ _ _ E1) in E. destruct (doc_bound _ _) eqn:Eb; simpl in E.
    2:{ injection E as _ <-. apply grows_same. unfold fn_db. by rewrite En. }
    rewrite (Hs1 eq_refl) in E. unfold atomic in E.
    destruct (mirror_store _ _ _ _ _ _ _ _ _ s) as [[u|e] s2] eqn:Est; injection E as _ <-.
    - by eapply mirror_store_ok.
    - by apply grows_same. }
  destruct r as [[]|e]; by split.
Qed.
End mirror_ok.

(** whatever mirrors deliver, the ingestor never raises; any run of
    deliveries keeps the invariant of the database and every stored row, and
    each new row comes from a delivery whose sender is bound to its key and
    whose time is at most five minutes ahead and thirty days old; its origin
    is the delivering peer. *)
Theorem mirror_ingest_safe {HM : LinkMdu} {HP : Msgpack} {HA : Aead} {HR : RnsIdentity} {HE : Ed25519}
    (lm req : bool) (net : Net) (vs : list Delivery) (s : FedNode) :
  db_ok (fn_db s) →
  let s' := foldl (run_delivery lm req net) s vs in
  db_ok (fn_db s')
  ∧ (∀ v, (mirror_ingest lm req net (dv_now v) (dv_channel v) (dv_doc v) (dv_peer v) s').1 = Ok tt)
  ∧ (∀ h m, messages (fn_db s) !! h = Some m → messages (fn_db s') !! h = Some m)
  ∧ (∀ h m, messages (fn_db s') !! h = Some m → messages (fn_db s) !! h = None →
       ∃ v, v ∈ vs ∧ mirrored req v m).
Proof.
  intros Hok s'. assert (H : grows (λ m, ∃ v, v ∈ vs ∧ mirrored req v m) s s').
  { unfold s'. clear Hok s'. revert s. induction vs as [|v vs IH]; intros s; simpl; [done|].
    trans (run_delivery lm req net s v).
    - destruct (mirror_step lm req net v s) as [_ [A1 A2 A3]]. split; try done.
      intros h m H1 H2. exists v. split; [left|eauto].
    - destruct (IH (run_delivery lm req net s v)) as [A1 A2 A3]. split; try done.
      intros h m H1 H2. destruct (A3 h m H1 H2) as (w & Hw & Hm). exists w. split; [by right|done]. }
  destruct H as [H1 H2 H3]. split_and!; auto. intros v. by apply mirror_step.
Qed.

(** ** Instances *)

Definition hash32 : string := hexrep (replicate 16 1).
Definition demo_doc (body : string) : dict string val :=
  [("msg_hash", VStr "h1"); ("sender_hash", VStr hash32); ("seq", VInt 4); ("timestamp", VFloat (fz 100));
   ("type", VInt 1); ("body", VStr body); ("sender_rns_public_key", VBytes (replicate 64 1));
   ("lxmf_signed_part", VBytes [9]); ("lxmf_signature", VBytes (replicate 32 1 ++ [9]))].
Definition demo_push (d : dict string val) : dict string val :=
  [("channel_id", VStr "a"); ("messages", VList [VDict d]); ("node_identity", VStr "peer")].
Definition demo_signed_ctx : FederationContext := {|
  fc_config := Some {| federation_auto_trust := false; fs_enabled := false; fs_epoch_duration := 3600;
                       require_signed_federation := true |};
  fc_live_manager := false; fc_node_identity := "me"; fc_node_name := "me";
  fc_node_rns_identity := None; fc_rate_limiter := false |}.
Definition demo_receiver : FedNode := demo_fed (demo_peer true None) demo_public.
Abbreviation demo_handle := (@handle_push_messages 500 shape_msgpack toy_aead toy_rns toy_ed
                               demo_signed_ctx (λ _, LinkActive)).
Definition demo_received : FedNode := (demo_handle (fz 101) (demo_push (demo_doc "hi")) None demo_receiver).2.
Definition demo_ack : PushAck := {| pa_channel_id := "a"; pa_received := [VInt 1]; pa_rejected := [] |}.

Lemma demo_push_run :
  demo_handle (fz 101) (demo_push (demo_doc "hi")) None demo_receiver = (Ok demo_ack, demo_received).
Proof. vm_compute. reflexivity. Qed.

Lemma push_stored_safely_witness :
  ∃ node p ms, get_str "node_identity" None (demo_push (demo_doc "hi")) = Some node
  ∧ peers (fn_db demo_receiver) !! node = Some p ∧ peer_federation_trusted p = true
  ∧ pushed_messages (demo_push (demo_doc "hi")) = Ok ms
  ∧ adds (@accepted toy_rns toy_ed "a" node false true ms (fn_db demo_receiver)) "a" demo_receiver demo_received.
Proof.
  exact (@push_stored_safely 500 shape_msgpack toy_aead toy_rns toy_ed demo_signed_ctx (λ _, LinkActive)
    (fz 101) (demo_push (demo_doc "hi")) None demo_receiver demo_received demo_ack demo_push_run).
Defined.

Lemma push_idempotent_witness :
  ∃ a' s2, demo_handle (fz 200) (demo_push (demo_doc "hi")) None demo_received = (Ok a', s2)
  ∧ fn_node s2 = fn_node demo_received.
Proof.
  exact (@push_idempotent 500 shape_msgpack toy_aead toy_rns toy_ed demo_signed_ctx (λ _, LinkActive)
    (λ _, LinkActive) (fz 101) (fz 200) (demo_push (demo_doc "hi")) None demo_receiver demo_received demo_ack
    demo_push_run).
Defined.

Definition demo_pusher : FederationPusher.t :=
  set_link true (FederationPusher.init "peer2" "a" "peer" (fz 600)).
Definition demo_recall : bytes → option bytes := λ _, Some (replicate 64 1).

(** The row a sender has: signed by its author. *)
Definition demo_row (n : Z) : Message := {|
  m_msg_hash := String (Ascii.ascii_of_N (Z.to_N (97 + n))) ""; m_channel_id := "a";
  m_sender_hash := Some hash32; m_seq := Some n;
  m_timestamp := fz 100; m_type := MSG_TEXT; m_body := Some "hi"; m_media_path := None;
  m_media_meta := None; m_reply_to := None; m_thread_seq := None; m_ttl := None;
  m_received_at := fz 0; m_deleted := false; m_deleted_by := None; m_pinned := false;
  m_pinned_at := None; m_edit_chain := []; m_reactions := [];
  m_lxmf_signature := Some (replicate 32 1 ++ [9]);
  m_lxmf_signed_part := Some [9]; m_display_name := None; m_mentions := []; m_origin_node := None;
  m_encrypted_body := None; m_encryption_nonce := None; m_encryption_epoch := None |}.

(** The request of the pusher below, and the events the receiver makes of it
    for its live subscriber. *)
Definition request_doc : val :=
  VDict [("v", VInt WIRE_VERSION); ("action", VInt SYNC_PUSH_MESSAGES); ("nonce", VBytes (replicate 16 7));
         ("payload", VDict (push_payload demo_recall demo_pusher [demo_row 1; demo_row 2]))].
Definition event_doc (m : Message) (n : Z) : val := @live_event toy_aead (fz 101) demo_recall demo_pusher m n.
Definition push_pack : Msgpack :=
  table_msgpack [request_doc; event_doc (demo_row 1) 1; event_doc (demo_row 1) 2; event_doc (demo_row 2) 1; event_doc (demo_row 2) 2].

Definition demo_live_ctx : FederationContext := {|
  fc_config := fc_config demo_signed_ctx; fc_live_manager := true; fc_node_identity := "me"; fc_node_name := "me";
  fc_node_rns_identity := None; fc_rate_limiter := true |}.
Definition demo_live_receiver : FedNode :=
  fn_set_live (LiveSubscriptionManager.subscribe "a" "l" CDSP_PROFILE_FULL (Some "sub") false (LiveSubscriptionManager.init None)).2
    demo_receiver.


Definition demo_sealed_receiver : FedNode :=
  demo_fed (demo_peer true None) (demo_node [demo_channel "a" ACCESS_PUBLIC true]).

Lemma sealed_push_stalls_witness :
  ∃ a s', @handle_push_messages 500 shape_msgpack toy_aead toy_rns toy_ed demo_signed_ctx (λ _, LinkActive) (fz 101)
      (push_payload demo_recall demo_pusher [demo_row 1]) None demo_sealed_receiver = (Ok a, s')
  ∧ fn_node s' = fn_node demo_sealed_receiver ∧ pa_rejected a = ["b"]
  ∧ handle_push_ack (pa_received a) demo_pusher = (Ok tt, demo_pusher).
Proof.
  apply (@sealed_push_stalls 500 shape_msgpack toy_aead toy_rns toy_ed demo_signed_ctx (λ _, LinkActive)
    (fz 101) demo_recall demo_pusher [demo_row 1] (demo_peer true None) (demo_channel "a" ACCESS_PUBLIC true));
    try reflexivity; vm_compute; repeat constructor.
Defined.

(** The receiver is at number 10; row 3 of the sender was never pushed. *)
Lemma ack_skips_rows_witness :
  demo_row 3 ∉ batch (advance 11 demo_pusher) (set_messages (λ _, {[ "d" := demo_row 3 ]}) empty_db).
Proof.
  apply (@ack_skips_rows shape_msgpack demo_pusher (advance 11 demo_pusher) [11] 11 _ (demo_row 3) 3).
  - reflexivity.
  - left.
  - reflexivity.
  - lia.
Defined.

(** The peer's own message is passed over. *)
Definition own_row : Message := relayed_row (fz 0) "q" "a" 5 (Some "x") (fz 0) MSG_TEXT
  {| c_body := Some "hi"; c_encrypted_body := None; c_nonce := None; c_epoch := None |} None (Some "peer2").
Definition own_db : DB := set_messages (λ _, {[ "q" := own_row ]}) empty_db.

Lemma push_pending_skips_nothing_witness :
  _push_cursor (@push_pending shape_msgpack toy_aead demo_recall (fz 1) [] true own_db demo_pusher).2 = 5
  ∧ pushable demo_pusher own_db own_row = false.
Proof.
  split; [vm_compute; reflexivity|].
  apply (@push_pending_skips_nothing shape_msgpack toy_aead demo_recall (fz 1) [] true true own_db demo_pusher
    (@push_pending shape_msgpack toy_aead demo_recall (fz 1) [] true own_db demo_pusher).2 "q" own_row 5).
  - vm_compute. reflexivity.
  - unfold seqs_distinct, own_db; simpl; by intros h1 h2 m1 m2 n [<- <-]%lookup_singleton_Some [<- <-]%lookup_singleton_Some.
  - reflexivity.
  - reflexivity.
  - reflexivity.
  - vm_compute. split; congruence.
Defined.

Lemma push_backoff_bounds_witness :
  let pu := fail_at (fz 10) None (fail_at (fz 5) None demo_pusher) in
  match backoff pu with
  | Ok b => _consecutive_failures pu ≤ 1024 ∧ (b <= _max_backoff pu)%F
      ∧ ((fz 0 <= b)%F →
         (_should_retry (fz 85) (QArith_base.Qmake 1 2) pu = Ok true → (b * QArith_base.Qmake 3 4 <= fz 85 - _last_attempt pu)%F)
         ∧ ((b * QArith_base.Qmake 5 4 <= fz 85 - _last_attempt pu)%F → _should_retry (fz 85) (QArith_base.Qmake 1 2) pu = Ok true))
  | Raise e => 1024 < _consecutive_failures pu ∧ exn_cls e = OverflowError
      ∧ _should_retry (fz 85) (QArith_base.Qmake 1 2) pu = Raise e
  end.
Proof.
  apply (push_backoff_bounds (fail_at (fz 10) None (fail_at (fz 5) None demo_pusher)) (fz 85) (QArith_base.Qmake 1 2));
    vm_compute; congruence.
Defined.

Lemma mirror_ingest_safe_witness :
  db_ok (fn_db (foldl (@run_delivery 500 shape_msgpack toy_aead toy_rns toy_ed false true (λ _, LinkActive))
    demo_receiver [{| dv_now := fz 101; dv_channel := "a"; dv_doc := demo_doc "hi"; dv_peer := "peer" |}])).
Proof.
  apply (@mirror_ingest_safe 500 shape_msgpack toy_aead toy_rns toy_ed false true (λ _, LinkActive)
    [{| dv_now := fz 101; dv_channel := "a"; dv_doc := demo_doc "hi"; dv_peer := "peer" |}] demo_receiver).
  apply (db_ok_same (n_db demo_public)); [by split_and!|apply demo_node_ok].
Defined.

(** a ban does not reach messages that a mirror delivers: a delivery of a
    banned sender is stored, while the same document pushed by a peer is
    rejected. *)
Theorem mirror_ignores_bans :
  ∃ (s : FedNode) (d : dict string val) (sender : string),
    get_str "sender_hash" None d = Some sender ∧ is_blocked sender (fn_db s) = true
    ∧ (∃ m, messages (fn_db (@mirror_ingest 500 shape_msgpack toy_aead toy_rns toy_ed false true
                (λ _, LinkActive) (fz 101) "a" d "peer" s).2) !! doc_hash d = Some m
            ∧ m_body m = Some "hi")
    ∧ ∃ s', demo_handle (fz 101) (demo_push d) None s
            = (Ok {| pa_channel_id := "a"; pa_received := []; pa_rejected := [doc_hash d] |}, s')
            ∧ fn_node s' = fn_node s.
Proof.
  exists (fn_set_node (set_db (set_identities (<[hash32 := BanManager.set_blocked (fz 1) "owner"
            (IdentityRepo.new_identity (fz 0) hash32)]>) (fn_db demo_receiver)) (fn_node demo_receiver)) demo_receiver),
    (demo_doc "hi"), hash32.
  split_and!; [reflexivity|vm_compute; reflexivity| |].
  - eexists. split; vm_compute; reflexivity.
  - eexists. split; vm_compute; reflexivity.
Qed.
