(* ===== verification/Mirror.v ===== *)
(** * Channel mirrors ([hokora/federation/mirror.py],
      [core/mirror_manager.py])

    A [ChannelMirror] keeps a link to a remote channel: it connects, parks when
    the remote is not known yet or the link dies, retries with a backoff and
    when woken by an announce, pages through the remote's history and hands
    what it gets to the local node.  Each method is an operation on the
    mirror's state; the callbacks it is given, the timer it arms and the packets
    it sends are appended to [cm_out].

    What RNS answers is an argument: whether the remote identity is recalled,
    the link a construction gives (none when it raises), the random number of
    the jitter. *)

From S2P Require Import Prelude Constants Models Queries Permissions RateLimit Ban Sealed Sequencer Message Ingest Wire Verification History Epoch Invites Session Live Media Maintenance FedAuth FedPush.

Inductive MirrorState := IDLE | CONNECTING | LINKED | CLOSED | WAITING_FOR_PATH.
#[export] Instance MirrorState_eq_dec : EqDecision MirrorState.
Proof. solve_decision. Defined.

Inductive mirror_out :=
  | Attempt (result : string)
  | NewLink (link : nat)
  | ArmTimer (delay : float)
  | Teardown (link : nat)
  | SendPacket (data : bytes)
  | Handshake
  | HandshakeResponse (d : dict string val)
  | PushAcked (d : dict string val)
  | IngestMessage (v : val)
  | SaveCursor (channel_id : string) (cursor : Z).

Record ChannelMirror := {
  cm_remote_hash : bytes;
  cm_channel_id : string;
  cm_link : option nat;
  cm_cursor : Z;
  cm_running : bool;
  cm_started : bool;                     (* hasattr(self, "_reticulum") *)
  cm_timer : bool;                       (* a retry timer is pending *)
  cm_state : MirrorState;
  cm_attempt : Z;
  cm_recall_none : Z;                    (* _recall_none_attempts *)
  cm_authenticated : bool;
  cm_handshake : bool;                   (* _federation_auth and _handshake_callback *)
  cm_epoch_manager : option EpochManager;
  cm_out : list mirror_out;
}.

Definition new_mirror (remote : bytes) (ch : string) (initial_cursor : Z) : ChannelMirror := {|
  cm_remote_hash := remote; cm_channel_id := ch; cm_link := None; cm_cursor := initial_cursor;
  cm_running := false; cm_started := false; cm_timer := false; cm_state := IDLE; cm_attempt := 0;
  cm_recall_none := 0; cm_authenticated := false; cm_handshake := false; cm_epoch_manager := None; cm_out := [] |}.

(** The assignments of the methods, and what they hand to others. *)
Definition set_state (st : MirrorState) (m : ChannelMirror) : ChannelMirror := {|
  cm_remote_hash := cm_remote_hash m; cm_channel_id := cm_channel_id m; cm_link := cm_link m;
  cm_cursor := cm_cursor m; cm_running := cm_running m; cm_started := cm_started m;
  cm_timer := cm_timer m; cm_state := st; cm_attempt := cm_attempt m; cm_recall_none := cm_recall_none m;
  cm_authenticated := cm_authenticated m; cm_handshake := cm_handshake m;
  cm_epoch_manager := cm_epoch_manager m; cm_out := cm_out m |}.
Definition set_link (l : option nat) (m : ChannelMirror) : ChannelMirror := {|
  cm_remote_hash := cm_remote_hash m; cm_channel_id := cm_channel_id m; cm_link := l;
  cm_cursor := cm_cursor m; cm_running := cm_running m; cm_started := cm_started m;
  cm_timer := cm_timer m; cm_state := cm_state m; cm_attempt := cm_attempt m;
  cm_recall_none := cm_recall_none m; cm_authenticated := cm_authenticated m;
  cm_handshake := cm_handshake m; cm_epoch_manager := cm_epoch_manager m; cm_out := cm_out m |}.
Definition set_cursor (n : Z) (m : ChannelMirror) : ChannelMirror := {|
  cm_remote_hash := cm_remote_hash m; cm_channel_id := cm_channel_id m; cm_link := cm_link m;
  cm_cursor := n; cm_running := cm_running m; cm_started := cm_started m; cm_timer := cm_timer m;
  cm_state := cm_state m; cm_attempt := cm_attempt m; cm_recall_none := cm_recall_none m;
  cm_authenticated := cm_authenticated m; cm_handshake := cm_handshake m;
  cm_epoch_manager := cm_epoch_manager m; cm_out := cm_out m |}.
Definition set_running (r : bool) (m : ChannelMirror) : ChannelMirror := {|
  cm_remote_hash := cm_remote_hash m; cm_channel_id := cm_channel_id m; cm_link := cm_link m;
  cm_cursor := cm_cursor m; cm_running := r; cm_started := cm_started m || r; cm_timer := cm_timer m;
  cm_state := cm_state m; cm_attempt := cm_attempt m; cm_recall_none := cm_recall_none m;
  cm_authenticated := cm_authenticated m; cm_handshake := cm_handshake m;
  cm_epoch_manager := cm_epoch_manager m; cm_out := cm_out m |}.
Definition set_timer (t : bool) (m : ChannelMirror) : ChannelMirror := {|
  cm_remote_hash := cm_remote_hash m; cm_channel_id := cm_channel_id m; cm_link := cm_link m;
  cm_cursor := cm_cursor m; cm_running := cm_running m; cm_started := cm_started m; cm_timer := t;
  cm_state := cm_state m; cm_attempt := cm_attempt m; cm_recall_none := cm_recall_none m;
  cm_authenticated := cm_authenticated m; cm_handshake := cm_handshake m;
  cm_epoch_manager := cm_epoch_manager m; cm_out := cm_out m |}.
Definition set_attempt (n : Z) (m : ChannelMirror) : ChannelMirror := {|
  cm_remote_hash := cm_remote_hash m; cm_channel_id := cm_channel_id m; cm_link := cm_link m;
  cm_cursor := cm_cursor m; cm_running := cm_running m; cm_started := cm_started m;
  cm_timer := cm_timer m; cm_state := cm_state m; cm_attempt := n; cm_recall_none := cm_recall_none m;
  cm_authenticated := cm_authenticated m; cm_handshake := cm_handshake m;
  cm_epoch_manager := cm_epoch_manager m; cm_out := cm_out m |}.
Definition set_recall_none (n : Z) (m : ChannelMirror) : ChannelMirror := {|
  cm_remote_hash := cm_remote_hash m; cm_channel_id := cm_channel_id m; cm_link := cm_link m;
  cm_cursor := cm_cursor m; cm_running := cm_running m; cm_started := cm_started m;
  cm_timer := cm_timer m; cm_state := cm_state m; cm_attempt := cm_attempt m; cm_recall_none := n;
  cm_authenticated := cm_authenticated m; cm_handshake := cm_handshake m;
  cm_epoch_manager := cm_epoch_manager m; cm_out := cm_out m |}.
Definition set_authenticated (b : bool) (m : ChannelMirror) : ChannelMirror := {|
  cm_remote_hash := cm_remote_hash m; cm_channel_id := cm_channel_id m; cm_link := cm_link m;
  cm_cursor := cm_cursor m; cm_running := cm_running m; cm_started := cm_started m;
  cm_timer := cm_timer m; cm_state := cm_state m; cm_attempt := cm_attempt m;
  cm_recall_none := cm_recall_none m; cm_authenticated := b; cm_handshake := cm_handshake m;
  cm_epoch_manager := cm_epoch_manager m; cm_out := cm_out m |}.
Definition set_epoch_manager (e : EpochManager) (m : ChannelMirror) : ChannelMirror := {|
  cm_remote_hash := cm_remote_hash m; cm_channel_id := cm_channel_id m; cm_link := cm_link m;
  cm_cursor := cm_cursor m; cm_running := cm_running m; cm_started := cm_started m;
  cm_timer := cm_timer m; cm_state := cm_state m; cm_attempt := cm_attempt m;
  cm_recall_none := cm_recall_none m; cm_authenticated := cm_authenticated m;
  cm_handshake := cm_handshake m; cm_epoch_manager := Some e; cm_out := cm_out m |}.
Definition emit (o : mirror_out) (m : ChannelMirror) : ChannelMirror := {|
  cm_remote_hash := cm_remote_hash m; cm_channel_id := cm_channel_id m; cm_link := cm_link m;
  cm_cursor := cm_cursor m; cm_running := cm_running m; cm_started := cm_started m;
  cm_timer := cm_timer m; cm_state := cm_state m; cm_attempt := cm_attempt m;
  cm_recall_none := cm_recall_none m; cm_authenticated := cm_authenticated m;
  cm_handshake := cm_handshake m; cm_epoch_manager := cm_epoch_manager m; cm_out := cm_out m ++ [o] |}.

Definition _RECALL_WARN_AFTER_ATTEMPTS : Z := 5.

(** [min(5.0 * (2 ** attempt), 300.0)] with a jitter of a quarter of it either
    way; [u] in [-1, 1] is the draw. The power is converted to a float, which
    fails from 2 ** 1024 on. *)
Definition base_delay (attempt : Z) : float := fmin (fz 5 * fz (2 ^ attempt))%F (fz 300).
Definition _get_backoff_delay (u : float) (m : ChannelMirror) : res float :=
  if 1024 <=? cm_attempt m then Raise (Exn OverflowError "int too large to convert to float")
  else
    let delay := base_delay (cm_attempt m) in
    Ok (delay + delay * QArith_base.Qmake 1 4 * u)%F.

Definition _schedule_retry (u : float) : M ChannelMirror unit :=
  let! m := get in
  if negb (cm_running m) then ret tt
  else
    modify (set_timer false) ;;
    let! delay := of_res (_get_backoff_delay u m) in
    modify (set_attempt (cm_attempt m + 1)) ;;
    modify (set_timer true) ;;
    modify (emit (ArmTimer delay)).

Definition _handle_recall_none (u : float) : M ChannelMirror unit :=
  modify (λ m, set_recall_none (cm_recall_none m + 1) m) ;;
  modify (emit (Attempt "recall_none")) ;;
  modify (set_state WAITING_FOR_PATH) ;;
  _schedule_retry u.

(** What RNS answers to a connection attempt. *)
Inductive rns_answer := RecallNone | LinkRaises | LinkMade (link : nat).

Definition _connect (a : rns_answer) (u : float) : M ChannelMirror unit :=
  let! m := get in
  if negb (cm_running m) then ret tt
  else if bool_decide (cm_state m = CONNECTING) || bool_decide (cm_state m = LINKED) then ret tt
  else
    modify (set_state CONNECTING) ;;
    match a with
    | RecallNone => _handle_recall_none u
    | LinkRaises =>
        modify (emit (Attempt "link_failed")) ;;
        modify (set_state CLOSED) ;;
        _schedule_retry u
    | LinkMade link =>
        modify (emit (NewLink link)) ;;
        modify (set_link (Some link))
    end.

Definition start (a : rns_answer) (u : float) : M ChannelMirror unit :=
  modify (set_running true) ;;
  _connect a u.

(** The timer fires. *)
Definition _reconnect (a : rns_answer) (u : float) : M ChannelMirror unit :=
  modify (set_timer false) ;;
  let! m := get in
  when (cm_running m && cm_started m) (_connect a u).

Definition wake (a : rns_answer) (u : float) : M ChannelMirror bool :=
  let! m := get in
  if negb (cm_running m) then ret false
  else if negb (bool_decide (cm_state m = WAITING_FOR_PATH) || bool_decide (cm_state m = CLOSED)) then ret false
  else
    modify (set_timer false) ;;
    _connect a u ;;
    ret true.

Definition stop : M ChannelMirror unit :=
  modify (set_running false) ;;
  modify (set_timer false) ;;
  let! m := get in
  match cm_link m with
  | Some l => modify (emit (Teardown l))
  | None => ret tt
  end.

Section protocol.
Context `{HP : Msgpack} `{HA : Aead} `{HK : KeyExchange} `{HS : Signing}.

(** The page request, [nonce] from [generate_nonce]. *)
Definition _sync_history (nonce : bytes) : M ChannelMirror unit :=
  let! m := get in
  match cm_link m with
  | None => ret tt
  | Some _ =>
      let! request := of_res (encode_sync_request SYNC_HISTORY nonce
        (Some [("channel_id", VStr (cm_channel_id m)); ("since_seq", VInt (cm_cursor m)); ("limit", VInt 100)])) in
      modify (emit (SendPacket request))
  end.

Definition _on_linked (nonce : bytes) : M ChannelMirror unit :=
  modify (set_attempt 0) ;;
  modify (set_recall_none 0) ;;
  modify (emit (Attempt "success")) ;;
  modify (set_state LINKED) ;;
  let! m := get in
  match cm_link m with
  | None => raise AttributeError "set_packet_callback"
  | Some _ =>
      if cm_handshake m then modify (emit Handshake) else _sync_history nonce
  end.

Definition _on_closed (u : float) : M ChannelMirror unit :=
  modify (set_authenticated false) ;;
  modify (set_state CLOSED) ;;
  modify (set_link None) ;;
  let! m := get in
  when (cm_running m) (_schedule_retry u).

Definition em_op {A} (em : EpochManager) (f : M EpochManager A) : M ChannelMirror A := λ m,
  let (r, em') := f em in (r, set_epoch_manager em' m).

(** One message of a page: [seq and seq > cursor] moves the cursor. *)
Definition take_message (v : val) : M ChannelMirror unit :=
  match v with
  | VDict d =>
      let! m := get in
      (match dict_get "seq" d with
       | None => ret tt
       | Some s =>
           if negb (val_true s) then ret tt
           else
             let! n := of_res (get_int "seq" 0 d) in
             when (cm_cursor m <? n) (modify (set_cursor n))
       end) ;;
      modify (emit (IngestMessage v))
  | _ => raise AttributeError "get"
  end.

Definition history_page (nonce : bytes) (resp_data : dict string val) : M ChannelMirror unit :=
  let! messages := match dict_get "messages" resp_data with
                   | None => ret []
                   | Some (VList l) => ret l
                   | Some _ => raise TypeError "messages"
                   end in
  mfold (λ _, take_message) tt messages ;;
  let! m := get in
  when (list_true messages) (modify (emit (SaveCursor (cm_channel_id m) (cm_cursor m)))) ;;
  when (get_bool "has_more" resp_data && cm_running m) (_sync_history nonce).

Definition is_str (k v : string) (d : dict string val) : bool := bool_decide (get_str k None d = Some v).

Definition sync_response (nonce : bytes) (data : bytes) : M ChannelMirror unit :=
  let! response := of_res (decode_sync_response data) in
  let! resp_data := match dict_get "data" response with
                    | None => ret []
                    | Some (VDict d) => ret d
                    | Some _ => raise AttributeError "get"
                    end in
  if is_str "action" "federation_handshake" resp_data then modify (emit (HandshakeResponse resp_data))
  else if is_str "action" "push_ack" resp_data then modify (emit (PushAcked resp_data))
  else history_page nonce resp_data.

(** The frames of the epoch protocol; [key] and [prefix] are the fresh private
    key and nonce prefix of a rotation from the peer. *)
Definition handle_response (now : float) (key prefix nonce data : bytes) : M ChannelMirror unit :=
  catch
    (let! m := get in
     match data with
     | b :: _ =>
         if is_epoch_frame data then
           match cm_epoch_manager m with
           | Some em =>
               if b =? EPOCH_DATA then
                 let! plain := em_op em (Epoch.decrypt data) in
                 sync_response nonce plain
               else if b =? EPOCH_ROTATE_ACK then
                 modify (emit (HandshakeResponse [("action", VStr "federation_handshake"); ("step", VInt 6);
                                                  ("epoch_rotate_ack_frame", VBytes data)]))
               else
                 let! ack := em_op em (handle_epoch_rotate now key prefix data) in
                 when (bool_decide (is_Some (cm_link m))) (modify (emit (SendPacket ack)))
           | None =>
               if b =? EPOCH_DATA then sync_response nonce data
               else if b =? EPOCH_ROTATE_ACK then
                 modify (emit (HandshakeResponse [("action", VStr "federation_handshake"); ("step", VInt 6);
                                                  ("epoch_rotate_ack_frame", VBytes data)]))
               else ret tt
           end
         else sync_response nonce data
     | [] => sync_response nonce data
     end)
    (λ _, ret tt).
End protocol.

(** ** The manager and the daemon's part in it *)

Record MirrorManager := {
  mg_mirrors : dict string ChannelMirror;
  mg_pushers : dict string FederationPusher.t;
}.
Definition set_mirrors (f : dict string ChannelMirror → dict string ChannelMirror) (g : MirrorManager)
    : MirrorManager := {| mg_mirrors := f (mg_mirrors g); mg_pushers := mg_pushers g |}.
Definition set_pushers (f : dict string FederationPusher.t → dict string FederationPusher.t) (g : MirrorManager)
    : MirrorManager := {| mg_mirrors := mg_mirrors g; mg_pushers := f (mg_pushers g) |}.

Definition parked (m : ChannelMirror) : bool :=
  bool_decide (cm_state m = WAITING_FOR_PATH) || bool_decide (cm_state m = CLOSED).

Definition iter_parked (g : MirrorManager) : list (string * ChannelMirror) :=
  List.filter (λ p, parked p.2) (mg_mirrors g).

(** [state_summary]: how many mirrors are in a state. *)
Definition state_count (st : MirrorState) (g : MirrorManager) : Z :=
  zlen (List.filter (λ p, bool_decide (cm_state p.2 = st)) (mg_mirrors g)).

(** An operation on the mirror under a key. *)
Definition on_mirror {A} (k : string) (dflt : A) (f : M ChannelMirror A) : M MirrorManager A := λ g,
  match dict_get k (mg_mirrors g) with
  | None => (Ok dflt, g)
  | Some m => let (r, m') := f m in (r, set_mirrors (dict_set k m') g)
  end.

Section manager.
(** What RNS answers to the mirror under a key, and the draws of the jitter. *)
Context (rns : string → rns_answer) (u : string → float).

Definition wake_for_hash (remote_hash : bytes) : M MirrorManager Z :=
  let! g := get in
  mfold (λ woken p,
    if negb (bool_decide (cm_remote_hash p.2 = remote_hash)) then ret woken
    else
      let! w := on_mirror p.1 false (wake (rns p.1) (u p.1)) in
      ret (if w then woken + 1 else woken)) 0 (mg_mirrors g).

(** One round of [periodic_mirror_health]: an exception ends the round. *)
Definition mirror_health_round : M MirrorManager unit :=
  catch
    (let! g := get in
     mfold (λ _ p, on_mirror p.1 false (wake (rns p.1) (u p.1)) ;; ret tt) tt (iter_parked g))
    (λ _, ret tt).

Definition mirror_key (peer channel_id : string) : string := String.append peer (String.append ":" channel_id).

(** [add_mirror] of the daemon. *)
Definition add_mirror (node_hash : string) (max_backoff : float) (remote_hash : bytes) (channel_id : string)
    (initial_cursor : Z) : M MirrorManager unit :=
  let peer_hash_hex := string_of (hex remote_hash) in
  let key := mirror_key peer_hash_hex channel_id in
  let! g := get in
  if dict_has key (mg_mirrors g) then ret tt
  else
    let m := new_mirror remote_hash channel_id initial_cursor in
    let m := {| cm_remote_hash := cm_remote_hash m; cm_channel_id := cm_channel_id m; cm_link := cm_link m;
                cm_cursor := cm_cursor m; cm_running := cm_running m; cm_started := cm_started m;
                cm_timer := cm_timer m; cm_state := cm_state m; cm_attempt := cm_attempt m;
                cm_recall_none := cm_recall_none m; cm_authenticated := cm_authenticated m;
                cm_handshake := true; cm_epoch_manager := cm_epoch_manager m; cm_out := cm_out m |} in
    match start (rns key) (u key) m with
    | (Raise e, _) => throw e
    | (Ok _, m) =>
        modify (set_mirrors (dict_set key m)) ;;
        modify (set_pushers (dict_set key (FederationPusher.init peer_hash_hex channel_id node_hash max_backoff)))
    end.

Definition remove_mirror (remote_hash : bytes) (channel_id : string) : M MirrorManager unit :=
  let key := mirror_key (string_of (hex remote_hash)) channel_id in
  on_mirror key tt stop ;;
  modify (set_mirrors (dict_del key)).

(** The [push_cursor] setter. *)
Definition restore_push_cursor (n : Z) (s : FederationPusher.t) : FederationPusher.t := {|
  FederationPusher.peer_identity_hash := FederationPusher.peer_identity_hash s;
  FederationPusher.channel_id := FederationPusher.channel_id s;
  FederationPusher.node_identity_hash := FederationPusher.node_identity_hash s;
  FederationPusher._link := FederationPusher._link s;
  FederationPusher._session_factory := FederationPusher._session_factory s;
  FederationPusher._push_cursor := n; FederationPusher._epoch_manager := FederationPusher._epoch_manager s;
  FederationPusher._consecutive_failures := FederationPusher._consecutive_failures s;
  FederationPusher._last_attempt := FederationPusher._last_attempt s;
  FederationPusher._backoff_base := FederationPusher._backoff_base s;
  FederationPusher._max_backoff := FederationPusher._max_backoff s;
  FederationPusher.fp_sent := FederationPusher.fp_sent s; FederationPusher.fp_saved := FederationPusher.fp_saved s |}.

(** [load_configured_mirrors]: an exception ends the loading of all peers. *)
Definition load_peer_channel (node_hash : string) (max_backoff : float) (peer : Peer) (ch_id : string)
    : M MirrorManager unit :=
  let key := mirror_key (peer_identity_hash peer) ch_id in
  let! g := get in
  if dict_has key (mg_mirrors g) then ret tt
  else
    match fromhex (chars_of (peer_identity_hash peer)) with
    | None => raise ValueError "non-hexadecimal number found in fromhex() arg"
    | Some remote =>
        add_mirror node_hash max_backoff remote ch_id (default 0 (peer_sync_cursor peer !! ch_id)) ;;
        modify (set_pushers (λ d, match dict_get key d with
                                  | Some p => dict_set key (restore_push_cursor (default 0 (peer_push_cursor peer !! ch_id)) p) d
                                  | None => d
                                  end))
    end.

Definition load_configured_mirrors (node_hash : string) (max_backoff : float) (db : DB) : M MirrorManager unit :=
  catch
    (mfold (λ _ peer, mfold (λ _, load_peer_channel node_hash max_backoff peer) tt (peer_channels_mirrored peer))
       tt (rows (peers db)))
    (λ _, ret tt).

(** One round of [periodic_push_retry]; the check of the backoff is outside the
    [try] of the push. *)
Definition push_retry_round (now : float) (jitter : string → float)
    (push : FederationPusher.t → bool * FederationPusher.t) : M MirrorManager unit :=
  let! g := get in
  mfold (λ _ p,
    let! g := get in
    match dict_get p.1 (mg_pushers g) with
    | None => ret tt
    | Some pu =>
        let! due := of_res (FederationPusher._should_retry now (jitter p.1) pu) in
        when due (modify (set_pushers (dict_set p.1 (push pu).2)))
    end) tt (mg_pushers g).
End manager.

(** ** Cursors in the database *)

Definition set_sync_cursor (ch : string) (n : Z) (p : Peer) : Peer := {|
  peer_identity_hash := peer_identity_hash p; peer_node_name := peer_node_name p;
  peer_last_seen := peer_last_seen p; peer_channels_mirrored := peer_channels_mirrored p;
  peer_sync_cursor := <[ch := n]> (peer_sync_cursor p); peer_push_cursor := peer_push_cursor p;
  peer_federation_trusted := peer_federation_trusted p; peer_last_handshake := peer_last_handshake p;
  peer_public_key := peer_public_key p |}.
Definition set_push_cursor (ch : string) (n : Z) (p : Peer) : Peer := {|
  peer_identity_hash := peer_identity_hash p; peer_node_name := peer_node_name p;
  peer_last_seen := peer_last_seen p; peer_channels_mirrored := peer_channels_mirrored p;
  peer_sync_cursor := peer_sync_cursor p; peer_push_cursor := <[ch := n]> (peer_push_cursor p);
  peer_federation_trusted := peer_federation_trusted p; peer_last_handshake := peer_last_handshake p;
  peer_public_key := peer_public_key p |}.

(** The first peer, in the order of the table, that mirrors the channel. *)
Definition mirror_peer (channel_id : string) (db : DB) : option Peer :=
  find (λ p, bool_decide (channel_id ∈ peer_channels_mirrored p)) (rows (peers db)).

Definition persist_cursor (channel_id : string) (cursor : Z) : M DB unit :=
  let! db := get in
  match mirror_peer channel_id db with
  | Some p => modify (set_peers (alter (set_sync_cursor channel_id cursor) (peer_identity_hash p)))
  | None => ret tt
  end.

Definition persist_push_cursor (peer_hash channel_id : string) (cursor : Z) : M DB unit :=
  modify (set_peers (alter (set_push_cursor channel_id cursor) peer_hash)).

Definition shutdown (g : MirrorManager) : M DB MirrorManager :=
  mfold (λ _ p, persist_push_cursor (FederationPusher.peer_identity_hash p.2) (FederationPusher.channel_id p.2)
                  (FederationPusher._push_cursor p.2)) tt (mg_pushers g) ;;
  ret {| mg_mirrors := []; mg_pushers := [] |}.

(** ** The life of a mirror

    RNS reports on every link it made: that it is established, at most once,
    and that it is closed, once.  A run interleaves these reports with the
    timer, the announces and the operator. *)

Record world := {
  w_mirror : ChannelMirror;
  w_open : gset nat;                     (* links made and not closed *)
  w_next : nat;                          (* the next link RNS makes *)
}.

(** The links an answer opens, when the connection attempt uses it. *)
Definition connects (m : ChannelMirror) : bool :=
  cm_running m && negb (bool_decide (cm_state m = CONNECTING) || bool_decide (cm_state m = LINKED)).

Definition answer_of (n : nat) (a : rns_answer) : rns_answer :=
  match a with LinkMade _ => LinkMade n | a => a end.

(** What an attempt does to the world, given the mirror it meets. *)
Definition attempt_world (w : world) (before after : ChannelMirror) (a : rns_answer) : world :=
  match a with
  | LinkMade _ => if connects before
                  then {| w_mirror := after; w_open := {[ w_next w ]} ∪ w_open w; w_next := S (w_next w) |}
                  else {| w_mirror := after; w_open := w_open w; w_next := w_next w |}
  | _ => {| w_mirror := after; w_open := w_open w; w_next := w_next w |}
  end.

Section life.
Context `{HP : Msgpack} `{HA : Aead} `{HK : KeyExchange} `{HS : Signing}.

Inductive mirror_step : world → world → Prop :=
  | step_start w a u : cm_started (w_mirror w) = false →
      mirror_step w (attempt_world w (set_running true (w_mirror w))
        (start (answer_of (w_next w) a) u (w_mirror w)).2 a)
  | step_timer w a u : cm_timer (w_mirror w) = true →
      mirror_step w (attempt_world w (w_mirror w) (_reconnect (answer_of (w_next w) a) u (w_mirror w)).2 a)
  | step_wake w a u :
      mirror_step w (attempt_world w (w_mirror w) (wake (answer_of (w_next w) a) u (w_mirror w)).2 a)
  | step_linked w l nonce : l ∈ w_open w → cm_state (w_mirror w) = CONNECTING →
      mirror_step w {| w_mirror := (_on_linked nonce (w_mirror w)).2; w_open := w_open w; w_next := w_next w |}
  | step_closed w l u : l ∈ w_open w →
      mirror_step w {| w_mirror := (_on_closed u (w_mirror w)).2; w_open := w_open w ∖ {[ l ]}; w_next := w_next w |}
  | step_response w now key prefix nonce data :
      mirror_step w {| w_mirror := (handle_response now key prefix nonce data (w_mirror w)).2;
                       w_open := w_open w; w_next := w_next w |}
  | step_stop w :
      mirror_step w {| w_mirror := (stop (w_mirror w)).2; w_open := w_open w; w_next := w_next w |}.

Definition first_world (m : ChannelMirror) : world := {| w_mirror := m; w_open := ∅; w_next := 0 |}.

(** At most one link is open, and the mirror knows it exactly while it is
    connecting or linked; a parked mirror that runs has a timer, as long as the
    backoff can be computed. *)
Record mirror_ok (w : world) : Prop := {
  mo_link : match cm_link (w_mirror w) with Some l => w_open w = {[ l ]} | None => w_open w = ∅ end;
  mo_state : (cm_state (w_mirror w) = CONNECTING ∨ cm_state (w_mirror w) = LINKED) ↔ is_Some (cm_link (w_mirror w));
  mo_idle : cm_state (w_mirror w) = IDLE ↔ cm_started (w_mirror w) = false;
  mo_running : cm_running (w_mirror w) = true → cm_started (w_mirror w) = true;
  mo_timer : cm_running (w_mirror w) = true → parked (w_mirror w) = true →
    cm_timer (w_mirror w) = true ∨ 1024 ≤ cm_attempt (w_mirror w);
  mo_attempt : 0 ≤ cm_attempt (w_mirror w);
}.

(** What paging and handshake frames leave alone. *)
Definition same_life (m m' : ChannelMirror) : Prop :=
  cm_link m' = cm_link m ∧ cm_state m' = cm_state m ∧ cm_started m' = cm_started m
  ∧ cm_running m' = cm_running m ∧ cm_timer m' = cm_timer m ∧ cm_attempt m' = cm_attempt m.

#[export] Instance same_life_preorder : PreOrder same_life.
Proof using. split; [by intros m; split_and!|]. unfold same_life. intros a b c A B. intuition congruence. Qed.

Lemma sync_history_life nonce : mrel same_life (_sync_history nonce).
Proof using. unfold _sync_history. mrel_auto. by apply mrel_modify. Qed.

Lemma history_page_life nonce d : mrel same_life (history_page nonce d).
Proof using.
  unfold history_page. mrel_auto; [|by apply mrel_modify|apply sync_history_life].
  apply mrel_mfold; [typeclasses eauto|]. intros _ v. unfold take_message. mrel_auto; by apply mrel_modify.
Qed.

Lemma sync_response_life nonce data : mrel same_life (sync_response nonce data).
Proof using. unfold sync_response. mrel_auto; try (by apply mrel_modify). apply history_page_life. Qed.

Lemma em_op_life {A} em (f : M EpochManager A) : mrel same_life (em_op em f).
Proof using. intros m. unfold em_op. by destruct (f em). Qed.

Lemma handle_response_life now key prefix nonce data : mrel same_life (handle_response now key prefix nonce data).
Proof using.
  unfold handle_response. apply mrel_catch; [typeclasses eauto| |intros ?; apply mrel_ret; typeclasses eauto].
  mrel_auto; try (by apply mrel_modify); apply em_op_life || apply sync_response_life.
Qed.

(** Scheduling a retry touches the timer and the attempt counter only. *)
Lemma schedule_spec u m : let m' := (_schedule_retry u m).2 in
  cm_link m' = cm_link m ∧ cm_state m' = cm_state m ∧ cm_started m' = cm_started m
  ∧ cm_running m' = cm_running m
  ∧ (cm_running m = true → cm_timer m' = true ∨ 1024 ≤ cm_attempt m')
  ∧ (0 ≤ cm_attempt m → 0 ≤ cm_attempt m').
Proof using.
  unfold _schedule_retry, bind, get. cbn beta iota. destruct (cm_running m) eqn:Er; simpl; [|by split_and!].
  unfold of_res, _get_backoff_delay. destruct (Z.leb_spec 1024 (cm_attempt m)); simpl; split_and!; auto; lia.
Qed.

(** What a connection attempt needs of the state it meets. *)
Record attempt_pre (w : world) : Prop := {
  ap_link : match cm_link (w_mirror w) with Some l => w_open w = {[ l ]} | None => w_open w = ∅ end;
  ap_state : (cm_state (w_mirror w) = CONNECTING ∨ cm_state (w_mirror w) = LINKED) ↔ is_Some (cm_link (w_mirror w));
  ap_started : cm_started (w_mirror w) = true;
  ap_idle : cm_state (w_mirror w) = IDLE → cm_running (w_mirror w) = true;
  ap_attempt : 0 ≤ cm_attempt (w_mirror w);
}.

(** Parking in a state after a failed attempt. *)
Lemma park_ok o n m u st : (st = WAITING_FOR_PATH ∨ st = CLOSED) →
  cm_link m = None → o = ∅ → cm_started m = true → 0 ≤ cm_attempt m → cm_state m = st →
  mirror_ok {| w_mirror := (_schedule_retry u m).2; w_open := o; w_next := n |}.
Proof using.
  intros Hst Hl -> Hs Ha Hstate. destruct (schedule_spec u m) as (E1 & E2 & E3 & E4 & E5 & E6).
  split; simpl; rewrite ?E1, ?E2, ?E3, ?E4, ?Hl, ?Hs, ?Hstate.
  - done.
  - destruct Hst as [-> | ->]; (split; [by intros [|]|by intros []]).
  - by destruct Hst as [-> | ->].
  - done.
  - intros Hr _. by apply E5.
  - by apply E6.
Qed.

Lemma connect_run a u m :
  _connect a u m =
    if connects m then
      match a with
      | RecallNone => _schedule_retry u (set_state WAITING_FOR_PATH (emit (Attempt "recall_none")
                        (set_recall_none (cm_recall_none m + 1) (set_state CONNECTING m))))
      | LinkRaises => _schedule_retry u (set_state CLOSED (emit (Attempt "link_failed") (set_state CONNECTING m)))
      | LinkMade l => (Ok tt, set_link (Some l) (emit (NewLink l) (set_state CONNECTING m)))
      end
    else (Ok tt, m).
Proof using.
  unfold _connect, connects, bind, get. destruct (cm_running m); simpl; [|done].
  destruct (bool_decide (cm_state m = CONNECTING) || bool_decide (cm_state m = LINKED)); simpl; [done|]. by destruct a.
Qed.

Lemma connect_ok w a u :
  attempt_pre w →
  mirror_ok (attempt_world w (w_mirror w) (_connect (answer_of (w_next w) a) u (w_mirror w)).2 a).
Proof using.
  intros [Hl Hs Hst Hi Ha]. rewrite connect_run. unfold attempt_world. destruct (connects (w_mirror w)) eqn:Ec.
  - unfold connects in Ec. apply andb_true_iff in Ec as [Er Ec%negb_true_iff].
    rewrite orb_false_iff, !bool_decide_eq_false in Ec.
    assert (cm_link (w_mirror w) = None) as Hnone.
    { destruct (cm_link (w_mirror w)) eqn:E; [|done]. destruct Ec as [E1 E2].
      destruct (proj2 Hs) as [?|?]; [by eexists|done|done]. }
    rewrite Hnone in Hl. destruct a as [| |l]; cbn [answer_of].
    + apply (park_ok _ _ _ u WAITING_FOR_PATH); auto.
    + apply (park_ok _ _ _ u CLOSED); auto.
    + split; simpl; [rewrite Hl; set_solver|split; [by eexists|by left]|split; [done|congruence]|done|done|exact Ha].
  - assert (mirror_ok {| w_mirror := w_mirror w; w_open := w_open w; w_next := w_next w |}) as H; [|by destruct a].
    unfold connects in Ec. apply andb_false_iff in Ec as [Er|Ec%negb_false_iff].
    + split; simpl; [exact Hl|exact Hs| |congruence|congruence|exact Ha].
      split; [intros E; rewrite (Hi E) in Er; done|congruence].
    + rewrite orb_true_iff, !bool_decide_eq_true in Ec.
      split; simpl; [exact Hl|exact Hs| |done| |exact Ha].
      * split; [intros E; rewrite E in Ec; by destruct Ec|congruence].
      * unfold parked. intros _. by destruct Ec as [-> | ->].
Qed.

(** The reports of RNS on the link. *)
Lemma linked_ok w l nonce : mirror_ok w → l ∈ w_open w → cm_state (w_mirror w) = CONNECTING →
  mirror_ok {| w_mirror := (_on_linked nonce (w_mirror w)).2; w_open := w_open w; w_next := w_next w |}.
Proof using.
  intros [Hl Hs Hi Hrun Ht Ha] Hin Hc.
  destruct (cm_link (w_mirror w)) as [l0|] eqn:El; [|by rewrite Hl in Hin].
  unfold _on_linked, bind, modify, get. simpl. rewrite El.
  assert (∀ m', same_life (set_state LINKED (emit (Attempt "success") (set_recall_none 0 (set_attempt 0 (w_mirror w))))) m' →
    mirror_ok {| w_mirror := m'; w_open := w_open w; w_next := w_next w |}) as Hfin.
  { intros m' (E1 & E2 & E3 & E4 & E5 & E6). simpl in *. split; simpl; rewrite ?E1, ?E2, ?E3, ?E4, ?E6, ?El.
    - done. - split; [by eexists|by right]. - split; [done|]. intros E. rewrite Hc in Hi. by apply Hi in E.
    - done. - unfold parked. by rewrite E2. - done. }
  destruct (cm_handshake (w_mirror w)); apply Hfin; [by split_and!|].
  apply (sync_history_life nonce).
Qed.

Lemma closed_ok w l u : mirror_ok w → l ∈ w_open w →
  mirror_ok {| w_mirror := (_on_closed u (w_mirror w)).2; w_open := w_open w ∖ {[ l ]}; w_next := w_next w |}.
Proof using.
  intros [Hl Hs Hi Hrun Ht Ha] Hin.
  destruct (cm_link (w_mirror w)) as [l0|] eqn:El; [|by rewrite Hl in Hin].
  rewrite Hl in Hin |- *. apply elem_of_singleton in Hin as ->. rewrite difference_diag_L.
  assert (cm_started (w_mirror w) = true) as Es.
  { destruct (cm_started (w_mirror w)) eqn:E; [done|]. assert (cm_state (w_mirror w) = IDLE) as E' by (by apply Hi).
    destruct (proj2 Hs) as [?|?]; [by eexists|congruence|congruence]. }
  unfold _on_closed, bind, modify, get. simpl. destruct (cm_running (w_mirror w)) eqn:Er; simpl.
  + apply (park_ok _ _ _ u CLOSED); auto.
  + split; simpl; rewrite ?Es, ?Er; try done. split; [by intros [|]|by intros []].
Qed.

(** A started mirror that is not parked has no attempt to make. *)
Lemma unparked_busy m : cm_state m ≠ IDLE → parked m = false → connects m = false.
Proof using.
  unfold parked, connects. intros Hi. destruct (cm_running m); [|done].
  destruct (cm_state m); rewrite ?orb_true_r; simpl; done.
Qed.

(** C11: A mirror never holds two links, and never strands. Whatever the order
    in which the timer, announces, link reports, responses and the operator's
    stop arrive, in every reachable state: RNS has at most one open link of the
    mirror, exactly the one it knows, and it knows one exactly while it is
    connecting or linked; a mirror that has not been started is idle; and a
    running mirror that is parked has a retry pending, unless 1024 attempts in
    a row have failed, when computing the delay overflows. *)
Theorem mirror_life remote ch cursor w :
  rtc mirror_step (first_world (new_mirror remote ch cursor)) w → mirror_ok w.
Proof using.
  intros Hr. assert (mirror_ok (first_world (new_mirror remote ch cursor))) as H0.
  { split; simpl; try done. split; [by intros [|]|by intros []]. }
  revert H0. induction Hr as [w|w1 w2 w3 Hstep _ IH]; [done|]. intros Hok. apply IH. clear IH.
  pose proof Hok as [Hl Hs Hi Hrun Ht Ha].
  destruct Hstep as [w a u Hns|w a u Htm|w a u|w l nonce Hin Hc|w l u Hin|w now key prefix nonce data|w].
  - apply (connect_ok {| w_mirror := set_running true (w_mirror w); w_open := w_open w; w_next := w_next w |} a u).
    split; simpl; try done. by rewrite Hns.
  - unfold _reconnect, bind, modify, get. cbn beta iota. simpl.
    destruct (cm_running (w_mirror w) && cm_started (w_mirror w)) eqn:Erun.
    + apply andb_true_iff in Erun as [Er Es].
      apply (connect_ok {| w_mirror := set_timer false (w_mirror w); w_open := w_open w; w_next := w_next w |} a u).
      by split.
    + assert (cm_running (w_mirror w) = false) as Enr.
      { destruct (cm_running (w_mirror w)) eqn:E; [|done]. by rewrite Hrun in Erun. }
      unfold when, attempt_world, connects. rewrite Enr. simpl.
      destruct a; (split; simpl; auto; congruence).
  - unfold wake, bind at 1, get. cbn beta iota. destruct (cm_running (w_mirror w)) eqn:Er; simpl.
    2: { unfold attempt_world, connects. rewrite Er. simpl. destruct a; (split; simpl; auto; congruence). }
    fold (parked (w_mirror w)). destruct (parked (w_mirror w)) eqn:Hp; simpl.
    2: { assert (connects (w_mirror w) = false) as Ec.
         { apply (unparked_busy (w_mirror w)); [by rewrite Hi; rewrite Hrun|done]. }
         unfold attempt_world. rewrite Ec. destruct a; (split; simpl; auto; congruence). }
    unfold bind, modify.
    pose proof (connect_ok {| w_mirror := set_timer false (w_mirror w); w_open := w_open w; w_next := w_next w |} a u) as H.
    destruct (_connect (answer_of (w_next w) a) u (set_timer false (w_mirror w))) as [[[]|e] m'] eqn:E;
      simpl in *; unfold attempt_world in *; simpl in *; rewrite E in H; apply H;
      (split; simpl; auto; intros Ei; by rewrite Er).
  - by apply (linked_ok w l).
  - by apply closed_ok.
  - destruct (handle_response_life now key prefix nonce data (w_mirror w)) as (E1 & E2 & E3 & E4 & E5 & E6).
    split; simpl; unfold parked; rewrite ?E1, ?E2, ?E3, ?E4, ?E5, ?E6; auto.
  - unfold stop, bind, modify, get. simpl.
    destruct (cm_link (w_mirror w)) as [l|] eqn:El; (split; simpl; rewrite ?El, ?orb_false_r; auto; by intros).
Qed.
End life.

(** ** The backoff *)

(** The retry delay of a mirror, jitter included, is at least 3.75 and at
    most 375 seconds for the first 1024 failed attempts in a row; the next
    attempt raises [OverflowError] instead of arming the timer. *)
Theorem mirror_backoff u m :
  (fz (-1) <= u)%F → (u <= fz 1)%F → 0 ≤ cm_attempt m →
  match _get_backoff_delay u m with
  | Ok d => cm_attempt m < 1024 ∧ (QArith_base.Qmake 15 4 <= d)%F ∧ (d <= fz 375)%F
  | Raise e => 1024 ≤ cm_attempt m ∧ exn_cls e = OverflowError
               ∧ (cm_running m = true → cm_timer (_schedule_retry u m).2 = false)
  end.
Proof.
  intros Hu1 Hu2 Ha. unfold _get_backoff_delay. destruct (Z.leb_spec 1024 (cm_attempt m)) as [Hb|Hb].
  - split_and!; [done|done|]. intros Hr. unfold _schedule_retry, bind, get. cbn beta iota. rewrite Hr. simpl.
    unfold of_res, _get_backoff_delay. simpl. by rewrite (proj2 (Z.leb_le 1024 (cm_attempt m))).
  - assert (fz 5 <= base_delay (cm_attempt m) ∧ base_delay (cm_attempt m) <= fz 300)%F as [H1 H2].
    { assert (fz 1 <= fz (2 ^ cm_attempt m))%F as Hp.
      { assert (1 ≤ 2 ^ cm_attempt m) by (pose proof (Z.pow_pos_nonneg 2 (cm_attempt m)); lia).
        unfold fz. rewrite <- QArith_base.Zle_Qle. done. }
      unfold base_delay. change (fz 5) with (QArith_base.Qmake 5 1) in *. change (fz 300) with (QArith_base.Qmake 300 1) in *.
      change (fz 1) with (QArith_base.Qmake 1 1) in *. generalize dependent (fz (2 ^ cm_attempt m)). intros q Hq. flra. }
    generalize dependent (base_delay (cm_attempt m)). intros b H1 H2.
    change (fz (-1)) with (QArith_base.Qmake (-1) 1) in *. change (fz 5) with (QArith_base.Qmake 5 1) in *.
    change (fz 1) with (QArith_base.Qmake 1 1) in *. change (fz 300) with (QArith_base.Qmake 300 1) in *.
    change (fz 375) with (QArith_base.Qmake 375 1) in *. split_and!; [done|Lqa.nra|Lqa.nra].
Qed.

(** ** Paging through the remote's history *)

(** The document a remote answers a history request with, but for its clock. *)
Definition reply_doc (r : HistoryResponse) : dict string val :=
  [("action", VStr "history"); ("channel_id", VStr (hr_channel_id r));
   ("messages", VList (map VDict (hr_messages r))); ("latest_seq", VInt (hr_latest_seq r));
   ("has_more", VBool (hr_has_more r)); ("sync_profile", VInt (hr_sync_profile r))].

Definition ingested (m : ChannelMirror) : list (dict string val) :=
  omap (λ o, match o with IngestMessage (VDict d) => Some d | _ => None end) (cm_out m).

Definition doc_hashes (l : list (dict string val)) : list val :=
  omap (dict_get "msg_hash") l.

Section sync.
Context `{HP : Msgpack} `{HA : Aead}.
(** The remote: its context, its state, and who the mirror is to it. *)
Context (ctx : SyncContext) (req : option string) (s : Sync) (nonce : bytes).

Definition page_request (m : ChannelMirror) : dict string val :=
  [("channel_id", VStr (cm_channel_id m)); ("since_seq", VInt (cm_cursor m)); ("limit", VInt 100)].

(** Request, page, request, ...: [None] is out of fuel. *)
Fixpoint mirror_sync (fuel : nat) (m : ChannelMirror) : option ChannelMirror :=
  match fuel with
  | O => None
  | S fuel =>
      match handle_history ctx (page_request m) None req s with
      | (Ok r, _) =>
          let m' := (history_page nonce (reply_doc r) m).2 in
          if hr_has_more r && cm_running m then mirror_sync fuel m' else Some m'
      | (Raise _, _) => Some m
      end
  end.

(** A page of numbered rows in ascending order, all after the cursor. *)
Lemma take_page f l m :
  (∀ x, dict_get "seq" (f x) = Some (val_of VInt (m_seq x)) ∧ dict_get "msg_hash" (f x) = Some (VStr (m_msg_hash x))) →
  StronglySorted seq_lt_rel l → (∀ x, x ∈ l → ∃ n, m_seq x = Some n ∧ cm_cursor m < n) → 0 ≤ cm_cursor m →
  ∃ m', mfold (λ _, take_message) tt (map VDict (map f l)) m = (Ok tt, m')
  ∧ same_life m m' ∧ cm_channel_id m' = cm_channel_id m
  ∧ cm_cursor m' = match last l with Some x => seq_of x | None => cm_cursor m end
  ∧ ingested m' = ingested m ++ map f l.
Proof using.
  intros Hf. revert m. induction l as [|x l IH]; intros m Hs Hl Hc.
  { exists m. simpl. rewrite app_nil_r. by split_and!. }
  apply StronglySorted_inv in Hs as [Hs Hx]. rewrite Forall_forall in Hx.
  destruct (Hl x) as (n & Hn & Hlt); [left|]. destruct (Hf x) as [Hseq _].
  set (m1 := emit (IngestMessage (VDict (f x))) (set_cursor n m)).
  assert (E1 : take_message (VDict (f x)) m = (Ok tt, m1)).
  { unfold take_message, bind, get, get_int, of_res. rewrite Hseq, Hn. simpl.
    rewrite (proj2 (Z.eqb_neq n 0)) by lia. simpl. by rewrite (proj2 (Z.ltb_lt _ _)). }
  destruct (IH m1 Hs) as (m2 & E2 & Hlife & Hch & Hcur & Hing).
  - intros y Hy. destruct (Hl y) as (k & Hk & _); [by right|]. exists k. split; [done|].
    specialize (Hx y Hy). unfold seq_lt_rel, seq_of in Hx. rewrite Hn, Hk in Hx. exact Hx.
  - simpl. lia.
  - exists m2. cbn [map mfold]. rewrite (bind_run_ok _ _ _ _ _ E1). split_and!; [done| | | |].
    + by transitivity m1.
    + by rewrite Hch.
    + rewrite Hcur. destruct l as [|y l]; [simpl; unfold seq_of; by rewrite Hn|].
      rewrite last_cons_cons. destruct (last (y :: l)) eqn:El; [done|]. by apply last_None in El.
    + rewrite Hing. unfold m1, ingested. simpl. rewrite omap_app. simpl. by rewrite <- app_assoc.
Qed.

Let profile := get_session_profile ctx req (sy_db s).
(** The mirror asks for a hundred, the profile may allow it less. *)
Definition mirror_page : Z := Z.min 100 (max_sync_limit profile).

Lemma mirror_page_positive : 1 ≤ mirror_page.
Proof using. pose proof (profile_positive ctx req (sy_db s)). unfold mirror_page, profile. lia. Qed.

(** A page that the remote's handler answers, as the mirror takes it. *)
Lemma page_step m c s1 :
  let ch := cm_channel_id m in
  check_channel_read ctx ch req s = (Ok c, s1) → history_direction profile ≠ Some "backward" → ch ≠ "" →
  let raw := ztake mirror_page (after ch (cm_cursor m) (sy_db s)) in
  ∃ r f, handle_history ctx (page_request m) None req s = (Ok r, s1)
  ∧ hr_has_more r = (zlen raw =? mirror_page)
  ∧ hr_messages r = map f (List.filter is_shown raw)
  ∧ ∀ x, dict_get "seq" (f x) = Some (val_of VInt (m_seq x)) ∧ dict_get "msg_hash" (f x) = Some (VStr (m_msg_hash x)).
Proof using.
  intros ch Hread Hprof Hne raw. pose proof mirror_page_positive as Hpos.
  apply check_channel_read_ok in Hread as Hs1. destruct Hs1 as (Hdb & _). unfold handle_history.
  assert (get_str "channel_id" None (page_request m) = Some ch) as -> by done.
  assert (ostr_true (Some ch) = true) as -> by (by destruct ch). cbn [negb or_empty].
  rewrite (bind_run_ok _ _ _ _ _ Hread), (bind_run_ok (gets sy_db) _ s1 (sy_db s1) s1) by done. cbv zeta.
  change (or_empty (Some ch)) with ch. rewrite Hdb. fold profile.
  assert (history_rows profile (page_request m) ch (sy_db s) = Ok (mirror_page, raw)) as ->.
  { unfold history_rows. change (get_int "since_seq" 0 (page_request m)) with (Ok (cm_cursor m)).
    change (get_int "limit" (default_sync_limit profile) (page_request m)) with (Ok 100).
    rewrite bool_decide_eq_false_2 by done. cbn [andb]. fold mirror_page.
    change (or_empty (get_str "direction" (Some "forward") (page_request m))) with "forward".
    rewrite page_eq. unfold sql_limit. destruct (Z.ltb_spec mirror_page 0); [lia|done]. }
  rewrite (bind_run_ok (of_res _) _ s1 (mirror_page, raw) s1) by done. fold (List.filter is_shown raw).
  destruct (encoded_fields (List.filter is_shown raw) (cx_sealed_manager ctx)
    (get_bool "supports_sealed_at_rest" (page_request m)) (sy_db s)) as (f & Hf & Hfields).
  eexists _, f. split; [reflexivity|]. split; [done|]. split; [exact Hf|exact Hfields].
Qed.

(** Whether or not more is asked for, the page itself is the same. *)
Lemma history_page_run m r m1 :
  mfold (λ _, take_message) tt (map VDict (hr_messages r)) m = (Ok tt, m1) →
  let m2 := (history_page nonce (reply_doc r) m).2 in
  same_life m1 m2 ∧ cm_channel_id m2 = cm_channel_id m1 ∧ cm_cursor m2 = cm_cursor m1 ∧ ingested m2 = ingested m1.
Proof using.
  intros H. unfold history_page. rewrite (bind_run_ok _ _ m (map VDict (hr_messages r)) m) by done.
  rewrite (bind_run_ok _ _ _ _ _ H), (bind_run_ok get _ m1 m1 m1) by done.
  set (R := λ a b : ChannelMirror, same_life a b ∧ cm_channel_id b = cm_channel_id a ∧ cm_cursor b = cm_cursor a
    ∧ ingested b = ingested a).
  assert (PreOrder R) as HR.
  { split; [by intros a; split_and!|]. intros a b c (A1 & A2 & A3 & A4) (B1 & B2 & B3 & B4).
    split_and!; [by transitivity b|congruence..]. }
  assert (∀ o, (∀ d, o ≠ IngestMessage d) → mrel R (modify (emit o))) as Hemit.
  { intros o Ho a. split_and!; [done..|]. unfold ingested. simpl. rewrite omap_app. simpl.
    destruct o as [| | | | | | | |d|]; rewrite ?app_nil_r; try done. by destruct (Ho d). }
  apply (mrel_bind R). { apply mrel_when; [done|]. by apply Hemit. }
  intros _. apply mrel_when; [done|]. unfold _sync_history. mrel_auto.
Qed.

Lemma docs_hashed f l :
  (∀ x, dict_get "seq" (f x) = Some (val_of VInt (m_seq x)) ∧ dict_get "msg_hash" (f x) = Some (VStr (m_msg_hash x))) →
  doc_hashes (map f l) = map (λ x, VStr (m_msg_hash x)) l.
Proof using.
  intros Hf. induction l as [|x l IH]; [done|]. unfold doc_hashes. csimpl. rewrite (proj2 (Hf x)). f_equal. exact IH.
Qed.

(** One page: what the mirror has taken, and where its cursor is. *)
Lemma page_taken m c s1 :
  let ch := cm_channel_id m in let db := sy_db s in
  check_channel_read ctx ch req s = (Ok c, s1) → history_direction profile ≠ Some "backward" → ch ≠ "" →
  seqs_distinct ch db → 0 ≤ cm_cursor m →
  let raw := ztake mirror_page (after ch (cm_cursor m) db) in
  let pg := List.filter is_shown raw in
  ∃ r docs, handle_history ctx (page_request m) None req s = (Ok r, s1)
  ∧ hr_has_more r = (zlen raw =? mirror_page)
  ∧ let m2 := (history_page nonce (reply_doc r) m).2 in
    same_life m m2 ∧ cm_channel_id m2 = ch
  ∧ cm_cursor m2 = match last pg with Some x => seq_of x | None => cm_cursor m end
  ∧ ingested m2 = ingested m ++ docs ∧ doc_hashes docs = map (λ x, VStr (m_msg_hash x)) pg.
Proof using.
  intros ch db Hread Hprof Hne Hd Hc raw pg.
  destruct (page_step m c s1 Hread Hprof Hne) as (r & f & Hh & Hmore & Hmsgs & Hfields). fold ch db raw pg in Hmore, Hmsgs.
  destruct (shown_sorted mirror_page ch (cm_cursor m) db Hd) as [Hsort Hin]. fold raw pg in Hsort, Hin.
  destruct (take_page f pg m Hfields Hsort) as (m1 & E1 & Hl1 & Hch1 & Hcur1 & Hing1).
  { intros x Hx. destruct (Hin x Hx) as [Hn Hlt]. eauto. } { done. }
  rewrite <- Hmsgs in E1. destruct (history_page_run m r m1 E1) as (Hl2 & Hch2 & Hcur2 & Hing2).
  exists r, (map f pg). split; [done|]. split; [done|]. split; [by transitivity m1|].
  split_and!; [by rewrite Hch2|by rewrite Hcur2|by rewrite Hing2|by apply docs_hashed].
Qed.

(** C33: A mirror that may read a remote's channel, over a session whose
    profile does not force its pages backward, pages through its history to the
    end, unless a whole page of it consists of thread replies, which are left
    out of pages (when paging may never end). It has then handed over, once
    each and in ascending order, exactly the numbered rows of the channel after
    its cursor that a page shows, and its cursor is on the last of them. *)
Theorem mirror_sync_complete fuel m c s1 :
  let ch := cm_channel_id m in let db := sy_db s in
  check_channel_read ctx ch req s = (Ok c, s1) → history_direction profile ≠ Some "backward" → ch ≠ "" →
  seqs_distinct ch db → replies_sparse mirror_page (cm_cursor m) ch db →
  0 ≤ cm_cursor m → cm_running m = true → (length (after ch (cm_cursor m) db) < fuel)%nat →
  ∃ m', mirror_sync fuel m = Some m'
  ∧ (∃ docs, ingested m' = ingested m ++ docs
       ∧ doc_hashes docs = map (λ x, VStr (m_msg_hash x)) (shown_after ch (cm_cursor m) db))
  ∧ cm_cursor m' = match last (shown_after ch (cm_cursor m) db) with Some x => seq_of x | None => cm_cursor m end.
Proof using.
  revert m. induction fuel as [|fuel IH]; intros m ch db Hread Hprof Hne Hd Hsp Hc Hr Hf; [lia|].
  destruct (page_taken m c s1 Hread Hprof Hne Hd Hc) as (r & docs1 & Hh & Hmore & Hl & Hch & Hcur & Hing & Hdocs).
  fold ch db in Hmore, Hch, Hcur, Hdocs.
  destruct (shown_page mirror_page ch (cm_cursor m) db mirror_page_positive Hd Hsp) as (Heq & Hle & _ & Hless).
  set (raw := ztake mirror_page (after ch (cm_cursor m) db)) in *. set (pg := List.filter is_shown raw) in *.
  cbn [mirror_sync]. rewrite Hh. set (m2 := (history_page nonce (reply_doc r) m).2) in *.
  rewrite Hmore, Hr, andb_true_r. destruct (Z.eqb_spec (zlen raw) mirror_page) as [Efull|Eshort].
  - rewrite <- Hcur in Heq, Hle, Hless. destruct (IH m2) as (m' & E' & (docs & Hi' & Hd') & Hc'); rewrite ?Hch; fold db; try done.
    + by eapply replies_sparse_later.
    + lia.
    + destruct Hl as (_ & _ & _ & -> & _). done.
    + specialize (Hless Efull). lia.
    + rewrite Hch in Hd', Hc'. fold db in Hd', Hc'. exists m'. split; [done|]. split.
      * exists (docs1 ++ docs). split; [by rewrite Hi', Hing, <- app_assoc|].
        unfold doc_hashes in *. by rewrite omap_app, Hdocs, Hd', <- map_app, <- Heq.
      * rewrite Hc', Heq, last_app, Hcur. match goal with |- context [last (shown_after ?a ?b ?d)] => destruct (last (shown_after a b d)) end; done.
  - assert (pg = shown_after ch (cm_cursor m) db) as HpL.
    { unfold pg, shown_after, raw, ztake. rewrite take_ge; [done|].
      unfold zlen, raw, ztake in Eshort. rewrite length_take in Eshort. pose proof mirror_page_positive. lia. }
    exists m2. rewrite <- HpL. split; [done|]. split; [by exists docs1|done].
Qed.

(** When the next page of the remote is all thread replies that carry a number,
    it is empty but says there is more: the cursor stays and the mirror asks
    for the same page again, for ever. *)
Theorem mirror_sync_stuck fuel m c s1 :
  let ch := cm_channel_id m in let db := sy_db s in
  check_channel_read ctx ch req s = (Ok c, s1) → history_direction profile ≠ Some "backward" → ch ≠ "" →
  zlen (ztake mirror_page (after ch (cm_cursor m) db)) = mirror_page →
  List.filter is_shown (ztake mirror_page (after ch (cm_cursor m) db)) = [] → cm_running m = true →
  mirror_sync fuel m = None.
Proof using.
  revert m. induction fuel as [|fuel IH]; intros m ch db Hread Hprof Hne Hfull Hty Hr; [done|].
  destruct (page_step m c s1 Hread Hprof Hne) as (r & f & Hh & Hmore & Hmsgs & _). fold ch db in Hmore, Hmsgs.
  rewrite Hty in Hmsgs. cbn [mirror_sync]. rewrite Hh, Hmore, Hfull, Hr, Z.eqb_refl. simpl.
  assert (E1 : mfold (λ _, take_message) tt (map VDict (hr_messages r)) m = (Ok tt, m)) by (by rewrite Hmsgs).
  destruct (history_page_run m r m E1) as (Hl & Hch & Hcur & _).
  apply IH; rewrite ?Hch, ?Hcur; try done. destruct Hl as (_ & _ & _ & E4 & _). by rewrite E4.
Qed.
End sync.

(** ** Rounds of the manager *)

Lemma should_retry_raises now j pu e :
  FederationPusher._should_retry now j pu = Raise e → exn_cls e = OverflowError.
Proof.
  unfold FederationPusher._should_retry, FederationPusher.backoff. destruct (_ =? 0); [done|].
  destruct (_ <=? _); [|done]. by intros [= <-].
Qed.

(** One peer that stays unreachable ends the retries for all of them. Once
    a pusher has failed more than 1024 times in a row, every round of the
    periodic retry raises [OverflowError] when it computes that pusher's delay,
    outside the [try] that protects the push; the loop has no handler, and its
    task ends. *)
Theorem push_retry_stops now jitter push g k pu :
  dict_get k (mg_pushers g) = Some pu → 1024 < FederationPusher._consecutive_failures pu →
  ∃ e g', push_retry_round now jitter push g = (Raise e, g') ∧ exn_cls e = OverflowError.
Proof.
  intros Hk Hf. unfold push_retry_round. rewrite (bind_run_ok get _ g g g) by done.
  assert (k ∈ (mg_pushers g).*1) as Hin.
  { revert Hk. generalize (mg_pushers g). intros d. induction d as [|[k' v] d IH]; [done|]. simpl.
    destruct (decide (k = k')) as [->|Hne]; [by left|]. intros H. right. by apply IH. }
  revert Hin. set (l := mg_pushers g). clearbody l. revert g Hk.
  induction l as [|[k' v] l IH]; csimpl; intros g Hk Hin; [by apply elem_of_nil in Hin|].
  unfold bind at 1 2, get at 1. cbn beta iota.
  destruct (decide (k' = k)) as [->|Hne].
  - cbn [fst]. rewrite Hk. unfold bind, of_res, FederationPusher._should_retry, FederationPusher.backoff.
    rewrite (proj2 (Z.eqb_neq _ 0)), (proj2 (Z.leb_le 1024 _)) by lia. by eexists _, _.
  - assert (k ∈ l.*1) as Hin' by (by apply elem_of_cons in Hin as [?|?]).
    cbn [fst]. destruct (dict_get k' (mg_pushers g)) as [pu'|]; [|by apply IH]. unfold bind at 1, of_res.
    destruct (FederationPusher._should_retry now (jitter k') pu') as [[]|e] eqn:Es; [| |].
    + apply IH; [|done]. simpl. by rewrite dict_get_set_ne by congruence.
    + by apply IH.
    + eexists _, _. split; [done|]. by eapply should_retry_raises.
Qed.

(** The cursor of a mirrored channel is kept for the channel, not for the
    mirror that moved it: whichever peer's mirror reports it, it is written to
    the first peer of the table that mirrors the channel, and to no other. With
    two such peers, the second never has a cursor, and the first restarts from
    the second's. *)
Theorem cursor_crosses_peers ch n db p :
  (∀ k q, peers db !! k = Some q → peer_identity_hash q = k) → mirror_peer ch db = Some p →
  ∃ db', persist_cursor ch n db = (Ok tt, db')
  ∧ (∃ q, peers db' !! peer_identity_hash p = Some q ∧ peer_sync_cursor q !! ch = Some n)
  ∧ ∀ k q, k ≠ peer_identity_hash p → peers db !! k = Some q → peers db' !! k = Some q.
Proof.
  intros Hk Hp. unfold persist_cursor. rewrite (bind_run_ok get _ db db db) by done. rewrite Hp.
  eexists. split; [reflexivity|]. unfold mirror_peer in Hp. apply find_some in Hp as [Hin _].
  apply list_elem_of_In, elem_of_rows in Hin as [k Hin]. rewrite (Hk k p Hin). split.
  - eexists. simpl. rewrite lookup_alter_eq, Hin. split; [done|]. simpl. apply lookup_insert_eq.
  - intros k' q Hne Hq. simpl. by rewrite lookup_alter_ne.
Qed.

(** ** Witnesses *)

Definition demo_mirror : ChannelMirror := set_running true (new_mirror [10] "c" 0).

Lemma mirror_life_witness :
  mirror_ok (attempt_world (first_world (new_mirror [10] "c" 0)) (set_running true (new_mirror [10] "c" 0))
    (start (answer_of 0 RecallNone) (fz 0) (new_mirror [10] "c" 0)).2 RecallNone).
Proof.
  apply (@mirror_life full_msgpack toy_aead toy_kx toy_sign [10] "c" 0).
  eapply rtc_l; [|apply rtc_refl]. by apply (step_start (first_world (new_mirror [10] "c" 0)) RecallNone (fz 0)).
Defined.

Lemma mirror_backoff_witness :
  match _get_backoff_delay (fz 1) (set_attempt 3 demo_mirror) with
  | Ok d => 3 < 1024 ∧ (QArith_base.Qmake 15 4 <= d)%F ∧ (d <= fz 375)%F
  | Raise e => 1024 ≤ 3 ∧ exn_cls e = OverflowError
               ∧ (true = true → cm_timer (_schedule_retry (fz 1) (set_attempt 3 demo_mirror)).2 = false)
  end.
Proof. apply (mirror_backoff (fz 1) (set_attempt 3 demo_mirror)); vm_compute; congruence. Defined.

Definition remote_ctx : SyncContext := demo_ctx false None (demo_channel "c" ACCESS_PUBLIC false).

Definition reply_remote : Sync := {| sy_db := reply_between; sy_bans := ∅ |}.

Lemma mirror_sync_complete_witness :
  ∃ m', @mirror_sync full_msgpack toy_aead remote_ctx None reply_remote [] 4 demo_mirror = Some m'
  ∧ (∃ docs, ingested m' = [] ++ docs
       ∧ doc_hashes docs = map (λ x, VStr (m_msg_hash x)) (shown_after "c" 0 reply_between))
  ∧ cm_cursor m' = match last (shown_after "c" 0 reply_between) with Some x => seq_of x | None => 0 end.
Proof.
  apply (@mirror_sync_complete full_msgpack toy_aead remote_ctx None reply_remote [] 4 demo_mirror
    (demo_channel "c" ACCESS_PUBLIC false) reply_remote).
  - vm_compute. reflexivity.
  - discriminate.
  - discriminate.
  - exact reply_between_distinct.
  - apply few_rows_sparse. vm_compute. reflexivity.
  - simpl. lia.
  - reflexivity.
  - vm_compute. lia.
Defined.

(** A hundred numbered thread replies. *)
Definition reply_row (n : nat) : Message := {|
  m_msg_hash := String (Ascii.ascii_of_nat n) ""; m_channel_id := "c"; m_sender_hash := None;
  m_seq := Some (Z.of_nat n); m_timestamp := fz 0; m_type := MSG_THREAD_REPLY; m_body := None; m_media_path := None;
  m_media_meta := None; m_reply_to := Some "r"; m_thread_seq := None; m_ttl := None;
  m_received_at := fz 0; m_deleted := false; m_deleted_by := None; m_pinned := false;
  m_pinned_at := None; m_edit_chain := []; m_reactions := []; m_lxmf_signature := None;
  m_lxmf_signed_part := None; m_display_name := None; m_mentions := []; m_origin_node := Some "n";
  m_encrypted_body := None; m_encryption_nonce := None; m_encryption_epoch := None |}.
Definition reply_sync : Sync := {|
  sy_db := set_messages (λ _, list_to_map (map (λ n, (m_msg_hash (reply_row n), reply_row n)) (List.seq 1 100))) empty_db;
  sy_bans := ∅ |}.

Lemma mirror_sync_stuck_witness :
  @mirror_sync full_msgpack toy_aead remote_ctx None reply_sync [] 1000 demo_mirror = None.
Proof.
  apply (@mirror_sync_stuck full_msgpack toy_aead remote_ctx None reply_sync [] 1000 demo_mirror
    (demo_channel "c" ACCESS_PUBLIC false) reply_sync).
  - reflexivity.
  - discriminate.
  - discriminate.
  - vm_compute. reflexivity.
  - vm_compute. reflexivity.
  - reflexivity.
Defined.

Definition tired_pusher : FederationPusher.t := {|
  FederationPusher.peer_identity_hash := "p"; FederationPusher.channel_id := "c";
  FederationPusher.node_identity_hash := "n"; FederationPusher._link := false;
  FederationPusher._session_factory := true; FederationPusher._push_cursor := 0;
  FederationPusher._epoch_manager := None; FederationPusher._consecutive_failures := 1025;
  FederationPusher._last_attempt := fz 0; FederationPusher._backoff_base := fz 30;
  FederationPusher._max_backoff := fz 600; FederationPusher.fp_sent := []; FederationPusher.fp_saved := [] |}.

Lemma push_retry_stops_witness :
  ∃ e g', push_retry_round (fz 1) (λ _, fz 0) (λ p, (true, p))
            {| mg_mirrors := []; mg_pushers := [("p:c", tired_pusher)] |} = (Raise e, g') ∧ exn_cls e = OverflowError.
Proof.
  apply (push_retry_stops (fz 1) (λ _, fz 0) (λ p, (true, p))
    {| mg_mirrors := []; mg_pushers := [("p:c", tired_pusher)] |} "p:c" tired_pusher); reflexivity.
Defined.

Definition mirror_of (h : string) : Peer := {|
  peer_identity_hash := h; peer_node_name := None; peer_last_seen := None; peer_channels_mirrored := ["c"];
  peer_sync_cursor := ∅; peer_push_cursor := ∅; peer_federation_trusted := true; peer_last_handshake := None;
  peer_public_key := None |}.
Definition two_peers : DB := set_peers (λ _, {[ "p" := mirror_of "p"; "q" := mirror_of "q" ]}) empty_db.

Lemma cursor_crosses_peers_witness :
  ∃ p db', persist_cursor "c" 7 two_peers = (Ok tt, db')
  ∧ (∃ q, peers db' !! peer_identity_hash p = Some q ∧ peer_sync_cursor q !! "c" = Some 7)
  ∧ ∀ k q, k ≠ peer_identity_hash p → peers two_peers !! k = Some q → peers db' !! k = Some q.
Proof.
  eexists. apply (cursor_crosses_peers "c" 7 two_peers).
  - intros k q. simpl. intros [[<- <-]|[_ [<- <-]%lookup_singleton_Some]]%lookup_insert_Some; reflexivity.
  - vm_compute. reflexivity.
Defined.
