(* ===== verification/Metadata.v ===== *)
(** * Metadata handlers ([hokora/protocol/handlers/metadata.py])

    The node's listing of channels, categories and roles, pinned messages,
    threads and member lists.  The handlers return the documents that the code
    returns.  What RNS derives from a channel's identity (its public key and
    its LXMF destination) is part of the context. *)

From S2P Require Import Prelude Constants Models Queries Permissions RateLimit Ban Sealed Sequencer Message Wire History InviteCodes.

Record MetadataContext := {
  mx_sync : SyncContext;
  mx_show_private_channels : bool;             (* of the configuration, default True *)
  mx_node_name : string;
  mx_node_description : string;
  mx_node_identity : string;
  mx_node_identity_hash : option string;       (* node_rns_identity.hexhash *)
  (** [identity_manager.get_identity]: the public key, and the LXMF
      destination when it can be derived. *)
  mx_channel_identity : string → option (bytes * option string);
}.

(** [int(s)] on a text of ASCII characters: blanks around, a sign, digits with
    single underscores between them. *)
Definition digit_of (c : Ascii.ascii) : option Z :=
  let n := Z.of_nat (Ascii.nat_of_ascii c) in if (48 <=? n) && (n <=? 57) then Some (n - 48) else None.
Definition underscore : Ascii.ascii := Ascii.ascii_of_nat 95.
Fixpoint int_digits (acc : Z) (digit_before : bool) (l : chars) : option Z :=
  match l with
  | [] => if digit_before then Some acc else None
  | c :: l =>
      match digit_of c with
      | Some d => int_digits (10 * acc + d) true l
      | None => if digit_before && bool_decide (c = underscore) then int_digits acc false l else None
      end
  end.
Definition int_of_str (s : string) : option Z :=
  match strip (chars_of s) with
  | c :: l =>
      if bool_decide (c = Ascii.ascii_of_nat 45) then Z.opp <$> int_digits 0 false l
      else if bool_decide (c = Ascii.ascii_of_nat 43) then int_digits 0 false l
      else int_digits 0 false (c :: l)
  | [] => None
  end.

(** [int(v)] *)
Definition py_int (v : val) : res Z :=
  match v with
  | VInt z => Ok z
  | VBool b => Ok (if b then 1 else 0)
  | VFloat f => Ok (Z.quot (QArith_base.Qnum f) (Zpos (QArith_base.Qden f)))
  | VStr s => match int_of_str s with Some z => Ok z | None => Raise (Exn ValueError "int()") end
  | _ => Raise (Exn TypeError "int()")
  end.

Example int_of_str_ok : int_of_str " -1_20 " = Some (-120) ∧ int_of_str "1__2" = None ∧ int_of_str "" = None.
Proof. done. Qed.

Section metadata.
Context (mx : MetadataContext).
Abbreviation ctx := (mx_sync mx).

Definition is_node_owner (requester_hash : option string) : bool :=
  bool_decide (is_Some (cx_permission_resolver ctx)) && ostr_true requester_hash
  && bool_decide (requester_hash = cx_permission_resolver ctx).

(** [channel_manager.list_channels()] *)
Definition all_channels : list Channel := rows (cx_channels ctx).

Definition accessible_channel_ids (requester : string) (db : DB) : list string :=
  omap ra_channel_id (List.filter (λ a, bool_decide (ra_identity_hash a = requester)) (role_assignments db)).

Definition listed_channels (requester_hash : option string) (db : DB) : list Channel :=
  if is_node_owner requester_hash || mx_show_private_channels mx then all_channels
  else if ostr_true requester_hash then
    List.filter (λ ch, negb (bool_decide (ch_access_mode ch = ACCESS_PRIVATE))
                       || bool_decide (ch_id ch ∈ accessible_channel_ids (or_empty requester_hash) db)) all_channels
  else List.filter (λ ch, negb (bool_decide (ch_access_mode ch = ACCESS_PRIVATE))) all_channels.

(** [count(distinct(sender_hash)), max(timestamp) ... group_by(channel_id)] *)
Definition channel_rows_of (channel_id : string) (db : DB) : list Message :=
  List.filter (MessageRepo.in_channel channel_id) (rows (messages db)).
Definition member_count (channel_id : string) (db : DB) : Z :=
  zlen (remove_dups (omap m_sender_hash (channel_rows_of channel_id db))).
Definition last_activity (channel_id : string) (db : DB) : option float :=
  match map m_timestamp (channel_rows_of channel_id db) with
  | [] => None
  | t :: ts => Some (foldr fmax t ts)
  end.

Definition can_write (requester_hash : option string) (ch : Channel) (db : DB) : bool :=
  if ostr_true requester_hash then
    match cx_permission_resolver ctx with
    | Some owner => PermissionResolver.has_perm
        (PermissionResolver.get_effective_permissions owner (or_empty requester_hash) ch db) PERM_SEND_MESSAGES
    | None => true
    end
  else negb (bool_decide (ch_access_mode ch ∈ [ACCESS_PRIVATE; ACCESS_WRITE_RESTRICTED])).

Definition channel_doc (requester_hash : option string) (db : DB) (ch : Channel) : dict string val :=
  let identity := mx_channel_identity mx (ch_id ch) in
  [("id", VStr (ch_id ch)); ("name", VStr (ch_name ch)); ("description", VStr (ch_description ch));
   ("access_mode", VStr (ch_access_mode ch)); ("category_id", val_of VStr (ch_category_id ch));
   ("position", VInt (ch_position ch)); ("identity_hash", val_of VStr (ch_identity_hash ch));
   ("destination_hash", val_of VStr (ch_destination_hash ch));
   ("lxmf_destination_hash", val_of VStr (identity ≫= snd));
   ("identity_public_key", val_of VBytes (fst <$> identity)); ("sealed", VBool (ch_sealed ch));
   ("can_write", VBool (can_write requester_hash ch db)); ("latest_seq", VInt (ch_latest_seq ch));
   ("member_count", VInt (member_count (ch_id ch) db));
   ("last_activity", val_of VFloat (last_activity (ch_id ch) db))].

Definition category_doc (c : Category) : dict string val :=
  [("id", VStr (cat_id c)); ("name", VStr (cat_name c)); ("position", VInt (cat_position c));
   ("collapsed_default", VBool (cat_collapsed_default c))].
Definition role_doc (r : Role) : dict string val :=
  [("role_id", VStr (role_id r)); ("name", VStr (role_name r)); ("permissions", VInt (role_permissions r));
   ("colour", VStr (role_colour r)); ("position", VInt (role_position r));
   ("mentionable", VBool (role_mentionable r))].

Definition docs (l : list (dict string val)) : val := VList (map VDict l).

Definition handle_node_meta (now : float) (requester_hash : option string) : M Sync (dict string val) :=
  let! db := gets sy_db in
  let profile := get_session_profile ctx requester_hash db in
  let result :=
    [("action", VStr "node_meta"); ("node_name", VStr (mx_node_name mx));
     ("node_description", VStr (mx_node_description mx)); ("node_identity", VStr (mx_node_identity mx));
     ("node_identity_hash", val_of VStr (mx_node_identity_hash mx));
     ("channels", docs (map (channel_doc requester_hash db) (listed_channels requester_hash db)));
     ("node_time", VFloat now)] in
  ret (result ++
       if include_metadata profile
       then [("categories", docs (map category_doc (CategoryRepo.list_all db)));
             ("roles", docs (map role_doc (RoleRepo.list_all None None db)))]
       else [("categories", VList []); ("roles", VList []); ("metadata_partial", VBool true)]).

Definition handle_get_pins `{Aead} (payload : dict string val) (channel_id requester_hash : option string)
    : M Sync (dict string val) :=
  let ch := get_str "channel_id" channel_id payload in
  if negb (ostr_true ch) then raise SyncError "No channel_id for get_pins"
  else
    let ch := or_empty ch in
    check_channel_read ctx ch requester_hash ;;
    let! db := gets sy_db in
    ret [("action", VStr "pins"); ("channel_id", VStr ch);
         ("messages", docs (encode_messages_with_keys (MessageRepo.get_pinned ch db) (cx_sealed_manager ctx) false db))].

Definition handle_thread `{Aead} (payload : dict string val) (requester_hash : option string)
    : M Sync (dict string val) :=
  let root_hash := get_str "root_hash" None payload in
  if negb (ostr_true root_hash) then raise SyncError "root_hash required for sync_thread"
  else
    let root_hash := or_empty root_hash in
    let! root_msg := sy_ask (MessageRepo.get_by_hash root_hash) in
    match root_msg with
    | None => raise SyncError "Thread root message not found"
    | Some root_msg =>
        when (str_true (m_channel_id root_msg))
          (check_channel_read ctx (m_channel_id root_msg) requester_hash ;; ret tt) ;;
        let! db := gets sy_db in
        let profile := get_session_profile ctx requester_hash db in
        let! l := of_res (get_int "limit" (default_sync_limit profile) payload) in
        let messages := MessageRepo.get_thread_messages root_hash (Z.min l (max_sync_limit profile)) db in
        ret [("action", VStr "thread"); ("root_hash", VStr root_hash);
             ("messages", docs (encode_messages_with_keys messages (cx_sealed_manager ctx) false db))]
    end.

(** ** Member lists *)

(** The gate: none for an anonymous requester. *)
Definition check_member_list (ch : string) (requester_hash : option string) : M Sync unit :=
  match cx_channels ctx !! ch, cx_permission_resolver ctx with
  | Some channel, Some owner =>
      if negb (ostr_true requester_hash) then ret tt
      else
        let requester := or_empty requester_hash in
        if bool_decide (ch_access_mode channel = ACCESS_PRIVATE) then
          let! roles := sy_ask (RoleRepo.get_identity_roles requester (Some ch) true) in
          if negb (list_true roles) then raise PermissionDenied "Private channel member list requires membership"
          else ret tt
        else
          let! has_perm := sy_ask (PermissionResolver.resolve owner requester channel PERM_MANAGE_MEMBERS) in
          if negb has_perm then raise PermissionDenied "Member list requires MANAGE_MEMBERS permission"
          else ret tt
  | _, _ => ret tt
  end.

(** One row of the join of assignments, identities and roles. *)
Definition member_row (db : DB) (a : RoleAssignment) : option (Identity * Role) :=
  match identities db !! ra_identity_hash a, roles db !! ra_role_id a with
  | Some i, Some r => Some (i, r)
  | _, _ => None
  end.
Definition member_rows (ch : string) (db : DB) : list (Identity * Role) :=
  omap (member_row db) (List.filter (λ a, bool_decide (ra_channel_id a = Some ch) || bool_decide (ra_channel_id a = None))
                          (role_assignments db)).

(** The grouping by identity. *)
Abbreviation member := (option string * list (string * string))%type.
Definition add_member (members : dict string member) (row : Identity * Role) : dict string member :=
  let ih := id_hash row.1 in
  let '(name, rs) := default (id_display_name row.1, []) (dict_get ih members) in
  dict_set ih (name, rs ++ [(role_id row.2, role_name row.2)]) members.
Definition members_of (ch : string) (db : DB) : dict string member := foldl add_member [] (member_rows ch db).

Definition member_doc (m : string * member) : dict string val :=
  [("identity_hash", VStr m.1); ("display_name", val_of VStr m.2.1);
   ("roles", docs (map (λ r, [("role_id", VStr r.1); ("name", VStr r.2)]) m.2.2))].

(** [l[a:b]] for [a >= 0]. *)
Definition py_slice {A} (a b : Z) (l : list A) : list A :=
  let b := if b <? 0 then Z.max 0 (b + zlen l) else b in
  ztake (b - a) (drop (Z.to_nat a) l).

(** [int(payload.get("offset", 0))] *)
Definition get_offset (payload : dict string val) : res Z :=
  match dict_get "offset" payload with None => Ok 0 | Some v => py_int v end.

Definition handle_member_list (payload : dict string val) (channel_id requester_hash : option string)
    : M Sync (dict string val) :=
  let ch := get_str "channel_id" channel_id payload in
  if negb (ostr_true ch) then raise SyncError "No channel_id for get_member_list"
  else
    let ch := or_empty ch in
    check_member_list ch requester_hash ;;
    let! db := gets sy_db in
    let profile := get_session_profile ctx requester_hash db in
    let all_members := members_of ch db in
    let! l := of_res (get_int "limit" 50 payload) in
    let limit := Z.min (Z.min l (max_sync_limit profile)) 200 in
    let! o := of_res (get_offset payload) in
    let offset := Z.max 0 o in
    ret [("action", VStr "member_list"); ("channel_id", VStr ch);
         ("members", docs (map member_doc (py_slice offset (offset + limit) all_members)));
         ("total", VInt (zlen all_members)); ("has_more", VBool (offset + limit <? zlen all_members))].
End metadata.

(** ** What is listed *)

Section listing.
Context (mx : MetadataContext).

(** A channel is shown to the owner, when the node shows private channels, when
    it is not private, and to those who hold a role on it. *)
Definition shown (requester_hash : option string) (db : DB) (ch : Channel) : Prop :=
  is_node_owner mx requester_hash = true ∨ mx_show_private_channels mx = true
  ∨ ch_access_mode ch ≠ ACCESS_PRIVATE
  ∨ ∃ r a, requester_hash = Some r ∧ r ≠ "" ∧ a ∈ role_assignments db
           ∧ ra_identity_hash a = r ∧ ra_channel_id a = Some (ch_id ch).

Lemma elem_of_accessible r db c : c ∈ accessible_channel_ids r db ↔
  ∃ a, a ∈ role_assignments db ∧ ra_identity_hash a = r ∧ ra_channel_id a = Some c.
Proof using.
  unfold accessible_channel_ids. rewrite list_elem_of_omap. setoid_rewrite elem_of_filter_bool.
  setoid_rewrite bool_decide_eq_true. naive_solver.
Qed.

Lemma elem_of_listed req db ch :
  ch ∈ listed_channels mx req db ↔ (∃ id, cx_channels (mx_sync mx) !! id = Some ch) ∧ shown req db ch.
Proof using.
  unfold listed_channels, shown, all_channels.
  destruct (is_node_owner mx req || mx_show_private_channels mx) eqn:Eo.
  { rewrite elem_of_rows. apply orb_true_iff in Eo. naive_solver. }
  apply orb_false_iff in Eo as [-> ->]. destruct (ostr_true req) eqn:Er.
  - rewrite elem_of_filter_bool, elem_of_rows, orb_true_iff, negb_true_iff, bool_decide_eq_false, bool_decide_eq_true,
      elem_of_accessible. destruct req as [r|]; [|done]. simpl in *. apply str_true_iff in Er. naive_solver.
  - rewrite elem_of_filter_bool, elem_of_rows, negb_true_iff, bool_decide_eq_false.
    assert (∀ r, req = Some r → r = "") as Hr.
    { intros r ->. simpl in Er. destruct (decide (r = "")) as [|Hne]; [done|]. apply str_true_iff in Hne. congruence. }
    naive_solver.
Qed.

(** The node's listing is always answered and reads only: its channels are
    those shown to the requester, and an identified requester is told it may
    write exactly when its effective permissions have the bit. *)
Theorem node_meta_listing now req s :
  ∃ doc, handle_node_meta mx now req s = (Ok doc, s)
  ∧ dict_get "channels" doc
    = Some (docs (map (channel_doc mx req (sy_db s)) (listed_channels mx req (sy_db s))))
  ∧ (∀ ch, ch ∈ listed_channels mx req (sy_db s) ↔
       (∃ id, cx_channels (mx_sync mx) !! id = Some ch) ∧ shown req (sy_db s) ch)
  ∧ (∀ ch r owner, req = Some r → r ≠ "" → cx_permission_resolver (mx_sync mx) = Some owner →
       dict_get "can_write" (channel_doc mx req (sy_db s) ch)
       = Some (VBool (Z.testbit (PermissionResolver.get_effective_permissions owner r ch (sy_db s)) 0))).
Proof using.
  eexists. split; [reflexivity|]. split; [done|]. split; [intros ch; apply elem_of_listed|].
  intros ch r owner -> Hr Ho. rewrite <- has_perm_bit by lia. apply str_true_iff in Hr.
  simpl. unfold can_write. simpl. by rewrite Ho, Hr.
Qed.
End listing.

(** ** Paging through members *)

Section members.
Context (ch : string) (db : DB).

Lemma dict_keys_add_member d row : NoDup (dict_keys d) → NoDup (dict_keys (add_member d row)).
Proof using. unfold add_member. destruct (default _ _). apply dict_set_nodup. Qed.

(** The roles of a member are those of its rows, in order. *)
Lemma add_members_get rs d ih :
  dict_get ih (foldl add_member d rs) =
  match List.filter (λ row, bool_decide (id_hash row.1 = ih)) rs with
  | [] => dict_get ih d
  | (row :: _) as mine =>
      let '(name, old) := default (id_display_name row.1, []) (dict_get ih d) in
      Some (name, old ++ map (λ row, (role_id row.2, role_name row.2)) mine)
  end.
Proof using.
  revert d. induction rs as [|row rs IH]; intros d; simpl; [done|]. rewrite IH. unfold add_member.
  destruct (decide (id_hash row.1 = ih)) as [<-|Hne].
  - rewrite bool_decide_eq_true_2 by done. destruct (dict_get (id_hash row.1) d) as [[name old]|] eqn:Eg; simpl;
      rewrite dict_get_set_eq; simpl; destruct (List.filter _ rs) eqn:Ef; simpl; rewrite ?Eg; simpl;
      by rewrite <- ?app_assoc.
  - rewrite bool_decide_eq_false_2 by done. destruct (default _ _). by rewrite dict_get_set_ne.
Qed.

Lemma py_slice_window {A} (o k : Z) (l : list A) : 0 ≤ o → 0 ≤ k → py_slice o (o + k) l = ztake k (drop (Z.to_nat o) l).
Proof using.
  intros Ho Hk. unfold py_slice. destruct (Z.ltb_spec (o + k) 0); [lia|]. by replace (o + k - o) with k by lia.
Qed.
End members.

Lemma members_nodup ch db : NoDup (dict_keys (members_of ch db)).
Proof.
  unfold members_of. assert (∀ d, NoDup (dict_keys d) → NoDup (dict_keys (foldl add_member d (member_rows ch db)))) as H.
  { induction (member_rows ch db) as [|row rs IH]; intros d Hd; simpl; [done|]. apply IH. by apply dict_keys_add_member. }
  apply H. constructor.
Qed.

(** A client that asks for pages of [k] members until it is told there are no
    more. *)
Fixpoint member_pages (mx : MetadataContext) (ch : string) (k : Z) (req : option string) (s : Sync) (fuel : nat) (o : Z)
    : option (list val) :=
  match fuel with
  | O => None
  | S fuel =>
      match handle_member_list mx [("channel_id", VStr ch); ("limit", VInt k); ("offset", VInt o)] None req s with
      | (Ok doc, _) =>
          match dict_get "members" doc, dict_get "has_more" doc with
          | Some (VList page), Some (VBool more) =>
              if more then (λ rest, page ++ rest) <$> member_pages mx ch k req s fuel (o + k) else Some page
          | _, _ => None
          end
      | _ => None
      end
  end.

(** Paging through a member list ends with every member once. Every identity
    with a role on the channel or on the whole node is a member, under the
    roles of its assignments. *)
Theorem member_list_pages mx ch k req s fuel :
  check_member_list mx ch req s = (Ok tt, s) → ch ≠ "" →
  0 < k ≤ Z.min (max_sync_limit (get_session_profile (mx_sync mx) req (sy_db s))) 200 →
  (length (members_of ch (sy_db s)) < fuel)%nat →
  member_pages mx ch k req s fuel 0 = Some (map (λ m, VDict (member_doc m)) (members_of ch (sy_db s)))
  ∧ NoDup (dict_keys (members_of ch (sy_db s)))
  ∧ ∀ ih, dict_get ih (members_of ch (sy_db s)) =
      match List.filter (λ row, bool_decide (id_hash row.1 = ih)) (member_rows ch (sy_db s)) with
      | [] => None
      | (row :: _) as mine => Some (id_display_name row.1, map (λ row, (role_id row.2, role_name row.2)) mine)
      end.
Proof.
  intros Hc Hne Hk Hf. split_and!; [|apply members_nodup|].
  2:{ intros ih. unfold members_of. rewrite add_members_get. by destruct (List.filter _ _). }
  set (l := members_of ch (sy_db s)) in *.
  assert (∀ fuel o, 0 ≤ o → (length (drop (Z.to_nat o) l) < fuel)%nat →
    member_pages mx ch k req s fuel o = Some (map (λ m, VDict (member_doc m)) (drop (Z.to_nat o) l))) as H.
  2:{ rewrite H; [done|lia|]. by rewrite drop_0. }
  clear Hf. intros f. induction f as [|f IH]; intros o Ho Hf; [lia|]. simpl.
  unfold handle_member_list. simpl. apply str_true_iff in Hne. rewrite Hne. simpl.
  rewrite (bind_run_ok _ _ _ _ _ Hc). unfold bind, gets. simpl. fold l.
  replace (Z.max 0 o) with o by lia.
  replace (Z.min (Z.min k (max_sync_limit (get_session_profile (mx_sync mx) req (sy_db s)))) 200) with k by lia.
  rewrite py_slice_window by lia. rewrite length_drop in Hf. rewrite map_map.
  destruct (Z.ltb_spec (o + k) (zlen l)) as [Hm|Hm]; unfold zlen in Hm.
  - rewrite IH; [|lia|rewrite length_drop; lia]. simpl. rewrite <- map_app. do 2 f_equal. unfold ztake.
    replace (Z.to_nat (o + k)) with (Z.to_nat o + Z.to_nat k)%nat by lia. by rewrite <- drop_drop, take_drop.
  - do 2 f_equal. unfold ztake. apply take_ge. rewrite length_drop. lia.
Qed.

(** An anonymous requester gets the members of a private channel, which those
    who give their name are refused without membership. *)
Theorem member_list_anonymous mx c s r owner :
  cx_channels (mx_sync mx) !! ch_id c = Some c → ch_access_mode c = ACCESS_PRIVATE → ch_id c ≠ "" →
  cx_permission_resolver (mx_sync mx) = Some owner → r ≠ "" →
  RoleRepo.get_identity_roles r (Some (ch_id c)) true (sy_db s) = [] →
  let payload := [("channel_id", VStr (ch_id c))] in
  (∃ doc, handle_member_list mx payload None None s = (Ok doc, s)
    ∧ dict_get "total" doc = Some (VInt (zlen (members_of (ch_id c) (sy_db s)))))
  ∧ handle_member_list mx payload None (Some r) s
    = (Raise (Exn PermissionDenied "Private channel member list requires membership"), s).
Proof.
  intros Hc Hp Hid Ho Hr Hroles. apply str_true_iff in Hid. apply str_true_iff in Hr.
  unfold handle_member_list. simpl. rewrite Hid. simpl. split.
  - unfold check_member_list. rewrite Hc, Ho. simpl. unfold bind, ret, gets. simpl. by eexists.
  - unfold check_member_list. rewrite Hc, Ho. simpl. rewrite Hr. simpl. rewrite bool_decide_eq_true_2 by done.
    unfold bind, sy_ask, gets, raise. by rewrite Hroles.
Qed.
