(* ===== verification/Server.v ===== *)
(** * The sync server ([hokora/protocol/sync.py], [protocol/link_manager.py],
      [handlers/transport.py], [HokoraDaemon._handle_sync_request])

    One state for everything the sync handlers share, the dispatcher that
    routes a request to its handler under the replay check, the transaction it
    runs in, and the link manager that decodes a packet, answers it and keeps
    the table of links.  The handlers are those of the other files, each run on
    its part of the state. *)

From S2P Require Import Prelude Constants Models Queries Permissions RateLimit Ban Sealed Sequencer Message Ingest Wire Verification History Epoch Invites Session Live Media FedAuth FedPush Metadata.

(** ** The state and its parts *)

Record Server := {
  sv_node : Node;                                        (* database, sequencer, rate limiter, locks *)
  sv_redemption_attempts : gmap string (list float);     (* the invite manager *)
  sv_failure_attempts : gmap string (list float);
  sv_blocked_until : gmap string float;
  sv_cdsp : CDSPSessionManager.t;
  sv_live : LiveSubscriptionManager.t;
  sv_sealed : option SealedChannelManager.t;
  sv_bans : ban_counts;
  sv_bindings : bind_counts;
  sv_pending : dict string (bytes * float);              (* _pending_counter_challenges *)
  sv_nonces : NonceTracker.t;                            (* the verifier *)
}.

Definition sv_db (s : Server) : DB := n_db (sv_node s).

Definition sv_set_node (n : Node) (s : Server) : Server := {|
  sv_node := n; sv_redemption_attempts := sv_redemption_attempts s; sv_failure_attempts := sv_failure_attempts s;
  sv_blocked_until := sv_blocked_until s; sv_cdsp := sv_cdsp s; sv_live := sv_live s; sv_sealed := sv_sealed s;
  sv_bans := sv_bans s; sv_bindings := sv_bindings s; sv_pending := sv_pending s; sv_nonces := sv_nonces s |}.
Definition sv_set_db (db : DB) (s : Server) : Server := sv_set_node (set_db db (sv_node s)) s.
Definition sv_set_nonces (n : NonceTracker.t) (s : Server) : Server := {|
  sv_node := sv_node s; sv_redemption_attempts := sv_redemption_attempts s;
  sv_failure_attempts := sv_failure_attempts s; sv_blocked_until := sv_blocked_until s; sv_cdsp := sv_cdsp s;
  sv_live := sv_live s; sv_sealed := sv_sealed s; sv_bans := sv_bans s; sv_bindings := sv_bindings s;
  sv_pending := sv_pending s; sv_nonces := n |}.
Definition sv_set_live (l : LiveSubscriptionManager.t) (s : Server) : Server := {|
  sv_node := sv_node s; sv_redemption_attempts := sv_redemption_attempts s;
  sv_failure_attempts := sv_failure_attempts s; sv_blocked_until := sv_blocked_until s; sv_cdsp := sv_cdsp s;
  sv_live := l; sv_sealed := sv_sealed s; sv_bans := sv_bans s; sv_bindings := sv_bindings s;
  sv_pending := sv_pending s; sv_nonces := sv_nonces s |}.
Definition sv_set_bans (b : ban_counts) (s : Server) : Server := {|
  sv_node := sv_node s; sv_redemption_attempts := sv_redemption_attempts s;
  sv_failure_attempts := sv_failure_attempts s; sv_blocked_until := sv_blocked_until s; sv_cdsp := sv_cdsp s;
  sv_live := sv_live s; sv_sealed := sv_sealed s; sv_bans := b; sv_bindings := sv_bindings s;
  sv_pending := sv_pending s; sv_nonces := sv_nonces s |}.
Definition sv_set_pending (p : dict string (bytes * float)) (s : Server) : Server := {|
  sv_node := sv_node s; sv_redemption_attempts := sv_redemption_attempts s;
  sv_failure_attempts := sv_failure_attempts s; sv_blocked_until := sv_blocked_until s; sv_cdsp := sv_cdsp s;
  sv_live := sv_live s; sv_sealed := sv_sealed s; sv_bans := sv_bans s; sv_bindings := sv_bindings s;
  sv_pending := p; sv_nonces := sv_nonces s |}.

(** The parts the handlers run on. *)
Definition sync_part (s : Server) : Sync := {| sy_db := sv_db s; sy_bans := sv_bans s |}.
Definition set_sync_part (y : Sync) (s : Server) : Server := sv_set_bans (sy_bans y) (sv_set_db (sy_db y) s).
Definition sync_op {A} (m : M Sync A) : M Server A := lift sync_part set_sync_part m.

Definition live_part (s : Server) : LiveNode := {| ln_sync := sync_part s; ln_live := sv_live s |}.
Definition set_live_part (l : LiveNode) (s : Server) : Server := sv_set_live (ln_live l) (set_sync_part (ln_sync l) s).
Definition live_op {A} (m : M LiveNode A) : M Server A := lift live_part set_live_part m.

Definition fed_part (s : Server) : FedNode := {|
  fn_node := sv_node s; fn_pending := sv_pending s; fn_bans := sv_bans s; fn_bindings := sv_bindings s;
  fn_live := sv_live s |}.
Definition set_fed_part (f : FedNode) (s : Server) : Server := {|
  sv_node := fn_node f; sv_redemption_attempts := sv_redemption_attempts s;
  sv_failure_attempts := sv_failure_attempts s; sv_blocked_until := sv_blocked_until s; sv_cdsp := sv_cdsp s;
  sv_live := fn_live f; sv_sealed := sv_sealed s; sv_bans := fn_bans f; sv_bindings := fn_bindings f;
  sv_pending := fn_pending f; sv_nonces := sv_nonces s |}.
Definition fed_op {A} (m : M FedNode A) : M Server A := lift fed_part set_fed_part m.

Definition session_part (s : Server) : SessionNode := {|
  sn_iv := {| InviteManager.iv_db := sv_db s; InviteManager.iv_bans := sv_bans s;
              InviteManager._redemption_attempts := sv_redemption_attempts s;
              InviteManager._failure_attempts := sv_failure_attempts s;
              InviteManager._blocked_until := sv_blocked_until s |};
  sn_rl := n_rl (sv_node s); sn_cdsp := sv_cdsp s |}.
Definition set_session_part (p : SessionNode) (s : Server) : Server := {|
  sv_node := set_rl (sn_rl p) (set_db (sn_db p) (sv_node s));
  sv_redemption_attempts := InviteManager._redemption_attempts (sn_iv p);
  sv_failure_attempts := InviteManager._failure_attempts (sn_iv p);
  sv_blocked_until := InviteManager._blocked_until (sn_iv p); sv_cdsp := sn_cdsp p; sv_live := sv_live s;
  sv_sealed := sv_sealed s; sv_bans := InviteManager.iv_bans (sn_iv p); sv_bindings := sv_bindings s;
  sv_pending := sv_pending s; sv_nonces := sv_nonces s |}.
Definition session_op {A} (m : M SessionNode A) : M Server A := lift session_part set_session_part m.

Definition nonce_op {A} (m : M NonceTracker.t A) : M Server A := lift sv_nonces sv_set_nonces m.

(** ** What the handlers are given *)

(** The collaborators that do not change. *)
Record ServerConfig := {
  sg_channels : gmap string Channel;                     (* channel_manager._channels *)
  sg_node_owner : option string;                         (* permission_resolver.node_owner_hash *)
  sg_cdsp_manager : bool;
  sg_deferred_queue_limit : option Z;
  sg_fts : option (string → string → Z → list (dict string val));
  sg_show_private_channels : bool;
  sg_node_name : string;
  sg_node_description : string;
  sg_node_identity : string;
  sg_node_rns_identity : option (bytes * string);        (* the identity and its hexhash *)
  sg_channel_identity : string → option (bytes * option string);
  sg_fed_config : option FedConfig;
  sg_live_manager : bool;
  sg_rate_limiter : bool;
  sg_media : option MediaStorage.t;
  (** [rns_config.list_seeds]: an error text, or the entries of the file. *)
  sg_seeds : string + list (dict string val);
}.

Definition sync_ctx (g : ServerConfig) (s : Server) : SyncContext := {|
  cx_channels := sg_channels g; cx_sequencer := n_seq (sv_node s); cx_permission_resolver := sg_node_owner g;
  cx_sealed_manager := sv_sealed s; cx_cdsp_manager := sg_cdsp_manager g;
  cx_deferred_queue_limit := sg_deferred_queue_limit g; cx_fts_manager := sg_fts g |}.
Definition meta_ctx (g : ServerConfig) (s : Server) : MetadataContext := {|
  mx_sync := sync_ctx g s; mx_show_private_channels := sg_show_private_channels g; mx_node_name := sg_node_name g;
  mx_node_description := sg_node_description g; mx_node_identity := sg_node_identity g;
  mx_node_identity_hash := snd <$> sg_node_rns_identity g; mx_channel_identity := sg_channel_identity g |}.
Definition session_ctx (g : ServerConfig) (s : Server) : SessionContext := {|
  sc_cdsp_manager := sg_cdsp_manager g; sc_channel_manager := Some (sg_channels g); sc_invite_manager := true;
  sc_node_identity := sg_node_identity g; sc_permission_resolver := sg_node_owner g;
  sc_rate_limiter := sg_rate_limiter g; sc_sealed_manager := sv_sealed s |}.
Definition fed_ctx (g : ServerConfig) : FederationContext := {|
  fc_config := sg_fed_config g; fc_live_manager := sg_live_manager g; fc_node_identity := sg_node_identity g;
  fc_node_name := sg_node_name g; fc_node_rns_identity := fst <$> sg_node_rns_identity g;
  fc_rate_limiter := sg_rate_limiter g |}.

(** ** Requests and replies *)

Record RnsLink := { lk_id : link_id; lk_remote : Link }.

Record Request := {
  rq_action : val;
  rq_nonce : bytes;
  rq_payload : val;
  rq_channel_id : option string;
  rq_requester_hash : option string;
  rq_link : option RnsLink;
}.

(** What a request draws at random. *)
Record Draws := {
  dr_session_id : string;
  dr_resume_token : bytes;
  dr_invite_token : string;
  dr_fresh : Fresh;
}.

Inductive reply :=
  | Document (d : dict string val)
  | HistoryReply (now : float) (r : HistoryResponse)
  | SearchReply (channel_id : option string) (r : SearchResponse)
  | SubscribedReply (channel_id : string)
  | UnsubscribedReply (channel_id : option string)
  | MediaReply (r : media_reply)
  | RedeemReply (r : RedeemResponse)
  | HandshakeReply (node_name node_identity : string) (r : fed_reply)
  | PushReply (r : PushAck)
  | SealedKeyReply (r : SealedKeyResponse)
  | SessionReply (r : CDSPSessionManager.reply)
  | ProfileReply (r : CDSPSessionManager.reply)
  | InviteReply (r : InviteResponse)
  | InvitesReply (channel_id : option string) (l : list (string * option string * Z * Z * option float * bool)).

Definition item_doc (i : WireItem) : dict string val :=
  [("channel_id", val_of VStr (wi_channel_id i)); ("sync_action", VInt (wi_sync_action i)); ("payload", wi_payload i)].

(** The documents the handlers return; [None] is one that holds an object
    msgpack cannot pack (the [_epoch_manager] of step 6). *)
Definition document (r : reply) : option (dict string val) :=
  match r with
  | Document d => Some d
  | HistoryReply now r =>
      Some [("action", VStr "history"); ("channel_id", VStr (hr_channel_id r)); ("messages", docs (hr_messages r));
            ("latest_seq", VInt (hr_latest_seq r)); ("has_more", VBool (hr_has_more r)); ("gap_explanation", VNone);
            ("node_time", VFloat now); ("sync_profile", VInt (hr_sync_profile r))]
  | SearchReply ch r =>
      Some (if sr_deferred r
            then [("action", VStr "search"); ("results", VList []); ("deferred", VBool true)]
            else [("action", VStr "search"); ("channel_id", val_of VStr ch); ("results", docs (sr_results r));
                  ("query_truncated", VBool (sr_query_truncated r))])
  | SubscribedReply ch => Some [("action", VStr "subscribed"); ("channel_id", VStr ch)]
  | UnsubscribedReply ch => Some [("action", VStr "unsubscribed"); ("channel_id", val_of VStr ch)]
  | MediaReply MediaDeferred => Some [("action", VStr "media_deferred"); ("deferred", VBool true)]
  | MediaReply (MediaServing p _) => Some [("action", VStr "media_serving"); ("path", VStr p)]
  | RedeemReply r =>
      Some ([("action", VStr "invite_redeemed"); ("channel_id", val_of VStr (rr_channel_id r));
             ("identity_hash", VStr (rr_identity_hash r))]
            ++ match rr_sealed_key_epoch r with Some e => [("sealed_key_epoch", VInt e)] | None => [] end)
  | HandshakeReply name ident (Step2 c resp pk) =>
      Some ([("action", VStr "federation_handshake"); ("step", VInt 2); ("node_name", VStr name);
             ("identity_hash", VStr ident); ("counter_challenge", VBytes c); ("accepted", VBool true)]
            ++ match resp with Some r => [("challenge_response", VBytes r)] | None => [] end
            ++ match pk with Some k => [("peer_public_key", VBytes k)] | None => [] end)
  | HandshakeReply _ _ (Step4 fs) =>
      Some [("action", VStr "federation_handshake"); ("step", VInt 4); ("complete", VBool true); ("fs_capable", VBool fs)]
  | HandshakeReply _ _ (Step6 _ _) => None
  | PushReply r =>
      Some [("action", VStr "push_ack"); ("channel_id", VStr (pa_channel_id r)); ("received", VList (pa_received r));
            ("rejected", VList (map VStr (pa_rejected r)))]
  | SealedKeyReply r =>
      Some [("action", VStr "sealed_key"); ("channel_id", VStr (kr_channel_id r)); ("epoch", val_of VInt (kr_epoch r));
            ("encrypted_key_blob", val_of VBytes (kr_encrypted_key_blob r))]
  | SessionReply (CDSPSessionManager.Rejected code v) =>
      Some [("action", VStr "cdsp_session_reject"); ("error_code", VInt code); ("cdsp_version", val_of VInt v)]
  | SessionReply (CDSPSessionManager.Opened sid p tok) =>
      Some [("action", VStr "cdsp_session_ack"); ("session_id", VStr sid); ("accepted_profile", VInt p);
            ("cdsp_version", VInt CDSP_VERSION); ("deferred_count", VInt 0); ("resume_token", VBytes tok)]
  | SessionReply (CDSPSessionManager.Resumed sid p items) =>
      Some [("action", VStr "cdsp_session_ack"); ("session_id", VStr sid); ("accepted_profile", VInt p);
            ("cdsp_version", VInt CDSP_VERSION); ("deferred_count", VInt 0); ("resume_token", VNone);
            ("resumed", VBool true); ("flushed_count", VInt (zlen items)); ("flushed_items", docs (map item_doc items))]
  | ProfileReply (CDSPSessionManager.Updated sid p n items) =>
      Some [("action", VStr "cdsp_profile_ack"); ("session_id", VStr sid); ("accepted_profile", VInt p);
            ("cdsp_version", VInt CDSP_VERSION); ("deferred_count", VInt n); ("flushed_count", VInt (zlen items));
            ("flushed_items", docs (map item_doc items))]
  | ProfileReply (CDSPSessionManager.Rejected code _) =>
      Some [("action", VStr "cdsp_session_reject"); ("error_code", VInt code)]
  | SessionReply _ | ProfileReply _ => None
  | InviteReply r =>
      Some [("action", VStr "invite_created"); ("token", VStr (ir_token r)); ("token_hash", VStr (ir_token_hash r));
            ("max_uses", VInt (ir_max_uses r)); ("expiry_hours", VInt (ir_expiry_hours r));
            ("channel_id", val_of VStr (ir_channel_id r))]
  | InvitesReply ch l =>
      Some [("action", VStr "invite_list");
            ("invites", docs (map (λ '(h, c, m, u, e, r),
               [("token_hash", VStr h); ("channel_id", val_of VStr c); ("max_uses", VInt m); ("uses", VInt u);
                ("expires_at", val_of VFloat e); ("revoked", VBool r)]) l));
            ("channel_id", val_of VStr ch)]
  end.

(** ** The dispatcher *)

Section server.
Context `{HM : LinkMdu} `{HP : Msgpack} `{HA : Aead} `{HR : RnsIdentity} `{HE : Ed25519} `{HK : KeyExchange}
  `{HS : Signing} `{HH : Hashing}.
Context (g : ServerConfig) (recall : bytes → option bytes) (net : Net).

(** [_action_handlers.get(action)]: numbers are looked up by value, and what
    cannot be hashed raises; formatting the unknown action of the error message
    raises in turn when it is not an integer. *)
Definition action_of (v : val) : res Z :=
  match v with
  | VInt z => Ok z
  | VBool b => Ok (Z.b2z b)
  | VFloat f =>
      match List.find (λ a, fle (fz a) f && fle f (fz a))
              [SYNC_HISTORY; SYNC_NODE_META; SYNC_GET_PINS; SYNC_SEARCH; SYNC_THREAD; SYNC_GET_MEMBER_LIST;
               SYNC_SUBSCRIBE_LIVE; SYNC_UNSUBSCRIBE; SYNC_FETCH_MEDIA; SYNC_REDEEM_INVITE; SYNC_FEDERATION_HANDSHAKE;
               SYNC_PUSH_MESSAGES; SYNC_REQUEST_SEALED_KEY; SYNC_CDSP_SESSION_INIT; SYNC_CDSP_PROFILE_UPDATE;
               SYNC_CREATE_INVITE; SYNC_LIST_INVITES; SYNC_LIST_SEEDS] with
      | Some a => Ok a
      | None => Raise (Exn ValueError "Unknown format code")
      end
  | VStr _ => Raise (Exn ValueError "Unknown format code")
  | VList _ | VDict _ => Raise (Exn TypeError "unhashable type")
  | _ => Raise (Exn TypeError "unsupported format string")
  end.

(** [handle_list_seeds] ([protocol/handlers/transport.py]) *)
Definition handle_list_seeds (now : float) (requester_hash : option string) : M SessionNode (dict string val) :=
  when (sg_rate_limiter g && ostr_true requester_hash)
    (rl_op (RateLimiter.check_rate_limit now (or_empty requester_hash)) ;; ret tt) ;;
  ret (match sg_seeds g with
       | inl error => [("ok", VBool false); ("error", VStr error); ("seeds", VList [])]
       | inr entries => [("ok", VBool true); ("seeds", docs entries); ("restart_required", VBool false)]
       end).

Definition route (now : float) (dr : Draws) (fs : files) (action : Z) (payload : dict string val) (rq : Request)
    : M Server reply :=
  let ch := rq_channel_id rq in let req := rq_requester_hash rq in
  let! s := get in
  let cx := sync_ctx g s in let mx := meta_ctx g s in let sc := session_ctx g s in
  if action =? SYNC_HISTORY then mmap (HistoryReply now) (sync_op (handle_history cx payload ch req))
  else if action =? SYNC_NODE_META then mmap Document (sync_op (handle_node_meta mx now req))
  else if action =? SYNC_GET_PINS then mmap Document (sync_op (handle_get_pins mx payload ch req))
  else if action =? SYNC_SEARCH then
    mmap (SearchReply (get_str "channel_id" ch payload)) (sync_op (handle_search cx now payload ch req))
  else if action =? SYNC_THREAD then mmap Document (sync_op (handle_thread mx payload req))
  else if action =? SYNC_GET_MEMBER_LIST then mmap Document (sync_op (handle_member_list mx payload ch req))
  else if action =? SYNC_SUBSCRIBE_LIVE then
    mmap SubscribedReply (live_op (handle_subscribe_live cx (sg_live_manager g) payload ch req (lk_id <$> rq_link rq)))
  else if action =? SYNC_UNSUBSCRIBE then
    mmap UnsubscribedReply (live_op (handle_unsubscribe (sg_live_manager g) payload ch (lk_id <$> rq_link rq)))
  else if action =? SYNC_FETCH_MEDIA then
    mmap MediaReply (sync_op (handle_fetch_media cx now (sg_media g) fs payload ch req
                                (bool_decide (is_Some (rq_link rq)))))
  else if action =? SYNC_REDEEM_INVITE then
    mmap RedeemReply (session_op (handle_redeem_invite sc now payload req (lk_remote <$> rq_link rq)))
  else if action =? SYNC_FEDERATION_HANDSHAKE then
    mmap (HandshakeReply (sg_node_name g) (sg_node_identity g))
      (fed_op (handle_federation_handshake (fed_ctx g) recall now (dr_fresh dr) payload))
  else if action =? SYNC_PUSH_MESSAGES then
    mmap PushReply (fed_op (handle_push_messages (fed_ctx g) net now payload ch))
  else if action =? SYNC_REQUEST_SEALED_KEY then
    mmap SealedKeyReply (session_op (handle_request_sealed_key sc now payload ch req))
  else if action =? SYNC_CDSP_SESSION_INIT then
    mmap SessionReply (session_op (handle_cdsp_session_init sc now (dr_session_id dr) (dr_resume_token dr) payload req))
  else if action =? SYNC_CDSP_PROFILE_UPDATE then
    mmap ProfileReply (session_op (handle_cdsp_profile_update sc now payload))
  else if action =? SYNC_CREATE_INVITE then
    mmap InviteReply (session_op (handle_create_invite sc now (dr_invite_token dr) payload ch req))
  else if action =? SYNC_LIST_INVITES then
    mmap (InvitesReply (get_str "channel_id" ch payload)) (session_op (handle_list_invites sc payload ch req))
  else if action =? SYNC_LIST_SEEDS then mmap Document (session_op (handle_list_seeds now req))
  else raise SyncError "Unknown sync action".

(** [payload or {}]; a payload that is neither empty nor a dictionary makes the
    first [payload.get] raise, in all handlers but the two that read none. *)
Definition payload_of (action : Z) (v : val) : res (dict string val) :=
  match v with
  | VDict d => Ok d
  | _ => if negb (val_true v) || (action =? SYNC_NODE_META) || (action =? SYNC_LIST_SEEDS) then Ok []
         else Raise (Exn AttributeError "get")
  end.

(** [SyncHandler.handle] *)
Definition handle (now : float) (dr : Draws) (fs : files) (rq : Request) : M Server reply :=
  nonce_op (VerificationService.check_nonce_replay now (VBytes (rq_nonce rq))) ;;
  let! action := of_res (action_of (rq_action rq)) in
  let! payload := of_res (payload_of action (rq_payload rq)) in
  route now dr fs action payload rq.

(** [HokoraDaemon._handle_sync_request]: one transaction. *)
Definition _handle_sync_request (now : float) (dr : Draws) (fs : files) (rq : Request) : M Server reply :=
  atomic (λ s0 s1, sv_set_db (sv_db s0) s1) (handle now dr fs rq).

Definition cleanup_stale_challenges (now max_age : float) (s : Server) : Server :=
  sv_set_pending (List.filter (λ kv, negb (flt max_age (now - kv.2.2)%F)) (sv_pending s)) s.

(** ** The link manager *)

Record LinkContext := { lc_channel_id : string; lc_identity_hash : option string }.

(** The table of links, the epoch managers by peer and channel, and what was
    sent on links. *)
Record LinkManager := {
  lm_server : Server;
  lm_links : gmap link_id LinkContext;
  lm_epoch_managers : gmap string EpochManager;
  lm_sent : list (link_id * bytes);
}.
Definition lm_set_server (s : Server) (m : LinkManager) : LinkManager :=
  {| lm_server := s; lm_links := lm_links m; lm_epoch_managers := lm_epoch_managers m; lm_sent := lm_sent m |}.
Definition lm_set_links (f : gmap link_id LinkContext → gmap link_id LinkContext) (m : LinkManager) : LinkManager :=
  {| lm_server := lm_server m; lm_links := f (lm_links m); lm_epoch_managers := lm_epoch_managers m;
     lm_sent := lm_sent m |}.
Definition lm_set_epochs (f : gmap string EpochManager → gmap string EpochManager) (m : LinkManager) : LinkManager :=
  {| lm_server := lm_server m; lm_links := lm_links m; lm_epoch_managers := f (lm_epoch_managers m);
     lm_sent := lm_sent m |}.
Definition lm_send (l : link_id) (b : bytes) (m : LinkManager) : LinkManager :=
  {| lm_server := lm_server m; lm_links := lm_links m; lm_epoch_managers := lm_epoch_managers m;
     lm_sent := lm_sent m ++ [(l, b)] |}.

Definition on_link_established (l : RnsLink) (channel_id : string) : M LinkManager unit :=
  match lk_remote l with
  | Ok o => modify (lm_set_links (<[lk_id l := {| lc_channel_id := channel_id; lc_identity_hash := ri_hexhash <$> o |}]>))
  | Raise _ => ret tt
  end.

Definition _on_link_closed (l : link_id) : M LinkManager unit :=
  modify (lm_set_links (delete l)) ;;
  modify (λ m, lm_set_server (sv_set_live (LiveSubscriptionManager.handle_link_death l (sv_live (lm_server m)))
                                (lm_server m)) m).

Definition set_identity (i : string) (c : LinkContext) : LinkContext :=
  {| lc_channel_id := lc_channel_id c; lc_identity_hash := Some i |}.
Definition _on_identified (l : link_id) (hexhash : string) : M LinkManager unit :=
  modify (lm_set_links (alter (set_identity hexhash) l)).

(** The name of the epoch manager of a link. *)
Definition em_key (c : option LinkContext) : option string :=
  match c with
  | Some c => if ostr_true (lc_identity_hash c) && str_true (lc_channel_id c)
              then Some (colon (or_empty (lc_identity_hash c)) (lc_channel_id c)) else None
  | None => None
  end.

(** Epoch frames: the plain request of a data frame, or nothing more to do.
    [key] and [prefix] are the draws of a rotation. *)
Definition epoch_frame (now : float) (key prefix : bytes) (l : link_id) (c : option LinkContext) (message : bytes)
    : M LinkManager (option bytes) :=
  let! m := get in
  match message, (em_key c ≫= λ k, (λ em, (k, em)) <$> lm_epoch_managers m !! k) with
  | b :: _, Some (k, em) =>
      if b =? EPOCH_DATA then
        let (r, em') := Epoch.decrypt message em in
        modify (lm_set_epochs (<[k := em']>)) ;;
        match r with Ok plain => ret (Some plain) | Raise _ => ret None end
      else if b =? EPOCH_ROTATE then
        let (r, em') := handle_epoch_rotate now key prefix message em in
        modify (lm_set_epochs (<[k := em']>)) ;;
        match r with Ok ack => modify (lm_send l ack) | Raise _ => ret tt end ;;
        ret None
      else ret None
  | _, _ => ret None
  end.

(** [response_data[key][:10]] on the bulky fields. *)
Definition truncated (d : dict string val) : dict string val :=
  let cut k d := match dict_get k d with Some (VList l) => dict_set k (VList (take 10 l)) d | _ => d end in
  cut "members" (cut "results" (cut "messages" (dict_set "truncated" (VBool true) d))).

(** The bytes of a response: a frame that is too large is cut once; a document
    that cannot be packed raises. *)
Definition response_bytes (now : float) (nonce : bytes) (r : reply) : res bytes :=
  match document r with
  | None => Raise (Exn TypeError "can not serialize")
  | Some d =>
      match encode_sync_response nonce d (Some now) with
      | Ok b => Ok b
      | Raise e => if bool_decide (exn_cls e = SyncError) then encode_sync_response nonce (truncated d) (Some now)
                   else Raise e
      end
  end.

Definition error_document : dict string val := [("error", VStr "Internal server error")].

(** The request of a link: who sends it, with the fallback to the link itself. *)
Definition requester_of (l : RnsLink) (c : option LinkContext) : option string :=
  let known := c ≫= lc_identity_hash in
  if ostr_true known then known
  else match lk_remote l with Ok (Some i) => Some (ri_hexhash i) | _ => known end.

Definition remember_identity (l : RnsLink) (c : option LinkContext) : M LinkManager unit :=
  if ostr_true (c ≫= lc_identity_hash) then ret tt
  else match lk_remote l with
       | Ok (Some i) => modify (lm_set_links (alter (set_identity (ri_hexhash i)) (lk_id l)))
       | _ => ret tt
       end.

(** The call of the daemon for a decoded request: its action, nonce and
    payload, with what the link says of the sender. *)
Definition request_of (l : RnsLink) (c : option LinkContext) (nonce : bytes) (request : dict string val) : Request := {|
  rq_action := default VNone (dict_get "action" request); rq_nonce := nonce;
  rq_payload := default (VDict []) (dict_get "payload" request);
  rq_channel_id := lc_channel_id <$> c; rq_requester_hash := requester_of l c; rq_link := Some l |}.

(** What becomes of the wait of thirty seconds for the handler, and whether RNS
    takes the packet or resource of the response, and the packet of the error
    answer.  From Python 3.11 on the timeout of a future is the built-in
    [TimeoutError]; before, it is not. *)
Inductive wait := InTime | TimedOut (builtin : bool).
Record Delivery := { dl_wait : wait; dl_response : bool; dl_error : bool }.

(** The answer to a handler that failed. *)
Definition answer_error (dl : Delivery) (l : RnsLink) (nonce : bytes) : M LinkManager unit :=
  let! b := of_res (encode_sync_response nonce error_document None) in
  if dl_error dl then modify (lm_send (lk_id l) b) else raise RuntimeError "send".

(** A decoded request, answered on its link.  A handler that is not waited for
    any longer goes on, and its result is dropped. *)
Definition answer (now : float) (dr : Draws) (fs : files) (dl : Delivery) (l : RnsLink) (nonce : bytes) (rq : Request)
    : M LinkManager unit :=
  let! r := (λ m, let (r, s) := _handle_sync_request now dr fs rq (lm_server m) in (Ok r, lm_set_server s m)) in
  match dl_wait dl with
  | TimedOut true => ret tt
  | TimedOut false => answer_error dl l nonce
  | InTime =>
      match (match r with Ok rep => response_bytes now nonce rep | Raise e => Raise e end) with
      | Ok b => if dl_response dl then modify (lm_send (lk_id l) b) else answer_error dl l nonce
      | Raise _ => answer_error dl l nonce
      end
  end.

(** The message in the clear, or nothing more to do. *)
Definition open_packet (now : float) (dr : Draws) (l : RnsLink) (message : bytes) : M LinkManager (option bytes) :=
  let! m := get in
  if is_epoch_frame message
  then epoch_frame now (fr_private_key (dr_fresh dr)) (fr_prefix (dr_fresh dr)) (lk_id l) (lm_links m !! lk_id l) message
  else ret (Some message).

(** [_on_packet], with the reception by the daemon of what it decodes. *)
Definition _on_packet (now : float) (dr : Draws) (fs : files) (dl : Delivery) (l : RnsLink) (message : bytes)
    : M LinkManager unit :=
  let! m := get in
  let c := lm_links m !! lk_id l in
  let! plain := open_packet now dr l message in
  match plain with
  | None => ret tt
  | Some message =>
      catch
        (let! request := of_res (decode_sync_request message) in
         remember_identity l c ;;
         match dict_get "nonce" request with
         | Some (VBytes nonce) => answer now dr fs dl l nonce (request_of l c nonce request)
         | _ => ret tt
         end)
        (λ e, if bool_decide (exn_cls e = SyncError) then ret tt else throw e)
  end.
End server.
