(* ===== verification/Requests.v ===== *)
(** * What requests do ([hokora/protocol/sync.py], [protocol/link_manager.py])

    The theorems of [Server]: which tables a request of each kind can change,
    that the database stays well formed under any sequence of requests, that a
    refused request changes nothing and a replayed one is refused, and that
    a request that is understood is answered at most once, under its nonce, and
    exactly once when its handler is in time. *)

From S2P Require Import Prelude Constants Models Queries Permissions RateLimit Ban Sealed Sequencer Message Ingest Wire Verification History Epoch Invites Session Live Media FedAuth FedPush Metadata Server.

(** ** The reach of a request *)

Definition session_action (a : Z) : bool :=
  bool_decide (a ∈ [SYNC_CDSP_SESSION_INIT; SYNC_CDSP_PROFILE_UPDATE; SYNC_SEARCH; SYNC_FETCH_MEDIA]).

(** What a request with action [a] leaves alone. *)
Record footprint (a : Z) (db db' : DB) : Prop := {
  fp_core : (a =? SYNC_PUSH_MESSAGES) = false → same_core db db';
  fp_peers : (a =? SYNC_FEDERATION_HANDSHAKE) = false → peers db' = peers db;
  fp_grants : (a =? SYNC_REDEEM_INVITE) = false →
    role_assignments db' = role_assignments db ∧ identities db' = identities db ∧ sealed_keys db' = sealed_keys db;
  fp_invites : (a =? SYNC_REDEEM_INVITE) || (a =? SYNC_CREATE_INVITE) = false → invites db' = invites db;
  fp_sessions : session_action a = false →
    sessions db' = sessions db ∧ deferred_sync_items db' = deferred_sync_items db;
  fp_bans : ∀ h, is_blocked h db' = is_blocked h db;
  fp_rest : roles db' = roles db ∧ categories db' = categories db ∧ channel_overrides db' = channel_overrides db
    ∧ audit_log db' = audit_log db ∧ federation_epoch_state db' = federation_epoch_state db
    ∧ pending_sealed_distributions db' = pending_sealed_distributions db;
}.

#[export] Instance footprint_preorder a : PreOrder (footprint a).
Proof.
  split; [by intros db|]. intros d1 d2 d3 [A1 A2 A3 A4 A5 A6 A7] [B1 B2 B3 B4 B5 B6 B7]. split.
  - intros H. destruct (A1 H) as (? & ? & ?), (B1 H) as (? & ? & ?). split_and!; congruence.
  - intros H. rewrite B2 by done. auto.
  - intros H. destruct (A3 H) as (? & ? & ?), (B3 H) as (? & ? & ?). split_and!; congruence.
  - intros H. rewrite B4 by done. auto.
  - intros H. destruct (A5 H), (B5 H). split; congruence.
  - intros h. by rewrite B6.
  - destruct_and!. split_and!; congruence.
Qed.

(** The same through a part of the state. *)
Definition via {S} (f : S → DB) (a : Z) (s s' : S) : Prop := footprint a (f s) (f s').
#[export] Instance via_preorder {S} (f : S → DB) a : PreOrder (via f a).
Proof. split; [by intros s; unfold via|]. intros s1 s2 s3. unfold via. apply (footprint_preorder a). Qed.

Lemma via_same {S} (f : S → DB) a s s' : f s' = f s → via f a s s'.
Proof. unfold via. by intros ->. Qed.

(** Decomposes a handler into its steps on the database. *)
Ltac via_step :=
  first
  [ mrel_step
  | match goal with
    | |- mrel _ (catch _ _) => apply mrel_catch; [typeclasses eauto| |intros ?]
    | |- mrel _ (as_sync_error _ _) => apply mrel_catch; [typeclasses eauto| |intros ?]
    | |- mrel _ (mfold _ _ _) => apply mrel_mfold; [typeclasses eauto|intros ? ?]
    | |- mrel _ (sy_ask _) => apply mrel_gets; typeclasses eauto
    | |- mrel _ (fn_ask _) => apply mrel_gets; typeclasses eauto
    | |- mrel _ (sy_count _) => apply mrel_modify; intros ?; by apply via_same
    | |- mrel (via sy_db ?a) (sy_op _) => apply mrel_lift with (Rc := footprint a); [|by intros ? ? ?]
    | |- mrel (via sn_db ?a) (sdb_op _) => apply mrel_lift with (Rc := via InviteManager.iv_db a); [|by intros ? ? ?]
    | |- mrel (via sn_db ?a) (iv_op _) => apply mrel_lift with (Rc := via InviteManager.iv_db a); [|by intros ? ? ?]
    | |- mrel (via InviteManager.iv_db ?a) (InviteManager.on_iv_db _) => apply mrel_lift with (Rc := footprint a); [|by intros ? ? ?]
    | |- mrel (via sn_db _) (rl_op _) =>
        apply mrel_lift with (Rc := λ _ _ : RateLimiter.t, True); [by intros ?|intros ? ? _; by apply via_same]
    end ].
Ltac via_auto := repeat via_step; eauto with hok.

(** A change of one table is in the reach of the actions that may make it. *)
Ltac fp_modify := apply mrel_modify; intros ?; split; simpl; intros; (done || congruence).

Section handlers.
Context `{HM : LinkMdu} `{HP : Msgpack} `{HA : Aead} `{HR : RnsIdentity} `{HE : Ed25519} `{HK : KeyExchange}
  `{HS : Signing} `{HH : Hashing}.

Lemma check_not_blocked_reach a h : mrel (footprint a) (check_not_blocked h).
Proof using. unfold check_not_blocked. via_auto. Qed.
#[local] Hint Resolve check_not_blocked_reach : hok.

Lemma read_gate_reach a cx ch req : mrel (via sy_db a) (check_channel_read cx ch req).
Proof using. unfold check_channel_read. via_auto. Qed.
#[local] Hint Resolve read_gate_reach : hok.

(** The handlers that only read. *)
Lemma history_reach a cx p ch req : mrel (via sy_db a) (handle_history cx p ch req).
Proof using. unfold handle_history. via_auto. Qed.
Lemma node_meta_reach a mx now req : mrel (via sy_db a) (handle_node_meta mx now req).
Proof using. unfold handle_node_meta. via_auto. Qed.
Lemma pins_reach a mx p ch req : mrel (via sy_db a) (handle_get_pins mx p ch req).
Proof using. unfold handle_get_pins. via_auto. Qed.
Lemma thread_reach a mx p req : mrel (via sy_db a) (handle_thread mx p req).
Proof using. unfold handle_thread. via_auto. Qed.
Lemma member_list_reach a mx p ch req : mrel (via sy_db a) (handle_member_list mx p ch req).
Proof using. unfold handle_member_list, check_member_list. via_auto. Qed.

(** Deferral changes sessions and their queues. *)
Lemma defer_reach a cx now req ch act v : session_action a = true → mrel (footprint a) (defer_sync_item cx now req ch act v).
Proof using.
  intros Ha. unfold defer_sync_item, DeferredSyncItemRepo.evict_oldest, DeferredSyncItemRepo.enqueue, check_fk.
  via_auto; fp_modify.
Qed.
#[local] Hint Resolve defer_reach : hok.

Lemma search_reach cx now p ch req : mrel (via sy_db SYNC_SEARCH) (handle_search cx now p ch req).
Proof using. unfold handle_search. via_auto. Qed.
Lemma fetch_media_reach cx now media fs p ch req l :
  mrel (via sy_db SYNC_FETCH_MEDIA) (handle_fetch_media cx now media fs p ch req l).
Proof using. unfold handle_fetch_media. via_auto. Qed.

Definition live_db (s : LiveNode) : DB := sy_db (ln_sync s).
Lemma subscribe_reach a cx lm p ch req l : mrel (via live_db a) (handle_subscribe_live cx lm p ch req l).
Proof using.
  unfold handle_subscribe_live. via_auto.
  - apply mrel_lift with (Rc := via sy_db a); [apply read_gate_reach|by intros ? ? ?].
  - apply mrel_lift with (Rc := λ _ _, True); [by intros ?|intros ? ? _; by apply via_same].
Qed.
Lemma unsubscribe_reach a lm p ch l : mrel (via live_db a) (handle_unsubscribe lm p ch l).
Proof using.
  unfold handle_unsubscribe. via_auto. apply mrel_lift with (Rc := λ _ _, True); [by intros ?|intros ? ? _; by apply via_same].
Qed.

(** Sessions. *)
Lemma sealed_key_reach a sc now p ch req : mrel (via sn_db a) (handle_request_sealed_key sc now p ch req).
Proof using. unfold handle_request_sealed_key. via_auto. Qed.

Lemma flush_reach a sid p : session_action a = true → mrel (footprint a) (DeferredSyncItemRepo.flush_for_session sid p).
Proof using. intros Ha. unfold DeferredSyncItemRepo.flush_for_session. via_auto; fp_modify. Qed.
#[local] Hint Resolve flush_reach : hok.

Lemma profile_reach sc now p : mrel (via sn_db SYNC_CDSP_PROFILE_UPDATE) (handle_cdsp_profile_update sc now p).
Proof using.
  unfold handle_cdsp_profile_update, CDSPSessionManager.handle_profile_update, SessionRepo.update_profile.
  via_auto; fp_modify.
Qed.

Lemma session_reach sc now sid tok p req :
  mrel (via sn_db SYNC_CDSP_SESSION_INIT) (handle_cdsp_session_init sc now sid tok p req).
Proof using.
  unfold handle_cdsp_session_init. via_auto.
  apply mrel_lift with (Rc := via (S := DB * CDSPSessionManager.t) fst SYNC_CDSP_SESSION_INIT); [|by intros ? ? ?].
  unfold CDSPSessionManager.handle_session_init, CDSPSessionManager.on_self, CDSPSessionManager.resume,
    CDSPSessionManager.open_session. via_auto; try (apply mrel_modify; intros ?; by apply via_same).
  all: apply mrel_lift with (Rc := footprint SYNC_CDSP_SESSION_INIT); [|by intros ? ? ?].
  all: unfold SessionRepo.update_state, SessionRepo.create_session, check_unique; via_auto; fp_modify.
Qed.

(** Invites. *)
Lemma create_invite_reach sc now tok p ch req :
  mrel (via sn_db SYNC_CREATE_INVITE) (handle_create_invite sc now tok p ch req).
Proof using.
  unfold handle_create_invite, check_create_invite, InviteManager.create_invite, check_unique, check_fk.
  via_auto; fp_modify.
Qed.
Lemma list_invites_reach a sc p ch req : mrel (via sn_db a) (handle_list_invites sc p ch req).
Proof using. unfold handle_list_invites. via_auto. Qed.
Lemma list_seeds_reach a g now req : mrel (via sn_db a) (handle_list_seeds g now req).
Proof using. unfold handle_list_seeds. via_auto. Qed.

(** A new identity is not blocked, a known one stays as it is. *)
Lemma upsert_reach now ident : mrel (footprint SYNC_REDEEM_INVITE) (IdentityRepo.upsert now ident (λ i, i)).
Proof using.
  apply mrel_modify. intros db. split; simpl; try done. intros h. unfold is_blocked, IdentityRepo.is_blocked, IdentityRepo.get_by_hash.
  destruct (str_true h); [|done]. simpl. destruct (decide (h = ident)) as [->|].
  - rewrite lookup_partial_alter_eq. by destruct (identities db !! ident).
  - by rewrite lookup_partial_alter_ne.
Qed.

Lemma gates_reach a now ident : mrel (via InviteManager.iv_db a) (InviteManager.redeem_gates now ident).
Proof using.
  unfold InviteManager.redeem_gates, InviteManager._check_redeem_block, InviteManager._check_rate_limit. via_auto;
    apply mrel_modify; intros ?; by apply via_same.
Qed.
#[local] Hint Resolve upsert_reach gates_reach : hok.

Lemma redeem_reach sc now p req l : mrel (via sn_db SYNC_REDEEM_INVITE) (handle_redeem_invite sc now p req l).
Proof using.
  unfold handle_redeem_invite, InviteManager.redeem_invite, InviteManager.fail_with, InviteManager._record_failure,
    distribute_sealed_key, InviteManager.grant_member, RoleRepo.assign_role, check_fk, scalar_one_or_none.
  via_auto; try (apply mrel_modify; intros ?; by apply via_same); fp_modify.
Qed.

(** Federation. *)
Lemma db_op_reach {A} a (m : M DB A) : mrel (footprint a) m → mrel (via n_db a) (db_op m).
Proof using. intros Hm. by apply mrel_lift with (Rc := footprint a). Qed.

Lemma handshake_reach cx recall now fresh p :
  mrel (via fn_db SYNC_FEDERATION_HANDSHAKE) (handle_federation_handshake cx recall now fresh p).
Proof using.
  unfold handle_federation_handshake, handshake_step1, handshake_step3, handshake_step5, store_challenge. via_auto.
  all: try (apply mrel_modify; intros ?; by apply via_same).
  all: apply mrel_lift with (Rc := via n_db SYNC_FEDERATION_HANDSHAKE); [|by intros ? ? ?].
  all: try (apply db_op_reach; fp_modify).
  all: apply mrel_lift with (Rc := λ _ _, True); [by intros ?|intros ? ? _; by apply via_same].
Qed.

Lemma next_seq_reach ch : mrel (via n_db SYNC_PUSH_MESSAGES) (seq_op (SequenceManager.next_seq ch)).
Proof using.
  apply mrel_lift with (Rc := via (S := DB * SequenceManager.t) fst SYNC_PUSH_MESSAGES); [|by intros ? ? ?].
  unfold SequenceManager.next_seq, SequenceManager.on_mgr, SequenceManager.on_db. via_auto.
  - apply mrel_lift with (Rc := λ _ _, True); [by intros ?|intros ? ? _; by apply via_same].
  - apply mrel_lift with (Rc := footprint SYNC_PUSH_MESSAGES); [|by intros ? ? ?].
    unfold ChannelRepo.increment_seq, scalar_one. via_auto; fp_modify.
  - apply mrel_lift with (Rc := λ _ _, True); [by intros ?|intros ? ? _; by apply via_same].
Qed.

Lemma push_reach cx net now p ch : mrel (via fn_db SYNC_PUSH_MESSAGES) (handle_push_messages cx net now p ch).
Proof using.
  unfold handle_push_messages, handle_pushed, store_relayed, binding_of. via_auto.
  all: try (apply mrel_modify; intros ?; by apply via_same).
  all: try (apply mrel_lift with (Rc := λ _ _, True); [by intros ?|intros ? ? _; by apply via_same]).
  all: apply mrel_lift with (Rc := via n_db SYNC_PUSH_MESSAGES); [|by intros ? ? ?].
  - apply next_seq_reach.
  - apply db_op_reach. unfold MessageRepo.insert, check_unique, check_fk. via_auto; fp_modify.
Qed.

(** ** The dispatcher *)

Context (g : ServerConfig).

Lemma route_reach recall net now dr fs a p rq : mrel (via sv_db a) (route g recall net now dr fs a p rq).
Proof using.
  unfold route. apply mrel_bind; [typeclasses eauto|apply mrel_get; typeclasses eauto|intros s].
  repeat match goal with
  | |- mrel _ (if ?x =? ?y then _ else _) => destruct (Z.eqb_spec x y) as [->|_]
  | |- mrel _ (mmap _ _) => apply mrel_mmap; [typeclasses eauto|]
  | |- mrel (via _ ?a) (sync_op _) => apply mrel_lift with (Rc := via sy_db a); [|by intros ? ? ?]
  | |- mrel (via _ ?a) (live_op _) => apply mrel_lift with (Rc := via live_db a); [|by intros ? ? ?]
  | |- mrel (via _ ?a) (session_op _) => apply mrel_lift with (Rc := via sn_db a); [|by intros ? ? ?]
  | |- mrel (via _ ?a) (fed_op _) => apply mrel_lift with (Rc := via fn_db a); [|by intros ? ? ?]
  | |- mrel _ (raise _ _) => apply mrel_raise; typeclasses eauto
  end; auto using history_reach, node_meta_reach, pins_reach, search_reach, thread_reach, member_list_reach,
    subscribe_reach, unsubscribe_reach, fetch_media_reach, redeem_reach, handshake_reach, push_reach, sealed_key_reach,
    session_reach, profile_reach, create_invite_reach, list_invites_reach, list_seeds_reach.
Qed.

(** A handled request passed the replay check, names an action, and was routed. *)
Lemma handle_ok recall net now dr fs rq s r s' : handle g recall net now dr fs rq s = (Ok r, s') →
  ∃ a p s1, action_of (rq_action rq) = Ok a ∧ payload_of a (rq_payload rq) = Ok p
  ∧ VerificationService.check_nonce_replay now (VBytes (rq_nonce rq)) (sv_nonces s) = (Ok true, sv_nonces s1)
  ∧ s1 = sv_set_nonces (sv_nonces s1) s ∧ route g recall net now dr fs a p rq s1 = (Ok r, s').
Proof using.
  unfold handle. intros (b & s1 & H1 & H)%bind_ok. apply bind_ok in H as (a & s2 & H2 & H).
  apply bind_ok in H as (p & s3 & H3 & H). unfold of_res in H2, H3. simplify_eq.
  apply lift_ok in H1 as (c & H1 & ->). exists a, p, (sv_set_nonces c s). split_and!; try done.
  rewrite H1. unfold VerificationService.check_nonce_replay in H1.
  destruct (NonceTracker.check_and_record _ _ _ _) as [[] c']; by simplify_eq.
Qed.

(** C7: What a remote request can change. A request that is refused leaves the
    database as it was; one that is answered changes nothing outside the reach
    of its action: messages, channels and threads are changed by a push alone,
    peers by the handshake, roles, identities and sealed keys by the redemption
    of an invite, invites by creating and redeeming, sessions and their queues
    by the session protocol and deferrals; and no request changes who is banned,
    the roles there are, or the audit log. *)
Theorem request_reach recall net now dr fs rq s :
  match _handle_sync_request g recall net now dr fs rq s with
  | (Raise _, s') => sv_db s' = sv_db s
  | (Ok _, s') => ∃ a, action_of (rq_action rq) = Ok a ∧ footprint a (sv_db s) (sv_db s')
  end.
Proof using.
  unfold _handle_sync_request, atomic. destruct (handle g recall net now dr fs rq s) as [[r|e] s'] eqn:E; [|done].
  apply handle_ok in E as (a & p & s1 & Ha & _ & _ & Hs1 & E). exists a. split; [done|].
  apply (mrel_ok _ _ _ _ _ (route_reach recall net now dr fs a p rq)) in E. rewrite Hs1 in E. exact E.
Qed.

(** ** Sequences of requests *)

(** The handlers that touch sessions keep one active session per identity. *)
Definition keeps_sessions {S} (f : S → DB) (s s' : S) : Prop := sessions_ok (f s) → sessions_ok (f s').
#[local] Instance keeps_sessions_preorder {S} (f : S → DB) : PreOrder (keeps_sessions f).
Proof using. split; [by intros s H|]. intros s1 s2 s3 H1 H2 H. auto. Qed.

Lemma search_sessions cx now p ch req : mrel (keeps_sessions sy_db) (handle_search cx now p ch req).
Proof using.
  unfold handle_search. repeat mrel_step.
  - apply mrel_lift with (Rc := keeps sessions_ok); [apply keeps_defer|by intros ? ? ?].
  - intros s Hok. pose proof (read_gate_reach SYNC_HISTORY cx (or_empty (get_str "channel_id" ch p)) req s) as H.
    eapply sessions_ok_same; [|exact Hok]. by apply H.
Qed.

Lemma fetch_media_sessions cx now media fs p ch req l :
  mrel (keeps_sessions sy_db) (handle_fetch_media cx now media fs p ch req l).
Proof using.
  unfold handle_fetch_media. repeat mrel_step.
  - apply mrel_lift with (Rc := keeps sessions_ok); [apply keeps_defer|by intros ? ? ?].
  - intros s Hok. pose proof (read_gate_reach SYNC_HISTORY cx (or_empty (get_str "channel_id" ch p)) req s) as H.
    eapply sessions_ok_same; [|exact Hok]. by apply H.
Qed.

Lemma session_sessions sc now sid tok p req :
  mrel (keeps_sessions sn_db) (handle_cdsp_session_init sc now sid tok p req).
Proof using.
  unfold handle_cdsp_session_init. repeat mrel_step.
  apply mrel_lift with (Rc := keeps_sessions (S := DB * CDSPSessionManager.t) fst); [|by intros ? ? ?].
  intros [db m] Hok. by apply init_keeps.
Qed.

Lemma profile_sessions sc now p : mrel (keeps_sessions sn_db) (handle_cdsp_profile_update sc now p).
Proof using.
  unfold handle_cdsp_profile_update. repeat mrel_step.
  apply mrel_lift with (Rc := keeps_sessions InviteManager.iv_db); [|by intros ? ? ?].
  apply mrel_lift with (Rc := keeps sessions_ok); [apply keeps_update|by intros ? ? ?].
Qed.

Lemma session_action_route recall net now dr fs a p rq :
  session_action a = true → mrel (keeps_sessions sv_db) (route g recall net now dr fs a p rq).
Proof using.
  unfold session_action. rewrite bool_decide_eq_true. intros Ha. unfold route.
  apply mrel_bind; [typeclasses eauto|apply mrel_get; typeclasses eauto|intros s].
  repeat (apply elem_of_cons in Ha as [->|Ha]); [..|by apply elem_of_nil in Ha];
    cbn [Z.eqb Pos.eqb]; apply mrel_mmap; try typeclasses eauto.
  - apply mrel_lift with (Rc := keeps_sessions sn_db); [apply session_sessions|by intros ? ? ?].
  - apply mrel_lift with (Rc := keeps_sessions sn_db); [apply profile_sessions|by intros ? ? ?].
  - apply mrel_lift with (Rc := keeps_sessions sy_db); [apply search_sessions|by intros ? ? ?].
  - apply mrel_lift with (Rc := keeps_sessions sy_db); [apply fetch_media_sessions|by intros ? ? ?].
Qed.

Lemma push_route_ok recall net now dr fs p rq s r s' :
  route g recall net now dr fs SYNC_PUSH_MESSAGES p rq s = (Ok r, s') → db_ok (sv_db s) → db_ok (sv_db s').
Proof using.
  unfold route, bind at 1, get. cbn [Z.eqb Pos.eqb]. intros H Hok. unfold mmap in H.
  apply bind_ok in H as (a & s1 & H & Hr). apply lift_ok in H as (f & H & ->). unfold ret in Hr. simplify_eq.
  apply handle_push_messages_ok in H as (node & pr & ms & acc & _ & _ & _ & _ & _ & _ & _ & Hf & _).
  apply pushed_batch in Hf as [Ha _]; [|done]. by apply (ad_ok _ _ _ _ Ha).
Qed.

(** A request that arrives, with what it draws and meets. *)
Record Arrival := {
  ar_now : float;
  ar_draws : Draws;
  ar_files : files;
  ar_net : Net;
  ar_recall : bytes → option bytes;
  ar_request : Request;
}.
Definition serve (s : Server) (x : Arrival) : Server :=
  (_handle_sync_request g (ar_recall x) (ar_net x) (ar_now x) (ar_draws x) (ar_files x) (ar_request x) s).2.

Definition server_ok (s : Server) : Prop := db_ok (sv_db s) ∧ sessions_ok (sv_db s).

Lemma serve_ok s x : server_ok s → server_ok (serve s x).
Proof using.
  unfold serve, _handle_sync_request, atomic. intros [Hdb Hses].
  destruct (handle g _ _ _ _ _ _ s) as [[r|e] s'] eqn:E; [|done]. simpl.
  apply handle_ok in E as (a & p & s1 & _ & _ & _ & Hs1 & E).
  assert (sv_db s1 = sv_db s) as Hd by (by rewrite Hs1).
  pose proof (mrel_ok _ _ _ _ _ (route_reach _ _ _ _ _ a p _) E) as [Hcore _ _ _ Hsess _ _]. split.
  - destruct (Z.eqb_spec a SYNC_PUSH_MESSAGES) as [->|].
    + eapply push_route_ok; [exact E|by rewrite Hd].
    + eapply db_ok_same; [by apply Hcore|by rewrite Hd].
  - destruct (session_action a) eqn:Ea.
    + apply (mrel_ok _ _ _ _ _ (session_action_route _ _ _ _ _ a p _ Ea) E). by rewrite Hd.
    + eapply sessions_ok_same; [by apply Hsess|by rewrite Hd].
Qed.

(** C8: Whatever requests arrive, from whom and in whatever order, the
    database stays well formed: the invariant of messages, channels and threads
    holds, and no identity has two active sessions. *)
Theorem requests_keep_db xs s :
  server_ok s → server_ok (foldl serve s xs).
Proof using. revert s. induction xs as [|x xs IH]; intros s Hok; simpl; [done|]. by apply IH, serve_ok. Qed.

(** ** Replays *)

#[local] Instance same_nonces_preorder : PreOrder (λ s s' : Server, sv_nonces s' = sv_nonces s).
Proof using. split; [done|]. intros s1 s2 s3 H1 H2. congruence. Qed.

Lemma route_nonces recall net now dr fs a p rq :
  mrel (λ s s', sv_nonces s' = sv_nonces s) (route g recall net now dr fs a p rq).
Proof using.
  unfold route. apply mrel_bind; [typeclasses eauto|apply mrel_get; typeclasses eauto|intros s].
  repeat match goal with
  | |- mrel _ (if ?b then _ else _) => destruct b
  | |- mrel _ (mmap _ _) => apply mrel_mmap; [typeclasses eauto|]
  | |- mrel _ (raise _ _) => apply mrel_raise; typeclasses eauto
  | |- mrel _ _ => apply mrel_lift with (Rc := λ _ _, True); [by intros ?|done]
  end.
Qed.

(** A request makes one entry in the replay cache. *)
Lemma serve_nonces s x :
  sv_nonces (serve s x) = run_nonce_op (OpCheck (ar_now x) (rq_nonce (ar_request x)) None) (sv_nonces s).
Proof using.
  unfold serve, _handle_sync_request, atomic.
  match goal with |- sv_nonces (match ?h with _ => _ end).2 = ?r => assert (sv_nonces h.2 = r) as H end.
  2:{ destruct (handle g _ _ _ _ _ _ s) as [[r|e] s']; exact H. }
  unfold handle, bind at 1, nonce_op, lift. simpl. unfold VerificationService.check_nonce_replay.
  destruct (NonceTracker.check_and_record _ _ _ _) as [[] c] eqn:Ec; simpl; [|done].
  match goal with |- sv_nonces (?m ?s0).2 = _ => assert (mrel (λ s s', sv_nonces s' = sv_nonces s) m) as Hm end.
  { repeat mrel_step. apply route_nonces. }
  by rewrite Hm.
Qed.

Lemma serve_all_nonces xs s : sv_nonces (foldl serve s xs)
  = run_nonce_ops (map (λ x, OpCheck (ar_now x) (rq_nonce (ar_request x)) None) xs) (sv_nonces s).
Proof using.
  revert s. induction xs as [|x xs IH]; intros s; simpl; [done|]. by rewrite IH, serve_nonces.
Qed.

(** A request is served once. When a request got past the replay check,
    then after any run of fewer further requests than the cache holds, a
    request with the same nonce, whatever else it says, is refused by that
    check and leaves the database as it is. *)
Theorem request_not_replayed s x xs y :
  (NonceTracker.check_and_record (ar_now x) (rq_nonce (ar_request x)) None (sv_nonces s)).1 = true →
  zlen xs < NonceTracker.max_size (sv_nonces s) →
  rq_nonce (ar_request y) = rq_nonce (ar_request x) →
  let s' := foldl serve s (x :: xs) in
  ∃ s'', _handle_sync_request g (ar_recall y) (ar_net y) (ar_now y) (ar_draws y) (ar_files y) (ar_request y) s'
         = (Raise (Exn VerificationError "Nonce replay detected"), s'') ∧ sv_db s'' = sv_db s'.
Proof using.
  intros Hx Hlen Hy. set (s' := foldl serve s (x :: xs)). cbv zeta.
  assert (dict_has (rq_nonce (ar_request x)) (NonceTracker._seen (sv_nonces s')) = true) as Hseen.
  { unfold s'. simpl. rewrite serve_all_nonces, serve_nonces. simpl.
    set (os := map _ xs). assert (List.filter is_check os = os) as Hos.
    { unfold os. clear. induction xs; simpl; congruence. }
    assert (zlen os = zlen xs) as Hz by (unfold os, zlen; by rewrite length_map).
    destruct (run_nonce_ops_held (rq_nonce (ar_request x)) (ar_now x) 0 os
      (NonceTracker.check_and_record (ar_now x) (rq_nonce (ar_request x)) None (sv_nonces s)).2) as (a & b & -> & _).
    - by apply check_held; [|pose proof (zlen_nonneg xs); lia].
    - lia.
    - rewrite Hos, Hz. destruct (run_nonce_op_params (OpCheck (ar_now x) (rq_nonce (ar_request x)) None) (sv_nonces s)) as [E _].
      simpl in E. rewrite E. lia.
    - unfold os. apply Forall_forall. intros o Ho. apply list_elem_of_fmap in Ho as (z & -> & _). done.
    - apply dict_has_app. }
  eexists. unfold _handle_sync_request, atomic, handle, bind at 1, nonce_op, lift, VerificationService.check_nonce_replay,
    NonceTracker.check_and_record. rewrite Hy, Hseen. split; reflexivity.
Qed.

(** ** Packets *)

(** The document a reply is answered with. *)
Definition answers (r : res reply) (d : dict string val) : Prop :=
  d = error_document ∨ ∃ rep d0, r = Ok rep ∧ document rep = Some d0 ∧ (d = d0 ∨ d = truncated d0).

Lemma response_bytes_ok now nonce rep b : response_bytes now nonce rep = Ok b →
  ∃ d, answers (Ok rep) d ∧ encode_sync_response nonce d (Some now) = Ok b.
Proof using.
  unfold response_bytes, answers. destruct (document rep) as [d0|] eqn:Ed; [|done].
  destruct (encode_sync_response nonce d0 (Some now)) as [b'|e] eqn:E.
  - intros [= ->]. exists d0. naive_solver.
  - case_bool_decide; [|done]. intros Hb. exists (truncated d0). naive_solver.
Qed.

(** What goes out on a link as an answer. *)
Definition answer_packet (l : RnsLink) (nonce : bytes) (r : res reply) (x : link_id * bytes) : Prop :=
  x.1 = lk_id l ∧ ∃ resp d, decode_sync_response x.2 = Ok resp
  ∧ dict_get "nonce" resp = Some (VBytes nonce) ∧ dict_get "data" resp = Some (VDict d) ∧ answers r d.

(** Whether the request is waited for to the end, or its timeout is taken for
    an error. *)
Definition awaited (dl : Delivery) : bool := match dl_wait dl with TimedOut true => false | _ => true end.

(** What answering leaves: the handler's state, and at most one packet more. *)
Definition answered (dl : Delivery) (l : RnsLink) (nonce : bytes) (h : res reply * Server) (m : LinkManager)
    (res : Prelude.res unit) (m' : LinkManager) : Prop :=
  lm_server m' = h.2 ∧ ∃ out, lm_sent m' = lm_sent m ++ out ∧ (length out ≤ 1)%nat
  ∧ Forall (answer_packet l nonce h.1) out
  ∧ (awaited dl = false → out = [] ∧ res = Ok tt)
  ∧ (awaited dl = true → dl_error dl = true → length out = 1%nat ∧ res = Ok tt).

Lemma answer_packet_made `{!MsgpackLaws HP} l nonce r d t b : encode_sync_response nonce d t = Ok b → answers r d →
  answer_packet l nonce r (lk_id l, b).
Proof using.
  intros He Hd. split; [done|]. destruct (sync_response_decodes _ _ _ _ He) as (resp & R1 & R2 & R3). by exists resp, d.
Qed.

Lemma answer_error_run `{!MsgpackLaws HP} dl l nonce (h : res reply * Server) m e : awaited dl = true →
  encode_sync_response nonce error_document None = Ok e →
  ∃ r m', answer_error dl l nonce (lm_set_server h.2 m) = (r, m') ∧ answered dl l nonce h m r m'
  ∧ (r = Ok tt ∨ r = Raise (Exn RuntimeError "send")).
Proof using.
  intros Hw He. unfold answer_error, bind, of_res. rewrite He. cbn beta iota. unfold answered. rewrite Hw. destruct (dl_error dl) eqn:Ed.
  - eexists _, _. split; [reflexivity|]. split; [|by left]. split; [done|]. exists [(lk_id l, e)].
    split_and!; [done|done| |done|done]. constructor; [|done]. eapply answer_packet_made; [done|by left].
  - eexists _, _. split; [reflexivity|]. split; [|by right]. split; [done|]. exists []. rewrite app_nil_r.
    split_and!; [done|simpl; lia|constructor|done|intros _; discriminate].
Qed.

Lemma answer_sends `{!MsgpackLaws HP} recall net now dr fs dl l nonce rq m e :
  encode_sync_response nonce error_document None = Ok e →
  let h := _handle_sync_request g recall net now dr fs rq (lm_server m) in
  ∃ r m', answer g recall net now dr fs dl l nonce rq m = (r, m') ∧ answered dl l nonce h m r m'
  ∧ (r = Ok tt ∨ r = Raise (Exn RuntimeError "send")).
Proof using.
  intros He h. unfold answer, bind at 1. fold h.
  assert (awaited dl = true → ∃ r m', answer_error dl l nonce (lm_set_server h.2 m) = (r, m') ∧ answered dl l nonce h m r m'
    ∧ (r = Ok tt ∨ r = Raise (Exn RuntimeError "send"))) as Herr by (intros; by eapply answer_error_run).
  destruct h as [r s'] eqn:Eh. cbn [fst snd] in *. unfold awaited in Herr. destruct (dl_wait dl) as [|[]] eqn:Ew; [| |by apply Herr].
  - destruct (match r with Ok rep => response_bytes now nonce rep | Raise x => Raise x end) as [b|x] eqn:Eb; [|by apply Herr].
    destruct (dl_response dl); [|by apply Herr]. destruct r as [rep|x]; [|done].
    apply response_bytes_ok in Eb as (d & Hd & Hb). eexists _, _. split; [reflexivity|]. split; [|by left].
    split; [done|]. exists [(lk_id l, b)]. unfold awaited. rewrite Ew. split_and!; [done|done| |done|done].
    constructor; [|done]. by eapply answer_packet_made.
  - eexists _, _. split; [reflexivity|]. split; [|by left]. split; [done|]. exists []. unfold awaited. rewrite Ew, app_nil_r.
    split_and!; [done|simpl; lia|constructor|by intros _|discriminate].
Qed.

(** Decrypting a frame touches the epoch managers only. *)
Lemma open_packet_keeps now dr l msg m plain m0 : open_packet now dr l msg m = (Ok (Some plain), m0) →
  lm_server m0 = lm_server m ∧ lm_sent m0 = lm_sent m ∧ lm_links m0 = lm_links m.
Proof using.
  unfold open_packet, bind at 1, get at 1. destruct (is_epoch_frame msg); [|by intros [= _ <-]].
  unfold epoch_frame, bind at 1, get at 1. destruct msg as [|b msg]; [done|].
  destruct (em_key _ ≫= _) as [[k em]|]; [|done]. destruct (b =? EPOCH_DATA).
  - destruct (Epoch.decrypt (b :: msg) em) as [[p|] em']; unfold bind, modify; [by intros [= _ <-]|done].
  - destruct (b =? EPOCH_ROTATE); [|done]. destruct (handle_epoch_rotate _ _ _ _ em) as [[ack|] em']; done.
Qed.

Lemma decoded_nonce msg request : decode_sync_request msg = Ok request →
  ∃ nonce, dict_get "nonce" request = Some (VBytes nonce).
Proof using.
  unfold decode_sync_request. destruct (_strip_length_header msg); [|done]. destruct (unframe_dict _ _); [|done].
  destruct (negb _); [done|]. destruct (dict_get "nonce" _) as [[]|] eqn:E; try done.
  destruct (negb _); [done|]. intros [= <-]. eauto.
Qed.

Lemma remember_identity_ok l c m : ∃ m', remember_identity l c m = (Ok tt, m')
  ∧ lm_server m' = lm_server m ∧ lm_sent m' = lm_sent m.
Proof using.
  unfold remember_identity. destruct (ostr_true _); [by exists m|].
  destruct (lk_remote l) as [[]|]; eexists; split_and!; reflexivity.
Qed.


Lemma step5_reply cx recall now fresh p s r s' : dict_get "step" p = Some (VInt 5) →
  handle_federation_handshake cx recall now fresh p s = (Ok r, s') → ∃ ack em, r = Step6 ack em.
Proof using.
  unfold handle_federation_handshake. intros ->. destruct (negb _); [done|]. simpl.
  intros (u & s1 & _ & H)%bind_ok. apply bind_ok in H as (peer & s2 & _ & H). destruct (_ && _); [done|].
  unfold handshake_step5 in H. destruct (get_bytes _ _) as [f|]; [|done]. destruct (negb _); [done|].
  destruct (fc_node_rns_identity cx); [|done]. cbn zeta in H.
  destruct (fromhex _); [|done]. destruct (handle_epoch_rotate _ _ _ _ _) as [x em].
  apply bind_ok in H as (ack & s3 & _ & H). unfold ret in H. simplify_eq. eauto.
Qed.

(** forward secrecy is never agreed through the daemon: whatever a peer
    sends as the fifth step of a handshake, accepted or not, it is answered with
    the error document, because the sixth step's document holds the epoch
    manager itself, which cannot be packed. *)
Theorem fs_handshake_unanswered recall net now dr fs rq p s d :
  rq_action rq = VInt SYNC_FEDERATION_HANDSHAKE → rq_payload rq = VDict p → dict_get "step" p = Some (VInt 5) →
  answers (_handle_sync_request g recall net now dr fs rq s).1 d → d = error_document.
Proof using.
  intros Ha Hp Hs [->|(rep & d0 & Hr & Hd & _)]; [done|]. exfalso.
  unfold _handle_sync_request, atomic in Hr.
  destruct (handle g recall net now dr fs rq s) as [[r|e] s'] eqn:E; [|done]. simpl in Hr. simplify_eq.
  apply handle_ok in E as (a & q & s1 & E1 & E2 & _ & _ & E). rewrite Ha in E1. rewrite Hp in E2. simpl in *. simplify_eq.
  unfold route, bind at 1, get in E. cbn [Z.eqb Pos.eqb] in E. unfold mmap in E.
  apply bind_ok in E as (x & s2 & E & Er). apply lift_ok in E as (f & E & _). unfold ret in Er. simplify_eq.
  apply step5_reply in E as (ack & em & ->); done.
Qed.

End handlers.

(** ** Closed runs *)

Definition demo_server : Server := {|
  sv_node := demo_public; sv_redemption_attempts := ∅; sv_failure_attempts := ∅; sv_blocked_until := ∅;
  sv_cdsp := demo_cdsp; sv_live := LiveSubscriptionManager.init None; sv_sealed := None; sv_bans := ∅;
  sv_bindings := ∅; sv_pending := []; sv_nonces := NonceTracker.init 3 600 |}.
Definition demo_config : ServerConfig := {|
  sg_channels := {[ "a" := demo_channel "a" ACCESS_PUBLIC false ]}; sg_node_owner := Some "owner";
  sg_cdsp_manager := true; sg_deferred_queue_limit := Some 10; sg_fts := None; sg_show_private_channels := false;
  sg_node_name := "n"; sg_node_description := ""; sg_node_identity := "me"; sg_node_rns_identity := Some ([1], "me");
  sg_channel_identity := λ _, None; sg_fed_config := None; sg_live_manager := true; sg_rate_limiter := true;
  sg_media := None; sg_seeds := inr [] |}.
Definition demo_draws : Draws := {|
  dr_session_id := "s1"; dr_resume_token := [5]; dr_invite_token := "t"; dr_fresh := demo_fresh |}.
Definition demo_nonce : bytes := replicate 16 7.
Definition demo_link : RnsLink := {| lk_id := "l1"; lk_remote := Ok None |}.
Definition demo_request (a : Z) (n : bytes) (p : dict string val) : Request := {|
  rq_action := VInt a; rq_nonce := n; rq_payload := VDict p; rq_channel_id := Some "a";
  rq_requester_hash := Some "bob"; rq_link := Some demo_link |}.
Definition arrival (t : Z) (rq : Request) : Arrival := {|
  ar_now := fz t; ar_draws := demo_draws; ar_files := ∅; ar_net := λ _, LinkActive; ar_recall := λ _, None;
  ar_request := rq |}.

(** A packet that asks for the seeds, its answer, and the error answer. *)
Definition seeds_request : dict string val :=
  [("v", VInt WIRE_VERSION); ("action", VInt SYNC_LIST_SEEDS); ("nonce", VBytes demo_nonce)].
Definition seeds_answer : dict string val :=
  [("v", VInt WIRE_VERSION); ("nonce", VBytes demo_nonce);
   ("data", VDict [("ok", VBool true); ("seeds", VList []); ("restart_required", VBool false)]);
   ("node_time", VFloat (fz 9))].
Definition error_answer : dict string val :=
  [("v", VInt WIRE_VERSION); ("nonce", VBytes demo_nonce); ("data", VDict error_document)].
Definition seeds_msgpack : Msgpack := table_msgpack [VDict seeds_request; VDict seeds_answer; VDict error_answer].
Definition demo_lm : LinkManager := {|
  lm_server := demo_server; lm_links := ∅; lm_epoch_managers := ∅; lm_sent := [] |}.

Abbreviation demo_packet dl := (@_on_packet 500 seeds_msgpack toy_aead toy_rns toy_ed FedAuth.toy_kx toy_signing toy_hashing
  demo_config (λ _, None) (λ _, LinkActive) (fz 9) demo_draws ∅ dl demo_link [0; 1; 0]).

(** Answered; not taken by RNS, and the error instead; too late. *)
Definition delivery (w : wait) (response : bool) : Delivery := {| dl_wait := w; dl_response := response; dl_error := true |}.


Abbreviation demo_serve := (@serve 500 seeds_msgpack toy_aead toy_rns toy_ed FedAuth.toy_kx toy_signing toy_hashing demo_config).

(** A session is opened, opened again under a new identifier, and lowered. *)
Definition demo_arrivals : list Arrival :=
  [arrival 1 (demo_request SYNC_CDSP_SESSION_INIT [1] [("sync_profile", VInt CDSP_PROFILE_FULL)]);
   arrival 2 (demo_request SYNC_CDSP_SESSION_INIT [2] [("sync_profile", VInt CDSP_PROFILE_MINIMAL)]);
   arrival 3 (demo_request SYNC_HISTORY [2] [])].

Lemma requests_keep_db_witness :
  server_ok (foldl demo_serve demo_server demo_arrivals) ∧ sessions (sv_db (foldl demo_serve demo_server demo_arrivals)) ≠ ∅.
Proof.
  split; [|vm_compute; congruence].
  apply (@requests_keep_db 500 seeds_msgpack toy_aead toy_rns toy_ed FedAuth.toy_kx toy_signing toy_hashing demo_config).
  split; [apply demo_node_ok|]. eapply sessions_ok_same; [|apply sessions_ok_empty]. by split.
Defined.

Lemma request_not_replayed_witness :
  let x := arrival 1 (demo_request SYNC_CDSP_SESSION_INIT [1] [("sync_profile", VInt CDSP_PROFILE_FULL)]) in
  let s' := foldl demo_serve demo_server [x; arrival 2 (demo_request SYNC_LIST_SEEDS [2] [])] in
  ∃ s'', @_handle_sync_request 500 seeds_msgpack toy_aead toy_rns toy_ed FedAuth.toy_kx toy_signing toy_hashing demo_config
    (λ _, None) (λ _, LinkActive) (fz 900) demo_draws ∅ (demo_request SYNC_CDSP_SESSION_INIT [1] []) s'
    = (Raise (Exn VerificationError "Nonce replay detected"), s'') ∧ sv_db s'' = sv_db s'.
Proof.
  intros x s'.
  apply (@request_not_replayed 500 seeds_msgpack toy_aead toy_rns toy_ed FedAuth.toy_kx toy_signing toy_hashing demo_config
    demo_server x [arrival 2 (demo_request SYNC_LIST_SEEDS [2] [])]
    (arrival 900 (demo_request SYNC_CDSP_SESSION_INIT [1] []))); reflexivity.
Defined.

(** A peer without trust sends a rotation. *)
Lemma fs_handshake_unanswered_witness :
  ∀ d, answers (@_handle_sync_request 500 seeds_msgpack toy_aead toy_rns toy_ed FedAuth.toy_kx toy_signing toy_hashing
    demo_config (λ _, None) (λ _, LinkActive) (fz 9) demo_draws ∅
    (demo_request SYNC_FEDERATION_HANDSHAKE [1]
       [("step", VInt 5); ("identity_hash", VStr "aa"); ("epoch_rotate_frame", VBytes [1])]) demo_server).1 d →
  d = error_document.
Proof.
  intros d. by apply (@fs_handshake_unanswered 500 seeds_msgpack toy_aead toy_rns toy_ed FedAuth.toy_kx toy_signing
    toy_hashing demo_config (λ _, None) (λ _, LinkActive) (fz 9) demo_draws ∅
    (demo_request SYNC_FEDERATION_HANDSHAKE [1]
       [("step", VInt 5); ("identity_hash", VStr "aa"); ("epoch_rotate_frame", VBytes [1])])
    [("step", VInt 5); ("identity_hash", VStr "aa"); ("epoch_rotate_frame", VBytes [1])]).
Defined.
