(* ===== verification/Channels.v ===== *)
(** * Channels and their identities ([hokora/core/identity.py],
      [core/channel.py], the start of [core/daemon.py])

    Every channel has an RNS identity, kept in a file of the identity
    directory, and a destination derived from it.  The theorems: an identity
    that was once created is the same after any operations and restarts, and
    what the node serves after its start. *)

From S2P Require Import Prelude Constants Models Queries Permissions RateLimit Ban Sealed Sequencer Message Wire Epoch FedAuth Ingest.

(** Identity files: [RNS.Identity.to_file] and [from_file], which answers
    nothing for a file it cannot read. *)
Class IdentityFile := {
  file_of_id : bytes → bytes;
  id_of_file : bytes → option bytes;
}.
Class IdentityFileLaws (F : IdentityFile) : Prop := {
  read_written : ∀ i, id_of_file (file_of_id i) = Some i;
}.

Definition channel_file (channel_id : string) : string := String.append "channel_" channel_id.

(** ** The identity manager *)

Module IdentityManager.

Record t := {
  identity_dir : gmap string bytes;              (* file contents by name *)
  _identities : dict string bytes;
  _destinations : gmap string bytes;             (* destination hashes *)
  _node_identity : option bytes;
}.

(** A new process over the same directory. *)
Definition start (dir : gmap string bytes) : t :=
  {| identity_dir := dir; _identities := []; _destinations := ∅; _node_identity := None |}.

Definition set_dir (f : gmap string bytes → gmap string bytes) (s : t) : t := {|
  identity_dir := f (identity_dir s); _identities := _identities s; _destinations := _destinations s;
  _node_identity := _node_identity s |}.
Definition set_identities (f : dict string bytes → dict string bytes) (s : t) : t := {|
  identity_dir := identity_dir s; _identities := f (_identities s); _destinations := _destinations s;
  _node_identity := _node_identity s |}.
Definition set_destinations (f : gmap string bytes → gmap string bytes) (s : t) : t := {|
  identity_dir := identity_dir s; _identities := _identities s; _destinations := f (_destinations s);
  _node_identity := _node_identity s |}.
Definition set_node_identity (i : bytes) (s : t) : t := {|
  identity_dir := identity_dir s; _identities := _identities s; _destinations := _destinations s;
  _node_identity := Some i |}.

Section manager.
Context `{F : IdentityFile} `{HR : RnsIdentity} `{HS : Signing}.
(** The hash of the destination of an identity for an aspect. *)
Context (dest_hash : bytes → string → bytes).

Definition hexhash (identity : bytes) : string := hexrep (truncated_hash (id_public identity)).

(** The identity in a file, or a [fresh] one written to it.  A file that
    cannot be read gives no identity, whose [hexhash] is then logged. *)
Definition load_or_create (fresh : bytes) (name : string) : M t bytes :=
  let! s := get in
  match identity_dir s !! name with
  | Some f => match id_of_file f with Some i => ret i | None => raise AttributeError "hexhash" end
  | None => modify (set_dir (<[name := file_of_id fresh]>)) ;; ret fresh
  end.

Definition get_or_create_node_identity (fresh : bytes) : M t bytes :=
  let! s := get in
  match _node_identity s with
  | Some i => ret i
  | None =>
      let! i := load_or_create fresh "node_identity" in
      modify (set_node_identity i) ;; ret i
  end.

Definition get_or_create_channel_identity (fresh : bytes) (channel_id : string) : M t bytes :=
  let! s := get in
  match dict_get channel_id (_identities s) with
  | Some i => ret i
  | None =>
      let! i := load_or_create fresh (channel_file channel_id) in
      modify (set_identities (dict_set channel_id i)) ;; ret i
  end.

Definition register_channel_destination (fresh : bytes) (channel_id : string) : M t bytes :=
  let! i := get_or_create_channel_identity fresh channel_id in
  let d := dest_hash (id_public i) channel_id in
  modify (set_destinations (<[channel_id := d]>)) ;; ret d.

Definition get_destination (channel_id : string) (s : t) : option bytes := _destinations s !! channel_id.
Definition get_identity (channel_id : string) (s : t) : option bytes := dict_get channel_id (_identities s).
Definition get_node_identity_hash (fresh : bytes) : M t string :=
  mmap hexhash (get_or_create_node_identity fresh).
Definition get_signing_public_key (fresh : bytes) : M t bytes :=
  mmap sig_pub_bytes (get_or_create_node_identity fresh).
Definition list_channel_ids (s : t) : list string := map fst (_identities s).
End manager.
End IdentityManager.

Import IdentityManager.

(** ** The channel manager *)

Record ChannelNode := {
  chn_node : Node;
  chn_ids : IdentityManager.t;
  chn_channels : dict string Channel;            (* [_channels] *)
}.
Definition chn_db (s : ChannelNode) : DB := n_db (chn_node s).
Definition chn_set_node (n : Node) (s : ChannelNode) : ChannelNode :=
  {| chn_node := n; chn_ids := chn_ids s; chn_channels := chn_channels s |}.
Definition chn_set_ids (i : IdentityManager.t) (s : ChannelNode) : ChannelNode :=
  {| chn_node := chn_node s; chn_ids := i; chn_channels := chn_channels s |}.
Definition chn_set_channels (f : dict string Channel → dict string Channel) (s : ChannelNode) : ChannelNode :=
  {| chn_node := chn_node s; chn_ids := chn_ids s; chn_channels := f (chn_channels s) |}.
Definition chn_undo (s0 s1 : ChannelNode) : ChannelNode :=
  chn_set_node (set_db (chn_db s0) (chn_node s1)) s1.
Definition node_op {A} (m : M Node A) : M ChannelNode A := lift chn_node chn_set_node m.
Definition ids_op {A} (m : M IdentityManager.t A) : M ChannelNode A := lift chn_ids chn_set_ids m.

Definition set_destination_hash (h : string) (c : Channel) : Channel := {|
  ch_id := ch_id c; ch_name := ch_name c; ch_description := ch_description c; ch_category_id := ch_category_id c;
  ch_position := ch_position c; ch_access_mode := ch_access_mode c; ch_slowmode := ch_slowmode c;
  ch_max_retention := ch_max_retention c; ch_latest_seq := ch_latest_seq c; ch_identity_hash := ch_identity_hash c;
  ch_destination_hash := Some h; ch_created_at := ch_created_at c; ch_sealed := ch_sealed c;
  ch_rotation_old_hash := ch_rotation_old_hash c; ch_rotation_grace_end := ch_rotation_grace_end c |}.

(** A row with the defaults of the columns that are not given. *)
Definition new_channel (now : float) (id name description access_mode : string) (category_id : option string)
    (identity_hash destination_hash : option string) (sealed : bool) : Channel := {|
  ch_id := id; ch_name := name; ch_description := description; ch_category_id := category_id; ch_position := 0;
  ch_access_mode := access_mode; ch_slowmode := 0; ch_max_retention := 10000; ch_latest_seq := 0;
  ch_identity_hash := identity_hash; ch_destination_hash := destination_hash; ch_created_at := now;
  ch_sealed := sealed; ch_rotation_old_hash := None; ch_rotation_grace_end := None |}.

Section channels.
Context `{F : IdentityFile} `{HR : RnsIdentity} `{HS : Signing} (dest_hash : bytes → string → bytes).

Definition create_channel (now : float) (channel_id : string) (fresh : bytes) (name description access_mode : string)
    (category_id : option string) : M ChannelNode Channel :=
  let! d := ids_op (register_channel_destination dest_hash fresh channel_id) in
  let! s := get in
  match get_identity channel_id (chn_ids s) with
  | None => raise AttributeError "hexhash"
  | Some i =>
      let channel := new_channel now channel_id name description access_mode category_id (Some (hexhash i))
                       (hexrep <$> get_destination channel_id (chn_ids s)) false in
      node_op (db_op (ChannelRepo.create channel)) ;;
      modify (chn_set_channels (dict_set channel_id channel)) ;;
      ret channel
  end.

(** [fresh] draws the identity of a channel that has no file yet. *)
Definition load_channels (fresh : string → bytes) : M ChannelNode unit :=
  let! s := get in
  mfold (λ _ ch,
    ids_op (register_channel_destination dest_hash (fresh (ch_id ch)) (ch_id ch)) ;;
    modify (chn_set_channels (dict_set (ch_id ch) ch))) tt
    (ChannelRepo.list_all None None (chn_db s)).

Definition get_channel (channel_id : string) (s : ChannelNode) : option Channel := dict_get channel_id (chn_channels s).
Definition list_channels (s : ChannelNode) : list Channel := map snd (chn_channels s).
Definition update_destination_hash (channel_id h : string) : M ChannelNode unit :=
  modify (chn_set_channels (λ d, match dict_get channel_id d with
                                 | Some c => dict_set channel_id (set_destination_hash h c) d
                                 | None => d
                                 end)).
Definition get_channel_id_by_destination (destination_hash : bytes) (s : ChannelNode) : option string :=
  List.find (λ id, bool_decide (get_destination id (chn_ids s) = Some destination_hash)) (map fst (chn_channels s)).

(** The destination of one channel that has none recorded. *)
Definition backfill_one (ch : Channel) : M ChannelNode unit :=
  if ostr_true (ch_destination_hash ch) then ret tt
  else
    let! s := get in
    match get_destination (ch_id ch) (chn_ids s) with
    | None => ret tt
    | Some d =>
        update_destination_hash (ch_id ch) (hexrep d) ;;
        node_op (db_op (modify (set_channels (alter (set_destination_hash (hexrep d)) (ch_id ch)))))
    end.

(** Steps 10 and the backfill of [HokoraDaemon.start]. *)
Definition start_channels (fresh : string → bytes) : M ChannelNode unit :=
  atomic chn_undo
    (load_channels fresh ;;
     let! s := get in
     mfold (λ _ ch, node_op (seq_op (SequenceManager.load_from_db (ch_id ch))) ;; ret tt) tt (list_channels s)) ;;
  atomic chn_undo
    (let! s := get in mfold (λ _, backfill_one) tt (list_channels s)).

(** The announcements of [announce_channels] for the sync destinations:
    destination and application data. *)
Definition channel_announce (now : float) (node_name : string) (propagation_enabled : bool)
    (node_identity_hash : option string) (d : bytes) (p : string * Channel) : dict string val :=
  [("type", VStr "channel"); ("name", VStr (ch_name p.2)); ("description", VStr (ch_description p.2));
   ("node", VStr node_name); ("node_identity_hash", val_of VStr node_identity_hash); ("channel_id", VStr p.1);
   ("destination_hash", VStr (hexrep d)); ("time", VFloat now); ("propagation_enabled", VBool propagation_enabled)].

Definition announce_channels `{HP : Msgpack} (now : float) (fresh : bytes) (node_name : string)
    (propagation_enabled : bool) : M ChannelNode (list (bytes * bytes)) :=
  let! h := catch (mmap Some (ids_op (get_node_identity_hash fresh))) (λ _, ret None) in
  let! s := get in
  mfold (λ sent p,
    match get_destination p.1 (chn_ids s) with
    | None => ret sent
    | Some d =>
        match packb (VDict (channel_announce now node_name propagation_enabled h d p)) with
        | Some b => ret (sent ++ [(d, b)])
        | None => raise ValueError "cannot serialize"
        end
    end) [] (chn_channels s).
End channels.

(** Each announcement is of a channel in memory. *)
Lemma announce_channels_elem `{F : IdentityFile} `{HR : RnsIdentity} `{HS : Signing} `{HP : Msgpack}
    now fresh node_name prop s sent s' d b :
  announce_channels now fresh node_name prop s = (Ok sent, s') → (d, b) ∈ sent →
  ∃ h p, p ∈ chn_channels s' ∧ get_destination p.1 (chn_ids s') = Some d
    ∧ packb (VDict (channel_announce now node_name prop h d p)) = Some b.
Proof.
  unfold announce_channels. intros (h & s1 & _ & (x & s2 & [= -> ->] & H)%bind_ok)%bind_ok.
  assert (∀ l acc, l ⊆ chn_channels s2 → mfold (λ sent p,
      match get_destination p.1 (chn_ids s2) with
      | None => ret sent
      | Some d => match packb (VDict (channel_announce now node_name prop h d p)) with
                  | Some b => ret (sent ++ [(d, b)]) | None => raise ValueError "cannot serialize" end
      end) acc l s2 = (Ok sent, s') → s' = s2 ∧ ((d, b) ∈ sent → (d, b) ∈ acc ∨
      ∃ p, p ∈ l ∧ get_destination p.1 (chn_ids s2) = Some d
        ∧ packb (VDict (channel_announce now node_name prop h d p)) = Some b)) as Hl.
  2:{ apply Hl in H as [-> H]; [|done]. intros Hin. destruct (H Hin) as [Hn|(p & ? & ? & ?)]; [by apply elem_of_nil in Hn|].
      by exists h, p. }
  clear H. induction l as [|p l IH]; intros acc Hsub; cbn [mfold].
  { intros [= -> ->]. split; [done|]. by left. }
  intros (acc' & s3 & E & H)%bind_ok.
  assert (l ⊆ chn_channels s2) as Hsub' by set_solver.
  destruct (get_destination p.1 (chn_ids s2)) as [dp|] eqn:Ed.
  - destruct (packb _) as [bp|] eqn:Ep; [|done]. injection E as <- ->. apply IH in H as [-> H]; [|done].
    split; [done|]. intros Hin. destruct (H Hin) as [[|Hlast%list_elem_of_singleton]%elem_of_app|(q & ? & ?)]; [by left| |].
    + simplify_eq. right. exists p. split; [by left|done].
    + right. exists q. split; [by right|done].
  - injection E as <- ->. apply IH in H as [-> H]; [|done]. split; [done|]. intros Hin.
    destruct (H Hin) as [|(q & ? & ?)]; [by left|]. right. exists q. split; [by right|done].
Qed.

(** ** Identities are stable *)

Inductive id_op :=
  | OpIdentity (fresh : bytes) (channel_id : string)
  | OpRegister (fresh : bytes) (channel_id : string)
  | OpNode (fresh : bytes)
  | OpRestart.

Section stable.
Context `{F : IdentityFile} `{HR : RnsIdentity} `{HS : Signing} (dest_hash : bytes → string → bytes).

Definition run_id_op (s : IdentityManager.t) (o : id_op) : IdentityManager.t :=
  match o with
  | OpIdentity f ch => (get_or_create_channel_identity f ch s).2
  | OpRegister f ch => (register_channel_destination dest_hash f ch s).2
  | OpNode f => (get_or_create_node_identity f s).2
  | OpRestart => start (identity_dir s)
  end.

(** What is in memory is what the files hold. *)
Definition ids_ok (s : IdentityManager.t) : Prop :=
  ∀ ch i, dict_get ch (_identities s) = Some i → identity_dir s !! channel_file ch ≫= id_of_file = Some i.

(** Files are only added, and memory stays true to them. *)
Definition grows (s s' : IdentityManager.t) : Prop :=
  identity_dir s ⊆ identity_dir s' ∧ (ids_ok s → ids_ok s').
#[export] Instance grows_preorder : PreOrder grows.
Proof using.
  split; [by intros s|]. intros s1 s2 s3 [H1 H2] [H3 H4]. split; [by etrans|auto].
Qed.

Lemma channel_file_inj a b : channel_file a = channel_file b → a = b.
Proof using. unfold channel_file. intros H. injection H as H. exact H. Qed.

Lemma load_or_create_grows fresh name : mrel grows (load_or_create fresh name).
Proof using.
  intros s. unfold load_or_create, bind, get. destruct (identity_dir s !! name) as [f|] eqn:E.
  - by destruct (id_of_file f).
  - simpl. split; [by apply insert_subseteq|]. intros Hok ch i Hi. simpl in *. specialize (Hok ch i Hi).
    rewrite lookup_insert_ne; [done|]. intros ->. by rewrite E in Hok.
Qed.

Lemma load_or_create_reads `{!IdentityFileLaws F} fresh name s i s' :
  load_or_create fresh name s = (Ok i, s') → identity_dir s' !! name ≫= id_of_file = Some i.
Proof using.
  unfold load_or_create, bind, get. destruct (identity_dir s !! name) as [f|] eqn:E.
  - destruct (id_of_file f) as [j|] eqn:Ej; [|done]. intros [= <- <-]. by rewrite E.
  - intros [= <- <-]. simpl. rewrite lookup_insert_eq. apply read_written.
Qed.

Lemma channel_identity_step `{!IdentityFileLaws F} fresh ch s r s' :
  get_or_create_channel_identity fresh ch s = (r, s') → grows s s' ∧
  (ids_ok s → ∀ i, r = Ok i → identity_dir s' !! channel_file ch ≫= id_of_file = Some i).
Proof using.
  unfold get_or_create_channel_identity, bind at 1, get.
  destruct (dict_get ch (_identities s)) as [i|] eqn:Ei.
  { intros [= <- <-]. split; [done|]. intros Hok j [= <-]. by apply Hok. }
  unfold bind at 1. destruct (load_or_create fresh (channel_file ch) s) as [[i|e] s1] eqn:E.
  2:{ intros [= <- <-]. split; [by apply (mrel_ok _ _ _ _ _ (load_or_create_grows _ _) E)|done]. }
  apply (mrel_ok _ _ _ _ _ (load_or_create_grows _ _)) in E as Hg. apply load_or_create_reads in E as Hr.
  intros [= <- <-]. destruct Hg as [Hd Hok]. split; [|by intros _ j [= <-]].
  split; [done|]. intros H0 c j. simpl. rewrite dict_get_set. destruct (decide (c = ch)) as [->|].
  - intros [= <-]. exact Hr.
  - by apply Hok.
Qed.

Lemma run_id_op_grows `{!IdentityFileLaws F} o s : grows s (run_id_op s o).
Proof using.
  destruct o as [f ch|f ch|f|]; simpl.
  - destruct (get_or_create_channel_identity f ch s) eqn:E. by apply channel_identity_step in E as [? _].
  - unfold register_channel_destination, bind at 1.
    destruct (get_or_create_channel_identity f ch s) as [[i|e] s1] eqn:E;
      by apply channel_identity_step in E as [? _].
  - unfold get_or_create_node_identity, bind at 1, get. destruct (_node_identity s); [done|].
    unfold bind at 1. destruct (load_or_create f "node_identity" s) as [[i|e] s1] eqn:E;
      by apply (mrel_ok _ _ _ _ _ (load_or_create_grows _ _)) in E.
  - split; [done|]. by intros _ ch i.
Qed.

(** The identity of a channel is for good: once it was created or read, it
    is the one the node uses after any further operations and restarts, whatever
    fresh identities are drawn. *)
Theorem channel_identity_stable `{!IdentityFileLaws F} fresh fresh' ch i s s1 ops :
  ids_ok s → get_or_create_channel_identity fresh ch s = (Ok i, s1) →
  ∃ s2, get_or_create_channel_identity fresh' ch (foldl run_id_op s1 ops) = (Ok i, s2).
Proof using.
  intros Hok H. apply channel_identity_step in H as [[_ Hok1] Hr]. specialize (Hok1 Hok). specialize (Hr Hok i eq_refl).
  assert (grows s1 (foldl run_id_op s1 ops)) as [Hd Hg].
  { clear Hok1 Hr. revert s1. induction ops as [|o ops IH]; intros s1; simpl; [done|].
    etrans; [apply run_id_op_grows|apply IH]. }
  specialize (Hg Hok1). set (s2 := foldl run_id_op s1 ops) in *.
  destruct (identity_dir s1 !! channel_file ch) as [f|] eqn:Ef; [|done].
  assert (identity_dir s2 !! channel_file ch = Some f) as E2 by (by eapply lookup_weaken).
  unfold get_or_create_channel_identity, bind at 1, get.
  destruct (dict_get ch (_identities s2)) as [j|] eqn:Ej.
  - specialize (Hg ch j Ej). rewrite E2 in Hg. simpl in *. exists s2. unfold ret. congruence.
  - unfold load_or_create, bind, get. rewrite E2. simpl in Hr. rewrite Hr. by eexists.
Qed.
End stable.

(** ** Starting *)

Section starting.
Context `{F : IdentityFile} `{HR : RnsIdentity} `{HS : Signing} (dest_hash : bytes → string → bytes).

(** A channel has its identity and the destination derived from it. *)
Definition serves (ids : IdentityManager.t) (ch : string) : Prop :=
  ∃ i, get_identity ch ids = Some i ∧ get_destination ch ids = Some (dest_hash (id_public i) ch).

(** Every identity file can be read. *)
Definition readable (ids : IdentityManager.t) : Prop :=
  ∀ name f, identity_dir ids !! name = Some f → is_Some (id_of_file f).

(** The row a channel has after the start. *)
Definition filled (ids : IdentityManager.t) (c : Channel) : Channel :=
  if ostr_true (ch_destination_hash c) then c
  else match get_destination (ch_id c) ids with
       | Some d => set_destination_hash (hexrep d) c
       | None => c
       end.

Lemma register_ok `{!IdentityFileLaws F} fresh ch ids : readable ids →
  ∃ d ids', register_channel_destination dest_hash fresh ch ids = (Ok d, ids') ∧ readable ids'
  ∧ serves ids' ch ∧ ∀ ch', ch' ≠ ch → serves ids ch' → serves ids' ch'.
Proof using.
  intros Hr. unfold register_channel_destination, get_or_create_channel_identity, bind, get.
  destruct (dict_get ch (_identities ids)) as [i|] eqn:Ei; simpl.
  { eexists _, _. split_and!; [done|done| |].
    - exists i. unfold get_identity, get_destination. simpl. by rewrite lookup_insert_eq.
    - intros ch' Hne (j & Hj & Hd). exists j. unfold get_identity, get_destination in *. simpl. by rewrite lookup_insert_ne. }
  unfold load_or_create, bind, get.
  assert (∃ i ids1, (match identity_dir ids !! channel_file ch with
      | Some f => match id_of_file f with Some i => ret i | None => raise AttributeError "hexhash" end
      | None => modify (set_dir (<[channel_file ch := file_of_id fresh]>)) ;; ret fresh end) ids = (Ok i, ids1)
      ∧ readable ids1 ∧ _identities ids1 = _identities ids ∧ _destinations ids1 = _destinations ids)
    as (i & ids1 & E & Hr1 & E1 & E2).
  { destruct (identity_dir ids !! channel_file ch) as [f|] eqn:Ef.
    - destruct (Hr _ _ Ef) as [i Hi]. rewrite Hi. by exists i, ids.
    - eexists _, _. split; [done|]. split_and!; [|done..]. intros n f. simpl.
      destruct (decide (n = channel_file ch)) as [->|]; [|rewrite lookup_insert_ne by done; apply Hr].
      rewrite lookup_insert_eq. intros [= <-]. rewrite read_written. eauto. }
  unfold bind in E. rewrite E. eexists _, _. split; [done|]. split_and!.
  - exact Hr1.
  - exists i. unfold get_identity, get_destination. simpl. by rewrite dict_get_set_eq, lookup_insert_eq.
  - intros ch' Hne (j & Hj & Hd). exists j. unfold get_identity, get_destination in *. simpl.
    rewrite dict_get_set_ne, lookup_insert_ne, E1, E2 by done. done.
Qed.

(** Loading: every channel of the list is served and in memory. *)
Lemma load_loop `{!IdentityFileLaws F} fresh l : ∀ s, readable (chn_ids s) → NoDup (map ch_id l) →
  (∀ c, c ∈ l → ch_id c ∉ dict_keys (chn_channels s)) →
  ∃ s', mfold (λ _ ch, ids_op (register_channel_destination dest_hash (fresh (ch_id ch)) (ch_id ch)) ;;
      modify (chn_set_channels (dict_set (ch_id ch) ch))) tt l s = (Ok tt, s')
    ∧ chn_node s' = chn_node s ∧ chn_channels s' = chn_channels s ++ map (λ c, (ch_id c, c)) l
    ∧ (∀ c, c ∈ l → serves (chn_ids s') (ch_id c))
    ∧ (∀ ch, ch ∉ map ch_id l → serves (chn_ids s) ch → serves (chn_ids s') ch).
Proof using.
  induction l as [|c l IH]; intros s Hr Hnd Hnew; simpl.
  { exists s. rewrite app_nil_r. split_and!; try done. intros c Hc. by apply elem_of_nil in Hc. }
  simpl in Hnd. apply NoDup_cons in Hnd as [Hc Hnd].
  destruct (register_ok (fresh (ch_id c)) (ch_id c) (chn_ids s) Hr) as (d & ids' & E & Hr' & Hs & Hkeep).
  unfold bind at 1. unfold bind at 1. unfold ids_op at 1, lift. rewrite E. simpl.
  set (s1 := chn_set_channels _ _).
  assert (chn_channels s1 = chn_channels s ++ [(ch_id c, c)]) as E1.
  { simpl. specialize (Hnew c (list_elem_of_here _ _)). clear -Hnew. revert Hnew.
    induction (chn_channels s) as [|[k v] d IH]; csimpl; [done|]. rewrite not_elem_of_cons. intros [Hne Hk].
    rewrite decide_False by done. by rewrite IH. }
  destruct (IH s1) as (s' & E' & Hn & Hch & Hall & Hk); [done|done| |].
  { intros c' Hc'. rewrite E1. unfold dict_keys. rewrite fmap_app, not_elem_of_app. split.
    - apply Hnew. by right.
    - simpl. rewrite list_elem_of_singleton. intros Heq. apply Hc. rewrite <- Heq.
      apply list_elem_of_fmap. eauto. }
  exists s'. split_and!; [exact E'|by rewrite Hn|rewrite Hch, E1; by rewrite <- app_assoc| |].
  - intros c' [->|Hc']%elem_of_cons; [|by apply Hall]. by apply Hk.
  - intros ch [Hne Hin]%not_elem_of_cons Hsv. apply Hk; [done|]. by apply Hkeep.
Qed.

(** The sequencer starts at the recorded numbers. *)
Lemma seq_loop l : ∀ s, (∀ c, c ∈ l → channels (chn_db s) !! ch_id c = Some c) →
  ∃ s', mfold (λ _ ch, node_op (seq_op (SequenceManager.load_from_db (ch_id ch))) ;; ret tt) tt l s = (Ok tt, s')
    ∧ chn_db s' = chn_db s ∧ chn_ids s' = chn_ids s ∧ chn_channels s' = chn_channels s
    ∧ (∀ c, c ∈ l → SequenceManager._cache (n_seq (chn_node s')) !! ch_id c = Some (ch_latest_seq c))
    ∧ (∀ ch, ch ∉ map ch_id l →
         SequenceManager._cache (n_seq (chn_node s')) !! ch = SequenceManager._cache (n_seq (chn_node s)) !! ch).
Proof using.
  induction l as [|c l IH]; intros s Hdb; simpl.
  { exists s. split_and!; try done. intros c Hc. by apply elem_of_nil in Hc. }
  unfold bind at 1. unfold bind at 1. unfold node_op, seq_op, lift, SequenceManager.load_from_db, bind at 1,
    SequenceManager.on_db, lift, gets, ChannelRepo.get_by_id. simpl.
  assert (channels (n_db (chn_node s)) !! ch_id c = Some c) as Hc by (apply Hdb; left). rewrite Hc. simpl.
  match goal with |- context [mfold _ tt l ?s1] => destruct (IH s1) as (s' & E & H1 & H2 & H3 & H4 & H5) end.
  { intros c' Hc'. apply Hdb. by right. }
  exists s'. split_and!; try done.
  - intros c' Hc'. destruct (decide (ch_id c' ∈ map ch_id l)) as [Hin|Hin].
    + apply list_elem_of_fmap in Hin as (c2 & He & Hin). rewrite He, (H4 c2 Hin).
      assert (Some c' = Some c2) as Heq; [|by simplify_eq].
      rewrite <- (Hdb c' Hc'), He. by rewrite (Hdb c2 (list_elem_of_further _ _ _ Hin)).
    + apply elem_of_cons in Hc' as [->|Hc']; [|by destruct Hin; apply list_elem_of_fmap; eauto].
      rewrite H5 by done. simpl. by rewrite lookup_insert_eq.
  - intros ch [Hne Hin]%not_elem_of_cons. rewrite H5 by done. simpl. by rewrite lookup_insert_ne.
Qed.

Lemma backfill_one_ok c s : get_channel (ch_id c) s = Some c → channels (chn_db s) !! ch_id c = Some c →
  ∃ s', backfill_one c s = (Ok tt, s') ∧ chn_ids s' = chn_ids s ∧ n_seq (chn_node s') = n_seq (chn_node s)
  ∧ get_channel (ch_id c) s' = Some (filled (chn_ids s) c)
  ∧ channels (chn_db s') !! ch_id c = Some (filled (chn_ids s) c)
  ∧ ∀ ch, ch ≠ ch_id c → get_channel ch s' = get_channel ch s ∧ channels (chn_db s') !! ch = channels (chn_db s) !! ch.
Proof using.
  intros Hm Hdb. unfold backfill_one, filled. destruct (ostr_true (ch_destination_hash c)); [by exists s|].
  unfold bind at 1, get. destruct (get_destination (ch_id c) (chn_ids s)) as [d|]; [|by exists s].
  eexists. split; [done|]. split_and!; try done.
  - simpl. unfold get_channel in *. simpl. rewrite Hm. apply dict_get_set_eq.
  - simpl. unfold chn_db in *. simpl. by rewrite lookup_alter_eq, Hdb.
  - intros ch Hne. unfold get_channel in *. simpl. rewrite Hm, dict_get_set_ne by done. split; [done|].
    unfold chn_db. simpl. by rewrite lookup_alter_ne.
Qed.

Lemma backfill_loop l : ∀ s, NoDup (map ch_id l) →
  (∀ c, c ∈ l → get_channel (ch_id c) s = Some c ∧ channels (chn_db s) !! ch_id c = Some c) →
  ∃ s', mfold (λ _, backfill_one) tt l s = (Ok tt, s') ∧ chn_ids s' = chn_ids s
  ∧ n_seq (chn_node s') = n_seq (chn_node s)
  ∧ (∀ c, c ∈ l → get_channel (ch_id c) s' = Some (filled (chn_ids s) c)
                  ∧ channels (chn_db s') !! ch_id c = Some (filled (chn_ids s) c))
  ∧ (∀ ch, ch ∉ map ch_id l → get_channel ch s' = get_channel ch s ∧ channels (chn_db s') !! ch = channels (chn_db s) !! ch).
Proof using.
  induction l as [|c l IH]; intros s Hnd Hl; simpl.
  { exists s. split_and!; try done. intros c Hc. by apply elem_of_nil in Hc. }
  simpl in Hnd. apply NoDup_cons in Hnd as [Hc Hnd]. destruct (Hl c (list_elem_of_here _ _)) as [Hm Hdb].
  destruct (backfill_one_ok c s Hm Hdb) as (s1 & E & E1 & E2 & E3 & E4 & Hkeep).
  rewrite (bind_run_ok _ _ _ _ _ E).
  assert (∀ c', c' ∈ l → ch_id c' ≠ ch_id c) as Hne.
  { intros c' Hc' He. apply Hc. rewrite <- He. apply list_elem_of_fmap. eauto. }
  destruct (IH s1) as (s' & E' & F1 & F2 & F3 & F4); [done| |].
  { intros c' Hc'. destruct (Hkeep (ch_id c')) as [-> ->]; [by apply Hne|]. apply Hl. by right. }
  exists s'. rewrite E1 in *. split_and!; [done|done|by rewrite F2| |].
  - intros c' [->|Hc']%elem_of_cons; [|by apply F3]. destruct (F4 (ch_id c)) as [-> ->]; done.
  - intros ch [Hn Hin]%not_elem_of_cons. destruct (F4 ch Hin) as [-> ->]. by apply Hkeep.
Qed.

(** Starting only adds identity files, and what is in memory is what they hold. *)
Lemma start_grows `{!IdentityFileLaws F} fresh :
  mrel (λ s s', grows (chn_ids s) (chn_ids s')) (start_channels dest_hash fresh).
Proof using.
  set (R := λ s s' : ChannelNode, grows (chn_ids s) (chn_ids s')).
  assert (PreOrder R) as HPre by (unfold R; split; [by intros x|intros x y z H1 H2; by etrans]).
  assert (∀ m : M ChannelNode unit, mrel R m → mrel R (atomic chn_undo m)) as Hatomic.
  { intros m Hm s. unfold atomic. specialize (Hm s). by destruct (m s) as [[[]|e] s']. }
  unfold start_channels. apply mrel_bind; [done| |intros _]; apply Hatomic.
  - apply mrel_bind; [done| |intros _].
    + unfold load_channels. apply mrel_bind; [done|by apply mrel_get|intros s]. apply mrel_mfold; [done|intros _ c].
      apply mrel_bind; [done| |intros d; by apply mrel_modify].
      apply mrel_lift with (Rc := grows); [|by intros ? ? ?].
      intros ids. apply (run_id_op_grows dest_hash (OpRegister (fresh (ch_id c)) (ch_id c))).
    + apply mrel_bind; [done|by apply mrel_get|intros s]. apply mrel_mfold; [done|intros _ c].
      apply mrel_bind; [done| |intros d; by apply mrel_ret].
      by apply mrel_lift with (Rc := λ _ _, True); [intros ?|].
  - apply mrel_bind; [done|by apply mrel_get|intros s]. apply mrel_mfold; [done|intros _ c].
    unfold backfill_one. apply mrel_if; [by apply mrel_ret|]. apply mrel_bind; [done|by apply mrel_get|intros s'].
    destruct (get_destination _ _); [|by apply mrel_ret]. apply mrel_bind; [done|by apply mrel_modify|intros _].
    by apply mrel_lift with (Rc := λ _ _, True); [intros ?|].
Qed.

Definition channels_keyed (db : DB) : Prop := ∀ id c, channels db !! id = Some c → ch_id c = id.

Lemma start_channels_run `{!IdentityFileLaws F} fresh s :
  chn_channels s = [] → readable (chn_ids s) → channels_keyed (chn_db s) →
  ∃ s', start_channels dest_hash fresh s = (Ok tt, s')
  ∧ ∀ id c, channels (chn_db s) !! id = Some c →
      serves (chn_ids s') id ∧ get_channel id s' = Some (filled (chn_ids s') c)
      ∧ channels (chn_db s') !! id = Some (filled (chn_ids s') c)
      ∧ SequenceManager._cache (n_seq (chn_node s')) !! id = Some (ch_latest_seq c).
Proof using.
  intros Hempty Hr Hk. set (l := ChannelRepo.list_all None None (chn_db s)).
  assert (l ≡ₚ rows (channels (chn_db s))) as Hp by apply sort_by_perm.
  assert (NoDup (map ch_id l)) as Hnd.
  { change (map ch_id l) with (ch_id <$> l). rewrite Hp, rows_keys by exact Hk. apply NoDup_fst_map_to_list. }
  assert (∀ c, c ∈ l ↔ channels (chn_db s) !! ch_id c = Some c) as Hin.
  { intros c. rewrite Hp, elem_of_rows. split; [|eauto]. intros [k Hc]. by rewrite (Hk _ _ Hc). }
  destruct (load_loop fresh l s) as (s1 & E1 & N1 & C1 & S1 & _); [done|done| |].
  { intros c _. rewrite Hempty. apply not_elem_of_nil. }
  assert (list_channels s1 = l) as Hlist.
  { unfold list_channels. rewrite C1, Hempty. simpl. rewrite map_map. simpl. apply map_id. }
  assert (chn_db s1 = chn_db s) as D1 by (unfold chn_db; by rewrite N1).
  destruct (seq_loop l s1) as (s2 & E2 & D2 & I2 & C2 & Q2 & _).
  { intros c Hc. rewrite D1. by apply Hin. }
  destruct (backfill_loop l s2) as (s3 & E3 & I3 & Q3 & B3 & _); [done| |].
  { intros c Hc. rewrite D2, D1. split; [|by apply Hin]. unfold get_channel. rewrite C2, C1, Hempty. simpl.
    clear -Hnd Hc. induction l as [|c' l IH]; [by apply elem_of_nil in Hc|]. simpl in *.
    apply NoDup_cons in Hnd as [Hc' Hnd]. destruct (decide (ch_id c = ch_id c')) as [He|Hne].
    - apply elem_of_cons in Hc as [->|Hc]; [done|]. exfalso. apply Hc'. rewrite <- He. apply list_elem_of_fmap. eauto.
    - apply elem_of_cons in Hc as [->|Hc]; [done|]. by apply IH. }
  exists s3. split.
  - unfold start_channels, atomic, bind at 1, load_channels, bind at 1, get.
    unfold bind at 1. fold l. rewrite E1. unfold bind at 1. rewrite Hlist, E2. cbn iota beta.
    unfold bind. assert (list_channels s2 = l) as -> by (unfold list_channels in *; by rewrite C2). by rewrite E3.
  - intros id c Hc. assert (ch_id c = id) as <- by (by apply Hk). apply Hin in Hc as Hl.
    destruct (B3 c Hl) as [B1 B2]. rewrite I3. split_and!; [|done|done|].
    + rewrite I2. by apply S1.
    + rewrite Q3. by apply Q2.
Qed.

(** C24: Starting the node over readable identity files succeeds and leaves
    every channel of the database served: it has its identity and the
    destination derived from it, its row is in memory as it is in the database,
    with the destination recorded, and the sequencer goes on from its last
    number. *)
Theorem start_serves_channels `{!IdentityFileLaws F} fresh s :
  chn_channels s = [] → readable (chn_ids s) → channels_keyed (chn_db s) →
  ∃ s', start_channels dest_hash fresh s = (Ok tt, s')
  ∧ ∀ id c, channels (chn_db s) !! id = Some c →
      serves (chn_ids s') id ∧ get_channel id s' = Some (filled (chn_ids s') c)
      ∧ channels (chn_db s') !! id = Some (filled (chn_ids s') c)
      ∧ SequenceManager._cache (n_seq (chn_node s')) !! id = Some (ch_latest_seq c).
Proof using. apply start_channels_run. Qed.
End starting.

(** ** Witnesses *)

Definition toy_idfile : IdentityFile := {|
  file_of_id i := 8 :: i; id_of_file f := match f with 8 :: i => Some i | _ => None end |}.
Lemma toy_idfile_laws : IdentityFileLaws toy_idfile.
Proof. by split. Qed.
Definition toy_dest : bytes → string → bytes := λ p ch, p ++ str_bytes ch.

Lemma channel_identity_stable_witness :
  ∃ s2, @get_or_create_channel_identity toy_idfile [9] "c"
    (foldl (@run_id_op toy_idfile toy_signing toy_dest)
       (@get_or_create_channel_identity toy_idfile [3] "c" (start ∅)).2
       [OpRegister [4] "d"; OpRestart; OpNode [5]; OpIdentity [6] "c"]) = (Ok [3], s2).
Proof.
  apply (@channel_identity_stable toy_idfile toy_signing toy_dest toy_idfile_laws [3] [9] "c" [3] (start ∅)).
  - intros ch i. done.
  - reflexivity.
Defined.

(** One channel with an identity file and a recorded destination, one without. *)
Definition channel_node : ChannelNode := {|
  chn_node := demo_public; chn_ids := start {[ "channel_b" := [8; 4] ]}; chn_channels := [] |}.

Lemma start_serves_channels_witness :
  ∃ s', @start_channels toy_idfile toy_signing toy_dest (λ _, [3]) channel_node = (Ok tt, s')
  ∧ (ch_destination_hash <$> get_channel "a" s') = Some (Some (hexrep (toy_dest (@id_public toy_signing [3]) "a"))).
Proof.
  destruct (@start_serves_channels toy_idfile toy_signing toy_dest toy_idfile_laws (λ _, [3]) channel_node)
    as (s' & E & H).
  - reflexivity.
  - intros n f. simpl. rewrite lookup_singleton_Some. intros [<- <-]. by eexists.
  - intros id c. unfold chn_db. simpl. rewrite lookup_insert_Some. intros [[<- <-]|[_ H]]; [done|]. by rewrite lookup_empty in H.
  - exists s'. split; [done|].
    destruct (H "a" (demo_channel "a" ACCESS_PUBLIC false)) as (Hs & -> & _); [reflexivity|].
    vm_compute in E. injection E as <-. vm_compute. reflexivity.
Defined.
