(* ===== verification/Operator.v ===== *)
(** * The operator's commands ([hokora/cli/channel.py], [cli/ban.py],
      [cli/invite.py], [cli/mirror.py])

    Every command opens one transaction on the database of the node, next to
    the running daemon.  A command answers with the fixed part of what it
    prints; [Refused] is an answer after which nothing was changed.  The
    node's own identity is read from its file: [node_hash] is its hash, none
    when the file is missing or unreadable. *)

From S2P Require Import Prelude Constants Models Queries Permissions RateLimit Ban Sealed Sequencer Message Ingest Wire Verification History Epoch Invites InviteCodes Session Live Bootstrap Roles FedAuth FedPush Channels.
Import SealedChannelManager.

Inductive cli_out := Refused (msg : string) | Done (msg : string).

(** [db_session()] *)
Definition db_session {A} (m : M DB A) : M DB A := atomic (λ s0 _, s0) m.

Definition hash_sign : Ascii.ascii := Ascii.ascii_of_nat 35.
Definition is_hex (c : Ascii.ascii) : bool := bool_decide (is_Some (hex_value c)).
(** [re.search] of one of [<], [>], [&], and the two quotes. *)
Definition forbidden (s : string) : bool :=
  existsb (λ c, bool_decide (Z.of_N (Ascii.N_of_ascii c) ∈ [60; 62; 38; 34; 39])) (chars_of s).

(** ** Channels *)

Definition _resolve_channel_id (channel_ref : string) (db : DB) : string :=
  let ref := string_of (lstrip (λ c, bool_decide (c = hash_sign)) (chars_of channel_ref)) in
  if (zlen (chars_of ref) =? 16) && forallb is_hex (chars_of ref) then ref
  else match List.find (λ ch, bool_decide (ch_name ch = ref)) (ChannelRepo.list_all None None db) with
       | Some ch => ch_id ch
       | None => ref
       end.

Section channel.
Context `{E : Envelope} (node_hash : option string).

(** [key] is the group key drawn for the channel. *)
Definition _provision_sealed_key (now : float) (key : bytes) (channel_id : string) : M DB unit :=
  match node_hash with
  | None => raise FileNotFoundError "Node identity missing"
  | Some h => persist_key now h channel_id (generate_key key channel_id init).2
  end.

Definition _create_channel (now : float) (id : string) (key : bytes) (name description access : string)
    (category_id : option string) (sealed : bool) : M DB cli_out :=
  let name := string_of (strip (chars_of name)) in
  if negb (str_true name) then ret (Refused "Channel name cannot be empty")
  else if MAX_CHANNEL_NAME_LENGTH <? py_len name then ret (Refused "Channel name exceeds the limit")
  else if forbidden name then ret (Refused "Channel name contains invalid characters")
  else if MAX_CHANNEL_DESCRIPTION_LENGTH <? py_len description then ret (Refused "Description exceeds the limit")
  else
    db_session
      (let! existing := gets (ChannelRepo.list_all None None) in
       if existsb (λ ch, bool_decide (ch_name ch = name)) existing
       then ret (Refused "A channel with this name already exists")
       else
         ChannelRepo.create (new_channel now id name description access category_id None None sealed) ;;
         if sealed
         then catch (_provision_sealed_key now key id ;; ret (Done "Created channel [SEALED, key provisioned]"))
                (λ _, ret (Done "Created channel [SEALED, key provisioning FAILED]"))
         else ret (Done "Created channel")).

Definition _edit_channel (channel_ref : string) (name description access : option string) (slowmode : option Z)
    : M DB cli_out :=
  if match name with Some n => forbidden n | None => false end
  then ret (Refused "Channel name contains invalid characters")
  else if match description with Some d => MAX_CHANNEL_DESCRIPTION_LENGTH <? py_len d | None => false end
  then ret (Refused "Description exceeds the limit")
  else
    let kwargs := match name with Some v => [ChannelRepo.KwName v] | None => [] end
                  ++ match description with Some v => [ChannelRepo.KwDescription v] | None => [] end
                  ++ match access with Some v => [ChannelRepo.KwAccessMode v] | None => [] end
                  ++ match slowmode with Some v => [ChannelRepo.KwSlowmode v] | None => [] end in
    if negb (list_true kwargs) then ret (Refused "No changes specified")
    else
      db_session
        (let! id := gets (_resolve_channel_id channel_ref) in
         let! ch := ChannelRepo.update_channel id kwargs in
         ret (match ch with Some _ => Done "Updated channel" | None => Refused "Channel not found" end)).

Definition _delete_channel (channel_ref : string) : M DB cli_out :=
  db_session
    (let! id := gets (_resolve_channel_id channel_ref) in
     let! gone := ChannelRepo.delete_channel id in
     ret (if gone : bool then Done "Deleted channel" else Refused "Channel not found")).

(** The group key of a sealed channel; the running node keeps its own. *)
Definition _rotate_channel_key (now : float) (key : bytes) (channel_ref : string) : M DB cli_out :=
  match node_hash with
  | None => raise AttributeError "node_identity"
  | Some h =>
      db_session
        (let! id := gets (_resolve_channel_id channel_ref) in
         let! db := get in
         match channels db !! id with
         | None => ret (Refused "Channel not found")
         | Some ch =>
             if negb (ch_sealed ch) then ret (Refused "Channel is not sealed")
             else
               let mgr := load_keys h db init in
               match get_key id mgr with
               | None => ret (Refused "No existing key for channel")
               | Some k =>
                   if negb (list_true k) then ret (Refused "No existing key for channel")
                   else
                     persist_key now h id (rotate_key key id mgr).2 ;;
                     ret (Done "Rotated key")
               end
         end)
  end.

Definition _seal_channel (now : float) (key : bytes) (channel_ref : string) (seal : bool) : M DB cli_out :=
  db_session
    (let! id := gets (_resolve_channel_id channel_ref) in
     let! db := get in
     match channels db !! id with
     | None => ret (Refused "Channel not found")
     | Some _ =>
         modify (set_channels (alter (ChannelRepo.set_kw (ChannelRepo.KwSealed seal)) id)) ;;
         if seal
         then catch (_provision_sealed_key now key id ;; ret (Done "Sealed channel. Initial key provisioned"))
                (λ _, ret (Done "Sealed channel, but key provisioning failed"))
         else
           modify (set_sealed_keys (List.filter (λ k, negb (bool_decide (sk_channel_id k = id))))) ;;
           ret (Done "Unsealed channel. Keys deleted")
     end).
End channel.

(** ** Permission overrides *)

Definition _PERM_NAMES : dict string Z :=
  [("SEND_MESSAGES", 0x0001); ("SEND_MEDIA", 0x0002); ("CREATE_THREADS", 0x0004); ("USE_MENTIONS", 0x0008);
   ("MENTION_EVERYONE", 0x0010); ("ADD_REACTIONS", 0x0020); ("READ_HISTORY", 0x0040); ("DELETE_OWN", 0x0080);
   ("DELETE_OTHERS", 0x0100); ("PIN_MESSAGES", 0x0200); ("MANAGE_CHANNELS", 0x0400); ("MANAGE_ROLES", 0x0800);
   ("MANAGE_MEMBERS", 0x1000); ("BAN_IDENTITIES", 0x2000); ("VIEW_AUDIT_LOG", 0x4000); ("EDIT_OWN", 0x8000)].

Definition comma : Ascii.ascii := Ascii.ascii_of_nat 44.

(** [s.split(",")] *)
Fixpoint split_comma (l : chars) : list chars :=
  match l with
  | [] => [[]]
  | c :: l => if bool_decide (c = comma) then [] :: split_comma l
              else match split_comma l with w :: ws => (c :: w) :: ws | [] => [[c]] end
  end.

(** The names of a list, stripped and in upper case; empty entries left out. *)
Definition perm_words (perm_csv : string) : list string :=
  map (λ w, string_of (map upper_char (strip w)))
    (List.filter (λ w, list_true (strip w)) (split_comma (chars_of perm_csv))).

Definition add_perm (total : res Z) (name : string) : res Z :=
  match total with
  | Ok z => match dict_get name _PERM_NAMES with
            | None => Raise (Exn BadParameter "Unknown permission")
            | Some b => Ok (Z.lor z b)
            end
  | Raise e => Raise e
  end.

Definition _parse_perm_bitmask (perm_csv : string) : res Z := foldl add_perm (Ok 0) (perm_words perm_csv).

Definition set_override (allow deny : Z) (o : ChannelOverride) : ChannelOverride := {|
  co_id := co_id o; co_channel_id := co_channel_id o; co_role_id := co_role_id o; co_allow := allow; co_deny := deny |}.

Definition is_override (channel_id rid : string) (o : ChannelOverride) : bool :=
  bool_decide (co_channel_id o = channel_id) && bool_decide (co_role_id o = rid).

(** The role with an identifier, or else the one with a name. *)
Definition role_of (role_ref : string) (db : DB) : option Role :=
  match roles db !! role_ref with
  | Some r => Some r
  | None => RoleRepo.get_by_name role_ref db
  end.

Definition _set_channel_override (channel_ref role_ref allow_csv deny_csv : string) : M DB cli_out :=
  let! allow := of_res (_parse_perm_bitmask allow_csv) in
  let! deny := of_res (_parse_perm_bitmask deny_csv) in
  db_session
    (let! id := gets (_resolve_channel_id channel_ref) in
     let! db := get in
     match channels db !! id with
     | None => ret (Refused "Channel not found")
     | Some _ =>
         match role_of role_ref db with
         | None => ret (Refused "Role not found")
         | Some r =>
             let! existing := scalar_one_or_none (List.filter (is_override id (role_id r)) (channel_overrides db)) in
             match existing with
             | None =>
                 modify (set_channel_overrides (λ l, l ++ [{|
                   co_id := next_rowid l; co_channel_id := id; co_role_id := role_id r;
                   co_allow := allow; co_deny := deny |}])) ;;
                 ret (Done "Override created")
             | Some _ =>
                 modify (set_channel_overrides
                   (map (λ o, if is_override id (role_id r) o then set_override allow deny o else o))) ;;
                 ret (Done "Override updated")
             end
         end
     end).

(** ** Bans *)

Definition _add_ban (node_hash : option string) (now : float) (target : string) (reason : option string)
    : M DB BanResult :=
  match node_hash with
  | None => raise AttributeError "hexhash"
  | Some h => db_session (BanManager.ban (Some h) now target h reason)
  end.

Definition _remove_ban (node_hash : option string) (now : float) (target : string) (reason : option string)
    : M DB UnbanResult :=
  match node_hash with
  | None => raise AttributeError "hexhash"
  | Some h => db_session (BanManager.unban now target h reason)
  end.

(** ** Invites *)

Section invite.
Context `{HH : Hashing} `{F : IdentityFile} `{HS : Signing}.

(** The destination an invite names, and the channel it is of. *)
Definition invite_target (channel_id : option string) (db : DB) : option string * option string :=
  if ostr_true channel_id
  then (channels db !! or_empty channel_id ≫= (λ c, if ostr_true (ch_destination_hash c) then ch_destination_hash c else None),
        channel_id)
  else match head (sql_limit 1 (sort_by (λ a b, fle (ch_created_at a) (ch_created_at b)) (rows (channels db)))) with
       | Some c => if ostr_true (ch_destination_hash c) then (ch_destination_hash c, Some (ch_id c)) else (None, channel_id)
       | None => (None, channel_id)
       end.

(** What the command prints: the token, and the short code when there is one. *)
Definition _create_invite (node_hash : option string) (dir : gmap string bytes) (now : float) (raw_token : string)
    (channel_id : option string) (max_uses expiry_hours : Z) : M DB (string * option string) :=
  match node_hash with
  | None => raise AttributeError "hexhash"
  | Some h =>
      db_session
        (let! db := get in
         let (destination_hash, channel_id) := invite_target channel_id db in
         let pubkey := if ostr_true channel_id
                       then (λ i, hexrep (id_public i)) <$> (dir !! channel_file (or_empty channel_id) ≫= id_of_file)
                       else None in
         let! (token, _) := InviteManager.create_invite now raw_token h None max_uses expiry_hours destination_hash pubkey in
         let composed := existsb (λ c, bool_decide (c = Ascii.ascii_of_nat 58)) (chars_of token) in
         let token := if ostr_true channel_id && composed then colon token (or_empty channel_id) else token in
         let code := if composed && ostr_true destination_hash
                     then match encode_invite (InviteManager.before_colon token) (or_empty destination_hash) with
                          | Ok c => Some c
                          | Raise _ => None
                          end
                     else None in
         ret (token, code))
  end.

Definition _revoke_invite (token_hash : string) : M DB cli_out :=
  db_session
    (let! found := InviteManager.revoke_invite token_hash in
     ret (if found : bool then Done "Revoked invite" else Refused "Invite not found")).
End invite.

(** ** Mirrors *)

Definition new_peer (h : string) (mirrored : list string) (trusted : bool) : Peer := {|
  peer_identity_hash := h; peer_node_name := None; peer_last_seen := None; peer_channels_mirrored := mirrored;
  peer_sync_cursor := ∅; peer_push_cursor := ∅; peer_federation_trusted := trusted; peer_last_handshake := None;
  peer_public_key := None |}.
Definition set_mirrored (l : list string) (p : Peer) : Peer := {|
  peer_identity_hash := peer_identity_hash p; peer_node_name := peer_node_name p; peer_last_seen := peer_last_seen p;
  peer_channels_mirrored := l; peer_sync_cursor := peer_sync_cursor p; peer_push_cursor := peer_push_cursor p;
  peer_federation_trusted := peer_federation_trusted p; peer_last_handshake := peer_last_handshake p;
  peer_public_key := peer_public_key p |}.
Definition set_trusted (b : bool) (p : Peer) : Peer := {|
  peer_identity_hash := peer_identity_hash p; peer_node_name := peer_node_name p; peer_last_seen := peer_last_seen p;
  peer_channels_mirrored := peer_channels_mirrored p; peer_sync_cursor := peer_sync_cursor p;
  peer_push_cursor := peer_push_cursor p; peer_federation_trusted := b; peer_last_handshake := peer_last_handshake p;
  peer_public_key := peer_public_key p |}.

(** [list.remove]: the first occurrence. *)
Fixpoint remove_first (x : string) (l : list string) : list string :=
  match l with [] => [] | y :: l => if bool_decide (x = y) then l else y :: remove_first x l end.

Definition _add_mirror (remote channel_id : string) : M DB cli_out :=
  db_session
    (let! db := get in
     match peers db !! remote with
     | None => modify (set_peers (<[remote := new_peer remote [channel_id] false]>)) ;; ret (Done "Added mirror")
     | Some p =>
         if bool_decide (channel_id ∈ peer_channels_mirrored p) then ret (Refused "Mirror already configured")
         else modify (set_peers (<[remote := set_mirrored (peer_channels_mirrored p ++ [channel_id]) p]>)) ;;
              ret (Done "Added mirror")
     end).

Definition _remove_mirror (remote channel_id : string) : M DB cli_out :=
  db_session
    (let! db := get in
     match peers db !! remote with
     | Some p =>
         if bool_decide (channel_id ∈ peer_channels_mirrored p)
         then modify (set_peers (<[remote := set_mirrored (remove_first channel_id (peer_channels_mirrored p)) p]>)) ;;
              ret (Done "Removed mirror")
         else ret (Refused "Mirror not found")
     | None => ret (Refused "Mirror not found")
     end).

Definition _trust_peer (remote : string) (trusted : bool) : M DB cli_out :=
  db_session
    (let! db := get in
     match peers db !! remote with
     | None => modify (set_peers (<[remote := new_peer remote [] trusted]>))
     | Some p => modify (set_peers (<[remote := set_trusted trusted p]>))
     end ;;
     ret (Done (if trusted then "Trusted peer" else "Untrusted peer"))).

(** ** Names of channels *)

Section names.
Context `{E : Envelope} (node_hash : option string).

(** The row of the key a command provisions. *)
Definition first_key (now : float) (h id : string) (key : bytes) (l : list SealedKey) : SealedKey := {|
  sk_id := next_rowid l; sk_channel_id := id; sk_epoch := 1; sk_encrypted_key_blob := env_encrypt key;
  sk_identity_hash := h; sk_created_at := now |}.

Lemma provision_run now key id db : is_Some (channels db !! id) →
  _provision_sealed_key node_hash now key id db
  = match node_hash with
    | None => (Raise (Exn FileNotFoundError "Node identity missing"), db)
    | Some h => (Ok tt, set_sealed_keys (λ l, l ++ [first_key now h id key l]) db)
    end.
Proof using.
  intros Hid. unfold _provision_sealed_key. destruct node_hash as [h|]; [|done].
  rewrite (persist_run h now id _ {| ki_key := key; ki_epoch := 1 |}); [done| |done].
  unfold generate_key. simpl. apply lookup_insert_eq.
Qed.

(** What a successful creation did. *)
Lemma create_channel_done now id key name description access category sealed db m db' :
  _create_channel node_hash now id key name description access category sealed db = (Ok (Done m), db') →
  let n := string_of (strip (chars_of name)) in
  channels db !! id = None ∧ (∀ k c, channels db !! k = Some c → ch_name c ≠ n)
  ∧ channels db' = <[id := new_channel now id n description access category None None sealed]> (channels db)
  ∧ sealed_keys db' = sealed_keys db ++
      match node_hash with
      | Some h => if sealed then [first_key now h id key (sealed_keys db)] else []
      | None => []
      end.
Proof using.
  unfold _create_channel, db_session, atomic. cbv zeta. set (n := string_of (strip (chars_of name))).
  repeat match goal with |- context [if ?b then ret (Refused _) else _] => destruct b; [done|] end.
  unfold bind at 1, gets.
  match goal with |- context [existsb ?f ?l] => destruct (existsb f l) eqn:Ex end; [done|].
  unfold bind at 1, ChannelRepo.create, check_unique, bind at 1. unfold bind at 1, get. simpl.
  case_bool_decide as Hu; [done|]. unfold ret at 1. unfold bind at 1.
  set (c := new_channel now id n description access category None None sealed).
  destruct (match category with Some k => check_fk categories k | None => ret tt end db) as [[[]|e] s1] eqn:Ef; [|done].
  assert (s1 = db) as ->.
  { destruct category; [|by inversion Ef]. unfold check_fk, bind, get in Ef. by destruct (bool_decide _); inversion Ef. }
  simpl. intros H. split_and!.
  - by apply eq_None_not_Some.
  - intros k c' Hc Hn. apply not_true_iff_false in Ex. apply Ex, existsb_exists. exists c'. split.
    + apply list_elem_of_In. unfold ChannelRepo.list_all, ChannelRepo.paginate. rewrite sort_by_perm, elem_of_rows. eauto.
    + by apply bool_decide_eq_true.
  - destruct sealed; [|by inversion H]. unfold catch, bind in H. rewrite provision_run in H by (simpl; rewrite lookup_insert_eq; eauto).
    by destruct node_hash; inversion H.
  - destruct sealed; [|inversion H; destruct node_hash; by rewrite app_nil_r].
    unfold catch, bind in H. rewrite provision_run in H by (simpl; rewrite lookup_insert_eq; eauto).
    destruct node_hash; inversion H; subst; simpl; [done|by rewrite app_nil_r].
Qed.

(** A name that can be given as a reference: it does not start with the sign
    that is dropped and is not taken for an identifier. *)
Definition plain_name (n : string) : Prop :=
  match chars_of n with c :: _ => c ≠ hash_sign | [] => True end
  ∧ (zlen (chars_of n) =? 16) && forallb is_hex (chars_of n) = false.

Lemma resolve_by_name n id c db : plain_name n → channels db !! id = Some c → ch_id c = id → ch_name c = n →
  (∀ k c', channels db !! k = Some c' → ch_name c' = n → c' = c) →
  _resolve_channel_id n db = id ∧ _resolve_channel_id (String.append "#" n) db = id.
Proof using.
  intros [Hhd Hhex] Hc Hid Hn Huniq.
  assert (lstrip (λ c, bool_decide (c = hash_sign)) (chars_of n) = chars_of n) as Hs.
  { destruct (chars_of n) as [|a l]; [done|]. simpl. by rewrite bool_decide_eq_false_2. }
  assert (∀ l, lstrip (λ c, bool_decide (c = hash_sign)) l = chars_of n →
    string_of (lstrip (λ c, bool_decide (c = hash_sign)) l) = n) as Hl.
  { intros l ->. apply string_chars. }
  assert (match List.find (λ ch, bool_decide (ch_name ch = n)) (ChannelRepo.list_all None None db) with
          | Some ch => ch_id ch | None => n end = id) as Hfind.
  { destruct (List.find _ _) as [c'|] eqn:Ef.
    - apply find_some in Ef as [Hin Hb%bool_decide_eq_true]. apply list_elem_of_In in Hin.
      unfold ChannelRepo.list_all, ChannelRepo.paginate in Hin. rewrite sort_by_perm, elem_of_rows in Hin.
      destruct Hin as [k Hk]. by rewrite (Huniq k c').
    - exfalso. eapply find_none in Ef; [|apply list_elem_of_In; unfold ChannelRepo.list_all, ChannelRepo.paginate;
        rewrite sort_by_perm, elem_of_rows; eauto]. simpl in Ef. by rewrite bool_decide_eq_true_2 in Ef. }
  unfold _resolve_channel_id. split.
  - rewrite Hl by done. by rewrite Hhex.
  - rewrite Hl by done. by rewrite Hhex.
Qed.

Definition names_unique (db : DB) : Prop :=
  ∀ k k' c c', channels db !! k = Some c → channels db !! k' = Some c' → ch_name c = ch_name c' → k = k'.

(** A created channel can be referred to: creating keeps the names of
    channels distinct, and the new channel is found under its name, with or
    without the leading sign, unless the name starts with that sign or has the
    form of an identifier. *)
Theorem channel_ref_resolves now id key name description access category sealed db m db' :
  _create_channel node_hash now id key name description access category sealed db = (Ok (Done m), db') →
  let n := string_of (strip (chars_of name)) in
  (names_unique db → names_unique db')
  ∧ (plain_name n → _resolve_channel_id n db' = id ∧ _resolve_channel_id (String.append "#" n) db' = id).
Proof using.
  intros H n. apply create_channel_done in H as (Hnew & Hother & Hch & _). fold n in Hother, Hch. split.
  - intros Hu k k' c c'. rewrite Hch, !lookup_insert_Some. intros [[<- <-]|[? Hk]] [[<- <-]|[? Hk']]; [done| | |by apply Hu].
    + intros Heq. exfalso. by eapply Hother.
    + intros Heq. exfalso. by eapply Hother.
  - intros Hp. apply (resolve_by_name n id (new_channel now id n description access category None None sealed));
      [done|by rewrite Hch, lookup_insert_eq|done|done|].
    intros k c'. rewrite Hch, lookup_insert_Some. intros [[_ <-]|[_ Hk]]; [done|]. intros Hc. exfalso. by eapply Hother.
Qed.
End names.

(** ** Sealing *)

Section sealing.
Context `{E : Envelope} `{A : Aead}.

(** Key rows belong to channels. *)
Definition keys_fk (db : DB) : Prop := ∀ r, r ∈ sealed_keys db → is_Some (channels db !! sk_channel_id r).

Lemma sealed_channel_listed id c db : channels db !! id = Some c → ch_id c = id → ch_sealed c = true →
  id ∈ ch_id <$> sealed_channels db.
Proof using.
  intros Hc Hid Hs. apply list_elem_of_fmap. exists c. split; [done|]. unfold sealed_channels.
  apply list_elem_of_In, filter_In. split; [|done]. apply list_elem_of_In, elem_of_rows. eauto.
Qed.

(** A channel that is created sealed can be written to from its first
    moment: the next start of the node, or one that follows at once, loads the
    key the command stored, and what is sealed with it opens again. *)
Theorem sealed_channel_ready `{!EnvelopeLaws E} `{!AeadLaws A} h now id key name description access category db m db'
    nonce text :
  _create_channel (Some h) now id key name description access category true db = (Ok (Done m), db') →
  keys_fk db → list_true key = true → str_true text = true →
  let mgr := loaded h db' init in
  ∃ c ct, channels db' !! id = Some c ∧ ch_sealed c = true
  ∧ seal_for_origin nonce c (Some text) (Some mgr)
    = Ok {| c_body := None; c_encrypted_body := Some ct; c_nonce := Some nonce; c_epoch := Some 1 |}
  ∧ decrypt id nonce ct (Some 1) mgr = Ok (str_bytes text).
Proof using.
  intros H Hfk Hkey Htext mgr. apply create_channel_done in H as (Hnew & _ & Hch & Hsk).
  set (n := string_of _) in Hch. set (c := new_channel now id n description access category None None true) in Hch.
  assert (channels db' !! id = Some c) as Hc by (by rewrite Hch, lookup_insert_eq).
  assert (node_rows h id db' = [first_key now h id key (sealed_keys db)]) as Hrows.
  { unfold node_rows. rewrite Hsk, List.filter_app.
    rewrite (filter_none _ (sealed_keys db)); [simpl; by rewrite !bool_decide_eq_true_2|].
    intros r Hr. apply andb_false_iff. left. apply bool_decide_eq_false. intros Hi.
    destruct (Hfk r Hr) as [? Hx]. by rewrite Hi, Hnew in Hx. }
  assert (_keys mgr !! id = Some {| ki_key := key; ki_epoch := 1 |}) as Hk.
  { unfold mgr, loaded. rewrite (proj1 (load_fold h db' _ _ id)), (newest_row_single h id db' _ Hrows).
    unfold open_row. simpl. rewrite env_roundtrip. simpl. rewrite bool_decide_eq_true_2; [done|].
    by apply (sealed_channel_listed id c). }
  exists c. eexists. split_and!; [done|done| |].
  - unfold seal_for_origin, get_key, encrypt. simpl. rewrite Htext. simpl. rewrite Hk. simpl. rewrite Hkey. done.
  - unfold decrypt, key_for. rewrite Hk. simpl. by rewrite aead_roundtrip.
Qed.

(** A reference that has the form of an identifier is one. *)
Lemma resolve_id ref db : (zlen (chars_of ref) =? 16) && forallb is_hex (chars_of ref) = true →
  _resolve_channel_id ref db = ref.
Proof using.
  intros Hf. unfold _resolve_channel_id.
  assert (lstrip (λ c, bool_decide (c = hash_sign)) (chars_of ref) = chars_of ref) as ->.
  { apply andb_true_iff in Hf as [_ Hh]. destruct (chars_of ref) as [|c l]; [done|]. simpl in *.
    rewrite bool_decide_eq_false_2; [done|]. intros ->. done. }
  by rewrite string_chars, Hf.
Qed.

Lemma seal_run h now key id c db : (zlen (chars_of id) =? 16) && forallb is_hex (chars_of id) = true →
  channels db !! id = Some c →
  ∃ m db', _seal_channel (Some h) now key id true db = (Ok (Done m), db')
  ∧ channels db' !! id = Some (ChannelRepo.set_kw (ChannelRepo.KwSealed true) c)
  ∧ sealed_keys db' = sealed_keys db ++ [first_key now h id key (sealed_keys db)].
Proof using.
  intros Hid Hc. unfold _seal_channel, db_session, atomic, bind at 1, gets. rewrite resolve_id by done.
  unfold bind at 1, get. rewrite Hc. unfold bind at 1, modify. unfold catch, bind at 1.
  rewrite provision_run by (simpl; rewrite lookup_alter_eq, Hc; eauto).
  eexists _, _. split; [done|]. simpl. by rewrite lookup_alter_eq, Hc.
Qed.

(** sealing is not idempotent: sealing a channel twice leaves two keys
    of its first epoch, so what was sealed under one of them is lost when the
    next start picks the other. *)
Theorem seal_not_idempotent `{!EnvelopeLaws E} h now now' key key' id c db :
  (zlen (chars_of id) =? 16) && forallb is_hex (chars_of id) = true → channels db !! id = Some c → key ≠ key' →
  ∃ m db1 m' db2 r r', _seal_channel (Some h) now key id true db = (Ok (Done m), db1)
  ∧ _seal_channel (Some h) now' key' id true db1 = (Ok (Done m'), db2)
  ∧ r ∈ node_rows h id db2 ∧ r' ∈ node_rows h id db2 ∧ sk_epoch r = 1 ∧ sk_epoch r' = 1
  ∧ env_decrypt (sk_encrypted_key_blob r) = Some key ∧ env_decrypt (sk_encrypted_key_blob r') = Some key'.
Proof using.
  intros Hid Hc Hne. destruct (seal_run h now key id c db Hid Hc) as (m & db1 & E1 & C1 & K1).
  destruct (seal_run h now' key' id _ db1 Hid C1) as (m' & db2 & E2 & _ & K2).
  eexists m, db1, m', db2, (first_key now h id key (sealed_keys db)), (first_key now' h id key' (sealed_keys db1)).
  assert (∀ r, r ∈ sealed_keys db2 → sk_channel_id r = id → sk_identity_hash r = h → r ∈ node_rows h id db2) as Hin.
  { intros r Hr Hr1 Hr2. unfold node_rows. apply list_elem_of_In, filter_In. split; [by apply list_elem_of_In|].
    by rewrite !bool_decide_eq_true_2. }
  split_and!; [done|done| | |done|done|apply env_roundtrip|apply env_roundtrip].
  - apply Hin; [|done|done]. rewrite K2, K1, !elem_of_app, !list_elem_of_singleton. auto.
  - apply Hin; [|done|done]. rewrite K2, !elem_of_app, !list_elem_of_singleton. auto.
Qed.

(** unsealing a channel strands what was written in it: the sealed rows
    stay as they are, their keys are gone, and from the next start on every one
    of them is served as unavailable. *)
Theorem unseal_strands_messages h now key ref db m db' row nonce ct :
  channels_keyed db → _seal_channel (Some h) now key ref false db = (Ok (Done m), db') →
  m_channel_id row = _resolve_channel_id ref db →
  m_encrypted_body row = Some ct → list_true ct = true → m_encryption_nonce row = Some nonce → list_true nonce = true →
  messages db' = messages db
  ∧ dict_get "body" (encode_message_for_wire row (Some (loaded h db' init)) false)
    = Some (VStr "[encrypted - key unavailable]").
Proof using.
  intros Hkd H Hrow Hct Hct' Hn Hn'. unfold _seal_channel, db_session, atomic, bind at 1, gets in H.
  unfold bind at 1, get in H. set (id := _resolve_channel_id ref db) in *.
  destruct (channels db !! id) as [c|] eqn:Hc; [|done].
  unfold bind, modify, ret in H. injection H as <- <-. split; [done|].
  set (db' := set_sealed_keys _ _).
  assert (_keys (loaded h db' init) !! id = None) as Hk.
  { unfold loaded. rewrite (proj1 (load_fold h db' _ _ id)). destruct (_ ≫= open_row); [|done].
    rewrite bool_decide_eq_false_2; [done|]. intros (x & Hx & Hin)%list_elem_of_fmap.
    unfold sealed_channels in Hin. apply list_elem_of_In, filter_In in Hin as [Hin Hs].
    apply list_elem_of_In, elem_of_rows in Hin as [k0 Hk]. simpl in Hk.
    destruct (decide (k0 = id)) as [->|Hne].
    - rewrite lookup_alter_eq, Hc in Hk. injection Hk as <-. done.
    - rewrite lookup_alter_ne in Hk by done. apply Hkd in Hk. congruence. }
  unfold encode_message_for_wire. rewrite Hct, Hn. simpl. rewrite Hct', Hn'. simpl.
  unfold decrypt, key_for. by rewrite Hrow, Hk.
Qed.
End sealing.

(** ** Overrides *)

(** The names of the command are those of the constants. *)
Example perm_names_ok : map snd _PERM_NAMES =
  [PERM_SEND_MESSAGES; PERM_SEND_MEDIA; PERM_CREATE_THREADS; PERM_USE_MENTIONS; PERM_MENTION_EVERYONE;
   PERM_ADD_REACTIONS; PERM_READ_HISTORY; PERM_DELETE_OWN; PERM_DELETE_OTHERS; PERM_PIN_MESSAGES;
   PERM_MANAGE_CHANNELS; PERM_MANAGE_ROLES; PERM_MANAGE_MEMBERS; PERM_BAN_IDENTITIES; PERM_VIEW_AUDIT_LOG;
   PERM_EDIT_OWN].
Proof. reflexivity. Qed.

Definition word_bit (i : Z) (w : string) : bool :=
  match dict_get w _PERM_NAMES with Some b => Z.testbit b i | None => false end.

Lemma parse_fold ws total :
  match foldl add_perm (Ok total) ws with
  | Ok z => Forall (λ w, is_Some (dict_get w _PERM_NAMES)) ws
            ∧ ∀ i, Z.testbit z i = Z.testbit total i || existsb (word_bit i) ws
  | Raise e => e = Exn BadParameter "Unknown permission" ∧ Exists (λ w, dict_get w _PERM_NAMES = None) ws
  end.
Proof.
  revert total. induction ws as [|w ws IH]; intros total; cbn [foldl existsb].
  { split; [constructor|]. intros i. by rewrite orb_false_r. }
  unfold add_perm at 2. destruct (dict_get w _PERM_NAMES) as [b|] eqn:Ew.
  - specialize (IH (Z.lor total b)). destruct (foldl add_perm _ ws) as [z|e].
    + destruct IH as [H1 H2]. split; [constructor; eauto|]. intros i. rewrite H2, Z.lor_spec.
      unfold word_bit at 2. by rewrite Ew, orb_assoc.
    + destruct IH. split; [done|by right].
  - assert (∀ e l, foldl add_perm (Raise e) l = Raise e) as ->.
    { intros e l. induction l; simpl; done. }
    split; [done|by left].
Qed.

(** A list of names is refused when one is unknown, and otherwise is the union
    of their bits. *)
Lemma parse_perm_spec csv :
  match _parse_perm_bitmask csv with
  | Ok z => Forall (λ w, is_Some (dict_get w _PERM_NAMES)) (perm_words csv)
            ∧ ∀ i, Z.testbit z i = existsb (word_bit i) (perm_words csv)
  | Raise e => e = Exn BadParameter "Unknown permission"
               ∧ Exists (λ w, dict_get w _PERM_NAMES = None) (perm_words csv)
  end.
Proof.
  pose proof (parse_fold (perm_words csv) 0) as H. unfold _parse_perm_bitmask.
  destruct (foldl _ _ _) as [z|e]; [|done]. destruct H as [H1 H2]. split; [done|].
  intros i. by rewrite H2, Z.bits_0.
Qed.

(** The override of a role on a channel after the command, and what it left. *)
Record overridden (id rid : string) (allow deny : Z) (db db' : DB) : Prop := {
  ov_roles : roles db' = roles db;
  ov_assign : role_assignments db' = role_assignments db;
  ov_new : ∃ o, o ∈ channel_overrides db' ∧ is_override id rid o = true ∧ co_allow o = allow ∧ co_deny o = deny
    ∧ ∀ o', o' ∈ channel_overrides db' → is_override id rid o' = true → o' = o;
  ov_rest : ∀ P, (∀ o, is_override id rid o = true → P o = false) →
    List.filter P (channel_overrides db') = List.filter P (channel_overrides db);
}.

Lemma override_done ref rref allow_csv deny_csv db m db' :
  _set_channel_override ref rref allow_csv deny_csv db = (Ok (Done m), db') →
  ∃ allow deny r, _parse_perm_bitmask allow_csv = Ok allow ∧ _parse_perm_bitmask deny_csv = Ok deny
  ∧ is_Some (channels db !! _resolve_channel_id ref db) ∧ role_of rref db = Some r
  ∧ overridden (_resolve_channel_id ref db) (role_id r) allow deny db db'.
Proof.
  unfold _set_channel_override. intros (allow & s1 & H1 & H)%bind_ok. apply bind_ok in H as (deny & s2 & H2 & H).
  unfold of_res in H1, H2. simplify_eq. unfold db_session, atomic, bind at 1, gets in H. unfold bind at 1, get in H.
  set (id := _resolve_channel_id ref s2) in *. destruct (channels s2 !! id) as [c|] eqn:Hc; [|done].
  destruct (role_of rref s2) as [r|] eqn:Hr; [|done].
  exists allow, deny, r. split_and!; [done|done|eauto|done|].
  destruct (List.filter (is_override id (role_id r)) (channel_overrides s2)) as [|e [|? ?]] eqn:Ef; [..|done].
  - unfold scalar_one_or_none, bind, ret, modify in H. injection H as _ <-. set (o := {|
      co_id := next_rowid (channel_overrides s2); co_channel_id := id; co_role_id := role_id r;
      co_allow := allow; co_deny := deny |}).
    assert (is_override id (role_id r) o = true) as Ho by (unfold is_override; simpl; by rewrite !bool_decide_eq_true_2).
    match goal with |- overridden _ _ _ _ _ ?d => assert (channel_overrides d = channel_overrides s2 ++ [o]) as Hl by done end.
    split; [done|done| |].
    + exists o. split_and!; [rewrite Hl; apply elem_of_app; right; by left|done|done|done|].
      intros o'. rewrite Hl, elem_of_app, list_elem_of_singleton. intros [Hin| ->] Ho'; [|done].
      assert (o' ∈ []) as Hx; [|by apply elem_of_nil in Hx]. rewrite <- Ef.
      apply list_elem_of_In, filter_In. split; [by apply list_elem_of_In|done].
    + intros P HP. rewrite Hl, List.filter_app. simpl. rewrite (HP o Ho). apply app_nil_r.
  - unfold scalar_one_or_none, bind, ret, modify in H. injection H as _ <-.
    set (f := λ o, if is_override id (role_id r) o then set_override allow deny o else o).
    assert (∀ o, is_override id (role_id r) (f o) = is_override id (role_id r) o) as Hf.
    { intros o. unfold f. by destruct (is_override _ _ o) eqn:Eo. }
    assert (∀ o, o ∈ channel_overrides s2 → is_override id (role_id r) o = true → o = e) as Huniq.
    { intros o Ho Hm. assert (o ∈ [e]) as Hx; [|by apply list_elem_of_singleton in Hx]. rewrite <- Ef.
      apply list_elem_of_In, filter_In. split; [by apply list_elem_of_In|done]. }
    assert (e ∈ channel_overrides s2 ∧ is_override id (role_id r) e = true) as [He Hm].
    { rewrite list_elem_of_In, <- filter_In, Ef. by left. }
    split; [done|done| |].
    + exists (set_override allow deny e). split_and!; [|done|done|done|].
      * simpl. apply list_elem_of_fmap. exists e. split; [|done]. change (set_override allow deny e = f e).
        unfold f. by rewrite Hm.
      * intros o' (o & -> & Ho)%list_elem_of_fmap Ho'. change (is_override id (role_id r) (f o) = true) in Ho'.
        rewrite Hf in Ho'. change (f o = set_override allow deny e). unfold f. by rewrite Ho', (Huniq o Ho Ho').
    + intros P HP. simpl. change (map _ (channel_overrides s2)) with (map f (channel_overrides s2)).
      apply filter_map_same.
      * intros o. destruct (is_override id (role_id r) o) eqn:Eo.
        -- rewrite (HP o Eo). apply HP. by rewrite Hf.
        -- unfold f. by rewrite Eo.
      * intros o Ho. unfold f. destruct (is_override id (role_id r) o) eqn:Eo; [|done].
        by rewrite (HP o Eo) in Ho.
Qed.

Lemma overridden_lookup id rid allow deny db db' rids : overridden id rid allow deny db db' → rid ∈ rids →
  ∃ o, RoleRepo.get_all_channel_overrides id rids db' !! rid = Some o ∧ co_allow o = allow ∧ co_deny o = deny.
Proof.
  intros [_ _ (o & Ho & Hm & Ha & Hd & Huniq) _] Hin. exists o. split_and!; [|done|done].
  unfold RoleRepo.get_all_channel_overrides.
  pose proof Hm as [Hc%bool_decide_eq_true Hr%bool_decide_eq_true]%andb_true_iff.
  apply elem_of_list_to_map_1'.
  - intros y. rewrite elem_of_reverse. intros (o' & [= -> <-] & Hx)%list_elem_of_fmap.
    apply list_elem_of_In, filter_In in Hx as [Hx [Hy _]%andb_true_iff]. apply list_elem_of_In in Hx.
    symmetry. apply Huniq; [done|]. unfold is_override. rewrite Hy. by apply bool_decide_eq_true.
  - rewrite elem_of_reverse. apply list_elem_of_fmap. exists o. split; [by rewrite Hr|].
    apply list_elem_of_In, filter_In. split; [by apply list_elem_of_In|].
    apply andb_true_iff. split; apply bool_decide_eq_true; [done|by rewrite Hr].
Qed.

Lemma overridden_rest id rid allow deny db db' id' rids : overridden id rid allow deny db db' →
  id' ≠ id ∨ rid ∉ rids →
  RoleRepo.get_all_channel_overrides id' rids db' = RoleRepo.get_all_channel_overrides id' rids db.
Proof.
  intros [_ _ _ Hrest] Hout. unfold RoleRepo.get_all_channel_overrides. rewrite Hrest; [done|].
  intros o [Hc%bool_decide_eq_true Hr%bool_decide_eq_true]%andb_true_iff. apply andb_false_iff.
  destruct Hout as [Hne|Hni]; [left|right]; apply bool_decide_eq_false; congruence.
Qed.

Import PermissionResolver.

(** A channel override is what it says. After the command, on the channel
    and for everyone who holds the role there (the two owners apart), no denied
    permission is left and every allowed one is there unless an override of
    another role denies it; on other channels, and for those who do not hold
    the role, nothing changes. *)
Theorem override_takes_effect ref rref allow_csv deny_csv db m db' :
  _set_channel_override ref rref allow_csv deny_csv db = (Ok (Done m), db') →
  let id := _resolve_channel_id ref db in
  ∃ allow deny r, _parse_perm_bitmask allow_csv = Ok allow ∧ _parse_perm_bitmask deny_csv = Ok deny
  ∧ role_of rref db = Some r
  ∧ ∀ owner ident ch,
      let held := map role_id (RoleRepo.get_identity_roles ident (Some (ch_id ch)) false db) in
      let named := map role_name (RoleRepo.get_identity_roles ident (Some (ch_id ch)) false db) in
      (ch_id ch ≠ id ∨ role_id r ∉ held →
         get_effective_permissions owner ident ch db' = get_effective_permissions owner ident ch db)
      ∧ (ch_id ch = id → role_id r ∈ held → ident ≠ owner → ROLE_CHANNEL_OWNER ∉ named → ∀ i, 0 ≤ i →
           (Z.testbit deny i = true → Z.testbit (get_effective_permissions owner ident ch db') i = false)
           ∧ (Z.testbit allow i = true →
              (∀ rid o, rid ∈ held → RoleRepo.get_all_channel_overrides id held db' !! rid = Some o →
                 Z.testbit (co_deny o) i = false) →
              Z.testbit (get_effective_permissions owner ident ch db') i = true)).
Proof.
  intros H id. apply override_done in H as (allow & deny & r & Ha & Hd & _ & Hr & Hov). fold id in Hov.
  exists allow, deny, r. split_and!; [done|done|done|]. intros owner ident ch held named.
  assert (∀ c, RoleRepo.get_identity_roles ident c false db' = RoleRepo.get_identity_roles ident c false db) as Hroles.
  { intros c. unfold RoleRepo.get_identity_roles. by rewrite (ov_roles _ _ _ _ _ _ Hov), (ov_assign _ _ _ _ _ _ Hov). }
  assert (∀ n, RoleRepo.get_by_name n db' = RoleRepo.get_by_name n db) as Hnames.
  { intros n. unfold RoleRepo.get_by_name. by rewrite (ov_roles _ _ _ _ _ _ Hov). }
  split.
  - intros Hout. unfold get_effective_permissions. rewrite Hroles, Hnames. fold held.
    by rewrite (overridden_rest _ _ _ _ _ _ (ch_id ch) held Hov Hout).
  - intros Hid Hheld Hno Hnco i Hi. pose proof (effective_bits owner ident ch db' i Hi) as Hb. cbv zeta in Hb.
    rewrite Hroles, Hnames in Hb. fold held named in Hb. rewrite !bool_decide_eq_false_2 in Hb by done. simpl in Hb.
    rewrite Hid in *. destruct (overridden_lookup _ _ _ _ _ _ held Hov Hheld) as (o & Ho & Hoa & Hod).
    apply list_elem_of_fmap in Hheld as Hx. destruct Hx as (r0 & Hr0 & Hin0).
    set (rs := RoleRepo.get_identity_roles ident (Some id) false db) in *. rewrite Hid in Hin0. fold rs in Hin0.
    split.
    + intros Hden. rewrite Hb. unfold spec_bit. apply andb_false_iff. left. apply andb_false_iff. right.
      apply negb_false_iff. simpl. apply existsb_exists. exists r0. split; [by apply list_elem_of_In|].
      rewrite <- Hr0, Ho. by rewrite Hod.
    + intros Hal Hnone. rewrite Hb. unfold spec_bit. rewrite !andb_true_iff, !orb_true_iff. split_and!.
      * right. simpl. apply existsb_exists. exists r0. split; [by apply list_elem_of_In|].
        rewrite <- Hr0, Ho. by rewrite Hoa.
      * apply negb_true_iff, not_true_iff_false. simpl. rewrite existsb_exists. intros (r1 & Hr1 & Hbit).
        destruct (RoleRepo.get_all_channel_overrides id held db' !! role_id r1) as [o1|] eqn:E1; [|done].
        rewrite (Hnone (role_id r1) o1) in Hbit; [done| |done]. apply list_elem_of_fmap. exists r1. split; [done|].
        rewrite Hid. by apply list_elem_of_In.
      * apply negb_true_iff. destruct rs; [by apply elem_of_nil in Hin0|]. simpl. by rewrite andb_false_r.
Qed.

(** ** Trust *)

(** [mirror untrust] does not keep a peer out: the row it leaves lets the peer,
    or anyone who names it, complete a new handshake, after which it is trusted
    again. *)
Theorem untrust_undone {R : RnsIdentity} {Ed : Ed25519} {K : KeyExchange} {S : Signing}
    {HL : RnsIdentityLaws R S Ed} (ctx : FederationContext) (recall : bytes → option bytes)
    (now now' : float) (fresh fresh' : Fresh) (h : string) (challenge i : bytes) (s : FedNode) (out : cli_out) (db' : DB) :
  _trust_peer h false (fn_db s) = (Ok out, db') →
  limiter_lets ctx now h 2 s → (now <= now')%F → str_true h = true → zlen (fn_pending s) < MAX_PENDING_CHALLENGES →
  zlen challenge = 32 → list_true (fr_challenge fresh) = true →
  (∃ p, peers db' !! h = Some p ∧ peer_federation_trusted p = false)
  ∧ ∃ cr pk s1 fs s2 p2,
    handle_federation_handshake ctx recall now fresh (hs_step1 h challenge) (fn_set_node (set_db db' (fn_node s)) s)
    = (Ok (Step2 (fr_challenge fresh) cr pk), s1)
    ∧ handle_federation_handshake ctx recall now' fresh'
        (hs_step3 h (id_sign i (fr_challenge fresh)) (sig_pub_bytes i)) s1 = (Ok (Step4 fs), s2)
    ∧ peers (fn_db s2) !! h = Some p2 ∧ peer_federation_trusted p2 = true.
Proof.
  intros H Hlim Hle Hh Hpend Hc Hf.
  assert (∃ p, peers db' !! h = Some p ∧ peer_federation_trusted p = false) as (p & Hp & Ht).
  { unfold _trust_peer, db_session, atomic, bind at 1, get in H. unfold bind, modify in H.
    destruct (peers (fn_db s) !! h); injection H as _ <-; simpl; rewrite lookup_insert_eq; eauto. }
  split; [eauto|].
  destruct (handshake_any_key ctx recall now now' fresh fresh' h challenge p i (fn_set_node (set_db db' (fn_node s)) s))
    as (cr & pk & s1 & fs & s2 & p2 & H1 & H2 & H3 & H4 & _); try done.
  by exists cr, pk, s1, fs, s2, p2.
Qed.

(** ** Invites *)

Lemma before_colon_colon a b : InviteManager.before_colon (colon a b) = InviteManager.before_colon a.
Proof.
  unfold colon. induction a as [|c a IH]; [done|]. simpl. destruct (decide _); [done|]. f_equal. exact IH.
Qed.

Section invite_tokens.
Context `{HH : Hashing} `{F : IdentityFile} `{HS : Signing}.

(** The token [invite create] prints can be redeemed: the part before the
    first colon is the token of the invite stored with it, unused and with the
    asked number of uses and lifetime.  That invite is for no channel, whatever
    channel the command was given: who redeems it becomes a member of the node
    and not of a private channel. *)
Theorem cli_invite_stored node_hash dir now raw channel_id max_uses hours db token code db' :
  InviteManager.before_colon raw = raw →
  _create_invite node_hash dir now raw channel_id max_uses hours db = (Ok (token, code), db') →
  ∃ inv, invites db' !! sha256_hex (str_bytes (InviteManager.before_colon token)) = Some inv
  ∧ inv_channel_id inv = None ∧ inv_uses inv = 0 ∧ inv_max_uses inv = max_uses ∧ inv_revoked inv = false
  ∧ inv_expires_at inv = Some (now + fz (hours * 3600))%F.
Proof using.
  intros Hraw. unfold _create_invite. destruct node_hash as [h|]; [|done].
  unfold db_session, atomic, bind at 1, get. destruct (invite_target channel_id db) as [dest ch].
  set (pub := if ostr_true ch then _ else _).
  match goal with |- context [bind ?m ?k db] => destruct (bind m k db) as [[r|e] s'] eqn:E end; [|done].
  intros [= -> ->]. apply bind_ok in E as ([tok th] & s1 & E1 & E2). unfold ret in E2. injection E2 as <- _ <-.
  assert (InviteManager.before_colon tok = raw) as Htok.
  { unfold InviteManager.create_invite in E1. minv. unfold InviteManager.composite.
    destruct (ostr_true dest); [|done]. destruct (ostr_true pub); by rewrite ?before_colon_colon. }
  assert (invites s1 !! sha256_hex (str_bytes raw) = Some {|
    inv_token_hash := sha256_hex (str_bytes raw); inv_channel_id := None; inv_created_by := h;
    inv_max_uses := max_uses; inv_uses := 0; inv_used_by := []; inv_used_at := [];
    inv_expires_at := Some (now + fz (hours * 3600))%F; inv_created_at := now; inv_revoked := false |}) as Hinv.
  { unfold InviteManager.create_invite in E1. minv. simpl. by rewrite lookup_insert_eq. }
  destruct (ostr_true ch && _); rewrite ?before_colon_colon, Htok, Hinv; eexists; by split_and!.
Qed.
End invite_tokens.

(** Renaming is not checked against the names there are: two channels can end
    up with one name, of which only one can then be referred to. *)
Theorem edit_duplicates_names : ∃ db db' m,
  names_unique db ∧ _edit_channel "b" (Some "a") None None None db = (Ok (Done m), db') ∧ ¬ names_unique db'.
Proof.
  set (db := set_channels (λ _, {[ "a" := demo_channel "a" ACCESS_PUBLIC false; "b" := demo_channel "b" ACCESS_PUBLIC false ]}) empty_db).
  eexists db, _, _. split_and!.
  - intros k k' c c'. unfold db. simpl. rewrite !lookup_insert_Some.
    intros [[<- <-]|[_ [<- <-]%lookup_singleton_Some]] [[<- <-]|[_ [<- <-]%lookup_singleton_Some]]; done.
  - vm_compute. reflexivity.
  - intros Hu. assert ("a" = "b"); [|done]. eapply Hu; vm_compute; reflexivity.
Qed.

(** ** Witnesses *)

Definition key_env : Envelope := Bootstrap.toy_env.

Lemma channel_ref_resolves_witness :
  ∃ m db', @_create_channel key_env (Some "n") (fz 3) "c1" [7] " news " "" "public" None false (n_db demo_public)
    = (Ok (Done m), db')
  ∧ _resolve_channel_id "news" db' = "c1" ∧ _resolve_channel_id "#news" db' = "c1".
Proof.
  eexists _, _. split; [vm_compute; reflexivity|].
  apply (@channel_ref_resolves key_env (Some "n") (fz 3) "c1" [7] " news " "" "public" None false (n_db demo_public)
    "Created channel"); [vm_compute; reflexivity|]. split; vm_compute; congruence.
Defined.

Lemma sealed_channel_ready_witness :
  ∃ db' c ct, @_create_channel key_env (Some "n") (fz 3) "c1" [7] "news" "" "private" None true (n_db demo_public)
    = (Ok (Done "Created channel [SEALED, key provisioned]"), db')
  ∧ @seal_for_origin toy_aead [5] c (Some "hi") (Some (@loaded key_env "n" db' init))
    = Ok {| c_body := None; c_encrypted_body := Some ct; c_nonce := Some [5]; c_epoch := Some 1 |}.
Proof.
  eexists. destruct (@sealed_channel_ready key_env toy_aead toy_env_laws toy_aead_laws "n" (fz 3) "c1" [7] "news" ""
    "private" None (n_db demo_public) "Created channel [SEALED, key provisioned]"
    (@_create_channel key_env (Some "n") (fz 3) "c1" [7] "news" "" "private" None true (n_db demo_public)).2 [5] "hi")
    as (c & ct & _ & _ & H & _).
  - vm_compute. reflexivity.
  - intros r Hr. by apply elem_of_nil in Hr.
  - reflexivity.
  - reflexivity.
  - exists c, ct. split; [|exact H]. vm_compute. reflexivity.
Defined.

Definition sealed_row : Message :=
  relayed_row (fz 0) "q" "c" 5 (Some "x") (fz 0) MSG_TEXT
    {| c_body := None; c_encrypted_body := Some [4]; c_nonce := Some [5]; c_epoch := Some 1 |} None None.

Lemma unseal_strands_messages_witness :
  ∃ db', @_seal_channel key_env (Some "n") (fz 9) [] "c" false boot_db = (Ok (Done "Unsealed channel. Keys deleted"), db')
  ∧ dict_get "body" (@encode_message_for_wire toy_aead sealed_row (Some (@loaded key_env "n" db' init)) false)
    = Some (VStr "[encrypted - key unavailable]").
Proof.
  eexists. split; [vm_compute; reflexivity|].
  apply (@unseal_strands_messages key_env toy_aead "n" (fz 9) [] "c" boot_db "Unsealed channel. Keys deleted" _ sealed_row
    [5] [4]); [exact boot_keyed|vm_compute; reflexivity|reflexivity..].
Defined.

(** Everyone with the role loses a permission on the channel. *)
Definition muted_db : DB :=
  set_role_assignments (λ _, [demo_assignment 1 "m" "bob" None])
    (set_roles (<["m" := demo_role "m" "muted" PERM_SEND_MESSAGES]>) (n_db demo_public)).

Lemma override_takes_effect_witness :
  ∃ m db', _set_channel_override "a" "muted" "" "send_messages, SEND_MEDIA" muted_db = (Ok (Done m), db')
  ∧ get_effective_permissions "owner" "bob" (demo_channel "a" ACCESS_PUBLIC false) muted_db <> 0
  ∧ Z.testbit (get_effective_permissions "owner" "bob" (demo_channel "a" ACCESS_PUBLIC false) db') 0 = false.
Proof.
  eexists _, _. split; [vm_compute; reflexivity|]. split; [vm_compute; congruence|].
  destruct (override_takes_effect "a" "muted" "" "send_messages, SEND_MEDIA" muted_db "Override created"
    (_set_channel_override "a" "muted" "" "send_messages, SEND_MEDIA" muted_db).2) as (al & de & r & _ & Hd & Hr & H).
  - vm_compute. reflexivity.
  - vm_compute in Hd. injection Hd as <-. vm_compute in Hr. injection Hr as <-.
    destruct (H "owner" "bob" (demo_channel "a" ACCESS_PUBLIC false)) as [_ H2].
    apply H2; [vm_compute; reflexivity|vm_compute; by left|done|vm_compute; intros [Hx|Hx]%elem_of_cons; [done|by apply elem_of_nil in Hx]|done|reflexivity].
Defined.

Lemma cli_invite_stored_witness :
  ∃ token code db' inv, @_create_invite toy_hashing toy_idfile toy_signing (Some "n") ∅ (fz 5) "ab" (Some "a") 3 2
      (n_db demo_public) = (Ok (token, code), db')
  ∧ invites db' !! @sha256_hex toy_hashing (str_bytes "ab") = Some inv ∧ inv_channel_id inv = None.
Proof.
  destruct (@cli_invite_stored toy_hashing toy_idfile toy_signing (Some "n") ∅ (fz 5) "ab" (Some "a") 3 2
    (n_db demo_public) "ab" None
    (@_create_invite toy_hashing toy_idfile toy_signing (Some "n") ∅ (fz 5) "ab" (Some "a") 3 2 (n_db demo_public)).2)
    as (inv & H1 & H2 & _).
  - reflexivity.
  - vm_compute. reflexivity.
  - eexists "ab", None, _, inv. split; [vm_compute; reflexivity|]. split; [exact H1|exact H2].
Defined.
