(* ===== verification/Discovery.v ===== *)
(** * Announces and key rotation ([hokora/core/announce.py],
      [federation/peering.py], [federation/key_rotation.py],
      [federation/channel_rotation_auth.py], [channel rotate-rns-key] of
      [cli/channel.py])

    A node announces its channels; others keep a table of the peers they heard
    of, wake mirrors, hand over queued keys and follow the rotation of a
    channel's identity, which both identities sign.  The coroutines that the
    announce handler schedules run in the order it schedules them. *)

From S2P Require Import Prelude Constants Models Queries Permissions RateLimit Ban Sealed Sequencer Message Ingest Wire Verification History Epoch Invites InviteCodes Session Live Bootstrap Roles FedAuth FedPush Mirror Metadata Channels Operator.

Definition _PEER_TTL_SECONDS : Z := 24 * 3600.
Definition KEY_ROTATION_GRACE_PERIOD : Z := 48 * 3600.

(** ** The grace window *)

Definition is_within_grace (grace_end : option float) (now : float) : bool :=
  match grace_end with Some g => flt now g | None => false end.

Definition matches_identity (current_identity_hash rotation_old_hash : option string)
    (rotation_grace_end : option float) (candidate_hash : string) (now : float) : bool :=
  if negb (str_true candidate_hash) then false
  else if ostr_true current_identity_hash && bool_decide (Some candidate_hash = current_identity_hash) then true
  else ostr_true rotation_old_hash && bool_decide (Some candidate_hash = rotation_old_hash)
       && is_within_grace rotation_grace_end now.

(** What [_log_identity_mismatch] logs about an announce of a channel. *)
Inductive identity_log := LogNothing | LogMismatch (grace_active : bool) | LogTolerated.

Definition _log_identity_mismatch (now : float) (channel_id announcer_hash : string) (db : DB) : identity_log :=
  match channels db !! channel_id with
  | None => LogNothing
  | Some c =>
      if negb (ostr_true (ch_identity_hash c)) then LogNothing
      else if negb (matches_identity (ch_identity_hash c) (ch_rotation_old_hash c) (ch_rotation_grace_end c)
                      announcer_hash now)
      then LogMismatch (is_within_grace (ch_rotation_grace_end c) now)
      else if ostr_true (ch_rotation_old_hash c) && bool_decide (Some announcer_hash = ch_rotation_old_hash c)
      then LogTolerated else LogNothing
  end.

(** ** Announcements *)

Section announcements.
Context `{HP : Msgpack} `{HR : RnsIdentity} `{HS : Signing}.
(** [RNS.Identity.recall]: the identity of a destination hash. *)
Context (recall : bytes → option bytes).

Definition type_is (t : string) (d : dict string val) : bool :=
  match dict_get "type" d with Some (VStr s) => bool_decide (s = t) | _ => false end.

Definition parse_announce (app_data : bytes) : option (dict string val) :=
  match unpackb app_data with
  | Some (VDict data) =>
      if type_is "channel" data || type_is "profile" data then Some data
      else
        match dict_get "type" data, dict_get "payload" data with
        | (None | Some VNone), Some (VBytes p) =>
            match unpackb p with
            | Some (VDict inner) =>
                if type_is "key_rotation" inner
                then Some [("type", VStr "key_rotation"); ("envelope", VDict data); ("payload", VDict inner)]
                else None
            | _ => None
            end
        | _, _ => None
        end
  | _ => None
  end.

Definition verify_rotation (announce_data : bytes) : option (dict string val) :=
  match unpackb announce_data with
  | Some (VDict data) =>
      match dict_get "payload" data, dict_get "old_signature" data, dict_get "new_signature" data with
      | Some (VBytes payload_bytes), Some (VBytes old_sig), Some (VBytes new_sig) =>
          match unpackb payload_bytes with
          | Some (VDict payload) =>
              match dict_get "old_hash" payload, dict_get "new_hash" payload with
              | Some (VStr old_hash), Some (VStr new_hash) =>
                  match fromhex (chars_of old_hash) ≫= recall, fromhex (chars_of new_hash) ≫= recall with
                  | Some old_identity, Some new_identity =>
                      if negb (id_validate old_identity old_sig payload_bytes) then None
                      else if negb (id_validate new_identity new_sig payload_bytes) then None
                      else Some payload
                  | _, _ => None
                  end
              | _, _ => None
              end
          | _ => None
          end
      | _, _, _ => None
      end
  | _ => None
  end.

(** ** Initiating a rotation *)

(** [_pending_rotations]: the two identities, and the ends of the grace. *)
Record Rotation := { rot_old : bytes; rot_new : bytes; rot_timestamp : float; rot_grace_end : float }.
Definition KeyRotationManager : Type := dict string Rotation.

Definition rotation_payload (now : float) (channel_id : string) (old_identity new_identity : bytes) : dict string val :=
  [("type", VStr "key_rotation"); ("channel_id", VStr channel_id); ("old_hash", VStr (IdentityManager.hexhash old_identity));
   ("new_hash", VStr (IdentityManager.hexhash new_identity)); ("timestamp", VFloat now); ("grace_period", VInt KEY_ROTATION_GRACE_PERIOD)].

Definition initiate_rotation (now : float) (channel_id : string) (old_identity new_identity : bytes)
    : M KeyRotationManager bytes :=
  let! payload_bytes := of_res (match packb (VDict (rotation_payload now channel_id old_identity new_identity)) with
                                | Some b => Ok b | None => Raise (Exn ValueError "cannot serialize") end) in
  let! announce_data := of_res (match packb (VDict [("payload", VBytes payload_bytes);
                                                    ("old_signature", VBytes (id_sign old_identity payload_bytes));
                                                    ("new_signature", VBytes (id_sign new_identity payload_bytes))]) with
                                | Some b => Ok b | None => Raise (Exn ValueError "cannot serialize") end) in
  modify (List.filter (λ kv, negb (fle (rot_grace_end kv.2) now))) ;;
  modify (dict_set channel_id {| rot_old := old_identity; rot_new := new_identity; rot_timestamp := now;
                                 rot_grace_end := (now + fz KEY_ROTATION_GRACE_PERIOD)%F |}) ;;
  ret announce_data.

Definition is_in_grace_period (now : float) (channel_id : string) : M KeyRotationManager bool :=
  let! d := get in
  match dict_get channel_id d with
  | None => ret false
  | Some r => if fle (rot_grace_end r) now then modify (dict_del channel_id) ;; ret false else ret true
  end.

(** ** Following a rotation *)

Definition set_rotation (old_hash new_hash : string) (grace_end : float) (c : Channel) : Channel := {|
  ch_id := ch_id c; ch_name := ch_name c; ch_description := ch_description c; ch_category_id := ch_category_id c;
  ch_position := ch_position c; ch_access_mode := ch_access_mode c; ch_slowmode := ch_slowmode c;
  ch_max_retention := ch_max_retention c; ch_latest_seq := ch_latest_seq c; ch_identity_hash := Some new_hash;
  ch_destination_hash := ch_destination_hash c; ch_created_at := ch_created_at c; ch_sealed := ch_sealed c;
  ch_rotation_old_hash := Some old_hash; ch_rotation_grace_end := Some grace_end |}.

(** [int(payload.get("grace_period", 48 * 3600))] *)
Definition rotation_grace (payload : dict string val) : res Z :=
  match dict_get "grace_period" payload with None => Ok (48 * 3600) | Some v => py_int v end.

Definition _apply_rotation (now : float) (payload : dict string val) : M DB unit :=
  let! ts := of_res (get_num "timestamp" payload) in
  let! grace_period := of_res (rotation_grace payload) in
  match get_str "channel_id" None payload, get_str "old_hash" None payload, get_str "new_hash" None payload with
  | Some channel_id, Some old_hash, Some new_hash =>
      if negb (str_true channel_id && str_true old_hash && str_true new_hash) then ret tt
      else if flt (now + fz 300)%F ts || flt ts (now - fz (30 * 86400))%F then ret tt
      else
        atomic (λ s0 _, s0)
          (let! db := get in
           match channels db !! channel_id with
           | None => ret tt
           | Some c =>
               if negb (bool_decide (ch_identity_hash c = Some old_hash)) then ret tt
               else if bool_decide (ch_identity_hash c = Some new_hash) then ret tt
               else modify (set_channels (<[channel_id := set_rotation old_hash new_hash (now + fz grace_period)%F c]>))
           end)
  | _, _, _ => ret tt
  end.
End announcements.

(** ** Peer discovery *)

Record DiscoveredPeer := { dp_node_name : val; dp_channels : list val; dp_first_seen : float; dp_last_seen : float }.

Record PeerDiscovery := {
  pd_peers : dict string DiscoveredPeer;         (* [_peers] *)
  pd_mirrors : MirrorManager;
  pd_db : DB;
}.
Definition pd_set_peers (f : dict string DiscoveredPeer → dict string DiscoveredPeer) (s : PeerDiscovery) : PeerDiscovery :=
  {| pd_peers := f (pd_peers s); pd_mirrors := pd_mirrors s; pd_db := pd_db s |}.
Definition pd_set_mirrors (g : MirrorManager) (s : PeerDiscovery) : PeerDiscovery :=
  {| pd_peers := pd_peers s; pd_mirrors := g; pd_db := pd_db s |}.
Definition pd_set_db (db : DB) (s : PeerDiscovery) : PeerDiscovery :=
  {| pd_peers := pd_peers s; pd_mirrors := pd_mirrors s; pd_db := db |}.

Definition _evict_stale_peers (now : float) (d : dict string DiscoveredPeer) : dict string DiscoveredPeer :=
  List.filter (λ kv, negb (flt (fz _PEER_TTL_SECONDS) (now - dp_last_seen kv.2)%F)) d.

(** [v in l]; values are compared by structure. *)
Definition val_in (v : val) (l : list val) : bool := existsb (λ w, bool_decide (val_tree w = val_tree v)) l.

Definition heard (now : float) (channel_name : val) (p : DiscoveredPeer) : DiscoveredPeer := {|
  dp_node_name := dp_node_name p;
  dp_channels := if val_true channel_name && negb (val_in channel_name (dp_channels p))
                 then dp_channels p ++ [channel_name] else dp_channels p;
  dp_first_seen := dp_first_seen p; dp_last_seen := now |}.

Definition _handle_channel_announce (now : float) (destination_hash : bytes) (data : dict string val)
    : M PeerDiscovery unit :=
  modify (pd_set_peers (_evict_stale_peers now)) ;;
  let peer_hash := hexrep destination_hash in
  let node_name := default (VStr "Unknown") (dict_get "node" data) in
  let channel_name := default (VStr "") (dict_get "name" data) in
  modify (pd_set_peers (λ d,
    let p := match dict_get peer_hash d with
             | Some p => p
             | None => {| dp_node_name := node_name; dp_channels := []; dp_first_seen := now; dp_last_seen := now |}
             end in
    dict_set peer_hash (heard now channel_name p) d)).

Section discovery.
Context `{HP : Msgpack} `{HS : Signing} `{E : Envelope} `{PK : PeerKeys}.
Context (recall : bytes → option bytes).
(** Whether the daemon gave it a database and a mirror manager; the node's
    hash, the printed form of exceptions, and what RNS answers to mirrors. *)
Context (with_db with_mirrors : bool) (node_hash : string) (repr : exn → string)
  (rns : string → rns_answer) (u : string → float).

Definition pd_db_op {A} (m : M DB A) : M PeerDiscovery A := lift pd_db pd_set_db m.

Definition _handle_key_rotation_announce (now : float) (app_data : bytes) : M PeerDiscovery unit :=
  match verify_rotation recall app_data with
  | None => ret tt
  | Some payload =>
      if negb with_db then ret tt
      else catch (pd_db_op (_apply_rotation now payload)) (λ _, ret tt)
  end.

Definition handle_announce (now : float) (destination_hash : bytes) (announced_identity : option string) (app_data : bytes)
    : M PeerDiscovery unit :=
  when with_mirrors
    (catch (lift pd_mirrors pd_set_mirrors (wake_for_hash rns u destination_hash) ;; ret tt) (λ _, ret tt)) ;;
  when (ostr_true announced_identity && with_db)
    (catch (pd_db_op (_drain_pending_sealed_distributions node_hash repr now (or_empty announced_identity))) (λ _, ret tt)) ;;
  if negb (list_true app_data) then ret tt
  else
    match parse_announce app_data with
    | None => ret tt
    | Some parsed =>
        if type_is "channel" parsed then _handle_channel_announce now destination_hash parsed
        else if type_is "key_rotation" parsed then _handle_key_rotation_announce now app_data
        else ret tt
    end.
End discovery.

(** ** The operator's rotation *)

Record Rollover := {
  ro_db : DB;
  ro_dir : gmap string bytes;                    (* the identity directory *)
  ro_announced : list (bytes * bytes);           (* destination, application data *)
}.
Definition ro_db_op {A} (m : M DB A) : M Rollover A :=
  lift ro_db (λ db s, {| ro_db := db; ro_dir := ro_dir s; ro_announced := ro_announced s |}) m.

(** The row of a rotated channel. *)
Definition set_own_rotation (new_hash new_dest : string) (old_hash : option string) (grace_end : float) (c : Channel)
    : Channel := {|
  ch_id := ch_id c; ch_name := ch_name c; ch_description := ch_description c; ch_category_id := ch_category_id c;
  ch_position := ch_position c; ch_access_mode := ch_access_mode c; ch_slowmode := ch_slowmode c;
  ch_max_retention := ch_max_retention c; ch_latest_seq := ch_latest_seq c; ch_identity_hash := Some new_hash;
  ch_destination_hash := Some new_dest; ch_created_at := ch_created_at c; ch_sealed := ch_sealed c;
  ch_rotation_old_hash := old_hash; ch_rotation_grace_end := Some grace_end |}.

Section rollover.
Context `{HP : Msgpack} `{F : IdentityFile} `{HR : RnsIdentity} `{HS : Signing} (dest_hash : bytes → string → bytes).

(** [stamp] is the decimal form of the time, [rns_up] whether RNS could be
    initialised.  The last line printed cuts the old hash, which raises when
    the row had none. *)
Definition _rotate_channel_rns_key (rns_up : bool) (now : float) (stamp : string) (new_identity : bytes)
    (channel_ref : string) : M Rollover cli_out :=
  let! s := get in
  let id := _resolve_channel_id channel_ref (ro_db s) in
  match channels (ro_db s) !! id with
  | None => ret (Refused "Channel not found in DB")
  | Some channel =>
      match ro_dir s !! channel_file id with
      | None => ret (Refused "Channel has not been registered with the network yet")
      | Some f =>
          if negb rns_up then ret (Refused "failed to initialise RNS")
          else
            match id_of_file f with
            | None => raise AttributeError "hexhash"
            | Some old_identity =>
                let! data := of_res (initiate_rotation now id old_identity new_identity []).1 in
                modify (λ s, {|
                  ro_db := ro_db s;
                  ro_dir := <[channel_file id := file_of_id new_identity]>
                              (<[String.append (channel_file id) (String.append ".pre-rotation-" stamp) := f]> (ro_dir s));
                  ro_announced := ro_announced s ++ [(dest_hash (id_public old_identity) id, data)] |}) ;;
                ro_db_op (db_session (modify (set_channels (alter
                  (set_own_rotation (IdentityManager.hexhash new_identity) (hexrep (dest_hash (id_public new_identity) id))
                     (ch_identity_hash channel) (now + fz KEY_ROTATION_GRACE_PERIOD)%F) id)))) ;;
                match ch_identity_hash channel with
                | None => raise TypeError "'NoneType' object is not subscriptable"
                | Some _ => ret (Done "Rotated RNS identity")
                end
            end
      end
  end.
End rollover.

(** ** What an announce can change *)

Definition same_channels (db db' : DB) : Prop := channels db' = channels db.
#[export] Instance same_channels_preorder : PreOrder same_channels.
Proof. split; [by intros db|]. intros a b c H1 H2. unfold same_channels in *. congruence. Qed.

Section authentic.
Context `{HP : Msgpack} `{HS : Signing} `{E : Envelope} `{PK : PeerKeys}.
Context (recall : bytes → option bytes) (with_db with_mirrors : bool) (node_hash : string) (repr : exn → string)
  (rns : string → rns_answer) (u : string → float).
Abbreviation announce := (handle_announce recall with_db with_mirrors node_hash repr rns u).

Lemma drain_channels now ident : mrel same_channels (_drain_pending_sealed_distributions node_hash repr now ident).
Proof using.
  unfold _drain_pending_sealed_distributions. mrel_step; [mrel_step|]. apply mrel_mfold; [typeclasses eauto|intros _ e].
  unfold drain_entry. mrel_step; [mrel_step|]. apply mrel_catch; [typeclasses eauto| |].
  - intros db. unfold atomic. assert (mrel same_channels (drain_tx node_hash now ident e)) as H.
    { unfold drain_tx, scalar_one_or_none, distribute_sealed_key_to_identity, check_fk, PendingSealedDistributionRepo.evict.
      repeat mrel_step; by apply mrel_modify. }
    specialize (H db). by destruct (drain_tx node_hash now ident e db) as [[] db'].
  - intros x. by apply mrel_modify.
Qed.

(** A change of a channel's row that a verified announce makes. *)
Definition rotated (now : float) (app_data : bytes) (id : string) (c c' : Channel) : Prop :=
  ∃ data payload_bytes old_sig new_sig payload old_hash new_hash po pn ts grace,
    unpackb app_data = Some (VDict data) ∧ dict_get "payload" data = Some (VBytes payload_bytes)
    ∧ dict_get "old_signature" data = Some (VBytes old_sig) ∧ dict_get "new_signature" data = Some (VBytes new_sig)
    ∧ unpackb payload_bytes = Some (VDict payload) ∧ dict_get "channel_id" payload = Some (VStr id)
    ∧ dict_get "old_hash" payload = Some (VStr old_hash) ∧ dict_get "new_hash" payload = Some (VStr new_hash)
    ∧ fromhex (chars_of old_hash) ≫= recall = Some po ∧ fromhex (chars_of new_hash) ≫= recall = Some pn
    ∧ id_validate po old_sig payload_bytes = true ∧ id_validate pn new_sig payload_bytes = true
    ∧ get_num "timestamp" payload = Ok ts ∧ flt (now + fz 300)%F ts = false ∧ flt ts (now - fz (30 * 86400))%F = false
    ∧ ch_identity_hash c = Some old_hash ∧ new_hash ≠ old_hash
    ∧ c' = set_rotation old_hash new_hash (now + fz grace)%F c.

Lemma verify_rotation_some app_data payload : verify_rotation recall app_data = Some payload →
  ∃ data payload_bytes old_sig new_sig old_hash new_hash po pn,
    unpackb app_data = Some (VDict data) ∧ dict_get "payload" data = Some (VBytes payload_bytes)
    ∧ dict_get "old_signature" data = Some (VBytes old_sig) ∧ dict_get "new_signature" data = Some (VBytes new_sig)
    ∧ unpackb payload_bytes = Some (VDict payload)
    ∧ dict_get "old_hash" payload = Some (VStr old_hash) ∧ dict_get "new_hash" payload = Some (VStr new_hash)
    ∧ fromhex (chars_of old_hash) ≫= recall = Some po ∧ fromhex (chars_of new_hash) ≫= recall = Some pn
    ∧ id_validate po old_sig payload_bytes = true ∧ id_validate pn new_sig payload_bytes = true.
Proof using.
  unfold verify_rotation. intros H.
  repeat match type of H with
  | match ?x with _ => _ end = _ => destruct x eqn:?; try done
  end.
  simplify_eq. repeat match goal with H : negb _ = false |- _ => apply negb_false_iff in H end.
  eexists _, _, _, _, _, _, _, _. by split_and!.
Qed.

(** The only rows a verified payload changes. *)
Lemma apply_rotation_rows now payload db r db' id : _apply_rotation now payload db = (r, db') →
  channels db' !! id = channels db !! id
  ∨ ∃ c old_hash new_hash ts grace, channels db !! id = Some c ∧ dict_get "channel_id" payload = Some (VStr id)
    ∧ dict_get "old_hash" payload = Some (VStr old_hash) ∧ dict_get "new_hash" payload = Some (VStr new_hash)
    ∧ get_num "timestamp" payload = Ok ts ∧ flt (now + fz 300)%F ts = false ∧ flt ts (now - fz (30 * 86400))%F = false
    ∧ ch_identity_hash c = Some old_hash ∧ new_hash ≠ old_hash
    ∧ channels db' !! id = Some (set_rotation old_hash new_hash (now + fz grace)%F c).
Proof using.
  unfold _apply_rotation, bind at 1, of_res. destruct (get_num "timestamp" payload) as [ts|]; [|intros [= _ <-]; by left].
  unfold bind at 1. destruct (rotation_grace payload) as [g|]; [|intros [= _ <-]; by left].
  assert (∀ k v, get_str k None payload = Some v → dict_get k payload = Some (VStr v)) as Hstr.
  { intros k v. unfold get_str. destruct (dict_get k payload) as [[]|]; congruence. }
  destruct (get_str "channel_id" None payload) as [ch|] eqn:E1; [|intros [= _ <-]; by left].
  destruct (get_str "old_hash" None payload) as [oh|] eqn:E2; [|intros [= _ <-]; by left].
  destruct (get_str "new_hash" None payload) as [nh|] eqn:E3; [|intros [= _ <-]; by left].
  destruct (negb _); [intros [= _ <-]; by left|].
  destruct (flt (now + fz 300)%F ts) eqn:Et1; [intros [= _ <-]; by left|].
  destruct (flt ts (now - fz (30 * 86400))%F) eqn:Et2; [intros [= _ <-]; by left|].
  cbn [orb]. unfold atomic, bind, get, ret. cbn beta iota. destruct (channels db !! ch) as [c|] eqn:Ec; [|intros [= _ <-]; by left].
  case_bool_decide as Eold; [|intros [= _ <-]; by left]. simpl.
  case_bool_decide as Enew; [intros [= _ <-]; by left|]. intros [= _ <-]. simpl.
  destruct (decide (id = ch)) as [->|Hne]; [|left; by rewrite lookup_insert_ne].
  right. exists c, oh, nh, ts, g. rewrite lookup_insert_eq. split_and!; auto. congruence.
Qed.

(** Whatever else an announce triggers leaves the channels and the table of
    peers as they are; what its application data asks for comes last. *)
Lemma announce_prefix now dest announced app_data s : ∃ s1,
  announce now dest announced app_data s
  = (if negb (list_true app_data) then ret tt
     else match parse_announce app_data with
          | None => ret tt
          | Some parsed =>
              if type_is "channel" parsed then _handle_channel_announce now dest parsed
              else if type_is "key_rotation" parsed then _handle_key_rotation_announce recall with_db now app_data
              else ret tt
          end) s1
  ∧ same_channels (pd_db s) (pd_db s1) ∧ pd_peers s1 = pd_peers s.
Proof using.
  unfold handle_announce.
  set (R := λ s s' : PeerDiscovery, same_channels (pd_db s) (pd_db s') ∧ pd_peers s' = pd_peers s).
  assert (PreOrder R) as HPre.
  { unfold R. split; [by intros x|]. intros x y z [H1 E1] [H2 E2]. split; [by etrans|congruence]. }
  destruct (swallow_run R with_mirrors (lift pd_mirrors pd_set_mirrors (wake_for_hash rns u dest) ;; ret tt) s)
    as (s1 & E1 & H1).
  { apply mrel_bind; [done| |intros ?; by apply mrel_ret].
    by apply mrel_lift with (Rc := λ _ _, True); [intros ?|]. }
  rewrite (bind_run_ok _ _ _ _ _ E1).
  destruct (swallow_run R (ostr_true announced && with_db)
    (pd_db_op (_drain_pending_sealed_distributions node_hash repr now (or_empty announced))) s1) as (s2 & E2 & H2).
  { apply mrel_lift with (Rc := same_channels); [apply drain_channels|by intros ? ? ?]. }
  rewrite (bind_run_ok _ _ _ _ _ E2). exists s2. split; [done|]. assert (R s s2) as [] by (by etrans). done.
Qed.

(** C12: An announce, whoever sends it, changes nothing of a channel except by
    a rotation that both identities signed: the announced data holds a payload
    that names the channel, its recorded identity as the old one and another as
    the new, dated within the window, with a valid signature of the identity
    recalled for each; and then only the recorded identity and the grace window
    change. *)
Theorem rotation_authentic now dest announced app_data s r s' id :
  announce now dest announced app_data s = (r, s') →
  channels (pd_db s') !! id = channels (pd_db s) !! id
  ∨ ∃ c c', channels (pd_db s) !! id = Some c ∧ channels (pd_db s') !! id = Some c' ∧ rotated now app_data id c c'.
Proof using.
  destruct (announce_prefix now dest announced app_data s) as (s2 & -> & Hs2 & _).
  rewrite <- Hs2. destruct (negb _); [intros [= _ <-]; by left|].
  destruct (parse_announce app_data) as [parsed|]; [|intros [= _ <-]; by left].
  destruct (type_is "channel" parsed); [intros [= _ <-]; by left|].
  destruct (type_is "key_rotation" parsed); [|intros [= _ <-]; by left].
  unfold _handle_key_rotation_announce. destruct (verify_rotation recall app_data) as [payload|] eqn:Ev; [|intros [= _ <-]; by left].
  destruct (negb with_db); [intros [= _ <-]; by left|].
  unfold catch, pd_db_op, lift. destruct (_apply_rotation now payload (pd_db s2)) as [x db'] eqn:Ea.
  assert (pd_db s' = db' → channels (pd_db s') !! id = channels (pd_db s2) !! id ∨ ∃ c c',
    channels (pd_db s2) !! id = Some c ∧ channels (pd_db s') !! id = Some c' ∧ rotated now app_data id c c') as Hgoal.
  2:{ destruct x; intros [= _ <-]; by apply Hgoal. }
  intros ->. apply (apply_rotation_rows now payload _ _ _ id) in Ea
    as [|(c & oh & nh & ts & g & Hc & P1 & P2 & P3 & P4 & P5 & P6 & P7 & P8 & P9)]; [by left|].
  apply verify_rotation_some in Ev as (data & pb & so & sn & oh' & nh' & po & pn & V1 & V2 & V3 & V4 & V5 & V6 & V7 & V8 & V9 & V10 & V11).
  simplify_eq. right. eexists c, _. split_and!; [done|done|].
  exists data, pb, so, sn, payload, oh', nh', po, pn, ts, g. by split_and!.
Qed.

Lemma val_in_heard now name p : negb (bool_decide (name = EmptyString)) = true →
  val_in (VStr name) (dp_channels (heard now (VStr name) p)) = true.
Proof using.
  intros Hname. unfold heard, val_true, str_true. cbn [dp_channels]. rewrite Hname. cbn [andb].
  destruct (val_in (VStr name) (dp_channels p)) eqn:Ev; [exact Ev|]. unfold val_in. cbn [negb].
  rewrite existsb_app. simpl. by rewrite bool_decide_true, orb_true_r.
Qed.

(** What a node announces of a channel is what the others learn: given to
    [handle_announce], each announcement of [announce_channels] enters the
    table under the hash of the channel's destination, seen now, with the
    channel's name, and a node heard for the first time under the name it gives
    itself; the table then holds no peer that was silent for a day. *)
Theorem announce_discovered `{!MsgpackLaws HP} `{F : IdentityFile} `{HI : RnsIdentity} now fresh node_name prop n sent n' now' announced d b s :
  announce_channels now fresh node_name prop n = (Ok sent, n') → (d, b) ∈ sent → list_true b = true →
  ∃ id c s' p, (id, c) ∈ chn_channels n' ∧ IdentityManager.get_destination id (chn_ids n') = Some d
  ∧ announce now' d announced b s = (Ok tt, s') ∧ dict_get (hexrep d) (pd_peers s') = Some p
  ∧ dp_last_seen p = now' ∧ (ch_name c ≠ "" → val_in (VStr (ch_name c)) (dp_channels p) = true)
  ∧ (dict_get (hexrep d) (_evict_stale_peers now' (pd_peers s)) = None →
       dp_node_name p = VStr node_name ∧ dp_first_seen p = now')
  ∧ ∀ k q, (k, q) ∈ pd_peers s' → (now' - dp_last_seen q <= fz _PEER_TTL_SECONDS)%F.
Proof using.
  intros Hsend Hin Hb. destruct (announce_channels_elem _ _ _ _ _ _ _ _ _ Hsend Hin) as (h & [id c] & Hmem & Hd & Hpack).
  destruct (announce_prefix now' d announced b s) as (s1 & -> & _ & Hpeers).
  exists id, c. rewrite Hb.
  assert (parse_announce b = Some (channel_announce now node_name prop h d (id, c))) as ->.
  { unfold parse_announce. by rewrite (unpack_pack _ _ Hpack). }
  assert (type_is "channel" (channel_announce now node_name prop h d (id, c)) = true) as -> by done. cbn [negb].
  unfold _handle_channel_announce, bind, modify. cbn beta iota zeta.
  eexists _, _. split; [done|]. split; [done|]. split; [reflexivity|]. simpl. rewrite Hpeers.
  split; [apply dict_get_set_eq|]. split; [done|]. split_and!.
  - intros Hname. apply val_in_heard. by rewrite bool_decide_false.
  - by intros ->.
  - intros k q [[= -> ->]|H]%elem_of_dict_set; simpl.
    + change (fz _PEER_TTL_SECONDS) with (QArith_base.Qmake 86400 1). Lqa.lra.
    + unfold _evict_stale_peers in H. apply list_elem_of_In, filter_In in H as [_ H]. apply negb_true_iff in H. by apply flt_false in H.
Qed.

(** ** A rotation reaches another node *)

Section followed.
Context `{!MsgpackLaws HP} `{HI : RnsIdentity} `{!SigningLaws HS}.

Lemma initiate_rotation_data now id old new pending data pending' :
  initiate_rotation now id old new pending = (Ok data, pending') →
  ∃ pb, unpackb pb = Some (VDict (rotation_payload now id old new))
  ∧ unpackb data = Some (VDict [("payload", VBytes pb); ("old_signature", VBytes (id_sign old pb));
                                ("new_signature", VBytes (id_sign new pb))]).
Proof using MsgpackLaws0.
  unfold initiate_rotation, of_res. intros (pb & s1 & E1 & (b & s2 & E2 & H)%bind_ok)%bind_ok.
  destruct (packb (VDict (rotation_payload now id old new))) as [pb'|] eqn:Ep; [|done]. injection E1 as -> ->.
  destruct (packb (VDict [("payload", VBytes pb); _; _])) as [b'|] eqn:Eb; [|done]. injection E2 as -> ->.
  injection H as -> _. exists pb. split; by apply unpack_pack.
Qed.

(** What [recall] answers under an identity's own hash is, if anything, that
    identity. *)
Definition recalls_itself (i : bytes) : Prop :=
  let h := truncated_hash (id_public i) in
  h ≠ [] ∧ bytes_ok h ∧ (recall h = None ∨ recall h = Some (id_public i)).
Definition known (i : bytes) : bool := bool_decide (is_Some (recall (truncated_hash (id_public i)))).

Lemma recalls_hexhash i : recalls_itself i →
  fromhex (chars_of (IdentityManager.hexhash i)) ≫= recall = (if known i then Some (id_public i) else None)
  ∧ str_true (IdentityManager.hexhash i) = true.
Proof using.
  intros (Hne & Hok & Hr). unfold IdentityManager.hexhash, hexrep, known. rewrite chars_string, fromhex_hex by done. split.
  - simpl. destruct Hr as [-> | ->]; [by rewrite bool_decide_false by (by intros [])|by rewrite bool_decide_true].
  - destruct (truncated_hash (id_public i)) as [|x l]; [done|]. done.
Qed.

Lemma verify_initiated now id old new pending data pending' :
  initiate_rotation now id old new pending = (Ok data, pending') → recalls_itself old → recalls_itself new →
  verify_rotation recall data = (if known old && known new then Some (rotation_payload now id old new) else None)
  ∧ ∃ d, parse_announce data = Some d ∧ type_is "channel" d = false ∧ type_is "key_rotation" d = true.
Proof using MsgpackLaws0 SigningLaws0.
  intros (pb & Ep & Ed)%initiate_rotation_data [Ho _]%recalls_hexhash [Hn _]%recalls_hexhash.
  unfold verify_rotation, parse_announce. rewrite Ed.
  set (env := [("payload", VBytes pb); ("old_signature", _); ("new_signature", _)]).
  change (dict_get "payload" env) with (Some (VBytes pb)).
  change (dict_get "old_signature" env) with (Some (VBytes (id_sign old pb))).
  change (dict_get "new_signature" env) with (Some (VBytes (id_sign new pb))).
  change (dict_get "type" env) with (@None val). change (type_is _ env) with false. cbn beta iota delta [orb]. rewrite Ep. cbn beta iota.
  change (dict_get "old_hash" _) with (Some (VStr (IdentityManager.hexhash old))).
  change (dict_get "new_hash" _) with (Some (VStr (IdentityManager.hexhash new))).
  cbn beta iota. rewrite Ho, Hn. split; [|by eexists].
  destruct (known old), (known new); cbn beta iota; by rewrite ?sign_validates.
Qed.

(** The rotation as another node records it, received at [now']. *)
Definition followed (now' : float) (old new : bytes) (c : Channel) : Channel :=
  set_rotation (IdentityManager.hexhash old) (IdentityManager.hexhash new) (now' + fz KEY_ROTATION_GRACE_PERIOD)%F c.

Lemma apply_initiated now now' id old new c db :
  id ≠ "" → recalls_itself old → recalls_itself new → IdentityManager.hexhash old ≠ IdentityManager.hexhash new →
  flt (now' + fz 300)%F now = false → flt now (now' - fz (30 * 86400))%F = false →
  channels db !! id = Some c → ch_identity_hash c = Some (IdentityManager.hexhash old) →
  _apply_rotation now' (rotation_payload now id old new) db
  = (Ok tt, set_channels (<[id := followed now' old new c]>) db).
Proof using.
  intros Hid [_ Ho]%recalls_hexhash [_ Hn]%recalls_hexhash Hne Ht1 Ht2 Hc Hident.
  unfold _apply_rotation. set (p := rotation_payload now id old new).
  change (get_num "timestamp" p) with (Ok now). change (rotation_grace p) with (Ok KEY_ROTATION_GRACE_PERIOD).
  change (get_str "channel_id" None p) with (Some id).
  change (get_str "old_hash" None p) with (Some (IdentityManager.hexhash old)).
  change (get_str "new_hash" None p) with (Some (IdentityManager.hexhash new)).
  unfold of_res, bind at 1. unfold bind at 1. rewrite Ho, Hn, Ht1, Ht2. unfold str_true. rewrite bool_decide_false by done.
  cbn [negb andb orb]. unfold atomic, bind, get. rewrite Hc, Hident, bool_decide_true by done. cbn [negb].
  rewrite bool_decide_false by congruence. done.
Qed.
End followed.
End authentic.

Section rotations.
Context `{HP : Msgpack} `{HS : Signing} `{E : Envelope} `{PK : PeerKeys} `{HI : RnsIdentity}.
Context (recall : bytes → option bytes) (with_mirrors : bool) (node_hash : string) (repr : exn → string)
  (rns : string → rns_answer) (u : string → float).

(** C13: When a rotation reaches another node.  What [initiate_rotation] signs,
    announced within the window to a node that has a database and records the
    old identity for the channel, and never the new one, is followed exactly
    when [RNS.Identity.recall] answers with both identities under their own
    hashes.  Then the new identity becomes the recorded one, no other channel
    changes, and from then on an announce of the new identity is in order, one
    of the old is tolerated for 48 hours from the receipt and reported as a
    mismatch afterwards.  Otherwise, as when [recall] looks a hash up among
    destinations, which is what RNS documents of the call the code makes, the
    announce is dropped: no channel changes, and every announce of the new
    identity is reported as a mismatch. *)
Theorem rotation_followed `{!MsgpackLaws HP} `{!SigningLaws HS} now now' id old new pending data pending' c dest announced s :
  initiate_rotation now id old new pending = (Ok data, pending') → list_true data = true → id ≠ "" →
  recalls_itself recall old → recalls_itself recall new → IdentityManager.hexhash old ≠ IdentityManager.hexhash new →
  flt (now' + fz 300)%F now = false → flt now (now' - fz (30 * 86400))%F = false →
  channels (pd_db s) !! id = Some c → ch_identity_hash c = Some (IdentityManager.hexhash old) →
  ch_rotation_old_hash c ≠ Some (IdentityManager.hexhash new) →
  ∃ s', handle_announce recall true with_mirrors node_hash repr rns u now' dest announced data s = (Ok tt, s')
  ∧ if known recall old && known recall new then
      channels (pd_db s') = <[id := followed now' old new c]> (channels (pd_db s))
      ∧ ∀ t, _log_identity_mismatch t id (IdentityManager.hexhash new) (pd_db s') = LogNothing
        ∧ _log_identity_mismatch t id (IdentityManager.hexhash old) (pd_db s')
          = if flt t (now' + fz KEY_ROTATION_GRACE_PERIOD)%F then LogTolerated else LogMismatch false
    else
      channels (pd_db s') = channels (pd_db s)
      ∧ ∀ t, _log_identity_mismatch t id (IdentityManager.hexhash new) (pd_db s')
        = LogMismatch (is_within_grace (ch_rotation_grace_end c) t).
Proof using.
  intros Hi Hdata Hid Ho Hn Hne Ht1 Ht2 Hc Hident Hback.
  destruct (announce_prefix recall true with_mirrors node_hash repr rns u now' dest announced data s) as (s1 & -> & Hsame & _).
  destruct (verify_initiated recall _ _ _ _ _ _ _ Hi Ho Hn) as (Hv & d & -> & -> & ->).
  destruct (recalls_hexhash recall _ Ho) as [_ To], (recalls_hexhash recall _ Hn) as [_ Tn].
  rewrite Hdata. unfold _handle_key_rotation_announce. rewrite Hv. cbn [negb]. destruct (known recall old && known recall new).
  - unfold catch, pd_db_op, lift. rewrite (apply_initiated recall now now' id old new c) by (done || by rewrite Hsame).
    eexists. split; [reflexivity|]. split; [simpl; by rewrite Hsame|]. intros t.
    unfold _log_identity_mismatch, matches_identity. simpl. rewrite lookup_insert_eq. simpl.
    rewrite To, Tn. cbn [negb andb].
    rewrite (bool_decide_true (Some _ = Some (IdentityManager.hexhash new))) by done. cbn [negb].
    rewrite !(bool_decide_false (Some (IdentityManager.hexhash _) = Some (IdentityManager.hexhash _))) by congruence.
    split; [done|]. rewrite bool_decide_true by done. cbn [andb]. by destruct (flt t _).
  - exists s1. split; [done|]. split; [exact Hsame|]. intros t. unfold _log_identity_mismatch, matches_identity.
    rewrite Hsame, Hc, Hident. cbn [ostr_true]. rewrite To, Tn. cbn [negb andb].
    rewrite (bool_decide_false (Some _ = Some (IdentityManager.hexhash old))) by congruence.
    rewrite (bool_decide_false (Some _ = ch_rotation_old_hash c)) by congruence. by rewrite andb_false_r.
Qed.
End rotations.


Section own_rotation.
Context `{HP : Msgpack} `{F : IdentityFile} `{HR : RnsIdentity} `{HS : Signing} (dest_hash : bytes → string → bytes).

(** What the operator's rotation leaves behind. *)
Lemma rotate_rns_key_run now stamp new ref s id c f old data pend :
  _resolve_channel_id ref (ro_db s) = id → channels (ro_db s) !! id = Some c → ro_dir s !! channel_file id = Some f →
  id_of_file f = Some old → initiate_rotation now id old new [] = (Ok data, pend) →
  _rotate_channel_rns_key dest_hash true now stamp new ref s
  = (match ch_identity_hash c with Some _ => Ok (Done "Rotated RNS identity")
     | None => Raise (Exn TypeError "'NoneType' object is not subscriptable") end,
     {| ro_db := set_channels (alter (set_own_rotation (IdentityManager.hexhash new) (hexrep (dest_hash (id_public new) id))
                   (ch_identity_hash c) (now + fz KEY_ROTATION_GRACE_PERIOD)%F) id) (ro_db s);
        ro_dir := <[channel_file id := file_of_id new]>
                    (<[String.append (channel_file id) (String.append ".pre-rotation-" stamp) := f]> (ro_dir s));
        ro_announced := ro_announced s ++ [(dest_hash (id_public old) id, data)] |}).
Proof using.
  intros Hid Hc Hf Hold Hi. unfold _rotate_channel_rns_key, bind at 1, get. rewrite Hid, Hc, Hf. cbn [negb]. rewrite Hold.
  unfold of_res, bind at 1. rewrite Hi. cbn [fst]. unfold bind, modify. cbn beta iota.
  unfold ro_db_op, lift, db_session, atomic, bind, ret. simpl. by destruct (ch_identity_hash c).
Qed.

(** [rotate-rns-key] completes: whatever it prints at the end, the old
    identity's destination announced the rotation that both identities signed,
    and the node, when it is next started over the directory and the database
    it leaves, serves the channel under the new identity, with the destination
    derived from it recorded in the row, while no other channel changed. *)
Theorem rotated_identity_served `{!IdentityFileLaws F} now stamp new ref s id c f old data pend fresh (n : Node) :
  _resolve_channel_id ref (ro_db s) = id → channels (ro_db s) !! id = Some c → ro_dir s !! channel_file id = Some f →
  id_of_file f = Some old → initiate_rotation now id old new [] = (Ok data, pend) →
  channels_keyed (ro_db s) → readable (IdentityManager.start (ro_dir s)) →
  let s1 := (_rotate_channel_rns_key dest_hash true now stamp new ref s).2 in
  ro_announced s1 = ro_announced s ++ [(dest_hash (id_public old) id, data)]
  ∧ (∀ id', id' ≠ id → channels (ro_db s1) !! id' = channels (ro_db s) !! id')
  ∧ ∃ s2 c2, start_channels dest_hash fresh
      {| chn_node := set_db (ro_db s1) n; chn_ids := IdentityManager.start (ro_dir s1); chn_channels := [] |} = (Ok tt, s2)
    ∧ IdentityManager.get_identity id (chn_ids s2) = Some new
    ∧ IdentityManager.get_destination id (chn_ids s2) = Some (dest_hash (id_public new) id)
    ∧ get_channel id s2 = Some c2 ∧ ch_identity_hash c2 = Some (IdentityManager.hexhash new)
    ∧ ch_destination_hash c2 = Some (hexrep (dest_hash (id_public new) id)).
Proof using.
  intros Hid Hc Hf Hold Hi Hk Hr. rewrite (rotate_rns_key_run now stamp new ref s id c f old data pend) by done. cbn [snd ro_db ro_dir ro_announced].
  split; [done|]. split; [intros id' Hne; simpl; by rewrite lookup_alter_ne|].
  set (n0 := {| chn_node := _; chn_ids := _; chn_channels := _ |}).
  destruct (start_channels_run dest_hash fresh n0) as (s2 & Hs2 & Hall); [done| | |].
  - intros name g. simpl. rewrite !lookup_insert_Some. intros [[_ <-]|[_ [[_ <-]|[_ H]]]]; [rewrite read_written|rewrite Hold|by apply (Hr name)]; eauto.
  - intros k c0. unfold chn_db. simpl. rewrite lookup_alter_Some. intros [(-> & c1 & H & ->)|[_ H]]; [|by apply Hk]. simpl. by apply Hk.
  - destruct (Hall id (set_own_rotation (IdentityManager.hexhash new) (hexrep (dest_hash (id_public new) id))
                   (ch_identity_hash c) (now + fz KEY_ROTATION_GRACE_PERIOD)%F c)) as ((i & Hi1 & Hi2) & Hg & _).
    { unfold chn_db. simpl. by rewrite lookup_alter_eq, Hc. }
    destruct (mrel_ok _ _ _ _ _ (start_grows dest_hash fresh) Hs2) as [Hsub Hok].
    assert (i = new) as ->.
    { assert (ids_ok (chn_ids s2)) as Hok2 by (apply Hok; by intros ? ?). specialize (Hok2 id i Hi1).
      assert (IdentityManager.identity_dir (chn_ids s2) !! channel_file id = Some (file_of_id new)) as Hfile.
      { eapply lookup_weaken; [|exact Hsub]. simpl. apply lookup_insert_eq. }
      rewrite Hfile in Hok2. simpl in Hok2. rewrite read_written in Hok2. by simplify_eq. }
    exists s2. eexists. split; [exact Hs2|]. split; [exact Hi1|]. split; [exact Hi2|]. split; [exact Hg|].
    unfold filled. destruct (ostr_true _); [done|]. simpl. assert (ch_id c = id) as -> by (by apply Hk). by rewrite Hi2.
Qed.
End own_rotation.

(** ** Witnesses *)

(** A channel recorded under the identity 3, which rotates to 4. *)
Definition rot_payload : dict string val := @rotation_payload toy_rns toy_sign (fz 100) "a" [3] [4].
Definition rot_pack : Msgpack := table_msgpack
  [VDict rot_payload;
   VDict [("payload", VBytes [0]); ("old_signature", VBytes (@id_sign toy_sign [3] [0]));
          ("new_signature", VBytes (@id_sign toy_sign [4] [0]))]].
Definition rot_recall (h : bytes) : option bytes := Some h.
Definition rot_channel : Channel :=
  set_own_rotation "03" "d" None (fz 0) (demo_channel "a" ACCESS_PUBLIC false).
Definition rot_node : PeerDiscovery := {|
  pd_peers := []; pd_mirrors := {| mg_mirrors := []; mg_pushers := [] |}; pd_db := demo_db [rot_channel] |}.
Abbreviation rot_announce := (@handle_announce rot_pack toy_sign toy_env toy_peers rot_recall true true "me" (λ _, "")
  (λ _, RecallNone) (λ _, fz 0)).

Lemma rotation_authentic_witness :
  ∃ c', channels (pd_db (rot_announce (fz 200) [9] None [1] rot_node).2) !! "a" = Some c'
    ∧ @rotated rot_pack toy_sign rot_recall (fz 200) [1] "a" rot_channel c'.
Proof.
  destruct (rot_announce (fz 200) [9] None [1] rot_node) as [r s'] eqn:E.
  destruct (@rotation_authentic rot_pack toy_sign toy_env toy_peers rot_recall true true "me" (λ _, "")
    (λ _, RecallNone) (λ _, fz 0) (fz 200) [9] None [1] rot_node r s' "a" E) as [H|(c & c' & Hc & Hc' & H)].
  - exfalso. vm_compute in E. injection E as _ <-. vm_compute in H. discriminate.
  - exists c'. split; [exact Hc'|]. assert (c = rot_channel) as <- by (vm_compute in Hc; by injection Hc as <-). exact H.
Defined.

(** [recall] as RNS documents it: by destination hash, from what was announced.
    The identities 3 and 4 announced the destinations 13 and 14. *)
Definition dest_recall (h : bytes) : option bytes :=
  if bool_decide (h = [13]) then Some [3] else if bool_decide (h = [14]) then Some [4] else None.
Definition dest_announce := @handle_announce rot_pack toy_sign toy_env toy_peers dest_recall true true "me" (λ _, "")
  (λ _, RecallNone) (λ _, fz 0) (fz 200) [9] None [1] rot_node.

Lemma rotation_followed_witness :
  (∃ s', rot_announce (fz 200) [9] None [1] rot_node = (Ok tt, s')
    ∧ _log_identity_mismatch (fz 201) "a" "03" (pd_db s') = LogTolerated
    ∧ _log_identity_mismatch (fz 200000) "a" "03" (pd_db s') = LogMismatch false)
  ∧ ∃ s', dest_announce = (Ok tt, s') ∧ channels (pd_db s') = channels (pd_db rot_node)
    ∧ _log_identity_mismatch (fz 201) "a" "04" (pd_db s') = LogMismatch false.
Proof.
  assert (∀ recall, (recall = rot_recall ∨ recall = dest_recall) →
    ∀ i, i = [3] ∨ i = [4] → @recalls_itself toy_sign recall toy_rns i) as Hrec.
  { intros recall Hr i Hi. split; [by destruct Hi as [-> | ->]|]. split.
    - destruct Hi as [-> | ->]; (constructor; [simpl; split; (done || lia)|constructor]).
    - destruct Hr as [-> | ->]; [right; by destruct Hi as [-> | ->]|left; by destruct Hi as [-> | ->]]. }
  pose proof (λ recall (Hr : recall = rot_recall ∨ recall = dest_recall), @rotation_followed rot_pack toy_sign toy_env toy_peers toy_rns recall true "me" (λ _, "")
    (λ _, RecallNone) (λ _, fz 0) (table_msgpack_laws _) toy_sign_laws (fz 100) (fz 200) "a" [3] [4] [] [1]
    [("a", {| rot_old := [3]; rot_new := [4]; rot_timestamp := fz 100; rot_grace_end := (fz 100 + fz KEY_ROTATION_GRACE_PERIOD)%F |})]
    rot_channel [9] None rot_node ltac:(vm_compute; reflexivity) eq_refl ltac:(discriminate)
    (Hrec recall Hr [3] (or_introl eq_refl)) (Hrec recall Hr [4] (or_intror eq_refl)) ltac:(vm_compute; discriminate)
    eq_refl eq_refl eq_refl eq_refl ltac:(discriminate)) as Hfollow.
  split.
  - destruct (Hfollow rot_recall (or_introl eq_refl)) as (s' & E & _ & H).
    exists s'. split; [exact E|]. split; [exact (proj2 (H (fz 201)))|exact (proj2 (H (fz 200000)))].
  - destruct (Hfollow dest_recall (or_intror eq_refl)) as (s' & E & Hs & H).
    exists s'. split; [exact E|]. split; [exact Hs|]. exact (H (fz 201)).
Defined.

(** A node that serves the channel under the destination 5. *)
Definition disc_channel : Channel := demo_channel "a" ACCESS_PUBLIC false.
Definition disc_node : ChannelNode := {|
  chn_node := demo_public;
  chn_ids := {| IdentityManager.identity_dir := ∅; IdentityManager._identities := [("a", [3])];
                IdentityManager._destinations := {[ "a" := [5] ]}; IdentityManager._node_identity := Some [6] |};
  chn_channels := [("a", disc_channel)] |}.
Definition disc_pack : Msgpack := table_msgpack
  [VDict (channel_announce (fz 1) "n" false (Some "06") [5] ("a", disc_channel))].

Lemma announce_discovered_witness :
  ∃ s' p, @handle_announce disc_pack toy_sign toy_env toy_peers rot_recall true true "me" (λ _, "")
      (λ _, RecallNone) (λ _, fz 0) (fz 2) [5] None [0] rot_node = (Ok tt, s')
    ∧ dict_get "05" (pd_peers s') = Some p ∧ dp_node_name p = VStr "n".
Proof.
  destruct (@announce_discovered disc_pack toy_sign toy_env toy_peers rot_recall true true "me" (λ _, "")
    (λ _, RecallNone) (λ _, fz 0) (table_msgpack_laws _) toy_idfile toy_rns (fz 1) [7] "n" false disc_node
    [([5], [0])] disc_node (fz 2) None [5] [0] rot_node) as (id & c & s' & p & _ & _ & E & Hp & _ & _ & Hn & _).
  - vm_compute. reflexivity.
  - left.
  - reflexivity.
  - exists s', p. split; [exact E|]. split; [exact Hp|]. by apply Hn.
Defined.

Definition rot_dir : Rollover := {|
  ro_db := demo_db [rot_channel]; ro_dir := {[ "channel_a" := [8; 3] ]}; ro_announced := [] |}.

Lemma rotated_identity_served_witness :
  ∃ s2, @start_channels toy_idfile toy_sign toy_dest (λ _, [7])
      (let s1 := (@_rotate_channel_rns_key rot_pack toy_idfile toy_rns toy_sign toy_dest true (fz 100) "100" [4] "a" rot_dir).2 in
       {| chn_node := set_db (ro_db s1) demo_public; chn_ids := IdentityManager.start (ro_dir s1); chn_channels := [] |})
    = (Ok tt, s2) ∧ IdentityManager.get_identity "a" (chn_ids s2) = Some [4].
Proof.
  destruct (@rotated_identity_served rot_pack toy_idfile toy_rns toy_sign toy_dest toy_idfile_laws (fz 100) "100" [4] "a"
    rot_dir "a" rot_channel [8; 3] [3] [1]
    [("a", {| rot_old := [3]; rot_new := [4]; rot_timestamp := fz 100; rot_grace_end := (fz 100 + fz KEY_ROTATION_GRACE_PERIOD)%F |})]
    (λ _, [7]) demo_public) as (_ & _ & s2 & c2 & E & H & _).
  - reflexivity.
  - reflexivity.
  - reflexivity.
  - reflexivity.
  - vm_compute. reflexivity.
  - intros id c. simpl. rewrite lookup_insert_Some. intros [[<- <-]|[_ H]]; [done|]. by rewrite lookup_empty in H.
  - intros n f. simpl. rewrite lookup_singleton_Some. intros [<- <-]. by eexists.
  - exists s2. split; [exact E|exact H].
Defined.
