(* ===== verification/Handshake.v ===== *)
(** * The initiating side of federation ([federation/handshake_orchestrator.py],
      [federation/epoch_orchestrator.py], the timer of [epoch_manager.py])

    What the node does when a mirror's link is up: the challenge, the answer to
    the peer's, the epoch handshake, and the registry of epoch managers.

    The mirrors and pushers are those of Mirror.v.  An epoch manager is one
    object that the registry, a mirror and a pusher refer to; here the registry
    holds it, and [share] writes a change of it to whoever else refers to it.
    Coroutines that are scheduled on the main loop are a queue of the state;
    running the first is a step of its own. *)

From S2P Require Import Prelude Constants Models Queries Permissions RateLimit Ban Sealed Sequencer Message Ingest Wire Verification History Epoch Invites Session Live Media Maintenance FedAuth FedPush Mirror Metadata Server Channels.

(** Scheduled coroutines. *)
Inductive task :=
  | PersistPeerKey (peer_identity_hash : string) (public_key_bytes : bytes)
  | PersistPushCursor (peer_hash channel_id : string) (cursor : Z)
  | PushPending (key : string).

Record FedState := {
  fd_db : DB;
  fd_mgr : MirrorManager;
  fd_managers : dict string EpochManager;        (* [EpochOrchestrator._managers] *)
  fd_challenges : dict string bytes;             (* [_pending_challenge] of the mirrors *)
  fd_tasks : list task;
  fd_rotations : list string;                    (* keys whose rotation timer was started *)
}.
Definition fd_set_db d (s : FedState) : FedState := {|
  fd_db := d; fd_mgr := fd_mgr s; fd_managers := fd_managers s; fd_challenges := fd_challenges s; fd_tasks := fd_tasks s;
  fd_rotations := fd_rotations s |}.
Definition fd_set_mgr g (s : FedState) : FedState := {|
  fd_db := fd_db s; fd_mgr := g; fd_managers := fd_managers s; fd_challenges := fd_challenges s; fd_tasks := fd_tasks s;
  fd_rotations := fd_rotations s |}.
Definition fd_set_managers f (s : FedState) : FedState := {|
  fd_db := fd_db s; fd_mgr := fd_mgr s; fd_managers := f (fd_managers s); fd_challenges := fd_challenges s; fd_tasks := fd_tasks s;
  fd_rotations := fd_rotations s |}.
Definition fd_set_challenges f (s : FedState) : FedState := {|
  fd_db := fd_db s; fd_mgr := fd_mgr s; fd_managers := fd_managers s; fd_challenges := f (fd_challenges s); fd_tasks := fd_tasks s;
  fd_rotations := fd_rotations s |}.
Definition fd_set_tasks f (s : FedState) : FedState := {|
  fd_db := fd_db s; fd_mgr := fd_mgr s; fd_managers := fd_managers s; fd_challenges := fd_challenges s; fd_tasks := f (fd_tasks s);
  fd_rotations := fd_rotations s |}.
Definition fd_set_rotations f (s : FedState) : FedState := {|
  fd_db := fd_db s; fd_mgr := fd_mgr s; fd_managers := fd_managers s; fd_challenges := fd_challenges s; fd_tasks := fd_tasks s;
  fd_rotations := f (fd_rotations s) |}.
Definition fd_db_op {A} (m : M DB A) : M FedState A := lift fd_db fd_set_db m.
Definition fd_mgr_op {A} (m : M MirrorManager A) : M FedState A := lift fd_mgr fd_set_mgr m.

Definition the_mirror (k : string) (s : FedState) : option ChannelMirror := dict_get k (mg_mirrors (fd_mgr s)).
Definition the_pusher (k : string) (s : FedState) : option FederationPusher.t := dict_get k (mg_pushers (fd_mgr s)).
Definition mirror_op (k : string) (f : M ChannelMirror unit) : M FedState unit := fd_mgr_op (on_mirror k tt f).
Definition alter_mirror (k : string) (f : ChannelMirror → ChannelMirror) : M FedState unit := mirror_op k (modify f).
Definition alter_pusher (k : string) (f : FederationPusher.t → FederationPusher.t) : M FedState unit :=
  fd_mgr_op (modify (set_pushers (λ d, match dict_get k d with Some p => dict_set k (f p) d | None => d end))).

(** [pusher._epoch_manager = em] *)
Definition with_manager (em : EpochManager) (p : FederationPusher.t) : FederationPusher.t := {|
  FederationPusher.peer_identity_hash := FederationPusher.peer_identity_hash p;
  FederationPusher.channel_id := FederationPusher.channel_id p;
  FederationPusher.node_identity_hash := FederationPusher.node_identity_hash p;
  FederationPusher._link := FederationPusher._link p;
  FederationPusher._session_factory := FederationPusher._session_factory p;
  FederationPusher._push_cursor := FederationPusher._push_cursor p; FederationPusher._epoch_manager := Some em;
  FederationPusher._consecutive_failures := FederationPusher._consecutive_failures p;
  FederationPusher._last_attempt := FederationPusher._last_attempt p;
  FederationPusher._backoff_base := FederationPusher._backoff_base p;
  FederationPusher._max_backoff := FederationPusher._max_backoff p;
  FederationPusher.fp_sent := FederationPusher.fp_sent p; FederationPusher.fp_saved := FederationPusher.fp_saved p |}.

(** The manager under a key changed: those who refer to it see it. *)
Definition refer_mirror (em : EpochManager) (m : ChannelMirror) : ChannelMirror :=
  match cm_epoch_manager m with Some _ => set_epoch_manager em m | None => m end.
Definition refer_pusher (em : EpochManager) (p : FederationPusher.t) : FederationPusher.t :=
  match FederationPusher._epoch_manager p with Some _ => with_manager em p | None => p end.
Definition share (k : string) (em : EpochManager) : M FedState unit :=
  modify (fd_set_managers (dict_set k em)) ;;
  alter_mirror k (refer_mirror em) ;;
  alter_pusher k (refer_pusher em).
(** An operation on the manager under a key. *)
Definition em_run {A} (k : string) (f : M EpochManager A) (em : EpochManager) : M FedState A :=
  let (r, em') := f em in share k em' ;; of_res r.

(** Every call of a pusher's cursor callback ([make_push_cursor_callback])
    schedules a write of the cursor. *)
Definition schedule_cursors (p p' : FederationPusher.t) : M FedState unit :=
  modify (fd_set_tasks (λ l, l ++ map (PersistPushCursor (FederationPusher.peer_identity_hash p) (FederationPusher.channel_id p))
                                    (drop (length (FederationPusher.fp_saved p)) (FederationPusher.fp_saved p')))).

Definition key_of (m : ChannelMirror) : string := mirror_key (hexrep (cm_remote_hash m)) (cm_channel_id m).

(** The node: its identity when it is loaded, its name and configuration. *)
Record NodeSide := { ns_identity : option bytes; ns_name : string; ns_config : FedConfig }.

(** ** The registry of epoch managers *)

Module EpochOrchestrator.
Section registry.
Context `{HK : KeyExchange} `{HS : Signing} `{HA : Aead}.
(** What RNS recalls of a destination. *)
Context (node : NodeSide) (recall : bytes → option bytes).

Definition get (mirror_key : string) (s : FedState) : option EpochManager := dict_get mirror_key (fd_managers s).
Definition contains (mirror_key : string) (s : FedState) : bool := dict_has mirror_key (fd_managers s).
Definition len (s : FedState) : Z := zlen (fd_managers s).

Definition register (mirror_key peer_identity_hash : string) (is_initiator : bool) (peer_rns_identity : option bytes)
    : M FedState EpochManager :=
  let! existing := gets (get mirror_key) in
  match existing with
  | Some em => ret em
  | None =>
      let em := new_manager peer_identity_hash is_initiator (ns_identity node) peer_rns_identity
                  (fs_epoch_duration (ns_config node)) in
      modify (fd_set_managers (dict_set mirror_key em)) ;;
      ret em
  end.

(** [start_rotation_scheduler] *)
Definition start_rotation_scheduler (mirror_key : string) (em : EpochManager) : M FedState unit :=
  when (is_initiator em && negb (_torn_down em)) (modify (fd_set_rotations (λ l, l ++ [mirror_key]))).

(** The first mirror of the peer, whatever its channel. *)
Definition matching_mirror (peer_hash : string) (g : MirrorManager) : option (string * ChannelMirror) :=
  List.find (λ p, String.prefix (String.append peer_hash ":") p.1) (mg_mirrors g).

Definition _restore_one (state : FederationEpochState) : M FedState unit :=
  let peer_hash := fes_peer_identity_hash state in
  let! g := gets fd_mgr in
  match matching_mirror peer_hash g with
  | None => ret tt
  | Some (matched_key, matched_mirror) =>
      let! em := register matched_key peer_hash (fes_is_initiator state) (recall (cm_remote_hash matched_mirror)) in
      let! db := gets fd_db in
      let em := load_state db em in
      share matched_key em ;;
      alter_mirror matched_key (set_epoch_manager em) ;;
      when (is_initiator em && is_active em) (start_rotation_scheduler matched_key em)
  end.

(** [load_state] of the registry, at the start of the node. *)
Definition load_states : M FedState unit :=
  if negb (fs_enabled (ns_config node)) then ret tt
  else
    catch (let! db := gets fd_db in mfold (λ _, _restore_one) tt (rows (federation_epoch_state db))) (λ _, ret tt).

Definition attach_to_pushers : M FedState unit :=
  let! s := Prelude.get in
  mfold (λ _ p, alter_pusher p.1 (with_manager p.2)) tt (fd_managers s).

(** [nonces]: the two nonces that wrap the keys of a manager. *)
Definition persist_all (now : float) (nonces : string → bytes * bytes) : M FedState unit :=
  let! s := Prelude.get in
  mfold (λ _ p, when (is_active p.2)
    (catch (fd_db_op (persist_state now (nonces p.1).1 (nonces p.1).2 p.2)) (λ _, ret tt))) tt (fd_managers s).

(** [EpochManager.teardown] cancels the rotation timer. *)
Definition teardown (mirror_key : string) : M FedState unit :=
  let! em := gets (get mirror_key) in
  match em with
  | None => ret tt
  | Some em =>
      share mirror_key (Epoch.teardown em) ;;
      modify (fd_set_managers (dict_del mirror_key)) ;;
      modify (fd_set_rotations (List.filter (λ k, negb (bool_decide (k = mirror_key)))))
  end.

Definition shutdown : M FedState unit :=
  let! s := Prelude.get in
  mfold (λ _ p, teardown p.1) tt (fd_managers s) ;;
  modify (fd_set_managers (λ _, [])).

(** [HokoraDaemon.remove_mirror] *)
Definition remove_mirror (remote_hash : bytes) (channel_id : string) : M FedState unit :=
  fd_mgr_op (Mirror.remove_mirror remote_hash channel_id) ;;
  teardown (mirror_key (hexrep remote_hash) channel_id).
End registry.
End EpochOrchestrator.

(** ** The handshake *)

Section orchestrator.
Context `{R : RnsIdentity} `{HE : Ed25519} `{HK : KeyExchange} `{HS : Signing} `{HP : Msgpack} `{HA : Aead}.
(** What RNS recalls of a destination, and whether [RNS.Packet.send] returns. *)
Context (node : NodeSide) (recall : bytes → option bytes) (send_ok : bool).

(** A packet on the mirror's link. *)
Definition send_packet (k : string) (data : bytes) : M FedState unit :=
  if send_ok then alter_mirror k (emit (SendPacket data)) else raise RuntimeError "send".

Definition step1_payload (i challenge : bytes) : dict string val :=
  [("step", VInt 1); ("node_name", VStr (ns_name node)); ("identity_hash", VStr (IdentityManager.hexhash i));
   ("challenge", VBytes challenge)].
Definition step3_payload (i counter_response : bytes) : dict string val :=
  [("step", VInt 3); ("identity_hash", VStr (IdentityManager.hexhash i)); ("counter_response", VBytes counter_response);
   ("peer_public_key", VBytes (sig_pub_bytes i))].
Definition step5_payload (i frame : bytes) : dict string val :=
  [("step", VInt 5); ("identity_hash", VStr (IdentityManager.hexhash i)); ("epoch_rotate_frame", VBytes frame)].

(** Unsigned synchronisation, when the configuration allows it. *)
Definition sync_unsigned (nonce : bytes) (k : string) : M FedState unit :=
  when (negb (require_signed_federation (ns_config node))) (mirror_op k (_sync_history nonce)).

(** [nonce'] is for the history request. *)
Definition initiate (nonce nonce' challenge : bytes) (k : string) : M FedState unit :=
  let! m := gets (the_mirror k) in
  match m with
  | None => ret tt
  | Some m =>
      match ns_identity node, cm_link m with
      | Some i, Some _ =>
          modify (fd_set_challenges (dict_set k challenge)) ;;
          let! request := of_res (encode_sync_request SYNC_FEDERATION_HANDSHAKE nonce (Some (step1_payload i challenge))) in
          catch (send_packet k request) (λ _, sync_unsigned nonce' k)
      | _, _ => sync_unsigned nonce' k
      end
  end.

(** The peer's answer to the challenge, when it gave one: true when the
    handshake goes on. *)
Definition check_step2 (k : string) (m : ChannelMirror) (resp_data : dict string val) : M FedState bool :=
  let! s := get in
  let pending := default [] (dict_get k (fd_challenges s)) in
  let challenge_response := mget "challenge_response" resp_data in
  let peer_public_key := mget "peer_public_key" resp_data in
  if negb (list_true pending && val_true challenge_response && val_true peer_public_key) then ret true
  else
    match peer_public_key with
    | VBytes key =>
        if negb (zlen key =? ED25519_PUBLIC_KEY_SIZE) then ret false
        else if negb (match challenge_response with
                      | VBytes r => FederationAuth.verify_response pending r key
                      | _ => false
                      end) then ret false
        else
          match default (VStr (hexrep (cm_remote_hash m))) (dict_get "identity_hash" resp_data) with
          | VStr peer_hash => modify (fd_set_tasks (λ l, l ++ [PersistPeerKey peer_hash key])) ;; ret true
          | VBytes _ | VList _ => ret true         (* a task that finds no row *)
          | _ => raise TypeError "not subscriptable"
          end
    | _ => ret false
    end.

(** The answer to the peer's challenge. *)
Definition send_step3 (nonce : bytes) (k : string) (m : ChannelMirror) (resp_data : dict string val) : M FedState unit :=
  let counter_challenge := mget "counter_challenge" resp_data in
  match cm_link m, ns_identity node with
  | Some _, Some i =>
      when (val_true counter_challenge)
        (match counter_challenge with
         | VBytes c =>
             let! key := of_res (signing_public_key i) in
             let! step3 := of_res (encode_sync_request SYNC_FEDERATION_HANDSHAKE nonce (Some (step3_payload i (id_sign i c)))) in
             send_packet k step3
         | _ => raise TypeError "argument must be bytes"
         end)
  | _, _ => ret tt
  end.

Definition _handle_step2 (nonce nonce' : bytes) (k : string) (m : ChannelMirror) (resp_data : dict string val)
    : M FedState unit :=
  let! go := check_step2 k m resp_data in
  when go
    (send_step3 nonce k m resp_data ;;
     alter_mirror k (set_authenticated true) ;;
     let! pusher := gets (the_pusher k) in
     when (bool_decide (is_Some pusher) && bool_decide (is_Some (cm_link m)))
       (alter_pusher k (FederationPusher.set_link true) ;;
        modify (fd_set_tasks (λ l, l ++ [PushPending k]))) ;;
     mirror_op k (_sync_history nonce')).

Definition _handle_step6 (now : float) (prefix : bytes) (k : string) (resp_data : dict string val) : M FedState unit :=
  let! em := gets (EpochOrchestrator.get k) in
  match em with
  | None => ret tt
  | Some em =>
      let frame := mget "epoch_rotate_ack_frame" resp_data in
      if negb (val_true frame) then ret tt
      else
        catch
          (match frame with
           | VBytes f => em_run k (handle_epoch_rotate_ack now prefix f) em
           | _ => raise TypeError "frame"
           end ;;
           let! em := gets (EpochOrchestrator.get k) in
           match em with Some em => EpochOrchestrator.start_rotation_scheduler k em | None => ret tt end)
          (λ _, ret tt)
  end.

(** [private_key]: the fresh private key of the rotation. *)
Definition _initiate_epoch_handshake (nonce private_key : bytes) (k : string) (m : ChannelMirror) : M FedState unit :=
  match ns_identity node, cm_link m with
  | Some i, Some _ =>
      let! em := EpochOrchestrator.register node k (hexrep (cm_remote_hash m)) true (recall (cm_remote_hash m)) in
      catch
        (let! frame := em_run k (create_epoch_rotate private_key) em in
         let! request := of_res (encode_sync_request SYNC_FEDERATION_HANDSHAKE nonce (Some (step5_payload i frame))) in
         send_packet k request) (λ _, ret tt) ;;
      let! em' := gets (EpochOrchestrator.get k) in
      let em := default em em' in
      alter_mirror k (set_epoch_manager em) ;;
      alter_pusher k (with_manager em)
  | _, _ => ret tt
  end.

(** What is drawn for a response. *)
Record Draw := { d_nonce : bytes; d_nonce' : bytes; d_private : bytes; d_prefix : bytes }.

Definition on_handshake_response (now : float) (d : Draw) (k : string) (resp_data : dict string val) : M FedState unit :=
  let! m := gets (the_mirror k) in
  match m with
  | None => ret tt
  | Some m =>
      let step := mget "step" resp_data in
      if val_is 2 step && get_bool "accepted" resp_data then _handle_step2 (d_nonce d) (d_nonce' d) k m resp_data
      else if val_is 4 step then
        alter_mirror k (set_authenticated true) ;;
        when (get_bool "fs_capable" resp_data && fs_enabled (ns_config node))
          (_initiate_epoch_handshake (d_nonce d) (d_private d) k m)
      else if val_is 6 step then _handle_step6 now (d_prefix d) k resp_data
      else ret tt
  end.

Definition on_push_ack (k : string) (data : dict string val) : M FedState unit :=
  let! p := gets (the_pusher k) in
  match p with
  | None => ret tt
  | Some p =>
      let! received := match default (VList []) (dict_get "received" data) with
                       | VList l => ret l
                       | v => if val_true v then raise TypeError "not iterable" else ret []
                       end in
      let (r, p') := FederationPusher.handle_push_ack received p in
      alter_pusher k (λ _, p') ;; schedule_cursors p p' ;; of_res r
  end.

(** ** The main loop *)

Definition set_peer_key (key : bytes) (p : Peer) : Peer := {|
  peer_identity_hash := peer_identity_hash p; peer_node_name := peer_node_name p; peer_last_seen := peer_last_seen p;
  peer_channels_mirrored := peer_channels_mirrored p; peer_sync_cursor := peer_sync_cursor p;
  peer_push_cursor := peer_push_cursor p; peer_federation_trusted := peer_federation_trusted p;
  peer_last_handshake := peer_last_handshake p; peer_public_key := Some key |}.

Definition _persist_peer_public_key (peer_hash : string) (key : bytes) : M DB unit :=
  if negb (zlen key =? ED25519_PUBLIC_KEY_SIZE) then ret tt
  else modify (set_peers (alter (set_peer_key key) peer_hash)).

(** The main loop runs the first scheduled coroutine.  [recall'] and [nonce]
    are those of the push. *)
Definition run_task (now : float) (recall' : bytes → option bytes) (nonce : bytes) : M FedState unit :=
  let! s := get in
  match fd_tasks s with
  | [] => ret tt
  | t :: rest =>
      modify (fd_set_tasks (λ _, rest)) ;;
      match t with
      | PersistPeerKey h key => fd_db_op (_persist_peer_public_key h key)
      | PersistPushCursor h ch n => fd_db_op (persist_push_cursor h ch n)
      | PushPending k =>
          match the_pusher k s with
          | None => ret tt
          | Some p =>
              let p' := (FederationPusher.push_pending recall' now nonce send_ok (fd_db s) p).2 in
              alter_pusher k (λ _, p') ;;
              schedule_cursors p p' ;;
              match FederationPusher._epoch_manager p' with
              | Some em => if EpochOrchestrator.contains k s then share k em else ret tt
              | None => ret tt
              end
          end
      end
  end.

(** The body of a turn of [_do_rotation]: the number that is expected.  The
    request goes out over the mirror's link, when it has one. *)
Definition rotation_attempt (nonce private_key : bytes) (k : string) : M FedState (option Z) :=
  let! em := gets (EpochOrchestrator.get k) in
  match em with
  | None => ret None
  | Some em =>
      let expected := _current_epoch_id em + 1 in
      let! frame := em_run k (create_epoch_rotate private_key) em in
      let! m := gets (the_mirror k) in
      match m ≫= cm_link, ns_identity node with
      | Some _, Some i =>
          let! request := of_res (encode_sync_request SYNC_FEDERATION_HANDSHAKE nonce (Some (step5_payload i frame))) in
          send_packet k request ;; ret (Some expected)
      | _, _ => ret (Some expected)
      end
  end.
Definition rotation_confirmed (expected : Z) (k : string) (s : FedState) : bool :=
  match EpochOrchestrator.get k s with Some em => expected <=? _current_epoch_id em | None => false end.
Definition rotation_backoff (attempt : Z) : Z := EPOCH_INITIAL_BACKOFF * 2 ^ attempt.
End orchestrator.

(** ** Whose key is recorded *)

(** What only the handshake changes. *)
Definition same_trust (s s' : FedState) : Prop :=
  fd_db s' = fd_db s ∧ fd_tasks s' = fd_tasks s ∧ fd_challenges s' = fd_challenges s.
#[export] Instance same_trust_preorder : PreOrder same_trust.
Proof. split; [by intros s|]. intros a b c (H1 & H2 & H3) (H4 & H5 & H6). split_and!; congruence. Qed.

Lemma mgr_core {A} (m : M MirrorManager A) : mrel same_trust (fd_mgr_op m).
Proof. intros s. unfold fd_mgr_op, lift. by destruct (m (fd_mgr s)). Qed.
Lemma alter_mirror_core k f : mrel same_trust (alter_mirror k f).
Proof. apply mgr_core. Qed.
Lemma alter_pusher_core k f : mrel same_trust (alter_pusher k f).
Proof. apply mgr_core. Qed.
Lemma share_core k em : mrel same_trust (share k em).
Proof. unfold share. mrel_auto; first [by apply mrel_modify|apply alter_mirror_core|apply alter_pusher_core]. Qed.
Lemma em_run_core {A} k (f : M EpochManager A) em : mrel same_trust (em_run k f em).
Proof. unfold em_run. destruct (f em) as [r em']. mrel_auto. apply share_core. Qed.
#[export] Hint Resolve mgr_core alter_mirror_core alter_pusher_core share_core em_run_core : hok.

(** Decomposes a computation, handlers of exceptions and loops included. *)
Ltac trust_tac := repeat (mrel_step || (apply mrel_mfold; [typeclasses eauto|intros ? ?])
  || (apply mrel_catch; [typeclasses eauto| |intros ?])); try (by apply mrel_modify); eauto with hok.

Section shown.
Context `{R : RnsIdentity} `{HE : Ed25519} `{HK : KeyExchange} `{HS : Signing} `{HP : Msgpack} `{HA : Aead}.
Context (node : NodeSide) (recall : bytes → option bytes) (send_ok : bool).

Inductive fed_step :=
  | FInitiate (nonce nonce' challenge : bytes) (k : string)
  | FResponse (now : float) (d : Draw) (k : string) (resp_data : dict string val)
  | FPushAck (k : string) (data : dict string val)
  | FTask (now : float) (recall' : bytes → option bytes) (nonce : bytes)
  | FRotate (nonce private_key : bytes) (k : string)
  | FTeardown (k : string).

Definition run_fed (s : FedState) (st : fed_step) : FedState :=
  match st with
  | FInitiate n n' c k => (initiate node send_ok n n' c k s).2
  | FResponse now d k r => (on_handshake_response node recall send_ok now d k r s).2
  | FPushAck k d => (on_push_ack k d s).2
  | FTask now recall' n => (run_task send_ok now recall' n s).2
  | FRotate n p k => (rotation_attempt node send_ok n p k s).2
  | FTeardown k => (EpochOrchestrator.teardown k s).2
  end.

(** A key of 32 bytes under which one of these challenges was answered. *)
Definition shown (drawn : list bytes) (key : bytes) : Prop :=
  zlen key = 32 ∧ ∃ c r, c ∈ drawn ∧ ed25519_verify key c r = true.

Definition drawn_by (st : fed_step) : list bytes := match st with FInitiate _ _ c _ => [c] | _ => [] end.

(** The row but for the peer's key and the push cursors. *)
Definition same_row (p p' : Peer) : Prop :=
  peer_identity_hash p' = peer_identity_hash p ∧ peer_node_name p' = peer_node_name p ∧ peer_last_seen p' = peer_last_seen p
  ∧ peer_channels_mirrored p' = peer_channels_mirrored p ∧ peer_sync_cursor p' = peer_sync_cursor p
  ∧ peer_federation_trusted p' = peer_federation_trusted p ∧ peer_last_handshake p' = peer_last_handshake p.
#[local] Instance same_row_preorder : PreOrder same_row.
Proof using. split; [by intros p; split_and!|]. unfold same_row. intros a b c Hx Hy. intuition congruence. Qed.

(** What may have become of a row. *)
Definition row_ok (drawn : list bytes) (p p' : Peer) : Prop :=
  same_row p p' ∧ (peer_public_key p' = peer_public_key p ∨ ∃ key, peer_public_key p' = Some key ∧ shown drawn key).

Record keys_ok (drawn : list bytes) (db0 : DB) (s : FedState) : Prop := {
  ko_challenges : ∀ k c, dict_get k (fd_challenges s) = Some c → c ∈ drawn;
  ko_tasks : ∀ h key, PersistPeerKey h key ∈ fd_tasks s → shown drawn key;
  ko_peers : ∀ h p', peers (fd_db s) !! h = Some p' → ∃ p, peers db0 !! h = Some p ∧ row_ok drawn p p';
}.

Definition keeps (drawn : list bytes) (db0 : DB) (s s' : FedState) : Prop := keys_ok drawn db0 s → keys_ok drawn db0 s'.
#[local] Instance keeps_preorder drawn db0 : PreOrder (keeps drawn db0).
Proof using. split; [by intros s|]. intros a b c H1 H2 H. auto. Qed.

Lemma core_keeps {A} drawn db0 (m : M FedState A) : mrel same_trust m → mrel (keeps drawn db0) m.
Proof using. intros Hm s Hs. destruct (Hm s) as (H1 & H2 & H3), Hs. split; rewrite ?H1, ?H2, ?H3; auto. Qed.

Lemma shown_mono drawn drawn' key : (∀ c, c ∈ drawn → c ∈ drawn') → shown drawn key → shown drawn' key.
Proof using. intros H [Hl (c & r & Hc & Hv)]. split; [done|]. exists c, r. auto. Qed.
Lemma keys_ok_mono drawn drawn' db0 s : (∀ c, c ∈ drawn → c ∈ drawn') → keys_ok drawn db0 s → keys_ok drawn' db0 s.
Proof using.
  intros H [H1 H2 H3]. split; [eauto|eauto using shown_mono|].
  intros h p' Hp. destruct (H3 h p' Hp) as (p & Hp0 & Hsame & [Hk|(key & Hk & Hs)]); exists p; (split; [done|]);
    (split; [done|]); eauto 10 using shown_mono.
Qed.

Lemma send_packet_core k d : mrel same_trust (send_packet send_ok k d).
Proof using. unfold send_packet. trust_tac. Qed.
Hint Resolve send_packet_core : hok.
Lemma sync_unsigned_core n k : mrel same_trust (sync_unsigned node n k).
Proof using. unfold sync_unsigned, mirror_op. trust_tac. Qed.
Lemma send_step3_core n k m d : mrel same_trust (send_step3 node send_ok n k m d).
Proof using. unfold send_step3. trust_tac. Qed.
Lemma start_scheduler_core k em : mrel same_trust (EpochOrchestrator.start_rotation_scheduler k em).
Proof using. unfold EpochOrchestrator.start_rotation_scheduler. trust_tac. Qed.
Lemma register_core k h i p : mrel same_trust (EpochOrchestrator.register node k h i p).
Proof using. unfold EpochOrchestrator.register. trust_tac. Qed.
Hint Resolve sync_unsigned_core send_step3_core start_scheduler_core register_core : hok.

Lemma step6_core now pre k d : mrel same_trust (_handle_step6 now pre k d).
Proof using. unfold _handle_step6. trust_tac. Qed.
Lemma epoch_handshake_core n pk k m : mrel same_trust (_initiate_epoch_handshake node recall send_ok n pk k m).
Proof using. unfold _initiate_epoch_handshake. trust_tac. Qed.
Lemma rotation_core n pk k : mrel same_trust (rotation_attempt node send_ok n pk k).
Proof using. unfold rotation_attempt. trust_tac. Qed.
Lemma teardown_core k : mrel same_trust (EpochOrchestrator.teardown k).
Proof using. unfold EpochOrchestrator.teardown. trust_tac. Qed.

(** Scheduling something else than a key. *)
Lemma push_task_keeps drawn db0 k : mrel (keeps drawn db0) (modify (fd_set_tasks (λ l, l ++ [PushPending k]))).
Proof using.
  apply mrel_modify. intros s [H1 H2 H3]. split; [done| |done]. intros h key. simpl.
  intros [H|H%list_elem_of_singleton]%elem_of_app; [eauto|done].
Qed.

Lemma schedule_keeps drawn db0 p p' : mrel (keeps drawn db0) (schedule_cursors p p').
Proof using.
  apply mrel_modify. intros s [H1 H2 H3]. split; [done| |done]. intros h key. simpl.
  intros [H|H]%elem_of_app; [eauto|]. by apply list_elem_of_fmap in H as (n & ? & _).
Qed.
Lemma push_ack_keeps drawn db0 k d : mrel (keeps drawn db0) (on_push_ack k d).
Proof using.
  unfold on_push_ack. trust_tac; try apply schedule_keeps; apply core_keeps; eauto with hok.
Qed.

Lemma check_step2_keeps drawn db0 k m d : mrel (keeps drawn db0) (check_step2 k m d).
Proof using.
  intros s. unfold check_step2. rewrite (bind_run_ok get _ s s s) by done. cbv zeta.
  destruct (negb (list_true _ && _ && _)) eqn:Et; [done|].
  destruct (mget "peer_public_key" d) as [| | | | |key| |]; try done.
  destruct (negb (zlen key =? _)) eqn:El; [done|]. apply negb_false_iff, Z.eqb_eq in El.
  destruct (mget "challenge_response" d) as [| | | | |r| |]; try done. simpl.
  destruct (FederationAuth.verify_response _ r key) eqn:Ev; [|done]. simpl.
  destruct (default (VStr _) _) as [| | | |h| | |]; try done.
  unfold FederationAuth.verify_response in Ev. destruct (negb _) in Ev; [done|].
  intros [H1 H2 H3]. split; [done| |done]. intros h' key'. simpl.
  intros [H|H%list_elem_of_singleton]%elem_of_app; [eauto|]. injection H as -> ->. split; [done|].
  destruct (dict_get k (fd_challenges s)) as [c|] eqn:Ec; [|done]. exists c, r. split; [eauto|done].
Qed.

Lemma step2_keeps drawn db0 n n' k m d : mrel (keeps drawn db0) (_handle_step2 node send_ok n n' k m d).
Proof using.
  unfold _handle_step2. trust_tac; try apply check_step2_keeps; try apply push_task_keeps; apply core_keeps; eauto with hok.
Qed.

Lemma response_keeps drawn db0 now d k r : mrel (keeps drawn db0) (on_handshake_response node recall send_ok now d k r).
Proof using.
  unfold on_handshake_response. trust_tac; try apply step2_keeps; apply core_keeps; eauto using epoch_handshake_core, step6_core with hok.
Qed.

Lemma initiate_keeps drawn db0 n n' c k : c ∈ drawn → mrel (keeps drawn db0) (initiate node send_ok n n' c k).
Proof using.
  intros Hc. unfold initiate. trust_tac; try (apply core_keeps; eauto with hok; fail).
  apply mrel_modify. intros s [H1 H2 H3]. split; [|done..]. intros k' c'. simpl. rewrite dict_get_set.
  destruct (decide (k' = k)) as [->|]; [by intros [= <-]|eauto].
Qed.

Lemma persist_key_ok drawn db0 h key db : shown drawn key →
  (∀ g p', peers db !! g = Some p' → ∃ p, peers db0 !! g = Some p ∧ row_ok drawn p p') →
  ∀ g p', peers (_persist_peer_public_key h key db).2 !! g = Some p' → ∃ p, peers db0 !! g = Some p ∧ row_ok drawn p p'.
Proof using.
  intros Hk H g p'. unfold _persist_peer_public_key. destruct (negb _); [apply H|]. simpl.
  destruct (decide (g = h)) as [->|]; [|rewrite lookup_alter_ne by done; apply H].
  rewrite lookup_alter_eq. destruct (peers db !! h) as [q|] eqn:Eq; [|done]. intros [= <-].
  destruct (H h q Eq) as (p & Hp & Hs & _). exists p. split; [done|]. split; [exact Hs|]. right. by exists key.
Qed.

Lemma persist_cursor_ok drawn db0 h ch n db :
  (∀ g p', peers db !! g = Some p' → ∃ p, peers db0 !! g = Some p ∧ row_ok drawn p p') →
  ∀ g p', peers (persist_push_cursor h ch n db).2 !! g = Some p' → ∃ p, peers db0 !! g = Some p ∧ row_ok drawn p p'.
Proof using.
  intros H g p'. simpl. destruct (decide (g = h)) as [->|]; [|rewrite lookup_alter_ne by done; apply H].
  rewrite lookup_alter_eq. destruct (peers db !! h) as [q|] eqn:Eq; [|done]. intros [= <-]. exact (H h q Eq).
Qed.

Lemma task_keeps drawn db0 now recall' n : mrel (keeps drawn db0) (run_task send_ok now recall' n).
Proof using.
  intros s. unfold run_task. rewrite (bind_run_ok get _ s s s) by done. destruct (fd_tasks s) as [|t rest] eqn:Et; [done|].
  rewrite (bind_run_ok (modify _) _ s tt (fd_set_tasks (λ _, rest) s)) by done. set (s1 := fd_set_tasks (λ _, rest) s).
  intros Hok. assert (keys_ok drawn db0 s1) as Hok1.
  { destruct Hok as [H1 H2 H3]. split; [done| |done]. intros h key Hin. apply (H2 h). rewrite Et. by right. }
  destruct t as [h key|h ch c|k].
  - destruct Hok as [_ H2 _]. assert (shown drawn key) as Hk by (apply (H2 h); rewrite Et; left).
    destruct Hok1 as [H1 H4 H3]. unfold fd_db_op, lift.
    pose proof (persist_key_ok drawn db0 h key (fd_db s1) Hk H3) as Hp.
    destruct (_persist_peer_public_key h key (fd_db s1)) as [r db']. by split.
  - destruct Hok1 as [H1 H4 H3]. split; [exact H1|exact H4|]. exact (persist_cursor_ok drawn db0 h ch c (fd_db s1) H3).
  - revert Hok1. destruct (the_pusher k s); [|done].
    match goal with |- context [(?m s1).2] => assert (mrel (keeps drawn db0) m) as Hm end.
    { trust_tac; try apply schedule_keeps; apply core_keeps; eauto with hok. }
    apply Hm.
Qed.

(** C19: The node records a peer's key only when it was shown.  Whatever the
    peers answer to handshakes and pushes, in whatever order handshakes, pushes, rotations and scheduled
    work run: no row of a peer appears, and none changes but for its push
    cursors and its key; and a key that changed is one of 32 bytes under which
    a challenge drawn for one of these handshakes was signed. *)
Theorem peer_key_shown s steps h p' :
  fd_tasks s = [] → (∀ k, dict_get k (fd_challenges s) = None) →
  peers (fd_db (foldl run_fed s steps)) !! h = Some p' →
  ∃ p, peers (fd_db s) !! h = Some p ∧ same_row p p'
  ∧ (peer_public_key p' = peer_public_key p
     ∨ ∃ key, peer_public_key p' = Some key ∧ shown (flat_map drawn_by steps) key).
Proof using.
  intros Ht Hc. assert (keys_ok [] (fd_db s) s) as H0.
  { split; [by intros k c; rewrite Hc|rewrite Ht; by intros h' key ?%elem_of_nil|].
    intros g q Hq. exists q. split; [done|]. split; [reflexivity|by left]. }
  assert (∀ db0 drawn s, keys_ok drawn db0 s → keys_ok (drawn ++ flat_map drawn_by steps) db0 (foldl run_fed s steps)) as H.
  { clear. intros db0. induction steps as [|st steps IH]; intros drawn s Hok; simpl; [by rewrite app_nil_r|].
    rewrite app_assoc. apply IH. apply (keys_ok_mono _ (drawn ++ drawn_by st)) in Hok; [|set_solver]. revert Hok.
    destruct st; cbn [run_fed drawn_by]; intros Hok.
    - by apply initiate_keeps; [set_solver|].
    - by apply response_keeps.
    - by apply push_ack_keeps.
    - by apply task_keeps.
    - by apply (core_keeps _ _ _ (rotation_core nonce private_key k)).
    - by apply (core_keeps _ _ _ (teardown_core k)). }
  intros Hp. exact (ko_peers _ _ _ (H _ _ _ H0) h p' Hp).
Qed.
End shown.

(** ** Two nodes *)

Section completes.
Context {R : RnsIdentity} {HE : Ed25519} {HK : KeyExchange} {HS : Signing} {HP : Msgpack} {HA : Aead}.
Context {HL : RnsIdentityLaws R HS HE} {HPL : MsgpackLaws HP}.

(** The responder: its handler, on the payload of a request. *)
Definition respond (ctx : FederationContext) (recall : bytes → option bytes) (now : float) (fresh : FedAuth.Fresh) (request : bytes)
    : M FedNode (dict string val) :=
  let! request := of_res (decode_sync_request request) in
  let payload := match mget "payload" request with VDict p => p | _ => [] end in
  let! r := handle_federation_handshake ctx recall now fresh payload in
  match document (HandshakeReply (fc_node_name ctx) (fc_node_identity ctx) r) with
  | Some d => ret d
  | None => raise TypeError "can not serialize"
  end.

Lemma respond_run ctx recall now fresh nonce payload request t r t' d :
  encode_sync_request SYNC_FEDERATION_HANDSHAKE nonce (Some payload) = Ok request → list_true payload = true →
  handle_federation_handshake ctx recall now fresh payload t = (Ok r, t') →
  document (HandshakeReply (fc_node_name ctx) (fc_node_identity ctx) r) = Some d →
  respond ctx recall now fresh request t = (Ok d, t').
Proof using HPL.
  intros He Hl Hr Hd. destruct (sync_request_roundtrip _ _ _ _ He) as (q & Hq & _ & _ & Hp). cbn [olist_true] in Hp.
  rewrite Hl in Hp. unfold respond, mget. rewrite (bind_run_ok (of_res _) _ t q t) by (unfold of_res; by rewrite Hq).
  rewrite Hp. change (default VNone (VDict <$> Some payload)) with (VDict payload). cbv beta zeta iota. rewrite (bind_run_ok _ _ _ _ _ Hr). by rewrite Hd.
Qed.

Context (node : NodeSide) (recall : bytes → option bytes).

Definition with_mirror (k : string) (m : ChannelMirror) (s : FedState) : FedState :=
  fd_set_mgr (set_mirrors (dict_set k m) (fd_mgr s)) s.

Lemma alter_mirror_run k f m s : the_mirror k s = Some m → alter_mirror k f s = (Ok tt, with_mirror k (f m) s).
Proof using. intros H. unfold alter_mirror, mirror_op, fd_mgr_op, lift, on_mirror. unfold the_mirror in H. by rewrite H. Qed.
Lemma the_mirror_with k m s : the_mirror k (with_mirror k m s) = Some m.
Proof using. unfold the_mirror, with_mirror. simpl. apply dict_get_set_eq. Qed.

Lemma initiate_run nonce nonce' challenge k m i req s :
  the_mirror k s = Some m → is_Some (cm_link m) → ns_identity node = Some i →
  encode_sync_request SYNC_FEDERATION_HANDSHAKE nonce (Some (step1_payload node i challenge)) = Ok req →
  initiate node true nonce nonce' challenge k s
  = (Ok tt, with_mirror k (emit (SendPacket req) m) (fd_set_challenges (dict_set k challenge) s)).
Proof using.
  intros Hm [l Hl] Hi He. unfold initiate. rewrite (bind_run_ok (gets _) _ s (Some m) s) by (unfold gets; by rewrite Hm).
  rewrite Hi, Hl. rewrite (bind_run_ok (modify _) _ s tt _ eq_refl).
  rewrite (bind_run_ok (of_res _) _ _ req _) by (unfold of_res; by rewrite He).
  unfold catch, send_packet. by rewrite (alter_mirror_run k _ m).
Qed.

Lemma check_step2_run k m j c peer d s :
  dict_get k (fd_challenges s) = Some c → list_true c = true → mget "challenge_response" d = VBytes (id_sign j c) →
  mget "peer_public_key" d = VBytes (sig_pub_bytes j) → dict_get "identity_hash" d = Some (VStr peer) →
  check_step2 k m d s = (Ok true, fd_set_tasks (λ l, l ++ [PersistPeerKey peer (sig_pub_bytes j)]) s).
Proof using HL.
  intros Hc Hct H1 H2 H3.
  assert (Hpk : list_true (sig_pub_bytes j) = true) by (pose proof (sig_pub_len j); by destruct (sig_pub_bytes j)).
  unfold check_step2. rewrite (bind_run_ok get _ s s s) by done. cbv zeta. rewrite H1, H2, H3, Hc. cbn [default id val_true].
  rewrite Hct, sign_nonempty, Hpk. cbn [negb andb]. unfold FederationAuth.verify_response. rewrite sig_pub_len.
  change (32 =? ED25519_PUBLIC_KEY_SIZE) with true. cbn [negb]. by rewrite sign_verifies.
Qed.

Lemma send_step3_run nonce k m i c d req s :
  the_mirror k s = Some m → is_Some (cm_link m) → ns_identity node = Some i → mget "counter_challenge" d = VBytes c →
  list_true c = true → encode_sync_request SYNC_FEDERATION_HANDSHAKE nonce (Some (step3_payload i (id_sign i c))) = Ok req →
  send_step3 node true nonce k m d s = (Ok tt, with_mirror k (emit (SendPacket req) m) s).
Proof using HL.
  intros Hm [l Hl] Hi Hd Hc He. unfold send_step3. rewrite Hl, Hi, Hd. cbn [val_true]. rewrite Hc. cbn [when].
  unfold signing_public_key. rewrite sig_pub_len. simpl negb. cbv iota.
  rewrite (bind_run_ok (of_res _) _ s (sig_pub_bytes i) s) by done.
  rewrite (bind_run_ok (of_res _) _ s req s) by (unfold of_res; by rewrite He). unfold send_packet. by apply alter_mirror_run.
Qed.

(** What a verified answer leaves: the answer to the peer's challenge and the
    request for history are sent, and the key is to be recorded. *)
Lemma step2_run nonce nonce' k m i j c c' peer d req3 req4 s :
  the_mirror k s = Some m → is_Some (cm_link m) → ns_identity node = Some i → dict_get k (fd_challenges s) = Some c →
  list_true c = true → list_true c' = true →
  mget "challenge_response" d = VBytes (id_sign j c) → mget "peer_public_key" d = VBytes (sig_pub_bytes j) →
  dict_get "identity_hash" d = Some (VStr peer) → mget "counter_challenge" d = VBytes c' →
  encode_sync_request SYNC_FEDERATION_HANDSHAKE nonce (Some (step3_payload i (id_sign i c'))) = Ok req3 →
  encode_sync_request SYNC_HISTORY nonce' (Some (page_request m)) = Ok req4 →
  ∃ s', _handle_step2 node true nonce nonce' k m d s = (Ok tt, s')
  ∧ fd_db s' = fd_db s ∧ (∃ rest, fd_tasks s' = fd_tasks s ++ PersistPeerKey peer (sig_pub_bytes j) :: rest)
  ∧ the_mirror k s' = Some (emit (SendPacket req4) (set_authenticated true (emit (SendPacket req3) m))).
Proof using HL.
  intros Hm Hl Hi Hc Hct Hct' H1 H2 H3 H4 He3 He4. unfold _handle_step2.
  rewrite (bind_run_ok _ _ _ _ _ (check_step2_run k m j c peer d s Hc Hct H1 H2 H3)). cbn [when].
  set (s1 := fd_set_tasks _ s).
  rewrite (bind_run_ok _ _ _ _ _ (send_step3_run nonce k m i c' d req3 s1 Hm Hl Hi H4 Hct' He3)).
  set (m1 := emit (SendPacket req3) m). set (s2 := with_mirror k m1 s1).
  rewrite (bind_run_ok _ _ _ _ _ (alter_mirror_run k (set_authenticated true) m1 s2 (the_mirror_with k m1 s1))).
  set (m2 := set_authenticated true m1). set (s3 := with_mirror k m2 s2).
  rewrite (bind_run_ok (gets _) _ s3 (the_pusher k s3) s3) by done.
  match goal with |- context [bind (when ?b ?x) _ s3] =>
    assert (∃ s4, when b x s3 = (Ok tt, s4) ∧ fd_db s4 = fd_db s ∧ the_mirror k s4 = Some m2
      ∧ ∃ rest, fd_tasks s4 = fd_tasks s ++ PersistPeerKey peer (sig_pub_bytes j) :: rest) as (s4 & Hw & Hdb & Hm4 & rest & Ht) end.
  { destruct (bool_decide _ && _).
    - eexists. split; [done|]. split; [done|]. split; [apply the_mirror_with|]. simpl. rewrite <- app_assoc. by eexists.
    - exists s3. split; [done|]. split; [done|]. split; [apply the_mirror_with|]. by exists []. }
  rewrite (bind_run_ok _ _ _ _ _ Hw).
  assert (_sync_history nonce' m2 = (Ok tt, emit (SendPacket req4) m2)) as Hs.
  { unfold _sync_history. rewrite (bind_run_ok get _ m2 m2 m2) by done. destruct Hl as [l Hl]. simpl. rewrite Hl.
    rewrite (bind_run_ok (of_res _) _ _ req4 m2) by (unfold of_res, page_request in *; simpl; by rewrite He4). done. }
  unfold mirror_op, fd_mgr_op, lift, on_mirror. unfold the_mirror in Hm4. rewrite Hm4, Hs. eexists. split; [done|].
  split; [done|]. split; [by exists rest|]. unfold the_mirror. simpl. apply dict_get_set_eq.
Qed.

(** What a computation sends over the mirror's link, leaving its
    authentication alone. *)
Definition sends (P : mirror_out → Prop) (k : string) (s s' : FedState) : Prop :=
  ∀ m, the_mirror k s = Some m → ∃ m' out, the_mirror k s' = Some m' ∧ cm_authenticated m' = cm_authenticated m
    ∧ cm_out m' = cm_out m ++ out ∧ Forall P out.
#[local] Instance sends_preorder P k : PreOrder (sends P k).
Proof using.
  split; [intros s m Hm; exists m, []; by rewrite app_nil_r|]. intros a b c H1 H2 m Hm.
  destruct (H1 m Hm) as (m1 & o1 & Hm1 & Ha1 & Ho1 & Hp1), (H2 m1 Hm1) as (m2 & o2 & Hm2 & Ha2 & Ho2 & Hp2).
  exists m2, (o1 ++ o2). split_and!; [done|congruence|by rewrite Ho2, Ho1, app_assoc|by apply Forall_app].
Qed.

Lemma alter_mirror_sends P k f :
  (∀ m, ∃ out, cm_authenticated (f m) = cm_authenticated m ∧ cm_out (f m) = cm_out m ++ out ∧ Forall P out) →
  mrel (sends P k) (alter_mirror k f).
Proof using.
  intros Hf s m Hm. rewrite (alter_mirror_run k f m s Hm). destruct (Hf m) as (out & Ha & Ho & Hp).
  exists (f m), out. split; [apply the_mirror_with|done].
Qed.
Lemma quiet_mirror_sends P k f : (∀ m, cm_authenticated (f m) = cm_authenticated m ∧ cm_out (f m) = cm_out m) →
  mrel (sends P k) (alter_mirror k f).
Proof using. intros Hf. apply alter_mirror_sends. intros m. exists []. rewrite app_nil_r. destruct (Hf m). by split_and!. Qed.
Lemma pusher_sends P k f : mrel (sends P k) (alter_pusher k f).
Proof using. intros s m Hm. exists m, []. rewrite app_nil_r. by split_and!. Qed.
Lemma share_sends P k em : mrel (sends P k) (share k em).
Proof using.
  unfold share. mrel_auto; [|apply quiet_mirror_sends|apply pusher_sends].
  - apply mrel_modify. intros s m Hm. exists m, []. rewrite app_nil_r. by split_and!.
  - intros m. unfold refer_mirror. by destruct (cm_epoch_manager m).
Qed.

(** A request of the fifth step. *)
Definition epoch_request (nonce i : bytes) (o : mirror_out) : Prop :=
  ∃ frame r, o = SendPacket r ∧ encode_sync_request SYNC_FEDERATION_HANDSHAKE nonce (Some (step5_payload i frame)) = Ok r.

(** The epoch handshake returns, having sent at most its own request. *)
Lemma epoch_frame_sends nonce private_key k em i :
  mrel (sends (epoch_request nonce i) k)
    (let! frame := em_run k (create_epoch_rotate private_key) em in
     let! request := of_res (encode_sync_request SYNC_FEDERATION_HANDSHAKE nonce (Some (step5_payload i frame))) in
     send_packet true k request).
Proof using.
  apply mrel_bind; [typeclasses eauto| |intros frame].
  { unfold em_run. destruct (create_epoch_rotate private_key em). mrel_auto. apply share_sends. }
  destruct (encode_sync_request _ nonce (Some (step5_payload i frame))) as [r|e] eqn:E.
  - change (mrel (sends (epoch_request nonce i) k) (alter_mirror k (emit (SendPacket r)))).
    apply alter_mirror_sends. intros m. exists [SendPacket r]. split_and!; [done..|]. constructor; [|done]. by exists frame, r.
  - change (mrel (sends (epoch_request nonce i) k) (throw (A:=unit) e)). apply mrel_throw. typeclasses eauto.
Qed.

Lemma epoch_handshake_run nonce private_key k m i s : ns_identity node = Some i →
  ∃ s', _initiate_epoch_handshake node recall true nonce private_key k m s = (Ok tt, s')
  ∧ same_trust s s' ∧ sends (epoch_request nonce i) k s s'.
Proof using.
  intros Hi.
  pose proof (epoch_handshake_core node recall true nonce private_key k m s) as Hcore.
  assert (mrel (sends (epoch_request nonce i) k) (_initiate_epoch_handshake node recall true nonce private_key k m)) as Hs.
  { unfold _initiate_epoch_handshake. rewrite Hi. destruct (cm_link m); [|apply mrel_ret; typeclasses eauto].
    apply mrel_bind; [typeclasses eauto| |intros em].
    { unfold EpochOrchestrator.register. mrel_auto. apply mrel_modify. intros t x Hx. exists x, []. rewrite app_nil_r. by split_and!. }
    apply mrel_bind; [typeclasses eauto| |intros _].
    { apply mrel_catch; [typeclasses eauto|apply epoch_frame_sends|intros ?; apply mrel_ret; typeclasses eauto]. }
    mrel_auto; [by apply quiet_mirror_sends|apply pusher_sends]. }
  specialize (Hs s).
  assert ((_initiate_epoch_handshake node recall true nonce private_key k m s).1 = Ok tt) as Hok.
  { unfold _initiate_epoch_handshake. rewrite Hi. destruct (cm_link m); [|done].
    unfold bind at 1. assert (∃ em s1, EpochOrchestrator.register node k (hexrep (cm_remote_hash m)) true (recall (cm_remote_hash m)) s
      = (Ok em, s1)) as (em & s1 & ->).
    { unfold EpochOrchestrator.register, bind, gets. destruct (EpochOrchestrator.get k s); by do 2 eexists. }
    unfold bind at 1, catch at 1.
    match goal with |- context [?f s1] => destruct (f s1) as [[[]|e] s2] end; simpl;
      unfold bind, gets, alter_mirror, mirror_op, alter_pusher, fd_mgr_op, lift, on_mirror; simpl;
      by destruct (dict_get k (mg_mirrors (fd_mgr s2))). }
  destruct (_initiate_epoch_handshake _ _ _ _ _ _ _ s) as [r s']. simpl in *. subst r. by exists s'.
Qed.

(** The last answer authenticates the mirror, and starts the epoch handshake
    when both nodes are configured for it. *)
Lemma step4_run k m i nonce5 private_key now d s fs :
  the_mirror k s = Some m → ns_identity node = Some i → mget "step" d = VInt 4 → get_bool "fs_capable" d = fs →
  ∃ s', on_handshake_response node recall true now {| d_nonce := nonce5; d_nonce' := []; d_private := private_key; d_prefix := [] |} k d s
        = (Ok tt, s')
  ∧ fd_db s' = fd_db s ∧ fd_tasks s' = fd_tasks s
  ∧ ∃ m' out, the_mirror k s' = Some m' ∧ cm_authenticated m' = true ∧ cm_out m' = cm_out m ++ out
    ∧ Forall (epoch_request nonce5 i) out ∧ (fs && fs_enabled (ns_config node) = false → out = []).
Proof using.
  intros Hm Hi Hst Hfs. unfold on_handshake_response. rewrite (bind_run_ok (gets _) _ s (Some m) s) by (unfold gets; by rewrite Hm).
  rewrite Hst, Hfs. change (val_is 2 (VInt 4)) with false. change (val_is 4 (VInt 4)) with true. cbn [andb]. cbv iota.
  rewrite (bind_run_ok _ _ _ _ _ (alter_mirror_run k (set_authenticated true) m s Hm)).
  destruct (fs && fs_enabled (ns_config node)); cbn [when].
  - destruct (epoch_handshake_run nonce5 private_key k m i (with_mirror k (set_authenticated true m) s) Hi)
      as (s' & E & (Hdb & Ht & _) & Hs). exists s'. split; [exact E|]. split; [exact Hdb|]. split; [exact Ht|].
    destruct (Hs _ (the_mirror_with _ _ _)) as (m' & out & Hm' & Ha & Ho & Hp). by exists m', out.
  - eexists. split; [done|]. split; [done|]. split; [done|]. exists (set_authenticated true m), [].
    rewrite app_nil_r. split; [apply the_mirror_with|]. by split_and!.
Qed.

(** C18: The handshake of two honest nodes completes.  The packets that the
    initiator sends are decoded and answered by the responder, which knows the
    initiator, has room for a challenge and, when it has a rate limiter, two
    tokens left for it; the initiator takes the responder's documents.  In the end the
    responder trusts the initiator under its signing key, the mirror is
    authenticated and has asked for the history, and the main loop records the
    responder's key.  Whether or not the nodes are configured for forward
    secrecy: when both are, the initiator may have sent a request of the epoch
    handshake besides, and otherwise nothing else. *)
Theorem handshake_completes k m i j challenge nonce1 nonce2 nonce3 nonce5 private_key now1 now2 fresh fresh' ctx req1 req3 req4 p s t :
  let peer := IdentityManager.hexhash i in
  let fs := match fc_config ctx with Some c => fs_enabled c | None => false end in
  the_mirror k s = Some m → is_Some (cm_link m) → ns_identity node = Some i →
  fd_tasks s = [] → zlen challenge = 32 → list_true (fr_challenge fresh) = true →
  encode_sync_request SYNC_FEDERATION_HANDSHAKE nonce1 (Some (step1_payload node i challenge)) = Ok req1 →
  encode_sync_request SYNC_FEDERATION_HANDSHAKE nonce2 (Some (step3_payload i (id_sign i (fr_challenge fresh)))) = Ok req3 →
  encode_sync_request SYNC_HISTORY nonce3 (Some (page_request m)) = Ok req4 →
  (now1 <= now2)%F → limiter_lets ctx now1 peer 2 t → fc_node_rns_identity ctx = Some j → str_true peer = true →
  peers (fn_db t) !! peer = Some p → zlen (fn_pending t) < MAX_PENDING_CHALLENGES →
  ∃ s1 s2 s3 t1 t2 d2 d4,
    initiate node true nonce1 nonce3 challenge k s = (Ok tt, s1)
    ∧ respond ctx recall now1 fresh req1 t = (Ok d2, t1)
    ∧ on_handshake_response node recall true now1 {| d_nonce := nonce2; d_nonce' := nonce3; d_private := []; d_prefix := [] |} k d2 s1
      = (Ok tt, s2)
    ∧ respond ctx recall now2 fresh' req3 t1 = (Ok d4, t2)
    ∧ on_handshake_response node recall true now2 {| d_nonce := nonce5; d_nonce' := []; d_private := private_key; d_prefix := [] |} k d4 s2
      = (Ok tt, s3)
    ∧ (∃ p2, peers (fn_db t2) !! peer = Some p2 ∧ peer_federation_trusted p2 = true ∧ peer_public_key p2 = Some (sig_pub_bytes i))
    ∧ (∃ m3 out, the_mirror k s3 = Some m3 ∧ cm_authenticated m3 = true
        ∧ cm_out m3 = cm_out m ++ [SendPacket req1; SendPacket req3; SendPacket req4] ++ out
        ∧ Forall (epoch_request nonce5 i) out ∧ (fs && fs_enabled (ns_config node) = false → out = []))
    ∧ ∀ nonce, peers (fd_db (run_task true now2 recall nonce s3).2)
        = alter (set_peer_key (sig_pub_bytes j)) (fc_node_identity ctx) (peers (fd_db s)).
Proof using HL HPL.
  intros peer fs Hm Hl Hi Ht Hc Hf He1 He3 He4 Hle Hlim Hj Hpeer Hp Hpend.
  pose proof (initiate_run nonce1 nonce3 challenge k m i req1 s Hm Hl Hi He1) as Hinit.
  set (m1 := emit (SendPacket req1) m) in *. set (s1 := with_mirror k m1 _) in *.
  assert (Hct : list_true challenge = true) by (by destruct challenge).
  destruct (step1_run ctx recall now1 now2 2 fresh (step1_payload node i challenge) peer challenge p t
    eq_refl eq_refl eq_refl Hpeer Hp Hpend Hc) as (t0 & Hr1 & Hdb0 & Hpe0 & Hlim1); [lia|done|done|]. rewrite Hj in Hr1. cbn [fmap option_fmap option_map] in Hr1.
  set (t1 := greeted now1 fresh peer (step1_payload node i challenge) p t0) in *.
  set (reply := Step2 (fr_challenge fresh) (Some (id_sign j challenge)) (Some (sig_pub_bytes j))) in *.
  destruct (document (HandshakeReply (fc_node_name ctx) (fc_node_identity ctx) reply)) as [d2|] eqn:Hd2; [|done].
  pose proof (respond_run ctx recall now1 fresh _ _ req1 t _ t1 d2 He1 eq_refl Hr1 Hd2) as Hresp1.
  injection Hd2 as Hd2.
  destruct (step2_run nonce2 nonce3 k m1 i j challenge (fr_challenge fresh) (fc_node_identity ctx) d2 req3 req4 s1)
    as (s2 & H2 & Hdb2 & (rest & Ht2) & Hm2); try (by rewrite <- Hd2); try done.
  { apply the_mirror_with. }
  { simpl. apply dict_get_set_eq. }
  assert (on_handshake_response node recall true now1 {| d_nonce := nonce2; d_nonce' := nonce3; d_private := []; d_prefix := [] |} k d2 s1
      = (Ok tt, s2)) as Hresp2.
  { assert (the_mirror k s1 = Some m1) as Hm1 by apply the_mirror_with.
    unfold on_handshake_response. rewrite (bind_run_ok (gets _) _ s1 (Some m1) s1) by (unfold gets; by rewrite Hm1).
    assert (val_is 2 (mget "step" d2) && get_bool "accepted" d2 = true) as -> by (by rewrite <- Hd2). exact H2. }
  destruct (step3_run ctx recall now2 1 fresh' (step3_payload i (id_sign i (fr_challenge fresh))) peer (fr_challenge fresh) now1 i
    (greet_peer now1 peer (Some (ns_name node)) (Some p)) t1) as (t2 & Hr3 & Hp2); try done.
  { unfold fn_db. simpl. by rewrite lookup_insert_eq. }
  { simpl. by rewrite dict_get_set_eq. }
  fold fs in Hr3.
  pose proof (respond_run ctx recall now2 fresh' _ _ req3 t1 _ t2 _ He3 eq_refl Hr3 eq_refl) as Hresp3.
  match type of Hresp3 with _ = (Ok ?d, _) => set (d4 := d) in * end.
  set (m2 := emit (SendPacket req4) (set_authenticated true (emit (SendPacket req3) m1))) in *.
  destruct (step4_run k m2 i nonce5 private_key now2 d4 s2 fs Hm2 Hi eq_refl eq_refl) as (s3 & H4 & Hdb3 & Ht3 & m3 & out & Hm3 & Hout).
  exists s1, s2, s3, t1, t2, d2, d4. split_and!; try done.
  - eexists. split; [exact Hp2|]. done.
  - exists m3, out. destruct Hout as (Ha & Ho & Hep & Hnone). split_and!; try done. rewrite Ho. simpl. by rewrite <- !app_assoc.
  - intros nonce. unfold run_task. rewrite (bind_run_ok get _ _ _ _ eq_refl). rewrite Ht3, Ht2. simpl. rewrite Ht. simpl.
    unfold bind, modify, fd_db_op, lift, _persist_peer_public_key. rewrite sig_pub_len. simpl. by rewrite Hdb3, Hdb2.
Qed.
End completes.

(** A rotation after the first is refused: the responder of step 5 takes a
    manager of its own for every request, and that expects the chain hash of
    the first epoch. *)
Lemma rotation_refused `{R : RnsIdentity} `{HE : Ed25519} `{HK : KeyExchange} `{HS : Signing} {HKL : KeyExchangeLaws HK}
    {HSL : SigningLaws HS} ctx recall now fresh h frame ident private_key em s :
  _local_identity em = Some ident → 0 ≤ _current_epoch_id em + 1 < 2 ^ 64 → 0 ≤ epoch_duration em < 2 ^ 32 →
  zlen (_last_chain_hash em) = 32 → _last_chain_hash em ≠ replicate 32 0 →
  (create_epoch_rotate private_key em).1 = Ok frame →
  ∃ e, (handle_federation_handshake ctx recall now fresh
          [("step", VInt 5); ("identity_hash", VStr h); ("epoch_rotate_frame", VBytes frame)] s).1 = Raise e.
Proof.
  intros Hl He Hd Hc Hne Hf. destruct (create_rotate_run private_key ident em Hl He Hd) as [Hrun _].
  rewrite Hrun in Hf. injection Hf as <-.
  assert (Hstep : ∀ s, ∃ e, (handshake_step5 ctx recall now fresh h
    [("step", VInt 5); ("identity_hash", VStr h); ("epoch_rotate_frame", VBytes (rotate_frame private_key ident em))] s).1 = Raise e).
  { clear s. intros s. unfold handshake_step5. simpl. destruct (fc_node_rns_identity ctx) as [i|]; [|by eexists].
    destruct (fromhex _) as [raw|]; [|by eexists].
    unfold handle_epoch_rotate, bind, of_res, get. rewrite (decode_rotate_frame private_key ident em Hc Hl He Hd). simpl.
    destruct (recall raw) as [peer|]; [|by eexists]. unfold rotate_sign_data. rewrite (pack_u_range 8), (pack_u_range 4) by done.
    destruct (negb _); [by eexists|]. destruct (_ <=? 0); [by eexists|]. rewrite bool_decide_eq_false_2 by done. by eexists. }
  unfold handle_federation_handshake. simpl. destruct (str_true h); [|by eexists]. simpl.
  match goal with |- context [bind ?m _ s] => generalize m end. intros limit. unfold bind at 1.
  destruct (limit s) as [[u|e] s1]; [|by eexists]. unfold bind at 1, fn_ask, gets. destruct (negb _ && negb _); [by eexists|apply Hstep].
Qed.

(** ** Instances *)

Definition demo_side : NodeSide := {|
  ns_identity := Some [7]; ns_name := "init";
  ns_config := {| federation_auto_trust := false; fs_enabled := false; fs_epoch_duration := 3600; require_signed_federation := true |} |}.
Definition fs_side : NodeSide := {|
  ns_identity := Some [7]; ns_name := "init";
  ns_config := {| federation_auto_trust := false; fs_enabled := true; fs_epoch_duration := 3600; require_signed_federation := true |} |}.
Definition linked_mirror : ChannelMirror := set_link (Some 0%nat) (new_mirror [10] "c" 0).
Definition demo_key : string := mirror_key "0a" "c".
Definition demo_initiator : FedState := {|
  fd_db := set_peers (λ _, {[ "me" := demo_peer true (Some [5]) ]}) empty_db;
  fd_mgr := {| mg_mirrors := [(demo_key, linked_mirror)]; mg_pushers := [(demo_key, FederationPusher.init "me" "c" "init" (fz 600))] |};
  fd_managers := []; fd_challenges := []; fd_tasks := []; fd_rotations := [] |}.
Definition demo_responder : FedNode :=
  fn_set_node (set_db (set_peers (λ _, {[ @IdentityManager.hexhash toy_rns toy_signing [7] := demo_peer false None ]}) empty_db) (demo_node []))
    (demo_fed (demo_peer false None) (demo_node [])).

Definition demo_challenge : bytes := replicate 32 3.
Definition answer2 : dict string val :=
  [("step", VInt 2); ("accepted", VBool true); ("challenge_response", VBytes (@id_sign toy_signing [1] demo_challenge));
   ("peer_public_key", VBytes (@sig_pub_bytes toy_rns [1])); ("identity_hash", VStr "me")].
Definition demo_draw : Draw := {| d_nonce := replicate 16 1; d_nonce' := replicate 16 2; d_private := []; d_prefix := [] |}.
Definition demo_steps : list fed_step :=
  [FInitiate (replicate 16 0) (replicate 16 0) demo_challenge demo_key; FResponse (fz 1) demo_draw demo_key answer2;
   FTask (fz 2) (λ _, None) []; FPushAck demo_key [("received", VList [VInt 7])]; FTask (fz 2) (λ _, None) [];
   FTask (fz 2) (λ _, None) []].

(** The documents of the demonstration. *)
Definition request_doc (action : Z) (nonce : bytes) (payload : dict string val) : val :=
  VDict [("v", VInt WIRE_VERSION); ("action", VInt action); ("nonce", VBytes nonce); ("payload", VDict payload)].
Definition fed_pack : Msgpack := table_msgpack
  [request_doc SYNC_FEDERATION_HANDSHAKE (replicate 16 0) (@step1_payload toy_rns toy_signing demo_side [7] demo_challenge);
   request_doc SYNC_FEDERATION_HANDSHAKE (replicate 16 1)
     (@step3_payload toy_rns toy_signing [7] (@id_sign toy_signing [7] (fr_challenge demo_fresh)));
   request_doc SYNC_HISTORY (replicate 16 2) (page_request linked_mirror)].

Lemma peer_key_shown_witness :
  let s' := foldl (@run_fed toy_rns toy_ed toy_kx toy_signing fed_pack toy_aead demo_side (λ _, None) true) demo_initiator demo_steps in
  ∃ p, peers (fd_db demo_initiator) !! "me" = Some p
  ∧ same_row p (set_push_cursor "c" 7 (set_peer_key (@sig_pub_bytes toy_rns [1]) (demo_peer true (Some [5]))))
  ∧ (Some (@sig_pub_bytes toy_rns [1]) = peer_public_key p
     ∨ ∃ key, Some (@sig_pub_bytes toy_rns [1]) = Some key ∧ @shown toy_ed (flat_map drawn_by demo_steps) key).
Proof.
  intros s'.
  apply (@peer_key_shown toy_rns toy_ed toy_kx toy_signing fed_pack toy_aead demo_side (λ _, None) true demo_initiator demo_steps "me");
    [reflexivity|intros k; reflexivity|vm_compute; reflexivity].
Defined.

(** Both nodes have forward secrecy on, and the responder limits the rate. *)
Definition limited_ctx : FederationContext := {|
  fc_config := Some (ns_config fs_side); fc_live_manager := true; fc_node_identity := "me"; fc_node_name := "me";
  fc_node_rns_identity := Some [1]; fc_rate_limiter := true |}.

Lemma handshake_completes_witness :
  ∃ s3 t2, (∃ p2, peers (fn_db t2) !! @IdentityManager.hexhash toy_rns toy_signing [7] = Some p2
              ∧ peer_federation_trusted p2 = true ∧ peer_public_key p2 = Some (@sig_pub_bytes toy_rns [7]))
  ∧ (∃ m3 out, the_mirror demo_key s3 = Some m3 ∧ cm_authenticated m3 = true
      ∧ cm_out m3 = [SendPacket [0; 1; 0]; SendPacket [0; 1; 1]; SendPacket [0; 1; 2]] ++ out)
  ∧ ∀ nonce, peers (fd_db (@run_task fed_pack toy_aead true (fz 2) (λ _, None) nonce s3).2)
      = alter (set_peer_key (@sig_pub_bytes toy_rns [1])) "me" (peers (fd_db demo_initiator)).
Proof.
  destruct (@handshake_completes toy_rns toy_ed toy_kx toy_signing fed_pack toy_aead toy_rns_laws (table_msgpack_laws _) fs_side
    (λ _, None) demo_key linked_mirror [7] [1] demo_challenge (replicate 16 0) (replicate 16 1) (replicate 16 2) (replicate 16 5) [6] (fz 1) (fz 2)
    demo_fresh demo_fresh limited_ctx [0; 1; 0] [0; 1; 1] [0; 1; 2] (demo_peer false None) demo_initiator demo_responder)
    as (s1 & s2 & s3 & t1 & t2 & d2 & d4 & _ & _ & _ & _ & _ & Hp & (m3 & out & Hm & Ha & Ho & _) & Ht).
  1: reflexivity.
  1: by exists 0%nat.
  1-7: vm_compute; reflexivity.
  1: vm_compute; congruence.
  1: { intros _. split; [|split]; [vm_compute; reflexivity|vm_compute; congruence|vm_compute; congruence]. }
  1-4: vm_compute; reflexivity.
  - exists s3, t2. split; [exact Hp|]. split; [|exact Ht]. exists m3, out. split; [exact Hm|]. split; [exact Ha|exact Ho].
Defined.

(** ** What modelling showed *)

(** An answer that proves nothing, neither a signature nor a key, makes the
    mirror authenticated although signed federation is required, and what is
    pending is pushed over it. *)
Example unproved_peer_authenticated :
  let s := foldl (@run_fed toy_rns toy_ed toy_kx toy_signing fed_pack toy_aead demo_side (λ _, None) true) demo_initiator
    [FInitiate (replicate 16 0) (replicate 16 0) demo_challenge demo_key;
     FResponse (fz 1) demo_draw demo_key [("step", VInt 2); ("accepted", VBool true)]] in
  require_signed_federation (ns_config demo_side) = true ∧ cm_authenticated <$> the_mirror demo_key s = Some true ∧ fd_tasks s = [PushPending demo_key].
Proof. by vm_compute. Qed.

(** Two channels of one peer have an epoch manager each and share a row, which
    the last one writes: after a restart the first mirror has the keys of the
    second, and the second none. *)
Definition keyed_manager (key : bytes) : EpochManager :=
  @_activate_epoch toy_kx (fz 1) (replicate 16 9) 1 (pad 32 key) (pad 32 key) (pad 32 key)
    (new_manager "0a" true (Some [7]) None 3600).
Definition two_channels (managers : dict string EpochManager) : FedState := {|
  fd_db := empty_db;
  fd_mgr := {| mg_mirrors := [(mirror_key "0a" "c", new_mirror [10] "c" 0); (mirror_key "0a" "d", new_mirror [10] "d" 0)];
               mg_pushers := [] |};
  fd_managers := managers; fd_challenges := []; fd_tasks := []; fd_rotations := [] |}.
Example shared_epoch_row :
  let s := two_channels [(mirror_key "0a" "c", keyed_manager [1]); (mirror_key "0a" "d", keyed_manager [2])] in
  let saved := (@EpochOrchestrator.persist_all toy_kx toy_signing toy_aead (fz 5) (λ _, (replicate 24 1, replicate 24 2)) s).2 in
  let s' := (@EpochOrchestrator.load_states toy_kx toy_signing toy_aead fs_side (λ _, None)
               (fd_set_db (fd_db saved) (two_channels []))).2 in
  (EpochOrchestrator.get (mirror_key "0a" "c") s' ≫= _send_key) = Some (pad 32 [2])
  ∧ EpochOrchestrator.get (mirror_key "0a" "d") s' = None.
Proof. vm_compute. done. Qed.
