(* ===== verification/Upkeep.v ===== *)
(** * One maintenance run ([core/maintenance_scheduler.py])

    [MaintenanceScheduler.run_maintenance] over the whole node: the pruning
    transaction (Maintenance.v), VACUUM, the expiry of sessions (Session.v), the
    flush of batched pushes (Live.v), the epochs (Handshake.v), the rotation of
    sealed keys (Roles.v) and the tables in memory (RateLimit.v, Invites.v,
    Server.v), one after the other under a single [except].  A run never adds
    or rewrites a message and keeps the database well formed; and because there
    is a single [except], one step that fails keeps all that come after it from
    running, for as long as it fails. *)

From S2P Require Import Prelude Constants Models Queries Permissions RateLimit Ban Sealed Sequencer Message Ingest Wire Verification History Epoch Invites Session Live Media Maintenance Bootstrap Roles FedAuth FedPush Mirror Metadata Server Requests Channels Handshake.

(** ** The node and what a run is given *)

(** The state of the handlers, the media files, the federation side (whose
    database is the server's, see [fed_view]) and the LXMF messages sent. *)
Record Upkeep := {
  up_server : Server;
  up_files : files;
  up_fed : FedState;
  up_sent : list (string * bytes);
}.
Definition up_db (u : Upkeep) : DB := sv_db (up_server u).
Definition up_set_server (s : Server) (u : Upkeep) : Upkeep :=
  {| up_server := s; up_files := up_files u; up_fed := up_fed u; up_sent := up_sent u |}.
Definition up_set_db (db : DB) (u : Upkeep) : Upkeep := up_set_server (sv_set_db db (up_server u)) u.
Definition up_op {A} (m : M DB A) : M Upkeep A := lift up_db up_set_db m.
Definition server_op {A} (m : M Server A) : M Upkeep A := lift up_server up_set_server m.

Definition store_view (u : Upkeep) : Store := {| st_db := up_db u; st_files := up_files u |}.
Definition set_store (s : Store) (u : Upkeep) : Upkeep :=
  {| up_server := sv_set_db (st_db s) (up_server u); up_files := st_files s; up_fed := up_fed u; up_sent := up_sent u |}.

Definition fed_view (u : Upkeep) : FedState := fd_set_db (up_db u) (up_fed u).
Definition set_fed (f : FedState) (u : Upkeep) : Upkeep :=
  {| up_server := sv_set_db (fd_db f) (up_server u); up_files := up_files u; up_fed := f; up_sent := up_sent u |}.

Definition sv_set_sealed (mgr : SealedChannelManager.t) (s : Server) : Server := {|
  sv_node := sv_node s; sv_redemption_attempts := sv_redemption_attempts s;
  sv_failure_attempts := sv_failure_attempts s; sv_blocked_until := sv_blocked_until s; sv_cdsp := sv_cdsp s;
  sv_live := sv_live s; sv_sealed := Some mgr; sv_bans := sv_bans s; sv_bindings := sv_bindings s;
  sv_pending := sv_pending s; sv_nonces := sv_nonces s |}.
Definition key_view (mgr : SealedChannelManager.t) (u : Upkeep) : KeyState :=
  {| ks_db := up_db u; ks_mgr := mgr; ks_sent := up_sent u |}.
Definition set_keys (k : KeyState) (u : Upkeep) : Upkeep :=
  {| up_server := sv_set_sealed (ks_mgr k) (sv_set_db (ks_db k) (up_server u)); up_files := up_files u;
     up_fed := up_fed u; up_sent := ks_sent k |}.

(** The collaborators of the scheduler; [None] and [false] where it has none. *)
Record UpkeepConfig := {
  uc_retention_days : Z;
  uc_metadata_scrub_days : Z;
  uc_media_dir : path;
  uc_cwd : path;
  uc_cdsp : option Z;                        (* the session timeout of the CDSP manager *)
  uc_live : bool;
  uc_epochs : bool;
  uc_node_identity : option string;          (* its hash *)
  uc_bridge : option (string → bool);        (* whether it has a router for a channel *)
  uc_rate_limiter : bool;
  uc_sync_handler : option bool;             (* whether it has an invite manager *)
}.

(** What differs between runs: the time, random bytes, and what VACUUM does. *)
Record Turn := {
  tn_now : float;
  tn_nonces : string → bytes * bytes;
  tn_fresh : string → bytes;
  tn_vacuum : res unit;
}.

(** ** The run *)

Section run.
Context `{E : Envelope} `{PK : PeerKeys} `{HP : Msgpack} `{HK : KeyExchange} `{HS : Signing} `{HA : Aead} `{HM : LinkMdu}.
Context (g : UpkeepConfig) (net : Net) (lx : LiveSubscriptionManager.Lxmf).

(** Rounds for every stored message, and one more. *)
Definition prune_fuel (u : Upkeep) : nat := S ((size (messages (up_db u)) + 499) / 500).
Definition prune (t : Turn) : M Upkeep bool :=
  let! u := get in
  lift store_view set_store
    (prune_tx (uc_media_dir g) (uc_cwd g) (tn_now t) (prune_fuel u) (uc_retention_days g) (uc_metadata_scrub_days g)).

Definition expire_sessions (t : Turn) : M Upkeep unit :=
  match uc_cdsp g with
  | Some timeout =>
      up_op (atomic (λ db _, db) (CDSPSessionManager.cleanup_expired_sessions (tn_now t) timeout)) ;; ret tt
  | None => ret tt
  end.

Definition flush_live : M Upkeep unit :=
  when (uc_live g) (server_op (lift sv_live sv_set_live (modify (LiveSubscriptionManager.flush_batches net lx)))).

Definition persist_epochs (t : Turn) : M Upkeep unit :=
  when (uc_epochs g) (lift fed_view set_fed (EpochOrchestrator.persist_all (tn_now t) (tn_nonces t))).

Definition rotate_sealed (t : Turn) : M Upkeep unit :=
  let! mgr := gets (λ u, sv_sealed (up_server u)) in
  match mgr, uc_node_identity g, uc_bridge g with
  | Some mgr, Some node, Some router =>
      lift (key_view mgr) set_keys (_check_sealed_key_rotation node (tn_now t) (tn_fresh t) router)
  | _, _, _ => ret tt
  end.

(** The defaults of the [max_age] parameters. *)
Definition clean_tables (t : Turn) : M Upkeep unit :=
  when (uc_rate_limiter g) (server_op (session_op (rl_op (RateLimiter.cleanup_stale (tn_now t) (fz 3600))))) ;;
  match uc_sync_handler g with
  | Some invite_manager =>
      when invite_manager (server_op (session_op (iv_op (InviteManager.cleanup_stale (tn_now t) (fz 3600))))) ;;
      server_op (modify (cleanup_stale_challenges (tn_now t) (fz 300)))
  | None => ret tt
  end.

Definition steps (t : Turn) : M Upkeep unit :=
  prune t ;; of_res (tn_vacuum t) ;; expire_sessions t ;; flush_live ;; persist_epochs t ;; rotate_sealed t ;; clean_tables t.

Definition run_maintenance (t : Turn) : M Upkeep unit := catch (steps t) (λ _, ret tt).
End run.

(** ** What a run may do to the database *)

(** No message is new, and a message keeps all but its sender; the database
    stays well formed. *)
Record upkept (db db' : DB) : Prop := {
  uk_ok : db_ok db → db_ok db';
  uk_sessions : sessions_ok db → sessions_ok db';
  uk_rows : ∀ h m', messages db' !! h = Some m' → ∃ m, messages db !! h = Some m ∧ scrub_row m' = scrub_row m;
}.

#[export] Instance upkept_preorder : PreOrder upkept.
Proof.
  split; [intros db; split; eauto|]. intros a b c [H1 H2 H3] [K1 K2 K3]. split; [auto|auto|].
  intros h m (m1 & (m0 & E0 & S0)%H3 & S1)%K3. exists m0. split; [done|congruence].
Qed.

(** Steps that leave the messages, channels, threads and sessions alone. *)
Definition core_kept (db db' : DB) : Prop := same_core db db' ∧ sessions db' = sessions db.

#[export] Instance core_kept_preorder : PreOrder core_kept.
Proof.
  split; [by intros db|]. intros a b c [(A1 & A2 & A3) A4] [(B1 & B2 & B3) B4].
  split; [split_and!|]; congruence.
Qed.

Lemma core_kept_upkept db db' : core_kept db db' → upkept db db'.
Proof.
  intros [Hc Hs]. split; [by apply db_ok_same|by apply sessions_ok_same|].
  destruct Hc as (_ & -> & _). eauto.
Qed.

Definition rows_kept (db db' : DB) : Prop :=
  sessions db' = sessions db ∧
  ∀ h m', messages db' !! h = Some m' → ∃ m, messages db !! h = Some m ∧ scrub_row m' = scrub_row m.

#[export] Instance rows_kept_preorder : PreOrder rows_kept.
Proof.
  split; [intros db; split; eauto|]. intros a b c [E1 H1] [E2 H2]. split; [congruence|].
  intros h m (m1 & (m0 & E0 & S0)%H1 & S1)%H2. exists m0. split; [done|congruence].
Qed.

Lemma rows_kept_sub f db : (∀ t, f t ⊆ t) → rows_kept db (set_messages f db).
Proof. intros Hf. split; [done|]. intros h m Hm. exists m. split; [|done]. simpl in Hm. by eapply lookup_weaken. Qed.

Section pruning.
Context (dir cwd : path) (now : float).

Abbreviation store_rows := (λ s s', rows_kept (st_db s) (st_db s')).

#[local] Instance store_rows_preorder : PreOrder store_rows.
Proof using. split; [by intros s|]. intros a b c. apply transitivity. Qed.

Lemma st_op_rows {A} (m : M DB A) : mrel rows_kept m → mrel store_rows (st_op m).
Proof using. intros Hm. by eapply mrel_lift; [exact Hm|]. Qed.

Lemma delete_batch_rows batch : mrel store_rows (delete_batch dir cwd batch).
Proof using.
  intros s. destruct (delete_batch_run dir cwd batch s) as (s1 & -> & E). simpl. rewrite E.
  destruct (existsb _ _); [done|]. apply rows_kept_sub. intros t. unfold drop_rows.
  clear E. induction batch as [|m l IH]; [done|]. simpl. etrans; [apply delete_subseteq|exact IH].
Qed.

Lemma prune_batches_rows P fuel : ∀ count, mrel store_rows (prune_batches dir cwd P fuel count).
Proof using. induction fuel as [|fuel IH]; intros count; cbn [prune_batches]; mrel_auto. apply delete_batch_rows. Qed.

Lemma bulk_delete_rows P : mrel rows_kept (bulk_delete P).
Proof using.
  intros db. unfold bulk_delete, bind, get. destruct (existsb _ _); [done|]. simpl.
  apply rows_kept_sub. intros t. apply map_filter_subseteq.
Qed.

Lemma scrub_rows days : mrel rows_kept (scrub_metadata now days).
Proof using.
  intros db. unfold scrub_metadata. destruct (days <=? 0); [done|]. simpl. split; [done|]. simpl. intros h m'.
  rewrite lookup_fmap_Some. intros (m & <- & Hm). exists m. split; [done|]. by destruct (scrubbed _ _ _).
Qed.

Lemma prune_tx_rows fuel days scrub : mrel store_rows (prune_tx dir cwd now fuel days scrub).
Proof using.
  apply prune_tx_mrel; [typeclasses eauto|by intros s s'| | | | |].
  - intros _. unfold prune_old_messages. mrel_auto; [apply prune_batches_rows|apply st_op_rows, bulk_delete_rows].
  - apply prune_batches_rows.
  - unfold prune_retention. mrel_step; [mrel_auto|]. apply mrel_mfold; [typeclasses eauto|].
    intros t c. mrel_auto. apply delete_batch_rows.
  - apply st_op_rows. intros db. by split; [|eauto].
  - apply st_op_rows, scrub_rows.
Qed.

Lemma prune_tx_upkept fuel days scrub : mrel (λ s s', upkept (st_db s) (st_db s')) (prune_tx dir cwd now fuel days scrub).
Proof using.
  intros s. destruct (prune_tx_rows fuel days scrub s) as [H1 H2]. split; [|by apply sessions_ok_same|done].
  apply (prune_tx_keeps dir cwd now).
Qed.
End pruning.

(** ** The steps after the pruning *)

Lemma cleanup_upkept now timeout : mrel upkept (CDSPSessionManager.cleanup_expired_sessions now timeout).
Proof.
  intros db. split; [|apply keeps_cleanup|simpl; eauto].
  by apply db_ok_same.
Qed.

Lemma persist_all_core `{KeyExchange} `{Signing} `{Aead} now nonces :
  mrel (λ s s', core_kept (fd_db s) (fd_db s')) (EpochOrchestrator.persist_all now nonces).
Proof.
  assert (PreOrder (λ s s', core_kept (fd_db s) (fd_db s'))).
  { split; [by intros s|]. intros a b c. apply transitivity. }
  unfold EpochOrchestrator.persist_all. mrel_step; [mrel_auto|]. apply mrel_mfold; [typeclasses eauto|].
  intros _ p. apply mrel_when; [typeclasses eauto|]. apply mrel_catch; [typeclasses eauto| |intros e; mrel_auto].
  eapply mrel_lift with (Rc := core_kept); [|done]. by intros db.
Qed.

Section rotation_core.
Context `{E : Envelope} `{PK : PeerKeys} `{HP : Msgpack} (node_hash : string).

Abbreviation keys_core := (λ s s', core_kept (ks_db s) (ks_db s')).

#[local] Instance keys_core_preorder : PreOrder keys_core.
Proof using. split; [by intros s|]. intros a b c. apply transitivity. Qed.

Lemma rotate_stale_core now fresh router ch : mrel keys_core (rotate_stale node_hash now fresh router ch).
Proof using.
  unfold rotate_stale, rotate_and_distribute. mrel_auto.
  - by apply mrel_modify.
  - by apply mrel_modify.
  - eapply mrel_lift with (Rc := core_kept); [|done]. unfold SealedChannelManager.persist_key, check_fk. intros db.
    destruct (SealedChannelManager._keys _ !! _); [|done]. unfold bind, gets. simpl. by destruct (channels db !! _).
Qed.

Lemma key_rotation_core now fresh router : mrel keys_core (_check_sealed_key_rotation node_hash now fresh router).
Proof using.
  intros s. unfold _check_sealed_key_rotation, atomic.
  match goal with |- context [match ?m s with _ => _ end] => assert (mrel keys_core m) as Hm end.
  { mrel_step; [mrel_auto|]. apply mrel_mfold; [typeclasses eauto|]. intros _ ch. apply rotate_stale_core. }
  specialize (Hm s). match goal with |- context [match ?m s with _ => _ end] => by destruct (m s) as [[]] end.
Qed.
End rotation_core.

(** ** The whole run *)

Lemma sv_set_db_same s : sv_set_db (sv_db s) s = s.
Proof. by destruct s as [[] ? ? ? ? ? ? ? ? ? ?]. Qed.

(** The rounds of [prune_fuel] are enough. *)
Lemma prune_tx_rounds dir cwd now fuel days scrub s b s' :
  db_ok (st_db s) → ((size (messages (st_db s)) + 499) / 500 < fuel)%nat →
  prune_tx dir cwd now fuel days scrub s = (Ok b, s') → b = true.
Proof.
  intros Hok Hf. unfold prune_tx, atomic.
  assert (∃ r1 s1, (if 0 <? days then prune_old_messages dir cwd now fuel days else ret (Some 0)) s = (r1, s1)
    ∧ ∀ o, r1 = Ok o → is_Some o ∧ db_ok (st_db s1) ∧ messages (st_db s1) ⊆ messages (st_db s)) as (r1 & s1 & E1 & H1).
  { destruct (Z.ltb_spec 0 days) as [Hd|Hd].
    - destruct (prune_old_spec dir cwd now days fuel s Hd (db_ok_keyed _ Hok)) as (s1 & E & E1); [by apply fuel_enough|].
      exists (if blocked (older now days) (st_db s) then Raise (Exn IntegrityError "FOREIGN KEY constraint failed")
              else Ok (Some (Z.of_nat (matching (older now days) (st_db s))))), s1. split; [exact E|].
      destruct (blocked _ _) eqn:Eb; [done|]. intros o [= <-]. rewrite E1 by done. split_and!; [by eexists|by apply db_ok_filter|].
      apply map_filter_subseteq.
    - exists (Ok (Some 0)), s. split; [done|]. intros o [= <-]. by split_and!. }
  unfold bind at 1. rewrite E1. destruct r1 as [o|e]; [|done]. destruct (H1 o eq_refl) as (Ho & Hok1 & Hsub).
  unfold bind at 1, prune_expired_messages.
  destruct (prune_batches_spec dir cwd (past_ttl now) fuel 0 s1 (db_ok_keyed _ Hok1)) as (s2 & -> & _).
  { eapply Nat.le_lt_trans; [|exact Hf]. apply Nat.Div0.div_le_mono.
    pose proof (matching_size (past_ttl now) (st_db s1)). apply map_subseteq_size in Hsub. lia. }
  destruct (blocked _ _); [done|]. unfold bind at 1. destruct (prune_retention dir cwd s2) as [[n|e] s3]; [|done].
  unfold bind at 1. destruct (st_op _ s3) as [[n'|e] s4]; [|done].
  unfold bind at 1. match goal with |- context [if 0 <? scrub then ?a else ?b] =>
    destruct ((if 0 <? scrub then a else b) s4) as [[x|e] s5]; [|done] end.
  cbn [ret]. rewrite (bool_decide_true (is_Some o)) by done. by intros [= <- _].
Qed.

Section theorems.
Context `{E : Envelope} `{PK : PeerKeys} `{HP : Msgpack} `{HK : KeyExchange} `{HS : Signing} `{HA : Aead} `{HM : LinkMdu}.
Context (g : UpkeepConfig) (net : Net) (lx : LiveSubscriptionManager.Lxmf).

Definition up_kept (u u' : Upkeep) : Prop :=
  upkept (up_db u) (up_db u') ∧ (live_ok (sv_live (up_server u)) → live_ok (sv_live (up_server u'))).

#[local] Instance up_kept_preorder : PreOrder up_kept.
Proof using.
  split; [by intros u|]. intros a b c [H1 H2] [K1 K2]. split; [by etrans|auto].
Qed.

Lemma steps_kept t : mrel up_kept (steps g net lx t).
Proof using.
  unfold steps. mrel_step; [|mrel_step; [mrel_auto|mrel_step; [|mrel_step; [|mrel_step; [|mrel_step]]]]].
  - unfold prune. mrel_step; [mrel_auto|]. eapply mrel_lift with (Rc := λ s s', upkept (st_db s) (st_db s')).
    + intros s. apply prune_tx_upkept.
    + intros u s H. by split.
  - unfold expire_sessions. destruct (uc_cdsp g); mrel_auto. eapply mrel_lift with (Rc := upkept); [|by intros u db H].
    intros db. unfold atomic. pose proof (cleanup_upkept (tn_now t) z db) as H.
    by destruct (CDSPSessionManager.cleanup_expired_sessions _ _ db) as [[] ].
  - unfold flush_live. mrel_auto. eapply mrel_lift with (Rc := λ s s', core_kept (sv_db s) (sv_db s') ∧ (live_ok (sv_live s) → live_ok (sv_live s'))).
    + eapply mrel_lift with (Rc := Prelude.keeps live_ok); [|by intros s l H].
      intros l Hl. by apply flush_batches_ok.
    + intros u s [H1 H2]. split; [by apply core_kept_upkept|done].
  - unfold persist_epochs. mrel_auto. eapply mrel_lift; [apply persist_all_core|].
    intros u f H. split; [|done]. by apply core_kept_upkept.
  - unfold rotate_sealed. apply mrel_bind; [typeclasses eauto|mrel_auto|intros [mgr|]; [|mrel_auto]].
    destruct (uc_node_identity g), (uc_bridge g); mrel_auto.
    eapply mrel_lift; [apply key_rotation_core|]. intros u k H. split; [|done]. by apply core_kept_upkept.
  - unfold clean_tables. mrel_step; [|destruct (uc_sync_handler g); [mrel_step|mrel_auto]].
    all: try (apply mrel_when; [typeclasses eauto|]); intros u; split; done.
Qed.
(** C35: A maintenance run does not fail, whatever fails in it: afterwards the
    database is as well formed as before and no identity has two active
    sessions, the live subscriptions are within their bounds, and every message
    that is still there was there before and is unchanged, its sender aside;
    nor do its pruning loops ever run out of rounds. *)
Theorem upkeep_keeps_node t u :
  server_ok (up_server u) → live_ok (sv_live (up_server u)) →
  ∃ u', run_maintenance g net lx t u = (Ok tt, u') ∧ server_ok (up_server u') ∧ live_ok (sv_live (up_server u'))
  ∧ (∀ h m', messages (up_db u') !! h = Some m' →
       ∃ m, messages (up_db u) !! h = Some m ∧ scrub_row m' = scrub_row m)
  ∧ (∀ b u1, prune g t u = (Ok b, u1) → b = true).
Proof using.
  intros [Hdb Hs] Hl. destruct (swallow_run up_kept true (steps g net lx t) u (steps_kept t)) as (u' & Eu & Hk & Hlive).
  exists u'. destruct Hk as [K1 K2 K3]. split_and!; [exact Eu|split; auto|auto|exact K3|].
  intros b u1. unfold prune, bind, get, lift. destruct (prune_tx _ _ _ _ _ _ _) as [r s'] eqn:Ep. intros [= -> _].
  eapply prune_tx_rounds; [| |exact Ep]; [done|]. unfold prune_fuel. simpl. lia.
Qed.

(** A run whose pruning fails is over. *)
Lemma failed_prune t u e s' :
  prune_tx (uc_media_dir g) (uc_cwd g) (tn_now t) (prune_fuel u) (uc_retention_days g) (uc_metadata_scrub_days g)
    (store_view u) = (Raise e, s') →
  run_maintenance g net lx t u = (Ok tt, set_store s' u).
Proof using.
  intros Ep. unfold run_maintenance, catch, steps, bind at 1, prune, bind, get, lift. by rewrite Ep.
Qed.

(** C36: One message that started a thread and is past its time to live, or
    past the retention period, stops all upkeep: from then on, however often
    maintenance runs, no session expires, no batched push is flushed, no epoch
    is persisted, no sealed key is rotated and no table in memory is trimmed;
    a run changes nothing but media files. *)
Theorem thread_root_stops_upkeep h m now u ts :
  db_ok (up_db u) → messages (up_db u) !! h = Some m → is_Some (threads (up_db u) !! h) →
  past_ttl now m = true ∨ (0 < uc_retention_days g ∧ older now (uc_retention_days g) m = true) →
  Forall (λ t, fle now (tn_now t) = true) ts →
  let u' := foldl (λ u t, (run_maintenance g net lx t u).2) u ts in
  up_server u' = up_server u ∧ up_fed u' = up_fed u ∧ up_sent u' = up_sent u.
Proof using.
  intros Hok Hm Ht Hold Hts. revert u Hok Hm Ht. induction Hts as [|t ts Hnow _ IH]; intros u Hok Hm Ht; [done|]. simpl.
  destruct (thread_root_stops_pruning (uc_media_dir g) (uc_cwd g) now (tn_now t) (prune_fuel u) (uc_retention_days g)
    (uc_metadata_scrub_days g) (store_view u) h m) as (s' & Ep & Es); try done.
  { unfold prune_fuel. simpl. lia. }
  rewrite (failed_prune _ _ _ _ Ep). simpl.
  assert (up_server (set_store s' u) = up_server u) as Esrv by (simpl; rewrite Es; apply sv_set_db_same).
  destruct (IH (set_store s' u)) as (H1 & H2 & H3); try (unfold up_db; by rewrite Esrv).
  cbn zeta in H1, H2, H3. rewrite H1, H2, H3. by split_and!.
Qed.
End theorems.

(** ** Closed runs *)

(** A node with an expired session, an old message and perhaps its thread. *)
Definition upkeep_db (threaded : bool) : DB :=
  set_sessions (λ _, {[ "s1" := new_session (fz 0) "s1" [7] 50 "bob" CDSP_PROFILE_FULL 1 ]}) (small_db threaded).
Definition upkeep_state (threaded : bool) : Upkeep := {|
  up_server := sv_set_db (upkeep_db threaded) demo_server; up_files := demo_files; up_fed := demo_initiator; up_sent := [] |}.
Definition upkeep_config : UpkeepConfig := {|
  uc_retention_days := 0; uc_metadata_scrub_days := 0; uc_media_dir := ["m"]; uc_cwd := ["srv"]; uc_cdsp := Some 60;
  uc_live := true; uc_epochs := true; uc_node_identity := Some "me"; uc_bridge := Some (λ _, true);
  uc_rate_limiter := true; uc_sync_handler := Some true |}.
Definition turn_at (t : Z) : Turn := {|
  tn_now := fz t; tn_nonces := λ _, ([1], [2]); tn_fresh := λ _, [4]; tn_vacuum := Ok tt |}.

Abbreviation demo_upkeep := (@run_maintenance toy_env toy_peers full_msgpack FedAuth.toy_kx toy_signing toy_aead 500
  upkeep_config (λ _, LinkActive) (None, λ _, true)).
Abbreviation demo_upkeeps := (foldl (λ u t, (demo_upkeep t u).2)).

Lemma upkeep_db_ok b : server_ok (up_server (upkeep_state b)).
Proof.
  split.
  - eapply db_ok_same; [|exact (small_ok b)]. done.
  - split; simpl.
    + by intros k s [<- <-]%lookup_singleton_Some.
    + by intros k1 k2 s1 s2 [<- <-]%lookup_singleton_Some [<- <-]%lookup_singleton_Some.
Qed.

Lemma upkeep_keeps_node_witness :
  server_ok (up_server (demo_upkeep (turn_at 200) (upkeep_state false)).2)
  ∧ messages (up_db (demo_upkeep (turn_at 200) (upkeep_state false)).2) !! "m" = None
  ∧ sessions (up_db (demo_upkeep (turn_at 200) (upkeep_state false)).2) !! "s1" = None.
Proof.
  destruct (@upkeep_keeps_node toy_env toy_peers full_msgpack FedAuth.toy_kx toy_signing toy_aead 500
    upkeep_config (λ _, LinkActive) (None, λ _, true) (turn_at 200) (upkeep_state false)) as (u' & Eu & H & _).
  - apply upkeep_db_ok.
  - apply live_init_ok.
  - rewrite Eu. cbn [snd]. split; [done|].
    assert (u' = (demo_upkeep (turn_at 200) (upkeep_state false)).2) as -> by (by rewrite Eu).
    split; vm_compute; reflexivity.
Defined.

(** The same node with the thread, maintained three times: the session that
    expired long ago is still there. *)
Lemma thread_root_stops_upkeep_witness :
  sessions (up_db (demo_upkeeps (upkeep_state true) [turn_at 200; turn_at 5000; turn_at 90000])) !! "s1"
  = Some (new_session (fz 0) "s1" [7] 50 "bob" CDSP_PROFILE_FULL 1).
Proof.
  destruct (@thread_root_stops_upkeep toy_env toy_peers full_msgpack FedAuth.toy_kx toy_signing toy_aead 500
    upkeep_config (λ _, LinkActive) (None, λ _, true) "m" (old_row "m" (Some 1) 5 (Some 10) (Some "a/x.b")) (fz 100)
    (upkeep_state true) [turn_at 200; turn_at 5000; turn_at 90000]) as (H & _).
  - apply (upkeep_db_ok true).
  - reflexivity.
  - by eexists.
  - left. reflexivity.
  - repeat constructor.
  - cbv zeta in H. unfold up_db. rewrite H. reflexivity.
Defined.
