(* ===== verification/Inbound.v ===== *)
(** * Reception of messages ([security/lxmf_inbound.py], [protocol/lxmf_bridge.py])

    What the node does with a message that LXMF delivers: the check that binds
    it to its sender, the envelope that is made of its content, and the
    pipeline of Message.v and Media.v that the envelope enters.

    LXMF and RNS are third-party code.  A delivered message is a record of the
    attributes the program reads; [RNS.Identity.recall] and the monotonic clock
    are functions of the look that is taken, and [RNS.Identity.full_hash] is a
    parameter.  An identity is its public key, the last 32 bytes of which are
    the Ed25519 key.  A field of the content that has another type than the
    pipeline uses is refused (type and body, which every message has) or read
    as absent (the others). *)

From Stdlib Require Qround.
From S2P Require Import Prelude Constants Models Queries Permissions RateLimit Ban Sealed Sequencer Message Ingest Wire Verification History Epoch Session Live Media FedAuth.

(** Why LXMF did not verify a signature; other values have no name. *)
Inductive unverified := SIGNATURE_INVALID | SOURCE_UNKNOWN.

Record LXMessage := {
  lx_destination_hash : bytes;
  lx_source_hash : bytes;
  lx_source : option bytes;                      (* [source.identity], when there is one *)
  lx_signature_validated : bool;
  lx_unverified_reason : option unverified;
  lx_hash : bytes;
  lx_packed : bytes;
  lx_signature : option bytes;
  lx_timestamp : float;
  lx_content : bytes;
}.

(** ** Path requests *)

Module PathRequestCache.

Record t := { _ttl : float; _max : Z; _entries : dict bytes float }.
Definition init (ttl_seconds : float) (max_entries : Z) : t :=
  {| _ttl := ttl_seconds; _max := max_entries; _entries := [] |}.
Definition set_entries (d : dict bytes float) (s : t) : t := {| _ttl := _ttl s; _max := _max s; _entries := d |}.

(** [move_to_end] *)
Definition move_to_end (k : bytes) (d : dict bytes float) : dict bytes float :=
  match dict_get k d with Some v => dict_del k d ++ [(k, v)] | None => d end.

Definition should_request (now : float) (source_hash : bytes) (s : t) : bool * t :=
  let fresh := (true, set_entries (NonceTracker.trim (_max s) (move_to_end source_hash (dict_set source_hash now (_entries s)))) s) in
  match dict_get source_hash (_entries s) with
  | Some last => if flt (now - last)%F (_ttl s) then (false, set_entries (move_to_end source_hash (_entries s)) s) else fresh
  | None => fresh
  end.

Definition reset (s : t) : t := set_entries [] s.
End PathRequestCache.

Definition _PATH_REQUEST_CACHE_TTL_SECONDS : Z := 60.
Definition _PATH_REQUEST_CACHE_MAX_ENTRIES : Z := 1024.

(** The state of the module, and the path requests it made. *)
Record Inbound := {
  ib_rejections : dict string Z;                 (* [_LXMF_INBOUND_REJECTIONS] *)
  ib_results : dict string Z;                    (* [_LXMF_INBOUND_RESULTS] *)
  ib_cache : PathRequestCache.t;
  ib_requested : list bytes;
}.
Definition ib_set_rejections f (s : Inbound) : Inbound :=
  {| ib_rejections := f (ib_rejections s); ib_results := ib_results s; ib_cache := ib_cache s; ib_requested := ib_requested s |}.
Definition ib_set_results f (s : Inbound) : Inbound :=
  {| ib_rejections := ib_rejections s; ib_results := f (ib_results s); ib_cache := ib_cache s; ib_requested := ib_requested s |}.
Definition ib_set_cache c (s : Inbound) : Inbound :=
  {| ib_rejections := ib_rejections s; ib_results := ib_results s; ib_cache := c; ib_requested := ib_requested s |}.
Definition ib_request h (s : Inbound) : Inbound :=
  {| ib_rejections := ib_rejections s; ib_results := ib_results s; ib_cache := ib_cache s; ib_requested := ib_requested s ++ [h] |}.

Definition no_results : dict string Z :=
  [("rejected", 0); ("recovered", 0); ("signature_failed", 0); ("opt_out_passthrough", 0)].
Definition fresh_inbound : Inbound := {|
  ib_rejections := []; ib_results := no_results;
  ib_cache := PathRequestCache.init (fz _PATH_REQUEST_CACHE_TTL_SECONDS) _PATH_REQUEST_CACHE_MAX_ENTRIES; ib_requested := [] |}.

Definition _record_rejection (label : string) : M Inbound unit :=
  modify (ib_set_rejections (λ d, dict_set label (default 0 (dict_get label d) + 1) d)).
Definition _record_action (label : string) : M Inbound unit :=
  modify (ib_set_results (λ d, match dict_get label d with Some n => dict_set label (n + 1) d | None => d end)).

(** ** Verification *)

(** The Ed25519 key of an identity. *)
Definition sig_key (identity : bytes) : bytes := drop 32 identity.
Definition identity_hexhash `{RnsIdentity} (identity : bytes) : string := hexrep (truncated_hash identity).

(** [(ok, reason, identity)] *)
Inductive verdict :=
  | Accepted (identity : option bytes)
  | Rejected (reason : string).

Section verify.
Context `{HR : RnsIdentity} `{HE : Ed25519} `{HP : Msgpack}.
Context (full_hash : bytes → bytes).

(** The bytes LXMF signed: a stamp that was appended to the payload after
    signing is left out. *)
Definition unstamped (packed_payload : bytes) : option bytes :=
  match unpackb packed_payload with
  | None => None
  | Some (VList l) => if 4 <? zlen l then packb (VList (take 4 l)) else Some packed_payload
  | Some _ => Some packed_payload
  end.

Definition reconstruct_lxmf_signed_part (m : LXMessage) : option bytes :=
  if negb (list_true (lx_hash m) && list_true (lx_packed m) && (96 <=? zlen (lx_packed m))) then None
  else
    match unstamped (drop 96 (lx_packed m)) with
    | None => None
    | Some packed_payload =>
        let hashed_part := lx_destination_hash m ++ lx_source_hash m ++ packed_payload in
        if negb (bool_decide (full_hash hashed_part = lx_hash m)) then None
        else Some (hashed_part ++ lx_hash m)
    end.

(** What RNS knows of the source, look by look, and the monotonic time at each
    look; the first is taken before the wait. *)
Context (look : nat → option bytes) (clock : nat → float).

(** [while identity is None and time.monotonic() < deadline]; [None] is out of
    fuel. *)
Fixpoint poll (fuel n : nat) (deadline : float) : option (option bytes) :=
  match look n with
  | Some i => Some (Some i)
  | None =>
      if flt (clock (S n)) deadline
      then match fuel with O => None | S fuel => poll fuel (S n) deadline end
      else Some None
  end.

(** A look every quarter of a second. *)
Definition poll_fuel (path_wait_seconds : float) : nat :=
  Z.to_nat (4 * Qround.Qceiling (fmax (fz 0) path_wait_seconds)).

Definition reject (label reason : string) : M Inbound verdict :=
  _record_rejection label ;; _record_action "rejected" ;; ret (Rejected reason).

(** The path request, when the cache lets it pass. *)
Definition request_path (now : float) (source_hash : bytes) : M Inbound unit :=
  let! s := get in
  let (fresh, cache) := PathRequestCache.should_request now source_hash (ib_cache s) in
  modify (ib_set_cache cache) ;;
  when fresh (modify (ib_request source_hash)).

Definition verify_recovered (m : LXMessage) (identity : bytes) : M Inbound verdict :=
  match reconstruct_lxmf_signed_part m with
  | None => reject "signed_part_reconstruction_failed" "signed part reconstruction failed"
  | Some signed_part =>
      match lx_signature m with
      | Some sig =>
          if negb (list_true sig) then reject "missing_signature" "missing signature"
          else if negb (zlen (sig_key identity) =? 32) then reject "invalid_pubkey" "invalid recovered pubkey"
          else if negb (VerificationService.verify_ed25519_signature (Some (sig_key identity)) signed_part sig)
          then _record_rejection "bad_signature" ;; _record_action "signature_failed" ;;
               ret (Rejected "Ed25519 signature verification failed after path resolution")
          else _record_action "recovered" ;; ret (Accepted (Some identity))
      | None => reject "missing_signature" "missing signature"
      end
  end.

Definition verify_lxmf_inbound (require_signed : bool) (path_wait_seconds now : float) (m : LXMessage) : M Inbound verdict :=
  if lx_signature_validated m then ret (Accepted (lx_source m))
  else
    match lx_unverified_reason m with
    | Some SIGNATURE_INVALID => reject "signature_invalid" "signature invalid"
    | None => reject "validation_status_unknown" "validation status unknown"
    | Some SOURCE_UNKNOWN =>
        if negb require_signed then _record_action "opt_out_passthrough" ;; ret (Accepted None)
        else if negb (list_true (lx_source_hash m)) then reject "missing_source_hash" "missing source_hash"
        else
          request_path now (lx_source_hash m) ;;
          let deadline := (clock 0 + fmax (fz 0) path_wait_seconds)%F in
          match poll (poll_fuel path_wait_seconds) 0 deadline with
          | None => raise RuntimeError "still waiting"
          | Some None => reject "source_unknown_after_path_request" "source unknown after path request"
          | Some (Some identity) => verify_recovered m identity
          end
    end.

(** ** The bridge *)

(** Its configuration, and the channels with a router: destination and all. *)
Record LXMFBridge := {
  lb_require_signed_lxmf : bool;
  lb_lxmf_path_wait_seconds : float;
  lb_registered_destinations : dict string bytes;
}.
Definition set_registered (f : dict string bytes → dict string bytes) (b : LXMFBridge) : LXMFBridge := {|
  lb_require_signed_lxmf := lb_require_signed_lxmf b; lb_lxmf_path_wait_seconds := lb_lxmf_path_wait_seconds b;
  lb_registered_destinations := f (lb_registered_destinations b) |}.

Definition register_channel (channel_id : string) (destination : bytes) (b : LXMFBridge) : LXMFBridge :=
  if dict_has channel_id (lb_registered_destinations b) then b
  else set_registered (dict_set channel_id destination) b.

Definition _find_channel_for_destination (dest_hash : bytes) (b : LXMFBridge) : option string :=
  fst <$> List.find (λ p, bool_decide (p.2 = dest_hash)) (lb_registered_destinations b).

(** The content: a packed document, or plain text. *)
Definition _decode_content (m : LXMessage) : val :=
  if negb (list_true (lx_content m)) then VDict [("body", VStr ""); ("type", VInt MSG_TEXT)]
  else
    match unpackb (lx_content m) with
    | Some v => v
    | None => VDict [("body", VStr (default EmptyString (utf8_decode (lx_content m)))); ("type", VInt MSG_TEXT)]
    end.

Definition content_type (content : dict string val) : res Z := get_int "type" MSG_TEXT content.
Definition content_body (content : dict string val) : res (option string) :=
  match dict_get "body" content with
  | None | Some VNone => Ok None
  | Some (VStr s) => Ok (Some s)
  | Some _ => Raise (Exn TypeError "body")
  end.
Definition content_ttl (content : dict string val) : option Z :=
  match dict_get "ttl" content with Some (VInt z) => Some z | _ => None end.
Definition content_mentions (content : dict string val) : list string :=
  match dict_get "mentions" content with
  | Some (VList l) => omap (λ v, match v with VStr s => Some s | _ => None end) l
  | _ => []
  end.

(** The key of a validated identity. *)
Definition sender_key (identity : option bytes) : option bytes :=
  match identity with
  | Some i => if zlen (sig_key i) =? 32 then Some (sig_key i) else None
  | None => None
  end.
Definition sender_of (identity : option bytes) (m : LXMessage) : string :=
  match identity with
  | Some i => identity_hexhash i
  | None => match lx_source m with Some i => identity_hexhash i | None => hexrep (lx_source_hash m) end
  end.

Definition envelope_of (m : LXMessage) (identity : option bytes) (channel_id : string) (content : dict string val)
    : res MessageEnvelope :=
  match content_type content, content_body content with
  | Ok ty, Ok body => Ok {|
      e_channel_id := channel_id; e_sender_hash := sender_of identity m; e_timestamp := lx_timestamp m; e_type := ty;
      e_body := body; e_media_path := get_str "media_path" None content; e_media_meta := None;
      e_reply_to := get_str "reply_to" None content; e_ttl := content_ttl content; e_lxmf_signature := lx_signature m;
      e_lxmf_signed_part := reconstruct_lxmf_signed_part m; e_sender_public_key := sender_key identity;
      e_display_name := get_str "display_name" None content; e_mentions := content_mentions content; e_reactions := [] |}
  | Raise e, _ | _, Raise e => Raise e
  end.

(** The channel: that of the destination, or the one the content names. *)
Definition channel_of (b : LXMFBridge) (m : LXMessage) (content : dict string val) : option string :=
  let found := _find_channel_for_destination (lx_destination_hash m) b in
  if ostr_true found then found
  else
    match get_str "channel_id" None content with
    | Some ch => if str_true ch && dict_has ch (lb_registered_destinations b) then Some ch else None
    | None => None
    end.

(** The envelope and the media it carries; nothing for a message that is
    dropped. *)
Definition _validate_and_dispatch (b : LXMFBridge) (now : float) (m : LXMessage) : M Inbound (option (MessageEnvelope * option bytes)) :=
  let! v := verify_lxmf_inbound (lb_require_signed_lxmf b) (lb_lxmf_path_wait_seconds b) now m in
  match v with
  | Rejected _ => ret None
  | Accepted identity =>
      match _decode_content m with
      | VDict content =>
          match channel_of b m content with
          | None => ret None
          | Some channel_id =>
              let! e := of_res (envelope_of m identity channel_id content) in
              ret (Some (e, get_bytes "media_bytes" content))
          end
      | _ => raise AttributeError "get"
      end
  end.
End verify.

(** ** Reception *)

Record Reception := { rx_inbound : Inbound; rx_node : IngestState }.
Definition rx_set_inbound i (s : Reception) : Reception := {| rx_inbound := i; rx_node := rx_node s |}.
Definition rx_set_node n (s : Reception) : Reception := {| rx_inbound := rx_inbound s; rx_node := n |}.

Section reception.
Context `{HR : RnsIdentity} `{HE : Ed25519} `{HP : Msgpack} `{HH : Hashing} `{HO : OrmJson} `{HA : Aead} `{HM : LinkMdu}.
Context (full_hash : bytes → bytes) (self : MessageProcessor) (live_manager : bool) (media : option MediaStorage.t) (net : Net).

(** One delivery: verified, decoded and ingested; what fails is logged. *)
Definition _on_lxmf_delivery (look : nat → option bytes) (clock : nat → float) (b : LXMFBridge) (now : float) (nonce : bytes)
    (m : LXMessage) : M Reception unit :=
  catch
    (let! envelope := lift rx_inbound rx_set_inbound (_validate_and_dispatch full_hash look clock b now m) in
     match envelope with
     | None => ret tt
     | Some (e, media_bytes) => lift rx_node rx_set_node (lxmf_ingest self live_manager media net now nonce media_bytes e)
     end) (λ _, ret tt).
End reception.

(** ** Waiting *)

Section waiting.
Context (look : nat → option bytes) (clock : nat → float).

Lemma poll_some fuel n deadline i : poll look clock fuel n deadline = Some (Some i) → ∃ k, look k = Some i.
Proof using.
  revert n. induction fuel as [|fuel IH]; intros n; simpl; (destruct (look n) as [j|] eqn:E; [intros [= <-]; eauto|]).
  - by destruct (flt _ _).
  - destruct (flt _ _); [apply IH|done].
Qed.

Lemma poll_ends fuel n deadline :
  (∀ k, (clock (S k) + QArith_base.Qmake 1 4 <= clock (S (S k)))%F) →
  (deadline <= clock (S n) + QArith_base.Qmake 1 4 * fz (Z.of_nat fuel))%F → is_Some (poll look clock fuel n deadline).
Proof using.
  intros Hc. revert n. induction fuel as [|fuel IH]; intros n Hd; simpl; (destruct (look n) as [j|]; [by eexists|]);
    destruct (flt (clock (S n)) deadline) eqn:E; try by eexists.
  - exfalso. change (fz (Z.of_nat 0)) with (QArith_base.Qmake 0 1) in Hd. fsimp. Lqa.lra.
  - apply IH. specialize (Hc n). rewrite Nat2Z.inj_succ in Hd. unfold fz in *. rewrite <- Z.add_1_r, QArith_base.inject_Z_plus in Hd.
    change (QArith_base.inject_Z 1) with (QArith_base.Qmake 1 1) in Hd. Lqa.lra.
Qed.

(** The identity is found at the first look that knows it, when the deadline
    has not passed before. *)
Lemma poll_finds fuel n k deadline i :
  (k ≤ fuel)%nat → look (n + k)%nat = Some i →
  (∀ j, (j < k)%nat → look (n + j)%nat = None ∧ flt (clock (S (n + j))) deadline = true) →
  poll look clock fuel n deadline = Some (Some i).
Proof using.
  revert n fuel. induction k as [|k IH]; intros n fuel Hf Hk Hj.
  - rewrite Nat.add_0_r in Hk. destruct fuel; simpl; by rewrite Hk.
  - destruct (Hj 0%nat ltac:(lia)) as [H0 H1]. rewrite Nat.add_0_r in H0, H1. destruct fuel as [|fuel]; [lia|].
    simpl. rewrite H0, H1. apply IH; [lia|by rewrite <- Nat.add_succ_comm in Hk|].
    intros j Hjk. rewrite Nat.add_succ_comm. apply Hj. lia.
Qed.

Lemma poll_fuel_enough w :
  (clock 0 <= clock 1)%F → (∀ k, (clock (S k) + QArith_base.Qmake 1 4 <= clock (S (S k)))%F) →
  is_Some (poll look clock (poll_fuel w) 0 (clock 0 + fmax (fz 0) w)%F).
Proof using.
  intros H0 Hc. apply poll_ends; [done|]. unfold poll_fuel.
  assert (Hw : (fz 0 <= fmax (fz 0) w)%F) by (clear; flra).
  pose proof (Qround.Qle_ceiling (fmax (fz 0) w)) as Hq.
  assert (Hn : 0 ≤ Qround.Qceiling (fmax (fz 0) w)).
  { apply fz_le. eapply QArith_base.Qle_trans; [exact Hw|exact Hq]. }
  rewrite Z2Nat.id by lia. set (w' := fmax (fz 0) w) in *. clearbody w'. unfold fz. rewrite QArith_base.inject_Z_mult.
  change (QArith_base.inject_Z 4) with (QArith_base.Qmake 4 1). Lqa.lra.
Qed.
End waiting.

(** ** Binding *)

Section theorems.
Context {HR : RnsIdentity} {HE : Ed25519} {HP : Msgpack}.
Context (full_hash : bytes → bytes) (look : nat → option bytes) (clock : nat → float).

(** What a rebuilt signed part is. *)
Lemma reconstruct_some m sp :
  reconstruct_lxmf_signed_part full_hash m = Some sp →
  ∃ payload, sp = lx_destination_hash m ++ lx_source_hash m ++ payload ++ lx_hash m
  ∧ full_hash (lx_destination_hash m ++ lx_source_hash m ++ payload) = lx_hash m.
Proof using.
  unfold reconstruct_lxmf_signed_part. destruct (negb _); [done|]. destruct (unstamped _) as [p|]; [|done].
  case_bool_decide as H; [|done]. intros [= <-]. exists p. by rewrite <- !app_assoc.
Qed.

(** The message is signed under the Ed25519 key of the identity: a signature
    of destination, source and payload, and of the hash of these. *)
Definition signed_under (identity : bytes) (m : LXMessage) : Prop :=
  zlen (sig_key identity) = 32 ∧ ∃ sp sig, reconstruct_lxmf_signed_part full_hash m = Some sp ∧ lx_signature m = Some sig
  ∧ ed25519_verify (sig_key identity) sp sig = true.

Lemma request_path_ok now h s : ∃ s', request_path now h s = (Ok tt, s').
Proof using. unfold request_path, bind, get, modify. simpl. destruct (PathRequestCache.should_request _ _ _) as [[] c]; by eexists. Qed.

Lemma verify_recovered_inv m identity v s s' :
  verify_recovered full_hash m identity s = (Ok v, s') → (∃ r, v = Rejected r) ∨ (v = Accepted (Some identity) ∧ signed_under identity m).
Proof using.
  unfold verify_recovered, reject, VerificationService.verify_ed25519_signature. destruct (reconstruct_lxmf_signed_part full_hash m) as [sp|] eqn:Esp; [|intros [= <- <-]; eauto].
  destruct (lx_signature m) as [sig|] eqn:Es; [|intros [= <- <-]; eauto].
  destruct (negb (list_true sig)); [intros [= <- <-]; eauto|].
  destruct (zlen (sig_key identity) =? 32) eqn:El; simpl; [|intros [= <- <-]; eauto].
  destruct (ed25519_verify _ _ _) eqn:Ev; intros [= <- <-]; [|eauto].
  right. split; [done|]. split; [lia|]. eauto.
Qed.

(** An accepted message was validated by LXMF, or is signed under an identity
    that RNS came to know for its source. *)
Lemma verify_accepted w now m identity s s' :
  verify_lxmf_inbound full_hash look clock true w now m s = (Ok (Accepted identity), s') →
  (lx_signature_validated m = true ∧ identity = lx_source m)
  ∨ (∃ i n, identity = Some i ∧ look n = Some i ∧ signed_under i m).
Proof using.
  unfold verify_lxmf_inbound, reject. destruct (lx_signature_validated m); [intros [= <- <-]; by left|].
  destruct (lx_unverified_reason m) as [[]|]; [done| |done]. cbn [negb]. destruct (negb (list_true _)); [done|].
  destruct (request_path_ok now (lx_source_hash m) s) as [s1 E1]. rewrite (bind_run_ok _ _ _ _ _ E1).
  destruct (poll look clock _ _ _) as [[i|]|] eqn:Ep; [|done|done].
  intros [[r ?]|[[= ->] Hs]]%verify_recovered_inv; [done|]. right. apply poll_some in Ep as [n Hn]. eauto.
Qed.
End theorems.

(** The sender that an envelope names. *)
Definition bound_sender `{RnsIdentity} `{Ed25519} `{Msgpack} (full_hash : bytes → bytes) (look : nat → option bytes)
    (m : LXMessage) (e : MessageEnvelope) : Prop :=
  (lx_signature_validated m = true ∧ e_sender_hash e = sender_of (lx_source m) m ∧ e_sender_public_key e = sender_key (lx_source m))
  ∨ (∃ i n, look n = Some i ∧ signed_under full_hash i m ∧ e_sender_hash e = identity_hexhash i
      ∧ e_sender_public_key e = Some (sig_key i)).

(** C20: What arrives is bound to its sender.  On a node that requires
    signatures, a delivered message changes nothing of the node, or is
    ingested under a sender that LXMF verified, or else under an identity that
    RNS came to know for its source and whose key signed the destination, the
    source and the payload; the key that is recorded is that one.  The
    envelope is for a channel of the node, carries the content, and the signed
    bytes that are kept with it are those of the message. *)
Theorem inbound_authentic {HR : RnsIdentity} {HE : Ed25519} {HP : Msgpack} {HH : Hashing} {HO : OrmJson} {HA : Aead} {HM : LinkMdu}
    full_hash self live_manager media net look clock b now nonce m r s s' :
  lb_require_signed_lxmf b = true →
  _on_lxmf_delivery full_hash self live_manager media net look clock b now nonce m s = (r, s') →
  r = Ok tt ∧ (rx_node s' = rx_node s
    ∨ ∃ e content media_bytes, bound_sender full_hash look m e
      ∧ _decode_content m = VDict content ∧ channel_of b m content = Some (e_channel_id e)
      ∧ content_type content = Ok (e_type e) ∧ content_body content = Ok (e_body e)
      ∧ e_lxmf_signed_part e = reconstruct_lxmf_signed_part full_hash m
      ∧ rx_node s' = (lxmf_ingest self live_manager media net now nonce media_bytes e (rx_node s)).2).
Proof.
  intros Hreq. unfold _on_lxmf_delivery, catch, lift, bind.
  destruct (_validate_and_dispatch full_hash look clock b now m (rx_inbound s)) as [[[[e mb]|]|x] i'] eqn:Ev;
    [|intros [= <- <-]; split; [done|by left]..].
  cbn [rx_set_inbound rx_node]. destruct (lxmf_ingest self live_manager media net now nonce mb e (rx_node s)) as [ri n'] eqn:Ei.
  intros H. assert (r = Ok tt ∧ rx_node s' = n') as [-> ->] by (by destruct ri as [[]|]; injection H as <- <-).
  split; [done|]. right. clear H.
  unfold _validate_and_dispatch in Ev. rewrite Hreq in Ev. apply bind_ok in Ev as (v & i1 & Hv & Ev).
  destruct v as [identity|]; [|done]. destruct (_decode_content m) as [| | | | | | |content] eqn:Ec; try done.
  destruct (channel_of b m content) as [ch|] eqn:Ech; [|done]. apply bind_ok in Ev as (e0 & i2 & He & [= -> <- <-]).
  unfold of_res in He. injection He as He ->. unfold envelope_of in He.
  destruct (content_type content) as [ty|] eqn:Et; [|done]. destruct (content_body content) as [bd|] eqn:Eb; [|done].
  injection He as <-.
  match type of Ei with context [lxmf_ingest _ _ _ _ _ _ ?mb ?e _] => exists e, content, mb end.
  split_and!; try done; [|by rewrite Ei].
  apply verify_accepted in Hv as [[Hs ->]|(i & n & -> & Hn & Hs)]; [left|right; exists i, n]; split_and!; try done.
  simpl. destruct Hs as [Hl _]. by rewrite Hl.
Qed.

(** Every delivery is decided: when looks are a quarter of a second apart,
    the wait for an unknown sender ends within its fuel, and the check returns
    a verdict. *)
Theorem inbound_decided {HR : RnsIdentity} {HE : Ed25519} {HP : Msgpack} full_hash look clock require_signed w now m s :
  (clock 0%nat <= clock 1%nat)%F → (∀ k, (clock (S k) + QArith_base.Qmake 1 4 <= clock (S (S k)))%F) →
  ∃ v s', verify_lxmf_inbound full_hash look clock require_signed w now m s = (Ok v, s').
Proof.
  intros H0 Hc. unfold verify_lxmf_inbound, reject. destruct (lx_signature_validated m); [by do 2 eexists|].
  destruct (lx_unverified_reason m) as [[]|]; [by do 2 eexists| |by do 2 eexists].
  destruct (negb require_signed); [by do 2 eexists|]. destruct (negb (list_true _)); [by do 2 eexists|].
  destruct (request_path_ok now (lx_source_hash m) s) as [s1 E1]. rewrite (bind_run_ok _ _ _ _ _ E1).
  destruct (poll_fuel_enough look clock w H0 Hc) as [o ->]. destruct o as [i|]; [|by do 2 eexists].
  unfold verify_recovered, reject. destruct (reconstruct_lxmf_signed_part _ _); [|by do 2 eexists].
  destruct (lx_signature m); [|by do 2 eexists]. destruct (negb _); [by do 2 eexists|]. destruct (negb _); [by do 2 eexists|].
  destruct (negb _); by do 2 eexists.
Qed.

(** ** Honest senders *)

(** An RNS identity: 64 bytes of public key, the last 32 of which verify what
    it signs. *)
Class IdentityKeyLaws (S : Signing) (E : Ed25519) : Prop := {
  id_public_len : ∀ i, zlen (id_public i) = 64;
  id_sign_verifies : ∀ i d, ed25519_verify (sig_key (id_public i)) d (id_sign i d) = true;
  id_sign_nonempty : ∀ i d, list_true (id_sign i d) = true;
}.

Section honest.
Context {HR : RnsIdentity} {HS : Signing} {HE : Ed25519} {HP : Msgpack} {HL : IdentityKeyLaws HS HE} {HPL : MsgpackLaws HP}.
Context (full_hash : bytes → bytes).

(** The message as the LXMF of the sender packs it: 16 bytes of destination
    and of source, 64 of signature, the packed payload; the four fields are
    signed with the two hashes and with the hash of these three, a stamp is
    appended to the payload afterwards. *)
Record packed_by (i : bytes) (payload stamp : list val) (m : LXMessage) : Prop := {
  pb_fields : length payload = 4%nat;
  pb_lengths : zlen (lx_destination_hash m ++ lx_source_hash m) = 32;
  pb_packed : ∃ signed sent sig, packb (VList payload) = Some signed ∧ packb (VList (payload ++ stamp)) = Some sent
    ∧ zlen sig = 64 ∧ lx_signature m = Some sig
    ∧ lx_hash m = full_hash (lx_destination_hash m ++ lx_source_hash m ++ signed) ∧ list_true (lx_hash m) = true
    ∧ sig = id_sign i (lx_destination_hash m ++ lx_source_hash m ++ signed ++ lx_hash m)
    ∧ lx_packed m = (lx_destination_hash m ++ lx_source_hash m) ++ sig ++ sent;
}.

(** The signed part is rebuilt, stamp or no stamp. *)
Lemma signed_part_rebuilt i payload stamp m :
  packed_by i payload stamp m →
  ∃ sp, reconstruct_lxmf_signed_part full_hash m = Some sp ∧ lx_signature m = Some (id_sign i sp).
Proof using HPL.
  intros [Hf Hl (signed & sent & sig & Hp4 & Hp & Hsl & Hsig & Hh & Hne & -> & Hpk)].
  assert (list_true (lx_packed m) = true ∧ zlen (lx_packed m) = 96 + zlen sent) as [Hlt Hlen].
  { rewrite Hpk, !zlen_app in *. split; [|lia]. destruct (lx_destination_hash m), (lx_source_hash m); done. }
  assert (drop 96 (lx_packed m) = sent) as Hd.
  { rewrite Hpk, app_assoc. apply drop_app_length'. unfold zlen in *. rewrite !length_app in *. lia. }
  assert (unstamped sent = Some signed) as Hu.
  { unfold unstamped. rewrite (unpack_pack _ _ Hp). unfold zlen. rewrite length_app, Hf.
    destruct stamp as [|x stamp]; simpl length.
    - rewrite app_nil_r in Hp. assert (signed = sent) as -> by congruence. done.
    - destruct (Z.ltb_spec 4 (Z.of_nat (4 + S (length stamp)))); [|lia]. by rewrite take_app_length' by done. }
  exists (lx_destination_hash m ++ lx_source_hash m ++ signed ++ lx_hash m). split; [|done].
  unfold reconstruct_lxmf_signed_part. rewrite Hne, Hlt, Hlen, Hd, Hu.
  pose proof (zlen_nonneg sent). destruct (Z.leb_spec 96 (96 + zlen sent)); [|lia]. cbn [negb andb].
  rewrite bool_decide_eq_true_2 by done. cbn [negb]. by rewrite <- !app_assoc.
Qed.
End honest.

(** A message of a sender the node has never heard of gets through: when
    RNS comes to know the sender's identity before the wait is over, the
    message that the sender's LXMF packed and signed, stamp or no stamp, is
    accepted under that identity. *)
Theorem unknown_sender_recovered {HR : RnsIdentity} {HS : Signing} {HE : Ed25519} {HP : Msgpack} {HL : IdentityKeyLaws HS HE}
    {HPL : MsgpackLaws HP} full_hash look clock w now i payload stamp n m s :
  packed_by full_hash i payload stamp m → lx_signature_validated m = false → lx_unverified_reason m = Some SOURCE_UNKNOWN →
  list_true (lx_source_hash m) = true → look n = Some (id_public i) → (n ≤ poll_fuel w)%nat →
  (∀ k, (k < n)%nat → look k = None ∧ (clock (S k) < clock 0%nat + fmax (fz 0) w)%F) →
  ∃ s', verify_lxmf_inbound full_hash look clock true w now m s = (Ok (Accepted (Some (id_public i))), s').
Proof.
  intros Hpb Hv Hr Hs Hn Hf Hk. destruct (signed_part_rebuilt full_hash i payload stamp m Hpb) as (sp & Hsp & Hsig).
  unfold verify_lxmf_inbound. rewrite Hv, Hr, Hs. cbn [negb].
  destruct (request_path_ok now (lx_source_hash m) s) as [s1 E1]. rewrite (bind_run_ok _ _ _ _ _ E1).
  rewrite (poll_finds look clock (poll_fuel w) 0 n _ (id_public i)); [|done|done|].
  - unfold verify_recovered. rewrite Hsp, Hsig, id_sign_nonempty.
    assert (zlen (sig_key (id_public i)) = 32) as Hl.
    { pose proof (id_public_len i). unfold zlen, sig_key in *. rewrite length_drop. lia. }
    rewrite Hl. cbn [negb Z.eqb]. change (32 =? 32) with true. cbn [negb]. unfold VerificationService.verify_ed25519_signature.
    rewrite Hl, id_sign_verifies. by eexists.
  - intros j Hj. destruct (Hk j Hj) as [? ?]. split; [done|]. by apply flt_true.
Qed.

(** ** Path requests *)

Import PathRequestCache.

Lemma move_to_end_get k k' d : dict_get k' (move_to_end k d) = dict_get k' d.
Proof.
  unfold move_to_end. destruct (dict_get k d) as [v|] eqn:E; [|done].
  assert (∀ l, dict_get k' (l ++ [(k, v)]) = match dict_get k' l with Some x => Some x | None => if decide (k' = k) then Some v else None end) as Happ.
  { induction l as [|[a x] l IH]; simpl; [done|]. by destruct (decide (k' = a)). }
  rewrite Happ, dict_get_del. destruct (decide (k' = k)) as [->|]; [done|]. by destruct (dict_get k' d).
Qed.
Lemma elem_of_move_to_end k k' d : k' ∈ dict_keys (move_to_end k d) ↔ k' ∈ dict_keys d.
Proof. by rewrite !elem_of_dict_keys, move_to_end_get. Qed.
Lemma dict_del_nodup {K V} `{EqDecision K} (k : K) (d : dict K V) : NoDup (dict_keys d) → NoDup (dict_keys (dict_del k d)).
Proof.
  unfold dict_keys, dict_del. induction d as [|[k' v] d IH]; [done|]. csimpl. intros [Hk Hd]%NoDup_cons.
  rewrite filter_cons. case_decide; [|auto]. csimpl. apply NoDup_cons. split; [|auto].
  intros ([k2 v2] & -> & Hin%list_elem_of_filter)%list_elem_of_fmap. apply Hk. apply list_elem_of_fmap. exists (k2, v2). naive_solver.
Qed.
Lemma move_to_end_nodup k d : NoDup (dict_keys d) → NoDup (dict_keys (move_to_end k d)).
Proof.
  intros Hd. unfold move_to_end. destruct (dict_get k d) as [v|]; [|done]. unfold dict_keys. rewrite fmap_app. apply NoDup_app.
  split; [|split; [|apply NoDup_singleton]].
  - by apply dict_del_nodup.
  - intros x Hx. simpl. intros ->%list_elem_of_singleton. change (k ∈ dict_keys (dict_del k d)) in Hx.
    apply elem_of_dict_keys in Hx as [y Hy]. rewrite dict_get_del, decide_True in Hy by done. done.
Qed.

(** The requests that are let through, in order, with their times. *)
Fixpoint permitted (l : list (bytes * float)) (c : t) : list (bytes * float) :=
  match l with
  | [] => []
  | (h, now) :: l =>
      let (fresh, c') := should_request now h c in
      (if fresh then [(h, now)] else []) ++ permitted l c'
  end.
Definition cache_after (l : list (bytes * float)) (c : t) : t :=
  foldl (λ c p, (should_request p.2 p.1 c).2) c l.
Definition paced (ttl : float) (a b : bytes * float) : Prop := a.1 = b.1 → (ttl <= b.2 - a.2)%F.

(** While no more sources ask than the cache holds, nothing is evicted. *)
Record room (srcs : list bytes) (c : t) : Prop := {
  rm_nodup : NoDup (dict_keys (_entries c));
  rm_keys : ∀ h, h ∈ dict_keys (_entries c) → h ∈ srcs;
  rm_size : zlen srcs ≤ _max c;
}.

Lemma should_request_spec srcs now h c :
  room srcs c → h ∈ srcs →
  let r := should_request now h c in
  room srcs r.2 ∧ _ttl r.2 = _ttl c
  ∧ (r.1 = true → ∀ last, dict_get h (_entries c) = Some last → (_ttl c <= now - last)%F)
  ∧ (∀ k, dict_get k (_entries r.2) = if r.1 then (if decide (k = h) then Some now else dict_get k (_entries c)) else dict_get k (_entries c)).
Proof.
  intros [Hn Hk Hs] Hh.
  assert (Hfit : ∀ d, NoDup (dict_keys d) → (∀ k, k ∈ dict_keys d → k ∈ srcs) → NonceTracker.trim (_max c) d = d).
  { intros d Hd Hin. destruct d as [|p d]; [done|]. cbn [NonceTracker.trim].
    assert (zlen (p :: d) ≤ zlen srcs) as Hle.
    { unfold zlen. apply Nat2Z.inj_le. rewrite <- (length_fmap fst). apply submseteq_length, NoDup_submseteq; [exact Hd|exact Hin]. }
    destruct (Z.ltb_spec (_max c) (zlen (p :: d))); [lia|done]. }
  set (d1 := move_to_end h (dict_set h now (_entries c))).
  assert (NoDup (dict_keys d1)) as Hn1 by (by apply move_to_end_nodup, dict_set_nodup).
  assert (∀ k, dict_get k d1 = if decide (k = h) then Some now else dict_get k (_entries c)) as Hg1.
  { intros k. unfold d1. rewrite move_to_end_get. apply dict_get_set. }
  assert (∀ k, k ∈ dict_keys d1 → k ∈ srcs) as Hk1.
  { intros k. rewrite elem_of_dict_keys, Hg1. destruct (decide (k = h)) as [->|]; [done|]. intros H. by apply Hk, elem_of_dict_keys. }
  unfold should_request. fold d1. rewrite (Hfit d1 Hn1 Hk1).
  destruct (dict_get h (_entries c)) as [last|] eqn:El; [destruct (flt _ _) eqn:Ef|]; cbn [fst snd set_entries _entries _ttl]; split_and!; try done.
  - split; simpl; [by apply move_to_end_nodup| |done]. intros k. rewrite elem_of_move_to_end. apply Hk.
  - intros k. apply move_to_end_get.
  - intros _ l [= <-]. flra.
Qed.

(** A flood of messages of unknown sources does not become a flood of
    path requests: while the sources are no more than the cache holds, two
    requests for one of them are at least the time to live of an entry apart;
    whatever the sources, the cache never holds more than its maximum. *)
Theorem path_requests_paced (srcs : list bytes) (l : list (bytes * float)) (ttl : float) (max : Z) :
  (fz 0 <= ttl)%F → 0 ≤ max →
  zlen (_entries (cache_after l (init ttl max))) ≤ max
  ∧ ((∀ p, p ∈ l → p.1 ∈ srcs) → zlen srcs ≤ max → StronglySorted (paced ttl) (permitted l (init ttl max))).
Proof.
  intros Ht Hm. split.
  - assert (∀ c, _max c = max → zlen (_entries c) ≤ max → zlen (_entries (cache_after l c)) ≤ max) as H; [|by apply H].
    induction l as [|[h now] l IH]; intros c Hc Hl; simpl; [done|].
    assert (zlen (move_to_end h (_entries c)) ≤ max) as Hmove.
    { unfold move_to_end. destruct (dict_get h (_entries c)) as [v|] eqn:Ev; [|done]. rewrite zlen_app.
      assert (zlen (dict_del h (_entries c)) < zlen (_entries c)); [|unfold zlen in *; simpl; lia].
      unfold zlen, dict_del. apply Nat2Z.inj_lt. eapply length_filter_lt; [by apply dict_get_elem|naive_solver]. }
    unfold should_request. destruct (dict_get h (_entries c)) as [last|]; [destruct (flt _ _)|]; apply IH; try done; simpl; rewrite Hc;
      by apply trim_bound.
  - intros Hsrc Hsz. assert (∀ c, room srcs c → _ttl c = ttl → StronglySorted (paced ttl) (permitted l c)
      ∧ ∀ p, p ∈ permitted l c → ∀ last, dict_get p.1 (_entries c) = Some last → (ttl <= p.2 - last)%F) as H.
    { induction l as [|[h now] l IH]; intros c Hr Hc; simpl; [split; [constructor|set_solver]|].
      destruct (should_request_spec srcs now h c Hr) as (Hr' & Hc' & Ho & Hg); [apply (Hsrc (h, now)); left|].
      destruct (should_request now h c) as [fresh c'] eqn:Es. cbn [fst snd] in *.
      destruct (IH (λ p Hp, Hsrc p (list_elem_of_further _ _ _ Hp)) c' Hr') as [IH1 IH2]; [congruence|].
      destruct fresh; cbn [app]; [|by split; [|intros p Hp last; rewrite <- Hg; by apply IH2]].
      assert (∀ last, dict_get h (_entries c) = Some last → (ttl <= now - last)%F) as Ho' by (rewrite <- Hc; auto).
      split.
      - constructor; [done|]. apply Forall_forall. intros p Hp Heq. simpl in *. subst h. apply (IH2 p Hp). by rewrite Hg, decide_True.
      - intros p [->|Hp]%elem_of_cons last; [apply Ho'|]. intros Hl. destruct (decide (p.1 = h)) as [Heq|Hne].
        + rewrite Heq in Hl. specialize (Ho' last Hl). specialize (IH2 p Hp now). rewrite Hg, decide_True in IH2 by done.
          specialize (IH2 eq_refl). change (fz 0) with (QArith_base.Qmake 0 1) in Ht. Lqa.lra.
        + apply (IH2 p Hp). by rewrite Hg, decide_False. }
    apply H; [|done]. split; simpl; [constructor|by intros h ?%elem_of_nil|done].
Qed.

(** ** Instances *)

Definition key_ed : Ed25519 := λ k m s, bool_decide (s = pad 64 (k ++ m)).
Definition key_signing : Signing := {|
  id_public i := pad 64 i; id_sign i d := pad 64 (sig_key (pad 64 i) ++ d);
  id_validate p s d := bool_decide (s = pad 64 (sig_key p ++ d)) |}.
Lemma key_laws : IdentityKeyLaws key_signing key_ed.
Proof.
  split; intros; simpl; [apply zlen_pad|by apply bool_decide_eq_true_2|].
  pose proof (zlen_pad 64 (sig_key (pad 64 i) ++ d)). by destruct (pad 64 _).
Qed.

Definition toy_digest (b : bytes) : bytes := pad 32 (1 :: b).
Definition text_content : dict string val :=
  [("type", VInt MSG_TEXT); ("body", VStr "hello"); ("display_name", VNone); ("channel_id", VStr "a")].
(** The four fields that LXMF packs, and a stamp. *)
Definition lxmf_payload (content : bytes) : list val := [VFloat (fz 5); VBytes []; VBytes content; VDict []].
Definition lxmf_pack : Msgpack := table_msgpack
  [VDict text_content; VList (lxmf_payload [0]); VList (lxmf_payload [0] ++ [VBytes [9]])].
Definition unverified_message : LXMessage :=
  let signed := replicate 16 2 ++ replicate 16 4 ++ [1] in
  let sig := @id_sign key_signing [7] (signed ++ toy_digest signed) in
  {| lx_destination_hash := replicate 16 2; lx_source_hash := replicate 16 4; lx_source := None; lx_signature_validated := false;
     lx_unverified_reason := Some SOURCE_UNKNOWN; lx_hash := toy_digest signed;
     lx_packed := (replicate 16 2 ++ replicate 16 4) ++ sig ++ [2]; lx_signature := Some sig; lx_timestamp := fz 5; lx_content := [0] |}.
(** RNS knows the source at the third look. *)
Definition late_look (n : nat) : option bytes := if (n <? 2)%nat then None else Some (pad 64 [7]).
Definition quarter_clock (n : nat) : float := (QArith_base.Qmake 1 4 * fz (Z.of_nat n))%F.
Definition demo_bridge : LXMFBridge := {|
  lb_require_signed_lxmf := true; lb_lxmf_path_wait_seconds := fz 5; lb_registered_destinations := [("a", [1])] |}.
Definition demo_reception : Reception := {| rx_inbound := fresh_inbound; rx_node := demo_ingest |}.

Lemma unknown_sender_recovered_witness :
  ∃ s', @verify_lxmf_inbound key_ed lxmf_pack toy_digest late_look quarter_clock true (fz 5) (fz 0) unverified_message fresh_inbound
        = (Ok (Accepted (Some (@id_public key_signing [7]))), s').
Proof.
  apply (@unknown_sender_recovered toy_rns key_signing key_ed lxmf_pack key_laws (table_msgpack_laws _) toy_digest late_look quarter_clock
    (fz 5) (fz 0) [7] (lxmf_payload [0]) [VBytes [9]] 2); try reflexivity.
  - split; [reflexivity..|]. exists [1], [2], (default [] (lx_signature unverified_message)).
    split_and!; vm_compute; reflexivity.
  - vm_compute. lia.
  - intros k Hk. destruct k as [|[|k]]; [by split..|lia].
Defined.

Lemma inbound_decided_witness :
  ∃ v s', @verify_lxmf_inbound key_ed lxmf_pack toy_digest (λ _, None) quarter_clock true (fz 5) (fz 0) unverified_message fresh_inbound
          = (Ok v, s').
Proof.
  apply (@inbound_decided toy_rns key_ed lxmf_pack toy_digest (λ _, None) quarter_clock true (fz 5)); [by vm_compute|].
  intros k. unfold quarter_clock. rewrite !Nat2Z.inj_succ. unfold fz. rewrite <- !Z.add_1_r, !QArith_base.inject_Z_plus.
  change (QArith_base.inject_Z 1) with (QArith_base.Qmake 1 1). Lqa.lra.
Defined.

Definition demo_received : Reception :=
  (@_on_lxmf_delivery toy_rns key_ed lxmf_pack toy_hashing toy_orm toy_aead 500 toy_digest demo_self true None (λ _, LinkActive) late_look quarter_clock
     demo_bridge (fz 9) [] unverified_message demo_reception).2.
Lemma inbound_authentic_witness :
  rx_node demo_received = rx_node demo_reception
  ∨ ∃ e content media_bytes, @bound_sender toy_rns key_ed lxmf_pack toy_digest late_look unverified_message e
      ∧ @_decode_content lxmf_pack unverified_message = VDict content
      ∧ channel_of demo_bridge unverified_message content = Some (e_channel_id e)
      ∧ content_type content = Ok (e_type e) ∧ content_body content = Ok (e_body e)
      ∧ e_lxmf_signed_part e = @reconstruct_lxmf_signed_part lxmf_pack toy_digest unverified_message
      ∧ rx_node demo_received
        = (@lxmf_ingest toy_hashing toy_orm toy_aead 500 lxmf_pack demo_self true None (λ _, LinkActive) (fz 9) [] media_bytes e demo_ingest).2.
Proof.
  destruct (@inbound_authentic toy_rns key_ed lxmf_pack toy_hashing toy_orm toy_aead 500 toy_digest demo_self true None (λ _, LinkActive)
    late_look quarter_clock demo_bridge (fz 9) [] unverified_message (Ok tt) demo_reception demo_received eq_refl) as [_ H];
    [apply run_result; vm_compute; reflexivity|exact H].
Defined.
Example unverified_message_stored :
  map m_body (rows (messages (n_db (is_node (rx_node demo_received))))) = [Some "hello"].
Proof. by vm_compute. Qed.

(** Two forgeries of one source within the minute make one request. *)
Lemma path_requests_paced_witness :
  let l := [([4], fz 0); ([4], fz 30); ([5], fz 31); ([4], fz 60)] in
  permitted l (init (fz 60) 2) = [([4], fz 0); ([5], fz 31); ([4], fz 60)]
  ∧ StronglySorted (paced (fz 60)) (permitted l (init (fz 60) 2)).
Proof.
  intros l. split; [by vm_compute|].
  apply (path_requests_paced [[4]; [5]] l (fz 60) 2); [by vm_compute|done| |by vm_compute].
  intros p Hp. repeat (apply elem_of_cons in Hp as [->|Hp]; [set_solver|]). by apply elem_of_nil in Hp.
Defined.

(** ** What modelling showed *)

(** A text of one character is a number to the unpacker: the bridge asks a
    number for its fields, and the message is lost.  (The unpacker reads a byte
    below 128 as the number it is.) *)
Lemma one_character_lost `{HR : RnsIdentity} `{HE : Ed25519} `{HP : Msgpack} full_hash look clock b now m c s :
  lx_signature_validated m = true → lx_content m = [c] → unpackb [c] = Some (VInt c) →
  ∃ e, (_validate_and_dispatch full_hash look clock b now m s).1 = Raise e.
Proof.
  intros Hv Hc Hu. unfold _validate_and_dispatch, verify_lxmf_inbound. rewrite Hv. unfold bind, ret, _decode_content. rewrite Hc. simpl.
  rewrite Hu. by eexists.
Qed.

(** The type of a message decides which permission it needs, and a type that
    is not in the table needs none: who may not send texts can send system
    messages, or any number. *)
Definition muted_node : Node := {|
  n_db := set_roles (λ _, {[ "r0" := {| role_id := "r0"; role_name := ROLE_EVERYONE; role_permissions := 0; role_position := 0;
                                        role_colour := ""; role_mentionable := false; role_is_builtin := true |} ]})
            (demo_db [demo_channel "a" ACCESS_PUBLIC false]);
  n_seq := SequenceManager.init; n_rl := RateLimiter.init 10 (fz 1); n_thread_locks := [] |}.
Example system_message_unchecked :
  let post ty := (demo_tx (fz 9) [] (demo_env ty "a" "mallory" 5 (Some "maintenance tonight") None) muted_node).1 in
  post MSG_TEXT = Raise (Exn PermissionDenied "Missing SEND_MESSAGES permission")
  ∧ (∃ m, post MSG_SYSTEM = Ok (Some m) ∧ m_type m = MSG_SYSTEM) ∧ ∃ m, post 77 = Ok (Some m) ∧ m_type m = 77.
Proof. intros post. split; [by vm_compute|]. by split; eexists; (split; [vm_compute; reflexivity|]). Qed.
