(* ===== verification/Text.v ===== *)
(** * Text of files and of the command line

    What the configuration code uses of Python's [str]: [int(text)],
    [str(int)], [strip], [endswith], [rpartition], [find], [repr], and the
    newlines of a file opened as text.  As elsewhere a [str] is its UTF-8
    bytes; digits and white space outside ASCII are left out. *)

From stdpp Require Import pretty.
From S2P Require Import Prelude Queries InviteCodes.

Definition chr (n : nat) : Ascii.ascii := Ascii.ascii_of_nat n.

(** ** Numbers *)

Definition digit_value (c : Ascii.ascii) : option Z :=
  let n := Z.of_N (Ascii.N_of_ascii c) in if (48 <=? n) && (n <=? 57) then Some (n - 48) else None.

(** Digits with single underscores between them. *)
Fixpoint digits_go (acc : Z) (l : chars) : option Z :=
  match l with
  | [] => Some acc
  | c :: r =>
      match digit_value c with
      | Some d => digits_go (10 * acc + d) r
      | None =>
          if bool_decide (c = chr 95)
          then match r with
               | c' :: r' => match digit_value c' with Some d => digits_go (10 * acc + d) r' | None => None end
               | [] => None
               end
          else None
      end
  end.
Definition digits (l : chars) : option Z :=
  match l with
  | c :: r => match digit_value c with Some d => digits_go d r | None => None end
  | [] => None
  end.

(** [int(text)]; none where it raises [ValueError]. *)
Definition int_of_chars (l : chars) : option Z :=
  match strip l with
  | c :: r => if bool_decide (c = chr 45) then Z.opp <$> digits r
              else if bool_decide (c = chr 43) then digits r else digits (c :: r)
  | [] => None
  end.
Definition int_of_str (s : string) : option Z := int_of_chars (chars_of s).

(** [str(n)] *)
Definition str_of_int (z : Z) : string := pretty z.

(** ** Searching and cutting *)

Definition str_strip (s : string) : string := string_of (strip (chars_of s)).
Definition has_char (c : Ascii.ascii) (l : chars) : bool := existsb (λ x, bool_decide (x = c)) l.
Definition endswith (l suffix : chars) : bool :=
  (length suffix <=? length l)%nat && bool_decide (drop (length l - length suffix) l = suffix).

(** [lower()] on ASCII letters. *)
Definition str_lower_char (c : Ascii.ascii) : Ascii.ascii :=
  let n := Ascii.N_of_ascii c in if (65 <=? n)%N && (n <=? 90)%N then Ascii.ascii_of_N (n + 32) else c.

(** [text.split(",")[0]]: up to the first separator; the rest when there is one. *)
Fixpoint cut (c : Ascii.ascii) (l : chars) : chars * option chars :=
  match l with
  | [] => ([], None)
  | x :: r => if bool_decide (x = c) then ([], Some r)
              else let '(a, b) := cut c r in (x :: a, b)
  end.

(** [text.rpartition(c)], where [c] occurs: before and after its last occurrence. *)
Definition rcut (c : Ascii.ascii) (l : chars) : chars * chars :=
  match cut c (reverse l) with
  | (a, Some b) => (reverse b, reverse a)
  | (a, None) => ([], reverse a)
  end.

(** [w in text] *)
Fixpoint is_infix (w l : chars) : bool :=
  bool_decide (take (length w) l = w) || match l with [] => false | _ :: r => is_infix w r end.

(** A text file is read with every line end turned into ["\n"]. *)
Fixpoint newlines (l : chars) : chars :=
  match l with
  | [] => []
  | c :: r =>
      if bool_decide (c = chr 13)
      then chr 10 :: match r with
                     | c' :: r' => if bool_decide (c' = chr 10) then newlines r' else newlines r
                     | [] => []
                     end
      else c :: newlines r
  end.

(** ** [repr] of a string and [str] of a list of strings *)

Definition repr_char (quote c : Ascii.ascii) : chars :=
  let n := Z.of_N (Ascii.N_of_ascii c) in
  if bool_decide (c = quote) || (n =? 92) then [chr 92; c]
  else if n =? 9 then [chr 92; chr 116]
  else if n =? 10 then [chr 92; chr 110]
  else if n =? 13 then [chr 92; chr 114]
  else if (n <? 32) || (n =? 127) then chr 92 :: chr 120 :: hex [n]
  else [c].
Definition repr (s : string) : chars :=
  let l := chars_of s in
  let quote := if has_char (chr 39) l && negb (has_char (chr 34) l) then chr 34 else chr 39 in
  quote :: flat_map (repr_char quote) l ++ [quote].

Fixpoint join_comma (ls : list chars) : chars :=
  match ls with
  | [] => []
  | [l] => l
  | l :: ls => l ++ chr 44 :: chr 32 :: join_comma ls
  end.
Definition str_of_list (l : list string) : string := string_of (chr 91 :: join_comma (map repr l) ++ [chr 93]).

(** ** Lemmas *)

Definition is_digit (c : Ascii.ascii) : Prop := is_Some (digit_value c).

Lemma pretty_char_digit x : (x < 10)%N → digit_value (pretty_N_char x) = Some (Z.of_N x).
Proof.
  intros H. assert (x = 0 ∨ x = 1 ∨ x = 2 ∨ x = 3 ∨ x = 4 ∨ x = 5 ∨ x = 6 ∨ x = 7 ∨ x = 8 ∨ x = 9)%N as E by lia.
  repeat (destruct E as [->|E]; [done|]). by subst.
Qed.

Lemma digits_pretty x s : (0 < x)%N → digits (chars_of (pretty_N_go x s)) = digits_go (Z.of_N x) (chars_of s).
Proof.
  revert s. induction (N.lt_wf_0 x) as [x _ IH]. intros s Hx. rewrite pretty_N_go_step by done.
  pose proof (pretty_char_digit (x `mod` 10) (N.mod_lt x 10 ltac:(done))) as Hd.
  destruct (decide (x < 10)%N) as [Hs|Hs].
  - rewrite (N.div_small x 10 Hs), pretty_N_go_0. rewrite (N.mod_small x 10 Hs) in *.
    unfold digits, chars_of. cbn [String.list_ascii_of_string]. by rewrite Hd.
  - rewrite IH; [|by apply N.div_lt|by apply N.div_str_pos; lia].
    unfold chars_of. cbn [String.list_ascii_of_string digits_go]. rewrite Hd.
    f_equal. rewrite N2Z.inj_mod, N2Z.inj_div. symmetry. apply (Z.div_mod (Z.of_N x) 10). lia.
Qed.

Lemma pretty_digits x s : Forall is_digit (chars_of s) → Forall is_digit (chars_of (pretty_N_go x s)).
Proof.
  revert s. induction (N.lt_wf_0 x) as [x _ IH]. intros s Hs. destruct (decide (x = 0)%N) as [->|Hx]; [done|].
  rewrite pretty_N_go_step by lia. apply IH; [apply N.div_lt; lia|].
  constructor; [|done]. unfold is_digit. pose proof (pretty_char_digit (x `mod` 10) (N.mod_lt x 10 ltac:(done))) as E. rewrite E. eauto.
Qed.

Lemma digit_plain c : is_digit c → is_str_space c = false ∧ c ≠ chr 45 ∧ c ≠ chr 43 ∧ c ≠ chr 44 ∧ c ≠ chr 58.
Proof. intros [d H]. destruct c as [[] [] [] [] [] [] [] []]; try done; repeat split; done. Qed.

Lemma digits_of_N n : digits (chars_of (pretty n)) = Some (Z.of_N n) ∧ Forall is_digit (chars_of (pretty n)).
Proof.
  unfold pretty, pretty_N. case_decide as Hn; [subst; split; [done|]; repeat constructor; eexists; done|].
  split; [rewrite (digits_pretty n "") by lia; done|]. apply pretty_digits. constructor.
Qed.

Lemma strip_plain l : Forall (λ c, is_str_space c = false) l → strip l = l.
Proof. intros H. unfold strip. by rewrite lstrip_id, rstrip_id. Qed.

(** [int(str(n))] is [n], for the numbers the code writes. *)
Lemma int_of_str_of_int z : 0 ≤ z → int_of_str (str_of_int z) = Some z.
Proof.
  intros Hz. unfold int_of_str, str_of_int. destruct z as [|p|p]; [done| |lia].
  change (pretty (Z.pos p)) with (pretty (N.pos p)). destruct (digits_of_N (N.pos p)) as [Hd Hf].
  unfold int_of_chars.
  rewrite strip_plain by (eapply Forall_impl; [exact Hf|]; intros c Hc; by apply digit_plain).
  destruct (chars_of (pretty (N.pos p))) as [|c r]; [done|]. apply Forall_inv, digit_plain in Hf as (_ & H1 & H2 & _).
  rewrite !bool_decide_false by done. exact Hd.
Qed.

Lemma cut_app c a b : has_char c a = false → cut c (a ++ c :: b) = (a, Some b).
Proof.
  induction a as [|x a IH]; cbn [has_char existsb app cut]; intros H.
  - by rewrite bool_decide_true.
  - apply orb_false_iff in H as [Hx Ha]. rewrite Hx, IH by done. done.
Qed.
Lemma cut_none c a : has_char c a = false → cut c a = (a, None).
Proof.
  induction a as [|x a IH]; [done|]. cbn [has_char existsb cut]. intros H.
  apply orb_false_iff in H as [Hx Ha]. rewrite Hx, IH by done. done.
Qed.

Lemma has_char_in c l : has_char c l = true ↔ c ∈ l.
Proof.
  unfold has_char. rewrite existsb_exists. setoid_rewrite <- list_elem_of_In. setoid_rewrite bool_decide_eq_true.
  split; [intros (x & Hx & ->); done|eauto].
Qed.
Lemma has_char_false c l : has_char c l = false ↔ c ∉ l.
Proof. rewrite <- has_char_in. destruct (has_char c l); split; done. Qed.

Lemma rcut_app c a b : has_char c b = false → rcut c (a ++ c :: b) = (a, b).
Proof.
  intros H. unfold rcut. replace (reverse (a ++ c :: b)) with (reverse b ++ c :: reverse a)
    by (rewrite reverse_app, reverse_cons, <- app_assoc; done).
  rewrite cut_app.
  - by rewrite !reverse_involutive.
  - apply has_char_false. rewrite elem_of_reverse. by apply has_char_false.
Qed.

Lemma newlines_id l : has_char (chr 13) l = false → newlines l = l.
Proof.
  induction l as [|c l IH]; [done|]. cbn [has_char existsb newlines]. intros H.
  apply orb_false_iff in H as [Hc Hl]. rewrite Hc. f_equal. by apply IH.
Qed.

(** The text of a number ends with a digit and holds no colon. *)
Lemma int_digits_str z : 0 ≤ z → ∃ l d, chars_of (str_of_int z) = l ++ [d] ∧ is_digit d ∧
  has_char (chr 58) (chars_of (str_of_int z)) = false.
Proof.
  intros Hz. unfold str_of_int. destruct z as [|p|p]; [exists [], (chr 48); repeat split; by eexists| |lia].
  change (pretty (Z.pos p)) with (pretty (N.pos p)). destruct (digits_of_N (N.pos p)) as [Hd Hf].
  assert (Hne : chars_of (pretty (N.pos p)) ≠ []) by (intros E; rewrite E in Hd; discriminate Hd).
  destruct (List.exists_last Hne) as (l & x & E).
  exists l, x. rewrite E in *. split; [done|]. split.
  - apply Forall_app in Hf as [_ Hf]. by apply Forall_inv in Hf.
  - apply has_char_false. intros Hin. rewrite Forall_forall in Hf. apply Hf in Hin.
    destruct (digit_plain _ Hin) as (_ & _ & _ & _ & H). by apply H.
Qed.

Lemma lstrip_head f c l : f c = false → lstrip f (c :: l) = c :: l.
Proof. intros H. cbn. by rewrite H. Qed.

Lemma lstrip_le f l : (length (lstrip f l) ≤ length l)%nat.
Proof. induction l as [|c l IH]; [done|]. cbn. destruct (f c); cbn; lia. Qed.

(** A text without blanks around it begins with a character that is none. *)
Lemma stripped_head c l : strip (c :: l) = c :: l → is_str_space c = false.
Proof.
  intros H. destruct (is_str_space c) eqn:E; [|done]. exfalso. apply (f_equal length) in H. revert H.
  unfold strip, rstrip. cbn [lstrip]. rewrite E, length_reverse.
  pose proof (lstrip_le is_str_space (reverse (lstrip is_str_space l))) as H1. rewrite length_reverse in H1.
  pose proof (lstrip_le is_str_space l) as H2. cbn. lia.
Qed.

Lemma strip_ends c l d : is_str_space c = false → is_str_space d = false → strip (c :: l ++ [d]) = c :: l ++ [d].
Proof.
  intros Hc Hd. unfold strip, rstrip. rewrite (lstrip_head _ c) by done.
  change (c :: l ++ [d]) with ((c :: l) ++ [d]). rewrite reverse_snoc, (lstrip_head _ d) by done.
  by rewrite reverse_cons, reverse_involutive.
Qed.

Lemma endswith_last l d s x : d ≠ x → endswith (l ++ [d]) (s ++ [x]) = false.
Proof.
  intros Hd. unfold endswith. rewrite !length_app. cbn. destruct (_ <=? _)%nat eqn:E; [|done]. cbn.
  apply Nat.leb_le in E. rewrite bool_decide_false; [done|]. intros H.
  rewrite drop_app_le in H by lia. by apply app_inj_2 in H as [_ [= ?]].
Qed.

(** [text.split(c)] *)
Fixpoint split_at (c : Ascii.ascii) (l : chars) : list chars :=
  match l with
  | [] => [[]]
  | x :: r => if bool_decide (x = c) then [] :: split_at c r
              else match split_at c r with w :: ws => (x :: w) :: ws | [] => [[x]] end
  end.
Fixpoint join_at (c : Ascii.ascii) (ls : list chars) : chars :=
  match ls with
  | [] => []
  | [l] => l
  | l :: ls => l ++ c :: join_at c ls
  end.
