(* ===== verification/Files.v ===== *)
(** * Files ([hokora/security/fs.py], [core/pid_file.py])

    A file system is a finite map from paths to nodes.  A path is the list of
    its names.  A symbolic link is followed when a file is opened, and links
    to directories are not followed.  Which calls of the operating system fail
    is an argument ([faulty]), so theorems hold whatever fails; the mask of
    the process is [umask].  The working of [Path] and [os] is written out for
    what the source uses of it. *)

From S2P Require Import Prelude Constants Models InviteCodes Message Wire Text.

Abbreviation path := (list string).
Inductive node :=
  | NFile (data : string) (mode : Z)
  | NDir (mode : Z)
  | NLink (target : path).
Abbreviation FS := (gmap path node).

Inductive os_op := OpMkdir | OpOpen | OpWrite | OpReplace | OpChmod | OpRead | OpUnlink | OpStat | OpList.

(** Modes, in octal. *)
Definition o600 : Z := 6 * 64.
Definition o700 : Z := 7 * 64.
Definition o644 : Z := 6 * 64 + 4 * 8 + 4.
Definition o666 : Z := 6 * 64 + 6 * 8 + 6.
Definition o777 : Z := 7 * 64 + 7 * 8 + 7.

Definition set_mode (mode : Z) (n : node) : node :=
  match n with NFile d _ => NFile d mode | NDir _ => NDir mode | NLink t => NLink t end.

(** [path.with_suffix(path.suffix + tail)], and [path.parent]. *)
Fixpoint with_tail (p : path) (tail : string) : path :=
  match p with [] => [] | [n] => [(n +:+ tail)%string] | n :: p => n :: with_tail p tail end.
Definition parent (p : path) : path := take (length p - 1) p.
(** [path.with_suffix(suffix)]: the last name loses its own suffix. *)
Definition name_stem (n : string) : string :=
  match rcut (chr 46) (chars_of n) with
  | (stem, ext) => if has_char (chr 46) (chars_of n) && list_true stem && list_true ext then string_of stem else n
  end.
Fixpoint with_suffix (p : path) (suffix : string) : path :=
  match p with [] => [] | [n] => [(name_stem n +:+ suffix)%string] | n :: p => n :: with_suffix p suffix end.

(** The kernel follows forty links at most. *)
Fixpoint follow (fuel : nat) (fs : FS) (p : path) : path :=
  match fuel, fs !! p with
  | S fuel, Some (NLink t) => follow fuel fs t
  | _, _ => p
  end.
Definition resolve (fs : FS) (p : path) : path := follow 40 fs p.

Arguments resolve : simpl never.
Definition is_file (fs : FS) (p : path) : bool :=
  match fs !! resolve fs p with Some (NFile _ _) => true | _ => false end.
Definition is_dir (fs : FS) (p : path) : bool :=
  match fs !! resolve fs p with Some (NDir _) => true | _ => false end.
Definition is_symlink (fs : FS) (p : path) : bool :=
  match fs !! p with Some (NLink _) => true | _ => false end.
Definition exists_ (fs : FS) (p : path) : bool := is_file fs p || is_dir fs p.

Definition is_os_error (e : exn) : bool := bool_decide (exn_cls e ∈ [OSError; FileNotFoundError]).
(** [try: ... except OSError: pass] (or a log line) *)
Definition swallow_os {S} (m : M S unit) : M S unit :=
  catch m (λ e, if is_os_error e then ret tt else throw e).

Section files.
Context (faulty : os_op → path → bool) (umask : Z).

Definition os_call (op : os_op) (p : path) : M FS unit := when (faulty op p) (raise OSError "os").

(** [p.mkdir(parents=True, exist_ok=True)] *)
Definition mkdir1 (q : path) : M FS unit :=
  let! fs := get in
  if is_dir fs q then ret tt
  else match fs !! q with
       | Some _ => raise OSError "File exists"
       | None => os_call OpMkdir q ;; modify <[q := NDir (Z.land o777 (Z.lnot umask))]>
       end.
Fixpoint mkdirs_from (upto rest : path) : M FS unit :=
  match rest with
  | [] => ret tt
  | n :: rest => mkdir1 (upto ++ [n]) ;; mkdirs_from (upto ++ [n]) rest
  end.
Definition mkdirs (p : path) : M FS unit := mkdirs_from [] p.

(** [os.open(p, O_WRONLY | O_CREAT | O_TRUNC, mode)], the write and the close.
    A file that is there keeps its mode. *)
Definition open_trunc (p : path) (mode : Z) : M FS unit :=
  os_call OpOpen p ;;
  let! fs := get in
  let q := resolve fs p in
  match fs !! q with
  | Some (NFile _ m) => modify <[q := NFile EmptyString m]>
  | None => if is_dir fs (parent q) then modify <[q := NFile EmptyString (Z.land mode (Z.lnot umask))]>
            else raise FileNotFoundError "No such file or directory"
  | Some _ => raise OSError "Is a directory"
  end.
Definition write_opened (p : path) (content : string) : M FS unit :=
  os_call OpWrite p ;;
  modify (λ fs, let q := resolve fs p in
                match fs !! q with Some (NFile _ m) => <[q := NFile content m]> fs | _ => fs end).
Definition put_file (p : path) (content : string) (mode : Z) : M FS unit :=
  open_trunc p mode ;; write_opened p content.

(** [os.replace(src, dst)] of a file *)
Definition os_replace (src dst : path) : M FS unit :=
  os_call OpReplace dst ;;
  let! fs := get in
  match fs !! src, fs !! dst with
  | None, _ => raise FileNotFoundError "No such file or directory"
  | Some _, Some (NDir _) => raise OSError "Is a directory"
  | Some n, _ => modify (λ fs, <[dst := n]> (delete src fs))
  end.

Definition os_chmod (p : path) (mode : Z) : M FS unit :=
  os_call OpChmod p ;;
  let! fs := get in
  let q := resolve fs p in
  match fs !! q with
  | Some n => modify <[q := set_mode mode n]>
  | None => raise FileNotFoundError "No such file or directory"
  end.

Definition unlink (missing_ok : bool) (p : path) : M FS unit :=
  let! fs := get in
  match fs !! p with
  | None => if missing_ok then ret tt else raise FileNotFoundError "No such file or directory"
  | Some (NDir _) => raise OSError "Is a directory"
  | Some _ => os_call OpUnlink p ;; modify (delete p)
  end.

Definition read_bytes (p : path) : M FS string :=
  os_call OpRead p ;;
  let! fs := get in
  match fs !! resolve fs p with
  | Some (NFile d _) => ret d
  | None => raise FileNotFoundError "No such file or directory"
  | Some _ => raise OSError "Is a directory"
  end.
(** [p.read_text()] *)
Definition read_text (p : path) : M FS string :=
  let! d := read_bytes p in
  match utf8_decode (str_bytes d) with
  | Some s => ret (string_of (newlines (chars_of s)))
  | None => raise ValueError "invalid utf-8"
  end.

(** The mode of an entry, from [entry.stat()]. *)
Definition stat_mode (p : path) : M FS Z :=
  os_call OpStat p ;;
  let! fs := get in
  match fs !! resolve fs p with
  | Some (NFile _ m) | Some (NDir m) => ret m
  | _ => raise FileNotFoundError "No such file or directory"
  end.

(** [p.iterdir()], and everything below [p] that [os.walk] reaches. *)
Definition iterdir (p : path) : M FS (list path) :=
  os_call OpList p ;;
  gets (λ fs, List.filter (λ q, (length q =? S (length p))%nat && bool_decide (take (length p) q = p))
                          (map_to_list fs).*1).
Definition walked (fs : FS) (p : path) (q : path) : bool :=
  (length p <? length q)%nat && bool_decide (take (length p) q = p)
  && forallb (λ n, negb (faulty OpList (take n q)) && match fs !! take n q with Some (NDir _) => true | _ => false end)
       (seq (length p) (length q - length p)).
Definition walk (p : path) : M FS (list path) :=
  gets (λ fs, List.filter (walked fs p) (map_to_list fs).*1).

(** ** [security/fs.py] *)

Definition write_secure (p : path) (content : string) (mode : Z) : M FS unit :=
  mkdirs (parent p) ;;
  let tmp := with_tail p ".tmp" in
  put_file tmp content mode ;;
  os_replace tmp p.

(** [identity.to_file(tmp)] opens the file itself, with the default mode. *)
Definition write_identity_secure (identity_data : string) (p : path) : M FS unit :=
  mkdirs (parent p) ;;
  let tmp := with_tail p ".tmp" in
  let! fs := get in
  when (exists_ fs tmp) (unlink false tmp) ;;
  put_file tmp identity_data o666 ;;
  os_chmod tmp o600 ;;
  os_replace tmp p.

(** One entry: its mode is set unless it already is the wanted one. *)
Definition tighten (mode : Z) (entry : path) : M FS unit :=
  swallow_os (let! m := stat_mode entry in
              when (negb (Z.land m o777 =? mode)) (os_chmod entry mode)).

Definition secure_identity_dir (p : path) : M FS unit :=
  mkdirs p ;;
  swallow_os (os_chmod p o700) ;;
  let! fs := get in
  if negb (is_dir fs p) then ret tt
  else
    let! entries := iterdir p in
    mfold (λ _ entry, let! fs := get in
                      if negb (is_file fs entry) || is_symlink fs entry then ret tt else tighten o600 entry) tt entries.

Definition secure_existing_file (p : path) (mode : Z) : M FS unit :=
  swallow_os (let! fs := get in when (is_file fs p && negb (is_symlink fs p)) (os_chmod p mode)).

Definition secure_entry (entry : path) : M FS unit :=
  let! fs := get in
  if is_symlink fs entry then ret tt
  else if is_file fs entry then tighten o600 entry
  else if is_dir fs entry then tighten o700 entry else ret tt.

Definition secure_client_dir (p : path) (recursive : bool) : M FS unit :=
  mkdirs p ;;
  swallow_os (os_chmod p o700) ;;
  let! fs := get in
  if negb (is_dir fs p) then ret tt
  else
    let! entries := if recursive then walk p else iterdir p in
    mfold (λ _ entry, secure_entry entry) tt entries.

(** ** [core/pid_file.py] *)

Definition PidFile_write (p : path) (pid : Z) : M FS unit :=
  let tmp := with_suffix p ".tmp" in
  swallow_os (put_file tmp (str_of_int pid) o600 ;; os_replace tmp p).
Definition PidFile_remove (p : path) : M FS unit := swallow_os (unlink true p).
Definition PidFile_read (p : path) : M FS (option Z) :=
  catch (let! text := read_text p in ret (int_of_str text)) (λ e, if is_os_error e then ret None else throw e).

(** What [os.kill(pid, 0)] answers. *)
Inductive kill_result := Killed | NoProcess | NotPermitted | KillError.
Definition is_stale (kill : Z → kill_result) (p : path) : M FS bool :=
  let! pid := PidFile_read p in
  ret (match pid with
       | None => true
       | Some pid => match kill pid with Killed | NotPermitted => false | NoProcess | KillError => true end
       end).
End files.

(** ** Lemmas *)

Lemma with_tail_length p t : length (with_tail p t) = length p.
Proof. induction p as [|n [|m p] IH]; [done|done|]. cbn [with_tail length] in *. by rewrite IH. Qed.

Lemma app_tail_ne n t : t ≠ EmptyString → (n +:+ t)%string ≠ n.
Proof.
  intros Ht H. apply Ht. clear Ht. induction n as [|c n IH]; [done|]. injection H as H. by apply IH.
Qed.

Lemma with_tail_ne p t : p ≠ [] → t ≠ EmptyString → with_tail p t ≠ p.
Proof.
  intros Hp Ht. induction p as [|n [|m p] IH]; [done| |].
  - cbn. intros [= H]. by apply (app_tail_ne n t).
  - cbn [with_tail]. intros [= H]. by apply IH.
Qed.

Lemma with_tail_twice p a b : with_tail (with_tail p a) b = with_tail p (a +:+ b).
Proof.
  induction p as [|n [|m p] IH]; [done| |].
  - cbn [with_tail]. assert (H : ∀ m, (m +:+ a) +:+ b = m +:+ a +:+ b) by (intros m; induction m as [|c m IHm]; [done|];
      change (String c ((m +:+ a) +:+ b) = String c (m +:+ a +:+ b)); by rewrite IHm).
    by rewrite H.
  - cbn [with_tail] in *. destruct p; [by rewrite <- IH|]. by rewrite <- IH.
Qed.
Lemma with_tail_inj p a b : p ≠ [] → with_tail p a = with_tail p b → a = b.
Proof.
  intros Hp. induction p as [|n [|m p] IH]; [done| |].
  - cbn [with_tail]. intros [= H]. induction n as [|c n IHn]; [done|]. injection H as H. by apply IHn.
  - cbn [with_tail]. intros [= H]. by apply IH.
Qed.

Lemma utf8_decode_same d s : utf8_decode (str_bytes d) = Some s → s = d.
Proof. unfold utf8_decode. destruct (utf8_valid _); [|done]. intros [= <-]. apply bytes_str_bytes. Qed.

Definition no_link (fs : FS) (p : path) : Prop := ∀ t, fs !! p ≠ Some (NLink t).

Lemma resolve_no_link fs p : no_link fs p → resolve fs p = p.
Proof. intros H. unfold resolve. cbn [follow]. destruct (fs !! p) as [[]|] eqn:E; try done. by destruct (H target). Qed.

(** Only directories appear. *)
Definition grown (fs fs' : FS) : Prop :=
  ∀ q, fs' !! q = fs !! q ∨ (fs !! q = None ∧ ∃ m, fs' !! q = Some (NDir m)).
#[export] Instance grown_preorder : PreOrder grown.
Proof.
  split; [by left|]. intros a b c H1 H2 q. destruct (H1 q) as [E1|[E1 [m E1']]], (H2 q) as [E2|[E2 [m2 E2']]].
  - left. congruence.
  - right. rewrite <- E1. eauto.
  - right. rewrite E2. eauto.
  - congruence.
Qed.

Section lemmas.
Context (faulty : os_op → path → bool) (umask : Z).

Lemma os_call_same op p fs r fs' : os_call faulty op p fs = (r, fs') → fs' = fs ∧ (r = Ok tt ∨ ∃ e, r = Raise e).
Proof using. unfold os_call, when, ret, raise. destruct (faulty op p); intros [= <- <-]; eauto. Qed.

Lemma mkdirs_grown p : mrel grown (mkdirs faulty umask p).
Proof using.
  unfold mkdirs. generalize (@nil string). induction p as [|n p IH]; intros d; cbn [mkdirs_from]; [mrel_auto|].
  apply mrel_bind; [typeclasses eauto| |intros _; apply IH].
  intros fs. unfold mkdir1, bind at 1, get. destruct (is_dir fs _); [by left|].
  destruct (fs !! (d ++ [n])) eqn:E; [by left|]. unfold bind.
  destruct (os_call _ _ _ fs) as [r fs'] eqn:Ec. apply os_call_same in Ec as [-> [->|[e ->]]]; [|by left].
  intros q. unfold modify. cbn [snd]. destruct (decide (q = d ++ [n])) as [->|Hq].
  - right. rewrite lookup_insert_eq. eauto.
  - left. by rewrite lookup_insert_ne.
Qed.

(** Directories are made above, not beside. *)
Definition same_below (n : nat) (fs fs' : FS) : Prop := ∀ q, (n < length q)%nat → fs' !! q = fs !! q.
#[export] Instance same_below_preorder n : PreOrder (same_below n).
Proof. split; [done|]. intros a b c H1 H2 q Hq. rewrite H2 by done. by apply H1. Qed.

Lemma mkdirs_same_below p : mrel (same_below (length p)) (mkdirs faulty umask p).
Proof using.
  assert (H : ∀ d, mrel (same_below (length d + length p)) (mkdirs_from faulty umask d p)); [|apply (H [])].
  induction p as [|n p IH]; intros d; cbn [mkdirs_from]; [mrel_auto|].
  apply mrel_bind; [typeclasses eauto| |].
  - intros fs. unfold mkdir1, bind at 1, get. destruct (is_dir fs _); [done|].
    destruct (fs !! (d ++ [n])) eqn:E; [done|]. unfold bind.
    destruct (os_call _ _ _ fs) as [r fs'] eqn:Ec. apply os_call_same in Ec as [-> [->|[e ->]]]; [|done].
    intros q Hq. unfold modify. cbn [snd]. rewrite lookup_insert_ne; [done|]. intros <-.
    rewrite length_app in Hq. cbn in Hq. lia.
  - intros _. specialize (IH (d ++ [n])). rewrite length_app in IH. cbn in *.
    by replace (length d + S (length p))%nat with (length d + 1 + length p)%nat by lia.
Qed.

Lemma length_parent p : p ≠ [] → (length (parent p) < length p)%nat.
Proof using. intros Hp. unfold parent. rewrite length_take. destruct p; [done|]. cbn. lia. Qed.

(** What opening, writing and renaming do to the other paths. *)
Lemma put_file_run p content mode fs r fs' :
  no_link fs p → put_file faulty umask p content mode fs = (r, fs') →
  (∀ q, q ≠ p → fs' !! q = fs !! q) ∧ no_link fs' p ∧
  (r = Ok tt → ∃ m, fs' !! p = Some (NFile content m) ∧
     match fs !! p with
     | Some (NFile _ m0) => m = m0
     | _ => m = Z.land mode (Z.lnot umask)
     end).
Proof using.
  intros Hl. unfold put_file, open_trunc, write_opened, bind, get, modify, raise.
  destruct (os_call faulty OpOpen p fs) as [r1 fs1] eqn:E1.
  apply os_call_same in E1 as [-> [->|[e ->]]]; [|intros [= <- <-]; naive_solver].
  rewrite (resolve_no_link fs p Hl).
  assert (Hw : ∀ m0 r fs',
    match os_call faulty OpWrite p (<[p := NFile EmptyString m0]> fs) with
    | (Ok _, s1) => (Ok tt, match s1 !! resolve s1 p with
                            | Some (NFile _ m) => <[resolve s1 p := NFile content m]> s1 | _ => s1 end)
    | (Raise e, s1) => (Raise e, s1)
    end = (r, fs') →
    (∀ q, q ≠ p → fs' !! q = fs !! q) ∧ no_link fs' p ∧ (r = Ok tt → fs' !! p = Some (NFile content m0))).
  { intros m0 r' fs2. destruct (os_call _ OpWrite p _) as [r2 fs3] eqn:E2.
    apply os_call_same in E2 as [-> Hr]. intros H2.
    assert (Hn : no_link (<[p := NFile EmptyString m0]> fs) p) by (intros t; by rewrite lookup_insert_eq).
    destruct Hr as [->|[e ->]]; injection H2 as <- <-.
    - rewrite resolve_no_link, lookup_insert_eq, insert_insert_eq by done. unfold no_link.
      rewrite lookup_insert_eq. split_and!; [|done|done]. intros q Hq. by rewrite lookup_insert_ne.
    - split_and!; [|done|done]. intros q Hq. by rewrite lookup_insert_ne. }
  destruct (fs !! p) as [[d m0|m0|t]|] eqn:Ep.
  - intros H. apply Hw in H as (A & B & C). split_and!; [done|done|]. intros ->. eauto.
  - intros [= <- <-]. naive_solver.
  - by destruct (Hl t).
  - destruct (is_dir fs (parent p)); [|intros [= <- <-]; split_and!; done].
    intros H. apply Hw in H as (A & B & C). split_and!; [done|done|]. intros ->. eauto.
Qed.

(** Whatever fails, the target is what it was or the whole new text, and the
    other files are what they were; the mode is the one that was asked for,
    unless a temporary file was left. *)
Lemma write_secure_run p content mode fs r fs' :
  p ≠ [] → no_link fs (with_tail p ".tmp") →
  write_secure faulty umask p content mode fs = (r, fs') →
  (∀ q, q ≠ with_tail p ".tmp" → q ≠ p → fs' !! q = fs !! q ∨
        ((length q < length p)%nat ∧ fs !! q = None ∧ ∃ m, fs' !! q = Some (NDir m))) ∧
  no_link fs' (with_tail p ".tmp") ∧
  match r with
  | Ok _ => ∃ m, fs' !! p = Some (NFile content m) ∧ fs' !! with_tail p ".tmp" = None ∧
      match fs !! with_tail p ".tmp" with
      | Some (NFile _ m0) => m = m0
      | _ => m = Z.land mode (Z.lnot umask)
      end
  | Raise _ => fs' !! p = fs !! p
  end.
Proof using.
  intros Hp Hl. set (tmp := with_tail p ".tmp") in *.
  assert (Ht : tmp ≠ p) by (by apply with_tail_ne).
  unfold write_secure. fold tmp. unfold bind.
  destruct (mkdirs faulty umask (parent p) fs) as [r1 fs1] eqn:E1.
  assert (Hg : ∀ q, fs1 !! q = fs !! q ∨ ((length q < length p)%nat ∧ fs !! q = None ∧ ∃ m, fs1 !! q = Some (NDir m))).
  { intros q. destruct (mrel_ok _ _ _ _ _ (mkdirs_grown (parent p)) E1 q) as [E|[E E']]; [by left|].
    destruct (decide (length q < length p)%nat); [by right|].
    left. apply (mrel_ok _ _ _ _ _ (mkdirs_same_below (parent p)) E1 q). pose proof (length_parent p Hp). lia. }
  assert (Hsame : ∀ q, length q = length p → fs1 !! q = fs !! q) by (intros q Hq; destruct (Hg q) as [?|[? _]]; [done|lia]).
  assert (Hl1 : no_link fs1 tmp) by (intros t; rewrite Hsame by (apply with_tail_length); apply Hl).
  destruct r1 as [[]|e]; [|intros [= <- <-]; split_and!; [intros q _ _; apply Hg|done|by apply Hsame]].
  destruct (put_file faulty umask tmp content mode fs1) as [r2 fs2] eqn:E2.
  apply put_file_run in E2 as (Ho & Hl2 & Hok); [|done].
  assert (Hfail : (∀ q, q ≠ tmp → q ≠ p → fs2 !! q = fs !! q ∨
      ((length q < length p)%nat ∧ fs !! q = None ∧ ∃ m, fs2 !! q = Some (NDir m))) ∧
    no_link fs2 tmp ∧ fs2 !! p = fs !! p).
  { split_and!; [intros q Hq _; rewrite Ho by done; apply Hg|done|rewrite Ho by done; by apply Hsame]. }
  destruct r2 as [[]|e]; [|by intros [= <- <-]].
  destruct (Hok eq_refl) as (m & Em & Hm). clear Hok.
  unfold os_replace, bind, get, modify, raise.
  destruct (os_call faulty OpReplace p fs2) as [r3 fs3] eqn:E3.
  apply os_call_same in E3 as [-> [->|[e ->]]]; [|by intros [= <- <-]].
  rewrite Em. rewrite (Hsame tmp) in Hm by apply with_tail_length.
  assert (Hfin : ∀ fs', <[p := NFile content m]> (delete tmp fs2) = fs' →
    (∀ q, q ≠ tmp → q ≠ p → fs' !! q = fs !! q ∨
      ((length q < length p)%nat ∧ fs !! q = None ∧ ∃ m, fs' !! q = Some (NDir m))) ∧
    no_link fs' tmp ∧ ∃ m, fs' !! p = Some (NFile content m) ∧ fs' !! tmp = None ∧
        match fs !! tmp with Some (NFile _ m0) => m = m0 | _ => m = Z.land mode (Z.lnot umask) end).
  { intros fs3 <-. split_and!.
    - intros q Hq Hqp. rewrite lookup_insert_ne, lookup_delete_ne, Ho by done. apply Hg.
    - intros t. rewrite lookup_insert_ne, lookup_delete_eq by done. done.
    - exists m. rewrite lookup_insert_eq, lookup_insert_ne, lookup_delete_eq by done. done. }
  destruct (fs2 !! p) as [[d m0|m0|t]|] eqn:Ep; intros [= <- <-]; [by apply Hfin|by rewrite Ep|by apply Hfin..].
Qed.

(** *** Modes *)

Definition same_data (n n' : option node) : Prop := n' = n ∨ ∃ k m, n = Some k ∧ n' = Some (set_mode m k).
Definition tight (n : option node) : Prop :=
  match n with
  | Some (NFile _ m) => Z.land m o777 = o600
  | Some (NDir m) => Z.land m o777 = o700
  | _ => True
  end.
Definition modes_settable (q : path) : Prop := faulty OpStat q = false ∧ faulty OpChmod q = false.

Lemma same_data_trans a b c : same_data a b → same_data b c → same_data a c.
Proof using.
  intros [->|(k & m & -> & ->)] [->|(k' & m' & E & ->)]; [by left|right; eauto|right; eauto|].
  injection E as <-. right. exists k, m'. split; [done|]. by destruct k.
Qed.
Lemma tight_none n : same_data None n → tight n.
Proof using. intros [->|(? & ? & ? & _)]; done. Qed.

Lemma tighten_run mode q n fs r fs' :
  fs !! q = Some n → (∀ t, n ≠ NLink t) → tighten faulty mode q fs = (r, fs') →
  r = Ok tt ∧ (∀ q', q' ≠ q → fs' !! q' = fs !! q') ∧ same_data (fs !! q) (fs' !! q) ∧
  (modes_settable q → ∃ m, fs' !! q = Some (set_mode m n) ∧ (Z.land m o777 = mode ∨ m = mode)).
Proof using.
  intros En Hl. unfold tighten, swallow_os, catch, stat_mode, os_chmod, bind, get, modify, when, raise, throw.
  assert (Hr : ∀ fs2, fs2 !! q = Some n → resolve fs2 q = q).
  { intros fs2 E. apply resolve_no_link. intros t. rewrite E. intros [= ->]. by destruct (Hl t). }
  destruct (os_call faulty OpStat q fs) as [r1 f1] eqn:E1.
  assert (Hf1 := E1). apply os_call_same in E1 as [-> Hr1]. unfold os_call, when, ret, raise in Hf1.
  destruct Hr1 as [->|[e ->]].
  2: { destruct (faulty OpStat q) eqn:Ef; [|done]. injection Hf1 as <-. cbn. intros [= <- <-].
       split_and!; [done|done|by left|]. intros [Hs _]. congruence. }
  rewrite (Hr fs En), En.
  assert (Hc : ∀ m, match n with NFile _ m0 | NDir m0 => m = m0 | NLink _ => False end →
    ∃ m', n = set_mode m' n ∧ m' = m) by (intros m; destruct n; [intros ->; eauto..|done]).
  destruct n as [d m|m|t]; [| |by destruct (Hl t)]; cbn.
  all: destruct (Hc m eq_refl) as (m' & Em & ->); clear Hc.
  all: destruct (Z.land m o777 =? mode) eqn:Emode; cbn.
  1,3: intros [= <- <-]; split_and!; [done|done|by left|]; intros _; exists m; rewrite En; split; [done|left; lia].
  all: destruct (os_call faulty OpChmod q fs) as [r2 f2] eqn:E2.
  all: assert (Hf2 := E2); apply os_call_same in E2 as [-> Hr2]; unfold os_call, when, ret, raise in Hf2.
  all: destruct Hr2 as [->|[e ->]].
  2,4: destruct (faulty OpChmod q) eqn:Ef; [|done]; injection Hf2 as <-; cbn; intros [= <- <-];
    split_and!; [done|done|by left|]; intros [_ Hs]; congruence.
  all: rewrite (Hr fs En), En; intros [= <- <-]; rewrite lookup_insert_eq; split_and!;
    [done|intros q' Hq; by rewrite lookup_insert_ne|right; eauto|intros _; exists mode; split; [done|by right]].
Qed.

Lemma secure_entry_run q fs r fs' :
  secure_entry faulty q fs = (r, fs') →
  r = Ok tt ∧ (∀ q', q' ≠ q → fs' !! q' = fs !! q') ∧ same_data (fs !! q) (fs' !! q) ∧
  (modes_settable q → tight (fs' !! q)).
Proof using.
  unfold secure_entry, bind, get.
  assert (Hid : tight (fs !! q) → (Ok tt, fs) = (r, fs') →
    r = Ok tt ∧ (∀ q', q' ≠ q → fs' !! q' = fs !! q') ∧ same_data (fs !! q) (fs' !! q) ∧
    (modes_settable q → tight (fs' !! q))).
  { intros Ht [= <- <-]. split_and!; [done|done|by left|done]. }
  destruct (is_symlink fs q) eqn:Es.
  { apply Hid. unfold is_symlink in Es. by destruct (fs !! q) as [[]|]. }
  assert (Hl : no_link fs q) by (intros t E; unfold is_symlink in Es; by rewrite E in Es).
  unfold is_file, is_dir. rewrite (resolve_no_link fs q Hl).
  destruct (fs !! q) as [n|] eqn:En; [|by apply Hid].
  assert (Hn : ∀ t, n ≠ NLink t) by (intros t ->; by destruct (Hl t)).
  destruct n as [d m|m|t]; [| |by destruct (Hl t)].
  all: intros H; eapply tighten_run in H as (-> & Ho & Hs & Ht); [|exact En|done].
  all: rewrite En in Hs; split_and!; [done|done|done|]; intros Hm; destruct (Ht Hm) as (m' & E & [Hm'| ->]);
    rewrite E; cbn; done.
Qed.

Lemma secure_entries l fs r fs' :
  mfold (λ _ entry, secure_entry faulty entry) tt l fs = (r, fs') →
  r = Ok tt ∧ ∀ q, same_data (fs !! q) (fs' !! q) ∧ (q ∉ l → fs' !! q = fs !! q) ∧
                   (q ∈ l → modes_settable q → tight (fs' !! q)).
Proof using.
  revert fs. induction l as [|e l IH]; intros fs.
  { intros [= <- <-]. split; [done|]. intros q. split_and!; [by left|done|]. intros H. by apply not_elem_of_nil in H. }
  cbn [mfold]. unfold bind at 1. destruct (secure_entry faulty e fs) as [r1 fs1] eqn:E1.
  apply secure_entry_run in E1 as (-> & Ho & Hs & Ht). intros E2. apply IH in E2 as [-> H2].
  split; [done|]. intros q. destruct (H2 q) as (A & B & C).
  destruct (decide (q = e)) as [->|Hq].
  - split_and!; [by eapply same_data_trans|intros Hn; by destruct Hn; left|].
    intros _ Hm. destruct (decide (e ∈ l)) as [Hi|Hi]; [by apply C|]. rewrite B by done. by apply Ht.
  - rewrite <- (Ho q Hq). split_and!; [done|intros Hn; apply B; set_solver|].
    intros Hi. apply C. set_solver.
Qed.
End lemmas.

(** ** What a tightened directory looks like *)

Section secured.
Context (faulty : os_op → path → bool) (umask : Z).

Lemma chmod_same_data p mode fs r fs' :
  swallow_os (os_chmod faulty p mode) fs = (r, fs') → r = Ok tt ∧ ∀ q, same_data (fs !! q) (fs' !! q).
Proof using.
  unfold swallow_os, catch, os_chmod, bind, get, modify, raise.
  destruct (os_call faulty OpChmod p fs) as [r1 f1] eqn:E1.
  assert (Hf := E1). apply os_call_same in E1 as [-> Hr]. unfold os_call, when, ret, raise in Hf.
  destruct Hr as [->|[e ->]].
  - destruct (fs !! resolve fs p) as [n|] eqn:En; intros [= <- <-]; (split; [done|]); intros q; [|by left].
    destruct (decide (q = resolve fs p)) as [->|Hq]; [|left; by rewrite lookup_insert_ne].
    right. rewrite lookup_insert_eq. eauto.
  - destruct (faulty OpChmod p); [|done]. injection Hf as <-. intros [= <- <-]. split; [done|]. by left.
Qed.

Lemma walked_same fs fs' p q :
  (∀ q, same_data (fs !! q) (fs' !! q)) → walked faulty fs' p q = walked faulty fs p q.
Proof using.
  intros H. unfold walked. f_equal. induction (seq _ _) as [|n l IH]; [done|]. cbn [forallb]. rewrite IH.
  do 2 f_equal. destruct (H (take n q)) as [->|(k & m & E1 & E2)]; [done|]. rewrite E1, E2. by destruct k.
Qed.

Lemma follow_same n fs fs' p :
  (∀ q, same_data (fs !! q) (fs' !! q)) → follow n fs p = follow n fs' p.
Proof using.
  intros H. revert p. induction n as [|n IH]; intros p; [done|]. cbn [follow].
  destruct (H p) as [->|(k & m & -> & ->)]; [|by destruct k]. by destruct (fs !! p) as [[]|].
Qed.

Lemma walk_elem fs p q : walked faulty fs p q = true → is_Some (fs !! q) →
  q ∈ List.filter (walked faulty fs p) (map_to_list fs).*1.
Proof using.
  intros Hw [n Hn]. apply list_elem_of_In, filter_In. split; [|done]. apply list_elem_of_In, list_elem_of_fmap.
  exists (q, n). split; [done|]. by apply elem_of_map_to_list.
Qed.

(** Once [secure_client_dir(path, recursive=True)] has made the directory
    it does not fail, and every entry below it that can be reached and whose
    mode can be read and set is afterwards readable by the owner alone (0600
    for a file, 0700 for a directory); whatever fails, no file loses its
    content and no node disappears or changes its kind. *)
Theorem client_dir_secured p fs fs1 r fs' :
  mkdirs faulty umask p fs = (Ok tt, fs1) →
  secure_client_dir faulty umask p true fs = (r, fs') →
  r = Ok tt ∧
  (∀ q n, fs !! q = Some n → same_data (Some n) (fs' !! q)) ∧
  (is_dir fs1 p = true → ∀ q, walked faulty fs' p q = true → modes_settable faulty q → tight (fs' !! q)).
Proof using.
  intros E1. unfold secure_client_dir. rewrite (bind_run_ok _ _ _ _ _ E1).
  assert (Hg := mrel_ok _ _ _ _ _ (mkdirs_grown faulty umask p) E1).
  destruct (swallow_os (os_chmod faulty p o700) fs1) as [r2 fs2] eqn:E2.
  destruct (chmod_same_data _ _ _ _ _ E2) as [-> H2]. rewrite (bind_run_ok _ _ _ _ _ E2).
  assert (Hkeep : ∀ fs3 : FS, (∀ q, same_data (fs2 !! q) (fs3 !! q)) →
    ∀ q n, fs !! q = Some n → same_data (Some n) (fs3 !! q)).
  { intros fs3 H3 q n Hq. eapply same_data_trans; [|apply H3]. destruct (Hg q) as [E|[E _]]; [|congruence].
    rewrite <- Hq, <- E. apply H2. }
  unfold bind at 1, get. destruct (is_dir fs2 p) eqn:Ed; cbn [negb].
  - unfold bind, walk, gets.
    intros E3. destruct (secure_entries faulty _ _ _ _ E3) as [-> H3]. split; [done|]. split.
    { apply Hkeep. intros q. apply H3. }
    intros _ q Hw Hm. rewrite (walked_same fs2) in Hw by (intros q'; apply H3).
    destruct (fs2 !! q) as [n|] eqn:En.
    + apply H3; [|done]. apply walk_elem; [done|]. by exists n.
    + apply tight_none. rewrite <- En. apply H3.
  - intros [= <- <-]. split; [done|]. split; [apply Hkeep; by left|].
    intros Hd. exfalso. revert Ed Hd. unfold is_dir.
    replace (resolve fs2 p) with (resolve fs1 p).
    + destruct (H2 (resolve fs1 p)) as [->|(k & m & Ea & Eb)]; [congruence|]. rewrite Ea, Eb. by destruct k.
    + by apply follow_same.
Qed.
Lemma chmod_run p mode fs r f : no_link fs p → os_chmod faulty p mode fs = (r, f) →
  (∀ q, q ≠ p → f !! q = fs !! q) ∧ same_data (fs !! p) (f !! p).
Proof using.
  intros Hl. unfold os_chmod, bind, get. destruct (os_call faulty OpChmod p fs) as [r1 f1] eqn:E1.
  apply os_call_same in E1 as [-> _]. destruct r1 as [[]|]; [|intros [= <- <-]; split; [done|by left]].
  rewrite (resolve_no_link _ _ Hl). destruct (fs !! p) as [n|] eqn:En; intros [= <- <-]; [|split; [done|by left]].
  split; [intros q Hq; by rewrite lookup_insert_ne|]. right. rewrite lookup_insert_eq. eauto.
Qed.

Lemma file_kept d m n : same_data (Some (NFile d m)) n → ∃ m', n = Some (NFile d m').
Proof using. intros [->|(k & m' & [= <-] & ->)]; cbn; eauto. Qed.
Lemma no_link_kept n n' : same_data n n' → (∀ t, n ≠ Some (NLink t)) → ∀ t, n' ≠ Some (NLink t).
Proof using. intros [->|(k & m' & -> & ->)] H t; [apply H|]. destruct k; [done|done|]. by destruct (H target). Qed.

Lemma chmod_file p mode d m fs r f : fs !! p = Some (NFile d m) → os_chmod faulty p mode fs = (r, f) →
  (∀ q, q ≠ p → f !! q = fs !! q) ∧ no_link f p ∧ (r = Ok tt → f !! p = Some (NFile d mode)).
Proof using.
  intros Ep. unfold os_chmod, bind, get. destruct (os_call faulty OpChmod p fs) as [r1 f1] eqn:E1.
  apply os_call_same in E1 as [-> _]. assert (no_link fs p) as Hl by (intros t; by rewrite Ep).
  destruct r1 as [[]|]; [|by intros [= <- <-]]. rewrite (resolve_no_link _ _ Hl), Ep. intros [= <- <-].
  split_and!; [intros q Hq; by rewrite lookup_insert_ne|intros t; by rewrite lookup_insert_eq|by rewrite lookup_insert_eq].
Qed.

Lemma pid_removed p fs r f : PidFile_remove faulty p fs = (r, f) →
  r = Ok tt ∧ (∀ q, q ≠ p → f !! q = fs !! q) ∧ (faulty OpUnlink p = false → (∀ m, fs !! p ≠ Some (NDir m)) → f !! p = None).
Proof using.
  unfold PidFile_remove, swallow_os, catch, unlink, bind, get, modify, raise, os_call, when.
  destruct (fs !! p) as [[d m|m|t]|] eqn:Ep; try destruct (faulty OpUnlink p); intros [= <- <-];
    (split; [done|]); (split; [intros q Hq; by rewrite ?lookup_delete_ne|]); intros Hf Hd; rewrite ?lookup_delete_eq;
    try done; by destruct (Hd m).
Qed.

(** A file that [os.replace] moves is whole at its target, or still where it
    was. *)
Lemma replace_run src dst d m fs r f : src ≠ dst → fs !! src = Some (NFile d m) → os_replace faulty src dst fs = (r, f) →
  (∀ q, q ≠ src → q ≠ dst → f !! q = fs !! q) ∧ no_link f src ∧
  match r with Ok _ => f !! dst = Some (NFile d m) | Raise _ => f = fs end.
Proof using.
  intros Hne Es. unfold os_replace, bind, get, modify, raise. destruct (os_call faulty OpReplace dst fs) as [r1 f1] eqn:E1.
  apply os_call_same in E1 as [-> _]. assert (no_link fs src) as Hl by (intros t; by rewrite Es).
  destruct r1 as [[]|]; [|by intros [= <- <-]]. rewrite Es.
  assert (Hfin : ∀ f, <[dst := NFile d m]> (delete src fs) = f →
    (∀ q, q ≠ src → q ≠ dst → f !! q = fs !! q) ∧ no_link f src ∧ f !! dst = Some (NFile d m)).
  { intros f' <-. split_and!; [intros q ??; by rewrite lookup_insert_ne, lookup_delete_ne| |by rewrite lookup_insert_eq].
    intros t. by rewrite lookup_insert_ne, lookup_delete_eq. }
  destruct (fs !! dst) as [[]|]; intros [= <- <-]; [by apply Hfin|done|by apply Hfin..].
Qed.
End secured.

(** ** Examples *)

Lemma run_eq {S A} (x : res A * S) r : x.1 = r → x = (r, x.2).
Proof. destruct x. by intros <-. Qed.

Definition no_fault (op : os_op) (p : path) : bool := false.
Definition demo_fs : FS :=
  list_to_map [(["home"], NDir o777); (["home"; "c"], NDir o777); (["home"; "c"; "id"], NFile "key" o644);
               (["home"; "c"; "d"], NDir o777); (["home"; "c"; "d"; "m.db"], NFile "rows" o666);
               (["home"; "c"; "l"], NLink ["home"; "x"]); (["home"; "x"], NFile "other" o644)].

Definition demo_entry : path := ["home"; "c"; "d"; "m.db"].
Definition demo_run : res unit * FS := secure_client_dir no_fault 18 ["home"; "c"] true demo_fs.
Definition demo_made : FS := (mkdirs no_fault 18 ["home"; "c"] demo_fs).2.
Lemma client_dir_secured_witness :
  tight (demo_run.2 !! demo_entry) ∧ demo_run.2 !! demo_entry = Some (NFile "rows" o600) ∧
  demo_run.2 !! ["home"; "x"] = Some (NFile "other" o644).
Proof.
  split; [|split; vm_compute; reflexivity].
  assert (E1 : mkdirs no_fault 18 ["home"; "c"] demo_fs = (Ok tt, demo_made))
    by (apply run_eq; vm_compute; reflexivity).
  assert (E2 : secure_client_dir no_fault 18 ["home"; "c"] true demo_fs = (Ok tt, demo_run.2))
    by (apply run_eq; vm_compute; reflexivity).
  assert (Hw : walked no_fault demo_run.2 ["home"; "c"] demo_entry = true) by (vm_compute; reflexivity).
  assert (Hd : is_dir demo_made ["home"; "c"] = true) by (vm_compute; reflexivity).
  exact (proj2 (proj2 (client_dir_secured _ _ _ _ _ _ _ E1 E2)) Hd demo_entry Hw (conj eq_refl eq_refl)).
Defined.

(** A temporary file that an earlier run left behind, and that others can
    read, gives its mode to the file that is written: here the key of the
    database, asked for with mode 0600, ends with mode 0644. *)
Example stale_tmp_mode :
  (let '(r, fs) := write_secure no_fault 18 ["home"; "c"; "db_key"] "secret" o600
                     (<[["home"; "c"; "db_key.tmp"] := NFile "partial" o644]> demo_fs) in
   (r, fs !! ["home"; "c"; "db_key"])) = (Ok tt, Some (NFile "secret" o644)).
Proof. vm_compute. reflexivity. Qed.

(** What [PidFile.write] stores, [read] gives back. *)
Example pid_file_read :
  (let '(_, fs) := PidFile_write no_fault 18 ["home"; "c"; "hokorad.pid"] 4711 demo_fs in
   ((PidFile_read no_fault ["home"; "c"; "hokorad.pid"] fs).1, fs !! ["home"; "c"; "hokorad.tmp"])) = (Ok (Some 4711), None).
Proof. vm_compute. reflexivity. Qed.
