(* ===== verification/Config.v ===== *)
(** * Configuration and the database key ([hokora/config.py],
      [security/db_key.py], [db/engine.py], [hokora db migrate-key] of
      [cli/db.py])

    The node's settings come from a TOML file and from environment variables
    that override it.  Reading TOML ([toml_load]) and filling the typed fields
    ([Pydantic]) is other code; the checks that follow, which key opens the
    database, and what is sent to it on connecting are the source's.  Warnings
    are log lines and left out. *)

From S2P Require Import Prelude Constants Models InviteCodes Message Wire Text Files.

Definition DEFAULT_MAX_RESOURCE_SIZE : Z := 5 * 1024 * 1024.
Definition MIN_RESOURCE_SIZE : Z := 64 * 1024.
Definition MAX_RESOURCE_SIZE_HARD_LIMIT : Z := 50 * 1024 * 1024.

(** ** The settings, in the groups of the class *)

Record PathSettings := {
  data_dir : path; db_path : option path; media_dir : option path; identity_dir : option path;
  db_encrypt : bool; db_key : option string; db_keyfile : option path; rns_config_dir : option path;
}.
Record NodeSettings := {
  node_name : string; node_description : string; log_level : string; log_json : bool; log_to_stdout : bool;
  announce_enabled : bool; announce_interval : Z; announce_stagger_ms : Z; default_channel_name : string;
  max_sync_limit : Z; retention_days : Z; metadata_scrub_days : Z; enable_fts : bool; show_private_channels : bool;
}.
Record RelaySettings := {
  relay_only : bool; propagation_enabled : bool; propagation_storage_mb : Z; propagation_static_peers : list string;
  propagation_autopeer : bool; propagation_autopeer_maxdepth : Z; propagation_max_peers : Z;
}.
Record LimitSettings := {
  rate_limit_tokens : Z; rate_limit_refill : float; max_upload_bytes : Z; max_storage_bytes : Z;
  max_global_storage_bytes : Z; max_resource_size : Z;
}.
Record FederationSettings := {
  federation_auto_trust : bool; require_signed_federation : bool; require_signed_lxmf : bool;
  lxmf_path_wait_seconds : float; federation_push_retry_interval : Z; federation_push_max_backoff : Z;
  mirror_retry_interval : Z;
}.
Record SecrecySettings := {
  fs_enabled : bool; fs_epoch_duration : Z; fs_min_epoch_duration : Z; fs_max_epoch_duration : Z;
  fs_rotation_max_retries : Z; fs_rotation_initial_backoff : Z;
}.
Record SessionSettings := {
  cdsp_enabled : bool; cdsp_session_timeout : Z; cdsp_init_timeout : Z; cdsp_deferred_queue_limit : Z;
  cdsp_default_profile : Z; heartbeat_enabled : bool; heartbeat_interval_s : float; observability_enabled : bool;
  observability_port : Z;
}.
Record NodeConfig := {
  paths : PathSettings; node : NodeSettings; relay : RelaySettings; limits : LimitSettings;
  federation : FederationSettings; secrecy : SecrecySettings; sessions : SessionSettings;
}.

Definition set_paths (f : PathSettings → PathSettings) (c : NodeConfig) : NodeConfig := {|
  paths := f (paths c); node := node c; relay := relay c; limits := limits c; federation := federation c;
  secrecy := secrecy c; sessions := sessions c |}.
Definition set_path_wait (w : float) (c : NodeConfig) : NodeConfig := {|
  paths := paths c; node := node c; relay := relay c; limits := limits c; secrecy := secrecy c; sessions := sessions c;
  federation := {|
    federation_auto_trust := federation_auto_trust (federation c);
    require_signed_federation := require_signed_federation (federation c);
    require_signed_lxmf := require_signed_lxmf (federation c); lxmf_path_wait_seconds := w;
    federation_push_retry_interval := federation_push_retry_interval (federation c);
    federation_push_max_backoff := federation_push_max_backoff (federation c);
    mirror_retry_interval := mirror_retry_interval (federation c) |} |}.

(** The declared defaults; [home] is the user's directory. *)
Definition default_config (home : path) : NodeConfig := {|
  paths := {| data_dir := home ++ [".hokora"]; db_path := None; media_dir := None; identity_dir := None;
              db_encrypt := true; db_key := None; db_keyfile := None; rns_config_dir := None |};
  node := {| node_name := "Hokora Node"; node_description := EmptyString; log_level := "INFO"; log_json := false;
             log_to_stdout := false; announce_enabled := true; announce_interval := 600; announce_stagger_ms := 50;
             default_channel_name := "general"; max_sync_limit := 100; retention_days := 0; metadata_scrub_days := 0;
             enable_fts := true; show_private_channels := true |};
  relay := {| relay_only := false; propagation_enabled := false; propagation_storage_mb := 500;
              propagation_static_peers := []; propagation_autopeer := true; propagation_autopeer_maxdepth := 4;
              propagation_max_peers := 20 |};
  limits := {| rate_limit_tokens := 10; rate_limit_refill := fz 1; max_upload_bytes := 5 * 1024 * 1024;
               max_storage_bytes := 1024 * 1024 * 1024; max_global_storage_bytes := 10 * 1024 * 1024 * 1024;
               max_resource_size := DEFAULT_MAX_RESOURCE_SIZE |};
  federation := {| federation_auto_trust := false; require_signed_federation := true; require_signed_lxmf := true;
                   lxmf_path_wait_seconds := fz 5; federation_push_retry_interval := 60;
                   federation_push_max_backoff := 600; mirror_retry_interval := 60 |};
  secrecy := {| fs_enabled := true; fs_epoch_duration := 3600; fs_min_epoch_duration := 300;
                fs_max_epoch_duration := 86400; fs_rotation_max_retries := 3; fs_rotation_initial_backoff := 30 |};
  sessions := {| cdsp_enabled := true; cdsp_session_timeout := 3600; cdsp_init_timeout := 5;
                 cdsp_deferred_queue_limit := 1000; cdsp_default_profile := 1; heartbeat_enabled := true;
                 heartbeat_interval_s := fz 30; observability_enabled := true; observability_port := 8421 |} |}.

(** [NodeConfig.model_fields]: the names, and how the environment's text is
    read for each annotation. *)
Inductive field_kind := KBool | KInt | KFloat | KOther.
Definition model_fields : list (string * field_kind) :=
  [("node_name", KOther); ("node_description", KOther); ("data_dir", KOther); ("db_path", KOther);
   ("media_dir", KOther); ("identity_dir", KOther); ("db_encrypt", KBool); ("db_key", KOther); ("db_keyfile", KOther);
   ("rns_config_dir", KOther); ("log_level", KOther); ("log_json", KBool); ("log_to_stdout", KBool);
   ("announce_enabled", KBool); ("announce_interval", KInt); ("announce_stagger_ms", KInt);
   ("default_channel_name", KOther); ("max_sync_limit", KInt); ("retention_days", KInt); ("metadata_scrub_days", KInt);
   ("enable_fts", KBool); ("show_private_channels", KBool); ("relay_only", KBool); ("propagation_enabled", KBool);
   ("propagation_storage_mb", KInt); ("propagation_static_peers", KOther); ("propagation_autopeer", KBool);
   ("propagation_autopeer_maxdepth", KInt); ("propagation_max_peers", KInt); ("rate_limit_tokens", KInt);
   ("rate_limit_refill", KFloat); ("max_upload_bytes", KInt); ("max_storage_bytes", KInt);
   ("max_global_storage_bytes", KInt); ("max_resource_size", KInt); ("federation_auto_trust", KBool);
   ("require_signed_federation", KBool); ("require_signed_lxmf", KBool); ("lxmf_path_wait_seconds", KFloat);
   ("federation_push_retry_interval", KInt); ("federation_push_max_backoff", KInt); ("mirror_retry_interval", KInt);
   ("fs_enabled", KBool); ("fs_epoch_duration", KInt); ("fs_min_epoch_duration", KInt); ("fs_max_epoch_duration", KInt);
   ("fs_rotation_max_retries", KInt); ("fs_rotation_initial_backoff", KInt); ("cdsp_enabled", KBool);
   ("cdsp_session_timeout", KInt); ("cdsp_init_timeout", KInt); ("cdsp_deferred_queue_limit", KInt);
   ("cdsp_default_profile", KInt); ("heartbeat_enabled", KBool); ("heartbeat_interval_s", KFloat);
   ("observability_enabled", KBool); ("observability_port", KInt)].

(** [NodeConfig] called with the data up to [model_post_init]: the fields with their types,
    the defaults where the data has none; none is a validation error.
    [toml_load] and [float(text)] complete the reading. *)
Class Pydantic := {
  validate_fields : path → dict string val → option NodeConfig;
  toml_load : string → option (dict string val);
  float_of_str : string → option float;
}.

(** ** [security/db_key.py] *)

Definition is_hex (c : Ascii.ascii) : bool := bool_decide (is_Some (hex_value c)).
(** [DB_KEY_PATTERN.match]: the [$] of Python also matches before a final
    newline. *)
Definition drop_final_newline (l : chars) : chars :=
  match reverse l with c :: r => if bool_decide (c = chr 10) then reverse r else l | [] => l end.
Definition key_pattern (s : string) : bool :=
  let l := drop_final_newline (chars_of s) in (zlen l =? 64) && forallb is_hex l.

Definition validate_db_key_hex (value : string) : res string :=
  if key_pattern value then Ok value else Raise (Exn ValueError "must be exactly 64 hexadecimal characters").

(** A path given as text; the working directory is the root. *)
Definition path_of (s : string) : path :=
  map string_of (List.filter (λ w, list_true w && negb (bool_decide (w = [chr 46]))) (split_at (chr 47) (chars_of s))).
Definition path_text (p : path) : string := string_of (flat_map (λ n, chr 47 :: chars_of n) p).

Section config.
Context `{HP : Pydantic}.
Context (faulty : os_op → path → bool) (umask : Z) (home : path).

Definition resolve_db_key_from_path (p : path) : M FS string :=
  let! fs := get in
  if negb (is_file fs p) then raise FileNotFoundError "db_keyfile: no file exists there"
  else
    let! text := catch (read_text faulty p)
                   (λ e, if is_os_error e then raise RuntimeError "Could not read db_keyfile" else throw e) in
    let contents := str_strip text in
    if key_pattern contents then ret contents
    else raise ValueError "does not contain exactly 64 hex characters".

(** [new_key] is [secrets.token_hex(32)]. *)
Definition newline_str : string := String (chr 10) EmptyString.
Definition ensure_db_key (new_key : string) (p : path) : M FS string :=
  let! fs := get in
  if negb (is_file fs p) then
    write_secure faulty umask p (new_key +:+ newline_str)%string o600 ;;
    ret new_key
  else resolve_db_key_from_path p.

(** ** [NodeConfig] *)

Definition with_default (o : option path) (d : path) : option path := match o with None => Some d | Some p => Some p end.
Definition or_unset {A} (b : bool) (new old : option A) : option A := if b then new else old.

Definition filled (fs : FS) (c : NodeConfig) : NodeConfig :=
  set_paths (λ p,
    let d := data_dir p in
    {| data_dir := d; db_path := with_default (db_path p) (d ++ ["hokora.db"]);
       media_dir := with_default (media_dir p) (d ++ ["media"]);
       identity_dir := with_default (identity_dir p) (d ++ ["identities"]); db_encrypt := db_encrypt p; db_key := db_key p;
       db_keyfile := or_unset (db_encrypt p && bool_decide (db_keyfile p = None) && bool_decide (db_key p = None)
                               && negb (relay_only (relay c)) && is_file fs (d ++ ["db_key"]))
                              (Some (d ++ ["db_key"])) (db_keyfile p);
       rns_config_dir := rns_config_dir p |}) c.

Definition require (ok : bool) (msg : string) : res unit := if ok then Ok tt else Raise (Exn ValueError msg).
(** The checks run in order; the first one that fails raises. *)
Fixpoint first_error (l : list (res unit)) : res unit :=
  match l with [] => Ok tt | Ok _ :: l => first_error l | Raise e :: _ => Raise e end.

Definition between (lo x hi : Z) : bool := (lo <=? x) && (x <=? hi).
Definition checks (c : NodeConfig) : list (res unit) :=
  let p := paths c in
  let s := secrecy c in
  [ (if db_encrypt p && ostr_true (db_key p)
     then match validate_db_key_hex (or_empty (db_key p)) with Ok _ => Ok tt | Raise e => Raise e end else Ok tt);
    require (negb (db_encrypt p && negb (relay_only (relay c)) && bool_decide (db_key p = None)
                   && bool_decide (db_keyfile p = None))) "no key source is configured";
    require (negb (announce_interval (node c) <=? 0)) "announce_interval must be > 0";
    require (between 0 (announce_stagger_ms (node c)) 5000) "announce_stagger_ms";
    require (between 10 (mirror_retry_interval (federation c)) 600) "mirror_retry_interval";
    require (between MIN_RESOURCE_SIZE (max_resource_size (limits c)) MAX_RESOURCE_SIZE_HARD_LIMIT) "max_resource_size";
    require (negb (fs_max_epoch_duration s <=? fs_min_epoch_duration s)) "fs_min_epoch_duration";
    require (between (fs_min_epoch_duration s) (fs_epoch_duration s) (fs_max_epoch_duration s)) "fs_epoch_duration" ].

Definition model_post_init (fs : FS) (c : NodeConfig) : res NodeConfig :=
  let c := filled fs c in match first_error (checks c) with Ok _ => Ok c | Raise e => Raise e end.

Definition resolve_db_key (c : NodeConfig) : M FS (option string) :=
  let p := paths c in
  if negb (db_encrypt p) then ret None
  else match db_keyfile p, db_key p with
       | Some f, _ => mmap Some (resolve_db_key_from_path f)
       | None, Some k => ret (Some k)
       | None, None => if relay_only (relay c) then ret None
                       else raise ValueError "no key source is configured"
       end.

(** ** [load_config] *)

Definition env : Type := dict string string.
Definition _ENV_FALSE_VALUES : list string := ["false"; "0"; EmptyString; "no"; "off"].
Definition str_upper (s : string) : string := string_of (map upper_char (chars_of s)).
Definition env_name (field : string) : string := ("HOKORA_" +:+ str_upper field)%string.

Definition env_value (k : field_kind) (text : string) : res val :=
  match k with
  | KBool => Ok (VBool (negb (bool_decide (str_strip (string_of (map str_lower_char (chars_of text))) ∈ _ENV_FALSE_VALUES))))
  | KInt => match int_of_str text with Some z => Ok (VInt z) | None => Raise (Exn ValueError "invalid literal for int()") end
  | KFloat => match float_of_str text with
              | Some f => Ok (VFloat f) | None => Raise (Exn ValueError "could not convert string to float") end
  | KOther => Ok (VStr text)
  end.

Fixpoint overlay (e : env) (fields : list (string * field_kind)) (data : dict string val) : res (dict string val) :=
  match fields with
  | [] => Ok data
  | (f, k) :: fields =>
      match dict_get (env_name f) e with
      | None => overlay e fields data
      | Some text => match env_value k text with
                     | Ok v => overlay e fields (dict_set f v data)
                     | Raise x => Raise x
                     end
      end
  end.

(** Also [_resolve_config_path] of [cli/db.py]. *)
Definition resolve_config_path (e : env) : path :=
  if ostr_true (dict_get "HOKORA_CONFIG" e) then path_of (or_empty (dict_get "HOKORA_CONFIG" e))
  else if ostr_true (dict_get "HOKORA_DATA_DIR" e) then path_of (or_empty (dict_get "HOKORA_DATA_DIR" e)) ++ ["hokora.toml"]
  else home ++ [".hokora"; "hokora.toml"].

Definition clamp_path_wait (c : NodeConfig) : NodeConfig :=
  let w := lxmf_path_wait_seconds (federation c) in
  if flt w (fz 0) then set_path_wait (fz 0) c
  else if flt (fz 30) w then set_path_wait (fz 30) c
  else c.

Definition load_config (e : env) (config_path : option path) : M FS NodeConfig :=
  let p := default (resolve_config_path e) config_path in
  let! fs := get in
  let! data := if exists_ fs p
               then let! text := read_bytes faulty p in
                    match toml_load text with Some d => ret d | None => raise ValueError "TOMLDecodeError" end
               else ret [] in
  let! data := of_res (overlay e model_fields data) in
  match validate_fields home data with
  | None => raise ValueError "ValidationError"
  | Some c => let! c := of_res (model_post_init fs c) in ret (clamp_path_wait c)
  end.

(** ** [db/engine.py] *)

(** [re.match(r"^[0-9a-fA-F]+$", s)] *)
Definition hex_match (s : string) : bool :=
  let l := drop_final_newline (chars_of s) in list_true l && forallb is_hex l.

Definition create_db_engine (sqlcipher : bool) (encrypt : bool) (key : option string) : res unit :=
  if encrypt && ostr_true key then
    if negb (hex_match (or_empty key)) || negb (py_len (or_empty key) =? 64)
    then Raise (Exn ValueError "db_key must be exactly 64 hex characters")
    else if sqlcipher then Ok tt else Raise (Exn RuntimeError "SQLCipher is required but sqlcipher3 is not installed")
  else Ok tt.

(** [set_sqlite_pragma]: what a new connection executes. *)
Definition quote : string := String (chr 34) EmptyString.
Definition key_statement (key : string) : string := ("PRAGMA key=" +:+ quote +:+ "x'" +:+ key +:+ "'" +:+ quote)%string.
Definition set_sqlite_pragma (encrypt : bool) (key : option string) : res (list string) :=
  let pragmas := ["PRAGMA journal_mode=WAL"; "PRAGMA foreign_keys=ON"; "PRAGMA synchronous=NORMAL";
                  "PRAGMA busy_timeout=5000"] in
  if encrypt && ostr_true key then
    if key_pattern (or_empty key) then Ok (key_statement (or_empty key) :: pragmas)
    else Raise (Exn AssertionError "db_key must be 64 hex chars")
  else Ok pragmas.

(** The first connection of a node: its key, its engine, its statements. *)
Definition connect (sqlcipher : bool) (c : NodeConfig) : M FS (list string) :=
  let! key := resolve_db_key c in
  of_res (match create_db_engine sqlcipher (db_encrypt (paths c)) key with
          | Raise e => Raise e
          | Ok _ => set_sqlite_pragma (db_encrypt (paths c)) key
          end).

(** [check_alembic_revision], where the schema directory is there: [head] is
    the newest revision, and the state the [alembic_version] table, if any. *)
Definition check_alembic_revision (head : option string) : M (option (option string)) unit :=
  match head with
  | None => ret tt
  | Some head_rev =>
      let! table := get in
      match table with
      | None => modify (λ _, Some (Some head_rev))
      | Some current_rev =>
          if negb (bool_decide (current_rev = Some head_rev)) then raise RuntimeError "run hokora db upgrade" else ret tt
      end
  end.
End config.

(** ** [hokora db migrate-key] *)

(** A line that assigns a quoted string to [db_key], with nothing after it. *)
Definition is_blank (c : Ascii.ascii) : bool := bool_decide (c = chr 32) || bool_decide (c = chr 9).
Definition strip_prefix (p l : chars) : option chars :=
  if bool_decide (take (length p) l = p) then Some (drop (length p) l) else None.
Definition is_key_line (l : chars) : bool :=
  match strip_prefix (chars_of "db_key") (lstrip is_blank l) with
  | None => false
  | Some l =>
      match lstrip is_blank l with
      | c :: l =>
          bool_decide (c = chr 61) &&
          match lstrip is_blank l with
          | c :: l => bool_decide (c = chr 34) &&
                      match cut (chr 34) l with (_, Some rest) => forallb is_blank rest | _ => false end
          | [] => false
          end
      | [] => false
      end
  end.

(** [re.sub] reads its replacement as a template: a doubled backslash is one. *)
Fixpoint template (l : chars) : chars :=
  match l with
  | c :: r => if bool_decide (c = chr 92)
              then match r with
                   | c' :: r' => if bool_decide (c' = chr 92) then chr 92 :: template r' else c :: template r
                   | [] => [c]
                   end
              else c :: template r
  | [] => []
  end.

Fixpoint replace_line (new : chars) (lines : list chars) : list chars :=
  match lines with
  | [] => []
  | l :: lines => if is_key_line l then template new :: lines else l :: replace_line new lines
  end.

(** [str(target)] with backslashes and quotes escaped *)
Definition escape_path (l : chars) : chars :=
  flat_map (λ c, if bool_decide (c = chr 92) || bool_decide (c = chr 34) then [chr 92; c] else [c]) l.
Definition keyfile_line (target : path) : chars :=
  chars_of "db_keyfile = " ++ chr 34 :: escape_path (chars_of (path_text target)) ++ [chr 34].

Definition rewrite_toml (target : path) (original : string) : string :=
  let lines := split_at (chr 10) (chars_of original) in
  let rewritten := string_of (join_at (chr 10) (replace_line (keyfile_line target) lines)) in
  if bool_decide (rewritten = original)
  then string_of (rstrip is_str_space (chars_of original) ++ chr 10 :: keyfile_line target ++ [chr 10])
  else rewritten.

Inductive migrate_result :=
  | NoConfigFile | LoadFailed | NotEncrypted | AlreadyMigrated | NoInlineKey | TargetExists | KeyfileFailed
  | ReadbackFailed | ReadbackDiffers | BackupFailed | RewriteFailed | Migrated (target : path).

Section migrate.
Context `{HP : Pydantic}.
Context (faulty : os_op → path → bool) (umask : Z) (home : path).

(** [shutil.copy2]: the target is emptied before it is written. *)
Definition copy2 (src dst : path) : M FS unit :=
  let! text := read_bytes faulty src in
  let! mode := stat_mode faulty src in
  put_file faulty umask dst text o666 ;;
  os_chmod faulty dst mode.

(** [try: m except OSError: r] *)
Definition or_os {A} (m : M FS A) : M FS (option A) :=
  catch (mmap Some m) (λ e, if is_os_error e then ret None else throw e).
Definition or_any {A} (m : M FS A) : M FS (option A) := catch (mmap Some m) (λ _, ret None).

(** The part of [migrate_key] that writes the configuration anew. *)
Definition rewrite_config (config_path backup_path target : path) : M FS migrate_result :=
  let! original := read_text faulty config_path in
  let! rewritten := or_os (write_secure faulty umask config_path (rewrite_toml target original) o600) in
  match rewritten with
  | Some _ => ret (Migrated target)
  | None => swallow_os (copy2 backup_path config_path) ;; unlink faulty true target ;; ret RewriteFailed
  end.

(** From the backup of the configuration on. *)
Definition replace_key (config_path target : path) : M FS migrate_result :=
  let backup_path := with_tail config_path ".prev" in
  let! backed := or_os (copy2 config_path backup_path ;; os_chmod faulty backup_path o600) in
  match backed with
  | None => unlink faulty true target ;; ret BackupFailed
  | Some _ => rewrite_config config_path backup_path target
  end.

Definition migrate_to (config_path target : path) (key : string) : M FS migrate_result :=
  let! written := or_os (write_secure faulty umask target (key +:+ newline_str)%string o600) in
  match written with
  | None => ret KeyfileFailed
  | Some _ =>
      let! resolved := or_any (resolve_db_key_from_path faulty target) in
      match resolved with
      | None => unlink faulty true target ;; ret ReadbackFailed
      | Some resolved =>
          if negb (bool_decide (resolved = key)) then unlink faulty true target ;; ret ReadbackDiffers
          else replace_key config_path target
      end
  end.

Definition migrate_key (e : env) (to_file : option string) : M FS migrate_result :=
  let config_path := resolve_config_path home e in
  let! fs := get in
  if negb (exists_ fs config_path) then ret NoConfigFile
  else
    let! loaded := or_any (load_config faulty home e (Some config_path)) in
    match loaded with
    | None => ret LoadFailed
    | Some config =>
        let p := paths config in
        if negb (db_encrypt p) then ret NotEncrypted
        else match db_key p with
             | None => match db_keyfile p with Some _ => ret AlreadyMigrated | None => ret NoInlineKey end
             | Some key =>
                 let target := if ostr_true to_file then path_of (or_empty to_file) else data_dir p ++ ["db_key"] in
                 if exists_ fs target then ret TargetExists else migrate_to config_path target key
             end
    end.
End migrate.

(** ** Settings *)

(** What a configuration that was accepted satisfies. *)
Definition settings_ok (c : NodeConfig) : Prop :=
  let p := paths c in let s := secrecy c in
  (db_encrypt p = true → ostr_true (db_key p) = true → key_pattern (or_empty (db_key p)) = true) ∧
  (db_encrypt p = true → relay_only (relay c) = false → db_key p ≠ None ∨ db_keyfile p ≠ None) ∧
  0 < announce_interval (node c) ∧
  0 ≤ announce_stagger_ms (node c) ≤ 5000 ∧
  10 ≤ mirror_retry_interval (federation c) ≤ 600 ∧
  MIN_RESOURCE_SIZE ≤ max_resource_size (limits c) ≤ MAX_RESOURCE_SIZE_HARD_LIMIT ∧
  fs_min_epoch_duration s < fs_max_epoch_duration s ∧
  fs_min_epoch_duration s ≤ fs_epoch_duration s ≤ fs_max_epoch_duration s.

Lemma first_error_ok l : first_error l = Ok tt ↔ Forall (λ r, r = Ok tt) l.
Proof.
  induction l as [|[[]|e] l IH]; [done| |].
  - cbn. rewrite IH, Forall_cons. naive_solver.
  - cbn. rewrite Forall_cons. naive_solver.
Qed.

Lemma require_true b msg : require b msg = Ok tt ↔ b = true.
Proof. by destruct b. Qed.
Lemma between_iff lo x hi : between lo x hi = true ↔ lo ≤ x ≤ hi.
Proof. unfold between. rewrite andb_true_iff, !Z.leb_le. done. Qed.

Lemma checks_ok c : first_error (checks c) = Ok tt ↔ settings_ok c.
Proof.
  rewrite first_error_ok. unfold checks, settings_ok. rewrite !Forall_cons, !require_true, !between_iff, !negb_true_iff, !Z.leb_gt.
  assert (H1 : (if db_encrypt (paths c) && ostr_true (db_key (paths c))
     then match validate_db_key_hex (or_empty (db_key (paths c))) with Ok _ => Ok tt | Raise e => Raise e end else Ok tt) = Ok tt
     ↔ (db_encrypt (paths c) = true → ostr_true (db_key (paths c)) = true → key_pattern (or_empty (db_key (paths c))) = true)).
  { unfold validate_db_key_hex. destruct (db_encrypt _), (ostr_true _), (key_pattern _); naive_solver. }
  assert (H2 : db_encrypt (paths c) && negb (relay_only (relay c)) && bool_decide (db_key (paths c) = None)
                 && bool_decide (db_keyfile (paths c) = None) = false
     ↔ (db_encrypt (paths c) = true → relay_only (relay c) = false →
        db_key (paths c) ≠ None ∨ db_keyfile (paths c) ≠ None)).
  { destruct (db_encrypt _), (relay_only _), (db_key _), (db_keyfile _); naive_solver. }
  rewrite H1, H2. intuition.
Qed.

(** The defaults are accepted once there is a key. *)
Definition keyed (k : string) (p : PathSettings) : PathSettings := {|
  data_dir := data_dir p; db_path := db_path p; media_dir := media_dir p; identity_dir := identity_dir p;
  db_encrypt := db_encrypt p; db_key := Some k; db_keyfile := db_keyfile p; rns_config_dir := rns_config_dir p |}.
Definition demo_key : string := string_of (replicate 64 (chr 97)).
Example default_accepted : is_ok (model_post_init ∅ (set_paths (keyed demo_key) (default_config []))) = true.
Proof. vm_compute. reflexivity. Qed.

(** ** Keys *)

Lemma hex_plain c : is_hex c = true → is_cont c = false ∧ is_str_space c = false ∧ c ≠ chr 10.
Proof. unfold is_hex. rewrite bool_decide_eq_true. destruct c as [[] [] [] [] [] [] [] []]; intros [v H]; try done. Qed.

Lemma py_len_plain s : Forall (λ c, is_cont c = false) (chars_of s) → py_len s = zlen (chars_of s).
Proof.
  induction s as [|c s IH]; [done|]. unfold chars_of in *. cbn [String.list_ascii_of_string]. rewrite Forall_cons.
  intros [Hc Hs]. cbn [py_len]. rewrite Hc, IH by done. rewrite zlen_cons. lia.
Qed.

Lemma drop_final_cases l : drop_final_newline l = l ∨ l = drop_final_newline l ++ [chr 10].
Proof.
  unfold drop_final_newline. destruct (reverse l) as [|c r] eqn:E; [by left|]. case_bool_decide; [right|by left].
  subst. rewrite <- (reverse_involutive l), E, reverse_cons. done.
Qed.

(** 64 hexadecimal digits, and nothing else *)
Definition exact_key (k : string) : Prop := zlen (chars_of k) = 64 ∧ Forall (λ c, is_hex c = true) (chars_of k).

Lemma pattern_exact k : key_pattern k = true → py_len k = 64 → exact_key k.
Proof.
  unfold key_pattern, exact_key. rewrite andb_true_iff, Z.eqb_eq, forallb_forall. intros [Hn Hh] Hl.
  assert (Hf : Forall (λ c, is_hex c = true) (drop_final_newline (chars_of k))).
  { apply Forall_forall. intros c Hc. apply Hh. by apply list_elem_of_In. }
  destruct (drop_final_cases (chars_of k)) as [E|E]; [by rewrite E in *|]. exfalso.
  rewrite py_len_plain in Hl.
  - rewrite E, zlen_app, Hn in Hl. unfold zlen in Hl. cbn in Hl. lia.
  - rewrite E. apply Forall_app. split; [|by repeat constructor].
    eapply Forall_impl; [exact Hf|]. intros c Hc. by apply hex_plain.
Qed.

Lemma exact_pattern k : exact_key k → key_pattern k = true ∧ str_strip k = k.
Proof.
  intros [Hn Hf]. split.
  - unfold key_pattern. destruct (drop_final_cases (chars_of k)) as [E|E].
    + rewrite E, Hn. cbn. apply forallb_forall. intros c Hc. rewrite Forall_forall in Hf. apply Hf. by apply list_elem_of_In.
    + exfalso. rewrite E in Hf. apply Forall_app in Hf as [_ Hf]. apply Forall_inv in Hf. by vm_compute in Hf.
  - unfold str_strip. rewrite strip_plain; [apply string_chars|]. eapply Forall_impl; [exact Hf|].
    intros c Hc. by apply hex_plain.
Qed.

Section theorems.
Context `{HP : Pydantic}.
Context (faulty : os_op → path → bool) (umask : Z) (home : path).

(** A configuration that loads satisfies all the documented bounds, has
    its three paths set, waits between nought and thirty seconds for a path,
    and, when the database is encrypted and the node is no relay, names a
    source for the key; and no check refuses anything else: settings within
    the bounds are accepted as they are. *)
Theorem loaded_config_ok :
  (∀ e p fs c fs', load_config faulty home e p fs = (Ok c, fs') →
     fs' = fs ∧ settings_ok c ∧ (fz 0 <= lxmf_path_wait_seconds (federation c))%F ∧ (lxmf_path_wait_seconds (federation c) <= fz 30)%F ∧
     db_path (paths c) ≠ None ∧ media_dir (paths c) ≠ None ∧ identity_dir (paths c) ≠ None) ∧
  (∀ fs c, settings_ok (filled fs c) → model_post_init fs c = Ok (filled fs c)).
Proof using.
  split.
  - intros e p fs c fs'. unfold load_config. set (q := default _ p). unfold bind at 1, get.
    set (reading := if exists_ fs q then _ else _).
    assert (Hr : ∀ r f, reading fs = (r, f) → f = fs).
    { intros r f. unfold reading. destruct (exists_ fs q); [|by intros [= <- <-]].
      unfold bind, read_bytes, bind, get. destruct (os_call faulty OpRead q fs) as [r1 f1] eqn:E1.
      apply os_call_same in E1 as [-> _]. destruct r1; [|by intros [= <- <-]].
      destruct (fs !! resolve fs q) as [[]|]; cbn; try (by intros [= <- <-]).
      destruct (toml_load data); by intros [= <- <-]. }
    unfold bind at 1. destruct (reading fs) as [[data|x] f] eqn:E; [|done]. rewrite (Hr _ _ eq_refl).
    unfold bind at 1, of_res. destruct (overlay e model_fields data) as [d|x]; [|done].
    destruct (validate_fields home d) as [c0|]; [|done]. unfold bind. unfold model_post_init.
    destruct (first_error _) as [[]|] eqn:Ec; [|done]. intros [= <- <-]. split; [done|].
    apply checks_ok in Ec. unfold clamp_path_wait.
    destruct (flt (lxmf_path_wait_seconds _) (fz 0)) eqn:E1; [|destruct (flt (fz 30) _) eqn:E2].
    + split; [exact Ec|]. split; [by apply (fz_le 0 0)|]. split; [by apply (fz_le 0 30)|]. cbn. by destruct (db_path _), (media_dir _), (identity_dir _).
    + split; [exact Ec|]. split; [by apply (fz_le 0 30)|]. split; [by apply (fz_le 30 30)|]. cbn. by destruct (db_path _), (media_dir _), (identity_dir _).
    + split; [exact Ec|]. do 2 (split; [flra|]). cbn. by destruct (db_path _), (media_dir _), (identity_dir _).
  - intros fs c H. apply checks_ok in H. unfold model_post_init. by rewrite H.
Qed.

(** C29: When the database of a node that is no relay is encrypted, and its
    inline key is not the empty string, the first statement on a new
    connection gives SQLCipher a key of exactly 64 hexadecimal digits, the one
    that was resolved; otherwise there is no connection. *)
Theorem connection_keyed sqlcipher c fs l fs' :
  settings_ok c → db_encrypt (paths c) = true → relay_only (relay c) = false → db_key (paths c) ≠ Some EmptyString →
  connect faulty sqlcipher c fs = (Ok l, fs') →
  ∃ k pragmas, resolve_db_key faulty c fs = (Ok (Some k), fs') ∧ exact_key k ∧ l = key_statement k :: pragmas.
Proof using.
  intros (_ & Hsrc & _) He Hrel Hne. unfold connect, bind. specialize (Hsrc He Hrel).
  destruct (resolve_db_key faulty c fs) as [[key|e] f] eqn:Er; [|done]. unfold of_res. rewrite He.
  assert (Hk : ∃ k, key = Some k ∧ str_true k = true).
  { revert Er. unfold resolve_db_key. rewrite He. cbn [negb]. rewrite Hrel.
    destruct (db_keyfile (paths c)) as [kf|].
    - unfold mmap, bind, resolve_db_key_from_path, bind, get.
      destruct (is_file fs kf); [|done]. cbn [negb]. destruct (catch _ _ fs) as [[t|e] f1]; [|done].
      destruct (key_pattern (str_strip t)) eqn:Ep; [|done]. intros [= <- <-]. eexists. split; [done|].
      destruct (str_strip t) eqn:Et; [|done]. by vm_compute in Ep.
    - destruct (db_key (paths c)) as [k|]; [|by destruct Hsrc]. intros [= <- <-]. exists k. split; [done|].
      apply str_true_iff. congruence. }
  destruct Hk as (k & -> & Hk). unfold create_db_engine, set_sqlite_pragma.
  change (ostr_true (Some k)) with (str_true k). rewrite Hk. cbn [andb].
  change (or_empty (Some k)) with k.
  destruct (negb (hex_match k) || negb (py_len k =? 64)) eqn:E1; [done|]. destruct sqlcipher; [|done].
  destruct (key_pattern k) eqn:Ep; [|done]. intros [= <- <-].
  apply orb_false_iff in E1 as [_ E1]. apply negb_false_iff, Z.eqb_eq in E1.
  eexists k, _. split; [done|]. split; [by apply pattern_exact|done].
Qed.

(** A key that was generated is read back. *)
Lemma newlines_key k l : Forall (λ c, is_hex c = true) k → newlines (k ++ l) = k ++ newlines l.
Proof using.
  induction 1 as [|c k Hc Hk IH]; [done|]. cbn [app newlines]. rewrite bool_decide_false; [by rewrite IH|].
  intros ->. by vm_compute in Hc.
Qed.

Lemma utf8_ascii l : Forall (λ c, (N.to_nat (Ascii.N_of_ascii c) < 128)%nat) l →
  utf8_valid (str_bytes (string_of l)) = true.
Proof using.
  unfold str_bytes. rewrite (chars_string l : String.list_ascii_of_string (string_of l) = l).
  induction 1 as [|c l Hc Hl IH]; [done|]. cbn [map utf8_valid].
  replace (Z.of_N (Ascii.N_of_ascii c) <=? 127) with true by (symmetry; apply Z.leb_le; lia). done.
Qed.

Lemma hex_ascii c : is_hex c = true → (N.to_nat (Ascii.N_of_ascii c) < 128)%nat.
Proof using.
  unfold is_hex. rewrite bool_decide_eq_true. destruct c as [[] [] [] [] [] [] [] []]; intros [v H]; try done; cbn; lia.
Qed.

Lemma chars_app a b : chars_of (a +:+ b) = chars_of a ++ chars_of b.
Proof using.
  induction a as [|c a IH]; [done|]. change (c :: chars_of (a +:+ b) = c :: chars_of a ++ chars_of b). by rewrite IH.
Qed.

Lemma strip_key k : Forall (λ c, is_hex c = true) k → strip (k ++ [chr 10]) = k.
Proof using.
  intros H. assert (Hs : Forall (λ c, is_str_space c = false) k) by (eapply Forall_impl; [exact H|]; intros c; apply hex_plain).
  unfold strip. destruct k as [|c k]; [done|]. cbn [app]. rewrite lstrip_head by (by apply Forall_inv in Hs).
  unfold rstrip. change (c :: k ++ [chr 10]) with ((c :: k) ++ [chr 10]). rewrite reverse_snoc.
  change (lstrip is_str_space (chr 10 :: reverse (c :: k))) with (lstrip is_str_space (reverse (c :: k))).
  rewrite lstrip_id; [apply reverse_involutive|]. by apply Forall_reverse.
Qed.

Lemma keyfile_read k p fs m : exact_key k → fs !! p = Some (NFile (k +:+ newline_str) m) → faulty OpRead p = false →
  resolve_db_key_from_path faulty p fs = (Ok k, fs).
Proof using.
  intros [Hn Hk] E Hread. assert (Hl : no_link fs p) by (intros t; by rewrite E).
  unfold resolve_db_key_from_path, bind at 1, get, is_file. rewrite (resolve_no_link _ _ Hl), E. cbn [negb].
  assert (Hr : read_text faulty p fs = (Ok (k +:+ newline_str)%string, fs)).
  { unfold read_text, bind, read_bytes, bind, get, os_call, when. rewrite Hread. cbn [ret].
    rewrite (resolve_no_link _ _ Hl), E. cbn [ret]. unfold utf8_decode.
    assert (Hc : chars_of (k +:+ newline_str) = chars_of k ++ [chr 10]) by apply chars_app.
    rewrite <- (string_chars (k +:+ newline_str)), utf8_ascii.
    - rewrite bytes_str_bytes, chars_string, Hc, newlines_key by done. cbn. done.
    - rewrite Hc. apply Forall_app. split; [|repeat constructor; cbn; lia].
      eapply Forall_impl; [exact Hk|]. apply hex_ascii. }
  unfold bind, catch. rewrite Hr. unfold str_strip. rewrite chars_app. change (chars_of newline_str) with [chr 10].
  rewrite (strip_key _ Hk), string_chars.
  by rewrite (proj1 (exact_pattern k (conj Hn Hk))).
Qed.

Lemma ensured_key_read new_key p fs fs' r : p ≠ [] → no_link fs (with_tail p ".tmp") → exact_key new_key →
  is_file fs p = false → ensure_db_key faulty umask new_key p fs = (Ok r, fs') → faulty OpRead p = false →
  r = new_key ∧ resolve_db_key_from_path faulty p fs' = (Ok new_key, fs').
Proof using.
  intros Hp Hlt Hk Hf. unfold ensure_db_key, bind at 1, get. rewrite Hf. cbn [negb]. unfold bind.
  destruct (write_secure _ _ _ _ _ fs) as [[[]|e] fs1] eqn:Ew; [|done]. intros [= <- <-] Hread. split; [done|].
  apply write_secure_run in Ew as (_ & _ & m & E & _); [|done|done]. by eapply keyfile_read.
Qed.
End theorems.

(** ** Moving the key *)

Section moving.
Context `{HP : Pydantic}.
Context (faulty : os_op → path → bool) (umask : Z) (home : path).

Lemma read_bytes_run p fs r f : no_link fs p → read_bytes faulty p fs = (r, f) →
  f = fs ∧ ∀ d, r = Ok d → ∃ m, fs !! p = Some (NFile d m).
Proof using.
  intros Hl. unfold read_bytes, bind, get. destruct (os_call faulty OpRead p fs) as [r1 f1] eqn:E1.
  apply os_call_same in E1 as [-> _]. destruct r1 as [[]|]; [|by intros [= <- <-]].
  rewrite (resolve_no_link _ _ Hl). destruct (fs !! p) as [[d m| |]|]; intros [= <- <-]; (split; [done|]); intros d'; [|done..].
  intros [= ->]. eauto.
Qed.

Lemma resolve_key_run p fs fs2 r f : no_link fs p → fs2 !! p = fs !! p → resolve_db_key_from_path faulty p fs = (r, f) →
  f = fs ∧ resolve_db_key_from_path faulty p fs2 = (r, fs2).
Proof using.
  intros Hl E. assert (Hl2 : no_link fs2 p) by (intros t; rewrite E; apply Hl).
  unfold resolve_db_key_from_path, bind at 1 3, get, is_file. rewrite (resolve_no_link _ _ Hl), (resolve_no_link _ _ Hl2), E.
  destruct (fs !! p) as [[d m|m|t]|] eqn:En; [|by intros [= <- <-]..]. cbn [negb].
  unfold bind, catch, read_text, bind, read_bytes, bind, get, os_call, when.
  destruct (faulty OpRead p); [by intros [= <- <-]|]. cbn [ret].
  rewrite (resolve_no_link _ _ Hl), (resolve_no_link _ _ Hl2), E, En. cbn [ret].
  destruct (utf8_decode (str_bytes d)); cbn; [|by intros [= <- <-]]. destruct (key_pattern _); by intros [= <- <-].
Qed.

Lemma unlink_run b p fs r f : unlink faulty b p fs = (r, f) → ∀ q, q ≠ p → f !! q = fs !! q.
Proof using.
  unfold unlink, bind at 1, get. destruct (fs !! p) as [n|]; [|destruct b; by intros [= <- <-]].
  destruct n; try (by intros [= <- <-]); unfold bind; destruct (os_call faulty OpUnlink p fs) as [r1 f1] eqn:E1;
    apply os_call_same in E1 as [-> _]; (destruct r1 as [[]|]; [|by intros [= <- <-]]); intros [= <- <-] q Hq;
    by rewrite lookup_delete_ne.
Qed.

Lemma copy2_run src dst fs r f : no_link fs src → no_link fs dst → src ≠ dst → copy2 faulty umask src dst fs = (r, f) →
  (∀ q, q ≠ dst → f !! q = fs !! q) ∧ no_link f dst ∧
  (r = Ok tt → ∃ d m0 m, fs !! src = Some (NFile d m0) ∧ f !! dst = Some (NFile d m)).
Proof using.
  intros Hs Hd Hne. unfold copy2. unfold bind at 1. destruct (read_bytes faulty src fs) as [r1 f1] eqn:E1.
  apply read_bytes_run in E1 as [-> H1]; [|done]. destruct r1 as [d|e]; [|intros [= <- <-]; done].
  destruct (H1 d eq_refl) as [m0 E0]. clear H1.
  unfold bind at 1, stat_mode, bind at 1, get. destruct (os_call faulty OpStat src fs) as [r1 f1] eqn:E1.
  apply os_call_same in E1 as [-> _]. destruct r1 as [[]|]; [|intros [= <- <-]; done].
  unfold bind at 1. rewrite (resolve_no_link _ _ Hs), E0. cbn [ret].
  unfold bind. destruct (put_file faulty umask dst d o666 fs) as [r2 f2] eqn:E2.
  apply put_file_run in E2 as (Ho & Hl & Hok); [|done]. destruct r2 as [[]|]; [|intros [= <- <-]; done].
  destruct (Hok eq_refl) as (m & Em & _). intros E3. apply chmod_run in E3 as [Ho3 Hs3]; [|done]. split_and!.
  - intros q Hq. rewrite Ho3 by done. by apply Ho.
  - exact (no_link_kept _ _ Hs3 Hl).
  - intros _. rewrite Em in Hs3. apply file_kept in Hs3 as [m' ->]. exists d, m0, m'. done.
Qed.

Lemma or_os_run {A} (m : M FS A) fs r f : or_os m fs = (r, f) → ∃ r', m fs = (r', f) ∧
  match r with Ok (Some a) => r' = Ok a | Ok None | Raise _ => ∃ e, r' = Raise e end.
Proof using.
  unfold or_os, catch, mmap, bind. destruct (m fs) as [[a|e] f1]; [intros [= <- <-]; eauto|].
  destruct (is_os_error e); intros [= <- <-]; eauto.
Qed.
Lemma swallow_state (m : M FS unit) fs : (swallow_os m fs).2 = (m fs).2 ∧
  match (swallow_os m fs).1 with Ok _ => True | Raise e => (m fs).1 = Raise e end.
Proof using. unfold swallow_os, catch. destruct (m fs) as [[[]|e] f]; [done|]. cbn. by destruct (is_os_error e). Qed.

Definition original_text (d : string) : string := string_of (newlines (chars_of d)).

(** Copying a file and tightening the copy. *)
Lemma backup_run src dst mode d m0 fs r f : no_link fs src → no_link fs dst → src ≠ dst → fs !! src = Some (NFile d m0) →
  (copy2 faulty umask src dst ;; os_chmod faulty dst mode) fs = (r, f) →
  (∀ q, q ≠ dst → f !! q = fs !! q) ∧ no_link f dst ∧ (r = Ok tt → ∃ m, f !! dst = Some (NFile d m)).
Proof using.
  intros Hs Hd Hne E0. unfold bind. destruct (copy2 faulty umask src dst fs) as [rc fc] eqn:Ecp.
  apply copy2_run in Ecp as (Hoc & Hlc & Hokc); [|done..]. destruct rc as [[]|]; [|by intros [= <- <-]].
  destruct (Hokc eq_refl) as (d' & m' & m & Ed & Em). rewrite E0 in Ed. injection Ed as <- <-.
  intros Ech. apply chmod_run in Ech as [Hoh Hsh]; [|done]. split_and!.
  - intros q Hq. rewrite Hoh by done. by apply Hoc.
  - exact (no_link_kept _ _ Hsh Hlc).
  - intros _. rewrite Em in Hsh. by apply file_kept in Hsh.
Qed.

Lemma read_text_run p d m0 fs r f : fs !! p = Some (NFile d m0) → read_text faulty p fs = (r, f) →
  f = fs ∧ ∀ o, r = Ok o → o = original_text d.
Proof using.
  intros E0. unfold read_text, bind. destruct (read_bytes faulty p fs) as [rb fb] eqn:Erb.
  apply read_bytes_run in Erb as [-> Hrb]; [|intros t; by rewrite E0]. destruct rb as [d'|]; [|by intros [= <- <-]].
  destruct (Hrb d' eq_refl) as [m' E']. rewrite E0 in E'. injection E' as <- <-.
  destruct (utf8_decode (str_bytes d)) as [s|] eqn:Eu; [|by intros [= <- <-]]. intros [= <- <-]. split; [done|].
  intros o [= <-]. by apply utf8_decode_same in Eu as ->.
Qed.

(** Where the text of the configuration is, by the result of the command. *)
Definition text_kept (config_path prev : path) (d : string) (m0 : Z) (r : res migrate_result) (f : FS) : Prop :=
  match r with
  | Ok (Migrated _) => False
  | Ok RewriteFailed | Raise _ => f !! config_path = Some (NFile d m0) ∨ ∃ m, f !! prev = Some (NFile d m)
  | Ok _ => f !! config_path = Some (NFile d m0)
  end.

(** Giving up: the new keyfile is removed and nothing else. *)
Lemma give_up_run config_path prev target d m0 res f1 r f :
  config_path ≠ target → prev ≠ target → (∀ t, res ≠ Migrated t) →
  (f1 !! config_path = Some (NFile d m0) ∨ (res = RewriteFailed ∧ ∃ m, f1 !! prev = Some (NFile d m))) →
  (unlink faulty true target ;; ret res) f1 = (r, f) → text_kept config_path prev d m0 r f.
Proof using.
  intros Hc Hp Hm H. unfold bind. destruct (unlink faulty true target f1) as [ru fu] eqn:Eu.
  pose proof (unlink_run _ _ _ _ _ Eu) as Hu. rewrite <- (Hu config_path Hc), <- (Hu prev Hp) in H.
  destruct ru as [[]|e]; intros [= <- <-]; unfold text_kept; [|naive_solver].
  destruct res; naive_solver.
Qed.

(** What [replace_key] leaves: the text of the configuration, or the
    rewritten one with the new keyfile untouched. *)
Definition replaced (config_path target : path) (d : string) (m0 : Z) (fs : FS) (r : res migrate_result) (f : FS) : Prop :=
  let prev := with_tail config_path ".prev" in
  match r with
  | Ok (Migrated t) =>
      t = target ∧ (∃ m, f !! config_path = Some (NFile (rewrite_toml target (original_text d)) m)) ∧
      (∃ m, f !! prev = Some (NFile d m)) ∧ f !! target = fs !! target
  | _ => text_kept config_path prev d m0 r f
  end.

Lemma text_kept_replaced config_path target d m0 fs r f :
  text_kept config_path (with_tail config_path ".prev") d m0 r f → replaced config_path target d m0 fs r f.
Proof using. unfold replaced, text_kept. by destruct r as [[]|]. Qed.

Lemma rewrite_config_run config_path target d m0 mb n fs r f : let prev := with_tail config_path ".prev" in
  config_path ≠ [] → target ≠ config_path → target ≠ prev → target ≠ with_tail config_path ".tmp" →
  no_link fs (with_tail config_path ".tmp") → fs !! config_path = Some (NFile d m0) → fs !! prev = Some (NFile d mb) →
  fs !! target = Some n → rewrite_config faulty umask config_path prev target fs = (r, f) →
  replaced config_path target d m0 fs r f.
Proof using.
  intros prev Hc N1 N2 N3 Hl Ec Eb Et. assert (Np : prev ≠ config_path) by (by apply with_tail_ne).
  unfold rewrite_config, bind at 1. destruct (read_text faulty config_path fs) as [rt ft] eqn:Ert.
  destruct (read_text_run config_path d m0 fs rt ft Ec Ert) as [-> Ho].
  destruct rt as [o|e]; [|intros [= <- <-]; by left]. rewrite (Ho o eq_refl). clear Ho.
  unfold bind at 1. destruct (or_os _ fs) as [r3 fs3] eqn:E3. apply or_os_run in E3 as (r3' & Ew3 & Hr3).
  apply write_secure_run in Ew3 as (Ho3 & _ & Hw3); [|done|done].
  assert (Hkeep : ∀ q n, q ≠ with_tail config_path ".tmp" → q ≠ config_path → fs !! q = Some n → fs3 !! q = Some n).
  { intros q n' Hq1 Hq2 E. destruct (Ho3 q Hq1 Hq2) as [->|(_ & En & _)]; [done|congruence]. }
  assert (Eb3 : fs3 !! prev = Some (NFile d mb)).
  { apply Hkeep; [|done|done]. unfold prev. intros E. by apply with_tail_inj in E. }
  destruct r3 as [[u3|]|e]; [| |intros [= <- <-]; right; eauto].
  - subst r3'. intros [= <- <-]. destruct Hw3 as (m3 & E3 & _ & _). unfold replaced. fold prev. split_and!; eauto.
    rewrite Et. by apply Hkeep.
  - destruct Hr3 as [e ->]. intros E. unfold bind at 1 in E.
    destruct (swallow_os (copy2 faulty umask prev config_path) fs3) as [rs fs4] eqn:Es.
    assert (Eb4 : fs4 !! prev = Some (NFile d mb)).
    { destruct (swallow_state (copy2 faulty umask prev config_path) fs3) as [H1 _]. rewrite Es in H1. cbn in H1. subst fs4.
      destruct (copy2 faulty umask prev config_path fs3) as [rc fc] eqn:Ecp. cbn.
      apply copy2_run in Ecp as (Hoc & _); [|intros t; by rewrite Eb3|intros t; by rewrite Hw3, Ec|done]. by rewrite Hoc. }
    apply text_kept_replaced. destruct rs as [[]|e']; [|injection E as <- <-; right; eauto].
    apply (give_up_run config_path prev target d m0 RewriteFailed fs4); eauto.
Qed.

Lemma replace_key_run config_path target d m0 n fs r f : let prev := with_tail config_path ".prev" in
  config_path ≠ [] → target ≠ config_path → target ≠ prev → target ≠ with_tail config_path ".tmp" →
  no_link fs prev → no_link fs (with_tail config_path ".tmp") → fs !! config_path = Some (NFile d m0) →
  fs !! target = Some n → replace_key faulty umask config_path target fs = (r, f) →
  replaced config_path target d m0 fs r f.
Proof using.
  intros prev Hc N1 N2 N3 Hlp Hlt Ec Et. assert (Np : prev ≠ config_path) by (by apply with_tail_ne).
  unfold replace_key. fold prev. unfold bind at 1.
  destruct (or_os _ fs) as [r2 fs2] eqn:E2. apply or_os_run in E2 as (r2' & Eb & Hr2).
  assert (Hlc : no_link fs config_path) by (intros t; by rewrite Ec).
  destruct (backup_run _ _ o600 d m0 fs r2' fs2 Hlc Hlp (not_eq_sym Np) Ec Eb) as (Ho2 & Hl2 & Hok2).
  assert (Ec2 : fs2 !! config_path = Some (NFile d m0)) by (by rewrite Ho2).
  assert (Et2 : fs2 !! target = fs !! target) by (by apply Ho2).
  destruct r2 as [[[]|]|e]; [| |intros [= <- <-]; apply text_kept_replaced; by left].
  - subst r2'. destruct (Hok2 eq_refl) as [mb Eb2]. intros E. unfold replaced. rewrite <- Et2.
    apply (rewrite_config_run config_path target d m0 mb n fs2); auto; [|by rewrite Et2].
    intros t. rewrite Ho2; [apply Hlt|]. unfold prev. intros E'. by apply with_tail_inj in E'.
  - intros E. apply text_kept_replaced. apply (give_up_run config_path prev target d m0 BackupFailed fs2); auto.
Qed.

(** The keyfile that is written is the only new thing next to its own
    directories. *)
Lemma keyfile_written target content fs r f : target ≠ [] → no_link fs (with_tail target ".tmp") →
  write_secure faulty umask target content o600 fs = (r, f) →
  (∀ q n, q ≠ target → q ≠ with_tail target ".tmp" → fs !! q = Some n → f !! q = Some n) ∧
  (∀ q, q ≠ target → q ≠ with_tail target ".tmp" → no_link fs q → no_link f q) ∧
  (r = Ok tt → ∃ m, f !! target = Some (NFile content m)).
Proof using.
  intros Ht Hl Ew. apply write_secure_run in Ew as (Ho & _ & Hw); [|done..]. split_and!.
  - intros q n H1 H2 Hq. destruct (Ho q H2 H1) as [->|(_ & En & _)]; [done|congruence].
  - intros q H1 H2 Hq t. destruct (Ho q H2 H1) as [->|(_ & _ & m & ->)]; [apply Hq|done].
  - intros ->. destruct Hw as (m & E & _). eauto.
Qed.

(** C30: [hokora db migrate-key] loses no key: whichever call of the
    operating system fails, the text of the configuration is afterwards either
    still in its place or, with the same content, in its [.prev] copy; it is
    in its place whenever the command stops before it rewrites it; and when
    the command reports success, the rewritten text is in place, the old one
    is the copy, and the new keyfile gives the key that was inline. *)
Theorem migrate_key_kept config_path target key d m0 fs r fs' : let prev := with_tail config_path ".prev" in
  config_path ≠ [] → target ≠ [] →
  target ∉ [config_path; prev; with_tail config_path ".tmp"] →
  with_tail target ".tmp" ∉ [config_path; prev; with_tail config_path ".tmp"] →
  (∀ q, q ∈ [config_path; prev; with_tail config_path ".tmp"; target; with_tail target ".tmp"] → no_link fs q) →
  fs !! config_path = Some (NFile d m0) →
  migrate_to faulty umask config_path target key fs = (r, fs') →
  match r with
  | Ok (Migrated t) =>
      t = target ∧ (∃ m, fs' !! config_path = Some (NFile (rewrite_toml target (original_text d)) m)) ∧
      (∃ m, fs' !! prev = Some (NFile d m)) ∧ resolve_db_key_from_path faulty target fs' = (Ok key, fs')
  | Ok RewriteFailed | Raise _ =>
      fs' !! config_path = Some (NFile d m0) ∨ ∃ m, fs' !! prev = Some (NFile d m)
  | Ok _ => fs' !! config_path = Some (NFile d m0)
  end.
Proof using.
  intros prev Hc Ht Hn1 Hn2 Hnl E0. rewrite !not_elem_of_cons in Hn1, Hn2.
  destruct Hn1 as (N1 & N2 & N3 & _), Hn2 as (N4 & N5 & N6 & _).
  match goal with |- _ → ?g => set (goal := g) end.
  assert (Hgoal : text_kept config_path prev d m0 r fs' → goal) by (unfold text_kept, goal; by destruct r as [[]|]).
  unfold migrate_to, bind at 1.
  destruct (or_os _ fs) as [r1 fs1] eqn:E1. apply or_os_run in E1 as (r1' & Ew & Hr1).
  apply keyfile_written in Ew as (Hk1 & Hl1 & Hw1); [|done|apply Hnl; set_solver].
  assert (Ec1 : fs1 !! config_path = Some (NFile d m0)) by (apply Hk1; auto).
  destruct r1 as [[[]|]|e]; [|by intros [= <- <-]|intros [= <- <-]; by left].
  subst r1'. destruct (Hw1 eq_refl) as [mt Et1].
  assert (Hup : ∀ res, (∀ t, res ≠ Migrated t) → (unlink faulty true target ;; ret res) fs1 = (r, fs') → goal).
  { intros res Hm E. apply Hgoal. eapply (give_up_run config_path prev target d m0 res fs1); eauto. }
  unfold bind at 1, or_any at 1, catch at 1, mmap at 1, bind at 1.
  destruct (resolve_db_key_from_path faulty target fs1) as [rk fk] eqn:Ek.
  assert (Hlt : no_link fs1 target) by (intros t; by rewrite Et1).
  destruct (resolve_key_run target fs1 fs1 rk fk Hlt eq_refl Ek) as [-> _].
  destruct rk as [k|e]; [|by apply Hup].
  cbn [ret]. case_bool_decide as Hk; cbn [negb]; [|by apply Hup]. subst k. intros E.
  apply (replace_key_run _ _ d m0 (NFile (key +:+ newline_str) mt)) in E; auto.
  2: { apply Hl1; auto. apply Hnl. set_solver. }
  2: { apply Hl1; auto. apply Hnl. set_solver. }
  unfold replaced in E. fold prev in E.
  destruct r as [[]|]; try by apply Hgoal. destruct E as (-> & Hn & Hp & Et). unfold goal. split_and!; auto.
  eapply (resolve_key_run target fs1); [done|done|exact Ek].
Qed.
End moving.

(** ** Examples *)

(** Settings of which the data gives the key and whether there is encryption. *)
Definition toy_fields (home : path) (d : dict string val) : option NodeConfig :=
  let c := default_config home in
  match dict_get "db_key" d, dict_get "db_encrypt" d with
  | None, None => Some c
  | Some (VStr k), None => Some (set_paths (keyed k) c)
  | _, _ => None
  end.
Definition demo_toml : string := ("db_key = " +:+ quote +:+ demo_key +:+ quote +:+ newline_str)%string.
Definition toy_pydantic : Pydantic := {|
  validate_fields := toy_fields;
  toml_load s := if bool_decide (s = demo_toml) then Some [("db_key", VStr demo_key)] else None;
  float_of_str s := fz <$> int_of_str s |}.
#[local] Existing Instance toy_pydantic.

Definition demo_home : path := ["home"].
Definition demo_config : NodeConfig := filled ∅ (set_paths (keyed demo_key) (default_config demo_home)).
Definition key_env : env := [("HOKORA_DB_KEY", demo_key)].

Lemma demo_config_ok : settings_ok demo_config.
Proof. apply checks_ok. vm_compute. reflexivity. Qed.

Lemma loaded_config_ok_witness :
  load_config no_fault demo_home key_env None ∅ = (Ok demo_config, ∅) ∧ settings_ok demo_config.
Proof.
  assert (E : load_config no_fault demo_home key_env None ∅ = (Ok demo_config, ∅)).
  { rewrite (run_eq (load_config no_fault demo_home key_env None ∅) (Ok demo_config)); [|vm_compute; reflexivity].
    f_equal; vm_compute; reflexivity. }
  split; [exact E|].
  exact (proj1 (proj2 (proj1 (loaded_config_ok no_fault demo_home) key_env None ∅ demo_config ∅ E))).
Defined.

Definition demo_connect : res (list string) * FS := connect no_fault true demo_config ∅.
Lemma connection_keyed_witness :
  ∃ k pragmas, resolve_db_key no_fault demo_config ∅ = (Ok (Some k), demo_connect.2) ∧ exact_key k ∧
    [key_statement demo_key; "PRAGMA journal_mode=WAL"; "PRAGMA foreign_keys=ON"; "PRAGMA synchronous=NORMAL";
     "PRAGMA busy_timeout=5000"] = key_statement k :: pragmas.
Proof.
  eapply (connection_keyed no_fault true demo_config ∅); [apply demo_config_ok|reflexivity|reflexivity|discriminate|].
  apply run_eq. vm_compute. reflexivity.
Defined.

(** The variable [HOKORA_DB_KEY] set to the empty string: the configuration
    loads, encryption is on, a keyfile next to the database is not looked for,
    and the database is opened without a key. *)
Example empty_key_unencrypted :
  (let fs := {[ ["home"; ".hokora"; "db_key"] := NFile demo_key o600 ]} in
   match load_config no_fault demo_home [("HOKORA_DB_KEY", EmptyString)] None fs with
   | (Ok c, _) => Some (db_encrypt (paths c), db_keyfile (paths c), (connect no_fault true c fs).1)
   | _ => None
   end) =
  Some (true, None, Ok ["PRAGMA journal_mode=WAL"; "PRAGMA foreign_keys=ON"; "PRAGMA synchronous=NORMAL";
                        "PRAGMA busy_timeout=5000"]).
Proof. vm_compute. reflexivity. Qed.

(** An inline key with a newline at its end is accepted, and no connection can
    be made with it. *)
Example newline_key_accepted :
  let c := set_paths (keyed (demo_key +:+ newline_str)) (default_config demo_home) in
  is_ok (model_post_init ∅ c) = true ∧ is_ok (connect no_fault true (filled ∅ c) ∅).1 = false.
Proof. vm_compute. split; reflexivity. Qed.

(** Moving the key *)
Definition toml_path : path := ["home"; ".hokora"; "hokora.toml"].
Definition keyfile_path : path := ["home"; ".hokora"; "db_key"].
Definition migrate_fs : FS :=
  list_to_map [(["home"], NDir o700); (["home"; ".hokora"], NDir o700); (toml_path, NFile demo_toml o644)].
Definition migrated : res migrate_result * FS := migrate_to no_fault 18 toml_path keyfile_path demo_key migrate_fs.

Example migrate_key_runs :
  (migrate_key no_fault 18 demo_home [] None migrate_fs).1 = Ok (Migrated keyfile_path) ∧
  rewrite_toml keyfile_path demo_toml
  = ("db_keyfile = " +:+ quote +:+ "/home/.hokora/db_key" +:+ quote +:+ newline_str)%string.
Proof. split; vm_compute; reflexivity. Qed.

Lemma migrate_key_kept_witness : resolve_db_key_from_path no_fault keyfile_path migrated.2 = (Ok demo_key, migrated.2).
Proof.
  assert (E : migrate_to no_fault 18 toml_path keyfile_path demo_key migrate_fs = (Ok (Migrated keyfile_path), migrated.2))
    by (apply run_eq; vm_compute; reflexivity).
  refine (proj2 (proj2 (proj2 (migrate_key_kept no_fault 18 toml_path keyfile_path demo_key demo_toml o644 migrate_fs
            _ _ _ _ _ _ _ _ E)))).
  - discriminate.
  - discriminate.
  - apply (bool_decide_unpack _). vm_compute. exact I.
  - apply (bool_decide_unpack _). vm_compute. exact I.
  - apply Forall_forall. do 5 (apply Forall_cons; split; [intros t; vm_compute; discriminate|]). by apply Forall_nil.
  - vm_compute. reflexivity.
Defined.

(** When the disk is full, the atomic rewrite fails and leaves the
    configuration alone; restoring it from its copy then empties it. *)
Definition disk_full (op : os_op) (p : path) : bool :=
  match op with
  | OpWrite => bool_decide (p = toml_path) || bool_decide (p = with_tail toml_path ".tmp")
  | _ => false
  end.
Example restore_empties :
  (let '(r, fs) := migrate_key disk_full 18 demo_home [] None migrate_fs in
   (r, fs !! toml_path, fs !! with_tail toml_path ".prev"))
  = (Ok RewriteFailed, Some (NFile EmptyString o644), Some (NFile demo_toml o600)).
Proof. vm_compute. reflexivity. Qed.
