(* ===== verification/Seeds.v ===== *)
(** * Seed interfaces ([security/rns_config.py], [cli/seed.py],
      [config validate-rns] of [cli/config_cmd.py])

    The operator adds, removes and lists the outbound interfaces of the
    Reticulum configuration file.  The file's syntax is ConfigObj's
    ([ConfigObj]): a document is nested sections, values that are strings or
    lists, and notes (comments and layout).  Interpolation of values is left
    out. *)

From S2P Require Import Prelude Constants Models Queries InviteCodes Message Wire Text Files.

(** ** ConfigObj *)

Inductive cval := CStr (s : string) | CList (l : list string) | CSect (d : list (string * cval)).
Notation section := (dict string cval).

Class ConfigObj := {
  notes : Type;
  no_notes : notes;
  co_parse : string → option (section * notes);
  co_write : section → notes → option string;
  (** [str] of a section *)
  sect_str : section → string;
}.

Definition no_brackets (n : string) : bool :=
  negb (has_char (chr 91) (chars_of n)) && negb (has_char (chr 93) (chars_of n)).
Fixpoint names_ok (v : cval) : bool :=
  match v with
  | CStr _ | CList _ => true
  | CSect d => forallb (λ kv, no_brackets kv.1 && names_ok kv.2) d
  end.
Class ConfigObjLaws (C : ConfigObj) : Prop := {
  co_parse_write : ∀ d n s, names_ok (CSect d) = true → co_write d n = Some s →
    ∃ n', co_parse s = Some (d, n');
}.

Definition _SEED_TYPES : dict string string := [("TCPClientInterface", "tcp"); ("I2PInterface", "i2p")].
Definition _RNS_TYPES : dict string string := map (λ kv, (kv.2, kv.1)) _SEED_TYPES.

Record SeedEntry := {
  se_name : string; se_type : string; se_target_host : string; se_target_port : Z; se_enabled : bool;
}.
Definition to_dict (e : SeedEntry) : dict string val :=
  [("name", VStr (se_name e)); ("type", VStr (se_type e)); ("target_host", VStr (se_target_host e));
   ("target_port", VInt (se_target_port e)); ("enabled", VBool (se_enabled e))].

Definition is_seed_error (e : exn) : bool :=
  bool_decide (exn_cls e ∈ [SeedConfigError; SeedNotFound; DuplicateSeed; InvalidSeed]).

Definition ends_i2p (host : string) : bool := endswith (chars_of host) (chars_of ".i2p").
Definition blank (s : string) : bool := negb (str_true (str_strip s)).

Definition invalid (msg : string) : res unit := Raise (Exn InvalidSeed msg).
Definition validate_seed_entry (e : SeedEntry) : res unit :=
  if negb (str_true (se_name e)) || blank (se_name e) then invalid "Seed name must be non-empty"
  else if negb (no_brackets (se_name e)) then invalid "Seed name cannot contain brackets"
  else if negb (dict_has (se_type e) _RNS_TYPES) then invalid "Unsupported seed type"
  else if negb (str_true (se_target_host e)) || blank (se_target_host e) then invalid "Seed target_host must be non-empty"
  else if bool_decide (se_type e = "tcp") then
    if negb ((1 <=? se_target_port e) && (se_target_port e <=? 65535)) then invalid "TCP seed port out of range"
    else if ends_i2p (se_target_host e) then invalid "I2P address with type=tcp"
    else Ok tt
  else if bool_decide (se_type e = "i2p") then
    if negb (se_target_port e =? 0) then invalid "I2P seeds must not carry a port"
    else if negb (ends_i2p (se_target_host e)) then invalid "I2P target_host must end with .i2p"
    else Ok tt
  else Ok tt.

Section seeds.
Context `{HC : ConfigObj}.
Context (faulty : os_op → path → bool) (umask : Z) (home : path).

(** [str(section.get(key, dflt))] *)
Definition str_of (v : cval) : string :=
  match v with CStr s => s | CList l => str_of_list l | CSect d => sect_str d end.
Definition get_text (key dflt : string) (d : section) : string :=
  match dict_get key d with Some v => str_of v | None => dflt end.

(** [_SEED_TYPES.get(section.get("type", ""))]; a list or a section is no key. *)
Definition hashable (v : option cval) : res (option string) :=
  match v with
  | None => Ok None
  | Some (CStr s) => Ok (Some s)
  | Some _ => Raise (Exn TypeError "unhashable type")
  end.

Definition cval_true (v : cval) : bool :=
  match v with CStr s => str_true s | CList l => list_true l | CSect d => list_true d end.

Definition is_enabled (d : section) : bool :=
  bool_decide (string_of (map str_lower_char (strip (chars_of (get_text "enabled" "yes" d)))) ∈ ["yes"; "true"; "1"; "on"]).

Definition target_port_of (d : section) : Z :=
  match dict_get "target_port" d with
  | Some (CStr s) => default 0 (int_of_str s)
  | _ => 0
  end.

Definition _parse_entry (name : string) (d : section) : res (option SeedEntry) :=
  match hashable (dict_get "type" d) with
  | Raise e => Raise e
  | Ok rns_type =>
      match dict_get (or_empty rns_type) _SEED_TYPES with
      | None => Ok None
      | Some seed_type =>
          let enabled := is_enabled d in
          if bool_decide (seed_type = "tcp") then
            let target_host := str_strip (get_text "target_host" EmptyString d) in
            let target_port := target_port_of d in
            if negb (str_true target_host) || (target_port <=? 0) then Ok None
            else Ok (Some {| se_name := name; se_type := "tcp"; se_target_host := target_host;
                             se_target_port := target_port; se_enabled := enabled |})
          else
            match dict_get "peers" d with
            | None => Ok None
            | Some peers_raw =>
                let first_peer := string_of (strip (cut (chr 44) (chars_of (str_of peers_raw))).1) in
                if negb (cval_true peers_raw) || negb (str_true first_peer) then Ok None
                else Ok (Some {| se_name := name; se_type := "i2p"; se_target_host := first_peer;
                                 se_target_port := 0; se_enabled := enabled |})
            end
      end
  end.

(** ** Reading the file *)

Definition _resolve_config_path (rns_config_dir : option path) : path :=
  match rns_config_dir with None => home ++ [".reticulum"; "config"] | Some d => d ++ ["config"] end.

(** [ConfigObj(path)]: what is not a file reads as an empty one. *)
Definition open_config (p : path) : M FS (section * notes) :=
  let! fs := get in
  if negb (is_file fs p) then ret ([], no_notes)
  else
    let! text := read_bytes faulty p in
    match co_parse text with Some c => ret c | None => raise RuntimeError "Parsing failed" end.

Definition _load_configobj (p : path) : M FS (section * notes) :=
  let! fs := get in
  if negb (exists_ fs p) then ret ([], no_notes)
  else catch (open_config p) (λ _, raise SeedConfigError "Failed to parse").

(** The keys of a section: its values, then its sections. *)
Definition is_sect (v : cval) : bool := match v with CSect _ => true | _ => false end.
Definition section_items (d : section) : section :=
  List.filter (λ kv, negb (is_sect kv.2)) d ++ List.filter (λ kv, is_sect kv.2) d.

Fixpoint entries_of (items : section) : res (list SeedEntry) :=
  match items with
  | [] => Ok []
  | (name, CSect d) :: items =>
      match _parse_entry name d, entries_of items with
      | Raise e, _ => Raise e
      | Ok _, Raise e => Raise e
      | Ok (Some entry), Ok l => Ok (entry :: l)
      | Ok None, Ok l => Ok l
      end
  | _ :: items => entries_of items
  end.

Definition list_seeds (rns_config_dir : option path) : M FS (list SeedEntry) :=
  let! co := _load_configobj (_resolve_config_path rns_config_dir) in
  match dict_get "interfaces" co.1 with
  | None => ret []
  | Some interfaces =>
      if negb (cval_true interfaces) then ret []
      else match interfaces with
           | CSect d => of_res (entries_of (section_items d))
           | _ => raise AttributeError "object has no attribute 'keys'"
           end
  end.

(** What [handle_list_seeds] makes of it (an argument of Server.v). *)
Definition served_seeds (rns_config_dir : option path) (fs : FS) : res (string + list (dict string val)) :=
  match list_seeds rns_config_dir fs with
  | (Ok l, _) => Ok (inr (map to_dict l))
  | (Raise e, _) => if is_seed_error e then Ok (inl (exn_msg e)) else Raise e
  end.

(** ** Changing it *)

Definition _backup_existing (p : path) : M FS unit :=
  let! fs := get in
  if negb (exists_ fs p) then ret tt
  else
    let! content := catch (read_text faulty p)
                      (λ e, if is_os_error e then raise SeedConfigError "Cannot read for backup" else throw e) in
    write_secure faulty umask (with_tail p ".prev") content o600.

Definition _write_config (p : path) (co : section * notes) : M FS unit :=
  _backup_existing p ;;
  let! rendered := of_res (match co_write co.1 co.2 with
                           | Some t => Ok t | None => Raise (Exn RuntimeError "cannot be safely quoted") end) in
  write_secure faulty umask p rendered o600.

Definition seed_section (e : SeedEntry) : section :=
  [("type", CStr (default EmptyString (dict_get (se_type e) _RNS_TYPES)));
   ("enabled", CStr (if se_enabled e then "yes" else "no"))]
  ++ (if bool_decide (se_type e = "tcp")
      then [("target_host", CStr (se_target_host e)); ("target_port", CStr (str_of_int (se_target_port e)))]
      else [("peers", CStr (se_target_host e))]).

Definition apply_add (rns_config_dir : option path) (e : SeedEntry) : M FS unit :=
  of_res (validate_seed_entry e) ;;
  let p := _resolve_config_path rns_config_dir in
  let! co := _load_configobj p in
  match default (CSect []) (dict_get "interfaces" co.1) with
  | CSect d =>
      if dict_has (se_name e) d then raise DuplicateSeed "Seed already exists"
      else _write_config p (dict_set "interfaces" (CSect (dict_set (se_name e) (CSect (seed_section e)) d)) co.1, co.2)
  | CStr s => if is_infix (chars_of (se_name e)) (chars_of s) then raise DuplicateSeed "Seed already exists"
              else raise TypeError "object does not support item assignment"
  | CList l => if bool_decide (se_name e ∈ l) then raise DuplicateSeed "Seed already exists"
               else raise TypeError "list indices must be integers"
  end.

(** Whether [name in interfaces]. *)
Definition named_in (name : string) (v : cval) : bool :=
  match v with
  | CSect d => dict_has name d
  | CStr s => is_infix (chars_of name) (chars_of s)
  | CList l => bool_decide (name ∈ l)
  end.

Definition apply_remove (rns_config_dir : option path) (name : string) : M FS unit :=
  if negb (str_true name) || blank name then raise InvalidSeed "Seed name must be non-empty"
  else
    let p := _resolve_config_path rns_config_dir in
    let! co := _load_configobj p in
    match dict_get "interfaces" co.1 with
    | None => raise SeedNotFound "No seed named"
    | Some interfaces =>
        if negb (cval_true interfaces) || negb (named_in name interfaces) then raise SeedNotFound "No seed named"
        else match interfaces with
             | CSect d =>
                 match dict_get name d with
                 | Some (CSect s) =>
                     match dict_get "type" s with
                     | Some (CStr t) =>
                         if negb (bool_decide (t ∈ map snd _RNS_TYPES)) then raise SeedNotFound "not a seed"
                         else _write_config p (dict_set "interfaces" (CSect (dict_del name d)) co.1, co.2)
                     | _ => raise SeedNotFound "not a seed"
                     end
                 | _ => raise SeedNotFound "exists but is not a seed section"
                 end
             | _ => raise TypeError "indices must be integers"
             end
    end.

Inductive issue := NotASection (name : string) | BadTarget (name : string) | BadSeed (name msg : string).

(** [rns_type not in _RNS_TYPES]: the keys are ["tcp"] and ["i2p"]. *)
Fixpoint issues_of (items : section) : res (list issue) :=
  match items with
  | [] => Ok []
  | (name, CSect d) :: items =>
      match hashable (dict_get "type" d) with
      | Raise e => Raise e
      | Ok rns_type =>
          if negb (match rns_type with Some t => dict_has t _RNS_TYPES | None => false end) then issues_of items
          else
            match _parse_entry name d, issues_of items with
            | Raise e, _ => Raise e
            | Ok _, Raise e => Raise e
            | Ok None, Ok l => Ok (BadTarget name :: l)
            | Ok (Some entry), Ok l =>
                match validate_seed_entry entry with
                | Ok _ => Ok l
                | Raise e => Ok (BadSeed name (exn_msg e) :: l)
                end
            end
      end
  | (name, _) :: items => match issues_of items with Ok l => Ok (NotASection name :: l) | Raise e => Raise e end
  end.

(** The issues, or one line about the file itself. *)
Definition validate_config_file (rns_config_dir : option path) : M FS (string + list issue) :=
  let p := _resolve_config_path rns_config_dir in
  let! fs := get in
  if negb (exists_ fs p) then ret (inl "RNS config not found")
  else
    let! co := catch (mmap Some (open_config p)) (λ _, ret None) in
    match co with
    | None => ret (inl "Parse error")
    | Some co =>
        match dict_get "interfaces" co.1 with
        | None => ret (inr [])
        | Some interfaces =>
            if negb (cval_true interfaces) then ret (inr [])
            else match interfaces with
                 | CSect d => mmap inr (of_res (issues_of (section_items d)))
                 | _ => raise AttributeError "object has no attribute 'keys'"
                 end
        end
    end.
End seeds.

(** ** [cli/seed.py] *)

Definition usage {A} (msg : string) : res A := Raise (Exn UsageError msg).

Definition _parse_host_port (raw : string) : res (string * Z * string) :=
  let l := strip (chars_of raw) in
  let colon := chr 58 in
  if negb (list_true l) then usage "Address must be non-empty"
  else if endswith l (chars_of ".i2p") then
    if has_char colon l then usage "I2P addresses do not take a port" else Ok (string_of l, 0, "i2p")
  else match l with
  | c :: r =>
      if bool_decide (c = chr 91) then
        match cut (chr 93) r with
        | (_, None) => usage "Malformed IPv6 address"
        | (host, Some rest) =>
            match rest with
            | c' :: port => if bool_decide (c' = colon)
                            then match int_of_chars port with
                                 | Some p => Ok (string_of host, p, "tcp") | None => usage "Invalid port" end
                            else Ok (string_of host, 4242, "tcp")
            | [] => Ok (string_of host, 4242, "tcp")
            end
        end
      else if has_char colon l then
        let '(host, port_str) := rcut colon l in
        match int_of_chars port_str with
        | Some p => Ok (string_of host, p, "tcp") | None => usage "Invalid port" end
      else Ok (string_of l, 4242, "tcp")
  | [] => usage "Address must be non-empty"
  end.

(** The address [hokora seed list] prints. *)
Definition shown_address (e : SeedEntry) : string :=
  if bool_decide (se_type e = "tcp")
  then string_of (chars_of (se_target_host e) ++ chr 58 :: chars_of (str_of_int (se_target_port e)))
  else se_target_host e.

Section commands.
Context `{HC : ConfigObj}.
Context (faulty : os_op → path → bool) (umask : Z) (home : path).
(** [load_config().rns_config_dir] *)
Context (config : res (option path)).

Definition _rns_config_dir : option path :=
  Some (match config with Ok (Some d) => d | _ => home ++ [".reticulum"] end).

Definition list_cmd : M FS (list SeedEntry) :=
  catch (list_seeds faulty home _rns_config_dir)
    (λ e, if is_seed_error e then raise ClickException (exn_msg e) else throw e).

Definition add_cmd (name address : string) (disabled : bool) : M FS unit :=
  let! a := of_res (_parse_host_port address) in
  let entry := {| se_name := name; se_type := a.2; se_target_host := a.1.1; se_target_port := a.1.2;
                  se_enabled := negb disabled |} in
  of_res (match validate_seed_entry entry with
          | Ok u => Ok u
          | Raise e => Raise (if bool_decide (exn_cls e = InvalidSeed) then Exn UsageError (exn_msg e) else e)
          end) ;;
  catch (apply_add faulty umask home _rns_config_dir entry)
    (λ e, if is_seed_error e then raise ClickException (exn_msg e) else throw e).

Definition remove_cmd (name : string) : M FS unit :=
  catch (apply_remove faulty umask home _rns_config_dir name)
    (λ e, if is_seed_error e then raise ClickException (exn_msg e) else throw e).

Definition validate_rns_cmd : M FS (string + list issue) := validate_config_file faulty home _rns_config_dir.
End commands.

(** ** Lemmas *)

Lemma dict_set_fresh {V} (k : string) (v : V) d : dict_has k d = false → dict_set k v d = d ++ [(k, v)].
Proof.
  induction d as [|[k' v'] d IH]; [done|]. unfold dict_has. cbn [dict_get dict_set app].
  destruct (decide (k = k')); [done|]. intros H. f_equal. by apply IH.
Qed.

Lemma validate_ok e : validate_seed_entry e = Ok tt →
  no_brackets (se_name e) = true ∧ blank (se_target_host e) = false ∧ str_true (se_target_host e) = true ∧
  ((se_type e = "tcp" ∧ 1 ≤ se_target_port e ≤ 65535 ∧ ends_i2p (se_target_host e) = false) ∨
   (se_type e = "i2p" ∧ se_target_port e = 0 ∧ ends_i2p (se_target_host e) = true)).
Proof.
  unfold validate_seed_entry, invalid.
  destruct (negb _ || blank (se_name e)); [done|]. destruct (no_brackets _); [|done]. cbn [negb].
  destruct (dict_has (se_type e) _RNS_TYPES) eqn:Et; [|done]. cbn [negb].
  destruct (str_true (se_target_host e)); [|done]. destruct (blank (se_target_host e)); [done|]. cbn [negb orb].
  case_bool_decide as Htcp.
  - destruct (_ && _) eqn:Ep; [|done]. destruct (ends_i2p _); [done|]. intros _.
    apply andb_true_iff in Ep as [E1 E2]. split_and!; try done. left. split_and!; [done|lia|lia|done].
  - case_bool_decide as Hi.
    + destruct (_ =? 0) eqn:Ep; [|done]. destruct (ends_i2p _); [|done]. intros _. split_and!; try done. right. split_and!; [done|lia|done].
    + exfalso. revert Et. unfold dict_has, _RNS_TYPES, _SEED_TYPES. cbn.
      destruct (decide (se_type e = "tcp")); [done|]. by destruct (decide (se_type e = "i2p")).
Qed.

(** The entry as the list shows it: the host without surrounding blanks. *)
Definition shown (e : SeedEntry) : SeedEntry := {|
  se_name := se_name e; se_type := se_type e; se_target_host := str_strip (se_target_host e);
  se_target_port := se_target_port e; se_enabled := se_enabled e |}.

Definition no_comma (e : SeedEntry) : bool :=
  bool_decide (se_type e = "tcp") || negb (has_char (chr 44) (chars_of (se_target_host e))).

(** What the list makes of a section that [seed_section] wrote: of an I2P host
    it shows what is before the first comma, if anything. *)
Definition listed (e : SeedEntry) : list SeedEntry :=
  let host := if bool_decide (se_type e = "tcp") then str_strip (se_target_host e)
              else string_of (strip (cut (chr 44) (chars_of (se_target_host e))).1) in
  if str_true host then [{| se_name := se_name e; se_type := se_type e; se_target_host := host;
                            se_target_port := se_target_port e; se_enabled := se_enabled e |}]
  else [].

Section theorems.
Context `{HC : ConfigObj}.
Context (faulty : os_op → path → bool) (umask : Z) (home : path).

Lemma enabled_shown e : is_enabled (seed_section e) = se_enabled e.
Proof using. unfold is_enabled, get_text, seed_section. cbn. by destruct (se_enabled e). Qed.

Lemma parse_seed_section e : validate_seed_entry e = Ok tt →
  _parse_entry (se_name e) (seed_section e) = Ok (head (listed e)).
Proof using.
  intros Hv. destruct (validate_ok e Hv) as (_ & Hb & Ht & Hcase).
  assert (Hs : str_true (str_strip (se_target_host e)) = true)
    by (unfold blank in Hb; by destruct (str_true (str_strip _))).
  unfold listed. destruct Hcase as [(Ety & Hp & _)|(Ety & Hp & _)].
  - transitivity (let port := default 0 (int_of_str (str_of_int (se_target_port e))) in
      if negb (str_true (str_strip (se_target_host e))) || (port <=? 0) then Ok None
      else Ok (Some {| se_name := se_name e; se_type := "tcp"; se_target_host := str_strip (se_target_host e);
                       se_target_port := port; se_enabled := is_enabled (seed_section e) |})).
    { unfold seed_section. by rewrite Ety. }
    rewrite int_of_str_of_int by lia. change (default 0 (Some (se_target_port e))) with (se_target_port e).
    cbv zeta. rewrite bool_decide_true by done. rewrite Hs.
    replace (se_target_port e <=? 0) with false by (symmetry; apply Z.leb_gt; lia). by rewrite Ety, enabled_shown.
  - transitivity (let first_peer := string_of (strip (cut (chr 44) (chars_of (se_target_host e))).1) in
      if negb (str_true (se_target_host e)) || negb (str_true first_peer) then Ok None
      else Ok (Some {| se_name := se_name e; se_type := "i2p"; se_target_host := first_peer;
                       se_target_port := 0; se_enabled := is_enabled (seed_section e) |})).
    { unfold seed_section. by rewrite Ety. }
    rewrite Ety, (bool_decide_false ("i2p" = "tcp")) by done. cbv zeta. rewrite Ht, Hp, enabled_shown.
    by destruct (str_true (string_of _)).
Qed.

(** Without a comma, the entry itself. *)
Lemma listed_shown e : validate_seed_entry e = Ok tt → no_comma e = true → listed e = [shown e].
Proof using.
  intros Hv Hc. destruct (validate_ok e Hv) as (_ & Hb & _).
  assert (Hs : str_true (str_strip (se_target_host e)) = true)
    by (unfold blank in Hb; by destruct (str_true (str_strip _))).
  unfold listed, no_comma, shown in *. destruct (bool_decide _); [by rewrite Hs|].
  apply negb_true_iff in Hc. rewrite (cut_none _ _ Hc). cbn [fst]. fold (str_strip (se_target_host e)). by rewrite Hs.
Qed.

Lemma entries_of_app a b la lb :
  entries_of a = Ok la → entries_of b = Ok lb → entries_of (a ++ b) = Ok (la ++ lb).
Proof using.
  revert la. induction a as [|[n v] a IH]; intros la; cbn [entries_of app]; [by intros [= <-]|].
  destruct v as [s|l|d]; [apply IH..|].
  destruct (_parse_entry n d) as [[e|]|]; [| |done].
  - destruct (entries_of a) as [l|]; [|done]. intros [= <-] Hb. by rewrite (IH _ eq_refl Hb).
  - destruct (entries_of a) as [l|]; [|done]. intros [= <-] Hb. by rewrite (IH _ eq_refl Hb).
Qed.

(** The files the writer touches are not links. *)
Definition plain (fs : FS) (p : path) : Prop :=
  no_link fs p ∧ no_link fs (with_tail p ".tmp") ∧ no_link fs (with_tail (with_tail p ".prev") ".tmp").

Lemma prev_apart p : p ≠ [] → let prev := with_tail p ".prev" in
  prev ≠ [] ∧ p ≠ prev ∧ p ≠ with_tail prev ".tmp" ∧ with_tail p ".tmp" ≠ prev ∧
  with_tail p ".tmp" ≠ with_tail prev ".tmp" ∧ with_tail p ".tmp" ≠ p.
Proof using.
  intros Hp prev. unfold prev. rewrite with_tail_twice.
  assert (Hn : ∀ t, t ≠ EmptyString → with_tail p t ≠ p) by (intros t; by apply with_tail_ne).
  assert (Hi : ∀ t u, t ≠ u → with_tail p t ≠ with_tail p u) by (intros t u H E; by apply with_tail_inj in E).
  split_and!; [|symmetry; by apply Hn..|by apply Hi|by apply Hi|by apply Hn].
  intros E. apply (f_equal length) in E. rewrite with_tail_length in E. by destruct p.
Qed.

(** The copy before a change: the file itself is not touched. *)
Lemma backup_existing_run p fs r f : p ≠ [] → plain fs p → _backup_existing faulty umask p fs = (r, f) →
  f !! p = fs !! p ∧ no_link f (with_tail p ".tmp") ∧
  (r = Ok tt → ∀ d m0, fs !! p = Some (NFile d m0) →
     ∃ mb, f !! with_tail p ".prev" = Some (NFile (string_of (newlines (chars_of d))) mb)).
Proof using.
  intros Hp (Hl & Hlt & Hlp). destruct (prev_apart p Hp) as (Hprev & Hd1 & Hd2 & Hd3 & Hd4 & _).
  set (prev := with_tail p ".prev") in *.
  unfold _backup_existing. unfold bind at 1, get, exists_, is_file, is_dir. rewrite (resolve_no_link fs p Hl).
  destruct (fs !! p) as [n|] eqn:En; [|intros [= <- <-]; by rewrite En].
  unfold bind, catch. destruct n as [d m|m|t]; [| |by destruct (Hl t)]; cbn [orb negb].
  all: unfold read_text, read_bytes, bind; destruct (os_call faulty OpRead p fs) as [r1 f1] eqn:E1;
    apply os_call_same in E1 as [-> _]; destruct r1 as [[]|e];
    [unfold get; rewrite (resolve_no_link fs p Hl), En; cbn [ret]
    |destruct (is_os_error e); intros [= <- <-]; by rewrite En].
  2: { cbn. intros [= <- <-]. by rewrite En. }
  destruct (utf8_decode (str_bytes d)) as [txt|] eqn:Eu; [|cbn; intros [= <- <-]; by rewrite En].
  apply utf8_decode_same in Eu as ->. cbn [ret].
  intros Hw. apply write_secure_run in Hw as (Ho & _ & Hr); [|done|done].
  assert (Hsame : ∀ q, length q = length p → q ≠ prev → q ≠ with_tail prev ".tmp" → f !! q = fs !! q).
  { intros q Hq H1 H2. destruct (Ho q H2 H1) as [E|[Hlt' _]]; [done|]. unfold prev in Hlt'. rewrite with_tail_length in Hlt'. lia. }
  split_and!.
  - by rewrite Hsame.
  - intros t. rewrite Hsame; [apply Hlt|by rewrite with_tail_length|done|done].
  - intros -> d0 m0 [= -> ->]. destruct Hr as (mb & E & _). eauto.
Qed.

Lemma write_config_run p co fs r fs' :
  p ≠ [] → plain fs p → _write_config faulty umask p co fs = (r, fs') →
  match r with
  | Raise _ => fs' !! p = fs !! p
  | Ok _ => ∃ t m, co_write co.1 co.2 = Some t ∧ fs' !! p = Some (NFile t m) ∧
      ∀ d m0, fs !! p = Some (NFile d m0) →
        ∃ mb, fs' !! with_tail p ".prev" = Some (NFile (string_of (newlines (chars_of d))) mb)
  end.
Proof using.
  intros Hp Hpl. destruct (prev_apart p Hp) as (_ & Hd1 & _ & Hd3 & _).
  unfold _write_config. unfold bind at 1. destruct (_backup_existing faulty umask p fs) as [rb fsb] eqn:Eb.
  destruct (backup_existing_run _ _ _ _ Hp Hpl Eb) as (Hsame & Hlt & Hprv).
  destruct rb as [[]|e]; [|by intros [= <- <-]].
  unfold bind, of_res. destruct (co_write co.1 co.2) as [t|] eqn:Ew; [|by intros [= <- <-]].
  intros Hw. apply write_secure_run in Hw as (Ho & _ & Hr); [|done|done].
  destruct r as [[]|e]; [|by rewrite Hr].
  destruct Hr as (m & Em & _). exists t, m. split_and!; [done|done|].
  intros d m0 E0. destruct (Hprv eq_refl d m0 E0) as [mb Eb']. exists mb.
  destruct (Ho (with_tail p ".prev")) as [E|[Hlt' _]]; [by symmetry|by symmetry|by rewrite E|].
  rewrite with_tail_length in Hlt'. lia.
Qed.

(** What [_load_configobj] reads. *)
Definition stored (fs : FS) (p : path) : option (section * notes) :=
  match fs !! p with
  | Some (NFile t _) => if faulty OpRead p then None else co_parse t
  | _ => Some ([], no_notes)
  end.

Lemma load_run p fs : no_link fs p →
  _load_configobj faulty p fs =
  (match stored fs p with Some c => Ok c | None => Raise (Exn SeedConfigError "Failed to parse") end, fs).
Proof using.
  intros Hl. unfold _load_configobj, open_config, bind, get, catch, exists_, is_file, is_dir, stored, read_bytes, os_call.
  rewrite (resolve_no_link fs p Hl). destruct (fs !! p) as [[t m|m|lnk]|] eqn:En; [|cbn; unfold bind, get; by rewrite (resolve_no_link fs p Hl), En|by destruct (Hl lnk)|done].
  cbn. unfold bind, get. rewrite (resolve_no_link fs p Hl), En. cbn. destruct (faulty OpRead p); [done|]. unfold bind, get. cbn. rewrite (resolve_no_link fs p Hl), En. cbn.
  by destruct (co_parse t).
Qed.

Lemma list_seeds_run dir fs c : no_link fs (_resolve_config_path home dir) →
  stored fs (_resolve_config_path home dir) = Some c →
  list_seeds faulty home dir fs =
  (match dict_get "interfaces" c.1 with
   | None => Ok []
   | Some v => if negb (cval_true v) then Ok []
               else match v with
                    | CSect d => entries_of (section_items d)
                    | _ => Raise (Exn AttributeError "object has no attribute 'keys'")
                    end
   end, fs).
Proof using.
  intros Hl Hs. unfold list_seeds, bind. rewrite load_run by done. rewrite Hs.
  destruct (dict_get _ _) as [v|]; [|done]. destruct (negb _); [done|]. by destruct v.
Qed.
End theorems.

(** ** What a change does *)

Lemma names_ok_set k v (d : section) :
  no_brackets k = true → names_ok v = true → names_ok (CSect d) = true → names_ok (CSect (dict_set k v d)) = true.
Proof.
  intros Hk Hv. induction d as [|[k' v'] d IH]; cbn [dict_set].
  - intros _. cbn. by rewrite Hk, Hv.
  - cbn [names_ok forallb fst snd] in *. rewrite !andb_true_iff. intros [[H1 H2] H3].
    destruct (decide (k = k')) as [->|Hn]; cbn [forallb fst snd]; rewrite !andb_true_iff; [done|].
    split; [done|]. by apply IH.
Qed.
Lemma names_ok_get k v (d : section) : names_ok (CSect d) = true → dict_get k d = Some v → names_ok v = true.
Proof.
  intros H Hg. apply dict_get_elem in Hg. cbn [names_ok] in H. rewrite forallb_forall in H.
  apply list_elem_of_In in Hg. specialize (H _ Hg). cbn in H. by apply andb_true_iff in H as [_ H].
Qed.
Lemma dict_del_filter {V} k (d : dict string V) : dict_del k d = List.filter (λ kv, negb (bool_decide (kv.1 = k))) d.
Proof.
  unfold dict_del. induction d as [|kv d IH]; [done|]. rewrite filter_cons. cbn [List.filter]. rewrite IH.
  destruct (decide (kv.1 = k)) as [E|E].
  - rewrite decide_False, bool_decide_true by (try intros H; done). done.
  - rewrite decide_True, bool_decide_false by done. done.
Qed.

Lemma names_ok_del k (d : section) : names_ok (CSect d) = true → names_ok (CSect (dict_del k d)) = true.
Proof.
  cbn [names_ok]. rewrite !forallb_forall. intros H x Hx. apply H. rewrite dict_del_filter in Hx. apply filter_In in Hx. tauto.
Qed.

Lemma section_items_add k d (s : section) :
  dict_has k d = false → section_items (dict_set k (CSect s) d) = section_items d ++ [(k, CSect s)].
Proof.
  intros H. rewrite dict_set_fresh by done. unfold section_items. rewrite !List.filter_app. cbn. by rewrite app_nil_r, app_assoc.
Qed.

Lemma filter_filter_comm {A} (f g : A → bool) l : List.filter f (List.filter g l) = List.filter g (List.filter f l).
Proof.
  induction l as [|a l IH]; [done|]. cbn. destruct (g a) eqn:Eg, (f a) eqn:Ef; cbn; rewrite ?Eg, ?Ef, ?IH; done.
Qed.

Section changes.
Context `{HC : ConfigObj} `{HL : !ConfigObjLaws HC}.
Context (faulty : os_op → path → bool) (umask : Z) (home : path).

(** Removing a name removes its entry, and only it. *)
Lemma entries_of_del items l k : entries_of items = Ok l →
  entries_of (List.filter (λ kv, negb (bool_decide (kv.1 = k))) items)
  = Ok (List.filter (λ e, negb (bool_decide (se_name e = k))) l).
Proof using.
  revert l. induction items as [|[n v] items IH]; intros l; cbn [entries_of List.filter fst].
  { by intros [= <-]. }
  destruct v as [s|s|d].
  1,2: intros H; destruct (negb _); cbn [entries_of]; by apply IH.
  destruct (_parse_entry n d) as [oe|] eqn:Ep; [|done].
  assert (Hn : ∀ e, oe = Some e → se_name e = n).
  { intros e ->. revert Ep. unfold _parse_entry. destruct (hashable _); [|done]. destruct (dict_get _ _SEED_TYPES); [|done].
    case_bool_decide; [destruct (_ || _); [done|]; by intros [= <-]|].
    destruct (dict_get "peers" d); [|done]. destruct (_ || _); [done|]. by intros [= <-]. }
  destruct (entries_of items) as [l1|]; [|by destruct oe]. specialize (IH l1 eq_refl).
  destruct oe as [e|]; intros [= <-]; cbn [List.filter].
  - rewrite (Hn e eq_refl). destruct (negb (bool_decide (n = k))); cbn [entries_of]; [by rewrite Ep, IH|done].
  - destruct (negb _); cbn [entries_of]; [by rewrite Ep, IH|done].
Qed.

(** The file can be read again as the document that was written. *)
Lemma stored_written p d n t m fs' : faulty OpRead p = false →
  fs' !! p = Some (NFile t m) → names_ok (CSect d) = true → co_write d n = Some t →
  ∃ n', stored faulty fs' p = Some (d, n').
Proof using HL.
  intros Hf E Hn Hw. destruct (co_parse_write d n t Hn Hw) as [n' Hp]. exists n'. unfold stored. by rewrite E, Hf.
Qed.

Lemma config_path_ne dir : _resolve_config_path home dir ≠ [].
Proof using. destruct dir; cbn; intros E; by apply app_eq_nil in E as [_ ?]. Qed.

Lemma list_interfaces dir fs l c : no_link fs (_resolve_config_path home dir) →
  stored faulty fs (_resolve_config_path home dir) = Some c →
  list_seeds faulty home dir fs = (Ok l, fs) →
  match default (CSect []) (dict_get "interfaces" c.1) with
  | CSect d => entries_of (section_items d) = Ok l
  | _ => l = []
  end.
Proof using.
  intros Hl Hs H. rewrite (list_seeds_run _ _ _ _ c Hl Hs) in H.
  destruct (dict_get "interfaces" c.1) as [v|]; cbn.
  - destruct v as [s|s|d]; cbn in H.
    + destruct (str_true s); cbn in H; [done|congruence].
    + destruct (list_true s); cbn in H; [done|congruence].
    + destruct d as [|kv d]; cbn [list_true negb] in H; [|congruence]. cbn. congruence.
  - cbn in H. congruence.
Qed.

(** What the file lists after its interfaces were replaced. *)
Lemma list_written dir d d0 n t m l fs' : let p := _resolve_config_path home dir in
  faulty OpRead p = false → no_brackets "interfaces" = true → names_ok (CSect d0) = true → names_ok (CSect d) = true →
  fs' !! p = Some (NFile t m) → co_write (dict_set "interfaces" (CSect d) d0) n = Some t →
  entries_of (section_items d) = Ok l →
  list_seeds faulty home dir fs' = (Ok l, fs').
Proof using HL.
  intros p Hf Hb H0 Hd E Hw Hl. destruct (stored_written p (dict_set "interfaces" (CSect d) d0) n t m fs' Hf E) as [n' Hs];
    [by apply names_ok_set|done|].
  erewrite list_seeds_run; [|intros u; unfold p in E; rewrite E; done|exact Hs]. cbn [fst]. rewrite dict_get_set_eq.
  destruct (negb (cval_true (CSect d))) eqn:Et; [|by rewrite Hl].
  f_equal. destruct d; [|done]. by injection Hl as <-.
Qed.

(** C31: A seed that [apply_add] accepted is listed after the ones that were
    there, as it was given except for blanks around its host; of an I2P host
    that holds a comma, which [apply_add] accepts, the list shows only what is
    before the comma, and nothing when that is blank.  A seed that
    [apply_remove] accepted is gone from the list and nothing else is.  The
    syntax is ConfigObj's, whose documents are read back as they were
    written. *)
Theorem seed_changes_listed dir fs l c : let p := _resolve_config_path home dir in
  plain fs p → faulty OpRead p = false →
  stored faulty fs p = Some c → names_ok (CSect c.1) = true → list_seeds faulty home dir fs = (Ok l, fs) →
  (∀ e fs', apply_add faulty umask home dir e fs = (Ok tt, fs') →
     list_seeds faulty home dir fs' = (Ok (l ++ listed e), fs') ∧ (no_comma e = true → listed e = [shown e])) ∧
  (∀ name fs', apply_remove faulty umask home dir name fs = (Ok tt, fs') →
     list_seeds faulty home dir fs' = (Ok (List.filter (λ e, negb (bool_decide (se_name e = name))) l), fs')).
Proof using HL.
  intros p Hpl Hf Hs Hn Hlist. destruct Hpl as (Hl & Hpl').
  assert (Hi := list_interfaces dir fs l c Hl Hs Hlist). split.
  - intros e fs'. unfold apply_add, bind at 1, of_res.
    destruct (validate_seed_entry e) as [[]|] eqn:Ev; [|done]. intros Hadd. split; [|by apply listed_shown]. revert Hadd.
    unfold bind. fold p. rewrite load_run by done. rewrite Hs.
    destruct (default (CSect []) (dict_get "interfaces" c.1)) as [s|s|d] eqn:Ed;
      [by destruct (is_infix _ _)|by case_bool_decide|].
    destruct (dict_has (se_name e) d) eqn:Eh; [done|]. intros Hw.
    apply write_config_run in Hw as (t & m & Et & E & _); [|apply config_path_ne|done].
    destruct (validate_ok e Ev) as (Hnb & _).
    assert (Hd : names_ok (CSect d) = true).
    { destruct (dict_get "interfaces" c.1) eqn:Eg; cbn in Ed; [subst; by eapply names_ok_get|by injection Ed as <-]. }
    eapply (list_written dir _ c.1 c.2 t m); [done|done|done| |exact E|exact Et|].
    + apply names_ok_set; [done| |done]. unfold seed_section. destruct (bool_decide _); by cbn.
    + rewrite section_items_add by done. apply entries_of_app; [done|]. cbn [entries_of].
      rewrite parse_seed_section by done. unfold listed. by destruct (str_true _).
  - intros name fs'. unfold apply_remove. destruct (_ || _); [done|]. unfold bind. fold p. rewrite load_run by done. rewrite Hs.
    destruct (dict_get "interfaces" c.1) as [v|] eqn:Eg; [|done]. destruct (_ || _); [done|].
    destruct v as [s|s|d]; [done..|]. cbn in Hi.
    destruct (dict_get name d) as [[|s|s]|]; [done|done| |done].
    destruct (dict_get "type" s) as [[t0| |]|]; [|done..]. destruct (negb _); [done|]. intros Hw.
    apply write_config_run in Hw as (t & m & Et & E & _); [|apply config_path_ne|done].
    eapply (list_written dir _ c.1 c.2 t m); [done|done|done| |exact E|exact Et|].
    + apply names_ok_del. by eapply names_ok_get.
    + replace (section_items (dict_del name d)) with
        (List.filter (λ kv, negb (bool_decide (kv.1 = name))) (section_items d)).
      * by apply entries_of_del.
      * rewrite dict_del_filter. unfold section_items. rewrite !List.filter_app. f_equal; apply filter_filter_comm.
Qed.

(** Whichever call of the operating system fails, [apply_add] and
    [apply_remove] leave the configuration as it was or, when they return, the
    complete new text in its place and the previous one, with its line ends
    normalised, in [config.prev].  [apply_remove] removes only a client
    interface over TCP or I2P; every other interface keeps its section. *)
Theorem seed_config_kept dir fs c d0 m0 : let p := _resolve_config_path home dir in
  plain fs p → fs !! p = Some (NFile d0 m0) → stored faulty fs p = Some c →
  (∀ e r fs', apply_add faulty umask home dir e fs = (r, fs') →
     match r with
     | Raise _ => fs' !! p = Some (NFile d0 m0)
     | Ok _ => (∃ d t m, dict_get (se_name e) d = None ∧
                  co_write (dict_set "interfaces" (CSect (dict_set (se_name e) (CSect (seed_section e)) d)) c.1) c.2 = Some t ∧
                  fs' !! p = Some (NFile t m)) ∧
               ∃ mb, fs' !! with_tail p ".prev" = Some (NFile (string_of (newlines (chars_of d0))) mb)
     end) ∧
  (∀ name r fs', apply_remove faulty umask home dir name fs = (r, fs') →
     match r with
     | Raise _ => fs' !! p = Some (NFile d0 m0)
     | Ok _ => (∃ d s ty t m, dict_get "interfaces" c.1 = Some (CSect d) ∧ dict_get name d = Some (CSect s) ∧
                  dict_get "type" s = Some (CStr ty) ∧ ty ∈ ["TCPClientInterface"; "I2PInterface"] ∧
                  co_write (dict_set "interfaces" (CSect (dict_del name d)) c.1) c.2 = Some t ∧
                  fs' !! p = Some (NFile t m)) ∧
               ∃ mb, fs' !! with_tail p ".prev" = Some (NFile (string_of (newlines (chars_of d0))) mb)
     end).
Proof using.
  intros p Hpl E0 Hs. assert (Hl : no_link fs p) by apply Hpl. split.
  - intros e r fs'. unfold apply_add, bind at 1, of_res.
    destruct (validate_seed_entry e) as [[]|]; [|by intros [= <- <-]].
    unfold bind. fold p. rewrite load_run by done. rewrite Hs.
    destruct (default (CSect []) (dict_get "interfaces" c.1)) as [s|s|d];
      [destruct (is_infix _ _)|case_bool_decide|]; [by intros [= <- <-]..|].
    unfold dict_has. destruct (dict_get (se_name e) d) eqn:Eh; [by intros [= <- <-]|]. intros Hw.
    apply write_config_run in Hw; [|apply config_path_ne|done]. destruct r as [[]|]; [|by rewrite Hw].
    destruct Hw as (t & m & Et & E & Hprev). split; [by exists d, t, m|]. by apply (Hprev d0 m0).
  - intros name r fs'. unfold apply_remove. destruct (_ || _); [by intros [= <- <-]|].
    unfold bind. fold p. rewrite load_run by done. rewrite Hs.
    destruct (dict_get "interfaces" c.1) as [v|] eqn:Eg; [|by intros [= <- <-]]. destruct (_ || _); [by intros [= <- <-]|].
    destruct v as [s|s|d]; [by intros [= <- <-]..|].
    destruct (dict_get name d) as [[s|s|s]|] eqn:Ed; [by intros [= <- <-]..| |by intros [= <- <-]].
    destruct (dict_get "type" s) as [[ty| |]|] eqn:Ety; [|by intros [= <- <-]..].
    case_bool_decide as Hty; [|by intros [= <- <-]]. cbn [negb]. intros Hw.
    apply write_config_run in Hw; [|apply config_path_ne|done]. destruct r as [[]|]; [|by rewrite Hw].
    destruct Hw as (t & m & Et & E & Hprev). split; [by exists d, s, ty, t, m|]. by apply (Hprev d0 m0).
Qed.
End changes.

(** ** Addresses *)

(** Neither [[] in front, which starts an IPv6 address, nor blanks. *)
Definition plain_host (h : chars) : Prop :=
  match h with [] => False | c :: _ => c ≠ chr 91 ∧ strip h = h end.

(** What [hokora seed list] prints for a valid seed, [hokora seed add] reads as
    the same seed. *)
Lemma address_round_trip e : validate_seed_entry e = Ok tt → plain_host (chars_of (se_target_host e)) →
  has_char (chr 58) (chars_of (se_target_host e)) = false ∨ se_type e = "tcp" →
  _parse_host_port (shown_address e) = Ok (se_target_host e, se_target_port e, se_type e).
Proof.
  intros Hv Hh Hcolon. destruct (validate_ok e Hv) as (_ & _ & _ & Hcase).
  unfold plain_host in Hh. unfold shown_address, _parse_host_port.
  destruct (chars_of (se_target_host e)) as [|c h] eqn:Eh; [done|].
  destruct Hh as [Hb Hs]. assert (Hc := stripped_head _ _ Hs).
  destruct Hcase as [(Ety & Hp & Hi)|(Ety & Hp & Hi)]; rewrite Ety.
  - rewrite bool_decide_true by done. rewrite chars_string.
    destruct (int_digits_str (se_target_port e)) as (ds & d & Ed & Hd & Hnc); [lia|].
    destruct (digit_plain d Hd) as (Hds & _).
    assert (Estrip : strip ((c :: h) ++ chr 58 :: chars_of (str_of_int (se_target_port e)))
                     = (c :: h) ++ chr 58 :: chars_of (str_of_int (se_target_port e))).
    { rewrite Ed. change ((c :: h) ++ chr 58 :: ds ++ [d]) with (c :: (h ++ (chr 58 :: ds) ++ [d])).
      rewrite app_assoc. by apply strip_ends. }
    rewrite Estrip. cbn [app list_true negb]. rewrite app_comm_cons.
    assert (Hsuf : endswith ((c :: h) ++ chr 58 :: chars_of (str_of_int (se_target_port e))) (chars_of ".i2p") = false).
    { rewrite Ed, app_comm_cons, app_assoc. apply (endswith_last _ _ (chars_of ".i2") (chr 112)). intros ->; destruct Hd as [x Hx]; discriminate Hx. }
    rewrite Hsuf. cbn [app]. rewrite bool_decide_false by done.
    rewrite app_comm_cons. replace (has_char _ _) with true.
    2: { symmetry. apply has_char_in. apply elem_of_app. right. by left. }
    rewrite rcut_app by done. fold (int_of_str (str_of_int (se_target_port e))).
    rewrite int_of_str_of_int by lia. by rewrite <- Eh, string_chars.
  - rewrite bool_decide_false by done. rewrite Eh, Hs. cbn [list_true negb].
    unfold ends_i2p in Hi. rewrite Eh in Hi. rewrite Hi.
    destruct Hcolon as [->|?]; [|congruence]. by rewrite <- Eh, string_chars, Hp.
Qed.

(** ** Examples: a concrete syntax, and what the operator can run into *)

Fixpoint ctree (v : cval) : gen_tree string :=
  match v with
  | CStr s => GenLeaf s
  | CList l => GenNode 0 (map GenLeaf l)
  | CSect d => GenNode 1 (map (λ kv, GenNode 2 [GenLeaf kv.1; ctree kv.2]) d)
  end.
Definition leaf_str (t : gen_tree string) : string := match t with GenLeaf s => s | _ => EmptyString end.
Fixpoint of_ctree (t : gen_tree string) : cval :=
  match t with
  | GenLeaf s => CStr s
  | GenNode 0 l => CList (map leaf_str l)
  | GenNode _ l => CSect (map (λ t, match t with
                                    | GenNode _ [GenLeaf k; v] => (k, of_ctree v)
                                    | _ => (EmptyString, CStr EmptyString)
                                    end) l)
  end.
Lemma of_ctree_tree : ∀ v, of_ctree (ctree v) = v.
Proof.
  fix IH 1. intros [s|l|d]; [done| |].
  - cbn. f_equal. induction l as [|a l IHl]; [done|]. cbn. by rewrite IHl.
  - cbn. f_equal. induction d as [|[k v] d IHd]; [done|]. cbn. by rewrite IHd, IH.
Qed.

Fixpoint bits_text (p : positive) : string :=
  match p with xH => EmptyString | xO p => String (chr 48) (bits_text p) | xI p => String (chr 49) (bits_text p) end.
Fixpoint text_bits (s : string) : positive :=
  match s with
  | EmptyString => xH
  | String c s => if bool_decide (c = chr 48) then xO (text_bits s) else xI (text_bits s)
  end.
Lemma text_bits_text p : text_bits (bits_text p) = p.
Proof.
  induction p as [p IH|p IH|]; [| |done].
  - change (xI (text_bits (bits_text p)) = xI p). by rewrite IH.
  - change (xO (text_bits (bits_text p)) = xO p). by rewrite IH.
Qed.

(** Documents without notes, written in binary. *)
Definition toy_configobj : ConfigObj := {|
  notes := unit; no_notes := tt;
  co_parse s := match decode (text_bits s) with
                | Some t => match of_ctree t with CSect d => Some (d, tt) | _ => None end
                | None => None
                end;
  co_write d _ := Some (bits_text (encode (ctree (CSect d))));
  sect_str _ := "{...}" |}.
Lemma toy_configobj_laws : ConfigObjLaws toy_configobj.
Proof.
  split. intros d n s _ H. exists tt. injection H as <-.
  change (match decode (text_bits (bits_text (encode (ctree (CSect d))))) with
          | Some t => match of_ctree t with CSect d => Some (d, tt) | _ => None end
          | None => None
          end = Some (d, tt)).
  by rewrite text_bits_text, decode_encode, (of_ctree_tree (CSect d)).
Qed.
#[local] Existing Instance toy_configobj.
#[local] Existing Instance toy_configobj_laws.

Definition etc : path := ["etc"].
Definition config_fs (interfaces : section) : FS :=
  list_to_map [(etc, NDir o777);
               (["etc"; "config"], NFile (default EmptyString (co_write [("interfaces", CSect interfaces)] tt)) o644)].
Definition tcp_seed (host port : string) : cval :=
  CSect [("type", CStr "TCPClientInterface"); ("target_host", CStr host); ("target_port", CStr port)].
Definition seed_fs : FS :=
  config_fs [("Default", CSect [("type", CStr "AutoInterface")]); ("hub", tcp_seed "hub.example" "4242")].
Definition hub : SeedEntry := {|
  se_name := "hub"; se_type := "tcp"; se_target_host := "hub.example"; se_target_port := 4242; se_enabled := true |}.
Definition relay : SeedEntry := {|
  se_name := "relay"; se_type := "i2p"; se_target_host := "abc.b32.i2p"; se_target_port := 0; se_enabled := false |}.
Definition seed_doc : section * unit :=
  ([("interfaces", CSect [("Default", CSect [("type", CStr "AutoInterface")]); ("hub", tcp_seed "hub.example" "4242")])], tt).

Lemma seed_fs_plain : plain seed_fs ["etc"; "config"].
Proof. split_and!; intros t; vm_compute; discriminate. Qed.
Lemma seed_fs_stored : stored no_fault seed_fs ["etc"; "config"] = Some seed_doc.
Proof. vm_compute. reflexivity. Qed.
Lemma seed_fs_list : list_seeds no_fault [] (Some etc) seed_fs = (Ok [hub], seed_fs).
Proof.
  erewrite (list_seeds_run no_fault [] (Some etc) seed_fs); [|apply seed_fs_plain|exact seed_fs_stored].
  f_equal; vm_compute; reflexivity.
Qed.

Definition seed_added : res unit * FS := apply_add no_fault 18 [] (Some etc) relay seed_fs.
Definition seed_removed : res unit * FS := apply_remove no_fault 18 [] (Some etc) "hub" seed_fs.
(** An I2P seed with two peers. *)
Definition two_relays : SeedEntry := {| se_name := "r2"; se_type := "i2p"; se_target_host := "a.i2p,b.i2p"; se_target_port := 0; se_enabled := true |}.
Definition two_added : res unit * FS := apply_add no_fault 18 [] (Some etc) two_relays seed_fs.

Lemma seed_changes_listed_witness :
  list_seeds no_fault [] (Some etc) seed_added.2 = (Ok [hub; relay], seed_added.2) ∧
  list_seeds no_fault [] (Some etc) two_added.2 = (Ok (hub :: listed two_relays), two_added.2) ∧
  list_seeds no_fault [] (Some etc) seed_removed.2 = (Ok [], seed_removed.2).
Proof.
  assert (E1 : apply_add no_fault 18 [] (Some etc) relay seed_fs = (Ok tt, seed_added.2))
    by (apply run_eq; vm_compute; reflexivity).
  assert (E2 : apply_remove no_fault 18 [] (Some etc) "hub" seed_fs = (Ok tt, seed_removed.2))
    by (apply run_eq; vm_compute; reflexivity).
  assert (E3 : apply_add no_fault 18 [] (Some etc) two_relays seed_fs = (Ok tt, two_added.2))
    by (apply run_eq; vm_compute; reflexivity).
  destruct (@seed_changes_listed toy_configobj toy_configobj_laws no_fault 18 [] (Some etc) seed_fs [hub] seed_doc
              seed_fs_plain eq_refl seed_fs_stored eq_refl seed_fs_list) as [Ha Hr].
  destruct (Ha relay _ E1) as [H1 H2]. rewrite (H2 eq_refl) in H1.
  split; [exact H1|]. split; [exact (proj1 (Ha two_relays _ E3))|exact (Hr "hub" _ E2)].
Defined.

Definition fail_replace (op : os_op) (p : path) : bool :=
  match op with OpReplace => bool_decide (p = ["etc"; "config"]) | _ => false end.
Lemma seed_config_kept_witness :
  ∃ m0, let r := apply_add fail_replace 18 [] (Some etc) relay seed_fs in
    is_ok r.1 = false ∧ r.2 !! ["etc"; "config"] = Some (NFile (default EmptyString (co_write seed_doc.1 tt)) m0).
Proof.
  assert (E0 : seed_fs !! ["etc"; "config"] = Some (NFile (default EmptyString (co_write seed_doc.1 tt)) o644))
    by (vm_compute; reflexivity).
  exists o644. split; [vm_compute; reflexivity|].
  destruct (@seed_config_kept toy_configobj fail_replace 18 [] (Some etc) seed_fs seed_doc _ _ seed_fs_plain E0) as [Ha _];
    [vm_compute; reflexivity|].
  destruct (apply_add fail_replace 18 [] (Some etc) relay seed_fs) as [r fs'] eqn:E.
  assert (Hr : is_ok r = false) by (change r with (r, fs').1; rewrite <- E; vm_compute; reflexivity).
  specialize (Ha relay r fs' E). destruct r; [discriminate Hr|exact Ha].
Defined.

(** A list of peers, which is how ConfigObj reads a value with a comma, is
    shown with the brackets and the quote of Python's list. *)
Example peers_list_shown :
  (list_seeds no_fault [] (Some etc)
     (config_fs [("i", CSect [("type", CStr "I2PInterface"); ("peers", CList ["a.i2p"; "b.i2p"])])])).1
  = Ok [{| se_name := "i"; se_type := "i2p"; se_target_host := "['a.i2p'"; se_target_port := 0; se_enabled := true |}].
Proof. vm_compute. reflexivity. Qed.

(** An interface whose [type] is a list stops the whole listing with an error
    that is not a [SeedConfigError]. *)
Example unhashable_type :
  exn_cls <$> match (list_seeds no_fault [] (Some etc)
     (config_fs [("i", CSect [("type", CList ["a"; "b"])]); ("hub", tcp_seed "h" "1")])).1 with
              | Raise e => Some e | Ok _ => None end = Some TypeError.
Proof. vm_compute. reflexivity. Qed.

(** A seed without a host: [hokora config validate-rns] reports no issue. *)
Example broken_seed_validates :
  (validate_config_file no_fault [] (Some etc) (config_fs [("hub", CSect [("type", CStr "TCPClientInterface")])])).1
  = Ok (inr []).
Proof. vm_compute. reflexivity. Qed.

(** A bare IPv6 address loses its last group to the port. *)
Example ipv6_address_cut : _parse_host_port "fe80::1" = Ok ("fe80:", 1, "tcp").
Proof. vm_compute. reflexivity. Qed.
