(* ===== verification/Daemon.v ===== *)
(** * The daemon around the node ([core/service_registry.py],
      [core/heartbeat.py], and [_periodic_announce], [_start_observability],
      [stop] of [core/daemon.py])

    The registry that tears subsystems down in reverse order, the heartbeat
    file that external supervision reads, and the loop that announces the
    channels, runs maintenance (Upkeep.v) and records when it did.  The heartbeat
    is refused once the loop has not completed a turn for five intervals; a turn
    whose maintenance failed counts as completed. *)

From S2P Require Import Prelude Constants Models Queries Permissions RateLimit Sealed Message Wire Epoch FedAuth Live Bootstrap Roles Maintenance Server Handshake Upkeep Files.

(** ** [ServiceRegistry] *)

Module ServiceRegistry.
Section registry.
(** The teardowns, by name of the service, and what else they may change;
    what a teardown does, to the registry as well. *)
Context {T S : Type} (teardown : T → M (dict string T * S) unit).

Definition register (name : string) (t : T) (services : dict string T) : dict string T := dict_set name t services.
Definition contains (name : string) (services : dict string T) : bool := dict_has name services.
Definition names (services : dict string T) : list string := dict_keys services.
Definition unregister (name : string) (services : dict string T) : option T * dict string T :=
  match dict_get name services with
  | Some t => (Some t, dict_del name services)
  | None => (None, services)
  end.

(** [except Exception] around each teardown. *)
Definition shutdown_all : M (dict string T * S) unit :=
  let! services := gets fst in
  modify (λ s, ([], s.2)) ;;
  mfold (λ _ p, catch (teardown p.2) (λ _, ret tt)) tt (reverse services).
End registry.
End ServiceRegistry.

Import ServiceRegistry.

(** [HokoraDaemon.stop]: the PID file goes last, and in a [finally]. *)
Section stopping.
Context {T X : Type} (faulty : os_op → path → bool) (pid_file : path).
Record Process := { pr_running : bool; pr_services : dict string T; pr_rest : X; pr_fs : FS }.
Context (teardown : T → M (dict string T * (X * FS)) unit).

Definition set_registry (s : dict string T * (X * FS)) (p : Process) : Process :=
  {| pr_running := pr_running p; pr_services := s.1; pr_rest := s.2.1; pr_fs := s.2.2 |}.
Definition remove_pid : M Process unit :=
  lift pr_fs (λ fs p, {| pr_running := pr_running p; pr_services := pr_services p; pr_rest := pr_rest p; pr_fs := fs |})
    (PidFile_remove faulty pid_file).

Definition stop : M Process unit :=
  modify (λ p, {| pr_running := false; pr_services := pr_services p; pr_rest := pr_rest p; pr_fs := pr_fs p |}) ;;
  catch (lift (λ p, (pr_services p, (pr_rest p, pr_fs p))) set_registry (shutdown_all teardown))
    (λ e, remove_pid ;; throw e) ;;
  remove_pid.
End stopping.
Arguments Process : clear implicits.

(** ** [HeartbeatWriter] *)

Module HeartbeatWriter.
Section writer.
Context `{HP : Msgpack} (faulty : os_op → path → bool) (umask : Z).
Context (path_ : path) (role node_identity_hash : string).

(** What the two checks answer; [None] where the writer has none. *)
Definition invariant_failure (rns_alive maintenance_fresh : option (res bool)) : option string :=
  match rns_alive with
  | Some (Raise _) => Some "rns_transport_check_error"
  | Some (Ok false) => Some "rns_transport"
  | _ =>
      match maintenance_fresh with
      | Some (Raise _) => Some "maintenance_check_error"
      | Some (Ok false) => Some "maintenance_stale"
      | _ => None
      end
  end.

Definition payload (now : float) (pid : Z) : val :=
  VDict [("v", VInt 1); ("ts", VFloat now); ("role", VStr role); ("node_identity_hash", VStr node_identity_hash);
         ("pid", VInt pid)].

Definition write_atomic (now : float) (pid : Z) : M FS unit :=
  match packb (payload now pid) with
  | None => raise ValueError "cannot serialize"
  | Some blob =>
      let tmp := with_tail path_ ".tmp" in
      put_file faulty umask tmp (bytes_str blob) o666 ;;
      os_chmod faulty tmp o644 ;;
      os_replace faulty tmp path_
  end.

Definition try_tick (now : float) (pid : Z) (rns_alive maintenance_fresh : option (res bool)) : M FS unit :=
  match invariant_failure rns_alive maintenance_fresh with
  | Some _ => ret tt
  | None => catch (write_atomic now pid) (λ _, ret tt)
  end.

Definition read_heartbeat : M FS (option val) :=
  catch (let! raw := read_bytes faulty path_ in ret (unpackb (str_bytes raw))) (λ _, ret None).
End writer.
End HeartbeatWriter.

(** ** The loop *)

(** [_rns_alive], by which interfaces are online, and [_maintenance_fresh]. *)
Definition rns_alive (interfaces : list bool) : bool := negb (list_true interfaces) || existsb id interfaces.
Definition maintenance_fresh (announce_interval : Z) (last : option float) (now : float) : bool :=
  match last with
  | None => true
  | Some t => fle (now - t)%F (fz (announce_interval * 5))
  end.

Record Daemon := {
  dm_looping : bool;                                  (* the task of [_periodic_announce] has not ended *)
  dm_upkeep : Upkeep;
  dm_last_maintenance_run : option float;
  dm_fs : FS;
}.
Definition dm_set_upkeep u d := {| dm_looping := dm_looping d; dm_upkeep := u; dm_last_maintenance_run := dm_last_maintenance_run d; dm_fs := dm_fs d |}.
Definition dm_set_last t d := {| dm_looping := dm_looping d; dm_upkeep := dm_upkeep d; dm_last_maintenance_run := t; dm_fs := dm_fs d |}.
Definition dm_set_looping b d := {| dm_looping := b; dm_upkeep := dm_upkeep d; dm_last_maintenance_run := dm_last_maintenance_run d; dm_fs := dm_fs d |}.
Definition dm_set_fs fs d := {| dm_looping := dm_looping d; dm_upkeep := dm_upkeep d; dm_last_maintenance_run := dm_last_maintenance_run d; dm_fs := fs |}.

Section daemon.
Context `{E : Envelope} `{PK : PeerKeys} `{HP : Msgpack} `{HK : KeyExchange} `{HS : Signing} `{HA : Aead} `{HM : LinkMdu}.
Context (g : UpkeepConfig) (net : Net) (lx : LiveSubscriptionManager.Lxmf).
Context (announce_enabled : bool) (announce_interval : Z).
Context (faulty : os_op → path → bool) (umask : Z) (heartbeat_path : path) (node_identity_hash : string).

(** One turn; [announced] is what [announce_channels] does. *)
Definition periodic_turn (announced : res unit) (t : Turn) : M Daemon unit :=
  (if announce_enabled then of_res announced else ret tt) ;;
  lift dm_upkeep dm_set_upkeep (run_maintenance g net lx t) ;;
  modify (dm_set_last (Some (tn_now t))).

(** The end of a turn's sleep, a tick of the heartbeat, and other work on the
    node; an exception ends the loop's task. *)
Inductive event :=
  | EvTurn (announced : res unit) (t : Turn)
  | EvTick (now : float) (pid : Z) (interfaces : list bool)
  | EvOther (f : Upkeep → Upkeep).

Definition step (d : Daemon) (ev : event) : Daemon :=
  match ev with
  | EvTurn announced t =>
      if dm_looping d then
        match periodic_turn announced t d with
        | (Ok _, d') => d'
        | (Raise _, d') => dm_set_looping false d'
        end
      else d
  | EvTick now pid interfaces =>
      dm_set_fs (HeartbeatWriter.try_tick faulty umask heartbeat_path "community" node_identity_hash now pid
        (Some (Ok (rns_alive interfaces)))
        (Some (Ok (maintenance_fresh announce_interval (dm_last_maintenance_run d) now))) (dm_fs d)).2 d
  | EvOther f => dm_set_upkeep (f (dm_upkeep d)) d
  end.
End daemon.

(** ** Tearing down *)

Section stop_theorems.
Context {T X : Type} (faulty : os_op → path → bool) (pid_file : path).
Context (teardown : T → M (dict string T * (X * FS)) unit).

(** What a teardown does to the rest, whether it fails or not. *)
Definition torn_down (x : X * FS) (t : T) : X * FS := (teardown t ([], x)).2.2.

Lemma dict_set_new_keys {V} (k : string) (v : V) d : k ∉ dict_keys d → dict_set k v d = d ++ [(k, v)].
Proof using.
  induction d as [|[k' v'] d IH]; simpl; [done|]. intros [Hk Hn]%not_elem_of_cons.
  rewrite decide_False by done. by rewrite IH.
Qed.

Lemma registered_in_order (regs : list (string * T)) d : NoDup (map fst (d ++ regs)) →
  foldl (λ s p, register p.1 p.2 s) d regs = d ++ regs.
Proof using.
  revert d. induction regs as [|[k t] regs IH]; intros d Hd; simpl; [by rewrite app_nil_r|].
  unfold register at 2. rewrite dict_set_new_keys.
  - rewrite IH; [by rewrite <- app_assoc|]. by rewrite <- app_assoc.
  - rewrite map_app in Hd. apply NoDup_app in Hd as (_ & Hd & _). intros Hin. apply (Hd k Hin). left.
Qed.

Lemma shutdown_all_run s : (∀ t s, (teardown t s).2.1 = s.1) →
  shutdown_all teardown s = (Ok tt, ([], foldl torn_down s.2 (reverse (map snd s.1)))).
Proof using.
  intros Hreg. unfold shutdown_all, bind, gets, modify. destruct s as [services x]. cbn [fst snd].
  change (map snd services) with (snd <$> services). rewrite <- fmap_reverse. generalize (reverse services) as l.
  intros l. revert x. induction l as [|[n t] l IH]; intros x; [done|]. cbn [mfold fmap list_fmap foldl snd]. unfold bind, catch. unfold torn_down at 2.
  pose proof (Hreg t ([], x)) as Hr. destruct (teardown t ([], x)) as [[[]|e] [d y]]; simpl in Hr; subst d; apply IH.
Qed.
(** [stop] returns, and when it does every service has been torn down,
    each once and the last registered first, whatever the teardowns raise; the
    registry is empty, so that stopping again tears nothing down; and the PID
    file is gone, unless the system refuses to remove it. *)
Theorem stop_tears_down regs p : NoDup (map fst regs) → (∀ t s, (teardown t s).2.1 = s.1) →
  pr_services p = foldl (λ s r, register r.1 r.2 s) [] regs →
  ∃ p', stop faulty pid_file teardown p = (Ok tt, p') ∧ pr_running p' = false ∧ pr_services p' = []
  ∧ let x := foldl torn_down (pr_rest p, pr_fs p) (reverse (map snd regs)) in
    pr_rest p' = x.1 ∧ (∀ q, q ≠ pid_file → pr_fs p' !! q = x.2 !! q)
    ∧ (faulty OpUnlink pid_file = false → (∀ m, x.2 !! pid_file ≠ Some (NDir m)) → pr_fs p' !! pid_file = None).
Proof using.
  intros Hd Hreg Hs. rewrite registered_in_order in Hs by done. simpl in Hs.
  unfold stop, bind at 1, modify. cbv beta iota. unfold bind, catch, lift. cbn [pr_services pr_rest pr_fs].
  rewrite Hs, (shutdown_all_run (regs, (pr_rest p, pr_fs p)) Hreg). cbn [fst snd set_registry pr_running pr_rest pr_fs pr_services].
  generalize (foldl torn_down (pr_rest p, pr_fs p) (reverse (map snd regs))) as x. intros [x fs]. cbn [fst snd].
  unfold remove_pid, lift, set_registry. cbn [pr_fs pr_running pr_rest pr_services fst snd].
  destruct (PidFile_remove faulty pid_file fs) as [r fs'] eqn:Er. destruct (pid_removed _ _ _ _ _ Er) as (-> & H1 & H2).
  eexists. split; [reflexivity|]. by split_and!.
Qed.
End stop_theorems.

(** ** The heartbeat *)

Section heartbeat.
Context `{HP : Msgpack} `{!MsgpackLaws HP} `{!MsgpackBytes HP}.
Context (faulty : os_op → path → bool) (umask : Z) (p : path) (role ident : string).

Lemma write_atomic_run now pid fs r fs' : p ≠ [] → no_link fs (with_tail p ".tmp") →
  HeartbeatWriter.write_atomic faulty umask p role ident now pid fs = (r, fs') →
  (∀ q, q ≠ p → q ≠ with_tail p ".tmp" → fs' !! q = fs !! q) ∧ no_link fs' (with_tail p ".tmp") ∧
  match r with
  | Ok _ => ∃ blob, packb (HeartbeatWriter.payload role ident now pid) = Some blob
              ∧ fs' !! p = Some (NFile (bytes_str blob) o644)
  | Raise _ => fs' !! p = fs !! p
  end.
Proof using.
  intros Hp Hl. unfold HeartbeatWriter.write_atomic. destruct (packb _) as [blob|]; [|by intros [= <- <-]].
  set (tmp := with_tail p ".tmp") in *. assert (tmp ≠ p) as Ht by (by apply with_tail_ne). unfold bind.
  destruct (put_file faulty umask tmp (bytes_str blob) o666 fs) as [r1 fs1] eqn:E1.
  apply put_file_run in E1 as (Ho1 & Hl1 & Hok1); [|done].
  destruct r1 as [[]|e]; [|intros [= <- <-]; split_and!; [intros q _ Hq; by apply Ho1|done|by apply Ho1]].
  destruct (Hok1 eq_refl) as (m & Em & _).
  destruct (os_chmod faulty tmp o644 fs1) as [r2 fs2] eqn:E2. destruct (chmod_file _ _ _ _ _ _ _ _ Em E2) as (Ho2 & Hl2 & Hok2).
  destruct r2 as [[]|e].
  2: { intros [= <- <-]. split_and!; [intros q _ Hq; by rewrite Ho2, Ho1|done|by rewrite Ho2, Ho1]. }
  intros E3. destruct (replace_run _ _ _ _ _ _ _ _ Ht (Hok2 eq_refl) E3) as (Ho3 & Hl3 & H3). split_and!; [|done|].
  - intros q Hq Hq'. by rewrite Ho3, Ho2, Ho1.
  - destruct r as [[]|e]; [eauto|]. subst fs'. by rewrite Ho2, Ho1.
Qed.

(** A file that holds a packed value reads as that value. *)
Lemma read_heartbeat_file v blob m fs f : packb v = Some blob → fs !! p = Some (NFile (bytes_str blob) m) →
  f OpRead p = false → (HeartbeatWriter.read_heartbeat f p fs).1 = Ok (Some v).
Proof using MsgpackLaws0 MsgpackBytes0.
  intros Hv Ep Hf. unfold HeartbeatWriter.read_heartbeat, catch, read_bytes, bind, os_call, get. rewrite Hf. cbn [when ret].
  rewrite resolve_no_link by (intros t; by rewrite Ep). rewrite Ep. cbn [ret fst].
  rewrite str_bytes_str by (by eapply pack_bytes). by rewrite (unpack_pack v).
Qed.

Lemma tick_run now pid rns fresh fs r fs' : p ≠ [] → no_link fs (with_tail p ".tmp") →
  HeartbeatWriter.try_tick faulty umask p role ident now pid rns fresh fs = (r, fs') →
  r = Ok tt ∧ no_link fs' (with_tail p ".tmp") ∧ (∀ q, q ≠ p → q ≠ with_tail p ".tmp" → fs' !! q = fs !! q) ∧
  (HeartbeatWriter.invariant_failure rns fresh ≠ None → fs' = fs) ∧
  (fs' !! p = fs !! p ∨ ∃ blob, packb (HeartbeatWriter.payload role ident now pid) = Some blob
                          ∧ fs' !! p = Some (NFile (bytes_str blob) o644)).
Proof using.
  intros Hp Hl. unfold HeartbeatWriter.try_tick.
  destruct (HeartbeatWriter.invariant_failure rns fresh) as [w|]; [intros [= <- <-]; split_and!; try done; by left|].
  unfold catch. destruct (HeartbeatWriter.write_atomic _ _ _ _ _ _ _ _) as [r1 fs1] eqn:E1.
  destruct (write_atomic_run _ _ _ _ _ Hp Hl E1) as (Ho & Hl1 & H).
  destruct r1 as [[]|e]; intros [= <- <-]; split_and!; try done; [by right|by left].
Qed.

(** A tick of the heartbeat never fails. When a check fails it touches
    nothing; otherwise the file is replaced as a whole, whatever call of the
    operating system fails: it then reads as the node's identity and the time
    of the tick, or it is the file that was there before. *)
Theorem heartbeat_tick now pid rns fresh fs r fs' : p ≠ [] → no_link fs (with_tail p ".tmp") →
  HeartbeatWriter.try_tick faulty umask p role ident now pid rns fresh fs = (r, fs') →
  r = Ok tt ∧ no_link fs' (with_tail p ".tmp") ∧ (∀ q, q ≠ p → q ≠ with_tail p ".tmp" → fs' !! q = fs !! q) ∧
  (HeartbeatWriter.invariant_failure rns fresh ≠ None → fs' = fs) ∧
  (fs' !! p = fs !! p ∨ (∃ d, fs' !! p = Some (NFile d o644)) ∧ ∀ f, f OpRead p = false →
     (HeartbeatWriter.read_heartbeat f p fs').1 = Ok (Some (HeartbeatWriter.payload role ident now pid))).
Proof using MsgpackLaws0 MsgpackBytes0.
  intros Hp Hl Et. destruct (tick_run _ _ _ _ _ _ _ Hp Hl Et) as (-> & Hl1 & Ho & Hf & H). split_and!; try done.
  destruct H as [?|(blob & Hb & Ef)]; [by left|right]. split; [eauto|]. intros f Hr. by eapply read_heartbeat_file.
Qed.
End heartbeat.

(** ** The loop and its heartbeat *)

Section loop.
Context `{E : Envelope} `{PK : PeerKeys} `{HP : Msgpack} `{HK : KeyExchange} `{HS : Signing} `{HA : Aead} `{HM : LinkMdu}.
Context `{!MsgpackLaws HP} `{!MsgpackBytes HP}.
Context (g : UpkeepConfig) (net : Net) (lx : LiveSubscriptionManager.Lxmf).
Context (announce_enabled : bool) (announce_interval : Z).
Context (faulty : os_op → path → bool) (umask : Z) (hb : path) (ident : string).

Abbreviation step := (step g net lx announce_enabled announce_interval faulty umask hb ident).

(** No turn of the loop ends any more: its task has ended, or it hangs. *)
Definition wedged (d : Daemon) (evs : list event) : Prop :=
  dm_looping d = false ∨ Forall (λ ev, match ev with EvTurn _ _ => False | _ => True end) evs.

(** What the file may hold after a time: what it held, or a tick's payload. *)
Definition beat_since (last : float) (fs fs' : FS) : Prop :=
  fs' !! hb = fs !! hb ∨ ∃ now pid blob, (now - last <= fz (announce_interval * 5))%F
    ∧ packb (HeartbeatWriter.payload "community" ident now pid) = Some blob
    ∧ fs' !! hb = Some (NFile (bytes_str blob) o644).

Lemma wedged_step d ev evs last : hb ≠ [] → no_link (dm_fs d) (with_tail hb ".tmp") →
  dm_last_maintenance_run d = Some last → wedged d (ev :: evs) →
  wedged (step d ev) evs ∧ no_link (dm_fs (step d ev)) (with_tail hb ".tmp")
  ∧ dm_last_maintenance_run (step d ev) = Some last ∧ beat_since last (dm_fs d) (dm_fs (step d ev)).
Proof using.
  intros Hp Hl Hlast Hw. assert (wedged d evs) as Hw'.
  { destruct Hw as [?|Hw]; [by left|right]. by apply Forall_cons in Hw as [_ ?]. }
  destruct ev as [a t|now pid ifs|f]; simpl.
  - destruct Hw as [Hd|[[] _]%Forall_cons]. rewrite Hd. split_and!; try done. by left.
  - destruct (HeartbeatWriter.try_tick _ _ _ _ _ _ _ _ _ _) as [r fs'] eqn:Et.
    destruct (tick_run _ _ _ _ _ _ _ _ _ _ _ _ Hp Hl Et) as (-> & Hl1 & _ & Hf & H). simpl. split_and!; try done.
    destruct H as [?|(blob & Hb & Ef)]; [by left|]. destruct (maintenance_fresh announce_interval (dm_last_maintenance_run d) now) eqn:Em.
    + right. exists now, pid, blob. split_and!; try done. unfold maintenance_fresh in Em. rewrite Hlast in Em. by apply fle_true.
    + left. rewrite Hf; [done|]. simpl. by destruct (rns_alive ifs).
  - split_and!; try done. by left.
Qed.

(** C37: The heartbeat does not outlive the loop. Once no turn of the loop ends
    any more, because it hangs or because an exception of an announcement
    ended its task, the file reads as it did, or with a time at most five
    announce intervals after the last turn that ended, whatever else happens
    and however long the ticks go on. *)
Theorem heartbeat_goes_stale d evs last : hb ≠ [] → no_link (dm_fs d) (with_tail hb ".tmp") →
  dm_last_maintenance_run d = Some last → wedged d evs →
  let fs' := dm_fs (foldl step d evs) in
  fs' !! hb = dm_fs d !! hb ∨ ∃ now pid, (now - last <= fz (announce_interval * 5))%F ∧ ∀ f, f OpRead hb = false →
    (HeartbeatWriter.read_heartbeat f hb fs').1 = Ok (Some (HeartbeatWriter.payload "community" ident now pid)).
Proof using MsgpackLaws0 MsgpackBytes0.
  intros Hp Hl Hlast Hw. assert (beat_since last (dm_fs d) (dm_fs (foldl step d evs))) as H.
  { revert d Hl Hlast Hw. induction evs as [|ev evs IH]; intros d Hl Hlast Hw; [by left|]. simpl.
    destruct (wedged_step d ev evs last Hp Hl Hlast Hw) as (Hw' & Hl' & Hlast' & H).
    destruct (IH _ Hl' Hlast' Hw') as [E'|H']; [|by right]. unfold beat_since. by rewrite E'. }
  destruct H as [?|(now & pid & blob & Hn & Hb & Ef)]; [by left|right]. exists now, pid. split; [done|].
  intros f Hf. by eapply read_heartbeat_file.
Qed.
End loop.

(** ** Closed runs *)

(** The services of a community node in the order [start] registers them. *)
Definition community_services : list string :=
  ["db_engine"; "mirror_manager"; "epoch_orchestrator"; "announce_task"; "batch_flush_task"; "push_retry_task";
   "mirror_health_task"; "heartbeat"; "observability"].

(** Teardowns that note their names, of which the heartbeat's also fails. *)
Definition noting (t : string * bool) : M (dict string (string * bool) * (list string * FS)) unit :=
  modify (λ s, (s.1, (s.2.1 ++ [t.1], s.2.2))) ;; when t.2 (raise RuntimeError "teardown").
Definition demo_regs : list (string * (string * bool)) :=
  map (λ n, (n, (n, bool_decide (n = "heartbeat")))) community_services.
Definition demo_process : Process (string * bool) (list string) := {|
  pr_running := true; pr_services := foldl (λ s r, register r.1 r.2 s) [] demo_regs; pr_rest := [];
  pr_fs := {[ ["hokorad.pid"] := NFile "1" o600 ]} |}.

Lemma stop_tears_down_witness : ∃ p', stop no_fault ["hokorad.pid"] noting demo_process = (Ok tt, p')
  ∧ pr_rest p' = reverse community_services ∧ pr_fs p' !! ["hokorad.pid"] = None.
Proof.
  destruct (stop_tears_down no_fault ["hokorad.pid"] noting demo_regs demo_process) as (p' & Ep & _ & _ & H1 & _ & H2).
  - apply (bool_decide_eq_true_1 (NoDup (map fst demo_regs))). vm_compute. reflexivity.
  - by intros [n []] [s x].
  - reflexivity.
  - exists p'. split; [done|]. split; [rewrite H1; vm_compute; reflexivity|]. apply H2; [reflexivity|]. intros m. vm_compute. congruence.
Defined.

Definition beat (now : float) : val := HeartbeatWriter.payload "community" "me" now 4711.
Definition beat_msgpack : Msgpack := table_msgpack [beat (fz 5); beat (fz 700); beat (fz 5010)].
Lemma beat_msgpack_bytes : MsgpackBytes beat_msgpack.
Proof.
  split. intros v b. unfold packb, beat_msgpack, table_msgpack. destruct (list_find _ _) as [[n w]|] eqn:E; [|done].
  intros [= <-]. apply list_find_Some in E as (E%lookup_lt_Some & _). repeat constructor; simpl in *; lia.
Qed.

Definition beat_path : path := ["d"; "heartbeat"].
Definition beat_fs : FS := {[ ["d"] := NDir o700 ]}.
Definition online : option (res bool) := Some (Ok true).
Definition beat_run := @HeartbeatWriter.try_tick beat_msgpack no_fault 18 beat_path "community" "me" (fz 5) 4711 online online beat_fs.

Lemma heartbeat_tick_witness : beat_run.1 = Ok tt ∧
  (@HeartbeatWriter.read_heartbeat beat_msgpack no_fault beat_path beat_run.2).1
  = Ok (Some (HeartbeatWriter.payload "community" "me" (fz 5) 4711)).
Proof.
  destruct (@heartbeat_tick beat_msgpack (table_msgpack_laws _) beat_msgpack_bytes no_fault 18 beat_path "community" "me" (fz 5) 4711
    online online beat_fs (Ok tt) beat_run.2) as (H1 & _ & _ & _ & [H|[_ H]]).
  - done.
  - intros t. vm_compute. congruence.
  - apply run_eq. vm_compute. reflexivity.
  - exfalso. revert H. vm_compute. congruence.
  - split; [vm_compute; reflexivity|]. by apply H.
Defined.

Abbreviation demo_step := (@step toy_env toy_peers beat_msgpack FedAuth.toy_kx toy_signing toy_aead 500 upkeep_config
  (λ _, LinkActive) (None, λ _, true) true 600 no_fault 18 beat_path "me").
Definition demo_daemon (threaded : bool) : Daemon := {|
  dm_looping := true; dm_upkeep := upkeep_state threaded; dm_last_maintenance_run := Some (fz 0); dm_fs := beat_fs |}.

(** An announcement that raises, then two ticks. *)
Definition failed_announce : event := EvTurn (Raise (Exn OSError "announce")) (turn_at 600).
Definition two_ticks : list event := [EvTick (fz 700) 4711 [true]; EvTick (fz 9000) 4711 [true]].

Lemma heartbeat_goes_stale_witness :
  let d := demo_step (demo_daemon false) failed_announce in
  dm_looping d = false ∧ ∃ now pid, (now - fz 0 <= fz 3000)%F ∧
  (@HeartbeatWriter.read_heartbeat beat_msgpack no_fault beat_path (dm_fs (foldl demo_step d two_ticks))).1
  = Ok (Some (HeartbeatWriter.payload "community" "me" now pid)).
Proof.
  intros d. split; [vm_compute; reflexivity|].
  destruct (@heartbeat_goes_stale toy_env toy_peers beat_msgpack FedAuth.toy_kx toy_signing toy_aead 500
    (table_msgpack_laws _) beat_msgpack_bytes upkeep_config
    (λ _, LinkActive) (None, λ _, true) true 600 no_fault 18 beat_path "me" d two_ticks (fz 0)) as [H|(now & pid & Hn & H)].
  - done.
  - intros t. vm_compute. congruence.
  - vm_compute. reflexivity.
  - left. vm_compute. reflexivity.
  - exfalso. revert H. vm_compute. congruence.
  - exists now, pid. split; [exact Hn|]. by apply H.
Defined.

(** A node whose maintenance fails at every turn, at 5000: the expired session
    is still there, yet the tick after the turn is written as usual. *)
Example failed_upkeep_looks_fresh :
  let d := foldl demo_step (demo_daemon true) [EvTurn (Ok tt) (turn_at 5000); EvTick (fz 5010) 4711 [true]] in
  (is_ok (from_option Ok (Raise (Exn KeyError "s1")) (sessions (up_db (dm_upkeep d)) !! "s1")),
   dm_last_maintenance_run d,
   (@HeartbeatWriter.read_heartbeat beat_msgpack no_fault beat_path (dm_fs d)).1)
  = (true, Some (fz 5000), Ok (Some (HeartbeatWriter.payload "community" "me" (fz 5010) 4711))).
Proof. vm_compute. reflexivity. Qed.
