(* ===== verification/ClientDb.v ===== *)
(** * The client's local cache ([hokora_tui/client_db])

    The terminal client keeps what it has seen in a local database: messages,
    cursors, channels, pinned sender keys, keys of sealed channels, direct
    messages and what it discovered.  All stores share one connection, so a
    transaction spans them.  Columns with a type hold values of that type;
    SQLite's conversions between types are not modelled. *)

From S2P Require Import Prelude Constants Models Queries.

(** [json.dumps] and [json.loads]. *)
Class Json := {
  json_dumps : val → option string;
  json_loads : string → option val;
}.
Class JsonLaws (J : Json) : Prop := {
  loads_dumps : ∀ v t, json_dumps v = Some t → json_loads t = Some v;
  dumps_loads : ∀ v t, json_loads t = Some v → is_Some (json_dumps v);
  loads_empty : json_loads "{}" = Some (VDict []);
}.

(** ** Tables *)

Record CachedMessage := {
  cm_msg_hash : string; cm_channel_id : string; cm_sender_hash : val; cm_seq : Z; cm_timestamp : float; cm_type : Z;
  cm_body : val; cm_display_name : val; cm_reply_to : val; cm_deleted : bool; cm_pinned : bool; cm_reactions : string;
  cm_lxmf_signature : val; cm_received_at : float; cm_verified : bool; cm_edited : bool; cm_has_thread : bool;
  cm_encrypted_body : val; cm_encryption_nonce : val; cm_encryption_epoch : val;
}.

Record CachedChannel := {
  cc_id : string; cc_name : string; cc_description : val; cc_access_mode : val; cc_category_id : val; cc_position : Z;
  cc_identity_hash : val; cc_latest_seq : val; cc_sealed : bool; cc_node_identity_hash : val;
}.

Record DirectMessage := {
  dm_id : Z; dm_sender_hash : string; dm_receiver_hash : string; dm_timestamp : float; dm_body : string;
  dm_lxmf_signature : option bytes; dm_read : bool;
}.
#[export] Instance dm_row_id : RowId DirectMessage := dm_id.

Record Conversation := {
  cv_peer_hash : string; cv_peer_name : option string; cv_last_message_time : float; cv_unread_count : Z;
}.

Record DiscoveredNode := {
  dn_hash : string; dn_node_name : string; dn_channel_count : Z; dn_last_seen : float; dn_channels_json : string;
  dn_channel_dests_json : option string; dn_bookmarked : bool;
}.

Record ClientPeer := {
  cp_hash : string; cp_display_name : option string; cp_status_text : option string; cp_last_seen : float;
  cp_bookmarked : bool;
}.

Record Bookmark := {
  bm_name : string; bm_destination_hash : string; bm_node_name : option string; bm_last_connected : float;
}.

Record ClientDB := {
  cdb_messages : gmap string CachedMessage;
  cdb_cursors : gmap string Z;
  cdb_channels : gmap string CachedChannel;
  cdb_unread : gmap string Z;
  cdb_identities : gmap string (option string * float);
  cdb_bookmarks : gmap string Bookmark;
  cdb_settings : gmap string string;
  cdb_nodes : gmap string DiscoveredNode;
  cdb_peers : gmap string ClientPeer;
  cdb_dms : list DirectMessage;
  cdb_conversations : gmap string Conversation;
  cdb_sealed_keys : gmap string (bytes * Z);
  cdb_tofu_keys : gmap string bytes;
}.

Definition set_cmessages f (d : ClientDB) : ClientDB := {|
  cdb_messages := f (cdb_messages d); cdb_cursors := cdb_cursors d; cdb_channels := cdb_channels d; cdb_unread := cdb_unread d;
  cdb_identities := cdb_identities d; cdb_bookmarks := cdb_bookmarks d; cdb_settings := cdb_settings d; cdb_nodes := cdb_nodes d;
  cdb_peers := cdb_peers d; cdb_dms := cdb_dms d; cdb_conversations := cdb_conversations d;
  cdb_sealed_keys := cdb_sealed_keys d; cdb_tofu_keys := cdb_tofu_keys d |}.
Definition set_ccursors f (d : ClientDB) : ClientDB := {|
  cdb_messages := cdb_messages d; cdb_cursors := f (cdb_cursors d); cdb_channels := cdb_channels d; cdb_unread := cdb_unread d;
  cdb_identities := cdb_identities d; cdb_bookmarks := cdb_bookmarks d; cdb_settings := cdb_settings d; cdb_nodes := cdb_nodes d;
  cdb_peers := cdb_peers d; cdb_dms := cdb_dms d; cdb_conversations := cdb_conversations d;
  cdb_sealed_keys := cdb_sealed_keys d; cdb_tofu_keys := cdb_tofu_keys d |}.
Definition set_cchannels f (d : ClientDB) : ClientDB := {|
  cdb_messages := cdb_messages d; cdb_cursors := cdb_cursors d; cdb_channels := f (cdb_channels d); cdb_unread := cdb_unread d;
  cdb_identities := cdb_identities d; cdb_bookmarks := cdb_bookmarks d; cdb_settings := cdb_settings d; cdb_nodes := cdb_nodes d;
  cdb_peers := cdb_peers d; cdb_dms := cdb_dms d; cdb_conversations := cdb_conversations d;
  cdb_sealed_keys := cdb_sealed_keys d; cdb_tofu_keys := cdb_tofu_keys d |}.
Definition set_cunread f (d : ClientDB) : ClientDB := {|
  cdb_messages := cdb_messages d; cdb_cursors := cdb_cursors d; cdb_channels := cdb_channels d; cdb_unread := f (cdb_unread d);
  cdb_identities := cdb_identities d; cdb_bookmarks := cdb_bookmarks d; cdb_settings := cdb_settings d; cdb_nodes := cdb_nodes d;
  cdb_peers := cdb_peers d; cdb_dms := cdb_dms d; cdb_conversations := cdb_conversations d;
  cdb_sealed_keys := cdb_sealed_keys d; cdb_tofu_keys := cdb_tofu_keys d |}.
Definition set_cidentities f (d : ClientDB) : ClientDB := {|
  cdb_messages := cdb_messages d; cdb_cursors := cdb_cursors d; cdb_channels := cdb_channels d; cdb_unread := cdb_unread d;
  cdb_identities := f (cdb_identities d); cdb_bookmarks := cdb_bookmarks d; cdb_settings := cdb_settings d; cdb_nodes := cdb_nodes d;
  cdb_peers := cdb_peers d; cdb_dms := cdb_dms d; cdb_conversations := cdb_conversations d;
  cdb_sealed_keys := cdb_sealed_keys d; cdb_tofu_keys := cdb_tofu_keys d |}.
Definition set_cbookmarks f (d : ClientDB) : ClientDB := {|
  cdb_messages := cdb_messages d; cdb_cursors := cdb_cursors d; cdb_channels := cdb_channels d; cdb_unread := cdb_unread d;
  cdb_identities := cdb_identities d; cdb_bookmarks := f (cdb_bookmarks d); cdb_settings := cdb_settings d; cdb_nodes := cdb_nodes d;
  cdb_peers := cdb_peers d; cdb_dms := cdb_dms d; cdb_conversations := cdb_conversations d;
  cdb_sealed_keys := cdb_sealed_keys d; cdb_tofu_keys := cdb_tofu_keys d |}.
Definition set_csettings f (d : ClientDB) : ClientDB := {|
  cdb_messages := cdb_messages d; cdb_cursors := cdb_cursors d; cdb_channels := cdb_channels d; cdb_unread := cdb_unread d;
  cdb_identities := cdb_identities d; cdb_bookmarks := cdb_bookmarks d; cdb_settings := f (cdb_settings d); cdb_nodes := cdb_nodes d;
  cdb_peers := cdb_peers d; cdb_dms := cdb_dms d; cdb_conversations := cdb_conversations d;
  cdb_sealed_keys := cdb_sealed_keys d; cdb_tofu_keys := cdb_tofu_keys d |}.
Definition set_cnodes f (d : ClientDB) : ClientDB := {|
  cdb_messages := cdb_messages d; cdb_cursors := cdb_cursors d; cdb_channels := cdb_channels d; cdb_unread := cdb_unread d;
  cdb_identities := cdb_identities d; cdb_bookmarks := cdb_bookmarks d; cdb_settings := cdb_settings d; cdb_nodes := f (cdb_nodes d);
  cdb_peers := cdb_peers d; cdb_dms := cdb_dms d; cdb_conversations := cdb_conversations d;
  cdb_sealed_keys := cdb_sealed_keys d; cdb_tofu_keys := cdb_tofu_keys d |}.
Definition set_cpeers f (d : ClientDB) : ClientDB := {|
  cdb_messages := cdb_messages d; cdb_cursors := cdb_cursors d; cdb_channels := cdb_channels d; cdb_unread := cdb_unread d;
  cdb_identities := cdb_identities d; cdb_bookmarks := cdb_bookmarks d; cdb_settings := cdb_settings d; cdb_nodes := cdb_nodes d;
  cdb_peers := f (cdb_peers d); cdb_dms := cdb_dms d; cdb_conversations := cdb_conversations d;
  cdb_sealed_keys := cdb_sealed_keys d; cdb_tofu_keys := cdb_tofu_keys d |}.
Definition set_cdms f g (d : ClientDB) : ClientDB := {|
  cdb_messages := cdb_messages d; cdb_cursors := cdb_cursors d; cdb_channels := cdb_channels d; cdb_unread := cdb_unread d;
  cdb_identities := cdb_identities d; cdb_bookmarks := cdb_bookmarks d; cdb_settings := cdb_settings d; cdb_nodes := cdb_nodes d;
  cdb_peers := cdb_peers d; cdb_dms := f (cdb_dms d); cdb_conversations := g (cdb_conversations d);
  cdb_sealed_keys := cdb_sealed_keys d; cdb_tofu_keys := cdb_tofu_keys d |}.
Definition set_csealed f (d : ClientDB) : ClientDB := {|
  cdb_messages := cdb_messages d; cdb_cursors := cdb_cursors d; cdb_channels := cdb_channels d; cdb_unread := cdb_unread d;
  cdb_identities := cdb_identities d; cdb_bookmarks := cdb_bookmarks d; cdb_settings := cdb_settings d; cdb_nodes := cdb_nodes d;
  cdb_peers := cdb_peers d; cdb_dms := cdb_dms d; cdb_conversations := cdb_conversations d;
  cdb_sealed_keys := f (cdb_sealed_keys d); cdb_tofu_keys := cdb_tofu_keys d |}.
Definition set_ctofu f (d : ClientDB) : ClientDB := {|
  cdb_messages := cdb_messages d; cdb_cursors := cdb_cursors d; cdb_channels := cdb_channels d; cdb_unread := cdb_unread d;
  cdb_identities := cdb_identities d; cdb_bookmarks := cdb_bookmarks d; cdb_settings := cdb_settings d; cdb_nodes := cdb_nodes d;
  cdb_peers := cdb_peers d; cdb_dms := cdb_dms d; cdb_conversations := cdb_conversations d;
  cdb_sealed_keys := cdb_sealed_keys d; cdb_tofu_keys := f (cdb_tofu_keys d) |}.

Definition empty_cdb : ClientDB := {|
  cdb_messages := ∅; cdb_cursors := ∅; cdb_channels := ∅; cdb_unread := ∅; cdb_identities := ∅; cdb_bookmarks := ∅;
  cdb_settings := ∅; cdb_nodes := ∅; cdb_peers := ∅; cdb_dms := []; cdb_conversations := ∅; cdb_sealed_keys := ∅;
  cdb_tofu_keys := ∅ |}.

(** [with db.transaction()]: commit on exit, roll back on an exception. *)
Definition transaction {A} (m : M ClientDB A) : M ClientDB A := atomic (λ s0 _, s0) m.

(** ** Messages *)

Module MessageStore.
Section store.
Context `{J : Json}.

Definition _serialize_reactions (value : val) : string :=
  match value with
  | VStr s => match json_loads s with Some (VDict _) => s | _ => "{}" end
  | VDict d => default "{}" (json_dumps (VDict d))
  | _ => "{}"
  end.

(** The text is unwrapped at most three times. *)
Fixpoint unwrap (fuel : nat) (cur : string) : dict string val :=
  match fuel with
  | O => []
  | S fuel =>
      match json_loads cur with
      | Some (VDict d) => d
      | Some (VStr s) => unwrap fuel s
      | _ => []
      end
  end.

Definition _deserialize_reactions (value : val) : dict string val :=
  match value with VDict d => d | VStr s => unwrap 3 s | _ => [] end.

Definition as_float (v : val) : option float :=
  match v with VFloat f => Some f | VInt z => Some (fz z) | _ => None end.

(** The row of a message; a missing value of a NOT NULL column is refused. *)
Definition row_of (now : float) (msg : dict string val) : res CachedMessage :=
  match mget "msg_hash" msg, mget "channel_id" msg, mget "seq" msg, as_float (mget "timestamp" msg), mget "type" msg with
  | VStr h, VStr ch, VInt seq, Some ts, VInt ty =>
      Ok {| cm_msg_hash := h; cm_channel_id := ch; cm_sender_hash := mget "sender_hash" msg; cm_seq := seq;
            cm_timestamp := ts; cm_type := ty; cm_body := mget "body" msg; cm_display_name := mget "display_name" msg;
            cm_reply_to := mget "reply_to" msg; cm_deleted := val_true (mget "deleted" msg);
            cm_pinned := val_true (mget "pinned" msg); cm_reactions := _serialize_reactions (mget "reactions" msg);
            cm_lxmf_signature := mget "lxmf_signature" msg; cm_received_at := now;
            cm_verified := val_true (mget "verified" msg); cm_edited := val_true (mget "edited" msg);
            cm_has_thread := val_true (mget "has_thread" msg); cm_encrypted_body := mget "encrypted_body" msg;
            cm_encryption_nonce := mget "encryption_nonce" msg; cm_encryption_epoch := mget "encryption_epoch" msg |}
  | _, _, _, _, _ => Raise (Exn IntegrityError "NOT NULL constraint failed")
  end.

(** Insert or replace, one message after the other. *)
Definition store (now : float) (messages : list (dict string val)) : M ClientDB unit :=
  mfold (λ _ msg,
    let! r := of_res (row_of now msg) in
    modify (set_cmessages (<[cm_msg_hash r := r]>))) tt messages.

Definition flag (b : bool) : val := VInt (if b then 1 else 0).

(** [dict(row)], with the reactions decoded. *)
Definition to_dict (r : CachedMessage) : dict string val :=
  [("msg_hash", VStr (cm_msg_hash r)); ("channel_id", VStr (cm_channel_id r)); ("sender_hash", cm_sender_hash r);
   ("seq", VInt (cm_seq r)); ("timestamp", VFloat (cm_timestamp r)); ("type", VInt (cm_type r)); ("body", cm_body r);
   ("display_name", cm_display_name r); ("reply_to", cm_reply_to r); ("deleted", flag (cm_deleted r));
   ("pinned", flag (cm_pinned r)); ("reactions", VDict (_deserialize_reactions (VStr (cm_reactions r))));
   ("lxmf_signature", cm_lxmf_signature r); ("received_at", VFloat (cm_received_at r)); ("verified", flag (cm_verified r));
   ("edited", flag (cm_edited r)); ("has_thread", flag (cm_has_thread r)); ("encrypted_body", cm_encrypted_body r);
   ("encryption_nonce", cm_encryption_nonce r); ("encryption_epoch", cm_encryption_epoch r)].

Definition get (channel_id : string) (limit : Z) (before_seq : option Z) (db : ClientDB) : list (dict string val) :=
  let rs := List.filter (λ r, bool_decide (cm_channel_id r = channel_id)
                              && match before_seq with Some b => cm_seq r <? b | None => true end) (rows (cdb_messages db)) in
  map to_dict (reverse (sql_limit limit (sort_by (λ a b, cm_seq b <=? cm_seq a) rs))).

Definition delete_channel (channel_id : string) : M ClientDB unit :=
  modify (set_cmessages (base.filter (λ p, cm_channel_id p.2 ≠ channel_id))).
End store.
End MessageStore.

(** ** Cursors, channels, keys *)

Module CursorStore.
Definition get (channel_id : string) (db : ClientDB) : Z := default 0 (cdb_cursors db !! channel_id).
Definition get_all (db : ClientDB) : dict string Z := map_to_list (cdb_cursors db).
Definition set (channel_id : string) (seq : Z) : M ClientDB unit := modify (set_ccursors (<[channel_id := seq]>)).
End CursorStore.

Module ChannelStore.
Definition get_default (k : string) (dflt : val) (ch : dict string val) : val := default dflt (dict_get k ch).

Definition row_of (ch : dict string val) : res CachedChannel :=
  match mget "id" ch, mget "name" ch, get_default "position" (VInt 0) ch with
  | VStr id, VStr name, VInt pos =>
      Ok {| cc_id := id; cc_name := name; cc_description := get_default "description" (VStr "") ch;
            cc_access_mode := get_default "access_mode" (VStr "public") ch; cc_category_id := mget "category_id" ch;
            cc_position := pos; cc_identity_hash := mget "identity_hash" ch;
            cc_latest_seq := get_default "latest_seq" (VInt 0) ch; cc_sealed := val_true (mget "sealed" ch);
            cc_node_identity_hash := mget "node_identity_hash" ch |}
  | _, _, _ => Raise (Exn IntegrityError "NOT NULL constraint failed")
  end.

Definition store (chs : list (dict string val)) : M ClientDB unit :=
  mfold (λ _ ch, let! r := of_res (row_of ch) in modify (set_cchannels (<[cc_id r := r]>))) tt chs.
Definition get_all (db : ClientDB) : list CachedChannel :=
  sort_by (λ a b, cc_position a <=? cc_position b) (rows (cdb_channels db)).

Definition get_unread (channel_id : string) (db : ClientDB) : Z := default 0 (cdb_unread db !! channel_id).
Definition set_unread (channel_id : string) (count : Z) : M ClientDB unit := modify (set_cunread (<[channel_id := count]>)).
Definition increment_unread (channel_id : string) : M ClientDB unit :=
  modify (set_cunread (λ m, <[channel_id := default 0 (m !! channel_id) + 1]> m)).
Definition reset_unread (channel_id : string) : M ClientDB unit := modify (set_cunread (<[channel_id := 0]>)).
End ChannelStore.

Module SealedKeyStore.
Definition upsert (channel_id : string) (key : bytes) (epoch : Z) : M ClientDB unit :=
  modify (set_csealed (<[channel_id := (key, epoch)]>)).
Definition get (channel_id : string) (db : ClientDB) : option (bytes * Z) := cdb_sealed_keys db !! channel_id.
Definition all_keys (db : ClientDB) : dict string (bytes * Z) := map_to_list (cdb_sealed_keys db).
Definition delete (channel_id : string) : M ClientDB unit := modify (set_csealed (delete channel_id)).
End SealedKeyStore.

Module TofuKeyStore.
Definition insert_if_absent (sender_hash : string) (public_key : bytes) : M ClientDB unit :=
  modify (set_ctofu (λ m, match m !! sender_hash with Some _ => m | None => <[sender_hash := public_key]> m end)).
Definition get (sender_hash : string) (db : ClientDB) : option bytes := cdb_tofu_keys db !! sender_hash.
Definition all_keys (db : ClientDB) : dict string bytes := map_to_list (cdb_tofu_keys db).
Definition delete (sender_hash : string) : M ClientDB unit := modify (set_ctofu (delete sender_hash)).
End TofuKeyStore.

(** ** Direct messages *)

Module DmStore.
Definition store (sender_hash receiver_hash : string) (timestamp : float) (body : string) (signature : option bytes)
    : M ClientDB unit :=
  modify (set_cdms (λ l, l ++ [{| dm_id := next_rowid l; dm_sender_hash := sender_hash; dm_receiver_hash := receiver_hash;
                                  dm_timestamp := timestamp; dm_body := body; dm_lxmf_signature := signature; dm_read := false |}]) id).

Definition of_peer (peer_hash : string) (d : DirectMessage) : bool :=
  bool_decide (dm_sender_hash d = peer_hash) || bool_decide (dm_receiver_hash d = peer_hash).

Definition get (peer_hash : string) (limit : Z) (before_time : option float) (db : ClientDB) : list DirectMessage :=
  sql_limit limit (sort_by (λ a b, fle (dm_timestamp b) (dm_timestamp a))
    (List.filter (λ d, of_peer peer_hash d && match before_time with Some t => flt (dm_timestamp d) t | None => true end) (cdb_dms db))).

Definition get_conversations (db : ClientDB) : list Conversation :=
  sort_by (λ a b, fle (cv_last_message_time b) (cv_last_message_time a)) (rows (cdb_conversations db)).

Definition update_conversation (peer_hash : string) (peer_name : option string) (timestamp : float) : M ClientDB unit :=
  modify (set_cdms id (λ m, <[peer_hash := {|
    cv_peer_hash := peer_hash; cv_peer_name := peer_name; cv_last_message_time := timestamp;
    cv_unread_count := match m !! peer_hash with Some c => cv_unread_count c | None => 0 end |}]> m)).

Definition with_unread (n : Z → Z) (c : Conversation) : Conversation := {|
  cv_peer_hash := cv_peer_hash c; cv_peer_name := cv_peer_name c; cv_last_message_time := cv_last_message_time c;
  cv_unread_count := n (cv_unread_count c) |}.
Definition mark_read (d : DirectMessage) : DirectMessage := {|
  dm_id := dm_id d; dm_sender_hash := dm_sender_hash d; dm_receiver_hash := dm_receiver_hash d; dm_timestamp := dm_timestamp d;
  dm_body := dm_body d; dm_lxmf_signature := dm_lxmf_signature d; dm_read := true |}.

Definition mark_conversation_read (peer_hash : string) : M ClientDB unit :=
  modify (set_cdms (map (λ d, if of_peer peer_hash d then mark_read d else d)) (alter (with_unread (λ _, 0)) peer_hash)).
Definition increment_unread (peer_hash : string) : M ClientDB unit :=
  modify (set_cdms id (alter (with_unread (λ n, n + 1)) peer_hash)).
End DmStore.

(** ** Discovery, identities, bookmarks, settings *)

Module DiscoveryStore.
(** The destinations of an update are kept when it brings none. *)
Definition store_node (hash name : string) (channel_count : Z) (last_seen : float) (channels_json channel_dests_json : string)
    : M ClientDB unit :=
  modify (set_cnodes (λ m, <[hash := {|
    dn_hash := hash; dn_node_name := name; dn_channel_count := channel_count; dn_last_seen := last_seen;
    dn_channels_json := channels_json;
    dn_channel_dests_json :=
      match m !! hash with
      | Some n => if str_true channel_dests_json then Some channel_dests_json else dn_channel_dests_json n
      | None => Some channel_dests_json
      end;
    dn_bookmarked := match m !! hash with Some n => dn_bookmarked n | None => false end |}]> m)).

Definition get_nodes (db : ClientDB) : list DiscoveredNode :=
  sort_by (λ a b, fle (dn_last_seen b) (dn_last_seen a)) (rows (cdb_nodes db)).

Definition node_bookmark (b : bool) (n : DiscoveredNode) : DiscoveredNode := {|
  dn_hash := dn_hash n; dn_node_name := dn_node_name n; dn_channel_count := dn_channel_count n; dn_last_seen := dn_last_seen n;
  dn_channels_json := dn_channels_json n; dn_channel_dests_json := dn_channel_dests_json n; dn_bookmarked := b |}.

Definition toggle_node_bookmark (hash : string) : M ClientDB bool :=
  let! db := get in
  match cdb_nodes db !! hash with
  | None => ret false
  | Some n => modify (set_cnodes (alter (node_bookmark (negb (dn_bookmarked n))) hash)) ;; ret (negb (dn_bookmarked n))
  end.

Definition store_peer (hash : string) (display_name status_text : option string) (last_seen : float) : M ClientDB unit :=
  modify (set_cpeers (λ m, <[hash := {|
    cp_hash := hash; cp_display_name := display_name; cp_status_text := status_text; cp_last_seen := last_seen;
    cp_bookmarked := match m !! hash with Some p => cp_bookmarked p | None => false end |}]> m)).

Definition get_peers (db : ClientDB) : list ClientPeer :=
  sort_by (λ a b, fle (cp_last_seen b) (cp_last_seen a)) (rows (cdb_peers db)).

Definition peer_bookmark (b : bool) (p : ClientPeer) : ClientPeer := {|
  cp_hash := cp_hash p; cp_display_name := cp_display_name p; cp_status_text := cp_status_text p;
  cp_last_seen := cp_last_seen p; cp_bookmarked := b |}.

Definition toggle_peer_bookmark (hash : string) : M ClientDB bool :=
  let! db := get in
  match cdb_peers db !! hash with
  | None => ret false
  | Some p => modify (set_cpeers (alter (peer_bookmark (negb (cp_bookmarked p))) hash)) ;; ret (negb (cp_bookmarked p))
  end.
End DiscoveryStore.

Module IdentityStore.
Definition upsert (now : float) (identity_hash : string) (display_name : option string) : M ClientDB unit :=
  modify (set_cidentities (<[identity_hash := (display_name, now)]>)).
Definition get (identity_hash : string) (db : ClientDB) : option (option string * float) := cdb_identities db !! identity_hash.
End IdentityStore.

Module BookmarkStore.
Definition save (now : float) (name destination_hash : string) (node_name : option string) : M ClientDB unit :=
  modify (set_cbookmarks (<[name := {| bm_name := name; bm_destination_hash := destination_hash; bm_node_name := node_name;
                                       bm_last_connected := now |}]>)).
Definition get (name : string) (db : ClientDB) : option Bookmark := cdb_bookmarks db !! name.
Definition get_all (db : ClientDB) : list Bookmark :=
  sort_by (λ a b, fle (bm_last_connected b) (bm_last_connected a)) (rows (cdb_bookmarks db)).
Definition delete (name : string) : M ClientDB bool :=
  let! db := Prelude.get in
  modify (set_cbookmarks (delete name)) ;;
  ret (bool_decide (is_Some (cdb_bookmarks db !! name))).
End BookmarkStore.

Module SettingsStore.
Definition get (key : string) (dflt : option string) (db : ClientDB) : option string :=
  match cdb_settings db !! key with Some v => Some v | None => dflt end.
Definition set (key value : string) : M ClientDB unit := modify (set_csettings (<[key := value]>)).
End SettingsStore.

(** ** A cached message survives being loaded and stored again *)

Section roundtrip.
Context `{J : Json} {JL : JsonLaws J}.
Import MessageStore.

Lemma unwrap_dumps fuel t : is_Some (json_dumps (VDict (unwrap fuel t))).
Proof using JL.
  revert t. induction fuel as [|fuel IH]; intros t; simpl; [apply (dumps_loads _ _ loads_empty)|].
  destruct (json_loads t) as [[]|] eqn:E; try apply (dumps_loads _ _ loads_empty); [apply IH|by apply (dumps_loads _ t)].
Qed.

Lemma reactions_roundtrip t :
  _deserialize_reactions (VStr (_serialize_reactions (VDict (_deserialize_reactions (VStr t))))) = _deserialize_reactions (VStr t).
Proof using JL.
  unfold _deserialize_reactions, _serialize_reactions. destruct (unwrap_dumps 3 t) as [t' Ht]. rewrite Ht.
  apply loads_dumps in Ht. generalize dependent (unwrap 3 t). intros d Ht. simpl. by rewrite Ht.
Qed.

(** The row that storing a loaded row makes. *)
Definition restored (now : float) (r : CachedMessage) : CachedMessage := {|
  cm_msg_hash := cm_msg_hash r; cm_channel_id := cm_channel_id r; cm_sender_hash := cm_sender_hash r; cm_seq := cm_seq r;
  cm_timestamp := cm_timestamp r; cm_type := cm_type r; cm_body := cm_body r; cm_display_name := cm_display_name r;
  cm_reply_to := cm_reply_to r; cm_deleted := cm_deleted r; cm_pinned := cm_pinned r;
  cm_reactions := _serialize_reactions (VDict (_deserialize_reactions (VStr (cm_reactions r))));
  cm_lxmf_signature := cm_lxmf_signature r; cm_received_at := now; cm_verified := cm_verified r; cm_edited := cm_edited r;
  cm_has_thread := cm_has_thread r; cm_encrypted_body := cm_encrypted_body r; cm_encryption_nonce := cm_encryption_nonce r;
  cm_encryption_epoch := cm_encryption_epoch r |}.

Lemma val_true_flag b : val_true (flag b) = b.
Proof using. by destruct b. Qed.

Lemma row_of_to_dict now r : row_of now (to_dict r) = Ok (restored now r).
Proof using.
  change (row_of now (to_dict r)) with (Ok {|
    cm_msg_hash := cm_msg_hash r; cm_channel_id := cm_channel_id r; cm_sender_hash := cm_sender_hash r; cm_seq := cm_seq r;
    cm_timestamp := cm_timestamp r; cm_type := cm_type r; cm_body := cm_body r; cm_display_name := cm_display_name r;
    cm_reply_to := cm_reply_to r; cm_deleted := val_true (flag (cm_deleted r)); cm_pinned := val_true (flag (cm_pinned r));
    cm_reactions := _serialize_reactions (VDict (_deserialize_reactions (VStr (cm_reactions r))));
    cm_lxmf_signature := cm_lxmf_signature r; cm_received_at := now; cm_verified := val_true (flag (cm_verified r));
    cm_edited := val_true (flag (cm_edited r)); cm_has_thread := val_true (flag (cm_has_thread r));
    cm_encrypted_body := cm_encrypted_body r; cm_encryption_nonce := cm_encryption_nonce r;
    cm_encryption_epoch := cm_encryption_epoch r |}).
  by rewrite !val_true_flag.
Qed.

(** A cached message can be loaded, and stored again, without changing:
    storing what [get] returned of a row puts the same row back, with every
    field as it was read, the reactions included, and only the time of
    reception new; no other row changes. *)
Theorem cached_row_stable now r db :
  ∃ r', store now [to_dict r] db = (Ok tt, set_cmessages (<[cm_msg_hash r := r']>) db)
  ∧ to_dict r' = dict_set "received_at" (VFloat now) (to_dict r).
Proof using JL.
  exists (restored now r). split.
  - unfold store. cbn [mfold]. unfold bind, of_res. by rewrite row_of_to_dict.
  - unfold to_dict at 1, restored. cbn [cm_reactions]. by rewrite reactions_roundtrip.
Qed.
End roundtrip.

(** ** Witnesses *)

Definition toy_json : Json := {|
  json_dumps v := match v with VDict [] => Some "{}" | _ => None end;
  json_loads t := if bool_decide (t = "{}") then Some (VDict []) else None |}.
Lemma toy_json_laws : JsonLaws toy_json.
Proof.
  split; [| |done].
  - intros v t. simpl. destruct v as [| | | | | | |[|]]; try done. by intros [= <-].
  - intros v t. simpl. case_bool_decide; [|done]. intros [= <-]. by eexists.
Qed.

Definition cached_row : CachedMessage := {|
  cm_msg_hash := "h"; cm_channel_id := "c"; cm_sender_hash := VStr "alice"; cm_seq := 1; cm_timestamp := fz 5; cm_type := MSG_TEXT;
  cm_body := VStr "hello"; cm_display_name := VNone; cm_reply_to := VNone; cm_deleted := false; cm_pinned := true;
  cm_reactions := "{}"; cm_lxmf_signature := VNone; cm_received_at := fz 6; cm_verified := true; cm_edited := false;
  cm_has_thread := false; cm_encrypted_body := VNone; cm_encryption_nonce := VNone; cm_encryption_epoch := VNone |}.

Lemma cached_row_stable_witness :
  ∃ r', @MessageStore.store toy_json (fz 9) [@MessageStore.to_dict toy_json cached_row]
          (set_cmessages (λ _, {[ "h" := cached_row ]}) empty_cdb)
        = (Ok tt, set_cmessages (<["h" := r']>) (set_cmessages (λ _, {[ "h" := cached_row ]}) empty_cdb))
  ∧ dict_get "pinned" (@MessageStore.to_dict toy_json r') = Some (VInt 1).
Proof.
  destruct (@cached_row_stable toy_json toy_json_laws (fz 9) cached_row
    (set_cmessages (λ _, {[ "h" := cached_row ]}) empty_cdb)) as (r' & E & H).
  exists r'. split; [exact E|]. rewrite H. reflexivity.
Defined.
