(* ===== verification/Client.v ===== *)
(** * The client's sync engine ([hokora_tui/sync_engine.py], [hokora_tui/sync],
      [hokora_tui/security/sealed_render.py])

    The state the client's subsystems share, the links to a node's channels,
    the requests it sends over them, and what it makes of the answers:
    signatures against pinned keys, cursors, sealed keys and sessions.  What
    RNS knows at the time of a call ([Net]), and the random nonces, are
    arguments; a packet sent over a link is recorded in [c_sent]. *)

From S2P Require Import Prelude Constants Models Queries Permissions RateLimit Ban Sealed Sequencer Message Ingest Wire Verification InviteCodes Epoch FedAuth ClientDb.

(** ** Shared state *)

(** The connections part of [SyncState], with the links of
    [ChannelLinkManager] and those that RNS reports active. *)
Record Conn := {
  cn_channel_identities : dict string bytes;     (* public keys *)
  cn_channel_dest_hashes : dict string bytes;
  cn_pending_pubkeys : dict string bytes;
  cn_pending_connects : dict string bytes;
  cn_pending_redeems : dict string string;
  cn_links : dict string nat;
  cn_active : gset nat;
  cn_next : nat;                                 (* the next new link *)
}.
Definition set_channel_identities f (c : Conn) : Conn := {|
  cn_channel_identities := f (cn_channel_identities c); cn_channel_dest_hashes := cn_channel_dest_hashes c;
  cn_pending_pubkeys := cn_pending_pubkeys c; cn_pending_connects := cn_pending_connects c;
  cn_pending_redeems := cn_pending_redeems c; cn_links := cn_links c; cn_active := cn_active c; cn_next := cn_next c |}.
Definition set_channel_dest_hashes f (c : Conn) : Conn := {|
  cn_channel_identities := cn_channel_identities c; cn_channel_dest_hashes := f (cn_channel_dest_hashes c);
  cn_pending_pubkeys := cn_pending_pubkeys c; cn_pending_connects := cn_pending_connects c;
  cn_pending_redeems := cn_pending_redeems c; cn_links := cn_links c; cn_active := cn_active c; cn_next := cn_next c |}.
Definition set_pending_pubkeys f (c : Conn) : Conn := {|
  cn_channel_identities := cn_channel_identities c; cn_channel_dest_hashes := cn_channel_dest_hashes c;
  cn_pending_pubkeys := f (cn_pending_pubkeys c); cn_pending_connects := cn_pending_connects c;
  cn_pending_redeems := cn_pending_redeems c; cn_links := cn_links c; cn_active := cn_active c; cn_next := cn_next c |}.
Definition set_pending_connects f (c : Conn) : Conn := {|
  cn_channel_identities := cn_channel_identities c; cn_channel_dest_hashes := cn_channel_dest_hashes c;
  cn_pending_pubkeys := cn_pending_pubkeys c; cn_pending_connects := f (cn_pending_connects c);
  cn_pending_redeems := cn_pending_redeems c; cn_links := cn_links c; cn_active := cn_active c; cn_next := cn_next c |}.
Definition set_pending_redeems f (c : Conn) : Conn := {|
  cn_channel_identities := cn_channel_identities c; cn_channel_dest_hashes := cn_channel_dest_hashes c;
  cn_pending_pubkeys := cn_pending_pubkeys c; cn_pending_connects := cn_pending_connects c;
  cn_pending_redeems := f (cn_pending_redeems c); cn_links := cn_links c; cn_active := cn_active c; cn_next := cn_next c |}.
Definition set_links f g (c : Conn) : Conn := {|
  cn_channel_identities := cn_channel_identities c; cn_channel_dest_hashes := cn_channel_dest_hashes c;
  cn_pending_pubkeys := cn_pending_pubkeys c; cn_pending_connects := cn_pending_connects c;
  cn_pending_redeems := cn_pending_redeems c; cn_links := f (cn_links c); cn_active := g (cn_active c); cn_next := cn_next c |}.
(** A new link, not yet active, for a channel. *)
Definition open_link (channel_id : string) (c : Conn) : Conn := {|
  cn_channel_identities := cn_channel_identities c; cn_channel_dest_hashes := cn_channel_dest_hashes c;
  cn_pending_pubkeys := cn_pending_pubkeys c; cn_pending_connects := cn_pending_connects c;
  cn_pending_redeems := cn_pending_redeems c; cn_links := dict_set channel_id (cn_next c) (cn_links c);
  cn_active := cn_active c; cn_next := S (cn_next c) |}.

Record CdspState := {
  cd_sync_profile : val; cd_session_id : val; cd_resume_token : option bytes; cd_deferred_count : val;
}.

Record Client := {
  c_conn : Conn;
  c_cursors : dict string Z;
  c_pending_nonces : dict bytes float;
  c_last_nonce_cleanup : float;
  c_seq_warnings : dict string (list string);
  c_identity_keys : dict string bytes;
  c_tofu_warned : list string;
  c_cdsp : CdspState;
  c_display_name : option string;
  c_db : ClientDB;
  c_sent : list (nat * bytes);
}.
Definition c_set_conn f (c : Client) : Client := {|
  c_conn := f (c_conn c); c_cursors := c_cursors c; c_pending_nonces := c_pending_nonces c;
  c_last_nonce_cleanup := c_last_nonce_cleanup c; c_seq_warnings := c_seq_warnings c; c_identity_keys := c_identity_keys c;
  c_tofu_warned := c_tofu_warned c; c_cdsp := c_cdsp c; c_display_name := c_display_name c; c_db := c_db c; c_sent := c_sent c |}.
Definition c_set_cursors f (c : Client) : Client := {|
  c_conn := c_conn c; c_cursors := f (c_cursors c); c_pending_nonces := c_pending_nonces c;
  c_last_nonce_cleanup := c_last_nonce_cleanup c; c_seq_warnings := c_seq_warnings c; c_identity_keys := c_identity_keys c;
  c_tofu_warned := c_tofu_warned c; c_cdsp := c_cdsp c; c_display_name := c_display_name c; c_db := c_db c; c_sent := c_sent c |}.
Definition c_set_nonces f (c : Client) : Client := {|
  c_conn := c_conn c; c_cursors := c_cursors c; c_pending_nonces := f (c_pending_nonces c);
  c_last_nonce_cleanup := c_last_nonce_cleanup c; c_seq_warnings := c_seq_warnings c; c_identity_keys := c_identity_keys c;
  c_tofu_warned := c_tofu_warned c; c_cdsp := c_cdsp c; c_display_name := c_display_name c; c_db := c_db c; c_sent := c_sent c |}.
Definition c_set_last_cleanup t (c : Client) : Client := {|
  c_conn := c_conn c; c_cursors := c_cursors c; c_pending_nonces := c_pending_nonces c;
  c_last_nonce_cleanup := t; c_seq_warnings := c_seq_warnings c; c_identity_keys := c_identity_keys c;
  c_tofu_warned := c_tofu_warned c; c_cdsp := c_cdsp c; c_display_name := c_display_name c; c_db := c_db c; c_sent := c_sent c |}.
Definition c_set_warnings f (c : Client) : Client := {|
  c_conn := c_conn c; c_cursors := c_cursors c; c_pending_nonces := c_pending_nonces c;
  c_last_nonce_cleanup := c_last_nonce_cleanup c; c_seq_warnings := f (c_seq_warnings c); c_identity_keys := c_identity_keys c;
  c_tofu_warned := c_tofu_warned c; c_cdsp := c_cdsp c; c_display_name := c_display_name c; c_db := c_db c; c_sent := c_sent c |}.
Definition c_set_keys f (c : Client) : Client := {|
  c_conn := c_conn c; c_cursors := c_cursors c; c_pending_nonces := c_pending_nonces c;
  c_last_nonce_cleanup := c_last_nonce_cleanup c; c_seq_warnings := c_seq_warnings c; c_identity_keys := f (c_identity_keys c);
  c_tofu_warned := c_tofu_warned c; c_cdsp := c_cdsp c; c_display_name := c_display_name c; c_db := c_db c; c_sent := c_sent c |}.
Definition c_set_warned f (c : Client) : Client := {|
  c_conn := c_conn c; c_cursors := c_cursors c; c_pending_nonces := c_pending_nonces c;
  c_last_nonce_cleanup := c_last_nonce_cleanup c; c_seq_warnings := c_seq_warnings c; c_identity_keys := c_identity_keys c;
  c_tofu_warned := f (c_tofu_warned c); c_cdsp := c_cdsp c; c_display_name := c_display_name c; c_db := c_db c; c_sent := c_sent c |}.
Definition c_set_cdsp f (c : Client) : Client := {|
  c_conn := c_conn c; c_cursors := c_cursors c; c_pending_nonces := c_pending_nonces c;
  c_last_nonce_cleanup := c_last_nonce_cleanup c; c_seq_warnings := c_seq_warnings c; c_identity_keys := c_identity_keys c;
  c_tofu_warned := c_tofu_warned c; c_cdsp := f (c_cdsp c); c_display_name := c_display_name c; c_db := c_db c; c_sent := c_sent c |}.
Definition c_set_db d (c : Client) : Client := {|
  c_conn := c_conn c; c_cursors := c_cursors c; c_pending_nonces := c_pending_nonces c;
  c_last_nonce_cleanup := c_last_nonce_cleanup c; c_seq_warnings := c_seq_warnings c; c_identity_keys := c_identity_keys c;
  c_tofu_warned := c_tofu_warned c; c_cdsp := c_cdsp c; c_display_name := c_display_name c; c_db := d; c_sent := c_sent c |}.
Definition c_send p (c : Client) : Client := {|
  c_conn := c_conn c; c_cursors := c_cursors c; c_pending_nonces := c_pending_nonces c;
  c_last_nonce_cleanup := c_last_nonce_cleanup c; c_seq_warnings := c_seq_warnings c; c_identity_keys := c_identity_keys c;
  c_tofu_warned := c_tofu_warned c; c_cdsp := c_cdsp c; c_display_name := c_display_name c; c_db := c_db c; c_sent := c_sent c ++ [p] |}.

Definition cdb_op {A} (m : M ClientDB A) : M Client A := lift c_db c_set_db m.

Definition _NONCE_CLEANUP_INTERVAL : Z := 30.
Definition _NONCE_MAX_AGE : Z := 60.

Definition cleanup_stale_nonces (now : float) : M Client (list bytes) :=
  let! c := get in
  if flt (now - c_last_nonce_cleanup c)%F (fz _NONCE_CLEANUP_INTERVAL) then ret []
  else
    modify (c_set_last_cleanup now) ;;
    let stale := map fst (List.filter (λ p, flt (fz _NONCE_MAX_AGE) (now - p.2)%F) (c_pending_nonces c)) in
    modify (c_set_nonces (List.filter (λ p, negb (flt (fz _NONCE_MAX_AGE) (now - p.2)%F)))) ;;
    ret stale.

(** ** Links *)

Definition get_link (channel_id : string) (c : Client) : option nat := dict_get channel_id (cn_links (c_conn c)).
Definition is_active (l : nat) (c : Client) : bool := bool_decide (l ∈ cn_active (c_conn c)).
Definition is_connected (channel_id : string) (c : Client) : bool :=
  match get_link channel_id c with Some l => is_active l c | None => false end.
Definition find_active_link (c : Client) : option nat :=
  List.find (λ l, is_active l c) (map snd (cn_links (c_conn c))).
Definition any_active (c : Client) : bool := bool_decide (is_Some (find_active_link c)).
Definition link_count (c : Client) : Z := zlen (cn_links (c_conn c)).
(** The channel's link when it is active. *)
Definition active_link (channel_id : string) (c : Client) : option nat :=
  match get_link channel_id c with Some l => if is_active l c then Some l else None | None => None end.

(** What RNS knows: identities by destination hash, paths, and whether the
    process uses another one's instance. *)
Record Net := {
  net_recall : bytes → option bytes; net_has_path : bytes → bool; net_shared : bool;
  net_load_key : bytes → bool;                   (* is a public key well formed *)
}.

Section links.
Context (net : Net).

Definition connect_channel (destination_hash : bytes) (channel_id : string) : M Client unit :=
  modify (c_set_conn (set_channel_dest_hashes (dict_set channel_id destination_hash))) ;;
  let! c := get in
  let known := match dict_get channel_id (cn_channel_identities (c_conn c)) with
               | Some i => Some i
               | None => net_recall net destination_hash
               end in
  let! dest_identity :=
    match known with
    | Some i => ret (Some i)
    | None =>
        let dest_hex := hexrep destination_hash in
        let pk := dict_get dest_hex (cn_pending_pubkeys (c_conn c)) in
        modify (c_set_conn (set_pending_pubkeys (dict_del dest_hex))) ;;
        match pk with
        | Some pk =>
            if list_true pk && net_load_key net pk
            then modify (c_set_conn (set_channel_identities (dict_set channel_id pk))) ;; ret (Some pk)
            else ret None
        | None => ret None
        end
    end in
  match dest_identity with
  | None => modify (c_set_conn (set_pending_connects (dict_set channel_id destination_hash)))
  | Some _ =>
      if negb (net_has_path net destination_hash) && negb (net_shared net)
      then modify (c_set_conn (set_pending_connects (dict_set channel_id destination_hash)))
      else
        modify (c_set_conn (open_link channel_id)) ;;
        modify (c_set_conn (set_pending_connects (dict_del channel_id)))
  end.

(** [ChannelLinkManager.register_channel] *)
Definition register_on_link (channel_id : string) (destination_hash identity_public_key : option bytes) : M Client unit :=
  when (olist_true destination_hash)
    (let d := default [] destination_hash in
     modify (c_set_conn (set_channel_dest_hashes (dict_set channel_id d))) ;;
     match net_recall net d with
     | Some _ => ret tt
     | None => when (olist_true identity_public_key && net_load_key net (default [] identity_public_key))
                 (modify (c_set_conn (set_channel_identities (dict_set channel_id (default [] identity_public_key)))))
     end) ;;
  let! c := get in
  if dict_has channel_id (cn_links (c_conn c)) then ret tt
  else match find_active_link c with
       | None => ret tt
       | Some l => modify (c_set_conn (set_links (dict_set channel_id l) id))
       end.

Definition retry_pending_connects : M Client unit :=
  let! c := get in
  let! resolved := mfold (λ resolved p,
    let! c := get in
    if dict_has p.1 (cn_links (c_conn c)) then ret (resolved ++ [p.1])
    else if dict_has p.1 (cn_channel_identities (c_conn c)) || bool_decide (is_Some (net_recall net p.2))
    then connect_channel p.2 p.1 ;; ret (resolved ++ [p.1])
    else ret resolved) [] (cn_pending_connects (c_conn c)) in
  mfold (λ _ ch, modify (c_set_conn (set_pending_connects (dict_del ch)))) tt resolved.

Definition resolve_channel_identity (link_identity : option bytes) (channel_id : string) (c : Client) : option bytes :=
  let own := match dict_get channel_id (cn_channel_dest_hashes (c_conn c)) with
             | Some d => if list_true d then net_recall net d else None
             | None => None
             end in
  match own with
  | Some i => Some i
  | None =>
      match head (omap (λ p, net_recall net p.2) (cn_channel_dest_hashes (c_conn c))) with
      | Some i => Some i
      | None => match dict_get channel_id (cn_channel_identities (c_conn c)) with
                | Some i => Some i
                | None => link_identity
                end
      end
  end.
End links.

(** A closed link is no longer active. *)
Definition disconnect_link (channel_id : string) : M Client unit :=
  let! c := get in
  match get_link channel_id c with
  | None => ret tt
  | Some l => modify (c_set_conn (set_links (dict_del channel_id) (λ a, a ∖ {[l]})))
  end.
Definition disconnect_links : M Client unit :=
  modify (c_set_conn (λ n, set_links (λ _, []) (λ a, a ∖ list_to_set (map snd (cn_links n))) n)) ;;
  modify (c_set_conn (set_pending_connects (λ _, []))).

(** ** Requests *)

Section requests.
Context `{HP : Msgpack}.

Definition send_request (now : float) (nonce : bytes) (link : nat) (action : Z) (payload : option (dict string val))
    : M Client unit :=
  modify (c_set_nonces (dict_set nonce now)) ;;
  let! request := of_res (encode_sync_request action nonce payload) in
  modify (c_send (link, request)).

Definition over (link : option nat) (k : nat → M Client unit) : M Client unit :=
  match link with Some l => k l | None => ret tt end.

(** The client keeps ciphertext and decrypts when it renders. *)
Definition history_payload (channel_id : string) (since_seq limit : Z) : dict string val :=
  [("channel_id", VStr channel_id); ("since_seq", VInt since_seq); ("limit", VInt limit);
   ("supports_sealed_at_rest", VBool true)].

Definition sync_history (now : float) (nonce : bytes) (channel_id : string) (since_seq limit : Z) : M Client unit :=
  let! c := get in
  over (active_link channel_id c) (λ l,
    cleanup_stale_nonces now ;;
    send_request now nonce l SYNC_HISTORY (Some (history_payload channel_id since_seq limit))).

Definition request_node_meta (now : float) (nonce : bytes) (channel_id : string) : M Client unit :=
  let! c := get in
  over (active_link channel_id c) (λ l, send_request now nonce l SYNC_NODE_META None).

Definition subscribe_live (now : float) (nonce : bytes) (channel_id : string) : M Client unit :=
  let! c := get in
  over (active_link channel_id c) (λ l,
    send_request now nonce l SYNC_SUBSCRIBE_LIVE
      (Some [("channel_id", VStr channel_id); ("supports_sealed_at_rest", VBool true)])).

Definition request_sealed_key (now : float) (nonce : bytes) (channel_id : string) : M Client unit :=
  let! c := get in
  over (active_link channel_id c) (λ l,
    send_request now nonce l SYNC_REQUEST_SEALED_KEY (Some [("channel_id", VStr channel_id)])).

Definition unsubscribe (now : float) (nonce : bytes) (channel_id : option string) : M Client unit :=
  let! c := get in
  over (if ostr_true channel_id then active_link (or_empty channel_id) c else find_active_link c) (λ l,
    send_request now nonce l SYNC_UNSUBSCRIBE
      (if ostr_true channel_id then Some [("channel_id", val_of_ostr channel_id)] else None)).

Definition search (now : float) (nonce : bytes) (channel_id query : string) (limit : Z) : M Client unit :=
  let! c := get in
  over (active_link channel_id c) (λ l,
    cleanup_stale_nonces now ;;
    send_request now nonce l SYNC_SEARCH
      (Some [("channel_id", VStr channel_id); ("query", VStr query); ("limit", VInt limit)])).

Definition get_thread (now : float) (nonce : bytes) (root_hash : string) (limit : Z) : M Client unit :=
  let! c := get in
  over (find_active_link c) (λ l,
    cleanup_stale_nonces now ;;
    send_request now nonce l SYNC_THREAD (Some [("root_hash", VStr root_hash); ("limit", VInt limit)])).

Definition get_pins (now : float) (nonce : bytes) (channel_id : string) : M Client unit :=
  let! c := get in
  over (active_link channel_id c) (λ l,
    cleanup_stale_nonces now ;;
    send_request now nonce l SYNC_GET_PINS (Some [("channel_id", VStr channel_id)])).

Definition get_member_list (now : float) (nonce : bytes) (channel_id : string) (limit offset : Z) : M Client unit :=
  let! c := get in
  over (active_link channel_id c) (λ l,
    cleanup_stale_nonces now ;;
    send_request now nonce l SYNC_GET_MEMBER_LIST
      (Some [("channel_id", VStr channel_id); ("limit", VInt limit); ("offset", VInt offset)])).

Definition create_invite (now : float) (nonce : bytes) (channel_id : string) (max_uses expiry_hours : Z) : M Client unit :=
  let! c := get in
  over (find_active_link c) (λ l,
    send_request now nonce l SYNC_CREATE_INVITE
      (Some [("channel_id", VStr channel_id); ("max_uses", VInt max_uses); ("expiry_hours", VInt expiry_hours)])).

Definition list_invites (now : float) (nonce : bytes) (channel_id : option string) : M Client unit :=
  let! c := get in
  over (find_active_link c) (λ l,
    send_request now nonce l SYNC_LIST_INVITES (Some [("channel_id", val_of_ostr channel_id)])).

Definition redeem_invite (now : float) (nonce : bytes) (channel_id token : string) : M Client unit :=
  let! c := get in
  over (active_link channel_id c) (λ l, send_request now nonce l SYNC_REDEEM_INVITE (Some [("token", VStr token)])).

(** ** Sessions *)

(** [lxmf_source] is the client's own LXMF destination, when it has one. *)
Definition init_session (now : float) (nonce : bytes) (lxmf_source : option string) (channel_id : string) : M Client unit :=
  let! c := get in
  over (active_link channel_id c) (λ l,
    send_request now nonce l SYNC_CDSP_SESSION_INIT
      (Some ([("cdsp_version", VInt CDSP_VERSION); ("sync_profile", cd_sync_profile (c_cdsp c));
              ("lxmf_destination", val_of_ostr lxmf_source)]
             ++ (if olist_true (cd_resume_token (c_cdsp c))
                 then [("resume_token", VBytes (default [] (cd_resume_token (c_cdsp c))))] else [])))).

Definition set_profile (p : val) : M Client unit :=
  modify (c_set_cdsp (λ d, {| cd_sync_profile := p; cd_session_id := cd_session_id d; cd_resume_token := cd_resume_token d;
                              cd_deferred_count := cd_deferred_count d |})).

Definition update_profile (now : float) (nonce : bytes) (channel_id : string) (new_profile : Z) : M Client unit :=
  let! c := get in
  over (active_link channel_id c) (λ l,
    if negb (val_true (cd_session_id (c_cdsp c))) then ret tt
    else
      send_request now nonce l SYNC_CDSP_PROFILE_UPDATE
        (Some [("session_id", cd_session_id (c_cdsp c)); ("sync_profile", VInt new_profile)]) ;;
      set_profile (VInt new_profile)).

(** [nonce] draws the nonce of each channel's request. *)
Definition update_profile_all (now : float) (nonce : string → bytes) (new_profile : Z) : M Client unit :=
  set_profile (VInt new_profile) ;;
  let! c := get in
  mfold (λ _ p, update_profile now (nonce p.1) p.1 new_profile) tt (cn_links (c_conn c)).
End requests.

(** The items a resumed session had queued are returned for replay. *)
Definition handle_session_ack (data : dict string val) : M Client (list val) :=
  modify (c_set_cdsp (λ d, {|
    cd_session_id := mget "session_id" data;
    cd_resume_token := match mget "resume_token" data with VBytes t => Some t | _ => cd_resume_token d end;
    cd_deferred_count := default (VInt 0) (dict_get "deferred_count" data);
    cd_sync_profile := default (VInt CDSP_PROFILE_FULL) (dict_get "accepted_profile" data) |})) ;;
  ret (match mget "flushed_items" data with VList l => l | _ => [] end).

Definition handle_profile_ack (data : dict string val) : M Client unit :=
  modify (c_set_cdsp (λ d, {|
    cd_session_id := cd_session_id d; cd_resume_token := cd_resume_token d;
    cd_deferred_count := default (VInt 0) (dict_get "deferred_count" data);
    cd_sync_profile := default (cd_sync_profile d) (dict_get "accepted_profile" data) |})).

(** ** Signatures and pinned keys *)

Section verification.
Context `{HE : Ed25519}.

(** [_on_tofu_conflict]: one warning per sender and session. *)
Definition note_tofu_warning (sender_hash : string) : M Client bool :=
  let! c := get in
  if bool_decide (sender_hash ∈ c_tofu_warned c) then ret false
  else modify (c_set_warned (λ l, l ++ [sender_hash])) ;; ret true.

(** [_persist_tofu_pin] *)
Definition persist_tofu_pin (sender_hash : string) (public_key : bytes) : M Client unit :=
  cdb_op (TofuKeyStore.insert_if_absent sender_hash public_key).

(** [None]: no opinion.  Signature material that is not of the type the node
    encodes does not verify. *)
Definition verify_message_signature (msg : dict string val) : M Client (option bool) :=
  let sig := mget "lxmf_signature" msg in
  let sender := mget "sender_hash" msg in
  let pub_key := mget "sender_public_key" msg in
  let signed_part := mget "lxmf_signed_part" msg in
  if negb (val_true sig && val_true pub_key && val_true signed_part && val_true sender) then ret None
  else
    match sender, pub_key, signed_part, sig with
    | VStr sender, VBytes pub_key, VBytes signed_part, VBytes sig =>
        let! c := get in
        let cached := match dict_get sender (c_identity_keys c) with
                      | Some k => if list_true k then Some k else None
                      | None => None
                      end in
        if match cached with Some k => negb (bool_decide (k = pub_key)) | None => false end
        then note_tofu_warning sender ;; ret (Some false)
        else
          let verified := VerificationService.verify_ed25519_signature (Some pub_key) signed_part sig in
          when verified
            (modify (c_set_keys (dict_set sender pub_key)) ;;
             when (negb (bool_decide (is_Some cached))) (catch (persist_tofu_pin sender pub_key) (λ _, ret tt))) ;;
          ret (Some verified)
    | _, _, _, _ => ret (Some false)
    end.

(** [forget_identity_key], and the command's part in the store. *)
Definition forget_identity_key (sender_hash : string) : M Client bool :=
  let! c := get in
  modify (c_set_warned (List.filter (λ s, negb (bool_decide (s = sender_hash))))) ;;
  modify (c_set_keys (dict_del sender_hash)) ;;
  ret (dict_has sender_hash (c_identity_keys c)).

Definition is_sender_hash (l : chars) : bool :=
  (zlen l =? IDENTITY_HASH_HEX_LENGTH) && forallb (λ a, bool_decide (is_Some (hex_value a))) l.

Definition lower_char (c : Ascii.ascii) : Ascii.ascii :=
  let n := Ascii.nat_of_ascii c in if (65 <=? n)%nat && (n <=? 90)%nat then Ascii.ascii_of_nat (n + 32) else c.

(** [/forget-key]: true when a pin was removed. *)
Definition forget_key (args : chars) : M Client (option bool) :=
  let sender := map lower_char (strip args) in
  if negb (is_sender_hash sender) then ret None
  else
    let s := string_of sender in
    let! c := get in
    let stored := bool_decide (is_Some (TofuKeyStore.get s (c_db c))) in
    cdb_op (TofuKeyStore.delete s) ;;
    let! removed := forget_identity_key s in
    ret (Some (removed || stored)).

(** [cache_identity_key]: first write wins. *)
Definition cache_identity_key (identity_hash : string) (public_key : bytes) : M Client unit :=
  modify (c_set_keys (λ d, if dict_has identity_hash d then d else dict_set identity_hash public_key d)).

(** ** History *)

(** The dictionaries of a list. *)
Definition dicts_of (v : val) : res (list (dict string val)) :=
  match v with
  | VList l => match mapM (λ x, match x with VDict d => Some d | _ => None end) l with
               | Some ds => Ok ds
               | None => Raise (Exn AttributeError "get")
               end
  | _ => Raise (Exn TypeError "not iterable")
  end.

(** [m.get("seq", 0)]; nothing else can be compared. *)
Definition seq_of (m : dict string val) : option Z :=
  match dict_get "seq" m with None => Some 0 | Some (VInt z) => Some z | Some _ => None end.

(** One step of the integrity check: the running cursor and the warnings. *)
Definition check_seq (st : Z * list string) (seq : Z) : Z * list string :=
  let (cur, ws) := st in
  (if negb (seq =? 0) && (cur <? seq) then seq else cur,
   if negb (seq =? 0) && (0 <? cur)
   then match (VerificationService.check_sequence_integrity cur seq).2 with Some w => ws ++ [w] | None => ws end
   else ws).

Definition mark_verified (msgs : list (dict string val)) : M Client (list (dict string val)) :=
  mfold (λ acc msg,
    let! verified := verify_message_signature msg in
    ret (acc ++ [dict_set "verified" (VBool (bool_decide (verified = Some true))) msg])) [] msgs.

(** What the message callback is given. *)
Definition handle_history (data : dict string val)
    : M Client (option (string * list (dict string val) * Z)) :=
  let ch := get_str "channel_id" None data in
  if negb (ostr_true ch) then ret None
  else
    let ch := or_empty ch in
    let! messages := of_res (match dict_get "messages" data with None => Ok [] | Some v => dicts_of v end) in
    let! messages := mark_verified messages in
    if negb (list_true messages) then let! c := get in ret (Some (ch, messages, default 0 (dict_get ch (c_cursors c))))
    else
      match mapM seq_of messages with
      | None => raise TypeError "'<' not supported between instances of 'NoneType' and 'int'"
      | Some seqs =>
          let! c := get in
          let cursor := default 0 (dict_get ch (c_cursors c)) in
          let ws := (foldl check_seq (cursor, []) (sort_by Z.leb seqs)).2 in
          when (list_true ws)
            (modify (c_set_warnings (λ d, dict_set ch (default [] (dict_get ch d) ++ ws) d))) ;;
          let latest := foldl Z.max cursor seqs in
          modify (c_set_cursors (dict_set ch latest)) ;;
          ret (Some (ch, messages, latest))
      end.

Definition meta_channel (ch : dict string val) : M Client unit :=
  when (val_true (mget "id" ch) && val_true (mget "destination_hash" ch))
    (match mget "id" ch, mget "destination_hash" ch with
     | VStr id, VStr h =>
         match fromhex (chars_of h) with
         | Some d => modify (c_set_conn (set_channel_dest_hashes (dict_set id d)))
         | None => raise ValueError "non-hexadecimal number found in fromhex() arg"
         end
     | _, _ => raise TypeError "fromhex() argument must be str"
     end).

Definition handle_node_meta (data : dict string val) : M Client unit :=
  let! chs := of_res (match dict_get "channels" data with None => Ok [] | Some v => dicts_of v end) in
  mfold (λ _, meta_channel) tt chs.
End verification.

(** ** Sealed channels *)

Section sealed.
(** Decryption with the client's identity, when it has one. *)
Context (decrypt : option (bytes → option bytes)).

Definition _handle_sealed_key_response (data : dict string val) : M Client unit :=
  match get_str "channel_id" None data, mget "epoch" data, mget "encrypted_key_blob" data, decrypt with
  | Some ch, VInt epoch, VBytes blob, Some dec =>
      if negb (str_true ch && list_true blob) then ret tt
      else
        match dec blob with
        | None => ret tt
        | Some key => if negb (zlen key =? 32) then ret tt
                      else catch (cdb_op (SealedKeyStore.upsert ch key epoch)) (λ _, ret tt)
        end
  | _, _, _, _ => ret tt
  end.
End sealed.

Definition DECRYPT_FAILED_MARKER : string := "[encrypted - key unavailable]".

Definition body_for_render `{A : Aead} (msg : dict string val) (db : ClientDB) : string :=
  let body := match mget "body" msg with VStr s => s | _ => "" end in
  if str_true body then body
  else
    match mget "encrypted_body" msg, mget "encryption_nonce" msg with
    | VBytes enc, VBytes nonce =>
        if negb (list_true enc && list_true nonce) then ""
        else
          let ch := or_empty (get_str "channel_id" None msg) in
          if negb (str_true ch) then DECRYPT_FAILED_MARKER
          else
            match SealedKeyStore.get ch db with
            | None => DECRYPT_FAILED_MARKER
            | Some (key, current_epoch) =>
                let stale := match mget "encryption_epoch" msg with
                             | VNone => false
                             | VInt e => negb (e =? current_epoch)
                             | _ => true
                             end in
                if stale then DECRYPT_FAILED_MARKER
                else default DECRYPT_FAILED_MARKER (aead_decrypt key nonce enc (str_bytes ch) ≫= utf8_decode)
            end
    | _, _ => ""
    end.
