(* ===== verification/ClientApp.v ===== *)
(** * The client application ([hokora_tui/commands/sync_callbacks.py],
      [commands/event_dispatcher.py], the link callbacks of [sync_engine.py],
      [sync/reconnect_scheduler.py], [sync/history_client.py])

    Packets arrive on RNS threads; what they change in the user interface is
    scheduled on its main loop and runs later.  The scheduled updates are a
    queue of the state, and running the first of them is a step of its own, so
    that any interleaving with packets is a sequence of steps.  Widgets and
    status lines are not modelled. *)

From S2P Require Import Prelude Constants Models Queries Permissions RateLimit Ban Sealed Sequencer Message Ingest Wire Verification InviteCodes Epoch FedAuth ClientDb Client.

Abbreviation msg := (dict string val).

(** Updates scheduled on the main loop. *)
Inductive alarm :=
  | OnMsgs (channel_id : string) (channel_msgs : list msg)
  | OnThreadReply (channel_id : string) (root_hash : val)
  | OnUpdate (m : msg)
  | OnMeta (normalized : list msg) (node_name : val)
  | OnStatus (connection_status : string).

Record AppState := {
  ap_messages : dict string (list msg);
  ap_current_channel_id : option string;
  ap_unread_counts : dict string Z;
  ap_channels : list msg;
  ap_connection_status : string;
  ap_connected_node_name : val;
  ap_alarms : list alarm;
}.
Definition ap_set_messages f (s : AppState) : AppState := {|
  ap_messages := f (ap_messages s); ap_current_channel_id := ap_current_channel_id s; ap_unread_counts := ap_unread_counts s;
  ap_channels := ap_channels s; ap_connection_status := ap_connection_status s;
  ap_connected_node_name := ap_connected_node_name s; ap_alarms := ap_alarms s |}.
Definition ap_set_current o (s : AppState) : AppState := {|
  ap_messages := ap_messages s; ap_current_channel_id := o; ap_unread_counts := ap_unread_counts s;
  ap_channels := ap_channels s; ap_connection_status := ap_connection_status s;
  ap_connected_node_name := ap_connected_node_name s; ap_alarms := ap_alarms s |}.
Definition ap_set_unread f (s : AppState) : AppState := {|
  ap_messages := ap_messages s; ap_current_channel_id := ap_current_channel_id s; ap_unread_counts := f (ap_unread_counts s);
  ap_channels := ap_channels s; ap_connection_status := ap_connection_status s;
  ap_connected_node_name := ap_connected_node_name s; ap_alarms := ap_alarms s |}.
Definition ap_set_node (chs : list msg) (name : val) (s : AppState) : AppState := {|
  ap_messages := ap_messages s; ap_current_channel_id := ap_current_channel_id s; ap_unread_counts := ap_unread_counts s;
  ap_channels := chs; ap_connection_status := ap_connection_status s;
  ap_connected_node_name := name; ap_alarms := ap_alarms s |}.
Definition ap_set_status (st : string) (s : AppState) : AppState := {|
  ap_messages := ap_messages s; ap_current_channel_id := ap_current_channel_id s; ap_unread_counts := ap_unread_counts s;
  ap_channels := ap_channels s; ap_connection_status := st;
  ap_connected_node_name := ap_connected_node_name s; ap_alarms := ap_alarms s |}.
Definition ap_set_alarms f (s : AppState) : AppState := {|
  ap_messages := ap_messages s; ap_current_channel_id := ap_current_channel_id s; ap_unread_counts := ap_unread_counts s;
  ap_channels := ap_channels s; ap_connection_status := ap_connection_status s;
  ap_connected_node_name := ap_connected_node_name s; ap_alarms := f (ap_alarms s) |}.

(** The scheduler's thread: not there, at the head of its loop, or waiting. *)
Inductive phase := Idle | Checking | Waiting.
#[export] Instance phase_eq_dec : EqDecision phase.
Proof. solve_decision. Defined.

Record ReconnectScheduler := {
  rc_targets : dict string bytes; rc_user_disconnected : bool; rc_thread : phase; rc_stop : bool; rc_attempt : Z;
}.

Record App := {
  a_client : Client;
  a_state : AppState;
  a_reconnect : ReconnectScheduler;
  a_draws : nat;                                 (* nonces drawn so far *)
}.
Definition a_set_client c (a : App) : App :=
  {| a_client := c; a_state := a_state a; a_reconnect := a_reconnect a; a_draws := a_draws a |}.
Definition a_set_state f (a : App) : App :=
  {| a_client := a_client a; a_state := f (a_state a); a_reconnect := a_reconnect a; a_draws := a_draws a |}.
Definition a_set_reconnect f (a : App) : App :=
  {| a_client := a_client a; a_state := a_state a; a_reconnect := f (a_reconnect a); a_draws := a_draws a |}.
Definition a_set_draws f (a : App) : App :=
  {| a_client := a_client a; a_state := a_state a; a_reconnect := a_reconnect a; a_draws := f (a_draws a) |}.

Definition client_op {A} (m : M Client A) : M App A := lift a_client a_set_client m.
Definition app_db {A} (m : M ClientDB A) : M App A := client_op (cdb_op m).

(** [loop]: whether the main loop exists; before it does, most handlers drop
    their update and two run it at once. *)
Definition schedule (loop : bool) (al : alarm) : M App unit :=
  when loop (modify (a_set_state (ap_set_alarms (λ l, l ++ [al])))).

(** ** Messages *)

(** [m.get("msg_hash")] when it is a non-empty string. *)
Definition msg_hash (m : msg) : option string :=
  match mget "msg_hash" m with VStr h => if str_true h then Some h else None | _ => None end.

Definition has_seq (m : msg) : bool := match mget "seq" m with VNone => false | _ => true end.

(** [existing_by_hash.get(h)]: the last message with the hash, and the list
    with that message changed. *)
Definition find_hash (h : string) (l : list msg) : option msg :=
  List.find (λ m, bool_decide (msg_hash m = Some h)) (rev l).
Fixpoint alter_first (p : msg → bool) (f : msg → msg) (l : list msg) : list msg :=
  match l with
  | [] => []
  | m :: l => if p m then f m :: l else m :: alter_first p f l
  end.
Definition alter_hash (h : string) (f : msg → msg) (l : list msg) : list msg :=
  rev (alter_first (λ m, bool_decide (msg_hash m = Some h)) f (rev l)).

(** [existing.update(m)] *)
Definition dict_merge (d u : msg) : msg := foldl (λ d kv, dict_set kv.1 kv.2 d) d u.

(** What a message that was seen before changes of it. *)
Definition refresh (e m : msg) : option msg :=
  if negb (val_true (mget "body" e)) && val_true (mget "body" m) then Some (dict_merge e m)
  else if val_true (mget "has_thread" m) && negb (val_true (mget "has_thread" e)) then
    let e := dict_set "has_thread" (VBool true) e in
    let e := if val_true (mget "reply_count" m) then dict_set "reply_count" (mget "reply_count" m) e else e in
    let e := if val_true (mget "edited" m) && negb (val_true (mget "edited" e)) then dict_set "edited" (VBool true) e else e in
    let e := if val_true (mget "body" m) && negb (val_true (mget "body" e)) then dict_set "body" (mget "body" m) e else e in
    Some e
  else None.

Record Merge := { mg_list : list msg; mg_new : list msg; mg_updated : list string }.

(** [known]: the hashes in the list when the call began. *)
Definition merge_one (known : list string) (st : Merge) (m : msg) : Merge :=
  match msg_hash m with
  | None => st
  | Some h =>
      if negb (bool_decide (h ∈ known))
      then {| mg_list := mg_list st; mg_new := mg_new st ++ [m]; mg_updated := mg_updated st |}
      else
        match find_hash h (mg_list st) ≫= λ e, refresh e m with
        | None => st
        | Some e' => {| mg_list := alter_hash h (λ _, e') (mg_list st); mg_new := mg_new st;
                        mg_updated := mg_updated st ++ [h] |}
        end
  end.

Section app.
Context `{J : Json} `{HE : Ed25519} `{HP : Msgpack} `{A : Aead}.
(** The main loop, decryption with the client's identity, its LXMF
    destination, and the random nonces. *)
Context (loop : bool) (decrypt : option (bytes → option bytes)) (lxmf_source : option string) (draw : nat → bytes).

Definition next_nonce : M App bytes :=
  let! a := get in modify (a_set_draws S) ;; ret (draw (a_draws a)).
Definition with_nonce (k : bytes → M Client unit) : M App unit :=
  let! n := next_nonce in client_op (k n).

(** The update that [on_messages] makes on the main thread. *)
Definition on_msgs (channel_id : string) (channel_msgs : list msg) : M App unit :=
  let! a := get in
  when (list_true channel_msgs)
    (modify (a_set_state (ap_set_messages (λ d, dict_set channel_id (default [] (dict_get channel_id d) ++ channel_msgs) d)))) ;;
  if bool_decide (ap_current_channel_id (a_state a) = Some channel_id) then ret tt
  else modify (a_set_state (ap_set_unread (λ d, dict_set channel_id (default 0 (dict_get channel_id d) + zlen channel_msgs) d))).

Definition on_messages (now : float) (channel_id : string) (messages : list msg) (latest_seq : val) : M App unit :=
  modify (a_set_state (ap_set_messages (λ d, if dict_has channel_id d then d else dict_set channel_id [] d))) ;;
  let! a := get in
  let cur := default [] (dict_get channel_id (ap_messages (a_state a))) in
  let st := foldl (merge_one (omap msg_hash cur)) {| mg_list := cur; mg_new := []; mg_updated := [] |} messages in
  modify (a_set_state (ap_set_messages (dict_set channel_id (mg_list st)))) ;;
  let storable := List.filter has_seq (mg_new st) in
  let updated := List.filter has_seq (omap (λ h, find_hash h (mg_list st)) (mg_updated st)) in
  when (list_true storable || list_true updated)
    (when (list_true storable) (app_db (MessageStore.store now storable)) ;;
     when (list_true updated) (app_db (MessageStore.store now updated)) ;;
     when (val_true latest_seq)
       (match latest_seq with
        | VInt n => app_db (CursorStore.set channel_id n)
        | _ => raise IntegrityError "datatype mismatch"
        end)) ;;
  if negb (list_true (mg_new st)) then ret tt
  else if loop then schedule true (OnMsgs channel_id storable)
  else on_msgs channel_id storable.

(** A reply marks the first message with the root's hash. *)
Definition on_thread_reply (now : float) (channel_id : string) (root_hash : val) : M App unit :=
  let! a := get in
  match dict_get channel_id (ap_messages (a_state a)) with
  | None => ret tt
  | Some l =>
      let is_root m := bool_decide (val_tree (mget "msg_hash" m) = val_tree root_hash) in
      match List.find is_root l with
      | None => ret tt
      | Some m =>
          let m' := dict_set "has_thread" (VBool true) m in
          modify (a_set_state (ap_set_messages (dict_set channel_id (alter_first is_root (λ _, m') l)))) ;;
          app_db (MessageStore.store now [m'])
      end
  end.

Definition on_update (now : float) (m : msg) : M App unit :=
  let! a := get in
  match get_str "channel_id" None m, msg_hash m with
  | Some ch, Some h =>
      match dict_get ch (ap_messages (a_state a)) with
      | None => ret tt
      | Some l =>
          modify (a_set_state (ap_set_messages
            (dict_set ch (alter_first (λ e, bool_decide (msg_hash e = Some h)) (λ _, m) l)))) ;;
          app_db (MessageStore.store now [m])
      end
  | _, _ => ret tt
  end.

(** ** The node's channels *)

(** [SyncEngine.register_channel] *)
Definition register_channel (net : Net) (now : float) (channel_id : string) (dest pub : option bytes) : M App unit :=
  client_op (register_on_link net channel_id dest pub) ;;
  let! a := get in
  when (is_connected channel_id (a_client a))
    (let cursor := default 0 (dict_get channel_id (c_cursors (a_client a))) in
     with_nonce (λ n, request_sealed_key now n channel_id) ;;
     with_nonce (λ n, sync_history now n channel_id cursor 50) ;;
     with_nonce (λ n, subscribe_live now n channel_id)).

(** Channels of a node's metadata that have an identifier, tagged with the
    node's identity. *)
Definition normalize (node_identity_hash : val) (chs : list val) : list msg :=
  omap (λ v, match v with
             | VDict ch =>
                 if val_true (mget "id" ch)
                 then Some (if val_true node_identity_hash && negb (val_true (mget "node_identity_hash" ch))
                            then dict_set "node_identity_hash" node_identity_hash ch else ch)
                 else None
             | _ => None
             end) chs.

Definition meta_lists (data : msg) : list val * val * val :=
  let inner := match mget "data" data with VDict d => Some d | _ => None end in
  let chs := match default (VList []) (dict_get "channels" data) with VList l => l | _ => [] end in
  let chs := if list_true chs then chs
             else match inner with Some d => match default (VList []) (dict_get "channels" d) with VList l => l | _ => [] end
                  | None => chs end in
  let h := match mget "node_identity_hash" data with
           | VNone => match inner with Some d => mget "node_identity_hash" d | None => VNone end
           | h => h
           end in
  let name := if val_true (mget "node_name" data) then mget "node_name" data else default (VStr "Remote") (dict_get "node" data) in
  let name := if val_true name then name
              else match inner with Some d => default (VStr "Remote") (dict_get "node_name" d) | None => name end in
  (chs, h, name).

Definition by_seq (a b : msg) : bool :=
  match seq_of a, seq_of b with Some x, Some y => x <=? y | _, _ => true end.

(** The cached messages of a channel that are not in memory yet. *)
Definition load_cached (channel_id : string) : M App unit :=
  let! a := get in
  let cached := MessageStore.get channel_id 50 None (c_db (a_client a)) in
  let existing := default [] (dict_get channel_id (ap_messages (a_state a))) in
  let fresh := List.filter (λ m, match msg_hash m with Some h => negb (bool_decide (h ∈ omap msg_hash existing)) | None => false end) cached in
  when (list_true cached && bool_decide (is_Some (mapM seq_of (existing ++ fresh))))
    (modify (a_set_state (ap_set_messages (dict_set channel_id (sort_by by_seq (existing ++ fresh)))))).

Definition id_of (ch : msg) : option string := match mget "id" ch with VStr s => if str_true s then Some s else None | _ => None end.

Definition register_meta (net : Net) (now : float) (ch : msg) : M App unit :=
  match id_of ch with
  | None => ret tt
  | Some id =>
      let! a := get in
      if dict_has id (cn_links (c_conn (a_client a))) then ret tt
      else
        catch
          (let! dest := of_res (match mget "destination_hash" ch with
                                | VStr h => if str_true h
                                            then match fromhex (chars_of h) with
                                                 | Some d => Ok (Some d)
                                                 | None => Raise (Exn ValueError "fromhex") end
                                            else Ok None
                                | VNone => Ok None
                                | _ => Raise (Exn TypeError "fromhex")
                                end) in
           register_channel net now id dest (match mget "identity_public_key" ch with VBytes b => Some b | _ => None end))
          (λ _, ret tt)
  end.

Definition select_channel (channel_id : string) : M App unit :=
  modify (a_set_state (ap_set_current (Some channel_id))) ;;
  modify (a_set_state (ap_set_unread (dict_set channel_id 0))) ;;
  app_db (ChannelStore.reset_unread channel_id).

Definition on_meta (net : Net) (now : float) (normalized : list msg) (node_name : val) : M App unit :=
  modify (a_set_state (ap_set_node normalized node_name)) ;;
  let ids := omap id_of normalized in
  modify (a_set_state (ap_set_unread (λ d, foldl (λ d id, dict_set id 0 d) d ids))) ;;
  mfold (λ _ id, load_cached id) tt ids ;;
  mfold (λ _, register_meta net now) tt normalized ;;
  modify (a_set_state (ap_set_status "connected")) ;;
  let! a := get in
  let token := dict_get "__node__" (cn_pending_redeems (c_conn (a_client a))) in
  client_op (modify (c_set_conn (set_pending_redeems (dict_del "__node__")))) ;;
  match head ids with
  | None => ret tt
  | Some first_ch =>
      when (ostr_true token) (with_nonce (λ n, redeem_invite now n first_ch (or_empty token))) ;;
      select_channel first_ch
  end.

Definition app_node_meta (net : Net) (now : float) (data : msg) : M App unit :=
  let '(chs, h, name) := meta_lists data in
  let normalized := normalize h chs in
  app_db (ChannelStore.store normalized) ;;
  if loop then schedule true (OnMeta normalized name) else on_meta net now normalized name.

(** ** Events and packets *)

(** A live message; [mget "seq"] is passed on as the number reached. *)
Definition live_message (now : float) (m : msg) : M App unit :=
  match get_str "channel_id" None m with
  | None => ret tt
  | Some ch =>
      if negb (str_true ch) then ret tt
      else
        let! verified := client_op (verify_message_signature m) in
        let m := match verified with Some b => dict_set "verified" (VBool b) m | None => m end in
        on_messages now ch [m] (default (VInt 0) (dict_get "seq" m)) ;;
        when (val_true (mget "reply_to" m) && match mget "thread_seq" m with VNone => false | _ => true end)
          (schedule loop (OnThreadReply ch (mget "reply_to" m)))
  end.

(** A redeemed invite bookmarks the node, when it was discovered. *)
Definition bookmark_node : M App unit :=
  let! a := get in
  match ap_connected_node_name (a_state a) with
  | VStr name =>
      if negb (str_true name) then ret tt
      else
        match List.find (λ n, bool_decide (dn_node_name n = name) && negb (dn_bookmarked n))
                (DiscoveryStore.get_nodes (c_db (a_client a))) with
        | Some n => catch (app_db (DiscoveryStore.toggle_node_bookmark (dn_hash n)) ;; ret tt) (λ _, ret tt)
        | None => ret tt
        end
  | _ => ret tt
  end.

(** [packet] handles the packets of a batch. *)
Definition dispatch_event (packet : bytes → M App unit) (net : Net) (now : float) (event_type : val) (data : msg) : M App unit :=
  match event_type with
  | VStr "message" => live_message now data
  | VStr "batch" =>
      match default (VList []) (dict_get "events" data) with
      | VList l => mfold (λ _ v, match v with VBytes b => packet b | _ => ret tt end) tt l
      | _ => raise TypeError "not iterable"
      end
  | VStr "node_meta" => app_node_meta net now data
  | VStr "message_updated" => schedule loop (OnUpdate data)
  | VStr "invite_redeemed" => bookmark_node
  | VStr "connection_recovering" => schedule loop (OnStatus "recovering")
  | VStr "connection_lost" => schedule loop (OnStatus "disconnected")
  | _ => ret tt
  end.

(** The events of a resumed session; an exception of one is logged. *)
Definition replay (packet : bytes → M App unit) (net : Net) (now : float) (item : val) : M App unit :=
  match item with
  | VDict i =>
      let payload := match mget "payload" i with VDict p => p | _ => [] end in
      let ev_data := match mget "data" payload with VDict d => d | _ => [] end in
      when (val_true (mget "event" payload))
        (catch (dispatch_event packet net now (mget "event" payload) ev_data) (λ _, ret tt))
  | _ => raise AttributeError "get"
  end.

Definition _handle_response (packet : bytes → M App unit) (net : Net) (now : float) (data : msg) : M App unit :=
  let event := dispatch_event packet net now in
  match mget "action" data with
  | VStr "history" =>
      let! r := client_op (handle_history data) in
      match r with
      | Some (ch, messages, latest) => on_messages now ch messages (VInt latest)
      | None => ret tt
      end
  | VStr "node_meta" => client_op (handle_node_meta data) ;; event (VStr "node_meta") data
  | VStr "invite_redeemed" => event (VStr "invite_redeemed") data
  | VStr "cdsp_session_ack" =>
      let! flushed := client_op (handle_session_ack data) in
      mfold (λ _, replay packet net now) tt flushed
  | VStr "cdsp_profile_ack" => client_op (handle_profile_ack data)
  | VStr "sealed_key" => client_op (_handle_sealed_key_response decrypt data)
  | _ => ret tt
  end.

(** A packet, with or without its header.  Batches nest at most [depth]
    deep, as far as the interpreter's stack goes; everything that goes wrong
    is logged. *)
Fixpoint _on_packet (depth : nat) (net : Net) (now : float) (message : bytes) : M App unit :=
  match depth with
  | O => raise RuntimeError "maximum recursion depth exceeded"
  | S depth =>
      let packet := _on_packet depth net now in
      let body := match _strip_length_header message with Ok b => b | Raise _ => message end in
      catch
        (match unpackb body with
         | Some (VDict data) =>
             if dict_has "event" data
             then dispatch_event packet net now (mget "event" data) (match mget "data" data with VDict d => d | _ => [] end)
             else
               match mget "nonce" data with
               | VBytes nonce =>
                   let! a := get in
                   if dict_has nonce (c_pending_nonces (a_client a))
                   then
                     client_op (modify (c_set_nonces (dict_del nonce))) ;;
                     _handle_response packet net now (match mget "data" data with VDict d => d | _ => [] end)
                   else ret tt
               | _ => ret tt
               end
         | _ => raise TypeError "packet"
         end) (λ _, ret tt)
  end.

(** The main loop runs the first scheduled update. *)
Definition run_alarm (net : Net) (now : float) : M App unit :=
  let! a := get in
  match ap_alarms (a_state a) with
  | [] => ret tt
  | al :: rest =>
      modify (a_set_state (ap_set_alarms (λ _, rest))) ;;
      match al with
      | OnMsgs ch l => on_msgs ch l
      | OnThreadReply ch root => on_thread_reply now ch root
      | OnUpdate m => on_update now m
      | OnMeta l name => on_meta net now l name
      | OnStatus st => modify (a_set_state (ap_set_status st))
      end
  end.

(** ** Links and reconnection *)

Definition BACKOFF_SCHEDULE : list Z := [1; 2; 5; 10; 30; 60].

Definition set_targets f (r : ReconnectScheduler) : ReconnectScheduler := {|
  rc_targets := f (rc_targets r); rc_user_disconnected := rc_user_disconnected r; rc_thread := rc_thread r;
  rc_stop := rc_stop r; rc_attempt := rc_attempt r |}.
Definition set_user_disconnected b (r : ReconnectScheduler) : ReconnectScheduler := {|
  rc_targets := rc_targets r; rc_user_disconnected := b; rc_thread := rc_thread r;
  rc_stop := rc_stop r; rc_attempt := rc_attempt r |}.
Definition set_thread p (r : ReconnectScheduler) : ReconnectScheduler := {|
  rc_targets := rc_targets r; rc_user_disconnected := rc_user_disconnected r; rc_thread := p;
  rc_stop := rc_stop r; rc_attempt := rc_attempt r |}.
Definition set_stop b (r : ReconnectScheduler) : ReconnectScheduler := {|
  rc_targets := rc_targets r; rc_user_disconnected := rc_user_disconnected r; rc_thread := rc_thread r;
  rc_stop := b; rc_attempt := rc_attempt r |}.
Definition set_attempt n (r : ReconnectScheduler) : ReconnectScheduler := {|
  rc_targets := rc_targets r; rc_user_disconnected := rc_user_disconnected r; rc_thread := rc_thread r;
  rc_stop := rc_stop r; rc_attempt := n |}.

Definition reset_attempt (r : ReconnectScheduler) : ReconnectScheduler := set_stop true (set_attempt 0 r).
Definition mark_user_disconnected (r : ReconnectScheduler) : ReconnectScheduler := set_stop true (set_user_disconnected true r).

Definition trigger (r : ReconnectScheduler) : ReconnectScheduler :=
  if negb (list_true (rc_targets r)) || rc_user_disconnected r then r
  else if negb (bool_decide (rc_thread r = Idle)) then r
  else set_thread Checking (set_attempt 0 (set_stop false r)).

(** The wait of an attempt, with the jitter [u] that was drawn. *)
Definition backoff_base (attempt : Z) : Z :=
  default 60 (BACKOFF_SCHEDULE !! Z.to_nat (Z.min attempt (zlen BACKOFF_SCHEDULE - 1))).
Definition backoff_delay (attempt : Z) (u : float) : float :=
  fmax (QArith_base.Qmake 1 10) (fz (backoff_base attempt) + u)%F.

(** From the head of the loop to the wait. *)
Definition reconnect_tick (net : Net) (now : float) : M App unit :=
  let! a := get in
  let r := a_reconnect a in
  match rc_thread r with
  | Checking =>
      if rc_stop r || rc_user_disconnected r || negb (list_true (rc_targets r))
      then modify (a_set_reconnect (set_thread Idle))
      else if any_active (a_client a) then modify (a_set_reconnect (λ r, set_thread Idle (set_attempt 0 r)))
      else
        modify (a_set_reconnect (λ r, set_thread Waiting (set_attempt (rc_attempt r + 1) r))) ;;
        catch (dispatch_event (λ _, ret tt) net now (VStr "connection_recovering") []) (λ _, ret tt)
  | _ => ret tt
  end.

(** After the wait: every target that is not connected. *)
Definition reconnect_attempt (net : Net) : M App unit :=
  let! a := get in
  let r := a_reconnect a in
  match rc_thread r with
  | Waiting =>
      if rc_stop r || rc_user_disconnected r then modify (a_set_reconnect (set_thread Idle))
      else
        mfold (λ _ p,
          let! a := get in
          if is_connected p.1 (a_client a) then ret tt
          else catch (client_op (connect_channel net p.2 p.1)) (λ _, ret tt)) tt (rc_targets r) ;;
        modify (a_set_reconnect (set_thread Checking))
  | _ => ret tt
  end.

(** [SyncEngine.connect_channel] *)
Definition engine_connect (net : Net) (destination_hash : bytes) (channel_id : string) : M App unit :=
  modify (a_set_reconnect (set_user_disconnected false)) ;;
  modify (a_set_reconnect (set_targets (dict_set channel_id destination_hash))) ;;
  client_op (connect_channel net destination_hash channel_id).

Definition disconnect_channel (channel_id : string) : M App unit :=
  modify (a_set_reconnect (set_targets (dict_del channel_id))) ;;
  let! a := get in
  when (negb (list_true (rc_targets (a_reconnect a)))) (modify (a_set_reconnect (set_stop true))) ;;
  client_op (disconnect_link channel_id).

Definition disconnect_all : M App unit :=
  client_op (disconnect_links ;; modify (c_set_cursors (λ _, [])) ;; modify (c_set_nonces (λ _, []))) ;;
  modify (a_set_reconnect mark_user_disconnected) ;;
  modify (a_set_reconnect (set_targets (λ _, []))) ;;
  modify (a_set_reconnect (set_stop true)).

(** The chain of requests on a new link. *)
Definition _on_link_established (now : float) (channel_id : string) : M App unit :=
  modify (a_set_reconnect reset_attempt) ;;
  schedule loop (OnStatus "connected") ;;
  let! a := get in
  let token := dict_get channel_id (cn_pending_redeems (c_conn (a_client a))) in
  client_op (modify (c_set_conn (set_pending_redeems (dict_del channel_id)))) ;;
  if ostr_true token then with_nonce (λ n, redeem_invite now n channel_id (or_empty token))
  else
    with_nonce (λ n, init_session now n lxmf_source channel_id) ;;
    with_nonce (λ n, request_sealed_key now n channel_id) ;;
    let cursor := default 0 (dict_get channel_id (c_cursors (a_client a))) in
    with_nonce (λ n, sync_history now n channel_id cursor 50) ;;
    with_nonce (λ n, subscribe_live now n channel_id) ;;
    with_nonce (λ n, request_node_meta now n channel_id).

(** RNS reports a link up, or down. *)
Definition _handle_established (now : float) (l : nat) (channel_id : string) : M App unit :=
  client_op (modify (c_set_conn (set_links id (λ a, {[l]} ∪ a)))) ;;
  catch (_on_link_established now channel_id) (λ _, ret tt).

Definition _on_link_closed (net : Net) (now : float) : M App unit :=
  let! a := get in
  if any_active (a_client a) then ret tt
  else if list_true (rc_targets (a_reconnect a)) && negb (rc_user_disconnected (a_reconnect a))
  then modify (a_set_reconnect trigger)
  else dispatch_event (λ _, ret tt) net now (VStr "connection_lost") [].

Definition _handle_closed (net : Net) (now : float) (l : nat) (channel_id : string) : M App unit :=
  client_op (modify (c_set_conn (set_links (dict_del channel_id) (λ a, a ∖ {[l]})))) ;;
  catch (_on_link_closed net now) (λ _, ret tt).

(** ** Start-up *)

(** [ensure_sync_engine] and [_wire_tofu_callbacks]: cursors and pins of the
    database replace those in memory. *)
Definition ensure_sync_engine : M App unit :=
  client_op (modify (λ c,
    c_set_keys (λ d, foldl (λ d p, dict_set p.1 p.2 d) d (TofuKeyStore.all_keys (c_db c)))
      (c_set_cursors (λ d, foldl (λ d p, dict_set p.1 p.2 d) d (CursorStore.get_all (c_db c))) c))).
End app.

(** A new process over a database. *)
Definition new_client (db : ClientDB) : Client := {|
  c_conn := {| cn_channel_identities := []; cn_channel_dest_hashes := []; cn_pending_pubkeys := []; cn_pending_connects := [];
               cn_pending_redeems := []; cn_links := []; cn_active := ∅; cn_next := 0 |};
  c_cursors := []; c_pending_nonces := []; c_last_nonce_cleanup := fz 0; c_seq_warnings := []; c_identity_keys := [];
  c_tofu_warned := [];
  c_cdsp := {| cd_sync_profile := VInt CDSP_PROFILE_FULL; cd_session_id := VNone; cd_resume_token := None; cd_deferred_count := VInt 0 |};
  c_display_name := None; c_db := db; c_sent := [] |}.
Definition new_app (db : ClientDB) : App := {|
  a_client := new_client db;
  a_state := {| ap_messages := []; ap_current_channel_id := None; ap_unread_counts := []; ap_channels := [];
                ap_connection_status := "disconnected"; ap_connected_node_name := VStr ""; ap_alarms := [] |};
  a_reconnect := {| rc_targets := []; rc_user_disconnected := false; rc_thread := Idle; rc_stop := false; rc_attempt := 0 |};
  a_draws := 0 |}.
