(* ===== verification/ClientSteps.v ===== *)
(** * What the client's packets and updates can change

    Every packet and every scheduled update of the client is made of a few
    operations of the sync engine and of changes that only concern what is
    displayed.  [AppRel] names them: a relation between states that these
    operations keep is kept by every packet and every update. *)

From S2P Require Import Prelude Constants Models Queries Permissions RateLimit Ban Sealed Sequencer Message Ingest Wire Verification History InviteCodes Epoch FedAuth ClientDb Client ClientApp.

Lemma mrel_weaken {S A} (R R' : S → S → Prop) (m : M S A) : (∀ s s', R s s' → R' s s') → mrel R m → mrel R' m.
Proof. intros H Hm s. apply H, Hm. Qed.

(** Changes of the client database that leave the pins alone. *)
Definition same_tofu (d d' : ClientDB) : Prop := cdb_tofu_keys d' = cdb_tofu_keys d.
#[export] Instance same_tofu_preorder : PreOrder same_tofu.
Proof. split; [by intros d|]. intros a b c H1 H2. unfold same_tofu in *. congruence. Qed.

Section stores.
Context `{J : Json}.
Lemma store_same now l : mrel same_tofu (MessageStore.store now l).
Proof using. unfold MessageStore.store. apply mrel_mfold; [typeclasses eauto|intros _ m]. mrel_step; [mrel_step|]. by apply mrel_modify. Qed.
Lemma store_channels_same l : mrel same_tofu (ChannelStore.store l).
Proof using. unfold ChannelStore.store. apply mrel_mfold; [typeclasses eauto|intros _ m]. mrel_step; [mrel_step|]. by apply mrel_modify. Qed.
End stores.

Class AppRel `{HE : Ed25519} `{HP : Msgpack} (Rc : relation Client) (Ra : relation App) := {
  ar_client_preorder : PreOrder Rc;
  ar_app_preorder : PreOrder Ra;
  ar_client {B} (m : M Client B) : mrel Rc m → mrel Ra (client_op m);
  ar_state f : mrel Ra (modify (a_set_state f));
  ar_draws f : mrel Ra (modify (a_set_draws f));
  ar_db {B} (m : M ClientDB B) : mrel same_tofu m → mrel Rc (cdb_op m);
  ar_nonces f : mrel Rc (modify (c_set_nonces f));
  ar_cdsp f : mrel Rc (modify (c_set_cdsp f));
  ar_redeems f : mrel Rc (modify (c_set_conn (set_pending_redeems f)));
  ar_verify m : mrel Rc (verify_message_signature m);
  ar_history d : mrel Rc (handle_history d);
  ar_node_meta d : mrel Rc (handle_node_meta d);
  ar_register net ch d p : mrel Rc (register_on_link net ch d p);
  ar_request_key now n ch : mrel Rc (request_sealed_key now n ch);
  ar_request_history now n ch since lim : mrel Rc (sync_history now n ch since lim);
  ar_subscribe now n ch : mrel Rc (subscribe_live now n ch);
  ar_redeem now n ch tok : mrel Rc (redeem_invite now n ch tok);
}.
#[export] Existing Instances ar_client_preorder ar_app_preorder.

Create HintDb apprel.
#[export] Hint Resolve store_same store_channels_same : apprel.
#[export] Hint Extern 1 (mrel _ _) => first [apply ar_state|apply ar_draws|apply ar_nonces|apply ar_cdsp|apply ar_redeems
  |apply ar_verify|apply ar_history|apply ar_node_meta|apply ar_register|apply ar_request_key|apply ar_request_history
  |apply ar_subscribe|apply ar_redeem] : apprel.

Section steps.
Context `{J : Json} `{HE : Ed25519} `{HP : Msgpack} `{A : Aead}.
Context (loop : bool) (decrypt : option (bytes → option bytes)) (draw : nat → bytes).
Context (Rc : relation Client) (Ra : relation App) `{HRel : !AppRel Rc Ra}.

Lemma db_kept {B} (m : M ClientDB B) : mrel same_tofu m → mrel Ra (app_db m).
Proof using HRel. intros Hm. by apply ar_client, ar_db. Qed.
Lemma nonce_kept k : (∀ n, mrel Rc (k n)) → mrel Ra (with_nonce draw k).
Proof using HRel. intros Hk. unfold with_nonce, next_nonce. repeat mrel_step; [apply ar_draws|by apply ar_client]. Qed.

Ltac kept_tac :=
  repeat first
    [ progress mrel_step
    | match goal with
      | |- mrel _ (mfold _ _ _) => apply mrel_mfold; [typeclasses eauto|intros ? ?]
      | |- mrel _ (catch _ _) => apply mrel_catch; [typeclasses eauto| |intros ?]
      | |- mrel _ (with_nonce _ _) => apply nonce_kept; intros ?; solve [auto with apprel]
      | |- mrel _ (app_db (modify _)) => apply db_kept; by apply mrel_modify
      | |- mrel _ (app_db _) => apply db_kept; solve [auto with apprel]
      | |- mrel _ (client_op _) => apply ar_client; solve [auto with apprel]
      end
    | solve [auto with apprel] ].

Lemma schedule_kept b al : mrel Ra (schedule b al).
Proof using HRel. unfold schedule. kept_tac. Qed.
#[local] Hint Resolve schedule_kept : apprel.
Lemma on_msgs_kept ch l : mrel Ra (on_msgs ch l).
Proof using HRel. unfold on_msgs. kept_tac. Qed.
#[local] Hint Resolve on_msgs_kept : apprel.
Lemma on_messages_kept now ch l s : mrel Ra (on_messages loop now ch l s).
Proof using HRel. unfold on_messages, CursorStore.set. kept_tac. Qed.
#[local] Hint Resolve on_messages_kept : apprel.
Lemma live_message_kept now m : mrel Ra (live_message loop now m).
Proof using HRel. unfold live_message. kept_tac. Qed.
#[local] Hint Resolve live_message_kept : apprel.
Lemma register_channel_kept net now ch d p : mrel Ra (register_channel draw net now ch d p).
Proof using HRel. unfold register_channel. kept_tac. Qed.
#[local] Hint Resolve register_channel_kept : apprel.
Lemma on_meta_kept net now l n : mrel Ra (on_meta draw net now l n).
Proof using HRel.
  unfold on_meta, register_meta, load_cached, select_channel, ChannelStore.reset_unread. kept_tac.
Qed.
#[local] Hint Resolve on_meta_kept : apprel.
Lemma sealed_response_kept dec d : mrel Rc (_handle_sealed_key_response dec d).
Proof using HRel. unfold _handle_sealed_key_response, SealedKeyStore.upsert. kept_tac. apply ar_db. by apply mrel_modify. Qed.
#[local] Hint Resolve sealed_response_kept : apprel.

Section events.
Context (packet : bytes → M App unit) (Hpacket : ∀ b, mrel Ra (packet b)).
#[local] Hint Resolve Hpacket : apprel.

Lemma dispatch_kept net now ty d : mrel Ra (dispatch_event loop draw packet net now ty d).
Proof using HRel Hpacket.
  unfold dispatch_event, app_node_meta, bookmark_node, DiscoveryStore.toggle_node_bookmark.
  kept_tac. apply db_kept. repeat mrel_step. by apply mrel_modify.
Qed.
#[local] Hint Resolve dispatch_kept : apprel.
Lemma response_kept net now d : mrel Ra (_handle_response loop decrypt draw packet net now d).
Proof using HRel Hpacket.
  unfold _handle_response, replay, handle_session_ack, handle_profile_ack. kept_tac.
  all: apply ar_client; kept_tac.
Qed.
End events.

Lemma packet_kept depth net now b : mrel Ra (_on_packet loop decrypt draw depth net now b).
Proof using HRel.
  revert b. induction depth as [|depth IH]; intros b; cbn [_on_packet]; [mrel_step|].
  kept_tac; (apply dispatch_kept || apply response_kept); exact IH.
Qed.

Lemma alarm_kept net now : mrel Ra (run_alarm draw net now).
Proof using HRel. unfold run_alarm, on_thread_reply, on_update. kept_tac. Qed.
End steps.
