(* ===== verification/ClientTrust.v ===== *)
(** * What the client trusts

    Pinned sender keys are for good: whatever packets arrive, in whatever
    order the main loop and the links are served, and across restarts.  What
    the client shows as verified was signed with the pinned key, on the
    history path; and a sealed message is rendered from the ciphertext alone.*)

From S2P Require Import Prelude Constants Models Queries Permissions RateLimit Ban Sealed Sequencer Message Ingest Wire Verification History InviteCodes Epoch FedAuth ClientDb Client ClientApp ClientSteps.

(** ** Pins *)

Definition pinned (c : Client) (sender : string) (key : bytes) : Prop :=
  dict_get sender (c_identity_keys c) = Some key ∧ key ≠ [].

(** Memory and store agree, and hold no empty key. *)
Definition pins_ok (c : Client) : Prop := ∀ s,
  cdb_tofu_keys (c_db c) !! s = dict_get s (c_identity_keys c) ∧ dict_get s (c_identity_keys c) ≠ Some [].

Definition pins_kept (c c' : Client) : Prop :=
  (∀ s k, pinned c s k → pinned c' s k) ∧ (pins_ok c → pins_ok c').
#[export] Instance pins_kept_preorder : PreOrder pins_kept.
Proof. split; [by intros c|]. intros a b c [H1 H2] [H3 H4]. split; auto. Qed.

Definition same_pins (c c' : Client) : Prop :=
  c_identity_keys c' = c_identity_keys c ∧ cdb_tofu_keys (c_db c') = cdb_tofu_keys (c_db c).
#[export] Instance same_pins_preorder : PreOrder same_pins.
Proof. split; [by intros c|]. intros a b c [H1 H2] [H3 H4]. split; congruence. Qed.

Lemma same_pins_kept c c' : same_pins c c' → pins_kept c c'.
Proof. intros [H1 H2]. split; unfold pinned, pins_ok; by rewrite H1, ?H2. Qed.

Lemma cdb_same_pins {A} (m : M ClientDB A) : mrel same_tofu m → mrel same_pins (cdb_op m).
Proof. intros Hm. apply mrel_lift with (Rc := same_tofu); [done|]. by intros c d H. Qed.

(** Operations of the client that do not look at keys at all. *)
Ltac same_pins_tac := repeat (mrel_step || (apply mrel_mfold; [typeclasses eauto|intros ? ?])
  || (apply mrel_catch; [typeclasses eauto| |intros ?]) || apply cdb_same_pins); try (by apply mrel_modify).

Section operations.
Context `{J : Json} `{HE : Ed25519} `{HP : Msgpack}.

Lemma connect_same net d ch : mrel same_pins (connect_channel net d ch).
Proof using. unfold connect_channel. same_pins_tac. Qed.
Lemma register_same net ch d p : mrel same_pins (register_on_link net ch d p).
Proof using. unfold register_on_link. same_pins_tac. Qed.
Lemma retry_same net : mrel same_pins (retry_pending_connects net).
Proof using. unfold retry_pending_connects. repeat (same_pins_tac || apply connect_same). Qed.
Lemma disconnect_link_same ch : mrel same_pins (disconnect_link ch).
Proof using. unfold disconnect_link. same_pins_tac. Qed.
Lemma disconnect_links_same : mrel same_pins disconnect_links.
Proof using. unfold disconnect_links. same_pins_tac. Qed.
Lemma send_same now n l a p : mrel same_pins (send_request now n l a p).
Proof using. unfold send_request. same_pins_tac. Qed.
Lemma cleanup_same now : mrel same_pins (cleanup_stale_nonces now).
Proof using. unfold cleanup_stale_nonces. same_pins_tac. Qed.

Ltac request_tac := unfold over; repeat (mrel_step || apply send_same || apply cleanup_same).
Lemma sync_history_same now n ch since lim : mrel same_pins (sync_history now n ch since lim).
Proof using. unfold sync_history. request_tac. Qed.
Lemma request_node_meta_same now n ch : mrel same_pins (request_node_meta now n ch).
Proof using. unfold request_node_meta. request_tac. Qed.
Lemma subscribe_live_same now n ch : mrel same_pins (subscribe_live now n ch).
Proof using. unfold subscribe_live. request_tac. Qed.
Lemma request_sealed_key_same now n ch : mrel same_pins (request_sealed_key now n ch).
Proof using. unfold request_sealed_key. request_tac. Qed.
Lemma init_session_same now n src ch : mrel same_pins (init_session now n src ch).
Proof using. unfold init_session. request_tac. Qed.
Lemma redeem_invite_same now n ch tok : mrel same_pins (redeem_invite now n ch tok).
Proof using. unfold redeem_invite. request_tac. Qed.

Lemma sealed_response_same dec d : mrel same_pins (_handle_sealed_key_response dec d).
Proof using. unfold _handle_sealed_key_response, SealedKeyStore.upsert. same_pins_tac. Qed.
Lemma node_meta_same d : mrel same_pins (handle_node_meta d).
Proof using. unfold handle_node_meta, meta_channel. same_pins_tac. Qed.

(** Only a verified message of a sender without a pin changes the pins, and
    then it pins the key that verified, in memory and in the store. *)
Lemma verify_pins m : mrel pins_kept (verify_message_signature m).
Proof using.
  intros c. unfold verify_message_signature. destruct (negb _) eqn:Et; [done|].
  destruct (mget "sender_hash" m) as [| | | |sender| | |]; try done.
  destruct (mget "sender_public_key" m) as [| | | | |pub| |]; try done.
  destruct (mget "lxmf_signed_part" m) as [| | | | |sp| |]; try done.
  destruct (mget "lxmf_signature" m) as [| | | | |sig| |]; try done.
  unfold bind at 1, get.
  set (cached := match dict_get sender (c_identity_keys c) with Some k => if list_true k then Some k else None | None => None end).
  destruct (match cached with Some k => _ | None => _ end) eqn:Econf.
  { apply same_pins_kept. unfold note_tofu_warning, bind, get. by destruct (bool_decide _). }
  unfold bind at 1. destruct (VerificationService.verify_ed25519_signature _ sp sig) eqn:Ev; [|done]. cbn [when].
  assert (pub ≠ []) as Hpub.
  { intros ->. simpl in Et. by destruct sig, sp, sender. }
  assert (dict_get sender (c_identity_keys c) = Some pub ∨ cached = None) as Hc.
  { unfold cached in *. destruct (dict_get sender (c_identity_keys c)) as [k|]; [|by right].
    destruct (list_true k); [|by right]. left. apply negb_false_iff, bool_decide_eq_true in Econf. by subst. }
  assert (∀ s k, pinned c s k → dict_get s (dict_set sender pub (c_identity_keys c)) = Some k) as Hkeep.
  { intros s k [Hs Hk]. rewrite dict_get_set. destruct (decide (s = sender)) as [->|]; [|done].
    destruct Hc as [Hc|Hc]; [congruence|]. unfold cached in Hc. rewrite Hs in Hc. by destruct k. }
  unfold modify, bind at 1. destruct Hc as [Hc|Hc].
  - assert (bool_decide (is_Some cached) = true) as ->.
    { unfold cached. rewrite Hc. destruct pub; [done|]. by apply bool_decide_eq_true. }
    split; simpl.
    + intros s k H. split; [by apply Hkeep|apply H].
    + intros Hok s. destruct (Hok s) as [H1 H2]. simpl. rewrite H1, dict_get_set. destruct (decide (s = sender)) as [->|]; [|done].
      rewrite Hc. split; [done|]. congruence.
  - rewrite Hc. cbn [bool_decide negb when]. split; simpl.
    + intros s k H. split; [by apply Hkeep|apply H].
    + intros Hok s. simpl. destruct (Hok sender) as [H1 H2], (Hok s) as [H3 H4]. rewrite dict_get_set.
      assert (dict_get sender (c_identity_keys c) = None) as Hn.
      { unfold cached in Hc. destruct (dict_get sender (c_identity_keys c)) as [k|]; [|done]. by destruct k. }
      rewrite H1, Hn. destruct (decide (s = sender)) as [->|Hne].
      * rewrite lookup_insert_eq. split; [done|]. congruence.
      * rewrite lookup_insert_ne by done. by rewrite H3.
Qed.

Lemma handle_history_pins d : mrel pins_kept (handle_history d).
Proof using.
  unfold handle_history, mark_verified. repeat (mrel_step || (apply mrel_mfold; [typeclasses eauto|intros ? ?]) || apply verify_pins).
  all: apply (mrel_weaken same_pins); [apply same_pins_kept|]; by apply mrel_modify.
Qed.
End operations.

Create HintDb pins.
#[export] Hint Resolve connect_same retry_same register_same disconnect_link_same disconnect_links_same send_same cleanup_same
  sync_history_same request_node_meta_same subscribe_live_same request_sealed_key_same init_session_same redeem_invite_same
  sealed_response_same node_meta_same store_same store_channels_same verify_pins handle_history_pins : pins.

(** ** Every step of the application keeps the pins *)

Definition app_pins (a a' : App) : Prop := pins_kept (a_client a) (a_client a').
#[export] Instance app_pins_preorder : PreOrder app_pins.
Proof. split; [by intros a|]. intros a b c H1 H2. unfold app_pins in *. by etrans. Qed.

Section steps.
Context `{J : Json} `{HE : Ed25519} `{HP : Msgpack} `{A : Aead}.
Context (loop : bool) (decrypt : option (bytes → option bytes)) (lxmf_source : option string) (draw : nat → bytes).

Lemma client_pins {B} (m : M Client B) : mrel pins_kept m → mrel app_pins (client_op m).
Proof using. intros Hm. apply mrel_lift with (Rc := pins_kept); [done|]. by intros a c H. Qed.
Lemma client_same {B} (m : M Client B) : mrel same_pins m → mrel app_pins (client_op m).
Proof using. intros Hm. apply client_pins, (mrel_weaken same_pins); [apply same_pins_kept|done]. Qed.
Lemma app_db_pins {B} (m : M ClientDB B) : mrel same_tofu m → mrel app_pins (app_db m).
Proof using. intros Hm. by apply client_same, cdb_same_pins. Qed.
Lemma state_pins f : mrel app_pins (modify (a_set_state f)).
Proof using. apply mrel_modify. by intros a. Qed.
Lemma reconnect_pins f : mrel app_pins (modify (a_set_reconnect f)).
Proof using. apply mrel_modify. by intros a. Qed.
Lemma nonce_pins k : (∀ n, mrel same_pins (k n)) → mrel app_pins (with_nonce draw k).
Proof using.
  intros Hk. unfold with_nonce, next_nonce. repeat mrel_step; [by apply mrel_modify|by apply client_same].
Qed.

#[local] Instance pins_rel : AppRel pins_kept app_pins.
Proof using.
  constructor; try typeclasses eauto; intros;
    first [ by apply client_pins | apply state_pins | by apply mrel_modify | apply verify_pins | apply handle_history_pins
          | by apply (mrel_weaken same_pins), cdb_same_pins; [apply same_pins_kept|]
          | apply (mrel_weaken same_pins); [apply same_pins_kept|]; auto with pins ].
Qed.

Ltac pins_tac :=
  repeat first
    [ progress mrel_step
    | match goal with
      | |- mrel _ (modify (a_set_state _)) => apply state_pins
      | |- mrel _ (modify (a_set_reconnect _)) => apply reconnect_pins
      | |- mrel _ (mfold _ _ _) => apply mrel_mfold; [typeclasses eauto|intros ? ?]
      | |- mrel _ (catch _ _) => apply mrel_catch; [typeclasses eauto| |intros ?]
      | |- mrel _ (with_nonce _ _) => apply nonce_pins; intros ?; solve [auto with pins]
      | |- mrel _ (app_db (modify _)) => apply app_db_pins; by apply mrel_modify
      | |- mrel _ (app_db _) => apply app_db_pins; solve [auto with pins]
      | |- mrel _ (client_op (modify _)) => apply client_same; by apply mrel_modify
      | |- mrel _ (client_op _) => first [apply client_same; solve [auto with pins]|apply client_pins; solve [auto with pins]]
      | |- mrel _ (modify _) => by apply mrel_modify
      end
    | solve [auto with pins] ].

Lemma schedule_pins b al : mrel app_pins (schedule b al).
Proof using. unfold schedule. pins_tac. Qed.
#[local] Hint Resolve schedule_pins : pins.
Lemma dispatch_pins net now ty d : mrel app_pins (dispatch_event loop draw (λ _, ret tt) net now ty d).
Proof using. apply (dispatch_kept loop draw pins_kept app_pins). intros b. mrel_step. Qed.
#[local] Hint Resolve dispatch_pins : pins.

Lemma established_pins now l ch : mrel app_pins (_handle_established loop lxmf_source draw now l ch).
Proof using. unfold _handle_established, _on_link_established. pins_tac. Qed.
Lemma closed_pins net now l ch : mrel app_pins (_handle_closed loop draw net now l ch).
Proof using.
  unfold _handle_closed, _on_link_closed. pins_tac.
Qed.
Lemma tick_pins net now : mrel app_pins (reconnect_tick loop draw net now).
Proof using. unfold reconnect_tick. pins_tac. Qed.
Lemma attempt_pins net : mrel app_pins (reconnect_attempt net).
Proof using. unfold reconnect_attempt. pins_tac. Qed.
Lemma engine_connect_pins net d ch : mrel app_pins (engine_connect net d ch).
Proof using. unfold engine_connect. pins_tac. Qed.
Lemma disconnect_channel_pins ch : mrel app_pins (disconnect_channel ch).
Proof using. unfold disconnect_channel. pins_tac. Qed.
Lemma disconnect_all_pins : mrel app_pins disconnect_all.
Proof using. unfold disconnect_all. pins_tac. Qed.

(** Adding a list of entries to a dictionary. *)
Lemma dict_get_foldl {V} (l : list (string * V)) d s : NoDup l.*1 →
  dict_get s (foldl (λ d p, dict_set p.1 p.2 d) d l)
  = match (list_to_map l : gmap string V) !! s with Some v => Some v | None => dict_get s d end.
Proof using.
  revert d. induction l as [|[k v] l IH]; intros d; csimpl; [by rewrite lookup_empty|].
  intros [Hk Hnd]%NoDup_cons. rewrite IH by done. rewrite dict_get_set.
  destruct (decide (s = k)) as [->|Hne].
  - rewrite lookup_insert_eq, not_elem_of_list_to_map_1 by done. done.
  - by rewrite lookup_insert_ne.
Qed.

(** The pins of the database, over those in memory. *)
Lemma ensure_keys a s :
  dict_get s (c_identity_keys (a_client (ensure_sync_engine a).2))
  = match cdb_tofu_keys (c_db (a_client a)) !! s with Some v => Some v | None => dict_get s (c_identity_keys (a_client a)) end.
Proof using.
  simpl. unfold TofuKeyStore.all_keys. rewrite dict_get_foldl by apply NoDup_fst_map_to_list. by rewrite list_to_map_to_list.
Qed.

(** ** Any run of the client *)

Inductive app_step :=
  | SPacket (depth : nat) (net : Net) (now : float) (b : bytes)
  | SAlarm (net : Net) (now : float)
  | SEstablished (now : float) (l : nat) (ch : string)
  | SClosed (net : Net) (now : float) (l : nat) (ch : string)
  | STick (net : Net) (now : float)
  | SAttempt (net : Net)
  | SConnect (net : Net) (d : bytes) (ch : string)
  | SRetry (net : Net)
  | SDisconnect (ch : string)
  | SDisconnectAll
  | SEnsure
  | SRestart.

Definition run_app_step (a : App) (st : app_step) : App :=
  match st with
  | SPacket depth net now b => (_on_packet loop decrypt draw depth net now b a).2
  | SAlarm net now => (run_alarm draw net now a).2
  | SEstablished now l ch => (_handle_established loop lxmf_source draw now l ch a).2
  | SClosed net now l ch => (_handle_closed loop draw net now l ch a).2
  | STick net now => (reconnect_tick loop draw net now a).2
  | SAttempt net => (reconnect_attempt net a).2
  | SConnect net d ch => (engine_connect net d ch a).2
  | SRetry net => (client_op (retry_pending_connects net) a).2
  | SDisconnect ch => (disconnect_channel ch a).2
  | SDisconnectAll => (disconnect_all a).2
  | SEnsure => (ensure_sync_engine a).2
  | SRestart => (ensure_sync_engine (new_app (c_db (a_client a)))).2
  end.

Lemma same_lookup_pins c c' : (∀ s, dict_get s (c_identity_keys c') = dict_get s (c_identity_keys c)) → c_db c' = c_db c →
  pins_ok c → pins_ok c' ∧ ∀ s k, pinned c s k → pinned c' s k.
Proof using.
  intros Hk Hdb Hok. split.
  - intros s. rewrite Hk, Hdb. apply Hok.
  - intros s k [H1 H2]. split; [by rewrite Hk|done].
Qed.

Lemma ensure_pins a : pins_ok (a_client a) →
  pins_ok (a_client (ensure_sync_engine a).2) ∧ ∀ s k, pinned (a_client a) s k → pinned (a_client (ensure_sync_engine a).2) s k.
Proof using.
  intros Hok. apply same_lookup_pins; [|done..]. intros s. rewrite ensure_keys, (proj1 (Hok s)). by destruct (dict_get s _).
Qed.

Lemma restart_pins a : pins_ok (a_client a) →
  let a' := (ensure_sync_engine (new_app (c_db (a_client a)))).2 in
  pins_ok (a_client a') ∧ ∀ s k, pinned (a_client a) s k → pinned (a_client a') s k.
Proof using.
  intros Hok a'. apply same_lookup_pins; [|done..]. intros s. unfold a'. rewrite ensure_keys.
  cbn [new_app new_client a_client c_db c_identity_keys dict_get]. rewrite (proj1 (Hok s)). by destruct (dict_get s _).
Qed.

Lemma app_pins_ok a a' : app_pins a a' → pins_ok (a_client a) →
  pins_ok (a_client a') ∧ ∀ s k, pinned (a_client a) s k → pinned (a_client a') s k.
Proof using. intros [H1 H2] Hok. split; auto. Qed.

Lemma step_pins a st : pins_ok (a_client a) →
  pins_ok (a_client (run_app_step a st)) ∧ ∀ s k, pinned (a_client a) s k → pinned (a_client (run_app_step a st)) s k.
Proof using.
  intros Hok. destruct st; cbn [run_app_step]; try (by apply ensure_pins); try (by apply restart_pins).
  - apply (app_pins_ok a); [apply (packet_kept loop decrypt draw pins_kept app_pins)|done].
  - apply (app_pins_ok a); [apply (alarm_kept draw pins_kept app_pins)|done].
  - apply (app_pins_ok a); [apply established_pins|done].
  - apply (app_pins_ok a); [apply closed_pins|done].
  - apply (app_pins_ok a); [apply tick_pins|done].
  - apply (app_pins_ok a); [apply attempt_pins|done].
  - apply (app_pins_ok a); [apply engine_connect_pins|done].
  - apply (app_pins_ok a); [apply client_same, retry_same|done].
  - apply (app_pins_ok a); [apply disconnect_channel_pins|done].
  - apply (app_pins_ok a); [apply disconnect_all_pins|done].
Qed.

(** C9: A pinned key is for good.  Starting from a client whose memory and
    store hold the same pins, whatever packets it receives, in whatever order
    links come and go, updates run and the process restarts, a sender that is
    pinned to a key stays pinned to that key, and memory and store still agree:
    only [/forget-key] releases a pin. *)
Theorem pins_for_good a steps s k :
  pins_ok (a_client a) → pinned (a_client a) s k →
  pinned (a_client (foldl run_app_step a steps)) s k ∧ pins_ok (a_client (foldl run_app_step a steps)).
Proof using.
  revert a. induction steps as [|st steps IH]; intros a Hok Hp; simpl; [done|].
  destruct (step_pins a st Hok) as [H1 H2]. apply IH; auto.
Qed.
End steps.

(** ** What the history path marks as verified *)

Section verified.
Context `{HE : Ed25519}.

Definition signed_by_pin (c : Client) (m : msg) : Prop := ∃ s k sp sig,
  mget "sender_hash" m = VStr s ∧ mget "sender_public_key" m = VBytes k ∧ mget "lxmf_signed_part" m = VBytes sp
  ∧ mget "lxmf_signature" m = VBytes sig ∧ pinned c s k ∧ ed25519_verify k sp sig = true.

Lemma verify_signed m c c' : verify_message_signature m c = (Ok (Some true), c') → signed_by_pin c' m.
Proof using.
  unfold verify_message_signature. destruct (negb _) eqn:Et; [done|].
  destruct (mget "sender_hash" m) as [| | | |sender| | |] eqn:E1; try done.
  destruct (mget "sender_public_key" m) as [| | | | |pub| |] eqn:E2; try done.
  destruct (mget "lxmf_signed_part" m) as [| | | | |sp| |] eqn:E3; try done.
  destruct (mget "lxmf_signature" m) as [| | | | |sig| |] eqn:E4; try done.
  intros (c0 & c1 & [= -> ->] & H)%bind_ok. cbv zeta in H.
  match type of H with (if ?b then _ else _) _ = _ => destruct b eqn:Ec end.
  { apply bind_ok in H as (b & c2 & _ & [= ]). }
  apply bind_ok in H as (u & c2 & Hw & H). unfold ret in H.
  assert (VerificationService.verify_ed25519_signature (Some pub) sp sig = true) as Hv by congruence.
  assert (c' = c2) as -> by congruence. clear H. rewrite Hv in Hw. cbn [when] in Hw.
  apply bind_ok in Hw as (u2 & c3 & [= -> <-] & Hw).
  exists sender, pub, sp, sig. split_and!; try done.
  - split.
    + assert (c_identity_keys c2 = dict_set sender pub (c_identity_keys c1)) as ->; [|apply dict_get_set_eq].
      revert Hw. unfold when, catch, ret, persist_tofu_pin, cdb_op, lift, TofuKeyStore.insert_if_absent, modify.
      case_bool_decide; cbn [negb]; intros Hw; by simplify_eq.
    + intros ->. simpl in Et. by destruct sig, sp, sender.
  - unfold VerificationService.verify_ed25519_signature in Hv. by destruct (zlen pub =? 32).
Qed.

Lemma signed_by_pin_kept c c' m : pins_kept c c' → signed_by_pin c m → signed_by_pin c' m.
Proof using. intros [H _] (s & k & sp & sig & H1 & H2 & H3 & H4 & H5 & H6). exists s, k, sp, sig. split_and!; auto. Qed.

(** The flag a message gets, and what it says. *)
Definition flagged (c : Client) (m m' : msg) : Prop :=
  ∃ b, m' = dict_set "verified" (VBool b) m ∧ (b = true → signed_by_pin c m).

Lemma mark_verified_spec msgs : ∀ acc c out c',
  mfold (λ acc msg, let! verified := verify_message_signature msg in
    ret (acc ++ [dict_set "verified" (VBool (bool_decide (verified = Some true))) msg])) acc msgs c = (Ok out, c') →
  ∃ l, out = acc ++ l ∧ Forall2 (flagged c') msgs l ∧ pins_kept c c'.
Proof using.
  induction msgs as [|m msgs IH]; intros acc c out c'; cbn [mfold].
  { intros [= -> ->]. exists []. by rewrite app_nil_r. }
  intros (acc1 & c1 & (v & c2 & Hv & [= <- <-])%bind_ok & H)%bind_ok.
  apply IH in H as (l & -> & Hl & Hk). apply (mrel_ok _ _ _ _ _ (verify_pins m)) in Hv as Hk1.
  eexists (_ :: l). rewrite <- app_assoc. split; [done|]. split; [|by etrans]. constructor; [|done].
  eexists. split; [done|]. case_bool_decide as Ev; [|done]. subst. intros _.
  apply (signed_by_pin_kept c2); [done|]. by apply (verify_signed m c).
Qed.

(** C25: Of a page of history, the messages handed on are those of the page,
    each marked verified or not, whatever mark it came with; a message marked
    verified carries a valid signature under the key its sender is pinned to,
    so one that was signed under another key than the pinned one never is. *)
Theorem history_verified data c ch out latest c' :
  handle_history data c = (Ok (Some (ch, out, latest)), c') →
  ∃ msgs, match dict_get "messages" data with None => Ok [] | Some v => dicts_of v end = Ok msgs
  ∧ Forall2 (flagged c') msgs out
  ∧ ∀ s k m', pinned c s k → m' ∈ out → mget "verified" m' = VBool true → mget "sender_hash" m' = VStr s →
      mget "sender_public_key" m' = VBytes k.
Proof using.
  unfold handle_history. cbv zeta. destruct (negb (ostr_true _)); [done|].
  intros (msgs & c1 & [= Hm ->] & (out' & c2 & Hmark & H)%bind_ok)%bind_ok.
  assert (out' = out ∧ same_pins c2 c') as [-> Hsame].
  { revert H. destruct (negb (list_true out')).
    { intros (c3 & c4 & [= -> ->] & [= _ <- _ <-])%bind_ok. by split. }
    destruct (mapM seq_of out') as [seqs|]; [|done].
    intros (c3 & c4 & [= -> ->] & (u & c5 & Hw & (u2 & c6 & [= _ <-] & [= _ <- _ <-])%bind_ok)%bind_ok)%bind_ok.
    split; [done|]. revert Hw. unfold when, modify, ret. destruct (list_true _); intros Hw; simplify_eq; by split. }
  unfold mark_verified in Hmark. apply mark_verified_spec in Hmark as (l & -> & Hl & Hk). rewrite app_nil_l in *.
  apply same_pins_kept in Hsame.
  assert (Forall2 (flagged c') msgs l) as Hl'.
  { eapply Forall2_impl; [exact Hl|]. intros m m' (b & -> & Hb). exists b. split; [done|]. intros ->.
    by eapply signed_by_pin_kept, Hb. }
  exists msgs. split_and!; [done|done|]. intros s k m' Hp Hin Hv Hs.
  apply list_elem_of_lookup in Hin as [i Hi]. destruct (Forall2_lookup_r _ _ _ _ _ Hl' Hi) as (m & _ & b & -> & Hb).
  unfold mget in Hv, Hs |- *. rewrite dict_get_set_eq in Hv. injection Hv as ->.
  rewrite dict_get_set_ne in Hs |- * by done.
  destruct (Hb eq_refl) as (s' & k' & sp & sig & E1 & E2 & _ & _ & [Hp' _] & _). unfold mget in E1, E2.
  rewrite Hs in E1. injection E1 as <-. rewrite E2.
  assert (pinned c' s k) as [Hk' _] by (by apply Hsame, Hk). congruence.
Qed.

(** The signature says nothing of what is displayed: the same mark is given
    whatever the body says. *)
Theorem verified_body_free m body c :
  (verify_message_signature (dict_set "body" (VStr body) m) c).1 = (verify_message_signature m c).1.
Proof using.
  unfold verify_message_signature, mget. rewrite !dict_get_set_ne by done. done.
Qed.
End verified.

(** ** Sealed messages *)

(** C26: A member reads a sealed message: once the client has taken the key a
    node served for a channel, a message of the channel that was sealed with
    it, as the node encodes it for clients that keep ciphertext, is rendered as
    the text that was sealed, from the wire and from the cache alike, if it is
    of the epoch of the key; a message of another epoch is rendered as the
    marker and never as anything else. *)
Theorem sealed_rendered `{A : Aead} `{!AeadLaws A} `{J : Json} dec blob key epoch ch p nonce m mgr now c data :
  dec blob = Some key → zlen key = 32 → blob ≠ [] → ch ≠ "" →
  dict_get "channel_id" data = Some (VStr ch) → dict_get "epoch" data = Some (VInt epoch) →
  dict_get "encrypted_key_blob" data = Some (VBytes blob) →
  m_channel_id m = ch → m_encryption_nonce m = Some nonce → nonce ≠ [] → m_body m = None →
  m_encrypted_body m = Some (aead_encrypt key nonce (str_bytes p) (str_bytes ch)) →
  aead_encrypt key nonce (str_bytes p) (str_bytes ch) ≠ [] → utf8_valid (str_bytes p) = true →
  let db := c_db (_handle_sealed_key_response (Some dec) data c).2 in
  let wire := encode_message_for_wire m (Some mgr) true in
  ∀ e, m_encryption_epoch m = Some e →
  let shown := if e =? epoch then p else DECRYPT_FAILED_MARKER in
  body_for_render wire db = shown
  ∧ ∀ r, MessageStore.row_of now wire = Ok r → body_for_render (MessageStore.to_dict r) db = shown.
Proof.
  intros Hdec Hlen Hblob Hch D1 D2 D3 Hmch Hn Hn0 Hbody Henc Henc0 Hutf db wire e He shown.
  set (enc := aead_encrypt key nonce (str_bytes p) (str_bytes ch)) in *.
  assert (SealedKeyStore.get ch db = Some (key, epoch)) as Hkey.
  { unfold db, _handle_sealed_key_response, get_str, mget. rewrite D1, D2, D3. cbn [default id].
    assert (str_true ch && list_true blob = true) as ->.
    { unfold str_true. rewrite bool_decide_false by done. by destruct blob. }
    cbn [negb]. rewrite Hdec, Hlen. simpl. unfold SealedKeyStore.get. simpl. apply lookup_insert_eq. }
  assert (∀ d, dict_get "body" d = Some (VStr "") → dict_get "encrypted_body" d = Some (VBytes enc) →
    dict_get "encryption_nonce" d = Some (VBytes nonce) → dict_get "channel_id" d = Some (VStr ch) →
    dict_get "encryption_epoch" d = Some (VInt e) → body_for_render d db = shown) as Hrender.
  { intros d B1 B2 B3 B4 B5. unfold body_for_render, mget, get_str. rewrite B1, B2, B3, B4, B5. cbn [default id].
    change (str_true "") with false. cbn iota.
    assert (list_true enc && list_true nonce = true) as -> by (by destruct enc, nonce).
    assert (str_true (or_empty (Some ch)) = true) as -> by (unfold str_true; by rewrite bool_decide_false).
    change (or_empty (Some ch)) with ch. rewrite Hkey. unfold shown. destruct (e =? epoch); [|done]. cbn [negb].
    unfold enc. rewrite aead_roundtrip. simpl. unfold utf8_decode. rewrite Hutf. simpl. apply bytes_str_bytes. }
  assert (wire = dict_set "encryption_epoch" (VInt e) (dict_set "encryption_nonce" (VBytes nonce)
    (dict_set "encrypted_body" (VBytes enc) (dict_set "body" (VStr "") (encode_message_for_sync m))))) as Hw.
  { unfold wire, encode_message_for_wire. rewrite Henc, Hn, He. by destruct enc, nonce. }
  assert (mget "body" wire = VStr "" ∧ mget "encrypted_body" wire = VBytes enc ∧ mget "encryption_nonce" wire = VBytes nonce
    ∧ mget "channel_id" wire = VStr ch ∧ mget "encryption_epoch" wire = VInt e) as (W1 & W2 & W3 & W4 & W5).
  { rewrite Hw. unfold mget. rewrite !dict_get_set_eq.
    do 4 (try rewrite (dict_get_set_ne "encryption_epoch") by done; try rewrite (dict_get_set_ne "encryption_nonce") by done;
      try rewrite (dict_get_set_ne "encrypted_body") by done; try rewrite (dict_get_set_ne "body") by done; rewrite ?dict_get_set_eq).
    simpl. by rewrite Hmch. }
  split.
  - apply Hrender; rewrite Hw.
    all: repeat (rewrite dict_get_set_eq || rewrite dict_get_set_ne by done); try done. simpl. by rewrite Hmch.
  - intros r. unfold MessageStore.row_of. rewrite W4.
    destruct (mget "msg_hash" wire) as [| | | |h| | |]; try done. destruct (mget "seq" wire) as [| |sq| | | | |]; try done.
    destruct (MessageStore.as_float (mget "timestamp" wire)) as [ts|]; [|done].
    destruct (mget "type" wire) as [| |ty| | | | |]; try done. intros [= <-]. apply Hrender; simpl; by rewrite ?W1, ?W2, ?W3, ?W5.
Qed.

(** ** Live messages, and witnesses *)

Definition alice_key : bytes := replicate 32 7.
Definition mallory_key : bytes := replicate 32 9.
Definition live_msg (extra : msg) : msg :=
  [("msg_hash", VStr "h"); ("channel_id", VStr "c"); ("sender_hash", VStr "alice"); ("seq", VInt 5); ("timestamp", VFloat (fz 5));
   ("type", VInt MSG_TEXT); ("body", VStr "pay mallory")] ++ extra.
Definition signed_with (key : bytes) : msg :=
  [("sender_public_key", VBytes key); ("lxmf_signed_part", VBytes [1]); ("lxmf_signature", VBytes (key ++ [1]))].

(** Alice is pinned. *)
Definition trust_client : Client :=
  c_set_keys (λ _, [("alice", alice_key)]) (new_client (set_ctofu (λ _, {[ "alice" := alice_key ]}) empty_cdb)).
Definition trust_app : App := a_set_client trust_client (new_app empty_cdb).

Lemma trust_client_ok : pins_ok trust_client.
Proof.
  intros s. simpl. destruct (decide (s = "alice")) as [->|Hne]; [done|]. by rewrite lookup_singleton_ne.
Qed.

(** A live message without signature keeps the mark it came with: what a node
    sends as verified is cached as verified, in the name of a sender that is
    pinned to a key. *)
Theorem live_mark_unchecked :
  let a := (@live_message toy_json toy_ed true (fz 9) (live_msg [("verified", VBool true)]) trust_app).2 in
  cm_verified <$> cdb_messages (c_db (a_client a)) !! "h" = Some true.
Proof. vm_compute. reflexivity. Qed.

Definition trust_net : Net := {| net_recall := λ _, None; net_has_path := λ _, true; net_shared := true; net_load_key := λ _, true |}.
Definition trust_pack : Msgpack := table_msgpack
  [VDict [("event", VStr "message"); ("data", VDict (live_msg (signed_with mallory_key)))]].

Lemma pins_for_good_witness :
  pinned (a_client (foldl (@run_app_step toy_json toy_ed trust_pack true None None (λ _, []))
    trust_app [SPacket 3 trust_net (fz 9) [0]; SAlarm trust_net (fz 9); SRestart])) "alice" alice_key
  ∧ pins_ok (a_client (foldl (@run_app_step toy_json toy_ed trust_pack true None None (λ _, []))
    trust_app [SPacket 3 trust_net (fz 9) [0]; SAlarm trust_net (fz 9); SRestart])).
Proof.
  apply (@pins_for_good toy_json toy_ed trust_pack true None None (λ _, []) trust_app).
  - exact trust_client_ok.
  - split; [reflexivity|discriminate].
Defined.

Definition trust_page : msg :=
  [("channel_id", VStr "c"); ("messages", VList [VDict (live_msg (signed_with alice_key)); VDict (live_msg (signed_with mallory_key))])].

Lemma history_verified_witness :
  ∃ out latest c', @handle_history toy_ed trust_page trust_client = (Ok (Some ("c", out, latest)), c')
  ∧ map (mget "verified") out = [VBool true; VBool false] ∧ latest = 5
  ∧ Forall2 (@flagged toy_ed c') [live_msg (signed_with alice_key); live_msg (signed_with mallory_key)] out.
Proof.
  destruct (@handle_history toy_ed trust_page trust_client) as [r c'] eqn:E.
  assert (∃ out, r = Ok (Some ("c", out, 5)) ∧ map (mget "verified") out = [VBool true; VBool false]) as (out & -> & Hout).
  { pose proof (f_equal fst E) as Er. vm_compute in Er. rewrite <- Er. eexists. split; [reflexivity|]. vm_compute. reflexivity. }
  destruct (@history_verified toy_ed trust_page trust_client "c" out 5 c' E) as (msgs & Hm & Hf & _).
  exists out, 5, c'. split; [reflexivity|]. split; [exact Hout|]. split; [reflexivity|].
  vm_compute in Hm. injection Hm as <-. exact Hf.
Defined.

Definition sealed_blob_data : msg := [("channel_id", VStr "c"); ("epoch", VInt 2); ("encrypted_key_blob", VBytes (8 :: alice_key))].
Definition open_blob (b : bytes) : option bytes := match b with 8 :: k => Some k | _ => None end.
Definition sealed_message (e : Z) : Message := {|
  m_msg_hash := "h"; m_channel_id := "c"; m_sender_hash := None; m_seq := Some 1;
  m_timestamp := fz 1; m_type := MSG_TEXT; m_body := None; m_media_path := None;
  m_media_meta := None; m_reply_to := None; m_thread_seq := None; m_ttl := None;
  m_received_at := fz 1; m_deleted := false; m_deleted_by := None; m_pinned := false;
  m_pinned_at := None; m_edit_chain := []; m_reactions := []; m_lxmf_signature := None;
  m_lxmf_signed_part := None; m_display_name := None; m_mentions := []; m_origin_node := None;
  m_encrypted_body := Some (@aead_encrypt toy_aead alice_key [3] (str_bytes "hi") (str_bytes "c"));
  m_encryption_nonce := Some [3]; m_encryption_epoch := Some e |}.

Lemma sealed_rendered_witness :
  let db := c_db (_handle_sealed_key_response (Some open_blob) sealed_blob_data trust_client).2 in
  @body_for_render toy_aead (@encode_message_for_wire toy_aead (sealed_message 2) (Some SealedChannelManager.init) true) db = "hi"
  ∧ @body_for_render toy_aead (@encode_message_for_wire toy_aead (sealed_message 3) (Some SealedChannelManager.init) true) db
    = DECRYPT_FAILED_MARKER.
Proof.
  assert (∀ e, @body_for_render toy_aead (@encode_message_for_wire toy_aead (sealed_message e) (Some SealedChannelManager.init) true)
    (c_db (_handle_sealed_key_response (Some open_blob) sealed_blob_data trust_client).2)
    = if e =? 2 then "hi" else DECRYPT_FAILED_MARKER) as H.
  { intros e. apply (@sealed_rendered toy_aead toy_aead_laws toy_json open_blob (8 :: alice_key) alice_key 2 "c" "hi" [3]
      (sealed_message e) SealedChannelManager.init (fz 0) trust_client sealed_blob_data); try reflexivity; discriminate. }
  split; apply H.
Defined.
