(* ===== verification/ClientSync.v ===== *)
(** * The client against a node

    The client's rounds of history requests against the node's history
    handler, and the life of its links: what a disconnected client does not
    do, and how it comes back. *)

From S2P Require Import Prelude Constants Models Queries Permissions RateLimit Ban Sealed Sequencer Message Ingest Wire Verification History Metadata Server InviteCodes Epoch FedAuth ClientDb Client ClientApp ClientSteps ClientTrust.

(** ** Catching up *)

Definition cursor (ch : string) (c : Client) : Z := default 0 (dict_get ch (c_cursors c)).

Definition same_cursors (c c' : Client) : Prop := c_cursors c' = c_cursors c.
#[export] Instance same_cursors_preorder : PreOrder same_cursors.
Proof. split; [by intros c|]. intros a b c H1 H2. unfold same_cursors in *. congruence. Qed.

Lemma dicts_of_docs l : dicts_of (docs l) = Ok l.
Proof.
  unfold dicts_of, docs.
  assert (mapM (λ x, match x with VDict d => Some d | _ => None end) (map VDict l) = Some l) as ->; [|done].
  induction l as [|d l IH]; [done|]. simpl. by rewrite IH.
Qed.

(** The highest of ascending numbers is the last. *)
Lemma sorted_max l : ∀ k, StronglySorted seq_lt_rel l → (∀ m, m ∈ l → k < Queries.seq_of m) →
  foldl Z.max k (map Queries.seq_of l) = match last l with Some m => Queries.seq_of m | None => k end.
Proof.
  induction l as [|m l IH]; intros k Hs Hk; [done|]. apply StronglySorted_inv in Hs as [Hs Hm]. rewrite Forall_forall in Hm.
  cbn [map foldl]. rewrite Z.max_r by (specialize (Hk m); set_solver by lia). rewrite IH; [|done..].
  destruct l as [|m' l]; [done|]. rewrite last_cons_cons. destruct (last (m' :: l)) eqn:E; [done|]. by apply last_None in E.
Qed.

Section catch_up.
Context {A : Aead} {HE : Ed25519}.

(** Checking a signature always returns. *)
Lemma verify_total m c : ∃ v c', verify_message_signature m c = (Ok v, c') ∧ same_cursors c c'.
Proof using.
  unfold verify_message_signature. destruct (negb _); [by exists None, c|].
  destruct (mget "sender_hash" m) as [| | | |sender| | |]; try (by exists (Some false), c).
  destruct (mget "sender_public_key" m) as [| | | | |pub| |]; try (by exists (Some false), c).
  destruct (mget "lxmf_signed_part" m) as [| | | | |sp| |]; try (by exists (Some false), c).
  destruct (mget "lxmf_signature" m) as [| | | | |sig| |]; try (by exists (Some false), c).
  unfold bind at 1, get.
  match goal with |- context [(if ?b then note_tofu_warning _ ;; _ else _) _] => destruct b end.
  - unfold note_tofu_warning, bind, get. destruct (bool_decide _); by do 2 eexists.
  - destruct (VerificationService.verify_ed25519_signature _ sp sig); [|by do 2 eexists].
    unfold bind, when, modify. destruct (negb _); by do 2 eexists.
Qed.

Lemma mark_total msgs : ∀ acc c, ∃ out c',
  mfold (λ acc msg, let! verified := verify_message_signature msg in
    ret (acc ++ [dict_set "verified" (VBool (bool_decide (verified = Some true))) msg])) acc msgs c = (Ok (acc ++ out), c')
  ∧ same_cursors c c' ∧ Forall2 (λ m m', ∃ b, m' = dict_set "verified" (VBool b) m) msgs out.
Proof using.
  induction msgs as [|m msgs IH]; intros acc c; cbn [mfold].
  { exists [], c. rewrite app_nil_r. by split_and!. }
  destruct (verify_total m c) as (v & c1 & Hv & H1).
  rewrite (bind_run_ok _ _ c (acc ++ [dict_set "verified" (VBool (bool_decide (v = Some true))) m]) c1)
    by (by rewrite (bind_run_ok _ _ _ _ _ Hv)).
  destruct (IH (acc ++ [dict_set "verified" (VBool (bool_decide (v = Some true))) m]) c1) as (out & c2 & -> & H2 & Hf).
  eexists (_ :: out), c2. rewrite <- app_assoc. split; [done|]. split; [by etrans|]. constructor; [by eexists|done].
Qed.

(** A page of numbered messages moves the cursor to its highest number. *)
Lemma take_history ch msgs seqs data c :
  str_true ch = true → dict_get "channel_id" data = Some (VStr ch) → dict_get "messages" data = Some (docs msgs) →
  mapM Client.seq_of msgs = Some seqs →
  ∃ out c', Client.handle_history data c = (Ok (Some (ch, out, foldl Z.max (cursor ch c) seqs)), c')
  ∧ cursor ch c' = foldl Z.max (cursor ch c) seqs
  ∧ Forall2 (λ m m', ∃ b, m' = dict_set "verified" (VBool b) m) msgs out.
Proof using.
  intros Hne Hch Hm Hseq. unfold Client.handle_history, get_str. rewrite Hch, Hm. cbn [ostr_true or_empty default id].
  rewrite Hne, dicts_of_docs. cbn [negb].
  rewrite (bind_run_ok _ _ c msgs c) by done. destruct (mark_total msgs [] c) as (out & c1 & Hmark & Hcur & Hf).
  rewrite app_nil_l in Hmark. unfold mark_verified. rewrite (bind_run_ok _ _ _ _ _ Hmark).
  assert (mapM Client.seq_of out = Some seqs) as Hseq'.
  { revert seqs Hseq. clear -Hf. induction Hf as [|m m' l l' (b & ->) _ IH]; intros seqs; simpl; [done|].
    assert (Client.seq_of (dict_set "verified" (VBool b) m) = Client.seq_of m) as ->
      by (unfold Client.seq_of; by rewrite dict_get_set_ne).
    destruct (Client.seq_of m) as [z|]; simpl; [|done].
    destruct (mapM Client.seq_of l) as [zs|]; simpl; [|done]. by rewrite (IH zs eq_refl). }
  unfold cursor. rewrite <- Hcur. destruct (list_true out) eqn:Eo; cbn [negb].
  - rewrite Hseq', (bind_run_ok _ _ c1 c1 c1) by done. cbv zeta.
    match goal with |- context [when ?b (modify ?f)] =>
      rewrite (bind_run_ok (when b (modify f)) _ c1 tt (if b then f c1 else c1)) by (by destruct b) end.
    match goal with |- context [if ?b then ?x else c1] => set (c2 := if b then x else c1);
      assert (c_cursors c2 = c_cursors c1) as E by (unfold c2; by destruct b) end.
    do 2 eexists. split; [done|]. simpl. rewrite dict_get_set_eq. by split.
  - destruct out; [|done]. injection Hseq' as <-. by do 2 eexists.
Qed.

(** The node, and who the client is to it. *)
Context (ctx : SyncContext) (req : option string) (s : Sync) (ch : string) (now : float).

(** One request from the cursor, the node's answer, and what the client makes
    of it. *)
Definition round : M Client (list msg) :=
  let! c := get in
  match History.handle_history ctx (history_payload ch (cursor ch c) 50) None req s with
  | (Ok r, _) =>
      match document (HistoryReply now r) with
      | Some data =>
          let! taken := Client.handle_history data in
          ret (match taken with Some (_, messages, _) => messages | None => [] end)
      | None => ret []
      end
  | (Raise _, _) => ret []
  end.
Fixpoint rounds (n : nat) : M Client (list msg) :=
  match n with
  | O => ret []
  | S n => let! page := round in let! rest := rounds n in ret (page ++ rest)
  end.

Section served.
Context (channel : Channel) (s1 : Sync).
Let profile := get_session_profile ctx req (sy_db s).
Hypothesis readable : check_channel_read ctx ch req s = (Ok channel, s1).
Hypothesis forward : history_direction profile ≠ Some "backward".
Hypothesis named : ch ≠ "".
Hypothesis distinct : seqs_distinct ch (sy_db s).

(** The client asks for fifty, the profile may allow it less. *)
Definition page_size : Z := Z.min 50 (max_sync_limit profile).

Lemma page_size_positive : 1 ≤ page_size.
Proof using. pose proof (profile_positive ctx req (sy_db s)). unfold page_size, profile. lia. Qed.

(** What the page after a number shows. *)
Definition shown_of (since : Z) : list Message := List.filter is_shown (ztake page_size (after ch since (sy_db s))).

Lemma served_page since : ∃ r f,
  History.handle_history ctx (history_payload ch since 50) None req s = (Ok r, s1)
  ∧ hr_channel_id r = ch ∧ hr_messages r = map f (shown_of since)
  ∧ ∀ x, dict_get "seq" (f x) = Some (val_of VInt (m_seq x)) ∧ dict_get "msg_hash" (f x) = Some (VStr (m_msg_hash x)).
Proof using readable forward named.
  clear distinct. apply check_channel_read_ok in readable as Hs1. destruct Hs1 as (Hdb & _).
  unfold History.handle_history. change (get_str "channel_id" None (history_payload ch since 50)) with (Some ch).
  assert (ostr_true (Some ch) = true) as -> by (by destruct ch). cbn [negb]. change (or_empty (Some ch)) with ch. cbv zeta.
  rewrite (bind_run_ok _ _ _ _ _ readable), (bind_run_ok (gets sy_db) _ s1 (sy_db s1) s1) by done. rewrite Hdb.
  assert (history_rows profile (history_payload ch since 50) ch (sy_db s)
    = Ok (page_size, ztake page_size (after ch since (sy_db s)))) as Hrows.
  { unfold history_rows. change (get_int "since_seq" 0 (history_payload ch since 50)) with (Ok since).
    change (get_int "limit" (default_sync_limit profile) (history_payload ch since 50)) with (Ok 50).
    rewrite bool_decide_eq_false_2 by done. cbn [andb]. fold page_size.
    change (or_empty (get_str "direction" (Some "forward") (history_payload ch since 50))) with "forward". rewrite page_eq. unfold sql_limit.
    pose proof page_size_positive. destruct (Z.ltb_spec page_size 0); [lia|done]. }
  fold profile. rewrite Hrows, (bind_run_ok _ _ s1 (page_size, ztake page_size (after ch since (sy_db s))) s1) by done.
  fold (shown_of since).
  match goal with |- context [encode_messages_with_keys ?l ?mg ?b ?d] =>
    destruct (encoded_fields l mg b d) as (f & Hf & Hfields) end.
  eexists _, f. split; [done|]. simpl. by rewrite Hf.
Qed.

(** A round delivers what the next page shows, and moves the cursor to the last
    of it. *)
Lemma round_page c : let page := shown_of (cursor ch c) in
  ∃ out c', round c = (Ok out, c') ∧ map (mget "msg_hash") out = map (λ m, VStr (m_msg_hash m)) page
  ∧ cursor ch c' = match last page with Some m => Queries.seq_of m | None => cursor ch c end.
Proof using readable forward named distinct.
  intros page. destruct (served_page (cursor ch c)) as (r & f & Hr & Hch & Hms & Hf). fold page in Hms.
  destruct (shown_sorted page_size ch (cursor ch c) (sy_db s) distinct) as [Hps Hnum]. fold (shown_of (cursor ch c)) in Hps, Hnum. fold page in Hps, Hnum.
  assert (mapM Client.seq_of (map f page) = Some (map Queries.seq_of page)) as Hseq.
  { clear -Hnum Hf. induction page as [|m l IH]; [done|]. simpl.
    assert (Client.seq_of (f m) = Some (Queries.seq_of m)) as ->
      by (unfold Client.seq_of; by rewrite (proj1 (Hf m)), (proj1 (Hnum m ltac:(set_solver)))).
    simpl. rewrite IH; [done|set_solver]. }
  unfold round. rewrite (bind_run_ok _ _ c c c) by done. rewrite Hr. cbn [document]. rewrite Hch, Hms.
  destruct (take_history ch (map f page) (map Queries.seq_of page)
    [("action", VStr "history"); ("channel_id", VStr ch); ("messages", docs (map f page));
     ("latest_seq", VInt (hr_latest_seq r)); ("has_more", VBool (hr_has_more r)); ("gap_explanation", VNone);
     ("node_time", VFloat now); ("sync_profile", VInt (hr_sync_profile r))] c) as (out & c' & Ht & Hc & Hout);
    [by destruct ch|done..|].
  exists out, c'. rewrite (bind_run_ok _ _ _ _ _ Ht). split; [done|]. split.
  - clear -Hout Hf. clearbody page. remember (map f page) as l eqn:E. revert page E.
    induction Hout as [|m m' l l' (b & ->) _ IH]; intros [|x p]; try done. intros [= -> ->]. simpl.
    unfold mget at 1. rewrite dict_get_set_ne, (proj2 (Hf x)) by done. f_equal. by apply IH.
  - rewrite Hc. apply sorted_max; [done|]. intros m Hm. by apply Hnum.
Qed.

(** C10: The client catches up.  A client that may read a channel over a
    session whose profile does not force its pages backward (as
    [CDSP_PROFILE_PRIORITIZED] does), asks for page after page from its cursor.
    Unless a whole page consists of thread replies, which are left out of
    pages, the rounds bring every numbered row after the cursor that a page
    shows, exactly once and in order: after at most as many rounds as there are
    such rows none is left, and the hashes received are theirs. *)
Theorem client_catches_up n c :
  replies_sparse page_size (cursor ch c) ch (sy_db s) →
  (length (shown_after ch (cursor ch c) (sy_db s)) ≤ n)%nat →
  ∃ got c', rounds n c = (Ok got, c')
  ∧ map (mget "msg_hash") got = map (λ m, VStr (m_msg_hash m)) (shown_after ch (cursor ch c) (sy_db s))
  ∧ shown_after ch (cursor ch c') (sy_db s) = [].
Proof using readable forward named distinct.
  revert c. induction n as [|n IH]; intros c Hsp Hn.
  { exists [], c. destruct (shown_after _ _ _); [done|]. simpl in Hn. lia. }
  destruct (round_page c) as (out & c1 & Hr & Hout & Hcur). cbn [rounds]. rewrite (bind_run_ok _ _ _ _ _ Hr).
  destruct (shown_page page_size ch (cursor ch c) (sy_db s) page_size_positive distinct Hsp) as (Heq & Hle & Hemp & _).
  fold (shown_of (cursor ch c)) in Heq, Hle, Hemp. rewrite <- Hcur in Heq, Hle.
  destruct (IH c1) as (got & c2 & Hg & Hgot & Hend); [by eapply replies_sparse_later| |].
  { destruct (shown_of (cursor ch c)) as [|x page]; [rewrite (Hemp eq_refl) in Heq; cbn in Heq; rewrite <- Heq; simpl; lia|].
    rewrite Heq in Hn. simpl in Hn. rewrite length_app in Hn. lia. }
  exists (out ++ got), c2. rewrite (bind_run_ok _ _ _ _ _ Hg). split; [done|]. split; [|done].
  by rewrite map_app, Hout, Hgot, <- map_app, <- Heq.
Qed.
End served.
End catch_up.

(** ** A disconnected client *)

(** No link, and none waiting for its path. *)
Definition offline (c : Client) : Prop := cn_links (c_conn c) = [] ∧ cn_pending_connects (c_conn c) = [].
Definition quiet (c c' : Client) : Prop := offline c → offline c' ∧ c_sent c' = c_sent c.
#[export] Instance quiet_preorder : PreOrder quiet.
Proof. split; [by intros c|]. intros a b c H1 H2 H. destruct (H1 H) as [H3 H4], (H2 H3) as [H5 H6]. split; [done|congruence]. Qed.

Definition app_offline (a : App) : Prop := offline (a_client a) ∧ rc_targets (a_reconnect a) = [].
Definition app_quiet (a a' : App) : Prop := app_offline a → app_offline a' ∧ c_sent (a_client a') = c_sent (a_client a).
#[export] Instance app_quiet_preorder : PreOrder app_quiet.
Proof. split; [by intros c|]. intros a b c H1 H2 H. destruct (H1 H) as [H3 H4], (H2 H3) as [H5 H6]. split; [done|congruence]. Qed.

Ltac quiet_tac := repeat (mrel_step || (apply mrel_mfold; [typeclasses eauto|intros ? ?])
  || (apply mrel_catch; [typeclasses eauto| |intros ?])); try (by apply mrel_modify).

(** Without links there is none to send over, and none to share. *)
Lemma no_link ch c : offline c → active_link ch c = None ∧ find_active_link c = None.
Proof. intros [H _]. unfold active_link, get_link, find_active_link. by rewrite H. Qed.

Section disconnected.
Context `{J : Json} `{HE : Ed25519} `{HP : Msgpack} `{A : Aead}.
Context (loop : bool) (decrypt : option (bytes → option bytes)) (lxmf_source : option string) (draw : nat → bytes).

Ltac request_quiet := intros c Hc;
  unfold request_sealed_key, sync_history, subscribe_live, redeem_invite, init_session, request_node_meta, bind, get; rewrite (proj1 (no_link _ c Hc)); by split.
Lemma request_key_quiet now n ch : mrel quiet (request_sealed_key now n ch).
Proof using. request_quiet. Qed.
Lemma request_history_quiet now n ch since lim : mrel quiet (sync_history now n ch since lim).
Proof using. request_quiet. Qed.
Lemma subscribe_quiet now n ch : mrel quiet (subscribe_live now n ch).
Proof using. request_quiet. Qed.
Lemma redeem_quiet now n ch tok : mrel quiet (redeem_invite now n ch tok).
Proof using. request_quiet. Qed.
Lemma session_quiet now n ch : mrel quiet (init_session now n lxmf_source ch).
Proof using. request_quiet. Qed.
Lemma request_meta_quiet now n ch : mrel quiet (request_node_meta now n ch).
Proof using. request_quiet. Qed.

Lemma register_quiet net ch d p : mrel quiet (register_on_link net ch d p).
Proof using.
  unfold register_on_link. apply mrel_bind; [typeclasses eauto|quiet_tac|]. intros _ c Hc. unfold bind, get.
  destruct (dict_has ch _); [done|]. by rewrite (proj2 (no_link ch c Hc)).
Qed.
Lemma retry_quiet net : mrel quiet (retry_pending_connects net).
Proof using. intros c Hc. unfold retry_pending_connects, bind, get. by rewrite (proj2 Hc). Qed.
Lemma verify_quiet m : mrel quiet (verify_message_signature m).
Proof using. unfold verify_message_signature, note_tofu_warning, persist_tofu_pin, cdb_op. quiet_tac. Qed.
Lemma history_quiet d : mrel quiet (Client.handle_history d).
Proof using. unfold Client.handle_history, mark_verified. quiet_tac. apply verify_quiet. Qed.
Lemma node_meta_quiet d : mrel quiet (Client.handle_node_meta d).
Proof using. unfold Client.handle_node_meta, meta_channel. quiet_tac. Qed.

Lemma client_quiet {B} (m : M Client B) : mrel quiet m → mrel app_quiet (client_op m).
Proof using.
  intros Hm a [Ha Ht]. unfold client_op, lift. specialize (Hm (a_client a) Ha). destruct (m (a_client a)) as [r c].
  destruct Hm as [H1 H2]. by split.
Qed.
Lemma db_quiet {B} (m : M ClientDB B) : mrel quiet (cdb_op m).
Proof using. intros c Hc. unfold cdb_op, lift. by destruct (m (c_db c)). Qed.

#[local] Instance quiet_rel : AppRel quiet app_quiet.
Proof using.
  constructor; try typeclasses eauto; intros;
    first [ by apply client_quiet | by apply mrel_modify | apply db_quiet | apply verify_quiet | apply history_quiet
          | apply node_meta_quiet | apply register_quiet | apply request_key_quiet | apply request_history_quiet
          | apply subscribe_quiet | apply redeem_quiet ].
Qed.

Lemma nonce_quiet k : (∀ n, mrel quiet (k n)) → mrel app_quiet (with_nonce draw k).
Proof using HE HP. apply (nonce_kept draw quiet app_quiet). Qed.
Lemma dispatch_quiet net now ty d : mrel app_quiet (dispatch_event loop draw (λ _, ret tt) net now ty d).
Proof using. apply (dispatch_kept loop draw quiet app_quiet). intros b. mrel_step. Qed.

Lemma established_quiet now l ch : mrel app_quiet (_handle_established loop lxmf_source draw now l ch).
Proof using HE HP.
  unfold _handle_established, _on_link_established, schedule. quiet_tac.
  all: try (apply client_quiet; by apply mrel_modify).
  all: apply nonce_quiet; intros n; auto using redeem_quiet, session_quiet, request_key_quiet, request_history_quiet,
    subscribe_quiet, request_meta_quiet.
Qed.
Lemma closed_quiet net now l ch : mrel app_quiet (_handle_closed loop draw net now l ch).
Proof using.
  unfold _handle_closed, _on_link_closed. quiet_tac.
  - apply client_quiet. apply mrel_modify. intros c [H1 H2]. split; [|done]. split; [|done]. simpl. by rewrite H1.
  - apply mrel_modify. intros a' [H1 H2]. unfold trigger, app_offline. simpl. rewrite H2. done.
  - apply dispatch_quiet.
Qed.
Lemma tick_quiet net now : mrel app_quiet (reconnect_tick loop draw net now).
Proof using. unfold reconnect_tick. quiet_tac. apply dispatch_quiet. Qed.
Lemma attempt_quiet net : mrel app_quiet (reconnect_attempt net).
Proof using.
  intros a Ha. unfold reconnect_attempt. rewrite (bind_run_ok get _ a a a) by done. cbv beta zeta.
  rewrite (proj2 Ha). destruct (rc_thread (a_reconnect a)); try done.
  destruct (rc_stop _), (rc_user_disconnected _); done.
Qed.
Lemma disconnect_quiet ch : mrel app_quiet (disconnect_channel ch).
Proof using.
  unfold disconnect_channel. quiet_tac.
  - apply mrel_modify. intros a [H1 H2]. split; [|done]. split; [done|]. simpl. by rewrite H2.
  - apply client_quiet. unfold disconnect_link. intros c [H1 H2]. unfold bind, get, get_link. by rewrite H1.
Qed.
(** The steps that open links or start anew. *)
Definition opens (st : app_step) : bool := match st with SConnect _ _ _ | SRestart => true | _ => false end.

Lemma step_quiet a st : opens st = false → app_quiet a (run_app_step loop decrypt lxmf_source draw a st).
Proof using.
  destruct st; try done; intros _; cbn [run_app_step].
  - apply (packet_kept loop decrypt draw quiet app_quiet).
  - apply (alarm_kept draw quiet app_quiet).
  - apply established_quiet.
  - apply closed_quiet.
  - apply tick_quiet.
  - apply attempt_quiet.
  - apply client_quiet, retry_quiet.
  - apply disconnect_quiet.
Qed.

(** Disconnecting is final.  After the user has disconnected, whatever
    packets still arrive, whichever links RNS reports up or down, whatever
    updates and reconnection attempts were under way: the client has no link,
    and sends nothing, until it is told to connect. *)
Theorem disconnected_for_good a steps :
  let a0 := (disconnect_all a).2 in
  let a1 := foldl (run_app_step loop decrypt lxmf_source draw) a0 steps in
  forallb (λ st, negb (opens st)) steps = true →
  cn_links (c_conn (a_client a1)) = [] ∧ c_sent (a_client a1) = c_sent (a_client a).
Proof using.
  intros a0 a1 Hs.
  assert (app_offline a0) as H0 by done.
  assert (app_quiet a0 a1) as H1.
  { unfold a1. clearbody a0. clear H0 a1 a. revert a0. induction steps as [|st steps IH]; intros a0; [done|].
    apply andb_true_iff in Hs as [H1%negb_true_iff H2]. simpl. etrans; [by apply step_quiet|]. by apply IH. }
  destruct (H1 H0) as [[[H2 _] _] H3]. by split.
Qed.
End disconnected.

(** ** Coming back *)

Section recovery.
Context `{J : Json} `{HE : Ed25519} `{HP : Msgpack} `{A : Aead}.
Context (loop : bool) (draw : nat → bytes) (net : Net).

(** RNS knows the destination's identity and a way to it. *)
Definition reachable (d : bytes) : Prop := is_Some (net_recall net d) ∧ net_has_path net d || net_shared net = true.

(** [k]: the number of the first link that is new. *)
Definition fresh_link (k : nat) (ch : string) (c : Client) : Prop := ∃ l, get_link ch c = Some l ∧ (k ≤ l)%nat.

Lemma connect_opens d ch c : reachable d → ∃ c', connect_channel net d ch c = (Ok tt, c')
  ∧ cn_links (c_conn c') = dict_set ch (cn_next (c_conn c)) (cn_links (c_conn c)) ∧ cn_active (c_conn c') = cn_active (c_conn c)
  ∧ cn_next (c_conn c') = S (cn_next (c_conn c)).
Proof using.
  intros [[i Hi] Hp]. unfold connect_channel. rewrite (bind_run_ok (modify _) _ c tt _ eq_refl).
  rewrite (bind_run_ok get _ _ _ _ eq_refl). cbv zeta.
  assert (∃ i, match dict_get ch (cn_channel_identities (c_conn (c_set_conn (set_channel_dest_hashes (dict_set ch d)) c))) with
          | Some i => Some i | None => net_recall net d end = Some i) as [i' ->]
    by (destruct (dict_get ch _); eauto).
  rewrite (bind_run_ok (ret _) _ _ (Some i') _ eq_refl).
  assert (negb (net_has_path net d) && negb (net_shared net) = false) as -> by (by destruct (net_has_path net d), (net_shared net)).
  by eexists.
Qed.

Lemma attempt_loop targets : ∀ a,
  NoDup targets.*1 → (∀ p, p ∈ targets → reachable p.2) →
  (∀ p l, p ∈ targets → get_link p.1 (a_client a) = Some l → is_active l (a_client a) = false) →
  ∃ a', mfold (λ _ p, let! a := get in
          if is_connected p.1 (a_client a) then ret tt
          else catch (client_op (connect_channel net p.2 p.1)) (λ _, ret tt)) tt targets a = (Ok tt, a')
  ∧ a_reconnect a' = a_reconnect a ∧ (cn_next (c_conn (a_client a)) ≤ cn_next (c_conn (a_client a')))%nat
  ∧ (∀ ch, ch ∉ targets.*1 → get_link ch (a_client a') = get_link ch (a_client a))
  ∧ ∀ p, p ∈ targets → fresh_link (cn_next (c_conn (a_client a))) p.1 (a_client a').
Proof using.
  induction targets as [|[ch d] targets IH]; intros a Hnd Hreach Hin.
  { exists a. split_and!; try done. intros p Hp. by apply elem_of_nil in Hp. }
  csimpl in Hnd. apply NoDup_cons in Hnd as [Hch Hnd]. cbn [mfold].
  destruct (connect_opens d ch (a_client a)) as (c1 & Hc & Hl & Hact & Hn); [apply (Hreach (ch, d)); left|].
  assert (is_connected ch (a_client a) = false) as Hoff.
  { unfold is_connected. destruct (get_link ch (a_client a)) as [l|] eqn:E; [|done]. apply (Hin (ch, d)); [left|done]. }
  set (a1 := a_set_client c1 a).
  match goal with |- context [bind ?m _ _] => assert (m a = (Ok tt, a1)) as E1 end.
  { rewrite (bind_run_ok get _ a a a) by done. cbn [fst]. rewrite Hoff. unfold catch, client_op, lift. cbn [snd]. by rewrite Hc. }
  rewrite (bind_run_ok _ _ _ _ _ E1). destruct (IH a1 Hnd) as (a' & Hrun & Hr & Hnx & Hout & Hfresh).
  { intros p Hp. apply Hreach. by right. }
  { intros p l Hp Hg. unfold is_active, get_link in *. simpl in *. rewrite Hact. rewrite Hl in Hg.
    rewrite dict_get_set_ne in Hg; [apply (Hin p); [by right|done]|]. intros <-. apply Hch. apply list_elem_of_fmap. eauto. }
  exists a'. split; [done|]. split; [done|]. simpl in Hnx, Hfresh. rewrite Hn in Hnx, Hfresh. split; [lia|]. split.
  - intros x Hx. csimpl in Hx. rewrite Hout by set_solver. unfold get_link. simpl. rewrite Hl. apply dict_get_set_ne. set_solver.
  - intros p [->|Hp]%elem_of_cons.
    + exists (cn_next (c_conn (a_client a))). cbn [fst]. rewrite Hout by done. unfold get_link. simpl. rewrite Hl.
      split; [apply dict_get_set_eq|lia].
    + destruct (Hfresh p Hp) as (l & H1 & H2). exists l. split; [done|lia].
Qed.
Lemma client_modify f a : client_op (modify f) a = (Ok tt, a_set_client (f (a_client a)) a).
Proof using. done. Qed.

(** Requests leave the links alone. *)
Definition same_links (c c' : Client) : Prop :=
  cn_links (c_conn c') = cn_links (c_conn c) ∧ cn_active (c_conn c') = cn_active (c_conn c).
#[local] Instance same_links_preorder : PreOrder same_links.
Proof using. split; [by intros c|]. intros a b c [H1 H2] [H3 H4]. split; congruence. Qed.
Definition app_links (a a' : App) : Prop := same_links (a_client a) (a_client a').
#[local] Instance app_links_preorder : PreOrder app_links.
Proof using. split; [by intros c|]. intros a b c H1 H2. unfold app_links in *. by etrans. Qed.

Lemma established_connected lxmf_source now l ch a : get_link ch (a_client a) = Some l →
  is_connected ch (a_client (_handle_established loop lxmf_source draw now l ch a).2) = true.
Proof using.
  intros Hl. set (a1 := a_set_client (c_set_conn (set_links id (λ s, {[l]} ∪ s)) (a_client a)) a).
  assert (mrel app_links (catch (_on_link_established loop lxmf_source draw now ch) (λ _, ret tt))) as Hkeep.
  { unfold _on_link_established, schedule, with_nonce, next_nonce, redeem_invite, init_session, request_sealed_key, sync_history,
      subscribe_live, request_node_meta, over, send_request, cleanup_stale_nonces.
    repeat (quiet_tac || (apply mrel_lift with (Rc := same_links); [|done])). }
  specialize (Hkeep a1). unfold _handle_established.
  rewrite (bind_run_ok _ _ _ _ _ (client_modify _ _)). fold a1. destruct (catch _ _ a1) as [r a2]. destruct Hkeep as [H1 H2].
  unfold is_connected, get_link, is_active in *. simpl in *. rewrite H1, H2, Hl. apply bool_decide_eq_true. set_solver.
Qed.

(** A client that lost its last link comes back.  When the scheduler was
    not running and the user has not disconnected, the closing of the link
    starts it; after one turn of its loop and one wait every target that RNS
    can reach has a new link, and a link that RNS reports up is one the client
    is connected over. *)
Theorem link_recovers lxmf_source now now' l ch a :
  let a0 := (_handle_closed loop draw net now l ch a).2 in
  let a1 := (reconnect_tick loop draw net now a0).2 in
  let a2 := (reconnect_attempt net a1).2 in
  let r := a_reconnect a in
  any_active (a_client a0) = false → rc_thread r = Idle → rc_user_disconnected r = false → rc_targets r ≠ [] →
  NoDup (rc_targets r).*1 → (∀ p, p ∈ rc_targets r → reachable p.2) →
  rc_thread (a_reconnect a2) = Checking
  ∧ ∀ p, p ∈ rc_targets r → ∃ k, get_link p.1 (a_client a2) = Some k ∧ (cn_next (c_conn (a_client a)) ≤ k)%nat
    ∧ is_connected p.1 (a_client (_handle_established loop lxmf_source draw now' k p.1 a2).2) = true.
Proof using.
  intros a0 a1 a2 r Hact Hth Hu Hne Hnd Hreach.
  set (c0 := c_set_conn (set_links (dict_del ch) (λ s, s ∖ {[l]})) (a_client a)).
  set (r0 := set_thread Checking (set_attempt 0 (set_stop false r))).
  assert (Htl : list_true (rc_targets r) = true) by (by destruct (rc_targets r)).
  assert (a0 = (_on_link_closed loop draw net now (a_set_client c0 a)).2) as Ha0.
  { unfold a0, _handle_closed. rewrite (bind_run_ok _ _ _ _ _ (client_modify _ _)). fold c0. unfold catch.
    by destruct (_on_link_closed loop draw net now (a_set_client c0 a)) as [[]]. }
  unfold _on_link_closed in Ha0. rewrite (bind_run_ok get _ _ _ _ eq_refl) in Ha0. cbn [a_client a_reconnect a_set_client] in Ha0.
  destruct (any_active c0) eqn:Hc0; [rewrite Ha0 in Hact; simpl in Hact; congruence|].
  fold r in Ha0. rewrite Htl, Hu in Ha0. cbn [negb andb] in Ha0.
  assert (a_client a0 = c0 ∧ a_reconnect a0 = r0) as [Hcl Hrc].
  { rewrite Ha0. simpl. fold r. unfold trigger. rewrite Htl, Hu. cbn [negb orb]. by rewrite Hth. }
  assert (a_client a1 = c0 ∧ a_reconnect a1 = set_thread Waiting (set_attempt 1 r0)) as [Hcl1 Hrc1].
  { unfold a1, reconnect_tick. rewrite (bind_run_ok get _ _ _ _ eq_refl). cbv zeta. rewrite Hrc, Hcl, Hc0. simpl. rewrite Htl, Hu. simpl.
    unfold bind, modify, catch, schedule, when. destruct loop; simpl; by rewrite Hcl, Hrc. }
  assert (∃ a', a_reconnect a' = a_reconnect a1 ∧ a2 = a_set_reconnect (set_thread Checking) a'
    ∧ ∀ p, p ∈ rc_targets r → fresh_link (cn_next (c_conn (a_client a))) p.1 (a_client a')) as (a' & Hr' & Ha2 & Hfresh).
  { destruct (attempt_loop (rc_targets r) a1) as (a' & Hrun & Hr' & _ & _ & Hf); [done..| |].
    - intros p k _ Hg. rewrite Hcl1 in *. destruct (is_active k c0) eqn:E; [|done].
      assert (any_active c0 = true); [|congruence]. unfold any_active. apply bool_decide_eq_true.
      unfold find_active_link. destruct (List.find _ _) eqn:Ef; [done|].
      apply find_none with (x := k) in Ef; [congruence|]. unfold get_link in Hg. apply dict_get_elem in Hg.
      apply in_map_iff. exists (p.1, k). by rewrite <- list_elem_of_In.
    - exists a'. rewrite Hcl1 in Hf. split; [done|]. split; [|done].
      unfold a2, reconnect_attempt. rewrite (bind_run_ok get _ _ _ _ eq_refl). cbv zeta. rewrite Hrc1. simpl. rewrite Hu. simpl.
      rewrite (bind_run_ok _ _ _ _ _ Hrun). done. }
  split; [by rewrite Ha2|]. intros p Hp. destruct (Hfresh p Hp) as (k & Hk & Hle).
  assert (get_link p.1 (a_client a2) = Some k) as Hk2 by (by rewrite Ha2).
  exists k. split_and!; [done|done|]. by apply established_connected.
Qed.
End recovery.

(** ** Instances *)

Definition sync_channel : Channel := demo_channel "c" ACCESS_PUBLIC false.
Definition sync_node : SyncContext := demo_ctx false None sync_channel.
Definition sync_client : Client := c_set_cursors (λ _, [("c", 1)]) (new_client empty_cdb).

Definition reply_node : Sync := {| sy_db := reply_between; sy_bans := ∅ |}.

Lemma client_catches_up_witness : ∃ got c',
  @rounds toy_aead toy_ed sync_node None reply_node "c" (fz 0) 2 sync_client = (Ok got, c')
  ∧ map (mget "msg_hash") got = [VStr "z"] ∧ cursor "c" c' = 3.
Proof.
  destruct (@client_catches_up toy_aead toy_ed sync_node None reply_node "c" (fz 0) sync_channel reply_node
    ltac:(reflexivity) ltac:(discriminate) ltac:(discriminate) reply_between_distinct) with (n := 2%nat) (c := sync_client)
    as (got & c' & Hr & Hg & _).
  - apply few_rows_sparse. vm_compute. reflexivity.
  - vm_compute. lia.
  - exists got, c'. split; [exact Hr|]. split; [rewrite Hg; vm_compute; reflexivity|].
    pose proof (f_equal (λ x, cursor "c" x.2) Hr) as E. simpl in E. rewrite <- E. vm_compute. reflexivity.
Defined.

Definition far_net (path : bool) : Net :=
  {| net_recall := λ d, if bool_decide (d = [7]) then Some [1] else None; net_has_path := λ _, path; net_shared := false;
     net_load_key := λ _, true |}.
(** A client with one target, whose link is number 0. *)
Definition linked_app : App :=
  a_set_reconnect (set_targets (λ _, [("c", [7])]))
    (a_set_client (c_set_conn (λ n, set_links (λ _, [("c", 0%nat)]) (λ _, {[ 0%nat ]}) (open_link "c" n)) sync_client) (new_app empty_cdb)).

Lemma disconnected_for_good_witness :
  let a1 := foldl (@run_app_step toy_json toy_ed trust_pack true None None (λ _, [])) (disconnect_all linked_app).2
              [SEstablished (fz 1) 3 "c"; SClosed (far_net true) (fz 2) 0 "c"; STick (far_net true) (fz 3); SAttempt (far_net true)] in
  cn_links (c_conn (a_client a1)) = [] ∧ c_sent (a_client a1) = [].
Proof.
  apply (@disconnected_for_good toy_json toy_ed trust_pack true None None (λ _, []) linked_app). reflexivity.
Defined.

Lemma link_recovers_witness :
  let a0 := (@_handle_closed toy_json toy_ed trust_pack true (λ _, []) (far_net true) (fz 1) 0 "c" linked_app).2 in
  let a1 := (@reconnect_tick toy_json toy_ed trust_pack true (λ _, []) (far_net true) (fz 1) a0).2 in
  let a2 := (reconnect_attempt (far_net true) a1).2 in
  get_link "c" (a_client a0) = None ∧ get_link "c" (a_client a2) = Some 1%nat
  ∧ is_connected "c" (a_client (@_handle_established trust_pack true None (λ _, []) (fz 2) 1 "c" a2).2) = true.
Proof.
  split; [reflexivity|].
  destruct (@link_recovers toy_json toy_ed trust_pack true (λ _, []) (far_net true) None (fz 1) (fz 2) 0%nat "c" linked_app)
    as [_ H]; [reflexivity|reflexivity|reflexivity|discriminate|by apply NoDup_singleton| |].
  - intros p ->%list_elem_of_singleton. split; [by eexists|reflexivity].
  - destruct (H ("c", [7])) as (k & H1 & _ & H2); [left|].
    assert (k = 1%nat) as -> by (vm_compute in H1; congruence). split; [exact H1|exact H2].
Defined.

(** ** What goes wrong *)

(** A deferred connection is dropped when its identity is known and its path
    is not: connecting defers it again, and the retry then forgets it. *)
Theorem pending_connect_dropped :
  let c := c_set_conn (set_pending_connects (λ _, [("c", [7])])) sync_client in
  let c' := (retry_pending_connects (far_net false) c).2 in
  cn_pending_connects (c_conn c') = [] ∧ cn_links (c_conn c') = [].
Proof. by vm_compute. Qed.

(** Channels that share another one's link keep it when it closes.  The link
    that replaces it serves the first channel only; the metadata of the node
    does not register the second one again, as it has a link. *)
Theorem shared_link_stranded :
  let net := far_net true in
  let a := a_set_client (c_set_conn (set_links (λ l, l ++ [("d", 0%nat)]) id) (a_client linked_app)) linked_app in
  let a := (@_handle_closed toy_json toy_ed trust_pack true (λ _, []) net (fz 1) 0 "c" a).2 in
  let a := (@reconnect_tick toy_json toy_ed trust_pack true (λ _, []) net (fz 1) a).2 in
  let a := (reconnect_attempt net a).2 in
  let a := (@_handle_established trust_pack true None (λ _, []) (fz 2) 1 "c" a).2 in
  let a := (@on_meta toy_json trust_pack (λ _, []) net (fz 3) [[("id", VStr "c")]; [("id", VStr "d")]] (VStr "node") a).2 in
  is_connected "c" (a_client a) = true ∧ is_connected "d" (a_client a) = false.
Proof. by vm_compute. Qed.

(** A live message is stored with its own number as the channel's cursor, and
    the client does not ask for a second page: after a restart the rows between
    what it has and the live message are never asked for. *)
Theorem live_message_skips :
  let live := encode_message_for_sync (numbered_row "z" 3) in
  let a := (@live_message toy_json toy_ed false (fz 9) live (new_app empty_cdb)).2 in
  let c := a_client (ensure_sync_engine (new_app (c_db (a_client a)))).2 in
  map (m_msg_hash) (after "c" 0 three_rows) = ["x"; "y"; "z"]
  ∧ map (mget "msg_hash") (@MessageStore.get toy_json "c" 50 None (c_db c)) = [VStr "z"]
  ∧ cursor "c" c = 3
  ∧ (@rounds toy_aead toy_ed sync_node None demo_sync "c" (fz 0) 5 c).1 = Ok [].
Proof. by vm_compute. Qed.

(** Two packets with the same message that arrive before the main loop runs
    show it twice. *)
Theorem early_duplicate :
  let live := encode_message_for_sync (numbered_row "z" 3) in
  let step := @run_app_step toy_json toy_ed trust_pack true None None (λ _, []) in
  let a := (@live_message toy_json toy_ed true (fz 9) live (new_app empty_cdb)).2 in
  let a := (@live_message toy_json toy_ed true (fz 9) live a).2 in
  let a := foldl step a [SAlarm (far_net true) (fz 9); SAlarm (far_net true) (fz 9)] in
  option_map (map (mget "msg_hash")) (dict_get "c" (ap_messages (a_state a))) = Some [VStr "z"; VStr "z"].
Proof. by vm_compute. Qed.
