(* ===== verification/ClientSend.v ===== *)
(** * The client's sending side ([hokora_tui/sync/dm_router.py],
      [rich_message_client.py], [media_client.py], [widgets/compose_box.py],
      the direct messages of [views/conversations_view.py])

    Messages to a channel, media and direct messages leave by LXMF, downloads
    arrive as RNS resources.  LXMF and RNS are third-party code: a message that
    is handed to the router is recorded, a delivered one is an [LXMessage] of
    Inbound.v, and what RNS knows is the argument [Net] of Client.v with the
    recall of identity hashes and the hash of a delivery destination next to
    it.  Names and bodies of direct messages that are not strings are read as
    absent; widgets are left out. *)

From S2P Require Import Prelude Constants Models Queries Permissions RateLimit Ban Sealed Sequencer Message Ingest Wire Verification Epoch Session Live Media FedAuth Inbound ClientDb Client ClientApp ClientTrust ClientSync.

(** An outbound message: the identity of its destination and its content. *)
Record Outbound := { ob_destination : bytes; ob_content : bytes }.

(** An entry of [state.conversations]. *)
Record ConvEntry := { ce_peer_hash : string; ce_peer_name : string; ce_last_message_time : float; ce_unread_count : Z; ce_last_body : string }.

(** The three modes of the compose box. *)
Record Compose := { cb_reply_to : option string; cb_edit_hash : option string; cb_reaction_hash : option string }.

Record Sender := {
  sd_app : App;
  sd_identity : option bytes;
  sd_router : bool;                              (* [DmRouter._lxm_router] *)
  sd_outbox : list Outbound;
  sd_paths : list bytes;                         (* path requests *)
  sd_pending_media_path : option string;
  sd_pending_media_save_path : option string;
  sd_downloads : dict path bytes;                (* files written *)
  sd_peer_names : dict string string;            (* names of [state.discovered_peers] *)
  sd_conversations : list ConvEntry;
  sd_current_peer : option string;
  sd_compose : Compose;
}.
Definition sd_set_app a (s : Sender) : Sender := {|
  sd_app := a; sd_identity := sd_identity s; sd_router := sd_router s; sd_outbox := sd_outbox s; sd_paths := sd_paths s;
  sd_pending_media_path := sd_pending_media_path s; sd_pending_media_save_path := sd_pending_media_save_path s;
  sd_downloads := sd_downloads s; sd_peer_names := sd_peer_names s; sd_conversations := sd_conversations s;
  sd_current_peer := sd_current_peer s; sd_compose := sd_compose s |}.
(** LXMF: the router, what it was given, the paths that were asked for. *)
Definition sd_set_lxmf r f g (s : Sender) : Sender := {|
  sd_app := sd_app s; sd_identity := sd_identity s; sd_router := r; sd_outbox := f (sd_outbox s); sd_paths := g (sd_paths s);
  sd_pending_media_path := sd_pending_media_path s; sd_pending_media_save_path := sd_pending_media_save_path s;
  sd_downloads := sd_downloads s; sd_peer_names := sd_peer_names s; sd_conversations := sd_conversations s;
  sd_current_peer := sd_current_peer s; sd_compose := sd_compose s |}.
Definition sd_set_pending p q (s : Sender) : Sender := {|
  sd_app := sd_app s; sd_identity := sd_identity s; sd_router := sd_router s; sd_outbox := sd_outbox s; sd_paths := sd_paths s;
  sd_pending_media_path := p; sd_pending_media_save_path := q;
  sd_downloads := sd_downloads s; sd_peer_names := sd_peer_names s; sd_conversations := sd_conversations s;
  sd_current_peer := sd_current_peer s; sd_compose := sd_compose s |}.
Definition sd_set_downloads f (s : Sender) : Sender := {|
  sd_app := sd_app s; sd_identity := sd_identity s; sd_router := sd_router s; sd_outbox := sd_outbox s; sd_paths := sd_paths s;
  sd_pending_media_path := sd_pending_media_path s; sd_pending_media_save_path := sd_pending_media_save_path s;
  sd_downloads := f (sd_downloads s); sd_peer_names := sd_peer_names s; sd_conversations := sd_conversations s;
  sd_current_peer := sd_current_peer s; sd_compose := sd_compose s |}.
(** Direct messages: names, conversations and the open one. *)
Definition sd_set_dms f g c (s : Sender) : Sender := {|
  sd_app := sd_app s; sd_identity := sd_identity s; sd_router := sd_router s; sd_outbox := sd_outbox s; sd_paths := sd_paths s;
  sd_pending_media_path := sd_pending_media_path s; sd_pending_media_save_path := sd_pending_media_save_path s;
  sd_downloads := sd_downloads s; sd_peer_names := f (sd_peer_names s); sd_conversations := g (sd_conversations s);
  sd_current_peer := c (sd_current_peer s); sd_compose := sd_compose s |}.
Definition sd_set_compose f (s : Sender) : Sender := {|
  sd_app := sd_app s; sd_identity := sd_identity s; sd_router := sd_router s; sd_outbox := sd_outbox s; sd_paths := sd_paths s;
  sd_pending_media_path := sd_pending_media_path s; sd_pending_media_save_path := sd_pending_media_save_path s;
  sd_downloads := sd_downloads s; sd_peer_names := sd_peer_names s; sd_conversations := sd_conversations s;
  sd_current_peer := sd_current_peer s; sd_compose := f (sd_compose s) |}.

Definition sd_app_op {A} (m : M App A) : M Sender A := lift sd_app sd_set_app m.
Definition sd_client_op {A} (m : M Client A) : M Sender A := sd_app_op (client_op m).
Definition sd_db_op {A} (m : M ClientDB A) : M Sender A := sd_app_op (app_db m).
Definition sd_client (s : Sender) : Client := a_client (sd_app s).

(** What LXMF and RNS know at the time of a call: besides [Net], identities by
    their own hash, the delivery destination of an identity, and whether the
    router takes a message. *)
Record Lxmf := {
  lm_net : Client.Net;
  lm_recall_identity : bytes → option bytes;
  lm_delivery_hash : bytes → bytes;
  lm_takes : bool;
}.

(** ** Sending to a channel *)

Section sending.
Context `{HP : Msgpack} (lx : Lxmf).

Definition request_path (h : bytes) : M Sender unit :=
  modify (λ s, sd_set_lxmf (sd_router s) id (λ l, l ++ [h]) s).

(** [handle_outbound] of a message to the delivery destination of an identity,
    to which a path is asked for when there is none. *)
Definition outbound (identity content : bytes) : M Sender unit :=
  let destination := lm_delivery_hash lx identity in
  when (negb (net_has_path (lm_net lx) destination)) (request_path destination) ;;
  if lm_takes lx
  then modify (λ s, sd_set_lxmf (sd_router s) (λ l, l ++ [{| ob_destination := identity; ob_content := content |}]) id s)
  else raise RuntimeError "handle_outbound".

(** The part the senders share: the identity behind the channel, the message. *)
Definition to_channel (link_identity : option bytes) (channel_id : string) (content : bytes) : M Sender bool :=
  let! c := gets sd_client in
  match resolve_channel_identity (lm_net lx) link_identity channel_id c with
  | None => ret false
  | Some identity => outbound identity content ;; ret true
  end.

(** A link that is active, a router and an identity. *)
Definition ready (channel_id : string) (s : Sender) : bool :=
  bool_decide (is_Some (active_link channel_id (sd_client s))) && sd_router s && bool_decide (is_Some (sd_identity s)).

Definition pack (content : dict string val) : res bytes :=
  match packb (VDict content) with Some b => Ok b | None => Raise (Exn TypeError "can not serialize") end.

End sending.

Module RichMessageClient.
Section client.
Context `{HP : Msgpack} (lx : Lxmf).

Definition message_content (channel_id : string) (data : dict string val) : dict string val :=
  let content := [("type", default (VInt MSG_TEXT) (dict_get "type" data)); ("body", default (VStr "") (dict_get "body" data));
                  ("display_name", mget "display_name" data); ("channel_id", VStr channel_id)] in
  if val_true (mget "reply_to" data) then content ++ [("reply_to", mget "reply_to" data)] else content.

Definition send_message (now : float) (link_identity : option bytes) (channel_id : string) (message_data : dict string val)
    : M Sender bool :=
  let! s := get in
  if negb (ready channel_id s) then ret false
  else
    sd_client_op (cleanup_stale_nonces now) ;;
    let! content := of_res (pack (message_content channel_id message_data)) in
    catch (to_channel lx link_identity channel_id content) (λ _, ret false).

Definition typed_content (msg_type : Z) (reply_to body channel_id : string) (display_name : option string) : dict string val :=
  [("type", VInt msg_type); ("reply_to", VStr reply_to); ("body", VStr body); ("channel_id", VStr channel_id);
   ("display_name", val_of_ostr display_name)].

Definition _send_typed_lxmf (now : float) (link_identity : option bytes) (channel_id : string) (msg_type : Z) (reply_to body : string)
    : M Sender bool :=
  let! s := get in
  if negb (ready channel_id s) then ret false
  else
    sd_client_op (cleanup_stale_nonces now) ;;
    let! content := of_res (pack (typed_content msg_type reply_to body channel_id (c_display_name (sd_client s)))) in
    catch (to_channel lx link_identity channel_id content) (λ _, ret false).

Definition send_reaction now li (channel_id msg_hash emoji : string) := _send_typed_lxmf now li channel_id MSG_REACTION msg_hash emoji.
Definition send_edit now li (channel_id msg_hash new_body : string) := _send_typed_lxmf now li channel_id MSG_EDIT msg_hash new_body.
Definition send_delete now li (channel_id msg_hash : string) := _send_typed_lxmf now li channel_id MSG_DELETE msg_hash "".
Definition send_pin now li (channel_id msg_hash : string) := _send_typed_lxmf now li channel_id MSG_PIN msg_hash "".
Definition send_thread_reply now li (channel_id root_hash body : string) :=
  _send_typed_lxmf now li channel_id MSG_THREAD_REPLY root_hash body.
End client.
End RichMessageClient.

(** ** Media *)

Module MediaClient.
Section client.
Context `{HP : Msgpack} (lx : Lxmf).

Definition media_content (channel_id filename : string) (data : bytes) (display_name : option string) : dict string val :=
  [("type", VInt MSG_MEDIA); ("body", VStr (String.append "[file: " (String.append filename "]"))); ("media_path", VStr filename);
   ("media_bytes", VBytes data); ("media_meta", VDict [("filename", VStr filename); ("size", VInt (zlen data))]);
   ("channel_id", VStr channel_id); ("display_name", val_of_ostr display_name)].

(** [file]: the content of the file, when it exists. *)
Definition send_media (link_identity : option bytes) (channel_id filepath : string) (file : option bytes) : M Sender bool :=
  let! s := get in
  if negb (ready channel_id s) then ret false
  else
    match file with
    | None => ret false
    | Some data =>
        catch
          (let! content := of_res (pack (media_content channel_id (path_name filepath) data (c_display_name (sd_client s)))) in
           to_channel lx link_identity channel_id content)
          (λ _, ret false)
    end.

Definition request_media_download (now : float) (nonce : bytes) (channel_id media_path : string) (save_path : option string)
    : M Sender unit :=
  let! s := get in
  match active_link channel_id (sd_client s) with
  | None => ret tt
  | Some l =>
      sd_client_op (cleanup_stale_nonces now) ;;
      sd_client_op (modify (c_set_nonces (dict_set nonce now))) ;;
      let! request := of_res (encode_sync_request SYNC_FETCH_MEDIA nonce
                                (Some [("channel_id", VStr channel_id); ("path", VStr media_path)])) in
      modify (sd_set_pending (Some media_path) save_path) ;;
      sd_client_op (modify (c_send (l, request)))
  end.

Definition _is_msgpack_payload (data : bytes) : bool :=
  match data with
  | [] => false
  | b :: _ => ((0x80 <=? b) && (b <=? 0x8F)) || (b =? 0xDE) || (b =? 0xDF)
  end.

(** Where a download goes: [is_dir] asks the file system, [home] is
    [Path.home()]. *)
Definition join (p : path) (name : string) : path := if str_true name then p ++ [name] else p.
Definition download_path (is_dir : path → bool) (cwd home : path) (media_path : string) (save_path : option string) : path :=
  let filename := path_name media_path in
  if ostr_true save_path
  then let dest := resolve cwd (or_empty save_path) in if is_dir dest then join dest filename else dest
  else join (home ++ [".hokora-client"; "downloads"]) filename.

(** A directory is not written to. *)
Definition _save_media_download (is_dir : path → bool) (cwd home : path) (data : bytes) (media_path : string) (save_path : option string)
    : M Sender unit :=
  let dest := download_path is_dir cwd home media_path save_path in
  when (negb (is_dir dest)) (modify (sd_set_downloads (dict_set dest data))).
End client.
End MediaClient.

Section arrivals.
Context `{J : Json} `{HE : Ed25519} `{HP : Msgpack} `{HR : RnsIdentity} `{HS : Signing}.
Context (loop : bool) (decrypt : option (bytes → option bytes)) (draw : nat → bytes).
Context (lx : Lxmf) (depth : nat).

(** [HistoryClient._on_packet] *)
Definition packet (now : float) (data : bytes) : M Sender unit :=
  sd_app_op (_on_packet loop decrypt draw depth (lm_net lx) now data).

(** A concluded resource: its data when it is complete. *)
Definition on_resource_concluded (is_dir : path → bool) (cwd home : path) (now : float) (resource : option bytes) : M Sender unit :=
  match resource with
  | None => ret tt
  | Some data =>
      let! s := get in
      match sd_pending_media_path s with
      | Some media_path =>
          if str_true media_path && negb (MediaClient._is_msgpack_payload data) then
            MediaClient._save_media_download is_dir cwd home data media_path (sd_pending_media_save_path s) ;;
            modify (sd_set_pending None None)
          else catch (packet now data) (λ _, ret tt)
      | None => catch (packet now data) (λ _, ret tt)
      end
  end.

(** ** Direct messages *)

(** [DmRouter.start] *)
Definition start_router : M Sender unit :=
  let! s := get in
  match sd_identity s with
  | None => ret tt
  | Some _ => modify (sd_set_lxmf true id id)
  end.

Definition dm_content (body : string) (display_name : option string) : dict string val :=
  [("type", VStr "dm"); ("body", VStr body); ("sender_name", val_of_ostr display_name)].

Definition send_dm (peer_identity_hash body : string) : M Sender bool :=
  let! s := get in
  if negb (sd_router s && bool_decide (is_Some (sd_identity s))) then ret false
  else
    let! content := of_res (pack (dm_content body (c_display_name (sd_client s)))) in
    catch
      (match fromhex (chars_of peer_identity_hash) with
       | None => raise ValueError "fromhex"
       | Some raw =>
           match lm_recall_identity lx raw with
           | Some i => outbound lx i content ;; ret true
           | None =>
               match net_recall (lm_net lx) raw with
               | Some i => outbound lx i content ;; ret true
               | None => request_path raw ;; ret false
               end
           end
       end) (λ _, ret false).

Definition my_hash (s : Sender) : string := match sd_identity s with Some i => identity_hexhash (id_public i) | None => "" end.

Definition update_conversation_state (peer_hash peer_name : string) (timestamp : float) (body : string) (l : list ConvEntry) : list ConvEntry :=
  let fix go l := match l with
    | [] => None
    | c :: l => if bool_decide (ce_peer_hash c = peer_hash)
                then Some ({| ce_peer_hash := peer_hash; ce_peer_name := peer_name; ce_last_message_time := timestamp;
                              ce_unread_count := ce_unread_count c; ce_last_body := body |} :: l)
                else (cons c) <$> go l
    end in
  match go l with
  | Some l => l
  | None => l ++ [{| ce_peer_hash := peer_hash; ce_peer_name := peer_name; ce_last_message_time := timestamp; ce_unread_count := 0;
                     ce_last_body := body |}]
  end.
(** The count of the first entry of the peer. *)
Fixpoint with_count (n : Z → Z) (peer_hash : string) (l : list ConvEntry) : list ConvEntry :=
  match l with
  | [] => []
  | c :: l => if bool_decide (ce_peer_hash c = peer_hash)
              then {| ce_peer_hash := ce_peer_hash c; ce_peer_name := ce_peer_name c; ce_last_message_time := ce_last_message_time c;
                      ce_unread_count := n (ce_unread_count c); ce_last_body := ce_last_body c |} :: l
              else c :: with_count n peer_hash l
  end.

(** [_on_dm_received] *)
Definition _on_dm_received (sender_hash : string) (name : option string) (body : string) (ts : float) : M Sender unit :=
  let short := py_take 12 sender_hash in
  let display_name := if ostr_true name then or_empty name else short in
  let! s := get in
  when (str_true display_name && str_true sender_hash && negb (bool_decide (display_name = short)))
    (modify (sd_set_dms (dict_set sender_hash display_name) id id)) ;;
  sd_db_op (DmStore.store sender_hash (my_hash s) ts body None) ;;
  sd_db_op (DmStore.update_conversation sender_hash (Some display_name) ts) ;;
  modify (sd_set_dms id (update_conversation_state sender_hash display_name ts body) id) ;;
  if bool_decide (sd_current_peer s = Some sender_hash)
  then sd_db_op (DmStore.mark_conversation_read sender_hash)
  else
    sd_db_op (DmStore.increment_unread sender_hash) ;;
    modify (sd_set_dms id (with_count (λ n, n + 1) sender_hash) id).

(** [DmRouter._on_lxmf_delivery] *)
Definition on_lxmf_delivery (now : float) (m : LXMessage) : M Sender unit :=
  catch
    (match unpackb (lx_content m) with
     | None => raise ValueError "unpack"
     | Some (VDict content) =>
         match mget "type" content with
         | VStr ty =>
             if bool_decide (ty = "dm") then
               let sender_hash := match lx_source m with
                                  | Some i => identity_hexhash i
                                  | None => hexrep (lx_source_hash m)
                                  end in
               _on_dm_received sender_hash (get_str "sender_name" None content) (or_empty (get_str "body" (Some "") content)) (lx_timestamp m)
             else if bool_decide (ty = "batch") then
               match default (VList []) (dict_get "events" content) with
               | VList events => mfold (λ _ v, match v with VBytes b => packet now b | _ => ret tt end) tt events
               | _ => raise TypeError "events"
               end
             else ret tt
         | _ => ret tt
         end
     | Some _ => ret tt
     end) (λ _, ret tt).

(** [_get_peer_name] *)
Definition _get_peer_name (peer_hash : string) (s : Sender) : string :=
  let short := py_take 12 peer_hash in
  match List.find (λ c, bool_decide (ce_peer_hash c = peer_hash) && str_true (ce_peer_name c)
                        && negb (bool_decide (ce_peer_name c = short))) (sd_conversations s) with
  | Some c => ce_peer_name c
  | None =>
      match dict_get peer_hash (sd_peer_names s) with
      | Some n => if str_true n then n else if str_true peer_hash then short else "Unknown"
      | None => if str_true peer_hash then short else "Unknown"
      end
  end.

(** [_send_dm]: what it tells the user is whether it was sent. *)
Definition _send_dm (now : float) (body : string) : M Sender bool :=
  let! s := get in
  match sd_current_peer s with
  | None => ret false
  | Some peer_hash =>
      let! sent := catch (send_dm peer_hash body) (λ _, ret false) in
      sd_db_op (DmStore.store (my_hash s) peer_hash now body None) ;;
      let! peer_name := gets (_get_peer_name peer_hash) in
      sd_db_op (DmStore.update_conversation peer_hash (Some peer_name) now) ;;
      modify (sd_set_dms id (update_conversation_state peer_hash peer_name now body) id) ;;
      ret sent
  end.

Definition select_conversation (peer_hash : string) : M Sender (list DirectMessage) :=
  modify (sd_set_dms id id (λ _, Some peer_hash)) ;;
  let! dms := gets (λ s, DmStore.get peer_hash 50 None (c_db (sd_client s))) in
  sd_db_op (DmStore.mark_conversation_read peer_hash) ;;
  modify (sd_set_dms id (with_count (λ _, 0) peer_hash) id) ;;
  ret (rev dms).

Definition open_dm (now : float) (peer_hash : string) (initial_message : option string) : M Sender unit :=
  let! s := get in
  let peer_name := _get_peer_name peer_hash s in
  when (negb (existsb (λ c, bool_decide (ce_peer_hash c = peer_hash)) (sd_conversations s)))
    (modify (sd_set_dms id (λ l, l ++ [{| ce_peer_hash := peer_hash; ce_peer_name := peer_name; ce_last_message_time := now;
                                          ce_unread_count := 0; ce_last_body := "" |}]) id) ;;
     sd_db_op (DmStore.update_conversation peer_hash (Some peer_name) now)) ;;
  select_conversation peer_hash ;;
  when (ostr_true initial_message) (_send_dm now (or_empty initial_message) ;; ret tt).
End arrivals.

(** ** The compose box *)

Definition set_modes (r e x : option string) (_ : Compose) : Compose := {| cb_reply_to := r; cb_edit_hash := e; cb_reaction_hash := x |}.
Definition set_reply_mode (msg_hash : string) (c : Compose) : Compose := set_modes (Some msg_hash) None (cb_reaction_hash c) c.
Definition set_edit_mode (msg_hash : string) (c : Compose) : Compose := set_modes None (Some msg_hash) (cb_reaction_hash c) c.
Definition set_reaction_mode (msg_hash : string) (c : Compose) : Compose := set_modes None None (Some msg_hash) c.
Definition clear_reply_mode (c : Compose) : Compose := set_modes None None None c.

(** The text that was entered, when it is not a command: nothing when no
    channel is selected, the channel may not be written to, or the text is too
    long; the mode it was entered in is left. *)
Section compose.
Context `{HP : Msgpack} (lx : Lxmf).

Definition may_write (channel_id : string) (s : Sender) : bool :=
  match List.find (λ ch, match mget "id" ch with VStr i => bool_decide (i = channel_id) | _ => false end) (ap_channels (a_state (sd_app s))) with
  | Some ch => negb (match mget "can_write" ch with VBool b => negb b | _ => false end)
  | None => true
  end.

Definition compose_message (now : float) (link_identity : option bytes) (display_name : option string) (body : string) : M Sender unit :=
  let! s := get in
  match ap_current_channel_id (a_state (sd_app s)) with
  | None => ret tt
  | Some channel_id =>
      if negb (str_true channel_id) || negb (may_write channel_id s) || (MAX_MESSAGE_BODY_SIZE <? utf8_len body) then ret tt
      else
        let data := [("type", VInt MSG_TEXT); ("body", VStr body); ("display_name", val_of_ostr (if ostr_true display_name then display_name else None));
                     ("channel_id", VStr channel_id)] in
        let data := if ostr_true (cb_reply_to (sd_compose s)) then data ++ [("reply_to", val_of_ostr (cb_reply_to (sd_compose s)))] else data in
        RichMessageClient.send_message lx now link_identity channel_id data ;;
        when (ostr_true (cb_reply_to (sd_compose s))) (modify (sd_set_compose clear_reply_mode))
  end.

(** [_send_edit] and [_send_reaction] *)
Definition compose_typed (now : float) (link_identity : option bytes) (hash : option string) (body : string)
    (send : float → option bytes → string → string → string → M Sender bool) : M Sender unit :=
  let! s := get in
  let ch := ap_current_channel_id (a_state (sd_app s)) in
  when (ostr_true ch && ostr_true hash) (send now link_identity (or_empty ch) (or_empty hash) body ;; ret tt) ;;
  modify (sd_set_compose clear_reply_mode).

Definition _handle_input (now : float) (link_identity : option bytes) (display_name : option string) (text : string) : M Sender unit :=
  let! s := get in
  let c := sd_compose s in
  if ostr_true (cb_reaction_hash c)
  then compose_typed now link_identity (cb_reaction_hash c) (py_take 32 text) (RichMessageClient.send_reaction lx)
  else if ostr_true (cb_edit_hash c) then compose_typed now link_identity (cb_edit_hash c) text (RichMessageClient.send_edit lx)
  else compose_message now link_identity display_name text.
End compose.

(** ** Theorems *)

(** Packed documents are not empty. *)
Class MsgpackNonempty (P : Msgpack) : Prop := {
  pack_nonempty : ∀ v b, packb v = Some b → list_true b = true;
}.

Section delivery.
Context {HP : Msgpack} {HPL : MsgpackLaws HP} {HPN : MsgpackNonempty HP}.

Lemma pack_ok d b s s' : (of_res (pack d) : M Sender bytes) s = (Ok b, s') → packb (VDict d) = Some b ∧ s' = s.
Proof using. unfold of_res, pack. destruct (packb _); by intros [= <- <-]. Qed.

Lemma to_channel_ok lx li ch content s s' :
  catch (to_channel lx li ch content) (λ _, ret false) s = (Ok true, s') →
  ∃ o, sd_outbox s' = sd_outbox s ++ [o] ∧ ob_content o = content.
Proof using.
  unfold catch, to_channel, bind at 1, gets. destruct (resolve_channel_identity _ _ _ _) as [i|]; [|done].
  unfold outbound, bind, when, modify, request_path, ret. destruct (negb _), (lm_takes lx); simpl; try done; intros [= <-]; simpl; by eexists.
Qed.

Lemma cleanup_outbox now s r s' : sd_client_op (cleanup_stale_nonces now) s = (r, s') → sd_outbox s' = sd_outbox s.
Proof using.
  unfold sd_client_op, sd_app_op, client_op, lift. destruct (cleanup_stale_nonces _ _) as [? ?]. by intros [= <- <-].
Qed.

(** What a sender packed is what the bridge makes an envelope of. *)
Lemma content_dispatched {HR : RnsIdentity} {HE : Ed25519} full_hash look clock b t m i si ch content packed ty body :
  packb (VDict content) = Some packed → lx_content m = packed → lx_signature_validated m = true → lx_source m = Some i →
  _find_channel_for_destination (lx_destination_hash m) b = None →
  get_str "channel_id" None content = Some ch → str_true ch = true → dict_has ch (lb_registered_destinations b) = true →
  content_type content = Ok ty → content_body content = Ok body →
  ∃ e, _validate_and_dispatch full_hash look clock b t m si = (Ok (Some (e, get_bytes "media_bytes" content)), si)
  ∧ e_channel_id e = ch ∧ e_sender_hash e = identity_hexhash i ∧ e_timestamp e = lx_timestamp m ∧ e_type e = ty ∧ e_body e = body
  ∧ e_media_path e = get_str "media_path" None content ∧ e_reply_to e = get_str "reply_to" None content
  ∧ e_display_name e = get_str "display_name" None content.
Proof using HPL HPN.
  intros Hp Hc Hv Hs Hf Hch Hch' Hr Ht Hb. unfold _validate_and_dispatch, verify_lxmf_inbound. rewrite Hv, Hs.
  rewrite (bind_run_ok _ _ si (Accepted (Some i)) si) by done. cbv beta iota. unfold _decode_content. rewrite Hc, (pack_nonempty _ _ Hp).
  cbn [negb]. rewrite (unpack_pack _ _ Hp). unfold channel_of. rewrite Hf. cbn [ostr_true]. rewrite Hch, Hch', Hr. cbn [andb].
  unfold envelope_of. rewrite Ht, Hb. eexists. split; [done|]. by split_and!.
Qed.
End delivery.

(** The message as the node takes it: from this sender, to this channel. *)
Definition received_as `{RnsIdentity} `{Ed25519} `{Msgpack} (o : Outbound) (channel_id : string) (ty : Z) (body reply name : option string)
    (media_path : option string) (media_bytes : option bytes) : Prop :=
  ∀ full_hash look clock b t m i si,
    lx_content m = ob_content o → lx_signature_validated m = true → lx_source m = Some i →
    dict_has channel_id (lb_registered_destinations b) = true → _find_channel_for_destination (lx_destination_hash m) b = None →
    ∃ e, _validate_and_dispatch full_hash look clock b t m si = (Ok (Some (e, media_bytes)), si)
    ∧ e_channel_id e = channel_id ∧ e_sender_hash e = identity_hexhash i ∧ e_timestamp e = lx_timestamp m ∧ e_type e = ty
    ∧ e_body e = body ∧ e_media_path e = media_path ∧ e_reply_to e = reply ∧ e_display_name e = name.

(** C21: What the client sends is what the node ingests.  When the client
    reports a message as sent, one message was handed to LXMF, and the node
    that receives it under the sender's identity makes of it the envelope for
    the channel, with the type, body, target and name it was sent with; a
    media message carries its file. *)
Theorem sent_reaches_channel {HP : Msgpack} {HPL : MsgpackLaws HP} {HPN : MsgpackNonempty HP} {HR : RnsIdentity} {HE : Ed25519}
    lx now li ch s s' :
  str_true ch = true →
  (∀ body reply name,
     RichMessageClient.send_message lx now li ch
       (("type", VInt MSG_TEXT) :: ("body", VStr body) :: ("display_name", val_of_ostr name) :: ("reply_to", val_of_ostr reply) :: []) s
     = (Ok true, s') →
     ∃ o, sd_outbox s' = sd_outbox s ++ [o]
     ∧ received_as o ch MSG_TEXT (Some body) (if ostr_true reply then reply else None) name None None)
  ∧ (∀ ty reply body, RichMessageClient._send_typed_lxmf lx now li ch ty reply body s = (Ok true, s') →
     ∃ o, sd_outbox s' = sd_outbox s ++ [o]
     ∧ received_as o ch ty (Some body) (Some reply) (c_display_name (sd_client s)) None None)
  ∧ (∀ filepath data, MediaClient.send_media lx li ch filepath (Some data) s = (Ok true, s') →
     ∃ o, sd_outbox s' = sd_outbox s ++ [o]
     ∧ received_as o ch MSG_MEDIA (Some (String.append "[file: " (String.append (path_name filepath) "]"))) None
         (c_display_name (sd_client s)) (Some (path_name filepath)) (Some data)).
Proof.
  intros Hch. split_and!.
  - intros body reply name. unfold RichMessageClient.send_message. rewrite (bind_run_ok get _ s s s) by done.
    destruct (negb _); [done|]. intros (u & s1 & H1%cleanup_outbox & (packed & s2 & [Hp ->]%pack_ok & H)%bind_ok)%bind_ok.
    apply to_channel_ok in H as (o & Ho & Hc). exists o. rewrite Ho, H1. split; [done|].
    intros full_hash look clock b t m i si Hm Hv Hs Hr Hf.
    destruct (content_dispatched full_hash look clock b t m i si ch _ packed MSG_TEXT (Some body) Hp) as (e & He & Hrest);
      [congruence|done..| | | | | |]; try done.
    all: unfold RichMessageClient.message_content in *; destruct reply as [[|c r]|], name; simpl in *; try done; eauto.
  - intros ty reply body. unfold RichMessageClient._send_typed_lxmf. rewrite (bind_run_ok get _ s s s) by done.
    destruct (negb _); [done|]. intros (u & s1 & H1%cleanup_outbox & (packed & s2 & [Hp ->]%pack_ok & H)%bind_ok)%bind_ok.
    apply to_channel_ok in H as (o & Ho & Hc). exists o. rewrite Ho, H1. split; [done|].
    intros full_hash look clock b t m i si Hm Hv Hs Hr Hf.
    destruct (content_dispatched full_hash look clock b t m i si ch _ packed ty (Some body) Hp) as (e & He & Hrest);
      [congruence|done..| | | | | |]; try done.
    all: destruct (c_display_name _); simpl in *; eauto.
  - intros filepath data. unfold MediaClient.send_media. rewrite (bind_run_ok get _ s s s) by done.
    destruct (negb _); [done|]. unfold catch at 1.
    match goal with |- context [bind ?x ?k s] => destruct (bind x k s) as [[r|] s2] eqn:E end; [|done]. intros [= -> ->].
    apply bind_ok in E as (packed & s1 & [Hp ->]%pack_ok & H).
    assert (catch (to_channel lx li ch packed) (λ _, ret false) s = (Ok true, s')) as H' by (unfold catch; by rewrite H).
    apply to_channel_ok in H' as (o & Ho & Hc). exists o. split; [done|].
    intros full_hash look clock b t m i si Hm Hv Hs Hr Hf.
    destruct (content_dispatched full_hash look clock b t m i si ch _ packed MSG_MEDIA
      (Some (String.append "[file: " (String.append (path_name filepath) "]"))) Hp) as (e & He & Hrest);
      [congruence|done..| | | | | |]; try done.
    all: destruct (c_display_name _); simpl in *; eauto.
Qed.

(** *** Direct messages *)

Lemma split_on_clean sep l w : w ∈ split_on sep l → forallb (λ x, negb (bool_decide (x = sep))) w = true.
Proof.
  revert w. induction l as [|c l IH]; intros w; simpl; [by intros ->%list_elem_of_singleton|].
  destruct (decide (c = sep)) as [|Hc]; [intros [->|Hw]%elem_of_cons; [done|by apply IH]|].
  destruct (split_on sep l) as [|v ws]; intros [->|Hw]%elem_of_cons; simpl; rewrite ?bool_decide_eq_false_2 by done; simpl;
    first [apply IH; by (left || right)|done|by apply elem_of_nil in Hw].
Qed.
Lemma path_name_plain p : path_name p ≠ "" → path_name p ≠ ".." → plain (path_name p) = true.
Proof.
  unfold path_name. set (l := List.filter _ (parts p)). destruct (last l) as [n|] eqn:El; [|done]. change (default "" (Some n)) with n.
  intros H1 H2. apply last_Some_elem_of in El. apply list_elem_of_In, filter_In in El as [Hin Hd].
  unfold parts in Hin. apply in_map_iff in Hin as (w & <- & Hw). unfold plain. rewrite chars_string.
  apply list_elem_of_In, split_on_clean in Hw. apply negb_true_iff, orb_false_iff in Hd as [Ha Hb].
  apply bool_decide_eq_false in Ha, Hb. apply andb_true_iff. split; [exact Hw|]. rewrite bool_decide_eq_false_2; [done|]. set_solver.
Qed.

Section dms.
Context {J : Json} {HE : Ed25519} {HP : Msgpack} {HR : RnsIdentity} {HS : Signing}.
Context {HPL : MsgpackLaws HP}.
Context (loop : bool) (decrypt : option (bytes → option bytes)) (draw : nat → bytes) (lx : Lxmf) (depth : nat).

Abbreviation deliver := (on_lxmf_delivery loop decrypt draw lx depth).

Definition client_db (s : Sender) : ClientDB := c_db (sd_client s).

(** The conversation of a peer after a message. *)
Definition unread_of (peer : string) (s : Sender) : Z :=
  match cdb_conversations (client_db s) !! peer with Some c => cv_unread_count c | None => 0 end.

Lemma send_dm_ok peer body s s' :
  send_dm lx peer body s = (Ok true, s') →
  ∃ o, sd_outbox s' = sd_outbox s ++ [o] ∧ packb (VDict (dm_content body (c_display_name (sd_client s)))) = Some (ob_content o).
Proof using.
  unfold send_dm. rewrite (bind_run_ok get _ s s s) by done. destruct (negb _); [done|].
  intros (packed & s1 & [Hp ->]%pack_ok & H)%bind_ok. unfold catch in H. destruct (fromhex _) as [raw|]; [|done].
  assert (∀ i, (let (r, s2) := (outbound lx i packed ;; ret true) s in
     match r with Ok a => (Ok a, s2) | Raise _ => ret false s2 end) = (Ok true, s') → sd_outbox s' = sd_outbox s ++ [{| ob_destination := i; ob_content := packed |}]) as Hout.
  { intros i. unfold outbound, bind, when, modify, request_path, ret, raise. destruct (negb _), (lm_takes lx); simpl; try done; by intros [= <-]. }
  destruct (lm_recall_identity lx raw) as [i|].
  - eexists. split; [apply (Hout i); by destruct ((outbound lx i packed ;; ret true) s) as [[]]|done].
  - destruct (net_recall (lm_net lx) raw) as [i|].
    + eexists. split; [apply (Hout i); by destruct ((outbound lx i packed ;; ret true) s) as [[]]|done].
    + done.
Qed.

(** What storing a received message leaves. *)
Record received (sender : string) (body : string) (ts : float) (r r' : Sender) : Prop := {
  rv_row : ∃ d, last (cdb_dms (client_db r')) = Some d ∧ dm_sender_hash d = sender ∧ dm_receiver_hash d = my_hash r
    ∧ dm_body d = body ∧ dm_timestamp d = ts ∧ dm_read d = bool_decide (sd_current_peer r = Some sender);
  rv_rows : length (cdb_dms (client_db r')) = S (length (cdb_dms (client_db r)));
  rv_unread : unread_of sender r' = if bool_decide (sd_current_peer r = Some sender) then 0 else unread_of sender r + 1;
  rv_others : ∀ p, p ≠ sender → cdb_conversations (client_db r') !! p = cdb_conversations (client_db r) !! p;
}.

Lemma on_dm_received_run sender name body ts r : ∃ r', _on_dm_received sender name body ts r = (Ok tt, r') ∧ received sender body ts r r'.
Proof using.
  unfold _on_dm_received. rewrite (bind_run_ok get _ r r r) by done. cbv zeta.
  set (nm := if ostr_true name then _ else _). set (b := str_true nm && _ && _). clearbody b nm.
  assert (∃ r1, when b (modify (sd_set_dms (dict_set sender nm) id id)) r = (Ok tt, r1) ∧ client_db r1 = client_db r) as (r1 & H1 & Hdb).
  { destruct b; by eexists. }
  rewrite (bind_run_ok _ _ _ _ _ H1). unfold sd_db_op, sd_app_op, app_db, client_op, cdb_op, lift, DmStore.store, DmStore.update_conversation, modify, bind.
  simpl. unfold client_db, sd_client in *. case_bool_decide as Hc; (eexists; split; [reflexivity|]); split; unfold client_db, sd_client, unread_of; simpl.
  - rewrite map_app, last_app. simpl. unfold DmStore.of_peer. simpl. rewrite bool_decide_eq_true_2 by done. simpl.
    eexists. split; [done|]. by rewrite bool_decide_eq_true_2.
  - rewrite length_map, length_app, Hdb. simpl. lia.
  - rewrite lookup_alter_eq, lookup_insert_eq. simpl. by rewrite bool_decide_eq_true_2.
  - intros p Hp. rewrite lookup_alter_ne, lookup_insert_ne by done. by rewrite Hdb.
  - rewrite last_app. simpl. eexists. split; [done|]. by rewrite bool_decide_eq_false_2.
  - rewrite length_app, Hdb. simpl. lia.
  - rewrite lookup_alter_eq, lookup_insert_eq, Hdb. simpl. rewrite bool_decide_eq_false_2 by done. by destruct (_ !! sender).
  - intros p Hp. rewrite lookup_alter_ne, lookup_insert_ne by done. by rewrite Hdb.
Qed.

(** C39: A direct message that was sent is received: the client it is
    delivered to stores it once, under the identity of its sender and with its
    text; the conversation counts one unread message more, or none when it is
    open, and the other conversations stay as they are. *)
Theorem dm_delivered now peer body i m s s' r :
  send_dm lx peer body s = (Ok true, s') → lx_source m = Some i →
  (∀ o, sd_outbox s' = sd_outbox s ++ [o] → lx_content m = ob_content o) →
  ∃ r', deliver now m r = (Ok tt, r') ∧ received (identity_hexhash i) body (lx_timestamp m) r r'.
Proof using HPL.
  intros Hs Hsrc Ho. destruct (send_dm_ok _ _ _ _ Hs) as (o & Hout & Hp).
  unfold on_lxmf_delivery, catch. rewrite (Ho o Hout), (unpack_pack _ _ Hp), Hsrc. unfold dm_content, mget. simpl.
  match goal with |- context [_on_dm_received ?a ?b ?c ?d ?e] => destruct (on_dm_received_run a b c d e) as (r' & Hr & Hrec) end.
  exists r'. by rewrite Hr.
Qed.

(** A download stays in the directory of downloads, whatever name the
    node gave the file: unless the user chose a place, the only file that a
    concluded resource may write is one directly in that directory, under a
    plain name. *)
Theorem download_confined is_dir cwd home now resource s :
  ostr_true (sd_pending_media_save_path s) = false →
  (∀ p, is_dir (p ++ [".."]) = true) → is_dir (home ++ [".hokora-client"; "downloads"]) = true →
  let s' := (on_resource_concluded loop decrypt draw lx depth is_dir cwd home now resource s).2 in
  sd_downloads s' = sd_downloads s
  ∨ ∃ name data, resource = Some data ∧ sd_downloads s' = dict_set (home ++ [".hokora-client"; "downloads"; name]) data (sd_downloads s)
    ∧ plain name = true ∧ sd_pending_media_path s' = None.
Proof using.
  intros Hsave Hup Hdir s'. subst s'. destruct resource as [data|]; [|by left].
  unfold on_resource_concluded. rewrite (bind_run_ok get _ s s s) by done.
  assert (∀ m : M Sender unit, m = catch (packet loop decrypt draw lx depth now data) (λ _, ret tt) →
    sd_downloads (m s).2 = sd_downloads s) as H.
  { intros m ->. unfold catch, packet, sd_app_op, lift. by destruct (_on_packet _ _ _ _ _ _ _ _) as [[] ?]. }
  destruct (sd_pending_media_path s) as [p|]; [|left; by apply H].
  destruct (str_true p && _); [|left; by apply H].
  unfold MediaClient._save_media_download, MediaClient.download_path, MediaClient.join. rewrite Hsave.
  assert (str_true (path_name p) = true → is_dir ((home ++ [".hokora-client"; "downloads"]) ++ [path_name p]) = false → plain (path_name p) = true) as Hname.
  { intros Ht Hd. apply path_name_plain; intros Hn; [by rewrite Hn in Ht|by rewrite Hn, Hup in Hd]. }
  destruct (str_true (path_name p)) eqn:Et; [|left; unfold bind, when; by rewrite Hdir].
  match goal with |- context [is_dir ?d] => destruct (is_dir d) eqn:Ed end; [by left|].
  right. exists (path_name p), data. split; [done|].
  unfold bind, when, modify. simpl. rewrite <- app_assoc. simpl. split; [done|]. split; [by apply Hname|done].
Qed.

(** *** What modelling showed *)

(** The events of a batch are handled as packets of a link, whoever sent the
    batch and whether or not its signature was verified. *)
Lemma batch_from_anyone now m b r r' :
  unpackb (lx_content m) = Some (VDict [("type", VStr "batch"); ("events", VList [VBytes b])]) →
  packet loop decrypt draw lx depth now b r = (Ok tt, r') → deliver now m r = (Ok tt, r').
Proof using.
  intros Hu E. unfold on_lxmf_delivery, catch. rewrite Hu. simpl. unfold bind. by rewrite E.
Qed.

(** A download whose first byte looks like that of a packed map, as that of
    every PNG image does, is taken for a packet and is not saved. *)
Lemma png_not_saved is_dir cwd home now data s :
  sd_downloads (on_resource_concluded loop decrypt draw lx depth is_dir cwd home now (Some (0x89 :: data)) s).2 = sd_downloads s.
Proof using.
  unfold on_resource_concluded. rewrite (bind_run_ok get _ s s s) by done.
  assert (∀ m : M Sender unit, m = catch (packet loop decrypt draw lx depth now (0x89 :: data)) (λ _, ret tt) →
    sd_downloads (m s).2 = sd_downloads s) as H.
  { intros m ->. unfold catch, packet, sd_app_op, lift. by destruct (_on_packet _ _ _ _ _ _ _ _) as [[] ?]. }
  destruct (sd_pending_media_path s) as [p|]; [|by apply H].
  assert (str_true p && negb (MediaClient._is_msgpack_payload (0x89 :: data)) = false) as -> by (simpl; by rewrite andb_false_r).
  by apply H.
Qed.
End dms.

(** Entering a reply or an edit does not leave the reaction mode: the text that
    is then entered is sent as a reaction to the first message. *)
Lemma stale_reaction_mode `{Msgpack} lx now li name text h h' s :
  str_true h = true → cb_reaction_hash (sd_compose s) = Some h →
  _handle_input lx now li name text (sd_set_compose (set_reply_mode h') s)
  = compose_typed now li (Some h) (py_take 32 text) (RichMessageClient.send_reaction lx) (sd_set_compose (set_reply_mode h') s).
Proof. intros Hh Hr. unfold _handle_input. rewrite (bind_run_ok get _ _ _ _ eq_refl). simpl. rewrite Hr. simpl. by rewrite Hh. Qed.

(** ** Instances *)

Definition demo_sender : Sender := {|
  sd_app := linked_app; sd_identity := Some [7]; sd_router := true; sd_outbox := []; sd_paths := []; sd_pending_media_path := None;
  sd_pending_media_save_path := None; sd_downloads := []; sd_peer_names := []; sd_conversations := []; sd_current_peer := None;
  sd_compose := {| cb_reply_to := None; cb_edit_hash := None; cb_reaction_hash := None |} |}.
Definition demo_lxmf : Lxmf := {|
  lm_net := far_net true; lm_recall_identity := λ h, Some h; lm_delivery_hash := id; lm_takes := true |}.
Definition live_event : dict string val := [("event", VStr "message"); ("data", VDict (live_msg [("verified", VBool true)]))].
Definition send_pack : Msgpack := table_msgpack
  [VDict (RichMessageClient.message_content "c" [("body", VStr "hi"); ("reply_to", VStr "h")]);
   VDict (RichMessageClient.typed_content MSG_REACTION "h" "+1" "c" None); VDict (MediaClient.media_content "c" "cat.png" [1; 2] None);
   VDict (dm_content "hi" None); VDict [("type", VStr "batch"); ("events", VList [VBytes [5]])]; VDict live_event].
Lemma send_pack_nonempty : MsgpackNonempty send_pack.
Proof. split. intros v b. unfold packb, send_pack, table_msgpack. by destruct (list_find _ _) as [[]|]; intros [= <-]. Qed.

Definition delivered (content : bytes) (source : option bytes) (validated : bool) : LXMessage := {|
  lx_destination_hash := [2]; lx_source_hash := [4]; lx_source := source; lx_signature_validated := validated;
  lx_unverified_reason := None; lx_hash := []; lx_packed := []; lx_signature := None; lx_timestamp := fz 5; lx_content := content |}.

Lemma sent_reaches_channel_witness :
  ∃ s' o, @RichMessageClient._send_typed_lxmf send_pack demo_lxmf (fz 9) (Some [1]) "c" MSG_REACTION "h" "+1" demo_sender = (Ok true, s')
  ∧ sd_outbox s' = [o]
  ∧ @received_as toy_rns key_ed send_pack o "c" MSG_REACTION (Some "+1") (Some "h") None None None.
Proof.
  destruct (@RichMessageClient._send_typed_lxmf send_pack demo_lxmf (fz 9) (Some [1]) "c" MSG_REACTION "h" "+1" demo_sender) as [r s'] eqn:E.
  assert (r = Ok true) as -> by (pose proof (f_equal fst E) as Er; vm_compute in Er; by rewrite Er).
  destruct (@sent_reaches_channel send_pack (table_msgpack_laws _) send_pack_nonempty toy_rns key_ed demo_lxmf (fz 9) (Some [1]) "c" demo_sender s'
    eq_refl) as (_ & H & _).
  destruct (H MSG_REACTION "h" "+1" E) as (o & Ho & Hr). exists s', o. split; [reflexivity|]. split; [exact Ho|exact Hr].
Defined.

Lemma dm_delivered_witness :
  ∃ r', @on_lxmf_delivery toy_json toy_ed send_pack toy_rns key_signing true None (λ _, []) demo_lxmf 3 (fz 9)
          (delivered [3] (Some [8]) true) demo_sender = (Ok tt, r')
  ∧ @received toy_rns key_signing (@identity_hexhash toy_rns [8]) "hi" (fz 5) demo_sender r'.
Proof.
  destruct (@send_dm send_pack demo_lxmf "08" "hi" demo_sender) as [x s'] eqn:E.
  assert (x = Ok true) as -> by (pose proof (f_equal fst E) as Er; vm_compute in Er; by rewrite Er).
  assert (Ho : sd_outbox s' = [{| ob_destination := [8]; ob_content := [3] |}]).
  { change s' with (Ok true : res bool, s').2. rewrite <- E. vm_compute. reflexivity. }
  apply (@dm_delivered toy_json toy_ed send_pack toy_rns key_signing (table_msgpack_laws _) true None (λ _, []) demo_lxmf 3 (fz 9)
    "08" "hi" [8] (delivered [3] (Some [8]) true) demo_sender s' demo_sender); [exact E|reflexivity|].
  intros o. rewrite Ho. intros [= <-]. reflexivity.
Defined.

Lemma download_confined_witness :
  let s := sd_set_pending (Some "../../a/cat.jpg") None demo_sender in
  let is_dir (p : path) := bool_decide (last p = Some "..") || bool_decide (p = ["home"; ".hokora-client"; "downloads"]) in
  let s' := (@on_resource_concluded toy_json toy_ed send_pack true None (λ _, []) demo_lxmf 3 is_dir [] ["home"] (fz 9)
               (Some [0xFF; 0xD8]) s).2 in
  sd_downloads s' = []
  ∨ ∃ name data, Some [0xFF; 0xD8] = Some data ∧ sd_downloads s' = [(["home"; ".hokora-client"; "downloads"; name], data)]
    ∧ plain name = true ∧ sd_pending_media_path s' = None.
Proof.
  intros s is_dir s'.
  apply (@download_confined toy_json toy_ed send_pack true None (λ _, []) demo_lxmf 3 is_dir [] ["home"] (fz 9) (Some [0xFF; 0xD8]) s);
    [reflexivity| |reflexivity].
  intros p. unfold is_dir. by rewrite last_snoc.
Defined.

(** A stranger's batch puts a message marked verified into the cache, in the
    name of a sender who is pinned to a key. *)
Example stranger_message_cached :
  let r := (@on_lxmf_delivery toy_json toy_ed send_pack toy_rns key_signing true None (λ _, []) demo_lxmf 3 (fz 9)
              (delivered [4] None false) demo_sender).2 in
  cm_verified <$> cdb_messages (client_db r) !! "h" = Some true.
Proof. vm_compute. reflexivity. Qed.

(** What could not be sent is not sent later: the text is in the conversation,
    and nothing is queued. *)
Example unsent_dm_not_queued :
  let offline := {| lm_net := far_net true; lm_recall_identity := λ _, None; lm_delivery_hash := id; lm_takes := true |} in
  let s := sd_set_dms id id (λ _, Some "08") demo_sender in
  let (sent, s') := @_send_dm send_pack toy_rns key_signing offline (fz 9) "hi" s in
  sent = Ok false ∧ map dm_body (cdb_dms (client_db s')) = ["hi"] ∧ sd_outbox s' = [].
Proof. vm_compute. by split_and!. Qed.
